(* ===== verification/_CoqProject ===== *)
-Q . S2P
Prelude.v
Hashmap.v
Types.v
Lists.v
Hashtable.v
Heap.v
HeapLists.v
HeapProps.v
AttributeTable.v
Dirnode.v
DirnodeSpec.v
Gcm.v
Crypto.v
BufferLayer.v
CryptoBuf.v
Filenode.v
FileCrypto.v
HardlinkTable.v
DirnodeCodec.v
UserTable.v
Supernode.v
FsOps.v
Metadata.v
Lru.v
Vfs.v
Dentry.v
PathWalk.v
PathSpec.v
PathProps.v
AbacValue.v
AbacRule.v
AttributeSpace.v
SystemFunctions.v
AbacParser.v
AbacSyntax.v
AbacParserProps.v
PolicyStore.v
UserProfile.v
AuditLog.v
Datalog.v
DatalogSound.v
KnowledgeBase.v
Bouncer.v
KbProps.v
BouncerProps.v
Ecalls.v
EcallProps.v
Rename.v
Acl.v
Encode.v
Keys.v
Session.v
SessionProps.v
Runtime.v
RuntimeProps.v
Volume.v
VolumeProps.v
Store.v
Io.v
StoreProps.v
IoProps.v
ObjectAttributes.v
