(* ===== verification/Prelude.v ===== *)
(** * NeXUS: a verification development of an encrypted, shared file system

    NeXUS keeps an encrypted, access-controlled file system on an untrusted
    store.  The trusted half runs in an SGX enclave
    (src/backend_sgx/enclave); the store, the file system front ends and the
    transport are outside it.  This library models the enclave: what it writes
    to the store, what it believes of what comes back, who may do what; and
    the untrusted code that answers it (src/backend_sgx, src/libnexus,
    src/datastore_twolevel), for what holds while that code is left alone.

    ** The program and the files that model it

    From the bytes up.  Paths are relative to src/backend_sgx/enclave unless
    they start with src/.

    Foundations:
    - [Prelude]: machine integers, byte buffers, the cursor reads of parsers,
      codecs, the shared tactics, hints and list lemmas.
    - [Hashmap] (libnexus_trusted/hashmap.c): the intrusive hash map.
    - [Types] (nexus_uuid.c, nexus_mac.c, nexus_fs.h): UUIDs, MACs, flags.
    - [Lists] (list.h, nexus_list.c, nexus_ringbuf.c): linked lists with
      iterators, ring buffers.
    - [Hashtable] (nexus_hashtable.c): the hash table under the caches.
    - [Heap], [HeapLists], [HeapProps] (nexus_heap.c): the allocator of the
      memory shared with the outside.
    - [Encode] (nexus_encode.c): base 64 and hexadecimal strings.

    Sealed objects:
    - [Gcm] (mbedtls/library/gcm.c), [Crypto] (crypto_context.c, crypto.c):
      authenticated encryption.
    - [BufferLayer] (buffer_layer.c): metadata buffers, locks, the ocalls.
    - [CryptoBuf] (crypto_buffer.c, nexus_key_wrapped.c): an object as sealed
      bytes.
    - [Keys] (nexus_key.c and its parts, key_buffer.c, volumekey.c).

    The kinds of metadata:
    - [AttributeTable] (abac/attribute_table.c).
    - [Dirnode] (dirnode.c, bucket.c): directory entries, buckets, the indexes
      and the operations in memory; [DirnodeSpec] proves that they implement a
      directory; [DirnodeCodec] has the serialized form, the store and the load.
    - [Filenode] (filenode.c); [FileCrypto] (file_crypto.c, data_buffer.c): the
      transfer of file data.
    - [HardlinkTable] (hardlink_table.c), [UserTable] (user.c), [Supernode]
      (supernode.c), [Acl] (acl.c).
    - [Metadata] (metadata.c): the life cycle of any of them.

    The file system:
    - [Lru] (nexus_lru.c), [Vfs] (vfs.c): the cache of metadata objects.
    - [Dentry], [PathWalk] (dentry.c, vfs.c): the dentry tree and the walk;
      [PathSpec], [PathProps] relate it to path resolution on directories.
    - [FsOps] (ecalls/dirs.c): the operations on loaded metadata; [Ecalls]
      (ecalls/dirs.c, ecalls/files.c): the entry points around them, with their
      properties in [EcallProps]; [Rename] (ecalls/dirs.c): the one that works
      on two directories.

    Access control (abac):
    - [AbacValue], [AbacRule], [AttributeSpace], [SystemFunctions],
      [PolicyStore], [UserProfile], [AuditLog]: the file of the same name.
    - [AbacParser] (parser_lexer.c), [AbacSyntax] (the grammar it is measured
      against), [AbacParserProps].
    - [Datalog] (datalog-engine), [DatalogSound]; [KnowledgeBase] (db.c),
      [KbProps]; [Bouncer] (bouncer.c), [BouncerProps].
    - [Runtime] (runtime.c, ecalls/abac.c, ecalls/users.c), [RuntimeProps]: the
      global objects and their administration.
    - [ObjectAttributes] (ecalls/abac.c, metadata.c): the attributes of files.

    Volumes:
    - [Session] (ecalls/instance.c, ecalls/volume.c, main.c, vfs.c, crypto.c),
      [SessionProps]: key exchange, challenge and response, mounting.
    - [Volume] (ecalls/volume.c), [VolumeProps]: creation of a volume.

    Outside the enclave:
    - [Store] (src/libnexus/nexus_raw_file.c, src/datastore_twolevel/main.c),
      [StoreProps]: objects as files.
    - [Io] (src/backend_sgx/io.c, buffer_manager.c, main.c), [IoProps]: the
      answers to the ocalls, and batch mode.

    ** How they interact

    An ecall ([Ecalls]) resolves its path ([PathWalk]) over the dentry tree and
    the cache ([Vfs.nexus_vfs_load], [nexus_vfs_revalidate]); the cache calls
    [Metadata.nexus_metadata_load], which opens a crypto buffer ([CryptoBuf]) on
    a buffer of the buffer layer and parses it.  The ecall asks the bouncer,
    which brings the knowledge base in step with the runtime's policy store,
    the user's profile and the object, and queries the Datalog engine.  A
    change marks the object dirty; [nexus_metadata_store] seals and flushes it
    through the ocalls, which [Io] answers from [Store].  Components meet at
    interfaces stated as classes; client theorems are proved against them and
    the implementations discharge them:

    - [Gcm.BlockCipher]: the block function of a key, the GHASH product, and
      that a block has sixteen bytes; [CryptoBuf.KeyWrapCipher]: AES-GCM-SIV
      with its round trip and lengths; [UserTable.PubkeyHash];
      [Keys.SealedStorage], [Keys.PrivateKeys], [Session.CryptoBox],
      [Session.Signatures]: the operations of the SGX SDK, mbedtls and
      TweetNaCl with the laws the code relies on;
    - [Prelude.Codec]: a serialized form that is read back;
    - [Metadata.MetadataOps], [MetadataObject]: what an object kind owes the
      metadata layer (a stored object loads back); instances for filenodes,
      the tables, the supernode, and in [RuntimeProps] for the objects of the
      access control engine;
    - [Vfs.CachedMetadata], [PathWalk.PathMetadata], [Ecalls.EcallMetadata],
      [ObjectAttributes.AttributeMetadata]: what the cache, the walk, the
      ecalls and the attribute calls need of an object of any kind;
    - [Datalog.LuaNumber], [LuaIntegers]: how Lua reads and prints numbers.

    ** Conventions

    - A [w]-bit integer is a [Z] with its wrap-around written out ([wrap],
      [s32]); C strings and buffers are lists of bytes.
    - C pointers to shared heap cells (directory entries, attribute entries,
      LRU nodes, dentries, metadata, list nodes, heap blocks) are addresses
      into an explicit heap; allocation takes a fresh address.
    - The outer [option] of an operation is memory safety: [None] is an
      overrun, a NULL or a freed cell, or a lock that is never obtained; where
      loops may not end, [Fault] and [Spin] are told apart.  The error returns
      of the C code are values of the inner result.
    - Ocalls are returned as a trace in order, and the replies of the store,
      random draws and the clock are arguments.  A theorem about what the
      enclave accepts therefore quantifies over every reply.
    - Outside the enclave, the system calls act on a small model of a POSIX
      file system, with any call failing where a list of faults says so.
    - The files that use nexus_hashtable or nexus_list have finite maps (with
      the iteration order an argument where it shows) and lists; [Hashtable]
      and [Lists] prove that this is what those structures are.

    ** What the theorems show

    - Authenticity and round trips: what opens is what was sealed under the
      same key, UUID, header and IV ([crypto_gcm_decrypt_authentic],
      [crypto_buf_get_authentic], [dirnode_buckets_pinned],
      [file_chunk_verified]); what was stored loads back
      ([crypto_buf_store_load], [dirnode_store_load], [metadata_store_correct],
      [file_chunk_roundtrip]).
    - Refinement to abstract data: the hash structures are finite maps
      ([hashmap_refines_map], [htable_refines_map]), the linked list a list
      ([nexus_list_refines]), the allocator a run of blocks that never overlap
      ([heap_refines_blocks], [allocations_disjoint]), the dirnode a directory
      ([dirnode_add_refines], [dirnode_remove_refines]), the user table a set of accounts
      ([usertable_refines_accounts]), the hardlink table a link count
      ([hardlink_table_counts]), the LRU a list in order of use
      ([lru_refines_cache]).
    - The file system: the cache invariant ([vfs_load_correct]), nested locks
      ([buffer_lock_nesting]), path lookup as resolution on directories
      ([vfs_lookup_resolves]), creation as the addition of one entry that every
      later walk and load sees ([ecall_create_refines]), renaming as its move
      ([ecall_rename_moves_entry]).
    - Access control: an access that is granted has a policy that holds of the
      facts ([access_granted_by_policy], [successful_ecall_has_policy]), a
      denied one changes nothing ([denied_ecall_changes_nothing]), the facts
      are those of the metadata ([refresh_replaces_facts]), the engine is sound
      ([datalog_answers_sound]); the parser returns, its rules are well formed
      and are what the text says ([parse_policy_terminates],
      [parse_policy_wf], [parse_policy_roundtrip]); the log keeps the last
      events ([audit_log_keeps_last]).
    - Administration: a change reaches every enclave of the volume or is rolled
      back ([policy_add_reaches_every_enclave], [policy_bulk_all_or_nothing],
      [user_grant_reaches_every_enclave], [object_grant_correct]).
    - Volumes: a login needs a signature by a user's key ([login_sound]), the
      volume key survives its exchange ([volume_key_exchange]), a created
      volume opens ([created_volume_opens]).
    - Outside: for the requests on metadata objects that its specification has
      a rule for, the I/O layer with batch mode is a map from UUIDs to bytes
      with exclusive locks ([io_refines_store]); the files of filenodes are in a
      section of their own of [IoProps].
    - Behaviours a caller must know of, proved as they are at the end of the
      files concerned: objects of version 0 accepted unverified, chunks past
      [encrypted_length] unchecked, attributes of objects changed without a
      policy, a rename that overruns its parameter or reads through a null
      dentry, an owner turned away for the spelling of his key, a quote believed
      without its signature, updates that batch mode loses, a count of locks that
      overflows, integer conversions on large files, and others.

    ** Bounds and fuel

    - A loop that is not structural runs on fuel, and its theorems prove that
      the fuel suffices: the block loop of GCM, the entry loops of the parsers
      of metadata and the copy loop of the store take the length of what they
      consume (and one more); the rehash and the walk of a hash table the
      number of entries; the loops of linked lists, free lists and bins the
      number of nodes and one more; the bulk ecalls the length of the text and
      one more.
    - The policy parser takes any fuel above the length of the text
      ([parse_policy_terminates]), except for strings left open, on which the
      code does not return.
    - The path walk takes the fuel of the resolution it refines, and ends
      exactly when that does (a link that leads to itself does not); the
      Datalog prover's theorems hold of every answer at every fuel.
    - The bounds in hypotheses are those of the C types: fewer than [2^31]
      bytes in a buffer ([crypto_gcm_encrypt] counts in an [int]), 32-bit
      entry, bucket and user counters, names under [NEXUS_NAME_MAX], at most
      256 cached objects, fewer than [2^31] nested locks; file transfers are
      proved for files of less than 2 GiB, beyond which lengths wrap around.

    ** Not modelled

    - Reading back and printing of audit logs by path, printing and clearing of
      facts and rules, telemetry, logging.
    - The Lua interpreter and the text front end of the Datalog engine.
    - Vendored cryptography (AES, AES-GCM-SIV, SHA, Curve25519): operations of
      classes with the laws the code relies on.
    - The front ends (FUSE, AFS), volume configuration, start-up of the
      enclave, the flat store, file modes and times, set-up of stores: glue
      around calls that are modelled, and under the adversary's control.
    - Spinlocks between enclave threads, except the write lock of a buffer,
      which is part of its state; an ecall is one step under [vfs_ops_lock]. *)
From stdpp Require Export base numbers list gmap.
From Stdlib Require Export ZArith Lia.

#[global] Open Scope Z_scope.

(** ** Machine integers

    A [w]-bit unsigned C integer is a [Z] in [0, 2^w); a store into a field of
    width [w] reduces modulo [2^w].  [size_t] and [uint64_t] are 64 bits wide,
    [int] is a 32-bit two's complement integer. *)
Definition wrap (w : Z) (z : Z) : Z := z mod 2 ^ w.

Declare Scope nexus_scope.
Delimit Scope nexus_scope with nexus.
Abbreviation u8 := (wrap 8).
Abbreviation u16 := (wrap 16).
Abbreviation u32 := (wrap 32).
Abbreviation u64 := (wrap 64).
Notation "a +64 b" := (wrap 64 (a + b)) (at level 50, left associativity) : nexus_scope.
Notation "a -64 b" := (wrap 64 (a - b)) (at level 50, left associativity) : nexus_scope.
#[global] Open Scope nexus_scope.

(** Conversion to a signed 32-bit [int] (two's complement). *)
Definition s32 (z : Z) : Z :=
  let m := z mod 2 ^ 32 in if m <? 2 ^ 31 then m else m - 2 ^ 32.

Lemma s32_small z : - 2 ^ 31 <= z < 2 ^ 31 -> s32 z = z.
Proof.
  intros Hz. unfold s32. destruct (Z.lt_ge_cases z 0).
  - rewrite <- (Z_mod_plus_full z 1), Z.mod_small by lia. rewrite (proj2 (Z.ltb_ge _ _)) by lia. lia.
  - rewrite Z.mod_small by lia. by rewrite (proj2 (Z.ltb_lt _ _)) by lia.
Qed.

Definition in_range (w z : Z) : Prop := 0 <= z < 2 ^ w.
#[global] Hint Unfold in_range : core.

(** Bytes are integers in [0, 256); buffers and C strings are lists of them.
    A C string is represented without its terminating NUL. *)
Abbreviation bytes := (list Z).
Definition byte_ok (b : Z) : Prop := 0 <= b < 256.
Definition cstr_ok (s : bytes) : Prop := Forall (fun c => 1 <= c < 256) s.

Create HintDb nexus discriminated.

Lemma wrap_small w z : in_range w z -> wrap w z = z.
Proof. intros; unfold wrap; apply Z.mod_small; assumption. Qed.

Lemma wrap_range w z : 0 <= w -> in_range w (wrap w z).
Proof. intros; unfold wrap, in_range; apply Z.mod_pos_bound; lia. Qed.

Lemma wrap_wrap w z : 0 <= w -> wrap w (wrap w z) = wrap w z.
Proof. intros; apply wrap_small, wrap_range; done. Qed.

Lemma wrap_add_l w a b : wrap w (wrap w a + b) = wrap w (a + b).
Proof. unfold wrap; apply Zplus_mod_idemp_l. Qed.

Lemma wrap_sub_l w a b : wrap w (wrap w a - b) = wrap w (a - b).
Proof. unfold wrap; apply Zminus_mod_idemp_l. Qed.

(** Undoing a wrapped addition with a wrapped subtraction restores the value,
    whatever the overflow in between. *)
Lemma wrap_add_sub w a b : in_range w a -> wrap w (wrap w (a + b) - b) = a.
Proof. intros. rewrite wrap_sub_l, Z.add_simpl_r. by apply wrap_small. Qed.

#[export] Hint Rewrite wrap_add_l wrap_sub_l : nexus.

(** Closes the side conditions on machine integers that the components meet. *)
Ltac word_solve :=
  try unfold in_range in *; try unfold byte_ok in *;
  repeat match goal with
  | |- context [wrap ?w ?z] => rewrite (wrap_small w z) by (unfold in_range in *; lia)
  end; try lia.

(** ** Little-endian layout of integers (x86-64, packed structs) *)
Fixpoint le_encode (n : nat) (z : Z) : bytes :=
  match n with
  | O => []
  | S n' => z mod 256 :: le_encode n' (z / 256)
  end.

Fixpoint le_decode (bs : bytes) : Z :=
  match bs with
  | [] => 0
  | b :: bs' => b + 256 * le_decode bs'
  end.

Lemma length_le_encode n z : length (le_encode n z) = n.
Proof. revert z; induction n; intros; simpl; auto. Qed.

Lemma le_encode_bytes n z : Forall byte_ok (le_encode n z).
Proof.
  revert z; induction n; intros; simpl; constructor; auto.
  apply Z.mod_pos_bound; lia.
Qed.

Lemma le_decode_encode n z : le_decode (le_encode n z) = z mod 2 ^ (8 * Z.of_nat n).
Proof.
  revert z; induction n as [|n IH]; intros z; cbn [le_encode le_decode].
  - change (2 ^ (8 * Z.of_nat 0)) with 1. by rewrite Z.mod_1_r.
  - rewrite IH. replace (8 * Z.of_nat (S n)) with (8 + 8 * Z.of_nat n) by lia.
    rewrite Z.pow_add_r by lia. change (2 ^ 8) with 256.
    rewrite Z.rem_mul_r by lia. lia.
Qed.

Lemma le_decode_range bs : Forall byte_ok bs -> in_range (8 * Z.of_nat (length bs)) (le_decode bs).
Proof.
  unfold in_range. induction 1 as [|b bs Hb _ IH]; cbn [length le_decode]; [simpl; lia|].
  replace (8 * Z.of_nat (S (length bs))) with (8 + 8 * Z.of_nat (length bs)) by lia.
  rewrite Z.pow_add_r by lia. change (2 ^ 8) with 256. unfold byte_ok in Hb. lia.
Qed.

Lemma le_encode_decode bs : Forall byte_ok bs -> le_encode (length bs) (le_decode bs) = bs.
Proof.
  induction 1 as [|b bs Hb _ IH]; [done|]. cbn [length le_encode le_decode]. unfold byte_ok in Hb.
  rewrite (Z.mul_comm 256), Z.mod_add, Z.mod_small by lia.
  by rewrite Z.div_add, Z.div_small, Z.add_0_l, IH by lia.
Qed.

(** ** Decoders

    A decoder reads a value off the front of a buffer and returns the rest;
    [None] is a read past the end of the buffer (out-of-bounds in C) or a
    rejected header. *)
Definition decoder (A : Type) : Type := bytes -> option (A * bytes).

Definition dec_ret {A} (a : A) : decoder A := fun bs => Some (a, bs).
Definition dec_bind {A B} (d : decoder A) (k : A -> decoder B) : decoder B :=
  fun bs => match d bs with Some (a, rest) => k a rest | None => None end.
Notation "x <~ d ; k" := (dec_bind d (fun x => k))
  (at level 100, d at next level, right associativity) : nexus_scope.

(** [n] raw bytes. *)
Definition dec_bytes (n : nat) : decoder bytes :=
  fun bs => if (n <=? length bs)%nat then Some (take n bs, drop n bs) else None.

Definition dec_uint (n : nat) : decoder Z := b <~ dec_bytes n; dec_ret (le_decode b).

(** [n] consecutive items, as the [for] loops of the parsers read them. *)
Fixpoint dec_list {A} (d : decoder A) (n : nat) : decoder (list A) :=
  match n with
  | O => dec_ret []
  | S n' => x <~ d; xs <~ dec_list d n'; dec_ret (x :: xs)
  end.

(** A type with a serialized form: what is written is read back, and the
    rest of the buffer is left for the next reader. *)
Class Codec (A : Type) := {
  enc : A -> bytes;
  dec : decoder A;
  enc_ok : A -> Prop;
  dec_enc : forall a rest, enc_ok a -> dec (enc a ++ rest) = Some (a, rest)
}.

Lemma dec_bytes_app n bs rest : length bs = n -> dec_bytes n (bs ++ rest) = Some (bs, rest).
Proof.
  intros <-. unfold dec_bytes. rewrite length_app.
  destruct (Nat.leb_spec (length bs) (length bs + length rest)); [|lia].
  by rewrite take_app_length, drop_app_length.
Qed.

Lemma dec_uint_app n z rest :
  in_range (8 * Z.of_nat n) z -> dec_uint n (le_encode n z ++ rest) = Some (z, rest).
Proof.
  intros Hz. unfold dec_uint, dec_bind.
  rewrite dec_bytes_app by apply length_le_encode.
  unfold dec_ret. rewrite le_decode_encode. f_equal. f_equal.
  by apply Z.mod_small.
Qed.

(** What comes back from a field narrower than the value is the truncation. *)
Lemma dec_uint_trunc n z rest :
  dec_uint n (le_encode n z ++ rest) = Some (wrap (8 * Z.of_nat n) z, rest).
Proof.
  unfold dec_uint, dec_bind. rewrite dec_bytes_app by apply length_le_encode.
  unfold dec_ret. by rewrite le_decode_encode.
Qed.

(** A successful read splits the buffer. *)
Lemma dec_bytes_inv n bs x rest : dec_bytes n bs = Some (x, rest) -> bs = x ++ rest /\ length x = n.
Proof.
  unfold dec_bytes. destruct (Nat.leb_spec n (length bs)); [|done]. intros [= <- <-].
  rewrite take_drop, length_take. split; [done|lia].
Qed.

Lemma dec_uint_inv n bs z rest :
  Forall byte_ok bs -> dec_uint n bs = Some (z, rest) -> bs = le_encode n z ++ rest.
Proof.
  intros Hb. unfold dec_uint, dec_bind. destruct (dec_bytes n bs) as [[x r]|] eqn:E; [|done].
  intros [= <- <-]. apply dec_bytes_inv in E as [-> Hl].
  apply Forall_app in Hb as [Hx _]. by rewrite <- Hl, le_encode_decode.
Qed.

Section dec_list.
Context `{Codec A}.

Lemma dec_list_app (xs : list A) rest :
  Forall enc_ok xs ->
  dec_list dec (length xs) (concat (enc <$> xs) ++ rest) = Some (xs, rest).
Proof.
  induction 1 as [|x xs Hx _ IH]; [done|].
  cbn [length dec_list fmap list_fmap concat]. rewrite <- app_assoc.
  unfold dec_bind at 1. rewrite dec_enc by done.
  unfold dec_bind at 1. by rewrite IH.
Qed.
End dec_list.

(** Runs one step of a decoder on an encoded prefix. *)
Ltac dec_step :=
  unfold dec_bind at 1;
  first [ rewrite dec_uint_app by (unfold in_range in *; simpl; lia)
        | rewrite dec_bytes_app by (simpl; auto; lia) ].

(** ** Outcomes
    Code that loops runs on fuel: [Spin] is a loop that has not ended, [Fault]
    an access the C code may not make. *)
Inductive outcome (A : Type) := Done (x : A) | Fault | Spin.
Arguments Done {A} x.
Arguments Fault {A}.
Arguments Spin {A}.

Definition obind {A B} (f : A -> outcome B) (o : outcome A) : outcome B :=
  match o with Done x => f x | Fault => Fault | Spin => Spin end.
Definition lift {A} (o : option A) : outcome A := match o with Some x => Done x | None => Fault end.

Notation "x <- y ;; z" := (obind (fun x => z) y)
  (at level 20, y at level 99, z at level 200, only parsing) : nexus_scope.
Notation "' x <- y ;; z" := (obind (fun x => z) y)
  (at level 20, x pattern, y at level 99, z at level 200, only parsing) : nexus_scope.

(** ** [memcmp], [strncmp] and [strnlen] *)
Fixpoint memcmp (a b : bytes) : Z :=
  match a, b with
  | x :: a', y :: b' => if x =? y then memcmp a' b' else x - y
  | _, _ => 0
  end.

Lemma memcmp_eq a b : length a = length b -> memcmp a b = 0 <-> a = b.
Proof.
  revert b; induction a as [|x a IH]; intros [|y b] Hl; simpl in *; try lia; [done|].
  destruct (Z.eqb_spec x y) as [->|Hne].
  - rewrite IH by lia. split; congruence.
  - split; intros; [lia|congruence].
Qed.

(** [strncmp a b n] on NUL-free strings, with the terminator compared too. *)
Fixpoint strncmp (a b : bytes) (n : nat) : Z :=
  match n, a, b with
  | O, _, _ => 0
  | _, [], [] => 0
  | _, x :: _, [] => x
  | _, [], y :: _ => - y
  | S n', x :: a', y :: b' => if x =? y then strncmp a' b' n' else x - y
  end.

Lemma strncmp_eq a b n :
  cstr_ok a -> cstr_ok b -> (length a < n)%nat -> (length b < n)%nat ->
  strncmp a b n = 0 <-> a = b.
Proof.
  revert b n; induction a as [|x a IH]; intros [|y b] [|n] Ha Hb La Lb; simpl in *; try lia;
    try (split; [|discriminate]).
  - done.
  - apply Forall_cons in Hb as [? _]. lia.
  - apply Forall_cons in Ha as [? _]. lia.
  - apply Forall_cons in Ha as [? Ha]. apply Forall_cons in Hb as [? Hb].
    destruct (Z.eqb_spec x y) as [->|Hne].
    + rewrite IH by (done || lia). split; congruence.
    + split; intros; [lia|congruence].
Qed.

(** In general only the first [n] characters count. *)
Lemma strncmp_take a b n :
  cstr_ok a -> cstr_ok b -> strncmp a b n = 0 <-> take n a = take n b.
Proof.
  revert b n; induction a as [|x a IH]; intros [|y b] [|n] Ha Hb; simpl; try done.
  - apply Forall_cons in Hb as [? _]. split; [lia|discriminate].
  - apply Forall_cons in Ha as [? _]. split; [lia|discriminate].
  - apply Forall_cons in Ha as [? Ha], Hb as [? Hb]. destruct (Z.eqb_spec x y) as [->|Hne].
    + rewrite IH by done. split; congruence.
    + split; intros; [lia|congruence].
Qed.

Definition strnlen (s : bytes) (n : nat) : nat := Nat.min (length s) n.

(** ** Lists used as C linked lists *)
(** [list_del] of the first node equal to [x]. *)
Fixpoint remove_first `{EqDecision A} (x : A) (l : list A) : list A :=
  match l with
  | [] => []
  | y :: l' => if decide (x = y) then l' else y :: remove_first x l'
  end.

Section remove_first.
Context `{EqDecision A}.
Implicit Types (x y : A) (l : list A).

Lemma remove_first_not_in x l : x ∉ l -> remove_first x l = l.
Proof.
  induction l as [|y l IH]; simpl; intros Hn; [done|].
  apply not_elem_of_cons in Hn as [Hne Hn]. rewrite decide_False by done. by rewrite IH.
Qed.

Lemma remove_first_perm x l : x ∈ l -> l ≡ₚ x :: remove_first x l.
Proof.
  induction l as [|y l IH]; simpl; intros Hin; [by apply not_elem_of_nil in Hin|].
  destruct (decide (x = y)) as [->|Hne]; [done|].
  apply elem_of_cons in Hin as [->|Hin]; [done|].
  rewrite (IH Hin) at 1. apply Permutation_swap.
Qed.

Lemma remove_first_sub x l y : y ∈ remove_first x l -> y ∈ l.
Proof.
  induction l as [|z l IH]; simpl; [done|].
  destruct (decide (x = z)) as [->|]; [by right|].
  intros [->|?]%elem_of_cons; [left|right; auto].
Qed.

Lemma NoDup_remove_first x l : NoDup l -> NoDup (remove_first x l).
Proof.
  induction 1 as [|y l Hn Hd IH]; simpl; [constructor|].
  destruct (decide (x = y)) as [->|]; [done|].
  constructor; [|done]. intros ?%remove_first_sub. done.
Qed.

Lemma elem_of_remove_first x l y :
  NoDup l -> y ∈ remove_first x l <-> y ∈ l /\ y <> x.
Proof.
  induction 1 as [|z l Hn Hd IH]; simpl.
  { split; [by intros ?%not_elem_of_nil|]. by intros [?%not_elem_of_nil _]. }
  destruct (decide (x = z)) as [->|Hne].
  - rewrite elem_of_cons. split; [|naive_solver].
    intros Hy. split; [by right|]. by intros ->.
  - rewrite !elem_of_cons, IH. naive_solver.
Qed.
End remove_first.

(** Replacing one row of a table, up to the order of the flattened rows. *)
Lemma concat_lookup_perm {A} (t : list (list A)) i c :
  t !! i = Some c -> concat t ≡ₚ c ++ concat (delete i t).
Proof.
  revert i; induction t as [|r t IH]; intros [|i] Hi; simpl in *; simplify_eq; [done|].
  rewrite (IH i) by done. by rewrite !app_assoc, (Permutation_app_comm r c).
Qed.

Lemma concat_insert_perm {A} (t : list (list A)) i c c' :
  t !! i = Some c -> concat (<[i := c']> t) ≡ₚ c' ++ concat (delete i t).
Proof.
  revert i; induction t as [|r t IH]; intros [|i] Hi; simpl in *; simplify_eq; [done|].
  rewrite (IH i) by done. by rewrite !app_assoc, (Permutation_app_comm r c').
Qed.

Lemma elem_of_concat_lookup {A} (t : list (list A)) x :
  x ∈ concat t <-> exists i c, t !! i = Some c /\ x ∈ c.
Proof.
  rewrite list_elem_of_In, in_concat. setoid_rewrite <- list_elem_of_In.
  split.
  - intros (c & Hc & Hx). apply list_elem_of_lookup in Hc as [i Hi]. eauto.
  - intros (i & c & Hi & Hx). exists c. split; [|done]. by eapply list_elem_of_lookup_2.
Qed.

Lemma filter_all {A} (P : A -> Prop) `{!forall x, Decision (P x)} (l : list A) :
  Forall P l -> filter P l = l.
Proof. induction 1 as [|x l Hx _ IH]; [done|]. by rewrite filter_cons_True, IH. Qed.

Lemma filter_none {A} (P : A -> Prop) `{!forall x, Decision (P x)} (l : list A) :
  Forall (fun x => ~ P x) l -> filter P l = [].
Proof. induction 1 as [|x l Hx _ IH]; [done|]. by rewrite filter_cons_False, IH. Qed.

Lemma NoDup_fmap_elem {A B} (f : A -> B) (l : list A) x y :
  NoDup (f <$> l) -> x ∈ l -> y ∈ l -> f x = f y -> x = y.
Proof.
  intros Hnd [i Hi]%list_elem_of_lookup [j Hj]%list_elem_of_lookup Hf.
  assert (i = j) as ->; [|congruence].
  eapply NoDup_lookup; [exact Hnd| |]; rewrite list_lookup_fmap; [by rewrite Hi|by rewrite Hj, Hf].
Qed.

Lemma Forall_sublist {A} (P : A -> Prop) (k l : list A) :
  k `sublist_of` l -> Forall P l -> Forall P k.
Proof. induction 1; intros Hf; [done|constructor|]; apply Forall_cons in Hf as [? ?]; auto. Qed.

Arguments le_encode : simpl never.
Arguments le_decode : simpl never.
Arguments dec_bytes : simpl never.
Arguments dec_uint : simpl never.
Arguments wrap : simpl never.
