(* ===== verification/Hashmap.v ===== *)
(** * The chained hash map of the dirnode index

    Models [libnexus_trusted/hashmap.c]: the FNV hashes, the table with its
    grow and shrink thresholds, lookup, insertion, removal by key and by
    address, and the iterator order.  An intrusive [hashmap_entry] is its
    address, its hash and the key the comparison function reaches from it; a
    bucket's [next] chain is a list.  The theorems show that the table
    represents a finite map from keys to addresses, whatever resizing
    happened, and that its load stays under the threshold. *)
From S2P Require Import Prelude.

(** ** FNV hashes *)
Definition FNV32_BASE : Z := 0x811c9dc5.
Definition FNV32_PRIME : Z := 0x01000193.

(** [hash = (hash * FNV32_PRIME) ^ c] on [unsigned int]. *)
Definition fnv_step (hash c : Z) : Z := Z.lxor (u32 (hash * FNV32_PRIME)) c.

Definition strhash (str : bytes) : Z := fold_left fnv_step str FNV32_BASE.
Definition memhash (buf : bytes) : Z := fold_left fnv_step buf FNV32_BASE.

(** [if (c >= 'a' && c <= 'z') c -= 'a' - 'A'] *)
Definition upcase (c : Z) : Z := if (97 <=? c) && (c <=? 122) then c - 32 else c.
Definition strihash (str : bytes) : Z := fold_left (fun h c => fnv_step h (upcase c)) str FNV32_BASE.
Definition memihash_cont (hash_seed : Z) (buf : bytes) : Z :=
  fold_left (fun h c => fnv_step h (upcase c)) buf hash_seed.
Definition memihash (buf : bytes) : Z := memihash_cont FNV32_BASE buf.

Definition HASHMAP_INITIAL_SIZE : Z := 64.
Definition HASHMAP_RESIZE_BITS : Z := 2.
Definition HASHMAP_LOAD_FACTOR : Z := 80.

Record hashmap_entry (K : Type) := mk_entry { he_addr : Z; he_hash : Z; he_key : K }.
Arguments mk_entry {K}.
Arguments he_addr {K}.
Arguments he_hash {K}.
Arguments he_key {K}.

Record hashmap (K : Type) := mk_hashmap {
  table : list (list (hashmap_entry K));
  private_size : Z;
  tablesize : Z;
  grow_at : Z;
  shrink_at : Z;
  do_count_items : bool
}.
Arguments mk_hashmap {K}.
Arguments table {K}.
Arguments private_size {K}.
Arguments tablesize {K}.
Arguments grow_at {K}.
Arguments shrink_at {K}.
Arguments do_count_items {K}.

#[export] Instance hashmap_entry_eq_dec `{EqDecision K} : EqDecision (hashmap_entry K).
Proof. solve_decision. Defined.

Section hashmap_ops.
Context {K : Type} (cmpfn : K -> K -> Z).
Notation entry := (hashmap_entry K).
Notation map := (hashmap K).

Definition alloc_table (m : map) (size : Z) : map :=
  let grow := u32 (size * HASHMAP_LOAD_FACTOR / 100) in
  {| table := replicate (Z.to_nat size) [];
     private_size := private_size m;
     tablesize := size;
     grow_at := grow;
     shrink_at := if size <=? HASHMAP_INITIAL_SIZE then 0
                  else grow / (2 ^ HASHMAP_RESIZE_BITS + 1);
     do_count_items := do_count_items m |}.

Definition entry_equals (e1 e2 : entry) : bool :=
  (he_addr e1 =? he_addr e2) ||
  ((he_hash e1 =? he_hash e2) && (cmpfn (he_key e1) (he_key e2) =? 0)).

Definition bucket (tsize hash : Z) : nat := Z.to_nat (Z.land hash (u32 (tsize - 1))).

(** The chain hanging off slot [b]. *)
Definition chain (t : list (list entry)) (b : nat) : list entry := default [] (t !! b).

(** [e->next = map->table[b]; map->table[b] = e] *)
Definition push (tsize : Z) (t : list (list entry)) (e : entry) : list (list entry) :=
  let b := bucket tsize (he_hash e) in <[b := e :: chain t b]> t.

(** Slots in index order, each chain from its head. *)
Definition rehash (m : map) (newsize : Z) : map :=
  let m' := alloc_table m newsize in
  {| table := fold_left (push newsize) (concat (table m)) (table m');
     private_size := private_size m'; tablesize := tablesize m';
     grow_at := grow_at m'; shrink_at := shrink_at m';
     do_count_items := do_count_items m' |}.

Definition with_table (m : map) (t : list (list entry)) (size : Z) : map :=
  {| table := t; private_size := size; tablesize := tablesize m;
     grow_at := grow_at m; shrink_at := shrink_at m; do_count_items := do_count_items m |}.

(** The slot's position of the first entry equal to [key]: [None] is the
    terminating NULL pointer of the chain. *)
Definition find_entry_ptr (m : map) (key : entry) : option (nat * entry) :=
  list_find (fun e => Is_true (entry_equals e key))
    (chain (table m) (bucket (tablesize m) (he_hash key))).

(** [__find_entry_ptr]: the entry itself, by address. *)
Definition find_entry_addr (m : map) (key : entry) : option (nat * entry) :=
  list_find (fun e => Is_true (he_addr e =? he_addr key))
    (chain (table m) (bucket (tablesize m) (he_hash key))).

(** [while (initial_size > size) size <<= HASHMAP_RESIZE_BITS], [fuel] iterations. *)
Fixpoint initial_table_size (fuel : nat) (initial_size size : Z) : Z :=
  match fuel with
  | O => size
  | S f => if size <? initial_size
           then initial_table_size f initial_size (u32 (size * 2 ^ HASHMAP_RESIZE_BITS))
           else size
  end.

(** 14 doublings of two bits take 64 past any [unsigned int] a table can be
    asked for (below 2^30). *)
Definition hashmap_init (initial_size : Z) : map :=
  let initial := u32 (u64 (initial_size * 100) / HASHMAP_LOAD_FACTOR) in
  alloc_table {| table := []; private_size := 0; tablesize := 0; grow_at := 0;
                 shrink_at := 0; do_count_items := true |}
              (initial_table_size 14 initial HASHMAP_INITIAL_SIZE).

Definition hashmap_get (m : map) (key : entry) : option entry :=
  snd <$> find_entry_ptr m key.

Definition hashmap_add (m : map) (e : entry) : map :=
  let t := push (tablesize m) (table m) e in
  if do_count_items m then
    let m' := with_table m t (u32 (private_size m + 1)) in
    if grow_at m' <? private_size m' then rehash m' (u32 (tablesize m' * 2 ^ HASHMAP_RESIZE_BITS))
    else m'
  else with_table m t (private_size m).

(** Unlinks position [i] of the chain of slot [b]. *)
Definition do_remove (m : map) (b i : nat) : map :=
  let t := <[b := delete i (chain (table m) b)]> (table m) in
  if do_count_items m then
    let m' := with_table m t (u32 (private_size m - 1)) in
    if private_size m' <? shrink_at m' then rehash m' (tablesize m' / 2 ^ HASHMAP_RESIZE_BITS)
    else m'
  else with_table m t (private_size m).

Definition hashmap_remove_at (m : map) (key : entry) (pos : option (nat * entry))
    : map * option entry :=
  match pos with
  | None => (m, None)
  | Some (i, old) => (do_remove m (bucket (tablesize m) (he_hash key)) i, Some old)
  end.

Definition hashmap_remove_entry (m : map) (e : entry) : map * option entry :=
  hashmap_remove_at m e (find_entry_addr m e).

Definition hashmap_remove (m : map) (key : entry) : map * option entry :=
  hashmap_remove_at m key (find_entry_ptr m key).

Definition hashmap_put (m : map) (e : entry) : map * option entry :=
  let '(m', old) := hashmap_remove m e in (hashmap_add m' e, old).

(** The order in which [hashmap_iter_next] yields the entries. *)
Definition hashmap_iter (m : map) : list entry := concat (table m).
End hashmap_ops.

(** ** Table invariant and representation *)
Section hashmap_wf.
Context {K : Type}.
Notation entry := (hashmap_entry K).
Notation map := (hashmap K).

(** A slot for every index and every entry in the slot of its hash. *)
Record table_ok (tsize : Z) (t : list (list entry)) : Prop := {
  tok_len : length t = Z.to_nat tsize;
  tok_slot : forall i c e, t !! i = Some c -> e ∈ c -> bucket tsize (he_hash e) = i
}.

Record hm_wf (m : map) : Prop := {
  hw_pow : exists k, tablesize m = 2 ^ k /\ 6 <= k <= 30 /\ k mod 2 = 0;
  hw_table : table_ok (tablesize m) (table m);
  hw_size : private_size m = Z.of_nat (length (hashmap_iter m));
  hw_grow : grow_at m = tablesize m * 80 / 100;
  hw_shrink : shrink_at m = if tablesize m <=? 64 then 0 else grow_at m / 5;
  hw_count : do_count_items m = true;
  hw_load : private_size m <= grow_at m
}.

Lemma bucket_lt k hash : 0 <= k <= 31 -> (bucket (2 ^ k) hash < Z.to_nat (2 ^ k))%nat.
Proof.
  intros Hk. unfold bucket.
  assert (0 < 2 ^ k <= 2 ^ 31) by (split; [lia|apply Z.pow_le_mono_r; lia]).
  rewrite wrap_small by (unfold in_range; lia).
  replace (2 ^ k - 1) with (Z.ones k) by (rewrite Z.ones_equiv; lia).
  rewrite Z.land_ones by lia.
  pose proof (Z.mod_pos_bound hash (2 ^ k)). lia.
Qed.

Section table.
Context (k : Z) (Hk : 0 <= k <= 31) (t : list (list entry)) (Ht : table_ok (2 ^ k) t).

Lemma chain_lookup hash :
  t !! bucket (2 ^ k) hash = Some (chain t (bucket (2 ^ k) hash)).
Proof.
  unfold chain. destruct (t !! bucket (2 ^ k) hash) eqn:E; [done|].
  apply lookup_ge_None in E. rewrite (tok_len _ _ Ht) in E.
  pose proof (bucket_lt k hash Hk). lia.
Qed.

(** An entry is in the table exactly when it is in the chain of its hash. *)
Lemma elem_of_chain e :
  e ∈ chain t (bucket (2 ^ k) (he_hash e)) <-> e ∈ concat t.
Proof.
  rewrite elem_of_concat_lookup. split.
  - intros He. eexists _, _. split; [apply chain_lookup|done].
  - intros (i & c & Hi & He). unfold chain.
    rewrite (tok_slot _ _ Ht i c e Hi He), Hi. done.
Qed.

Lemma push_ok e : table_ok (2 ^ k) (push (2 ^ k) t e).
Proof.
  unfold push. split; [rewrite length_insert; apply Ht|].
  intros i c e' Hi He'. destruct (decide (i = bucket (2 ^ k) (he_hash e))) as [->|Hne].
  - rewrite list_lookup_insert_eq in Hi by (eapply lookup_lt_Some, chain_lookup).
    simplify_eq. apply elem_of_cons in He' as [->|He']; [done|].
    eapply (tok_slot _ _ Ht); [apply chain_lookup|done].
  - rewrite list_lookup_insert_ne in Hi by done. by eapply (tok_slot _ _ Ht).
Qed.

Lemma push_perm e : concat (push (2 ^ k) t e) ≡ₚ e :: concat t.
Proof.
  unfold push. rewrite (concat_insert_perm t _ _ _ (chain_lookup _)).
  rewrite (concat_lookup_perm t _ _ (chain_lookup (he_hash e))). done.
Qed.

Lemma unlink_ok hash i :
  table_ok (2 ^ k) (<[bucket (2 ^ k) hash := delete i (chain t (bucket (2 ^ k) hash))]> t).
Proof.
  split; [rewrite length_insert; apply Ht|].
  intros j c e Hj He. destruct (decide (j = bucket (2 ^ k) hash)) as [->|Hne].
  - rewrite list_lookup_insert_eq in Hj by (eapply lookup_lt_Some, chain_lookup).
    simplify_eq. eapply (tok_slot _ _ Ht); [apply chain_lookup|].
    apply list_elem_of_In in He. rewrite list_elem_of_In.
    rewrite delete_take_drop in He. apply in_app_iff in He as [He|He].
    + rewrite <- (take_drop i (chain t _)). apply in_app_iff. by left.
    + rewrite <- (take_drop (S i) (chain t _)). apply in_app_iff. by right.
  - rewrite list_lookup_insert_ne in Hj by done. by eapply (tok_slot _ _ Ht).
Qed.

Lemma unlink_perm hash i e :
  chain t (bucket (2 ^ k) hash) !! i = Some e ->
  concat t ≡ₚ e :: concat (<[bucket (2 ^ k) hash := delete i (chain t (bucket (2 ^ k) hash))]> t).
Proof.
  intros He. rewrite (concat_insert_perm t _ _ _ (chain_lookup hash)).
  rewrite (concat_lookup_perm t _ _ (chain_lookup hash)).
  rewrite (delete_Permutation _ _ _ He) at 1. done.
Qed.
End table.

Lemma empty_table_ok (size : Z) : table_ok size (replicate (Z.to_nat size) ([] : list entry)).
Proof.
  split; [by rewrite length_replicate|].
  intros i c e Hi He. apply lookup_replicate in Hi as [-> _]. by apply not_elem_of_nil in He.
Qed.

Lemma concat_replicate_nil n : concat (replicate n ([] : list entry)) = [].
Proof. induction n; simpl; auto. Qed.

(** Moving every entry into a new table keeps exactly the same entries. *)
Lemma push_all k (Hk : 0 <= k <= 31) es t :
  table_ok (2 ^ k) t ->
  table_ok (2 ^ k) (fold_left (push (2 ^ k)) es t) /\
  concat (fold_left (push (2 ^ k)) es t) ≡ₚ es ++ concat t.
Proof.
  revert t; induction es as [|e es IH]; intros t Ht; simpl; [done|].
  destruct (IH _ (push_ok k Hk t Ht e)) as [Hok Hperm]. split; [done|].
  rewrite Hperm, (push_perm k Hk t Ht e). by rewrite Permutation_middle.
Qed.

Lemma rehash_spec (m : map) k :
  0 <= k <= 31 ->
  table_ok (2 ^ k) (table (rehash m (2 ^ k))) /\
  hashmap_iter (rehash m (2 ^ k)) ≡ₚ hashmap_iter m.
Proof.
  intros Hk. destruct (push_all k Hk (concat (table m)) _ (empty_table_ok (2 ^ k))) as [H1 H2].
  split; [exact H1|]. unfold hashmap_iter. simpl. rewrite H2.
  rewrite concat_replicate_nil, app_nil_r. done.
Qed.
End hashmap_wf.

Section hashmap_inv.
Context {K : Type}.
Notation entry := (hashmap_entry K).
Notation map := (hashmap K).
Implicit Types (m : map) (e : entry).

Lemma pow2_bounds k : 6 <= k <= 30 -> 64 <= 2 ^ k <= 2 ^ 30.
Proof.
  intros. change 64 with (2 ^ 6). split; apply Z.pow_le_mono_r; lia.
Qed.

Lemma grow_at_alloc m k :
  6 <= k <= 30 -> grow_at (alloc_table m (2 ^ k)) = 2 ^ k * 80 / 100.
Proof.
  intros Hk. simpl. apply wrap_small. unfold HASHMAP_LOAD_FACTOR, in_range.
  pose proof (pow2_bounds k Hk). split; [apply Z.div_pos; lia|].
  apply Z.div_lt_upper_bound; lia.
Qed.

(** What [rehash] must establish: only the load of the new table matters. *)
Lemma rehash_wf m k :
  6 <= k <= 30 -> k mod 2 = 0 -> do_count_items m = true ->
  private_size m = Z.of_nat (length (hashmap_iter m)) ->
  private_size m <= 2 ^ k * 80 / 100 ->
  hm_wf (rehash m (2 ^ k)).
Proof.
  intros Hk Hev Hc Hs Hl. destruct (rehash_spec m k) as [Hok Hperm]; [lia|].
  pose proof (grow_at_alloc m k Hk) as Hg. split.
  - by exists k.
  - exact Hok.
  - by rewrite Hperm.
  - exact Hg.
  - simpl in *. by rewrite Hg.
  - done.
  - simpl in *. by rewrite Hg.
Qed.

Lemma initial_table_size_pow fuel initial k :
  6 <= k <= 30 -> k mod 2 = 0 -> initial <= 2 ^ 30 ->
  exists k', initial_table_size fuel initial (2 ^ k) = 2 ^ k' /\ 6 <= k' <= 30 /\ k' mod 2 = 0.
Proof.
  revert k; induction fuel as [|f IH]; intros k Hk Hev Hi; simpl; [by exists k|].
  destruct (Z.ltb_spec (2 ^ k) initial) as [Hlt|]; [|by exists k].
  assert (k < 30) by (apply (Z.pow_lt_mono_r_iff 2); lia).
  replace (2 ^ k * 2 ^ HASHMAP_RESIZE_BITS) with (2 ^ (k + 2))
    by (rewrite Z.pow_add_r by lia; done).
  assert (2 ^ (k + 2) <= 2 ^ 31) by (apply Z.pow_le_mono_r; lia).
  rewrite wrap_small by (unfold in_range; lia).
  pose proof (Z.div_mod k 2). apply IH; [lia|by rewrite Z.add_mod, Hev by lia|done].
Qed.

Lemma hashmap_init_wf initial_size :
  0 <= initial_size <= 2 ^ 29 ->
  hm_wf (hashmap_init (K := K) initial_size) /\ hashmap_iter (hashmap_init (K := K) initial_size) = [].
Proof.
  intros Hi. unfold hashmap_init.
  assert (Hu : u64 (initial_size * 100) = initial_size * 100).
  { apply wrap_small; unfold in_range; lia. }
  rewrite Hu. unfold HASHMAP_LOAD_FACTOR.
  assert (Hd : 0 <= initial_size * 100 / 80 < 2 ^ 30).
  { split; [apply Z.div_pos; lia|apply Z.div_lt_upper_bound; lia]. }
  rewrite (wrap_small 32) by (unfold in_range; lia).
  change HASHMAP_INITIAL_SIZE with (2 ^ 6).
  destruct (initial_table_size_pow 14 (initial_size * 100 / 80) 6) as (k & -> & Hk & Hev); [lia|done|lia|].
  assert (Hnil : hashmap_iter (alloc_table (K := K)
    {| table := []; private_size := 0; tablesize := 0; grow_at := 0;
       shrink_at := 0; do_count_items := true |} (2 ^ k)) = []).
  { unfold hashmap_iter. simpl. apply concat_replicate_nil. }
  split; [|done].
  pose proof (grow_at_alloc {| table := []; private_size := 0; tablesize := 0; grow_at := 0;
       shrink_at := 0; do_count_items := true |} k Hk) as Hg.
  split.
  - by exists k.
  - apply empty_table_ok.
  - by rewrite Hnil.
  - exact Hg.
  - simpl in *. by rewrite Hg.
  - done.
  - rewrite Hg. simpl. pose proof (pow2_bounds k Hk). apply Z.div_pos; lia.
Qed.

(** Insertion adds exactly the new entry and keeps the invariant, through a
    possible enlargement. *)
Lemma hashmap_add_wf m e :
  hm_wf m -> private_size m < 2 ^ 29 ->
  hm_wf (hashmap_add m e) /\ hashmap_iter (hashmap_add m e) ≡ₚ e :: hashmap_iter m.
Proof.
  intros [(k & Htk & Hk & Hev) Ht Hs Hg Hsh Hc Hl] Hb. unfold hashmap_add. rewrite Hc.
  rewrite Htk in *. pose proof (pow2_bounds k Hk) as Hp.
  pose proof (push_ok k ltac:(lia) _ Ht e) as Hok.
  pose proof (push_perm k ltac:(lia) _ Ht e) as Hpm.
  assert (Hsz : u32 (private_size m + 1) = private_size m + 1) by word_solve.
  set (m' := with_table m (push (2 ^ k) (table m) e) (u32 (private_size m + 1))).
  assert (Hlen : private_size m' = Z.of_nat (length (hashmap_iter m'))).
  { subst m'. unfold hashmap_iter. simpl. rewrite Hpm, Hsz, Hs. simpl. unfold hashmap_iter. lia. }
  assert (Htm : tablesize m' = 2 ^ k) by done. rewrite Htm.
  destruct (Z.ltb_spec (grow_at m') (private_size m')) as [Hlt|Hge].
  - assert (Hk28 : k <= 28).
    { destruct (decide (k = 30)) as [->|]; [exfalso|].
      - simpl in Hlt. rewrite Hg in Hlt. change (2 ^ 30 * 80 / 100) with 858993459 in *. simpl in Hlt. lia.
      - pose proof (Z.div_mod k 2). lia. }
    replace (2 ^ k * 2 ^ HASHMAP_RESIZE_BITS) with (2 ^ (k + 2))
      by (rewrite Z.pow_add_r by lia; done).
    assert (2 ^ (k + 2) <= 2 ^ 31) by (apply Z.pow_le_mono_r; lia).
    rewrite (wrap_small 32 (2 ^ (k + 2))) by (unfold in_range; lia).
    destruct (rehash_spec m' (k + 2)) as [_ Hr]; [lia|]. split.
    + apply rehash_wf; [lia|by rewrite Z.add_mod, Hev by lia|done|done|]. simpl. rewrite Hsz.
      rewrite Z.pow_add_r by lia. change (2 ^ 2) with 4.
      rewrite Hg in Hl.
      apply Z.div_le_lower_bound; [lia|].
      pose proof (Z.mul_div_le (2 ^ k * 80) 100). lia.
    + rewrite Hr. exact Hpm.
  - split; [|exact Hpm]. split; simpl in *; rewrite ?Htk; try done; first [by exists k|lia].
Qed.

(** Unlinking position [i] of a chain removes exactly that entry. *)
Lemma do_remove_wf m hash i e :
  hm_wf m -> chain (table m) (bucket (tablesize m) hash) !! i = Some e ->
  hm_wf (do_remove m (bucket (tablesize m) hash) i) /\
  hashmap_iter m ≡ₚ e :: hashmap_iter (do_remove m (bucket (tablesize m) hash) i).
Proof.
  intros [(k & Htk & Hk & Hev) Ht Hs Hg Hsh Hc Hl] He. unfold do_remove. rewrite Hc.
  rewrite Htk in *. pose proof (pow2_bounds k Hk) as Hp.
  pose proof (unlink_ok k ltac:(lia) _ Ht hash i) as Hok.
  pose proof (unlink_perm k ltac:(lia) _ Ht hash i e He) as Hpm.
  assert (Hpos : 1 <= private_size m < 2 ^ 31).
  { split.
    - rewrite Hs. unfold hashmap_iter. rewrite Hpm. simpl. lia.
    - rewrite Hg in Hl. pose proof (Z.mul_div_le (2 ^ k * 80) 100). lia. }
  assert (Hsz : u32 (private_size m - 1) = private_size m - 1) by word_solve.
  match goal with |- context [with_table m ?t ?s] => set (m' := with_table m t s) end.
  assert (Hlen : private_size m' = Z.of_nat (length (hashmap_iter m'))).
  { subst m'. unfold hashmap_iter in *. simpl. rewrite Hsz, Hs, Hpm. simpl. lia. }
  assert (Htm : tablesize m' = 2 ^ k) by done. rewrite Htm.
  destruct (Z.ltb_spec (private_size m') (shrink_at m')) as [Hlt|Hge].
  - simpl in Hlt. rewrite Hsh in Hlt.
    destruct (Z.leb_spec (2 ^ k) 64) as [|H64]; [lia|].
    assert (Hk8 : 8 <= k).
    { destruct (decide (k = 6)) as [->|]; [lia|]. pose proof (Z.div_mod k 2). lia. }
    replace (2 ^ k / 2 ^ HASHMAP_RESIZE_BITS) with (2 ^ (k - 2)).
    2:{ rewrite Z.pow_sub_r by lia. done. }
    destruct (rehash_spec m' (k - 2)) as [_ Hr]; [lia|]. split.
    + apply rehash_wf; [lia|by rewrite Zminus_mod, Hev|done|done|]. simpl. rewrite Hsz in *.
      assert (2 ^ k = 4 * 2 ^ (k - 2)) as H4.
      { replace k with (2 + (k - 2)) at 1 by lia. rewrite Z.pow_add_r by lia. done. }
      rewrite Hg, H4 in Hlt. apply Z.div_le_lower_bound; [lia|].
      pose proof (Z.mul_div_le (4 * 2 ^ (k - 2) * 80) 100).
      pose proof (Z.mul_div_le (4 * 2 ^ (k - 2) * 80 / 100) 5). lia.
    + rewrite Hr. unfold hashmap_iter in *. exact Hpm.
  - split; [|exact Hpm]. split; simpl in *; rewrite ?Htk; try done; first [by exists k|lia].
Qed.
End hashmap_inv.

(** ** The table represents a finite map from keys to entry addresses *)
Section hashmap_repr.
Context `{Countable K} (cmpfn : K -> K -> Z) (hashfn : K -> Z) (kok : K -> Prop).
Context (cmpfn_eq : forall k1 k2, kok k1 -> kok k2 -> cmpfn k1 k2 = 0 <-> k1 = k2).
Implicit Types (m : hashmap K) (g : gmap K Z) (k : K) (a : Z).

(** [hashmap_entry_init] on the entry embedded at address [a]. *)
Definition entry_of (k : K) (a : Z) : hashmap_entry K := mk_entry a (hashfn k) k.

Record hm_repr m g : Prop := {
  hr_wf : hm_wf m;
  hr_perm : hashmap_iter m ≡ₚ (fun p => entry_of p.1 p.2) <$> map_to_list g;
  hr_kok : forall k a, g !! k = Some a -> kok k
}.

Lemma hm_repr_size m g : hm_repr m g -> private_size m = Z.of_nat (size g).
Proof.
  intros [Hw Hp _]. rewrite (hw_size _ Hw), Hp, length_fmap. by rewrite length_map_to_list.
Qed.

Lemma elem_of_iter m g e :
  hm_repr m g ->
  e ∈ hashmap_iter m <-> g !! he_key e = Some (he_addr e) /\ he_hash e = hashfn (he_key e).
Proof.
  intros [_ Hp _]. rewrite Hp, list_elem_of_fmap. split.
  - intros ([k a] & -> & Hin%elem_of_map_to_list). done.
  - intros [Hg Hh]. exists (he_key e, he_addr e). split; [|by apply elem_of_map_to_list].
    destruct e; simpl in *. by subst.
Qed.

Lemma elem_of_chain_iff m g e :
  hm_repr m g ->
  e ∈ chain (table m) (bucket (tablesize m) (he_hash e)) <-> e ∈ hashmap_iter m.
Proof.
  intros [Hw _ _]. destruct (hw_pow _ Hw) as (k & Hk & ? & _).
  pose proof (hw_table _ Hw) as Ht. rewrite Hk in *.
  apply (elem_of_chain k ltac:(lia) _ Ht).
Qed.

(** Elements of the chain a key hashes to are entries of the map. *)
Lemma chain_sub m g hash e :
  hm_repr m g -> e ∈ chain (table m) (bucket (tablesize m) hash) -> e ∈ hashmap_iter m.
Proof.
  intros [Hw _ _] He. destruct (hw_pow _ Hw) as (k & Hk & ? & _).
  pose proof (hw_table _ Hw) as Ht. rewrite Hk in *.
  apply elem_of_concat_lookup. eexists _, _. split; [|exact He].
  by apply chain_lookup; [lia|].
Qed.

(** Both searches, by equality and by address, stop on the entry of [k] when
    the searched address is bound to no other key. *)
Lemma find_by_spec m g k a (P : hashmap_entry K -> bool) :
  hm_repr m g ->
  (forall e, e ∈ hashmap_iter m -> P e = true -> he_key e = k) ->
  match list_find (fun e => Is_true (P e)) (chain (table m) (bucket (tablesize m) (hashfn k))) with
  | Some (i, e) => g !! k = Some (he_addr e) /\ e = entry_of k (he_addr e) /\ P e = true /\
      chain (table m) (bucket (tablesize m) (hashfn k)) !! i = Some e
  | None => g !! k = Some a -> P (entry_of k a) = false
  end.
Proof.
  intros Hr HP. destruct (list_find _ _) as [[i e]|] eqn:E.
  - apply list_find_Some in E as (Hi & HPe & _). apply Is_true_true in HPe.
    assert (Hin : e ∈ hashmap_iter m).
    { eapply (chain_sub _ _ (hashfn k)); [done|]. by eapply list_elem_of_lookup_2. }
    pose proof (HP e Hin HPe) as Hke.
    apply (elem_of_iter _ _ _ Hr) in Hin as [Hg Hh]. rewrite Hke in *.
    split; [done|]. split; [|done]. destruct e; simpl in *; by subst.
  - intros Hg. apply not_true_is_false. intros HPe.
    apply list_find_None in E. rewrite Forall_forall in E. apply (E (entry_of k a)).
    + apply (elem_of_chain_iff _ g (entry_of k a) Hr). by apply (elem_of_iter _ g).
    + by apply Is_true_true.
Qed.

Lemma equals_key m g k a e :
  hm_repr m g -> kok k -> (forall k', g !! k' = Some a -> k' = k) ->
  e ∈ hashmap_iter m -> entry_equals cmpfn e (entry_of k a) = true -> he_key e = k.
Proof.
  intros Hr Hk Ha [Hg Hh]%(elem_of_iter _ _ _ Hr) Heq.
  apply orb_true_iff in Heq as [Heq|Heq].
  - apply Z.eqb_eq in Heq. simpl in Heq. apply Ha. congruence.
  - apply andb_true_iff in Heq as [_ Heq]. apply Z.eqb_eq in Heq. simpl in Heq.
    apply cmpfn_eq; [by eapply hr_kok|done|done].
Qed.

Lemma equals_self k a a' : kok k -> entry_equals cmpfn (entry_of k a) (entry_of k a') = true.
Proof.
  intros Hk. unfold entry_equals. simpl. rewrite Z.eqb_refl. simpl.
  rewrite (proj2 (Z.eqb_eq _ _) (proj2 (cmpfn_eq k k Hk Hk) eq_refl)). apply orb_true_r.
Qed.

Lemma repr_unlink m g k a i :
  hm_repr m g -> g !! k = Some a ->
  chain (table m) (bucket (tablesize m) (hashfn k)) !! i = Some (entry_of k a) ->
  hm_repr (do_remove m (bucket (tablesize m) (hashfn k)) i) (delete k g).
Proof.
  intros [Hw Hp Hk] Hg Hi. destruct (do_remove_wf m (hashfn k) i _ Hw Hi) as [Hw' Hp'].
  split; [done| |].
  - rewrite <- (map_to_list_delete g k a Hg) in Hp. simpl in Hp. rewrite Hp in Hp'.
    by apply Permutation_cons_inv in Hp'.
  - intros k' a' Hk'. apply lookup_delete_Some in Hk' as [_ ?]. eauto.
Qed.

Lemma repr_init initial_size :
  0 <= initial_size <= 2 ^ 29 -> hm_repr (hashmap_init initial_size) ∅.
Proof.
  intros Hi. destruct (hashmap_init_wf (K := K) initial_size Hi) as [Hw Hn]. split; [done| |].
  - by rewrite Hn, map_to_list_empty.
  - intros k a Hk. by rewrite lookup_empty in Hk.
Qed.

Lemma repr_get m g k a :
  hm_repr m g -> kok k -> (forall k', g !! k' = Some a -> k' = k) ->
  he_addr <$> hashmap_get cmpfn m (entry_of k a) = g !! k.
Proof.
  intros Hr Hk Ha. unfold hashmap_get, find_entry_ptr. simpl.
  destruct (g !! k) as [b|] eqn:Hg.
  - pose proof (find_by_spec m g k b _ Hr (fun e He => equals_key m g k a e Hr Hk Ha He)) as Hs.
    destruct (list_find _ _) as [[i e]|]; [|specialize (Hs Hg)].
    + destruct Hs as (Hg' & -> & _). simpl in *. congruence.
    + by rewrite equals_self in Hs.
  - pose proof (find_by_spec m g k 0 _ Hr (fun e He => equals_key m g k a e Hr Hk Ha He)) as Hs.
    destruct (list_find _ _) as [[i e]|]; [|done].
    destruct Hs as (Hg' & _). congruence.
Qed.

Lemma repr_remove m g k a :
  hm_repr m g -> kok k -> (forall k', g !! k' = Some a -> k' = k) ->
  hm_repr (hashmap_remove cmpfn m (entry_of k a)).1 (delete k g) /\
  he_addr <$> (hashmap_remove cmpfn m (entry_of k a)).2 = g !! k.
Proof.
  intros Hr Hk Ha. unfold hashmap_remove, find_entry_ptr. simpl.
  destruct (g !! k) as [b|] eqn:Hg.
  - pose proof (find_by_spec m g k b _ Hr (fun e He => equals_key m g k a e Hr Hk Ha He)) as Hs.
    destruct (list_find _ _) as [[i e]|]; [|specialize (Hs Hg)].
    + destruct Hs as (Hg' & He & _ & Hi). rewrite He in Hi. simpl.
      split; [by eapply repr_unlink|]. rewrite He. simpl. congruence.
    + by rewrite equals_self in Hs.
  - pose proof (find_by_spec m g k 0 _ Hr (fun e He => equals_key m g k a e Hr Hk Ha He)) as Hs.
    destruct (list_find _ _) as [[i e]|].
    + destruct Hs as (Hg' & _). congruence.
    + simpl. by rewrite delete_id.
Qed.

Lemma repr_add m g k a :
  hm_repr m g -> kok k -> g !! k = None -> Z.of_nat (size g) < 2 ^ 29 ->
  hm_repr (hashmap_add m (entry_of k a)) (<[k := a]> g).
Proof.
  intros Hr Hk Hg Hsz. pose proof (hm_repr_size _ _ Hr) as Hps.
  destruct Hr as [Hw Hp Hkok].
  destruct (hashmap_add_wf m (entry_of k a) Hw) as [Hw' Hp']; [lia|]. split; [done| |].
  - rewrite Hp', Hp, map_to_list_insert by done. done.
  - intros k' a' [[<- _]|[_ ?]]%lookup_insert_Some; eauto.
Qed.

(** [hashmap_put] replaces the binding of the key, and returns the old one. *)
Lemma repr_put m g k a :
  hm_repr m g -> kok k -> (forall k', g !! k' = Some a -> k' = k) ->
  Z.of_nat (size g) < 2 ^ 29 ->
  hm_repr (hashmap_put cmpfn m (entry_of k a)).1 (<[k := a]> g) /\
  he_addr <$> (hashmap_put cmpfn m (entry_of k a)).2 = g !! k.
Proof.
  intros Hr Hk Ha Hsz. unfold hashmap_put.
  destruct (repr_remove m g k a Hr Hk Ha) as [Hr' Hold].
  destruct (hashmap_remove cmpfn m (entry_of k a)) as [m' old]. simpl in *. split; [|done].
  rewrite <- insert_delete_eq. apply repr_add; [done|done|apply lookup_delete_eq|].
  pose proof (map_size_delete k g). destruct (g !! k); simpl in *; lia.
Qed.

(** [__hashmap_remove_entry] unlinks the entry only if it is still the one
    the key maps to: an entry replaced by a later [put] is left alone. *)
Lemma repr_remove_entry m g k a :
  hm_repr m g -> (forall k', g !! k' = Some a -> k' = k) ->
  hm_repr (hashmap_remove_entry m (entry_of k a)).1
    (if decide (g !! k = Some a) then delete k g else g).
Proof.
  intros Hr Ha. unfold hashmap_remove_entry, find_entry_addr. simpl.
  assert (HP : forall e, e ∈ hashmap_iter m -> (he_addr e =? a) = true -> he_key e = k).
  { intros e [Hg _]%(elem_of_iter _ _ _ Hr) Heq%Z.eqb_eq. apply Ha. congruence. }
  pose proof (find_by_spec m g k a (fun e => he_addr e =? a) Hr HP) as Hs. cbv beta in Hs.
  destruct (list_find _ _) as [[i e]|].
  - destruct Hs as (Hg' & He & Heq & Hi). apply Z.eqb_eq in Heq.
    rewrite decide_True by congruence. rewrite He, Heq in Hi. simpl.
    eapply repr_unlink; [done| |done]. congruence.
  - simpl. destruct (decide _) as [Hd|]; [|done]. specialize (Hs Hd). simpl in Hs.
    by rewrite Z.eqb_refl in Hs.
Qed.
End hashmap_repr.

(** ** Sequences of operations *)
(** [MPut k a] puts the entry at address [a]; the other two use a key struct
    on the stack, whose address (0) is no entry's. *)
Inductive map_op (K : Type) := MPut (k : K) (a : Z) | MRemove (k : K) | MGet (k : K).
Arguments MPut {K}.
Arguments MRemove {K}.
Arguments MGet {K}.

Section hashmap_trace.
Context `{Countable K} (cmpfn : K -> K -> Z) (hashfn : K -> Z) (kok : K -> Prop).
Implicit Types (m : hashmap K) (g : gmap K Z).

(** The new table and the address of the entry returned, [None] for NULL. *)
Definition hm_run m (op : map_op K) : hashmap K * option Z :=
  match op with
  | MPut k a => let '(m, old) := hashmap_put cmpfn m (entry_of hashfn k a) in (m, he_addr <$> old)
  | MRemove k => let '(m, old) := hashmap_remove cmpfn m (entry_of hashfn k 0) in (m, he_addr <$> old)
  | MGet k => (m, he_addr <$> hashmap_get cmpfn m (entry_of hashfn k 0))
  end.

Definition map_run g (op : map_op K) : gmap K Z * option Z :=
  match op with
  | MPut k a => (<[k := a]> g, g !! k)
  | MRemove k => (delete k g, g !! k)
  | MGet k => (g, g !! k)
  end.

Fixpoint run_all {S} (step : S -> map_op K -> S * option Z) (s : S) (ops : list (map_op K))
    : S * list (option Z) :=
  match ops with
  | [] => (s, [])
  | op :: ops' =>
      let '(s, r) := step s op in let '(s, rs) := run_all step s ops' in (s, r :: rs)
  end.

(** Keys are well formed and an entry is linked under one key only. *)
Fixpoint ops_ok g (ops : list (map_op K)) : Prop :=
  match ops with
  | [] => True
  | op :: ops' =>
      match op with
      | MPut k a => kok k /\ 0 < a /\ (forall k', g !! k' = Some a -> k' = k)
      | MRemove k | MGet k => kok k
      end /\ ops_ok (fst (map_run g op)) ops'
  end.

Definition addrs_pos g : Prop := forall k a, g !! k = Some a -> 0 < a.

Lemma run_step m g op ops :
  (forall k1 k2, kok k1 -> kok k2 -> cmpfn k1 k2 = 0 <-> k1 = k2) ->
  hm_repr hashfn kok m g -> addrs_pos g -> ops_ok g (op :: ops) -> Z.of_nat (size g) < 2 ^ 29 ->
  hm_repr hashfn kok (hm_run m op).1 (map_run g op).1 /\ (hm_run m op).2 = (map_run g op).2 /\
  addrs_pos (map_run g op).1 /\ (size (map_run g op).1 <= S (size g))%nat.
Proof.
  intros Hcmp Hr Hpos [Hop _] Hsz.
  assert (Hstack : forall k k', g !! k' = Some 0 -> k' = k) by (intros k k' Hk; apply Hpos in Hk; lia).
  destruct op as [k a|k|k]; simpl.
  - destruct Hop as (Hk & Ha & Hu). destruct (repr_put cmpfn hashfn kok Hcmp m g k a Hr Hk Hu Hsz) as [H1 H2].
    destruct (hashmap_put _ _ _). simpl in *. split; [done|]. split; [done|]. split.
    + intros k' a' [[_ <-]|[_ Hx]]%lookup_insert_Some; eauto.
    + rewrite map_size_insert. destruct (g !! k); simpl; lia.
  - destruct (repr_remove cmpfn hashfn kok Hcmp m g k 0 Hr Hop (Hstack k)) as [H1 H2].
    destruct (hashmap_remove _ _ _). simpl in *. split; [done|]. split; [done|]. split.
    + intros k' a' [_ Hx]%lookup_delete_Some. eauto.
    + rewrite map_size_delete. destruct (g !! k); simpl; lia.
  - split; [done|]. split; [apply (repr_get cmpfn hashfn kok Hcmp); [done|exact Hop|apply Hstack]|].
    split; [done|lia].
Qed.

Lemma run_refines ops m g :
  (forall k1 k2, kok k1 -> kok k2 -> cmpfn k1 k2 = 0 <-> k1 = k2) ->
  hm_repr hashfn kok m g -> addrs_pos g -> ops_ok g ops -> Z.of_nat (size g + length ops) < 2 ^ 29 ->
  hm_repr hashfn kok (run_all hm_run m ops).1 (run_all map_run g ops).1 /\
  (run_all hm_run m ops).2 = (run_all map_run g ops).2.
Proof.
  intros Hcmp. revert m g. induction ops as [|op ops IH]; intros m g Hr Hpos Hok Hsz; [done|].
  simpl length in Hsz. destruct (run_step m g op ops Hcmp Hr Hpos Hok) as (H1 & H2 & H3 & H4); [lia|].
  destruct Hok as [_ Hok]. simpl. destruct (hm_run m op) as [m1 r1], (map_run g op) as [g1 r2]. simpl in *.
  destruct (IH m1 g1 H1 H3 Hok) as [H5 H6]; [lia|].
  destruct (run_all hm_run m1 ops), (run_all map_run g1 ops). simpl in *. by subst.
Qed.
End hashmap_trace.

(** ** Properties *)
(** C28: any sequence of puts, removals and lookups on a fresh table returns
    exactly what a finite map from keys to entries returns; afterwards the
    iterator visits every entry of that map once, and the table, grown and
    shrunk on the way, holds at most the entries its load factor allows. *)
Theorem hashmap_refines_map `{Countable K} (cmpfn : K -> K -> Z) (hashfn : K -> Z) (kok : K -> Prop)
    initial_size ops :
  (forall k1 k2, kok k1 -> kok k2 -> cmpfn k1 k2 = 0 <-> k1 = k2) ->
  0 <= initial_size <= 2 ^ 29 -> ops_ok kok ∅ ops -> Z.of_nat (length ops) < 2 ^ 29 ->
  let '(m, rs) := run_all (hm_run cmpfn hashfn) (hashmap_init initial_size) ops in
  let '(g, rs') := run_all map_run ∅ ops in
  rs = rs' /\
  hashmap_iter m ≡ₚ (fun p => entry_of hashfn p.1 p.2) <$> map_to_list g /\
  private_size m = Z.of_nat (size g) /\ private_size m * 100 <= tablesize m * HASHMAP_LOAD_FACTOR.
Proof.
  intros Hcmp Hi Hok Hl.
  destruct (run_refines cmpfn hashfn kok ops (hashmap_init initial_size) ∅ Hcmp) as [Hr Hrs].
  - by apply repr_init.
  - intros k a Hk. by rewrite lookup_empty in Hk.
  - done.
  - rewrite map_size_empty. lia.
  - destruct (run_all _ (hashmap_init initial_size) ops) as [m rs], (run_all map_run ∅ ops) as [g rs'].
    simpl in *. split; [done|]. split; [apply Hr|]. split; [by eapply hm_repr_size|].
    pose proof (hw_load _ (hr_wf _ _ _ _ Hr)). pose proof (hw_grow _ (hr_wf _ _ _ _ Hr)).
    pose proof (Z.mul_div_le (tablesize m * 80) 100). unfold HASHMAP_LOAD_FACTOR. lia.
Qed.

Lemma hashmap_refines_map_witness :
  let ops := [MPut [1; 2] 10; MPut [3; 4] 20; MGet [1; 2]; MPut [1; 2] 30; MRemove [3; 4]; MGet [3; 4]] in
  let '(m, rs) := run_all (hm_run memcmp memhash) (hashmap_init 0) ops in
  let '(g, rs') := run_all map_run ∅ ops in
  rs = rs' /\
  hashmap_iter m ≡ₚ (fun p => entry_of memhash p.1 p.2) <$> map_to_list g /\
  private_size m = Z.of_nat (size g) /\ private_size m * 100 <= tablesize m * HASHMAP_LOAD_FACTOR.
Proof.
  intros ops. apply (hashmap_refines_map memcmp memhash (fun k => length k = 2%nat) 0 ops).
  - intros k1 k2 H1 H2. apply memcmp_eq. congruence.
  - lia.
  - repeat split; try lia; intros k' Hk'; simpl in Hk'; repeat
      (apply lookup_insert_Some in Hk' as [[<- ?]|[_ Hk']]; [try done; lia|]); by rewrite lookup_empty in Hk'.
  - by vm_compute.
Defined.
