(* ===== verification/Types.v ===== *)
(** * Shared types: UUIDs, MACs, directory entry types and I/O flags

    Models [libnexus_trusted/nexus_uuid.c], [libnexus_trusted/nexus_mac.c] and
    the constants of [libnexus_trusted/nexus_fs.h].  A UUID and a MAC are the
    16 raw bytes of the C structs. *)
From S2P Require Import Prelude.

Definition NEXUS_UUID_SIZE : nat := 16.
Definition NEXUS_MAC_SIZE : nat := 16.
Definition NEXUS_NAME_MAX : Z := 256.
Definition NEXUS_PATH_MAX : Z := 1024.

Abbreviation uuid := (list Z).
Abbreviation mac := (list Z).

Definition uuid_ok (u : uuid) : Prop := length u = NEXUS_UUID_SIZE /\ Forall byte_ok u.
Definition mac_ok (m : mac) : Prop := length m = NEXUS_MAC_SIZE /\ Forall byte_ok m.

(** Concrete UUIDs, for evaluating the definitions. *)
Definition uuid_const (z : Z) : uuid := replicate NEXUS_UUID_SIZE z.

Lemma uuid_const_ok z : byte_ok z -> uuid_ok (uuid_const z).
Proof. intros. split; [done|]. by apply Forall_replicate. Qed.

(** ** nexus_uuid.c *)
Definition nexus_uuid_zeroize : uuid := replicate NEXUS_UUID_SIZE 0.

(** The early-return loop over [sizeof(struct nexus_uuid)] bytes. *)
Fixpoint nexus_uuid_is_zeros (u : uuid) : bool :=
  match u with
  | [] => true
  | b :: u' => if b =? 0 then nexus_uuid_is_zeros u' else false
  end.

Fixpoint nexus_uuid_is_valid (u : uuid) : bool :=
  match u with
  | [] => false
  | b :: u' => if b =? 0 then nexus_uuid_is_valid u' else true
  end.

Definition nexus_uuid_compare (src dst : uuid) : Z := memcmp src dst.

(** One octet of FNV-1 with the multiplication spelled as shifts and adds. *)
Definition fnv_32_octet (hval octet : Z) : Z :=
  let hval := u32 (hval + u32 (Z.shiftl hval 1 + Z.shiftl hval 4 + Z.shiftl hval 7
                               + Z.shiftl hval 8 + Z.shiftl hval 24)) in
  Z.lxor hval octet.

Definition fnv_32_buf (buf : bytes) (hval : Z) : Z := fold_left fnv_32_octet buf hval.

Definition nexus_uuid_hash (u : uuid) : Z := fnv_32_buf u 0.

(** ** nexus_mac.c *)
Definition nexus_mac_zeroize : mac := replicate NEXUS_MAC_SIZE 0.
Definition nexus_mac_compare (mac1 mac2 : mac) : Z := memcmp mac1 mac2.

Record mac_and_version := mk_macversion { mv_version : Z; mv_mac : mac }.

Definition mac_and_version_to_buf (mv : mac_and_version) : bytes :=
  le_encode 4 (mv_version mv) ++ mv_mac mv.

Definition mac_and_version_from_buf : decoder mac_and_version :=
  version <~ dec_uint 4; m <~ dec_bytes NEXUS_MAC_SIZE; dec_ret (mk_macversion version m).

Definition macversion_ok (mv : mac_and_version) : Prop :=
  in_range 32 (mv_version mv) /\ length (mv_mac mv) = NEXUS_MAC_SIZE.

(** ** nexus_fs.h *)
Inductive nexus_dirent_type := NEXUS_REG | NEXUS_DIR | NEXUS_LNK.

#[export] Instance nexus_dirent_type_eq_dec : EqDecision nexus_dirent_type.
Proof. solve_decision. Defined.

Definition dirent_type_val (t : nexus_dirent_type) : Z :=
  match t with NEXUS_REG => 1 | NEXUS_DIR => 2 | NEXUS_LNK => 3 end.

Definition dirent_type_of (z : Z) : option nexus_dirent_type :=
  if z =? 1 then Some NEXUS_REG else if z =? 2 then Some NEXUS_DIR
  else if z =? 3 then Some NEXUS_LNK else None.

Lemma dirent_type_of_val t : dirent_type_of (dirent_type_val t) = Some t.
Proof. by destruct t. Qed.

Lemma dirent_type_val_range t : 1 <= dirent_type_val t <= 3.
Proof. destruct t; simpl; lia. Qed.

Definition NEXUS_FREAD : Z := 0x01.
Definition NEXUS_FWRITE : Z := 0x02.
Definition NEXUS_FRDWR : Z := Z.lor NEXUS_FREAD NEXUS_FWRITE.
Definition NEXUS_FCREATE : Z := 0x04.
Definition NEXUS_FDELETE : Z := 0x08.
Definition NEXUS_IO_FNODE : Z := 0x10.
Definition NEXUS_IO_FCRYPTO : Z := 0x20.

Definition nexus_io_in_lock_mode (flags : Z) : bool :=
  negb (Z.land flags (Z.lor (Z.lor NEXUS_FWRITE NEXUS_FCREATE) NEXUS_IO_FCRYPTO) =? 0).

(** ** Facts *)
Lemma uuid_compare_eq u1 u2 :
  uuid_ok u1 -> uuid_ok u2 -> nexus_uuid_compare u1 u2 = 0 <-> u1 = u2.
Proof. intros [H1 _] [H2 _]. apply memcmp_eq. congruence. Qed.

Lemma uuid_zeros_valid u : nexus_uuid_is_zeros u = negb (nexus_uuid_is_valid u).
Proof. induction u as [|b u IH]; simpl; [done|]. by destruct (b =? 0). Qed.

Lemma uuid_is_zeros_iff u : uuid_ok u -> nexus_uuid_is_zeros u = true <-> u = nexus_uuid_zeroize.
Proof.
  intros [Hl _]. unfold nexus_uuid_zeroize. rewrite <- Hl. clear Hl.
  induction u as [|b u IH]; simpl; [done|].
  destruct (Z.eqb_spec b 0) as [->|Hne].
  - rewrite IH. split; congruence.
  - split; congruence.
Qed.

(** The shift-and-add form is the multiplication by the FNV prime 0x01000193. *)
Lemma fnv_32_octet_mul hval octet :
  fnv_32_octet hval octet = Z.lxor (u32 (hval * 0x01000193)) octet.
Proof.
  unfold fnv_32_octet. f_equal. unfold wrap. rewrite Zplus_mod_idemp_r. f_equal.
  rewrite !Z.shiftl_mul_pow2 by lia. change (2 ^ 1) with 2. change (2 ^ 4) with 16.
  change (2 ^ 7) with 128. change (2 ^ 8) with 256. change (2 ^ 24) with 16777216. lia.
Qed.

Lemma lxor_byte_range h c : in_range 32 h -> byte_ok c -> in_range 32 (Z.lxor h c).
Proof.
  unfold in_range, byte_ok. intros Hh Hc. split.
  - apply Z.lxor_nonneg; lia.
  - destruct (decide (Z.lxor h c = 0)) as [->|Hne]; [lia|].
    assert (0 <= Z.lxor h c) by (apply Z.lxor_nonneg; lia).
    apply Z.log2_lt_pow2; [lia|].
    pose proof (Z.log2_lxor h c ltac:(lia) ltac:(lia)).
    assert (forall x, 0 <= x < 2 ^ 32 -> Z.log2 x < 32) as Hlog.
    { intros x Hx. destruct (decide (x = 0)) as [->|]; [done|]. apply Z.log2_lt_pow2; lia. }
    pose proof (Hlog h Hh). pose proof (Hlog c ltac:(lia)). lia.
Qed.

(** A UUID hash is an [uint32_t]. *)
Lemma fnv_32_buf_range buf hval :
  Forall byte_ok buf -> in_range 32 hval -> in_range 32 (fnv_32_buf buf hval).
Proof.
  intros Hb. revert hval. unfold fnv_32_buf.
  induction Hb as [|b buf Hb _ IH]; intros hval Hh; simpl; [done|].
  apply IH. rewrite fnv_32_octet_mul. apply lxor_byte_range; [|done]. apply wrap_range; lia.
Qed.

Lemma macversion_roundtrip mv rest :
  macversion_ok mv ->
  mac_and_version_from_buf (mac_and_version_to_buf mv ++ rest) = Some (mv, rest).
Proof.
  intros [Hv Hm]. destruct mv as [v m]; simpl in Hv, Hm.
  unfold mac_and_version_from_buf, mac_and_version_to_buf. cbn [mv_version mv_mac].
  rewrite <- app_assoc. unfold dec_bind at 1. rewrite dec_uint_app by done.
  unfold dec_bind at 1. by rewrite dec_bytes_app.
Qed.

(** A reader that wants the datastore lock asks for WRITE, CREATE or FCRYPTO. *)
Lemma lock_mode_read : nexus_io_in_lock_mode NEXUS_FREAD = false.
Proof. reflexivity. Qed.
