(* ===== verification/Lists.v ===== *)
(** * Linked lists and ring buffers

    Models [libnexus_trusted/list.h], [nexus_list.c] and [nexus_ringbuf.c].  A
    list is a ring of nodes through its head; the memory has one map per field
    of a node, and reading or writing a node that was freed is a fault
    ([None]).  The elements are addresses; [freed] records the elements the
    deallocator of a list was called on.  The ring buffer is its array with the
    two cursors. *)
From S2P Require Import Prelude.

(** ** list.h *)
Record lmem := mk_lmem { l_next : gmap Z Z; l_prev : gmap Z Z; l_data : gmap Z Z; l_freed : list Z }.
Implicit Types (m : lmem) (h a x y : Z).

Definition set_next m a x : option lmem := _ ← l_next m !! a; Some (mk_lmem (<[a := x]> (l_next m)) (l_prev m) (l_data m) (l_freed m)).
Definition set_prev m a x : option lmem := _ ← l_prev m !! a; Some (mk_lmem (l_next m) (<[a := x]> (l_prev m)) (l_data m) (l_freed m)).

Definition INIT_LIST_HEAD m h : option lmem := m ← set_next m h h; set_prev m h h.

Definition list_add m (newp h : Z) : option lmem :=
  y ← l_next m !! h; m ← set_prev m y newp;
  y ← l_next m !! h; m ← set_next m newp y;
  m ← set_prev m newp h;
  set_next m h newp.

Definition list_add_tail m (newp h : Z) : option lmem :=
  x ← l_prev m !! h; m ← set_next m x newp;
  m ← set_next m newp h;
  x ← l_prev m !! h; m ← set_prev m newp x;
  set_prev m h newp.

Definition __list_del m (prev next : Z) : option lmem := m ← set_prev m next prev; set_next m prev next.
Definition list_del m (elem : Z) : option lmem := x ← l_prev m !! elem; y ← l_next m !! elem; __list_del m x y.

Definition list_empty m h : option bool := y ← l_next m !! h; Some (h =? y).

(** ** nexus_list.c *)
(** [nexus_malloc] of a zeroed node, its [data] set; [nexus_free]. *)
Definition new_node m (d : Z) : lmem * Z :=
  let a := fresh ({[0]} ∪ dom (l_next m) ∪ dom (l_prev m) ∪ dom (l_data m)) in
  (mk_lmem (<[a := 0]> (l_next m)) (<[a := 0]> (l_prev m)) (<[a := d]> (l_data m)) (l_freed m), a).
Definition free_node m a : lmem := mk_lmem (delete a (l_next m)) (delete a (l_prev m)) (delete a (l_data m)) (l_freed m).

(** The address of [list.list], and whether a deallocator is set. *)
Record nexus_list := mk_list { list_head : Z; deallocator : bool }.
Implicit Types (L : nexus_list).

Definition free_list_node m L (node : Z) : option lmem :=
  d ← l_data m !! node;
  let m := if deallocator L then mk_lmem (l_next m) (l_prev m) (l_data m) (l_freed m ++ [d]) else m in
  m ← list_del m node;
  Some (free_node m node).

Definition nexus_list_init m h : option (lmem * nexus_list) := m ← INIT_LIST_HEAD m h; Some (m, mk_list h false).
Definition nexus_list_set_deallocator L : nexus_list := mk_list (list_head L) true.

(** One turn per element. *)
Fixpoint nexus_list_destroy (n : nat) m L : option lmem :=
  match n with
  | O => None
  | S n =>
      empty ← list_empty m (list_head L);
      if (empty : bool) then Some m
      else node ← l_next m !! list_head L; m ← free_list_node m L node; nexus_list_destroy n m L
  end.

(** [None] inside is NULL. *)
Fixpoint list_get_from m h (curr : Z) (pos : nat) : option (option Z) :=
  if curr =? h then Some None
  else
    match pos with
    | O => d ← l_data m !! curr; Some (Some d)
    | S pos => curr ← l_next m !! curr; list_get_from m h curr pos
    end.
Definition nexus_list_get m L (pos : nat) : option (option Z) := curr ← l_next m !! list_head L; list_get_from m (list_head L) curr pos.

Definition nexus_list_pop m L : option (lmem * option Z) :=
  empty ← list_empty m (list_head L);
  if (empty : bool) then Some (m, None)
  else
    node ← l_prev m !! list_head L;
    m ← list_del m node;
    d ← l_data m !! node;
    Some (free_node m node, Some d).

Definition nexus_list_prepend m L (element : Z) : option (lmem * Z) :=
  let '(m, a) := new_node m element in m ← list_add m a (list_head L); Some (m, 0).
Definition nexus_list_append m L (element : Z) : option (lmem * Z) :=
  let '(m, a) := new_node m element in m ← list_add_tail m a (list_head L); Some (m, 0).

(** *** Iterators *)
Record nexus_list_iterator := mk_iter { it_list : nexus_list; it_curr : Z }.
Implicit Types (it : nexus_list_iterator).

Definition list_iterator_new m L : option nexus_list_iterator := y ← l_next m !! list_head L; Some (mk_iter L y).
Definition list_iterator_is_valid it : bool := negb (it_curr it =? list_head (it_list it)).
Definition list_iterator_get m it : option (option Z) :=
  if it_curr it =? list_head (it_list it) then Some None else d ← l_data m !! it_curr it; Some (Some d).
Definition list_iterator_next m it : option nexus_list_iterator :=
  if negb (it_curr it =? list_head (it_list it)) then y ← l_next m !! it_curr it; Some (mk_iter (it_list it) y) else Some it.
Definition list_iterator_del m it : option (lmem * nexus_list_iterator * Z) :=
  if it_curr it =? list_head (it_list it) then Some (m, it, -1)
  else
    y ← l_next m !! it_curr it;
    m ← free_list_node m (it_list it) (it_curr it);
    Some (m, mk_iter (it_list it) y, 0).

(** ** nexus_ringbuf.c *)
(** The array of items behind [__buf]; [head] and [tail] are indices into it. *)
Record nexus_ringbuf := mk_ringbuf { rb_buf : list bytes; rb_capacity : nat; item_count : nat; rb_head : nat; rb_tail : nat }.
Implicit Types (r : nexus_ringbuf).

Definition nexus_ringbuf_create (item_size capacity : nat) : nexus_ringbuf := mk_ringbuf (replicate capacity (replicate item_size 0)) capacity 0 0 0.

(** [data] is as long as an item; a cursor at the end goes back to the start. *)
Definition nexus_ringbuf_enqueue r (data : bytes) : nexus_ringbuf * bool :=
  if (item_count r =? rb_capacity r)%nat then (r, false)
  else
    let tail := S (rb_tail r) in
    (mk_ringbuf (<[rb_tail r := data]> (rb_buf r)) (rb_capacity r) (S (item_count r)) (rb_head r) (if (tail =? rb_capacity r)%nat then 0%nat else tail), true).

Definition nexus_ringbuf_dequeue r : option (nexus_ringbuf * option bytes) :=
  if (item_count r =? 0)%nat then Some (r, None)
  else
    d ← rb_buf r !! rb_head r;
    let head := S (rb_head r) in
    Some (mk_ringbuf (rb_buf r) (rb_capacity r) (item_count r - 1)%nat (if (head =? rb_capacity r)%nat then 0%nat else head) (rb_tail r), Some d).

(** ** Rings of nodes *)
Section rings.
Implicit Types (l : list (Z * Z)) (c : list Z).

Definition edge m x y : Prop := l_next m !! x = Some y /\ l_prev m !! y = Some x.

(** The nodes [c] lie between [x] and [y]. *)
Fixpoint chain m x c y : Prop :=
  match c with [] => edge m x y | a :: c => edge m x a /\ chain m a c y end.

(** The list with head [h] has the nodes and elements [l]. *)
Record ring m h l : Prop := {
  ri_nodup : NoDup (h :: l.*1);
  ri_chain : chain m h l.*1 h;
  ri_data : forall a d, (a, d) ∈ l -> l_data m !! a = Some d
}.

Lemma chain_app m x c1 a c2 y : chain m x (c1 ++ a :: c2) y <-> chain m x c1 a /\ chain m a c2 y.
Proof. revert x. induction c1 as [|b c1 IH]; intros x; cbn; [done|]. rewrite IH. tauto. Qed.

(** Links that leave other nodes, or reach other nodes, may change. *)
Lemma chain_frame m m' x c y :
  (forall a, a ∈ x :: c -> l_next m' !! a = l_next m !! a) -> (forall a, a ∈ c ++ [y] -> l_prev m' !! a = l_prev m !! a) -> chain m x c y -> chain m' x c y.
Proof.
  revert x. induction c as [|b c IH]; intros x Hn Hp; cbn [chain].
  - intros [H1 H2]. split; [rewrite Hn by left; done|rewrite Hp by (cbn; left); done].
  - intros [[H1 H2] Hc]. split; [split; [rewrite Hn by left; done|rewrite Hp by (cbn; left); done]|].
    apply IH; [intros a Ha; apply Hn; by right|intros a Ha; apply Hp; cbn; by right|done].
Qed.

Lemma chain_nodes m x c y a : chain m x c y -> a ∈ x :: c -> is_Some (l_next m !! a).
Proof.
  revert x. induction c as [|b c IH]; intros x; cbn [chain].
  - intros [H1 _] ->%list_elem_of_singleton. eauto.
  - intros [[H1 _] Hc] [->|Ha]%elem_of_cons; [eauto|by eapply IH].
Qed.

Lemma chain_prevs m x c y a : chain m x c y -> a ∈ c ++ [y] -> is_Some (l_prev m !! a).
Proof.
  revert x. induction c as [|b c IH]; intros x; cbn [chain app].
  - intros [_ H2] ->%list_elem_of_singleton. eauto.
  - intros [[_ H2] Hc] [->|Ha]%elem_of_cons; [eauto|by eapply IH].
Qed.

(** What [list_add] and [list_add_tail] do: [n] goes between [x] and [y]. *)
Definition linked m n x y : lmem :=
  mk_lmem (<[x := n]> (<[n := y]> (l_next m))) (<[y := n]> (<[n := x]> (l_prev m))) (l_data m) (l_freed m).

Lemma add_linked m n h y :
  l_next m !! h = Some y -> is_Some (l_prev m !! y) -> is_Some (l_next m !! n) -> is_Some (l_prev m !! n) -> n <> y -> list_add m n h = Some (linked m n h y).
Proof.
  intros Hy [p Hp] [n1 Hn1] [n2 Hn2] Hne. unfold list_add, set_prev, set_next. rewrite Hy. cbn [mbind option_bind]. rewrite Hp. cbn [mbind option_bind l_next l_prev l_data l_freed]. rewrite Hy. cbn [mbind option_bind].
  rewrite Hn1. cbn [mbind option_bind l_next l_prev l_data l_freed]. rewrite lookup_insert_ne, Hn2 by done. cbn [mbind option_bind l_next l_prev l_data l_freed].
  assert (Hh : is_Some (<[n := y]> (l_next m) !! h)) by (destruct (decide (h = n)) as [->|]; [rewrite lookup_insert_eq; eauto|rewrite lookup_insert_ne by done; eauto]).
  destruct Hh as [z ->]. cbn [mbind option_bind]. unfold linked. do 2 f_equal. by apply insert_insert_ne.
Qed.

Lemma add_tail_linked m n h x :
  l_prev m !! h = Some x -> is_Some (l_next m !! x) -> is_Some (l_next m !! n) -> is_Some (l_prev m !! n) -> n <> x -> list_add_tail m n h = Some (linked m n x h).
Proof.
  intros Hx [p Hp] [n1 Hn1] [n2 Hn2] Hne. unfold list_add_tail, set_prev, set_next. rewrite Hx. cbn [mbind option_bind]. rewrite Hp. cbn [mbind option_bind l_next l_prev l_data l_freed].
  rewrite lookup_insert_ne, Hn1 by done. cbn [mbind option_bind l_next l_prev l_data l_freed]. rewrite Hx. cbn [mbind option_bind]. rewrite Hn2. cbn [mbind option_bind l_next l_prev l_data l_freed].
  assert (Hh : is_Some (<[n := x]> (l_prev m) !! h)) by (destruct (decide (h = n)) as [->|]; [rewrite lookup_insert_eq; eauto|rewrite lookup_insert_ne by done; eauto]).
  destruct Hh as [z ->]. cbn [mbind option_bind]. unfold linked. do 2 f_equal. by apply insert_insert_ne.
Qed.

(** The last node of a chain is given another successor. *)
Lemma chain_redirect m m' x c a z b :
  last (x :: c) = Some z -> NoDup (x :: c) -> chain m x c a -> (forall v, v ∈ x :: c -> v <> z -> l_next m' !! v = l_next m !! v) ->
  (forall v, v ∈ c -> l_prev m' !! v = l_prev m !! v) -> edge m' z b -> chain m' x c b.
Proof.
  revert x. induction c as [|v c IH]; intros x Hz Hnd; cbn [chain].
  - intros _ _ _ He. by injection Hz as ->.
  - intros [[H1 H2] Hc] Hn Hp He. assert (Hz' : z ∈ v :: c) by (rewrite last_cons_cons in Hz; by apply last_Some_elem_of).
    apply NoDup_cons in Hnd as [Hx Hnd]. split; [split; [rewrite Hn; [done|by left|by intros ->]|rewrite Hp by left; done]|].
    apply IH; try done; [intros w Hw Hne; apply Hn; [by right|done]|intros w Hw; apply Hp; by right].
Qed.

Lemma last_cons_some (x : Z) c : exists z, last (x :: c) = Some z.
Proof. revert x. induction c as [|v c IH]; intros x; [by exists x|]. by apply (IH v). Qed.
Lemma last_in x c z : last (x :: c) = Some z -> z ∈ x :: c.
Proof. apply last_Some_elem_of. Qed.
Lemma chain_last m x c y z : chain m x c y -> last (x :: c) = Some z -> edge m z y.
Proof. revert x. induction c as [|v c IH]; intros x; cbn [chain]; [by intros He [= ->]|]. intros [_ Hc] Hz. by apply (IH v). Qed.

(** The part of a ring after [c1]. *)
Lemma chain_rest m x c1 c2 y : chain m x (c1 ++ c2) y -> chain m x c1 (default y (head c2)) /\ (forall b c, c2 = b :: c -> chain m b c y).
Proof. destruct c2 as [|b c2]; cbn; [by rewrite app_nil_r|]. intros [H1 H2]%chain_app. split; [done|]. by intros b' c [= <- <-]. Qed.

Lemma chain_insert m h c1 c2 n x y :
  chain m h (c1 ++ c2) h -> NoDup (h :: c1 ++ c2) -> n ∉ h :: c1 ++ c2 -> last (h :: c1) = Some x -> y = default h (head c2) ->
  chain (linked m n x y) h (c1 ++ n :: c2) h.
Proof.
  intros Hc Hnd Hn Hx Hy. apply chain_rest in Hc as [H1 H2]. rewrite <- Hy in H1. pose proof (last_in _ _ _ Hx) as Hxin.
  assert (Hxn : x <> n) by (intros ->; apply Hn; rewrite app_comm_cons; apply elem_of_app; by left).
  assert (Hnd1 : NoDup (h :: c1)) by (rewrite app_comm_cons in Hnd; by apply NoDup_app in Hnd as (? & _)).
  assert (Hyn : y <> n) by (rewrite Hy; destruct c2 as [|b c2]; cbn; set_solver).
  assert (Hy1 : y ∉ c1).
  { rewrite Hy. destruct c2 as [|b c2]; cbn; [by apply NoDup_cons in Hnd1 as [? _]|]. apply NoDup_cons in Hnd as [_ Hnd]. apply NoDup_app in Hnd as (_ & Hd & _). set_solver. }
  apply chain_app. split.
  - apply (chain_redirect m _ h c1 y x); try done.
    + intros v Hv Hne. cbn. rewrite !lookup_insert_ne; [done|intros <-; apply Hn; rewrite app_comm_cons; apply elem_of_app; by left|done].
    + intros v Hv. cbn. rewrite !lookup_insert_ne; [done|intros <-; apply Hn; set_solver|by intros <-].
    + split; cbn; [apply lookup_insert_eq|by rewrite lookup_insert_ne, lookup_insert_eq].
  - assert (He : edge (linked m n x y) n y) by (split; cbn; [rewrite lookup_insert_ne, lookup_insert_eq by done; done|apply lookup_insert_eq]).
    destruct c2 as [|b c2]; cbn [chain]; cbn in Hy; subst y; [done|]. split; [done|]. apply (chain_frame m); [| |by apply (H2 b)].
    + intros v Hv. cbn. rewrite !lookup_insert_ne; [done|intros <-; apply Hn; set_solver|]. intros <-. rewrite app_comm_cons in Hnd. apply NoDup_app in Hnd as (_ & Hd & _). by apply (Hd x).
    + intros v Hv. cbn. apply NoDup_cons in Hnd as [Hh Hnd]. apply NoDup_app in Hnd as (_ & _ & Hd%NoDup_cons). rewrite !lookup_insert_ne; [done|intros <-; apply Hn; set_solver|].
      intros <-. apply elem_of_app in Hv as [Hv|Hv]; [by destruct Hd|]. apply list_elem_of_singleton in Hv. apply Hh. rewrite <- Hv. set_solver.
Qed.

(** [list_del] of a node of a ring. *)
Lemma chain_delete m h c1 a c2 :
  chain m h (c1 ++ a :: c2) h -> NoDup (h :: c1 ++ a :: c2) ->
  exists m' x y, l_prev m !! a = Some x /\ l_next m !! a = Some y /\ list_del m a = Some m' /\ chain m' h (c1 ++ c2) h /\ l_data m' = l_data m /\ l_freed m' = l_freed m /\
    y = default h (head c2) /\ dom (l_next m') = dom (l_next m) /\ dom (l_prev m') = dom (l_prev m).
Proof.
  intros Hc Hnd. apply chain_app in Hc as [H1 H2]. destruct (last_cons_some h c1) as [x Hx]. destruct (chain_last _ _ _ _ _ H1 Hx) as [_ Hpa].
  set (y := default h (head c2)). assert (Hya : edge m a y) by (unfold y; destruct c2 as [|b c2]; cbn in H2 |- *; [done|apply H2]). destruct Hya as [Hna Hpy].
  pose proof (last_in _ _ _ Hx) as Hxin. pose proof (chain_nodes _ _ _ _ x H1 Hxin) as [nx Hnx].
  exists (mk_lmem (<[x := y]> (l_next m)) (<[y := x]> (l_prev m)) (l_data m) (l_freed m)), x, y.
  split; [done|]. split; [done|]. split.
  { unfold list_del, __list_del, set_prev, set_next. rewrite Hpa. cbn [mbind option_bind]. rewrite Hna. cbn [mbind option_bind]. rewrite Hpy. cbn [mbind option_bind l_next l_prev]. by rewrite Hnx. }
  split; [|split; [done|]; split; [done|]; split; [done|]; cbn; split; apply dom_insert_lookup_L; eauto].
  set (m' := mk_lmem _ _ _ _). assert (He : edge m' x y) by (split; cbn; apply lookup_insert_eq).
  assert (Hnd1 : NoDup (h :: c1)) by (rewrite app_comm_cons in Hnd; by apply NoDup_app in Hnd as (? & _)).
  assert (Hy1 : y ∉ c1).
  { unfold y. destruct c2 as [|b c2]; cbn; [by apply NoDup_cons in Hnd1 as [? _]|]. apply NoDup_cons in Hnd as [_ Hnd]. apply NoDup_app in Hnd as (_ & Hd & _). set_solver. }
  assert (Hc1 : chain m' h c1 y).
  { apply (chain_redirect m _ h c1 a x); try done; [intros v _ Hne; cbn; by rewrite lookup_insert_ne|intros v Hv; cbn; rewrite lookup_insert_ne; [done|by intros <-]]. }
  destruct c2 as [|b c2]; cbn in y; [by rewrite app_nil_r|]. apply chain_app. split; [done|]. cbn [chain] in H2. destruct H2 as [_ H2]. apply (chain_frame m); [| |done].
  + intros v Hv. cbn. apply lookup_insert_ne. intros <-. rewrite app_comm_cons in Hnd. apply NoDup_app in Hnd as (_ & Hd & _). apply (Hd x); [done|by right].
  + intros v Hv. cbn. apply lookup_insert_ne. intros <-. apply NoDup_cons in Hnd as [Hh Hnd]. apply NoDup_app in Hnd as (_ & _ & Hd). apply NoDup_cons in Hd as [_ Hd]. apply NoDup_cons in Hd as [Hd _].
    apply elem_of_app in Hv as [Hv|Hv%list_elem_of_singleton]; [done|]. apply Hh. unfold y in Hv. set_solver.
Qed.

(** ** The operations on a ring *)
Lemma ring_nodes m h l a : ring m h l -> a ∈ h :: l.*1 -> is_Some (l_next m !! a) /\ is_Some (l_prev m !! a).
Proof.
  intros [_ Hc _] Ha. split; [by eapply chain_nodes|]. eapply chain_prevs; [exact Hc|]. apply elem_of_cons in Ha as [->|Ha]; apply elem_of_app; [right; by apply list_elem_of_singleton|by left].
Qed.

Lemma new_node_ok m h l d :
  ring m h l -> exists m' n, new_node m d = (m', n) /\ n ∉ h :: l.*1 /\ ring m' h l /\ l_data m' !! n = Some d /\ is_Some (l_next m' !! n) /\ is_Some (l_prev m' !! n) /\ l_freed m' = l_freed m.
Proof.
  intros Hr. unfold new_node. set (n := fresh _). assert (Hn : n ∉ {[0]} ∪ dom (l_next m) ∪ dom (l_prev m) ∪ dom (l_data m)) by apply is_fresh.
  assert (Hin : n ∉ h :: l.*1) by (intros Hi; apply (ring_nodes _ _ _ _ Hr) in Hi as [[z Hz%elem_of_dom_2] _]; set_solver).
  eexists _, n. split; [done|]. split; [done|]. split; [|cbn; rewrite !lookup_insert_eq; eauto]. destruct Hr as [R1 R2 R3]. split; [done| |].
  - apply (chain_frame m); [| |done].
    + intros a Ha. cbn. apply lookup_insert_ne. by intros <-.
    + intros a Ha. cbn. apply lookup_insert_ne. intros <-. apply Hin. apply elem_of_app in Ha as [Ha|Ha]; [by right|]. apply list_elem_of_singleton in Ha as ->. by left.
  - intros a d' Ha. cbn. rewrite lookup_insert_ne; [by apply R3|]. intros <-. apply R3 in Ha. apply elem_of_dom_2 in Ha. set_solver.
Qed.

Lemma ring_insert m h l1 l2 n d x y :
  ring m h (l1 ++ l2) -> n ∉ h :: (l1 ++ l2).*1 -> l_data m !! n = Some d -> last (h :: l1.*1) = Some x -> y = default h (head l2.*1) ->
  ring (linked m n x y) h (l1 ++ (n, d) :: l2).
Proof.
  intros [R1 R2 R3] Hn Hd Hx Hy. rewrite fmap_app in *. split.
  - rewrite fmap_app, fmap_cons. cbn [fst]. rewrite app_comm_cons in *. apply NoDup_app in R1 as (N1 & N2 & N3). apply NoDup_app. split; [done|]. split.
    + intros a Ha [->|Hb]%elem_of_cons; [apply Hn, elem_of_app; by left|by apply (N2 a)].
    + apply NoDup_cons. split; [|done]. intros Hi. apply Hn, elem_of_app. by right.
  - rewrite fmap_app, fmap_cons. by apply chain_insert.
  - intros a d' Ha. cbn. apply elem_of_app in Ha as [Ha|[[= -> ->]|Ha]%elem_of_cons]; [|done|]; apply R3, elem_of_app; auto.
Qed.

Lemma prepend_ok m L l d :
  ring m (list_head L) l -> exists m' n, nexus_list_prepend m L d = Some (m', 0) /\ ring m' (list_head L) ((n, d) :: l) /\ l_freed m' = l_freed m.
Proof.
  intros Hr. destruct (new_node_ok _ _ _ d Hr) as (m1 & n & Hnew & Hn & Hr1 & Hd & Hnn & Hnp & Hf). set (y := default (list_head L) (head l.*1)).
  assert (Hy : l_next m1 !! list_head L = Some y /\ y ∈ list_head L :: l.*1).
  { unfold y. pose proof (ri_chain _ _ _ Hr1) as Hc. destruct l as [|[b e] l]; cbn in *; [split; [apply Hc|by left]|]. destruct Hc as [[? _] _]. split; [done|right; by left]. }
  destruct Hy as [Hy Hyin]. unfold nexus_list_prepend. rewrite Hnew. rewrite (add_linked m1 n (list_head L) y Hy); [|by apply (ring_nodes _ _ _ y Hr1)|done|done|by intros ->].
  cbn [mbind option_bind]. exists (linked m1 n (list_head L) y), n. split; [done|]. split; [|done]. by apply (ring_insert m1 (list_head L) [] l).
Qed.

Lemma append_ok m L l d :
  ring m (list_head L) l -> exists m' n, nexus_list_append m L d = Some (m', 0) /\ ring m' (list_head L) (l ++ [(n, d)]) /\ l_freed m' = l_freed m.
Proof.
  intros Hr. destruct (new_node_ok _ _ _ d Hr) as (m1 & n & Hnew & Hn & Hr1 & Hd & Hnn & Hnp & Hf). destruct (last_cons_some (list_head L) l.*1) as [x Hx].
  destruct (chain_last _ _ _ _ _ (ri_chain _ _ _ Hr1) Hx) as [_ Hpx]. pose proof (last_in _ _ _ Hx) as Hxin.
  unfold nexus_list_append. rewrite Hnew. rewrite (add_tail_linked m1 n (list_head L) x Hpx); [|by apply (ring_nodes _ _ _ x Hr1)|done|done|by intros ->].
  cbn [mbind option_bind]. exists (linked m1 n x (list_head L)), n. split; [done|]. split; [|done]. apply (ring_insert m1 (list_head L) l []); rewrite ?app_nil_r; done.
Qed.

(** Taking a node out and freeing it. *)
Lemma node_unlink_ok m h l1 a d l2 :
  ring m h (l1 ++ (a, d) :: l2) ->
  exists m', list_del m a = Some m' /\ ring (free_node m' a) h (l1 ++ l2) /\ l_data m !! a = Some d /\ l_data m' = l_data m /\ l_freed m' = l_freed m /\ l_next m !! a = Some (default h (head l2.*1)).
Proof.
  intros [R1 R2 R3]. rewrite fmap_app, fmap_cons in R1, R2. cbn [fst] in *. destruct (chain_delete _ _ _ _ _ R2 R1) as (m' & x & y & Hx & Hy & Hdel & Hc & Hdt & Hfr & -> & _ & _).
  exists m'. split; [done|]. split; [|split; [apply R3, elem_of_app; right; by left|done]].
  assert (Ha : a ∉ h :: (l1 ++ l2).*1).
  { rewrite fmap_app. intros Hi. rewrite app_comm_cons in R1, Hi. apply NoDup_app in R1 as (_ & N2 & N3). apply NoDup_cons in N3 as [N3 _]. apply elem_of_app in Hi as [Hi|Hi]; [apply (N2 a Hi); by left|done]. }
  split.
  - rewrite fmap_app. rewrite app_comm_cons in R1 |- *. apply NoDup_app in R1 as (N1 & N2 & N3). apply NoDup_cons in N3 as [_ N3]. apply NoDup_app. split; [done|]. split; [|done]. intros b Hb Hb2. apply (N2 b Hb). by right.
  - apply (chain_frame m'); [| |by rewrite fmap_app].
    + intros b Hb. cbn. apply lookup_delete_ne. by intros <-.
    + intros b Hb. cbn. apply lookup_delete_ne. intros <-. apply Ha. apply elem_of_app in Hb as [Hb|Hb]; [by right|]. apply list_elem_of_singleton in Hb as ->. by left.
  - intros b e Hb. cbn. rewrite lookup_delete_ne.
    + rewrite Hdt. apply R3. apply elem_of_app in Hb as [Hb|Hb]; apply elem_of_app; [by left|right; by right].
    + intros <-. apply Ha. right. apply list_elem_of_fmap. by exists (a, e).
Qed.

Definition note_freed L (freed : list Z) (d : Z) : list Z := if deallocator L then freed ++ [d] else freed.

Lemma free_list_node_ok m L l1 a d l2 :
  ring m (list_head L) (l1 ++ (a, d) :: l2) -> exists m', free_list_node m L a = Some m' /\ ring m' (list_head L) (l1 ++ l2) /\ l_freed m' = note_freed L (l_freed m) d.
Proof.
  intros Hr. set (m1 := if deallocator L then mk_lmem (l_next m) (l_prev m) (l_data m) (l_freed m ++ [d]) else m).
  assert (Hr1 : ring m1 (list_head L) (l1 ++ (a, d) :: l2)).
  { unfold m1. destruct (deallocator L); [|done]. destruct Hr as [R1 R2 R3]. split; [done| |done]. apply (chain_frame m); done. }
  destruct (node_unlink_ok _ _ _ _ _ _ Hr1) as (m' & Hdel & Hr' & _ & _ & Hf & _). destruct (node_unlink_ok _ _ _ _ _ _ Hr) as (_ & _ & _ & Hd & _).
  unfold free_list_node. rewrite Hd. cbn [mbind option_bind]. change (if deallocator L then _ else m) with m1. rewrite Hdel. cbn [mbind option_bind]. eexists. split; [done|]. split; [done|].
  cbn. rewrite Hf. unfold m1, note_freed. by destruct (deallocator L).
Qed.

Lemma empty_ok m h l : ring m h l -> list_empty m h = Some (if l is [] then true else false).
Proof.
  intros [R1 R2 _]. unfold list_empty. destruct l as [|[a d] l]; cbn in *; [destruct R2 as [-> _]; cbn; by rewrite Z.eqb_refl|]. destruct R2 as [[-> _] _]. cbn. f_equal. apply Z.eqb_neq. intros ->. apply NoDup_cons in R1 as [R1 _]. apply R1. by left.
Qed.

Lemma pop_ok m L l :
  ring m (list_head L) l -> exists m' l', nexus_list_pop m L = Some (m', snd <$> last l) /\ ring m' (list_head L) l' /\ l'.*2 = take (length l - 1) l.*2 /\ l_freed m' = l_freed m.
Proof.
  intros Hr. unfold nexus_list_pop. rewrite (empty_ok _ _ _ Hr). cbn [mbind option_bind]. destruct l as [|p l0] using rev_ind; [by exists m, []|]. clear IHl0. destruct p as [a d].
  assert (Hne : (if l0 ++ [(a, d)] is [] then true else false) = false) by (by destruct l0). rewrite Hne.
  assert (Hpa : l_prev m !! list_head L = Some a).
  { apply (chain_last _ _ _ _ a (ri_chain _ _ _ Hr)). rewrite fmap_app. cbn [fmap list_fmap fst]. by rewrite app_comm_cons, last_snoc. }
  rewrite Hpa. cbn [mbind option_bind]. destruct (node_unlink_ok _ _ _ _ _ _ Hr) as (m' & Hdel & Hr' & Hd & Hdt & Hf & _). rewrite Hdel. cbn [mbind option_bind]. rewrite Hdt, Hd. cbn [mbind option_bind].
  rewrite app_nil_r in Hr'. exists (free_node m' a), l0. rewrite last_snoc. split; [done|]. split; [done|]. split; [|done]. rewrite fmap_app, length_app. cbn [length fmap list_fmap]. rewrite Nat.add_sub. rewrite take_app_le by (rewrite length_fmap; lia).
  by rewrite take_ge by (rewrite length_fmap; lia).
Qed.

Lemma get_from_ok m h l1 l2 pos :
  ring m h (l1 ++ l2) -> list_get_from m h (default h (head l2.*1)) pos = Some (snd <$> l2 !! pos).
Proof.
  revert l1 l2. induction pos as [|pos IH]; intros l1 l2 Hr; destruct l2 as [|[a d] l2]; cbn [list_get_from fmap list_fmap head default fst]; try (cbn; by rewrite Z.eqb_refl).
  all: assert (Hah : (a =? h) = false) by (apply Z.eqb_neq; intros ->; pose proof (ri_nodup _ _ _ Hr) as Hnd; rewrite fmap_app in Hnd; apply NoDup_cons in Hnd as [Hnd _]; apply Hnd, elem_of_app; right; by left).
  all: cbn [from_option id]; rewrite Hah.
  - rewrite (ri_data _ _ _ Hr a d) by (apply elem_of_app; right; by left). done.
  - destruct (node_unlink_ok _ _ _ _ _ _ Hr) as (_ & _ & _ & _ & _ & _ & Hn). rewrite Hn. cbn [mbind option_bind]. apply (IH (l1 ++ [(a, d)])). by rewrite <- app_assoc.
Qed.

Lemma ring_first m h l : ring m h l -> l_next m !! h = Some (default h (head l.*1)).
Proof. intros [_ Hc _]. destruct l as [|[a d] l]; cbn in *; [apply Hc|by destruct Hc as [[? _] _]]. Qed.

Lemma get_ok m L l pos : ring m (list_head L) l -> nexus_list_get m L pos = Some (snd <$> l !! pos).
Proof. intros Hr. unfold nexus_list_get. rewrite (ring_first _ _ _ Hr). cbn [mbind option_bind]. by apply (get_from_ok m (list_head L) [] l). Qed.

Lemma destroy_ok n m L l :
  ring m (list_head L) l -> (length l < n)%nat -> exists m', nexus_list_destroy n m L = Some m' /\ ring m' (list_head L) [] /\ l_freed m' = (if deallocator L then l_freed m ++ l.*2 else l_freed m).
Proof.
  revert m l. induction n as [|n IH]; intros m l Hr Hl; [lia|]. cbn [nexus_list_destroy]. rewrite (empty_ok _ _ _ Hr). cbn [mbind option_bind]. destruct l as [|[a d] l].
  - exists m. split; [done|]. split; [done|]. cbn. rewrite app_nil_r. by destruct (deallocator L).
  - rewrite (ring_first _ _ _ Hr). cbn [mbind option_bind fmap list_fmap head fst default from_option id]. destruct (free_list_node_ok m L [] a d l Hr) as (m1 & -> & Hr1 & Hf1). cbn [mbind option_bind].
    destruct (IH m1 l Hr1) as (m' & -> & Hr' & Hf'); [cbn in Hl; lia|]. exists m'. split; [done|]. split; [done|]. rewrite Hf', Hf1. unfold note_freed. destruct (deallocator L); [|done]. by rewrite <- app_assoc.
Qed.

(** ** Iterating *)
(** The loop the clients write: every element is looked at, and deleted when
    [p] holds of it.  One turn per element, and one more. *)
Fixpoint sweep (n : nat) m it (p : Z -> bool) : option (lmem * nexus_list_iterator) :=
  match n with
  | O => None
  | S n =>
      if negb (list_iterator_is_valid it) then Some (m, it)
      else
        d ← list_iterator_get m it;
        d ← d;
        if p d then '(m, it, _) ← list_iterator_del m it; sweep n m it p else it ← list_iterator_next m it; sweep n m it p
  end.

Definition keeps (p : Z -> bool) l : list (Z * Z) := filter (fun e : Z * Z => p e.2 = false) l.
Definition taken (p : Z -> bool) (l : list Z) : list Z := filter (fun d => p d = true) l.

Lemma sweep_ok n m L l1 l2 p :
  ring m (list_head L) (l1 ++ l2) -> (length l2 < n)%nat ->
  exists m' it', sweep n m (mk_iter L (default (list_head L) (head l2.*1))) p = Some (m', it') /\ ring m' (list_head L) (l1 ++ keeps p l2) /\
    l_freed m' = (if deallocator L then l_freed m ++ taken p l2.*2 else l_freed m).
Proof.
  revert m l1 l2. induction n as [|n IH]; intros m l1 l2 Hr Hl; [lia|]. cbn [sweep]. unfold list_iterator_is_valid, list_iterator_get, list_iterator_del, list_iterator_next. cbn [it_curr it_list].
  destruct l2 as [|[a d] l2].
  { cbn. rewrite Z.eqb_refl. cbn. exists m, (mk_iter L (list_head L)). split; [done|]. split; [done|]. rewrite app_nil_r. by destruct (deallocator L). }
  cbn [fmap list_fmap head fst default from_option id].
  assert (Hah : (a =? list_head L) = false) by (apply Z.eqb_neq; intros ->; pose proof (ri_nodup _ _ _ Hr) as Hnd; rewrite fmap_app in Hnd; apply NoDup_cons in Hnd as [Hnd _]; apply Hnd, elem_of_app; right; by left).
  rewrite Hah. cbn [negb]. rewrite (ri_data _ _ _ Hr a d) by (apply elem_of_app; right; by left). cbn [mbind option_bind].
  destruct (node_unlink_ok _ _ _ _ _ _ Hr) as (_ & _ & _ & _ & _ & _ & Hn). rewrite Hn. cbn [mbind option_bind]. unfold keeps, taken. cbn [fmap list_fmap snd]. rewrite !filter_cons. cbn [snd]. cbn [length] in Hl.
  destruct (p d) eqn:Hp; cbn [decide]; rewrite ?decide_True, ?decide_False by done.
  - destruct (free_list_node_ok m L l1 a d l2 Hr) as (m1 & -> & Hr1 & Hf1). cbn [mbind option_bind].
    destruct (IH m1 l1 l2 Hr1) as (m' & it' & -> & Hr' & Hf'); [lia|]. exists m', it'. split; [done|]. split; [done|]. rewrite Hf', Hf1. unfold note_freed, taken. destruct (deallocator L); [|done]. by rewrite <- app_assoc.
  - destruct (IH m (l1 ++ [(a, d)]) l2) as (m' & it' & -> & Hr' & Hf'); [by rewrite <- app_assoc|lia|]. exists m', it'. split; [done|]. split; [by rewrite <- app_assoc in Hr'|done].
Qed.

(** ** Sequences of operations *)
Inductive list_op := Prepend (d : Z) | Append (d : Z) | Pop | Get (pos : nat) | Sweep (p : Z -> bool) | Destroy.

(** [n] is the number of turns a loop may take. *)
Definition list_step (n : nat) m L (o : list_op) : option (lmem * option Z) :=
  match o with
  | Prepend d => '(m, _) ← nexus_list_prepend m L d; Some (m, None)
  | Append d => '(m, _) ← nexus_list_append m L d; Some (m, None)
  | Pop => nexus_list_pop m L
  | Get pos => r ← nexus_list_get m L pos; Some (m, r)
  | Sweep p => it ← list_iterator_new m L; '(m, _) ← sweep n m it p; Some (m, None)
  | Destroy => m ← nexus_list_destroy n m L; Some (m, None)
  end.

(** The same on a list of elements: what is left, what is returned and what is
    handed to the deallocator. *)
Definition spec_list_step (l : list Z) (o : list_op) : list Z * option Z * list Z :=
  match o with
  | Prepend d => (d :: l, None, [])
  | Append d => (l ++ [d], None, [])
  | Pop => (take (length l - 1) l, last l, [])
  | Get pos => (l, l !! pos, [])
  | Sweep p => (filter (fun d => p d = false) l, None, taken p l)
  | Destroy => ([], None, l)
  end.

Fixpoint list_run (n : nat) m L (ops : list list_op) : option (lmem * list (option Z)) :=
  match ops with
  | [] => Some (m, [])
  | o :: ops => '(m, r) ← list_step n m L o; '(m, rs) ← list_run n m L ops; Some (m, r :: rs)
  end.
Fixpoint spec_list_run (l : list Z) (ops : list list_op) : list Z * list (option Z) * list Z :=
  match ops with
  | [] => (l, [], [])
  | o :: ops => let '(l, r, f) := spec_list_step l o in let '(l, rs, fs) := spec_list_run l ops in (l, r :: rs, f ++ fs)
  end.

Lemma filter_snd p l : (keeps p l).*2 = filter (fun d => p d = false) l.*2.
Proof. unfold keeps. induction l as [|[a d] l IH]; [done|]. cbn [fmap list_fmap snd]. rewrite !filter_cons. cbn [snd]. destruct (decide (p d = false)); cbn; by rewrite <- IH. Qed.

Lemma list_step_ok n m L l o :
  ring m (list_head L) l -> (length l < n)%nat ->
  exists m' l' (r : option Z), list_step n m L o = Some (m', r) /\ ring m' (list_head L) l' /\
    spec_list_step l.*2 o = (l'.*2, r, (spec_list_step l.*2 o).2) /\ l_freed m' = (if deallocator L then l_freed m ++ (spec_list_step l.*2 o).2 else l_freed m) /\ (length l' <= S (length l))%nat.
Proof.
  intros Hr Hl. assert (Hsame : forall f : list Z, f = (if deallocator L then f ++ [] else f)) by (intros f; rewrite app_nil_r; by destruct (deallocator L)).
  destruct o as [d|d| |pos|p|]; cbn [list_step spec_list_step fst snd].
  - destruct (prepend_ok m L l d Hr) as (m' & a & -> & Hr' & Hf). exists m', ((a, d) :: l), None. rewrite Hf. auto 6.
  - destruct (append_ok m L l d Hr) as (m' & a & -> & Hr' & Hf). exists m', (l ++ [(a, d)]), None. rewrite Hf. split; [done|]. split; [done|]. split; [by rewrite fmap_app|]. split; [done|]. rewrite length_app. cbn. lia.
  - destruct (pop_ok m L l Hr) as (m' & l' & -> & Hr' & Hl' & Hf). exists m', l', (snd <$> last l). rewrite Hf, Hl', length_fmap, fmap_last. split; [done|]. split; [done|]. split; [done|]. split; [done|].
    apply (f_equal length) in Hl'. rewrite length_take, !length_fmap in Hl'. lia.
  - rewrite (get_ok m L l pos Hr). exists m, l, (snd <$> l !! pos). rewrite list_lookup_fmap. auto 6.
  - unfold list_iterator_new. rewrite (ring_first _ _ _ Hr). cbn [mbind option_bind]. destruct (sweep_ok n m L [] l p Hr Hl) as (m' & it' & -> & Hr' & Hf). exists m', (keeps p l), None. rewrite filter_snd, Hf.
    split; [done|]. split; [done|]. split; [done|]. split; [done|]. unfold keeps. pose proof (length_filter (fun x : Z * Z => p x.2 = false) l). lia.
  - destruct (destroy_ok n m L l Hr Hl) as (m' & -> & Hr' & Hf). exists m', [], None. rewrite Hf. cbn. split; [done|]. split; [done|]. split; [done|]. split; [done|lia].
Qed.

Lemma list_run_ok n m L l ops :
  ring m (list_head L) l -> (length l + length ops < n)%nat ->
  exists m' l', list_run n m L ops = Some (m', (spec_list_run l.*2 ops).1.2) /\ ring m' (list_head L) l' /\ l'.*2 = (spec_list_run l.*2 ops).1.1 /\
    l_freed m' = (if deallocator L then l_freed m ++ (spec_list_run l.*2 ops).2 else l_freed m).
Proof.
  revert m l. induction ops as [|o ops IH]; intros m l Hr Hn; cbn [list_run spec_list_run length] in *.
  { exists m, l. split; [done|]. split; [done|]. split; [done|]. cbn. rewrite app_nil_r. by destruct (deallocator L). }
  destruct (list_step_ok n m L l o Hr) as (m1 & l1 & r & -> & Hr1 & Hs & Hf1 & Hl1); [lia|]. cbn [mbind option_bind]. rewrite Hs.
  destruct (IH m1 l1 Hr1) as (m' & l' & Hrun & Hr' & Hl' & Hf'); [lia|]. rewrite Hrun. cbn [mbind option_bind]. destruct (spec_list_run l1.*2 ops) as [[l2 rs] fs]. cbn [fst snd] in *.
  exists m', l'. split; [done|]. split; [done|]. split; [done|]. rewrite Hf', Hf1. destruct (deallocator L); [|done]. by rewrite <- app_assoc.
Qed.

(** C25: The pointer-linked list behaves as a list.  From [nexus_list_init] on,
    every sequence of prepends, appends, pops, reads by position, iterations
    that delete elements on the way, and destructions returns what the same
    operations on a list of elements return, never touches a freed or foreign
    node, ends every loop within one turn per element and one more, keeps the
    ring closed in both directions, and calls the deallocator, when one is
    set, on exactly the elements that were deleted, in order. *)
Theorem nexus_list_refines m h m1 L (dealloc : bool) ops n :
  is_Some (l_next m !! h) -> is_Some (l_prev m !! h) -> nexus_list_init m h = Some (m1, L) -> (length ops < n)%nat ->
  let L' := if dealloc then nexus_list_set_deallocator L else L in
  exists m' l', list_run n m1 L' ops = Some (m', (spec_list_run [] ops).1.2) /\ ring m' h l' /\ l'.*2 = (spec_list_run [] ops).1.1 /\
    l_freed m' = (if dealloc then l_freed m ++ (spec_list_run [] ops).2 else l_freed m).
Proof.
  intros [x Hx] [y Hy] Hinit Hn L'. unfold nexus_list_init, INIT_LIST_HEAD, set_next, set_prev in Hinit. rewrite Hx in Hinit. cbn [mbind option_bind l_prev] in Hinit. rewrite Hy in Hinit. cbn in Hinit. injection Hinit as <- <-.
  set (m1 := mk_lmem _ _ _ _). assert (Hr : ring m1 h []).
  { split; [apply NoDup_singleton|split; cbn; apply lookup_insert_eq|]. by intros a d ?%not_elem_of_nil. }
  assert (HL : list_head L' = h /\ deallocator L' = dealloc) by (unfold L'; by destruct dealloc). destruct HL as [H1 H2].
  destruct (list_run_ok n m1 L' [] ops) as (m' & l' & Hrun & Hr' & Hl' & Hf); [by rewrite H1|cbn; lia|]. rewrite H1 in Hr'. rewrite H2 in Hf. by exists m', l'.
Qed.

(** Two lists' worth of operations: elements come out of a ring of nodes that
    is taken apart while it is walked. *)
Lemma nexus_list_refines_witness :
  let ops := [Append 5; Append 6; Prepend 4; Append 7; Get 2; Sweep Z.even; Get 0; Pop; Append 8; Destroy; Get 0] in
  exists m' l', list_run 20 (mk_lmem {[9 := 9]} {[9 := 9]} ∅ []) (mk_list 9 true) ops = Some (m', [None; None; None; None; Some 6; None; Some 5; Some 7; None; None; None]) /\
    ring m' 9 l' /\ l'.*2 = [] /\ l_freed m' = [4; 6; 5; 8].
Proof.
  intros ops.
  destruct (nexus_list_refines (mk_lmem {[9 := 0]} {[9 := 0]} ∅ []) 9 (mk_lmem {[9 := 9]} {[9 := 9]} ∅ []) (mk_list 9 false) true ops 20) as (m' & l' & H1 & H2 & H3 & H4).
  - by exists 0.
  - by exists 0.
  - vm_compute. reflexivity.
  - cbn. lia.
  - exists m', l'. vm_compute in H1, H3, H4. done.
Defined.
End rings.

(** ** The ring buffer *)
Section ringbuf.
Implicit Types (q : list bytes).

(** The items of the queue lie from [head] on, around the end. *)
Record queued r q : Prop := {
  qu_len : length (rb_buf r) = rb_capacity r;
  qu_count : item_count r = length q;
  qu_room : (length q <= rb_capacity r)%nat;
  qu_head : (rb_head r < rb_capacity r)%nat \/ rb_capacity r = 0%nat;
  qu_tail : rb_tail r = ((rb_head r + length q) mod rb_capacity r)%nat;
  qu_items : forall i d, q !! i = Some d -> rb_buf r !! ((rb_head r + i) mod rb_capacity r)%nat = Some d
}.

Lemma wrap_next (x c : nat) : (x < c)%nat -> (if (S x =? c)%nat then 0%nat else S x) = (S x mod c)%nat.
Proof. intros Hx. destruct (Nat.eqb_spec (S x) c) as [<-|Hne]; [by rewrite Nat.Div0.mod_same|by rewrite Nat.mod_small by lia]. Qed.

Lemma wrap_mod (x c : nat) : (c <= x < 2 * c)%nat -> (x mod c = x - c)%nat.
Proof. intros Hx. replace x with (x - c + 1 * c)%nat at 1 by lia. rewrite Nat.Div0.mod_add. apply Nat.mod_small. lia. Qed.

Lemma create_queued size cap : queued (nexus_ringbuf_create size cap) [].
Proof. split; cbn; try done; [apply length_replicate|lia|lia|]. destruct cap; [done|by rewrite Nat.mod_small by lia]. Qed.

Lemma enqueue_ok r q d :
  queued r q -> exists r', nexus_ringbuf_enqueue r d = (r', negb (length q =? rb_capacity r)%nat) /\ queued r' (if (length q =? rb_capacity r)%nat then q else q ++ [d]) /\ rb_capacity r' = rb_capacity r.
Proof.
  intros Hq. pose proof Hq as [Q1 Q2 Q3 Q4 Q5 Q6]. unfold nexus_ringbuf_enqueue. rewrite Q2. destruct (Nat.eqb_spec (length q) (rb_capacity r)) as [Hf|Hf]; [by exists r|]. eexists. split; [done|]. split; [|done].
  assert (Hc : (0 < rb_capacity r)%nat) by lia. assert (Htl : (rb_tail r < rb_capacity r)%nat) by (rewrite Q5; apply Nat.mod_upper_bound; lia).
  assert (Hh : (rb_head r < rb_capacity r)%nat) by lia. split; cbn [rb_buf rb_capacity item_count rb_head rb_tail].
  - by rewrite length_insert.
  - rewrite length_app. cbn. lia.
  - rewrite length_app. cbn. lia.
  - by left.
  - rewrite wrap_next by done. rewrite Q5, length_app. cbn. rewrite <- Nat.add_1_l, Nat.Div0.add_mod_idemp_r. f_equal. lia.
  - intros i x Hi. apply lookup_app_Some in Hi as [Hi|[Hi Hx]].
    + pose proof (lookup_lt_Some _ _ _ Hi) as Hlt. rewrite list_lookup_insert_ne; [by apply Q6|]. rewrite Q5. intros Hi'.
      destruct (Nat.lt_ge_cases (rb_head r + i) (rb_capacity r)), (Nat.lt_ge_cases (rb_head r + length q) (rb_capacity r));
        rewrite ?(wrap_mod (rb_head r + i)), ?(wrap_mod (rb_head r + length q)), ?(Nat.mod_small (rb_head r + i)), ?(Nat.mod_small (rb_head r + length q)) in Hi' by lia; lia.
    + apply list_lookup_singleton_Some in Hx as [Hi0 ->]. replace i with (length q) by lia. rewrite <- Q5. apply list_lookup_insert_eq. by rewrite Q1.
Qed.

Lemma dequeue_ok r q : queued r q -> exists r', nexus_ringbuf_dequeue r = Some (r', head q) /\ queued r' (tail q) /\ rb_capacity r' = rb_capacity r.
Proof.
  intros Hq. pose proof Hq as [Q1 Q2 Q3 Q4 Q5 Q6]. unfold nexus_ringbuf_dequeue. rewrite Q2. destruct q as [|d q]; cbn [length]; [by exists r|]. change (S (length q) =? 0)%nat with false. cbn [length] in *. cbn match.
  assert (Hh : (rb_head r < rb_capacity r)%nat) by lia. pose proof (Q6 0%nat d eq_refl) as H0. rewrite Nat.add_0_r, Nat.mod_small in H0 by done. rewrite H0. cbn [mbind option_bind head tail].
  eexists. split; [done|]. split; [|done]. rewrite wrap_next by done. split; cbn [rb_buf rb_capacity item_count rb_head rb_tail].
  - done.
  - lia.
  - lia.
  - left. apply Nat.mod_upper_bound. lia.
  - rewrite Q5, Nat.Div0.add_mod_idemp_l. f_equal. lia.
  - intros i x Hi. rewrite Nat.Div0.add_mod_idemp_l. replace (S (rb_head r) + i)%nat with (rb_head r + S i)%nat by lia. by apply Q6.
Qed.
End ringbuf.
