(* ===== verification/Hashtable.v ===== *)
(** * The hash table under the caches

    Models [libnexus_trusted/nexus_hashtable.c]: the chained hash table that
    holds the buffers, the LRU nodes and the hardlink counts.  A chain is a
    list, an iterator is a bucket and a position in its chain (the position
    before it is the source's [parent]).  Keys and their comparison are those
    of the caller; values are 64-bit words.  [htable_refines_map] and
    [htable_walk_all] are what the files that use a finite map, or an iteration
    order of one, rely on. *)
From S2P Require Import Prelude.

(** ** Hash functions *)
(** [do_hash] on the caller's hash [i]. *)
Definition spread_hash (i : Z) : Z :=
  let i := u32 (i + u32 (Z.lnot (u32 (Z.shiftl i 9)))) in
  let i := Z.lxor i (Z.lor (Z.shiftr i 14) (u32 (Z.shiftl i 18))) in
  let i := u32 (i + u32 (Z.shiftl i 4)) in
  Z.lxor i (Z.lor (Z.shiftr i 10) (u32 (Z.shiftl i 22))).

Definition nexus_hash_ptr (val : Z) : Z :=
  let hash := val in let n := u64 (Z.shiftl hash 18) in
  let hash := hash -64 n in let n := u64 (Z.shiftl n 33) in
  let hash := hash -64 n in let n := u64 (Z.shiftl n 3) in
  let hash := hash +64 n in let n := u64 (Z.shiftl n 3) in
  let hash := hash -64 n in let n := u64 (Z.shiftl n 4) in
  let hash := hash +64 n in let n := u64 (Z.shiftl n 2) in
  let hash := hash +64 n in
  u32 (Z.shiftr hash 32).

Fixpoint hash_buffer_loop (msg : bytes) (i hash : Z) : Z :=
  match msg with
  | [] => hash
  | c :: msg =>
      let hash := u32 (u32 (Z.shiftl hash 4) + c + i) in
      let temp := Z.land hash 0xF0000000 in
      let hash := if temp =? 0 then hash else Z.lxor hash (Z.shiftr temp 24) in
      hash_buffer_loop msg (i + 1) (Z.ldiff hash temp)
  end.
Definition nexus_hash_buffer (msg : bytes) : Z := hash_buffer_loop msg 0 0.

Definition primes : list Z :=
  [53; 97; 193; 389; 769; 1543; 3079; 6151; 12289; 24593; 49157; 98317; 196613; 393241;
   786433; 1572869; 3145739; 6291469; 12582917; 25165843; 50331653;
   100663319; 201326611; 402653189; 805306457; 1610612741].
Definition load_factors : list Z :=
  [35; 64; 126; 253; 500; 1003; 2002; 3999; 7988;
   15986; 31953; 63907; 127799; 255607; 511182; 1022365; 2044731; 4089455;
   8178897; 16357798; 32715575; 65431158; 130862298; 261724573; 523449198; 1046898282].
Definition prime_table_len : nat := length primes.

Section table.
Context {K : Type} (hash_fn : K -> Z) (eq_fn : K -> K -> bool).

Record hash_entry := mk_hentry { h_key : K; h_value : Z; h_hash : Z }.
Record nexus_hashtable := mk_htable {
  ht_table : list (list hash_entry);
  table_length : Z;
  entry_count : Z;
  load_limit : Z;
  prime_index : nat
}.
Implicit Types (h : nexus_hashtable).

Definition do_hash (k : K) : Z := spread_hash (hash_fn k).
Definition indexFor (table_length hash_value : Z) : Z := hash_value mod table_length.

(** [ok1] and [ok2] are whether the two allocations succeed; [None] is NULL. *)
Definition nexus_create_htable (min_size : Z) (ok1 ok2 : bool) : option nexus_hashtable :=
  if 2 ^ 30 <? min_size then None
  else
    let '(i, size) := default (prime_table_len, 53) (list_find (fun p => min_size < p) primes) in
    if negb ok1 || negb ok2 then None
    else Some (mk_htable (replicate (Z.to_nat size) []) size 0 (default 0 (load_factors !! i)) i).

(** Putting an entry in front of its chain. *)
Definition push (len : Z) (t : list (list hash_entry)) (e : hash_entry) : list (list hash_entry) :=
  alter (cons e) (Z.to_nat (indexFor len (h_hash e))) t.

(** Chains are emptied from their head, bucket by bucket.  When [calloc] fails
    the old table is reallocated, and [memset] is called with an element of the
    new table instead of its address: [None]. *)
Definition hashtable_expand h (calloc realloc : bool) : option (nexus_hashtable * Z) :=
  if (prime_index h =? prime_table_len - 1)%nat then Some (h, 0)
  else
    let i := S (prime_index h) in
    let new_size := default 0 (primes !! i) in
    if calloc then
      Some (mk_htable (foldl (push new_size) (replicate (Z.to_nat new_size) []) (concat (ht_table h))) new_size (entry_count h)
              (default 0 (load_factors !! i)) i, -1)
    else if realloc then None
    else Some (h, 0).

Definition nexus_htable_count h : Z := entry_count h.

(** [mem] is whether the entry, the new table and the reallocated one can be
    had. *)
Definition nexus_htable_insert h (k : K) (v : Z) (mem : bool * bool * bool) : option (nexus_hashtable * Z) :=
  let '(entry, calloc, realloc) := mem in
  let h := mk_htable (ht_table h) (table_length h) (u32 (entry_count h + 1)) (load_limit h) (prime_index h) in
  h ← (if load_limit h <? entry_count h then fst <$> hashtable_expand h calloc realloc else Some h);
  Some (if negb entry then (mk_htable (ht_table h) (table_length h) (u32 (entry_count h - 1)) (load_limit h) (prime_index h), 0)
        else (mk_htable (push (table_length h) (ht_table h) (mk_hentry k v (do_hash k))) (table_length h) (entry_count h) (load_limit h)
                (prime_index h), -1)).

(** The loop over a chain: where the key is. *)
Fixpoint chain_find (k : K) (chain : list hash_entry) : option (nat * hash_entry) :=
  match chain with
  | [] => None
  | e :: chain =>
      if (do_hash k =? h_hash e) && eq_fn k (h_key e) then Some (O, e)
      else (fun r => (S r.1, r.2)) <$> chain_find k chain
  end.

Definition bucket_of h (k : K) : nat := Z.to_nat (indexFor (table_length h) (do_hash k)).

(** Bucket, position and entry of a key. *)
Definition htable_find h (k : K) : option (nat * nat * hash_entry) :=
  chain ← ht_table h !! bucket_of h k;
  '(p, e) ← chain_find k chain;
  Some (bucket_of h k, p, e).

Definition set_value (v : Z) (e : hash_entry) : hash_entry := mk_hentry (h_key e) v (h_hash e).
Definition with_table h (t : list (list hash_entry)) : nexus_hashtable :=
  mk_htable t (table_length h) (entry_count h) (load_limit h) (prime_index h).

(** -1 when the key was found. *)
Definition update_value h (k : K) (f : Z -> Z) : nexus_hashtable * Z :=
  match htable_find h k with
  | Some (i, p, e) => (with_table h (alter (alter (set_value (f (h_value e))) p) i (ht_table h)), -1)
  | None => (h, 0)
  end.
Definition nexus_htable_change h (k : K) (v : Z) : nexus_hashtable * Z := update_value h k (fun _ => v).
Definition nexus_htable_inc h (k : K) (v : Z) : nexus_hashtable * Z := update_value h k (fun x => x +64 v).
Definition nexus_htable_dec h (k : K) (v : Z) : nexus_hashtable * Z := update_value h k (fun x => x -64 v).

(** NULL when the key is not there. *)
Definition nexus_htable_search h (k : K) : Z :=
  match htable_find h k with Some (_, _, e) => h_value e | None => 0 end.

Definition unlink h (i p : nat) : nexus_hashtable :=
  mk_htable (alter (delete p) i (ht_table h)) (table_length h) (u32 (entry_count h - 1)) (load_limit h) (prime_index h).

Definition nexus_htable_cond_remove h (k : K) (cond_func : option (Z -> bool)) : nexus_hashtable * Z :=
  match htable_find h k with
  | Some (i, p, e) =>
      if (if cond_func is Some f then negb (f (h_value e)) else false) then (h, 0) else (unlink h i p, h_value e)
  | None => (h, 0)
  end.
Definition nexus_htable_remove h (k : K) : nexus_hashtable * Z := nexus_htable_cond_remove h k None.

(** ** Iterators *)
(** [it_pos = None] is an entry of NULL. *)
Record nexus_hashtable_iter := mk_hiter { it_index : nat; it_pos : option nat }.
Implicit Types (it : nexus_hashtable_iter).

(** The first bucket from [i] on that is not empty; the end of the table when
    there is none. *)
Fixpoint next_bucket (t : list (list hash_entry)) (i : nat) : nexus_hashtable_iter :=
  match t with
  | [] => mk_hiter i None
  | [] :: t => next_bucket t (S i)
  | _ :: _ => mk_hiter i (Some O)
  end.

Definition nexus_htable_create_iter h : nexus_hashtable_iter :=
  if entry_count h =? 0 then mk_hiter (length (ht_table h)) None else next_bucket (ht_table h) 0.

Definition iter_entry h it : option hash_entry :=
  p ← it_pos it; chain ← ht_table h !! it_index it; chain !! p.

(** Reading through an entry of NULL is a fault. *)
Definition nexus_htable_get_iter_key h it : option K := h_key <$> iter_entry h it.
Definition nexus_htable_get_iter_value h it : option Z := h_value <$> iter_entry h it.

Definition iter_ret it : nexus_hashtable_iter * Z := (it, if it_pos it is Some _ then -1 else 0).

(** On to the position [p] of the chain of [it], or to the next bucket. *)
Definition iter_to h it (p : nat) : nexus_hashtable_iter * Z :=
  match ht_table h !! it_index it ≫= (.!! p) with
  | Some _ => (mk_hiter (it_index it) (Some p), -1)
  | None => iter_ret (next_bucket (drop (S (it_index it)) (ht_table h)) (S (it_index it)))
  end.

Definition nexus_htable_iter_advance h it : nexus_hashtable_iter * Z :=
  match it_pos it with
  | None => (it, 0)
  | Some p => iter_to h it (S p)
  end.

(** The entry leaves its chain, and the one after it takes its position. *)
Definition nexus_htable_iter_remove h it : option (nexus_hashtable * nexus_hashtable_iter * Z) :=
  _ ← iter_entry h it; p ← it_pos it;
  let h := unlink h (it_index it) p in
  let '(it, ret) := iter_to h it p in Some (h, it, ret).

Definition nexus_htable_iter_search it h (k : K) : nexus_hashtable_iter * Z :=
  match htable_find h k with
  | Some (i, p, _) => (mk_hiter i (Some p), -1)
  | None => (it, 0)
  end.

(** The callers' loop: [do ... while (nexus_htable_iter_advance(iter))]. *)
Fixpoint htable_walk (n : nat) h it : option (list hash_entry) :=
  match n with
  | O => None
  | S n =>
      e ← iter_entry h it;
      let '(it, ret) := nexus_htable_iter_advance h it in
      if ret =? 0 then Some [e] else es ← htable_walk n h it; Some (e :: es)
  end.
End table.

Arguments hash_entry K : clear implicits.
Arguments nexus_hashtable K : clear implicits.

(** ** The table is a finite map *)
Section refinement.
Context `{Countable K} (hash_fn : K -> Z) (eq_fn : K -> K -> bool).
Hypothesis (eq_fn_spec : forall a b, eq_fn a b = true <-> a = b).
Implicit Types (h : nexus_hashtable K) (m : gmap K Z) (t : list (list (hash_entry K))).

Definition binding (e : hash_entry K) : K * Z := (h_key e, h_value e).

(** Every entry is in the bucket of its hash, and the entries are the bindings
    of [m]. *)
Record ht_repr h m : Prop := {
  hr_length : table_length h = Z.of_nat (length (ht_table h));
  hr_prime : primes !! prime_index h = Some (table_length h);
  hr_limit : load_factors !! prime_index h = Some (load_limit h);
  hr_place : forall i chain e, ht_table h !! i = Some chain -> e ∈ chain ->
    h_hash e = do_hash hash_fn (h_key e) /\ i = bucket_of hash_fn h (h_key e);
  hr_map : binding <$> concat (ht_table h) ≡ₚ map_to_list m;
  hr_count : entry_count h = Z.of_nat (size m)
}.

Lemma primes_positive i p : primes !! i = Some p -> 0 < p.
Proof.
  intros Hp. assert (Hall : Forall (fun p => 0 < p) primes) by (unfold primes; repeat constructor).
  by eapply Forall_lookup_1 in Hall; [|exact Hp].
Qed.

Lemma htable_bucket_lt h m k : ht_repr h m -> (bucket_of hash_fn h k < length (ht_table h))%nat.
Proof.
  intros Hr. pose proof (primes_positive _ _ (hr_prime _ _ Hr)). pose proof (hr_length _ _ Hr) as Hl.
  unfold bucket_of, indexFor. pose proof (Z.mod_pos_bound (do_hash hash_fn k) (table_length h)). lia.
Qed.

(** *** Changing one chain *)
(** The other chains. *)
Definition others t (i : nat) : list (hash_entry K) := concat (take i t ++ drop (S i) t).

Lemma concat_split t i chain : t !! i = Some chain -> concat t ≡ₚ chain ++ others t i.
Proof.
  intros Hi. rewrite <- (take_drop_middle t i chain Hi) at 1. unfold others. rewrite !concat_app. cbn [concat].
  by rewrite app_assoc, (Permutation_app_comm _ chain), <- app_assoc.
Qed.

Lemma concat_alter t i chain f : t !! i = Some chain -> concat (alter f i t) ≡ₚ f chain ++ others t i.
Proof.
  intros Hi. rewrite (concat_split (alter f i t) i (f chain)); [|by rewrite list_lookup_alter_eq, Hi].
  unfold others. rewrite take_alter_ge, drop_alter_lt by lia. done.
Qed.

(** The entries of a changed table are in place if those of the chain are. *)
Lemma place_alter h t' i chain f :
  (forall i chain e, ht_table h !! i = Some chain -> e ∈ chain -> h_hash e = do_hash hash_fn (h_key e) /\ i = bucket_of hash_fn h (h_key e)) ->
  t' = alter f i (ht_table h) -> ht_table h !! i = Some chain ->
  (forall e, e ∈ f chain -> h_hash e = do_hash hash_fn (h_key e) /\ i = bucket_of hash_fn h (h_key e)) ->
  forall j c e, t' !! j = Some c -> e ∈ c -> h_hash e = do_hash hash_fn (h_key e) /\ j = bucket_of hash_fn h (h_key e).
Proof.
  intros Hp -> Hi Hf j c e Hj He. destruct (decide (j = i)) as [->|Hne].
  - rewrite list_lookup_alter_eq, Hi in Hj. injection Hj as <-. auto.
  - rewrite list_lookup_alter_ne in Hj by done. eauto.
Qed.

(** *** Searching *)
Lemma chain_find_some k chain p e :
  Forall (fun e => h_hash e = do_hash hash_fn (h_key e)) chain -> chain_find hash_fn eq_fn k chain = Some (p, e) ->
  chain !! p = Some e /\ h_key e = k.
Proof.
  revert p. induction chain as [|x chain IH]; intros p Hc; cbn [chain_find]; [done|]. apply Forall_cons in Hc as [_ Hc].
  destruct (_ && _) eqn:E.
  - intros [= <- <-]. apply andb_true_iff in E as [_ E]. apply eq_fn_spec in E. done.
  - destruct (chain_find hash_fn eq_fn k chain) as [[q y]|]; [|done]. intros [= <- <-]. by apply IH.
Qed.

Lemma chain_find_none k chain :
  Forall (fun e => h_hash e = do_hash hash_fn (h_key e)) chain -> chain_find hash_fn eq_fn k chain = None -> k ∉ h_key <$> chain.
Proof.
  induction chain as [|x chain IH]; intros Hc; cbn [chain_find]; [set_solver|]. apply Forall_cons in Hc as [Hx Hc].
  destruct (_ && _) eqn:E; [done|]. destruct (chain_find hash_fn eq_fn k chain) as [[q y]|]; [done|]. intros _. rewrite fmap_cons.
  apply not_elem_of_cons. split; [|by apply IH]. intros ->. rewrite Hx, Z.eqb_refl in E. cbn in E. rewrite (proj2 (eq_fn_spec _ _)) in E; done.
Qed.

Lemma in_map h m e i chain : ht_repr h m -> ht_table h !! i = Some chain -> e ∈ chain -> m !! h_key e = Some (h_value e).
Proof.
  intros Hr Hi He. apply elem_of_map_to_list. rewrite <- (hr_map _ _ Hr). apply (list_elem_of_fmap_2 binding _ e).
  apply list_elem_of_In, in_concat. exists chain. split; apply list_elem_of_In; [by eapply list_elem_of_lookup_2|done].
Qed.

Lemma map_in h m k v :
  ht_repr h m -> m !! k = Some v -> exists chain e, ht_table h !! bucket_of hash_fn h k = Some chain /\ e ∈ chain /\ h_key e = k /\ h_value e = v.
Proof.
  intros Hr Hk. apply elem_of_map_to_list in Hk. rewrite <- (hr_map _ _ Hr) in Hk.
  apply list_elem_of_fmap in Hk as (e & He & Hin). injection He as -> ->.
  apply list_elem_of_In, in_concat in Hin as (chain & Hc & He). apply list_elem_of_In in Hc, He.
  apply list_elem_of_lookup in Hc as (i & Hi). destruct (hr_place _ _ Hr _ _ _ Hi He) as [_ Hb]. exists chain, e. by rewrite <- Hb.
Qed.

(** What a search finds. *)
Lemma find_spec h m k :
  ht_repr h m ->
  match htable_find hash_fn eq_fn h k with
  | Some (i, p, e) => i = bucket_of hash_fn h k /\ h_key e = k /\ m !! k = Some (h_value e) /\
      exists chain, ht_table h !! i = Some chain /\ chain !! p = Some e
  | None => m !! k = None
  end.
Proof.
  intros Hr. unfold htable_find. destruct (lookup_lt_is_Some_2 _ _ (htable_bucket_lt h m k Hr)) as [chain Hc]. rewrite Hc. cbn [mbind option_bind].
  assert (Hall : Forall (fun e => h_hash e = do_hash hash_fn (h_key e)) chain).
  { apply Forall_forall. intros e He. exact (proj1 (hr_place _ _ Hr _ _ _ Hc He)). }
  destruct (chain_find hash_fn eq_fn k chain) as [[p e]|] eqn:Hf; cbn [mbind option_bind].
  - destruct (chain_find_some _ _ _ _ Hall Hf) as [Hp Hk]. split; [done|]. split; [done|]. split; [|eauto].
    rewrite <- Hk. eapply in_map; [done|exact Hc|]. by eapply list_elem_of_lookup_2.
  - destruct (m !! k) as [v|] eqn:Hm; [|done]. destruct (map_in _ _ _ _ Hr Hm) as (c & e & Hc' & He & <- & _). rewrite Hc in Hc'. injection Hc' as <-.
    destruct (chain_find_none _ _ Hall Hf). by apply list_elem_of_fmap_2.
Qed.
(** *** Growing *)
Definition placed (n : Z) t : Prop :=
  forall i chain e, t !! i = Some chain -> e ∈ chain -> i = Z.to_nat (indexFor n (h_hash e)).

Lemma push_spec n t (e : hash_entry K) :
  0 < n -> length t = Z.to_nat n -> placed n t ->
  length (push n t e) = Z.to_nat n /\ concat (push n t e) ≡ₚ e :: concat t /\ placed n (push n t e).
Proof.
  intros Hn Hl Hp. unfold push. set (i := Z.to_nat (indexFor n (h_hash e))).
  assert (Hi : (i < length t)%nat) by (unfold i, indexFor; pose proof (Z.mod_pos_bound (h_hash e) n Hn); lia).
  destruct (lookup_lt_is_Some_2 _ _ Hi) as [chain Hc]. split; [by rewrite length_alter|]. split.
  - rewrite (concat_alter _ _ _ _ Hc), (concat_split _ _ _ Hc). done.
  - intros j c x Hj Hx. destruct (decide (j = i)) as [->|Hne].
    + rewrite list_lookup_alter_eq, Hc in Hj. injection Hj as <-. apply elem_of_cons in Hx as [->|Hx]; [done|]. by eapply Hp.
    + rewrite list_lookup_alter_ne in Hj by done. by eapply Hp.
Qed.

Lemma htable_rehash_spec n l t :
  0 < n -> length t = Z.to_nat n -> placed n t ->
  length (foldl (push n) t l) = Z.to_nat n /\ concat (foldl (push n) t l) ≡ₚ l ++ concat t /\ placed n (foldl (push n) t l).
Proof.
  intros Hn. revert t. induction l as [|e l IH]; intros t Hl Hp; [done|]. cbn [foldl].
  destruct (push_spec n t e Hn Hl Hp) as (Hl' & Hc & Hp'). destruct (IH _ Hl' Hp') as (A1 & A2 & A3). split; [done|]. split; [|done].
  rewrite A2, Hc. by rewrite <- Permutation_middle.
Qed.

(** Where the entries of a table are, from where the buckets put them. *)
Lemma hashed_entries h m : ht_repr h m -> Forall (fun e => h_hash e = do_hash hash_fn (h_key e)) (concat (ht_table h)).
Proof.
  intros Hr. apply Forall_forall. intros e He. apply list_elem_of_In, in_concat in He as (chain & Hc & He). apply list_elem_of_In in Hc, He.
  apply list_elem_of_lookup in Hc as (i & Hi). exact (proj1 (hr_place _ _ Hr _ _ _ Hi He)).
Qed.

Lemma place_intro h t :
  ht_table h = t -> placed (table_length h) t -> Forall (fun e => h_hash e = do_hash hash_fn (h_key e)) (concat t) ->
  forall i chain e, ht_table h !! i = Some chain -> e ∈ chain -> h_hash e = do_hash hash_fn (h_key e) /\ i = bucket_of hash_fn h (h_key e).
Proof.
  intros -> Hp Hh i chain e Hi He. rewrite Forall_forall in Hh.
  assert (Hx : h_hash e = do_hash hash_fn (h_key e)).
  { apply Hh. apply list_elem_of_In, in_concat. exists chain. split; apply list_elem_of_In; [by eapply list_elem_of_lookup_2|done]. }
  split; [done|]. unfold bucket_of. rewrite <- Hx. by eapply Hp.
Qed.

Lemma repr_placed h m : ht_repr h m -> placed (table_length h) (ht_table h).
Proof. intros Hr i chain e Hi He. destruct (hr_place _ _ Hr _ _ _ Hi He) as [-> ->]. done. Qed.

(** A table whose count runs ahead of its entries, as inside an insertion. *)
Definition ahead h m (c : Z) : Prop := ht_repr (mk_htable (ht_table h) (table_length h) c (load_limit h) (prime_index h)) m.

Lemma expand_spec h m c calloc realloc :
  ahead h m c -> calloc || negb realloc = true ->
  exists h' ret, hashtable_expand h calloc realloc = Some (h', ret) /\ ahead h' m c /\ entry_count h' = entry_count h.
Proof.
  intros Ha Hm. unfold hashtable_expand. destruct (Nat.eqb_spec (prime_index h) (prime_table_len - 1)) as [|Hne]; [by exists h, 0|].
  assert (Hlt : (S (prime_index h) < prime_table_len)%nat).
  { pose proof (lookup_lt_Some _ _ _ (hr_prime _ _ Ha)) as Hp. cbn [prime_index] in Hp. unfold prime_table_len in *. lia. }
  destruct (lookup_lt_is_Some_2 primes (S (prime_index h)) Hlt) as [n Hn]. rewrite Hn. cbn [default from_option id].
  destruct (lookup_lt_is_Some_2 load_factors (S (prime_index h)) Hlt) as [l Hl]. rewrite Hl. cbn [default from_option id].
  pose proof (primes_positive _ _ Hn) as Hpos. destruct calloc; [|destruct realloc; [done|by exists h, 0]].
  destruct (htable_rehash_spec n (concat (ht_table h)) (replicate (Z.to_nat n) []) Hpos) as (A1 & A2 & A3).
  { by rewrite length_replicate. } { intros i chain e Hi He. apply lookup_replicate in Hi as [-> _]. set_solver. }
  assert (A2' : concat (foldl (push n) (replicate (Z.to_nat n) []) (concat (ht_table h))) ≡ₚ concat (ht_table h)).
  { rewrite A2. replace (concat (replicate (Z.to_nat n) [])) with (@nil (hash_entry K)); [by rewrite app_nil_r|].
    clear. induction (Z.to_nat n) as [|k IH]; [done|]. cbn. done. }
  eexists _, _. split; [done|]. split; [|done]. pose proof (hashed_entries _ _ Ha) as Hh. destruct Ha as [B1 B2 B3 B4 B5 B6]. split; cbn [ht_table table_length entry_count load_limit prime_index] in *; try done.
  - rewrite A1. lia.
  - refine (place_intro (mk_htable _ n c l (S (prime_index h))) _ eq_refl A3 _). rewrite A2'.
    exact Hh.
  - by rewrite A2'.
Qed.

(** Insertion of a key that is not there. *)
Lemma insert_spec h m k v entry calloc realloc :
  ht_repr h m -> m !! k = None -> Z.of_nat (size m) + 1 < 2 ^ 32 -> calloc || negb realloc = true ->
  exists h', nexus_htable_insert hash_fn h k v (entry, calloc, realloc) = Some (h', if entry then -1 else 0) /\
    ht_repr h' (if entry then <[k := v]> m else m).
Proof.
  intros Hr Hk Hs Hm. unfold nexus_htable_insert. set (h1 := mk_htable _ _ _ _ _).
  assert (Ha : ahead h1 m (entry_count h)) by (by destruct Hr; split).
  assert (Hx : exists h2, (if load_limit h1 <? entry_count h1 then fst <$> hashtable_expand h1 calloc realloc else Some h1) = Some h2 /\
    ahead h2 m (entry_count h) /\ entry_count h2 = u32 (entry_count h + 1)).
  { destruct (_ <? _); [|by exists h1]. destruct (expand_spec h1 m _ calloc realloc Ha Hm) as (h2 & ret & -> & H2 & Hc). by exists h2. }
  destruct Hx as (h2 & -> & Ha2 & Hc). cbn [mbind option_bind]. assert (Hc' : entry_count h = Z.of_nat (size m)) by apply Hr.
  rewrite (wrap_small 32 (entry_count h + 1)) in Hc by (unfold in_range; lia). destruct entry; cbn [negb]; (eexists; split; [done|]).
  2:{ rewrite wrap_small by (unfold in_range; lia). by replace (entry_count h2 - 1) with (entry_count h) by lia. }
  pose proof (repr_placed _ _ Ha2) as Hpl. pose proof (hashed_entries _ _ Ha2) as Hh. pose proof (primes_positive _ _ (hr_prime _ _ Ha2)) as Hpos.
  destruct Ha2 as [B1 B2 B3 B4 B5 B6]. cbn [ht_table table_length entry_count load_limit prime_index] in *.
  destruct (push_spec (table_length h2) (ht_table h2) (mk_hentry k v (do_hash hash_fn k)) Hpos ltac:(lia) Hpl) as (A1 & A2 & A3).
  split; cbn [ht_table table_length entry_count load_limit prime_index]; try done.
  - rewrite A1. lia.
  - refine (place_intro (mk_htable _ (table_length h2) (entry_count h2) (load_limit h2) (prime_index h2)) _ eq_refl A3 _). rewrite A2.
    by apply Forall_cons.
  - rewrite A2, fmap_cons, B5. cbn. by rewrite map_to_list_insert.
  - rewrite Hc, map_size_insert_None by done. lia.
Qed.

(** *** Changing and removing *)
(** One entry and the rest. *)
Lemma take_entry h m i chain p e :
  ht_repr h m -> ht_table h !! i = Some chain -> chain !! p = Some e ->
  exists rest, concat (alter (delete p) i (ht_table h)) ≡ₚ rest /\
    (forall f, concat (alter (alter f p) i (ht_table h)) ≡ₚ f e :: rest) /\ binding <$> rest ≡ₚ map_to_list (delete (h_key e) m).
Proof.
  intros Hr Hi Hp. exists (delete p chain ++ others (ht_table h) i).
  assert (Hd : chain ≡ₚ e :: delete p chain) by (by apply delete_Permutation).
  split; [by rewrite (concat_alter _ _ _ _ Hi)|]. split.
  - intros f. rewrite (concat_alter _ _ _ _ Hi), app_comm_cons. apply Permutation_app_tail.
    pose proof (delete_Permutation (alter f p chain) p (f e)) as Ha. rewrite list_lookup_alter_eq, Hp in Ha. rewrite Ha by done.
    rewrite !delete_take_drop, take_alter_ge, drop_alter_lt by lia. done.
  - apply (Permutation_cons_inv (a := binding e)). rewrite <- fmap_cons, app_comm_cons, <- Hd, <- (concat_split _ _ _ Hi), (hr_map _ _ Hr).
    symmetry. apply map_to_list_delete. eapply in_map; [done|exact Hi|]. by eapply list_elem_of_lookup_2.
Qed.

Lemma unlink_spec h m i chain p e :
  ht_repr h m -> Z.of_nat (size m) < 2 ^ 32 -> ht_table h !! i = Some chain -> chain !! p = Some e -> ht_repr (unlink h i p) (delete (h_key e) m).
Proof.
  intros Hr Hs Hi Hp. destruct (take_entry _ _ _ _ _ _ Hr Hi Hp) as (rest & Hc & _ & Hm).
  assert (Hin : m !! h_key e = Some (h_value e)) by (eapply in_map; [done|exact Hi|]; by eapply list_elem_of_lookup_2).
  destruct Hr as [B1 B2 B3 B4 B5 B6]. split; cbn [unlink ht_table table_length entry_count load_limit prime_index]; try done.
  - by rewrite length_alter.
  - apply (place_alter h _ i chain (delete p)); [done|done|done|]. intros x Hx. apply (B4 _ _ _ Hi).
    apply list_elem_of_lookup in Hx as (j & Hj). apply list_elem_of_lookup. destruct (decide (j < p)%nat).
    + rewrite list_lookup_delete_lt in Hj by done. eauto.
    + rewrite list_lookup_delete_ge in Hj by lia. eauto.
  - by rewrite Hc.
  - rewrite B6, map_size_delete, Hin. assert (size m <> 0%nat) by (intros Hz; apply map_size_empty_iff in Hz; by subst m).
    rewrite wrap_small; unfold in_range; lia.
Qed.

(** The values of a key, changed by [f]. *)
Lemma update_spec h m k f :
  ht_repr h m ->
  match m !! k with
  | Some v => exists h', update_value hash_fn eq_fn h k f = (h', -1) /\ ht_repr h' (<[k := f v]> m)
  | None => update_value hash_fn eq_fn h k f = (h, 0)
  end.
Proof.
  intros Hr. pose proof (find_spec h m k Hr) as Hf. unfold update_value. destruct (htable_find hash_fn eq_fn h k) as [[[i p] e]|]; [|by rewrite Hf].
  destruct Hf as (-> & <- & -> & chain & Hi & Hp). eexists. split; [done|]. destruct (take_entry _ _ _ _ _ _ Hr Hi Hp) as (rest & _ & Hc & Hm).
  assert (Hin : m !! h_key e = Some (h_value e)) by (eapply in_map; [done|exact Hi|]; by eapply list_elem_of_lookup_2).
  destruct Hr as [B1 B2 B3 B4 B5 B6]. split; cbn [with_table ht_table table_length entry_count load_limit prime_index]; try done.
  - by rewrite length_alter.
  - apply (place_alter h _ (bucket_of hash_fn h (h_key e)) chain (alter (set_value (f (h_value e))) p)); [done|done|done|]. intros x Hx.
    apply list_elem_of_lookup in Hx as (j & Hj). destruct (decide (p = j)) as [<-|Hne].
    + rewrite list_lookup_alter_eq, Hp in Hj. injection Hj as <-. cbn. apply (B4 _ _ _ Hi). by eapply list_elem_of_lookup_2.
    + rewrite list_lookup_alter_ne in Hj by done. apply (B4 _ _ _ Hi). by eapply list_elem_of_lookup_2.
  - rewrite Hc, fmap_cons, Hm. cbn. rewrite <- insert_delete_eq. symmetry. apply map_to_list_insert. apply lookup_delete_eq.
  - rewrite B6, map_size_insert, Hin. done.
Qed.

(** A removal gives the value back; one whose condition fails changes nothing. *)
Lemma remove_spec h m k c :
  ht_repr h m -> Z.of_nat (size m) < 2 ^ 32 ->
  match m !! k with
  | Some v => if (if c is Some f then f v else true) then exists h', nexus_htable_cond_remove hash_fn eq_fn h k c = (h', v) /\ ht_repr h' (delete k m)
              else nexus_htable_cond_remove hash_fn eq_fn h k c = (h, 0)
  | None => nexus_htable_cond_remove hash_fn eq_fn h k c = (h, 0)
  end.
Proof.
  intros Hr Hs. pose proof (find_spec h m k Hr) as Hf. unfold nexus_htable_cond_remove.
  destruct (htable_find hash_fn eq_fn h k) as [[[i p] e]|]; [|by rewrite Hf].
  destruct Hf as (-> & <- & -> & chain & Hi & Hp). destruct c as [f|]; [destruct (f (h_value e)); cbn [negb]; [|done]|];
    (eexists; split; [done|]; by eapply unlink_spec).
Qed.
(** *** Iterating *)
(** What an iterator has still to visit. *)
Definition remaining h (it : nexus_hashtable_iter) : list (hash_entry K) :=
  match it_pos it with
  | None => []
  | Some p => drop p (default [] (ht_table h !! it_index it)) ++ concat (drop (S (it_index it)) (ht_table h))
  end.

(** At the end, or on an entry. *)
Definition positioned h (it : nexus_hashtable_iter) : Prop := it_pos it = None \/ is_Some (iter_entry h it).

Lemma next_bucket_remaining h i :
  remaining h (next_bucket (drop i (ht_table h)) i) = concat (drop i (ht_table h)) /\ positioned h (next_bucket (drop i (ht_table h)) i).
Proof.
  remember (drop i (ht_table h)) as t eqn:Ht. revert i Ht. induction t as [|c t IH]; intros i Ht; [split; [done|by left]|].
  assert (Hc : ht_table h !! i = Some c) by (rewrite <- (Nat.add_0_r i), <- lookup_drop, <- Ht; done).
  assert (Hd : t = drop (S i) (ht_table h)) by (rewrite (drop_S _ _ _ Hc) in Ht; by injection Ht).
  destruct c as [|e c]; [by apply IH|]. split.
  - unfold remaining. cbn [next_bucket it_pos it_index]. rewrite Hc, <- Hd. done.
  - right. unfold iter_entry. cbn [next_bucket it_pos it_index mbind option_bind]. rewrite Hc. by eexists.
Qed.

Lemma next_bucket_none t (i : nat) : it_pos (next_bucket (K := K) t i) = None <-> concat t = [].
Proof. revert i. induction t as [|[|e c] t IH]; intros i; [done|apply IH|done]. Qed.

Lemma iter_to_spec h i q p :
  is_Some (ht_table h !! i) -> let '(it, ret) := iter_to h (mk_hiter i q) p in
  remaining h it = drop p (default [] (ht_table h !! i)) ++ concat (drop (S i) (ht_table h)) /\ (ret = 0 <-> remaining h it = []) /\ positioned h it.
Proof.
  intros [c Hc]. unfold iter_to. cbn [it_index]. rewrite Hc. cbn [mbind option_bind default from_option id]. destruct (c !! p) as [e|] eqn:He.
  - unfold remaining. cbn [it_pos it_index]. rewrite Hc. split; [done|]. cbn [default from_option id]. rewrite (drop_S _ _ _ He). split; [done|].
    right. unfold iter_entry. cbn [it_pos it_index mbind option_bind]. rewrite Hc. cbn [mbind option_bind]. by rewrite He.
  - unfold iter_ret. destruct (next_bucket_remaining h (S i)) as [Hr Hp]. rewrite Hr. rewrite (drop_ge c p) by (by apply lookup_ge_None). split; [done|].
    split; [|done]. pose proof (next_bucket_none (drop (S i) (ht_table h)) (S i)) as Hn. destruct (it_pos _); [|naive_solver]. split; [done|].
    intros Hx. by apply Hn in Hx.
Qed.

Lemma iter_entry_remaining h it e :
  iter_entry h it = Some e -> exists p, it_pos it = Some p /\ is_Some (ht_table h !! it_index it) /\
    remaining h it = e :: drop (S p) (default [] (ht_table h !! it_index it)) ++ concat (drop (S (it_index it)) (ht_table h)).
Proof.
  unfold iter_entry, remaining. destruct (it_pos it) as [p|]; [|done]. cbn [mbind option_bind]. destruct (ht_table h !! it_index it) as [c|]; [|done].
  cbn [mbind option_bind default from_option id]. intros He. exists p. split; [done|]. split; [done|]. by rewrite (drop_S _ _ _ He).
Qed.

(** Advancing goes on to the rest, and returns 0 at the end. *)
Lemma advance_spec h it e :
  iter_entry h it = Some e -> let '(it', ret) := nexus_htable_iter_advance h it in
  remaining h it = e :: remaining h it' /\ (ret = 0 <-> remaining h it' = []) /\ positioned h it'.
Proof.
  intros He. destruct (iter_entry_remaining _ _ _ He) as (p & Hp & Hs & ->). unfold nexus_htable_iter_advance. rewrite Hp.
  destruct it as [i q]. cbn [it_index] in *. pose proof (iter_to_spec h i q (S p) Hs) as Ht. destruct (iter_to h _ _) as [it' ret].
  destruct Ht as [-> Hr]. done.
Qed.
Lemma walk_spec n h it e :
  iter_entry h it = Some e -> (length (remaining h it) <= n)%nat -> htable_walk n h it = Some (remaining h it).
Proof.
  revert it e. induction n as [|n IH]; intros it e He Hn.
  - destruct (iter_entry_remaining _ _ _ He) as (p & _ & _ & Hr). rewrite Hr in Hn. simpl in Hn. lia.
  - cbn [htable_walk]. rewrite He. cbn [mbind option_bind]. pose proof (advance_spec h it e He) as Ha.
    destruct (nexus_htable_iter_advance h it) as [it' ret]. destruct Ha as (Hr & H0 & Hp). rewrite Hr in Hn |- *. destruct (Z.eqb_spec ret 0) as [Hz|Hz].
    + apply H0 in Hz. by rewrite Hz.
    + destruct Hp as [Hp|[e' He']]; [exfalso; apply Hz, H0; unfold remaining; by rewrite Hp|]. rewrite (IH _ e' He') by (simpl in Hn; lia). done.
Qed.

Lemma create_iter_spec h m :
  ht_repr h m -> remaining h (nexus_htable_create_iter h) = concat (ht_table h) /\ positioned h (nexus_htable_create_iter h).
Proof.
  intros Hr. unfold nexus_htable_create_iter. destruct (Z.eqb_spec (entry_count h) 0) as [Hz|Hz].
  - split; [|by left]. pose proof (hr_map _ _ Hr) as Hm. assert (Hs : m = ∅) by (apply map_size_empty_iff; rewrite (hr_count _ _ Hr) in Hz; lia).
    rewrite Hs, map_to_list_empty in Hm. apply Permutation_nil_r, fmap_nil_inv in Hm. by rewrite Hm.
  - exact (next_bucket_remaining h 0).
Qed.

(** Removing the entry an iterator is on: that binding goes, and the iterator
    goes on with the rest. *)
Lemma iter_remove_spec h m it e :
  ht_repr h m -> Z.of_nat (size m) < 2 ^ 32 -> iter_entry h it = Some e ->
  exists h' it' ret, nexus_htable_iter_remove h it = Some (h', it', ret) /\ ht_repr h' (delete (h_key e) m) /\
    remaining h it = e :: remaining h' it' /\ (ret = 0 <-> remaining h' it' = []) /\ positioned h' it'.
Proof.
  intros Hr Hs He. destruct (iter_entry_remaining _ _ _ He) as (p & Hp & [c Hc] & Hrm). unfold nexus_htable_iter_remove. rewrite He.
  cbn [mbind option_bind]. rewrite Hp. cbn [mbind option_bind]. destruct it as [i q]. cbn [it_index it_pos] in *. subst q.
  assert (Hpe : c !! p = Some e) by (unfold iter_entry in He; cbn in He; rewrite Hc in He; done).
  set (h' := unlink h i p). assert (Hc' : ht_table h' !! i = Some (delete p c)) by (unfold h', unlink; cbn; by rewrite list_lookup_alter_eq, Hc).
  pose proof (iter_to_spec h' i (Some p) p ltac:(eauto)) as Ht. destruct (iter_to h' _ p) as [it' ret]. destruct Ht as (R1 & R2 & R3).
  exists h', it', ret. split; [done|]. split; [by eapply unlink_spec|]. split; [|done]. rewrite Hrm, R1, Hc, Hc'. cbn [default from_option id]. f_equal.
  f_equal; [|unfold h', unlink; cbn; by rewrite drop_alter_lt by lia].
  rewrite delete_take_drop, drop_app_length'; [done|]. rewrite length_take_le; [done|]. apply lookup_lt_Some in Hpe. lia.
Qed.

(** *** Any use of the table *)
Inductive ht_op :=
  | HInsert (k : K) (v : Z) (mem : bool * bool * bool) | HChange (k : K) (v : Z) | HInc (k : K) (v : Z) | HDec (k : K) (v : Z)
  | HSearch (k : K) | HRemove (k : K) | HCondRemove (k : K) (f : Z -> bool) | HCount.

Definition ht_step h (o : ht_op) : option (nexus_hashtable K * Z) :=
  match o with
  | HInsert k v mem => nexus_htable_insert hash_fn h k v mem
  | HChange k v => Some (nexus_htable_change hash_fn eq_fn h k v)
  | HInc k v => Some (nexus_htable_inc hash_fn eq_fn h k v)
  | HDec k v => Some (nexus_htable_dec hash_fn eq_fn h k v)
  | HSearch k => Some (h, nexus_htable_search hash_fn eq_fn h k)
  | HRemove k => Some (nexus_htable_remove hash_fn eq_fn h k)
  | HCondRemove k f => Some (nexus_htable_cond_remove hash_fn eq_fn h k (Some f))
  | HCount => Some (h, nexus_htable_count h)
  end.

Fixpoint ht_run h (os : list ht_op) : option (nexus_hashtable K * list Z) :=
  match os with
  | [] => Some (h, [])
  | o :: os => '(h, r) ← ht_step h o; '(h, rs) ← ht_run h os; Some (h, r :: rs)
  end.

(** A finite map. *)
Definition map_update m (k : K) (f : Z -> Z) : gmap K Z * Z :=
  match m !! k with Some v => (<[k := f v]> m, -1) | None => (m, 0) end.
Definition map_step m (o : ht_op) : gmap K Z * Z :=
  match o with
  | HInsert k v (entry, _, _) => if entry : bool then (<[k := v]> m, -1) else (m, 0)
  | HChange k v => map_update m k (fun _ => v)
  | HInc k v => map_update m k (fun x => x +64 v)
  | HDec k v => map_update m k (fun x => x -64 v)
  | HSearch k => (m, default 0 (m !! k))
  | HRemove k => (delete k m, default 0 (m !! k))
  | HCondRemove k f => if (if m !! k is Some v then f v else false) then (delete k m, default 0 (m !! k)) else (m, 0)
  | HCount => (m, Z.of_nat (size m))
  end.
Fixpoint map_run m (os : list ht_op) : gmap K Z * list Z :=
  match os with
  | [] => (m, [])
  | o :: os => let '(m, r) := map_step m o in let '(m, rs) := map_run m os in (m, r :: rs)
  end.

(** A key is inserted when it is not there, into a table with room for it; a
    table that cannot be allocated anew is not reallocated either. *)
Definition op_ok m (o : ht_op) : Prop :=
  match o with
  | HInsert k _ (_, calloc, realloc) => m !! k = None /\ Z.of_nat (size m) + 1 < 2 ^ 32 /\ calloc || negb realloc = true
  | _ => True
  end.
Fixpoint ops_ok m (os : list ht_op) : Prop :=
  match os with [] => True | o :: os => op_ok m o /\ ops_ok (map_step m o).1 os end.

Lemma htable_step_refines h m o :
  ht_repr h m -> Z.of_nat (size m) < 2 ^ 32 -> op_ok m o ->
  exists h', ht_step h o = Some (h', (map_step m o).2) /\ ht_repr h' (map_step m o).1 /\ Z.of_nat (size (map_step m o).1) < 2 ^ 32.
Proof.
  intros Hr Hs Ho.
  assert (Hup : forall k f, exists h', update_value hash_fn eq_fn h k f = (h', (map_update m k f).2) /\ ht_repr h' (map_update m k f).1 /\
    Z.of_nat (size (map_update m k f).1) < 2 ^ 32).
  { intros k f. pose proof (update_spec h m k f Hr) as Hu. unfold map_update. destruct (m !! k) as [v|] eqn:Hk; [|by exists h].
    destruct Hu as (h' & -> & Hr'). exists h'. cbn [fst snd]. by rewrite map_size_insert, Hk. }
  assert (Hrm : forall k c, exists h' r, nexus_htable_cond_remove hash_fn eq_fn h k c = (h', r) /\
    let b := (if m !! k is Some v then (if c is Some f then f v else true) else false) : bool in
    r = (if b then default 0 (m !! k) else 0) /\ ht_repr h' (if b then delete k m else m) /\ Z.of_nat (size (if b then delete k m else m)) < 2 ^ 32).
  { intros k c. pose proof (remove_spec h m k c Hr Hs) as Hu. assert (Hd : (size (delete k m) <= size m)%nat) by (rewrite map_size_delete; destruct (m !! k); [apply Nat.le_pred_l|done]).
    destruct (m !! k) as [v|] eqn:Hk; [|exists h, 0; by split]. destruct c as [f|]; [destruct (f v)|]; try (by exists h, 0; split);
      destruct Hu as (h' & -> & Hr'); exists h', v; (split; [done|]); cbv beta iota zeta; (split; [done|]); (split; [done|lia]). }
  destruct o as [k v [[entry calloc] realloc]|k v|k v|k v|k|k|k f|]; cbn [ht_step map_step].
  - destruct Ho as (Hk & Hsz & Hm). destruct (insert_spec h m k v entry calloc realloc Hr Hk Hsz Hm) as (h' & -> & Hr').
    exists h'. destruct entry; cbn [fst snd]; (split; [done|]); (split; [done|]); [|done]. rewrite map_size_insert_None by done. lia.
  - destruct (Hup k (fun _ => v)) as (h' & Hx & ? & ?). exists h'. unfold nexus_htable_change. by rewrite Hx.
  - destruct (Hup k (fun x => x +64 v)) as (h' & Hx & ? & ?). exists h'. unfold nexus_htable_inc. by rewrite Hx.
  - destruct (Hup k (fun x => x -64 v)) as (h' & Hx & ? & ?). exists h'. unfold nexus_htable_dec. by rewrite Hx.
  - exists h. cbn [fst snd]. split; [|done]. do 2 f_equal. unfold nexus_htable_search. pose proof (find_spec h m k Hr) as Hf.
    destruct (htable_find hash_fn eq_fn h k) as [[[i p] e]|]; [|by rewrite Hf]. by destruct Hf as (_ & _ & -> & _).
  - destruct (Hrm k None) as (h' & r & Hx & Hr1 & Hr2 & Hr3). exists h'. unfold nexus_htable_remove. rewrite Hx.
    destruct (m !! k) as [v|] eqn:Hk; cbn in *; [by subst r|]. rewrite delete_id by done. by subst r.
  - destruct (Hrm k (Some f)) as (h' & r & Hx & Hr1 & Hr2 & Hr3). exists h'. rewrite Hx. destruct (m !! k) as [v|] eqn:Hk; cbn in *; [|by subst r].
    destruct (f v); cbn in *; by subst r.
  - exists h. cbn [fst snd]. unfold nexus_htable_count. by rewrite (hr_count _ _ Hr).
Qed.
Lemma htable_run_refines os h m :
  ht_repr h m -> Z.of_nat (size m) < 2 ^ 32 -> ops_ok m os ->
  exists h', ht_run h os = Some (h', (map_run m os).2) /\ ht_repr h' (map_run m os).1 /\ Z.of_nat (size (map_run m os).1) < 2 ^ 32.
Proof.
  revert h m. induction os as [|o os IH]; intros h m Hr Hs Ho; [by exists h|]. destruct Ho as [Ho Hos].
  destruct (htable_step_refines h m o Hr Hs Ho) as (h1 & Hst & Hr1 & Hs1). cbn [ht_run map_run]. rewrite Hst. cbn [mbind option_bind].
  destruct (map_step m o) as [m1 r]. cbn [fst snd] in *. destruct (IH h1 m1 Hr1 Hs1 Hos) as (h2 & -> & Hr2 & Hs2). cbn [mbind option_bind].
  destruct (map_run m1 os) as [m2 rs]. by exists h2.
Qed.

Lemma htable_create_spec min_size : 0 <= min_size <= 2 ^ 30 -> exists h, nexus_create_htable min_size true true = Some h /\ ht_repr h ∅.
Proof.
  intros Hm. unfold nexus_create_htable. rewrite (proj2 (Z.ltb_ge _ _)) by lia.
  assert (Hf : exists i p, list_find (fun p => min_size < p) primes = Some (i, p)).
  { destruct (list_find (fun p => min_size < p) primes) as [[i p]|] eqn:Hf; [by eauto|]. apply list_find_None in Hf.
    rewrite Forall_forall in Hf. destruct (Hf 1610612741); [|lia]. apply (bool_decide_unpack _). by vm_compute. }
  destruct Hf as (i & p & Hf). rewrite Hf. cbn [default from_option id negb orb]. apply list_find_Some in Hf as (Hp & _ & _).
  assert (Hlt : (i < length load_factors)%nat) by (by apply lookup_lt_Some in Hp).
  destruct (lookup_lt_is_Some_2 load_factors i Hlt) as [l Hl]. rewrite Hl. pose proof (primes_positive _ _ Hp) as Hpos.
  eexists. split; [done|]. split; cbn [ht_table table_length entry_count load_limit prime_index]; try done.
  - rewrite length_replicate. lia.
  - intros j chain e Hj He. apply lookup_replicate in Hj as [-> _]. set_solver.
  - rewrite map_to_list_empty. replace (concat (replicate (Z.to_nat p) [])) with (@nil (hash_entry K)); [done|].
    clear. induction (Z.to_nat p) as [|k IH]; [done|]. cbn. done.
Qed.

(** C29: the table is a finite map: over any sequence of calls
    in which no key is inserted twice, a new table replies as the map does,
    whatever hash the caller chose and however often it grew, and a walk with
    an iterator visits every binding of the map exactly once. *)
Theorem htable_refines_map min_size os :
  0 <= min_size <= 2 ^ 30 -> ops_ok ∅ os ->
  exists h h', nexus_create_htable min_size true true = Some h /\ ht_run h os = Some (h', (map_run ∅ os).2) /\
    ((map_run ∅ os).1 <> ∅ -> exists es,
       htable_walk (size (map_run ∅ os).1) h' (nexus_htable_create_iter h') = Some es /\ binding <$> es ≡ₚ map_to_list (map_run ∅ os).1).
Proof.
  intros Hm Ho. destruct (htable_create_spec min_size Hm) as (h & Hc & Hr). destruct (htable_run_refines os h ∅ Hr ltac:(by rewrite map_size_empty) Ho) as (h' & Hrun & Hr' & _).
  exists h, h'. split; [done|]. split; [done|]. intros Hne. destruct (create_iter_spec _ _ Hr') as [Hrm Hp].
  exists (concat (ht_table h')). split; [|exact (hr_map _ _ Hr')]. pose proof (hr_map _ _ Hr') as Hmap.
  assert (Hl : length (concat (ht_table h')) = size (map_run ∅ os).1).
  { rewrite <- (length_fmap binding), Hmap. apply length_map_to_list. }
  destruct Hp as [Hp|[e He]].
  - destruct Hne. apply map_size_empty_iff. rewrite <- Hl, <- Hrm. unfold remaining. by rewrite Hp.
  - rewrite (walk_spec _ _ _ _ He); rewrite Hrm; [done|]. by rewrite Hl.
Qed.
End refinement.

(** Inserting, searching, counting and removing with the pointer hash. *)
Definition toy_ht_ops : list (ht_op (K := Z)) :=
  [HInsert 5 50 (true, true, false); HInsert 58 7 (true, false, false); HInc 58 1; HSearch 58; HInsert 9 1 (false, true, true); HCount;
   HCondRemove 5 (fun v => v =? 0); HRemove 5; HSearch 5; HCount].

Lemma htable_refines_map_witness :
  exists h h', nexus_create_htable (K := Z) 16 true true = Some h /\ ht_run nexus_hash_ptr Z.eqb h toy_ht_ops = Some (h', [-1; -1; -1; 8; 0; 2; 0; 50; 0; 1]) /\
    exists es, htable_walk 1 h' (nexus_htable_create_iter h') = Some es /\ binding <$> es ≡ₚ [(58, 8)].
Proof.
  destruct (htable_refines_map nexus_hash_ptr Z.eqb Z.eqb_eq 16 toy_ht_ops) as (h & h' & Hc & Hr & Hw).
  - lia.
  - repeat split; by vm_compute.
  - exists h, h'. split; [exact Hc|]. split; [rewrite Hr; f_equal; by vm_compute|].
    destruct Hw as (es & Hes & Hp); [by intros Hx; vm_compute in Hx|]. exists es. split; [exact Hes|]. rewrite Hp. by vm_compute.
Defined.
