(* ===== verification/Heap.v ===== *)
(** * The allocator of the shared memory

    Models [libnexus_trusted/nexus_heap.c]: the allocator that hands out the
    buffers through which the enclave and the outside exchange metadata.  The
    memory is a run of blocks, each a header, a payload and a footer that
    points back at the header; the free blocks are in doubly linked lists, one
    per power of two, sorted by size.  Headers and footers are kept by their
    address; reading one where none was ever written is a memory error
    ([None]). *)
From S2P Require Import Prelude.

(** ** The structures *)
(** [node_t]; 0 is NULL. *)
Record node := mk_node { n_hole : bool; n_size : Z; n_next : Z; n_prev : Z }.
Definition NODE_SIZE : Z := 24.
Definition FOOTER_SIZE : Z := 8.
Definition overhead : Z := FOOTER_SIZE + NODE_SIZE.
Definition MAX_BIN_COUNT : nat := 31.
Definition MAX_BIN_INDEX : nat := MAX_BIN_COUNT - 1.
Definition MIN_ALLOC_SIZE : Z := 4.

Record nexus_heap := mk_heap {
  hp_nodes : gmap Z node;
  hp_feet : gmap Z Z;
  hp_bins : list Z;
  hp_size : Z;
  hp_start : Z;
  hp_end : Z
}.
Implicit Types (h : nexus_heap).

Definition with_nodes h (N : gmap Z node) : nexus_heap := mk_heap N (hp_feet h) (hp_bins h) (hp_size h) (hp_start h) (hp_end h).
Definition with_feet h (F : gmap Z Z) : nexus_heap := mk_heap (hp_nodes h) F (hp_bins h) (hp_size h) (hp_start h) (hp_end h).
Definition with_bins h (B : list Z) : nexus_heap := mk_heap (hp_nodes h) (hp_feet h) B (hp_size h) (hp_start h) (hp_end h).

(** Writing a field of the node at [a]. *)
Definition update h (a : Z) (f : node -> node) : option nexus_heap :=
  n ← hp_nodes h !! a; Some (with_nodes h (<[a := f n]> (hp_nodes h))).
Definition set_hole (b : bool) (n : node) : node := mk_node b (n_size n) (n_next n) (n_prev n).
Definition set_size (z : Z) (n : node) : node := mk_node (n_hole n) (u32 z) (n_next n) (n_prev n).
Definition set_next (p : Z) (n : node) : node := mk_node (n_hole n) (n_size n) p (n_prev n).
Definition set_prev (p : Z) (n : node) : node := mk_node (n_hole n) (n_size n) (n_next n) p.

(** ** Lists *)
(** The loops visit each node at most once. *)
Definition list_fuel h : nat := S (size (hp_nodes h)).

(** The loop of [add_node]: [previous] and [current]. *)
Fixpoint add_loop (n : nat) h (size previous current : Z) : option (Z * Z) :=
  match n with
  | O => None
  | S n =>
      if current =? 0 then Some (previous, current)
      else
        c ← hp_nodes h !! current;
        if n_size c <=? size then add_loop n h size current (n_next c) else Some (previous, current)
  end.

(** [bin] is the index of the bin; a NULL bin is read. *)
Definition add_node h (bin : option nat) (a : Z) : option nexus_heap :=
  bin ← bin;
  h ← update h a (fun n => set_prev 0 (set_next 0 n));
  head ← hp_bins h !! bin;
  if head =? 0 then Some (with_bins h (<[bin := a]> (hp_bins h)))
  else
    n ← hp_nodes h !! a;
    '(previous, current) ← add_loop (list_fuel h) h (n_size n) 0 head;
    if current =? 0 then h ← update h previous (set_next a); update h a (set_prev previous)
    else if negb (previous =? 0) then
      h ← update h a (set_next current); h ← update h previous (set_next a);
      h ← update h a (set_prev previous); update h current (set_prev a)
    else
      h ← update h a (set_next head); h ← update h head (set_prev a);
      Some (with_bins h (<[bin := a]> (hp_bins h))).

Fixpoint remove_loop (n : nat) h (a temp : Z) : option nexus_heap :=
  match n with
  | O => None
  | S n =>
      if temp =? 0 then Some h
      else
        t ← hp_nodes h !! temp;
        if temp =? a then
          if n_next t =? 0 then update h (n_prev t) (set_next 0)
          else h ← update h (n_prev t) (set_next (n_next t)); update h (n_next t) (set_prev (n_prev t))
        else remove_loop n h a (n_next t)
  end.

Definition remove_node h (bin : option nat) (a : Z) : option nexus_heap :=
  bin ← bin; head ← hp_bins h !! bin;
  if head =? 0 then Some h
  else
    n ← hp_nodes h !! head;
    if head =? a then Some (with_bins h (<[bin := n_next n]> (hp_bins h)))
    else remove_loop (list_fuel h) h a (n_next n).

(** 0 is NULL: nothing fits. *)
Fixpoint fit_loop (n : nat) h (size temp : Z) : option Z :=
  match n with
  | O => None
  | S n =>
      if temp =? 0 then Some 0
      else t ← hp_nodes h !! temp; if size <=? n_size t then Some temp else fit_loop n h size (n_next t)
  end.
Definition get_best_fit h (bin : nat) (size : Z) : option Z :=
  head ← hp_bins h !! bin; fit_loop (list_fuel h) h size head.

(** ** Blocks *)
Definition get_foot (a : Z) (n : node) : Z := a + NODE_SIZE + n_size n.

Definition create_foot h (a : Z) : option nexus_heap :=
  n ← hp_nodes h !! a; Some (with_feet h (<[get_foot a n := a]> (hp_feet h))).

(** [while (sz >>= 1) index++]: the loop ends after at most 64 shifts. *)
Fixpoint shift_count (n : nat) (sz : Z) : Z :=
  match n with
  | O => 0
  | S n => let sz := Z.shiftr sz 1 in if sz =? 0 then 0 else 1 + shift_count n sz
  end.
Definition get_bin_index (sz : Z) : nat :=
  let sz := if sz <? 4 then 4 else sz in
  Nat.min (Z.to_nat (shift_count 64 sz - 2)) MAX_BIN_INDEX.

(** The last bin is NULL. *)
Definition get_bin_from_index (index : nat) : option nat := if (index =? MAX_BIN_INDEX)%nat then None else Some index.
Definition get_bin_from_size (sz : Z) : option nat := get_bin_from_index (get_bin_index sz).

Definition nexus_heap_init (start total_size : Z) : option nexus_heap :=
  let size := u32 (total_size - NODE_SIZE - FOOTER_SIZE) in
  let h := mk_heap {[start := mk_node true size 0 0]} ∅ (replicate MAX_BIN_COUNT 0) 0 0 0 in
  h ← create_foot h start;
  h ← add_node h (get_bin_from_size size) start;
  Some (mk_heap (hp_nodes h) (hp_feet h) (hp_bins h) total_size start (start + total_size)).

(** The search through the bins from [index] on: [None] is NULL, else the bin
    and the node. *)
Fixpoint find_fit (n : nat) h (index : nat) (size : Z) : option (option (nat * Z)) :=
  match n with
  | O => None
  | S n =>
      match get_bin_from_index index with
      | None => Some None
      | Some bin =>
          found ← get_best_fit h bin size;
          if found =? 0 then find_fit n h (S index) size else Some (Some (index, found))
      end
  end.

(** Cutting [size] bytes off the node at [found]. *)
Definition split_node h (found size : Z) : option nexus_heap :=
  n ← hp_nodes h !! found;
  if overhead + MIN_ALLOC_SIZE <? n_size n - size then
    let split := found + overhead + size in
    let h := with_nodes h (<[split := mk_node true (u32 (n_size n - size - overhead)) 0 0]> (hp_nodes h)) in
    h ← create_foot h split;
    s ← hp_nodes h !! split;
    h ← add_node h (get_bin_from_size (n_size s)) split;
    h ← update h found (set_size size);
    create_foot h found
  else Some h.

(** The payload, 0 when there is no fit. *)
Definition nexus_heap_malloc h (size : Z) : option (nexus_heap * Z) :=
  f ← find_fit (S MAX_BIN_COUNT) h (get_bin_index size) size;
  match f with
  | None => Some (h, 0)
  | Some (index, found) =>
      h ← split_node h found size;
      h ← update h found (set_hole false);
      h ← remove_node h (get_bin_from_index index) found;
      h ← update h found (fun n => set_next 0 (set_prev 0 n));
      Some (h, found + NODE_SIZE)
  end.

(** Joining the block at [head] to the hole before it: the new head. *)
Definition join_prev h (head prev : Z) : option (nexus_heap * Z) :=
  p ← hp_nodes h !! prev;
  if n_hole p then
    h ← remove_node h (get_bin_from_size (n_size p)) prev;
    p ← hp_nodes h !! prev; n ← hp_nodes h !! head;
    h ← update h prev (set_size (n_size p + (overhead + n_size n)));
    n ← hp_nodes h !! head;
    Some (with_feet h (<[get_foot head n := prev]> (hp_feet h)), prev)
  else Some (h, head).

(** Joining the hole after it. *)
Definition join_next h (head next : Z) : option nexus_heap :=
  x ← hp_nodes h !! next;
  if n_hole x then
    h ← remove_node h (get_bin_from_size (n_size x)) next;
    x ← hp_nodes h !! next; n ← hp_nodes h !! head;
    h ← update h head (set_size (n_size n + (overhead + n_size x)));
    x ← hp_nodes h !! next;
    let h := with_feet h (<[get_foot next x := 0]> (hp_feet h)) in
    h ← update h next (fun x => set_hole false (set_size 0 x));
    n ← hp_nodes h !! head;
    Some (with_feet h (<[get_foot head n := head]> (hp_feet h)))
  else Some h.

Definition release h (head : Z) : option nexus_heap :=
  h ← update h head (set_hole true);
  n ← hp_nodes h !! head;
  add_node h (get_bin_from_size (n_size n)) head.

Definition nexus_heap_free h (p : Z) : option nexus_heap :=
  let head := p - NODE_SIZE in
  if head =? hp_start h then release h head
  else
    n ← hp_nodes h !! head;
    let next := get_foot head n + FOOTER_SIZE in
    prev ← hp_feet h !! (head - FOOTER_SIZE);
    '(h, head) ← join_prev h head prev;
    h ← join_next h head next;
    release h head.
