(* ===== verification/HeapLists.v ===== *)
(** * The free lists of the allocator

    The bins of [nexus_heap] are doubly linked lists of free blocks, sorted by
    size.  [add_node] and [remove_node] are proved to insert into and delete
    from such a list without losing another member, and [lists_ok] collects
    what all the bins promise together. *)
From S2P Require Import Prelude Heap.
From Stdlib Require Import Sorting.Sorted.

(** ** Doubly linked lists *)
Section lists.
Implicit Types (N : gmap Z node) (l : list Z).

Abbreviation first q l := (default q (head l)).

(** The nodes [l] are linked, [p] before them (if known) and [q] after. *)
Fixpoint seg N (p : option Z) l (q : Z) : Prop :=
  match l with
  | [] => True
  | a :: l' => a <> 0 /\ exists n, N !! a = Some n /\ n_next n = first q l' /\ (if p is Some p then n_prev n = p else True) /\ seg N (Some a) l' q
  end.

Definition last_or (p : option Z) l : option Z := match last l with Some x => Some x | None => p end.

Lemma last_or_cons p a l : last_or p (a :: l) = last_or (Some a) l.
Proof. unfold last_or. rewrite last_cons. by destruct (last l). Qed.

Lemma seg_app N p l1 l2 q : seg N p (l1 ++ l2) q <-> seg N p l1 (first q l2) /\ seg N (last_or p l1) l2 q.
Proof.
  revert p. induction l1 as [|a l1 IH]; intros p; [cbn; naive_solver|]. cbn [app seg]. rewrite last_or_cons.
  assert (Hf : first q (l1 ++ l2) = first (first q l2) l1) by (by destruct l1). rewrite Hf. setoid_rewrite IH. naive_solver.
Qed.

Lemma seg_frame N N' p l q : (forall x, x ∈ l -> N' !! x = N !! x) -> seg N p l q -> seg N' p l q.
Proof.
  revert p. induction l as [|a l IH]; intros p Hf; [done|]. cbn [seg]. intros (Ha & n & Hn & Hx & Hp & Hs). split; [done|]. exists n.
  rewrite Hf by left. split; [done|]. split; [done|]. split; [done|]. apply IH; [|done]. intros x Hxl. apply Hf. by right.
Qed.

(** The last node gets a new successor, the first a new predecessor. *)
Lemma seg_next N p l z n q q' :
  seg N p (l ++ [z]) q -> z ∉ l -> N !! z = Some n -> seg (<[z := set_next q' n]> N) p (l ++ [z]) q'.
Proof.
  intros Hs Hz Hn. apply seg_app in Hs as [H1 H2]. apply seg_app. split.
  - apply (seg_frame N); [|done]. intros x Hx. apply lookup_insert_ne. by intros ->.
  - cbn [seg] in H2 |- *. destruct H2 as (H0 & n' & Hn' & _ & Hp & _). split; [done|]. exists (set_next q' n). rewrite lookup_insert_eq.
    rewrite Hn in Hn'. injection Hn' as <-. done.
Qed.

Lemma seg_prev N p x y l n q :
  seg N p (y :: l) q -> y ∉ l -> N !! y = Some n -> seg (<[y := set_prev x n]> N) (Some x) (y :: l) q.
Proof.
  cbn [seg]. intros (H0 & n' & Hn' & Hx & _ & Hs) Hy Hn. split; [done|]. exists (set_prev x n). rewrite lookup_insert_eq.
  rewrite Hn in Hn'. injection Hn' as <-. do 3 (split; [done|]). apply (seg_frame N); [|done]. intros z Hz. apply lookup_insert_ne. by intros ->.
Qed.

Lemma seg_node N p l q a : seg N p l q -> a ∈ l -> a <> 0 /\ is_Some (N !! a).
Proof.
  revert p. induction l as [|x l IH]; intros p; [set_solver|]. cbn [seg]. intros (Hx & n & Hn & _ & _ & Hs) [->|Ha]%elem_of_cons; [eauto|].
  by eapply IH.
Qed.

(** Dropping what is known before the list. *)
Lemma seg_none N p l q : seg N p l q -> seg N None l q.
Proof. destruct l as [|a l]; [done|]. cbn [seg]. intros (H0 & n & Hn & Hx & _ & Hs). split; [done|]. by exists n. Qed.

Lemma seg_fuel N p l q : NoDup l -> seg N p l q -> (length l <= size N)%nat.
Proof.
  intros Hd Hs. rewrite <- (size_dom (D := gset Z) N), <- (size_list_to_set (C := gset Z) l Hd). apply subseteq_size.
  intros a Ha. apply elem_of_list_to_set in Ha. destruct (seg_node _ _ _ _ _ Hs Ha) as [_ Hn]. by apply elem_of_dom.
Qed.

(** *** Sizes *)
Definition size_at N (a : Z) : Z := default 0 (n_size <$> N !! a).
(** What the lists do not touch. *)
Definition shape N (a : Z) : option (bool * Z) := (fun n => (n_hole n, n_size n)) <$> N !! a.
Definition sorted N l : Prop := StronglySorted Z.le (size_at N <$> l).

Lemma shape_size N N' a : shape N' a = shape N a -> size_at N' a = size_at N a.
Proof.
  unfold shape, size_at. destruct (N' !! a) as [n'|], (N !! a) as [n|]; cbn; intros Hs; try done. by injection Hs as _ ->.
Qed.

Lemma sorted_frame N N' l : (forall a, a ∈ l -> size_at N' a = size_at N a) -> sorted N l -> sorted N' l.
Proof.
  unfold sorted. intros Hf. replace (size_at N' <$> l) with (size_at N <$> l); [done|]. apply list_fmap_ext. intros i a Hi. symmetry.
  apply Hf. by eapply list_elem_of_lookup_2.
Qed.

Lemma sorted_app N l1 l2 :
  sorted N (l1 ++ l2) <-> sorted N l1 /\ sorted N l2 /\ forall a b, a ∈ l1 -> b ∈ l2 -> size_at N a <= size_at N b.
Proof.
  unfold sorted. induction l1 as [|x l1 IH]; cbn [app].
  - rewrite !fmap_nil. split; [intros Hs; split; [constructor|]; split; [done|set_solver]|by intros (_ & ? & _)].
  - rewrite !fmap_cons. split.
    + intros Hs. apply StronglySorted_inv in Hs as [Hs Hf]. apply IH in Hs as (S1 & S2 & S3). rewrite fmap_app, Forall_app in Hf. destruct Hf as [F1 F2].
      split; [by constructor|]. split; [done|]. intros a b [->|Ha]%elem_of_cons Hb; [|by apply S3].
      rewrite Forall_forall in F2. apply F2. by apply list_elem_of_fmap_2.
    + intros (S1 & S2 & S3). apply StronglySorted_inv in S1 as [S1 F1]. constructor.
      * apply IH. split; [done|]. split; [done|]. intros a b Ha Hb. apply S3; [by right|done].
      * rewrite fmap_app, Forall_app. split; [done|]. apply Forall_forall. intros z Hz. apply list_elem_of_fmap in Hz as (b & -> & Hb). apply S3; [left|done].
Qed.
End lists.

Abbreviation first q l := (default q (head l)).

(** Writing a field that the lists do not show. *)
Lemma update_eq h a n f : hp_nodes h !! a = Some n -> update h a f = Some (with_nodes h (<[a := f n]> (hp_nodes h))).
Proof. intros Hn. unfold update. by rewrite Hn. Qed.

(** Writing a link keeps the shape of every node. *)
Lemma shape_link (N : gmap Z node) a n n' x : N !! a = Some n -> n_hole n' = n_hole n -> n_size n' = n_size n -> shape (<[a := n']> N) x = shape N x.
Proof.
  intros Ha Hh Hs. unfold shape. destruct (decide (x = a)) as [->|Hne]; [|by rewrite lookup_insert_ne].
  rewrite lookup_insert_eq, Ha. cbn. by rewrite Hh, Hs.
Qed.

(** ** Adding to a bin *)
Section bins.
Implicit Types (h : nexus_heap) (N : gmap Z node) (l : list Z).

Lemma add_loop_spec k h s p l :
  seg (hp_nodes h) p l 0 -> (length l < k)%nat ->
  exists l1 l2, l = l1 ++ l2 /\ add_loop k h s (default 0 p) (first 0 l) = Some (default 0 (last_or p l1), first 0 l2) /\
    (forall a, a ∈ l1 -> size_at (hp_nodes h) a <= s) /\ (forall a, head l2 = Some a -> s < size_at (hp_nodes h) a).
Proof.
  revert p k. induction l as [|a l IH]; intros p k Hs Hk; (destruct k as [|k]; [simpl in Hk; lia|]).
  - exists [], []. cbn. split; [done|]. split; [done|]. split; [set_solver|done].
  - cbn [seg] in Hs. destruct Hs as (Ha & n & Hn & Hx & Hp & Hs). cbn [head default from_option id add_loop].
    rewrite (proj2 (Z.eqb_neq a 0) Ha), Hn. cbn [mbind option_bind].
    assert (Hz : size_at (hp_nodes h) a = n_size n) by (unfold size_at; by rewrite Hn). destruct (Z.leb_spec (n_size n) s) as [Hle|Hgt].
    + destruct (IH (Some a) k Hs) as (l1 & l2 & -> & Hl & H1 & H2); [simpl in Hk; lia|]. exists (a :: l1), l2. split; [done|]. rewrite Hx, last_or_cons.
      split; [exact Hl|]. split; [|done]. intros x [->|Hx']%elem_of_cons; [lia|auto].
    + exists [], (a :: l). split; [done|]. split; [done|]. split; [set_solver|]. intros x [= <-]. lia.
Qed.

(** What linking [a] in between [l1] and [l2] leaves. *)
Record linked N N' (l1 : list Z) (a : Z) (l2 : list Z) : Prop := {
  lk_seg : seg N' None (l1 ++ a :: l2) 0;
  lk_shape : forall x, shape N' x = shape N x;
  lk_others : forall x, x ∉ a :: l1 ++ l2 -> N' !! x = N !! x
}.

Lemma link_last N l z a n nz :
  seg N None (l ++ [z]) 0 -> NoDup (l ++ [z]) -> a ∉ l ++ [z] -> a <> 0 -> N !! a = Some n -> n_next n = 0 -> N !! z = Some nz ->
  linked N (<[a := set_prev z n]> (<[z := set_next a nz]> N)) (l ++ [z]) a [].
Proof.
  intros Hs Hd Ha Ha0 Hn Hx Hz. assert (Hza : z <> a) by set_solver. assert (Hzl : z ∉ l) by (apply NoDup_app in Hd as (_ & Hd & _); set_solver). split.
  - apply seg_app. split.
    + apply (seg_frame (<[z := set_next a nz]> N)); [intros x Hxl; apply lookup_insert_ne; set_solver|]. by apply (seg_next _ _ _ _ _ 0).
    + unfold last_or. rewrite last_snoc. cbn [seg]. split; [done|]. eexists. by split; [apply lookup_insert_eq|].
  - intros x. rewrite (shape_link _ _ n); [by rewrite (shape_link _ _ nz)| |done|done]. by rewrite lookup_insert_ne.
  - intros x Hx'. rewrite !lookup_insert_ne; [done|set_solver|set_solver].
Qed.

Lemma link_first N y l a n ny :
  seg N None (y :: l) 0 -> NoDup (y :: l) -> a ∉ y :: l -> a <> 0 -> N !! a = Some n -> N !! y = Some ny ->
  linked N (<[y := set_prev a ny]> (<[a := set_next y n]> N)) [] a (y :: l).
Proof.
  intros Hs Hd Ha Ha0 Hn Hy. assert (Hya : y <> a) by set_solver. apply NoDup_cons in Hd as [Hyl Hd]. split.
  - cbn [app seg]. split; [done|]. exists (set_next y n). split; [rewrite lookup_insert_ne by done; apply lookup_insert_eq|]. do 2 (split; [done|]).
    apply (seg_prev _ None); [|done|by rewrite lookup_insert_ne]. apply (seg_frame N); [|done]. intros x Hx. apply lookup_insert_ne. set_solver.
  - intros x. rewrite (shape_link _ _ ny); [by rewrite (shape_link _ _ n)| |done|done]. by rewrite lookup_insert_ne.
  - intros x Hx. rewrite !lookup_insert_ne; [done|set_solver|set_solver].
Qed.

Lemma link_between N l z y l2 a n nz ny :
  seg N None ((l ++ [z]) ++ y :: l2) 0 -> NoDup ((l ++ [z]) ++ y :: l2) -> a ∉ (l ++ [z]) ++ y :: l2 -> a <> 0 ->
  N !! a = Some n -> N !! z = Some nz -> N !! y = Some ny ->
  linked N (<[y := set_prev a ny]> (<[a := set_prev z (set_next y n)]> (<[z := set_next a nz]> (<[a := set_next y n]> N)))) (l ++ [z]) a (y :: l2).
Proof.
  intros Hs Hd Ha Ha0 Hn Hz Hy. apply NoDup_app in Hd as (Hd1 & Hdj & [Hyl Hd2]%NoDup_cons).
  assert (Hza : z <> a) by set_solver. assert (Hya : y <> a) by set_solver. assert (Hzy : z <> y) by (intros ->; apply (Hdj y); set_solver).
  assert (Hzl : z ∉ l) by (apply NoDup_app in Hd1 as (_ & Hd & _); set_solver). apply seg_app in Hs as [H1 H2]. cbn [head default from_option id] in H1. split.
  - apply seg_app. split.
    + apply (seg_frame (<[z := set_next a nz]> (<[a := set_next y n]> N))); [intros x Hx; do 2 (rewrite lookup_insert_ne by (intros ->; set_solver)); done|].
      apply (seg_next _ _ _ _ _ y); [|done|by rewrite lookup_insert_ne]. apply (seg_frame N); [|done]. intros x Hx. apply lookup_insert_ne. set_solver.
    + unfold last_or in H2 |- *. rewrite last_snoc in H2 |- *. cbn [seg]. split; [done|]. exists (set_prev z (set_next y n)).
      split; [rewrite lookup_insert_ne by done; apply lookup_insert_eq|]. do 2 (split; [done|]).
      apply (seg_prev _ (Some z)); [|done|by rewrite !lookup_insert_ne]. apply (seg_frame N); [|done]. intros x Hx.
      rewrite !lookup_insert_ne; [done|set_solver| |set_solver]. intros ->. eapply Hdj; [|done]. set_solver.
  - intros x. rewrite (shape_link _ _ ny); [|by rewrite !lookup_insert_ne|done|done].
    rewrite (shape_link _ _ (set_next y n)); [|rewrite lookup_insert_ne by done; apply lookup_insert_eq|done|done].
    rewrite (shape_link _ _ nz); [by rewrite (shape_link _ _ n)| |done|done]. by rewrite lookup_insert_ne.
  - intros x Hx. rewrite !lookup_insert_ne; [done|set_solver..].
Qed.

(** A list with the new node at the place the loop finds is sorted. *)
Lemma sorted_insert N l1 a l2 :
  sorted N (l1 ++ l2) -> (forall x, x ∈ l1 -> size_at N x <= size_at N a) -> (forall x, head l2 = Some x -> size_at N a < size_at N x) -> sorted N (l1 ++ a :: l2).
Proof.
  intros (S1 & S2 & S3)%sorted_app H1 H2.
  assert (H2' : forall x, x ∈ l2 -> size_at N a <= size_at N x).
  { intros x Hx. destruct l2 as [|y l2]; [set_solver|]. specialize (H2 y eq_refl). apply elem_of_cons in Hx as [->|Hx]; [lia|].
    change (y :: l2) with ([y] ++ l2) in S2. apply sorted_app in S2 as (_ & _ & S2). specialize (S2 y x ltac:(left) Hx). lia. }
  apply sorted_app. split; [done|]. split.
  - change (a :: l2) with ([a] ++ l2). apply sorted_app. split; [repeat constructor|]. split; [done|]. intros x y ->%list_elem_of_singleton Hy. auto.
  - intros x y Hx [->|Hy]%elem_of_cons; [auto|]. by apply S3.
Qed.

(** [h'] differs from [h] in the list of bin [i], which is now [l'], and in
    the links of nodes of [touched]. *)
Record relinked h h' (i : nat) (l' touched : list Z) : Prop := {
  rl_feet : hp_feet h' = hp_feet h;
  rl_bounds : hp_start h' = hp_start h /\ hp_end h' = hp_end h /\ hp_size h' = hp_size h;
  rl_bins : hp_bins h' = <[i := first 0 l']> (hp_bins h);
  rl_seg : seg (hp_nodes h') None l' 0;
  rl_shape : forall x, shape (hp_nodes h') x = shape (hp_nodes h) x;
  rl_others : forall x, x ∉ touched -> hp_nodes h' !! x = hp_nodes h !! x
}.

Lemma relinked_linked h N N' B i l1 a l2 :
  linked N N' l1 a l2 -> (forall x, shape N x = shape (hp_nodes h) x) -> (forall x, x <> a -> N !! x = hp_nodes h !! x) ->
  B = <[i := first 0 (l1 ++ a :: l2)]> (hp_bins h) ->
  relinked h (mk_heap N' (hp_feet h) B (hp_size h) (hp_start h) (hp_end h)) i (l1 ++ a :: l2) (a :: l1 ++ l2).
Proof.
  intros [Hseg Hshape Hothers] Hs Ho HB. split; cbn [hp_nodes hp_feet hp_bins hp_start hp_end hp_size]; [done|done|done|done|..].
  - intros x. by rewrite Hshape, Hs.
  - intros x Hx. rewrite Hothers by done. apply Ho. set_solver.
Qed.

Lemma add_node_spec h i l a n :
  hp_nodes h !! a = Some n -> a <> 0 -> a ∉ l -> hp_bins h !! i = Some (first 0 l) -> seg (hp_nodes h) None l 0 -> NoDup l -> sorted (hp_nodes h) l ->
  exists h' l1 l2, add_node h (Some i) a = Some h' /\ l = l1 ++ l2 /\ relinked h h' i (l1 ++ a :: l2) (a :: l1 ++ l2) /\ sorted (hp_nodes h') (l1 ++ a :: l2).
Proof.
  intros Hn Ha Hal Hb Hs Hnd Hso. unfold add_node. cbn [mbind option_bind]. rewrite (update_eq _ _ _ _ Hn). cbn [mbind option_bind].
  set (n0 := set_prev 0 (set_next 0 n)). set (h0 := with_nodes h _). change (hp_bins h0) with (hp_bins h). rewrite Hb. cbn [mbind option_bind].
  assert (Ho0 : forall x, x <> a -> hp_nodes h0 !! x = hp_nodes h !! x) by (intros x Hx; by apply lookup_insert_ne).
  assert (Hs0 : seg (hp_nodes h0) None l 0) by (apply (seg_frame (hp_nodes h)); [|done]; intros x Hx; apply Ho0; by intros ->).
  assert (Hsh0 : forall x, shape (hp_nodes h0) x = shape (hp_nodes h) x) by (intros x; by apply (shape_link _ _ n)).
  assert (Hn0 : hp_nodes h0 !! a = Some n0) by apply lookup_insert_eq.
  assert (Hsize : size_at (hp_nodes h0) a = n_size n0) by (unfold size_at; by rewrite Hn0).
  apply (sorted_frame _ (hp_nodes h0)) in Hso; [|intros x _; by apply shape_size].
  assert (Hfin : forall N' B' l1 l2, l = l1 ++ l2 -> linked (hp_nodes h0) N' l1 a l2 -> B' = <[i := first 0 (l1 ++ a :: l2)]> (hp_bins h) ->
    (forall x, x ∈ l1 -> size_at (hp_nodes h0) x <= n_size n0) -> (forall x, head l2 = Some x -> n_size n0 < size_at (hp_nodes h0) x) ->
    exists h'' l1 l2, Some (mk_heap N' (hp_feet h) B' (hp_size h) (hp_start h) (hp_end h)) = Some h'' /\ l = l1 ++ l2 /\
      relinked h h'' i (l1 ++ a :: l2) (a :: l1 ++ l2) /\ sorted (hp_nodes h'') (l1 ++ a :: l2)).
  { intros N' B' l1 l2 -> Hlk HB H1 H2. eexists _, l1, l2. split; [done|]. split; [done|]. split; [by eapply relinked_linked|]. destruct Hlk as [_ Hsh _].
    apply (sorted_frame (hp_nodes h0)); [intros x _; by apply shape_size|]. apply sorted_insert; [done|by rewrite Hsize..]. }
  destruct (decide (l = [])) as [->|Hne].
  { cbn [head default from_option id]. rewrite Z.eqb_refl. apply (Hfin _ _ [] []); [done| |done|set_solver|done].
    split; [|done|done]. cbn [seg app]. split; [done|]. by exists n0. }
  assert (Hhd : (first 0 l =? 0) = false) by (apply Z.eqb_neq; destruct l as [|b0 lr]; [done|]; by apply Hs).
  rewrite Hhd, Hn0. cbn [mbind option_bind].
  destruct (add_loop_spec (list_fuel h0) h0 (n_size n0) None l Hs0) as (l1 & l2 & Hl & Hloop & H1 & H2).
  { unfold list_fuel. pose proof (seg_fuel _ _ _ _ Hnd Hs0). lia. }
  change (default 0 None) with 0 in Hloop. rewrite Hloop. cbn [mbind option_bind]. rewrite Hl in Hs0, Hnd, Hal.
  assert (Hlast : l1 = [] \/ exists l0 z nz, l1 = l0 ++ [z] /\ last_or None l1 = Some z /\ z <> 0 /\ z <> a /\ hp_nodes h0 !! z = Some nz).
  { destruct l1 as [|x1 l1']; [by left|right]. destruct (exists_last (l := x1 :: l1') ltac:(done)) as (l0 & z & Hz). rewrite Hz in *.
    destruct (seg_node _ _ _ _ z Hs0) as [Hz0 [nz Hnz]]; [set_solver|]. exists l0, z, nz. unfold last_or. rewrite last_snoc. split; [done|].
    split; [done|]. split; [done|]. split; [set_solver|done]. }
  assert (Hkeep : l1 <> [] -> hp_bins h = <[i := first 0 (l1 ++ a :: l2)]> (hp_bins h)).
  { intros Hl1. symmetry. apply list_insert_id. rewrite Hb, Hl. by destruct l1. }
  destruct l2 as [|y l2].
  - cbn [head default from_option id]. rewrite Z.eqb_refl. destruct Hlast as [->|(l0 & z & nz & -> & -> & Hz0 & Hza & Hnz)]; [done|].
    cbn [default from_option id]. rewrite (update_eq _ _ _ _ Hnz). cbn [mbind option_bind]. erewrite update_eq by (cbn; rewrite lookup_insert_ne by done; exact Hn0).
    rewrite app_nil_r in Hs0, Hnd, Hal. eapply Hfin; [exact Hl|by apply link_last|apply Hkeep; by destruct l0|done|done].
  - destruct (seg_node _ _ _ _ y Hs0) as [Hy0 [ny Hny]]; [set_solver|]. assert (Hya : y <> a) by set_solver.
    cbn [head default from_option id]. rewrite (proj2 (Z.eqb_neq y 0) Hy0). destruct Hlast as [->|(l0 & z & nz & -> & -> & Hz0 & Hza & Hnz)].
    + cbn [last_or last default from_option id negb Z.eqb]. replace (first 0 l) with y by (by rewrite Hl). rewrite (update_eq _ _ _ _ Hn0). cbn [mbind option_bind].
      erewrite update_eq by (cbn; rewrite lookup_insert_ne by done; exact Hny). cbn [mbind option_bind].
      eapply Hfin; [exact Hl|by apply link_first|done|done|done].
    + cbn [default from_option id]. rewrite (proj2 (Z.eqb_neq z 0) Hz0). cbn [negb]. rewrite (update_eq _ _ _ _ Hn0). cbn [mbind option_bind].
      erewrite update_eq by (cbn; rewrite lookup_insert_ne by done; exact Hnz). cbn [mbind option_bind].
      erewrite update_eq by (cbn; rewrite lookup_insert_ne by done; apply lookup_insert_eq). cbn [mbind option_bind].
      assert (Hzy : z <> y) by (apply NoDup_app in Hnd as (_ & Hdj & _); intros ->; apply (Hdj y); set_solver).
      erewrite update_eq by (cbn; do 3 (rewrite lookup_insert_ne by done); exact Hny). cbn [mbind option_bind].
      eapply Hfin; [exact Hl|by apply link_between|apply Hkeep; by destruct l0|done|done].
Qed.
(** ** Removing from a bin *)
Lemma remove_loop_spec k h p l1 a l2 :
  seg (hp_nodes h) (Some p) (l1 ++ a :: l2) 0 -> NoDup (l1 ++ a :: l2) -> (length (l1 ++ a :: l2) < k)%nat ->
  remove_loop k h a (first 0 (l1 ++ a :: l2)) =
    let z := default p (last l1) in
    match l2 with
    | [] => update h z (set_next 0)
    | y :: _ => h ← update h z (set_next y); update h y (set_prev z)
    end.
Proof.
  revert p k. induction l1 as [|x l1 IH]; intros p k Hs Hd Hk; (destruct k as [|k]; [simpl in Hk; lia|]); cbn [app head default from_option id remove_loop].
  - cbn [app seg] in Hs. destruct Hs as (Ha & n & Hn & Hx & Hp & Hs). rewrite (proj2 (Z.eqb_neq a 0) Ha), Hn. cbn [mbind option_bind].
    rewrite Z.eqb_refl, Hx, Hp. destruct l2 as [|y l2]; [done|]. cbn [head default from_option id]. by rewrite (proj2 (Z.eqb_neq y 0) (proj1 Hs)).
  - cbn [app seg] in Hs. destruct Hs as (Ha & n & Hn & Hx & Hp & Hs). cbn [app] in Hd. apply NoDup_cons in Hd as [Hxl Hd].
    rewrite (proj2 (Z.eqb_neq x 0) Ha), Hn. cbn [mbind option_bind]. rewrite (proj2 (Z.eqb_neq x a)) by set_solver. rewrite Hx, (IH x k Hs Hd) by (simpl in Hk; lia).
    cbn zeta. rewrite last_cons. by destruct (last l1).
Qed.

Lemma unlink_last N l z a nz :
  seg N None ((l ++ [z]) ++ [a]) 0 -> NoDup (l ++ [z]) -> N !! z = Some nz -> seg (<[z := set_next 0 nz]> N) None (l ++ [z]) 0.
Proof.
  intros [H1 _]%seg_app Hd Hz. assert (Hzl : z ∉ l) by (apply NoDup_app in Hd as (_ & Hd & _); set_solver). by apply (seg_next _ _ _ _ _ a).
Qed.

Lemma unlink_between N l z a y l2 nz ny :
  seg N None ((l ++ [z]) ++ a :: y :: l2) 0 -> NoDup ((l ++ [z]) ++ y :: l2) -> N !! z = Some nz -> N !! y = Some ny ->
  seg (<[y := set_prev z ny]> (<[z := set_next y nz]> N)) None ((l ++ [z]) ++ y :: l2) 0.
Proof.
  intros [H1 H2]%seg_app Hd Hz Hy. apply NoDup_app in Hd as (Hd1 & Hdj & [Hyl Hd2]%NoDup_cons).
  assert (Hzl : z ∉ l) by (apply NoDup_app in Hd1 as (_ & Hd & _); set_solver).
  assert (Hzy : z <> y) by (intros ->; apply (Hdj y); set_solver). cbn [seg] in H2. destruct H2 as (_ & n & _ & _ & _ & H2). apply seg_app. split.
  - apply (seg_frame (<[z := set_next y nz]> N)); [|by apply (seg_next _ _ _ _ _ a)]. intros x Hx. apply lookup_insert_ne. intros ->. apply (Hdj x); set_solver.
  - unfold last_or. rewrite last_snoc. apply (seg_prev _ (Some a)); [|done|by rewrite lookup_insert_ne]. apply (seg_frame N); [|done].
    intros x Hx. apply lookup_insert_ne. intros ->. apply (Hdj x); set_solver.
Qed.

Lemma remove_node_spec h i l1 a l2 :
  hp_bins h !! i = Some (first 0 (l1 ++ a :: l2)) -> seg (hp_nodes h) None (l1 ++ a :: l2) 0 -> NoDup (l1 ++ a :: l2) ->
  exists h', remove_node h (Some i) a = Some h' /\ relinked h h' i (l1 ++ l2) (l1 ++ a :: l2).
Proof.
  intros Hb Hs Hd. unfold remove_node. cbn [mbind option_bind]. rewrite Hb. cbn [mbind option_bind].
  destruct l1 as [|b l1].
  - cbn [app head default from_option id seg] in *. destruct Hs as (Ha & n & Hn & Hx & _ & Hs). rewrite (proj2 (Z.eqb_neq a 0) Ha), Hn. cbn [mbind option_bind].
    rewrite Z.eqb_refl. eexists. split; [done|]. split; cbn; try done; [by rewrite Hx|]. by apply seg_none in Hs.
  - pose proof Hs as Hs'. pose proof Hd as Hd'. cbn [app head default from_option id seg] in Hs, Hd |- *. destruct Hs as (Hb0 & n & Hn & Hx & _ & Hs).
    apply NoDup_cons in Hd as [Hbl Hd]. rewrite (proj2 (Z.eqb_neq b 0) Hb0), Hn. cbn [mbind option_bind]. rewrite (proj2 (Z.eqb_neq b a)) by set_solver.
    rewrite Hx, (remove_loop_spec _ _ _ _ _ _ Hs Hd); [|unfold list_fuel; pose proof (seg_fuel _ _ _ _ Hd Hs); lia]. cbn zeta.
    assert (Hz : exists l z, b :: l1 = l ++ [z] /\ default b (last l1) = z).
    { destruct (exists_last (l := b :: l1) ltac:(done)) as (l & z & Hz). exists l, z. split; [done|]. pose proof (f_equal last Hz) as Hl. rewrite last_snoc, last_cons in Hl.
      destruct (last l1); by injection Hl. }
    destruct Hz as (l & z & Hz & ->). change (b :: l1 ++ l2) with ((b :: l1) ++ l2). change (b :: l1 ++ a :: l2) with ((b :: l1) ++ a :: l2) in Hs', Hd' |- *.
    assert (Hkeep : hp_bins h = <[i := first 0 ((b :: l1) ++ l2)]> (hp_bins h)) by (symmetry; by apply list_insert_id).
    rewrite Hz in *. destruct (seg_node _ _ _ _ z Hs') as [Hz0 [nz Hnz]]; [set_solver|].
    assert (Hd2 : NoDup ((l ++ [z]) ++ l2)) by (eapply sublist_NoDup; [exact Hd'|apply sublist_app; [done|by apply sublist_cons]]).
    destruct l2 as [|y l2]; cbn zeta; rewrite (update_eq _ _ _ _ Hnz).
    + rewrite app_nil_r in *. eexists. split; [done|]. split; cbn; try done; [by eapply unlink_last|..].
      * intros x. by apply (shape_link _ _ nz).
      * intros x Hx'. apply lookup_insert_ne. set_solver.
    + destruct (seg_node _ _ _ _ y Hs') as [Hy0 [ny Hny]]; [set_solver|]. cbn [mbind option_bind].
      assert (Hzy : z <> y) by (apply NoDup_app in Hd2 as (_ & Hdj & _); intros ->; apply (Hdj y); set_solver).
      erewrite update_eq by (cbn; rewrite lookup_insert_ne by done; exact Hny). eexists. split; [done|]. split; cbn; try done; [by eapply unlink_between|..].
      * intros x. rewrite (shape_link _ _ ny); [by apply (shape_link _ _ nz)| |done|done]. by rewrite lookup_insert_ne.
      * intros x Hx'. rewrite !lookup_insert_ne; [done|set_solver|set_solver].
Qed.
End bins.

(** ** Bins *)
(** [shift_count] is the logarithm. *)
Lemma shift_count_log2 k z : 0 < z < 2 ^ Z.of_nat k -> shift_count k z = Z.log2 z.
Proof.
  revert z. induction k as [|k IH]; intros z Hz; [simpl in Hz; lia|]. cbn [shift_count]. cbn zeta. rewrite Z.shiftr_div_pow2 by lia. change (2 ^ 1) with 2.
  rewrite Nat2Z.inj_succ, Z.pow_succ_r in Hz by lia. destruct (Z.eqb_spec (z / 2) 0) as [Hd|Hd].
  - assert (z = 1) as -> by (pose proof (Z.div_mod z 2); pose proof (Z.mod_pos_bound z 2); lia). done.
  - rewrite IH by (split; [pose proof (Z.div_pos z 2); lia|apply Z.div_lt_upper_bound; lia]).
    assert (Hh : 0 < z / 2) by (pose proof (Z.div_pos z 2); lia). destruct (Z.log2_spec _ Hh) as [Hl Hu].
    symmetry. apply Z.log2_unique; [pose proof (Z.log2_nonneg (z / 2)); lia|]. rewrite Z.add_1_l, !Z.pow_succ_r in * by (pose proof (Z.log2_nonneg (z / 2)); lia).
    pose proof (Z.div_mod z 2); pose proof (Z.mod_pos_bound z 2); lia.
Qed.

Lemma get_bin_index_log2 z : 0 <= z < 2 ^ 64 -> get_bin_index z = Nat.min (Z.to_nat (Z.log2 (Z.max 4 z) - 2)) MAX_BIN_INDEX.
Proof.
  intros Hz. unfold get_bin_index. replace (if z <? 4 then 4 else z) with (Z.max 4 z) by (destruct (Z.ltb_spec z 4); lia).
  by rewrite shift_count_log2 by lia.
Qed.

Lemma get_bin_index_mono z z' : 0 <= z -> z <= z' -> z' < 2 ^ 64 -> (get_bin_index z <= get_bin_index z')%nat.
Proof.
  intros Hz Hle Hz'. rewrite !get_bin_index_log2 by lia. pose proof (Z.log2_le_mono (Z.max 4 z) (Z.max 4 z')). lia.
Qed.

(** No block is so large that it has no bin. *)
Lemma get_bin_index_small z : 0 <= z < 2 ^ 32 -> (get_bin_index z < MAX_BIN_INDEX)%nat.
Proof.
  intros Hz. rewrite get_bin_index_log2 by lia. assert (Z.log2 (Z.max 4 z) < 32) by (apply Z.log2_lt_pow2; lia). unfold MAX_BIN_INDEX, MAX_BIN_COUNT. lia.
Qed.
Lemma get_bin_index_count z : 0 <= z < 2 ^ 32 -> (get_bin_index z < MAX_BIN_COUNT)%nat.
Proof. intros Hz%get_bin_index_small. unfold MAX_BIN_INDEX in Hz. lia. Qed.
Lemma get_bin_from_index_small i : (i < MAX_BIN_INDEX)%nat -> get_bin_from_index i = Some i.
Proof. intros Hi. unfold get_bin_from_index. by rewrite (proj2 (Nat.eqb_neq i MAX_BIN_INDEX)) by lia. Qed.
Lemma get_bin_from_size_small z : 0 <= z < 2 ^ 32 -> get_bin_from_size z = Some (get_bin_index z).
Proof. intros Hz. by apply get_bin_from_index_small, get_bin_index_small. Qed.

Section lists_ok.
Implicit Types (h : nexus_heap) (N : gmap Z node) (X : list Z) (L : nat -> list Z) (H : Z -> Z -> Prop).

Definition links N (a : Z) : option (Z * Z) := (fun n => (n_next n, n_prev n)) <$> N !! a.

Lemma seg_links N N' p l q : (forall x, x ∈ l -> links N' x = links N x) -> seg N p l q -> seg N' p l q.
Proof.
  revert p. induction l as [|a l IH]; intros p Hf; [done|]. cbn [seg]. intros (Ha & n & Hn & Hx & Hp & Hs). split; [done|].
  pose proof (Hf a ltac:(left)) as Hl. unfold links in Hl. rewrite Hn in Hl. destruct (N' !! a) as [n'|]; [|done]. cbn in Hl. injection Hl as Hl1 Hl2.
  exists n'. split; [done|]. split; [congruence|]. split; [destruct p; congruence|]. apply IH; [|done]. intros x Hxl. apply Hf. by right.
Qed.

(** The bins hold the holes [H] (an address and a size), each in the bin of
    its size and the smaller ones first; nothing is said of the blocks in [X],
    which an operation is moving. *)
Record lists_ok X h H L : Prop := {
  lo_len : length (hp_bins h) = MAX_BIN_COUNT;
  lo_bin : forall i, (i < MAX_BIN_COUNT)%nat -> hp_bins h !! i = Some (first 0 (L i));
  lo_seg : forall i, seg (hp_nodes h) None (L i) 0;
  lo_nodup : forall i, NoDup (L i);
  lo_disj : forall i j x, x ∈ L i -> x ∈ L j -> i = j;
  lo_sorted : forall i, sorted (hp_nodes h) (filter (fun x => x ∉ X) (L i));
  lo_mem : forall i x, x ∉ X -> (x ∈ L i <-> exists s, H x s /\ get_bin_index s = i)
}.

Definition set_list L (i : nat) (l : list Z) : nat -> list Z := fun k => if decide (k = i) then l else L k.
Lemma set_list_eq L i l : set_list L i l i = l.
Proof. unfold set_list. by rewrite decide_True. Qed.
Lemma set_list_ne L i k l : k <> i -> set_list L i l k = L k.
Proof. intros Hk. unfold set_list. by rewrite decide_False. Qed.

Lemma sorted_filter N (P : Z -> Prop) `{!forall x, Decision (P x)} l : sorted N l -> sorted N (filter P l).
Proof.
  induction l as [|a l IH]; [done|]. change (a :: l) with ([a] ++ l). intros (_ & S2 & S3)%sorted_app. rewrite filter_app.
  apply sorted_app. split; [|split; [auto|]].
  - rewrite filter_cons. destruct (decide (P a)); repeat constructor.
  - intros x y [_ Hx]%list_elem_of_filter [_ Hy]%list_elem_of_filter. by apply S3.
Qed.

Lemma filter_kept (X l : list Z) : (forall x, x ∈ l -> x ∉ X) -> filter (fun x => x ∉ X) l = l.
Proof. induction l as [|y l IH]; [done|]. intros Hl. rewrite filter_cons_True; [f_equal; apply IH; set_solver|]. apply Hl. left. Qed.

(** *** What the lists do not see *)
Lemma lists_frame X X' h h' H H' L :
  lists_ok X h H L -> hp_bins h' = hp_bins h -> (forall i x, x ∈ L i -> links (hp_nodes h') x = links (hp_nodes h) x) ->
  (forall i x, x ∈ L i -> x ∉ X' -> size_at (hp_nodes h') x = size_at (hp_nodes h) x) -> X ⊆ X' ->
  (forall x s, x ∉ X' -> H' x s <-> H x s) -> lists_ok X' h' H' L.
Proof.
  intros [Hlen Hbin Hseg Hnd Hdj Hso Hmem] Hb Hl Hs HX HH. split; rewrite ?Hb; try done.
  - intros i. eapply seg_links; [|apply Hseg]. apply Hl.
  - intros i. apply (sorted_frame (hp_nodes h)); [intros x [Hx Hxi]%list_elem_of_filter; by eapply Hs|].
    assert (Hf : filter (fun x => x ∉ X') (L i) = filter (fun x => x ∉ X') (filter (fun x => x ∉ X) (L i))).
    { rewrite list_filter_filter. apply list_filter_iff. set_solver. }
    rewrite Hf. by apply sorted_filter.
  - intros i x Hx. rewrite Hmem by set_solver. by setoid_rewrite HH.
Qed.

(** Some blocks are at rest again. *)
Lemma lists_settle X Y h H L :
  lists_ok X h H L -> Y ⊆ X -> (forall x i, x ∈ X -> x ∉ Y -> x ∉ L i) -> (forall x s, x ∈ X -> x ∉ Y -> ~ H x s) -> lists_ok Y h H L.
Proof.
  intros [Hlen Hbin Hseg Hnd Hdj Hso Hmem] HYX HX HH. split; try done.
  - intros i. assert (Hf : filter (fun x => x ∉ Y) (L i) = filter (fun x => x ∉ X) (L i)); [|by rewrite Hf].
    assert (Hi : forall x, x ∈ L i -> x ∈ X -> x ∈ Y) by (intros x Hx HxX; destruct (decide (x ∈ Y)); [done|]; by apply (HX x i) in HxX).
    induction (L i) as [|y l IH]; [done|]. rewrite !filter_cons, IH by set_solver. destruct (decide (y ∉ Y)), (decide (y ∉ X)); set_solver.
  - intros i x Hx. destruct (decide (x ∈ X)) as [HxX|HxX]; [|by apply Hmem]. split; [intros Hxi; by apply HX in Hxi|]. intros (s & Hs & _). by apply HH in Hs.
Qed.

(** An operation on the bins leaves the blocks as they are. *)
Record same_blocks h h' : Prop := {
  sb_feet : hp_feet h' = hp_feet h;
  sb_bounds : hp_start h' = hp_start h /\ hp_end h' = hp_end h /\ hp_size h' = hp_size h;
  sb_shape : forall x, shape (hp_nodes h') x = shape (hp_nodes h) x
}.
Lemma relinked_same h h' i l t : relinked h h' i l t -> same_blocks h h'.
Proof. by intros []. Qed.
Lemma relinked_sizes h h' i l t x : relinked h h' i l t -> size_at (hp_nodes h') x = size_at (hp_nodes h) x.
Proof. intros Hr. apply shape_size. apply Hr. Qed.

(** A new list for bin [i], of nodes no other bin has. *)
Lemma lists_relink X h h' H L i l t :
  lists_ok X h H L -> (i < MAX_BIN_COUNT)%nat -> relinked h h' i l t -> NoDup l -> (forall j x, j <> i -> x ∈ L j -> x ∉ l /\ x ∉ t) ->
  (forall j, (j < MAX_BIN_COUNT)%nat -> hp_bins h' !! j = Some (first 0 (set_list L i l j))) /\ length (hp_bins h') = MAX_BIN_COUNT /\
  (forall j, seg (hp_nodes h') None (set_list L i l j) 0) /\ (forall j, NoDup (set_list L i l j)) /\
  (forall j k x, x ∈ set_list L i l j -> x ∈ set_list L i l k -> j = k).
Proof.
  intros [Hlen Hbin Hseg Hnd Hdj Hso Hmem] Hi Hr Hl Ho. pose proof Hr as [_ _ Hb Hsg _ Hot].
  assert (Hcase : forall j, (j = i /\ set_list L i l j = l) \/ (j <> i /\ set_list L i l j = L j)).
  { intros j. unfold set_list. destruct (decide (j = i)); auto. }
  split; [|split; [by rewrite Hb, length_insert|split; [|split]]].
  - intros j Hj. destruct (Hcase j) as [[-> ->]|[Hne ->]]; rewrite Hb; [rewrite list_lookup_insert_eq by lia; done|].
    rewrite list_lookup_insert_ne by done. by apply Hbin.
  - intros j. destruct (Hcase j) as [[-> ->]|[Hne ->]]; [done|]. eapply seg_frame; [|apply Hseg]. intros x Hx. apply Hot. by eapply Ho.
  - intros j. destruct (Hcase j) as [[-> ->]|[Hne ->]]; auto.
  - intros j k x. destruct (Hcase j) as [[-> ->]|[Hne ->]], (Hcase k) as [[-> ->]|[Hne' ->]]; [done|..]; intros Hx Hx'.
    + by destruct (Ho k x Hne' Hx').
    + by destruct (Ho j x Hne Hx).
    + by eapply Hdj.
Qed.

(** *** Adding a hole *)
Lemma lists_add X h H H' L a n :
  lists_ok X h H L -> X ⊆ [a] -> hp_nodes h !! a = Some n -> a <> 0 -> (forall i, a ∉ L i) -> 0 <= n_size n < 2 ^ 32 ->
  (forall x s, H' x s <-> (x <> a /\ H x s) \/ (x = a /\ s = n_size n)) ->
  exists h' L', add_node h (get_bin_from_size (n_size n)) a = Some h' /\ same_blocks h h' /\ lists_ok [] h' H' L' /\
    (forall i x, x ∈ L i -> x ∈ L' i).
Proof.
  intros Hlo HX Hn Ha Hal Hsz HH. rewrite get_bin_from_size_small by done. set (i := get_bin_index (n_size n)).
  assert (Hi : (i < MAX_BIN_COUNT)%nat) by (by apply get_bin_index_count).
  assert (Hall : forall j, filter (fun x => x ∉ X) (L j) = L j).
  { intros j. apply filter_kept. intros x Hx Hxa. apply HX in Hxa. apply (Hal j). set_solver. }
  pose proof Hlo as [Hlen Hbin Hseg Hnd Hdj Hso Hmem].
  destruct (add_node_spec h i (L i) a n) as (h' & l1 & l2 & Hadd & Hl & Hr & Hs'); [done|done|apply Hal|by apply Hbin|apply Hseg|apply Hnd|specialize (Hso i); by rewrite Hall in Hso|].
  assert (Hal' := Hal i). pose proof (Hnd i) as Hndi. rewrite Hl in Hal', Hndi.
  assert (Hmi : forall x, x ∈ l1 ++ a :: l2 <-> x = a \/ x ∈ L i) by (intros x; rewrite Hl; set_solver).
  destruct (lists_relink X h h' H L i (l1 ++ a :: l2) (a :: l1 ++ l2) Hlo Hi Hr) as (E1 & E2 & E3 & E4 & E5).
  { apply NoDup_app in Hndi as (D1 & D2 & D3). apply NoDup_app. split; [done|]. split; [set_solver|]. apply NoDup_cons. split; [set_solver|done]. }
  { intros j x Hj Hx. assert (Hxa : x <> a) by (intros ->; by apply (Hal j)). assert (Hxi : x ∉ L i) by (intros Hxi; apply Hj; by eapply Hdj). rewrite Hl in Hxi. set_solver. }
  exists h', (set_list L i (l1 ++ a :: l2)). split; [done|]. split; [by eapply relinked_same|]. split; [split; try done|].
  - intros j. rewrite filter_kept by set_solver. unfold set_list. destruct (decide (j = i)) as [->|Hj]; [done|].
    apply (sorted_frame (hp_nodes h)); [intros x _; by eapply relinked_sizes|]. specialize (Hso j). by rewrite Hall in Hso.
  - intros j x _. setoid_rewrite HH. unfold set_list. destruct (decide (x = a)) as [->|Hxa].
    + destruct (decide (j = i)) as [->|Hj]; [split; [intros _; exists (n_size n); auto|set_solver]|]. split; [intros Hx; by apply Hal in Hx|].
      intros (s & [[]|[_ ->]] & Hj'); [done|]. unfold i in Hj. congruence.
    + assert (Hxj : x ∈ (if decide (j = i) then l1 ++ a :: l2 else L j) <-> x ∈ L j) by (destruct (decide (j = i)) as [->|]; [rewrite Hmi; naive_solver|done]).
      rewrite Hxj, Hmem by set_solver. naive_solver.
  - intros j x Hx. unfold set_list. destruct (decide (j = i)) as [->|]; [|done]. apply Hmi. by right.
Qed.

(** *** Taking one out *)
Lemma lists_remove X h H L a i :
  lists_ok X h H L -> (i < MAX_BIN_COUNT)%nat -> a ∈ L i ->
  exists h' L', remove_node h (Some i) a = Some h' /\ same_blocks h h' /\ lists_ok (a :: X) h' H L' /\ (forall j x, x ∈ L' j <-> x ∈ L j /\ x <> a).
Proof.
  intros Hlo Hi Ha. pose proof Hlo as [Hlen Hbin Hseg Hnd Hdj Hso Hmem]. pose proof Ha as (l1 & l2 & Hl)%list_elem_of_split.
  pose proof (Hnd i) as Hndi. destruct (remove_node_spec h i l1 a l2) as (h' & Hrm & Hr); [rewrite <- Hl; by apply Hbin|rewrite <- Hl; apply Hseg|by rewrite <- Hl|].
  rewrite Hl in Hndi. pose proof Hndi as (D1 & D2 & [D3 D4]%NoDup_cons)%NoDup_app.
  assert (Hmi : forall x, x ∈ l1 ++ l2 <-> x ∈ L i /\ x <> a).
  { intros x. rewrite Hl, !elem_of_app, elem_of_cons. split; [|naive_solver]. intros [Hx|Hx]; (split; [tauto|]); intros ->; [|done]. apply (D2 _ Hx). left. }
  destruct (lists_relink X h h' H L i (l1 ++ l2) (l1 ++ a :: l2) Hlo Hi Hr) as (E1 & E2 & E3 & E4 & E5).
  { apply NoDup_app. split; [done|]. split; [intros x Hx Hx2; apply (D2 _ Hx); by right|done]. }
  { intros j x Hj Hx. assert (Hxi : x ∉ L i) by (intros Hxi; apply Hj; by eapply Hdj). split; [rewrite Hmi; tauto|by rewrite <- Hl]. }
  assert (Hm : forall j x, x ∈ set_list L i (l1 ++ l2) j <-> x ∈ L j /\ x <> a).
  { intros j x. unfold set_list. destruct (decide (j = i)) as [->|Hj]; [done|]. split; [|tauto]. intros Hx. split; [done|]. intros ->. apply Hj. by eapply Hdj. }
  exists h', (set_list L i (l1 ++ l2)). split; [done|]. split; [by eapply relinked_same|]. split; [split; try done|done].
  - intros j. apply (sorted_frame (hp_nodes h)); [intros x _; by eapply relinked_sizes|]. unfold set_list. destruct (decide (j = i)) as [->|Hj].
    + specialize (Hso i). rewrite Hl in Hso. rewrite (list_filter_iff _ (fun x => x ∉ X /\ x <> a)) by set_solver.
      assert (Hf : filter (fun x => x ∉ X /\ x <> a) (l1 ++ l2) = filter (fun x => x <> a) (filter (fun x => x ∉ X) (l1 ++ a :: l2))).
      { rewrite list_filter_filter, !filter_app. f_equal; [apply list_filter_iff; naive_solver|]. rewrite (filter_cons_False _ a) by naive_solver. apply list_filter_iff. naive_solver. }
      rewrite Hf. by apply sorted_filter.
    + assert (Hf : filter (fun x => x ∉ a :: X) (L j) = filter (fun x => x ∉ X) (L j)).
      { assert (Haj : a ∉ L j) by (intros Haj; apply Hj; by eapply Hdj). induction (L j) as [|y l IH]; [done|]. rewrite !filter_cons.
        rewrite IH by set_solver. destruct (decide (y ∉ a :: X)), (decide (y ∉ X)); set_solver. }
      by rewrite Hf.
  - intros j x Hx. rewrite Hm, <- Hmem by set_solver. set_solver.
Qed.
End lists_ok.
