(* ===== verification/HeapProps.v ===== *)
(** * The allocator hands out disjoint memory, best fit first

    The blocks tile the memory and the free ones are exactly the members of
    the bins of their sizes.  [block]s are the abstract heap: [alloc] and
    [released] say what a request and a release do to the run of blocks,
    and the calls of [nexus_heap.c] are proved to do that. *)
From S2P Require Import Prelude Heap HeapLists.

(** ** The abstract heap *)
Record block := mk_block { b_addr : Z; b_size : Z; b_hole : bool }.

(** Cutting [size] bytes off a hole; a rest too small to be of use stays with
    the block. *)
Definition pieces (hole : bool) (b : block) (size : Z) : list block :=
  if overhead + MIN_ALLOC_SIZE <? b_size b - size
  then [mk_block (b_addr b) size hole; mk_block (b_addr b + overhead + size) (b_size b - size - overhead) true]
  else [mk_block (b_addr b) (b_size b) hole].
Definition cut : block -> Z -> list block := pieces false.

(** A request: the smallest hole that is large enough is cut, NULL when there
    is none. *)
Inductive alloc (bs : list block) (size : Z) : list block -> Z -> Prop :=
| alloc_none : (forall b, b ∈ bs -> b_hole b = true -> b_size b < size) -> alloc bs size bs 0
| alloc_best bs1 b bs2 :
    bs = bs1 ++ b :: bs2 -> b_hole b = true -> size <= b_size b ->
    (forall c, c ∈ bs -> b_hole c = true -> size <= b_size c -> b_size b <= b_size c) ->
    alloc bs size (bs1 ++ cut b size ++ bs2) (b_addr b + NODE_SIZE).

(** A hole absorbs the block after it. *)
Definition merge (a b : block) : block := mk_block (b_addr a) (b_size a + (overhead + b_size b)) (b_hole a).

(** Releasing [b], between [bs1] and [bs2]: it is joined with the hole before
    and the hole after it; the first block of the memory never is. *)
Definition released (bs1 : list block) (b : block) (bs2 : list block) : list block :=
  match bs1 with
  | [] => mk_block (b_addr b) (b_size b) true :: bs2
  | _ =>
      let '(bs1, b) := match last bs1 with Some p => if b_hole p then (removelast bs1, merge p b) else (bs1, b) | None => (bs1, b) end in
      let '(b, bs2) := match bs2 with x :: bs2' => if b_hole x then (merge b x, bs2') else (b, bs2) | [] => (b, bs2) end in
      bs1 ++ mk_block (b_addr b) (b_size b) true :: bs2
  end.

(** ** The memory holds the blocks *)
Implicit Types (N : gmap Z node) (F : gmap Z Z) (bs : list block).

Fixpoint tiled N F (a : Z) bs (e : Z) : Prop :=
  match bs with
  | [] => a = e
  | b :: bs =>
      b_addr b = a /\ 0 <= b_size b /\ shape N a = Some (b_hole b, b_size b) /\ F !! (a + NODE_SIZE + b_size b) = Some a /\
      tiled N F (a + overhead + b_size b) bs e
  end.

Lemma tiled_app N F a bs1 bs2 e : tiled N F a (bs1 ++ bs2) e <-> exists m, tiled N F a bs1 m /\ tiled N F m bs2 e.
Proof.
  revert a. induction bs1 as [|b bs1 IH]; intros a; cbn [app tiled]; [naive_solver|]. rewrite IH. naive_solver.
Qed.

Lemma tiled_le N F a bs e : tiled N F a bs e -> a <= e.
Proof. revert a. induction bs as [|b bs IH]; intros a; cbn [tiled]; [lia|]. intros (_ & Hs & _ & _ & Ht). apply IH in Ht. unfold overhead, FOOTER_SIZE, NODE_SIZE in Ht. lia. Qed.

Lemma tiled_in N F a bs e b :
  tiled N F a bs e -> b ∈ bs ->
  a <= b_addr b /\ 0 <= b_size b /\ b_addr b + overhead + b_size b <= e /\ shape N (b_addr b) = Some (b_hole b, b_size b) /\ F !! (b_addr b + NODE_SIZE + b_size b) = Some (b_addr b).
Proof.
  intros Ht (bs1 & bs2 & ->)%list_elem_of_split. apply tiled_app in Ht as (m & H1 & H2). cbn [tiled] in H2. destruct H2 as (Ha & Hs & Hn & Hf & H2).
  apply tiled_le in H1, H2. rewrite Ha. auto.
Qed.

(** Blocks are known by their addresses. *)
Lemma tiled_inj N F a bs e b c : tiled N F a bs e -> b ∈ bs -> c ∈ bs -> b_addr b = b_addr c -> b = c.
Proof.
  intros Ht (bs1 & bs2 & ->)%list_elem_of_split Hc He. apply tiled_app in Ht as (m & H1 & H2). cbn [tiled] in H2. destruct H2 as (Ha & Hs & _ & _ & H2).
  apply elem_of_app in Hc as [Hc|[->|Hc]%elem_of_cons]; [|done|].
  - destruct (tiled_in _ _ _ _ _ _ H1 Hc) as (_ & Hz & Hle & _). unfold overhead, FOOTER_SIZE, NODE_SIZE in Hle. lia.
  - destruct (tiled_in _ _ _ _ _ _ H2 Hc) as (Hle & Hz & _). unfold overhead, FOOTER_SIZE, NODE_SIZE in Hle. lia.
Qed.

Lemma tiled_frame N N' F F' a bs e :
  tiled N F a bs e -> (forall x, a <= x < e -> shape N' x = shape N x /\ F' !! x = F !! x) -> tiled N' F' a bs e.
Proof.
  revert a. induction bs as [|b bs IH]; intros a; cbn [tiled]; [done|]. intros (Ha & Hs & Hn & Hf & Ht) He. pose proof (tiled_le _ _ _ _ _ Ht) as Hle.
  unfold overhead, FOOTER_SIZE, NODE_SIZE in *. split; [done|]. split; [done|]. split; [rewrite (proj1 (He a ltac:(lia))); done|].
  split; [rewrite (proj2 (He (a + 24 + b_size b) ltac:(lia))); done|]. apply IH; [done|]. intros x Hx. apply He. lia.
Qed.

(** Replacing the blocks between two addresses. *)
Lemma tiled_splice N N' F F' a bs1 mid mid' bs2 e m1 m2 :
  tiled N F a bs1 m1 -> tiled N F m1 mid m2 -> tiled N F m2 bs2 e -> tiled N' F' m1 mid' m2 ->
  (forall x, x < m1 \/ m2 <= x -> shape N' x = shape N x /\ F' !! x = F !! x) -> tiled N' F' a (bs1 ++ mid' ++ bs2) e.
Proof.
  intros H1 Hm H2 Hm' Hf. apply tiled_app. exists m1. split; [apply (tiled_frame N _ F); [done|]; intros x Hx; apply Hf; lia|].
  apply tiled_app. exists m2. split; [done|]. apply (tiled_frame N _ F); [done|]. intros x Hx. apply Hf. lia.
Qed.

(** The holes of a run of blocks. *)
Definition hole_of bs : Z -> Z -> Prop := fun a s => mk_block a s true ∈ bs.

Record heap_ok (h : nexus_heap) bs : Prop := {
  ho_start : 0 < hp_start h;
  ho_total : hp_end h - hp_start h < 2 ^ 32;
  ho_tiled : tiled (hp_nodes h) (hp_feet h) (hp_start h) bs (hp_end h);
  ho_end : hp_nodes h !! hp_end h = None;
  ho_lists : exists L, lists_ok [] h (hole_of bs) L
}.

(** ** Searching *)
Section search.
Implicit Types (h : nexus_heap) (L : nat -> list Z).
Abbreviation sz h x := (size_at (hp_nodes h) x).

Lemma fit_loop_spec k h size p l :
  seg (hp_nodes h) p l 0 -> (length l < k)%nat ->
  exists r, fit_loop k h size (first 0 l) = Some r /\
    ((r = 0 /\ forall x, x ∈ l -> sz h x < size) \/
     exists l1 l2, l = l1 ++ r :: l2 /\ r <> 0 /\ size <= sz h r /\ forall x, x ∈ l1 -> sz h x < size).
Proof.
  revert p k. induction l as [|a l IH]; intros p k Hs Hk; (destruct k as [|k]; [simpl in Hk; lia|]).
  - exists 0. split; [done|]. left. set_solver.
  - cbn [seg] in Hs. destruct Hs as (Ha & n & Hn & Hx & _ & Hs). cbn [head default from_option id fit_loop]. rewrite (proj2 (Z.eqb_neq a 0) Ha), Hn. cbn [mbind option_bind].
    assert (Hz : sz h a = n_size n) by (unfold size_at; by rewrite Hn). destruct (Z.leb_spec size (n_size n)) as [Hle|Hgt].
    + exists a. split; [done|]. right. exists [], l. split; [done|]. split; [done|]. split; [lia|set_solver].
    + rewrite Hx. destruct (IH (Some a) k Hs) as (r & Hr & [[-> Hall]|(l1 & l2 & -> & Hr0 & Hsz & Hall)]); [simpl in Hk; lia|..]; exists r || exists 0; (split; [done|]).
      * left. split; [done|]. intros x [->|Hx']%elem_of_cons; [lia|auto].
      * right. exists (a :: l1), l2. split; [done|]. split; [done|]. split; [done|]. intros x [->|Hx']%elem_of_cons; [lia|auto].
Qed.

(** The hole found in a bin is the smallest that is large enough. *)
Lemma get_best_fit_spec h H L i size :
  lists_ok [] h H L -> (i < MAX_BIN_COUNT)%nat ->
  exists r, get_best_fit h i size = Some r /\
    ((r = 0 /\ forall x, x ∈ L i -> sz h x < size) \/
     (r <> 0 /\ r ∈ L i /\ size <= sz h r /\ forall x, x ∈ L i -> size <= sz h x -> sz h r <= sz h x)).
Proof.
  intros [Hlen Hbin Hseg Hnd Hdj Hso Hmem] Hi. unfold get_best_fit. rewrite (Hbin i Hi). cbn [mbind option_bind].
  destruct (fit_loop_spec (list_fuel h) h size None (L i) (Hseg i)) as (r & Hr & Hcase); [unfold list_fuel; pose proof (seg_fuel _ _ _ _ (Hnd i) (Hseg i)); lia|].
  exists r. split; [done|]. destruct Hcase as [[-> Hall]|(l1 & l2 & Hl & Hr0 & Hsz & Hall)]; [by left|right]. split; [done|]. split; [rewrite Hl; set_solver|]. split; [done|].
  specialize (Hso i). rewrite filter_kept in Hso by set_solver.
  rewrite Hl in Hso |- *. apply sorted_app in Hso as (_ & Hso & _). change (r :: l2) with ([r] ++ l2) in Hso. apply sorted_app in Hso as (_ & _ & Hso).
  intros x [Hx|[->|Hx]%elem_of_cons]%elem_of_app Hle; [specialize (Hall x Hx); lia|lia|]. apply Hso; [left|done].
Qed.

Lemma find_fit_spec k h H L i size :
  lists_ok [] h H L -> (i <= MAX_BIN_INDEX)%nat -> (MAX_BIN_INDEX < k + i)%nat ->
  exists r, find_fit k h i size = Some r /\
    match r with
    | None => forall j x, (i <= j < MAX_BIN_INDEX)%nat -> x ∈ L j -> sz h x < size
    | Some (j, a) =>
        (i <= j < MAX_BIN_INDEX)%nat /\ a <> 0 /\ a ∈ L j /\ size <= sz h a /\ (forall x, x ∈ L j -> size <= sz h x -> sz h a <= sz h x) /\
        forall j' x, (i <= j' < j)%nat -> x ∈ L j' -> sz h x < size
    end.
Proof.
  intros Hlo. revert i. induction k as [|k IH]; intros i Hi Hk; [lia|]. cbn [find_fit]. unfold get_bin_from_index. destruct (Nat.eqb_spec i MAX_BIN_INDEX) as [->|Hne].
  { exists None. split; [done|]. intros j x Hj. lia. }
  destruct (get_best_fit_spec h H L i size Hlo) as (r & Hr & Hcase); [unfold MAX_BIN_INDEX in *; lia|]. rewrite Hr. cbn [mbind option_bind].
  destruct Hcase as [[-> Hall]|(Hr0 & Hrl & Hsz & Hmin)].
  - rewrite Z.eqb_refl. destruct (IH (S i)) as (r & Hf & Hcase); [lia|lia|]. exists r. split; [done|].
    assert (Hstep : forall j' m x, (i <= j' < m)%nat -> (forall x, (S i <= j' < m)%nat -> x ∈ L j' -> sz h x < size) -> x ∈ L j' -> sz h x < size).
    { intros j' m x Hj Hrest Hx. destruct (decide (j' = i)) as [->|]; [by apply Hall|apply Hrest; [lia|done]]. }
    destruct r as [[j a]|].
    + destruct Hcase as (Hj & H0 & Ha & Hs & Hmin & Hless). split; [lia|]. do 4 (split; [done|]). intros j' x Hj' Hx. eapply Hstep; [exact Hj'| |done]. intros y Hy. by apply Hless.
    + intros j x Hj Hx. eapply Hstep; [exact Hj| |done]. intros y Hy. by apply Hcase.
  - rewrite (proj2 (Z.eqb_neq r 0) Hr0). exists (Some (i, r)). split; [done|]. split; [lia|]. do 4 (split; [done|]). intros j' x Hj'. lia.
Qed.
End search.

(** What the lists know of a block, and the blocks of the lists. *)
Lemma heap_ok_size h bs b : heap_ok h bs -> b ∈ bs -> 0 <= b_size b < 2 ^ 32 /\ size_at (hp_nodes h) (b_addr b) = b_size b /\ 0 < b_addr b.
Proof.
  intros [Hs Ht Htl _ _] Hb. destruct (tiled_in _ _ _ _ _ _ Htl Hb) as (Ha & Hz & He & Hn & _). unfold overhead, FOOTER_SIZE, NODE_SIZE in He.
  split; [lia|]. split; [|lia]. unfold shape in Hn. unfold size_at. destruct (hp_nodes h !! b_addr b); [|done]. cbn in Hn |- *. congruence.
Qed.

Lemma holes_in_lists h bs L b : lists_ok [] h (hole_of bs) L -> b ∈ bs -> b_hole b = true -> b_addr b ∈ L (get_bin_index (b_size b)).
Proof. intros Hlo Hb Hh. apply (lo_mem _ _ _ _ Hlo); [set_solver|]. exists (b_size b). split; [|done]. unfold hole_of. destruct b. cbn in *. by subst. Qed.

Lemma lists_are_holes h bs L i a : heap_ok h bs -> lists_ok [] h (hole_of bs) L -> a ∈ L i -> exists b, b ∈ bs /\ b_hole b = true /\ b_addr b = a /\ get_bin_index (b_size b) = i.
Proof. intros Hok Hlo Ha. apply (lo_mem _ _ _ _ Hlo) in Ha; [|set_solver]. destruct Ha as (s & Hs & Hi). by eexists. Qed.

(** The search is a best fit. *)
Lemma search_best h bs L size :
  heap_ok h bs -> lists_ok [] h (hole_of bs) L -> 0 <= size < 2 ^ 64 ->
  exists r, find_fit (S MAX_BIN_COUNT) h (get_bin_index size) size = Some r /\
    match r with
    | None => forall b, b ∈ bs -> b_hole b = true -> b_size b < size
    | Some (j, a) => exists b, b ∈ bs /\ b_hole b = true /\ b_addr b = a /\ j = get_bin_index (b_size b) /\ (j < MAX_BIN_INDEX)%nat /\ size <= b_size b /\
        forall c, c ∈ bs -> b_hole c = true -> size <= b_size c -> b_size b <= b_size c
    end.
Proof.
  intros Hok Hlo Hsz. destruct (find_fit_spec (S MAX_BIN_COUNT) h _ L (get_bin_index size) size Hlo) as (r & Hr & Hcase).
  { rewrite get_bin_index_log2 by done. lia. }
  { unfold MAX_BIN_INDEX. lia. }
  exists r. split; [done|].
  assert (Hin : forall c, c ∈ bs -> b_hole c = true -> size <= b_size c -> (get_bin_index size <= get_bin_index (b_size c) < MAX_BIN_INDEX)%nat /\ b_addr c ∈ L (get_bin_index (b_size c)) /\ size_at (hp_nodes h) (b_addr c) = b_size c).
  { intros c Hc Hh Hle. destruct (heap_ok_size _ _ _ Hok Hc) as (Hz & Hat & _). split; [|split; [by eapply holes_in_lists|done]]. split; [apply get_bin_index_mono; lia|]. by apply get_bin_index_small. }
  destruct r as [[j a]|].
  - destruct Hcase as (Hj & Ha0 & Ha & Hle & Hmin & Hless). destruct (lists_are_holes _ _ _ _ _ Hok Hlo Ha) as (b & Hb & Hh & <- & Hbj).
    destruct (heap_ok_size _ _ _ Hok Hb) as (Hz & Hat & _). rewrite Hat in *. exists b. do 3 (split; [done|]). split; [done|]. split; [lia|]. split; [done|].
    intros c Hc Hhc Hlec. destruct (Hin c Hc Hhc Hlec) as (Hjc & Hcl & Hatc). rewrite <- Hatc. destruct (Nat.lt_trichotomy (get_bin_index (b_size c)) j) as [Hlt|[Heq|Hgt]].
    + specialize (Hless (get_bin_index (b_size c)) _ ltac:(lia) Hcl). lia.
    + rewrite Heq in Hcl. apply Hmin; [done|lia].
    + rewrite Hatc. destruct (Z.le_gt_cases (b_size b) (b_size c)) as [|Hlt]; [done|].
      pose proof (get_bin_index_mono (b_size c) (b_size b) ltac:(lia) ltac:(lia) ltac:(lia)). lia.
  - intros b Hb Hh. destruct (Z.lt_ge_cases (b_size b) size) as [|Hge]; [done|]. destruct (Hin b Hb Hh Hge) as (Hjb & Hbl & Hatb). rewrite <- Hatb. by eapply Hcase.
Qed.

(** ** Serving a request *)
Ltac sizes := unfold overhead, FOOTER_SIZE, NODE_SIZE, MIN_ALLOC_SIZE in *.

Lemma shape_node N a f s : shape N a = Some (f, s) -> exists n, N !! a = Some n /\ n_hole n = f /\ n_size n = s.
Proof. unfold shape. destruct (N !! a) as [n|]; [|done]. intros [= <- <-]. eauto. Qed.
Lemma shape_insert_eq N a n : shape (<[a := n]> N) a = Some (n_hole n, n_size n).
Proof. unfold shape. by rewrite lookup_insert_eq. Qed.
Lemma shape_insert_ne N a n x : x <> a -> shape (<[a := n]> N) x = shape N x.
Proof. intros Hx. unfold shape. by rewrite lookup_insert_ne. Qed.
Lemma links_insert_ne N a n x : x <> a -> links (<[a := n]> N) x = links N x.
Proof. intros Hx. unfold links. by rewrite lookup_insert_ne. Qed.
Lemma links_insert_same N a n n' x : N !! a = Some n -> n_next n' = n_next n -> n_prev n' = n_prev n -> links (<[a := n']> N) x = links N x.
Proof. intros Hn H1 H2. unfold links. destruct (decide (x = a)) as [->|]; [rewrite lookup_insert_eq, Hn; cbn; congruence|by rewrite lookup_insert_ne]. Qed.

(** No block starts inside another. *)
Lemma tiled_gap N F a bs1 b bs2 e c x :
  tiled N F a (bs1 ++ b :: bs2) e -> c ∈ bs1 ++ b :: bs2 -> b_addr b < x < b_addr b + overhead + b_size b -> b_addr c <> x.
Proof.
  intros (m & H1 & (Ha & Hs & _ & _ & H2))%tiled_app Hc Hx. apply elem_of_app in Hc as [Hc|[->|Hc]%elem_of_cons]; [| lia|].
  - destruct (tiled_in _ _ _ _ _ _ H1 Hc) as (_ & Hz & Hle & _). sizes. lia.
  - destruct (tiled_in _ _ _ _ _ _ H2 Hc) as (Hle & Hz & _). sizes. lia.
Qed.

(** The block at [b] gets new pieces. *)
Lemma tiled_replace N N' F F' a bs1 b mid bs2 e :
  tiled N F a (bs1 ++ b :: bs2) e -> tiled N' F' (b_addr b) mid (b_addr b + overhead + b_size b) ->
  (forall x, x < b_addr b \/ b_addr b + overhead + b_size b <= x -> shape N' x = shape N x /\ F' !! x = F !! x) -> tiled N' F' a (bs1 ++ mid ++ bs2) e.
Proof.
  intros (m & H1 & H2)%tiled_app Hm Hf. pose proof H2 as H2'. cbn [tiled] in H2. destruct H2 as (Ha & Hs & Hn & Hft & H2). rewrite Ha in *.
  apply (tiled_splice N N' F F' a bs1 [b] mid bs2 e m (m + overhead + b_size b)); try done.
Qed.

(** The mark of one block. *)
Lemma tiled_mark N N' F a bs1 b bs2 e f :
  tiled N F a (bs1 ++ b :: bs2) e -> shape N' (b_addr b) = Some (f, b_size b) -> (forall x, x <> b_addr b -> shape N' x = shape N x) ->
  tiled N' F a (bs1 ++ mk_block (b_addr b) (b_size b) f :: bs2) e.
Proof.
  intros Ht Hn Hf. pose proof (tiled_in _ _ _ _ _ b Ht ltac:(set_solver)) as (_ & Hs & _ & _ & Hft).
  apply (tiled_replace N N' F F a bs1 b [mk_block (b_addr b) (b_size b) f] bs2 e Ht); [by cbn|]. intros x Hx. split; [apply Hf; sizes; lia|done].
Qed.

(** Off the address of [b], its pieces are what they add. *)
Lemma hole_of_mid bs1 mid bs2 x s : hole_of (bs1 ++ mid ++ bs2) x s <-> hole_of bs1 x s \/ hole_of mid x s \/ hole_of bs2 x s.
Proof. unfold hole_of. by rewrite !elem_of_app. Qed.
Lemma hole_of_cons b bs x s : hole_of (b :: bs) x s <-> (b_addr b = x /\ b_size b = s /\ b_hole b = true) \/ hole_of bs x s.
Proof. unfold hole_of. rewrite elem_of_cons. destruct b as [a z f]. cbn. naive_solver. Qed.
Lemma hole_of_nil x s : hole_of [] x s <-> False.
Proof. unfold hole_of. set_solver. Qed.

Lemma create_foot_eq h a n : hp_nodes h !! a = Some n -> create_foot h a = Some (with_feet h (<[get_foot a n := a]> (hp_feet h))).
Proof. intros Hn. unfold create_foot. by rewrite Hn. Qed.

Section malloc.
Implicit Types (h : nexus_heap) (L : nat -> list Z).

Definition same_bounds h h' : Prop := hp_start h' = hp_start h /\ hp_end h' = hp_end h /\ hp_size h' = hp_size h.

Lemma split_spec h bs1 b bs2 L size :
  heap_ok h (bs1 ++ b :: bs2) -> lists_ok [] h (hole_of (bs1 ++ b :: bs2)) L -> b_hole b = true -> 0 <= size <= b_size b ->
  exists h' L', split_node h (b_addr b) size = Some h' /\ same_bounds h h' /\ b_addr b ∈ L' (get_bin_index (b_size b)) /\
    lists_ok [b_addr b] h' (hole_of (bs1 ++ cut b size ++ bs2)) L' /\
    tiled (hp_nodes h') (hp_feet h') (hp_start h) (bs1 ++ pieces true b size ++ bs2) (hp_end h) /\ hp_nodes h' !! hp_end h = None.
Proof.
  intros Hok Hlo Hh Hsz. pose proof Hok as [Hst Htot Htl Hend _]. assert (Hb : b ∈ bs1 ++ b :: bs2) by set_solver.
  destruct (heap_ok_size _ _ _ Hok Hb) as (Hz & _ & Ha0). destruct (tiled_in _ _ _ _ _ _ Htl Hb) as (Hlo1 & _ & Hhi & Hshape & Hfoot).
  destruct (shape_node _ _ _ _ Hshape) as (n & Hn & Hnh & Hns). pose proof (holes_in_lists _ _ _ _ Hlo Hb Hh) as Hbl.
  unfold split_node, cut, pieces. rewrite Hn. cbn [mbind option_bind]. rewrite Hns. destruct (Z.ltb_spec (overhead + MIN_ALLOC_SIZE) (b_size b - size)) as [Hcut|Hwhole].
  2:{ exists h, L. split; [done|]. split; [done|]. split; [done|]. split; [|split; [|done]].
      - apply (lists_frame [] _ h _ _ _ _ Hlo); try done; [set_solver|]. intros x s Hx. change (b :: bs2) with ([b] ++ bs2).
        rewrite !hole_of_mid, !hole_of_cons, hole_of_nil. cbn. set_solver.
      - apply (tiled_mark _ _ _ _ _ _ _ _ true Htl); [by rewrite Hshape, Hh|done]. }
  set (split := b_addr b + overhead + size). set (rest := b_size b - size - overhead).
  assert (Hrest : u32 rest = rest) by (apply wrap_small; unfold in_range, rest; sizes; lia). rewrite Hrest.
  assert (Hsp : b_addr b < split < b_addr b + overhead + b_size b) by (unfold split; sizes; lia).
  assert (Hnl : forall i x, x ∈ L i -> x <> split).
  { intros i x Hx. destruct (lists_are_holes _ _ _ _ _ Hok Hlo Hx) as (c & Hc & _ & <- & _). by apply (tiled_gap _ _ _ _ _ _ _ _ _ Htl). }
  set (N1 := <[split := mk_node true rest 0 0]> (hp_nodes h)). set (h1 := with_nodes h N1).
  assert (Hn1 : N1 !! split = Some (mk_node true rest 0 0)) by apply lookup_insert_eq. rewrite (create_foot_eq h1 _ _ Hn1). cbn [mbind option_bind].
  set (h2 := with_feet h1 _). change (hp_nodes h2) with N1. rewrite Hn1. cbn [mbind option_bind n_size].
  assert (Hlo2 : lists_ok [] h2 (hole_of (bs1 ++ b :: bs2)) L).
  { apply (lists_frame [] _ h _ _ _ _ Hlo); try done.
    - intros i x Hx. apply links_insert_ne. by eapply Hnl.
    - intros i x Hx _. apply shape_size, shape_insert_ne. by eapply Hnl. }
  destruct (lists_add [] h2 _ (hole_of (bs1 ++ [b; mk_block split rest true] ++ bs2)) L split (mk_node true rest 0 0) Hlo2) as (h3 & L' & Hadd & [Hf3 Hb3 Hs3] & Hlo3 & Hkeep).
  { set_solver. }
  { done. }
  { sizes. lia. }
  { intros i Hx. by eapply Hnl. }
  { cbn. unfold rest. sizes. lia. }
  { intros x s. change (b :: bs2) with ([b] ++ bs2). rewrite !hole_of_mid, !hole_of_cons, hole_of_nil. cbn.
    assert (Hne : hole_of (bs1 ++ b :: bs2) x s -> x <> split) by (intros Hx; apply (tiled_gap _ _ _ _ _ _ _ (mk_block x s true) _ Htl Hx Hsp)).
    change (b :: bs2) with ([b] ++ bs2) in Hne. rewrite !hole_of_mid, !hole_of_cons, hole_of_nil in Hne. naive_solver. }
  cbn [n_size] in Hadd. rewrite Hadd. cbn [mbind option_bind]. change (hp_nodes h2) with N1 in Hs3.
  assert (Hs3b : shape (hp_nodes h3) (b_addr b) = Some (b_hole b, b_size b)) by (rewrite Hs3; unfold N1; rewrite shape_insert_ne by lia; done).
  destruct (shape_node _ _ _ _ Hs3b) as (n3 & Hn3 & Hh3 & Hz3). rewrite (update_eq _ _ _ _ Hn3). cbn [mbind option_bind].
  erewrite create_foot_eq by (cbn; apply lookup_insert_eq).
  assert (Hsize : u32 size = size) by (apply wrap_small; unfold in_range; sizes; lia). unfold get_foot, set_size. cbn [n_size]. rewrite Hsize.
  eexists _, L'. split; [done|]. split; [done|]. split; [by apply Hkeep|]. split; [|split].
  - apply (lists_frame [] _ h3 _ _ _ _ Hlo3); [done| | |set_solver|].
    + intros i x Hx. by apply (links_insert_same _ _ n3).
    + intros i x Hx Hxb. apply shape_size, shape_insert_ne. set_solver.
    + intros x s Hx. rewrite !hole_of_mid, !hole_of_cons, hole_of_nil. fold split rest. cbn. assert (b_addr b <> x) by set_solver. naive_solver.
  - cbn [hp_nodes hp_feet with_feet with_nodes]. assert (Hfe : hp_feet h3 = <[split + NODE_SIZE + rest := split]> (hp_feet h)) by (rewrite Hf3; done).
    apply (tiled_replace _ _ _ _ _ _ _ _ _ _ Htl).
    + cbn. fold split rest. split; [done|]. split; [lia|]. split; [rewrite shape_insert_eq; cbn; by rewrite Hh3, Hh|]. split; [by rewrite lookup_insert_eq|].
      split; [done|]. split; [unfold rest; sizes; lia|]. split; [rewrite shape_insert_ne, Hs3 by lia; unfold N1; by rewrite shape_insert_eq|].
      split; [rewrite Hfe, lookup_insert_ne by (unfold split, rest; sizes; lia); by rewrite lookup_insert_eq|]. unfold split, rest. sizes. lia.
    + intros x Hx. rewrite shape_insert_ne, Hs3 by (sizes; lia). unfold N1. rewrite shape_insert_ne by (unfold split; sizes; lia). split; [done|].
      rewrite Hfe, !lookup_insert_ne by (unfold split, rest; sizes; lia). done.
  - cbn. rewrite lookup_insert_ne by (sizes; lia). specialize (Hs3 (hp_end h)). unfold shape, N1 in Hs3.
    rewrite (lookup_insert_ne _ split) in Hs3 by (sizes; lia). rewrite Hend in Hs3. by destruct (hp_nodes h3 !! hp_end h).
Qed.
(** Taking the block at [b] out of its bin. *)
Definition take_block h (i : nat) (found : Z) : option nexus_heap :=
  h ← update h found (set_hole false);
  h ← remove_node h (get_bin_from_index i) found;
  update h found (fun n => set_next 0 (set_prev 0 n)).

Lemma take_spec h bs1 b bs2 L i :
  0 < hp_start h -> hp_end h - hp_start h < 2 ^ 32 -> tiled (hp_nodes h) (hp_feet h) (hp_start h) (bs1 ++ b :: bs2) (hp_end h) -> hp_nodes h !! hp_end h = None ->
  lists_ok [b_addr b] h (hole_of (bs1 ++ mk_block (b_addr b) (b_size b) false :: bs2)) L -> (i < MAX_BIN_INDEX)%nat -> b_addr b ∈ L i ->
  exists h', take_block h i (b_addr b) = Some h' /\ same_bounds h h' /\ heap_ok h' (bs1 ++ mk_block (b_addr b) (b_size b) false :: bs2).
Proof.
  intros Hst Htot Htl Hend Hlo Hi Hbl. pose proof (tiled_in _ _ _ _ _ b Htl ltac:(set_solver)) as (Hlo1 & Hz & Hhi & Hshape & _).
  destruct (shape_node _ _ _ _ Hshape) as (n & Hn & Hnh & Hns). unfold take_block. rewrite (update_eq _ _ _ _ Hn). cbn [mbind option_bind].
  set (N1 := <[b_addr b := set_hole false n]> (hp_nodes h)). set (h1 := with_nodes h N1). rewrite get_bin_from_index_small by done.
  assert (Hlo2 : lists_ok [b_addr b] h1 (hole_of (bs1 ++ mk_block (b_addr b) (b_size b) false :: bs2)) L).
  { apply (lists_frame [b_addr b] _ h _ _ _ _ Hlo); try done.
    - intros j x _. by apply (links_insert_same _ _ n).
    - intros j x _ Hx. apply shape_size, shape_insert_ne. set_solver. }
  destruct (lists_remove _ h1 _ L (b_addr b) i Hlo2) as (h2 & L2 & Hrm & [Hf2 Hb2 Hs2] & Hlo3 & Hm); [unfold MAX_BIN_INDEX in Hi; lia|done|].
  rewrite Hrm. cbn [mbind option_bind]. change (hp_nodes h1) with N1 in Hs2. change (hp_feet h1) with (hp_feet h) in Hf2.
  assert (Hs2b : shape (hp_nodes h2) (b_addr b) = Some (false, b_size b)) by (rewrite Hs2; unfold N1; rewrite shape_insert_eq; cbn; by rewrite Hns).
  destruct (shape_node _ _ _ _ Hs2b) as (n2 & Hn2 & Hh2 & Hz2). rewrite (update_eq _ _ _ _ Hn2). set (n3 := set_next 0 (set_prev 0 n2)).
  assert (Hsh : forall x, shape (<[b_addr b := n3]> (hp_nodes h2)) x = shape N1 x) by (intros x; by rewrite (shape_link _ _ n2)).
  destruct Hb2 as (B1 & B2 & B3). eexists. split; [done|]. split; [done|].
  assert (Htl' : tiled (<[b_addr b := n3]> (hp_nodes h2)) (hp_feet h2) (hp_start h) (bs1 ++ mk_block (b_addr b) (b_size b) false :: bs2) (hp_end h)).
  { rewrite Hf2. apply (tiled_mark _ _ _ _ _ _ _ _ _ Htl); [by rewrite Hsh, <- Hs2|]. intros x Hx. rewrite Hsh. by apply shape_insert_ne. }
  split; cbn [hp_start hp_end hp_nodes hp_feet with_nodes]; rewrite ?B1, ?B2; try done.
  - assert (Hne : hp_end h <> b_addr b) by (sizes; lia). rewrite lookup_insert_ne by done. specialize (Hs2 (hp_end h)). unfold shape, N1 in Hs2.
    rewrite (lookup_insert_ne _ (b_addr b)) in Hs2 by done. change (hp_end h1) with (hp_end h). rewrite Hend in Hs2. by destruct (hp_nodes h2 !! hp_end h).
  - exists L2. assert (HaL : forall x j, x ∈ [b_addr b; b_addr b] -> x ∉ L2 j) by (intros x j Hx Hxj; apply Hm in Hxj; set_solver).
    apply (lists_settle [b_addr b; b_addr b]); [|set_solver|intros x j Hx _; by apply HaL|].
    + apply (lists_frame _ _ h2 _ _ _ _ Hlo3); try done; intros j x Hx; [apply links_insert_ne|intros _; apply shape_size, shape_insert_ne]; intros ->; by apply (HaL (b_addr b) j ltac:(left)).
    + intros x s Hx _ Hh. assert (x = b_addr b) as -> by set_solver.
      pose proof (tiled_inj _ _ _ _ _ (mk_block (b_addr b) s true) (mk_block (b_addr b) (b_size b) false) Htl' Hh ltac:(set_solver) eq_refl) as He. done.
Qed.

Lemma malloc_take h size :
  nexus_heap_malloc h size = (f ← find_fit (S MAX_BIN_COUNT) h (get_bin_index size) size;
    match f with
    | None => Some (h, 0)
    | Some (index, found) => h ← split_node h found size; h ← take_block h index found; Some (h, found + NODE_SIZE)
    end).
Proof.
  unfold nexus_heap_malloc, take_block. destruct (find_fit _ _ _ _) as [[[i a]|]|]; [|done|done]. cbn [mbind option_bind].
  destruct (split_node h a size) as [h1|]; [|done]. cbn. destruct (update h1 a _) as [h2|]; [|done]. cbn. by destruct (remove_node _ _ _).
Qed.

Lemma malloc_ok h bs size :
  heap_ok h bs -> 0 <= size < 2 ^ 64 ->
  exists h' bs' p, nexus_heap_malloc h size = Some (h', p) /\ alloc bs size bs' p /\ heap_ok h' bs' /\ same_bounds h h'.
Proof.
  intros Hok Hsz. destruct (ho_lists _ _ Hok) as [L Hlo]. destruct (search_best _ _ _ _ Hok Hlo Hsz) as (r & Hr & Hcase). rewrite malloc_take, Hr. cbn [mbind option_bind].
  destruct r as [[j a]|]; [|exists h, bs, 0; split; [done|]; split; [by constructor|done]].
  destruct Hcase as (b & Hb & Hh & <- & -> & Hj & Hle & Hbest). pose proof Hb as (bs1 & bs2 & ->)%list_elem_of_split.
  destruct (split_spec h bs1 b bs2 L size Hok Hlo Hh) as (h1 & L1 & Hsp & (B1 & B2 & B3) & Hbl & Hlo1 & Htl & Hend); [lia|]. rewrite Hsp. cbn [mbind option_bind].
  assert (Hpieces : exists c rest, pieces true b size = c :: rest /\ cut b size = mk_block (b_addr c) (b_size c) false :: rest /\ b_addr c = b_addr b).
  { unfold cut, pieces. destruct (_ <? _); eexists _, _; done. }
  destruct Hpieces as (c & rest & Hp & Hc & Hca). rewrite Hp in Htl. rewrite Hc in Hlo1. rewrite <- Hca in Hlo1, Hbl. cbn [app] in Htl, Hlo1.
  destruct (take_spec h1 bs1 c (rest ++ bs2) L1 (get_bin_index (b_size b))) as (h2 & Ht & (B4 & B5 & B6) & Hok2); try done.
  { rewrite B1. apply Hok. }
  { rewrite B1, B2. apply Hok. }
  { by rewrite B1, B2. }
  { by rewrite B2. }
  rewrite <- Hca, Ht. cbn [mbind option_bind]. exists h2, (bs1 ++ cut b size ++ bs2), (b_addr b + NODE_SIZE). rewrite Hca. split; [done|].
  split; [by apply alloc_best|]. rewrite Hc. split; [done|]. unfold same_bounds. by rewrite B4, B5, B6.
Qed.
End malloc.

(** ** Releasing a block *)
Lemma exists_last_or_nil {A} (l : list A) : l = [] \/ exists l0 z, l = l0 ++ [z].
Proof. destruct l as [|x l]; [by left|right]. destruct (exists_last (l := x :: l) ltac:(done)) as (l0 & z & ->). eauto. Qed.

Section free.
Implicit Types (h : nexus_heap) (L : nat -> list Z).

(** The block [b] is between its neighbours and in no bin. *)
Record moving h bs1 (b : block) bs2 L : Prop := {
  mv_start : 0 < hp_start h;
  mv_total : hp_end h - hp_start h < 2 ^ 32;
  mv_tiled : tiled (hp_nodes h) (hp_feet h) (hp_start h) (bs1 ++ b :: bs2) (hp_end h);
  mv_end : hp_nodes h !! hp_end h = None;
  mv_lists : lists_ok [b_addr b] h (hole_of (bs1 ++ bs2)) L;
  mv_out : forall i, b_addr b ∉ L i
}.

(** The addresses of the other blocks are others. *)
Lemma tiled_other N F a bs1 b bs2 e c : tiled N F a (bs1 ++ b :: bs2) e -> c ∈ bs1 ++ bs2 -> b_addr c <> b_addr b.
Proof.
  intros (m & H1 & (Ha & Hs & _ & _ & H2))%tiled_app [Hc|Hc]%elem_of_app.
  - destruct (tiled_in _ _ _ _ _ _ H1 Hc) as (_ & Hz & Hle & _). sizes. lia.
  - destruct (tiled_in _ _ _ _ _ _ H2 Hc) as (Hle & Hz & _). sizes. lia.
Qed.

Lemma hole_of_app bs1 bs2 x s : hole_of (bs1 ++ bs2) x s <-> hole_of bs1 x s \/ hole_of bs2 x s.
Proof. unfold hole_of. by rewrite elem_of_app. Qed.

Lemma moving_start h bs1 b bs2 : heap_ok h (bs1 ++ b :: bs2) -> b_hole b = false -> exists L, moving h bs1 b bs2 L.
Proof.
  intros Hok Hh. pose proof Hok as [Hst Htot Htl Hend [L Hlo]]. exists L. split; try done.
  - apply (lists_frame [] _ h _ _ _ _ Hlo); try done; [set_solver|]. intros x s Hx. rewrite !hole_of_app, hole_of_cons. set_solver.
  - intros i Hx. destruct (lists_are_holes _ _ _ _ _ Hok Hlo Hx) as (c & Hc & Hch & Hca & _).
    assert (c = b) as -> by (apply (tiled_inj _ _ _ _ _ c b Htl); [done|set_solver|done]). congruence.
Qed.

Lemma release_spec h bs1 b bs2 L :
  moving h bs1 b bs2 L -> exists h', release h (b_addr b) = Some h' /\ same_bounds h h' /\ heap_ok h' (bs1 ++ mk_block (b_addr b) (b_size b) true :: bs2).
Proof.
  intros [Hst Htot Htl Hend Hlo Hout]. pose proof (tiled_in _ _ _ _ _ b Htl ltac:(set_solver)) as (Hlo1 & Hz & Hhi & Hshape & _).
  destruct (shape_node _ _ _ _ Hshape) as (n & Hn & Hnh & Hns). unfold release. rewrite (update_eq _ _ _ _ Hn). cbn [mbind option_bind].
  set (N1 := <[b_addr b := set_hole true n]> (hp_nodes h)). set (h1 := with_nodes h N1).
  assert (Hn1 : hp_nodes h1 !! b_addr b = Some (set_hole true n)) by apply lookup_insert_eq. rewrite Hn1. cbn [mbind option_bind].
  assert (Hlo2 : lists_ok [b_addr b] h1 (hole_of (bs1 ++ bs2)) L).
  { apply (lists_frame _ _ h _ _ _ _ Hlo); try done; intros j x Hx; [apply links_insert_ne; intros ->; by apply (Hout j)|intros Hxb; apply shape_size, shape_insert_ne; set_solver]. }
  destruct (lists_add _ h1 _ (hole_of (bs1 ++ mk_block (b_addr b) (b_size b) true :: bs2)) L (b_addr b) (set_hole true n) Hlo2) as (h2 & L2 & Hadd & [Hf2 (B1 & B2 & B3) Hs2] & Hlo3 & _); try done.
  { lia. }
  { cbn. sizes. lia. }
  { intros x s. rewrite !hole_of_app, hole_of_cons. cbn. rewrite Hns. split; [|naive_solver].
    intros Hx. destruct (decide (x = b_addr b)) as [->|]; [|naive_solver]. right. split; [done|].
    assert (Ho : ~ hole_of (bs1 ++ bs2) (b_addr b) s) by (intros Hx'; by apply (tiled_other _ _ _ _ _ _ _ _ Htl) in Hx'). rewrite hole_of_app in Ho. naive_solver. }
  exists h2. split; [done|]. split; [done|]. change (hp_nodes h1) with N1 in Hs2. split; rewrite ?B1, ?B2; cbn [hp_start hp_end with_nodes h1]; try done.
  - rewrite Hf2. apply (tiled_mark _ _ _ _ _ _ _ _ _ Htl).
    + rewrite Hs2. unfold N1. rewrite shape_insert_eq. cbn. by rewrite Hns.
    + intros x Hx. rewrite Hs2. by apply shape_insert_ne.
  - specialize (Hs2 (hp_end h)). unfold shape, N1 in Hs2. rewrite (lookup_insert_ne _ (b_addr b)) in Hs2 by (sizes; lia). rewrite Hend in Hs2. by destruct (hp_nodes h2 !! hp_end h).
  - by exists L2.
Qed.
(** Two neighbours, neither in a bin, become one block. *)
Lemma merged_moving h h' bs1 c d bs2 L H nc :
  0 < hp_start h -> hp_end h - hp_start h < 2 ^ 32 -> tiled (hp_nodes h) (hp_feet h) (hp_start h) (bs1 ++ c :: d :: bs2) (hp_end h) -> hp_nodes h !! hp_end h = None ->
  lists_ok [c.(b_addr); d.(b_addr)] h H L -> (forall x s, x <> b_addr c -> x <> b_addr d -> H x s <-> hole_of (bs1 ++ bs2) x s) ->
  (forall i, b_addr c ∉ L i) -> (forall i, b_addr d ∉ L i) ->
  same_bounds h h' -> hp_bins h' = hp_bins h -> (forall x, x <> b_addr c -> x <> b_addr d -> hp_nodes h' !! x = hp_nodes h !! x) ->
  hp_nodes h' !! b_addr c = Some nc -> n_hole nc = b_hole c -> n_size nc = b_size c + (overhead + b_size d) ->
  (forall x, x <> b_addr d + NODE_SIZE + b_size d -> hp_feet h' !! x = hp_feet h !! x) -> hp_feet h' !! (b_addr d + NODE_SIZE + b_size d) = Some (b_addr c) ->
  moving h' bs1 (merge c d) bs2 L.
Proof.
  intros Hst Htot Htl Hend Hlo HH Hc Hd (B1 & B2 & B3) Hbins Hn Hnc Hhc Hsc Hf Hfd. pose proof Htl as (m & H1 & H2)%tiled_app. cbn [tiled] in H2.
  destruct H2 as (Hca & Hcs & Hcn & Hcf & Hda & Hds & Hdn & Hdf & H2). pose proof (tiled_le _ _ _ _ _ H1) as Hle1. pose proof (tiled_le _ _ _ _ _ H2) as Hle2.
  assert (Hn' : forall x, x <> b_addr c -> x <> b_addr d -> shape (hp_nodes h') x = shape (hp_nodes h) x) by (intros x Hx Hx'; unfold shape; by rewrite Hn).
  assert (Htl' : tiled (hp_nodes h') (hp_feet h') (hp_start h') (bs1 ++ merge c d :: bs2) (hp_end h')).
  { rewrite B1, B2. apply (tiled_splice (hp_nodes h) _ (hp_feet h) _ _ bs1 [c; d] [merge c d] bs2 _ m (m + overhead + b_size c + overhead + b_size d)); try done.
    - cbn. rewrite <- Hda, <- Hca. split; [done|]. split; [sizes; lia|]. split; [unfold shape; rewrite Hnc; cbn; by rewrite Hhc, Hsc|].
      split; [|sizes; lia]. rewrite <- Hfd. f_equal. sizes. lia.
    - intros x Hx. split; [apply Hn'; sizes; lia|apply Hf; sizes; lia]. }
  split; try done; try (by rewrite ?B1, ?B2).
  - rewrite B2, Hn; [done|sizes; lia|sizes; lia].
  - apply (lists_settle [b_addr c; b_addr d]); [|set_solver|intros x i Hx Hx'; assert (x = b_addr d) as -> by set_solver; auto|].
    + apply (lists_frame _ _ h _ _ _ _ Hlo); try done.
      * intros i x Hx. unfold links. rewrite Hn; [done|..]; intros ->; [by apply (Hc i)|by apply (Hd i)].
      * intros i x Hx _. apply shape_size, Hn'; intros ->; [by apply (Hc i)|by apply (Hd i)].
      * intros x s Hx. symmetry. apply HH; set_solver.
    + intros x s Hx Hx' Hh. assert (x = b_addr d) as -> by set_solver.
      change (bs1 ++ c :: d :: bs2) with (bs1 ++ [c] ++ d :: bs2) in Htl. rewrite app_assoc in Htl.
      apply (tiled_other _ _ _ _ _ _ _ (mk_block (b_addr d) s true) Htl); [|done]. unfold hole_of in Hh. set_solver.
Qed.

Lemma join_prev_spec h bs1 p b bs2 L :
  moving h (bs1 ++ [p]) b bs2 L ->
  exists h' L', join_prev h (b_addr b) (b_addr p) = Some (h', if b_hole p then b_addr p else b_addr b) /\ same_bounds h h' /\
    if b_hole p then moving h' bs1 (merge p b) bs2 L' else moving h' (bs1 ++ [p]) b bs2 L'.
Proof.
  intros Hmv. pose proof Hmv as [Hst Htot Htl Hend Hlo Hout].
  destruct (tiled_in _ _ _ _ _ p Htl ltac:(set_solver)) as (Hp1 & Hpz & Hpe & Hps & _). destruct (shape_node _ _ _ _ Hps) as (np & Hnp & Hph & Hpsz).
  destruct (tiled_in _ _ _ _ _ b Htl ltac:(set_solver)) as (Hb1 & Hbz & Hbe & Hbs & _).
  assert (Hpb : b_addr p <> b_addr b) by (apply (tiled_other _ _ _ _ _ _ _ p Htl); set_solver).
  unfold join_prev. rewrite Hnp. cbn [mbind option_bind]. rewrite Hph. destruct (b_hole p) eqn:Hhole; [|by exists h, L].
  rewrite Hpsz, get_bin_from_size_small by (sizes; lia).
  assert (Hpl : b_addr p ∈ L (get_bin_index (b_size p))).
  { apply (lo_mem _ _ _ _ Hlo); [set_solver|]. exists (b_size p). split; [|done]. rewrite <- app_assoc, hole_of_mid, hole_of_cons. tauto. }
  destruct (lists_remove _ h _ L (b_addr p) (get_bin_index (b_size p)) Hlo) as (h1 & L1 & Hrm & [Hf1 (B1 & B2 & B3) Hs1] & Hlo1 & Hm); [apply get_bin_index_count; sizes; lia|done|].
  rewrite Hrm. cbn [mbind option_bind]. rewrite <- (Hs1 (b_addr p)) in Hps. rewrite <- (Hs1 (b_addr b)) in Hbs.
  destruct (shape_node _ _ _ _ Hps) as (p1 & Hp1' & Hh1 & Hz1). destruct (shape_node _ _ _ _ Hbs) as (n1 & Hn1 & _ & Hnz1).
  rewrite Hp1', Hn1. cbn [mbind option_bind]. rewrite (update_eq _ _ _ _ Hp1'). cbn [mbind option_bind hp_nodes with_nodes].
  rewrite lookup_insert_ne, Hn1 by done. cbn [mbind option_bind]. eexists _, L1. split; [done|]. split; [done|].
  apply (merged_moving h1 _ bs1 p b bs2 L1 (hole_of ((bs1 ++ [p]) ++ bs2)) (set_size (n_size p1 + (overhead + n_size n1)) p1)); rewrite ?B1, ?B2; try done.
  - rewrite Hf1. rewrite <- app_assoc in Htl. by apply (tiled_frame (hp_nodes h) _ (hp_feet h)).
  - specialize (Hs1 (hp_end h)). unfold shape in Hs1. rewrite Hend in Hs1. by destruct (hp_nodes h1 !! hp_end h).
  - intros x s Hx Hx'. rewrite <- app_assoc, hole_of_mid, hole_of_app, hole_of_cons, hole_of_nil. naive_solver.
  - intros i Hx. apply Hm in Hx. naive_solver.
  - intros i Hx. apply Hm in Hx as [Hx _]. by apply (Hout i).
  - intros x Hx Hx'. cbn. by rewrite lookup_insert_ne.
  - cbn. apply lookup_insert_eq.
  - cbn. congruence.
  - cbn [set_size n_size]. rewrite wrap_small; [by rewrite Hz1, Hnz1|]. unfold in_range. rewrite Hz1, Hnz1.
    rewrite <- app_assoc in Htl. apply tiled_app in Htl as (m & Ht1 & Ht2). cbn [app tiled] in Ht2. destruct Ht2 as (? & _ & _ & _ & ? & _ & _ & _ & Ht2). apply tiled_le in Ht1, Ht2. sizes. lia.
  - intros x Hx. cbn. unfold get_foot. rewrite lookup_insert_ne by (rewrite Hnz1; done). by rewrite Hf1.
  - cbn. unfold get_foot. rewrite Hnz1. apply lookup_insert_eq.
Qed.
Lemma join_next_spec h bs1 b x bs2 L :
  moving h bs1 b (x :: bs2) L ->
  exists h' L', join_next h (b_addr b) (b_addr x) = Some h' /\ same_bounds h h' /\
    if b_hole x then moving h' bs1 (merge b x) bs2 L' else moving h' bs1 b (x :: bs2) L'.
Proof.
  intros Hmv. pose proof Hmv as [Hst Htot Htl Hend Hlo Hout].
  destruct (tiled_in _ _ _ _ _ x Htl ltac:(set_solver)) as (Hx1 & Hxz & Hxe & Hxs & _). destruct (shape_node _ _ _ _ Hxs) as (nx & Hnx & Hxh & Hxsz).
  destruct (tiled_in _ _ _ _ _ b Htl ltac:(set_solver)) as (Hb1 & Hbz & Hbe & Hbs & _).
  assert (Hxb : b_addr x <> b_addr b) by (apply (tiled_other _ _ _ _ _ _ _ x Htl); set_solver).
  assert (Hadj : b_addr x = b_addr b + overhead + b_size b).
  { pose proof Htl as (m & Ht1 & Ht2)%tiled_app. cbn [tiled] in Ht2. destruct Ht2 as (-> & _ & _ & _ & -> & _). done. }
  unfold join_next. rewrite Hnx. cbn [mbind option_bind]. rewrite Hxh. destruct (b_hole x) eqn:Hhole; [|by exists h, L].
  rewrite Hxsz, get_bin_from_size_small by (sizes; lia).
  assert (Hxl : b_addr x ∈ L (get_bin_index (b_size x))).
  { apply (lo_mem _ _ _ _ Hlo); [set_solver|]. exists (b_size x). split; [|done]. rewrite hole_of_app, hole_of_cons. tauto. }
  destruct (lists_remove _ h _ L (b_addr x) (get_bin_index (b_size x)) Hlo) as (h1 & L1 & Hrm & [Hf1 (B1 & B2 & B3) Hs1] & Hlo1 & Hm); [apply get_bin_index_count; sizes; lia|done|].
  rewrite Hrm. cbn [mbind option_bind]. rewrite <- (Hs1 (b_addr x)) in Hxs. rewrite <- (Hs1 (b_addr b)) in Hbs.
  destruct (shape_node _ _ _ _ Hxs) as (x1 & Hx1' & Hh1 & Hz1). destruct (shape_node _ _ _ _ Hbs) as (n1 & Hn1 & Hnh1 & Hnz1).
  rewrite Hx1', Hn1. cbn [mbind option_bind]. rewrite (update_eq _ _ _ _ Hn1). cbn [mbind option_bind hp_nodes with_nodes].
  rewrite lookup_insert_ne, Hx1' by done. cbn [mbind option_bind]. erewrite update_eq by (cbn; rewrite lookup_insert_ne by done; exact Hx1').
  cbn [mbind option_bind hp_nodes hp_feet with_nodes with_feet]. rewrite lookup_insert_ne, lookup_insert_eq by done. cbn [mbind option_bind].
  eexists _, L1. split; [done|]. split; [done|]. set (nb := set_size _ n1).
  assert (Hnb : n_size nb = b_size b + (overhead + b_size x)).
  { unfold nb, set_size. cbn [n_size]. rewrite Hz1, Hnz1. apply wrap_small. unfold in_range. sizes. lia. }
  assert (Hft : get_foot (b_addr b) nb = b_addr x + NODE_SIZE + b_size x) by (unfold get_foot; rewrite Hnb, Hadj; sizes; lia).
  assert (Hfx : get_foot (b_addr x) x1 = b_addr x + NODE_SIZE + b_size x) by (unfold get_foot; by rewrite Hz1).
  apply (merged_moving h1 _ bs1 b x bs2 L1 (hole_of (bs1 ++ x :: bs2)) nb); rewrite ?B1, ?B2; try done.
  - rewrite Hf1. by apply (tiled_frame (hp_nodes h) _ (hp_feet h)).
  - specialize (Hs1 (hp_end h)). unfold shape in Hs1. rewrite Hend in Hs1. by destruct (hp_nodes h1 !! hp_end h).
  - apply (lists_frame _ _ h1 _ _ _ _ Hlo1); try done. set_solver.
  - intros y s Hy Hy'. rewrite !hole_of_app, hole_of_cons. naive_solver.
  - intros i Hy. apply Hm in Hy as [Hy _]. by apply (Hout i).
  - intros i Hy. apply Hm in Hy. naive_solver.
  - intros y Hy Hy'. cbn. by rewrite !lookup_insert_ne.
  - cbn. rewrite lookup_insert_ne by done. apply lookup_insert_eq.
  - intros y Hy. cbn. rewrite Hft, Hfx. by rewrite !lookup_insert_ne.
  - cbn. rewrite Hft. apply lookup_insert_eq.
Qed.

(** The block handed back, the first or one with a successor. *)
Lemma free_ok h bs1 b bs2 :
  heap_ok h (bs1 ++ b :: bs2) -> b_hole b = false -> bs1 = [] \/ bs2 <> [] ->
  exists h', nexus_heap_free h (b_addr b + NODE_SIZE) = Some h' /\ same_bounds h h' /\ heap_ok h' (released bs1 b bs2).
Proof.
  intros Hok Hh Hpos. destruct (moving_start _ _ _ _ Hok Hh) as [L Hmv]. pose proof Hmv as [Hst Htot Htl Hend _ _].
  unfold nexus_heap_free. replace (b_addr b + NODE_SIZE - NODE_SIZE) with (b_addr b) by lia. pose proof Htl as (m & Ht1 & Ht2)%tiled_app.
  cbn [tiled] in Ht2. destruct Ht2 as (Ha & Hs & Hn & Hf & Ht2). destruct (exists_last_or_nil bs1) as [->|(bs0 & p & ->)].
  - cbn [tiled] in Ht1. rewrite (proj2 (Z.eqb_eq (b_addr b) (hp_start h))) by lia. by apply (release_spec _ _ _ _ _ Hmv).
  - destruct Hpos as [Hnil|Hbs2]; [by destruct bs0|]. destruct bs2 as [|x bs2]; [done|]. cbn [tiled] in Ht2. destruct Ht2 as (Hxa & _).
    destruct (tiled_in _ _ _ _ _ p Ht1 ltac:(set_solver)) as (Hp1 & Hpz & _).
    assert (Hpm : m = b_addr p + overhead + b_size p /\ hp_feet h !! (b_addr p + NODE_SIZE + b_size p) = Some (b_addr p)).
    { apply tiled_app in Ht1 as (m' & _ & Ht1). cbn [tiled] in Ht1. destruct Ht1 as (-> & _ & _ & Hpf & ->). done. }
    destruct Hpm as [Hpm Hpf]. rewrite (proj2 (Z.eqb_neq (b_addr b) (hp_start h))) by (sizes; lia).
    destruct (shape_node _ _ _ _ Hn) as (n & Hn' & _ & Hns). rewrite Ha, Hn'. cbn [mbind option_bind].
    replace (m - FOOTER_SIZE) with (b_addr p + NODE_SIZE + b_size p) by (sizes; lia). rewrite Hpf. cbn [mbind option_bind].
    replace (get_foot m n + FOOTER_SIZE) with (b_addr x) by (unfold get_foot; rewrite Hns, Hxa; sizes; lia). rewrite <- Ha.
    destruct (join_prev_spec _ _ _ _ _ _ Hmv) as (h1 & L1 & Hj1 & (B1 & B2 & B3) & Hmv1). rewrite Hj1. cbn [mbind option_bind].
    assert (Hrel : forall bs1' b', moving h1 bs1' b' (x :: bs2) L1 -> exists h', (h ← join_next h1 (b_addr b') (b_addr x); release h (b_addr b')) = Some h' /\ same_bounds h h' /\
      heap_ok h' (if b_hole x then bs1' ++ mk_block (b_addr b') (b_size (merge b' x)) true :: bs2 else bs1' ++ mk_block (b_addr b') (b_size b') true :: x :: bs2)).
    { intros bs1' b' Hmv'. destruct (join_next_spec _ _ _ _ _ _ Hmv') as (h2 & L2 & Hj2 & (B4 & B5 & B6) & Hmv2). rewrite Hj2. cbn [mbind option_bind].
      unfold same_bounds. rewrite <- B1, <- B2, <- B3, <- B4, <- B5, <- B6. destruct (b_hole x); by apply (release_spec _ _ _ _ _ Hmv2). }
    unfold released. rewrite last_snoc, removelast_last. destruct (bs0 ++ [p]) as [|z zs] eqn:Ez; [by destruct bs0|]. rewrite <- Ez in *.
    destruct (b_hole p); (destruct (Hrel _ _ Hmv1) as (h' & Hr & Hb & Hok'); exists h'; split; [exact Hr|]; split; [done|]; by destruct (b_hole x)).
Qed.
(** The last block has no header after it to look at. *)
Lemma free_last h bs1 b : heap_ok h (bs1 ++ [b]) -> b_hole b = false -> bs1 <> [] -> nexus_heap_free h (b_addr b + NODE_SIZE) = None.
Proof.
  intros Hok Hh Hne. destruct (moving_start _ _ _ _ Hok Hh) as [L Hmv]. pose proof Hmv as [Hst Htot Htl Hend _ _].
  unfold nexus_heap_free. replace (b_addr b + NODE_SIZE - NODE_SIZE) with (b_addr b) by lia. pose proof Htl as (m & Ht1 & Ht2)%tiled_app.
  cbn [tiled] in Ht2. destruct Ht2 as (Ha & Hs & Hn & Hf & Ht2). destruct (exists_last_or_nil bs1) as [->|(bs0 & p & ->)]; [done|].
  destruct (tiled_in _ _ _ _ _ p Ht1 ltac:(set_solver)) as (Hp1 & Hpz & _).
  apply tiled_app in Ht1 as (m' & Ht0 & Ht1). cbn [tiled] in Ht1. destruct Ht1 as (Hpa & _ & _ & Hpf & Hpm).
  rewrite (proj2 (Z.eqb_neq (b_addr b) (hp_start h))) by (sizes; lia). destruct (shape_node _ _ _ _ Hn) as (n & Hn' & _ & Hns). rewrite Ha, Hn'. cbn [mbind option_bind].
  replace (m - FOOTER_SIZE) with (m' + NODE_SIZE + b_size p) by (sizes; lia). rewrite Hpf. cbn [mbind option_bind].
  replace (get_foot m n + FOOTER_SIZE) with (hp_end h) by (unfold get_foot; rewrite Hns; sizes; lia). rewrite <- Ha, <- Hpa.
  destruct (join_prev_spec _ _ _ _ _ _ Hmv) as (h1 & L1 & Hj1 & (B1 & B2 & B3) & Hmv1). rewrite Hj1. cbn [mbind option_bind].
  assert (Hend1 : hp_nodes h1 !! hp_end h = None) by (rewrite <- B2; destruct (b_hole p); by apply (mv_end _ _ _ _ _ Hmv1)).
  unfold join_next. by rewrite Hend1.
Qed.
End free.

(** ** Setting up *)
Lemma init_ok start total :
  0 < start -> overhead <= total < 2 ^ 32 ->
  exists h, nexus_heap_init start total = Some h /\ heap_ok h [mk_block start (total - overhead) true] /\ hp_start h = start /\ hp_end h = start + total.
Proof.
  intros Hst Htot. unfold nexus_heap_init. cbn zeta.
  assert (Hsz : u32 (total - NODE_SIZE - FOOTER_SIZE) = total - overhead) by (rewrite wrap_small; [sizes; lia|unfold in_range; sizes; lia]). rewrite Hsz.
  set (n := mk_node true (total - overhead) 0 0). set (N := {[start := n]} : gmap Z node).
  assert (Hn : N !! start = Some n) by apply lookup_singleton_eq. erewrite create_foot_eq by exact Hn. cbn [mbind option_bind]. set (h1 := with_feet _ _).
  assert (Hlo : lists_ok [] h1 (hole_of []) (fun _ => [])).
  { split; try done; [|intros i; constructor|set_solver|intros i; constructor|].
    - intros i Hi. apply lookup_replicate. done.
    - intros i x _. setoid_rewrite hole_of_nil. set_solver. }
  destruct (lists_add [] h1 _ (hole_of [mk_block start (total - overhead) true]) _ start n Hlo) as (h2 & L & Hadd & [Hf (B1 & B2 & B3) Hs] & Hlo2 & _); try done.
  { set_solver. }
  { lia. }
  { set_solver. }
  { cbn. sizes. lia. }
  { intros x s. rewrite hole_of_cons, hole_of_nil. cbn. naive_solver. }
  cbn [n_size n] in Hadd. rewrite Hadd. cbn [mbind option_bind]. eexists. split; [done|]. split; [|done].
  split; cbn [hp_nodes hp_feet hp_start hp_end]; [done|lia| | |by exists L; apply (lists_frame _ _ h2 _ _ _ _ Hlo2)].
  - rewrite Hf. cbn. split; [done|]. split; [sizes; lia|]. split; [rewrite Hs; cbn; unfold shape, N; by rewrite lookup_singleton_eq|]. split; [apply lookup_insert_eq|sizes; lia].
  - specialize (Hs (start + total)). cbn in Hs. unfold shape, N in Hs. rewrite lookup_singleton_ne in Hs by (sizes; lia). by destruct (hp_nodes h2 !! _).
Qed.

(** ** The client's view *)
(** The states a client reaches that frees what it was given and nothing else:
    [live] has the sizes it asked for. *)
Inductive served (start total : Z) : nexus_heap -> gmap Z Z -> Prop :=
| served_init h : nexus_heap_init start total = Some h -> served start total h ∅
| served_malloc h live size h' p :
    served start total h live -> 0 <= size < 2 ^ 64 -> nexus_heap_malloc h size = Some (h', p) ->
    served start total h' (if p =? 0 then live else <[p := size]> live)
| served_free h live p h' :
    served start total h live -> is_Some (live !! p) -> nexus_heap_free h p = Some h' -> served start total h' (delete p live).

(** What is in use are the blocks that are not holes. *)
Record owns bs (live : gmap Z Z) : Prop := {
  own_block : forall p s, live !! p = Some s -> exists b, b ∈ bs /\ b_hole b = false /\ p = b_addr b + NODE_SIZE /\ 0 <= s <= b_size b;
  own_live : forall b, b ∈ bs -> b_hole b = false -> is_Some (live !! (b_addr b + NODE_SIZE))
}.

Lemma cut_used b size c : c ∈ cut b size -> b_hole c = false -> b_addr c = b_addr b /\ (size <= b_size b -> size <= b_size c).
Proof.
  unfold cut, pieces. destruct (_ <? _); [intros [->|[->|[]%not_elem_of_nil]%elem_of_cons]%elem_of_cons; cbn; [split; [done|lia]|done]|].
  intros ->%list_elem_of_singleton. done.
Qed.

Lemma owns_alloc N F a bs e live size bs' p :
  tiled N F a bs e -> 0 < a -> 0 <= size -> alloc bs size bs' p -> owns bs live -> owns bs' (if p =? 0 then live else <[p := size]> live).
Proof.
  intros Ht Ha Hsz Hal [Hb Hl]. destruct Hal as [Hnone|bs1 b bs2 Hbs Hh Hle _]; [by split|].
  assert (Hpos : a <= b_addr b) by (apply (tiled_in _ _ _ _ _ _ Ht); rewrite Hbs; set_solver).
  rewrite (proj2 (Z.eqb_neq (b_addr b + NODE_SIZE) 0)) by (sizes; lia).
  assert (Hkeep : forall c, c ∈ bs -> b_hole c = false -> c ∈ bs1 ++ cut b size ++ bs2 /\ b_addr c <> b_addr b).
  { intros c Hc Hch. assert (c <> b) by (intros ->; congruence). split; [rewrite Hbs in Hc; set_solver|]. rewrite Hbs in Ht, Hc. apply (tiled_other _ _ _ _ _ _ _ c Ht). set_solver. }
  assert (Hfirst : exists z, mk_block (b_addr b) z false ∈ cut b size /\ size <= z) by (unfold cut, pieces; destruct (_ <? _); eexists; (split; [left|lia])).
  split.
  - intros q s. destruct (decide (q = b_addr b + NODE_SIZE)) as [->|Hq]; [rewrite lookup_insert_eq|rewrite lookup_insert_ne by done].
    + intros [= <-]. destruct Hfirst as (z & Hz & Hlez). exists (mk_block (b_addr b) z false). split; [set_solver|]. done.
    + intros (c & Hc & Hch & -> & Hs)%Hb. exists c. split; [by apply Hkeep|done].
  - intros c Hc Hch. destruct (decide (b_addr c = b_addr b)) as [->|Hne]; [by rewrite lookup_insert_eq|]. rewrite lookup_insert_ne by lia. apply Hl; [|done].
    rewrite Hbs. apply elem_of_app in Hc as [Hc|[Hc|Hc]%elem_of_app]; [set_solver| |set_solver]. by apply cut_used in Hc as [? _].
Qed.

Lemma released_used bs1 b bs2 c : b_hole c = false -> c ∈ released bs1 b bs2 <-> c ∈ bs1 ++ bs2.
Proof.
  intros Hc. assert (Hn : forall a s, c <> mk_block a s true) by (intros a s ->; done).
  assert (Hh : forall x, b_hole x = true -> c <> x) by (intros x Hx ->; congruence).
  unfold released. destruct (exists_last_or_nil bs1) as [->|(bs0 & p & ->)]; [set_solver|]. rewrite last_snoc, removelast_last.
  destruct (bs0 ++ [p]) as [|z zs] eqn:Ez; [by destruct bs0|]. rewrite <- Ez. clear z zs Ez.
  destruct (b_hole p) eqn:Hp; [pose proof (Hh p Hp)|]; (destruct bs2 as [|x bs2]; [set_solver|destruct (b_hole x) eqn:Hx; [pose proof (Hh x Hx)|]; set_solver]).
Qed.

Lemma owns_free N F a bs1 b bs2 e live :
  tiled N F a (bs1 ++ b :: bs2) e -> owns (bs1 ++ b :: bs2) live -> owns (released bs1 b bs2) (delete (b_addr b + NODE_SIZE) live).
Proof.
  intros Ht [Hb Hl]. split.
  - intros q s. destruct (decide (q = b_addr b + NODE_SIZE)) as [->|Hq]; [by rewrite lookup_delete_eq|]. rewrite lookup_delete_ne by done.
    intros (c & Hc & Hch & -> & Hs)%Hb. exists c. split; [|done]. apply released_used; [done|]. assert (c <> b) by (intros ->; done). set_solver.
  - intros c Hc Hch. apply released_used in Hc; [|done]. pose proof (tiled_other _ _ _ _ _ _ _ c Ht Hc) as Hne. rewrite lookup_delete_ne by lia. apply Hl; [set_solver|done].
Qed.

Section client.
Context (start total : Z) (Hstart : 0 < start) (Htotal : overhead <= total < 2 ^ 32).

Lemma served_ok h live : served start total h live -> exists bs, heap_ok h bs /\ owns bs live /\ hp_start h = start /\ hp_end h = start + total.
Proof.
  induction 1 as [h Hi|h live size h' p _ (bs & Hok & Ho & Hs & He) Hsz Hm|h live p h' _ (bs & Hok & Ho & Hs & He) Hp Hf].
  - destruct (init_ok start total Hstart Htotal) as (h' & Hi' & Hok & Hs & He). rewrite Hi in Hi'. injection Hi' as <-. eexists. split; [done|]. split; [|done].
    split; [done|]. intros b ->%list_elem_of_singleton. done.
  - destruct (malloc_ok h bs size Hok Hsz) as (h2 & bs' & p' & Hm' & Hal & Hok' & (B1 & B2 & _)). rewrite Hm in Hm'. injection Hm' as <- <-.
    exists bs'. split; [done|]. split; [|by rewrite B1, B2]. eapply (owns_alloc _ _ _ bs); [apply Hok|apply Hok|lia|done|done].
  - destruct Hp as [s Hp]. destruct (own_block _ _ Ho _ _ Hp) as (b & (bs1 & bs2 & ->)%list_elem_of_split & Hh & -> & _).
    destruct (decide (bs1 = [] \/ bs2 <> [])) as [Hpos|Hlast].
    + destruct (free_ok _ _ _ _ Hok Hh Hpos) as (h2 & Hf' & (B1 & B2 & _) & Hok'). rewrite Hf in Hf'. injection Hf' as <-.
      exists (released bs1 b bs2). split; [done|]. split; [|by rewrite B1, B2]. eapply owns_free; [apply Hok|done].
    + assert (bs2 = []) as -> by (destruct bs2; [done|]; exfalso; apply Hlast; by right).
      rewrite (free_last _ _ _ Hok Hh) in Hf by (intros ->; apply Hlast; by left). done.
Qed.

(** C31: The regions the allocator has handed out and not taken back lie inside
    the memory it was given, and no two of them overlap, headers and footers
    included: whatever was requested and freed before, writing to one of them
    within its size can damage neither another nor the allocator's own
    records. *)
Theorem allocations_disjoint h live p s q t :
  served start total h live -> live !! p = Some s -> live !! q = Some t -> p <> q ->
  (start + NODE_SIZE <= p /\ p + s + FOOTER_SIZE <= start + total) /\ (p + s + overhead <= q \/ q + t + overhead <= p).
Proof.
  intros (bs & Hok & Ho & Hs & He)%served_ok Hp Hq Hne. pose proof (ho_tiled _ _ Hok) as Htl. rewrite Hs, He in Htl.
  destruct (own_block _ _ Ho _ _ Hp) as (b & Hb & _ & -> & Hbs). destruct (own_block _ _ Ho _ _ Hq) as (c & Hc & _ & -> & Hcs).
  destruct (tiled_in _ _ _ _ _ _ Htl Hb) as (Hlo & Hz & Hhi & _). split; [sizes; lia|]. apply list_elem_of_split in Hb as (bs1 & bs2 & ->).
  apply tiled_app in Htl as (m & Ht1 & (Ha & _ & _ & _ & Ht2)). apply elem_of_app in Hc as [Hc|[->|Hc]%elem_of_cons]; [|done|].
  - destruct (tiled_in _ _ _ _ _ _ Ht1 Hc) as (_ & _ & Hle & _). right. sizes. lia.
  - destruct (tiled_in _ _ _ _ _ _ Ht2 Hc) as (Hle & _). left. sizes. lia.
Qed.

(** C30: The allocator implements a run of blocks: in every state a client can
    reach, a request is answered, from the smallest hole that is large enough
    and with NULL only if there is none.  A block in use that has a block before
    it and one after it is taken back and joined with the holes around it; the
    first block of the memory is taken back too, but is not joined with a hole
    after it ([released]).  Handing back the last block of the memory, when it
    is not the first, reads a header beyond the end of the memory. *)
Theorem heap_refines_blocks h live :
  served start total h live ->
  exists bs, heap_ok h bs /\ owns bs live /\
    (forall size, 0 <= size < 2 ^ 64 -> exists h' bs' p, nexus_heap_malloc h size = Some (h', p) /\ alloc bs size bs' p /\ heap_ok h' bs') /\
    (forall bs1 b bs2, bs = bs1 ++ b :: bs2 -> b_hole b = false ->
       if decide (bs1 = [] \/ bs2 <> []) then exists h', nexus_heap_free h (b_addr b + NODE_SIZE) = Some h' /\ heap_ok h' (released bs1 b bs2)
       else nexus_heap_free h (b_addr b + NODE_SIZE) = None).
Proof.
  intros (bs & Hok & Ho & _)%served_ok. exists bs. split; [done|]. split; [done|]. split.
  - intros size Hsz. destruct (malloc_ok h bs size Hok Hsz) as (h' & bs' & p & Hm & Hal & Hok' & _). eauto 10.
  - intros bs1 b bs2 -> Hh. destruct (decide _) as [Hpos|Hlast]; [destruct (free_ok _ _ _ _ Hok Hh Hpos) as (h' & Hf & _ & Hok'); eauto|].
    assert (bs2 = []) as -> by (destruct bs2; [done|]; exfalso; apply Hlast; by right). apply (free_last _ _ _ Hok Hh). intros ->. apply Hlast. by left.
Qed.
End client.

(** ** Witnesses *)
Definition toy_heap0 : nexus_heap := Eval vm_compute in default (mk_heap ∅ ∅ [] 0 0 0) (nexus_heap_init 4096 400).
Definition toy_heap1 : nexus_heap := Eval vm_compute in fst (default (toy_heap0, 0) (nexus_heap_malloc toy_heap0 100)).
Definition toy_heap2 : nexus_heap := Eval vm_compute in fst (default (toy_heap0, 0) (nexus_heap_malloc toy_heap1 50)).

Lemma toy_served : served 4096 400 toy_heap2 (<[4252 := 50]> (<[4120 := 100]> ∅)).
Proof.
  apply (served_malloc 4096 400 toy_heap1 (<[4120 := 100]> ∅) 50 toy_heap2 4252); [|lia|by vm_compute].
  apply (served_malloc 4096 400 toy_heap0 ∅ 100 toy_heap1 4120); [|lia|by vm_compute]. constructor. by vm_compute.
Qed.

Lemma allocations_disjoint_witness : (4096 + NODE_SIZE <= 4120 /\ 4120 + 100 + FOOTER_SIZE <= 4096 + 400) /\ (4120 + 100 + overhead <= 4252 \/ 4252 + 50 + overhead <= 4120).
Proof.
  apply (allocations_disjoint 4096 400 ltac:(lia) ltac:(unfold overhead, FOOTER_SIZE, NODE_SIZE; lia) toy_heap2 (<[4252 := 50]> (<[4120 := 100]> ∅))); [exact toy_served|by vm_compute|by vm_compute|lia].
Defined.

Lemma heap_refines_blocks_witness :
  exists bs, heap_ok toy_heap2 bs /\ owns bs (<[4252 := 50]> (<[4120 := 100]> ∅)) /\
    (forall size, 0 <= size < 2 ^ 64 -> exists h' bs' p, nexus_heap_malloc toy_heap2 size = Some (h', p) /\ alloc bs size bs' p /\ heap_ok h' bs') /\
    (forall bs1 b bs2, bs = bs1 ++ b :: bs2 -> b_hole b = false ->
       if decide (bs1 = [] \/ bs2 <> []) then exists h', nexus_heap_free toy_heap2 (b_addr b + NODE_SIZE) = Some h' /\ heap_ok h' (released bs1 b bs2)
       else nexus_heap_free toy_heap2 (b_addr b + NODE_SIZE) = None).
Proof.
  apply (heap_refines_blocks 4096 400 ltac:(lia) ltac:(unfold overhead, FOOTER_SIZE, NODE_SIZE; lia) toy_heap2 (<[4252 := 50]> (<[4120 := 100]> ∅)) toy_served).
Defined.
