(* ===== verification/AttributeTable.v ===== *)
(** * Attribute table of a file, directory or user

    Models [abac/attribute_table.c].  The table is the hash map of
    [Hashmap.v] from attribute UUIDs to entries; an entry is a heap cell with
    its 64-byte value array, kept whole because updates overwrite it in place.
    The theorems give the behaviour of every operation on the value a lookup
    returns, and the round trip through the serialized form. *)
From S2P Require Import Prelude Hashmap Types.

Definition ATTRIBUTE_VALUE_SIZE : Z := 64.
Definition VALUE_LEN : nat := 64.

(** [struct attribute_entry]; [attr_val] is the whole array. *)
Record attribute_entry := mk_attr_entry {
  attr_uuid : uuid;
  attr_val_len : Z;
  attr_val : bytes
}.

(** [struct attribute_table]; [at_store] and [at_next] are the heap cells
    [nexus_malloc] handed out for its entries. *)
Record attribute_table := mk_attr_table {
  at_count : Z;
  at_audit_log_uuid : uuid;
  at_generation : Z;
  at_macversion : mac_and_version;
  at_map : hashmap uuid;
  at_store : gmap Z attribute_entry;
  at_next : Z
}.

(** The C string held in an array: the bytes before the first NUL. *)
Fixpoint cstr (arr : bytes) : bytes :=
  match arr with
  | [] => []
  | c :: arr' => if c =? 0 then [] else c :: cstr arr'
  end.

(** [memcpy(arr, src, n)] into the head of an array. *)
Definition memcpy_into (arr src : bytes) (n : nat) : bytes := take n src ++ drop n arr.

Definition attr_key (u : uuid) (a : Z) : hashmap_entry uuid := entry_of memhash u a.

(** Address of the key structs that live on the stack: never an entry's. *)
Definition STACK_ADDR : Z := 0.

Definition put_attr_entry (t : attribute_table) (u : uuid) (value : bytes) (len : Z)
    : attribute_table * option Z :=
  if ATTRIBUTE_VALUE_SIZE <? len then (t, None)
  else
    let a := at_next t in
    let e := {| attr_uuid := u; attr_val_len := len;
                attr_val := memcpy_into (replicate VALUE_LEN 0) value (Z.to_nat len) |} in
    ({| at_count := at_count t +64 1;
        at_audit_log_uuid := at_audit_log_uuid t;
        at_generation := at_generation t;
        at_macversion := at_macversion t;
        at_map := hashmap_add (at_map t) (attr_key u a);
        at_store := <[a := e]> (at_store t);
        at_next := a + 1 |}, Some a).

Definition del_attr_entry (t : attribute_table) (u : uuid) : attribute_table * Z :=
  match hashmap_remove nexus_uuid_compare (at_map t) (attr_key u STACK_ADDR) with
  | (_, None) => (t, -1)
  | (m, Some e) =>
      ({| at_count := at_count t -64 1;
          at_audit_log_uuid := at_audit_log_uuid t;
          at_generation := at_generation t;
          at_macversion := at_macversion t;
          at_map := m;
          at_store := delete (he_addr e) (at_store t);
          at_next := at_next t |}, 0)
  end.

Definition get_attr_entry (t : attribute_table) (u : uuid) : option Z :=
  he_addr <$> hashmap_get nexus_uuid_compare (at_map t) (attr_key u STACK_ADDR).

(** The entry a UUID leads to. *)
Definition at_lookup (t : attribute_table) (u : uuid) : option attribute_entry :=
  a ← get_attr_entry t u; at_store t !! a.

Definition attribute_table_find (t : attribute_table) (u : uuid) : option bytes :=
  e ← at_lookup t u; Some (cstr (attr_val e)).

Definition with_generation (t : attribute_table) (g : Z) : attribute_table :=
  {| at_count := at_count t; at_audit_log_uuid := at_audit_log_uuid t; at_generation := g;
     at_macversion := at_macversion t; at_map := at_map t; at_store := at_store t;
     at_next := at_next t |}.

Definition with_entry (t : attribute_table) (a : Z) (e : attribute_entry) : attribute_table :=
  {| at_count := at_count t; at_audit_log_uuid := at_audit_log_uuid t;
     at_generation := at_generation t; at_macversion := at_macversion t; at_map := at_map t;
     at_store := <[a := e]> (at_store t); at_next := at_next t |}.

(** Always returns 0. *)
Definition attribute_table_add (t : attribute_table) (u : uuid) (value : bytes) : attribute_table :=
  let len := Z.of_nat (strnlen value VALUE_LEN) in
  match a ← get_attr_entry t u; pair a <$> at_store t !! a with
  | Some (a, entry) =>
      if strncmp (cstr (attr_val entry)) value VALUE_LEN =? 0 then t
      else
        let val := if len =? 0 then replicate VALUE_LEN 0
                   else memcpy_into (attr_val entry) value (Z.to_nat len) in
        let t' := with_entry t a {| attr_uuid := attr_uuid entry; attr_val_len := len;
                                    attr_val := val |} in
        with_generation t' (at_generation t +64 1)
  | None =>
      let t' := fst (put_attr_entry t u value len) in
      with_generation t' (at_generation t +64 1)
  end.

Definition attribute_table_del (t : attribute_table) (u : uuid) : attribute_table * Z :=
  let '(t', ret) := del_attr_entry t u in
  if negb (ret =? 0) then (t', -1)
  else (with_generation t' (at_generation t' +64 1), 0).

(** [nexus_malloc] zeroes the struct; [attribute_table_init] makes the map. *)
Definition attribute_table_create : attribute_table :=
  {| at_count := 0; at_audit_log_uuid := nexus_uuid_zeroize; at_generation := 0;
     at_macversion := mk_macversion 0 nexus_mac_zeroize;
     at_map := hashmap_init 0; at_store := ∅; at_next := 1 |}.

(** ** Serialization *)
Definition ATTR_TABLE_HDR_SIZE : Z := 52.
Definition ATTR_TABLE_ENTRY_SIZE : Z := 88.

Definition attribute_table_get_size (t : attribute_table) : Z :=
  u64 (ATTR_TABLE_HDR_SIZE + at_count t * ATTR_TABLE_ENTRY_SIZE).

Definition serialize_attribute_header (t : attribute_table) : bytes :=
  le_encode 8 (at_count t) ++ le_encode 8 (at_generation t) ++ at_audit_log_uuid t ++
  mac_and_version_to_buf (at_macversion t).

(** The destination is freshly zeroed, and only [attr_val_len] bytes of the
    value are copied over it. *)
Definition serialize_attribute_entry (e : attribute_entry) : bytes :=
  attr_uuid e ++ le_encode 8 (attr_val_len e) ++
  memcpy_into (replicate VALUE_LEN 0) (attr_val e) (Z.to_nat (attr_val_len e)).

(** The entries in the order of [hashmap_iter_next]. *)
Definition at_entries (t : attribute_table) : list attribute_entry :=
  omap (fun e => at_store t !! he_addr e) (hashmap_iter (at_map t)).

(** [macversion] is what [abac_global_export_macversion] exported, [None] its
    failure. *)
Definition attribute_table_store (t : attribute_table) (macversion : option mac_and_version)
    (buflen : Z) : option (attribute_table * bytes) :=
  if buflen <? attribute_table_get_size t then None
  else
    match macversion with
    | None => None
    | Some mv =>
        let t' := {| at_count := at_count t; at_audit_log_uuid := at_audit_log_uuid t;
                     at_generation := at_generation t; at_macversion := mv; at_map := at_map t;
                     at_store := at_store t; at_next := at_next t |} in
        Some (t', serialize_attribute_header t' ++ concat (serialize_attribute_entry <$> at_entries t'))
    end.

Definition parse_attribute_table_hdr : decoder attribute_table :=
  count <~ dec_uint 8; generation <~ dec_uint 8; audit <~ dec_bytes NEXUS_UUID_SIZE;
  mv <~ mac_and_version_from_buf;
  dec_ret {| at_count := count; at_audit_log_uuid := audit; at_generation := generation;
             at_macversion := mv; at_map := hashmap_init 0; at_store := ∅; at_next := 1 |}.

Definition parse_attr_table_entry : decoder (uuid * Z * bytes) :=
  u <~ dec_bytes NEXUS_UUID_SIZE; len <~ dec_uint 8; val <~ dec_bytes VALUE_LEN;
  dec_ret (u, len, val).

(** [for (i < count) __put_attr_entry(...)], stopping on the first refusal. *)
Fixpoint parse_attribute_table_body (t : attribute_table) (n : nat) : decoder attribute_table :=
  match n with
  | O => dec_ret t
  | S n' =>
      ent <~ parse_attr_table_entry;
      match put_attr_entry t ent.1.1 ent.2 ent.1.2 with
      | (_, None) => fun _ => None
      | (t', Some _) => parse_attribute_table_body t' n'
      end
  end.

Definition attribute_table_from_buffer (buffer : bytes) : option (attribute_table * bytes) :=
  if Z.of_nat (length buffer) <? ATTR_TABLE_HDR_SIZE then None
  else
    (t <~ parse_attribute_table_hdr;
     let count := at_count t in
     parse_attribute_table_body
       {| at_count := 0; at_audit_log_uuid := at_audit_log_uuid t;
          at_generation := at_generation t; at_macversion := at_macversion t;
          at_map := at_map t; at_store := at_store t; at_next := at_next t |}
       (Z.to_nat count)) buffer.

Definition attribute_table_has_audit_log (t : attribute_table) : bool :=
  negb (nexus_uuid_is_zeros (at_audit_log_uuid t)).

Definition attribute_table_set_audit_log (t : attribute_table) (u : uuid) : attribute_table :=
  {| at_count := at_count t; at_audit_log_uuid := u; at_generation := at_generation t;
     at_macversion := at_macversion t; at_map := at_map t; at_store := at_store t;
     at_next := at_next t |}.

Definition attribute_table_get_audit_log (t : attribute_table) : option uuid :=
  if attribute_table_has_audit_log t then Some (at_audit_log_uuid t) else None.

(** ** Invariant *)
Record at_inv (t : attribute_table) (g : gmap uuid Z) : Prop := {
  ai_repr : hm_repr memhash uuid_ok (at_map t) g;
  ai_cell : forall u a, g !! u = Some a ->
    0 < a < at_next t /\
    exists e, at_store t !! a = Some e /\ attr_uuid e = u /\ length (attr_val e) = VALUE_LEN /\
              0 <= attr_val_len e <= 64;
  ai_next : 0 < at_next t;
  ai_count : at_count t = Z.of_nat (size g)
}.

Section at_lemmas.
Implicit Types (t : attribute_table) (g : gmap uuid Z) (u : uuid) (v : bytes).

Lemma at_addr_inj t g u u' a : at_inv t g -> g !! u = Some a -> g !! u' = Some a -> u = u'.
Proof.
  intros Hi H1 H2. destruct (ai_cell _ _ Hi _ _ H1) as (_ & e & Hs & <- & _).
  destruct (ai_cell _ _ Hi _ _ H2) as (_ & e' & Hs' & <- & _). congruence.
Qed.

Lemma at_stack_fresh t g u : at_inv t g -> forall u', g !! u' = Some STACK_ADDR -> u' = u.
Proof. intros Hi u' H0. destruct (ai_cell _ _ Hi _ _ H0) as [? _]. unfold STACK_ADDR in *. lia. Qed.

Lemma at_get t g u : at_inv t g -> uuid_ok u -> get_attr_entry t u = g !! u.
Proof.
  intros Hi Hu. apply (repr_get nexus_uuid_compare memhash uuid_ok uuid_compare_eq);
    [apply Hi|done|by eapply at_stack_fresh].
Qed.

Lemma at_lookup_eq t g u : at_inv t g -> uuid_ok u -> at_lookup t u = a ← g !! u; at_store t !! a.
Proof. intros Hi Hu. unfold at_lookup. by rewrite (at_get _ _ _ Hi Hu). Qed.

Lemma at_create_inv : at_inv attribute_table_create ∅.
Proof.
  split; simpl; [by apply repr_init|intros u a Ha; by rewrite lookup_empty in Ha|lia|done].
Qed.

Lemma length_memcpy_into arr src n :
  length arr = VALUE_LEN -> (n <= VALUE_LEN)%nat -> (n <= length src)%nat ->
  length (memcpy_into arr src n) = VALUE_LEN.
Proof. intros. unfold memcpy_into. rewrite length_app, length_take, length_drop. lia. Qed.

(** Allocating an entry for a UUID the table does not hold. *)
Lemma put_attr_entry_spec t g u v len :
  at_inv t g -> uuid_ok u -> g !! u = None -> Z.of_nat (size g) < 2 ^ 29 ->
  0 <= len <= 64 -> len <= Z.of_nat (length v) ->
  exists t', put_attr_entry t u v len = (t', Some (at_next t)) /\
    at_inv t' (<[u := at_next t]> g) /\
    at_store t' = <[at_next t :=
      {| attr_uuid := u; attr_val_len := len;
         attr_val := memcpy_into (replicate VALUE_LEN 0) v (Z.to_nat len) |}]> (at_store t) /\
    at_generation t' = at_generation t /\ at_macversion t' = at_macversion t /\
    at_audit_log_uuid t' = at_audit_log_uuid t.
Proof.
  intros Hi Hu Hg Hsz Hl Hv. unfold put_attr_entry, ATTRIBUTE_VALUE_SIZE.
  rewrite (proj2 (Z.ltb_ge 64 len)) by lia. eexists. split; [done|].
  split; [|done]. split; simpl.
  - apply repr_add; [apply Hi|done|done|done].
  - intros u' a [[<- <-]|[Hne Ha]]%lookup_insert_Some.
    + split; [pose proof (ai_next _ _ Hi); lia|]. eexists. rewrite lookup_insert_eq.
      split; [done|]. simpl. split; [done|]. split; [|lia].
      apply length_memcpy_into; [done|unfold VALUE_LEN; lia|lia].
    + destruct (ai_cell _ _ Hi _ _ Ha) as (Hr & e & Hs & He). split; [lia|].
      exists e. rewrite lookup_insert_ne by lia. done.
  - pose proof (ai_next _ _ Hi). lia.
  - rewrite (ai_count _ _ Hi), map_size_insert_None by done.
    rewrite wrap_small by (unfold in_range; lia). lia.
Qed.

(** Overwriting the cell of a bound UUID in place. *)
Lemma with_entry_inv t g u a e :
  at_inv t g -> g !! u = Some a -> attr_uuid e = u ->
  length (attr_val e) = VALUE_LEN -> 0 <= attr_val_len e <= 64 ->
  at_inv (with_entry t a e) g.
Proof.
  intros Hi Ha He Hl Hn. split; simpl; [apply Hi| |apply Hi|apply Hi].
  intros u' a' Ha'. destruct (ai_cell _ _ Hi _ _ Ha') as (Hr & e' & Hs & Hrest).
  split; [done|]. destruct (decide (a' = a)) as [->|Hne].
  - assert (u' = u) as -> by (by eapply (at_addr_inj t g)). exists e. by rewrite lookup_insert_eq.
  - exists e'. by rewrite lookup_insert_ne.
Qed.

Lemma with_generation_inv t g n : at_inv t g -> at_inv (with_generation t n) g.
Proof. intros [H1 H2 H3 H4]. by split. Qed.

Lemma cstr_app_nul v arr : cstr_ok v -> cstr (v ++ 0 :: arr) = v.
Proof.
  induction 1 as [|c v Hc _ IH]; simpl; [done|].
  rewrite (proj2 (Z.eqb_neq c 0)) by lia. by rewrite IH.
Qed.

Lemma cstr_app v arr : cstr_ok v -> cstr (v ++ arr) = v ++ cstr arr.
Proof.
  induction 1 as [|c v Hc _ IH]; simpl; [done|].
  rewrite (proj2 (Z.eqb_neq c 0)) by lia. by rewrite IH.
Qed.

Lemma cstr_drop n arr : (n <= length (cstr arr))%nat -> cstr (drop n arr) = drop n (cstr arr).
Proof.
  revert n; induction arr as [|c arr IH]; intros [|n] Hn; simpl in *; try done.
  destruct (Z.eqb_spec c 0); simpl in *; [lia|]. apply IH. lia.
Qed.

Lemma cstr_replicate n : cstr (replicate n 0) = [].
Proof. by destruct n. Qed.

(** A value with room for its terminator reads back from a zeroed array. *)
Lemma cstr_memcpy_zero v :
  cstr_ok v -> (length v < VALUE_LEN)%nat ->
  cstr (memcpy_into (replicate VALUE_LEN 0) v (length v)) = v.
Proof.
  intros Hc Hl. unfold memcpy_into. rewrite take_ge by lia.
  rewrite drop_replicate, cstr_app, cstr_replicate, app_nil_r by done. done.
Qed.

Lemma strnlen_small v : (length v < VALUE_LEN)%nat -> strnlen v VALUE_LEN = length v.
Proof. unfold strnlen. lia. Qed.

(** [attribute_table_add] of a UUID not in the table. *)
Lemma attribute_table_add_new t g u v :
  at_inv t g -> uuid_ok u -> g !! u = None -> Z.of_nat (size g) < 2 ^ 29 ->
  cstr_ok v -> (length v < VALUE_LEN)%nat ->
  at_inv (attribute_table_add t u v) (<[u := at_next t]> g) /\
  forall u', uuid_ok u' ->
    attribute_table_find (attribute_table_add t u v) u'
    = if decide (u' = u) then Some v else attribute_table_find t u'.
Proof.
  intros Hi Hu Hg Hsz Hc Hl. unfold attribute_table_add.
  rewrite (at_get _ _ _ Hi Hu), Hg, strnlen_small by done. simpl.
  destruct (put_attr_entry_spec t g u v (Z.of_nat (length v)) Hi Hu Hg Hsz)
    as (t' & -> & Hi' & Hst & _); [unfold VALUE_LEN in *; lia|lia|].
  split; [by apply with_generation_inv|]. intros u' Hu'. unfold attribute_table_find.
  rewrite (at_lookup_eq _ _ _ (with_generation_inv _ _ _ Hi') Hu'). simpl.
  rewrite (at_lookup_eq _ _ _ Hi Hu'), Hst. destruct (decide (u' = u)) as [->|Hne].
  - rewrite lookup_insert_eq. simpl. rewrite lookup_insert_eq. simpl.
    by rewrite Nat2Z.id, cstr_memcpy_zero.
  - rewrite lookup_insert_ne by done. destruct (g !! u') as [a|] eqn:Ha; [|done]. simpl.
    destruct (ai_cell _ _ Hi _ _ Ha) as (Hr & _). by rewrite lookup_insert_ne by lia.
Qed.

(** The value read back after overwriting an entry in place: the new value
    followed by whatever of the old one was longer. *)
Definition overwritten (old new : bytes) : bytes :=
  if (length new =? 0)%nat then [] else new ++ drop (length new) old.

Lemma overwritten_cstr arr v :
  cstr_ok v -> (length v < VALUE_LEN)%nat -> length arr = VALUE_LEN ->
  (length v <= length (cstr arr))%nat \/ arr = cstr arr ++ replicate (VALUE_LEN - length (cstr arr)) 0 ->
  cstr (if Z.of_nat (length v) =? 0 then replicate VALUE_LEN 0
        else memcpy_into arr v (length v)) = overwritten (cstr arr) v.
Proof.
  intros Hc Hl Ha Hcase. unfold overwritten.
  destruct (length v) as [|n] eqn:Hv; [done|]. rewrite <- Hv.
  rewrite (proj2 (Z.eqb_neq _ 0)) by lia. rewrite (proj2 (Nat.eqb_neq _ 0)) by lia.
  unfold memcpy_into. rewrite take_ge by lia. rewrite cstr_app by done. f_equal.
  destruct (decide (length v <= length (cstr arr))%nat) as [Hle|Hgt].
  - by apply cstr_drop.
  - destruct Hcase as [|Heq]; [lia|]. rewrite Heq, drop_app_ge by lia.
    rewrite drop_replicate, cstr_replicate, drop_ge; [done|]. rewrite <- Heq at 1. lia.
Qed.
End at_lemmas.

(** Arrays as the table's own updates leave them: a terminated string padded
    with zeros. *)
Definition clean_val (arr : bytes) : Prop :=
  cstr_ok (cstr arr) /\ (length (cstr arr) < VALUE_LEN)%nat /\
  arr = cstr arr ++ replicate (VALUE_LEN - length (cstr arr)) 0.

Definition at_clean (t : attribute_table) (g : gmap uuid Z) : Prop :=
  forall u a e, g !! u = Some a -> at_store t !! a = Some e -> clean_val (attr_val e).

Section at_clean_lemmas.
Implicit Types (t : attribute_table) (g : gmap uuid Z) (u : uuid) (v : bytes).

Lemma clean_zero v :
  cstr_ok v -> (length v < VALUE_LEN)%nat ->
  clean_val (memcpy_into (replicate VALUE_LEN 0) v (length v)).
Proof.
  intros Hc Hl. unfold clean_val. rewrite cstr_memcpy_zero by done. split; [done|].
  split; [done|]. unfold memcpy_into. by rewrite take_ge, drop_replicate by lia.
Qed.

Lemma clean_overwrite arr v :
  clean_val arr -> cstr_ok v -> (length v < VALUE_LEN)%nat ->
  clean_val (if Z.of_nat (length v) =? 0 then replicate VALUE_LEN 0
             else memcpy_into arr v (length v)).
Proof.
  intros (Hc & Hl & Ha) Hv Hlv. unfold clean_val.
  assert (Hlen : length arr = VALUE_LEN).
  { rewrite Ha, length_app, length_replicate. lia. }
  rewrite (overwritten_cstr arr v Hv Hlv Hlen) by (right; done). unfold overwritten.
  destruct (decide (length v = 0%nat)) as [E|E].
  { rewrite E. simpl. split; [apply Forall_nil; done|]. split; [unfold VALUE_LEN; lia|done]. }
  rewrite (proj2 (Nat.eqb_neq _ 0)) by lia.
  rewrite (proj2 (Z.eqb_neq _ 0)) by lia.
  split; [apply Forall_app; split; [done|by apply Forall_drop]|].
  rewrite length_app, length_drop. split; [lia|].
  unfold memcpy_into. rewrite take_ge by lia. rewrite Ha at 1.
  rewrite drop_app, drop_replicate, <- app_assoc. do 3 f_equal. lia.
Qed.

(** [attribute_table_add] of a UUID already in the table. *)
Lemma attribute_table_add_bound t g u v old :
  at_inv t g -> at_clean t g -> uuid_ok u ->
  attribute_table_find t u = Some old ->
  cstr_ok v -> (length v < VALUE_LEN)%nat ->
  at_inv (attribute_table_add t u v) g /\ at_clean (attribute_table_add t u v) g /\
  forall u', uuid_ok u' ->
    attribute_table_find (attribute_table_add t u v) u'
    = if decide (u' = u) then Some (overwritten old v) else attribute_table_find t u'.
Proof.
  intros Hi Hcl Hu Hold Hv Hl. unfold attribute_table_find in Hold.
  rewrite (at_lookup_eq _ _ _ Hi Hu) in Hold.
  destruct (g !! u) as [a|] eqn:Ha; [|done].
  destruct (ai_cell _ _ Hi _ _ Ha) as (Hr & e & Hs & He & Hlen & Hn).
  simpl in Hold. rewrite Hs in Hold. simpl in Hold. injection Hold as <-.
  pose proof (Hcl u a e Ha Hs) as Hcv. pose proof Hcv as (Hc1 & Hc2 & Hc3).
  unfold attribute_table_add. rewrite (at_get _ _ _ Hi Hu), Ha, strnlen_small by done.
  simpl. rewrite Hs. simpl.
  destruct (Z.eqb_spec (strncmp (cstr (attr_val e)) v VALUE_LEN) 0) as [Heq|Hne].
  - apply strncmp_eq in Heq; [|done..]. split; [done|]. split; [done|].
    intros u' Hu'. destruct (decide (u' = u)) as [->|]; [|done].
    unfold attribute_table_find. rewrite (at_lookup_eq _ _ _ Hi Hu), Ha. simpl. rewrite Hs. simpl.
    f_equal. rewrite Heq. unfold overwritten. rewrite drop_all, app_nil_r.
    destruct v; done.
  - rewrite Nat2Z.id. set (val := if _ =? 0 then _ else _).
    assert (Hval : clean_val val) by (by apply clean_overwrite).
    assert (Hvl : length val = VALUE_LEN).
    { destruct Hval as (_ & ? & Heqv). rewrite Heqv, length_app, length_replicate. lia. }
    set (e' := {| attr_uuid := attr_uuid e; attr_val_len := Z.of_nat (length v); attr_val := val |}).
    assert (Hi' : at_inv (with_generation (with_entry t a e') (at_generation t +64 1)) g).
    { apply with_generation_inv. apply (with_entry_inv t g u); [done..|].
      simpl. unfold VALUE_LEN in *. lia. }
    split; [done|]. split.
    + intros u' a' e'' Ha' Hs'. simpl in Hs'.
      destruct (decide (a' = a)) as [->|Hnea].
      * rewrite lookup_insert_eq in Hs'. by injection Hs' as <-.
      * rewrite lookup_insert_ne in Hs' by done. eauto.
    + intros u' Hu'. unfold attribute_table_find.
      rewrite (at_lookup_eq _ _ _ Hi' Hu'), (at_lookup_eq _ _ _ Hi Hu'). simpl.
      destruct (decide (u' = u)) as [->|Hneu].
      * rewrite Ha. simpl. rewrite lookup_insert_eq. simpl. f_equal.
        apply overwritten_cstr; [done..|]. by right.
      * destruct (g !! u') as [a'|] eqn:Ha'; [|done]. simpl.
        rewrite lookup_insert_ne; [done|]. intros ->. apply Hneu. by eapply (at_addr_inj t g).
Qed.

Lemma attribute_table_del_spec t g u :
  at_inv t g -> uuid_ok u ->
  (g !! u = None -> attribute_table_del t u = (t, -1)) /\
  (is_Some (g !! u) ->
     (attribute_table_del t u).2 = 0 /\ at_inv (attribute_table_del t u).1 (delete u g) /\
     forall u', uuid_ok u' ->
       attribute_table_find (attribute_table_del t u).1 u'
       = if decide (u' = u) then None else attribute_table_find t u').
Proof.
  intros Hi Hu. unfold attribute_table_del, del_attr_entry.
  destruct (repr_remove nexus_uuid_compare memhash uuid_ok uuid_compare_eq
    (at_map t) g u STACK_ADDR (ai_repr _ _ Hi) Hu (at_stack_fresh t g u Hi)) as [Hr Hold].
  unfold attr_key. destruct (hashmap_remove _ _ _) as [m old]. simpl in *. split.
  - intros Hg. rewrite Hg in Hold. by destruct old.
  - intros [a Ha]. rewrite Ha in Hold. destruct old as [e|]; [|done]. simpl in *.
    injection Hold as Hold. rewrite Hold.
    assert (Hi' : at_inv (with_generation
      {| at_count := at_count t -64 1; at_audit_log_uuid := at_audit_log_uuid t;
         at_generation := at_generation t; at_macversion := at_macversion t; at_map := m;
         at_store := delete a (at_store t); at_next := at_next t |} (at_generation t +64 1))
      (delete u g)).
    { split; simpl.
      - done.
      - intros u' a' [Hne Ha']%lookup_delete_Some.
        destruct (ai_cell _ _ Hi _ _ Ha') as (Hra & e' & Hs & Hrest). split; [done|].
        exists e'. rewrite lookup_delete_ne; [done|]. intros ->. apply Hne. by eapply (at_addr_inj t g).
      - apply Hi.
      - rewrite (ai_count _ _ Hi), map_size_delete, Ha. simpl.
        assert (size g <> 0%nat).
        { intros H0. apply map_size_empty_inv in H0. subst. by rewrite lookup_empty in Ha. }
        pose proof (hm_repr_size _ _ _ _ (ai_repr _ _ Hi)) as Hps.
        destruct (hw_pow _ (hr_wf _ _ _ _ (ai_repr _ _ Hi))) as (k & Hk & Hkb & _).
        pose proof (hw_load _ (hr_wf _ _ _ _ (ai_repr _ _ Hi))) as Hld.
        rewrite (hw_grow _ (hr_wf _ _ _ _ (ai_repr _ _ Hi))), Hk in Hld.
        pose proof (pow2_bounds k Hkb). pose proof (Z.mul_div_le (2 ^ k * 80) 100).
        rewrite wrap_small by (unfold in_range; lia). lia. }
    split; [done|]. split; [done|]. intros u' Hu'. unfold attribute_table_find.
    rewrite (at_lookup_eq _ _ _ Hi' Hu'), (at_lookup_eq _ _ _ Hi Hu'). simpl.
    destruct (decide (u' = u)) as [->|Hne].
    + by rewrite lookup_delete_eq.
    + rewrite lookup_delete_ne by done. destruct (g !! u') as [a'|] eqn:Ha'; [|done]. simpl.
      rewrite lookup_delete_ne; [done|]. intros ->. apply Hne. by eapply (at_addr_inj t g).
Qed.
End at_clean_lemmas.

(** ** Round trip through the serialized form *)
(** What survives serialization: the first [attr_val_len] bytes. *)
Definition trim (e : attribute_entry) : attribute_entry :=
  {| attr_uuid := attr_uuid e; attr_val_len := attr_val_len e;
     attr_val := memcpy_into (replicate VALUE_LEN 0) (attr_val e) (Z.to_nat (attr_val_len e)) |}.

Definition entry_ok (e : attribute_entry) : Prop :=
  uuid_ok (attr_uuid e) /\ length (attr_val e) = VALUE_LEN /\ 0 <= attr_val_len e <= 64.

Section at_roundtrip.
Implicit Types (t : attribute_table) (g : gmap uuid Z) (u : uuid) (e : attribute_entry).

Lemma trim_length e : entry_ok e -> length (attr_val (trim e)) = VALUE_LEN.
Proof.
  intros (_ & Hl & Hn). apply length_memcpy_into; [done| |]; unfold VALUE_LEN in *; lia.
Qed.

Lemma trim_trim e : entry_ok e ->
  memcpy_into (replicate VALUE_LEN 0) (attr_val (trim e)) (Z.to_nat (attr_val_len e))
  = attr_val (trim e).
Proof.
  intros (_ & Hl & Hn). unfold trim, memcpy_into. simpl.
  rewrite take_app_le, take_take, Nat.min_id; [done|].
  rewrite length_take. unfold VALUE_LEN in *; lia.
Qed.

Lemma parse_entry_serialize e rest :
  entry_ok e ->
  parse_attr_table_entry (serialize_attribute_entry e ++ rest)
  = Some (attr_uuid e, attr_val_len e, attr_val (trim e), rest).
Proof.
  intros He. pose proof (trim_length e He) as Htl. destruct He as ([Hu _] & Hl & Hn).
  unfold parse_attr_table_entry, serialize_attribute_entry. rewrite <- !app_assoc.
  unfold dec_bind at 1. rewrite dec_bytes_app by done.
  unfold dec_bind at 1. rewrite dec_uint_app by (unfold in_range; simpl; lia).
  unfold dec_bind at 1. by rewrite dec_bytes_app.
Qed.

Definition find_entry (u : uuid) (es : list attribute_entry) : option attribute_entry :=
  snd <$> list_find (fun e => attr_uuid e = u) es.

Lemma parse_body_serialize es t g rest :
  at_inv t g -> Forall entry_ok es -> NoDup (attr_uuid <$> es) ->
  (forall e, e ∈ es -> g !! attr_uuid e = None) ->
  Z.of_nat (size g + length es) < 2 ^ 29 ->
  exists t' g',
    parse_attribute_table_body t (length es) (concat (serialize_attribute_entry <$> es) ++ rest)
      = Some (t', rest) /\
    at_inv t' g' /\ size g' = (size g + length es)%nat /\
    at_generation t' = at_generation t /\ at_macversion t' = at_macversion t /\
    at_audit_log_uuid t' = at_audit_log_uuid t /\
    forall u, uuid_ok u ->
      at_lookup t' u = match find_entry u es with Some e => Some (trim e) | None => at_lookup t u end.
Proof.
  revert t g; induction es as [|e es IH]; intros t g Hi Hok Hnd Hfr Hsz.
  { exists t, g. simpl. rewrite Nat.add_0_r. by split_and!. }
  apply Forall_cons in Hok as [He Hok]. rewrite fmap_cons in Hnd.
  apply NoDup_cons in Hnd as [Hnin Hnd].
  cbn [length parse_attribute_table_body fmap list_fmap concat]. rewrite <- app_assoc.
  unfold dec_bind at 1. rewrite parse_entry_serialize by done. simpl.
  pose proof (trim_length e He) as Htl. pose proof He as (Hu & Hl & Hn).
  destruct (put_attr_entry_spec t g (attr_uuid e) (attr_val (trim e)) (attr_val_len e) Hi Hu)
    as (t1 & Heq & Hi1 & Hst & Hg1 & Hm1 & Ha1); [apply Hfr; left|simpl in Hsz; lia|done| |].
  { unfold VALUE_LEN in *. lia. }
  simpl in Heq. rewrite Heq.
  assert (Hsz1 : size (<[attr_uuid e := at_next t]> g) = S (size g)).
  { apply map_size_insert_None, Hfr. left. }
  destruct (IH t1 _ Hi1 Hok Hnd) as (t' & g' & Hp & Hi' & Hs' & Hg' & Hm' & Ha' & Hlk).
  { intros e' He'. rewrite lookup_insert_ne; [apply Hfr; by right|].
    intros Heq'. apply Hnin. rewrite Heq'. by apply list_elem_of_fmap_2. }
  { rewrite Hsz1. simpl in Hsz. lia. }
  exists t', g'. split; [done|]. split; [done|]. split; [rewrite Hs', Hsz1; simpl; lia|].
  split; [congruence|]. split; [congruence|]. split; [congruence|].
  intros u Hu'. rewrite Hlk by done. unfold find_entry at 2. simpl.
  destruct (decide (attr_uuid e = u)) as [<-|Hne]; simpl.
  - assert (find_entry (attr_uuid e) es = None) as ->.
    { unfold find_entry. destruct (list_find _ es) as [[i x]|] eqn:E; [|done].
      apply list_find_Some in E as (Hx & Hxe & _). exfalso. apply Hnin. rewrite <- Hxe.
      by apply list_elem_of_fmap_2, (list_elem_of_lookup_2 _ i). }
    rewrite (at_lookup_eq _ _ _ Hi1 Hu'), lookup_insert_eq. simpl.
    rewrite Hst, lookup_insert_eq. f_equal. rewrite trim_trim by done. done.
  - unfold find_entry.
    destruct (list_find (fun e0 => attr_uuid e0 = u) es) as [[i x]|]; simpl; [done|].
    rewrite (at_lookup_eq _ _ _ Hi1 Hu'), (at_lookup_eq _ _ _ Hi Hu'), lookup_insert_ne by done.
    destruct (g !! u) as [a|] eqn:Ha; [|done]. simpl. rewrite Hst.
    destruct (ai_cell _ _ Hi _ _ Ha) as (Hr & _). by rewrite lookup_insert_ne by lia.
Qed.
End at_roundtrip.

Section at_entries.
Implicit Types (t : attribute_table) (g : gmap uuid Z) (u : uuid) (e : attribute_entry).

Lemma at_entries_perm t g :
  at_inv t g -> at_entries t ≡ₚ omap (fun p => at_store t !! p.2) (map_to_list g).
Proof.
  intros Hi. unfold at_entries. rewrite (hr_perm _ _ _ _ (ai_repr _ _ Hi)).
  induction (map_to_list g) as [|p l IH]; simpl; [done|]. by destruct (at_store t !! p.2); rewrite IH.
Qed.

Lemma omap_cells_uuids t g l :
  at_inv t g -> (forall p, p ∈ l -> g !! p.1 = Some p.2) ->
  attr_uuid <$> omap (fun p => at_store t !! p.2) l = l.*1.
Proof.
  intros Hi. induction l as [|p l IH]; intros Hl; [done|]. simpl.
  destruct (ai_cell _ _ Hi p.1 p.2 (Hl p (list_elem_of_here _ _))) as (_ & e & Hs & He & _).
  rewrite Hs. simpl. rewrite He. f_equal. apply IH. intros q Hq. apply Hl. by right.
Qed.

Lemma map_list_cells g p : p ∈ map_to_list g -> g !! p.1 = Some p.2.
Proof. destruct p. apply elem_of_map_to_list. Qed.

Lemma at_entries_nodup t g : at_inv t g -> NoDup (attr_uuid <$> at_entries t).
Proof.
  intros Hi. rewrite (at_entries_perm t g Hi), (omap_cells_uuids t g _ Hi (map_list_cells g)).
  apply NoDup_fst_map_to_list.
Qed.

Lemma at_entries_length t g : at_inv t g -> length (at_entries t) = size g.
Proof.
  intros Hi. rewrite <- (length_fmap attr_uuid), (at_entries_perm t g Hi).
  rewrite (omap_cells_uuids t g _ Hi (map_list_cells g)).
  by rewrite length_fmap, length_map_to_list.
Qed.

Lemma elem_of_at_entries t g e :
  at_inv t g -> e ∈ at_entries t <-> exists a, g !! attr_uuid e = Some a /\ at_store t !! a = Some e.
Proof.
  intros Hi. rewrite (at_entries_perm t g Hi), list_elem_of_omap. split.
  - intros ([u a] & Hp%elem_of_map_to_list & Hs). simpl in *.
    destruct (ai_cell _ _ Hi _ _ Hp) as (_ & e' & Hs' & <- & _). exists a.
    rewrite Hs in Hs'. by simplify_eq.
  - intros (a & Ha & Hs). exists (attr_uuid e, a). by rewrite elem_of_map_to_list.
Qed.

Lemma find_at_entries t g u :
  at_inv t g -> uuid_ok u -> find_entry u (at_entries t) = at_lookup t u.
Proof.
  intros Hi Hu. rewrite (at_lookup_eq _ _ _ Hi Hu). unfold find_entry.
  destruct (list_find _ _) as [[i e]|] eqn:E; simpl.
  - apply list_find_Some in E as (He & <- & _). apply list_elem_of_lookup_2 in He.
    apply (elem_of_at_entries t g) in He as (a & -> & Hs); [|done]. done.
  - apply list_find_None in E. destruct (g !! u) as [a|] eqn:Ha; [|done]. simpl.
    destruct (ai_cell _ _ Hi _ _ Ha) as (_ & e & Hs & He & _). exfalso.
    rewrite Forall_forall in E. apply (E e); [|done].
    apply (elem_of_at_entries t g e Hi). exists a. by rewrite He.
Qed.

Lemma at_entries_ok t g : at_inv t g -> Forall entry_ok (at_entries t).
Proof.
  intros Hi. apply Forall_forall. intros e (a & Ha & Hs)%(elem_of_at_entries t g e Hi).
  destruct (ai_cell _ _ Hi _ _ Ha) as (_ & e' & Hs' & _ & Hl & Hn).
  rewrite Hs in Hs'. simplify_eq. split; [by eapply (hr_kok _ _ _ _ (ai_repr _ _ Hi))|done].
Qed.

Lemma length_serialize_entries es :
  Forall entry_ok es -> length (concat (serialize_attribute_entry <$> es)) = (88 * length es)%nat.
Proof.
  induction 1 as [|e es He _ IH]; [done|]. cbn [fmap list_fmap concat].
  rewrite length_app, IH. pose proof (trim_length e He) as Htl. destruct He as ([Hu _] & _).
  unfold serialize_attribute_entry. rewrite !length_app, length_le_encode, Hu.
  unfold trim in Htl. cbn [attr_val] in Htl. rewrite Htl. unfold NEXUS_UUID_SIZE, VALUE_LEN. simpl. lia.
Qed.

Lemma length_serialize_header t :
  uuid_ok (at_audit_log_uuid t) -> macversion_ok (at_macversion t) ->
  length (serialize_attribute_header t) = 52%nat.
Proof.
  intros [Hu _] [_ Hm]. unfold serialize_attribute_header, mac_and_version_to_buf.
  rewrite !length_app, !length_le_encode, Hu, Hm. reflexivity.
Qed.

Lemma parse_hdr_serialize t rest :
  in_range 64 (at_count t) -> in_range 64 (at_generation t) ->
  uuid_ok (at_audit_log_uuid t) -> macversion_ok (at_macversion t) ->
  parse_attribute_table_hdr (serialize_attribute_header t ++ rest)
  = Some ({| at_count := at_count t; at_audit_log_uuid := at_audit_log_uuid t;
             at_generation := at_generation t; at_macversion := at_macversion t;
             at_map := hashmap_init 0; at_store := ∅; at_next := 1 |}, rest).
Proof.
  intros Hc Hg [Hu _] Hm. unfold parse_attribute_table_hdr, serialize_attribute_header.
  rewrite <- !app_assoc.
  unfold dec_bind at 1. rewrite dec_uint_app by done.
  unfold dec_bind at 1. rewrite dec_uint_app by done.
  unfold dec_bind at 1. rewrite dec_bytes_app by done.
  unfold dec_bind at 1. by rewrite macversion_roundtrip.
Qed.
End at_entries.

(** Storing a table and loading it back, for the clients that embed one. *)
Lemma store_load_spec t g mv buflen rest :
  at_inv t g -> Z.of_nat (size g) < 2 ^ 28 -> in_range 64 (at_generation t) ->
  uuid_ok (at_audit_log_uuid t) -> macversion_ok mv -> attribute_table_get_size t <= buflen ->
  exists t1 buf t2 g2,
    attribute_table_store t (Some mv) buflen = Some (t1, buf) /\
    Z.of_nat (length buf) = attribute_table_get_size t /\
    attribute_table_from_buffer (buf ++ rest) = Some (t2, rest) /\
    at_inv t2 g2 /\ at_count t2 = at_count t /\ at_generation t2 = at_generation t /\
    at_audit_log_uuid t2 = at_audit_log_uuid t /\ at_macversion t2 = mv /\
    (forall u, uuid_ok u -> at_lookup t2 u = trim <$> at_lookup t u).
Proof.
  intros Hi Hsz Hgen Hau Hmv Hbuf. unfold attribute_table_store.
  rewrite (proj2 (Z.ltb_ge _ _)) by done.
  match goal with |- context [serialize_attribute_header ?x] => set (t1 := x) end.
  assert (Hi1 : at_inv t1 g) by (destruct Hi; by split).
  pose proof (ai_count _ _ Hi) as Hc.
  assert (Hhl : length (serialize_attribute_header t1) = 52%nat) by (by apply length_serialize_header).
  pose proof (at_entries_length t1 g Hi1) as Hel. pose proof (at_entries_ok t1 g Hi1) as Hok.
  set (t0 := {| at_count := 0; at_audit_log_uuid := at_audit_log_uuid t;
                at_generation := at_generation t; at_macversion := mv;
                at_map := hashmap_init 0; at_store := ∅; at_next := 1 |}).
  assert (Hi0 : at_inv t0 ∅).
  { split; simpl; [by apply repr_init|intros ? ? Hx; by rewrite lookup_empty in Hx|lia|done]. }
  destruct (parse_body_serialize (at_entries t1) t0 ∅ rest Hi0)
    as (t2 & g2 & Hp & Hi2 & Hs2 & Hg2 & Hm2 & Ha2 & Hlk).
  { done. } { by apply (at_entries_nodup t1 g). } { intros; apply lookup_empty. }
  { rewrite Hel, map_size_empty. lia. }
  rewrite Hel in Hp, Hs2. rewrite map_size_empty in Hs2.
  eexists t1, _, t2, g2. split; [done|]. split.
  { rewrite length_app, Hhl, length_serialize_entries, Hel by done.
    unfold attribute_table_get_size. rewrite Hc.
    unfold ATTR_TABLE_HDR_SIZE, ATTR_TABLE_ENTRY_SIZE.
    rewrite wrap_small by (unfold in_range; lia). lia. }
  split.
  { unfold attribute_table_from_buffer. rewrite <- app_assoc, length_app, Hhl.
    unfold ATTR_TABLE_HDR_SIZE. rewrite (proj2 (Z.ltb_ge _ _)) by lia.
    unfold dec_bind at 1. rewrite parse_hdr_serialize; [|simpl; unfold in_range; lia|done..].
    cbn [at_count at_audit_log_uuid at_generation at_macversion at_map at_store at_next t1].
    rewrite Hc, Nat2Z.id. exact Hp. }
  split; [done|]. split; [rewrite Hc, (ai_count _ _ Hi2), Hs2; done|].
  do 3 (split; [done|]). intros u Hu. rewrite (Hlk u Hu), (find_at_entries t1 g u Hi1 Hu).
  change (at_lookup t1 u) with (at_lookup t u). destruct (at_lookup t u); [done|].
  by rewrite (at_lookup_eq _ _ _ Hi0 Hu), lookup_empty.
Qed.

(** ** A concrete table *)
Definition attr_a : uuid := uuid_const 7.
Definition attr_b : uuid := uuid_const 8.
Definition one_attr : attribute_table := attribute_table_add attribute_table_create attr_a [97; 98; 99].
Definition one_attr_map : gmap uuid Z := {[ attr_a := 1 ]}.

Lemma attr_a_ok : uuid_ok attr_a.
Proof. apply uuid_const_ok. unfold byte_ok. lia. Qed.
Lemma attr_b_ok : uuid_ok attr_b.
Proof. apply uuid_const_ok. unfold byte_ok. lia. Qed.
Lemma attr_value_ok v : forallb (fun c => (1 <=? c) && (c <? 256)) v = true -> cstr_ok v.
Proof.
  rewrite forallb_forall. intros H. apply Forall_forall. intros c Hc%list_elem_of_In.
  specialize (H c Hc). lia.
Qed.

Lemma one_attr_inv : at_inv one_attr one_attr_map.
Proof.
  destruct (attribute_table_add_new attribute_table_create ∅ attr_a [97; 98; 99]) as [Hi _];
    [apply at_create_inv|apply attr_a_ok|done|done|by apply attr_value_ok|by vm_compute; lia|].
  exact Hi.
Qed.

Lemma one_attr_clean : at_clean one_attr one_attr_map.
Proof.
  unfold one_attr_map. intros u a e [<- <-]%lookup_singleton_Some He. vm_compute in He. simplify_eq.
  apply (clean_zero [97; 98; 99]); [by apply attr_value_ok|unfold VALUE_LEN; simpl; lia].
Qed.

(** ** Properties *)
(** Storing an attribute table and loading it back from the written bytes
    (followed by anything) gives a table with the same count, generation and
    audit log, the exported MAC, and for every attribute the entry written,
    its value cut to [attr_val_len] bytes; the bytes written are exactly
    [attribute_table_get_size]. *)
Theorem attribute_table_store_load t g mv buflen rest :
  at_inv t g -> Z.of_nat (size g) < 2 ^ 28 -> in_range 64 (at_generation t) ->
  uuid_ok (at_audit_log_uuid t) -> macversion_ok mv -> attribute_table_get_size t <= buflen ->
  exists t1 buf t2 g2,
    attribute_table_store t (Some mv) buflen = Some (t1, buf) /\
    Z.of_nat (length buf) = attribute_table_get_size t /\
    attribute_table_from_buffer (buf ++ rest) = Some (t2, rest) /\
    at_inv t2 g2 /\ at_count t2 = at_count t /\ at_generation t2 = at_generation t /\
    at_audit_log_uuid t2 = at_audit_log_uuid t /\ at_macversion t2 = mv /\
    (forall u, uuid_ok u -> at_lookup t2 u = trim <$> at_lookup t u).
Proof. apply store_load_spec. Qed.

Lemma attribute_table_store_load_witness :
  exists t1 buf t2 g2,
    attribute_table_store one_attr (Some (mk_macversion 5 nexus_mac_zeroize)) 1000 = Some (t1, buf) /\
    Z.of_nat (length buf) = 140 /\
    attribute_table_from_buffer (buf ++ [1]) = Some (t2, [1]) /\
    at_inv t2 g2 /\ at_count t2 = 1 /\ at_generation t2 = 1 /\
    at_audit_log_uuid t2 = nexus_uuid_zeroize /\
    at_macversion t2 = mk_macversion 5 nexus_mac_zeroize /\
    (forall u, uuid_ok u -> at_lookup t2 u = trim <$> at_lookup one_attr u).
Proof.
  apply (attribute_table_store_load one_attr one_attr_map).
  - apply one_attr_inv.
  - by vm_compute.
  - by vm_compute.
  - apply uuid_const_ok. unfold byte_ok. lia.
  - split; [by vm_compute|done].
  - by vm_compute.
Defined.

(** Adding an attribute binds it to the given value when the table did not
    hold it; when it did, the value read back is the new one followed by the
    tail of a longer old value (nothing if the new one is empty).  Every other
    attribute keeps its value and the invariants are kept. *)
Theorem attribute_table_add_spec t g u v :
  at_inv t g -> at_clean t g -> uuid_ok u -> Z.of_nat (size g) < 2 ^ 29 ->
  cstr_ok v -> (length v < VALUE_LEN)%nat ->
  (exists g', at_inv (attribute_table_add t u v) g') /\
  forall u', uuid_ok u' ->
    attribute_table_find (attribute_table_add t u v) u'
    = if decide (u' = u)
      then Some (match attribute_table_find t u with
                 | Some old => overwritten old v
                 | None => v
                 end)
      else attribute_table_find t u'.
Proof.
  intros Hi Hcl Hu Hsz Hv Hl. destruct (attribute_table_find t u) as [old|] eqn:Hold.
  - destruct (attribute_table_add_bound t g u v old) as (Hi' & _ & Hf); [done..|]. eauto.
  - assert (Hg : g !! u = None).
    { destruct (g !! u) as [a|] eqn:Ha; [exfalso|done]. unfold attribute_table_find in Hold.
      rewrite (at_lookup_eq _ _ _ Hi Hu), Ha in Hold. simpl in Hold.
      destruct (ai_cell _ _ Hi _ _ Ha) as (_ & e & Hs & _). by rewrite Hs in Hold. }
    destruct (attribute_table_add_new t g u v) as [Hi' Hf]; [done..|]. eauto.
Qed.

Lemma attribute_table_add_witness :
  (exists g', at_inv (attribute_table_add one_attr attr_a [100]) g') /\
  forall u', uuid_ok u' ->
    attribute_table_find (attribute_table_add one_attr attr_a [100]) u'
    = if decide (u' = attr_a) then Some [100; 98; 99] else attribute_table_find one_attr u'.
Proof.
  apply (attribute_table_add_spec one_attr one_attr_map attr_a [100]).
  - apply one_attr_inv.
  - apply one_attr_clean.
  - apply attr_a_ok.
  - by vm_compute.
  - by apply attr_value_ok.
  - unfold VALUE_LEN. simpl. lia.
Defined.

(** Overwriting an attribute with a shorter, non-empty value does not
    replace it: a lookup reads the new value followed by the tail of the old
    one, because only [len] bytes are copied over the array. *)
Theorem attribute_table_add_keeps_tail t g u old v :
  at_inv t g -> at_clean t g -> uuid_ok u -> attribute_table_find t u = Some old ->
  cstr_ok v -> (0 < length v < length old)%nat -> (length old < VALUE_LEN)%nat ->
  exists tail, tail <> [] /\ attribute_table_find (attribute_table_add t u v) u = Some (v ++ tail).
Proof.
  intros Hi Hcl Hu Hold Hv Hl Ho.
  destruct (attribute_table_add_bound t g u v old) as (_ & _ & Hf); [done..|lia|].
  exists (drop (length v) old). split.
  - intros Hd%(f_equal length). rewrite length_drop in Hd. simpl in Hd. lia.
  - rewrite (Hf u Hu), decide_True by done. unfold overwritten.
    by rewrite (proj2 (Nat.eqb_neq _ 0)) by lia.
Qed.

Lemma attribute_table_add_keeps_tail_witness :
  exists tail, tail <> [] /\
    attribute_table_find (attribute_table_add one_attr attr_a [100]) attr_a = Some ([100] ++ tail).
Proof.
  apply (attribute_table_add_keeps_tail one_attr one_attr_map attr_a [97; 98; 99]).
  - apply one_attr_inv.
  - apply one_attr_clean.
  - apply attr_a_ok.
  - by vm_compute.
  - by apply attr_value_ok.
  - simpl. lia.
  - unfold VALUE_LEN. simpl. lia.
Defined.

(** Deleting an attribute that is not in the table returns -1 and changes
    nothing; otherwise it returns 0, the attribute is gone and every other
    one keeps its value. *)
Theorem attribute_table_del_correct t g u :
  at_inv t g -> uuid_ok u ->
  (attribute_table_find t u = None -> attribute_table_del t u = (t, -1)) /\
  (is_Some (attribute_table_find t u) ->
     (attribute_table_del t u).2 = 0 /\
     forall u', uuid_ok u' ->
       attribute_table_find (attribute_table_del t u).1 u'
       = if decide (u' = u) then None else attribute_table_find t u').
Proof.
  intros Hi Hu. destruct (attribute_table_del_spec t g u Hi Hu) as [Hn Hs].
  unfold attribute_table_find at 1 2. rewrite (at_lookup_eq _ _ _ Hi Hu).
  destruct (g !! u) as [a|] eqn:Ha; simpl.
  - destruct (ai_cell _ _ Hi _ _ Ha) as (_ & e & Hse & _). rewrite Hse. simpl.
    split; [done|]. intros _. destruct Hs as (H1 & _ & H2); [eauto|]. done.
  - split; [auto|]. by intros [? ?].
Qed.

Lemma attribute_table_del_witness :
  (attribute_table_find one_attr attr_b = None -> attribute_table_del one_attr attr_b = (one_attr, -1)) /\
  ((attribute_table_del one_attr attr_a).2 = 0 /\
   forall u', uuid_ok u' ->
     attribute_table_find (attribute_table_del one_attr attr_a).1 u'
     = if decide (u' = attr_a) then None else attribute_table_find one_attr u').
Proof.
  split.
  - apply (attribute_table_del_correct one_attr one_attr_map attr_b one_attr_inv attr_b_ok).
  - apply (attribute_table_del_correct one_attr one_attr_map attr_a one_attr_inv attr_a_ok).
    vm_compute. eauto.
Defined.
