(* ===== verification/Dirnode.v ===== *)
(** * Directory buckets and dirnodes

    Models [bucket.c] and the in-memory operations of [dirnode.c].  Directory
    entries are heap cells shared by the bucket that holds them, the list of
    all entries and the two hash maps; a cell's address stands for the C
    pointer.  [None] results are memory errors (a name that overflows its
    array, a freed cell), every other outcome is the C return value.  The
    invariant [dn_inv] ties the four indexes together, and the theorems show
    that a dirnode implements a finite map from names to typed links. *)
From S2P Require Import Prelude Hashmap Types AttributeTable.

Definition BUCKET_CAPACITY : Z := 128.

(** [sizeof(struct __dir_rec)]: 2 + 4 + 16 + 2 + 256, packed. *)
Definition DIR_REC_SIZE : Z := 280.

(** ** Data *)
Record dir_rec := mk_dir_rec {
  rec_len : Z;
  dr_type : nexus_dirent_type;
  link_uuid : uuid;
  name_len : Z;
  dr_name : bytes
}.

Record dir_entry := mk_dir_entry {
  de_bucket : option Z;
  de_rec : dir_rec
}.

Record dir_bucket := mk_dir_bucket {
  b_addr : Z;
  is_dirty : bool;
  on_disk : bool;
  capacity : Z;
  num_items : Z;
  size_bytes : Z;
  b_uuid : uuid;
  b_mac : mac;
  dir_entries : list Z
}.

Record symlink_entry := mk_symlink {
  total_len : Z;
  sl_uuid : uuid;
  target_len : Z;
  target_path : bytes
}.

Record nexus_dirnode := mk_dirnode {
  my_uuid : uuid;
  root_uuid : uuid;
  symlink_count : Z;
  symlink_buflen : Z;
  dir_entry_count : Z;
  dir_entry_buflen : Z;
  bucket_count : Z;
  last_failed_lookup : option bytes;
  symlink_list : list symlink_entry;
  dirents_list : list Z;
  filename_hashmap : hashmap bytes;
  fileuuid_hashmap : hashmap uuid;
  bucket_list : list dir_bucket;
  dn_attribute_table : attribute_table;
  dn_metadata : option bool          (* the metadata's [is_dirty], [None] when NULL *)
}.

(** The heap of directory entries: what [nexus_malloc] handed out. *)
Record dheap := mk_dheap { cells : gmap Z dir_entry; next_addr : Z }.

(** ** Directory entries ([bucket.c]) *)
(** The hash entries embedded in the entry at address [a]. *)
Definition filename_hash (a : Z) (r : dir_rec) : hashmap_entry bytes := entry_of strhash (dr_name r) a.
Definition fileuuid_hash (a : Z) (r : dir_rec) : hashmap_entry uuid := entry_of memhash (link_uuid r) a.

(** [sizeof(struct __dir_rec) - (NEXUS_NAME_MAX - name_len) + 1] in 16 bits. *)
Definition rec_len_for (name_len : Z) : Z := u16 (DIR_REC_SIZE - (NEXUS_NAME_MAX - name_len) + 1).

(** The name must fit the array with its terminator. *)
Definition new_dir_entry (h : dheap) (entry_uuid : uuid) (type : nexus_dirent_type)
    (filename : bytes) : option (dheap * Z) :=
  let name_len := u16 (Z.of_nat (length filename)) in
  if NEXUS_NAME_MAX <=? name_len then None
  else
    let rec := {| rec_len := rec_len_for name_len; dr_type := type; link_uuid := entry_uuid;
                  name_len := name_len; dr_name := take (Z.to_nat name_len) filename |} in
    let a := next_addr h in
    Some ({| cells := <[a := {| de_bucket := None; de_rec := rec |}]> (cells h);
             next_addr := a + 1 |}, a).

Definition rename_dir_entry (h : dheap) (a : Z) (newname : bytes) : option dheap :=
  de ← cells h !! a;
  let name_len := u16 (Z.of_nat (length newname)) in
  if NEXUS_NAME_MAX <=? name_len then None
  else
    let r := de_rec de in
    let rec := {| rec_len := rec_len_for name_len; dr_type := dr_type r; link_uuid := link_uuid r;
                  name_len := name_len; dr_name := take (Z.to_nat name_len) newname |} in
    Some {| cells := <[a := {| de_bucket := de_bucket de; de_rec := rec |}]> (cells h);
            next_addr := next_addr h |}.

Definition free_dir_entry (h : dheap) (a : Z) : option dheap :=
  _ ← cells h !! a; Some {| cells := delete a (cells h); next_addr := next_addr h |}.

(** ** Buckets ([bucket.c]) *)
(** [rnd] is what [nexus_uuid_gen] drew. *)
Definition bucket_create (addr : Z) (rnd : uuid) (cap : Z) : dir_bucket :=
  {| b_addr := addr; is_dirty := false; on_disk := false; capacity := cap; num_items := 0;
     size_bytes := 0; b_uuid := rnd; b_mac := nexus_mac_zeroize; dir_entries := [] |}.

Definition bucket_add_direntry (b : dir_bucket) (h : dheap) (a : Z)
    : option (dir_bucket * dheap * Z) :=
  de ← cells h !! a;
  if (capacity b <=? num_items b) || bool_decide (de_bucket de <> None) then Some (b, h, -1)
  else
    Some ({| b_addr := b_addr b; is_dirty := is_dirty b; on_disk := on_disk b;
             capacity := capacity b; num_items := num_items b +64 1;
             size_bytes := size_bytes b +64 rec_len (de_rec de);
             b_uuid := b_uuid b; b_mac := b_mac b; dir_entries := dir_entries b ++ [a] |},
          {| cells := <[a := {| de_bucket := Some (b_addr b); de_rec := de_rec de |}]> (cells h);
             next_addr := next_addr h |}, 0).

Definition bucket_del_direntry (b : dir_bucket) (h : dheap) (a : Z)
    : option (dir_bucket * dheap * Z) :=
  de ← cells h !! a;
  if (num_items b =? 0) || bool_decide (de_bucket de <> Some (b_addr b)) then Some (b, h, -1)
  else
    Some ({| b_addr := b_addr b; is_dirty := is_dirty b; on_disk := on_disk b;
             capacity := capacity b; num_items := num_items b -64 1;
             size_bytes := size_bytes b -64 rec_len (de_rec de);
             b_uuid := b_uuid b; b_mac := b_mac b; dir_entries := remove_first a (dir_entries b) |},
          {| cells := <[a := {| de_bucket := None; de_rec := de_rec de |}]> (cells h);
             next_addr := next_addr h |}, 0).

Definition set_bucket_dirty (b : dir_bucket) : dir_bucket :=
  {| b_addr := b_addr b; is_dirty := true; on_disk := on_disk b; capacity := capacity b;
     num_items := num_items b; size_bytes := size_bytes b; b_uuid := b_uuid b;
     b_mac := b_mac b; dir_entries := dir_entries b |}.

(** ** Field updates of a dirnode *)
Definition with_buckets (d : nexus_dirnode) (bs : list dir_bucket) (count : Z) : nexus_dirnode :=
  {| my_uuid := my_uuid d; root_uuid := root_uuid d; symlink_count := symlink_count d;
     symlink_buflen := symlink_buflen d; dir_entry_count := dir_entry_count d;
     dir_entry_buflen := dir_entry_buflen d; bucket_count := count;
     last_failed_lookup := last_failed_lookup d; symlink_list := symlink_list d;
     dirents_list := dirents_list d; filename_hashmap := filename_hashmap d;
     fileuuid_hashmap := fileuuid_hashmap d; bucket_list := bs;
     dn_attribute_table := dn_attribute_table d; dn_metadata := dn_metadata d |}.

Definition with_index (d : nexus_dirnode) (dirents : list Z) (fn : hashmap bytes)
    (fu : hashmap uuid) (count buflen : Z) : nexus_dirnode :=
  {| my_uuid := my_uuid d; root_uuid := root_uuid d; symlink_count := symlink_count d;
     symlink_buflen := symlink_buflen d; dir_entry_count := count;
     dir_entry_buflen := buflen; bucket_count := bucket_count d;
     last_failed_lookup := last_failed_lookup d; symlink_list := symlink_list d;
     dirents_list := dirents; filename_hashmap := fn;
     fileuuid_hashmap := fu; bucket_list := bucket_list d;
     dn_attribute_table := dn_attribute_table d; dn_metadata := dn_metadata d |}.

Definition with_lookup (d : nexus_dirnode) (l : option bytes) (m : option bool) : nexus_dirnode :=
  {| my_uuid := my_uuid d; root_uuid := root_uuid d; symlink_count := symlink_count d;
     symlink_buflen := symlink_buflen d; dir_entry_count := dir_entry_count d;
     dir_entry_buflen := dir_entry_buflen d; bucket_count := bucket_count d;
     last_failed_lookup := l; symlink_list := symlink_list d;
     dirents_list := dirents_list d; filename_hashmap := filename_hashmap d;
     fileuuid_hashmap := fileuuid_hashmap d; bucket_list := bucket_list d;
     dn_attribute_table := dn_attribute_table d; dn_metadata := m |}.

Definition with_symlinks (d : nexus_dirnode) (l : list symlink_entry) (count buflen : Z)
    : nexus_dirnode :=
  {| my_uuid := my_uuid d; root_uuid := root_uuid d; symlink_count := count;
     symlink_buflen := buflen; dir_entry_count := dir_entry_count d;
     dir_entry_buflen := dir_entry_buflen d; bucket_count := bucket_count d;
     last_failed_lookup := last_failed_lookup d; symlink_list := l;
     dirents_list := dirents_list d; filename_hashmap := filename_hashmap d;
     fileuuid_hashmap := fileuuid_hashmap d; bucket_list := bucket_list d;
     dn_attribute_table := dn_attribute_table d; dn_metadata := dn_metadata d |}.

(** ** Dirnode operations ([dirnode.c]) *)
Definition clear_last_failed_lookup (d : nexus_dirnode) : nexus_dirnode :=
  with_lookup d None (dn_metadata d).

Definition dirnode_set_dirty (d : nexus_dirnode) : nexus_dirnode :=
  clear_last_failed_lookup (with_lookup d (last_failed_lookup d) (const true <$> dn_metadata d)).

Definition dirnode_set_clean (d : nexus_dirnode) : nexus_dirnode :=
  with_lookup d (last_failed_lookup d) (const false <$> dn_metadata d).

(** The first bucket with room, by position; a new one is appended otherwise. *)
Definition get_available_bucket (d : nexus_dirnode) (h : dheap) (rnd : uuid)
    : nexus_dirnode * dheap * nat * dir_bucket :=
  match list_find (fun b => Is_true (num_items b <? capacity b)) (bucket_list d) with
  | Some (i, b) => (d, h, i, b)
  | None =>
      let b := bucket_create (next_addr h) rnd BUCKET_CAPACITY in
      (with_buckets d (bucket_list d ++ [b]) (bucket_count d +64 1),
       {| cells := cells h; next_addr := next_addr h + 1 |}, length (bucket_list d), b)
  end.

Definition filename_htable_cmp (n1 n2 : bytes) : Z := strncmp n1 n2 (Z.to_nat NEXUS_NAME_MAX).
Definition fileuuid_htable_cmp (u1 u2 : uuid) : Z := nexus_uuid_compare u1 u2.

Definition dirnode_index_direntry (d : nexus_dirnode) (a : Z) (r : dir_rec) : nexus_dirnode :=
  with_index d (dirents_list d ++ [a])
    (fst (hashmap_put filename_htable_cmp (filename_hashmap d) (filename_hash a r)))
    (fst (hashmap_put fileuuid_htable_cmp (fileuuid_hashmap d) (fileuuid_hash a r)))
    (dir_entry_count d) (dir_entry_buflen d).

Definition dirnode_forget_direntry (d : nexus_dirnode) (a : Z) (r : dir_rec) : nexus_dirnode :=
  with_index d (remove_first a (dirents_list d))
    (fst (hashmap_remove_entry (filename_hashmap d) (filename_hash a r)))
    (fst (hashmap_remove_entry (fileuuid_hashmap d) (fileuuid_hash a r)))
    (dir_entry_count d) (dir_entry_buflen d).

(** [dirnode_add_direntry] ignores what [bucket_add_direntry] returns. *)
Definition dirnode_add_direntry (d : nexus_dirnode) (h : dheap) (rnd : uuid) (a : Z)
    : option (nexus_dirnode * dheap) :=
  let '(d, h, i, b) := get_available_bucket d h rnd in
  '(b, h, _) ← bucket_add_direntry b h a;
  let d := with_buckets d (<[i := set_bucket_dirty b]> (bucket_list d)) (bucket_count d) in
  de ← cells h !! a;
  let d := dirnode_index_direntry d a (de_rec de) in
  let d := with_index d (dirents_list d) (filename_hashmap d) (fileuuid_hashmap d)
             (dir_entry_count d +64 1) (dir_entry_buflen d +64 rec_len (de_rec de)) in
  Some (dirnode_set_dirty d, h).

(** The bucket pointer of the entry must lead to one of the dirnode's buckets. *)
Definition dirnode_del_direntry (d : nexus_dirnode) (h : dheap) (a : Z)
    : option (nexus_dirnode * dheap) :=
  de ← cells h !! a;
  p ← de_bucket de;
  '(i, b) ← list_find (fun b => b_addr b = p) (bucket_list d);
  '(b, h, _) ← bucket_del_direntry b h a;
  let d := with_buckets d (<[i := set_bucket_dirty b]> (bucket_list d)) (bucket_count d) in
  let d := dirnode_forget_direntry d a (de_rec de) in
  let d := with_index d (dirents_list d) (filename_hashmap d) (fileuuid_hashmap d)
             (dir_entry_count d -64 1) (dir_entry_buflen d -64 rec_len (de_rec de)) in
  Some (dirnode_set_dirty d, h).

Definition dirnode_init_maps : hashmap bytes * hashmap uuid := (hashmap_init 16, hashmap_init 16).

Definition dirnode_create (root_uuid my_uuid : uuid) (h : dheap) (rnd : uuid)
    : nexus_dirnode * dheap :=
  let '(fn, fu) := dirnode_init_maps in
  let d := {| my_uuid := my_uuid; root_uuid := root_uuid; symlink_count := 0; symlink_buflen := 0;
              dir_entry_count := 0; dir_entry_buflen := 0; bucket_count := 0;
              last_failed_lookup := None; symlink_list := []; dirents_list := [];
              filename_hashmap := fn; fileuuid_hashmap := fu; bucket_list := [];
              dn_attribute_table := attribute_table_create; dn_metadata := None |} in
  let '(d, h, _, _) := get_available_bucket d h rnd in (d, h).

(** The failed lookup is remembered; a repeat of it returns early. *)
Definition find_by_name (d : nexus_dirnode) (fname : bytes) : nexus_dirnode * option Z :=
  let search d :=
    match hashmap_get filename_htable_cmp (filename_hashmap d) (entry_of strhash fname STACK_ADDR) with
    | None => (with_lookup d (Some (take (Z.to_nat NEXUS_NAME_MAX) fname)) (dn_metadata d), None)
    | Some e => (d, Some (he_addr e))
    end in
  match last_failed_lookup d with
  | Some l => if strncmp l fname (Z.to_nat NEXUS_NAME_MAX) =? 0 then (d, None)
              else search (clear_last_failed_lookup d)
  | None => search d
  end.

Definition dirnode_add (d : nexus_dirnode) (h : dheap) (rnd : uuid) (filename : bytes)
    (type : nexus_dirent_type) (entry_uuid : uuid) : option (nexus_dirnode * dheap * Z) :=
  match find_by_name d filename with
  | (d, Some _) => Some (d, h, -1)
  | (d, None) =>
      let d := clear_last_failed_lookup d in
      '(h, a) ← new_dir_entry h entry_uuid type filename;
      '(d, h) ← dirnode_add_direntry d h rnd a;
      Some (d, h, 0)
  end.

(** [sizeof(struct symlink_entry)]: 1 + 16 + 2, packed. *)
Definition SYMLINK_HDR_SIZE : Z := 19.

(** The entry's [total_len] is an [uint8_t], the dirnode's [symlink_buflen] a
    [size_t]. *)
Definition dirnode_add_symlink (d : nexus_dirnode) (entry_uuid : uuid) (target : bytes)
    : nexus_dirnode :=
  let tlen := Z.of_nat (strnlen target (Z.to_nat NEXUS_PATH_MAX)) in
  let total := tlen + SYMLINK_HDR_SIZE + 1 in
  let sl := {| total_len := u8 total; sl_uuid := entry_uuid; target_len := u16 tlen;
               target_path := take (Z.to_nat tlen) target |} in
  dirnode_set_dirty
    (with_symlinks d (symlink_list d ++ [sl]) (symlink_count d +64 1) (symlink_buflen d +64 total)).

Definition dirnode_add_link (d : nexus_dirnode) (h : dheap) (rnd : uuid) (link_name target : bytes)
    (entry_uuid : uuid) : option (nexus_dirnode * dheap * Z) :=
  '(d, h, ret) ← dirnode_add d h rnd link_name NEXUS_LNK entry_uuid;
  if negb (ret =? 0) then Some (d, h, -1)
  else Some (dirnode_add_symlink d entry_uuid target, h, 0).

Definition find_by_uuid (d : nexus_dirnode) (u : uuid) : option Z :=
  he_addr <$> hashmap_get fileuuid_htable_cmp (fileuuid_hashmap d) (entry_of memhash u STACK_ADDR).

(** Type, name and name length; [None] is the return value -1. *)
Definition dirnode_find_by_uuid (d : nexus_dirnode) (h : dheap) (u : uuid)
    : option (nexus_dirent_type * bytes * Z) :=
  a ← find_by_uuid d u;
  de ← cells h !! a;
  Some (dr_type (de_rec de), dr_name (de_rec de), name_len (de_rec de)).

Definition dirnode_find_by_name (d : nexus_dirnode) (h : dheap) (filename : bytes)
    : nexus_dirnode * option (nexus_dirent_type * uuid) :=
  let '(d, r) := find_by_name d filename in
  (d, a ← r; de ← cells h !! a; Some (dr_type (de_rec de), link_uuid (de_rec de))).

Definition find_symlink (d : nexus_dirnode) (u : uuid) : option (nat * symlink_entry) :=
  list_find (fun s => nexus_uuid_compare (sl_uuid s) u = 0) (symlink_list d).

(** Return code and the target copied out. *)
Definition remove_symlink (d : nexus_dirnode) (entry_uuid : uuid)
    : nexus_dirnode * Z * option bytes :=
  match find_symlink d entry_uuid with
  | None => (d, -1, None)
  | Some (i, s) =>
      (with_symlinks d (delete i (symlink_list d)) (symlink_count d -64 1)
         (symlink_buflen d -64 total_len s), 0,
       Some (take (Z.to_nat NEXUS_PATH_MAX) (target_path s)))
  end.

Definition dirnode_get_link (d : nexus_dirnode) (entry_uuid : uuid) : option bytes :=
  s ← find_symlink d entry_uuid; Some (take (Z.to_nat NEXUS_PATH_MAX) (target_path s.2)).

Definition dirnode_clobber_dir_entry (d : nexus_dirnode) (h : dheap) (a : Z)
    : option (nexus_dirnode * dheap) :=
  '(d, h) ← dirnode_del_direntry d h a;
  h ← free_dir_entry h a;
  Some (d, h).

(** [out] holds the caller's [*type] and [*link_uuid], written only on success. *)
Definition dirnode_remove_entry (d : nexus_dirnode) (h : dheap) (filename : bytes)
    (out : nexus_dirent_type * uuid)
    : option (nexus_dirnode * dheap * Z * (nexus_dirent_type * uuid)) :=
  match find_by_name d filename with
  | (d, None) => Some (d, h, -1, out)
  | (d, Some a) =>
      de ← cells h !! a;
      '(d, h) ← dirnode_clobber_dir_entry d h a;
      Some (d, h, 0, (dr_type (de_rec de), link_uuid (de_rec de)))
  end.

(** [*type] is tested whether or not the removal succeeded. *)
Definition dirnode_remove (d : nexus_dirnode) (h : dheap) (filename : bytes)
    (out : nexus_dirent_type * uuid)
    : option (nexus_dirnode * dheap * Z * (nexus_dirent_type * uuid) * option bytes) :=
  '(d, h, ret, out) ← dirnode_remove_entry d h filename out;
  if decide (out.1 = NEXUS_LNK) then
    let '(d, _, target) := remove_symlink d out.2 in Some (d, h, ret, out, target)
  else Some (d, h, ret, out, None).

Record nexus_dirent := mk_dirent { dt_name : bytes; dt_uuid : uuid; dt_type : nexus_dirent_type }.

Definition dirent_of (r : dir_rec) : nexus_dirent :=
  {| dt_name := take (Z.to_nat NEXUS_NAME_MAX) (dr_name r); dt_uuid := link_uuid r;
     dt_type := dr_type r |}.

(** [list_for_each]: skip [offset] entries, copy until [count] were copied. *)
Fixpoint readdir_loop (h : dheap) (l : list Z) (offset count copied : Z)
    : option (list nexus_dirent) :=
  match l with
  | [] => Some []
  | a :: l' =>
      if negb (offset =? 0) then readdir_loop h l' (offset - 1) count copied
      else
        de ← cells h !! a;
        let d := dirent_of (de_rec de) in
        if copied + 1 =? count then Some [d]
        else rest ← readdir_loop h l' 0 count (copied + 1); Some (d :: rest)
  end.

(** Return code, entries copied and the directory size. *)
Definition dirnode_readdir (d : nexus_dirnode) (h : dheap) (count offset : Z)
    : option (Z * list nexus_dirent * Z) :=
  if count <? 1 then Some (-1, [], 0)
  else if dir_entry_count d <=? offset then Some (0, [], dir_entry_count d)
  else res ← readdir_loop h (dirents_list d) offset count 0; Some (0, res, dir_entry_count d).

Record nexus_stat := mk_stat {
  st_type : nexus_dirent_type;
  st_size : Z;                      (* the union of [filesize] and [filecount] *)
  st_uuid : uuid;
  st_link_type : nexus_dirent_type;
  st_link_size : Z;
  st_link_uuid : uuid
}.

Definition dirnode_export_stat (d : nexus_dirnode) (st : nexus_stat) : nexus_stat :=
  {| st_type := NEXUS_DIR; st_size := dir_entry_count d; st_uuid := my_uuid d;
     st_link_type := st_link_type st; st_link_size := st_link_size st;
     st_link_uuid := st_link_uuid st |}.

(** A symlink entry without its target is a NULL dereference ([None]). *)
Definition dirnode_export_link_stat (d : nexus_dirnode) (h : dheap) (name : bytes) (st : nexus_stat)
    : option (nexus_dirnode * nexus_stat * Z) :=
  match find_by_name d name with
  | (d, None) => Some (d, st, -1)
  | (d, Some a) =>
      de ← cells h !! a;
      let r := de_rec de in
      if decide (dr_type r = NEXUS_LNK) then
        s ← find_symlink d (link_uuid r);
        Some (d, {| st_type := st_type st; st_size := st_size st; st_uuid := st_uuid st;
                    st_link_type := dr_type r;
                    st_link_size := Z.of_nat (strnlen (target_path s.2) (Z.to_nat NEXUS_PATH_MAX));
                    st_link_uuid := link_uuid r |}, 0)
      else
        Some (d, {| st_type := dr_type r; st_size := st_size st; st_uuid := link_uuid r;
                    st_link_type := dr_type r; st_link_size := Z.of_nat NEXUS_UUID_SIZE;
                    st_link_uuid := link_uuid r |}, 0)
  end.

(** The loaded dirnodes by address: a rename may have the same one on both
    sides. *)
Abbreviation dirnodes := (gmap Z nexus_dirnode).

Record rename_result := mk_rename {
  rn_ret : Z;
  rn_src : option (uuid * nexus_dirent_type);
  rn_overwrite : option (uuid * nexus_dirent_type)
}.

Definition move_symlink (ds : dirnodes) (src dst : Z) (u : uuid) : option dirnodes :=
  sd ← ds !! src;
  let '(sd, ret, path) := remove_symlink sd u in
  let ds := <[src := sd]> ds in
  match path with
  | Some p => dd ← ds !! dst; Some (<[dst := dirnode_add_symlink dd u p]> ds)
  | None => Some ds
  end.

Definition dirnode_rename (ds : dirnodes) (h : dheap) (rnd : uuid) (src : Z) (oldname : bytes)
    (dst : Z) (newname : bytes) : option (dirnodes * dheap * rename_result) :=
  sd ← ds !! src;
  let '(sd, so) := find_by_name sd oldname in
  let ds := <[src := sd]> ds in
  match so with
  | None => Some (ds, h, mk_rename (-1) None None)
  | Some sa =>
      dd ← ds !! dst;
      let '(dd, dst_direntry) := find_by_name dd newname in
      let ds := <[dst := dd]> ds in
      '(ds, h, over) ←
        match dst_direntry with
        | None => Some (ds, h, None)
        | Some da =>
            de ← cells h !! da;
            dd ← ds !! dst;
            '(dd, h) ← dirnode_clobber_dir_entry dd h da;
            Some (<[dst := dd]> ds, h, Some (link_uuid (de_rec de), dr_type (de_rec de)))
        end;
      sd ← ds !! src;
      '(sd, h) ← dirnode_del_direntry sd h sa;
      let ds := <[src := sd]> ds in
      h ← rename_dir_entry h sa newname;
      dd ← ds !! dst;
      '(dd, h) ← dirnode_add_direntry dd h rnd sa;
      let ds := <[dst := dd]> ds in
      de ← cells h !! sa;
      let u := link_uuid (de_rec de) in
      ds ← (if src =? dst then Some ds else move_symlink ds src dst u);
      Some (ds, h, mk_rename 0 (Some (u, dr_type (de_rec de))) over)
  end.

(** [__delete_empty_dirnode_buckets]: bucket 0 is never dropped; the second
    component lists the buckets removed from the store. *)
Fixpoint delete_empty_loop (bs : list dir_bucket) : list dir_bucket * list uuid :=
  match bs with
  | [] => ([], [])
  | b :: bs' =>
      let '(kept, gone) := delete_empty_loop bs' in
      if is_dirty b && (num_items b =? 0) then (kept, b_uuid b :: gone) else (b :: kept, gone)
  end.

Definition delete_empty_dirnode_buckets (d : nexus_dirnode) : nexus_dirnode * list uuid :=
  match bucket_list d with
  | [] => (d, [])
  | b0 :: bs =>
      let '(kept, gone) := delete_empty_loop bs in
      (with_buckets d (b0 :: kept) (bucket_count d -64 Z.of_nat (length gone)), gone)
  end.

(** ** Invariant *)
Definition name_ok (n : bytes) : Prop := cstr_ok n /\ (length n < 256)%nat.

Record rec_ok (r : dir_rec) : Prop := {
  ro_name : name_ok (dr_name r);
  ro_name_len : name_len r = Z.of_nat (length (dr_name r));
  ro_rec_len : rec_len r = 25 + name_len r;
  ro_uuid : uuid_ok (link_uuid r)
}.

Abbreviation cellmap := (gmap Z dir_entry).

Definition rec_len_at (C : cellmap) (a : Z) : Z :=
  match C !! a with Some de => rec_len (de_rec de) | None => 0 end.

Definition sum_rec (C : cellmap) (l : list Z) : Z := foldr (fun a acc => rec_len_at C a + acc) 0 l.

Record bucket_ok (C : cellmap) (b : dir_bucket) : Prop := {
  bo_items : num_items b = Z.of_nat (length (dir_entries b));
  bo_cap : capacity b = BUCKET_CAPACITY;
  bo_full : num_items b <= BUCKET_CAPACITY;
  bo_size : size_bytes b = sum_rec C (dir_entries b);
  bo_back : forall a, a ∈ dir_entries b -> exists de, C !! a = Some de /\ de_bucket de = Some (b_addr b)
}.

(** The buckets partition the entries. *)
Record buckets_inv (C : cellmap) (nx : Z) (bs : list dir_bucket) (l : list Z) : Prop := {
  bi_addrs : NoDup (b_addr <$> bs);
  bi_bound : Forall (fun b => b_addr b < nx) bs;
  bi_parts : concat (dir_entries <$> bs) ≡ₚ l;
  bi_ok : Forall (bucket_ok C) bs
}.

Record dn_inv (C : cellmap) (nx : Z) (d : nexus_dirnode) (gn : gmap bytes Z) (gu : gmap uuid Z)
    : Prop := {
  di_names : hm_repr strhash name_ok (filename_hashmap d) gn;
  di_uuids : hm_repr memhash uuid_ok (fileuuid_hashmap d) gu;
  di_nodup : NoDup (dirents_list d);
  di_dom : forall a, a ∈ dirents_list d <-> exists n, gn !! n = Some a;
  di_cell : forall n a, gn !! n = Some a ->
    0 < a < nx /\ exists de, C !! a = Some de /\ dr_name (de_rec de) = n /\ rec_ok (de_rec de);
  di_ucell : forall u a, gu !! u = Some a ->
    a ∈ dirents_list d /\ exists de, C !! a = Some de /\ link_uuid (de_rec de) = u;
  di_buckets : buckets_inv C nx (bucket_list d) (dirents_list d);
  di_nonempty : bucket_list d <> [];
  di_count : dir_entry_count d = Z.of_nat (length (dirents_list d));
  di_buflen : dir_entry_buflen d = sum_rec C (dirents_list d);
  di_bcount : bucket_count d = wrap 64 (Z.of_nat (length (bucket_list d)));
  di_cache : forall l, last_failed_lookup d = Some l -> name_ok l /\ gn !! l = None
}.

Section sums.
Implicit Types (C : cellmap) (a : Z) (l : list Z).

Lemma sum_rec_perm C l l' : l ≡ₚ l' -> sum_rec C l = sum_rec C l'.
Proof. induction 1; simpl; lia. Qed.

Lemma sum_rec_app C l l' : sum_rec C (l ++ l') = sum_rec C l + sum_rec C l'.
Proof. induction l; simpl; [lia|]. rewrite IHl. lia. Qed.

Lemma sum_rec_frame C C' l :
  (forall a, a ∈ l -> rec_len_at C' a = rec_len_at C a) -> sum_rec C' l = sum_rec C l.
Proof.
  induction l as [|a l IH]; simpl; intros Hf; [done|].
  rewrite Hf by left. rewrite IH; [done|]. intros; apply Hf; by right.
Qed.

Lemma sum_rec_bound C l :
  (forall a, a ∈ l -> 0 <= rec_len_at C a <= 280) ->
  0 <= sum_rec C l <= 280 * Z.of_nat (length l).
Proof.
  induction l as [|a l IH]; simpl; intros Hb; [lia|].
  pose proof (Hb a (list_elem_of_here _ _)).
  assert (0 <= sum_rec C l <= 280 * Z.of_nat (length l)) by (apply IH; intros; apply Hb; by right).
  lia.
Qed.

Lemma rec_len_insert C a de : rec_len_at (<[a := de]> C) a = rec_len (de_rec de).
Proof. unfold rec_len_at. by rewrite lookup_insert_eq. Qed.

Lemma rec_len_insert_ne C a b de : a <> b -> rec_len_at (<[a := de]> C) b = rec_len_at C b.
Proof. intros. unfold rec_len_at. by rewrite lookup_insert_ne. Qed.
End sums.

Lemma rec_ok_bound r : rec_ok r -> 25 <= rec_len r <= 280.
Proof. intros [[_ Hn] Hl Hr _]. rewrite Hr, Hl. lia. Qed.

Lemma name_cmp_eq n1 n2 : name_ok n1 -> name_ok n2 -> filename_htable_cmp n1 n2 = 0 <-> n1 = n2.
Proof. intros [H1 L1] [H2 L2]. apply strncmp_eq; [done..| |];
  change (Z.to_nat NEXUS_NAME_MAX) with 256%nat; lia. Qed.

(** ** Buckets *)
Section bucket_lemmas.
Implicit Types (C : cellmap) (b : dir_bucket) (bs : list dir_bucket) (l : list Z).

(** Cells outside a bucket may change freely. *)
Lemma bucket_ok_frame C C' b :
  (forall a, a ∈ dir_entries b -> C' !! a = C !! a) -> bucket_ok C b -> bucket_ok C' b.
Proof.
  intros Hf [H1 H2 H3 H4 H5]. split; try done.
  - rewrite H4. symmetry. apply sum_rec_frame. intros a Ha. unfold rec_len_at. by rewrite Hf.
  - intros a Ha. rewrite Hf by done. auto.
Qed.

Lemma in_bucket_in_all bs b a :
  b ∈ bs -> a ∈ dir_entries b -> a ∈ concat (dir_entries <$> bs).
Proof.
  intros [i Hi]%list_elem_of_lookup Ha. apply elem_of_concat_lookup.
  exists i, (dir_entries b). split; [|done]. by rewrite list_lookup_fmap, Hi.
Qed.

(** Replacing one bucket by another at the same address. *)
Lemma buckets_replace C nx bs l i b b' l' C' :
  buckets_inv C nx bs l -> bs !! i = Some b ->
  b_addr b' = b_addr b -> bucket_ok C' b' ->
  (forall a, C' !! a = C !! a \/ (forall j c, j <> i -> bs !! j = Some c -> a ∉ dir_entries c)) ->
  dir_entries b' ++ concat (dir_entries <$> delete i bs) ≡ₚ l' ->
  buckets_inv C' nx (<[i := b']> bs) l'.
Proof.
  intros [H1 H2 H3 H4] Hi Ha Hok Hf Hp. split.
  - rewrite list_fmap_insert, Ha. rewrite list_insert_id; [done|]. by rewrite list_lookup_fmap, Hi.
  - apply Forall_insert; [done|]. rewrite Ha. by eapply Forall_lookup_1 in H2.
  - rewrite list_fmap_insert.
    rewrite (concat_insert_perm _ _ (dir_entries b)) by (by rewrite list_lookup_fmap, Hi).
    by rewrite list_fmap_delete in Hp.
  - apply Forall_lookup. intros j c Hj. destruct (decide (j = i)) as [->|Hne].
    + rewrite list_lookup_insert_eq in Hj by (by eapply lookup_lt_Some). by simplify_eq.
    + rewrite list_lookup_insert_ne in Hj by done.
      apply (bucket_ok_frame C); [|by eapply Forall_lookup_1].
      intros a Hin. destruct (Hf a) as [->|Hno]; [done|]. exfalso. by eapply Hno.
Qed.
End bucket_lemmas.

(** ** Operations keep the invariant *)
Section dirnode_lemmas.
Implicit Types (C : cellmap) (d : nexus_dirnode) (h : dheap) (n : bytes) (a nx : Z)
  (gn : gmap bytes Z) (gu : gmap uuid Z).

Lemma with_lookup_id d : with_lookup d (last_failed_lookup d) (dn_metadata d) = d.
Proof. by destruct d. Qed.

Lemma dn_inv_lookup C nx d gn gu l m :
  dn_inv C nx d gn gu -> (forall x, l = Some x -> name_ok x /\ gn !! x = None) ->
  dn_inv C nx (with_lookup d l m) gn gu.
Proof. intros [] Hl. by split. Qed.

Lemma dn_inv_dirty C nx d gn gu : dn_inv C nx d gn gu -> dn_inv C nx (dirnode_set_dirty d) gn gu.
Proof. intros Hi. apply dn_inv_lookup; [|done]. by apply dn_inv_lookup; [|apply Hi]. Qed.

(** Cells outside the directory may change freely. *)
Lemma dn_inv_frame C C' nx nx' d gn gu :
  dn_inv C nx d gn gu -> nx <= nx' -> (forall a, a ∈ dirents_list d -> C' !! a = C !! a) ->
  dn_inv C' nx' d gn gu.
Proof.
  intros Hi Hn Hf. destruct Hi as [H1 H2 H3 H4 H5 H6 [B1 B2 B3 B4] H8 H9 H10 H11 H12].
  split; try done.
  - intros n a Hg. destruct (H5 n a Hg) as (? & de & Hc & Hr). split; [lia|].
    exists de. rewrite Hf; [done|]. apply H4. eauto.
  - intros u a Hg. destruct (H6 u a Hg) as (Hin & de & Hc & Hr). split; [done|].
    exists de. by rewrite Hf.
  - split; try done.
    + apply (Forall_impl _ _ _ B2). intros x Hx. simpl in *. lia.
    + apply Forall_forall. intros b Hb. apply (bucket_ok_frame C).
      * intros a Ha. apply Hf. rewrite <- B3. by eapply in_bucket_in_all.
      * by eapply Forall_forall in B4.
  - rewrite H10. symmetry. apply sum_rec_frame. intros a Ha. unfold rec_len_at. by rewrite Hf.
Qed.

Lemma dn_addr_inj C nx d gn gu n n' a :
  dn_inv C nx d gn gu -> gn !! n = Some a -> gn !! n' = Some a -> n = n'.
Proof.
  intros Hi H1 H2. destruct (di_cell _ _ _ _ _ Hi _ _ H1) as (_ & de & Hc & <- & _).
  destruct (di_cell _ _ _ _ _ Hi _ _ H2) as (_ & de' & Hc' & <- & _). congruence.
Qed.

Lemma dn_uaddr_inj C nx d gn gu u u' a :
  dn_inv C nx d gn gu -> gu !! u = Some a -> gu !! u' = Some a -> u = u'.
Proof.
  intros Hi H1 H2. destruct (di_ucell _ _ _ _ _ Hi _ _ H1) as (_ & de & Hc & <-).
  destruct (di_ucell _ _ _ _ _ Hi _ _ H2) as (_ & de' & Hc' & <-). congruence.
Qed.

Lemma dn_size_names C nx d gn gu : dn_inv C nx d gn gu -> size gn = length (dirents_list d).
Proof.
  intros Hi. rewrite <- length_map_to_list, <- (length_fmap snd (map_to_list gn)).
  apply Permutation_length, NoDup_Permutation.
  - apply NoDup_fmap_2_strong; [|apply NoDup_map_to_list].
    intros [n1 a1] [n2 a2] H1%elem_of_map_to_list H2%elem_of_map_to_list. simpl. intros ->.
    f_equal. by eapply dn_addr_inj.
  - apply Hi.
  - intros a. rewrite (di_dom _ _ _ _ _ Hi), list_elem_of_fmap. split.
    + intros ([n a'] & -> & Hg%elem_of_map_to_list). eauto.
    + intros [n Hg]. exists (n, a). by rewrite elem_of_map_to_list.
Qed.

Lemma dn_size_uuids C nx d gn gu : dn_inv C nx d gn gu -> (size gu <= length (dirents_list d))%nat.
Proof.
  intros Hi. rewrite <- length_map_to_list, <- (length_fmap snd (map_to_list gu)).
  apply submseteq_length, NoDup_submseteq.
  - apply NoDup_fmap_2_strong; [|apply NoDup_map_to_list].
    intros [n1 a1] [n2 a2] H1%elem_of_map_to_list H2%elem_of_map_to_list. simpl. intros ->.
    f_equal. by eapply dn_uaddr_inj.
  - intros a ([u a'] & -> & Hg%elem_of_map_to_list)%list_elem_of_fmap. simpl.
    by eapply (di_ucell _ _ _ _ _ Hi).
Qed.

Lemma dn_stack C nx d gn gu n : dn_inv C nx d gn gu -> forall n', gn !! n' = Some STACK_ADDR -> n' = n.
Proof.
  intros Hi n' Hg. destruct (di_cell _ _ _ _ _ Hi _ _ Hg) as [? _]. unfold STACK_ADDR in *. lia.
Qed.

(** A lookup finds the entry of the name, through the cache or the map. *)
Lemma find_by_name_spec C nx d gn gu n :
  dn_inv C nx d gn gu -> name_ok n ->
  exists l, find_by_name d n = (with_lookup d l (dn_metadata d), gn !! n) /\
    dn_inv C nx (with_lookup d l (dn_metadata d)) gn gu.
Proof.
  intros Hi Hn. unfold find_by_name.
  assert (Hget : he_addr <$> hashmap_get filename_htable_cmp (filename_hashmap d)
                   (entry_of strhash n STACK_ADDR) = gn !! n).
  { apply (repr_get _ _ name_ok name_cmp_eq); [apply Hi|done|by eapply dn_stack]. }
  assert (Htk : take (Z.to_nat NEXUS_NAME_MAX) n = n).
  { apply take_ge. destruct Hn. change (Z.to_nat NEXUS_NAME_MAX) with 256%nat. lia. }
  assert (Hsearch : forall l0, (forall x, l0 = Some x -> name_ok x /\ gn !! x = None) ->
    exists l, match hashmap_get filename_htable_cmp (filename_hashmap d) (entry_of strhash n STACK_ADDR) with
      | None => (with_lookup (with_lookup d l0 (dn_metadata d))
                  (Some (take (Z.to_nat NEXUS_NAME_MAX) n)) (dn_metadata d), None)
      | Some e => (with_lookup d l0 (dn_metadata d), Some (he_addr e))
      end = (with_lookup d l (dn_metadata d), gn !! n) /\
    dn_inv C nx (with_lookup d l (dn_metadata d)) gn gu).
  { intros l0 Hl0. destruct (hashmap_get _ _ _) as [e|]; simpl in Hget; rewrite <- Hget.
    - exists l0. split; [done|]. by apply dn_inv_lookup.
    - exists (Some n). rewrite Htk. split; [done|]. apply dn_inv_lookup; [done|].
      intros x [= <-]. done. }
  destruct (last_failed_lookup d) as [l|] eqn:El.
  - destruct (di_cache _ _ _ _ _ Hi l El) as [Hl Hgl].
    destruct (Z.eqb_spec (strncmp l n (Z.to_nat NEXUS_NAME_MAX)) 0) as [Heq|Hne].
    + apply name_cmp_eq in Heq; [|done..]. subst l. exists (Some n). rewrite <- El, with_lookup_id.
      by rewrite Hgl.
    + destruct (Hsearch None) as (l' & Heq & Hi'); [done|]. exists l'. split; [|done]. exact Heq.
  - destruct (Hsearch None) as (l' & Heq & Hi'); [done|]. exists l'. split; [|done].
    assert (Hd : with_lookup d None (dn_metadata d) = d) by (rewrite <- El; apply with_lookup_id).
    rewrite Hd in Heq. exact Heq.
Qed.

Lemma get_available_bucket_spec d h rnd gn gu :
  dn_inv (cells h) (next_addr h) d gn gu ->
  exists d1 h1 i b, get_available_bucket d h rnd = (d1, h1, i, b) /\
    bucket_list d1 !! i = Some b /\ num_items b < BUCKET_CAPACITY /\
    dn_inv (cells h1) (next_addr h1) d1 gn gu /\
    cells h1 = cells h /\ next_addr h <= next_addr h1 /\
    d1 = with_buckets d (bucket_list d1) (bucket_count d1).
Proof.
  intros Hi. unfold get_available_bucket. destruct (list_find _ _) as [[i b]|] eqn:E.
  - apply list_find_Some in E as (Hb & Hlt & _). apply Is_true_true, Z.ltb_lt in Hlt.
    pose proof (bi_ok _ _ _ _ (di_buckets _ _ _ _ _ Hi)) as Hok.
    eapply Forall_lookup_1 in Hok; [|done]. rewrite (bo_cap _ _ Hok) in Hlt.
    exists d, h, i, b. split_and!; try done. by destruct d.
  - set (b := bucket_create _ _ _). eexists _, _, _, b. split; [done|]. simpl.
    rewrite lookup_app_r by lia. rewrite Nat.sub_diag. split; [done|].
    split; [simpl; unfold BUCKET_CAPACITY; lia|].
    split; [|split_and!; [done|lia|done]].
    pose proof (bi_bound _ _ _ _ (di_buckets _ _ _ _ _ Hi)) as Hbound.
    apply (dn_inv_frame _ (cells h) _ (next_addr h + 1)) in Hi; [|lia|done].
    destruct Hi as [H1 H2 H3 H4 H5 H6 [B1 B2 B3 B4] H8 H9 H10 H11 H12]. split; try done; simpl.
    + split.
      * rewrite fmap_app. apply NoDup_app. split; [done|]. simpl. split; [|apply NoDup_singleton].
        intros x Hx Hx'%list_elem_of_singleton. subst x.
        apply list_elem_of_fmap in Hx as (c & Hc & Hin).
        pose proof (proj1 (Forall_forall _ _) Hbound c Hin) as Hc'. simpl in *. lia.
      * apply Forall_app. split; [done|]. apply Forall_singleton. simpl. lia.
      * rewrite fmap_app, concat_app. simpl. by rewrite app_nil_r.
      * apply Forall_app. split; [done|]. apply Forall_singleton. split; simpl; try done.
        intros a Ha. by apply not_elem_of_nil in Ha.
    + intros Hnil. apply app_eq_nil in Hnil as [_ ?]. done.
    + rewrite H11, length_app. simpl. rewrite wrap_add_l. f_equal. lia.
Qed.
End dirnode_lemmas.

Section dirnode_steps.
Implicit Types (C : cellmap) (d : nexus_dirnode) (h : dheap) (n : bytes) (a nx : Z)
  (gn : gmap bytes Z) (gu : gmap uuid Z) (r : dir_rec).

Lemma rec_len_in C nx d gn gu a :
  dn_inv C nx d gn gu -> a ∈ dirents_list d -> 0 <= rec_len_at C a <= 280.
Proof.
  intros Hi [n Hg]%(di_dom _ _ _ _ _ Hi).
  destruct (di_cell _ _ _ _ _ Hi _ _ Hg) as (_ & de & Hc & _ & Hr).
  unfold rec_len_at. rewrite Hc. apply rec_ok_bound in Hr. lia.
Qed.

Lemma dn_buflen_bound C nx d gn gu :
  dn_inv C nx d gn gu -> 0 <= dir_entry_buflen d <= 280 * Z.of_nat (length (dirents_list d)).
Proof.
  intros Hi. rewrite (di_buflen _ _ _ _ _ Hi). apply sum_rec_bound.
  intros. by eapply rec_len_in.
Qed.

(** Adding a loose entry to a bucket with room. *)
Lemma bucket_add_ok C b a r :
  bucket_ok C b -> num_items b < BUCKET_CAPACITY -> a ∉ dir_entries b -> rec_ok r ->
  C !! a = Some {| de_bucket := None; de_rec := r |} ->
  (forall x, x ∈ dir_entries b -> 0 <= rec_len_at C x <= 280) ->
  forall nx, exists b', bucket_add_direntry b {| cells := C; next_addr := nx |} a
    = Some (b', {| cells := <[a := {| de_bucket := Some (b_addr b); de_rec := r |}]> C;
                   next_addr := nx |}, 0) /\
    b_addr b' = b_addr b /\ dir_entries b' = dir_entries b ++ [a] /\
    bucket_ok (<[a := {| de_bucket := Some (b_addr b); de_rec := r |}]> C) b'.
Proof.
  intros [H1 H2 H3 H4 H5] Hlt Ha Hr Hc Hb nx. unfold bucket_add_direntry. simpl. rewrite Hc. simpl.
  rewrite H2, (proj2 (Z.leb_gt _ _)) by done. simpl. eexists. split; [done|].
  split; [done|]. split; [done|].
  pose proof (sum_rec_bound C _ Hb). pose proof (rec_ok_bound r Hr).
  assert (Hfr : sum_rec (<[a := {| de_bucket := Some (b_addr b); de_rec := r |}]> C) (dir_entries b)
                = sum_rec C (dir_entries b)).
  { apply sum_rec_frame. intros x Hx. apply rec_len_insert_ne. by intros ->. }
  unfold BUCKET_CAPACITY in *. split; simpl; try done.
  - rewrite length_app. simpl. rewrite wrap_small by (unfold in_range; lia). lia.
  - rewrite wrap_small by (unfold in_range; lia). unfold BUCKET_CAPACITY. lia.
  - rewrite H4, sum_rec_app. simpl. rewrite Hfr, rec_len_insert. simpl.
    rewrite wrap_small by (unfold in_range; lia). lia.
  - intros x [Hx| ->%list_elem_of_singleton]%elem_of_app.
    + rewrite lookup_insert_ne by (by intros ->). auto.
    + rewrite lookup_insert_eq. eauto.
Qed.

Lemma bucket_del_ok C b a r :
  bucket_ok C b -> a ∈ dir_entries b -> NoDup (dir_entries b) -> rec_ok r ->
  C !! a = Some {| de_bucket := Some (b_addr b); de_rec := r |} ->
  (forall x, x ∈ dir_entries b -> 0 <= rec_len_at C x <= 280) ->
  forall nx, exists b', bucket_del_direntry b {| cells := C; next_addr := nx |} a
    = Some (b', {| cells := <[a := {| de_bucket := None; de_rec := r |}]> C;
                   next_addr := nx |}, 0) /\
    b_addr b' = b_addr b /\ dir_entries b' = remove_first a (dir_entries b) /\
    bucket_ok (<[a := {| de_bucket := None; de_rec := r |}]> C) b'.
Proof.
  intros [H1 H2 H3 H4 H5] Ha Hnd Hr Hc Hb nx. unfold bucket_del_direntry. simpl. rewrite Hc. simpl.
  pose proof (remove_first_perm a _ Ha) as Hp.
  pose proof (Permutation_length Hp) as Hl. simpl in Hl.
  rewrite (proj2 (Z.eqb_neq (num_items b) 0)) by lia.
  rewrite bool_decide_eq_false_2 by tauto. simpl. eexists. split; [done|].
  split; [done|]. split; [done|].
  assert (Hna : forall x, x ∈ remove_first a (dir_entries b) -> x <> a).
  { intros x Hx. by apply (elem_of_remove_first a _ x Hnd) in Hx as [_ ?]. }
  pose proof (sum_rec_perm C _ _ Hp) as Hsum. simpl in Hsum.
  assert (Hra : rec_len_at C a = rec_len r) by (unfold rec_len_at; by rewrite Hc).
  pose proof (rec_ok_bound r Hr).
  assert (Hbr : 0 <= sum_rec C (remove_first a (dir_entries b))
                <= 280 * Z.of_nat (length (remove_first a (dir_entries b)))).
  { apply sum_rec_bound. intros x Hx. apply Hb. by eapply remove_first_sub. }
  unfold BUCKET_CAPACITY in *. split; simpl; try done.
  - rewrite wrap_small by (unfold in_range; lia). lia.
  - rewrite wrap_small by (unfold in_range; lia). unfold BUCKET_CAPACITY. lia.
  - rewrite H4, wrap_small by (unfold in_range; lia).
    rewrite (sum_rec_frame C (<[a:=_]> C)); [lia|]. intros x Hx. apply rec_len_insert_ne. intros ->. by eapply Hna.
  - intros x Hx. rewrite lookup_insert_ne by (intros ->; by eapply Hna).
    apply H5. by eapply remove_first_sub.
Qed.

(** Indexing a fresh entry under a name the directory does not hold. *)
Lemma dirnode_add_direntry_spec d h rnd gn gu a r :
  dn_inv (cells h) (next_addr h) d gn gu ->
  cells h !! a = Some {| de_bucket := None; de_rec := r |} -> rec_ok r ->
  0 < a < next_addr h -> a ∉ dirents_list d -> gn !! dr_name r = None ->
  Z.of_nat (length (dirents_list d)) < 2 ^ 29 ->
  exists d' h' p, dirnode_add_direntry d h rnd a = Some (d', h') /\
    dn_inv (cells h') (next_addr h') d' (<[dr_name r := a]> gn) (<[link_uuid r := a]> gu) /\
    dirents_list d' = dirents_list d ++ [a] /\
    cells h' = <[a := {| de_bucket := Some p; de_rec := r |}]> (cells h) /\
    next_addr h <= next_addr h' /\ symlink_list d' = symlink_list d /\
    symlink_count d' = symlink_count d /\ symlink_buflen d' = symlink_buflen d /\
    last_failed_lookup d' = None /\ dn_metadata d' = const true <$> dn_metadata d.
Proof.
  intros Hi0 Hc Hr Hb Hni Hgn Hsz. unfold dirnode_add_direntry.
  destruct (get_available_bucket_spec d h rnd gn gu Hi0)
    as (d1 & h1 & i & b & -> & Hbi & Hroom & Hi & Hc1 & Hn1 & Hd1).
  assert (Hdl : dirents_list d1 = dirents_list d) by (by rewrite Hd1).
  rewrite <- Hc1 in Hc. rewrite <- Hdl in Hni, Hsz. destruct h1 as [C nx].
  cbn [cells next_addr] in *. subst C. set (C := cells h) in *.
  pose proof (di_buckets _ _ _ _ _ Hi) as Hbk.
  assert (Hbok : bucket_ok C b) by (eapply Forall_lookup_1; [apply Hbk|done]).
  assert (Hinall : forall x, x ∈ dir_entries b -> x ∈ dirents_list d1).
  { intros x Hx. rewrite <- (bi_parts _ _ _ _ Hbk).
    eapply in_bucket_in_all; [by eapply list_elem_of_lookup_2|done]. }
  destruct (bucket_add_ok C b a r Hbok Hroom) with (nx := nx) as (b' & -> & Hba & Hde & Hbok');
    [by intros ?%Hinall|done|done|intros; eapply rec_len_in; eauto|].
  cbn [mbind option_bind cells]. rewrite lookup_insert_eq. cbn [mbind option_bind de_rec].
  set (C' := <[a := {| de_bucket := Some (b_addr b); de_rec := r |}]> C) in *.
  eexists _, _, (b_addr b). split; [done|].
  split; [|cbn; rewrite Hdl; split_and!; try done; by rewrite Hd1].
  pose proof (dn_size_uuids _ _ _ _ _ Hi) as Hsu.
  pose proof (dn_size_names _ _ _ _ _ Hi) as Hsn.
  assert (HC' : forall x, x ∈ dirents_list d1 -> C' !! x = C !! x).
  { intros x Hx. apply lookup_insert_ne. by intros <-. }
  split; cbn -[wrap Z.of_nat sum_rec].
  - apply (repr_put _ _ name_ok name_cmp_eq); [apply Hi|apply Hr| |lia].
    intros n' Hn'. exfalso. apply Hni. apply (di_dom _ _ _ _ _ Hi). eauto.
  - apply (repr_put _ _ uuid_ok uuid_compare_eq); [apply Hi|apply Hr| |lia].
    intros u' Hu'. exfalso. apply Hni. by eapply (di_ucell _ _ _ _ _ Hi).
  - apply NoDup_app. split; [apply Hi|]. split; [|apply NoDup_singleton].
    intros x Hx ->%list_elem_of_singleton. done.
  - intros x. rewrite elem_of_app, list_elem_of_singleton, (di_dom _ _ _ _ _ Hi). split.
    + intros [[n Hn]| ->].
      * exists n. rewrite lookup_insert_ne; [done|]. by intros <-; rewrite Hgn in Hn.
      * exists (dr_name r). apply lookup_insert_eq.
    + intros [n [[<- <-]|[Hne Hn]]%lookup_insert_Some]; eauto.
  - intros n x [[<- <-]|[Hne Hn]]%lookup_insert_Some.
    + split; [lia|]. eexists. unfold C'. rewrite lookup_insert_eq. done.
    + rewrite HC' by (apply (di_dom _ _ _ _ _ Hi); eauto). by eapply (di_cell _ _ _ _ _ Hi).
  - intros u x [[<- <-]|[Hne Hn]]%lookup_insert_Some.
    + split; [apply elem_of_app; right; by apply list_elem_of_singleton|].
      eexists. unfold C'. by rewrite lookup_insert_eq.
    + destruct (di_ucell _ _ _ _ _ Hi _ _ Hn) as [Hin Hex]. split; [apply elem_of_app; by left|].
      by rewrite HC'.
  - apply (buckets_replace C _ _ (dirents_list d1) _ b); [done|done|done| | |].
    + by destruct Hbok'; split.
    + intros x. destruct (decide (x = a)) as [->|Hne]; [right|left; by apply lookup_insert_ne].
      intros j c _ Hj Hin. apply Hni. rewrite <- (bi_parts _ _ _ _ Hbk).
      eapply in_bucket_in_all; [by eapply list_elem_of_lookup_2|done].
    + cbn. rewrite Hde, <- (bi_parts _ _ _ _ Hbk), list_fmap_delete.
      rewrite (concat_lookup_perm (dir_entries <$> bucket_list d1) i (dir_entries b)).
      2:{ by rewrite list_lookup_fmap, Hbi. }
      rewrite <- !app_assoc. apply Permutation_app_head. apply Permutation_app_comm.
  - intros Hnil. apply (f_equal length) in Hnil. rewrite length_insert in Hnil.
    apply nil_length_inv in Hnil. by apply (di_nonempty _ _ _ _ _ Hi).
  - rewrite (di_count _ _ _ _ _ Hi), length_app. cbn -[Z.of_nat].
    rewrite wrap_small by (unfold in_range; lia). lia.
  - rewrite sum_rec_app. cbn [sum_rec foldr]. unfold C' at 2. rewrite rec_len_insert. cbn [de_rec].
    fold (sum_rec C' (dirents_list d1)).
    rewrite (sum_rec_frame C) by (intros x Hx; unfold rec_len_at; by rewrite HC').
    pose proof (dn_buflen_bound _ _ _ _ _ Hi). pose proof (rec_ok_bound r Hr).
    rewrite (di_buflen _ _ _ _ _ Hi) in *. rewrite wrap_small by (unfold in_range; lia). lia.
  - rewrite length_insert. apply Hi.
  - done.
Qed.
End dirnode_steps.

Section dirnode_del.
Implicit Types (C : cellmap) (d : nexus_dirnode) (h : dheap) (n : bytes) (a nx : Z)
  (gn : gmap bytes Z) (gu : gmap uuid Z) (r : dir_rec).

(** The bucket pointer of an indexed entry leads to the bucket holding it. *)
Lemma entry_bucket C nx d gn gu n a :
  dn_inv C nx d gn gu -> gn !! n = Some a ->
  exists i b r, bucket_list d !! i = Some b /\ a ∈ dir_entries b /\
    C !! a = Some {| de_bucket := Some (b_addr b); de_rec := r |} /\ dr_name r = n /\ rec_ok r /\
    list_find (fun b' => b_addr b' = b_addr b) (bucket_list d) = Some (i, b).
Proof.
  intros Hi Hg. destruct (di_cell _ _ _ _ _ Hi _ _ Hg) as (_ & [p r] & Hc & Hn & Hr).
  assert (Hin : a ∈ dirents_list d) by (apply (di_dom _ _ _ _ _ Hi); eauto).
  destruct (di_buckets _ _ _ _ _ Hi) as [B1 B2 B3 B4].
  rewrite <- B3 in Hin. apply elem_of_concat_lookup in Hin as (i & es & Hes & Hin).
  rewrite list_lookup_fmap in Hes. destruct (bucket_list d !! i) as [b|] eqn:Hb; [|done].
  simpl in Hes. injection Hes as <-.
  destruct (bo_back _ _ (Forall_lookup_1 _ _ _ _ B4 Hb) a Hin) as (de & Hde & Hp).
  rewrite Hc in Hde. injection Hde as <-. simpl in *. subst p. exists i, b, r.
  split_and!; try done. apply list_find_Some. split; [done|]. split; [done|].
  intros j c Hj Hlt Heq.
  assert (j = i); [|lia]. eapply (NoDup_lookup _ _ _ (b_addr b) B1);
    rewrite list_lookup_fmap; [rewrite Hj|rewrite Hb]; simpl; congruence.
Qed.

Lemma bucket_entries_nodup C nx bs l i b :
  buckets_inv C nx bs l -> NoDup l -> bs !! i = Some b ->
  NoDup (dir_entries b) /\
  forall a j c, a ∈ dir_entries b -> j <> i -> bs !! j = Some c -> a ∉ dir_entries c.
Proof.
  intros [B1 B2 B3 B4] Hnd Hb. rewrite <- B3 in Hnd.
  rewrite (concat_lookup_perm (dir_entries <$> bs) i (dir_entries b)) in Hnd
    by (by rewrite list_lookup_fmap, Hb).
  apply NoDup_app in Hnd as (H1 & H2 & H3). split; [done|].
  intros a j c Ha Hne Hj Hc. apply (H2 a Ha). apply elem_of_concat_lookup.
  assert (Hj' : (dir_entries <$> bs) !! j = Some (dir_entries c)) by (by rewrite list_lookup_fmap, Hj).
  destruct (decide (j < i)%nat).
  - exists j, (dir_entries c). by rewrite list_lookup_delete_lt.
  - exists (pred j), (dir_entries c). rewrite list_lookup_delete_ge by lia.
    by replace (S (pred j)) with j by lia.
Qed.

(** Unlinking an indexed entry leaves it loose in the heap. *)
Lemma dirnode_del_direntry_spec d h gn gu n a :
  dn_inv (cells h) (next_addr h) d gn gu -> gn !! n = Some a ->
  Z.of_nat (length (dirents_list d)) <= 2 ^ 29 ->
  exists d' h' r gu', dirnode_del_direntry d h a = Some (d', h') /\
    dn_inv (cells h') (next_addr h') d' (delete n gn) gu' /\
    gu' = (if decide (gu !! link_uuid r = Some a) then delete (link_uuid r) gu else gu) /\
    dirents_list d' = remove_first a (dirents_list d) /\
    (exists p, cells h !! a = Some {| de_bucket := Some p; de_rec := r |}) /\
    dr_name r = n /\ rec_ok r /\
    cells h' = <[a := {| de_bucket := None; de_rec := r |}]> (cells h) /\
    next_addr h' = next_addr h /\ symlink_list d' = symlink_list d /\
    symlink_count d' = symlink_count d /\ symlink_buflen d' = symlink_buflen d /\
    last_failed_lookup d' = None /\ dn_metadata d' = const true <$> dn_metadata d.
Proof.
  intros Hi Hg Hsz. destruct h as [C nx]. cbn [cells next_addr] in *.
  destruct (entry_bucket _ _ _ _ _ _ _ Hi Hg) as (i & b & r & Hb & Hin & Hc & Hn & Hr & Hfind).
  pose proof (di_buckets _ _ _ _ _ Hi) as Hbk.
  destruct (bucket_entries_nodup _ _ _ _ _ _ Hbk (di_nodup _ _ _ _ _ Hi) Hb) as [Hbnd Hother].
  assert (Hbok : bucket_ok C b) by (eapply Forall_lookup_1; [apply Hbk|done]).
  assert (Hina : a ∈ dirents_list d) by (apply (di_dom _ _ _ _ _ Hi); eauto).
  assert (Hinall : forall x, x ∈ dir_entries b -> x ∈ dirents_list d).
  { intros x Hx. rewrite <- (bi_parts _ _ _ _ Hbk).
    eapply in_bucket_in_all; [by eapply list_elem_of_lookup_2|done]. }
  unfold dirnode_del_direntry. cbn [cells]. rewrite Hc.
  cbn [mbind option_bind de_bucket de_rec]. rewrite Hfind.
  cbn [mbind option_bind].
  destruct (bucket_del_ok C b a r Hbok Hin Hbnd Hr Hc) with (nx := nx)
    as (b' & -> & Hba & Hde & Hbok'); [intros; eapply rec_len_in; eauto|].
  cbn [mbind option_bind].
  set (C' := <[a := {| de_bucket := None; de_rec := r |}]> C) in *.
  eexists _, _, r, _. split; [done|].
  split; [|split; [done|]; cbn; split_and!; try done; eauto].
  assert (Hmem : forall x, x ∈ remove_first a (dirents_list d) <-> x ∈ dirents_list d /\ x <> a).
  { intros x. apply elem_of_remove_first, Hi. }
  assert (HC' : forall x, x <> a -> C' !! x = C !! x).
  { intros x Hx. by apply lookup_insert_ne. }
  pose proof (remove_first_perm a _ Hina) as Hperm.
  split; cbn -[wrap Z.of_nat sum_rec].
  - pose proof (repr_remove_entry strhash name_ok (filename_hashmap d) gn n a
      (di_names _ _ _ _ _ Hi)) as Hrm.
    rewrite decide_True in Hrm by done. unfold filename_hash. rewrite Hn. apply Hrm.
    intros n' Hn'. by eapply dn_addr_inj.
  - apply repr_remove_entry; [apply Hi|]. intros u' Hu'.
    destruct (di_ucell _ _ _ _ _ Hi _ _ Hu') as (_ & de & Hde' & <-). rewrite Hc in Hde'.
    by injection Hde' as <-.
  - apply NoDup_remove_first, Hi.
  - intros x. rewrite Hmem, (di_dom _ _ _ _ _ Hi). split.
    + intros [[m Hm] Hne]. exists m. rewrite lookup_delete_ne; [done|].
      intros ->. rewrite Hg in Hm. by simplify_eq.
    + intros [m [Hne Hm]%lookup_delete_Some]. split; [eauto|].
      intros ->. apply Hne. by eapply dn_addr_inj.
  - intros m x [Hne Hm]%lookup_delete_Some. rewrite HC'; [by eapply (di_cell _ _ _ _ _ Hi)|].
    intros ->. apply Hne. by eapply dn_addr_inj.
  - intros u x Hu. assert (gu !! u = Some x /\ x <> a) as [Hu' Hxa].
    { case_decide as Hd.
      - apply lookup_delete_Some in Hu as [Hne Hu]. split; [done|]. intros ->. apply Hne.
        by eapply dn_uaddr_inj.
      - split; [done|]. intros ->. destruct (di_ucell _ _ _ _ _ Hi _ _ Hu) as (_ & de & Hde' & Hlu).
        rewrite Hc in Hde'. injection Hde' as <-. simpl in Hlu. by subst u. }
    rewrite HC' by done. destruct (di_ucell _ _ _ _ _ Hi _ _ Hu') as [Hxi Hex].
    split; [by apply Hmem|done].
  - apply (buckets_replace C _ _ (dirents_list d) _ b); [done|done|done| | |].
    + by destruct Hbok'; split.
    + intros x. destruct (decide (x = a)) as [->|Hne]; [right|left; by apply HC'].
      intros j c Hj Hjc. by eapply Hother.
    + cbn. rewrite Hde. pose proof (Permutation_trans (bi_parts _ _ _ _ Hbk) Hperm) as Hp2.
      rewrite (concat_lookup_perm (dir_entries <$> bucket_list d) i (dir_entries b)) in Hp2
        by (by rewrite list_lookup_fmap, Hb).
      pose proof (remove_first_perm a (dir_entries b) Hin) as Hp3.
      apply (Permutation_app_tail (concat (delete i (dir_entries <$> bucket_list d)))) in Hp3.
      rewrite list_fmap_delete. apply (Permutation_cons_inv (a := a)). by rewrite <- Hp2, Hp3.
  - intros Hnil. apply (f_equal length) in Hnil. rewrite length_insert in Hnil.
    apply nil_length_inv in Hnil. by apply (di_nonempty _ _ _ _ _ Hi).
  - rewrite (di_count _ _ _ _ _ Hi). apply Permutation_length in Hperm. simpl in Hperm.
    rewrite wrap_small by (unfold in_range; lia). lia.
  - pose proof (dn_buflen_bound _ _ _ _ _ Hi) as Hbb. rewrite (di_buflen _ _ _ _ _ Hi) in *.
    pose proof (sum_rec_perm C _ _ Hperm) as Hs. cbn [sum_rec foldr] in Hs.
    fold (sum_rec C (remove_first a (dirents_list d))) in Hs.
    assert (rec_len_at C a = rec_len r) as Hra by (unfold rec_len_at; by rewrite Hc).
    assert (0 <= sum_rec C (remove_first a (dirents_list d))).
    { apply sum_rec_bound. intros x [Hx _]%Hmem. by eapply rec_len_in. }
    rewrite (sum_rec_frame C C') by (intros x [_ Hx]%Hmem; unfold rec_len_at; by rewrite HC').
    pose proof (rec_ok_bound r Hr). rewrite wrap_small by (unfold in_range; lia). lia.
  - rewrite length_insert. apply Hi.
  - done.
Qed.
End dirnode_del.

(** ** The abstract directory *)
Abbreviation dir_view := (gmap bytes (nexus_dirent_type * uuid)).

Definition link_of (C : cellmap) (a : Z) : option (nexus_dirent_type * uuid) :=
  de ← C !! a; Some (dr_type (de_rec de), link_uuid (de_rec de)).

Definition view (C : cellmap) (gn : gmap bytes Z) : dir_view := omap (link_of C) gn.

(** [d] in heap [h] holds the directory [v]. *)
Definition dir_repr (h : dheap) (d : nexus_dirnode) (v : dir_view) : Prop :=
  0 < next_addr h /\
  exists gn gu, dn_inv (cells h) (next_addr h) d gn gu /\ v = view (cells h) gn.

Section views.
Implicit Types (C : cellmap) (d : nexus_dirnode) (h : dheap) (n : bytes) (a nx : Z)
  (gn : gmap bytes Z) (gu : gmap uuid Z) (r : dir_rec).

Lemma view_lookup C gn n : view C gn !! n = gn !! n ≫= link_of C.
Proof. unfold view. apply lookup_omap. Qed.

Lemma view_frame C C' gn :
  (forall n a, gn !! n = Some a -> link_of C' a = link_of C a) -> view C' gn = view C gn.
Proof.
  intros Hf. apply map_eq. intros n. rewrite !view_lookup.
  destruct (gn !! n) as [a|] eqn:Ha; simpl; [|done]. by eapply Hf.
Qed.

Lemma view_insert C gn n a de :
  C !! a = Some de ->
  view C (<[n := a]> gn) = <[n := (dr_type (de_rec de), link_uuid (de_rec de))]> (view C gn).
Proof.
  intros Hc. apply map_eq. intros m. rewrite view_lookup, !lookup_insert.
  case_decide; [|by rewrite view_lookup]. simpl. unfold link_of. by rewrite Hc.
Qed.

Lemma view_delete C gn n : view C (delete n gn) = delete n (view C gn).
Proof.
  apply map_eq. intros m. rewrite view_lookup, !lookup_delete. case_decide; [done|].
  by rewrite view_lookup.
Qed.

Lemma view_None C nx d gn gu n : dn_inv C nx d gn gu -> view C gn !! n = None <-> gn !! n = None.
Proof.
  intros Hi. rewrite view_lookup. destruct (gn !! n) as [a|] eqn:Ha; simpl; [|done].
  destruct (di_cell _ _ _ _ _ Hi _ _ Ha) as (_ & de & Hc & _). unfold link_of. rewrite Hc. done.
Qed.

Lemma link_of_insert C a de b :
  link_of (<[a := de]> C) b =
  if decide (b = a) then Some (dr_type (de_rec de), link_uuid (de_rec de)) else link_of C b.
Proof.
  unfold link_of. rewrite lookup_insert. by repeat case_decide; simplify_eq.
Qed.

(** Entries of the directory, as the addresses the view is read through. *)
Lemma in_dirents C nx d gn gu n a :
  dn_inv C nx d gn gu -> gn !! n = Some a -> a ∈ dirents_list d.
Proof. intros Hi Hg. apply (di_dom _ _ _ _ _ Hi). eauto. Qed.

Lemma dn_inv_symlinks C nx d gn gu l c s :
  dn_inv C nx d gn gu -> dn_inv C nx (with_symlinks d l c s) gn gu.
Proof. intros []. by split. Qed.

Lemma new_rec_ok u type n :
  name_ok n -> uuid_ok u ->
  let nl := u16 (Z.of_nat (length n)) in
  nl < NEXUS_NAME_MAX /\ take (Z.to_nat nl) n = n /\
  rec_ok {| rec_len := rec_len_for nl; dr_type := type; link_uuid := u; name_len := nl;
            dr_name := take (Z.to_nat nl) n |}.
Proof.
  intros [Hc Hl] Hu nl. assert (Hnl : nl = Z.of_nat (length n)).
  { unfold nl. apply wrap_small. unfold in_range. lia. }
  assert (Htk : take (Z.to_nat nl) n = n) by (rewrite Hnl, Nat2Z.id; by apply take_ge).
  split; [unfold NEXUS_NAME_MAX; lia|]. split; [done|]. rewrite Htk. split; simpl; try done.
  unfold rec_len_for, DIR_REC_SIZE, NEXUS_NAME_MAX. rewrite wrap_small by (unfold in_range; lia). lia.
Qed.

Lemma rename_dir_entry_spec h a r n :
  cells h !! a = Some {| de_bucket := None; de_rec := r |} -> rec_ok r -> name_ok n ->
  exists r', rename_dir_entry h a n =
    Some {| cells := <[a := {| de_bucket := None; de_rec := r' |}]> (cells h);
            next_addr := next_addr h |} /\
    rec_ok r' /\ dr_name r' = n /\ dr_type r' = dr_type r /\ link_uuid r' = link_uuid r.
Proof.
  intros Hc Hr Hn. unfold rename_dir_entry. rewrite Hc. cbn [mbind option_bind de_rec de_bucket].
  destruct (new_rec_ok (link_uuid r) (dr_type r) n Hn (ro_uuid _ Hr)) as (Hlt & Htk & Hok).
  rewrite (proj2 (Z.leb_gt _ _)) by done. eexists. split; [done|]. split; [done|].
  split; [exact Htk|done].
Qed.

Lemma new_dir_entry_spec h u type n :
  name_ok n -> uuid_ok u ->
  exists r, new_dir_entry h u type n =
    Some ({| cells := <[next_addr h := {| de_bucket := None; de_rec := r |}]> (cells h);
             next_addr := next_addr h + 1 |}, next_addr h) /\
    rec_ok r /\ dr_name r = n /\ dr_type r = type /\ link_uuid r = u.
Proof.
  intros Hn Hu. unfold new_dir_entry.
  destruct (new_rec_ok u type n Hn Hu) as (Hlt & Htk & Hok).
  rewrite (proj2 (Z.leb_gt _ _)) by done. eexists. split; [done|]. split; [done|].
  split; [exact Htk|done].
Qed.

Lemma fresh_not_in C nx d gn gu : dn_inv C nx d gn gu -> nx ∉ dirents_list d.
Proof.
  intros Hi [n Hn]%(di_dom _ _ _ _ _ Hi). destruct (di_cell _ _ _ _ _ Hi _ _ Hn) as [? _]. lia.
Qed.

(** Dropping a name: the entry goes loose and then leaves the heap. *)
Lemma clobber_spec d h gn gu n a :
  dn_inv (cells h) (next_addr h) d gn gu -> gn !! n = Some a ->
  Z.of_nat (length (dirents_list d)) <= 2 ^ 29 ->
  exists d' h' gu', dirnode_clobber_dir_entry d h a = Some (d', h') /\
    dn_inv (cells h') (next_addr h') d' (delete n gn) gu' /\
    dirents_list d' = remove_first a (dirents_list d) /\
    cells h' = delete a (cells h) /\ next_addr h' = next_addr h /\
    symlink_list d' = symlink_list d /\ last_failed_lookup d' = None.
Proof.
  intros Hi Hg Hsz. destruct (dirnode_del_direntry_spec d h gn gu n a Hi Hg Hsz)
    as (d' & h' & r & gu' & Hdel & Hi' & _ & Hdl & Hc & _ & _ & Hc' & Hn' & Hsl & _ & _ & Hlf & _).
  unfold dirnode_clobber_dir_entry. rewrite Hdel. cbn [mbind option_bind].
  unfold free_dir_entry. rewrite Hc', lookup_insert_eq. cbn [mbind option_bind].
  eexists _, _, gu'. split; [done|]. cbn [cells next_addr].
  assert (Hd : delete a (<[a := {| de_bucket := None; de_rec := r |}]> (cells h)) = delete a (cells h)).
  { apply delete_insert_eq. }
  rewrite Hd. split; [|split_and!; done].
  eapply dn_inv_frame; [exact Hi'|done|]. intros x Hx. rewrite Hdl in Hx.
  apply elem_of_remove_first in Hx as [_ Hx]; [|apply Hi].
  rewrite Hc'. by rewrite lookup_delete_ne, lookup_insert_ne.
Qed.
End views.
