(* ===== verification/DirnodeSpec.v ===== *)
(** * A dirnode implements a directory

    The refinement theorems of the dirnode operations of [Dirnode.v] against
    the abstract directory [dir_view], a finite map from names to typed links:
    creation, lookup, insertion, removal, renaming inside one directory and
    across two, listing, and lookup by UUID.  The theorems at the end describe
    the behaviours a caller must avoid. *)
From S2P Require Import Prelude Hashmap Types AttributeTable Dirnode.

Section helpers.
Implicit Types (d : nexus_dirnode) (h : dheap) (n : bytes) (v : dir_view).

Lemma repr_count C nx d gn gu :
  dn_inv C nx d gn gu -> dir_entry_count d < 2 ^ 29 ->
  Z.of_nat (length (dirents_list d)) < 2 ^ 29.
Proof. intros Hi. by rewrite (di_count _ _ _ _ _ Hi). Qed.

Lemma name_take n : name_ok n -> take (Z.to_nat NEXUS_NAME_MAX) n = n.
Proof. intros [_ ?]. apply take_ge. change (Z.to_nat NEXUS_NAME_MAX) with 256%nat. lia. Qed.

(** The whole insertion, with what it does to the rest of the heap. *)
Lemma dirnode_add_spec d h rnd n type u gn gu :
  0 < next_addr h -> dn_inv (cells h) (next_addr h) d gn gu -> name_ok n -> uuid_ok u ->
  Z.of_nat (length (dirents_list d)) < 2 ^ 29 ->
  (gn !! n <> None ->
     exists d', dirnode_add d h rnd n type u = Some (d', h, -1) /\
       dn_inv (cells h) (next_addr h) d' gn gu /\ symlink_list d' = symlink_list d) /\
  (gn !! n = None ->
     exists d' h' p r, dirnode_add d h rnd n type u = Some (d', h', 0) /\
       dn_inv (cells h') (next_addr h') d' (<[n := next_addr h]> gn) (<[u := next_addr h]> gu) /\
       cells h' = <[next_addr h := {| de_bucket := Some p; de_rec := r |}]> (cells h) /\
       dr_type r = type /\ link_uuid r = u /\ next_addr h < next_addr h' /\
       dirents_list d' = dirents_list d ++ [next_addr h] /\
       symlink_list d' = symlink_list d /\ symlink_count d' = symlink_count d /\
       symlink_buflen d' = symlink_buflen d /\ dn_metadata d' = const true <$> dn_metadata d).
Proof.
  intros Hnx Hi Hn Hu Hsz. destruct (find_by_name_spec _ _ _ _ _ n Hi Hn) as (l & Hf & Hil).
  unfold dirnode_add. rewrite Hf. destruct (gn !! n) as [a|] eqn:Hg; (split; intros Hx; [|try done]).
  - eauto.
  - done.
  - destruct (new_dir_entry_spec h u type n Hn Hu) as (r & -> & Hr & Hrn & Hrt & Hru).
    cbn [mbind option_bind].
    set (d1 := clear_last_failed_lookup _).
    set (h1 := {| cells := _; next_addr := next_addr h + 1 |}).
    assert (Hi1 : dn_inv (cells h1) (next_addr h1) d1 gn gu).
    { eapply (dn_inv_frame (cells h) _ (next_addr h)); [|simpl; lia|].
      - by apply dn_inv_lookup.
      - intros a Ha. simpl. apply lookup_insert_ne. intros <-. by eapply fresh_not_in in Hi. }
    destruct (dirnode_add_direntry_spec d1 h1 rnd gn gu (next_addr h) r Hi1)
      as (d' & h' & p & -> & Hi' & Hdl & Hc & Hnx' & Hs1 & Hs2 & Hs3 & _ & Hmd);
      [apply lookup_insert_eq|done|simpl; lia|by eapply fresh_not_in in Hi|by rewrite Hrn|done|].
    cbn [mbind option_bind]. exists d', h', p, r. rewrite Hrn, Hru in Hi'.
    split; [done|]. split; [done|]. split; [rewrite Hc; apply insert_insert_eq|].
    simpl in Hnx'. split_and!; try done; lia.
Qed.

(** The view after a fresh entry took a name. *)
Lemma view_added C C' nx d gn gu n p r :
  dn_inv C nx d gn gu -> C' = <[nx := {| de_bucket := Some p; de_rec := r |}]> C ->
  view C' (<[n := nx]> gn) = <[n := (dr_type r, link_uuid r)]> (view C gn).
Proof.
  intros Hi ->. rewrite (view_insert _ _ _ _ {| de_bucket := Some p; de_rec := r |})
    by apply lookup_insert_eq. f_equal. apply view_frame. intros m a Ha. unfold link_of.
  rewrite lookup_insert_ne; [done|]. intros <-. apply (fresh_not_in _ _ _ _ _ Hi). by eapply in_dirents.
Qed.

Lemma dirnode_remove_entry_spec d h n out gn gu :
  dn_inv (cells h) (next_addr h) d gn gu -> name_ok n ->
  Z.of_nat (length (dirents_list d)) <= 2 ^ 29 ->
  exists d' h' gu', dirnode_remove_entry d h n out =
      Some (d', h', if decide (gn !! n = None) then -1 else 0,
            default out (gn !! n ≫= link_of (cells h))) /\
    dn_inv (cells h') (next_addr h') d' (delete n gn) gu' /\ next_addr h' = next_addr h /\
    symlink_list d' = symlink_list d /\
    (forall a, a ∉ dirents_list d -> cells h' !! a = cells h !! a) /\
    (forall m a, delete n gn !! m = Some a -> cells h' !! a = cells h !! a).
Proof.
  intros Hi Hn Hsz. destruct (find_by_name_spec _ _ _ _ _ n Hi Hn) as (l & Hf & Hil).
  unfold dirnode_remove_entry. rewrite Hf. destruct (gn !! n) as [a|] eqn:Hg.
  - destruct (di_cell _ _ _ _ _ Hi _ _ Hg) as (_ & de & Hc & Hne & Hr).
    rewrite Hc. cbn [mbind option_bind].
    destruct (clobber_spec _ _ _ _ n a Hil Hg Hsz)
      as (d' & h' & gu' & -> & Hi' & Hdl & Hc' & Hnx & Hsl & _).
    cbn [mbind option_bind]. exists d', h', gu'.
    assert (Hcell : forall x, x <> a -> cells h' !! x = cells h !! x).
    { intros x Hx. rewrite Hc'. by apply lookup_delete_ne. }
    split_and!; try done.
    + unfold link_of. by rewrite Hc.
    + intros x Hx. apply Hcell. intros ->. apply Hx. by eapply in_dirents.
    + intros m x [Hm Hx]%lookup_delete_Some. apply Hcell. intros ->. apply Hm.
      by eapply (dn_addr_inj _ _ d).
  - exists (with_lookup d l (dn_metadata d)), h, gu. rewrite delete_id by done. by split_and!.
Qed.
End helpers.

(** ** Insertion and creation, for the clients *)
(** A new dirnode holds the empty directory. *)
Lemma create_repr root me h rnd :
  0 < next_addr h ->
  let '(d, h') := dirnode_create root me h rnd in
  dir_repr h' d ∅ /\ my_uuid d = me /\ root_uuid d = root /\ bucket_count d = 1.
Proof.
  intros Hnx. unfold dirnode_create. cbn -[hashmap_init]. split; [|done]. cbn -[hashmap_init].
  split; [simpl; lia|]. exists ∅, ∅. split; [|done].
  assert (Hr1 : hm_repr strhash name_ok (hashmap_init 16) ∅) by (by apply repr_init).
  assert (Hr2 : hm_repr memhash uuid_ok (hashmap_init 16) ∅) by (by apply repr_init).
  split; cbn -[hashmap_init]; try done.
  - apply NoDup_nil_2.
  - intros a. split; [by intros ?%not_elem_of_nil|]. intros [n Hn]. by rewrite lookup_empty in Hn.
  - split; simpl; [apply NoDup_singleton|apply Forall_singleton; simpl; lia|done|].
    apply Forall_singleton. split; simpl; try done. intros a Ha. by apply not_elem_of_nil in Ha.
Qed.

(** Insertion against the abstract directory. *)
Lemma add_repr d h rnd n type u v :
  dir_repr h d v -> name_ok n -> uuid_ok u -> dir_entry_count d < 2 ^ 29 ->
  exists d' h' ret, dirnode_add d h rnd n type u = Some (d', h', ret) /\
    match v !! n with
    | Some _ => ret = -1 /\ dir_repr h' d' v
    | None => ret = 0 /\ dir_repr h' d' (<[n := (type, u)]> v)
    end.
Proof.
  intros (Hnx & gn & gu & Hi & ->) Hn Hu Hsz.
  destruct (dirnode_add_spec d h rnd n type u gn gu Hnx Hi Hn Hu) as [Hold Hnew];
    [by eapply repr_count|].
  pose proof (view_None _ _ _ _ _ n Hi) as Hvn. destruct (view (cells h) gn !! n) as [x|] eqn:Hv.
  - destruct Hold as (d' & -> & Hi' & _); [by intros ?%Hvn|]. eexists _, _, _. split; [done|].
    split; [done|]. split; [done|]. eauto.
  - destruct Hnew as (d' & h' & p & r & -> & Hi' & Hc & Ht & Hl & Hlt & _); [by apply Hvn|].
    eexists _, _, _. split; [done|]. split; [done|]. split; [lia|]. eexists _, _. split; [done|].
    by rewrite (view_added _ _ _ _ _ _ n p r Hi Hc), Ht, Hl.
Qed.

(** ** An example directory *)
(** A directory with one file, [a], in a heap whose next address is above [base]. *)
Definition new_dir (base : Z) : nexus_dirnode * dheap :=
  dirnode_create (uuid_const 1) (uuid_const 2) {| cells := ∅; next_addr := base |} (uuid_const 3).
Definition one_dir : nexus_dirnode * dheap :=
  let '(d, h) := new_dir 1 in
  match dirnode_add d h (uuid_const 3) [97] NEXUS_REG (uuid_const 7) with
  | Some (d, h, _) => (d, h)
  | None => (d, h)
  end.
Definition one_view : dir_view := {[ [97] := (NEXUS_REG, uuid_const 7) ]}.

Lemma name_a_ok : name_ok [97].
Proof. split; [|simpl; lia]. constructor; [lia|constructor]. Qed.
Lemma name_b_ok : name_ok [98].
Proof. split; [|simpl; lia]. constructor; [lia|constructor]. Qed.

Lemma one_dir_repr : dir_repr one_dir.2 one_dir.1 one_view.
Proof.
  unfold one_dir. pose proof (create_repr (uuid_const 1) (uuid_const 2)
    {| cells := ∅; next_addr := 1 |} (uuid_const 3)) as Hc. fold (new_dir 1) in Hc.
  assert (Hz : dir_entry_count (new_dir 1).1 = 0) by (by vm_compute).
  destruct (new_dir 1) as [d h]. destruct Hc as [Hr _]; [simpl; lia|].
  destruct (add_repr d h (uuid_const 3) [97] NEXUS_REG (uuid_const 7) ∅ Hr name_a_ok)
    as (d' & h' & ret & -> & Hv); [apply uuid_const_ok; unfold byte_ok; lia|simpl in Hz; lia|].
  rewrite lookup_empty in Hv. by destruct Hv as [_ Hv].
Qed.

(** An empty directory next to it, in the same heap. *)
Definition other_dir : nexus_dirnode * dheap :=
  dirnode_create (uuid_const 1) (uuid_const 4) one_dir.2 (uuid_const 5).

Lemma other_dir_repr :
  dir_repr other_dir.2 other_dir.1 ∅ /\ dir_repr other_dir.2 one_dir.1 one_view /\
  dirents_list other_dir.1 = [] /\ dir_entry_count other_dir.1 = 0.
Proof.
  destruct one_dir_repr as (Hnx & gn & gu & Hi & Hv).
  pose proof (create_repr (uuid_const 1) (uuid_const 4) one_dir.2 (uuid_const 5) Hnx) as Hc.
  assert (Hcells : cells other_dir.2 = cells one_dir.2) by (by vm_compute).
  assert (Hnext : next_addr one_dir.2 <= next_addr other_dir.2) by (by vm_compute).
  assert (Hempty : dirents_list other_dir.1 = [] /\ dir_entry_count other_dir.1 = 0) by (by vm_compute).
  fold other_dir in Hc. destruct other_dir as [d h]. cbn [fst snd] in *.
  destruct Hc as (Hc & _). split; [done|]. split; [|done].
  split; [lia|]. exists gn, gu. rewrite Hcells. split; [|done].
  by eapply (dn_inv_frame (cells one_dir.2) _ (next_addr one_dir.2)).
Qed.

Lemma one_dir_count : dir_entry_count one_dir.1 = 1.
Proof. by vm_compute. Qed.

(** ** Properties *)
(** A new dirnode is an empty directory with one bucket. *)
Theorem dirnode_create_empty root me h rnd :
  0 < next_addr h ->
  let '(d, h') := dirnode_create root me h rnd in
  dir_repr h' d ∅ /\ my_uuid d = me /\ root_uuid d = root /\ bucket_count d = 1.
Proof. apply create_repr. Qed.

Lemma dirnode_create_empty_witness :
  let '(d, h') := new_dir 1 in
  dir_repr h' d ∅ /\ my_uuid d = uuid_const 2 /\ root_uuid d = uuid_const 1 /\ bucket_count d = 1.
Proof. apply dirnode_create_empty. simpl. lia. Defined.

(** A lookup by name returns exactly the link the directory holds under
    that name, and leaves the directory as it was; the cached failed lookup
    never hides an entry. *)
Theorem dirnode_find_by_name_refines d h v n :
  dir_repr h d v -> name_ok n ->
  let '(d', res) := dirnode_find_by_name d h n in res = v !! n /\ dir_repr h d' v.
Proof.
  intros (Hnx & gn & gu & Hi & ->) Hn. unfold dirnode_find_by_name.
  destruct (find_by_name_spec _ _ _ _ _ n Hi Hn) as (l & -> & Hil).
  split; [by rewrite view_lookup|]. split; [done|]. eauto.
Qed.

Lemma dirnode_find_by_name_witness :
  let '(d', res) := dirnode_find_by_name one_dir.1 one_dir.2 [97] in
  res = one_view !! [97] /\ dir_repr one_dir.2 d' one_view.
Proof. apply dirnode_find_by_name_refines; [apply one_dir_repr|apply name_a_ok]. Defined.

(** C15: [dirnode_add] refuses a name that is taken, returning -1 and keeping
    the directory; otherwise it returns 0 and the directory gains exactly
    that link. *)
Theorem dirnode_add_refines d h rnd n type u v :
  dir_repr h d v -> name_ok n -> uuid_ok u -> dir_entry_count d < 2 ^ 29 ->
  exists d' h' ret, dirnode_add d h rnd n type u = Some (d', h', ret) /\
    match v !! n with
    | Some _ => ret = -1 /\ dir_repr h' d' v
    | None => ret = 0 /\ dir_repr h' d' (<[n := (type, u)]> v)
    end.
Proof. apply add_repr. Qed.

Lemma dirnode_add_witness :
  exists d' h' ret, dirnode_add one_dir.1 one_dir.2 (uuid_const 3) [98] NEXUS_DIR (uuid_const 8) = Some (d', h', ret) /\
    match one_view !! [98] with
    | Some _ => ret = -1 /\ dir_repr h' d' one_view
    | None => ret = 0 /\ dir_repr h' d' (<[[98] := (NEXUS_DIR, uuid_const 8)]> one_view)
    end.
Proof.
  apply dirnode_add_refines; [apply one_dir_repr|apply name_b_ok|apply uuid_const_ok; unfold byte_ok; lia|].
  rewrite one_dir_count. lia.
Defined.

(** C16: [dirnode_remove] of a name the directory lacks returns -1 and leaves
    the caller's outputs alone; otherwise it returns 0 with the type and UUID
    of the link, and the name is gone while every other link stays. *)
Theorem dirnode_remove_refines d h n out v :
  dir_repr h d v -> name_ok n -> dir_entry_count d < 2 ^ 29 ->
  exists d' h' ret out' target, dirnode_remove d h n out = Some (d', h', ret, out', target) /\
    dir_repr h' d' (delete n v) /\
    match v !! n with
    | Some link => ret = 0 /\ out' = link
    | None => ret = -1 /\ out' = out
    end.
Proof.
  intros (Hnx & gn & gu & Hi & ->) Hn Hsz.
  assert (Hl : Z.of_nat (length (dirents_list d)) < 2 ^ 29) by (by eapply repr_count).
  destruct (dirnode_remove_entry_spec d h n out gn gu Hi Hn)
    as (d' & h' & gu' & Hrm & Hi' & Hnx' & Hsl & _ & Hf); [lia|].
  unfold dirnode_remove. rewrite Hrm. cbn [mbind option_bind].
  assert (Hview : delete n (view (cells h) gn) = view (cells h') (delete n gn)).
  { rewrite <- view_delete. symmetry. apply view_frame. intros m a Ha. unfold link_of. by rewrite (Hf m). }
  assert (Hout : match view (cells h) gn !! n with
    | Some link => (if decide (gn !! n = None) then -1 else 0) = 0 /\ default out (gn !! n ≫= link_of (cells h)) = link
    | None => (if decide (gn !! n = None) then -1 else 0) = -1 /\ default out (gn !! n ≫= link_of (cells h)) = out
    end).
  { pose proof (view_None _ _ _ _ _ n Hi) as Hvn. rewrite view_lookup in *.
    destruct (gn !! n ≫= link_of (cells h)) as [lk|]; simpl.
    - rewrite decide_False; [done|]. intros Hx. by apply Hvn in Hx.
    - rewrite decide_True; [done|]. by apply Hvn. }
  set (o := default out _) in *. rewrite Hview.
  destruct (decide (o.1 = NEXUS_LNK)).
  - unfold remove_symlink. destruct (find_symlink d' o.2) as [[i s]|];
      (do 5 eexists; split; [done|]; split; [|exact Hout]); (split; [lia|]);
      eexists _, _; split; [|done| |done]; [by apply dn_inv_symlinks|done].
  - do 5 eexists. split; [done|]. split; [|exact Hout]. split; [lia|]. eauto.
Qed.

Lemma dirnode_remove_witness :
  exists d' h' ret out' target,
    dirnode_remove one_dir.1 one_dir.2 [97] (NEXUS_REG, uuid_const 0) = Some (d', h', ret, out', target) /\
    dir_repr h' d' (delete [97] one_view) /\
    match one_view !! [97] with
    | Some link => ret = 0 /\ out' = link
    | None => ret = -1 /\ out' = (NEXUS_REG, uuid_const 0)
    end.
Proof. apply dirnode_remove_refines; [apply one_dir_repr|apply name_a_ok|rewrite one_dir_count; lia]. Defined.

(** ** Renaming *)
Section rename.
Implicit Types (d : nexus_dirnode) (h : dheap) (n : bytes) (v : dir_view)
  (gn : gmap bytes Z) (gu : gmap uuid Z).

(** A loose entry takes a new name and joins a directory. *)
Lemma attach_renamed d h rnd gn gu a r n :
  dn_inv (cells h) (next_addr h) d gn gu ->
  cells h !! a = Some {| de_bucket := None; de_rec := r |} -> rec_ok r -> name_ok n ->
  0 < a < next_addr h -> a ∉ dirents_list d -> gn !! n = None ->
  Z.of_nat (length (dirents_list d)) < 2 ^ 29 ->
  exists h1 d' h' gu', rename_dir_entry h a n = Some h1 /\
    dirnode_add_direntry d h1 rnd a = Some (d', h') /\
    dn_inv (cells h') (next_addr h') d' (<[n := a]> gn) gu' /\
    (exists p r', cells h' !! a = Some {| de_bucket := Some p; de_rec := r' |} /\
       dr_type r' = dr_type r /\ link_uuid r' = link_uuid r) /\
    (forall x, x <> a -> cells h' !! x = cells h !! x) /\ next_addr h <= next_addr h' /\
    dirents_list d' = dirents_list d ++ [a] /\ symlink_list d' = symlink_list d.
Proof.
  intros Hi Hc Hr Hn Ha Hni Hg Hsz.
  destruct (rename_dir_entry_spec h a r n Hc Hr Hn) as (r' & Hren & Hr' & Hrn & Hrt & Hru).
  set (h1 := {| cells := _; next_addr := _ |}) in Hren.
  assert (Hi1 : dn_inv (cells h1) (next_addr h1) d gn gu).
  { eapply dn_inv_frame; [exact Hi|simpl; lia|]. intros x Hx. apply lookup_insert_ne. by intros <-. }
  destruct (dirnode_add_direntry_spec d h1 rnd gn gu a r' Hi1)
    as (d' & h' & p & Hadd & Hi' & Hdl & Hc' & Hnx & Hsl & _);
    [apply lookup_insert_eq|done|done|done|by rewrite Hrn|done|].
  rewrite Hrn in Hi'. exists h1, d', h', (<[link_uuid r' := a]> gu). split_and!; try done.
  - exists p, r'. rewrite Hc', lookup_insert_eq. done.
  - intros x Hx. rewrite Hc'. simpl. by rewrite !lookup_insert_ne.
Qed.

Lemma link_at h a p r :
  cells h !! a = Some {| de_bucket := p; de_rec := r |} ->
  link_of (cells h) a = Some (dr_type r, link_uuid r).
Proof. intros Hc. unfold link_of. by rewrite Hc. Qed.

Lemma dirents_le_remove (a : Z) (l : list Z) :
  (length (remove_first a l) <= length l)%nat.
Proof. induction l as [|b l IH]; simpl; [lia|]. destruct (decide (a = b)); simpl; lia. Qed.

(** Removing one entry from the directory and giving it a new name. *)
Lemma detach_attach_same d h rnd gn gu a old new :
  dn_inv (cells h) (next_addr h) d gn gu -> gn !! old = Some a -> gn !! new = None ->
  name_ok new -> Z.of_nat (length (dirents_list d)) < 2 ^ 29 ->
  exists d1 h1 h2 d2 h3 gu' t u p r, dirnode_del_direntry d h a = Some (d1, h1) /\
    rename_dir_entry h1 a new = Some h2 /\ dirnode_add_direntry d1 h2 rnd a = Some (d2, h3) /\
    dn_inv (cells h3) (next_addr h3) d2 (<[new := a]> (delete old gn)) gu' /\
    link_of (cells h) a = Some (t, u) /\ cells h3 !! a = Some {| de_bucket := Some p; de_rec := r |} /\
    dr_type r = t /\ link_uuid r = u /\
    (forall x, x <> a -> cells h3 !! x = cells h !! x) /\ next_addr h <= next_addr h3.
Proof.
  intros Hi Hold Hnew Hn Hsz.
  destruct (dirnode_del_direntry_spec d h gn gu old a Hi Hold)
    as (d1 & h1 & r & gu1 & Hdel & Hi1 & _ & Hdl & (p0 & Hc) & Hrn & Hr & Hc1 & Hnx1 & _); [lia|].
  destruct (di_cell _ _ _ _ _ Hi _ _ Hold) as (Hab & _).
  assert (Hne : old <> new) by congruence.
  destruct (attach_renamed d1 h1 rnd (delete old gn) gu1 a r new Hi1)
    as (h2 & d2 & h3 & gu' & Hren & Hadd & Hi3 & (p & r' & Hc3 & Ht & Hu) & Hf & Hnx & _);
    [rewrite Hc1; apply lookup_insert_eq|done|done|lia| | | |].
  { rewrite Hdl. intros [_ ?]%elem_of_remove_first; [done|apply Hi]. }
  { by rewrite lookup_delete_ne. }
  { rewrite Hdl. pose proof (dirents_le_remove a (dirents_list d)). lia. }
  exists d1, h1, h2, d2, h3, gu', (dr_type r), (link_uuid r), p, r'.
  split_and!; try done; [by eapply link_at| |lia].
  intros x Hx. rewrite Hf, Hc1 by done. by apply lookup_insert_ne.
Qed.

Lemma view_moved C C' gn a old new (lk : nexus_dirent_type * uuid) :
  (forall x, x <> a -> C' !! x = C !! x) -> link_of C' a = Some lk ->
  (forall m x, gn !! m = Some x -> x = a -> m = old) ->
  view C' (<[new := a]> (delete old gn)) = <[new := lk]> (delete old (view C gn)).
Proof.
  intros Hf Hlk Hinj. apply map_eq. intros m. rewrite view_lookup, !lookup_insert, !lookup_delete.
  destruct (decide (new = m)); [exact Hlk|]. destruct (decide (old = m)); [done|].
  rewrite view_lookup. destruct (gn !! m) as [x|] eqn:Hx; [|done]. simpl. unfold link_of.
  rewrite Hf; [done|]. intros ->. by apply (Hinj m a) in Hx.
Qed.
(** Making room for the new name: an existing entry is dropped and freed. *)
Lemma overwrite_spec (ds : dirnodes) h t d gn gu new :
  dn_inv (cells h) (next_addr h) d gn gu -> ds !! t = Some d ->
  Z.of_nat (length (dirents_list d)) < 2 ^ 29 ->
  exists h' gu' d3,
    (match gn !! new with
     | None => Some (ds, h, None)
     | Some da =>
         de ← cells h !! da;
         dd ← ds !! t;
         '(dd, h) ← dirnode_clobber_dir_entry dd h da;
         Some (<[t := dd]> ds, h, Some (link_uuid (de_rec de), dr_type (de_rec de)))
     end) = Some (<[t := d3]> ds, h', (fun l => (l.2, l.1)) <$> view (cells h) gn !! new) /\
    dn_inv (cells h') (next_addr h') d3 (delete new gn) gu' /\
    (length (dirents_list d3) <= length (dirents_list d))%nat /\ next_addr h' = next_addr h /\
    (forall x, x ∈ dirents_list d3 -> x ∈ dirents_list d) /\
    (forall x, x ∉ dirents_list d -> cells h' !! x = cells h !! x) /\
    (forall m x, delete new gn !! m = Some x -> cells h' !! x = cells h !! x).
Proof.
  intros Hi Ht Hsz. rewrite view_lookup. destruct (gn !! new) as [da|] eqn:Hgn; simpl.
  - destruct (di_cell _ _ _ _ _ Hi _ _ Hgn) as (_ & de & Hc & _). unfold link_of. rewrite Hc. simpl.
    rewrite Ht. simpl.
    destruct (clobber_spec d h gn gu new da Hi Hgn) as (d3 & h' & gu' & -> & Hi3 & Hdl & Hc' & Hn' & _);
      [lia|]. simpl. exists h', gu', d3. split; [done|].
    assert (Hcell : forall x, x <> da -> cells h' !! x = cells h !! x).
    { intros x Hx. rewrite Hc'. by apply lookup_delete_ne. }
    split_and!; try done.
    + rewrite Hdl. apply dirents_le_remove.
    + intros x Hx. rewrite Hdl in Hx. by eapply remove_first_sub.
    + intros x Hx. apply Hcell. intros ->. apply Hx. by eapply in_dirents.
    + intros m x [Hm Hx]%lookup_delete_Some. apply Hcell. intros ->.
      apply Hm. by eapply (dn_addr_inj _ _ d).
  - exists h, gu, d. rewrite insert_id, delete_id by done. by split_and!.
Qed.
End rename.

(** Renaming inside one directory, for the file system operations too. *)
Lemma rename_same_spec ds h rnd s d v old new :
  ds !! s = Some d -> dir_repr h d v -> name_ok old -> name_ok new -> old <> new ->
  dir_entry_count d < 2 ^ 29 ->
  exists ds' h' d' res, dirnode_rename ds h rnd s old s new = Some (ds', h', res) /\
    ds' !! s = Some d' /\ (forall x, x <> s -> ds' !! x = ds !! x) /\
    match v !! old with
    | None => rn_ret res = -1 /\ dir_repr h' d' v
    | Some link => rn_ret res = 0 /\ rn_src res = Some (link.2, link.1) /\
        rn_overwrite res = (fun l => (l.2, l.1)) <$> v !! new /\
        dir_repr h' d' (<[new := link]> (delete old v))
    end.
Proof.
  intros Hs (Hnx & gn & gu & Hi & ->) Hold Hnew Hne Hcnt.
  assert (Hsz : Z.of_nat (length (dirents_list d)) < 2 ^ 29) by (by eapply repr_count).
  unfold dirnode_rename. rewrite Hs. cbn [mbind option_bind].
  destruct (find_by_name_spec _ _ _ _ _ old Hi Hold) as (l & -> & Hi1). rewrite view_lookup.
  destruct (gn !! old) as [sa|] eqn:Hgo; cbn [mbind option_bind].
  2:{ eexists _, _, _, _. split; [done|]. rewrite lookup_insert_eq. split; [done|].
      split; [intros; by rewrite lookup_insert_ne|]. split; [done|]. split; [done|]. eauto. }
  rewrite lookup_insert_eq. cbn [mbind option_bind].
  destruct (find_by_name_spec _ _ _ _ _ new Hi1 Hnew) as (l2 & -> & Hi2).
  set (d2 := with_lookup _ l2 _) in *.
  destruct (overwrite_spec (<[s := d2]> (<[s := with_lookup d l (dn_metadata d)]> ds)) h s d2 gn gu new Hi2)
    as (h' & gu' & d3 & -> & Hi3 & Hlen & Hn' & _ & _ & Hcf); [apply lookup_insert_eq|done|].
  cbn [mbind option_bind]. rewrite lookup_insert_eq. cbn [mbind option_bind].
  assert (Hgo' : delete new gn !! old = Some sa) by (by rewrite lookup_delete_ne).
  destruct (detach_attach_same d3 h' rnd (delete new gn) gu' sa old new Hi3 Hgo')
    as (d4 & h1 & h2 & d5 & h3 & gu3 & t & u & p & r & -> & Hren & Hadd & Hi5 & Hlk & Hc3 & Ht & Hu & Hf & Hnx3);
    [apply lookup_delete_eq|done|simpl in Hlen; lia|].
  cbn [mbind option_bind]. rewrite Hren. cbn [mbind option_bind]. rewrite lookup_insert_eq.
  cbn [mbind option_bind]. rewrite Hadd. cbn [mbind option_bind]. rewrite Hc3.
  cbn [mbind option_bind de_rec]. rewrite Z.eqb_refl. cbn [mbind option_bind].
  assert (Hlk0 : link_of (cells h) sa = Some (t, u)).
  { rewrite <- Hlk. unfold link_of. by rewrite (Hcf old). }
  rewrite Hlk0. eexists _, _, d5, _. split; [done|]. rewrite lookup_insert_eq.
  split; [done|]. split; [intros x Hx; by rewrite !lookup_insert_ne|].
  split; [done|]. simpl. rewrite Ht, Hu. split; [done|]. split; [done|].
  split; [lia|]. eexists _, gu3. split; [exact Hi5|].
  rewrite (view_moved (cells h') (cells h3) (delete new gn) sa old new (t, u)); [|done| |].
  - rewrite (view_frame (cells h) (cells h') (delete new gn))
      by (intros m x Hm; unfold link_of; by rewrite (Hcf m)).
    rewrite view_delete. apply map_eq. intros m. rewrite !lookup_insert, !lookup_delete.
    by repeat case_decide.
  - unfold link_of. rewrite Hc3. simpl. by rewrite Ht, Hu.
  - intros m x Hm ->. by eapply (dn_addr_inj _ _ d3).
Qed.

(** Renaming inside one directory: a missing source returns -1 and keeps
    the directory; otherwise the link moves to the new name, replacing what
    was there, the overwritten link is reported, and every other name and
    every other dirnode is untouched. *)
Theorem dirnode_rename_same_dir ds h rnd s d v old new :
  ds !! s = Some d -> dir_repr h d v -> name_ok old -> name_ok new -> old <> new ->
  dir_entry_count d < 2 ^ 29 ->
  exists ds' h' d' res, dirnode_rename ds h rnd s old s new = Some (ds', h', res) /\
    ds' !! s = Some d' /\ (forall x, x <> s -> ds' !! x = ds !! x) /\
    match v !! old with
    | None => rn_ret res = -1 /\ dir_repr h' d' v
    | Some link => rn_ret res = 0 /\ rn_src res = Some (link.2, link.1) /\
        rn_overwrite res = (fun l => (l.2, l.1)) <$> v !! new /\
        dir_repr h' d' (<[new := link]> (delete old v))
    end.
Proof. apply rename_same_spec. Qed.

Lemma dirnode_rename_same_witness :
  exists ds' h' d' res, dirnode_rename {[ 5 := one_dir.1 ]} one_dir.2 (uuid_const 3) 5 [97] 5 [98] = Some (ds', h', res) /\
    ds' !! 5 = Some d' /\ (forall x, x <> 5 -> ds' !! x = ({[ 5 := one_dir.1 ]} : dirnodes) !! x) /\
    match one_view !! [97] with
    | None => rn_ret res = -1 /\ dir_repr h' d' one_view
    | Some link => rn_ret res = 0 /\ rn_src res = Some (link.2, link.1) /\
        rn_overwrite res = (fun l => (l.2, l.1)) <$> one_view !! [98] /\
        dir_repr h' d' (<[[98] := link]> (delete [97] one_view))
    end.
Proof.
  apply (dirnode_rename_same_dir _ _ _ _ one_dir.1 one_view); [apply lookup_singleton_eq|apply one_dir_repr|
    apply name_a_ok|apply name_b_ok|discriminate|rewrite one_dir_count; lia].
Defined.

Section rename_cross.
Implicit Types (d : nexus_dirnode) (h : dheap) (n : bytes) (v : dir_view)
  (gn : gmap bytes Z) (gu : gmap uuid Z).

(** Moving a symlink's target never touches the entries. *)
Lemma move_symlink_inv (ds : dirnodes) C nx s t u sd td gns gus gnt gut :
  ds !! s = Some sd -> ds !! t = Some td -> s <> t ->
  dn_inv C nx sd gns gus -> dn_inv C nx td gnt gut ->
  exists ds' sd' td', move_symlink ds s t u = Some ds' /\
    ds' !! s = Some sd' /\ ds' !! t = Some td' /\ (forall x, x <> s -> x <> t -> ds' !! x = ds !! x) /\
    dn_inv C nx sd' gns gus /\ dn_inv C nx td' gnt gut.
Proof.
  intros Hs Ht Hne His Hit. unfold move_symlink. rewrite Hs. cbn [mbind option_bind].
  unfold remove_symlink. destruct (find_symlink sd u) as [[i sl]|].
  - rewrite lookup_insert_ne, Ht by done. cbn [mbind option_bind]. eexists _, _, _. split; [done|].
    rewrite lookup_insert_ne, lookup_insert_eq by done. split; [done|]. rewrite lookup_insert_eq.
    split; [done|]. split; [intros; by rewrite !lookup_insert_ne|].
    split; [by apply dn_inv_symlinks|]. apply dn_inv_dirty. by apply dn_inv_symlinks.
  - exists (<[s := sd]> ds), sd, td. rewrite lookup_insert_eq, lookup_insert_ne by done.
    split_and!; try done. intros. by rewrite lookup_insert_ne.
Qed.

(** One entry leaves a directory and joins another. *)
Lemma detach_attach_cross sd td h rnd gns gus gnt gut a old new :
  dn_inv (cells h) (next_addr h) sd gns gus -> dn_inv (cells h) (next_addr h) td gnt gut ->
  (forall x, x ∈ dirents_list sd -> x ∉ dirents_list td) ->
  gns !! old = Some a -> gnt !! new = None -> name_ok new ->
  Z.of_nat (length (dirents_list sd)) < 2 ^ 29 -> Z.of_nat (length (dirents_list td)) < 2 ^ 29 ->
  exists sd' h1 h2 td' h3 gus' gut' t u p r, dirnode_del_direntry sd h a = Some (sd', h1) /\
    rename_dir_entry h1 a new = Some h2 /\ dirnode_add_direntry td h2 rnd a = Some (td', h3) /\
    dn_inv (cells h3) (next_addr h3) sd' (delete old gns) gus' /\
    dn_inv (cells h3) (next_addr h3) td' (<[new := a]> gnt) gut' /\
    link_of (cells h) a = Some (t, u) /\ cells h3 !! a = Some {| de_bucket := Some p; de_rec := r |} /\
    dr_type r = t /\ link_uuid r = u /\
    (forall x, x <> a -> cells h3 !! x = cells h !! x) /\ next_addr h <= next_addr h3.
Proof.
  intros His Hit Hdisj Hold Hnew Hn Hszs Hszt.
  destruct (dirnode_del_direntry_spec sd h gns gus old a His Hold)
    as (sd' & h1 & r & gus' & Hdel & His1 & _ & Hdl & (p0 & Hc) & Hrn & Hr & Hc1 & Hnx1 & _); [lia|].
  destruct (di_cell _ _ _ _ _ His _ _ Hold) as (Hab & _).
  assert (Hnt : a ∉ dirents_list td) by (eapply Hdisj, in_dirents; eauto).
  assert (Hit1 : dn_inv (cells h1) (next_addr h1) td gnt gut).
  { eapply dn_inv_frame; [exact Hit|lia|]. intros x Hx. rewrite Hc1. apply lookup_insert_ne.
    by intros <-. }
  destruct (attach_renamed td h1 rnd gnt gut a r new Hit1)
    as (h2 & td' & h3 & gut' & Hren & Hadd & Hit3 & (p & r' & Hc3 & Ht & Hu) & Hf & Hnx & _);
    [rewrite Hc1; apply lookup_insert_eq|done|done|lia|done|done|done|].
  exists sd', h1, h2, td', h3, gus', gut', (dr_type r), (link_uuid r), p, r'.
  split_and!; try done; [|by eapply link_at| |lia].
  - eapply dn_inv_frame; [exact His1|lia|]. intros x Hx. apply Hf. intros ->.
    rewrite Hdl in Hx. apply elem_of_remove_first in Hx as [_ ?]; [done|apply His].
  - intros x Hx. rewrite Hf, Hc1 by done. by apply lookup_insert_ne.
Qed.

Lemma view_gone C C' gn a old :
  (forall x, x <> a -> C' !! x = C !! x) -> (forall m x, gn !! m = Some x -> x = a -> m = old) ->
  view C' (delete old gn) = delete old (view C gn).
Proof.
  intros Hf Hinj. rewrite <- view_delete. apply view_frame. intros m x [Hm Hx]%lookup_delete_Some.
  unfold link_of. rewrite Hf; [done|]. intros ->. by apply (Hinj m a) in Hx.
Qed.

Lemma view_gained C C' gn a new (lk : nexus_dirent_type * uuid) :
  (forall x, x <> a -> C' !! x = C !! x) -> link_of C' a = Some lk ->
  (forall m x, gn !! m = Some x -> x <> a) ->
  view C' (<[new := a]> gn) = <[new := lk]> (view C gn).
Proof.
  intros Hf Hlk Hno. apply map_eq. intros m. rewrite view_lookup, !lookup_insert.
  destruct (decide (new = m)); [exact Hlk|]. rewrite view_lookup.
  destruct (gn !! m) as [x|] eqn:Hx; [|done]. simpl. unfold link_of. rewrite Hf; [done|]. by eapply Hno.
Qed.
End rename_cross.

(** Renaming from one directory to another: a missing source returns -1
    and both directories stay; otherwise the link leaves the first directory
    and is bound to the new name in the second, replacing and reporting what
    was there; all other names and dirnodes are untouched. *)
Theorem dirnode_rename_across ds h rnd s t sd td vs vt old new :
  ds !! s = Some sd -> ds !! t = Some td -> s <> t -> dir_repr h sd vs -> dir_repr h td vt ->
  (forall x, x ∈ dirents_list sd -> x ∉ dirents_list td) -> name_ok old -> name_ok new ->
  dir_entry_count sd < 2 ^ 29 -> dir_entry_count td < 2 ^ 29 ->
  exists ds' h' sd' td' res, dirnode_rename ds h rnd s old t new = Some (ds', h', res) /\
    ds' !! s = Some sd' /\ ds' !! t = Some td' /\
    (forall x, x <> s -> x <> t -> ds' !! x = ds !! x) /\
    match vs !! old with
    | None => rn_ret res = -1 /\ dir_repr h' sd' vs /\ dir_repr h' td' vt
    | Some link => rn_ret res = 0 /\ rn_src res = Some (link.2, link.1) /\
        rn_overwrite res = (fun l => (l.2, l.1)) <$> vt !! new /\
        dir_repr h' sd' (delete old vs) /\ dir_repr h' td' (<[new := link]> vt)
    end.
Proof.
  intros Hs Ht Hst (Hnx & gns & gus & His & ->) (_ & gnt & gut & Hit & ->) Hdisj Hold Hnew Hcs Hct.
  apply (repr_count _ _ _ _ _ His) in Hcs. apply (repr_count _ _ _ _ _ Hit) in Hct.
  unfold dirnode_rename. rewrite Hs. cbn [mbind option_bind].
  destruct (find_by_name_spec _ _ _ _ _ old His Hold) as (l & -> & His1). rewrite view_lookup.
  set (sd1 := with_lookup sd l _) in *.
  destruct (gns !! old) as [sa|] eqn:Hgo; cbn [mbind option_bind].
  2:{ eexists _, _, _, td, _. split; [done|]. rewrite lookup_insert_eq, lookup_insert_ne by done.
      split; [done|]. split; [done|]. split; [intros; by rewrite lookup_insert_ne|].
      split; [done|]. split; (split; [done|]); eauto. }
  rewrite lookup_insert_ne, Ht by done. cbn [mbind option_bind].
  destruct (find_by_name_spec _ _ _ _ _ new Hit Hnew) as (l2 & -> & Hit2).
  set (td2 := with_lookup td l2 _) in *.
  destruct (overwrite_spec (<[t := td2]> (<[s := sd1]> ds)) h t td2 gnt gut new Hit2)
    as (h1 & gut' & td3 & -> & Hit3 & Hlen & Hn1 & Hsub & Hfr & Hcf); [apply lookup_insert_eq|done|].
  cbn [mbind option_bind]. rewrite lookup_insert_ne by done. rewrite lookup_insert_ne by done.
  rewrite lookup_insert_eq. cbn [mbind option_bind].
  assert (His3 : dn_inv (cells h1) (next_addr h1) sd1 gns gus).
  { eapply dn_inv_frame; [exact His1|lia|]. intros x Hx. by apply Hfr, Hdisj. }
  destruct (detach_attach_cross sd1 td3 h1 rnd gns gus (delete new gnt) gut' sa old new His3 Hit3)
    as (sd4 & h2 & h3 & td4 & h4 & gus4 & gut4 & ty & u & p & r & -> & Hren & Hadd & His4 & Hit4 & Hlk
        & Hc4 & Hty & Hu & Hf & Hnx4); [|done|apply lookup_delete_eq|done|done|simpl in Hlen; lia|].
  { intros x Hx Hx'. by apply (Hdisj x), Hsub. }
  cbn [mbind option_bind]. rewrite Hren. cbn [mbind option_bind].
  rewrite lookup_insert_ne, lookup_insert_eq by done. cbn [mbind option_bind]. rewrite Hadd.
  cbn [mbind option_bind]. rewrite Hc4. cbn [mbind option_bind de_rec].
  rewrite (proj2 (Z.eqb_neq s t)) by done.
  match goal with |- context [move_symlink ?x _ _ _] =>
    destruct (move_symlink_inv x (cells h4) (next_addr h4) s t (link_uuid r) sd4 td4 (delete old gns) gus4
      (<[new := sa]> (delete new gnt)) gut4) as (ds' & sd5 & td5 & -> & Hs5 & Ht5 & Ho5 & His5 & Hit5)
  end; [by rewrite lookup_insert_ne, lookup_insert_eq by done|by rewrite lookup_insert_eq|done|done|done|].
  cbn [mbind option_bind].
  assert (Hsain : sa ∈ dirents_list sd) by (eapply in_dirents; eauto).
  assert (Hlk0 : link_of (cells h) sa = Some (ty, u)).
  { rewrite <- Hlk. unfold link_of. rewrite Hfr; [done|]. by apply Hdisj. }
  rewrite Hlk0. eexists ds', _, sd5, td5, _. split; [done|]. split; [done|]. split; [done|].
  split; [intros x Hx1 Hx2; rewrite Ho5 by done; by rewrite !lookup_insert_ne|].
  simpl. rewrite Hty, Hu. split; [done|]. split; [done|]. split; [done|].
  split; (split; [lia|]); eexists _, _; (split; [eassumption|]).
  - rewrite (view_gone (cells h1) (cells h4) gns sa old Hf); [f_equal; symmetry; apply view_frame|].
    + intros m x Hm. unfold link_of. rewrite Hfr; [done|]. apply Hdisj. by eapply (in_dirents _ _ sd).
    + intros m x Hm ->. by eapply (dn_addr_inj _ _ sd).
  - rewrite (view_gained (cells h1) (cells h4) _ sa new (ty, u) Hf).
    + rewrite (view_frame (cells h) (cells h1) (delete new gnt))
        by (intros m x Hm; unfold link_of; by rewrite (Hcf m)).
      by rewrite view_delete, insert_delete_eq.
    + unfold link_of. rewrite Hc4. simpl. by rewrite Hty, Hu.
    + intros m x Hm ->. apply (Hdisj sa Hsain). apply Hsub. by eapply (in_dirents _ _ td3).
Qed.

Lemma dirnode_rename_across_witness :
  exists ds' h' sd' td' res,
    dirnode_rename {[ 5 := one_dir.1; 6 := other_dir.1 ]} other_dir.2 (uuid_const 3) 5 [97] 6 [98] = Some (ds', h', res) /\
    ds' !! 5 = Some sd' /\ ds' !! 6 = Some td' /\
    (forall x, x <> 5 -> x <> 6 -> ds' !! x = ({[ 5 := one_dir.1; 6 := other_dir.1 ]} : dirnodes) !! x) /\
    match one_view !! [97] with
    | None => rn_ret res = -1 /\ dir_repr h' sd' one_view /\ dir_repr h' td' ∅
    | Some link => rn_ret res = 0 /\ rn_src res = Some (link.2, link.1) /\
        rn_overwrite res = (fun l => (l.2, l.1)) <$> (∅ : dir_view) !! [98] /\
        dir_repr h' sd' (delete [97] one_view) /\ dir_repr h' td' (<[[98] := link]> ∅)
    end.
Proof.
  destruct other_dir_repr as (Ho & Hs & Hl & Hc).
  apply (dirnode_rename_across _ _ _ _ _ one_dir.1 other_dir.1 one_view ∅);
    [reflexivity|reflexivity|discriminate|exact Hs|exact Ho| |apply name_a_ok|apply name_b_ok
    |rewrite one_dir_count; lia|rewrite Hc; lia].
  rewrite Hl. intros x _. apply not_elem_of_nil.
Defined.

(** ** Listing *)
Section listing.
Implicit Types (d : nexus_dirnode) (h : dheap) (l : list Z) (L : list nexus_dirent).

(** The entries a listing walks over, all live. *)
Definition listed h (a : Z) (e : nexus_dirent) : Prop :=
  exists de, cells h !! a = Some de /\ e = dirent_of (de_rec de).

Lemma readdir_copy h l L count copied :
  Forall2 (listed h) l L -> 0 <= copied < count ->
  readdir_loop h l 0 count copied = Some (take (Z.to_nat (count - copied)) L).
Proof.
  intros Hl. revert copied. induction Hl as [|a e l L (de & Hc & ->) _ IH]; intros copied Hb.
  - by rewrite take_nil.
  - simpl. rewrite Hc. cbn [mbind option_bind]. destruct (Z.eqb_spec (copied + 1) count) as [<-|].
    + by replace (Z.to_nat (copied + 1 - copied)) with 1%nat by lia.
    + rewrite IH by lia. cbn [mbind option_bind].
      by replace (Z.to_nat (count - copied)) with (S (Z.to_nat (count - (copied + 1)))) by lia.
Qed.

Lemma readdir_skip h l L count offset :
  Forall2 (listed h) l L -> 0 < count -> 0 <= offset ->
  readdir_loop h l offset count 0 = Some (take (Z.to_nat count) (drop (Z.to_nat offset) L)).
Proof.
  intros Hl Hc. revert offset. induction Hl as [|a e l L Ha Hl IH]; intros offset Ho.
  - by rewrite drop_nil, take_nil.
  - destruct (Z.eqb_spec offset 0) as [->|].
    + rewrite (readdir_copy _ _ (e :: L)) by (by constructor || lia). by rewrite Z.sub_0_r.
    + cbn [readdir_loop]. rewrite (proj2 (Z.eqb_neq offset 0)) by done. cbn [negb].
      rewrite IH by lia. by replace (Z.to_nat offset) with (S (Z.to_nat (offset - 1))) by lia.
Qed.

(** The listing as an association list of the abstract directory. *)
Definition dirent_link (e : nexus_dirent) : bytes * (nexus_dirent_type * uuid) :=
  (dt_name e, (dt_type e, dt_uuid e)).

Lemma listing_exists C nx d gn gu h l :
  cells h = C -> dn_inv C nx d gn gu -> (forall a, a ∈ l -> a ∈ dirents_list d) -> NoDup l ->
  exists L, Forall2 (listed h) l L /\ NoDup (dt_name <$> L) /\
    forall n, n ∈ dt_name <$> L <-> exists a, a ∈ l /\ gn !! n = Some a.
Proof.
  intros HC Hi. induction l as [|a l IH]; intros Hsub Hnd.
  - exists []. split; [constructor|]. split; [by apply NoDup_nil_2|]. intros n. split.
    + by intros ?%not_elem_of_nil.
    + intros (a & Ha%not_elem_of_nil & _). done.
  - apply NoDup_cons in Hnd as [Ha Hnd]. destruct IH as (L & HL & HndL & Hdom); [|done|].
    { intros x Hx. apply Hsub. by right. }
    destruct (proj1 (di_dom _ _ _ _ _ Hi a)) as [n Hn]; [apply Hsub; left|].
    destruct (di_cell _ _ _ _ _ Hi _ _ Hn) as (_ & de & Hc & Hdn & Hr).
    assert (Hname : dt_name (dirent_of (de_rec de)) = n).
    { simpl. rewrite Hdn. apply name_take. rewrite <- Hdn. apply Hr. }
    exists (dirent_of (de_rec de) :: L). split.
    { constructor; [|done]. exists de. by rewrite HC. }
    rewrite fmap_cons, Hname. split.
    + apply NoDup_cons. split; [|done]. rewrite Hdom. intros (a' & Ha' & Hn'). by simplify_eq.
    + intros m. rewrite elem_of_cons, Hdom. split.
      * intros [->|(a' & ? & ?)]; [exists a|exists a']; (split; [|done]); [left|by right].
      * intros (a' & [->|Ha']%elem_of_cons & Hm); [left; by eapply (dn_addr_inj _ _ d)|right; eauto].
Qed.
End listing.

(** Reading a directory in pages: with a non-empty buffer the call
    returns exactly the [count] entries that follow [offset] in one fixed
    listing, which names every link of the directory once, and it reports
    the size of the whole directory. *)
Theorem dirnode_readdir_pages d h v :
  dir_repr h d v ->
  exists L, NoDup (dt_name <$> L) /\ list_to_map (dirent_link <$> L) = v /\
    forall count offset, 1 <= count -> 0 <= offset ->
      dirnode_readdir d h count offset =
        Some (0, take (Z.to_nat count) (drop (Z.to_nat offset) L), Z.of_nat (length L)).
Proof.
  intros (Hnx & gn & gu & Hi & ->).
  destruct (listing_exists _ _ d gn gu h (dirents_list d) eq_refl Hi) as (L & HL & Hnd & Hdom);
    [done|apply Hi|].
  exists L. split; [done|]. split.
  - apply map_eq. intros n. rewrite view_lookup.
    assert (Hnd' : NoDup (dirent_link <$> L).*1) by (by rewrite <- list_fmap_compose).
    destruct (gn !! n) as [a|] eqn:Hg; simpl.
    + destruct (di_cell _ _ _ _ _ Hi _ _ Hg) as (_ & de & Hc & Hdn & Hr). unfold link_of.
      rewrite Hc. simpl. apply elem_of_list_to_map; [done|].
      assert (Ha : a ∈ dirents_list d) by (by eapply in_dirents).
      apply list_elem_of_lookup in Ha as [i Hli].
      destruct (Forall2_lookup_l _ _ _ _ _ HL Hli) as (e & Hle & de' & Hc' & ->). simplify_eq.
      apply list_elem_of_fmap. eexists. split; [|by eapply list_elem_of_lookup_2].
      unfold dirent_link. simpl. rewrite name_take; [done|]. apply Hr.
    + apply not_elem_of_list_to_map. rewrite <- list_fmap_compose. intros Hin.
      apply Hdom in Hin as (a & _ & Ha). congruence.
  - intros count offset Hc Ho. unfold dirnode_readdir. rewrite (proj2 (Z.ltb_ge count 1)) by lia.
    pose proof (di_count _ _ _ _ _ Hi) as Hct. rewrite (Forall2_length _ _ _ HL) in Hct.
    rewrite Hct. destruct (Z.leb_spec (Z.of_nat (length L)) offset).
    + rewrite drop_ge by lia. by rewrite take_nil.
    + by rewrite (readdir_skip _ _ L) by (done || lia).
Qed.

Lemma dirnode_readdir_witness :
  exists L, NoDup (dt_name <$> L) /\ list_to_map (dirent_link <$> L) = one_view /\
    forall count offset, 1 <= count -> 0 <= offset ->
      dirnode_readdir one_dir.1 one_dir.2 count offset =
        Some (0, take (Z.to_nat count) (drop (Z.to_nat offset) L), Z.of_nat (length L)).
Proof. apply dirnode_readdir_pages, one_dir_repr. Defined.

(** A lookup by UUID never lies: the name and type it returns are those
    of an entry of the directory that links to that UUID, and the reported
    length is the length of the name. *)
Theorem dirnode_find_by_uuid_sound d h v u t n len :
  dir_repr h d v -> uuid_ok u -> dirnode_find_by_uuid d h u = Some (t, n, len) ->
  v !! n = Some (t, u) /\ len = Z.of_nat (length n).
Proof.
  intros (Hnx & gn & gu & Hi & ->) Hu. unfold dirnode_find_by_uuid, find_by_uuid.
  rewrite (repr_get _ _ uuid_ok uuid_compare_eq _ gu); [|apply Hi|done|].
  2:{ intros u' Hg. apply (di_ucell _ _ _ _ _ Hi) in Hg as (Hin & _).
      apply (di_dom _ _ _ _ _ Hi) in Hin as [m Hm]. apply (di_cell _ _ _ _ _ Hi) in Hm.
      unfold STACK_ADDR in Hm. lia. }
  destruct (gu !! u) as [a|] eqn:Hg; [|done]. cbn [mbind option_bind].
  destruct (di_ucell _ _ _ _ _ Hi _ _ Hg) as (Hin & de & Hc & Hlu).
  apply (di_dom _ _ _ _ _ Hi) in Hin as [m Hm].
  destruct (di_cell _ _ _ _ _ Hi _ _ Hm) as (_ & de' & Hc' & Hn & Hr).
  rewrite Hc. cbn [mbind option_bind]. intros [= <- <- <-]. simplify_eq.
  split; [|apply Hr]. rewrite view_lookup, Hm. simpl. unfold link_of. by rewrite Hc.
Qed.

Lemma dirnode_find_by_uuid_witness :
  dirnode_find_by_uuid one_dir.1 one_dir.2 (uuid_const 7) = Some (NEXUS_REG, [97], 1) /\
  one_view !! [97] = Some (NEXUS_REG, uuid_const 7) /\ 1 = Z.of_nat (length [97]).
Proof.
  assert (Hf : dirnode_find_by_uuid one_dir.1 one_dir.2 (uuid_const 7) = Some (NEXUS_REG, [97], 1)) by (by vm_compute).
  split; [exact Hf|]. refine (dirnode_find_by_uuid_sound one_dir.1 one_dir.2 one_view _ _ _ _ one_dir_repr _ Hf).
  apply uuid_const_ok. unfold byte_ok. lia.
Defined.

(** ** Symbolic links *)
Section links.
Implicit Types (d : nexus_dirnode) (h : dheap) (u : uuid).

Definition target_ok (t : bytes) : Prop :=
  cstr_ok t /\ Z.of_nat (length t) <= NEXUS_PATH_MAX.

Lemma target_take t :
  target_ok t -> Z.of_nat (strnlen t (Z.to_nat NEXUS_PATH_MAX)) = Z.of_nat (length t) /\
    take (Z.to_nat NEXUS_PATH_MAX) t = t.
Proof. intros [_ Ht]. unfold strnlen. split; [lia|]. apply take_ge. lia. Qed.

(** The symlink a fresh UUID was stored under. *)
Lemma find_symlink_added d u t :
  uuid_ok u -> find_symlink d u = None -> target_ok t ->
  find_symlink (dirnode_add_symlink d u t) u =
    Some (length (symlink_list d),
          {| total_len := u8 (Z.of_nat (length t) + SYMLINK_HDR_SIZE + 1); sl_uuid := u;
             target_len := u16 (Z.of_nat (length t)); target_path := t |}).
Proof.
  intros Hu Hn Ht. destruct (target_take t Ht) as [Hl Htk]. unfold find_symlink. simpl.
  rewrite Hl, take_ge by lia. rewrite list_find_app_r by done. simpl.
  rewrite decide_True by (by apply uuid_compare_eq). done.
Qed.

Lemma find_symlink_list d d' u :
  symlink_list d' = symlink_list d -> find_symlink d' u = find_symlink d u.
Proof. unfold find_symlink. by intros ->. Qed.
End links.

(** Adding a symbolic link, for the file system operations too. *)
Lemma add_link_spec d h rnd n u t v :
  dir_repr h d v -> name_ok n -> uuid_ok u -> target_ok t -> v !! n = None ->
  find_symlink d u = None -> dir_entry_count d < 2 ^ 29 ->
  exists d' h', dirnode_add_link d h rnd n t u = Some (d', h', 0) /\
    dir_repr h' d' (<[n := (NEXUS_LNK, u)]> v) /\ dirnode_get_link d' u = Some t.
Proof.
  intros (Hnx & gn & gu & Hi & ->) Hn Hu Ht Hv Hf Hsz.
  destruct (dirnode_add_spec d h rnd n NEXUS_LNK u gn gu Hnx Hi Hn Hu) as [_ Hnew];
    [by eapply repr_count|].
  destruct Hnew as (d' & h' & p & r & Hadd & Hi' & Hc & Ht' & Hl & Hlt & _ & Hs & _);
    [by eapply view_None|].
  unfold dirnode_add_link. rewrite Hadd. cbn [mbind option_bind]. eexists _, _. split; [done|]. split.
  - split; [lia|]. eexists _, _. split; [apply dn_inv_dirty, dn_inv_symlinks; exact Hi'|].
    by rewrite (view_added _ _ _ _ _ _ n p r Hi Hc), Ht', Hl.
  - unfold dirnode_get_link.
    rewrite find_symlink_added by (done || (rewrite (find_symlink_list d); done)).
    simpl. by rewrite (proj2 (target_take t Ht)).
Qed.

(** Making a symbolic link under a free name binds the name, and reading
    the link returns the whole target. *)
Theorem dirnode_add_link_reads_back d h rnd n u t v :
  dir_repr h d v -> name_ok n -> uuid_ok u -> target_ok t -> v !! n = None ->
  find_symlink d u = None -> dir_entry_count d < 2 ^ 29 ->
  exists d' h', dirnode_add_link d h rnd n t u = Some (d', h', 0) /\
    dir_repr h' d' (<[n := (NEXUS_LNK, u)]> v) /\ dirnode_get_link d' u = Some t.
Proof. apply add_link_spec. Qed.

Lemma dirnode_add_link_witness :
  exists d' h', dirnode_add_link one_dir.1 one_dir.2 (uuid_const 3) [98] [47; 97] (uuid_const 9) = Some (d', h', 0) /\
    dir_repr h' d' (<[[98] := (NEXUS_LNK, uuid_const 9)]> one_view) /\
    dirnode_get_link d' (uuid_const 9) = Some [47; 97].
Proof.
  apply dirnode_add_link_reads_back; [apply one_dir_repr|apply name_b_ok|apply uuid_const_ok; unfold byte_ok; lia| | |
    |rewrite one_dir_count; lia].
  - split; [repeat constructor; lia|]. simpl. unfold NEXUS_PATH_MAX. lia.
  - reflexivity.
  - vm_compute. reflexivity.
Defined.

(** Removing the target just added restores the symlink list and hands
    the target back, but the byte count of the serialized symlinks is
    restored only for targets of at most 235 bytes: the entry keeps its
    length in eight bits, so a longer target leaves the count too large. *)
Theorem remove_symlink_restores d u t :
  find_symlink d u = None -> uuid_ok u -> target_ok t ->
  in_range 64 (symlink_count d) -> in_range 64 (symlink_buflen d) ->
  let '(d', ret, path) := remove_symlink (dirnode_add_symlink d u t) u in
  ret = 0 /\ path = Some t /\ symlink_list d' = symlink_list d /\
  symlink_count d' = symlink_count d /\
  (symlink_buflen d' = symlink_buflen d <-> Z.of_nat (length t) <= 235).
Proof.
  intros Hf Hu Ht Hc Hb. unfold remove_symlink. rewrite find_symlink_added by done.
  destruct (target_take t Ht) as [Hl Htk].
  cbn [symlink_list symlink_count symlink_buflen with_symlinks target_path total_len]. simpl.
  rewrite Hl. split; [done|]. split; [by rewrite Htk|].
  split; [|split; [by apply wrap_add_sub|]].
  - by rewrite delete_middle, app_nil_r.
  - destruct Ht as [_ Ht]. unfold NEXUS_PATH_MAX in Ht. unfold SYMLINK_HDR_SIZE in *. unfold in_range in Hb.
    rewrite wrap_sub_l. unfold wrap. split.
    + intros Heq. destruct (Z.le_gt_cases (Z.of_nat (length t)) 235); [done|]. exfalso.
      assert (Hm : 0 <= (Z.of_nat (length t) + 19 + 1) mod 2 ^ 8 < 256) by (apply Z.mod_pos_bound; lia).
      set (L := Z.of_nat (length t) + 19 + 1) in *. set (M := L mod 2 ^ 8) in *.
      destruct (Z.lt_ge_cases (symlink_buflen d + L - M) (2 ^ 64)).
      * rewrite Z.mod_small in Heq by lia. lia.
      * rewrite <- (Z_mod_plus_full _ (-1)), Z.mod_small in Heq by lia. lia.
    + intros Hle. rewrite (Z.mod_small _ (2 ^ 8)) by lia. rewrite Z.add_simpl_r. by apply Z.mod_small.
Qed.

Lemma remove_symlink_restores_witness :
  let '(d', ret, path) := remove_symlink (dirnode_add_symlink one_dir.1 (uuid_const 9) (replicate 300 97)) (uuid_const 9) in
  ret = 0 /\ path = Some (replicate 300 97) /\ symlink_list d' = symlink_list one_dir.1 /\
  symlink_count d' = symlink_count one_dir.1 /\
  (symlink_buflen d' = symlink_buflen one_dir.1 <-> Z.of_nat (length (replicate 300 97)) <= 235).
Proof.
  apply remove_symlink_restores.
  - vm_compute. reflexivity.
  - apply uuid_const_ok. unfold byte_ok. lia.
  - split; [apply Forall_replicate; lia|]. rewrite length_replicate. unfold NEXUS_PATH_MAX. lia.
  - vm_compute. split; [discriminate|reflexivity].
  - vm_compute. split; [discriminate|reflexivity].
Defined.

(** ** Dropping empty buckets *)
Section empties.
Implicit Types (C : cellmap) (bs : list dir_bucket) (b : dir_bucket).

Lemma delete_empty_loop_spec C bs kept gone :
  Forall (bucket_ok C) bs -> delete_empty_loop bs = (kept, gone) ->
  kept `sublist_of` bs /\ concat (dir_entries <$> kept) = concat (dir_entries <$> bs) /\
  length bs = (length kept + length gone)%nat /\
  Forall (fun b => is_dirty b = true -> dir_entries b <> []) kept /\
  Forall (fun u => exists b, b ∈ bs /\ b_uuid b = u /\ dir_entries b = []) gone.
Proof.
  intros Hok. revert kept gone.
  induction Hok as [|b bs Hb Hbs IH]; intros kept gone Hd; simpl in Hd; [by simplify_eq|].
  destruct (delete_empty_loop bs) as [k g]. destruct (IH _ _ eq_refl) as (H1 & H2 & H3 & H4 & H5).
  assert (Hg : Forall (fun u => exists b', b' ∈ b :: bs /\ b_uuid b' = u /\ dir_entries b' = []) g).
  { eapply Forall_impl; [exact H5|]. intros u (b' & ? & ? & ?). exists b'. split; [by right|done]. }
  pose proof (bo_items _ _ Hb) as Hn. destruct (is_dirty b && (num_items b =? 0)) eqn:Ed; simplify_eq.
  - apply andb_true_iff in Ed as [_ Ez%Z.eqb_eq].
    assert (Hnil : dir_entries b = []) by (apply nil_length_inv; lia).
    split; [by apply sublist_cons|]. rewrite fmap_cons. cbn [concat length]. rewrite Hnil, H2, H3. split_and!; try done; try lia.
    constructor; [|done]. exists b. split; [left|done].
  - split; [by apply sublist_skip|]. rewrite !fmap_cons. cbn [concat length]. rewrite H2, H3. split_and!; try done.
    constructor; [|done]. intros Hdty Hnil. rewrite Hdty in Ed. simpl in Ed. apply Z.eqb_neq in Ed.
    rewrite Hnil in Hn. by apply Ed.
Qed.

(** Every bucket is either kept or dropped. *)
Lemma delete_empty_split bs kept gone :
  delete_empty_loop bs = (kept, gone) -> b_uuid <$> bs ≡ₚ (b_uuid <$> kept) ++ gone.
Proof.
  revert kept gone. induction bs as [|b bs IH]; intros kept gone Hd; simpl in Hd; [by simplify_eq|].
  destruct (delete_empty_loop bs) as [k g]. rewrite fmap_cons, (IH _ _ eq_refl).
  destruct (is_dirty b && (num_items b =? 0)); simplify_eq; [apply Permutation_middle|done].
Qed.

Lemma delete_empty_repr d h v b0 bs kept gone :
  dir_repr h d v -> bucket_list d = b0 :: bs -> delete_empty_loop bs = (kept, gone) ->
  dir_repr h (with_buckets d (b0 :: kept) (bucket_count d -64 Z.of_nat (length gone))) v.
Proof.
  intros (Hnx & gn & gu & Hi & ->) Eb El.
  pose proof (di_buckets _ _ _ _ _ Hi) as [B1 B2 B3 B4]. pose proof (di_bcount _ _ _ _ _ Hi) as Hbc.
  rewrite Eb in B1, B2, B3, B4, Hbc. apply Forall_cons in B4 as [B40 B4].
  destruct (delete_empty_loop_spec _ _ _ _ B4 El) as (H1 & H2 & H3 & H4 & H5).
  assert (Hsub : b0 :: kept `sublist_of` b0 :: bs) by (by apply sublist_skip).
  split; [done|]. exists gn, gu. split; [|done]. destruct Hi; split; try done.
  - split; simpl.
    + eapply sublist_NoDup; [exact B1|]. exact (fmap_sublist b_addr _ _ Hsub).
    + by eapply Forall_sublist.
    + by change (dir_entries b0 ++ concat (dir_entries <$> kept) ≡ₚ dirents_list d); rewrite H2.
    + apply Forall_cons. split; [done|]. by eapply Forall_sublist.
  - simpl. rewrite Hbc. simpl length. rewrite H3, wrap_sub_l. f_equal. lia.
Qed.
End empties.

(** Dropping the empty buckets before a flush keeps the directory and its
    invariant (the bucket count included): only buckets without entries are
    removed from the store, bucket 0 stays, and no modified bucket after it is
    left empty. *)
Theorem delete_empty_buckets_keeps_dir d h v :
  dir_repr h d v ->
  let '(d', gone) := delete_empty_dirnode_buckets d in
  dir_repr h d' v /\ head (bucket_list d') = head (bucket_list d) /\
  Forall (fun b => is_dirty b = true -> dir_entries b <> []) (tail (bucket_list d')) /\
  Forall (fun u => exists b, b ∈ bucket_list d /\ b_uuid b = u /\ dir_entries b = []) gone.
Proof.
  intros Hr. pose proof Hr as (Hnx & gn & gu & Hi & _). unfold delete_empty_dirnode_buckets.
  pose proof (di_buckets _ _ _ _ _ Hi) as [_ _ _ B4].
  destruct (bucket_list d) as [|b0 bs] eqn:Eb; [by destruct (di_nonempty _ _ _ _ _ Hi)|].
  apply Forall_cons in B4 as [_ B4]. destruct (delete_empty_loop bs) as [kept gone] eqn:El.
  destruct (delete_empty_loop_spec _ _ _ _ B4 El) as (_ & _ & _ & H4 & H5).
  split; [by eapply delete_empty_repr|]. split; [done|]. split; [done|].
  eapply Forall_impl; [exact H5|]. intros u (b & ? & ? & ?). exists b. split; [by right|done].
Qed.

Lemma delete_empty_buckets_witness :
  let '(d', gone) := delete_empty_dirnode_buckets one_dir.1 in
  dir_repr one_dir.2 d' one_view /\ head (bucket_list d') = head (bucket_list one_dir.1) /\
  Forall (fun b => is_dirty b = true -> dir_entries b <> []) (tail (bucket_list d')) /\
  Forall (fun u => exists b, b ∈ bucket_list one_dir.1 /\ b_uuid b = u /\ dir_entries b = []) gone.
Proof. apply delete_empty_buckets_keeps_dir, one_dir_repr. Defined.

(** ** Two behaviours callers must know *)
(** Renaming a file onto itself frees the entry before it is detached, so
    the operation goes on with a freed cell ([None], a memory error): callers
    have to filter out equal names. *)
Theorem dirnode_rename_self_use_after_free :
  dir_repr one_dir.2 one_dir.1 one_view /\
  dirnode_rename {[ 5 := one_dir.1 ]} one_dir.2 (uuid_const 3) 5 [97] 5 [97] = None.
Proof. split; [apply one_dir_repr|]. by vm_compute. Qed.

(** Two names for one file in a directory share one slot of the UUID
    index: once the newer name is removed, the file is still found by its
    older name but no longer by its UUID. *)
Theorem dirnode_hardlink_uuid_lost :
  exists d h, (let '(d, h) := one_dir in
     '(d, h, _) ← dirnode_add d h (uuid_const 3) [98] NEXUS_REG (uuid_const 7);
     '(d, h, _, _, _) ← dirnode_remove d h [98] (NEXUS_REG, uuid_const 0);
     Some (d, h)) = Some (d, h) /\
    snd (dirnode_find_by_name d h [97]) = Some (NEXUS_REG, uuid_const 7) /\
    dirnode_find_by_uuid d h (uuid_const 7) = None.
Proof. eexists _, _. split; [by vm_compute|]. split; by vm_compute. Qed.
