(* ===== verification/Gcm.v ===== *)
(** * The GCM mode of the bundled mbedtls, as the enclave drives it

    Models [mbedtls_gcm_starts], [mbedtls_gcm_update] and [mbedtls_gcm_finish]
    of [mbedtls/library/gcm.c].  The block cipher (AES, under [aes.c]) and the
    table-driven product [gcm_mult] are the operations of the class
    [BlockCipher]; the only fact used about them is that a block has sixteen
    bytes.  The lemmas relate decryption to encryption step by step and show
    when a message may be fed in pieces. *)
From S2P Require Import Prelude.

(** [cipher_block key block] is one ECB block, [gcm_mult key block] the
    product with the hash key derived from [key]. *)
Class BlockCipher := {
  cipher_block : bytes -> bytes -> bytes;
  gcm_mult : bytes -> bytes -> bytes;
  cipher_block_len : forall k b, length (cipher_block k b) = 16%nat;
  gcm_mult_len : forall k b, length (gcm_mult k b) = 16%nat
}.

Inductive gcm_mode := MBEDTLS_GCM_ENCRYPT | MBEDTLS_GCM_DECRYPT.

Definition opposite_mode (md : gcm_mode) : gcm_mode :=
  match md with
  | MBEDTLS_GCM_ENCRYPT => MBEDTLS_GCM_DECRYPT
  | MBEDTLS_GCM_DECRYPT => MBEDTLS_GCM_ENCRYPT
  end.

Record gcm_context := mk_gcm {
  gcm_key : bytes;
  gcm_len : Z;
  gcm_add_len : Z;
  base_ectr : bytes;
  gcm_y : bytes;
  gcm_buf : bytes;
  gcm_md : gcm_mode
}.

(** Big-endian store of 32 bits ([PUT_UINT32_BE]). *)
Definition put_uint32_be (n : Z) : bytes :=
  [Z.shiftr n 24 mod 256; Z.shiftr n 16 mod 256; Z.shiftr n 8 mod 256; n mod 256].

(** [buf[i] ^= p[i]] for [i < length p]. *)
Definition xor_into (buf p : bytes) : bytes :=
  zip_with Z.lxor buf p ++ drop (length p) buf.

(** The increment of the last four bytes of the counter, on the reversed
    block: stop at the first byte that does not wrap to 0. *)
Fixpoint incr_rev (n : nat) (r : bytes) : bytes :=
  match n, r with
  | S n', b :: r' => let b' := (b + 1) mod 256 in if b' =? 0 then 0 :: incr_rev n' r' else b' :: r'
  | _, _ => r
  end.

Definition incr_counter (y : bytes) : bytes := reverse (incr_rev 4 (reverse y)).

Section gcm.
Context `{BlockCipher}.

(** The absorb loops of [mbedtls_gcm_starts] over the IV and the additional
    data, sixteen bytes at a time. *)
Fixpoint absorb (fuel : nat) (key acc p : bytes) : bytes :=
  match fuel, p with
  | _, [] => acc
  | O, _ => acc
  | S fuel', _ => absorb fuel' key (gcm_mult key (xor_into acc (take 16 p))) (drop 16 p)
  end.

Definition zero_block : bytes := replicate 16 0.

(** [None] is [MBEDTLS_ERR_GCM_BAD_INPUT]. *)
Definition mbedtls_gcm_starts (key : bytes) (mode : gcm_mode) (iv add : bytes)
    : option gcm_context :=
  let iv_len := Z.of_nat (length iv) in
  let add_len := Z.of_nat (length add) in
  if (iv_len =? 0) || negb (Z.shiftr iv_len 61 =? 0) || negb (Z.shiftr add_len 61 =? 0) then None
  else
    let y :=
      if iv_len =? 12 then iv ++ [0; 0; 0; 1]
      else
        let work_buf := replicate 12 0 ++ put_uint32_be (iv_len * 8) in
        let y := absorb (length iv) key zero_block iv in
        gcm_mult key (xor_into y work_buf) in
    Some {| gcm_key := key; gcm_len := 0; gcm_add_len := add_len;
            base_ectr := cipher_block key y; gcm_y := y;
            gcm_buf := absorb (length add) key zero_block add; gcm_md := mode |}.

(** One pass of the loop of [mbedtls_gcm_update] over at most 16 bytes. *)
Definition gcm_block (c : gcm_context) (p : bytes) : gcm_context * bytes :=
  let y := incr_counter (gcm_y c) in
  let ectr := cipher_block (gcm_key c) y in
  let out := zip_with Z.lxor ectr p in
  let absorbed := match gcm_md c with MBEDTLS_GCM_DECRYPT => p | MBEDTLS_GCM_ENCRYPT => out end in
  ({| gcm_key := gcm_key c; gcm_len := gcm_len c; gcm_add_len := gcm_add_len c;
      base_ectr := base_ectr c; gcm_y := y;
      gcm_buf := gcm_mult (gcm_key c) (xor_into (gcm_buf c) absorbed); gcm_md := gcm_md c |}, out).

Fixpoint gcm_blocks (fuel : nat) (c : gcm_context) (p : bytes) : gcm_context * bytes :=
  match fuel, p with
  | _, [] => (c, [])
  | O, _ => (c, [])
  | S fuel', _ =>
      let '(c, out) := gcm_block c (take 16 p) in
      let '(c, rest) := gcm_blocks fuel' c (drop 16 p) in (c, out ++ rest)
  end.

Definition with_len (c : gcm_context) (n : Z) : gcm_context :=
  {| gcm_key := gcm_key c; gcm_len := n; gcm_add_len := gcm_add_len c; base_ectr := base_ectr c;
     gcm_y := gcm_y c; gcm_buf := gcm_buf c; gcm_md := gcm_md c |}.

Definition GCM_MAX_LEN : Z := 0xFFFFFFFE0.

(** The buffers of the callers never overlap. *)
Definition mbedtls_gcm_update (c : gcm_context) (input : bytes) : option (gcm_context * bytes) :=
  let length_ := Z.of_nat (length input) in
  if (gcm_len c +64 length_ <? gcm_len c) || (GCM_MAX_LEN <? gcm_len c +64 length_) then None
  else Some (gcm_blocks (length input) (with_len c (gcm_len c +64 length_)) input).

(** [tag_len] is always 16. *)
Definition mbedtls_gcm_finish (c : gcm_context) : bytes :=
  let orig_len := u64 (gcm_len c * 8) in
  let orig_add_len := u64 (gcm_add_len c * 8) in
  if (orig_len =? 0) && (orig_add_len =? 0) then base_ectr c
  else
    let work_buf := put_uint32_be (Z.shiftr orig_add_len 32) ++ put_uint32_be orig_add_len
                 ++ put_uint32_be (Z.shiftr orig_len 32) ++ put_uint32_be orig_len in
    zip_with Z.lxor (base_ectr c) (gcm_mult (gcm_key c) (xor_into (gcm_buf c) work_buf)).

(** ** Decryption follows encryption, and encryption decryption *)
(** The two contexts of one message: equal up to the direction. *)
Definition gcm_peer (e d : gcm_context) : Prop :=
  gcm_md d = opposite_mode (gcm_md e) /\
  gcm_key e = gcm_key d /\ gcm_len e = gcm_len d /\ gcm_add_len e = gcm_add_len d /\
  base_ectr e = base_ectr d /\ gcm_y e = gcm_y d /\ gcm_buf e = gcm_buf d.

Lemma gcm_starts_peer key md iv add e :
  mbedtls_gcm_starts key md iv add = Some e ->
  exists d, mbedtls_gcm_starts key (opposite_mode md) iv add = Some d /\ gcm_peer e d.
Proof.
  unfold mbedtls_gcm_starts. destruct (_ || _ || _); [done|]. intros [= <-].
  eexists. split; [done|]. done.
Qed.

Lemma gcm_peer_finish e d : gcm_peer e d -> mbedtls_gcm_finish e = mbedtls_gcm_finish d.
Proof. intros (_ & Hk & Hl & Ha & Hb & _ & Hf). unfold mbedtls_gcm_finish. by rewrite Hk, Hl, Ha, Hb, Hf. Qed.

Lemma xor_twice (k p : bytes) :
  (length p <= length k)%nat -> zip_with Z.lxor k (zip_with Z.lxor k p) = p.
Proof.
  revert p. induction k as [|x k IH]; intros [|y p] Hl; simpl in *; try done; try lia.
  rewrite <- Z.lxor_assoc, Z.lxor_nilpotent, Z.lxor_0_l, IH by lia. done.
Qed.

Lemma gcm_block_len c p :
  (length p <= 16)%nat -> length (snd (gcm_block c p)) = length p.
Proof. intros. simpl. rewrite length_zip_with, cipher_block_len. lia. Qed.

Lemma gcm_block_peer e d p :
  gcm_peer e d -> (length p <= 16)%nat ->
  let '(e', c) := gcm_block e p in
  exists d', gcm_block d c = (d', p) /\ gcm_peer e' d'.
Proof.
  intros (Hm & Hk & Hl & Ha & Hb & Hy & Hf) Hp. simpl. rewrite Hk, Hy, Hf.
  eexists. split.
  - unfold gcm_block. rewrite Hm, xor_twice; [done|]. by rewrite cipher_block_len.
  - destruct (gcm_md e); by split_and!.
Qed.

Lemma gcm_blocks_peer fuel e d p :
  gcm_peer e d -> (length p <= fuel)%nat ->
  let '(e', c) := gcm_blocks fuel e p in
  length c = length p /\
  forall fuel', (length p <= fuel')%nat -> exists d', gcm_blocks fuel' d c = (d', p) /\ gcm_peer e' d'.
Proof.
  revert e d p. induction fuel as [|fuel IH]; intros e d [|x p] Hp Hl; simpl in Hl; try lia.
  1,2: split; [done|]; intros [|fuel'] _; simpl; eauto.
  cbn [gcm_blocks]. remember (x :: p) as q eqn:Eq.
  assert (Htk : (length (take 16 q) <= 16)%nat) by (rewrite length_take; lia).
  pose proof (gcm_block_peer e d (take 16 q) Hp Htk) as Hb.
  pose proof (gcm_block_len e (take 16 q) Htk) as Hbl.
  destruct (gcm_block e (take 16 q)) as [e1 c1]. destruct Hb as (d1 & Hd1 & Hp1). simpl in Hbl.
  assert (Hdl : (length (drop 16 q) <= fuel)%nat) by (rewrite length_drop; subst q; simpl; lia).
  specialize (IH e1 d1 (drop 16 q) Hp1 Hdl). destruct (gcm_blocks fuel e1 (drop 16 q)) as [e2 c2].
  destruct IH as [Hc2 IH]. rewrite length_drop in Hc2. rewrite length_take in Hbl.
  split; [rewrite length_app, Hbl, Hc2; lia|].
  intros fuel' Hf'. destruct fuel' as [|fuel']; [subst q; simpl in Hf'; lia|].
  destruct (IH fuel') as (d' & Hd' & Hp').
  { rewrite length_drop. subst q. simpl in *. lia. }
  exists d'. split; [|done].
  assert (Hne : exists z zs, c1 ++ c2 = z :: zs).
  { destruct (c1 ++ c2) eqn:E; [|eauto]. apply (f_equal length) in E.
    rewrite length_app, Hbl, Hc2 in E. subst q. simpl in E. lia. }
  destruct Hne as (z & zs & Ez). cbn [gcm_blocks]. rewrite Ez, <- Ez.
  destruct (decide (length q <= 16)%nat) as [Hs|Hs].
  - assert (c2 = []) as ->. { apply nil_length_inv. lia. }
    rewrite app_nil_r, take_ge, drop_ge by lia. rewrite Hd1.
    rewrite (drop_ge q) in Hd' by lia. rewrite Hd', (take_ge q) by lia. by rewrite app_nil_r.
  - rewrite take_app_le, take_ge by lia. rewrite drop_app_ge by lia. rewrite Hd1.
    replace (16 - length c1)%nat with 0%nat by lia. rewrite drop_0, Hd'. by rewrite take_drop.
Qed.

Lemma gcm_update_peer e d p e' c :
  gcm_peer e d -> mbedtls_gcm_update e p = Some (e', c) ->
  length c = length p /\ exists d', mbedtls_gcm_update d c = Some (d', p) /\ gcm_peer e' d'.
Proof.
  intros Hp. unfold mbedtls_gcm_update.
  assert (Hl : gcm_len e = gcm_len d) by apply Hp.
  destruct (_ || _) eqn:Eg; [done|]. intros [= Hb].
  assert (Hp1 : gcm_peer (with_len e (gcm_len e +64 Z.of_nat (length p)))
                         (with_len d (gcm_len d +64 Z.of_nat (length p)))).
  { destruct Hp as (? & ? & ? & ? & ? & ? & ?). rewrite Hl. by split_and!. }
  pose proof (gcm_blocks_peer (length p) _ _ p Hp1 (Nat.le_refl _)) as Hr.
  rewrite Hb in Hr. destruct Hr as [Hc Hr]. split; [done|].
  destruct (Hr (length p)) as (d' & Hd' & Hpd); [done|].
  exists d'. split; [|done]. rewrite Hc, <- Hl, Eg. rewrite <- Hl in Hd'. by rewrite Hd'.
Qed.

(** ** Feeding a message in pieces *)
Lemma gcm_blocks_fuel f1 f2 c p :
  (length p <= f1)%nat -> (length p <= f2)%nat -> gcm_blocks f1 c p = gcm_blocks f2 c p.
Proof.
  revert f2 c p. induction f1 as [|f1 IH]; intros [|f2] c [|x p] H1 H2; simpl in H1, H2; try done; try lia.
  cbn [gcm_blocks]. destruct (gcm_block c (take 16 (x :: p))) as [c' o]. rewrite (IH f2); [done|rewrite length_drop; simpl; lia..].
Qed.

Lemma gcm_blocks_app n a b c fa fb f :
  length a = (16 * n)%nat -> (length a <= fa)%nat -> (length b <= fb)%nat ->
  (length (a ++ b) <= f)%nat ->
  gcm_blocks f c (a ++ b) =
    let '(c1, o1) := gcm_blocks fa c a in
    let '(c2, o2) := gcm_blocks fb c1 b in (c2, o1 ++ o2).
Proof.
  revert a c fa f. induction n as [|n IH]; intros a c fa f Hn Hfa Hfb Hf.
  - assert (a = []) as -> by (apply nil_length_inv; lia). simpl.
    assert (gcm_blocks fa c [] = (c, [])) as -> by (by destruct fa).
    simpl in Hf. rewrite (gcm_blocks_fuel f fb) by done. by destruct (gcm_blocks fb c b).
  - destruct a as [|x a]; [simpl in Hn; lia|]. destruct fa as [|fa]; [simpl in Hfa; lia|].
    destruct f as [|f]; [simpl in Hf; lia|]. cbn [gcm_blocks app].
    change (x :: a ++ b) with ((x :: a) ++ b). remember (x :: a) as q eqn:Eq.
    rewrite length_app in Hf. rewrite take_app_le, drop_app_le by lia.
    destruct (gcm_block c (take 16 q)) as [c1 o1].
    rewrite (IH (drop 16 q) c1 fa f) by (rewrite ?length_app, ?length_drop; lia).
    destruct (gcm_blocks fa c1 (drop 16 q)) as [c2 o2]. destruct (gcm_blocks fb c2 b) as [c3 o3].
    by rewrite app_assoc.
Qed.

Lemma gcm_blocks_with_len f c n p :
  gcm_blocks f (with_len c n) p = let '(c', o) := gcm_blocks f c p in (with_len c' n, o).
Proof.
  revert c p. induction f as [|f IH]; intros c [|x p]; try done. cbn [gcm_blocks].
  assert (Hb : gcm_block (with_len c n) (take 16 (x :: p)) =
                 let '(c', o) := gcm_block c (take 16 (x :: p)) in (with_len c' n, o)) by done.
  rewrite Hb. destruct (gcm_block c (take 16 (x :: p))) as [c1 o1]. rewrite IH.
  by destruct (gcm_blocks f c1 (drop 16 (x :: p))).
Qed.

Lemma gcm_blocks_len f c p c' o : gcm_blocks f c p = (c', o) -> gcm_len c' = gcm_len c.
Proof.
  revert c p c' o. induction f as [|f IH]; intros c [|x p] c' o Hb; simpl in Hb; try by simplify_eq.
  destruct (gcm_blocks f _ _) as [c2 o2] eqn:E. apply IH in E. by simplify_eq.
Qed.

Lemma gcm_blocks_ectr f c p c' o : gcm_blocks f c p = (c', o) -> base_ectr c' = base_ectr c.
Proof.
  revert c p c' o. induction f as [|f IH]; intros c [|x p] c' o Hb; simpl in Hb; try by simplify_eq.
  destruct (gcm_blocks f _ _) as [c2 o2] eqn:E. apply IH in E. by simplify_eq.
Qed.

Lemma gcm_update_ectr c p c' o : mbedtls_gcm_update c p = Some (c', o) -> base_ectr c' = base_ectr c.
Proof.
  unfold mbedtls_gcm_update. destruct (_ || _); [done|]. intros [= Hb].
  by apply gcm_blocks_ectr in Hb.
Qed.

(** The tag has sixteen bytes. *)
Lemma gcm_finish_len c : length (base_ectr c) = 16%nat -> length (mbedtls_gcm_finish c) = 16%nat.
Proof.
  intros Hl. unfold mbedtls_gcm_finish. destruct (_ && _); [done|].
  rewrite length_zip_with, gcm_mult_len. lia.
Qed.

(** A piece that is a whole number of blocks can be fed on its own. *)
Lemma gcm_update_app a b c :
  (16 | Z.of_nat (length a)) -> in_range 64 (gcm_len c) ->
  gcm_len c + Z.of_nat (length (a ++ b)) <= GCM_MAX_LEN ->
  mbedtls_gcm_update c (a ++ b) =
    ('(c1, o1) ← mbedtls_gcm_update c a; '(c2, o2) ← mbedtls_gcm_update c1 b; Some (c2, o1 ++ o2)).
Proof.
  intros [n Hn] Hc Hmax. unfold mbedtls_gcm_update. rewrite length_app, Nat2Z.inj_add in *.
  unfold GCM_MAX_LEN, in_range in *.
  rewrite !wrap_small by (unfold in_range; lia).
  rewrite !(proj2 (Z.ltb_ge _ _)) by lia. cbn [orb mbind option_bind].
  destruct (gcm_blocks (length a) (with_len c _) a) as [c1 o1] eqn:E1.
  pose proof (gcm_blocks_len _ _ _ _ _ E1) as Hl. simpl in Hl. rewrite Hl.
  rewrite !wrap_small by (unfold in_range; lia).
  rewrite !(proj2 (Z.ltb_ge _ _)) by lia. cbn [orb mbind option_bind].
  rewrite gcm_blocks_with_len in E1. destruct (gcm_blocks (length a) c a) as [c1' o1'] eqn:E1'.
  injection E1 as <- <-. rewrite gcm_blocks_with_len.
  rewrite (gcm_blocks_app (Z.to_nat n) a b c (length a) (length b)) by (rewrite ?length_app; lia).
  rewrite E1'.
  rewrite (gcm_blocks_with_len (length b) (with_len c1' _)), (gcm_blocks_with_len (length b) c1').
  destruct (gcm_blocks (length b) c1' b) as [c2 o2]. cbn -[Z.add]. by rewrite Z.add_assoc.
Qed.
End gcm.

(** A concrete block cipher, for the examples: the block is xored with the key. *)
Definition toy_block (k b : bytes) : bytes := take 16 (zip_with Z.lxor k b ++ replicate 16 0).

Lemma toy_block_len k b : length (toy_block k b) = 16%nat.
Proof. unfold toy_block. rewrite length_take, length_app, length_replicate. lia. Qed.

Definition toy_cipher : BlockCipher :=
  {| cipher_block := toy_block; gcm_mult := fun k b => toy_block k (reverse b);
     cipher_block_len := toy_block_len; gcm_mult_len := fun k b => toy_block_len k (reverse b) |}.
