(* ===== verification/Crypto.v ===== *)
(** * Crypto contexts and authenticated encryption of buffers

    Models [crypto_context.c] and the GCM drivers of [crypto.c].  A crypto
    context holds a raw 128-bit key, a 16-byte IV and the MAC.  The random
    draws of [nexus_generate_key] are arguments. *)
From S2P Require Import Prelude Types Gcm.

Definition GCM128_KEY_SIZE : nat := 16.
Definition GCM128_IV_SIZE : nat := 16.
Definition CRYPTO_BUFFER_SIZE : Z := 4096.

Record nexus_crypto_ctx := mk_ctx { ctx_key : bytes; ctx_iv : bytes; ctx_mac : mac }.

Definition key_ok (k : bytes) : Prop := length k = GCM128_KEY_SIZE /\ Forall byte_ok k.

Definition ctx_ok (c : nexus_crypto_ctx) : Prop :=
  key_ok (ctx_key c) /\ key_ok (ctx_iv c) /\ mac_ok (ctx_mac c).

(** ** crypto_context.c *)
(** [sizeof(struct __crypto_context_buf)]: 16 + 16 + 16. *)
Definition nexus_crypto_ctx_bufsize : Z := 48.

(** A new key and IV (the two draws), and a zero MAC. *)
Definition nexus_crypto_ctx_generate (draw : bytes * bytes) : nexus_crypto_ctx :=
  {| ctx_key := draw.1; ctx_iv := draw.2; ctx_mac := nexus_mac_zeroize |}.

Definition nexus_crypto_ctx_serialize (c : nexus_crypto_ctx) : bytes :=
  ctx_key c ++ ctx_iv c ++ ctx_mac c.

(** The buffer length is not looked at: a short buffer is an overread ([None]). *)
Definition nexus_crypto_ctx_parse : decoder nexus_crypto_ctx :=
  k <~ dec_bytes GCM128_KEY_SIZE;
  iv <~ dec_bytes GCM128_IV_SIZE;
  m <~ dec_bytes NEXUS_MAC_SIZE;
  dec_ret (mk_ctx k iv m).

Lemma ctx_parse_serialize c rest :
  ctx_ok c -> nexus_crypto_ctx_parse (nexus_crypto_ctx_serialize c ++ rest) = Some (c, rest).
Proof.
  destruct c as [k iv m]. intros ([Hk _] & [Hi _] & [Hm _]). simpl in *.
  unfold nexus_crypto_ctx_parse, nexus_crypto_ctx_serialize. cbn [ctx_key ctx_iv ctx_mac].
  rewrite <- !app_assoc. unfold dec_bind. by rewrite !dec_bytes_app.
Qed.

#[export] Instance crypto_ctx_codec : Codec nexus_crypto_ctx :=
  {| enc := nexus_crypto_ctx_serialize; dec := nexus_crypto_ctx_parse; enc_ok := ctx_ok;
     dec_enc := ctx_parse_serialize |}.

Lemma length_ctx_serialize c : ctx_ok c -> length (nexus_crypto_ctx_serialize c) = 48%nat.
Proof.
  intros ([Hk _] & [Hi _] & [Hm _]). unfold nexus_crypto_ctx_serialize.
  by rewrite !length_app, Hk, Hi, Hm.
Qed.

Lemma ctx_generate_ok draw : key_ok draw.1 -> key_ok draw.2 -> ctx_ok (nexus_crypto_ctx_generate draw).
Proof.
  intros. split; [done|]. split; [done|]. split; [done|]. simpl. unfold nexus_mac_zeroize.
  apply Forall_replicate. unfold byte_ok. lia.
Qed.

(** ** The GCM drivers of crypto.c *)
Section drivers.
Context `{BlockCipher}.

(** The loop in steps of [CRYPTO_BUFFER_SIZE]; [bytes_left] is an [int].
    The inner [None] is a failed [mbedtls_gcm_update]. *)
Fixpoint gcm_loop (fuel : nat) (c : gcm_context) (input : bytes) (bytes_left : Z)
    : option (gcm_context * bytes) :=
  if bytes_left <=? 0 then Some (c, [])
  else
    match fuel with
    | O => None
    | S fuel' =>
        let size := Z.min bytes_left CRYPTO_BUFFER_SIZE in
        '(c, out) ← mbedtls_gcm_update c (take (Z.to_nat size) input);
        '(c, rest) ← gcm_loop fuel' c (drop (Z.to_nat size) input) (bytes_left - size);
        Some (c, out ++ rest)
    end.

(** Return code, the context with its new MAC, and the bytes written to the
    ciphertext buffer.  [None]: the ignored [mbedtls_gcm_starts] failed. *)
Definition crypto_gcm_encrypt (ctx : nexus_crypto_ctx) (plaintext aad : bytes)
    : option (Z * nexus_crypto_ctx * bytes) :=
  c ← mbedtls_gcm_starts (ctx_key ctx) MBEDTLS_GCM_ENCRYPT (ctx_iv ctx) aad;
  match gcm_loop (length plaintext) c plaintext (s32 (Z.of_nat (length plaintext))) with
  | None => Some (-1, ctx, [])
  | Some (c, out) =>
      Some (0, {| ctx_key := ctx_key ctx; ctx_iv := ctx_iv ctx; ctx_mac := mbedtls_gcm_finish c |}, out)
  end.

(** Return code, the bytes written to the plaintext buffer, and the MAC
    handed out on success. *)
Definition crypto_gcm_decrypt (ctx : nexus_crypto_ctx) (ciphertext aad : bytes)
    : option (Z * bytes * option mac) :=
  c ← mbedtls_gcm_starts (ctx_key ctx) MBEDTLS_GCM_DECRYPT (ctx_iv ctx) aad;
  match gcm_loop (length ciphertext) c ciphertext (s32 (Z.of_nat (length ciphertext))) with
  | None => Some (-1, [], None)
  | Some (c, out) =>
      let computed_mac := mbedtls_gcm_finish c in
      if negb (nexus_mac_compare computed_mac (ctx_mac ctx) =? 0) then Some (-1, out, None)
      else Some (0, out, Some computed_mac)
  end.

(** ** Lemmas *)
Lemma gcm_starts_some key md iv aad :
  length iv = 16%nat -> Z.of_nat (length aad) < 2 ^ 61 ->
  exists c, mbedtls_gcm_starts key md iv aad = Some c /\ gcm_len c = 0 /\
    length (base_ectr c) = 16%nat.
Proof.
  intros Hi Ha. unfold mbedtls_gcm_starts. rewrite Hi. change (Z.of_nat 16) with 16.
  change (Z.shiftr 16 61) with 0. rewrite Z.shiftr_div_pow2, Z.div_small by lia. simpl.
  eexists. split; [done|]. split; [done|]. apply cipher_block_len.
Qed.

Lemma gcm_loop_done fuel c p n : n <= 0 -> gcm_loop fuel c p n = Some (c, []).
Proof. intros Hn. destruct fuel; cbn [gcm_loop]; by rewrite (proj2 (Z.leb_le n 0) Hn). Qed.

Lemma gcm_loop_ectr fuel c p n c' o :
  gcm_loop fuel c p n = Some (c', o) -> base_ectr c' = base_ectr c.
Proof.
  revert c p n c' o. induction fuel as [|fuel IH]; intros c p n c' o; cbn [gcm_loop].
  - destruct (n <=? 0); [|done]. by intros [= <- _].
  - destruct (n <=? 0); [by intros [= <- _]|].
    destruct (mbedtls_gcm_update c _) as [[c1 o1]|] eqn:E1; [|done]. cbn [mbind option_bind].
    destruct (gcm_loop fuel c1 _ _) as [[c2 o2]|] eqn:E2; [|done]. cbn [mbind option_bind].
    intros [= <- _]. apply IH in E2. apply gcm_update_ectr in E1. congruence.
Qed.

(** The loop is one pass over the message. *)
Lemma gcm_loop_once fuel c p :
  (length p <= fuel)%nat -> in_range 64 (gcm_len c) ->
  gcm_len c + Z.of_nat (length p) <= GCM_MAX_LEN ->
  gcm_loop fuel c p (Z.of_nat (length p)) = mbedtls_gcm_update c p.
Proof.
  revert c p. induction fuel as [|fuel IH]; intros c p Hf Hc Hm.
  { destruct p; [|simpl in Hf; lia]. simpl. unfold mbedtls_gcm_update. simpl. rewrite Z.add_0_r.
    unfold GCM_MAX_LEN in Hm. simpl in Hm. rewrite wrap_small by done.
    unfold GCM_MAX_LEN. rewrite !(proj2 (Z.ltb_ge _ _)) by lia. by destruct c. }
  cbn [gcm_loop]. destruct (Z.leb_spec (Z.of_nat (length p)) 0).
  { destruct p; [|simpl in *; lia]. unfold mbedtls_gcm_update. simpl. rewrite Z.add_0_r.
    rewrite wrap_small by done. unfold GCM_MAX_LEN in *. simpl in Hm.
    rewrite !(proj2 (Z.ltb_ge _ _)) by lia. by destruct c. }
  set (n := Z.min _ CRYPTO_BUFFER_SIZE). unfold CRYPTO_BUFFER_SIZE in n.
  destruct (Z.le_gt_cases (Z.of_nat (length p)) 4096) as [Hle|Hgt].
  - replace n with (Z.of_nat (length p)) by lia. rewrite Nat2Z.id, take_ge, drop_ge, Z.sub_diag by lia.
    destruct (mbedtls_gcm_update c p) as [[c' o]|]; [|done]. cbn [mbind option_bind].
    destruct fuel; simpl; by rewrite app_nil_r.
  - replace n with 4096 by lia. transitivity (mbedtls_gcm_update c (take (Z.to_nat 4096) p ++ drop (Z.to_nat 4096) p));
      [|by rewrite take_drop].
    rewrite gcm_update_app; [|exists 256; rewrite length_take; lia|done|by rewrite take_drop].
    destruct (mbedtls_gcm_update c (take (Z.to_nat 4096) p)) as [[c1 o1]|] eqn:E; [|done].
    cbn [mbind option_bind].
    assert (Hl : gcm_len c1 = gcm_len c + 4096).
    { unfold mbedtls_gcm_update in E. destruct (_ || _); [done|]. injection E as E.
      apply gcm_blocks_len in E. rewrite E. simpl. rewrite length_take. unfold GCM_MAX_LEN, in_range in *.
      rewrite wrap_small by (unfold in_range; lia). lia. }
    replace (Z.of_nat (length p) - 4096) with (Z.of_nat (length (drop (Z.to_nat 4096) p)))
      by (rewrite length_drop; lia).
    rewrite IH; [done|rewrite length_drop; lia| |].
    + unfold GCM_MAX_LEN, in_range in *. lia.
    + rewrite length_drop. lia.
Qed.

(** What one loop encrypts, the other decrypts. *)
Lemma gcm_loop_peer fuel e d p n e' c :
  gcm_peer e d -> n = Z.of_nat (length p) -> gcm_loop fuel e p n = Some (e', c) ->
  length c = length p /\ exists d', gcm_loop fuel d c n = Some (d', p) /\ gcm_peer e' d'.
Proof.
  revert e d p n e' c. induction fuel as [|fuel IH]; intros e d p n e' c Hp -> Hl.
  { simpl in *. destruct (_ <=? 0) eqn:E; [|done]. simplify_eq.
    destruct p; [|simpl in E; apply Z.leb_le in E; lia]. simpl. eauto. }
  cbn [gcm_loop] in *. destruct (Z.leb_spec (Z.of_nat (length p)) 0).
  { simplify_eq. destruct p; [|simpl in *; lia]. simpl. eauto. }
  set (m := Z.to_nat (Z.min _ _)) in *.
  assert (Hm : (0 < m <= length p)%nat) by (unfold m, CRYPTO_BUFFER_SIZE; lia).
  destruct (mbedtls_gcm_update e (take m p)) as [[e1 c1]|] eqn:E1; [|done]. cbn [mbind option_bind] in Hl.
  destruct (gcm_loop fuel e1 _ _) as [[e2 c2]|] eqn:E2; [|done]. cbn [mbind option_bind] in Hl.
  injection Hl as <- <-.
  destruct (gcm_update_peer e d _ _ _ Hp E1) as (Hc1 & d1 & Hd1 & Hp1).
  rewrite length_take_le in Hc1 by lia.
  assert (Hn : Z.of_nat (length p) - Z.min (Z.of_nat (length p)) CRYPTO_BUFFER_SIZE =
               Z.of_nat (length (drop m p))).
  { rewrite length_drop. unfold m, CRYPTO_BUFFER_SIZE. lia. }
  destruct (IH e1 d1 (drop m p) _ _ _ Hp1 Hn E2) as (Hc2 & d2 & Hd2 & Hp2).
  rewrite length_drop in Hc2. split; [rewrite length_app; lia|].
  exists d2. split; [|done]. rewrite <- Hc1 at 1. rewrite take_app_length, Hd1. cbn [mbind option_bind].
  rewrite <- Hc1 at 1. rewrite drop_app_length, Hd2. cbn [mbind option_bind]. by rewrite take_drop.
Qed.

Lemma gcm_encrypt_spec ctx p aad :
  length (ctx_iv ctx) = 16%nat -> Z.of_nat (length aad) < 2 ^ 61 -> Z.of_nat (length p) < 2 ^ 31 ->
  exists m c, crypto_gcm_encrypt ctx p aad = Some (0, mk_ctx (ctx_key ctx) (ctx_iv ctx) m, c) /\
    length c = length p /\
    crypto_gcm_decrypt (mk_ctx (ctx_key ctx) (ctx_iv ctx) m) c aad = Some (0, p, Some m).
Proof.
  intros Hi Ha Hl. unfold crypto_gcm_encrypt, crypto_gcm_decrypt.
  destruct (gcm_starts_some (ctx_key ctx) MBEDTLS_GCM_ENCRYPT (ctx_iv ctx) aad Hi Ha) as (e & He & Hz & _).
  destruct (gcm_starts_peer _ _ _ _ _ He) as (d & Hd & Hp). simpl in Hd. rewrite He. cbn [mbind option_bind].
  rewrite s32_small by lia.
  assert (Hup : exists e' c, gcm_loop (length p) e p (Z.of_nat (length p)) = Some (e', c)).
  { rewrite gcm_loop_once; [|lia|rewrite Hz; done|rewrite Hz; unfold GCM_MAX_LEN; lia].
    unfold mbedtls_gcm_update. rewrite Hz, Z.add_0_l, wrap_small by (unfold in_range; lia).
    unfold GCM_MAX_LEN. rewrite !(proj2 (Z.ltb_ge _ _)) by lia. simpl.
    destruct (gcm_blocks _ _ _); eauto. }
  destruct Hup as (e' & c & Hlp). rewrite Hlp. eexists _, c. split; [done|].
  destruct (gcm_loop_peer _ _ _ _ _ _ _ Hp eq_refl Hlp) as (Hc & d' & Hd' & Hp').
  split; [done|]. cbn [ctx_key ctx_iv ctx_mac]. rewrite Hd. cbn [mbind option_bind].
  rewrite Hc, s32_small by lia. rewrite Hd', (gcm_peer_finish _ _ Hp').
  unfold nexus_mac_compare. by rewrite (proj2 (memcmp_eq _ _ eq_refl)).
Qed.

(** A decryption that succeeds inverts an encryption. *)
Lemma gcm_decrypt_encrypt ctx c aad p m :
  length (ctx_iv ctx) = 16%nat -> Z.of_nat (length aad) < 2 ^ 61 -> mac_ok (ctx_mac ctx) ->
  Z.of_nat (length c) < 2 ^ 31 -> crypto_gcm_decrypt ctx c aad = Some (0, p, m) ->
  crypto_gcm_encrypt ctx p aad = Some (0, ctx, c) /\ length p = length c /\ m = Some (ctx_mac ctx).
Proof.
  intros Hi Ha [Hm _] Hl. unfold crypto_gcm_encrypt, crypto_gcm_decrypt.
  destruct (gcm_starts_some (ctx_key ctx) MBEDTLS_GCM_DECRYPT (ctx_iv ctx) aad Hi Ha) as (d & Hd & _ & Hb).
  destruct (gcm_starts_peer _ _ _ _ _ Hd) as (e & He & Hp). simpl in He. rewrite Hd, He. cbn [mbind option_bind].
  rewrite s32_small by lia.
  destruct (gcm_loop _ _ _ _) as [[d' o]|] eqn:El; [|done].
  pose proof (gcm_loop_ectr _ _ _ _ _ _ El) as Hb'.
  destruct (Z.eqb_spec (nexus_mac_compare (mbedtls_gcm_finish d') (ctx_mac ctx)) 0) as [Hc|Hc];
    [|done]. intros [= <- <-].
  apply memcmp_eq in Hc; [|rewrite gcm_finish_len by congruence; done].
  destruct (gcm_loop_peer _ _ _ _ _ _ _ Hp eq_refl El) as (Hlo & e' & He' & Hp').
  rewrite Hlo, s32_small, He', <- (gcm_peer_finish _ _ Hp'), Hc by lia. by destruct ctx.
Qed.
End drivers.

(** A concrete context, for evaluating the drivers. *)
Definition toy_ctx : nexus_crypto_ctx := nexus_crypto_ctx_generate (replicate 16 3, replicate 16 5).

(** ** Properties *)
(** Encrypting a buffer and decrypting the result under the same key, IV
    and additional data gives the plaintext back, with the same MAC; the
    ciphertext has the plaintext's length. *)
Theorem crypto_gcm_roundtrip `{BlockCipher} ctx p aad :
  length (ctx_iv ctx) = 16%nat -> Z.of_nat (length aad) < 2 ^ 61 -> Z.of_nat (length p) < 2 ^ 31 ->
  exists ctx' c, crypto_gcm_encrypt ctx p aad = Some (0, ctx', c) /\
    ctx_key ctx' = ctx_key ctx /\ ctx_iv ctx' = ctx_iv ctx /\ length c = length p /\
    crypto_gcm_decrypt ctx' c aad = Some (0, p, Some (ctx_mac ctx')).
Proof.
  intros Hi Ha Hl. destruct (gcm_encrypt_spec ctx p aad Hi Ha Hl) as (m & c & He & Hc & Hd).
  eexists _, c. split; [exact He|]. done.
Qed.

Lemma crypto_gcm_roundtrip_witness :
  exists ctx' c, crypto_gcm_encrypt (H := toy_cipher) toy_ctx [10; 20; 30] [1] = Some (0, ctx', c) /\
    ctx_key ctx' = ctx_key toy_ctx /\ ctx_iv ctx' = ctx_iv toy_ctx /\ length c = 3%nat /\
    crypto_gcm_decrypt (H := toy_cipher) ctx' c [1] = Some (0, [10; 20; 30], Some (ctx_mac ctx')).
Proof. apply (crypto_gcm_roundtrip (H := toy_cipher)); [done|by vm_compute..]. Defined.

(** The remaining length is kept in an [int]: a buffer whose size has bit
    31 set counts as empty, so [crypto_gcm_encrypt] reports success, writes
    no ciphertext at all, and the MAC covers only the additional data. *)
Theorem crypto_gcm_encrypt_int_overflow `{BlockCipher} ctx p aad :
  length (ctx_iv ctx) = 16%nat -> Z.of_nat (length aad) < 2 ^ 61 ->
  2 ^ 31 <= Z.of_nat (length p) mod 2 ^ 32 ->
  exists ctx', crypto_gcm_encrypt ctx p aad = Some (0, ctx', []) /\
    crypto_gcm_encrypt ctx [] aad = Some (0, ctx', []).
Proof.
  intros Hi Ha Hl. unfold crypto_gcm_encrypt.
  destruct (gcm_starts_some (ctx_key ctx) MBEDTLS_GCM_ENCRYPT (ctx_iv ctx) aad Hi Ha) as (e & -> & Hz & _).
  cbn [mbind option_bind]. eexists. split; [|done].
  assert (Hs : s32 (Z.of_nat (length p)) <= 0).
  { unfold s32. rewrite (proj2 (Z.ltb_ge _ _)) by done.
    pose proof (Z.mod_pos_bound (Z.of_nat (length p)) (2 ^ 32)). lia. }
  by rewrite gcm_loop_done.
Qed.

(** A buffer of [n] zero bytes. *)
Definition zeros (n : Z) : bytes := replicate (Z.to_nat n) 0.

Lemma length_zeros n : 0 <= n -> Z.of_nat (length (zeros n)) = n.
Proof. intros. unfold zeros. rewrite length_replicate. lia. Qed.

Lemma crypto_gcm_encrypt_int_overflow_witness :
  exists ctx', crypto_gcm_encrypt (H := toy_cipher) toy_ctx (zeros (2 ^ 31)) [1] = Some (0, ctx', []) /\
    crypto_gcm_encrypt (H := toy_cipher) toy_ctx [] [1] = Some (0, ctx', []).
Proof.
  apply (crypto_gcm_encrypt_int_overflow (H := toy_cipher) toy_ctx (zeros (2 ^ 31)) [1] eq_refl);
    [simpl; lia|].
  rewrite (length_zeros (2 ^ 31)) by lia. by vm_compute.
Defined.

(** C23: Decryption accepts exactly what encryption produces: [p] comes out of
    [crypto_gcm_decrypt] with a success if and only if encrypting [p] under
    the same key, IV and additional data gives this ciphertext and the MAC in
    the context; in every other case the call returns -1 and hands out no MAC. *)
Theorem crypto_gcm_decrypt_authentic `{BlockCipher} ctx c aad :
  length (ctx_iv ctx) = 16%nat -> Z.of_nat (length aad) < 2 ^ 61 -> mac_ok (ctx_mac ctx) ->
  Z.of_nat (length c) < 2 ^ 31 ->
  (forall p m, crypto_gcm_decrypt ctx c aad = Some (0, p, m) <->
     crypto_gcm_encrypt ctx p aad = Some (0, ctx, c) /\ length p = length c /\ m = Some (ctx_mac ctx)) /\
  (forall ret p m, crypto_gcm_decrypt ctx c aad = Some (ret, p, m) -> ret = 0 \/ (ret = -1 /\ m = None)).
Proof.
  intros Hi Ha Hm Hl. split.
  - intros p m. split; [by apply gcm_decrypt_encrypt|].
    intros (He & Hlp & ->). destruct (gcm_encrypt_spec ctx p aad Hi Ha) as (m' & c' & He' & _ & Hd); [lia|].
    rewrite He in He'. injection He' as Hctx ->.
    rewrite Hctx at 1. rewrite Hd. by rewrite Hctx.
  - intros ret p m. unfold crypto_gcm_decrypt.
    destruct (mbedtls_gcm_starts _ _ _ _); [|done]. cbn [mbind option_bind].
    destruct (gcm_loop _ _ _ _) as [[? ?]|]; [|intros [= <- _ <-]; by right].
    destruct (negb _); intros [= <- _ <-]; auto.
Qed.

Lemma crypto_gcm_decrypt_authentic_witness :
  (forall p m, crypto_gcm_decrypt (H := toy_cipher) toy_ctx [1; 2] [] = Some (0, p, m) <->
     crypto_gcm_encrypt (H := toy_cipher) toy_ctx p [] = Some (0, toy_ctx, [1; 2]) /\
     length p = 2%nat /\ m = Some (ctx_mac toy_ctx)) /\
  (forall ret p m, crypto_gcm_decrypt (H := toy_cipher) toy_ctx [1; 2] [] = Some (ret, p, m) ->
     ret = 0 \/ (ret = -1 /\ m = None)).
Proof.
  apply (crypto_gcm_decrypt_authentic (H := toy_cipher)); [done|by vm_compute| |by vm_compute].
  split; [done|]. apply Forall_replicate. unfold byte_ok. lia.
Defined.
