(* ===== verification/BufferLayer.v ===== *)
(** * The buffer layer: the enclave's view of the metadata store

    Models [buffer_layer.c].  The cache maps a UUID to its [metadata_buffer];
    the hash table of the source is a finite map.  Every ocall leaves the
    enclave: the calls an operation makes are returned as a trace, and the
    replies of the untrusted side are arguments.  The write spinlock of a
    buffer is a flag; taking it while it is held never returns ([None]).
    [writers] is an [int]; it wraps around at its width.
    A pointer to the temporary buffer is modelled by the buffer's contents in
    the cache, which [buffer_write] fills through the pointer. *)
From S2P Require Import Prelude Types.

Record metadata_buffer := mk_mbuf {
  writers : Z;
  mb_dirty : bool;
  mb_flags : Z;
  mb_timestamp : Z;
  tmp_buffer : option bytes;
  tmp_buflen : Z;
  write_lock : bool
}.

Record bcache := mk_bcache { buffer_cache : gmap uuid metadata_buffer; buffer_count : Z }.

Inductive ocall :=
  | ocall_buffer_get (u : uuid) (flags : Z)
  | ocall_buffer_put (u : uuid) (buffer : bytes) (data_size : Z)
  | ocall_buffer_lock (u : uuid) (flags : Z)
  | ocall_buffer_unlock (u : uuid)
  | ocall_buffer_new (u : uuid)
  | ocall_buffer_del (u : uuid)
  | ocall_buffer_stattime (u : uuid).

(** An ocall comes back with the SGX status [err] and the callee's [ret]. *)
Record reply := mk_reply { r_err : Z; r_ret : Z }.
Definition reply_ok : reply := mk_reply 0 0.
Definition failed (r : reply) : bool := negb (r_err r =? 0) || negb (r_ret r =? 0).

(** ** Cache primitives *)
Definition bcache_get (b : bcache) (u : uuid) : option metadata_buffer := buffer_cache b !! u.

Definition in_write_mode (m : metadata_buffer) : bool := nexus_io_in_lock_mode (mb_flags m).

Definition metadata_buf_update (m : metadata_buffer) (timestamp flags : Z) : metadata_buffer :=
  {| writers := writers m; mb_dirty := mb_dirty m; mb_flags := flags;
     mb_timestamp := if timestamp =? 0 then mb_timestamp m else timestamp;
     tmp_buffer := tmp_buffer m; tmp_buflen := tmp_buflen m; write_lock := write_lock m |}.

Definition zero_buf : metadata_buffer :=
  {| writers := 0; mb_dirty := false; mb_flags := 0; mb_timestamp := 0; tmp_buffer := None;
     tmp_buflen := 0; write_lock := false |}.

Definition set_buf (b : bcache) (u : uuid) (m : metadata_buffer) : bcache :=
  {| buffer_cache := <[u := m]> (buffer_cache b); buffer_count := buffer_count b |}.

Definition bcache_update (b : bcache) (u : uuid) (timestamp flags : Z) : bcache :=
  match bcache_get b u with
  | Some m => set_buf b u (metadata_buf_update m timestamp flags)
  | None =>
      {| buffer_cache := <[u := metadata_buf_update zero_buf timestamp flags]> (buffer_cache b);
         buffer_count := buffer_count b +64 1 |}
  end.

Definition bcache_evict (b : bcache) (u : uuid) : bcache :=
  match bcache_get b u with
  | Some _ => {| buffer_cache := delete u (buffer_cache b); buffer_count := buffer_count b -64 1 |}
  | None => b
  end.

Definition buffer_layer_init : bcache := {| buffer_cache := ∅; buffer_count := 0 |}.
Definition buffer_layer_evict := bcache_evict.

Definition with_writers (m : metadata_buffer) (w : Z) : metadata_buffer :=
  {| writers := w; mb_dirty := mb_dirty m; mb_flags := mb_flags m; mb_timestamp := mb_timestamp m;
     tmp_buffer := tmp_buffer m; tmp_buflen := tmp_buflen m; write_lock := write_lock m |}.

Definition with_tmp (m : metadata_buffer) (t : option bytes) (len : Z) (lock : bool) : metadata_buffer :=
  {| writers := writers m; mb_dirty := mb_dirty m; mb_flags := mb_flags m;
     mb_timestamp := mb_timestamp m; tmp_buffer := t; tmp_buflen := len; write_lock := lock |}.

Definition spin_unlock (m : metadata_buffer) : metadata_buffer :=
  with_tmp m (tmp_buffer m) (tmp_buflen m) false.

(** ** Operations *)
(** Return code and [*should_reload], [None] when it is not written. *)
Definition buffer_layer_revalidate (b : bcache) (u : uuid) (r : reply) (stat_timestamp : Z)
    : Z * option bool * list ocall :=
  match bcache_get b u with
  | None => (0, Some true, [])
  | Some m =>
      if failed r then (-1, None, [ocall_buffer_stattime u])
      else (0, Some (mb_timestamp m <? stat_timestamp), [ocall_buffer_stattime u])
  end.

(** [heap] is the fresh memory [nexus_heap_malloc] returns ([None]: none
    left).  The result tells whether a pointer is returned. *)
Definition buffer_layer_alloc (b : bcache) (u : uuid) (size : Z) (heap : option bytes)
    : option (bcache * bool) :=
  match bcache_get b u with
  | None => Some (b, false)
  | Some m =>
      if negb (in_write_mode m) then Some (b, false)
      else if write_lock m then None
      else
        match heap with
        | None => Some (set_buf b u (with_tmp m None (tmp_buflen m) false), false)
        | Some mem => Some (set_buf b u (with_tmp m (Some mem) size true), true)
        end
  end.

(** The caller fills the buffer through the pointer it was given. *)
Definition buffer_write (b : bcache) (u : uuid) (data : bytes) : bcache :=
  match bcache_get b u with
  | Some m => set_buf b u (with_tmp m (const data <$> tmp_buffer m) (tmp_buflen m) (write_lock m))
  | None => b
  end.

Definition buffer_layer_dealloc (b : bcache) (u : uuid) : bcache * Z :=
  match bcache_get b u with
  | None => (b, -1)
  | Some m =>
      if negb (in_write_mode m) then (b, -1)
      else (set_buf b u (with_tmp m None (tmp_buflen m) false), 0)
  end.

Definition buffer_layer_lock (b : bcache) (u : uuid) (flags : Z) (r : reply)
    : bcache * Z * list ocall :=
  let ask :=
    if failed r then (b, -1, [ocall_buffer_lock u flags])
    else
      let b := bcache_update b u 0 flags in
      match bcache_get b u with
      | Some m =>
          (if in_write_mode m then set_buf b u (with_writers m (s32 (writers m + 1))) else b, 0,
           [ocall_buffer_lock u flags])
      | None => (b, 0, [ocall_buffer_lock u flags])
      end in
  match bcache_get b u with
  | Some m => if in_write_mode m then (set_buf b u (with_writers m (s32 (writers m + 1))), 0, []) else ask
  | None => ask
  end.

Definition buffer_layer_unlock (b : bcache) (u : uuid) (r : reply) : bcache * Z * list ocall :=
  match bcache_get b u with
  | None => (b, 0, [])
  | Some m =>
      if negb (in_write_mode m) then (b, 0, [])
      else if writers m =? 0 then (b, -1, [])
      else
        let m := with_writers m (s32 (writers m - 1)) in
        if negb (writers m =? 0) then (set_buf b u m, 0, [])
        else if negb (r_err r =? 0) then (set_buf b u m, -1, [ocall_buffer_unlock u])
        else (set_buf b u (metadata_buf_update m 0 NEXUS_FREAD), r_ret r, [ocall_buffer_unlock u])
  end.

Definition buffer_layer_lock_status (b : bcache) (u : uuid) : option Z := mb_flags <$> bcache_get b u.

(** [ext] is the reply's external buffer.  The result is the contents behind
    the returned pointer ([None] is NULL). *)
Definition buffer_layer_get (b : bcache) (u : uuid) (flags : Z) (err : Z) (ext : option bytes)
    (timestamp : Z) : bcache * option bytes * list ocall :=
  let fetch :=
    match ext with
    | Some data =>
        if negb (err =? 0) then (b, None, [ocall_buffer_get u flags])
        else
          let b := bcache_update b u timestamp flags in
          match bcache_get b u with
          | Some m =>
              (if in_write_mode m then set_buf b u (with_writers m (s32 (writers m + 1))) else b,
               Some data, [ocall_buffer_get u flags])
          | None => (b, Some data, [ocall_buffer_get u flags])
          end
    | None => (b, None, [ocall_buffer_get u flags])
    end in
  match bcache_get b u with
  | Some m => if mb_dirty m then (b, tmp_buffer m, []) else fetch
  | None => fetch
  end.

(** [dealloc] frees the buffer only in write mode; [is_dirty] is set when
    another writer is expected and is never reset. *)
Definition buffer_layer_put (b : bcache) (u : uuid) (data_size : Z) (r : reply) (timestamp : Z)
    : bcache * Z * list ocall :=
  match bcache_get b u with
  | None => (b, -1, [])
  | Some m =>
      match tmp_buffer m with
      | None => (b, -1, [])
      | Some buf =>
          if 1 <? writers m then
            (set_buf b u {| writers := s32 (writers m - 1); mb_dirty := true; mb_flags := mb_flags m;
                            mb_timestamp := mb_timestamp m; tmp_buffer := tmp_buffer m;
                            tmp_buflen := tmp_buflen m; write_lock := false |}, 0, [])
          else
            let tr := [ocall_buffer_put u buf data_size] in
            let '(b, _) := buffer_layer_dealloc b u in
            match bcache_get b u with
            | None => (b, -1, tr)
            | Some m =>
                if failed r then (set_buf b u (spin_unlock m), -1, tr)
                else
                  let m := metadata_buf_update m timestamp NEXUS_FREAD in
                  (set_buf b u (spin_unlock (with_writers m 0)), 0, tr)
            end
      end
  end.

Definition buffer_layer_new (u : uuid) (r : reply) : Z * list ocall :=
  (if failed r then -1 else 0, [ocall_buffer_new u]).

Definition buffer_layer_delete (b : bcache) (u : uuid) (r : reply) : bcache * Z * list ocall :=
  (buffer_layer_evict b u, if negb (r_err r =? 0) then -1 else 0, [ocall_buffer_del u]).

(** ** Lemmas *)
Section lemmas.
Implicit Types (b : bcache) (u : uuid) (m : metadata_buffer).

Lemma get_set_buf b u m : bcache_get (set_buf b u m) u = Some m.
Proof. apply lookup_insert_eq. Qed.

Lemma get_set_buf_ne b u u' m : u <> u' -> bcache_get (set_buf b u m) u' = bcache_get b u'.
Proof. apply lookup_insert_ne. Qed.

Lemma set_set_buf b u m m' : set_buf (set_buf b u m) u m' = set_buf b u m'.
Proof. unfold set_buf. simpl. f_equal. apply insert_insert_eq. Qed.

Lemma get_update b u ts flags :
  exists m, bcache_get (bcache_update b u ts flags) u = Some m /\ mb_flags m = flags /\
    writers m = default 0 (writers <$> bcache_get b u) /\
    mb_dirty m = default false (mb_dirty <$> bcache_get b u).
Proof.
  unfold bcache_update. destruct (bcache_get b u) as [m|] eqn:E.
  - rewrite get_set_buf. eexists. split; [done|]. done.
  - unfold bcache_get. simpl. rewrite lookup_insert_eq. eexists. split; [done|]. done.
Qed.
End lemmas.

#[export] Hint Rewrite get_set_buf set_set_buf : nexus.

(** [n] nested acquisitions and releases with a cooperating store. *)
Fixpoint lock_n (n : nat) (b : bcache) (u : uuid) (flags : Z) : bcache * list ocall :=
  match n with
  | O => (b, [])
  | S n' => let '(b, _, t) := buffer_layer_lock b u flags reply_ok in
            let '(b, t') := lock_n n' b u flags in (b, t ++ t')
  end.

Fixpoint unlock_n (n : nat) (b : bcache) (u : uuid) : bcache * list ocall :=
  match n with
  | O => (b, [])
  | S n' => let '(b, _, t) := buffer_layer_unlock b u reply_ok in
            let '(b, t') := unlock_n n' b u in (b, t ++ t')
  end.

(** The buffer at [u] is idle: not locked and without writers. *)
Definition idle (b : bcache) (u : uuid) : Prop :=
  match bcache_get b u with
  | Some m => in_write_mode m = false /\ writers m = 0
  | None => True
  end.

Section locking.
Implicit Types (b : bcache) (u : uuid) (m : metadata_buffer).

Lemma lock_again b u m flags r :
  bcache_get b u = Some m -> in_write_mode m = true ->
  buffer_layer_lock b u flags r = (set_buf b u (with_writers m (s32 (writers m + 1))), 0, []).
Proof. intros Hm Hw. unfold buffer_layer_lock. by rewrite Hm, Hw. Qed.

Lemma lock_first b u flags :
  idle b u -> nexus_io_in_lock_mode flags = true ->
  exists b' m, buffer_layer_lock b u flags reply_ok = (b', 0, [ocall_buffer_lock u flags]) /\
    bcache_get b' u = Some m /\ mb_flags m = flags /\ writers m = 1.
Proof.
  intros Hi Hf. unfold buffer_layer_lock, idle in *.
  destruct (get_update b u 0 flags) as (m' & Hm' & Hfl & Hw & _). cbn [failed reply_ok r_err r_ret].
  assert (Hw0 : writers m' = 0) by (destruct (bcache_get b u); simpl in Hw; destruct Hi; congruence).
  assert (Hmode : in_write_mode m' = true) by (unfold in_write_mode; by rewrite Hfl).
  assert (Hask : forall x : bcache * Z * list ocall,
    x = (set_buf (bcache_update b u 0 flags) u (with_writers m' (s32 (writers m' + 1))), 0,
         [ocall_buffer_lock u flags]) ->
    exists b' m, x = (b', 0, [ocall_buffer_lock u flags]) /\
      bcache_get b' u = Some m /\ mb_flags m = flags /\ writers m = 1).
  { intros x ->. eexists _, _. split; [done|]. rewrite get_set_buf. split; [done|].
    split; [done|]. cbn [writers with_writers]. by rewrite Hw0. }
  rewrite Hm', Hmode. destruct (bcache_get b u) as [m|]; [destruct Hi as [-> _]|]; by apply Hask.
Qed.

Lemma with_writers_id m : with_writers m (writers m) = m.
Proof. by destruct m. Qed.

Lemma lock_n_held n b u m flags :
  bcache_get b u = Some m -> in_write_mode m = true -> 0 <= writers m -> writers m + Z.of_nat n < 2 ^ 31 ->
  exists b', lock_n n b u flags = (b', []) /\
    bcache_get b' u = Some (with_writers m (writers m + Z.of_nat n)).
Proof.
  revert b m. induction n as [|n IH]; intros b m Hm Hw H0 Hn.
  - exists b. by rewrite Z.add_0_r, with_writers_id.
  - cbn [lock_n]. rewrite (lock_again _ _ m), s32_small by (done || lia).
    destruct (IH (set_buf b u (with_writers m (writers m + 1))) (with_writers m (writers m + 1)))
      as (b' & -> & Hb'); [apply get_set_buf|done|simpl; lia|simpl; lia|].
    exists b'. split; [done|]. rewrite Hb'. unfold with_writers. simpl. do 2 f_equal. lia.
Qed.

Lemma unlock_n_held n b u m :
  bcache_get b u = Some m -> in_write_mode m = true -> Z.of_nat n < writers m < 2 ^ 31 ->
  exists b', unlock_n n b u = (b', []) /\
    bcache_get b' u = Some (with_writers m (writers m - Z.of_nat n)).
Proof.
  revert b m. induction n as [|n IH]; intros b m Hm Hw Hn.
  - exists b. by rewrite Z.sub_0_r, with_writers_id.
  - cbn [unlock_n]. unfold buffer_layer_unlock. rewrite Hm, Hw. cbn [negb].
    rewrite (proj2 (Z.eqb_neq (writers m) 0)), s32_small by lia. cbn [writers with_writers].
    rewrite (proj2 (Z.eqb_neq (writers m - 1) 0)) by lia. cbn [negb].
    destruct (IH (set_buf b u (with_writers m (writers m - 1))) (with_writers m (writers m - 1)))
      as (b' & -> & Hb'); [apply get_set_buf|done|simpl; lia|].
    exists b'. split; [done|]. rewrite Hb'. unfold with_writers. simpl. do 2 f_equal. lia.
Qed.

Lemma unlock_last b u m :
  bcache_get b u = Some m -> in_write_mode m = true -> writers m = 1 ->
  exists b', buffer_layer_unlock b u reply_ok = (b', 0, [ocall_buffer_unlock u]) /\ idle b' u.
Proof.
  intros Hm Hw H1. unfold buffer_layer_unlock. rewrite Hm, Hw, H1. cbn.
  eexists. split; [done|]. unfold idle. by rewrite get_set_buf.
Qed.

Lemma unlock_n_app n k b u :
  unlock_n (n + k) b u =
  let '(b1, t1) := unlock_n n b u in let '(b2, t2) := unlock_n k b1 u in (b2, t1 ++ t2).
Proof.
  revert b. induction n as [|n IH]; intros b; simpl; [by destruct (unlock_n k b u)|].
  destruct (buffer_layer_unlock b u reply_ok) as [[b0 z] t0]. rewrite IH.
  destruct (unlock_n n b0 u) as [b1 t1]. destruct (unlock_n k b1 u) as [b2 t2]. by rewrite app_assoc.
Qed.
End locking.

(** The buffer layer with [u] locked for writing by [w] writers. *)
Definition held_cache (u : uuid) (w : Z) : bcache :=
  {| buffer_cache := {[ u := mk_mbuf w false NEXUS_FRDWR 1 None 0 false ]}; buffer_count := 1 |}.

(** ** Properties *)
(** C38: nested locking: acquisitions, fewer than 2^31 as they are counted in
    an [int], take the store's lock once, as many releases give it back once, at
    the last one, and leave the buffer idle again. *)
Theorem buffer_lock_nesting b u flags n :
  idle b u -> nexus_io_in_lock_mode flags = true -> Z.of_nat (S n) < 2 ^ 31 ->
  exists b1 b2, lock_n (S n) b u flags = (b1, [ocall_buffer_lock u flags]) /\
    unlock_n (S n) b1 u = (b2, [ocall_buffer_unlock u]) /\ idle b2 u /\
    forall k b3 t, (k <= n)%nat -> unlock_n k b1 u = (b3, t) ->
      t = [] /\ exists m, bcache_get b3 u = Some m /\ in_write_mode m = true.
Proof.
  intros Hi Hf Hbound. destruct (lock_first b u flags Hi Hf) as (b0 & m & Hl & Hm & Hfl & Hw).
  assert (Hmode : in_write_mode m = true) by (unfold in_write_mode; by rewrite Hfl).
  destruct (lock_n_held n b0 u m flags Hm Hmode) as (b1 & Hln & Hb1); [lia|lia|].
  destruct (unlock_n_held n b1 u _ Hb1 Hmode) as (b2 & Hun & Hb2); [simpl; lia|].
  destruct (unlock_last b2 u _ Hb2 Hmode) as (b3 & Hul & Hid); [simpl; lia|].
  exists b1, b3. split; [cbn [lock_n]; rewrite Hl, Hln; done|]. split; [|split; [done|]].
  - rewrite <- Nat.add_1_r, unlock_n_app, Hun. cbn [unlock_n]. by rewrite Hul.
  - intros k b4 t Hk Ht. destruct (unlock_n_held k b1 u _ Hb1 Hmode) as (b5 & Hu5 & Hb5); [simpl; lia|].
    rewrite Hu5 in Ht. injection Ht as <- <-. split; [done|]. eexists. split; [exact Hb5|done].
Qed.

Lemma buffer_lock_nesting_witness :
  let u := uuid_const 7 in
  exists b1 b2, lock_n 3 buffer_layer_init u NEXUS_FRDWR = (b1, [ocall_buffer_lock u NEXUS_FRDWR]) /\
    unlock_n 3 b1 u = (b2, [ocall_buffer_unlock u]) /\ idle b2 u /\
    forall k b3 t, (k <= 2)%nat -> unlock_n k b1 u = (b3, t) ->
      t = [] /\ exists m, bcache_get b3 u = Some m /\ in_write_mode m = true.
Proof. intros u. by apply (buffer_lock_nesting buffer_layer_init u NEXUS_FRDWR 2). Defined.

(** The count overflows: one more acquisition of a buffer with 2^31 - 1 writers
    makes the count negative, and the next flush leaves the enclave, gives up
    the lock and clears the count under all the other writers. *)
Theorem buffer_lock_overflow b u m flags data r ts :
  bcache_get b u = Some m -> in_write_mode m = true -> writers m = 2 ^ 31 - 1 -> tmp_buffer m = Some data -> failed r = false ->
  exists b1 b2 m2, buffer_layer_lock b u flags reply_ok = (b1, 0, []) /\
    buffer_layer_put b1 u (Z.of_nat (length data)) r ts = (b2, 0, [ocall_buffer_put u data (Z.of_nat (length data))]) /\
    bcache_get b2 u = Some m2 /\ writers m2 = 0 /\ in_write_mode m2 = false.
Proof.
  intros Hm Hw Hn Ht Hr. rewrite (lock_again _ _ m) by done. rewrite Hn. change (s32 _) with (- 2 ^ 31).
  eexists _, _, _. split; [done|]. unfold buffer_layer_put. autorewrite with nexus. cbn [tmp_buffer with_writers writers].
  rewrite Ht. change (1 <? - 2 ^ 31) with false. unfold buffer_layer_dealloc. autorewrite with nexus.
  unfold in_write_mode in *. cbn [mb_flags with_writers]. rewrite Hw. cbn [negb]. autorewrite with nexus. rewrite Hr.
  split; [done|]. rewrite get_set_buf. done.
Qed.

(** While other writers hold the buffer, a writer's flush is absorbed: no
    call leaves the enclave, one writer less remains, and whoever reads the
    buffer next gets exactly the bytes just written, again without a call. *)
Theorem buffer_put_coalesced b u m size mem data dsize r ts :
  bcache_get b u = Some m -> in_write_mode m = true -> write_lock m = false -> 1 < writers m < 2 ^ 31 ->
  exists b1 b2, buffer_layer_alloc b u size (Some mem) = Some (b1, true) /\
    buffer_layer_put (buffer_write b1 u data) u dsize r ts = (b2, 0, []) /\
    (exists m2, bcache_get b2 u = Some m2 /\ writers m2 = writers m - 1 /\ write_lock m2 = false /\
       in_write_mode m2 = true) /\
    forall flags err ext ts', buffer_layer_get b2 u flags err ext ts' = (b2, Some data, []).
Proof.
  intros Hm Hw Hl Hn. unfold buffer_layer_alloc. rewrite Hm, Hw, Hl. cbn [negb].
  eexists _, _. split; [done|]. unfold buffer_write. autorewrite with nexus.
  unfold buffer_layer_put. autorewrite with nexus. cbn [tmp_buffer with_tmp fmap option_fmap option_map const writers].
  rewrite (proj2 (Z.ltb_lt 1 (writers m))) by lia. autorewrite with nexus. split; [done|]. split.
  - eexists. split; [apply get_set_buf|]. cbn [writers write_lock mb_flags with_tmp]. by rewrite s32_small by lia.
  - intros. unfold buffer_layer_get. by autorewrite with nexus.
Qed.

Lemma buffer_put_coalesced_witness :
  let u := uuid_const 7 in let b := held_cache u 2 in
  exists b1 b2, buffer_layer_alloc b u 8 (Some [0; 0]) = Some (b1, true) /\
    buffer_layer_put (buffer_write b1 u [5; 6]) u 2 reply_ok 9 = (b2, 0, []) /\
    (exists m2, bcache_get b2 u = Some m2 /\ writers m2 = 2 - 1 /\ write_lock m2 = false /\
       in_write_mode m2 = true) /\
    forall flags err ext ts', buffer_layer_get b2 u flags err ext ts' = (b2, Some [5; 6], []).
Proof.
  intros u b. apply (buffer_put_coalesced b u (mk_mbuf 2 false NEXUS_FRDWR 1 None 0 false));
    [apply lookup_singleton_eq|done|done|simpl; lia].
Defined.

(** The flush of the last writer sends the buffer's bytes to the store in
    one call; if the store accepts them the buffer is idle and unlocked, and
    a later revalidation against the reported timestamp needs no reload; if
    it refuses, the caller gets -1 and the buffer stays locked for writing. *)
Theorem buffer_put_flushes b u m data dsize r ts :
  bcache_get b u = Some m -> in_write_mode m = true -> tmp_buffer m = Some data ->
  0 <= writers m <= 1 -> ts <> 0 ->
  exists b', buffer_layer_put b u dsize r ts =
      (b', if failed r then -1 else 0, [ocall_buffer_put u data dsize]) /\
    (if failed r then
       exists flags, buffer_layer_lock_status b' u = Some flags /\ nexus_io_in_lock_mode flags = true
     else idle b' u /\ forall r', failed r' = false ->
       buffer_layer_revalidate b' u r' ts = (0, Some false, [ocall_buffer_stattime u])) /\
    (exists m', bcache_get b' u = Some m' /\ tmp_buffer m' = None /\ write_lock m' = false).
Proof.
  intros Hm Hw Ht Hn Hts. unfold buffer_layer_put. rewrite Hm, Ht.
  rewrite (proj2 (Z.ltb_ge 1 (writers m))) by lia. unfold buffer_layer_dealloc. rewrite Hm, Hw.
  cbn [negb]. autorewrite with nexus. destruct (failed r) eqn:Ef; autorewrite with nexus;
    (eexists; split; [done|]; split; [|by eexists; split; [apply get_set_buf|]]).
  - unfold buffer_layer_lock_status. autorewrite with nexus. eexists. split; [done|]. exact Hw.
  - split; [unfold idle; by autorewrite with nexus|]. intros r' Hr'.
    unfold buffer_layer_revalidate. autorewrite with nexus. rewrite Hr'. simpl.
    rewrite (proj2 (Z.eqb_neq ts 0)) by done. by rewrite Z.ltb_irrefl.
Qed.

Lemma buffer_put_flushes_witness :
  let u := uuid_const 7 in let b := buffer_write (set_buf (held_cache u 1) u
             (mk_mbuf 1 false NEXUS_FRDWR 1 (Some [0; 0]) 2 true)) u [5; 6] in
  exists b', buffer_layer_put b u 2 reply_ok 9 = (b', 0, [ocall_buffer_put u [5; 6] 2]) /\
    (idle b' u /\ forall r', failed r' = false ->
       buffer_layer_revalidate b' u r' 9 = (0, Some false, [ocall_buffer_stattime u])) /\
    (exists m', bcache_get b' u = Some m' /\ tmp_buffer m' = None /\ write_lock m' = false).
Proof.
  intros u b. apply (buffer_put_flushes b u (mk_mbuf 1 false NEXUS_FRDWR 1 (Some [5; 6]) 2 true) [5; 6] 2 reply_ok 9);
    [by vm_compute|done|done|simpl; lia|lia].
Defined.

(** Once a flush was absorbed, the buffer is marked dirty for good: after
    the last writer's flush has freed the temporary buffer, every read
    returns NULL without asking the store, whatever the store holds. *)
Theorem buffer_dirty_never_cleared b u m size mem mem' data data' dsize dsize' r r' ts ts' :
  bcache_get b u = Some m -> in_write_mode m = true -> write_lock m = false -> writers m = 2 ->
  failed r' = false ->
  exists b1 b2 b3 b4, buffer_layer_alloc b u size (Some mem) = Some (b1, true) /\
    buffer_layer_put (buffer_write b1 u data) u dsize r ts = (b2, 0, []) /\
    buffer_layer_alloc b2 u size (Some mem') = Some (b3, true) /\
    buffer_layer_put (buffer_write b3 u data') u dsize' r' ts' =
      (b4, 0, [ocall_buffer_put u data' dsize']) /\
    forall flags err ext t, buffer_layer_get b4 u flags err ext t = (b4, None, []).
Proof.
  intros Hm Hw Hl Hn Hr. unfold in_write_mode in Hw.
  unfold buffer_layer_alloc, buffer_write, buffer_layer_put, buffer_layer_dealloc, in_write_mode.
  rewrite Hm, Hw, Hl. cbn [negb]. eexists _, _, _, _. split; [done|]. autorewrite with nexus.
  cbn [tmp_buffer with_tmp fmap option_fmap option_map const writers]. rewrite Hn. cbn [Z.ltb Z.compare Pos.compare Pos.compare_cont].
  split; [done|]. autorewrite with nexus. cbn [mb_flags with_tmp write_lock writers]. rewrite Hw. cbn [negb].
  split; [done|]. autorewrite with nexus.
  cbn [tmp_buffer with_tmp fmap option_fmap option_map const writers Z.sub Z.add Z.opp Z.pos_sub Pos.pred_double Z.ltb Z.compare Pos.compare Pos.compare_cont mb_flags].
  rewrite Hw. cbn [negb]. autorewrite with nexus. rewrite Hr. autorewrite with nexus. split; [done|].
  intros. unfold buffer_layer_get. by autorewrite with nexus.
Qed.

Lemma buffer_dirty_never_cleared_witness :
  let u := uuid_const 7 in let b := held_cache u 2 in
  exists b1 b2 b3 b4, buffer_layer_alloc b u 2 (Some [0; 0]) = Some (b1, true) /\
    buffer_layer_put (buffer_write b1 u [5; 6]) u 2 reply_ok 9 = (b2, 0, []) /\
    buffer_layer_alloc b2 u 2 (Some [0; 0]) = Some (b3, true) /\
    buffer_layer_put (buffer_write b3 u [7; 8]) u 2 reply_ok 10 =
      (b4, 0, [ocall_buffer_put u [7; 8] 2]) /\
    forall flags err ext t, buffer_layer_get b4 u flags err ext t = (b4, None, []).
Proof.
  intros u b. apply (buffer_dirty_never_cleared b u (mk_mbuf 2 false NEXUS_FRDWR 1 None 0 false));
    [apply lookup_singleton_eq|done..].
Defined.
