(* ===== verification/CryptoBuf.v ===== *)
(** * Crypto buffers: sealed metadata objects

    Models [crypto_buffer.c] and the key wrapping of
    [libnexus_trusted/nexus_key_wrapped.c].  A sealed object is a 76-byte
    header (magic, version, size, wrapped key, IV, MAC) followed by the
    ciphertext; the header with a zero MAC is authenticated as additional
    data.  AES-GCM-SIV, which wraps the keys under the volume key, is the
    operation pair of the class [KeyWrapCipher] with its round trip as law. *)
From S2P Require Import Prelude Types Gcm Crypto BufferLayer.

(** [siv_encrypt volkey nonce key] gives the tag and the wrapped key. *)
Class KeyWrapCipher := {
  siv_encrypt : bytes -> bytes -> bytes -> bytes * bytes;
  siv_decrypt : bytes -> bytes -> bytes -> bytes -> option bytes;
  siv_lengths : forall vk n k, length (fst (siv_encrypt vk n k)) = 16%nat /\
    length (snd (siv_encrypt vk n k)) = length k;
  siv_inverse : forall vk n k, let '(t, e) := siv_encrypt vk n k in siv_decrypt vk n t e = Some k
}.

Definition NEXUS_MAGIC_V1 : Z := 0x6e780001.
Definition CRYPTOBUF_INVALID_VERSION : Z := 2 ^ 32 - 1.
Definition GCM128_TAG_SIZE : nat := 16.
Definition GCM128_WRAPPED_KEY_SIZE : nat := GCM128_KEY_SIZE + GCM128_TAG_SIZE.

Record crypto_buf_hdr := mk_hdr {
  h_magic : Z;
  h_version : Z;
  h_size : Z;
  h_ekey : bytes;
  h_iv : bytes;
  h_mac : bytes
}.

(** [__get_header_len]: 4 + 4 + 4 + 32 + 16 + 16. *)
Definition get_header_len : Z := 76.

Definition hdr_bytes (h : crypto_buf_hdr) : bytes :=
  le_encode 4 (h_magic h) ++ le_encode 4 (h_version h) ++ le_encode 4 (h_size h)
    ++ h_ekey h ++ h_iv h ++ h_mac h.

Definition hdr_parse : decoder crypto_buf_hdr :=
  magic <~ dec_uint 4; version <~ dec_uint 4; size <~ dec_uint 4;
  ekey <~ dec_bytes GCM128_WRAPPED_KEY_SIZE; iv <~ dec_bytes GCM128_IV_SIZE;
  m <~ dec_bytes NEXUS_MAC_SIZE;
  dec_ret (mk_hdr magic version size ekey iv m).

Definition zero_mac_hdr (h : crypto_buf_hdr) : crypto_buf_hdr :=
  mk_hdr (h_magic h) (h_version h) (h_size h) (h_ekey h) (h_iv h) (replicate NEXUS_MAC_SIZE 0).

(** Where [external_addr] points: to a buffer the store handed in, or to the
    temporary buffer of the buffer layer. *)
Inductive external := ExtStore (data : bytes) | ExtTmp (size : Z).

Record nexus_crypto_buf := mk_cbuf {
  cb_ctx : nexus_crypto_ctx;
  cb_version : Z;
  cb_data_size : Z;
  cb_uuid : uuid;
  cb_external : option external;
  cb_internal : option bytes
}.

Definition empty_ctx : nexus_crypto_ctx := mk_ctx [] [] [].

Section crypto_buf.
Context `{BlockCipher} `{KeyWrapCipher}.
Variable volumekey : bytes.

(** ** nexus_key_wrapped.c *)
(** [struct __wrapped_keydata]: the tag, then the wrapped key. *)
Definition wrap_key (u : uuid) (raw : bytes) : bytes :=
  let '(tag, ekey) := siv_encrypt volumekey u raw in tag ++ ekey.

Definition unwrap_key (u : uuid) (keydata : bytes) : option bytes :=
  siv_decrypt volumekey u (take GCM128_TAG_SIZE keydata) (drop GCM128_TAG_SIZE keydata).

(** ** crypto_buffer.c *)
Definition nexus_crypto_buf_new (internal : bytes) (version : Z) (u : uuid) : nexus_crypto_buf :=
  {| cb_ctx := empty_ctx; cb_version := u32 version; cb_data_size := 0; cb_uuid := u;
     cb_external := None; cb_internal := Some internal |}.

(** The version a buffer claims to have, before anything is authenticated. *)
Definition external_version (data : bytes) : Z :=
  let size := Z.of_nat (length data) in
  if get_header_len <=? size then le_decode (take 4 (drop 4 data))
  else if size =? 0 then 0 else CRYPTOBUF_INVALID_VERSION.

Definition nexus_crypto_buf_create (b : bcache) (u : uuid) (flags err : Z) (ext : option bytes)
    (ts : Z) : bcache * option nexus_crypto_buf * list ocall :=
  let '(b, addr, t) := buffer_layer_get b u flags err ext ts in
  match addr with
  | None => (b, None, t)
  | Some data =>
      (b, Some {| cb_ctx := empty_ctx; cb_version := external_version data; cb_data_size := 0;
                  cb_uuid := u; cb_external := Some (ExtStore data); cb_internal := None |}, t)
  end.

Definition nexus_crypto_buf_version (c : nexus_crypto_buf) : Z := cb_version c.

Definition nexus_crypto_buf_set_datasize (c : nexus_crypto_buf) (n : Z) : nexus_crypto_buf :=
  {| cb_ctx := cb_ctx c; cb_version := cb_version c; cb_data_size := n; cb_uuid := cb_uuid c;
     cb_external := cb_external c; cb_internal := cb_internal c |}.

Definition with_ctx (c : nexus_crypto_buf) (x : nexus_crypto_ctx) : nexus_crypto_buf :=
  {| cb_ctx := x; cb_version := cb_version c; cb_data_size := cb_data_size c; cb_uuid := cb_uuid c;
     cb_external := cb_external c; cb_internal := cb_internal c |}.

Definition with_internal (c : nexus_crypto_buf) (x : option bytes) : nexus_crypto_buf :=
  {| cb_ctx := cb_ctx c; cb_version := cb_version c; cb_data_size := cb_data_size c;
     cb_uuid := cb_uuid c; cb_external := cb_external c; cb_internal := x |}.

(** [__parse_gcm128_context]: [None] is -1. *)
Definition parse_gcm128_context (u : uuid) (h : crypto_buf_hdr) : option nexus_crypto_ctx :=
  k ← unwrap_key u (h_ekey h); Some (mk_ctx k (h_iv h) (h_mac h)).

(** [__parse_header]: the outer [None] is a copy of a header the buffer is
    too short to hold, the inner one a rejected header. *)
Definition parse_header (u : uuid) (data : bytes)
    : option (option (crypto_buf_hdr * nexus_crypto_ctx)) :=
  '(h, _) ← hdr_parse data;
  if negb (h_magic h =? NEXUS_MAGIC_V1) then Some None
  else if negb (h_size h =? Z.of_nat (length data) -64 get_header_len) then Some None
  else Some (ctx ← parse_gcm128_context u h; Some (h, ctx)).

(** The buffer's plaintext (inner [None]: NULL) and the MAC handed out. *)
Definition nexus_crypto_buf_get (c : nexus_crypto_buf)
    : option (nexus_crypto_buf * option bytes * option mac) :=
  match cb_internal c with
  | Some p => Some (c, Some p, None)
  | None =>
      match cb_external c with
      | Some (ExtStore []) | None => Some (c, None, None)
      | Some (ExtTmp _) => None
      | Some (ExtStore data) =>
          parsed ← parse_header (cb_uuid c) data;
          match parsed with
          | None => Some (c, None, None)
          | Some (h, ctx) =>
              let ciphertext := drop (Z.to_nat get_header_len) data in
              '(ret, out, m) ← crypto_gcm_decrypt ctx ciphertext (hdr_bytes (zero_mac_hdr h));
              if negb (ret =? 0) then Some (with_ctx c ctx, None, None)
              else
                let p := out ++ replicate (length ciphertext - length out) 0 in
                Some (with_internal (with_ctx c ctx) (Some p), Some p, m)
          end
      end
  end.

Definition internal_bytes (c : nexus_crypto_buf) : bytes := default [] (cb_internal c).

(** [__serialize_header], for the key, IV and MAC of the context. *)
Definition serialize_header (c : nexus_crypto_buf) : crypto_buf_hdr :=
  {| h_magic := NEXUS_MAGIC_V1; h_version := cb_version c;
     h_size := u32 (Z.of_nat (length (internal_bytes c)));
     h_ekey := wrap_key (cb_uuid c) (ctx_key (cb_ctx c)); h_iv := ctx_iv (cb_ctx c);
     h_mac := ctx_mac (cb_ctx c) |}.

Definition with_version (c : nexus_crypto_buf) (v : Z) : nexus_crypto_buf :=
  {| cb_ctx := cb_ctx c; cb_version := v; cb_data_size := cb_data_size c; cb_uuid := cb_uuid c;
     cb_external := cb_external c; cb_internal := cb_internal c |}.

Definition with_external (c : nexus_crypto_buf) (e : option external) : nexus_crypto_buf :=
  {| cb_ctx := cb_ctx c; cb_version := cb_version c; cb_data_size := cb_data_size c;
     cb_uuid := cb_uuid c; cb_external := e; cb_internal := cb_internal c |}.

(** What a put draws and gets back from outside: the key and IV, the memory
    for the external buffer, the reply of the store. *)
Record put_env := mk_env {
  pe_draw : bytes * bytes;
  pe_heap : option bytes;
  pe_reply : reply;
  pe_ts : Z
}.

(** The part of [nexus_crypto_buf_put] after the external buffer exists.
    [None] is a ciphertext that does not fit in the external buffer. *)
Definition crypto_buf_seal (c : nexus_crypto_buf) (b : bcache) (env : put_env)
    : option (nexus_crypto_buf * bcache * Z * option mac * list ocall) :=
  let old := cb_version c in
  let c := with_ctx (with_version c (u32 (old + 1))) (nexus_crypto_ctx_generate (pe_draw env)) in
  let h := zero_mac_hdr (serialize_header c) in
  '(ret, ctx, out) ← crypto_gcm_encrypt (cb_ctx c) (internal_bytes c) (hdr_bytes h);
  let c := with_ctx c ctx in
  if negb (ret =? 0) then Some (with_version c (u32 (cb_version c - 1)), b, -1, None, [])
  else
    let h := mk_hdr (h_magic h) (h_version h) (h_size h) (h_ekey h) (h_iv h) (ctx_mac ctx) in
    let b := match cb_external c with
             | Some (ExtTmp _) => buffer_write b (cb_uuid c) (hdr_bytes h ++ out)
             | _ => b
             end in
    let '(b, ret, t) := buffer_layer_put b (cb_uuid c) (cb_data_size c) (pe_reply env) (pe_ts env) in
    let c := if ret =? 0 then c else with_version c (u32 (cb_version c - 1)) in
    Some (c, b, ret, Some (ctx_mac ctx), t).

(** Return code and the MAC written to the caller. *)
Definition nexus_crypto_buf_put (c : nexus_crypto_buf) (b : bcache) (env : put_env)
    : option (nexus_crypto_buf * bcache * Z * option mac * list ocall) :=
  match cb_external c with
  | None =>
      let size := get_header_len +64 Z.of_nat (length (internal_bytes c)) in
      '(b, got) ← buffer_layer_alloc b (cb_uuid c) size (pe_heap env);
      if negb got then Some (c, b, -1, None, [])
      else crypto_buf_seal (with_external c (Some (ExtTmp size))) b env
  | Some _ => crypto_buf_seal c b env
  end.

(** ** Lemmas *)
Lemma unwrap_wrap u k : unwrap_key u (wrap_key u k) = Some k.
Proof.
  unfold unwrap_key, wrap_key. pose proof (siv_lengths volumekey u k) as [Hl _].
  pose proof (siv_inverse volumekey u k) as Hi. destruct (siv_encrypt volumekey u k) as [t e].
  simpl in Hl. rewrite <- Hi. change GCM128_TAG_SIZE with 16%nat. rewrite <- Hl at 1 2.
  by rewrite take_app_length, drop_app_length.
Qed.

Lemma length_wrap_key u k : length (wrap_key u k) = (16 + length k)%nat.
Proof.
  unfold wrap_key. pose proof (siv_lengths volumekey u k) as [Ht He].
  destruct (siv_encrypt volumekey u k). simpl in *. rewrite length_app. lia.
Qed.

Definition hdr_ok (h : crypto_buf_hdr) : Prop :=
  in_range 32 (h_magic h) /\ in_range 32 (h_version h) /\ in_range 32 (h_size h) /\
  length (h_ekey h) = 32%nat /\ length (h_iv h) = 16%nat /\ length (h_mac h) = 16%nat.

Lemma hdr_roundtrip h rest : hdr_ok h -> hdr_parse (hdr_bytes h ++ rest) = Some (h, rest).
Proof.
  destruct h as [mg v sz ek iv mc]. intros (H1 & H2 & H3 & H4 & H5 & H6). simpl in H1, H2, H3, H4, H5, H6.
  unfold hdr_parse, hdr_bytes. cbn [h_magic h_version h_size h_ekey h_iv h_mac].
  rewrite <- !app_assoc. do 6 dec_step. done.
Qed.

(** A header that parses is the first 76 bytes of the buffer. *)
Lemma hdr_parse_inv data h rest :
  Forall byte_ok data -> hdr_parse data = Some (h, rest) ->
  data = hdr_bytes h ++ rest /\ length (h_ekey h) = 32%nat /\ length (h_iv h) = 16%nat /\
  length (h_mac h) = 16%nat.
Proof.
  intros Hb. unfold hdr_parse, dec_bind, dec_ret.
  destruct (dec_uint 4 data) as [[mg r1]|] eqn:E1; [|done]. apply dec_uint_inv in E1 as ->; [|done].
  apply Forall_app in Hb as [_ Hb].
  destruct (dec_uint 4 r1) as [[v r2]|] eqn:E2; [|done]. apply dec_uint_inv in E2 as ->; [|done].
  apply Forall_app in Hb as [_ Hb].
  destruct (dec_uint 4 r2) as [[sz r3]|] eqn:E3; [|done]. apply dec_uint_inv in E3 as ->; [|done].
  destruct (dec_bytes _ r3) as [[ek r4]|] eqn:E4; [|done]. apply dec_bytes_inv in E4 as [-> ?].
  destruct (dec_bytes _ r4) as [[iv r5]|] eqn:E5; [|done]. apply dec_bytes_inv in E5 as [-> ?].
  destruct (dec_bytes _ r5) as [[m r6]|] eqn:E6; [|done]. apply dec_bytes_inv in E6 as [-> ?].
  intros [= <- <-]. unfold hdr_bytes. cbn [h_magic h_version h_size h_ekey h_iv h_mac].
  rewrite <- !app_assoc. by split_and!.
Qed.

Lemma length_hdr_bytes h : hdr_ok h -> length (hdr_bytes h) = 76%nat.
Proof.
  intros (_ & _ & _ & H4 & H5 & H6). unfold hdr_bytes.
  by rewrite !length_app, !length_le_encode, H4, H5, H6.
Qed.

Lemma hdr_version h rest : hdr_ok h -> external_version (hdr_bytes h ++ rest) = h_version h.
Proof.
  intros Hh. unfold external_version. rewrite length_app, (length_hdr_bytes h Hh).
  unfold get_header_len. rewrite (proj2 (Z.leb_le _ _)) by lia.
  unfold hdr_bytes. rewrite <- !app_assoc.
  rewrite drop_app_length' by (by rewrite length_le_encode).
  rewrite take_app_length' by (by rewrite length_le_encode).
  rewrite le_decode_encode. apply Z.mod_small. apply Hh.
Qed.

(** The version read off a buffer is the one in its header. *)
Lemma external_version_parse data h rest :
  hdr_parse data = Some (h, rest) -> h_version h = external_version data.
Proof.
  unfold hdr_parse, dec_bind, dec_ret.
  destruct (dec_uint 4 data) as [[mg r1]|] eqn:E1; [|done]. revert E1. unfold dec_uint, dec_bind, dec_ret.
  destruct (dec_bytes 4 data) as [[x1 s1]|] eqn:E1; [|done]. intros [= _ ->].
  apply dec_bytes_inv in E1 as [-> H1].
  destruct (dec_bytes 4 r1) as [[x2 r2]|] eqn:E2; [|done]. apply dec_bytes_inv in E2 as [-> H2].
  destruct (dec_bytes 4 r2) as [[x3 r3]|] eqn:E3; [|done]. apply dec_bytes_inv in E3 as [-> H3].
  destruct (dec_bytes _ r3) as [[ek r4]|] eqn:E4; [|done]. apply dec_bytes_inv in E4 as [-> H4].
  destruct (dec_bytes _ r4) as [[iv r5]|] eqn:E5; [|done]. apply dec_bytes_inv in E5 as [-> H5].
  destruct (dec_bytes _ r5) as [[m r6]|] eqn:E6; [|done]. apply dec_bytes_inv in E6 as [-> H6].
  intros [= <- <-]. cbn [h_version]. unfold external_version, get_header_len.
  change GCM128_WRAPPED_KEY_SIZE with 32%nat in H4. change GCM128_IV_SIZE with 16%nat in H5.
  change NEXUS_MAC_SIZE with 16%nat in H6.
  rewrite !length_app, (proj2 (Z.leb_le _ _)) by lia.
  by rewrite drop_app_length', take_app_length' by done.
Qed.

(** The bytes a put seals: the header of the next version and ciphertext. *)
Definition sealed (u : uuid) (v : Z) (p data : bytes) (m : mac) : Prop :=
  exists h ctx, hdr_ok h /\ h_magic h = NEXUS_MAGIC_V1 /\ h_version h = v /\ h_mac h = m /\
    parse_header u data = Some (Some (h, ctx)) /\
    crypto_gcm_decrypt ctx (drop (Z.to_nat get_header_len) data) (hdr_bytes (zero_mac_hdr h))
      = Some (0, p, Some m) /\
    external_version data = v /\ length data = (76 + length p)%nat.

Lemma seal_spec c env b :
  (exists n, cb_external c = Some (ExtTmp n)) -> in_range 32 (cb_version c) ->
  key_ok (pe_draw env).1 -> key_ok (pe_draw env).2 -> Z.of_nat (length (internal_bytes c)) < 2 ^ 31 ->
  exists data m ctx, sealed (cb_uuid c) (u32 (cb_version c + 1)) (internal_bytes c) data m /\
    crypto_buf_seal c b env =
      (let '(b, ret, t) := buffer_layer_put (buffer_write b (cb_uuid c) data) (cb_uuid c)
                             (cb_data_size c) (pe_reply env) (pe_ts env) in
       let c' := with_ctx (with_version c (u32 (cb_version c + 1))) ctx in
       let c' := if ret =? 0 then c' else with_version c' (u32 (cb_version c' - 1)) in
       Some (c', b, ret, Some m, t)).
Proof.
  intros [n He] Hv [Hk1 Hk1'] [Hk2 Hk2'] Hl. unfold crypto_buf_seal.
  set (c1 := with_ctx _ _). set (h0 := zero_mac_hdr (serialize_header c1)).
  assert (Hh0 : forall m, length m = 16%nat ->
    hdr_ok (mk_hdr (h_magic h0) (h_version h0) (h_size h0) (h_ekey h0) (h_iv h0) m)).
  { intros m Hm. split_and!; simpl; try done; try (apply wrap_range; lia).
    rewrite length_wrap_key, Hk1. done. }
  destruct (gcm_encrypt_spec (cb_ctx c1) (internal_bytes c1) (hdr_bytes h0))
    as (m & out & Henc & Hlo & Hdec); [exact Hk2| |exact Hl|].
  { rewrite (length_hdr_bytes h0); [lia|]. apply (Hh0 (replicate 16 0)). done. }
  rewrite Henc. cbn [mbind option_bind negb Z.eqb].
  set (h := mk_hdr (h_magic h0) _ _ _ _ _).
  assert (Hm : length m = 16%nat).
  { unfold crypto_gcm_decrypt in Hdec. cbn [ctx_key ctx_iv ctx_mac] in Hdec.
    destruct (gcm_starts_some (ctx_key (cb_ctx c1)) MBEDTLS_GCM_DECRYPT (ctx_iv (cb_ctx c1)) (hdr_bytes h0))
      as (g & Hg & _ & Hb); [exact Hk2| |].
    { rewrite (length_hdr_bytes h0); [lia|]. apply (Hh0 (replicate 16 0)). done. }
    rewrite Hg in Hdec. cbn [mbind option_bind] in Hdec.
    destruct (gcm_loop _ _ _ _) as [[g' o]|] eqn:El; [|done]. apply gcm_loop_ectr in El.
    destruct (negb _); [done|]. injection Hdec as _ <-. apply gcm_finish_len. by rewrite El. }
  assert (Hh : hdr_ok h) by (by apply Hh0).
  exists (hdr_bytes h ++ out), m, (mk_ctx (ctx_key (cb_ctx c1)) (ctx_iv (cb_ctx c1)) m). split.
  - exists h, (mk_ctx (ctx_key (cb_ctx c1)) (ctx_iv (cb_ctx c1)) m).
    split; [done|]. split; [done|]. split; [done|]. split; [done|].
    assert (Hsz : h_size h = Z.of_nat (length (hdr_bytes h ++ out)) -64 get_header_len).
    { change (h_size h) with (u32 (Z.of_nat (length (internal_bytes c)))).
      change (internal_bytes c1) with (internal_bytes c) in *.
      rewrite length_app, (length_hdr_bytes h Hh), Hlo. unfold get_header_len.
      rewrite !wrap_small by (unfold in_range; lia). lia. }
    split; [|split; [|split]].
    + unfold parse_header. rewrite (hdr_roundtrip h out Hh). cbn [mbind option_bind].
      change (h_magic h =? NEXUS_MAGIC_V1) with true. cbn [negb]. rewrite <- Hsz, Z.eqb_refl.
      unfold parse_gcm128_context.
      change (h_ekey h) with (wrap_key (cb_uuid c) (ctx_key (cb_ctx c1))). by rewrite unwrap_wrap.
    + change (Z.to_nat get_header_len) with 76%nat.
      rewrite drop_app_length' by (by rewrite length_hdr_bytes). exact Hdec.
    + by rewrite hdr_version.
    + rewrite length_app, (length_hdr_bytes h Hh), Hlo. done.
  - change (cb_external (with_ctx c1 _)) with (cb_external c). rewrite He. done.
Qed.
End crypto_buf.

(** The buffer layer holds [u] for one writer, with no flush in progress. *)
Definition one_writer (b : bcache) (u : uuid) : Prop :=
  exists m, bcache_get b u = Some m /\ in_write_mode m = true /\ write_lock m = false /\
    0 <= writers m <= 1.

(** ** Concrete instances, for evaluating the operations *)
(** A key wrapping that stores the key next to a copy of it. *)
Definition toy_tag (k : bytes) : bytes := take 16 (k ++ replicate 16 0).

Lemma toy_wrap_lengths (k : bytes) : length (toy_tag k) = 16%nat /\ length k = length k.
Proof. unfold toy_tag. rewrite length_take, length_app, length_replicate. split; lia. Qed.

Lemma toy_wrap_inverse (k : bytes) :
  (if decide (toy_tag k = toy_tag k) then Some k else None) = Some k.
Proof. by rewrite decide_True. Qed.

Definition toy_wrap : KeyWrapCipher :=
  {| siv_encrypt := fun _ _ k => (toy_tag k, k);
     siv_decrypt := fun _ _ t e => if decide (t = toy_tag e) then Some e else None;
     siv_lengths := fun _ _ k => toy_wrap_lengths k;
     siv_inverse := fun _ _ k => toy_wrap_inverse k |}.

Lemma held_one_writer u : one_writer (held_cache u 1) u.
Proof.
  unfold one_writer, bcache_get. cbn [buffer_cache held_cache]. rewrite lookup_singleton_eq.
  eexists. split; [done|]. split; [done|]. split; [done|]. simpl. lia.
Qed.

Definition toy_env (r : reply) : put_env := mk_env (replicate 16 3, replicate 16 5) (Some []) r 9.

Lemma toy_draw_ok x : byte_ok x -> key_ok (replicate 16 x).
Proof. intros. split; [done|]. by apply Forall_replicate. Qed.

(** What [toy_env] seals for the plaintext [p]. *)
Definition toy_sealed (u : uuid) (p : bytes) : bytes :=
  match nexus_crypto_buf_put (H := toy_cipher) (H0 := toy_wrap) []
          (nexus_crypto_buf_new p 4 u) (held_cache u 1) (toy_env reply_ok) with
  | Some (_, _, _, _, [ocall_buffer_put _ data _]) => data
  | _ => []
  end.

Section store_load.
Context `{BlockCipher} `{KeyWrapCipher}.
Variable volumekey : bytes.

(** Sealing a new buffer for its only writer. *)
Lemma put_new_spec b u p v env mem dsize :
  one_writer b u -> in_range 32 v -> key_ok (pe_draw env).1 -> key_ok (pe_draw env).2 ->
  Z.of_nat (length p) < 2 ^ 31 -> pe_heap env = Some mem ->
  exists c' b' data m, sealed volumekey u (u32 (v + 1)) p data m /\
    nexus_crypto_buf_put volumekey (nexus_crypto_buf_set_datasize (nexus_crypto_buf_new p v u) dsize) b env
      = Some (c', b', if failed (pe_reply env) then -1 else 0, Some m, [ocall_buffer_put u data dsize]) /\
    cb_version c' = (if failed (pe_reply env) then v else u32 (v + 1)) /\
    (if failed (pe_reply env) then
       exists flags, buffer_layer_lock_status b' u = Some flags /\ nexus_io_in_lock_mode flags = true
     else idle b' u) /\
    (forall u', u <> u' -> bcache_get b' u' = bcache_get b u').
Proof.
  intros (m & Hm & Hw & Hl & Hn) Hv Hk1 Hk2 Hlen Hheap. unfold nexus_crypto_buf_put.
  cbn [cb_external nexus_crypto_buf_set_datasize nexus_crypto_buf_new cb_uuid].
  unfold buffer_layer_alloc. rewrite Hm, Hw, Hl, Hheap. cbn [negb mbind option_bind].
  match goal with |- context [crypto_buf_seal _ ?x ?y _] => set (c0 := x); set (b1 := y) end.
  destruct (seal_spec volumekey c0 env b1) as (data & mc & ctx & Hs & Heq);
    [by eexists|simpl; rewrite wrap_small by done; done|done|done|done|].
  rewrite Heq. unfold b1, buffer_write. change (cb_uuid c0) with u in *. autorewrite with nexus.
  cbn [with_tmp tmp_buffer fmap option_fmap option_map const].
  unfold buffer_layer_put, buffer_layer_dealloc. autorewrite with nexus.
  cbn [tmp_buffer with_tmp writers mb_flags]. rewrite (proj2 (Z.ltb_ge 1 (writers m))) by lia.
  unfold in_write_mode in *. cbn [mb_flags with_tmp]. rewrite Hw. cbn [negb]. autorewrite with nexus.
  assert (Hv0 : cb_version c0 = v) by (simpl; by rewrite wrap_small). rewrite Hv0 in *.
  destruct (failed (pe_reply env)); autorewrite with nexus; do 4 eexists; (split; [exact Hs|]);
    (split; [done|]); cbn [cb_version with_ctx with_version Z.eqb];
    (split; [|split; [|intros; by apply get_set_buf_ne]]).
  - rewrite wrap_sub_l, Z.add_simpl_r. by apply wrap_small.
  - unfold buffer_layer_lock_status. autorewrite with nexus. eauto.
  - done.
  - unfold idle. by autorewrite with nexus.
Qed.

(** Opening sealed bytes. *)
(** Storing an object whose buffer was allocated at its exact size: what is
    sent, and what any reader of it gets. *)
Lemma store_buffer_spec b u buf size v env mem :
  one_writer b u -> in_range 32 v -> key_ok (pe_draw env).1 -> key_ok (pe_draw env).2 ->
  Z.of_nat (length buf) = size -> size < 2 ^ 31 -> pe_heap env = Some mem ->
  (size <? Z.of_nat (length buf)) = false /\
  exists c' b' data m,
    nexus_crypto_buf_put volumekey
      (nexus_crypto_buf_new (buf ++ replicate (Z.to_nat size - length buf) 0) v u) b env
      = Some (c', b', if failed (pe_reply env) then -1 else 0, Some m, [ocall_buffer_put u data 0]) /\
    sealed volumekey u (u32 (v + 1)) buf data m /\ external_version data = u32 (v + 1) /\
    (if failed (pe_reply env) then
       exists flags, buffer_layer_lock_status b' u = Some flags /\ nexus_io_in_lock_mode flags = true
     else idle b' u).
Proof.
  intros Hw Hv Hk1 Hk2 Hl Hs Hh. split; [apply Z.ltb_ge; lia|].
  replace (Z.to_nat size - length buf)%nat with 0%nat by lia. cbn [replicate]. rewrite app_nil_r.
  destruct (put_new_spec b u buf v env mem 0 Hw Hv Hk1 Hk2) as (c' & b' & data & m & Hsd & Hput & _ & Hlk & _);
    [lia|done|].
  exists c', b', data, m. split; [exact Hput|]. split; [done|]. split; [|done].
  by destruct Hsd as (? & ? & _ & _ & _ & _ & _ & _ & Hev & _).
Qed.

Lemma get_sealed u v p data m c :
  sealed volumekey u v p data m -> cb_internal c = None -> cb_external c = Some (ExtStore data) ->
  cb_uuid c = u -> exists c', nexus_crypto_buf_get volumekey c = Some (c', Some p, Some m).
Proof.
  intros (h & ctx & Hh & _ & _ & _ & Hp & Hd & _ & Hl) Hi He Hu. unfold nexus_crypto_buf_get.
  rewrite Hi, He, Hu. destruct data as [|x data]; [simpl in Hl; lia|]. rewrite Hp.
  cbn [mbind option_bind]. rewrite Hd. cbn [mbind option_bind negb Z.eqb].
  replace (length _ - length p)%nat with 0%nat; [rewrite app_nil_r; eauto|].
  rewrite length_drop, Hl. change (Z.to_nat get_header_len) with 76%nat. lia.
Qed.
End store_load.

(** ** Properties *)
(** C13: sealing metadata and opening it again: the bytes sent to the store
    are one call's worth, and loading exactly those bytes under the same UUID
    and volume key yields the same plaintext, the same MAC and the version
    that was written (the previous one plus 1); a refused flush keeps the
    version and the write lock. *)
Theorem crypto_buf_store_load `{BlockCipher} `{KeyWrapCipher} vk b u p v env mem dsize :
  one_writer b u -> in_range 32 v -> key_ok (pe_draw env).1 -> key_ok (pe_draw env).2 ->
  Z.of_nat (length p) < 2 ^ 31 -> pe_heap env = Some mem ->
  exists c' b' data m,
    nexus_crypto_buf_put vk (nexus_crypto_buf_set_datasize (nexus_crypto_buf_new p v u) dsize) b env
      = Some (c', b', if failed (pe_reply env) then -1 else 0, Some m, [ocall_buffer_put u data dsize]) /\
    cb_version c' = (if failed (pe_reply env) then v else u32 (v + 1)) /\
    (failed (pe_reply env) = true ->
       exists flags, buffer_layer_lock_status b' u = Some flags /\ nexus_io_in_lock_mode flags = true) /\
    forall b2 flags ts, bcache_get b2 u = None ->
      exists b3 c2 c3, nexus_crypto_buf_create b2 u flags 0 (Some data) ts =
          (b3, Some c2, [ocall_buffer_get u flags]) /\
        nexus_crypto_buf_version c2 = u32 (v + 1) /\
        nexus_crypto_buf_get vk c2 = Some (c3, Some p, Some m).
Proof.
  intros Hw Hv Hk1 Hk2 Hl Hh.
  destruct (put_new_spec vk b u p v env mem dsize Hw Hv Hk1 Hk2 Hl Hh)
    as (c' & b' & data & m & Hs & Hput & Hver & Hst & _).
  exists c', b', data, m. split; [done|]. split; [done|]. split; [intros Hf; by rewrite Hf in Hst|].
  intros b2 flags ts Hb2. unfold nexus_crypto_buf_create, buffer_layer_get. rewrite Hb2. cbn [negb Z.eqb].
  destruct (get_update b2 u ts flags) as (m2 & Hm2 & _). rewrite Hm2.
  destruct (get_sealed vk u (u32 (v + 1)) p data m (mk_cbuf empty_ctx (external_version data) 0 u
              (Some (ExtStore data)) None) Hs) as (c3 & Hc3); [done..|].
  eexists _, _, c3. split; [done|]. split; [|exact Hc3].
  destruct Hs as (h & ctx & _ & _ & _ & _ & _ & _ & Hev & _). exact Hev.
Qed.

Lemma crypto_buf_store_load_witness :
  let u := uuid_const 7 in
  exists c' b' data m,
    nexus_crypto_buf_put (H := toy_cipher) (H0 := toy_wrap) []
      (nexus_crypto_buf_set_datasize (nexus_crypto_buf_new [1; 2; 3] 4 u) 3) (held_cache u 1) (toy_env reply_ok)
      = Some (c', b', 0, Some m, [ocall_buffer_put u data 3]) /\
    cb_version c' = 5 /\
    (failed reply_ok = true ->
       exists flags, buffer_layer_lock_status b' u = Some flags /\ nexus_io_in_lock_mode flags = true) /\
    forall b2 flags ts, bcache_get b2 u = None ->
      exists b3 c2 c3, nexus_crypto_buf_create b2 u flags 0 (Some data) ts =
          (b3, Some c2, [ocall_buffer_get u flags]) /\
        nexus_crypto_buf_version c2 = 5 /\
        nexus_crypto_buf_get (H := toy_cipher) (H0 := toy_wrap) [] c2 = Some (c3, Some [1; 2; 3], Some m).
Proof.
  intros u. apply (crypto_buf_store_load (H := toy_cipher) (H0 := toy_wrap) [] (held_cache u 1) u
                     [1; 2; 3] 4 (toy_env reply_ok) [] 3).
  - apply held_one_writer.
  - by vm_compute.
  - apply toy_draw_ok. unfold byte_ok. lia.
  - apply toy_draw_ok. unfold byte_ok. lia.
  - by vm_compute.
  - done.
Defined.

(** Opening bytes that came from the store. *)
Lemma get_authentic `{BlockCipher} `{KeyWrapCipher} vk ctx u data c' p m :
  Forall byte_ok data -> Z.of_nat (length data) < 2 ^ 31 ->
  nexus_crypto_buf_get vk (mk_cbuf ctx (external_version data) 0 u (Some (ExtStore data)) None)
    = Some (c', Some p, m) ->
  exists h key c, data = hdr_bytes h ++ c /\ h_magic h = NEXUS_MAGIC_V1 /\
    h_version h = external_version data /\ h_size h = Z.of_nat (length p) /\
    unwrap_key vk u (h_ekey h) = Some key /\
    crypto_gcm_encrypt (mk_ctx key (h_iv h) (h_mac h)) p (hdr_bytes (zero_mac_hdr h))
      = Some (0, mk_ctx key (h_iv h) (h_mac h), c) /\ m = Some (h_mac h) /\
    length (h_mac h) = 16%nat.
Proof.
  intros Hb Hl. unfold nexus_crypto_buf_get. cbn [cb_internal cb_external cb_uuid].
  destruct data as [|x data]; [done|]. set (d := x :: data) in *.
  unfold parse_header. destruct (hdr_parse d) as [[h c]|] eqn:Eh; [|done].
  destruct (hdr_parse_inv d h c Hb Eh) as (Hd & Hek & Hiv & Hmac).
  assert (Hh : length (hdr_bytes h) = 76%nat).
  { unfold hdr_bytes. by rewrite !length_app, !length_le_encode, Hek, Hiv, Hmac. }
  assert (Hz : length (hdr_bytes (zero_mac_hdr h)) = 76%nat).
  { unfold hdr_bytes. cbn. by rewrite !length_app, !length_le_encode, Hek, Hiv. }
  cbn [mbind option_bind]. destruct (Z.eqb_spec (h_magic h) NEXUS_MAGIC_V1) as [Hmg|]; [|done]. cbn [negb].
  destruct (Z.eqb_spec (h_size h) (Z.of_nat (length d) -64 get_header_len)) as [Hs|]; [|done].
  cbn [negb]. unfold parse_gcm128_context.
  destruct (unwrap_key vk u (h_ekey h)) as [key|] eqn:Ek; [|done]. cbn [mbind option_bind].
  assert (Hdr : drop (Z.to_nat get_header_len) d = c).
  { change (Z.to_nat get_header_len) with 76%nat. rewrite Hd. by apply drop_app_length'. }
  rewrite Hdr. assert (Hlc : Z.of_nat (length d) = 76 + Z.of_nat (length c)) by (rewrite Hd, length_app; lia).
  destruct (crypto_gcm_decrypt _ _ _) as [[[ret out] mm]|] eqn:Ed; [|done]. cbn [mbind option_bind].
  destruct (Z.eqb_spec ret 0) as [->|]; [|done]. cbn [negb]. intros [= <- <- <-].
  apply gcm_decrypt_encrypt in Ed as (He & Hlo & ->); [|exact Hiv|lia| |lia].
  - replace (length c - length out)%nat with 0%nat by lia. rewrite app_nil_r.
    exists h, key, c. split; [done|]. split; [done|]. split; [by eapply external_version_parse|].
    split; [|done]. rewrite Hs. unfold get_header_len. rewrite wrap_small by (unfold in_range; lia). lia.
  - split; [done|]. rewrite Hd in Hb. apply Forall_app in Hb as [Hb _]. unfold hdr_bytes in Hb.
    by rewrite !Forall_app in Hb; destruct Hb as (_ & _ & _ & _ & _ & ?).
Qed.

(** C1: nothing unauthenticated is handed out: when bytes that came from the
    store open to the plaintext [p], they are exactly a sealing of [p]: a
    header with the magic number and the version the buffer reported, whose
    key unwraps under the object's UUID, followed by the encryption of [p]
    under that key, with the header (the version included) as additional data
    and the resulting MAC in the header. *)
Theorem crypto_buf_get_authentic `{BlockCipher} `{KeyWrapCipher} vk ctx u data c' p m :
  Forall byte_ok data -> Z.of_nat (length data) < 2 ^ 31 ->
  nexus_crypto_buf_get vk (mk_cbuf ctx (external_version data) 0 u (Some (ExtStore data)) None)
    = Some (c', Some p, m) ->
  exists h key c, data = hdr_bytes h ++ c /\ h_magic h = NEXUS_MAGIC_V1 /\
    h_version h = external_version data /\ h_size h = Z.of_nat (length p) /\
    unwrap_key vk u (h_ekey h) = Some key /\
    crypto_gcm_encrypt (mk_ctx key (h_iv h) (h_mac h)) p (hdr_bytes (zero_mac_hdr h))
      = Some (0, mk_ctx key (h_iv h) (h_mac h), c) /\ m = Some (h_mac h).
Proof.
  intros Hb Hl Hg. destruct (get_authentic _ _ _ _ _ _ _ Hb Hl Hg) as (h & key & c & Hs).
  exists h, key, c. by destruct_and! Hs.
Qed.

Lemma crypto_buf_get_authentic_witness :
  let u := uuid_const 7 in let data := toy_sealed u [1; 2; 3] in
  exists h key c, data = hdr_bytes h ++ c /\ h_magic h = NEXUS_MAGIC_V1 /\
    h_version h = external_version data /\ h_size h = 3 /\
    unwrap_key (H0 := toy_wrap) [] u (h_ekey h) = Some key /\
    crypto_gcm_encrypt (H := toy_cipher) (mk_ctx key (h_iv h) (h_mac h)) [1; 2; 3]
      (hdr_bytes (zero_mac_hdr h)) = Some (0, mk_ctx key (h_iv h) (h_mac h), c) /\
    Some [26; 1; 0; 5; 0; 0; 0; 3; 96; 2; 0; 5; 107; 125; 5; 4] = Some (h_mac h).
Proof.
  intros u data.
  assert (Hb : forallb (fun b => (0 <=? b) && (b <? 256)) data = true) by (by vm_compute).
  eapply (crypto_buf_get_authentic (H := toy_cipher) (H0 := toy_wrap) [] empty_ctx u data _ [1; 2; 3]).
  - apply Forall_forall. intros b Hin%list_elem_of_In. rewrite forallb_forall in Hb.
    specialize (Hb b Hin). unfold byte_ok. lia.
  - by vm_compute.
  - vm_compute. reflexivity.
Defined.
