(* ===== verification/Filenode.v ===== *)
(** * Filenodes

    Models [filenode.c]: the metadata of a file, a list of per-chunk crypto
    contexts, its serialized form, its size changes and its store and load
    through a crypto buffer.  The random draws of new chunk keys are an
    argument.  [None] results are memory errors (a NULL chunk, an overread). *)
From S2P Require Import Prelude Hashmap Types AttributeTable Dirnode Gcm Crypto BufferLayer CryptoBuf.

Record nexus_filenode := mk_filenode {
  fn_my_uuid : uuid;
  fn_root_uuid : uuid;
  chunksize : Z;
  log2chunksize : Z;
  encrypted_length : Z;
  nchunks : Z;
  filesize : Z;
  fn_flags : Z;
  chunk_list : list nexus_crypto_ctx;
  fn_attribute_table : attribute_table;
  fn_metadata : option bool          (* the metadata's [is_dirty], [None] when NULL *)
}.

(** [sizeof(struct __filenode_hdr)]: 16 + 16 + 8 + 4 + 1 + 8, packed. *)
Definition FILENODE_HDR_SIZE : Z := 53.

(** ** Chunk arithmetic *)
Definition get_chunk_number (f : nexus_filenode) (offset : Z) : Z :=
  if offset <? chunksize f then 0
  else 1 +64 Z.shiftr (offset -64 chunksize f) (log2chunksize f).

Definition get_chunk_count (f : nexus_filenode) (file_size : Z) : Z := get_chunk_number f file_size +64 1.

(** ** Field updates *)
Definition with_fmeta (f : nexus_filenode) (m : option bool) : nexus_filenode :=
  {| fn_my_uuid := fn_my_uuid f; fn_root_uuid := fn_root_uuid f; chunksize := chunksize f;
     log2chunksize := log2chunksize f; encrypted_length := encrypted_length f;
     nchunks := nchunks f; filesize := filesize f; fn_flags := fn_flags f;
     chunk_list := chunk_list f; fn_attribute_table := fn_attribute_table f; fn_metadata := m |}.

Definition with_size (f : nexus_filenode) (elen n size : Z) (l : list nexus_crypto_ctx)
    : nexus_filenode :=
  {| fn_my_uuid := fn_my_uuid f; fn_root_uuid := fn_root_uuid f; chunksize := chunksize f;
     log2chunksize := log2chunksize f; encrypted_length := elen;
     nchunks := n; filesize := size; fn_flags := fn_flags f;
     chunk_list := l; fn_attribute_table := fn_attribute_table f; fn_metadata := fn_metadata f |}.

Definition with_ftable (f : nexus_filenode) (t : attribute_table) : nexus_filenode :=
  {| fn_my_uuid := fn_my_uuid f; fn_root_uuid := fn_root_uuid f; chunksize := chunksize f;
     log2chunksize := log2chunksize f; encrypted_length := encrypted_length f;
     nchunks := nchunks f; filesize := filesize f; fn_flags := fn_flags f;
     chunk_list := chunk_list f; fn_attribute_table := t; fn_metadata := fn_metadata f |}.

Definition with_fflags (f : nexus_filenode) (flags : Z) : nexus_filenode :=
  {| fn_my_uuid := fn_my_uuid f; fn_root_uuid := fn_root_uuid f; chunksize := chunksize f;
     log2chunksize := log2chunksize f; encrypted_length := encrypted_length f;
     nchunks := nchunks f; filesize := filesize f; fn_flags := flags;
     chunk_list := chunk_list f; fn_attribute_table := fn_attribute_table f;
     fn_metadata := fn_metadata f |}.

Definition filenode_set_dirty (f : nexus_filenode) : nexus_filenode :=
  with_fmeta f (const true <$> fn_metadata f).
Definition filenode_set_clean (f : nexus_filenode) : nexus_filenode :=
  with_fmeta f (const false <$> fn_metadata f).

(** ** Creation *)
(** [1 << log2chunksize] is an [int], stored in a [uint32_t]. *)
Definition filenode_set_chunksize (l2 : Z) : Z * Z := (u32 (s32 (Z.shiftl 1 l2)), u32 l2).

(** [l2] is the enclave's [global_log2chunk_size]. *)
Definition filenode_create (root_uuid my_uuid : uuid) (l2 : Z) : nexus_filenode :=
  let '(cs, l) := filenode_set_chunksize l2 in
  {| fn_my_uuid := my_uuid; fn_root_uuid := root_uuid; chunksize := cs; log2chunksize := l;
     encrypted_length := 0; nchunks := 0; filesize := 0; fn_flags := 0; chunk_list := [];
     fn_attribute_table := attribute_table_create; fn_metadata := None |}.

(** ** Resizing *)
(** [draws i] is the key and IV of the [i]-th new chunk. *)
Fixpoint add_chunk_entries (n : nat) (draws : nat -> bytes * bytes) (l : list nexus_crypto_ctx)
    : list nexus_crypto_ctx :=
  match n with
  | O => l
  | S n' => add_chunk_entries n' (fun i => draws (S i)) (l ++ [nexus_crypto_ctx_generate (draws O)])
  end.

(** Popping an empty list hands NULL to [__free_chunk_entry]. *)
Fixpoint pop_chunk_entries (n : nat) (l : list nexus_crypto_ctx) : option (list nexus_crypto_ctx) :=
  match n with
  | O => Some l
  | S n' => match l with [] => None | _ => pop_chunk_entries n' (removelast l) end
  end.

(** The return value is always 0. *)
Definition filenode_set_filesize (f : nexus_filenode) (size : Z) (draws : nat -> bytes * bytes)
    : option nexus_filenode :=
  let f := filenode_set_dirty f in
  if filesize f =? size then Some f
  else
    let n := s32 (get_chunk_count f size) in
    let difference := s32 (n - nchunks f) in
    if difference =? 0 then Some (with_size f (encrypted_length f) (nchunks f) size (chunk_list f))
    else
      let elen := if size <? encrypted_length f then size else encrypted_length f in
      l ← pop_chunk_entries (Z.to_nat (- difference)) (chunk_list f);
      Some (with_size f elen (u32 n) size (add_chunk_entries (Z.to_nat difference) draws l)).

(** The index of the chunk's context; regenerating replaces it. *)
Definition filenode_get_chunk (f : nexus_filenode) (offset : Z) (regenerate : bool)
    (draw : bytes * bytes) : nexus_filenode * option nat :=
  let i := Z.to_nat (get_chunk_number f offset) in
  match chunk_list f !! i with
  | None => (f, None)
  | Some _ =>
      if regenerate then
        (filenode_set_dirty
           (with_size f (encrypted_length f) (nchunks f) (filesize f)
              (<[i := nexus_crypto_ctx_generate draw]> (chunk_list f))), Some i)
      else (f, Some i)
  end.

Definition filenode_update_encrypted_pos (f : nexus_filenode) (pos : Z) : nexus_filenode :=
  if encrypted_length f <? pos then
    filenode_set_dirty (with_size f pos (nchunks f) (filesize f) (chunk_list f))
  else f.

Definition filenode_export_stat (f : nexus_filenode) (st : nexus_stat) : nexus_stat :=
  {| st_type := NEXUS_REG; st_size := filesize f; st_uuid := fn_my_uuid f;
     st_link_type := st_link_type st; st_link_size := st_link_size st;
     st_link_uuid := st_link_uuid st |}.

(** ** Serialized form *)
Definition get_filenode_size (f : nexus_filenode) : Z :=
  u64 (FILENODE_HDR_SIZE + nchunks f * nexus_crypto_ctx_bufsize
       + attribute_table_get_size (fn_attribute_table f)).

Definition serialize_filenode_header (f : nexus_filenode) : bytes :=
  fn_my_uuid f ++ fn_root_uuid f ++ le_encode 8 (encrypted_length f) ++ le_encode 4 (nchunks f)
    ++ le_encode 1 (log2chunksize f) ++ le_encode 8 (filesize f).

(** [nexus_list_get(&chunk_list, i)] for [i < nchunks]. *)
Fixpoint serialize_chunks (n : nat) (l : list nexus_crypto_ctx) : option bytes :=
  match n with
  | O => Some []
  | S n' =>
      match l with
      | [] => None
      | c :: l' => rest ← serialize_chunks n' l'; Some (nexus_crypto_ctx_serialize c ++ rest)
      end
  end.

(** Return code, the filenode (its table took the exported MAC), the bytes. *)
Definition filenode_serialize (f : nexus_filenode) (mv : option mac_and_version) (bytes_left : Z)
    : option (Z * nexus_filenode * bytes) :=
  chunks ← serialize_chunks (Z.to_nat (nchunks f)) (chunk_list f);
  let left := bytes_left -64 (FILENODE_HDR_SIZE + nchunks f * nexus_crypto_ctx_bufsize) in
  match attribute_table_store (fn_attribute_table f) mv left with
  | None => Some (-1, f, [])
  | Some (t, tbuf) => Some (0, with_ftable f t, serialize_filenode_header f ++ chunks ++ tbuf)
  end.

Definition parse_filenode_header : decoder nexus_filenode :=
  my <~ dec_bytes NEXUS_UUID_SIZE; root <~ dec_bytes NEXUS_UUID_SIZE; elen <~ dec_uint 8;
  n <~ dec_uint 4; l2 <~ dec_uint 1; size <~ dec_uint 8;
  let '(cs, l) := filenode_set_chunksize l2 in
  dec_ret {| fn_my_uuid := my; fn_root_uuid := root; chunksize := cs; log2chunksize := l;
             encrypted_length := elen; nchunks := n; filesize := size; fn_flags := 0;
             chunk_list := []; fn_attribute_table := attribute_table_create; fn_metadata := None |}.

(** [None]: NULL, or an overread of a chunk or of the attribute table. *)
Definition filenode_from_buffer (buffer : bytes) : option nexus_filenode :=
  if Z.of_nat (length buffer) <? FILENODE_HDR_SIZE then None
  else
    '(f, rest) ← parse_filenode_header buffer;
    '(chunks, rest) ← dec_list dec (Z.to_nat (nchunks f)) rest;
    '(t, _) ← attribute_table_from_buffer rest;
    Some (with_ftable (with_size f (encrypted_length f) (nchunks f) (filesize f) chunks) t).

Section store.
Context `{BlockCipher} `{KeyWrapCipher}.
Variable volumekey : bytes.

(** The internal buffer is zeroed memory of [get_filenode_size] bytes. *)
Definition filenode_store (f : nexus_filenode) (version : Z) (mv : option mac_and_version)
    (b : bcache) (env : put_env) : option (nexus_filenode * bcache * Z * option mac * list ocall) :=
  let size := get_filenode_size f in
  '(ret, f, buf) ← filenode_serialize f mv size;
  if negb (ret =? 0) then Some (f, b, ret, None, [])
  else
    let content := buf ++ replicate (Z.to_nat size - length buf) 0 in
    let c := nexus_crypto_buf_set_datasize (nexus_crypto_buf_new content version (fn_my_uuid f))
               (filesize f) in
    '(c, b, ret, m, t) ← nexus_crypto_buf_put volumekey c b env;
    if negb (ret =? 0) then Some (f, b, ret, m, t) else Some (filenode_set_clean f, b, 0, m, t).

Definition filenode_from_crypto_buf (c : nexus_crypto_buf) (flags : Z)
    : option (option nexus_filenode) :=
  '(_, p, _) ← nexus_crypto_buf_get volumekey c;
  Some (buf ← p; f ← filenode_from_buffer buf; Some (with_fflags f flags)).
End store.

(** ** Invariant *)
Record fn_inv (f : nexus_filenode) : Prop := {
  fi_log2 : 0 <= log2chunksize f <= 30;
  fi_chunksize : chunksize f = 2 ^ log2chunksize f;
  fi_count : nchunks f = Z.of_nat (length (chunk_list f));
  fi_bound : nchunks f < 2 ^ 31;
  fi_size : in_range 64 (filesize f);
  fi_cover : (filesize f = 0 /\ nchunks f = 0) \/ nchunks f = filesize f / chunksize f + 1
}.

Section lemmas.
Implicit Types (f : nexus_filenode).

Lemma set_chunksize_small l2 : 0 <= l2 <= 30 -> filenode_set_chunksize l2 = (2 ^ l2, l2).
Proof.
  intros Hl. unfold filenode_set_chunksize. rewrite Z.shiftl_1_l.
  assert (0 < 2 ^ l2 <= 2 ^ 30) by (split; [|apply Z.pow_le_mono_r]; lia).
  rewrite s32_small, !wrap_small by (unfold in_range; lia). done.
Qed.

Lemma filenode_create_inv root me l2 : 0 <= l2 <= 30 -> fn_inv (filenode_create root me l2).
Proof. intros Hl. unfold filenode_create. rewrite set_chunksize_small by done. split; simpl; try done; by left. Qed.

Lemma chunk_number_div f off :
  fn_inv f -> in_range 64 off -> get_chunk_number f off = off / chunksize f.
Proof.
  intros Hi Ho. pose proof (fi_log2 _ Hi) as Hl. pose proof (fi_chunksize _ Hi) as Hc.
  assert (Hp : 0 < chunksize f <= 2 ^ 30) by (rewrite Hc; split; [|apply Z.pow_le_mono_r]; lia).
  unfold get_chunk_number, in_range in *. destruct (Z.ltb_spec off (chunksize f)) as [Hlt|Hge].
  - by rewrite Z.div_small by lia.
  - rewrite (wrap_small 64 (off - _)) by (unfold in_range; lia). rewrite Z.shiftr_div_pow2, <- Hc by lia.
    assert (Hq : 1 + (off - chunksize f) / chunksize f = off / chunksize f).
    { replace off with ((off - chunksize f) + 1 * chunksize f) at 2 by lia. rewrite Z.div_add by lia. lia. }
    rewrite Hq. apply wrap_small. split; [apply Z.div_pos; lia|].
    apply Z.div_lt_upper_bound; nia.
Qed.

Lemma add_chunks_app n draws l :
  exists new, add_chunk_entries n draws l = l ++ new /\ length new = n /\
    Forall (fun c => exists i, (i < n)%nat /\ c = nexus_crypto_ctx_generate (draws i)) new.
Proof.
  revert draws l. induction n as [|n IH]; intros draws l; simpl.
  - exists []. by rewrite app_nil_r.
  - destruct (IH (fun i => draws (S i)) (l ++ [nexus_crypto_ctx_generate (draws O)])) as (new & -> & Hl & Hf).
    exists (nexus_crypto_ctx_generate (draws O) :: new). rewrite <- app_assoc. split; [done|].
    simpl. split; [by rewrite Hl|]. constructor; [exists 0%nat; split; [lia|done]|].
    eapply Forall_impl; [exact Hf|]. intros c (i & Hi & ->). exists (S i). split; [lia|done].
Qed.

Lemma pop_chunks_take n l :
  (n <= length l)%nat -> pop_chunk_entries n l = Some (take (length l - n) l).
Proof.
  revert l. induction n as [|n IH]; intros l Hn.
  - simpl. by rewrite Nat.sub_0_r, take_ge.
  - destruct l as [|x l] using rev_ind; [simpl in Hn; lia|]. clear IHl. rewrite length_app in *. simpl in Hn.
    cbn [pop_chunk_entries]. rewrite removelast_last. destruct (l ++ [x]) eqn:E; [by destruct l|]. rewrite <- E.
    rewrite IH by lia. f_equal. rewrite E, <- E, take_app_le by (simpl; lia). f_equal. simpl. lia.
Qed.
End lemmas.

Section resize.
Implicit Types (f : nexus_filenode).

(** The chunk count after a resize, with no overflow below 2^31 chunks. *)
Lemma resize_count f size :
  fn_inv f -> in_range 64 size -> size / chunksize f + 1 < 2 ^ 31 ->
  s32 (get_chunk_count f size) = size / chunksize f + 1 /\
  s32 (size / chunksize f + 1 - nchunks f) = size / chunksize f + 1 - nchunks f /\
  0 <= size / chunksize f.
Proof.
  intros Hi Hs Hb. assert (Hc : 0 < chunksize f) by (rewrite (fi_chunksize _ Hi); apply Z.pow_pos_nonneg; [lia|apply Hi]).
  assert (0 <= size / chunksize f) by (apply Z.div_pos; [apply Hs|lia]).
  unfold get_chunk_count. rewrite chunk_number_div by done.
  rewrite wrap_small by (unfold in_range; lia).
  pose proof (fi_bound _ Hi). pose proof (fi_count _ Hi). rewrite !s32_small by lia. done.
Qed.

Lemma set_filesize_spec f size draws :
  fn_inv f -> in_range 64 size -> size / chunksize f + 1 < 2 ^ 31 ->
  exists f', filenode_set_filesize f size draws = Some f' /\ fn_inv f' /\ filesize f' = size /\
    fn_metadata f' = const true <$> fn_metadata f /\
    (forall i, (i < length (chunk_list f))%nat -> (i < length (chunk_list f'))%nat ->
       chunk_list f' !! i = chunk_list f !! i) /\
    encrypted_length f' =
      (if decide (filesize f = size \/ nchunks f' = nchunks f) then encrypted_length f
       else Z.min size (encrypted_length f)) /\
    (filesize f <> size -> nchunks f' = size / chunksize f + 1).
Proof.
  intros Hi Hs Hb. destruct (resize_count f size Hi Hs Hb) as (Hn & Hd & Hq).
  pose proof (fi_count _ Hi) as Hc. pose proof (fi_cover _ Hi) as Hcov.
  unfold filenode_set_filesize. set (f1 := filenode_set_dirty f).
  change (get_chunk_count f1) with (get_chunk_count f). change (filesize f1) with (filesize f).
  destruct (Z.eqb_spec (filesize f) size) as [He|He].
  { exists f1. split; [done|]. split; [by destruct Hi; split|]. split; [done|]. split; [done|].
    split; [done|]. by rewrite decide_True by (by left). }
  rewrite Hn. change (nchunks f1) with (nchunks f). rewrite Hd.
  destruct (Z.eqb_spec (size / chunksize f + 1 - nchunks f) 0) as [Hz|Hz].
  { eexists. split; [done|]. split; [|rewrite decide_True by (by right); simpl; split_and!; try done; lia].
    destruct Hi; split; try done. right. simpl. lia. }
  change (chunk_list f1) with (chunk_list f). set (q := size / chunksize f + 1) in *.
  rewrite pop_chunks_take by lia. cbn [mbind option_bind].
  destruct (add_chunks_app (Z.to_nat (q - nchunks f)) draws
              (take (length (chunk_list f) - Z.to_nat (- (q - nchunks f))) (chunk_list f)))
    as (new & -> & Hln & _).
  eexists. split; [done|]. simpl. rewrite (wrap_small 32 q) by (unfold in_range; lia). split.
  - destruct Hi; split; simpl; try done; [|by right].
    rewrite length_app, length_take, Hln. unfold q in *. lia.
  - split; [done|]. split; [done|]. split.
    + intros i Hi1 Hi2. rewrite length_app, length_take, Hln in Hi2.
      rewrite lookup_app_l by (rewrite length_take; lia). apply lookup_take_lt. lia.
    + rewrite decide_False by (intros [?|?]; lia).
      split; [destruct (Z.ltb_spec size (encrypted_length f)); lia|done].
Qed.
End resize.

(** ** The serialized form *)
(** What a stored filenode must satisfy, besides [fn_inv]. *)
Record fn_storable (f : nexus_filenode) (g : gmap uuid Z) : Prop := {
  fs_my : length (fn_my_uuid f) = 16%nat;
  fs_root : length (fn_root_uuid f) = 16%nat;
  fs_elen : in_range 64 (encrypted_length f);
  fs_chunks : Forall ctx_ok (chunk_list f);
  fs_table : at_inv (fn_attribute_table f) g;
  fs_tsize : Z.of_nat (size g) < 2 ^ 20;
  fs_gen : in_range 64 (at_generation (fn_attribute_table f));
  fs_audit : uuid_ok (at_audit_log_uuid (fn_attribute_table f))
}.

(** [f'] is [f] as it comes back from the store. *)
Definition fn_reloaded (f f' : nexus_filenode) (mv : mac_and_version) : Prop :=
  fn_my_uuid f' = fn_my_uuid f /\ fn_root_uuid f' = fn_root_uuid f /\
  chunksize f' = chunksize f /\ log2chunksize f' = log2chunksize f /\
  encrypted_length f' = encrypted_length f /\ nchunks f' = nchunks f /\ filesize f' = filesize f /\
  chunk_list f' = chunk_list f /\ at_macversion (fn_attribute_table f') = mv /\
  at_generation (fn_attribute_table f') = at_generation (fn_attribute_table f) /\
  at_audit_log_uuid (fn_attribute_table f') = at_audit_log_uuid (fn_attribute_table f) /\
  forall u, uuid_ok u ->
    at_lookup (fn_attribute_table f') u = trim <$> at_lookup (fn_attribute_table f) u.

Section codec.
Implicit Types (f : nexus_filenode).

Lemma serialize_chunks_all l :
  serialize_chunks (length l) l = Some (concat (enc <$> l)).
Proof. induction l as [|c l IH]; [done|]. simpl. by rewrite IH. Qed.

Lemma length_chunks l :
  Forall ctx_ok l -> length (concat (enc <$> l)) = (48 * length l)%nat.
Proof.
  induction 1 as [|c l Hc _ IH]; [done|]. rewrite fmap_cons. cbn [concat length].
  rewrite length_app, IH. change (enc c) with (nexus_crypto_ctx_serialize c).
  rewrite length_ctx_serialize by done. lia.
Qed.

Lemma parse_header_serialize f rest :
  fn_inv f -> length (fn_my_uuid f) = 16%nat -> length (fn_root_uuid f) = 16%nat ->
  in_range 64 (encrypted_length f) ->
  parse_filenode_header (serialize_filenode_header f ++ rest) =
    Some ({| fn_my_uuid := fn_my_uuid f; fn_root_uuid := fn_root_uuid f; chunksize := chunksize f;
             log2chunksize := log2chunksize f; encrypted_length := encrypted_length f;
             nchunks := nchunks f; filesize := filesize f; fn_flags := 0; chunk_list := [];
             fn_attribute_table := attribute_table_create; fn_metadata := None |}, rest).
Proof.
  intros Hi Hm Hr He. destruct f as [my root cs l2 elen n sz fl cl at_ md]. destruct Hi as [H1 H2 H3 H4 H5 _].
  cbn [fn_my_uuid fn_root_uuid chunksize log2chunksize encrypted_length nchunks filesize chunk_list] in *.
  unfold parse_filenode_header, serialize_filenode_header.
  cbn [fn_my_uuid fn_root_uuid chunksize log2chunksize encrypted_length nchunks filesize].
  rewrite <- !app_assoc. do 6 dec_step. rewrite set_chunksize_small by done. by subst cs.
Qed.

Lemma length_serialize_filenode_header f :
  length (fn_my_uuid f) = 16%nat -> length (fn_root_uuid f) = 16%nat ->
  length (serialize_filenode_header f) = 53%nat.
Proof. intros Hm Hr. unfold serialize_filenode_header. by rewrite !length_app, !length_le_encode, Hm, Hr. Qed.

Lemma filenode_codec f g mv :
  fn_inv f -> fn_storable f g -> macversion_ok mv ->
  exists f1 buf f2, filenode_serialize f (Some mv) (get_filenode_size f) = Some (0, f1, buf) /\
    Z.of_nat (length buf) = get_filenode_size f /\ filenode_from_buffer buf = Some f2 /\
    fn_reloaded f f2 mv /\ fn_my_uuid f1 = fn_my_uuid f /\ filesize f1 = filesize f.
Proof.
  intros Hi [Hm Hr He Hch Ht Htz Hgen Hau] Hmv. pose proof (fi_count _ Hi) as Hn. pose proof (fi_bound _ Hi).
  assert (Hts : attribute_table_get_size (fn_attribute_table f) = 52 + Z.of_nat (size g) * 88).
  { unfold attribute_table_get_size. rewrite (ai_count _ _ Ht).
    unfold ATTR_TABLE_HDR_SIZE, ATTR_TABLE_ENTRY_SIZE. apply wrap_small. unfold in_range. lia. }
  destruct (store_load_spec (fn_attribute_table f) g mv
              (attribute_table_get_size (fn_attribute_table f)) [] Ht)
    as (t1 & tb & t2 & g2 & Hst & Htl & Hfb & _ & _ & Hg2 & Ha2 & Hm2 & Hlk); [lia|done..|].
  assert (Hsz : get_filenode_size f = 53 + nchunks f * 48 + (52 + Z.of_nat (size g) * 88)).
  { unfold get_filenode_size. rewrite Hts. unfold FILENODE_HDR_SIZE, nexus_crypto_ctx_bufsize.
    apply wrap_small. unfold in_range. lia. }
  unfold filenode_serialize. assert (Hnn : Z.to_nat (nchunks f) = length (chunk_list f)) by lia.
  rewrite Hnn, serialize_chunks_all. cbn [mbind option_bind].
  assert (Hleft : get_filenode_size f -64 (FILENODE_HDR_SIZE + nchunks f * nexus_crypto_ctx_bufsize)
                  = attribute_table_get_size (fn_attribute_table f)).
  { rewrite Hts, Hsz. unfold FILENODE_HDR_SIZE, nexus_crypto_ctx_bufsize.
    rewrite wrap_small by (unfold in_range; lia). lia. }
  rewrite Hleft, Hst. eexists _, _, _. split; [done|].
  assert (Hhl := length_serialize_filenode_header f Hm Hr). split.
  { rewrite !length_app, Hhl, length_chunks by done. rewrite Hts in Htl. lia. }
  split.
  { unfold filenode_from_buffer. rewrite length_app, Hhl. unfold FILENODE_HDR_SIZE.
    rewrite (proj2 (Z.ltb_ge _ _)) by lia. rewrite parse_header_serialize by done.
    cbn [mbind option_bind nchunks]. rewrite Hnn, dec_list_app by done.
    cbn [mbind option_bind]. rewrite app_nil_r in Hfb. rewrite Hfb. done. }
  by split_and!.
Qed.
End codec.

(** The chunk of an offset, with the context it gets on regeneration. *)
Lemma get_chunk_spec f off draw :
  fn_inv f -> 0 < nchunks f -> 0 <= off <= filesize f ->
  filenode_get_chunk f off false draw = (f, Some (Z.to_nat (off / chunksize f))) /\
  exists f', filenode_get_chunk f off true draw = (f', Some (Z.to_nat (off / chunksize f))) /\
    chunk_list f' !! Z.to_nat (off / chunksize f) = Some (nexus_crypto_ctx_generate draw) /\
    fn_inv f' /\ filesize f' = filesize f /\ encrypted_length f' = encrypted_length f.
Proof.
  intros Hi Hn Ho. pose proof (fi_size _ Hi) as Hs. unfold in_range in Hs.
  assert (Hc : 0 < chunksize f) by (rewrite (fi_chunksize _ Hi); apply Z.pow_pos_nonneg; [lia|apply Hi]).
  assert (Hlt : (Z.to_nat (off / chunksize f) < length (chunk_list f))%nat).
  { destruct (fi_cover _ Hi) as [[_ ?]|Hcov]; [lia|]. pose proof (fi_count _ Hi).
    assert (off / chunksize f <= filesize f / chunksize f) by (apply Z.div_le_mono; lia).
    assert (0 <= off / chunksize f) by (apply Z.div_pos; lia). lia. }
  unfold filenode_get_chunk. rewrite chunk_number_div by (done || unfold in_range; lia).
  destruct (lookup_lt_is_Some_2 _ _ Hlt) as [x Hx]. rewrite Hx. split; [done|]. eexists. split; [done|].
  simpl. rewrite list_lookup_insert_eq by done. split; [done|].
  split; [|done]. destruct Hi; split; simpl; try done. by rewrite length_insert.
Qed.

(** ** A concrete file: 100 bytes in chunks of 32, fully encrypted *)
Definition toy_draws (i : nat) : bytes * bytes := (replicate 16 (Z.of_nat i), replicate 16 (50 + Z.of_nat i)).

Definition toy_file : nexus_filenode :=
  let f := filenode_create (uuid_const 1) (uuid_const 7) 5 in
  filenode_update_encrypted_pos (default f (filenode_set_filesize f 100 toy_draws)) 100.

Lemma toy_file_inv : fn_inv toy_file.
Proof. split; try (by vm_compute). by right. Qed.

Lemma toy_file_storable : fn_storable toy_file ∅.
Proof.
  assert (Hz : forall x, 0 <= x < 256 -> key_ok (replicate 16 x)).
  { intros x Hx. split; [done|]. apply Forall_replicate. done. }
  split; try (by vm_compute).
  - change (chunk_list toy_file) with
      [nexus_crypto_ctx_generate (toy_draws 0); nexus_crypto_ctx_generate (toy_draws 1);
       nexus_crypto_ctx_generate (toy_draws 2); nexus_crypto_ctx_generate (toy_draws 3)].
    repeat constructor; try done; repeat (apply Hz; simpl; lia);
      repeat (apply Forall_replicate; unfold byte_ok; simpl; lia).
  - apply at_create_inv.
  - apply uuid_const_ok. unfold byte_ok. lia.
Qed.

(** ** Properties *)
(** Resizing a file (below 2^31 chunks) succeeds, sets the size, keeps the
    invariant that the chunk list has exactly one entry per chunk plus one,
    marks the metadata dirty, and keeps the key material of every chunk that
    exists before and after. *)
Theorem filenode_set_filesize_correct f size draws :
  fn_inv f -> in_range 64 size -> size / chunksize f + 1 < 2 ^ 31 ->
  exists f', filenode_set_filesize f size draws = Some f' /\ fn_inv f' /\ filesize f' = size /\
    fn_metadata f' = const true <$> fn_metadata f /\
    (forall i, (i < length (chunk_list f))%nat -> (i < length (chunk_list f'))%nat ->
       chunk_list f' !! i = chunk_list f !! i).
Proof.
  intros Hi Hs Hb. destruct (set_filesize_spec f size draws Hi Hs Hb) as (f' & H1 & H2 & H3 & H4 & H5 & _).
  eauto 10.
Qed.

Lemma filenode_set_filesize_witness :
  exists f', filenode_set_filesize toy_file 40 toy_draws = Some f' /\ fn_inv f' /\ filesize f' = 40 /\
    fn_metadata f' = const true <$> fn_metadata toy_file /\
    (forall i, (i < length (chunk_list toy_file))%nat -> (i < length (chunk_list f'))%nat ->
       chunk_list f' !! i = chunk_list toy_file !! i).
Proof. apply filenode_set_filesize_correct; [apply toy_file_inv|by vm_compute..]. Defined.

(** In a file with chunks every offset up to and including the end of the
    file has a chunk, the one of its quotient, and asking for it without
    regeneration changes nothing. *)
Theorem filenode_get_chunk_total f off draw :
  fn_inv f -> 0 < nchunks f -> 0 <= off <= filesize f ->
  filenode_get_chunk f off false draw = (f, Some (Z.to_nat (off / chunksize f))) /\
  exists f', filenode_get_chunk f off true draw = (f', Some (Z.to_nat (off / chunksize f))) /\
    chunk_list f' !! Z.to_nat (off / chunksize f) = Some (nexus_crypto_ctx_generate draw) /\
    fn_inv f'.
Proof.
  intros Hi Hn Ho. destruct (get_chunk_spec f off draw Hi Hn Ho) as (H1 & f' & H2 & H3 & H4 & _). eauto 10.
Qed.

Lemma filenode_get_chunk_witness :
  filenode_get_chunk toy_file 70 false (toy_draws 9) = (toy_file, Some 2%nat) /\
  exists f', filenode_get_chunk toy_file 70 true (toy_draws 9) = (f', Some 2%nat) /\
    chunk_list f' !! 2%nat = Some (nexus_crypto_ctx_generate (toy_draws 9)) /\ fn_inv f'.
Proof. apply (filenode_get_chunk_total toy_file 70 (toy_draws 9)); [apply toy_file_inv|by vm_compute..]. Defined.

(** Shrinking a file inside its last chunk leaves [encrypted_length] past
    the end of the file, although shrinking it across a chunk boundary cuts
    it: the early return on an unchanged chunk count skips the update. *)
Theorem filenode_truncate_stale_length f size draws :
  fn_inv f -> 0 <= size < filesize f -> filesize f / chunksize f + 1 < 2 ^ 31 ->
  encrypted_length f = filesize f ->
  exists f', filenode_set_filesize f size draws = Some f' /\
    (size / chunksize f = filesize f / chunksize f -> filesize f' < encrypted_length f') /\
    (size / chunksize f < filesize f / chunksize f -> encrypted_length f' = filesize f').
Proof.
  intros Hi Hs Hb He. pose proof (fi_size _ Hi) as Hr. unfold in_range in Hr.
  assert (Hc : 0 < chunksize f) by (rewrite (fi_chunksize _ Hi); apply Z.pow_pos_nonneg; [lia|apply Hi]).
  assert (Hle : size / chunksize f <= filesize f / chunksize f) by (apply Z.div_le_mono; lia).
  destruct (set_filesize_spec f size draws Hi) as (f' & Hf & _ & Hsz & _ & _ & Hel & Hn');
    [unfold in_range; lia|lia|].
  assert (Hn : nchunks f = filesize f / chunksize f + 1) by (destruct (fi_cover _ Hi) as [[? _]|?]; lia).
  rewrite Hn' in Hel by lia. exists f'. split; [done|]. rewrite Hsz, Hel. split; intros Hq.
  - rewrite decide_True; [lia|]. right. lia.
  - rewrite decide_False; [lia|]. lia.
Qed.

Lemma filenode_truncate_witness :
  exists f', filenode_set_filesize toy_file 98 toy_draws = Some f' /\
    (98 / chunksize toy_file = filesize toy_file / chunksize toy_file -> filesize f' < encrypted_length f') /\
    (98 / chunksize toy_file < filesize toy_file / chunksize toy_file -> encrypted_length f' = filesize f').
Proof. apply (filenode_truncate_stale_length toy_file 98); [apply toy_file_inv|by vm_compute..]. Defined.

(** Storing a filenode, with the buffer layer's state afterwards. *)
Lemma filenode_store_spec `{BlockCipher} `{KeyWrapCipher} vk f g mv version b env mem :
  fn_inv f -> fn_storable f g -> macversion_ok mv -> get_filenode_size f < 2 ^ 31 ->
  one_writer b (fn_my_uuid f) -> in_range 32 version ->
  key_ok (pe_draw env).1 -> key_ok (pe_draw env).2 -> pe_heap env = Some mem ->
  exists f1 b1 data m, filenode_store vk f version (Some mv) b env =
      Some (f1, b1, if failed (pe_reply env) then -1 else 0, Some m,
            [ocall_buffer_put (fn_my_uuid f) data (filesize f)]) /\
    fn_metadata f1 = (if failed (pe_reply env) then fn_metadata f else const false <$> fn_metadata f) /\
    (if failed (pe_reply env) then
       exists flags, buffer_layer_lock_status b1 (fn_my_uuid f) = Some flags /\ nexus_io_in_lock_mode flags = true
     else idle b1 (fn_my_uuid f)) /\
    fn_my_uuid f1 = fn_my_uuid f /\
    forall flags ctx, exists f2, external_version data = u32 (version + 1) /\
      filenode_from_crypto_buf vk
        (mk_cbuf ctx (external_version data) 0 (fn_my_uuid f) (Some (ExtStore data)) None) flags
        = Some (Some f2) /\ fn_reloaded f f2 mv.
Proof.
  intros Hi Hs Hmv Hsz Hw Hv Hk1 Hk2 Hh.
  destruct (filenode_codec f g mv Hi Hs Hmv) as (f1 & buf & f2 & Hser & Hlen & Hfrom & Hre & Hu & Hfs).
  assert (Hf1 : fn_metadata f1 = fn_metadata f).
  { unfold filenode_serialize in Hser. destruct (serialize_chunks _ _); [|done]. cbn [mbind option_bind] in Hser.
    destruct (attribute_table_store _ _ _) as [[t tb]|]; [|done]. by injection Hser as <- _. }
  unfold filenode_store. rewrite Hser. cbn [mbind option_bind negb Z.eqb].
  replace (Z.to_nat (get_filenode_size f) - length buf)%nat with 0%nat by lia.
  rewrite app_nil_r, Hu, Hfs.
  destruct (put_new_spec vk b (fn_my_uuid f) buf version env mem (filesize f) Hw Hv Hk1 Hk2)
    as (c' & b' & data & m & Hsd & Hput & _ & Hlock & _); [lia|done|].
  rewrite Hput. cbn [mbind option_bind].
  exists (if failed (pe_reply env) then f1 else filenode_set_clean f1), b', data, m.
  split; [by destruct (failed (pe_reply env))|].
  split; [destruct (failed (pe_reply env)); simpl; by rewrite Hf1|].
  split; [done|]. split; [by destruct (failed (pe_reply env))|].
  intros flags ctx. exists (with_fflags f2 flags).
  assert (Hev : external_version data = u32 (version + 1))
    by (destruct Hsd as (? & ? & _ & _ & _ & _ & _ & _ & Hev & _); exact Hev).
  split; [done|]. unfold filenode_from_crypto_buf.
  destruct (get_sealed vk (fn_my_uuid f) _ buf data m
    (mk_cbuf ctx (external_version data) 0 (fn_my_uuid f) (Some (ExtStore data)) None) Hsd)
    as (c3 & ->); [done..|].
  cbn [mbind option_bind]. rewrite Hfrom. cbn [mbind option_bind]. split; [done|]. exact Hre.
Qed.

(** A filenode stored through the buffer layer and loaded from the bytes
    that were sent comes back with the same UUIDs, sizes, chunk keys and
    attributes, at the next version; it is marked clean exactly when the
    store accepted it. *)
Theorem filenode_store_load `{BlockCipher} `{KeyWrapCipher} vk f g mv version b env mem :
  fn_inv f -> fn_storable f g -> macversion_ok mv -> get_filenode_size f < 2 ^ 31 ->
  one_writer b (fn_my_uuid f) -> in_range 32 version ->
  key_ok (pe_draw env).1 -> key_ok (pe_draw env).2 -> pe_heap env = Some mem ->
  exists f1 b1 data m, filenode_store vk f version (Some mv) b env =
      Some (f1, b1, if failed (pe_reply env) then -1 else 0, Some m,
            [ocall_buffer_put (fn_my_uuid f) data (filesize f)]) /\
    fn_metadata f1 = (if failed (pe_reply env) then fn_metadata f else const false <$> fn_metadata f) /\
    forall flags ctx, exists f2, external_version data = u32 (version + 1) /\
      filenode_from_crypto_buf vk
        (mk_cbuf ctx (external_version data) 0 (fn_my_uuid f) (Some (ExtStore data)) None) flags
        = Some (Some f2) /\ fn_reloaded f f2 mv.
Proof.
  intros Hi Hs Hmv Hsz Hw Hv Hk1 Hk2 Hh.
  destruct (filenode_store_spec vk f g mv version b env mem Hi Hs Hmv Hsz Hw Hv Hk1 Hk2 Hh)
    as (f1 & b1 & data & m & H1 & H2 & _ & _ & H3). exists f1, b1, data, m. done.
Qed.

Lemma filenode_store_load_witness :
  let mv := mk_macversion 3 nexus_mac_zeroize in
  exists f1 b1 data m,
    filenode_store (H := toy_cipher) (H0 := toy_wrap) [] toy_file 4 (Some mv)
      (held_cache (uuid_const 7) 1) (toy_env reply_ok) =
      Some (f1, b1, 0, Some m, [ocall_buffer_put (uuid_const 7) data 100]) /\
    fn_metadata f1 = const false <$> fn_metadata toy_file /\
    forall flags ctx, exists f2, external_version data = 5 /\
      filenode_from_crypto_buf (H := toy_cipher) (H0 := toy_wrap) []
        (mk_cbuf ctx (external_version data) 0 (uuid_const 7) (Some (ExtStore data)) None) flags
        = Some (Some f2) /\ fn_reloaded toy_file f2 mv.
Proof.
  intros mv.
  apply (filenode_store_load (H := toy_cipher) (H0 := toy_wrap) [] toy_file ∅ mv 4
           (held_cache (uuid_const 7) 1) (toy_env reply_ok) []).
  - apply toy_file_inv.
  - apply toy_file_storable.
  - split; [by vm_compute|done].
  - by vm_compute.
  - apply held_one_writer.
  - by vm_compute.
  - apply toy_draw_ok. unfold byte_ok. lia.
  - apply toy_draw_ok. unfold byte_ok. lia.
  - done.
Defined.
