(* ===== verification/FileCrypto.v ===== *)
(** * File data transfers

    Models [file_crypto.c] and [data_buffer.c]: a transfer context encrypts or
    decrypts the chunks of one file, each chunk with the crypto context of its
    filenode.  Contexts are found by their id, filenodes by the address of
    their metadata, and the pointer to a chunk's crypto context is the chunk's
    index.  [None] results are memory errors. *)
From S2P Require Import Prelude Hashmap Types AttributeTable Dirnode Gcm Crypto BufferLayer CryptoBuf Filenode.

Inductive nexus_crypto_mode := NEXUS_ENCRYPT | NEXUS_DECRYPT.

Record data_xfer_context := mk_xfer {
  x_mode : nexus_crypto_mode;
  x_offset : Z;
  chunk_left : Z;
  x_file : Z;
  x_crypto : option nat;
  data_buffer : option gcm_context
}.

Record xfer_state := mk_xstate {
  xfer_table : gmap Z data_xfer_context;
  xfer_counter : Z;
  xfer_files : gmap Z nexus_filenode
}.

(** [min] of [nexus_util.h] takes and returns [int]; its result is stored in
    a [size_t]. *)
Definition min_int (a b : Z) : Z := u64 (if s32 b <? s32 a then s32 b else s32 a).

Definition set_xfer (st : xfer_state) (id : Z) (x : data_xfer_context) : xfer_state :=
  {| xfer_table := <[id := x]> (xfer_table st); xfer_counter := xfer_counter st;
     xfer_files := xfer_files st |}.

Definition set_file (st : xfer_state) (a : Z) (f : nexus_filenode) : xfer_state :=
  {| xfer_table := xfer_table st; xfer_counter := xfer_counter st;
     xfer_files := <[a := f]> (xfer_files st) |}.

(** [__put_context] and [file_crypto_new]: the id is the bumped counter,
    returned as an [int]. *)
Definition file_crypto_new (st : xfer_state) (file : Z) (mode : nexus_crypto_mode) : xfer_state * Z :=
  let id := xfer_counter st +64 1 in
  ({| xfer_table := <[id := {| x_mode := mode; x_offset := 0; chunk_left := 0; x_file := file;
                               x_crypto := None; data_buffer := None |}]> (xfer_table st);
      xfer_counter := id; xfer_files := xfer_files st |}, s32 id).

Definition get_context (st : xfer_state) (id : Z) : option data_xfer_context := xfer_table st !! id.

(** [__del_context] after the filenode was stored: [stored] is the result of
    [nexus_metadata_store]. *)
Definition file_crypto_finish (st : xfer_state) (id : Z) (stored : Z) : xfer_state * Z :=
  match get_context st id with
  | None => (st, -1)
  | Some _ =>
      ({| xfer_table := delete id (xfer_table st); xfer_counter := xfer_counter st;
          xfer_files := xfer_files st |}, if stored =? 0 then 0 else -1)
  end.

Section xfer.
Context `{BlockCipher}.
(** [global_chunk_size]. *)
Variable global_chunk_size : Z.

(** ** data_buffer.c *)
Definition gcm_mode_of (m : nexus_crypto_mode) : gcm_mode :=
  match m with NEXUS_ENCRYPT => MBEDTLS_GCM_ENCRYPT | NEXUS_DECRYPT => MBEDTLS_GCM_DECRYPT end.

Definition nexus_data_buf_new (ctx : nexus_crypto_ctx) (mode : nexus_crypto_mode) : option gcm_context :=
  mbedtls_gcm_starts (ctx_key ctx) (gcm_mode_of mode) (ctx_iv ctx) [].

Definition nexus_data_buf_write (d : gcm_context) (input : bytes) : option (gcm_context * bytes) :=
  mbedtls_gcm_update d input.

Definition nexus_data_buf_flush (d : gcm_context) : mac := mbedtls_gcm_finish d.

(** ** file_crypto.c *)
Definition is_encrypt (m : nexus_crypto_mode) : bool :=
  match m with NEXUS_ENCRYPT => true | NEXUS_DECRYPT => false end.

Definition setup_data_buffer (st : xfer_state) (id : Z) (x : data_xfer_context) (offset : Z)
    (draw : bytes * bytes) : option (xfer_state * Z) :=
  f ← xfer_files st !! x_file x;
  let '(f, i) := filenode_get_chunk f offset (is_encrypt (x_mode x)) draw in
  let st := set_file st (x_file x) f in
  match i with
  | None =>
      Some (set_xfer st id {| x_mode := x_mode x; x_offset := x_offset x; chunk_left := chunk_left x;
                              x_file := x_file x; x_crypto := None; data_buffer := data_buffer x |}, -1)
  | Some i =>
      ctx ← chunk_list f !! i;
      d ← nexus_data_buf_new ctx (x_mode x);
      Some (set_xfer st id
              {| x_mode := x_mode x; x_offset := offset;
                 chunk_left := min_int (filesize f -64 offset) global_chunk_size;
                 x_file := x_file x; x_crypto := Some i; data_buffer := Some d |}, 0)
  end.

Definition file_crypto_seek (st : xfer_state) (id offset : Z) (draw : bytes * bytes)
    : option (xfer_state * Z) :=
  match get_context st id with
  | None => Some (st, -1)
  | Some x =>
      if negb (chunk_left x =? 0) then Some (st, -1)
      else if negb (offset mod global_chunk_size =? 0) then Some (st, -1)
      else
        f ← xfer_files st !! x_file x;
        if filesize f <? offset then Some (st, -1)
        else '(st, ret) ← setup_data_buffer st id x offset draw;
             Some (st, if ret =? 0 then 0 else -1)
  end.

Definition set_chunk_mac (f : nexus_filenode) (i : nat) (m : mac) : nexus_filenode :=
  with_size f (encrypted_length f) (nchunks f) (filesize f)
    (alter (fun c => mk_ctx (ctx_key c) (ctx_iv c) m) i (chunk_list f)).

Definition drop_buffer (x : data_xfer_context) : data_xfer_context :=
  {| x_mode := x_mode x; x_offset := x_offset x; chunk_left := chunk_left x; x_file := x_file x;
     x_crypto := None; data_buffer := None |}.

Definition flush_data_buffer (st : xfer_state) (id : Z) (x : data_xfer_context)
    : option (xfer_state * Z) :=
  f ← xfer_files st !! x_file x;
  d ← data_buffer x;
  i ← x_crypto x;
  match x_mode x with
  | NEXUS_ENCRYPT =>
      let f := set_chunk_mac f i (nexus_data_buf_flush d) in
      let f := filenode_update_encrypted_pos f (x_offset x) in
      Some (set_xfer (set_file st (x_file x) f) id (drop_buffer x), 0)
  | NEXUS_DECRYPT =>
      ctx ← chunk_list f !! i;
      let ret := if x_offset x <? encrypted_length f then
                   if nexus_mac_compare (ctx_mac ctx) (nexus_data_buf_flush d) =? 0 then 0 else -1
                 else 0 in
      Some (set_xfer st id (drop_buffer x), ret)
  end.

(** Return code, [*processed_bytes] and the output.  [size] is the length of
    the input.  A number of bytes beyond it, as [min] gives for a large chunk, is
    refused by [mbedtls_gcm_update] when it exceeds what one context may process,
    and reads past the input otherwise. *)
Definition file_crypto_update (st : xfer_state) (id : Z) (input : bytes)
    : option (xfer_state * Z * Z * bytes) :=
  match get_context st id with
  | None => Some (st, -1, 0, [])
  | Some x =>
      match data_buffer x with
      | None => Some (st, -2, 0, [])
      | Some d =>
          let nbytes := min_int (Z.of_nat (length input)) (chunk_left x) in
          if Z.of_nat (length input) <? nbytes then
            if (gcm_len d +64 nbytes <? gcm_len d) || (GCM_MAX_LEN <? gcm_len d +64 nbytes) then Some (st, -1, 0, []) else None
          else
            match nexus_data_buf_write d (take (Z.to_nat nbytes) input) with
            | None => Some (st, -1, 0, [])
            | Some (d, out) =>
                let x := {| x_mode := x_mode x; x_offset := x_offset x +64 nbytes;
                            chunk_left := chunk_left x -64 nbytes; x_file := x_file x;
                            x_crypto := x_crypto x; data_buffer := Some d |} in
                if chunk_left x =? 0 then
                  '(st, ret) ← flush_data_buffer (set_xfer st id x) id x;
                  Some (st, if ret =? 0 then 0 else -1, nbytes, out)
                else Some (set_xfer st id x, 0, nbytes, out)
            end
      end
  end.

(** A caller that feeds a chunk piece by piece: it stops on an error. *)
Fixpoint feed (st : xfer_state) (id : Z) (pieces : list bytes) : option (xfer_state * Z * bytes) :=
  match pieces with
  | [] => Some (st, 0, [])
  | p :: ps =>
      '(st, ret, _, out) ← file_crypto_update st id p;
      if negb (ret =? 0) then Some (st, ret, out)
      else '(st, ret, rest) ← feed st id ps; Some (st, ret, out ++ rest)
  end.

(** Seek to a chunk and feed it. *)
Definition transfer (st : xfer_state) (id offset : Z) (draw : bytes * bytes) (pieces : list bytes)
    : option (xfer_state * Z * bytes) :=
  '(st, ret) ← file_crypto_seek st id offset draw;
  if negb (ret =? 0) then Some (st, ret, []) else feed st id pieces.

(** Pieces of whole cipher blocks, but for the last. *)
Inductive aligned : list bytes -> Prop :=
  | aligned_last p : p <> [] -> aligned [p]
  | aligned_cons p ps : (16 | Z.of_nat (length p)) -> aligned ps -> aligned (p :: ps).

(** ** Lemmas *)
Lemma min_int_small a b : 0 <= a < 2 ^ 31 -> 0 <= b < 2 ^ 31 -> min_int a b = Z.min a b.
Proof.
  intros Ha Hb. unfold min_int. rewrite !s32_small by lia.
  destruct (Z.ltb_spec b a); rewrite wrap_small by (unfold in_range; lia); lia.
Qed.

Lemma update_step st id x d p d' out :
  get_context st id = Some x -> data_buffer x = Some d ->
  Z.of_nat (length p) <= chunk_left x < 2 ^ 31 -> 0 <= x_offset x < 2 ^ 62 ->
  mbedtls_gcm_update d p = Some (d', out) ->
  let x' := {| x_mode := x_mode x; x_offset := x_offset x + Z.of_nat (length p);
               chunk_left := chunk_left x - Z.of_nat (length p); x_file := x_file x;
               x_crypto := x_crypto x; data_buffer := Some d' |} in
  file_crypto_update st id p =
    if chunk_left x' =? 0 then
      ('(st, ret) ← flush_data_buffer (set_xfer st id x') id x';
       Some (st, if ret =? 0 then 0 else -1, Z.of_nat (length p), out))
    else Some (set_xfer st id x', 0, Z.of_nat (length p), out).
Proof.
  intros Hx Hd Hl Ho Hu x'. unfold file_crypto_update. rewrite Hx, Hd.
  rewrite min_int_small, Z.min_l, Z.ltb_irrefl, Nat2Z.id, take_ge by lia.
  unfold nexus_data_buf_write. rewrite Hu.
  rewrite !wrap_small by (unfold in_range; lia). done.
Qed.

(** Feeding aligned pieces is one pass over the chunk, then the flush. *)
Lemma feed_aligned pieces : aligned pieces -> forall st id x d d' out,
  get_context st id = Some x -> data_buffer x = Some d -> in_range 64 (gcm_len d) ->
  chunk_left x = Z.of_nat (length (concat pieces)) -> chunk_left x < 2 ^ 31 -> 0 <= x_offset x ->
  x_offset x + chunk_left x < 2 ^ 62 ->
  gcm_len d + chunk_left x <= GCM_MAX_LEN -> mbedtls_gcm_update d (concat pieces) = Some (d', out) ->
  let x' := {| x_mode := x_mode x; x_offset := x_offset x + chunk_left x; chunk_left := 0;
               x_file := x_file x; x_crypto := x_crypto x; data_buffer := Some d' |} in
  feed st id pieces =
    ('(st, ret) ← flush_data_buffer (set_xfer st id x') id x';
     Some (st, if ret =? 0 then 0 else -1, out)).
Proof.
  induction 1 as [p Hp|p ps Hal Hps IH]; intros st id x d d' out Hx Hd Hr Hl Hb Ho Ho2 Hm Hu.
  - simpl concat in *. rewrite app_nil_r in *. cbn [feed].
    rewrite (update_step st id x d p d' out) by (done || lia). cbn [chunk_left x_offset x_mode x_file x_crypto].
    rewrite Hl, Z.sub_diag. cbn [Z.eqb].
    destruct (flush_data_buffer _ _ _) as [[st' ret]|]; [|done]. cbn [mbind option_bind].
    destruct (ret =? 0); simpl; by rewrite ?app_nil_r.
  - cbn [concat] in Hu, Hl. rewrite gcm_update_app in Hu by (done || (rewrite length_app in *; lia)).
    destruct (mbedtls_gcm_update d p) as [[d1 o1]|] eqn:E1; [|done]. cbn [mbind option_bind] in Hu.
    destruct (mbedtls_gcm_update d1 (concat ps)) as [[d2 o2]|] eqn:E2; [|done].
    cbn [mbind option_bind] in Hu. injection Hu as <- <-.
    assert (Hne : (0 < length (concat ps))%nat).
    { clear -Hps. induction Hps as [q Hq|q qs _ _ IHq]; simpl; rewrite length_app; [destruct q; [done|simpl; lia]|lia]. }
    rewrite length_app in Hl. cbn [feed].
    rewrite (update_step st id x d p d1 o1) by (done || lia). cbn [chunk_left].
    rewrite (proj2 (Z.eqb_neq _ _)) by lia. cbn [mbind option_bind negb Z.eqb].
    set (x1 := {| x_mode := x_mode x; x_offset := _; chunk_left := _; x_file := _; x_crypto := _; data_buffer := _ |}).
    assert (Hl1 : gcm_len d1 = gcm_len d + Z.of_nat (length p)).
    { unfold mbedtls_gcm_update in E1. destruct (_ || _); [done|]. injection E1 as E1.
      apply gcm_blocks_len in E1. rewrite E1. simpl. apply wrap_small. unfold GCM_MAX_LEN, in_range in *. lia. }
    rewrite (IH (set_xfer st id x1) id x1 d1 d2 o2); [|apply lookup_insert_eq|done| |simpl; lia..|done].
    2:{ unfold GCM_MAX_LEN, in_range in *. lia. }
    simpl. unfold set_xfer at 1 2. simpl. rewrite insert_insert_eq.
    replace (x_offset x + Z.of_nat (length p) + (chunk_left x - Z.of_nat (length p)))
      with (x_offset x + chunk_left x) by lia.
    destruct (flush_data_buffer _ _ _) as [[st' ret]|]; [|done]. done.
Qed.
End xfer.

Section roundtrip.
Context `{BlockCipher}.

(** A transfer context between chunks, over the file at [a]. *)
Definition ready (st : xfer_state) (id a : Z) (mode : nexus_crypto_mode) : Prop :=
  exists x, get_context st id = Some x /\ x_mode x = mode /\ chunk_left x = 0 /\ x_file x = a.

(** A file small enough for the [int] arithmetic of the chunk lengths. *)
Record xfer_file_ok (cs : Z) (f : nexus_filenode) : Prop := {
  xf_inv : fn_inv f;
  xf_cs : chunksize f = cs;
  xf_size : 0 < filesize f < 2 ^ 31
}.

Definition chunk_len (cs : Z) (f : nexus_filenode) (off : Z) : Z := Z.min (filesize f - off) cs.

Lemma xf_chunks cs f : xfer_file_ok cs f -> 0 < nchunks f /\ 0 < cs <= 2 ^ 30.
Proof.
  intros [Hi Hc Hs]. pose proof (fi_log2 _ Hi). pose proof (fi_chunksize _ Hi) as Hcs.
  assert (0 < chunksize f <= 2 ^ 30) by (rewrite Hcs; split; [|apply Z.pow_le_mono_r]; lia).
  split; [|lia]. destruct (fi_cover _ Hi) as [[? _]|Hcov]; [lia|]. rewrite Hcov.
  assert (0 <= filesize f / chunksize f) by (apply Z.div_pos; lia). lia.
Qed.

(** The state after a successful seek. *)
Lemma seek_spec cs st id a f mode off draw ctx d :
  xfer_files st !! a = Some f -> xfer_file_ok cs f -> ready st id a mode ->
  0 <= off <= filesize f -> off mod cs = 0 ->
  let f' := fst (filenode_get_chunk f off (is_encrypt mode) draw) in
  let i := Z.to_nat (off / cs) in
  chunk_list f' !! i = Some ctx -> nexus_data_buf_new ctx mode = Some d ->
  file_crypto_seek cs st id off draw =
    Some (set_xfer (set_file st a f') id
            {| x_mode := mode; x_offset := off; chunk_left := chunk_len cs f off; x_file := a;
               x_crypto := Some i; data_buffer := Some d |}, 0).
Proof.
  intros Hf Hok (x & Hx & Hmode & Hl & Ha) Ho Hmod f' i Hctx Hd.
  destruct (xf_chunks cs f Hok) as [Hn Hcs]. destruct Hok as [Hi Hc Hs].
  destruct (get_chunk_spec f off draw Hi Hn Ho) as (Hg1 & f2 & Hg2 & _ & _ & Hsz & _).
  unfold file_crypto_seek. rewrite Hx, Hl, Hmod, Ha, Hf. cbn [Z.eqb negb mbind option_bind].
  rewrite (proj2 (Z.ltb_ge _ _)) by lia. unfold setup_data_buffer. rewrite Hmode, Ha, Hf.
  cbn [mbind option_bind]. rewrite Hc in Hg1, Hg2.
  assert (Hget : filenode_get_chunk f off (is_encrypt mode) draw = (f', Some i)).
  { unfold f'. destruct mode; simpl; [by rewrite Hg2|by rewrite Hg1]. }
  assert (Hfs : filesize f' = filesize f).
  { unfold f'. destruct mode; simpl; [by rewrite Hg2|by rewrite Hg1]. }
  rewrite Hget, Hctx. cbn [mbind option_bind]. rewrite Hd. cbn [mbind option_bind Z.eqb].
  rewrite Hfs, wrap_small by (unfold in_range; lia). by rewrite min_int_small by lia.
Qed.

Lemma data_buf_new_some ctx mode :
  length (ctx_iv ctx) = 16%nat -> exists d, nexus_data_buf_new ctx mode = Some d /\ gcm_len d = 0.
Proof.
  intros Hi. destruct (gcm_starts_some (ctx_key ctx) (gcm_mode_of mode) (ctx_iv ctx) [] Hi) as (d & Hd & Hl & _);
    [simpl; lia|]. eauto.
Qed.

Lemma gcm_update_some d p :
  gcm_len d = 0 -> Z.of_nat (length p) < 2 ^ 31 -> exists d' out, mbedtls_gcm_update d p = Some (d', out).
Proof.
  intros Hl Hp. unfold mbedtls_gcm_update, GCM_MAX_LEN. rewrite Hl, Z.add_0_l, wrap_small by (unfold in_range; lia).
  rewrite !(proj2 (Z.ltb_ge _ _)) by lia. simpl. destruct (gcm_blocks _ _ _); eauto.
Qed.

Lemma chunk_len_bound cs f off :
  xfer_file_ok cs f -> 0 <= off < filesize f -> 0 < chunk_len cs f off <= 2 ^ 30.
Proof. intros Hok Ho. destruct (xf_chunks cs f Hok). unfold chunk_len. lia. Qed.

(** A whole transfer of a chunk, up to its flush. *)
Lemma transfer_spec cs st id a f mode off draw ctx d d' ps out :
  xfer_files st !! a = Some f -> xfer_file_ok cs f -> ready st id a mode ->
  0 <= off < filesize f -> off mod cs = 0 ->
  let f' := fst (filenode_get_chunk f off (is_encrypt mode) draw) in
  let i := Z.to_nat (off / cs) in
  chunk_list f' !! i = Some ctx -> nexus_data_buf_new ctx mode = Some d -> gcm_len d = 0 ->
  aligned ps -> Z.of_nat (length (concat ps)) = chunk_len cs f off ->
  mbedtls_gcm_update d (concat ps) = Some (d', out) ->
  let x' := {| x_mode := mode; x_offset := off + chunk_len cs f off; chunk_left := 0; x_file := a;
               x_crypto := Some i; data_buffer := Some d' |} in
  transfer cs st id off draw ps =
    ('(st, ret) ← flush_data_buffer (set_xfer (set_file st a f') id x') id x';
     Some (st, if ret =? 0 then 0 else -1, out)).
Proof.
  intros Hf Hok Hr Ho Hmod f' i Hctx Hd Hl Hal Hlen Hup x'.
  pose proof (chunk_len_bound cs f off Hok Ho) as Hcl. pose proof (xf_size _ _ Hok) as Hs.
  unfold transfer. rewrite (seek_spec cs st id a f mode off draw ctx d) by (done || lia).
  cbn [mbind option_bind negb Z.eqb]. fold f' i.
  rewrite (feed_aligned ps Hal _ id {| x_mode := mode; x_offset := off; chunk_left := chunk_len cs f off;
             x_file := a; x_crypto := Some i; data_buffer := Some d |} d d' out);
    [|apply lookup_insert_eq|done|by rewrite Hl|done|simpl; lia|simpl; lia|simpl; lia
     |rewrite Hl; unfold GCM_MAX_LEN; simpl; lia|done].
  cbn [x_mode x_offset chunk_left x_file x_crypto]. fold x'.
  unfold set_xfer at 1 2. cbn [xfer_table xfer_counter xfer_files]. by rewrite insert_insert_eq.
Qed.

Lemma files_at st a f id x : xfer_files (set_xfer (set_file st a f) id x) !! a = Some f.
Proof. apply lookup_insert_eq. Qed.

(** The file after an encrypted chunk. *)
Definition written (cs : Z) (f1 : nexus_filenode) (off : Z) (m : mac) (len : Z) : nexus_filenode :=
  filenode_update_encrypted_pos (set_chunk_mac f1 (Z.to_nat (off / cs)) m) (off + len).

Lemma written_fields cs f1 off m len :
  filesize (written cs f1 off m len) = filesize f1 /\
  chunksize (written cs f1 off m len) = chunksize f1 /\
  (fn_inv f1 -> fn_inv (written cs f1 off m len)) /\
  chunk_list (written cs f1 off m len) !! Z.to_nat (off / cs) =
    (fun c => mk_ctx (ctx_key c) (ctx_iv c) m) <$> chunk_list f1 !! Z.to_nat (off / cs).
Proof.
  assert (Hinv : fn_inv f1 -> forall e, fn_inv (with_size (set_chunk_mac f1 (Z.to_nat (off / cs)) m) e
    (nchunks f1) (filesize f1) (chunk_list (set_chunk_mac f1 (Z.to_nat (off / cs)) m)))).
  { intros [] e. split; simpl; try done. by rewrite length_alter. }
  unfold written, filenode_update_encrypted_pos. destruct (_ <? _); simpl;
    (split; [done|]; split; [done|]; split; [|by rewrite list_lookup_alter_eq]).
  - intros Hi. destruct (Hinv Hi (off + len)). by split.
  - intros Hi. destruct (Hinv Hi (encrypted_length f1)). by split.
Qed.

(** Encrypting a chunk. *)
Lemma transfer_encrypt cs st a f id off draw ps :
  xfer_files st !! a = Some f -> xfer_file_ok cs f -> ready st id a NEXUS_ENCRYPT ->
  0 <= off < filesize f -> off mod cs = 0 -> length draw.2 = 16%nat ->
  aligned ps -> Z.of_nat (length (concat ps)) = chunk_len cs f off ->
  exists st1 f1 e e' c, transfer cs st id off draw ps = Some (st1, 0, c) /\
    nexus_data_buf_new (nexus_crypto_ctx_generate draw) NEXUS_ENCRYPT = Some e /\
    mbedtls_gcm_update e (concat ps) = Some (e', c) /\
    xfer_files st1 !! a = Some f1 /\ xfer_file_ok cs f1 /\ filesize f1 = filesize f /\
    chunk_list f1 !! Z.to_nat (off / cs) = Some (mk_ctx draw.1 draw.2 (nexus_data_buf_flush e')) /\
    (forall id' m, id' <> id -> ready st id' a m -> ready st1 id' a m).
Proof.
  intros Hf Hok Hr Ho Hmod Hdr Hal Hlen.
  pose proof (chunk_len_bound cs f off Hok Ho) as Hcl. destruct (xf_chunks cs f Hok) as [Hn Hcs].
  destruct (get_chunk_spec f off draw (xf_inv _ _ Hok) Hn) as (_ & f1 & Hg2 & Hck & Hi1 & Hsz1 & _); [lia|].
  assert (Hc1 : chunksize f1 = cs).
  { rewrite <- (xf_cs _ _ Hok). unfold filenode_get_chunk in Hg2.
    destruct (chunk_list f !! _); [|done]. by injection Hg2 as <- _. }
  rewrite (xf_cs _ _ Hok) in Hg2, Hck.
  destruct (data_buf_new_some (nexus_crypto_ctx_generate draw) NEXUS_ENCRYPT Hdr) as (e & He & Hl0).
  destruct (gcm_update_some e (concat ps) Hl0) as (e' & c & Hup); [lia|].
  rewrite (transfer_spec cs st id a f NEXUS_ENCRYPT off draw (nexus_crypto_ctx_generate draw) e e' ps c)
    by (done || (simpl; by rewrite Hg2)).
  simpl is_encrypt. rewrite Hg2. cbn [fst]. unfold flush_data_buffer.
  cbn [x_file data_buffer x_crypto x_mode x_offset]. rewrite files_at. cbn [mbind option_bind Z.eqb]. fold (written cs f1 off (nexus_data_buf_flush e') (chunk_len cs f off)).
  destruct (written_fields cs f1 off (nexus_data_buf_flush e') (chunk_len cs f off)) as (Hw1 & Hw2 & Hw3 & Hw4).
  eexists _, _, e, e', c. split; [done|]. split; [done|]. split; [done|].
  split; [apply lookup_insert_eq|]. split; [|split; [congruence|]; split].
  - pose proof (xf_size _ _ Hok). split; [auto|congruence|lia].
  - rewrite Hw4, Hck. done.
  - intros id' m Hne (x & Hx & Hrest). exists x. split; [|done]. unfold get_context, set_xfer, set_file. simpl.
    by rewrite !lookup_insert_ne by done.
Qed.

(** Decrypting a chunk: the stored MAC is compared only when the chunk ends
    before [encrypted_length]. *)
Lemma transfer_decrypt_ret cs st a f id off draw ps ctx g g' out :
  xfer_files st !! a = Some f -> xfer_file_ok cs f -> ready st id a NEXUS_DECRYPT ->
  0 <= off < filesize f -> off mod cs = 0 -> aligned ps ->
  Z.of_nat (length (concat ps)) = chunk_len cs f off ->
  chunk_list f !! Z.to_nat (off / cs) = Some ctx -> nexus_data_buf_new ctx NEXUS_DECRYPT = Some g ->
  gcm_len g = 0 -> mbedtls_gcm_update g (concat ps) = Some (g', out) ->
  exists st', transfer cs st id off draw ps =
    Some (st', if (off + chunk_len cs f off <? encrypted_length f) &&
                  negb (nexus_mac_compare (ctx_mac ctx) (nexus_data_buf_flush g') =? 0) then -1 else 0, out).
Proof.
  intros Hf Hok Hr Ho Hmod Hal Hlen Hck Hg Hl Hup. destruct (xf_chunks cs f Hok) as [Hn Hcs].
  destruct (get_chunk_spec f off draw (xf_inv _ _ Hok) Hn) as (Hg1 & _); [lia|].
  rewrite (transfer_spec cs st id a f NEXUS_DECRYPT off draw ctx g g' ps out)
    by (done || (simpl; by rewrite Hg1)).
  simpl is_encrypt. rewrite Hg1. cbn [fst]. unfold flush_data_buffer.
  cbn [x_file data_buffer x_crypto x_mode x_offset]. rewrite files_at. cbn [mbind option_bind]. rewrite Hck. cbn [mbind option_bind].
  eexists. f_equal. f_equal. f_equal. by destruct (_ <? _), (nexus_mac_compare _ _ =? 0).
Qed.

Lemma transfer_decrypt cs st a f id off draw ps ctx g g' out :
  xfer_files st !! a = Some f -> xfer_file_ok cs f -> ready st id a NEXUS_DECRYPT ->
  0 <= off < filesize f -> off mod cs = 0 -> aligned ps ->
  Z.of_nat (length (concat ps)) = chunk_len cs f off ->
  chunk_list f !! Z.to_nat (off / cs) = Some ctx -> nexus_data_buf_new ctx NEXUS_DECRYPT = Some g ->
  gcm_len g = 0 -> mbedtls_gcm_update g (concat ps) = Some (g', out) ->
  ctx_mac ctx = nexus_data_buf_flush g' ->
  exists st', transfer cs st id off draw ps = Some (st', 0, out).
Proof.
  intros Hf Hok Hr Ho Hmod Hal Hlen Hck Hg Hl Hup Hm.
  destruct (transfer_decrypt_ret cs st a f id off draw ps ctx g g' out) as (st' & ->); [done..|].
  exists st'. rewrite Hm. unfold nexus_mac_compare. rewrite (proj2 (memcmp_eq _ _ eq_refl) eq_refl).
  by rewrite andb_false_r.
Qed.
End roundtrip.

(** In [int]s the rest of a large file is negative, and smaller than a chunk. *)
Lemma min_int_wraps rest cs :
  2 ^ 31 <= rest < 2 ^ 32 -> 0 <= cs < 2 ^ 31 -> min_int rest cs = 2 ^ 64 - (2 ^ 32 - rest).
Proof.
  intros Hr Hc. unfold min_int. rewrite (s32_small cs) by lia.
  assert (Hs : s32 rest = rest - 2 ^ 32).
  { unfold s32. rewrite Z.mod_small by lia. by rewrite (proj2 (Z.ltb_ge _ _)) by lia. }
  rewrite Hs, (proj2 (Z.ltb_ge _ _)) by lia. unfold wrap.
  rewrite <- (Z_mod_plus_full _ 1), Z.mod_small by lia. lia.
Qed.

(** ** Concrete transfers: context 1 encrypts and context 2 decrypts [toy_file] *)
Definition toy_xfers : xfer_state :=
  let st := {| xfer_table := ∅; xfer_counter := 0; xfer_files := {[ 100 := toy_file ]} |} in
  fst (file_crypto_new (fst (file_crypto_new st 100 NEXUS_ENCRYPT)) 100 NEXUS_DECRYPT).

Lemma toy_xfer_ok : xfer_file_ok 32 toy_file.
Proof. split; [apply toy_file_inv|by vm_compute..]. Qed.

Lemma toy_ready_enc : ready toy_xfers 1 100 NEXUS_ENCRYPT.
Proof. eexists. by split; [vm_compute|]. Qed.
Lemma toy_ready_dec : ready toy_xfers 2 100 NEXUS_DECRYPT.
Proof. eexists. by split; [vm_compute|]. Qed.

(** A file of 2 GiB in three chunks of 1 GiB. *)
Definition large_file : nexus_filenode :=
  let f := filenode_create (uuid_const 1) (uuid_const 7) 30 in
  default f (filenode_set_filesize f (2 ^ 31) toy_draws).

Lemma large_file_inv : fn_inv large_file.
Proof. split; try (by vm_compute). by right. Qed.

(** ** Properties *)
(** C26: a chunk of a file of less than 2 GiB ([xfer_file_ok]), written through
    an encrypting transfer in pieces of whole cipher blocks, the last of which
    may be short ([aligned]), is read back exactly by a decrypting transfer
    whose pieces are such too, however many there are: every call returns 0,
    the ciphertext has the length of the chunk, and the reader gets the writer's
    bytes. *)
Theorem file_chunk_roundtrip `{BlockCipher} cs st a f ide idd off draw draw' ps :
  xfer_files st !! a = Some f -> xfer_file_ok cs f ->
  ready st ide a NEXUS_ENCRYPT -> ready st idd a NEXUS_DECRYPT -> ide <> idd ->
  0 <= off < filesize f -> off mod cs = 0 -> length draw.2 = 16%nat ->
  aligned ps -> Z.of_nat (length (concat ps)) = chunk_len cs f off ->
  exists st1 c, transfer cs st ide off draw ps = Some (st1, 0, c) /\ length c = length (concat ps) /\
    forall ps', aligned ps' -> concat ps' = c ->
      exists st2, transfer cs st1 idd off draw' ps' = Some (st2, 0, concat ps).
Proof.
  intros Hf Hok He Hd Hne Ho Hmod Hdr Hal Hlen.
  destruct (transfer_encrypt cs st a f ide off draw ps)
    as (st1 & f1 & e & e' & c & Ht & Hne1 & Hup & Hf1 & Hok1 & Hsz & Hck & Hrd); [done..|].
  exists st1, c. split; [done|].
  destruct (gcm_starts_peer _ _ _ _ _ Hne1) as (g & Hg & Hpeer).
  destruct (gcm_update_peer e g _ _ _ Hpeer Hup) as (Hlc & g' & Hgup & Hpeer').
  assert (Hl0 : gcm_len g = 0).
  { destruct (data_buf_new_some (nexus_crypto_ctx_generate draw) NEXUS_ENCRYPT Hdr) as (e2 & He2 & Hz).
    destruct Hpeer as (_ & _ & Hgl & _). congruence. }
  split; [done|]. intros ps' Hal' Hcat.
  apply (transfer_decrypt cs st1 a f1 idd off draw' ps' (mk_ctx draw.1 draw.2 (nexus_data_buf_flush e')) g g' (concat ps) Hf1 Hok1
           (Hrd _ _ (not_eq_sym Hne) Hd) ltac:(lia) Hmod Hal'); [|exact Hck|exact Hg|done|by rewrite Hcat|].
  - rewrite Hcat, Hlc, Hlen. unfold chunk_len. by rewrite Hsz.
  - simpl. unfold nexus_data_buf_flush. by rewrite (gcm_peer_finish _ _ Hpeer').
Qed.

Lemma file_chunk_roundtrip_witness :
  let ps := [replicate 16 97; replicate 16 98] in
  exists st1 c, transfer (H := toy_cipher) 32 toy_xfers 1 32 (toy_draws 9) ps = Some (st1, 0, c) /\
    length c = length (concat ps) /\
    forall ps', aligned ps' -> concat ps' = c ->
      exists st2, transfer (H := toy_cipher) 32 st1 2 32 (toy_draws 8) ps' = Some (st2, 0, concat ps).
Proof.
  intros ps. apply (file_chunk_roundtrip (H := toy_cipher) 32 toy_xfers 100 toy_file).
  - by vm_compute.
  - apply toy_xfer_ok.
  - apply toy_ready_enc.
  - apply toy_ready_dec.
  - done.
  - by vm_compute.
  - done.
  - done.
  - apply aligned_cons; [by exists 1|]. by apply aligned_last.
  - by vm_compute.
Defined.

(** C27: in a file of less than 2 GiB ([xfer_file_ok]), read in pieces of whole
    cipher blocks, the last of which may be short ([aligned]), reading a chunk
    that ends before the file's [encrypted_length] succeeds exactly when the
    bytes fed in are the encryption of the bytes handed out under the chunk's key
    and IV, with the chunk's MAC; a chunk that reaches [encrypted_length], as the
    last one of a fully encrypted file does, is handed out unchecked.  In a file
    of 2 GiB or more the length of a chunk wraps around ([min_int_wraps]) and
    this is not so. *)
Theorem file_chunk_verified `{BlockCipher} cs st a f id off draw ps ctx :
  xfer_files st !! a = Some f -> xfer_file_ok cs f -> ready st id a NEXUS_DECRYPT ->
  0 <= off < filesize f -> off mod cs = 0 -> aligned ps ->
  Z.of_nat (length (concat ps)) = chunk_len cs f off ->
  chunk_list f !! Z.to_nat (off / cs) = Some ctx -> ctx_ok ctx ->
  exists st' ret out, transfer cs st id off draw ps = Some (st', ret, out) /\
    length out = length (concat ps) /\
    (off + chunk_len cs f off < encrypted_length f ->
       (ret = 0 <-> exists e e', nexus_data_buf_new ctx NEXUS_ENCRYPT = Some e /\
          nexus_data_buf_write e out = Some (e', concat ps) /\ nexus_data_buf_flush e' = ctx_mac ctx)) /\
    (encrypted_length f <= off + chunk_len cs f off -> ret = 0).
Proof.
  intros Hf Hok Hr Ho Hmod Hal Hlen Hck (_ & [Hiv _] & [Hm _]). pose proof (chunk_len_bound cs f off Hok Ho).
  destruct (gcm_starts_some (ctx_key ctx) MBEDTLS_GCM_DECRYPT (ctx_iv ctx) [] Hiv) as (g & Hg & Hl0 & Hb);
    [simpl; lia|].
  destruct (gcm_update_some g (concat ps) Hl0) as (g' & out & Hup); [lia|].
  destruct (gcm_starts_peer _ _ _ _ _ Hg) as (e & He & Hp).
  destruct (gcm_update_peer g e _ _ _ Hp Hup) as (Hlo & e' & Hup' & Hp').
  destruct (transfer_decrypt_ret cs st a f id off draw ps ctx g g' out) as (st' & Ht); [done..|].
  assert (Hfl : length (ctx_mac ctx) = length (nexus_data_buf_flush g')).
  { unfold nexus_data_buf_flush. rewrite gcm_finish_len; [done|].
    by rewrite (gcm_update_ectr _ _ _ _ Hup). }
  pose proof (memcmp_eq _ _ Hfl) as Hcmp.
  eexists st', _, out. split; [exact Ht|]. split; [done|]. split.
  - intros Hlt. rewrite (proj2 (Z.ltb_lt _ _)) by done. cbn [andb]. unfold nexus_mac_compare.
    assert (Hiff : nexus_data_buf_flush e' = ctx_mac ctx <-> memcmp (ctx_mac ctx) (nexus_data_buf_flush g') = 0).
    { rewrite Hcmp. unfold nexus_data_buf_flush. rewrite (gcm_peer_finish _ _ Hp'). split; done. }
    destruct (Z.eqb_spec (memcmp (ctx_mac ctx) (nexus_data_buf_flush g')) 0) as [Hz|Hz]; cbn [negb].
    + split; [|done]. intros _. exists e, e'. by rewrite Hiff.
    + split; [done|]. intros (e1 & e1' & He1 & Hw1 & Hf1). exfalso. apply Hz, Hiff.
      unfold nexus_data_buf_new in He1. simpl in He, He1. rewrite He in He1. injection He1 as <-.
      unfold nexus_data_buf_write in Hw1. rewrite Hup' in Hw1. by injection Hw1 as <-.
  - intros Hge. by rewrite (proj2 (Z.ltb_ge _ _)) by done.
Qed.

Lemma file_chunk_verified_witness :
  let ps := [replicate 32 97] in let ctx := nexus_crypto_ctx_generate (toy_draws 1) in
  exists st' ret out, transfer (H := toy_cipher) 32 toy_xfers 2 32 (toy_draws 8) ps = Some (st', ret, out) /\
    length out = length (concat ps) /\
    (32 + 32 < 100 ->
       (ret = 0 <-> exists e e', nexus_data_buf_new (H := toy_cipher) ctx NEXUS_ENCRYPT = Some e /\
          nexus_data_buf_write (H := toy_cipher) e out = Some (e', concat ps) /\
          nexus_data_buf_flush (H := toy_cipher) e' = ctx_mac ctx)) /\
    (100 <= 32 + 32 -> ret = 0).
Proof.
  intros ps ctx. apply (file_chunk_verified (H := toy_cipher) 32 toy_xfers 100 toy_file).
  - by vm_compute.
  - apply toy_xfer_ok.
  - apply toy_ready_dec.
  - by vm_compute.
  - done.
  - by apply aligned_last.
  - by vm_compute.
  - by vm_compute.
  - apply ctx_generate_ok; apply toy_draw_ok; unfold byte_ok; simpl; lia.
Defined.

(** Seeking in a file whose rest is between 2 and 4 GiB succeeds, but the
    length of the chunk is computed with the [int] helper [min]: the context
    expects close to 2^64 bytes before it flushes, where a smaller file gets
    one chunk size. *)
Theorem file_crypto_seek_large_file `{BlockCipher} cs st id x f off draw :
  get_context st id = Some x -> chunk_left x = 0 -> xfer_files st !! x_file x = Some f ->
  fn_inv f -> chunksize f = cs -> 0 <= off -> off mod cs = 0 -> length draw.2 = 16%nat ->
  Forall ctx_ok (chunk_list f) -> 2 ^ 31 <= filesize f - off < 2 ^ 32 ->
  exists st' x', file_crypto_seek cs st id off draw = Some (st', 0) /\
    get_context st' id = Some x' /\ x_offset x' = off /\
    chunk_left x' = 2 ^ 64 - (2 ^ 32 - (filesize f - off)).
Proof.
  intros Hx Hl Hf Hi Hcs Ho Hmod Hdr Hok Hr. pose proof (fi_size _ Hi) as Hs. unfold in_range in Hs.
  pose proof (fi_log2 _ Hi). pose proof (fi_chunksize _ Hi) as Hc.
  assert (Hcb : 0 < chunksize f <= 2 ^ 30) by (rewrite Hc; split; [|apply Z.pow_le_mono_r]; lia).
  assert (Hn : 0 < nchunks f).
  { destruct (fi_cover _ Hi) as [[? _]|Hcov]; [lia|]. rewrite Hcov.
    assert (0 <= filesize f / chunksize f) by (apply Z.div_pos; lia). lia. }
  destruct (get_chunk_spec f off draw Hi Hn) as (Hg1 & f1 & Hg2 & Hck & _ & Hsz1 & _); [lia|].
  assert (Hg : exists f' ctx, filenode_get_chunk f off (is_encrypt (x_mode x)) draw
                 = (f', Some (Z.to_nat (off / chunksize f))) /\
               chunk_list f' !! Z.to_nat (off / chunksize f) = Some ctx /\ filesize f' = filesize f /\
               length (ctx_iv ctx) = 16%nat).
  { destruct (x_mode x); simpl is_encrypt; [by exists f1, (nexus_crypto_ctx_generate draw)|].
    unfold filenode_get_chunk in Hg1. destruct (chunk_list f !! _) as [ctx|] eqn:Ec; [|done].
    injection Hg1 as Hg1. exists f, ctx. unfold filenode_get_chunk. rewrite Ec, Hg1 in *. split; [done|].
    split; [done|]. split; [done|]. by apply (Forall_lookup_1 _ _ _ _ Hok Ec). }
  destruct Hg as (f' & ctx & Hg & Hc' & Hsz' & Hiv).
  destruct (data_buf_new_some ctx (x_mode x) Hiv) as (d & Hd & _).
  unfold file_crypto_seek. rewrite Hx, Hl, Hmod. cbn [Z.eqb negb]. rewrite Hf. cbn [mbind option_bind].
  rewrite (proj2 (Z.ltb_ge _ _)) by lia. unfold setup_data_buffer. rewrite Hf. cbn [mbind option_bind].
  rewrite Hg. cbn [mbind option_bind]. rewrite Hc'. cbn [mbind option_bind]. rewrite Hd. cbn [mbind option_bind].
  eexists _, _. split; [done|]. split; [apply lookup_insert_eq|]. split; [done|]. cbn [chunk_left].
  rewrite Hsz', wrap_small by (unfold in_range; lia). apply min_int_wraps; lia.
Qed.

Lemma file_crypto_seek_large_file_witness :
  let st := fst (file_crypto_new {| xfer_table := ∅; xfer_counter := 0;
                                    xfer_files := {[ 100 := large_file ]} |} 100 NEXUS_ENCRYPT) in
  exists st' x', file_crypto_seek (H := toy_cipher) (2 ^ 30) st 1 0 (toy_draws 9) = Some (st', 0) /\
    get_context st' 1 = Some x' /\ x_offset x' = 0 /\ chunk_left x' = 2 ^ 64 - (2 ^ 32 - (2 ^ 31 - 0)).
Proof.
  intros st. eapply (file_crypto_seek_large_file (H := toy_cipher) (2 ^ 30) st 1 _ large_file 0 (toy_draws 9)).
  - by vm_compute.
  - done.
  - by vm_compute.
  - apply large_file_inv.
  - by vm_compute.
  - lia.
  - done.
  - done.
  - change (chunk_list large_file) with
      [nexus_crypto_ctx_generate (toy_draws 0); nexus_crypto_ctx_generate (toy_draws 1);
       nexus_crypto_ctx_generate (toy_draws 2)].
    repeat constructor; simpl; done.
  - by vm_compute.
Defined.
