(* ===== verification/HardlinkTable.v ===== *)
(** * The hardlink table

    Models [hardlink_table.c]: files with two or more names are counted in one
    table per volume.  The hash table of the source is a finite map; its
    iteration order, which only shows in the serialized form, is an argument
    of the serializer.  The abstract contract is a link count per UUID. *)
From S2P Require Import Prelude Types Gcm Crypto BufferLayer CryptoBuf.

Record hardlink_table := mk_hltable {
  hl_my_uuid : uuid;
  hl_root_uuid : uuid;
  hl_count : Z;
  hl_mac : mac;
  hl_entries : gmap uuid Z;
  hl_metadata : option bool          (* the metadata's [is_dirty], [None] when NULL *)
}.

Definition with_entries (t : hardlink_table) (e : gmap uuid Z) (count : Z) : hardlink_table :=
  {| hl_my_uuid := hl_my_uuid t; hl_root_uuid := hl_root_uuid t; hl_count := count;
     hl_mac := hl_mac t; hl_entries := e; hl_metadata := hl_metadata t |}.

Definition with_hlmeta (t : hardlink_table) (m : option bool) : hardlink_table :=
  {| hl_my_uuid := hl_my_uuid t; hl_root_uuid := hl_root_uuid t; hl_count := hl_count t;
     hl_mac := hl_mac t; hl_entries := hl_entries t; hl_metadata := m |}.

Definition with_hlmac (t : hardlink_table) (m : mac) : hardlink_table :=
  {| hl_my_uuid := hl_my_uuid t; hl_root_uuid := hl_root_uuid t; hl_count := hl_count t;
     hl_mac := m; hl_entries := hl_entries t; hl_metadata := hl_metadata t |}.

(** ** Operations *)
Definition hl_get_entry (t : hardlink_table) (u : uuid) : option Z := hl_entries t !! u.

(** [link_count] is a [uint32_t]. *)
Definition hl_put_entry (t : hardlink_table) (u : uuid) (count : Z) : hardlink_table :=
  with_entries t (<[u := u32 count]> (hl_entries t)) (hl_count t +64 1).

Definition hl_del_entry (t : hardlink_table) (u : uuid) : hardlink_table :=
  match hl_entries t !! u with
  | Some _ => with_entries t (delete u (hl_entries t)) (hl_count t -64 1)
  | None => t
  end.

Definition hl_set_dirty (t : hardlink_table) : hardlink_table := with_hlmeta t (const true <$> hl_metadata t).
Definition hl_set_clean (t : hardlink_table) : hardlink_table := with_hlmeta t (const false <$> hl_metadata t).

Definition hardlink_table_create (root_uuid table_uuid : uuid) : hardlink_table :=
  {| hl_my_uuid := table_uuid; hl_root_uuid := root_uuid; hl_count := 0;
     hl_mac := nexus_mac_zeroize; hl_entries := ∅; hl_metadata := None |}.

Definition hardlink_table_incr_uuid (t : hardlink_table) (u : uuid) : hardlink_table :=
  let t := match hl_get_entry t u with None => hl_put_entry t u 1 | Some _ => t end in
  let t := hl_set_dirty t in
  with_entries t (alter (fun c => u32 (c + 1)) u (hl_entries t)) (hl_count t).

(** The new count is returned as an [int]. *)
Definition hardlink_table_decr_uuid (t : hardlink_table) (u : uuid) : hardlink_table * Z :=
  match hl_get_entry t u with
  | None => (t, -1)
  | Some c =>
      let c' := u32 (c - 1) in
      let t := hl_set_dirty (with_entries t (<[u := c']> (hl_entries t)) (hl_count t)) in
      let link_count := s32 c' in
      (if link_count <? 2 then hl_del_entry t u else t, link_count)
  end.

Definition hardlink_table_contains_uuid (t : hardlink_table) (u : uuid) : bool :=
  bool_decide (is_Some (hl_get_entry t u)).

Definition hardlink_table_get_uuid (t : hardlink_table) (u : uuid) : option Z := hl_get_entry t u.

(** ** Serialized form *)
(** [sizeof(struct __hardlink_table_hdr)] = 16 + 16 + 4, an entry is 4 + 16. *)
Definition hardlink_total_size (t : hardlink_table) : Z := u64 (hl_count t * 20 + 36).

Definition hl_serialize_entry (e : uuid * Z) : bytes := le_encode 4 e.2 ++ e.1.
Definition hl_parse_entry : decoder (uuid * Z) :=
  c <~ dec_uint 4; u <~ dec_bytes NEXUS_UUID_SIZE; dec_ret (u, c).

(** [order] lists the entries as the table's iterator visits them. *)
Definition serialize_hardlink_table (t : hardlink_table) (order : list (uuid * Z)) : bytes :=
  hl_my_uuid t ++ hl_root_uuid t ++ le_encode 4 (hl_count t) ++ concat (hl_serialize_entry <$> order).

Fixpoint hl_put_entries (t : hardlink_table) (es : list (uuid * Z)) : hardlink_table :=
  match es with [] => t | e :: es' => hl_put_entries (hl_put_entry t e.1 e.2) es' end.

(** The buffer length is not looked at: a short buffer is an overread ([None]). *)
Definition parse_hardlink_table : decoder hardlink_table :=
  my <~ dec_bytes NEXUS_UUID_SIZE; root <~ dec_bytes NEXUS_UUID_SIZE; count <~ dec_uint 4;
  es <~ dec_list hl_parse_entry (Z.to_nat count);
  dec_ret (hl_put_entries (hardlink_table_create root my) es).

Section store.
Context `{BlockCipher} `{KeyWrapCipher}.
Variable volumekey : bytes.

Definition hardlink_table_store (t : hardlink_table) (version : Z) (order : list (uuid * Z))
    (b : bcache) (env : put_env) : option (hardlink_table * bcache * Z * list ocall) :=
  let size := hardlink_total_size t in
  let buf := serialize_hardlink_table t order in
  if size <? Z.of_nat (length buf) then None
  else
    let content := buf ++ replicate (Z.to_nat size - length buf) 0 in
    '(c, b, ret, m, tr) ← nexus_crypto_buf_put volumekey
                            (nexus_crypto_buf_new content version (hl_my_uuid t)) b env;
    let t := match m with Some m => with_hlmac t m | None => t end in
    if negb (ret =? 0) then Some (t, b, -1, tr) else Some (hl_set_clean t, b, 0, tr).

Definition hardlink_table_from_crypto_buf (c : nexus_crypto_buf) : option (option hardlink_table) :=
  '(_, p, m) ← nexus_crypto_buf_get volumekey c;
  match p with
  | None => Some None
  | Some buf => '(t, _) ← parse_hardlink_table buf; Some (Some (with_hlmac t (default (hl_mac t) m)))
  end.
End store.

(** ** The contract: a link count per file *)
(** A file with [n] names is in the table exactly when [n >= 2]. *)
Record hl_repr (t : hardlink_table) (links : uuid -> Z) : Prop := {
  hr_entries : forall u, hl_entries t !! u = if 2 <=? links u then Some (links u) else None;
  hr_links : forall u, 0 <= links u < 2 ^ 31;
  hr_count : hl_count t = Z.of_nat (size (hl_entries t));
  hr_bound : hl_count t < 2 ^ 32
}.

Definition add_links (links : uuid -> Z) (u : uuid) (n : Z) : uuid -> Z :=
  fun u' => if decide (u' = u) then links u' + n else links u'.

Section lemmas.
Implicit Types (t : hardlink_table) (u : uuid) (links : uuid -> Z).

Lemma incr_repr t links u :
  hl_repr t links -> 1 <= links u -> links u < 2 ^ 31 - 1 -> hl_count t < 2 ^ 32 - 1 ->
  hl_repr (hardlink_table_incr_uuid t u) (add_links links u 1).
Proof.
  intros [He Hl Hc Hb] H1 H2 Hc1. unfold hardlink_table_incr_uuid, hl_get_entry. rewrite (He u).
  assert (Hadd : forall v, 0 <= add_links links u 1 v < 2 ^ 31).
  { intros v. unfold add_links. specialize (Hl v). case_decide; [subst|]; lia. }
  destruct (Z.leb_spec 2 (links u)) as [H|H].
  - split; simpl; [|done| |done].
    + intros v. rewrite lookup_alter, !He. unfold add_links. repeat case_decide; subst; try done.
      rewrite !(proj2 (Z.leb_le _ _)) by lia. simpl. by rewrite wrap_small by (unfold in_range; lia).
    + rewrite Hc. f_equal. rewrite <- !size_dom. by rewrite dom_alter_L.
  - assert (links u = 1) as Hu by lia.
    assert (Hn : hl_entries t !! u = None) by (rewrite He, Hu; done).
    split; simpl; [|done| |].
    + intros v. rewrite lookup_alter, !lookup_insert, !He. unfold add_links. repeat case_decide; subst; try done.
      by rewrite Hu.
    + rewrite <- size_dom, dom_alter_L, size_dom, map_size_insert_None by done.
      rewrite wrap_small by (unfold in_range; lia). lia.
    + rewrite wrap_small by (unfold in_range; lia). lia.
Qed.

Lemma decr_repr t links u :
  hl_repr t links ->
  (2 <= links u ->
     let '(t', n) := hardlink_table_decr_uuid t u in
     n = links u - 1 /\ 1 <= n /\ hl_repr t' (add_links links u (-1))) /\
  (links u < 2 -> hardlink_table_decr_uuid t u = (t, -1)).
Proof.
  intros [He Hl Hc Hb]. unfold hardlink_table_decr_uuid, hl_get_entry. rewrite (He u).
  destruct (Z.leb_spec 2 (links u)) as [H|H]; [split; [intros _|lia]|by split; [lia|]].
  pose proof (Hl u) as Hlu.
  assert (Hadd : forall v, 0 <= add_links links u (-1) v < 2 ^ 31).
  { intros v. unfold add_links. specialize (Hl v). case_decide; [subst|]; lia. }
  rewrite (wrap_small 32) by (unfold in_range; lia). rewrite s32_small by lia.
  split; [done|]. split; [lia|].
  assert (Hins : is_Some (hl_entries t !! u)) by (rewrite He, (proj2 (Z.leb_le _ _)) by lia; eauto).
  destruct (Z.ltb_spec (links u - 1) 2) as [H2|H2].
  - unfold hl_del_entry. simpl. rewrite lookup_insert_eq. split; simpl; [|done| |].
    + intros v. rewrite delete_insert_eq. rewrite lookup_delete, He. unfold add_links.
      repeat case_decide; subst; try done. by rewrite (proj2 (Z.leb_gt _ _)) by lia.
    + rewrite delete_insert_eq, map_size_delete. destruct Hins as [x Hx]. rewrite Hx.
      assert (size (hl_entries t) <> 0%nat) by (intros Hz%map_size_empty_inv; rewrite Hz, lookup_empty in Hx; done).
      rewrite wrap_small by (unfold in_range; lia). lia.
    + destruct Hins as [x Hx].
      assert (size (hl_entries t) <> 0%nat) by (intros Hz%map_size_empty_inv; rewrite Hz, lookup_empty in Hx; done).
      rewrite wrap_small by (unfold in_range; lia). lia.
  - split; simpl; [|done| |done].
    + intros v. rewrite lookup_insert, !He. unfold add_links. repeat case_decide; subst; try done.
      by rewrite (proj2 (Z.leb_le 2 (links _ + -1))) by lia.
    + by rewrite map_size_insert_Some.
Qed.

Lemma contains_repr t links u :
  hl_repr t links -> hardlink_table_contains_uuid t u = (2 <=? links u).
Proof.
  intros [He _ _ _]. unfold hardlink_table_contains_uuid, hl_get_entry. rewrite He.
  destruct (2 <=? links u); [by apply bool_decide_eq_true|]. apply bool_decide_eq_false. by intros [].
Qed.

Definition hl_entry_ok (e : uuid * Z) : Prop := uuid_ok e.1 /\ in_range 32 e.2.

Lemma hl_parse_serialize_entry e rest :
  hl_entry_ok e -> hl_parse_entry (hl_serialize_entry e ++ rest) = Some (e, rest).
Proof.
  destruct e as [u c]. intros [[Hu _] Hc]. simpl in Hu, Hc. unfold hl_parse_entry, hl_serialize_entry.
  cbn [fst snd]. rewrite <- app_assoc. do 2 dec_step. done.
Qed.

Lemma put_entries_map t es :
  NoDup es.*1 -> Forall hl_entry_ok es -> (forall e, e ∈ es -> hl_entries t !! e.1 = None) ->
  hl_count t + Z.of_nat (length es) < 2 ^ 64 -> 0 <= hl_count t ->
  hl_entries (hl_put_entries t es) = list_to_map es ∪ hl_entries t /\
  hl_count (hl_put_entries t es) = hl_count t + Z.of_nat (length es) /\
  hl_my_uuid (hl_put_entries t es) = hl_my_uuid t /\ hl_root_uuid (hl_put_entries t es) = hl_root_uuid t.
Proof.
  revert t. induction es as [|[u c] es IH]; intros t Hnd Hok Hdis Hc H0; simpl.
  - rewrite map_empty_union. split_and!; try done. simpl. lia.
  - rewrite fmap_cons in Hnd. apply NoDup_cons in Hnd as [Hu Hnd]. apply Forall_cons in Hok as [[_ Hcr] Hok].
    simpl in *.
    destruct (IH (hl_put_entry t u c) Hnd Hok) as (H1 & H2 & H3 & H4).
    + intros e He. simpl. rewrite lookup_insert_ne; [apply Hdis; by right|].
      intros ->. apply Hu. apply list_elem_of_fmap. eauto.
    + simpl. rewrite wrap_small by (unfold in_range; lia). lia.
    + simpl. rewrite wrap_small by (unfold in_range; lia). lia.
    + simpl in *. rewrite (wrap_small 32 c) in H1 by done. rewrite H1, H2.
      rewrite wrap_small by (unfold in_range; lia). split_and!; try done; [|lia].
      rewrite <- insert_union_l. symmetry. rewrite insert_union_r; [done|].
      apply not_elem_of_list_to_map. done.
Qed.
End lemmas.

#[export] Instance hl_entry_codec : Codec (uuid * Z) :=
  {| enc := hl_serialize_entry; dec := hl_parse_entry; enc_ok := hl_entry_ok;
     dec_enc := hl_parse_serialize_entry |}.

Lemma length_hl_entries es :
  Forall hl_entry_ok es -> length (concat (hl_serialize_entry <$> es)) = (20 * length es)%nat.
Proof.
  induction 1 as [|[u c] es [[Hu _] _] _ IH]; [done|]. rewrite fmap_cons. cbn [concat length].
  rewrite length_app, IH. change (hl_serialize_entry (u, c)) with (le_encode 4 c ++ u). simpl in Hu.
  rewrite length_app, length_le_encode, Hu. unfold NEXUS_UUID_SIZE. lia.
Qed.

Lemma hl_table_codec t order :
  length (hl_my_uuid t) = 16%nat -> length (hl_root_uuid t) = 16%nat ->
  order ≡ₚ map_to_list (hl_entries t) -> Forall hl_entry_ok order ->
  hl_count t = Z.of_nat (size (hl_entries t)) -> hl_count t < 2 ^ 32 ->
  exists t', parse_hardlink_table (serialize_hardlink_table t order) = Some (t', []) /\
    hl_my_uuid t' = hl_my_uuid t /\ hl_root_uuid t' = hl_root_uuid t /\
    hl_count t' = hl_count t /\ hl_entries t' = hl_entries t.
Proof.
  intros Hm Hr Hp Hok Hc Hb. unfold parse_hardlink_table, serialize_hardlink_table.
  do 3 dec_step.
  assert (Hlen : Z.to_nat (hl_count t) = length order).
  { rewrite Hc, Nat2Z.id, Hp. by rewrite length_map_to_list. }
  rewrite Hlen. unfold dec_bind at 1.
  rewrite <- (app_nil_r (concat (hl_serialize_entry <$> order))).
  change hl_parse_entry with (dec (A := uuid * Z)). change hl_serialize_entry with (enc (A := uuid * Z)).
  rewrite dec_list_app by done. eexists. split; [done|].
  assert (Hnd : NoDup order.*1) by (rewrite Hp; apply NoDup_fst_map_to_list).
  destruct (put_entries_map (hardlink_table_create (hl_root_uuid t) (hl_my_uuid t)) order Hnd Hok)
    as (H1 & H2 & H3 & H4); [done|simpl; lia|done|].
  rewrite H1, H2, H3, H4. simpl. split_and!; try done; [lia|]. rewrite map_union_empty.
  rewrite <- (list_to_map_to_list (hl_entries t)). by apply list_to_map_proper.
Qed.

(** ** Sequences of links and unlinks *)
Inductive hl_op := Link (u : uuid) | Unlink (u : uuid).

Definition hl_step (t : hardlink_table) (op : hl_op) : hardlink_table :=
  match op with
  | Link u => hardlink_table_incr_uuid t u
  | Unlink u => fst (hardlink_table_decr_uuid t u)
  end.

Definition hl_spec (links : uuid -> Z) (op : hl_op) : uuid -> Z :=
  match op with Link u => add_links links u 1 | Unlink u => add_links links u (-1) end.

(** A file that is linked has a name; one that is unlinked keeps a name. *)
Fixpoint hl_valid (links : uuid -> Z) (ops : list hl_op) : Prop :=
  match ops with
  | [] => True
  | op :: ops' =>
      match op with Link u => 1 <= links u < 2 ^ 31 - 1 | Unlink u => 2 <= links u end /\
      hl_valid (hl_spec links op) ops'
  end.

Lemma step_repr t links op ops :
  hl_repr t links -> hl_valid links (op :: ops) -> hl_count t < 2 ^ 32 - 1 ->
  hl_repr (hl_step t op) (hl_spec links op) /\ hl_count (hl_step t op) <= hl_count t + 1.
Proof.
  intros Hr [Hop _] Hc. assert (H0 : 0 <= hl_count t) by (rewrite (hr_count _ _ Hr); lia).
  destruct op as [u|u]; simpl in *.
  - split; [apply incr_repr; done || lia|]. unfold hardlink_table_incr_uuid.
    destruct (hl_get_entry t u); simpl; [lia|]. rewrite wrap_small by (unfold in_range; lia). lia.
  - destruct (decr_repr t links u Hr) as [Hd _]. specialize (Hd Hop).
    destruct (hardlink_table_decr_uuid t u) as [t' n] eqn:E. destruct Hd as (_ & _ & Hr'). split; [done|]. cbn [fst].
    revert E. unfold hardlink_table_decr_uuid. destruct (hl_get_entry t u) as [c|] eqn:Eg; [|intros [= <- _]; lia].
    intros [= <- _]. destruct (_ <? 2); simpl; [|lia]. unfold hl_del_entry. simpl. rewrite lookup_insert_eq. simpl.
    assert (hl_count t <> 0).
    { rewrite (hr_count _ _ Hr). intros Hz. assert (size (hl_entries t) = 0%nat) as Hs by lia.
      apply map_size_empty_inv in Hs. unfold hl_get_entry in Eg. by rewrite Hs, lookup_empty in Eg. }
    rewrite wrap_small by (unfold in_range; lia). lia.
Qed.

(** ** Properties *)
(** C37: after any sequence of links and unlinks of named files, the table
    holds exactly the files with two or more names, each with its number of
    names; a lookup, the membership test and the count field all agree. *)
Theorem hardlink_table_counts ops t links :
  hl_repr t links -> hl_valid links ops -> hl_count t + Z.of_nat (length ops) < 2 ^ 32 - 1 ->
  let t' := fold_left hl_step ops t in let links' := fold_left hl_spec ops links in
  hl_repr t' links' /\
  forall u, hardlink_table_contains_uuid t' u = (2 <=? links' u) /\
    hardlink_table_get_uuid t' u = if 2 <=? links' u then Some (links' u) else None.
Proof.
  revert t links. induction ops as [|op ops IH]; intros t links Hr Hv Hc.
  - simpl. split; [done|]. intros u. split; [by apply contains_repr|apply (hr_entries _ _ Hr)].
  - cbn [length] in Hc. destruct (step_repr t links op ops Hr Hv) as [Hr' Hc']; [lia|].
    destruct Hv as [_ Hv]. simpl. apply IH; [done|done|lia].
Qed.

(** The table of a volume in which every file has one name. *)
Lemma create_links root u : hl_repr (hardlink_table_create root u) (fun _ => 1).
Proof. split; simpl; [intros v; apply lookup_empty|lia|done|lia]. Qed.

Lemma hardlink_table_counts_witness :
  let ops := [Link (uuid_const 7); Link (uuid_const 7); Link (uuid_const 8); Unlink (uuid_const 8)] in
  let t' := fold_left hl_step ops (hardlink_table_create (uuid_const 1) (uuid_const 2)) in
  let links' := fold_left hl_spec ops (fun _ => 1) in
  hl_repr t' links' /\
  forall u, hardlink_table_contains_uuid t' u = (2 <=? links' u) /\
    hardlink_table_get_uuid t' u = if 2 <=? links' u then Some (links' u) else None.
Proof.
  intros ops. apply hardlink_table_counts; [apply create_links| |by vm_compute].
  unfold ops. split_and!; vm_compute; done.
Defined.

(** A serialized table has exactly [__get_total_size] bytes and is parsed
    back to the same UUIDs and link counts, whatever the order in which the
    hash table was walked. *)
Theorem hardlink_table_roundtrip t order :
  length (hl_my_uuid t) = 16%nat -> length (hl_root_uuid t) = 16%nat ->
  order ≡ₚ map_to_list (hl_entries t) -> Forall hl_entry_ok order ->
  hl_count t = Z.of_nat (size (hl_entries t)) -> hl_count t < 2 ^ 32 ->
  Z.of_nat (length (serialize_hardlink_table t order)) = hardlink_total_size t /\
  exists t', parse_hardlink_table (serialize_hardlink_table t order) = Some (t', []) /\
    hl_my_uuid t' = hl_my_uuid t /\ hl_root_uuid t' = hl_root_uuid t /\
    hl_count t' = hl_count t /\ hl_entries t' = hl_entries t.
Proof.
  intros Hm Hr Hp Hok Hc Hb. split; [|by apply hl_table_codec].
  unfold serialize_hardlink_table. rewrite !length_app, length_le_encode, length_hl_entries, Hm, Hr by done.
  unfold hardlink_total_size. rewrite Hc, Hp, length_map_to_list in *.
  rewrite wrap_small by (unfold in_range; lia). lia.
Qed.

Lemma hardlink_table_roundtrip_witness :
  let t := hl_step (hardlink_table_create (uuid_const 1) (uuid_const 2)) (Link (uuid_const 7)) in
  let order := [(uuid_const 7, 2)] in
  Z.of_nat (length (serialize_hardlink_table t order)) = 56 /\
  exists t', parse_hardlink_table (serialize_hardlink_table t order) = Some (t', []) /\
    hl_my_uuid t' = uuid_const 2 /\ hl_root_uuid t' = uuid_const 1 /\
    hl_count t' = 1 /\ hl_entries t' = hl_entries t.
Proof.
  intros t order. apply (hardlink_table_roundtrip t order).
  - done.
  - done.
  - assert (map_to_list (hl_entries t) = order) as -> by (by vm_compute). done.
  - apply Forall_singleton. split; [apply uuid_const_ok; unfold byte_ok; lia|by vm_compute].
  - by vm_compute.
  - by vm_compute.
Defined.
