(* ===== verification/DirnodeCodec.v ===== *)
(** * Dirnodes on the store

    Models the serialized form of dirnodes and buckets, their store and their
    load: [dirnode.c] from [__get_bucket0_size] to [dirnode_store], and the
    record and bucket half of [bucket.c].  Bucket 0 travels in the dirnode's
    own object; every other bucket is an object of its own, whose MAC the
    dirnode's record pins.  The replies of the store to each bucket are
    arguments; [None] results are memory errors (a buffer overrun, an overread,
    a freed cell).  The main theorem is that a directory stored with a
    cooperating store is loaded back as the same directory. *)
From S2P Require Import Prelude Hashmap Types AttributeTable Dirnode DirnodeSpec.
From S2P Require Import Gcm Crypto BufferLayer CryptoBuf.

(** ** Directory records *)
(** The whole [struct __dir_rec], with the unused end of the name array. *)
Definition dir_rec_struct (r : dir_rec) : bytes :=
  le_encode 2 (rec_len r) ++ le_encode 4 (dirent_type_val (dr_type r)) ++ link_uuid r ++
  le_encode 2 (name_len r) ++ dr_name r ++ replicate (256 - length (dr_name r)) 0.

Definition serialize_dir_entry (r : dir_rec) : bytes := take (Z.to_nat (rec_len r)) (dir_rec_struct r).

(** The fields of a [struct __dir_rec]; a type outside the enumeration, which
    no writer produces, is not represented. *)
Definition dir_rec_of_struct (s : bytes) : option dir_rec :=
  '(rl, s) ← dec_uint 2 s;
  '(ty, s) ← dec_uint 4 s;
  '(u, s) ← dec_bytes NEXUS_UUID_SIZE s;
  '(nl, s) ← dec_uint 2 s;
  t ← dirent_type_of ty;
  Some {| rec_len := rl; dr_type := t; link_uuid := u; name_len := nl; dr_name := cstr s |}.

(** [rec_len] bytes are copied into a zeroed struct. *)
Definition parse_dir_entry : decoder dir_rec := fun buf =>
  '(rl, _) ← dec_uint 2 buf;
  if DIR_REC_SIZE <? rl then None
  else
    '(raw, rest) ← dec_bytes (Z.to_nat rl) buf;
    r ← dir_rec_of_struct (raw ++ replicate (Z.to_nat DIR_REC_SIZE - length raw) 0);
    Some (r, rest).

(** ** Bucket records *)
(** [sizeof(struct __bucket_rec)]: 4 + 4 + 16 + 16. *)
Definition BUCKET_REC_SIZE : Z := 40.

Definition bucket_to_record (b : dir_bucket) : bytes :=
  le_encode 4 (num_items b) ++ le_encode 4 (size_bytes b) ++ b_uuid b ++ b_mac b.

Definition bucket_from_record (addr cap : Z) : decoder dir_bucket :=
  n <~ dec_uint 4; size <~ dec_uint 4; u <~ dec_bytes NEXUS_UUID_SIZE; m <~ dec_bytes NEXUS_MAC_SIZE;
  dec_ret {| b_addr := addr; is_dirty := false; on_disk := false; capacity := cap; num_items := n;
             size_bytes := size; b_uuid := u; b_mac := m; dir_entries := [] |}.

Definition bucket_with (b : dir_bucket) (dirty disk : bool) (m : mac) (es : list Z) : dir_bucket :=
  {| b_addr := b_addr b; is_dirty := dirty; on_disk := disk; capacity := capacity b;
     num_items := num_items b; size_bytes := size_bytes b; b_uuid := b_uuid b; b_mac := m;
     dir_entries := es |}.

(** The loop of [bucket_load_from_buffer]: [nexus_malloc] hands out the next
    address for each entry, which goes to the end of the bucket and into the
    dirnode's indexes. *)
Fixpoint load_entries (n : nat) (b : dir_bucket) (d : nexus_dirnode) (h : dheap)
    : decoder (dir_bucket * nexus_dirnode * dheap) :=
  match n with
  | O => dec_ret (b, d, h)
  | S n' =>
      r <~ parse_dir_entry;
      let a := next_addr h in
      load_entries n' (bucket_with b (is_dirty b) (on_disk b) (b_mac b) (dir_entries b ++ [a]))
        (dirnode_index_direntry d a r)
        {| cells := <[a := {| de_bucket := Some (b_addr b); de_rec := r |}]> (cells h);
           next_addr := a + 1 |}
  end.

Definition bucket_load_from_buffer (b : dir_bucket) (d : nexus_dirnode) (h : dheap)
    : decoder (dir_bucket * nexus_dirnode * dheap) :=
  load_entries (Z.to_nat (num_items b)) b d h.

(** [list_for_each] over the bucket's entries. *)
Fixpoint serialize_entries (C : gmap Z dir_entry) (l : list Z) : option bytes :=
  match l with
  | [] => Some []
  | a :: l' =>
      de ← C !! a; rest ← serialize_entries C l'; Some (serialize_dir_entry (de_rec de) ++ rest)
  end.

Definition bucket_serialize (b : dir_bucket) (h : dheap) : option (dir_bucket * bytes) :=
  out ← serialize_entries (cells h) (dir_entries b);
  Some (bucket_with b false (on_disk b) (b_mac b) (dir_entries b), out).

(** ** Symbolic links *)
(** [total_len] bytes of the struct, its path and the terminator. *)
Definition serialize_symlink (s : symlink_entry) : bytes :=
  take (Z.to_nat (total_len s))
    (le_encode 1 (total_len s) ++ sl_uuid s ++ le_encode 2 (target_len s) ++ target_path s ++ [0]).

(** A copy of fewer bytes than the struct's fixed part has no readable UUID. *)
Definition parse_symlink : decoder symlink_entry := fun buf =>
  '(tl, _) ← dec_uint 1 buf;
  '(raw, rest) ← dec_bytes (Z.to_nat tl) buf;
  '(tl, raw) ← dec_uint 1 raw;
  '(u, raw) ← dec_bytes NEXUS_UUID_SIZE raw;
  '(len, raw) ← dec_uint 2 raw;
  Some ({| total_len := tl; sl_uuid := u; target_len := len; target_path := cstr raw |}, rest).

(** ** The dirnode's own object *)
(** [sizeof(struct __dirnode_hdr)]: 16 + 16 + 4 * 4 + 2, packed. *)
Definition DIRNODE_HDR_SIZE : Z := 50.

Definition serialize_dirnode_header (d : nexus_dirnode) : bytes :=
  my_uuid d ++ root_uuid d ++ le_encode 4 (symlink_count d) ++ le_encode 4 (symlink_buflen d) ++
  le_encode 4 (dir_entry_count d) ++ le_encode 4 (dir_entry_buflen d) ++ le_encode 2 (bucket_count d).

(** The header fills a zeroed dirnode, then [dirnode_init] makes its maps. *)
Definition parse_dirnode_header : decoder nexus_dirnode :=
  my <~ dec_bytes NEXUS_UUID_SIZE; root <~ dec_bytes NEXUS_UUID_SIZE;
  sc <~ dec_uint 4; sb <~ dec_uint 4; ec <~ dec_uint 4; eb <~ dec_uint 4; bc <~ dec_uint 2;
  let '(fn, fu) := dirnode_init_maps in
  dec_ret {| my_uuid := my; root_uuid := root; symlink_count := sc; symlink_buflen := sb;
             dir_entry_count := ec; dir_entry_buflen := eb; bucket_count := bc;
             last_failed_lookup := None; symlink_list := []; dirents_list := [];
             filename_hashmap := fn; fileuuid_hashmap := fu; bucket_list := [];
             dn_attribute_table := attribute_table_create; dn_metadata := None |}.

(** Buckets are allocated one after the other. *)
Fixpoint parse_bucket_records (n : nat) (h : dheap) : decoder (list dir_bucket * dheap) :=
  match n with
  | O => dec_ret ([], h)
  | S n' =>
      b <~ bucket_from_record (next_addr h) BUCKET_CAPACITY;
      bh <~ parse_bucket_records n' {| cells := cells h; next_addr := next_addr h + 1 |};
      dec_ret (b :: bh.1, bh.2)
  end.

Definition with_dtable (d : nexus_dirnode) (t : attribute_table) : nexus_dirnode :=
  {| my_uuid := my_uuid d; root_uuid := root_uuid d; symlink_count := symlink_count d;
     symlink_buflen := symlink_buflen d; dir_entry_count := dir_entry_count d;
     dir_entry_buflen := dir_entry_buflen d; bucket_count := bucket_count d;
     last_failed_lookup := last_failed_lookup d; symlink_list := symlink_list d;
     dirents_list := dirents_list d; filename_hashmap := filename_hashmap d;
     fileuuid_hashmap := fileuuid_hashmap d; bucket_list := bucket_list d;
     dn_attribute_table := t; dn_metadata := dn_metadata d |}.

Definition get_bucket0_size (d : nexus_dirnode) (b0 : dir_bucket) : Z :=
  u64 (DIRNODE_HDR_SIZE + symlink_buflen d + BUCKET_REC_SIZE * bucket_count d
       + attribute_table_get_size (dn_attribute_table d) + size_bytes b0).

(** What the store answers to a read of a bucket's object. *)
Record bucket_reply := mk_breply { br_err : Z; br_data : option bytes; br_ts : Z }.

(** What it answers while a bucket is written: to the lock, and to the put. *)
Record bucket_env := mk_benv { be_lock : reply; be_put : put_env }.

Section persist.
Context `{BlockCipher} `{KeyWrapCipher}.
Variable volumekey : bytes.

(** ** Loading *)
(** Return code, the MAC of the bucket's object. *)
Definition bucket_load_from_uuid (b : dir_bucket) (d : nexus_dirnode) (h : dheap) (c : bcache)
    (flags : Z) (r : bucket_reply)
    : option (dir_bucket * nexus_dirnode * dheap * bcache * Z * option mac * list ocall) :=
  let '(c, cb, t) := nexus_crypto_buf_create c (b_uuid b) flags (br_err r) (br_data r) (br_ts r) in
  match cb with
  | None => Some (b, d, h, c, -1, None, t)
  | Some cb =>
      '(_, p, m) ← nexus_crypto_buf_get volumekey cb;
      match p with
      | None => Some (b, d, h, c, -1, m, t)
      | Some buf =>
          '(b, d, h, _) ← bucket_load_from_buffer b d h buf;
          Some (bucket_with b (is_dirty b) true (b_mac b) (dir_entries b), d, h, c, 0, m, t)
      end
  end.

(** The buckets after bucket 0, each checked against the MAC of its record. *)
Fixpoint load_other_buckets (bs : list dir_bucket) (rs : list bucket_reply) (d : nexus_dirnode)
    (h : dheap) (c : bcache)
    : option (list dir_bucket * nexus_dirnode * dheap * bcache * Z * list ocall) :=
  match bs with
  | [] => Some ([], d, h, c, 0, [])
  | b :: bs' =>
      match rs with
      | [] => None
      | r :: rs' =>
          '(b, d, h, c, ret, m, t) ← bucket_load_from_uuid b d h c NEXUS_FREAD r;
          if negb (ret =? 0) then Some (b :: bs', d, h, c, -1, t)
          else if negb (nexus_mac_compare (b_mac b) (default [] m) =? 0) then
            Some (b :: bs', d, h, c, -1, t)
          else
            '(bs', d, h, c, ret, t') ← load_other_buckets bs' rs' d h c;
            Some (b :: bs', d, h, c, ret, t ++ t')
      end
  end.

(** The inner [None] is NULL: the header is too short, the attribute table is
    refused, or a bucket cannot be loaded. *)
Definition dirnode_from_buffer (buffer : bytes) (h0 : dheap) (c0 : bcache) (rs : list bucket_reply)
    : option (option nexus_dirnode * dheap * bcache * list ocall) :=
  if Z.of_nat (length buffer) <? DIRNODE_HDR_SIZE then Some (None, h0, c0, [])
  else
    '(d, p) ← parse_dirnode_header buffer;
    '(sl, p) ← dec_list parse_symlink (Z.to_nat (symlink_count d)) p;
    '(bs, h, p) ← parse_bucket_records (Z.to_nat (bucket_count d)) h0 p;
    match attribute_table_from_buffer p with
    | None => Some (None, h0, c0, [])
    | Some (t, _) =>
        let d := with_dtable (with_symlinks d sl (symlink_count d) (symlink_buflen d)) t in
        match bs with
        | [] => None
        | b0 :: bs =>
            '(b0, d, h, _) ← bucket_load_from_buffer b0 d h
                               (drop (Z.to_nat (attribute_table_get_size t)) p);
            '(bs, d, h, c, ret, tr) ← load_other_buckets bs rs d h c0;
            if negb (ret =? 0) then Some (None, h0, c, tr)
            else Some (Some (with_buckets d (b0 :: bs) (bucket_count d)), h, c, tr)
        end
    end.

(** A buffer that does not open is freed here, and freed again by each caller. *)
Definition dirnode_from_crypto_buf (cb : nexus_crypto_buf) (h : dheap) (c : bcache)
    (rs : list bucket_reply) : option (option nexus_dirnode * dheap * bcache * list ocall) :=
  '(_, p, _) ← nexus_crypto_buf_get volumekey cb;
  match p with
  | None => None
  | Some buf => dirnode_from_buffer buf h c rs
  end.

(** [dirnode_load]; the last reply is for the dirnode's own object. *)
Definition dirnode_load (u : uuid) (flags : Z) (h : dheap) (c : bcache) (r : bucket_reply)
    (rs : list bucket_reply) : option (option nexus_dirnode * dheap * bcache * list ocall) :=
  let '(c, cb, t) := nexus_crypto_buf_create c u flags (br_err r) (br_data r) (br_ts r) in
  match cb with
  | None => Some (None, h, c, t)
  | Some cb =>
      '(d, h, c, t') ← dirnode_from_crypto_buf cb h c rs;
      Some (d, h, c, t ++ t')
  end.

(** ** Storing *)
(** A bucket's object is always written as version 1: its content is pinned
    by the MAC in the dirnode. *)
Definition bucket_store (b : dir_bucket) (h : dheap) (c : bcache) (e : bucket_env)
    : option (dir_bucket * bcache * Z * list ocall) :=
  let flags := if on_disk b then NEXUS_FWRITE else NEXUS_FCREATE in
  let '(c, ret, t1) := buffer_layer_lock c (b_uuid b) flags (be_lock e) in
  if negb (ret =? 0) then Some (b, c, -1, t1)
  else
    let b := bucket_with b (is_dirty b) true (b_mac b) (dir_entries b) in
    '(b, out) ← bucket_serialize b h;
    if size_bytes b <? Z.of_nat (length out) then None
    else
      let content := out ++ replicate (Z.to_nat (size_bytes b) - length out) 0 in
      '(_, c, ret, m, t2) ← nexus_crypto_buf_put volumekey
                              (nexus_crypto_buf_new content 0 (b_uuid b)) c (be_put e);
      let b := bucket_with b (is_dirty b) (on_disk b) (default (b_mac b) m) (dir_entries b) in
      Some (b, c, if ret =? 0 then 0 else -1, t1 ++ t2).

(** Modified buckets are stored in order; a failure stops the loop. *)
Fixpoint store_other_buckets (bs : list dir_bucket) (h : dheap) (c : bcache) (es : list bucket_env)
    : option (list dir_bucket * bcache * Z * list ocall) :=
  match bs with
  | [] => Some ([], c, 0, [])
  | b :: bs' =>
      match es with
      | [] => None
      | e :: es' =>
          '(b, c, ret, t) ← (if negb (is_dirty b) then Some (b, c, 0, []) else bucket_store b h c e);
          if negb (ret =? 0) then Some (b :: bs', c, -1, t)
          else
            let b := bucket_with b false (on_disk b) (b_mac b) (dir_entries b) in
            '(bs', c, ret, t') ← store_other_buckets bs' h c es';
            Some (b :: bs', c, ret, t ++ t')
      end
  end.

(** Return code, the dirnode with clean buckets, the bytes.  The record of a
    stored bucket is rewritten with its new MAC. *)
Definition dirnode_serialize (d : nexus_dirnode) (h : dheap) (c : bcache)
    (mv : option mac_and_version) (es : list bucket_env) (buflen : Z)
    : option (nexus_dirnode * bcache * Z * list ocall * bytes) :=
  let hdr := serialize_dirnode_header d in
  let links := concat (serialize_symlink <$> symlink_list d) in
  let left := buflen -64 Z.of_nat (length hdr + length links + 40 * length (bucket_list d)) in
  match attribute_table_store (dn_attribute_table d) mv left with
  | None => Some (d, c, -1, [], [])
  | Some (t, tbuf) =>
      let d := with_dtable d t in
      match bucket_list d with
      | [] => None
      | b0 :: bs =>
          '(b0, out0) ← bucket_serialize b0 h;
          '(bs, c, ret, tr) ← store_other_buckets bs h c es;
          let d := with_buckets d (b0 :: bs) (bucket_count d) in
          if negb (ret =? 0) then Some (d, c, -1, tr, [])
          else Some (d, c, 0, tr,
                 hdr ++ links ++ concat (bucket_to_record <$> bucket_list d) ++ tbuf ++ out0)
      end
  end.

(** [buffer_layer_delete] on every dropped bucket, its result ignored. *)
Fixpoint delete_buckets (c : bcache) (us : list uuid) : bcache * list ocall :=
  match us with
  | [] => (c, [])
  | u :: us' =>
      let '(c, _, t) := buffer_layer_delete c u reply_ok in
      let '(c, t') := delete_buckets c us' in (c, t ++ t')
  end.

Definition dirnode_store (d : nexus_dirnode) (h : dheap) (version : Z) (mv : option mac_and_version)
    (c : bcache) (es : list bucket_env) (env : put_env)
    : option (nexus_dirnode * bcache * Z * option mac * list ocall) :=
  let '(d, gone) := delete_empty_dirnode_buckets d in
  let '(c, t0) := delete_buckets c gone in
  b0 ← head (bucket_list d);
  let size := get_bucket0_size d b0 in
  '(d, c, ret, t1, buf) ← dirnode_serialize d h c mv es size;
  if negb (ret =? 0) then Some (d, c, ret, None, t0 ++ t1)
  else if size <? Z.of_nat (length buf) then None
  else
    let content := buf ++ replicate (Z.to_nat size - length buf) 0 in
    '(_, c, ret, m, t2) ← nexus_crypto_buf_put volumekey
                            (nexus_crypto_buf_new content version (my_uuid d)) c env;
    if negb (ret =? 0) then Some (d, c, ret, m, t0 ++ t1 ++ t2)
    else Some (dirnode_set_clean d, c, 0, m, t0 ++ t1 ++ t2).
End persist.

(** ** The codecs *)
Section codecs.
Implicit Types (r : dir_rec) (b : dir_bucket) (rest : bytes).

Definition dir_rec_hdr r : bytes :=
  le_encode 2 (rec_len r) ++ le_encode 4 (dirent_type_val (dr_type r)) ++ link_uuid r ++
  le_encode 2 (name_len r).

Lemma length_dir_rec_hdr r : rec_ok r -> length (dir_rec_hdr r) = 24%nat.
Proof.
  intros [_ _ _ [Hu _]]. unfold dir_rec_hdr. by rewrite !length_app, !length_le_encode, Hu.
Qed.

(** What is written of an entry: the header, the name and one NUL. *)
Lemma serialize_dir_entry_eq r :
  rec_ok r -> serialize_dir_entry r = dir_rec_hdr r ++ dr_name r ++ [0].
Proof.
  intros Hr. pose proof (length_dir_rec_hdr r Hr) as Hh. destruct Hr as [[_ Hn] Hnl Hrl _].
  unfold serialize_dir_entry.
  assert (Hs : dir_rec_struct r = (dir_rec_hdr r ++ dr_name r ++ [0]) ++ replicate (255 - length (dr_name r)) 0).
  { unfold dir_rec_struct, dir_rec_hdr. rewrite <- !app_assoc. do 5 f_equal.
    replace (256 - length (dr_name r))%nat with (S (255 - length (dr_name r))) by lia. done. }
  rewrite Hs. apply take_app_length'. rewrite !length_app, Hh. simpl. lia.
Qed.

Lemma length_serialize_dir_entry r :
  rec_ok r -> Z.of_nat (length (serialize_dir_entry r)) = rec_len r.
Proof.
  intros Hr. rewrite serialize_dir_entry_eq by done. pose proof (length_dir_rec_hdr r Hr) as Hh.
  destruct Hr as [_ Hnl Hrl _]. rewrite !length_app, Hh. simpl. lia.
Qed.

Lemma parse_serialize_entry r rest :
  rec_ok r -> parse_dir_entry (serialize_dir_entry r ++ rest) = Some (r, rest).
Proof.
  intros Hr. pose proof (length_serialize_dir_entry r Hr) as Hl. pose proof (rec_ok_bound r Hr) as Hb.
  unfold parse_dir_entry.
  assert (Hpeek : dec_uint 2 (serialize_dir_entry r ++ rest) =
    Some (rec_len r, drop 2 (serialize_dir_entry r ++ rest))).
  { rewrite serialize_dir_entry_eq by done. unfold dir_rec_hdr. rewrite <- !app_assoc.
    by rewrite dec_uint_app by (unfold in_range; lia). }
  rewrite Hpeek. cbn [mbind option_bind]. unfold DIR_REC_SIZE.
  rewrite (proj2 (Z.ltb_ge _ _)) by lia. rewrite dec_bytes_app by lia. cbn [mbind option_bind].
  rewrite serialize_dir_entry_eq by done. unfold dir_rec_of_struct, dir_rec_hdr. rewrite <- !app_assoc.
  destruct Hr as [[Hc Hn] Hnl Hrl [Hu _]]. pose proof (dirent_type_val_range (dr_type r)).
  rewrite dec_uint_app by (unfold in_range; lia). cbn [mbind option_bind].
  rewrite dec_uint_app by (unfold in_range; lia). cbn [mbind option_bind].
  rewrite dec_bytes_app by done. cbn [mbind option_bind].
  rewrite dec_uint_app by (unfold in_range; lia). cbn [mbind option_bind].
  rewrite dirent_type_of_val. cbn [mbind option_bind app].
  rewrite cstr_app_nul by done. by destruct r.
Qed.

(** What fits a bucket record. *)
Definition bucket_rec_ok b : Prop :=
  in_range 32 (num_items b) /\ in_range 32 (size_bytes b) /\ length (b_uuid b) = 16%nat /\
  length (b_mac b) = 16%nat.

(** The bucket a record is loaded into, before its entries. *)
Definition blank_bucket (addr : Z) b : dir_bucket :=
  {| b_addr := addr; is_dirty := false; on_disk := false; capacity := BUCKET_CAPACITY;
     num_items := num_items b; size_bytes := size_bytes b; b_uuid := b_uuid b; b_mac := b_mac b;
     dir_entries := [] |}.

Fixpoint blank_buckets (addr : Z) (bs : list dir_bucket) : list dir_bucket :=
  match bs with [] => [] | b :: bs' => blank_bucket addr b :: blank_buckets (addr + 1) bs' end.

Lemma length_bucket_to_record b : bucket_rec_ok b -> length (bucket_to_record b) = 40%nat.
Proof.
  intros (_ & _ & Hu & Hm). unfold bucket_to_record. by rewrite !length_app, !length_le_encode, Hu, Hm.
Qed.

Lemma bucket_record_roundtrip b addr rest :
  bucket_rec_ok b ->
  bucket_from_record addr BUCKET_CAPACITY (bucket_to_record b ++ rest) = Some (blank_bucket addr b, rest).
Proof.
  intros (Hn & Hs & Hu & Hm). unfold bucket_from_record, bucket_to_record. rewrite <- !app_assoc.
  do 4 dec_step. done.
Qed.

Lemma parse_records_roundtrip bs h rest :
  Forall bucket_rec_ok bs ->
  parse_bucket_records (length bs) h (concat (bucket_to_record <$> bs) ++ rest)
  = Some (blank_buckets (next_addr h) bs,
          {| cells := cells h; next_addr := next_addr h + Z.of_nat (length bs) |}, rest).
Proof.
  intros Hok. revert h. induction Hok as [|b bs Hb _ IH]; intros h.
  - destruct h. simpl. by rewrite Z.add_0_r.
  - cbn [length parse_bucket_records fmap list_fmap concat]. rewrite <- app_assoc. unfold dec_bind at 1.
    rewrite bucket_record_roundtrip by done. unfold dec_bind at 1.
    change (list_fmap _ _ bucket_to_record bs) with (bucket_to_record <$> bs). rewrite IH.
    unfold dec_ret. cbn [fst snd cells next_addr blank_buckets]. do 3 f_equal. f_equal. lia.
Qed.

(** Links short enough for the 8-bit length of their struct. *)
Definition symlink_ok (s : symlink_entry) : Prop :=
  cstr_ok (target_path s) /\ length (sl_uuid s) = 16%nat /\
  target_len s = Z.of_nat (length (target_path s)) /\ total_len s = target_len s + 20 /\ total_len s < 256.

Lemma symlink_roundtrip s rest :
  symlink_ok s -> parse_symlink (serialize_symlink s ++ rest) = Some (s, rest).
Proof.
  intros (Hc & Hu & Hl & Ht & Hb).
  assert (Hs : serialize_symlink s =
    le_encode 1 (total_len s) ++ sl_uuid s ++ le_encode 2 (target_len s) ++ target_path s ++ [0]).
  { unfold serialize_symlink. apply take_ge. rewrite !length_app, !length_le_encode, Hu. simpl. lia. }
  assert (Hlen : length (serialize_symlink s) = Z.to_nat (total_len s)).
  { rewrite Hs, !length_app, !length_le_encode, Hu. simpl. lia. }
  unfold parse_symlink.
  assert (Hpeek : exists tl, dec_uint 1 (serialize_symlink s ++ rest) = Some (total_len s, tl)).
  { rewrite Hs, <- !app_assoc. eexists. apply dec_uint_app. unfold in_range. simpl. lia. }
  destruct Hpeek as [tl ->]. cbn [mbind option_bind]. rewrite dec_bytes_app by done. cbn [mbind option_bind].
  rewrite Hs. rewrite dec_uint_app by (unfold in_range; simpl; lia). cbn [mbind option_bind].
  rewrite dec_bytes_app by done. cbn [mbind option_bind].
  rewrite dec_uint_app by (unfold in_range; simpl; lia). cbn [mbind option_bind].
  rewrite cstr_app_nul by done. by destruct s.
Qed.
End codecs.

#[export] Instance symlink_codec : Codec symlink_entry :=
  {| enc := serialize_symlink; dec := parse_symlink; enc_ok := symlink_ok; dec_enc := symlink_roundtrip |}.

(** ** The indexes of a dirnode, without its buckets *)
Record idx_inv (C : cellmap) (nx : Z) (d : nexus_dirnode) (gn : gmap bytes Z) (gu : gmap uuid Z)
    : Prop := {
  ix_names : hm_repr strhash name_ok (filename_hashmap d) gn;
  ix_uuids : hm_repr memhash uuid_ok (fileuuid_hashmap d) gu;
  ix_nodup : NoDup (dirents_list d);
  ix_dom : forall a, a ∈ dirents_list d <-> exists n, gn !! n = Some a;
  ix_cell : forall n a, gn !! n = Some a ->
    0 < a < nx /\ exists de, C !! a = Some de /\ dr_name (de_rec de) = n /\ rec_ok (de_rec de);
  ix_ucell : forall u a, gu !! u = Some a ->
    a ∈ dirents_list d /\ exists de, C !! a = Some de /\ link_uuid (de_rec de) = u;
  ix_sizes : size gn = length (dirents_list d) /\ (size gu <= length (dirents_list d))%nat
}.

Definition empty_rec : dir_rec := mk_dir_rec 0 NEXUS_REG [] 0 [].
Definition rec_at (C : cellmap) (a : Z) : dir_rec :=
  match C !! a with Some de => de_rec de | None => empty_rec end.
Definition rec_link (r : dir_rec) : bytes * (nexus_dirent_type * uuid) :=
  (dr_name r, (dr_type r, link_uuid r)).

(** The dirnode's indexes hold exactly the records [rs], in this order. *)
Definition indexed (h : dheap) (d : nexus_dirnode) (rs : list dir_rec) : Prop :=
  0 < next_addr h /\ exists gn gu, idx_inv (cells h) (next_addr h) d gn gu /\
    rec_at (cells h) <$> dirents_list d = rs.

(** [d'] is [d] with other indexes. *)
Definition reindexed (d d' : nexus_dirnode) : Prop :=
  exists l fn fu, d' = with_index d l fn fu (dir_entry_count d) (dir_entry_buflen d).

Section index.
Implicit Types (C : cellmap) (d : nexus_dirnode) (h : dheap) (r : dir_rec) (rs : list dir_rec)
  (b : dir_bucket) (rest : bytes).

Lemma idx_of_dn C nx d gn gu : dn_inv C nx d gn gu -> idx_inv C nx d gn gu.
Proof.
  intros Hi. pose proof (dn_size_names _ _ _ _ _ Hi). pose proof (dn_size_uuids _ _ _ _ _ Hi).
  by destruct Hi; split.
Qed.

Lemma rec_len_rec_at C a : rec_len_at C a = rec_len (rec_at C a).
Proof. unfold rec_len_at, rec_at. by destruct (C !! a). Qed.

Lemma sum_rec_recs C (l : list Z) : sum_rec C l = foldr (fun r acc => rec_len r + acc) 0 (rec_at C <$> l).
Proof. induction l as [|a l IH]; [done|]. simpl. by rewrite rec_len_rec_at, IH. Qed.

Lemma rec_at_insert C a de : rec_at (<[a := de]> C) a = de_rec de.
Proof. unfold rec_at. by rewrite lookup_insert_eq. Qed.

Lemma recs_frame C C' (l : list Z) :
  (forall a, a ∈ l -> C' !! a = C !! a) -> rec_at C' <$> l = rec_at C <$> l.
Proof.
  intros Hf. apply list_fmap_ext. intros i a Ha. unfold rec_at.
  by rewrite (Hf a) by (by eapply list_elem_of_lookup_2).
Qed.

Lemma idx_entry C nx d gn gu a :
  idx_inv C nx d gn gu -> a ∈ dirents_list d ->
  0 < a < nx /\ gn !! dr_name (rec_at C a) = Some a /\ rec_ok (rec_at C a) /\ is_Some (C !! a).
Proof.
  intros Hi [n Hn]%(ix_dom _ _ _ _ _ Hi). destruct (ix_cell _ _ _ _ _ Hi _ _ Hn) as (Hb & de & Hc & <- & Hr).
  unfold rec_at. rewrite Hc. split; [done|]. split; [done|]. eauto.
Qed.

(** A name no record has is not indexed. *)
Lemma idx_fresh C nx d gn gu n :
  idx_inv C nx d gn gu -> n ∉ dr_name <$> (rec_at C <$> dirents_list d) -> gn !! n = None.
Proof.
  intros Hi Hn. destruct (gn !! n) as [a|] eqn:Ha; [|done]. exfalso. apply Hn.
  destruct (ix_cell _ _ _ _ _ Hi _ _ Ha) as (_ & de & Hc & <- & _).
  rewrite <- list_fmap_compose. apply list_elem_of_fmap. exists a. simpl. unfold rec_at. rewrite Hc.
  split; [done|]. apply (ix_dom _ _ _ _ _ Hi). eauto.
Qed.

(** The view, the names and the records of an indexed dirnode. *)
Lemma idx_records C nx d gn gu (l : list Z) :
  idx_inv C nx d gn gu -> l ≡ₚ dirents_list d ->
  view C gn = list_to_map (rec_link <$> (rec_at C <$> l)) /\
  NoDup (dr_name <$> (rec_at C <$> l)) /\ Forall rec_ok (rec_at C <$> l).
Proof.
  intros Hi Hp.
  assert (Hin : forall a, a ∈ l -> a ∈ dirents_list d) by (intros a; by rewrite Hp).
  assert (Hnd : NoDup (dr_name <$> (rec_at C <$> l))).
  { rewrite <- list_fmap_compose. apply NoDup_fmap_2_strong; [|rewrite Hp; apply Hi].
    intros a a' Ha Ha' Heq. simpl in Heq.
    destruct (idx_entry _ _ _ _ _ _ Hi (Hin _ Ha)) as (_ & H1 & _).
    destruct (idx_entry _ _ _ _ _ _ Hi (Hin _ Ha')) as (_ & H2 & _). rewrite Heq in H1. congruence. }
  split; [|split; [done|]].
  - assert (Hnd' : NoDup (rec_link <$> (rec_at C <$> l)).*1) by (by rewrite <- list_fmap_compose).
    apply map_eq. intros n. rewrite view_lookup. destruct (gn !! n) as [a|] eqn:Ha; simpl.
    + symmetry. destruct (ix_cell _ _ _ _ _ Hi _ _ Ha) as (_ & de & Hc & Hn & _).
      unfold link_of. rewrite Hc. simpl. apply elem_of_list_to_map_1; [done|].
      rewrite <- list_fmap_compose. apply list_elem_of_fmap. exists a. simpl. unfold rec_at, rec_link.
      rewrite Hc, Hn. split; [done|]. rewrite Hp. apply (ix_dom _ _ _ _ _ Hi). eauto.
    + symmetry. apply not_elem_of_list_to_map_1. rewrite <- list_fmap_compose.
      intros (r & Hr & (a & -> & Hal)%list_elem_of_fmap)%list_elem_of_fmap.
      destruct (idx_entry _ _ _ _ _ _ Hi (Hin _ Hal)) as (_ & H1 & _). simpl in Hr. subst n. congruence.
  - apply Forall_fmap, Forall_forall. intros a Ha. by apply (idx_entry _ _ _ _ _ _ Hi (Hin _ Ha)).
Qed.

(** One more record, at a new address. *)
Lemma idx_add C nx d gn gu r p :
  idx_inv C nx d gn gu -> 0 < nx -> rec_ok r -> gn !! dr_name r = None ->
  Z.of_nat (length (dirents_list d)) < 2 ^ 29 ->
  idx_inv (<[nx := {| de_bucket := p; de_rec := r |}]> C) (nx + 1) (dirnode_index_direntry d nx r)
    (<[dr_name r := nx]> gn) (<[link_uuid r := nx]> gu).
Proof.
  intros Hi Hnx Hr Hg Hsz. destruct (ix_sizes _ _ _ _ _ Hi) as [Hs1 Hs2].
  assert (Hni : nx ∉ dirents_list d) by (intros Hx; apply (idx_entry _ _ _ _ _ _ Hi) in Hx as [? _]; lia).
  assert (HC : forall x, x ∈ dirents_list d -> <[nx := {| de_bucket := p; de_rec := r |}]> C !! x = C !! x).
  { intros x Hx. apply lookup_insert_ne. by intros <-. }
  split; cbn -[Z.of_nat].
  - apply (repr_put _ _ name_ok name_cmp_eq); [apply Hi|apply Hr| |lia].
    intros n' Hn'. exfalso. apply Hni, (ix_dom _ _ _ _ _ Hi). eauto.
  - apply (repr_put _ _ uuid_ok uuid_compare_eq); [apply Hi|apply Hr| |lia].
    intros u' Hu'. exfalso. apply Hni. by eapply (ix_ucell _ _ _ _ _ Hi).
  - apply NoDup_app. split; [apply Hi|]. split; [|apply NoDup_singleton].
    intros x Hx ->%list_elem_of_singleton. done.
  - intros x. rewrite elem_of_app, list_elem_of_singleton, (ix_dom _ _ _ _ _ Hi). split.
    + intros [[n Hn]| ->]; [exists n|exists (dr_name r); apply lookup_insert_eq].
      rewrite lookup_insert_ne; [done|]. by intros <-; rewrite Hg in Hn.
    + intros [n [[<- <-]|[Hne Hn]]%lookup_insert_Some]; eauto.
  - intros n x [[<- <-]|[Hne Hn]]%lookup_insert_Some.
    + split; [lia|]. eexists. by rewrite lookup_insert_eq.
    + rewrite HC by (apply (ix_dom _ _ _ _ _ Hi); eauto).
      destruct (ix_cell _ _ _ _ _ Hi _ _ Hn) as [? ?]. split; [lia|done].
  - intros u x [[<- <-]|[Hne Hn]]%lookup_insert_Some.
    + split; [apply elem_of_app; right; by apply list_elem_of_singleton|]. eexists. by rewrite lookup_insert_eq.
    + destruct (ix_ucell _ _ _ _ _ Hi _ _ Hn) as [Hin Hex]. split; [apply elem_of_app; by left|]. by rewrite HC.
  - rewrite length_app, map_size_insert_None by done. simpl. split; [lia|].
    rewrite map_size_insert. destruct (gu !! link_uuid r); simpl; lia.
Qed.
End index.

(** ** Loading buckets *)
Section loading.
Implicit Types (d : nexus_dirnode) (h : dheap) (rs : list dir_rec) (b : dir_bucket) (rest : bytes).

Lemma reindexed_refl d : reindexed d d.
Proof. exists (dirents_list d), (filename_hashmap d), (fileuuid_hashmap d). by destruct d. Qed.

Lemma reindexed_trans d1 d2 d3 : reindexed d1 d2 -> reindexed d2 d3 -> reindexed d1 d3.
Proof. intros (l & fn & fu & ->) (l' & fn' & fu' & ->). by exists l', fn', fu'. Qed.

(** What a load of entries adds to the heap: cells at the next addresses,
    owned by the bucket at [addr]. *)
Definition heap_extends h h' (addr : Z) rs : Prop :=
  next_addr h' = next_addr h + Z.of_nat (length rs) /\
  (forall x, x < next_addr h -> cells h' !! x = cells h !! x) /\
  (forall i r, rs !! i = Some r ->
     cells h' !! (next_addr h + Z.of_nat i) = Some {| de_bucket := Some addr; de_rec := r |}).

Lemma load_entries_spec rs b d h rs0 rest :
  indexed h d rs0 -> Forall rec_ok rs -> NoDup (dr_name <$> (rs0 ++ rs)) ->
  Z.of_nat (length rs0 + length rs) < 2 ^ 29 ->
  exists d' h', load_entries (length rs) b d h (concat (serialize_dir_entry <$> rs) ++ rest) =
      Some (bucket_with b (is_dirty b) (on_disk b) (b_mac b)
              (dir_entries b ++ seqZ (next_addr h) (Z.of_nat (length rs))), d', h', rest) /\
    indexed h' d' (rs0 ++ rs) /\ reindexed d d' /\ heap_extends h h' (b_addr b) rs /\
    dirents_list d' = dirents_list d ++ seqZ (next_addr h) (Z.of_nat (length rs)).
Proof.
  revert b d h rs0. induction rs as [|r rs IH]; intros b d h rs0 Hx Hok Hnd Hsz.
  - exists d, h. simpl. rewrite !app_nil_r. split; [by destruct b|]. split; [done|].
    split; [apply reindexed_refl|]. split; [|done]. split; [simpl; lia|]. split; [done|].
    intros i r Hr. by rewrite lookup_nil in Hr.
  - apply Forall_cons in Hok as [Hr Hok]. destruct Hx as (Hnx & gn & gu & Hi & Hrs).
    cbn [length load_entries fmap list_fmap concat]. rewrite <- app_assoc. unfold dec_bind at 1.
    rewrite parse_serialize_entry by done.
    change (list_fmap _ _ serialize_dir_entry rs) with (serialize_dir_entry <$> rs).
    set (a := next_addr h) in *. set (h1 := {| cells := _; next_addr := a + 1 |}).
    set (b1 := bucket_with b _ _ _ _). set (d1 := dirnode_index_direntry d a r).
    assert (Hld : length (dirents_list d) = length rs0) by (by rewrite <- Hrs, length_fmap).
    rewrite fmap_app, fmap_cons in Hnd.
    assert (Hfr : gn !! dr_name r = None).
    { apply (idx_fresh _ _ _ _ _ _ Hi). rewrite Hrs. intros Hin.
      apply NoDup_app in Hnd as (_ & Hdis & _). apply (Hdis _ Hin). left. }
    assert (Hx1 : indexed h1 d1 (rs0 ++ [r])).
    { split; [simpl; lia|]. eexists _, _. split; [apply (idx_add _ _ _ _ _ r (Some (b_addr b)) Hi); done || lia|].
      unfold d1. cbn. rewrite fmap_app. f_equal; [|by cbn; rewrite rec_at_insert].
      rewrite <- Hrs. apply recs_frame. intros x Hx. apply lookup_insert_ne.
      apply (idx_entry _ _ _ _ _ _ Hi) in Hx as [? _]. lia. }
    destruct (IH b1 d1 h1 (rs0 ++ [r]) Hx1 Hok) as (d' & h' & Hload & Hx' & Hre & (E1 & E2 & E3) & Hdl).
    { rewrite <- app_assoc, fmap_app. exact Hnd. }
    { rewrite length_app. simpl in *. lia. }
    assert (Hseq : seqZ a (Z.of_nat (S (length rs))) = a :: seqZ (a + 1) (Z.of_nat (length rs))).
    { rewrite seqZ_cons by lia. do 2 f_equal; lia. }
    exists d', h'. rewrite Hseq. split.
    { rewrite Hload. unfold b1. cbn. by rewrite <- app_assoc. }
    split; [by rewrite <- app_assoc in Hx'|]. split; [|split].
    + eapply reindexed_trans; [|exact Hre]. eexists _, _, _. done.
    + simpl in E1, E2, E3. split; [simpl; fold a; lia|]. split.
      * intros x Hx. rewrite E2 by (fold a in Hx; lia). simpl. apply lookup_insert_ne. fold a in Hx. lia.
      * intros [|i] r' Hr'; simpl in Hr'.
        { injection Hr' as <-. rewrite Z.add_0_r. fold a. rewrite E2 by lia. apply lookup_insert_eq. }
        { fold a. rewrite <- (E3 i r' Hr'). f_equal. lia. }
    + rewrite Hdl. unfold d1. cbn. by rewrite <- app_assoc.
Qed.

(** The addresses of the new cells lead to the records that were loaded. *)
Lemma heap_extends_recs h h' addr rs :
  heap_extends h h' addr rs -> rec_at (cells h') <$> seqZ (next_addr h) (Z.of_nat (length rs)) = rs.
Proof.
  intros (_ & _ & E). apply list_eq. intros i. rewrite list_lookup_fmap.
  destruct (decide (i < length rs)%nat) as [Hlt|Hge].
  - rewrite lookup_seqZ_lt by lia. simpl. destruct (lookup_lt_is_Some_2 rs i Hlt) as [r Hr].
    unfold rec_at. by rewrite (E i r Hr), Hr.
  - rewrite lookup_seqZ_ge by lia. symmetry. apply lookup_ge_None. lia.
Qed.

(** A bucket loaded from the records of the bucket [b0]. *)
Lemma loaded_bucket_ok C0 b0 h h' addr disk :
  bucket_ok C0 b0 -> heap_extends h h' addr (rec_at C0 <$> dir_entries b0) ->
  bucket_ok (cells h') (bucket_with (blank_bucket addr b0) false disk (b_mac b0)
    (seqZ (next_addr h) (Z.of_nat (length (dir_entries b0))))).
Proof.
  intros [H1 H2 H3 H4 H5] He. pose proof (heap_extends_recs _ _ _ _ He) as Hrec.
  destruct He as (_ & _ & E). rewrite length_fmap in Hrec. split; cbn -[Z.of_nat sum_rec].
  - rewrite length_seqZ. lia.
  - done.
  - done.
  - by rewrite sum_rec_recs, Hrec, H4, sum_rec_recs.
  - intros a (i & Hi)%list_elem_of_lookup. apply lookup_seqZ in Hi as [-> Hi].
    destruct (lookup_lt_is_Some_2 (rec_at C0 <$> dir_entries b0) i) as [r Hr]; [rewrite length_fmap; lia|].
    eexists. split; [by apply E|done].
Qed.
End loading.

(** The plaintext of a bucket's object. *)
Definition bucket_content (C : cellmap) (b : dir_bucket) : bytes :=
  concat (serialize_dir_entry <$> (rec_at C <$> dir_entries b)).

Section load_buckets.
Context `{BlockCipher} `{KeyWrapCipher}.
Variable volumekey : bytes.
Implicit Types (d : nexus_dirnode) (h : dheap) (b : dir_bucket) (c : bcache) (C : cellmap).

(** [r] answers a read with the object of the bucket [b]. *)
Definition bucket_served C b (r : bucket_reply) : Prop :=
  br_err r = 0 /\ exists data v, br_data r = Some data /\
    sealed volumekey (b_uuid b) v (bucket_content C b) data (b_mac b).

Lemma get_update_ne c u u' ts flags :
  u <> u' -> bcache_get (bcache_update c u ts flags) u' = bcache_get c u'.
Proof.
  intros Hne. unfold bcache_update. destruct (bcache_get c u); [by apply get_set_buf_ne|].
  unfold bcache_get. simpl. by apply lookup_insert_ne.
Qed.

Lemma load_one_bucket C0 b r addr d h c rs0 :
  bucket_ok C0 b -> bucket_served C0 b r -> bcache_get c (b_uuid b) = None -> indexed h d rs0 ->
  Forall rec_ok (rec_at C0 <$> dir_entries b) ->
  NoDup (dr_name <$> (rs0 ++ (rec_at C0 <$> dir_entries b))) ->
  Z.of_nat (length rs0 + length (dir_entries b)) < 2 ^ 29 ->
  exists d' h' t,
    bucket_load_from_uuid volumekey (blank_bucket addr b) d h c NEXUS_FREAD r =
      Some (bucket_with (blank_bucket addr b) false true (b_mac b)
              (seqZ (next_addr h) (Z.of_nat (length (dir_entries b)))),
            d', h', bcache_update c (b_uuid b) (br_ts r) NEXUS_FREAD, 0, Some (b_mac b), t) /\
    indexed h' d' (rs0 ++ (rec_at C0 <$> dir_entries b)) /\ reindexed d d' /\
    heap_extends h h' addr (rec_at C0 <$> dir_entries b) /\
    dirents_list d' = dirents_list d ++ seqZ (next_addr h) (Z.of_nat (length (dir_entries b))).
Proof.
  intros Hb (He & data & v & Hd & Hs) Hc Hx Hok Hnd Hsz.
  unfold bucket_load_from_uuid, nexus_crypto_buf_create, buffer_layer_get.
  cbn [b_uuid blank_bucket]. rewrite Hc, He, Hd. cbn [negb Z.eqb].
  destruct (get_update c (b_uuid b) (br_ts r) NEXUS_FREAD) as (m & Hm & Hfl & _). rewrite Hm.
  unfold in_write_mode. rewrite Hfl, lock_mode_read.
  destruct (get_sealed volumekey (b_uuid b) v _ data (b_mac b)
    (mk_cbuf empty_ctx (external_version data) 0 (b_uuid b) (Some (ExtStore data)) None) Hs)
    as (cb & ->); [done..|]. cbn [mbind option_bind].
  destruct (load_entries_spec (rec_at C0 <$> dir_entries b) (blank_bucket addr b) d h rs0 [] Hx Hok Hnd)
    as (d' & h' & Hload & Hx' & Hre & Hext & Hdl); [by rewrite length_fmap|].
  rewrite length_fmap, app_nil_r in Hload. rewrite length_fmap in Hdl.
  unfold bucket_load_from_buffer. cbn [num_items blank_bucket].
  rewrite (bo_items _ _ Hb), Nat2Z.id. unfold bucket_content. rewrite Hload. cbn [mbind option_bind].
  eexists d', h', _. split; [done|]. done.
Qed.

Lemma load_other_spec C0 bs replies addr d h c rs0 :
  Forall (bucket_ok C0) bs -> Forall2 (bucket_served C0) bs replies -> NoDup (b_uuid <$> bs) ->
  Forall (fun b => bcache_get c (b_uuid b) = None) bs -> indexed h d rs0 ->
  Forall rec_ok (rec_at C0 <$> concat (dir_entries <$> bs)) ->
  NoDup (dr_name <$> (rs0 ++ (rec_at C0 <$> concat (dir_entries <$> bs)))) ->
  Z.of_nat (length rs0 + length (concat (dir_entries <$> bs))) < 2 ^ 29 ->
  exists bs' d' h' c' tr,
    load_other_buckets volumekey (blank_buckets addr bs) replies d h c = Some (bs', d', h', c', 0, tr) /\
    indexed h' d' (rs0 ++ (rec_at C0 <$> concat (dir_entries <$> bs))) /\ reindexed d d' /\
    dirents_list d' = dirents_list d ++ concat (dir_entries <$> bs') /\
    Forall (bucket_ok (cells h')) bs' /\ b_addr <$> bs' = b_addr <$> blank_buckets addr bs /\
    next_addr h <= next_addr h' /\ (forall x, x < next_addr h -> cells h' !! x = cells h !! x).
Proof.
  intros Hbok Hserved. revert addr d h c rs0.
  induction Hserved as [|b r bs replies Hb _ IH]; intros addr d h c rs0 Hnd Hc Hx Hok Hnm Hsz.
  - exists [], d, h, c, []. simpl. rewrite !app_nil_r. split_and!; try done. apply reindexed_refl.
  - apply Forall_cons in Hbok as [Hbo Hbok]. apply Forall_cons in Hc as [Hcb Hc].
    rewrite fmap_cons in Hnd. apply NoDup_cons in Hnd as [Hub Hnd].
    rewrite fmap_cons in Hok, Hnm, Hsz |- *. cbn [concat] in *. rewrite fmap_app in Hok, Hnm |- *.
    apply Forall_app in Hok as [Hok1 Hok]. rewrite app_assoc in Hnm. rewrite length_app in Hsz.
    destruct (load_one_bucket C0 b r addr d h c rs0 Hbo Hb Hcb Hx Hok1)
      as (d1 & h1 & t & Hload & Hx1 & Hre1 & Hext & Hdl1).
    { rewrite fmap_app in Hnm. by apply NoDup_app in Hnm as (? & _). } { lia. }
    destruct (IH Hbok (addr + 1) d1 h1 (bcache_update c (b_uuid b) (br_ts r) NEXUS_FREAD)
                (rs0 ++ (rec_at C0 <$> dir_entries b)) Hnd)
      as (bs' & d' & h' & c' & tr & Hload' & Hx' & Hre' & Hdl' & Hbok' & Hadr & Hnx & Hfr).
    { apply Forall_forall. intros b' Hb'. rewrite get_update_ne.
      - rewrite Forall_forall in Hc. by apply Hc.
      - intros Heq. apply Hub. rewrite Heq. by apply list_elem_of_fmap_2. }
    { done. } { done. } { done. } { rewrite length_app, length_fmap. lia. }
    cbn [blank_buckets load_other_buckets]. rewrite Hload. cbn [mbind option_bind Z.eqb negb b_mac bucket_with default].
    unfold nexus_mac_compare. rewrite (proj2 (memcmp_eq _ _ eq_refl) eq_refl). cbn [Z.eqb negb].
    rewrite Hload'. cbn [mbind option_bind]. do 5 eexists. split; [done|].
    split; [by rewrite <- app_assoc in Hx'|]. split; [by eapply reindexed_trans|].
    pose proof Hext as (Hn1 & Hf1 & _). rewrite fmap_cons. cbn [concat dir_entries bucket_with].
    split; [by rewrite Hdl', Hdl1, app_assoc|]. split; [|split; [|split]].
    + constructor; [|done]. eapply bucket_ok_frame; [|by eapply loaded_bucket_ok].
      intros a Ha. apply Hfr. rewrite Hn1, length_fmap. cbn [dir_entries bucket_with] in Ha.
      apply elem_of_seqZ in Ha. lia.
    + rewrite !fmap_cons. by f_equal.
    + lia.
    + intros x Hlt. rewrite Hfr by lia. by apply Hf1.
Qed.
End load_buckets.

(** ** Storing buckets *)
(** What the store holds after a trace of calls. *)
Fixpoint apply_trace (disk : gmap uuid bytes) (t : list ocall) : gmap uuid bytes :=
  match t with
  | [] => disk
  | ocall_buffer_put u data _ :: t' => apply_trace (<[u := data]> disk) t'
  | ocall_buffer_del u :: t' => apply_trace (delete u disk) t'
  | _ :: t' => apply_trace disk t'
  end.

Lemma apply_trace_app disk t t' : apply_trace disk (t ++ t') = apply_trace (apply_trace disk t) t'.
Proof. revert disk. induction t as [|[] t IH]; intros disk; simpl; auto. Qed.

(** No one holds the buffer at [u]. *)
Definition free_buffer (c : bcache) (u : uuid) : Prop :=
  match bcache_get c u with
  | Some m => in_write_mode m = false /\ writers m = 0 /\ write_lock m = false
  | None => True
  end.

(** The store goes along, and the enclave has memory and randomness. *)
Definition put_ok (env : put_env) : Prop :=
  failed (pe_reply env) = false /\ key_ok (pe_draw env).1 /\ key_ok (pe_draw env).2 /\
  is_Some (pe_heap env).
Definition benv_ok (e : bucket_env) : Prop := failed (be_lock e) = false /\ put_ok (be_put e).

Lemma not_failed r : failed r = false -> r = reply_ok.
Proof.
  destruct r as [e t]. unfold failed. simpl. intros [He Ht]%orb_false_iff.
  apply negb_false_iff, Z.eqb_eq in He, Ht. by subst.
Qed.

Lemma lock_free c u flags :
  free_buffer c u -> nexus_io_in_lock_mode flags = true ->
  exists c', buffer_layer_lock c u flags reply_ok = (c', 0, [ocall_buffer_lock u flags]) /\
    one_writer c' u /\ forall u', u <> u' -> bcache_get c' u' = bcache_get c u'.
Proof.
  intros Hf Hm. unfold buffer_layer_lock, free_buffer, bcache_update in *. cbn [failed reply_ok r_err r_ret].
  assert (Hone : forall c1 m1, mb_flags m1 = flags -> writers m1 = 0 -> write_lock m1 = false ->
    one_writer (set_buf c1 u (with_writers m1 (s32 (writers m1 + 1)))) u).
  { intros c1 m1 E1 E2 E3. eexists. split; [apply get_set_buf|]. unfold in_write_mode. simpl.
    rewrite E1, E2, E3. by split_and!. }
  destruct (bcache_get c u) as [m|] eqn:E.
  - destruct Hf as (Hw & Hn & Hl). rewrite Hw. cbn [failed r_err r_ret negb orb Z.eqb].
    rewrite get_set_buf. unfold in_write_mode at 1. cbn [mb_flags metadata_buf_update]. rewrite Hm.
    eexists. split; [done|]. split; [by apply Hone|]. intros u' Hne. by rewrite !get_set_buf_ne.
  - cbn [negb orb Z.eqb]. unfold bcache_get at 1. cbn [buffer_cache]. rewrite lookup_insert_eq.
    unfold in_write_mode at 1. cbn [mb_flags metadata_buf_update]. rewrite Hm.
    eexists. split; [done|]. split; [by apply Hone|]. intros u' Hne. rewrite get_set_buf_ne by done.
    unfold bcache_get. simpl. by apply lookup_insert_ne.
Qed.

Section store_buckets.
Implicit Types (C : cellmap) (b : dir_bucket) (h : dheap) (c : bcache).

Lemma serialize_entries_eq C l :
  (forall a, a ∈ l -> is_Some (C !! a)) ->
  serialize_entries C l = Some (concat (serialize_dir_entry <$> (rec_at C <$> l))).
Proof.
  induction l as [|a l IH]; intros Hl; [done|]. simpl. destruct (Hl a) as [de Hde]; [left|].
  unfold rec_at at 1. rewrite Hde. simpl. rewrite IH; [done|]. intros x Hx. apply Hl. by right.
Qed.

Lemma length_entries rs :
  Forall rec_ok rs ->
  Z.of_nat (length (concat (serialize_dir_entry <$> rs))) = foldr (fun r acc => rec_len r + acc) 0 rs.
Proof.
  induction 1 as [|r rs Hr _ IH]; [done|]. rewrite fmap_cons. cbn [concat foldr].
  rewrite length_app, Nat2Z.inj_add, IH, length_serialize_dir_entry by done. done.
Qed.

Lemma bucket_cells C b a : bucket_ok C b -> a ∈ dir_entries b -> is_Some (C !! a).
Proof. intros Hb Ha. destruct (bo_back _ _ Hb a Ha) as (de & Hde & _). eauto. Qed.

Lemma length_bucket_content C b :
  bucket_ok C b -> Forall rec_ok (rec_at C <$> dir_entries b) ->
  Z.of_nat (length (bucket_content C b)) = size_bytes b.
Proof.
  intros Hb Hok. unfold bucket_content. rewrite length_entries by done.
  by rewrite (bo_size _ _ Hb), sum_rec_recs.
Qed.

Lemma bucket_serialize_eq b h :
  bucket_ok (cells h) b ->
  bucket_serialize b h =
    Some (bucket_with b false (on_disk b) (b_mac b) (dir_entries b), bucket_content (cells h) b).
Proof.
  intros Hb. unfold bucket_serialize. rewrite serialize_entries_eq; [done|].
  intros a. by apply bucket_cells.
Qed.

Context `{BlockCipher} `{KeyWrapCipher}.
Variable volumekey : bytes.

Lemma bucket_store_spec b h c e :
  bucket_ok (cells h) b -> Forall rec_ok (rec_at (cells h) <$> dir_entries b) -> size_bytes b < 2 ^ 31 ->
  free_buffer c (b_uuid b) -> benv_ok e ->
  exists c' data m flags, bucket_store volumekey b h c e =
      Some (bucket_with b false true m (dir_entries b), c', 0,
            [ocall_buffer_lock (b_uuid b) flags; ocall_buffer_put (b_uuid b) data 0]) /\
    sealed volumekey (b_uuid b) 1 (bucket_content (cells h) b) data m /\
    forall u, b_uuid b <> u -> bcache_get c' u = bcache_get c u.
Proof.
  intros Hb Hok Hsz Hfree (Hlk & Hput & Hk1 & Hk2 & mem & Hmem). unfold bucket_store.
  rewrite (not_failed _ Hlk). set (flags := if on_disk b then NEXUS_FWRITE else NEXUS_FCREATE).
  destruct (lock_free c (b_uuid b) flags Hfree) as (c1 & -> & Hone & Hfr1); [by unfold flags; destruct (on_disk b)|].
  cbn [negb Z.eqb]. rewrite bucket_serialize_eq by (by destruct Hb; split). cbn [mbind option_bind].
  change (bucket_content (cells h) (bucket_with b _ _ _ _)) with (bucket_content (cells h) b).
  pose proof (length_bucket_content _ _ Hb Hok) as Hlen. cbn [size_bytes bucket_with b_uuid].
  rewrite Hlen, Z.ltb_irrefl.
  replace (Z.to_nat (size_bytes b) - length (bucket_content (cells h) b))%nat with 0%nat by lia.
  cbn [replicate]. rewrite app_nil_r.
  destruct (put_new_spec volumekey c1 (b_uuid b) (bucket_content (cells h) b) 0 (be_put e) mem 0 Hone)
    as (cb & c2 & data & m & Hs & Hp & _ & _ & Hfr2); [done|done|done|lia|done|].
  change (nexus_crypto_buf_set_datasize (nexus_crypto_buf_new ?p ?v ?u) 0)
    with (nexus_crypto_buf_new p v u) in Hp. rewrite Hp, Hput. cbn [mbind option_bind Z.eqb default].
  exists c2, data, m, flags. split; [done|]. split; [done|].
  intros u Hu. rewrite Hfr2 by done. by apply Hfr1.
Qed.

(** The store holds the bucket, under the MAC its record pins. *)
Definition on_store (disk : gmap uuid bytes) C b : Prop :=
  exists data v, disk !! b_uuid b = Some data /\
    sealed volumekey (b_uuid b) v (bucket_content C b) data (b_mac b).

(** [b'] is [b] after a flush: clean, and on the store. *)
Definition flushed (disk : gmap uuid bytes) C b b' : Prop :=
  exists od m, b' = bucket_with b false od m (dir_entries b) /\ on_store disk C b'.

Lemma flushed_frame disk disk' C b b' :
  disk' !! b_uuid b = disk !! b_uuid b -> flushed disk C b b' -> flushed disk' C b b'.
Proof.
  intros Hd (od & m & -> & data & v & Hl & Hs). exists od, m. split; [done|]. exists data, v.
  split; [|done]. simpl in *. by rewrite Hd.
Qed.

Lemma store_other_spec bs h c es disk :
  Forall (bucket_ok (cells h)) bs ->
  Forall (fun b => Forall rec_ok (rec_at (cells h) <$> dir_entries b)) bs ->
  Forall (fun b => size_bytes b < 2 ^ 31) bs -> NoDup (b_uuid <$> bs) ->
  Forall (fun b => free_buffer c (b_uuid b)) bs ->
  Forall (fun b => is_dirty b = false -> on_store disk (cells h) b) bs ->
  Forall benv_ok es -> (length bs <= length es)%nat ->
  exists bs' c' tr, store_other_buckets volumekey bs h c es = Some (bs', c', 0, tr) /\
    Forall2 (flushed (apply_trace disk tr) (cells h)) bs bs' /\
    forall u, u ∉ b_uuid <$> bs ->
      bcache_get c' u = bcache_get c u /\ apply_trace disk tr !! u = disk !! u.
Proof.
  intros Hbok Hrok. revert c es disk Hrok.
  induction Hbok as [|b bs Hb _ IH]; intros c es disk Hrok Hsz Hnd Hfree Hdisk Hes Hlen.
  { exists [], c, []. simpl. by split_and!. }
  destruct es as [|e es]; [simpl in Hlen; lia|].
  apply Forall_cons in Hrok as [Hr Hrok], Hsz as [Hs Hsz], Hfree as [Hf Hfree],
    Hdisk as [Hd Hdisk], Hes as [He Hes].
  rewrite fmap_cons in Hnd. apply NoDup_cons in Hnd as [Hub Hnd].
  assert (Hne : forall b', b' ∈ bs -> b_uuid b <> b_uuid b').
  { intros b' Hb' Heq. apply Hub. rewrite Heq. by apply list_elem_of_fmap_2. }
  assert (Hstep : exists b1 c1 t1,
    (if negb (is_dirty b) then Some (b, c, 0, []) else bucket_store volumekey b h c e)
      = Some (b1, c1, 0, t1) /\
    flushed (apply_trace disk t1) (cells h) b (bucket_with b1 false (on_disk b1) (b_mac b1) (dir_entries b1)) /\
    forall u, b_uuid b <> u -> bcache_get c1 u = bcache_get c u /\ apply_trace disk t1 !! u = disk !! u).
  { destruct (is_dirty b) eqn:Edty; cbn [negb].
    - destruct (bucket_store_spec b h c e Hb Hr Hs Hf He) as (c1 & data & m & flags & -> & Hsl & Hfr).
      do 3 eexists. split; [done|]. split.
      + exists true, m. split; [done|]. exists data, 1. simpl. by rewrite lookup_insert_eq.
      + intros u Hu. split; [by apply Hfr|]. simpl. by apply lookup_insert_ne.
    - do 3 eexists. split; [done|]. split; [|done]. exists (on_disk b), (b_mac b). split; [done|].
      by apply Hd. }
  destruct Hstep as (b1 & c1 & t1 & Hst & Hfl & Hfr). cbn [store_other_buckets]. rewrite Hst.
  cbn [mbind option_bind negb Z.eqb].
  destruct (IH c1 es (apply_trace disk t1) Hrok Hsz Hnd) as (bs' & c' & tr & -> & Hfl' & Hfr').
  - rewrite Forall_forall in Hfree |- *. intros b' Hb'. unfold free_buffer.
    rewrite (proj1 (Hfr _ (Hne _ Hb'))). by apply Hfree.
  - rewrite Forall_forall in Hdisk |- *. intros b' Hb' Hcl. destruct (Hdisk b' Hb' Hcl) as (data & v & Hl & ?).
    exists data, v. split; [|done]. by rewrite (proj2 (Hfr _ (Hne _ Hb'))).
  - done.
  - simpl in Hlen. lia.
  - cbn [mbind option_bind]. do 3 eexists. split; [done|]. rewrite apply_trace_app. split.
    + constructor; [|done]. eapply flushed_frame; [|exact Hfl]. by apply Hfr'.
    + intros u Hu. rewrite fmap_cons in Hu. apply not_elem_of_cons in Hu as [Hu1 Hu2].
      destruct (Hfr' u Hu2) as [-> ->]. apply Hfr. congruence.
Qed.
End store_buckets.

(** ** Loading a dirnode's image *)
Section load_image.
Context `{BlockCipher} `{KeyWrapCipher}.
Variable volumekey : bytes.
Implicit Types (d : nexus_dirnode) (h : dheap) (b : dir_bucket) (c : bcache) (C : cellmap)
  (disk : gmap uuid bytes).

(** What the fields of the header hold. *)
Record dir_header_ok d : Prop := {
  dh_my : length (my_uuid d) = 16%nat;
  dh_root : length (root_uuid d) = 16%nat;
  dh_scount : symlink_count d = Z.of_nat (length (symlink_list d));
  dh_sfit : in_range 32 (symlink_count d) /\ in_range 32 (symlink_buflen d);
  dh_links : Forall symlink_ok (symlink_list d);
  dh_buckets : Z.of_nat (length (bucket_list d)) < 2 ^ 16
}.

Definition blank_dirnode d : nexus_dirnode :=
  {| my_uuid := my_uuid d; root_uuid := root_uuid d; symlink_count := symlink_count d;
     symlink_buflen := symlink_buflen d; dir_entry_count := dir_entry_count d;
     dir_entry_buflen := dir_entry_buflen d; bucket_count := bucket_count d;
     last_failed_lookup := None; symlink_list := []; dirents_list := [];
     filename_hashmap := hashmap_init 16; fileuuid_hashmap := hashmap_init 16; bucket_list := [];
     dn_attribute_table := attribute_table_create; dn_metadata := None |}.

Lemma sum_rec_range C nx d gn gu (l : list Z) :
  idx_inv C nx d gn gu -> (forall a, a ∈ l -> a ∈ dirents_list d) ->
  0 <= sum_rec C l <= 280 * Z.of_nat (length l).
Proof.
  intros Hi. induction l as [|a l IH]; intros Hl; [done|]. cbn [sum_rec foldr length].
  fold (sum_rec C l). destruct (idx_entry _ _ _ _ _ a Hi) as (_ & _ & Hr & _); [apply Hl; left|].
  apply rec_ok_bound in Hr. rewrite rec_len_rec_at.
  assert (forall x, x ∈ l -> x ∈ dirents_list d) by (intros x Hx; apply Hl; by right).
  specialize (IH ltac:(done)). lia.
Qed.

Lemma length_partition C bs :
  Forall (bucket_ok C) bs ->
  Z.of_nat (length (concat (dir_entries <$> bs))) <= BUCKET_CAPACITY * Z.of_nat (length bs).
Proof.
  induction 1 as [|b bs Hb _ IH]; [simpl; lia|]. rewrite fmap_cons. cbn [concat length].
  rewrite length_app. destruct Hb as [H1 _ H2 _ _]. lia.
Qed.

(** A bucket count that fits its field bounds every other counter. *)
Lemma image_bounds C nx d gn gu :
  dn_inv C nx d gn gu -> Z.of_nat (length (bucket_list d)) < 2 ^ 16 ->
  0 <= dir_entry_count d <= 2 ^ 23 /\ in_range 32 (dir_entry_buflen d) /\
  bucket_count d = Z.of_nat (length (bucket_list d)) /\
  Forall (fun b => in_range 32 (num_items b) /\ 0 <= size_bytes b < 2 ^ 16) (bucket_list d).
Proof.
  intros Hi Hn. pose proof (idx_of_dn _ _ _ _ _ Hi) as Hx. pose proof (di_buckets _ _ _ _ _ Hi) as [_ _ Hp Hb].
  pose proof (length_partition _ _ Hb) as Hl. rewrite Hp in Hl. unfold BUCKET_CAPACITY in Hl.
  pose proof (sum_rec_range _ _ _ _ _ (dirents_list d) Hx ltac:(done)) as Hs.
  rewrite (di_count _ _ _ _ _ Hi), (di_buflen _ _ _ _ _ Hi), (di_bcount _ _ _ _ _ Hi).
  unfold in_range. split; [lia|]. split; [lia|]. split; [apply wrap_small; unfold in_range; lia|].
  rewrite Forall_forall in Hb |- *. intros b Hin. destruct (Hb b Hin) as [H1 _ H2 H4 _].
  assert (Hsub : forall a, a ∈ dir_entries b -> a ∈ dirents_list d).
  { intros a Ha. rewrite <- Hp. by eapply in_bucket_in_all. }
  pose proof (sum_rec_range _ _ _ _ _ _ Hx Hsub). unfold BUCKET_CAPACITY in H2. lia.
Qed.

Lemma parse_header_eq C nx d gn gu rest :
  dn_inv C nx d gn gu -> dir_header_ok d ->
  parse_dirnode_header (serialize_dirnode_header d ++ rest) = Some (blank_dirnode d, rest).
Proof.
  intros Hi [H1 H2 H3 [H4 H5] _ H6]. destruct (image_bounds _ _ _ _ _ Hi H6) as (B1 & B2 & B3 & _).
  unfold parse_dirnode_header, serialize_dirnode_header. rewrite <- !app_assoc.
  do 7 dec_step. done.
Qed.

Lemma blank_indexed h d t l sc sb :
  0 < next_addr h -> indexed h (with_dtable (with_symlinks (blank_dirnode d) l sc sb) t) [].
Proof.
  intros Hnx. split; [done|]. exists ∅, ∅. split; [|done].
  assert (Hr1 : hm_repr strhash name_ok (hashmap_init 16) ∅) by (by apply repr_init).
  assert (Hr2 : hm_repr memhash uuid_ok (hashmap_init 16) ∅) by (by apply repr_init).
  split; cbn -[hashmap_init]; try done.
  - apply NoDup_nil_2.
  - intros a. split; [by intros ?%not_elem_of_nil|]. intros [n Hn]. by rewrite lookup_empty in Hn.
Qed.

Lemma blank_addrs addr bs : b_addr <$> blank_buckets addr bs = seqZ addr (Z.of_nat (length bs)).
Proof.
  revert addr. induction bs as [|b bs IH]; intros addr; [done|].
  cbn [blank_buckets length]. rewrite fmap_cons, IH, (seqZ_cons addr) by lia. cbn [b_addr blank_bucket].
  f_equal. f_equal; lia.
Qed.

(** What the object of a dirnode holds, once its buckets are flushed. *)
Definition dir_image C d (tbuf : bytes) b0 : bytes :=
  serialize_dirnode_header d ++ concat (serialize_symlink <$> symlink_list d) ++
  concat (bucket_to_record <$> bucket_list d) ++ tbuf ++ bucket_content C b0.

(** The store answers a read at time [ts] with the object it holds. *)
Definition ask disk (ts : Z) (u : uuid) : bucket_reply := mk_breply 0 (disk !! u) ts.

Lemma length_dir_header d : dir_header_ok d -> length (serialize_dirnode_header d) = 50%nat.
Proof.
  intros [H1 H2 _ _ _ _]. unfold serialize_dirnode_header.
  by rewrite !length_app, !length_le_encode, H1, H2.
Qed.

Lemma served_by_store disk C bs ts :
  Forall (on_store volumekey disk C) bs ->
  Forall2 (bucket_served volumekey C) bs (ask disk ts <$> (b_uuid <$> bs)).
Proof.
  induction 1 as [|b bs (data & v & Hd & Hs) _ IH]; [constructor|]. rewrite !fmap_cons. constructor; [|done].
  split; [done|]. exists data, v. done.
Qed.

(** The invariant of a loaded dirnode, from its indexes and its buckets: the
    records [rs] it indexes are those of a well-formed dirnode [d]. *)
Lemma assemble_dir C nx d gn gu (l : list Z) d2 h2 bs :
  dn_inv C nx d gn gu -> l ≡ₚ dirents_list d -> indexed h2 d2 (rec_at C <$> l) ->
  dirents_list d2 = concat (dir_entries <$> bs) -> Forall (bucket_ok (cells h2)) bs -> bs <> [] ->
  NoDup (b_addr <$> bs) -> Forall (fun b => b_addr b < next_addr h2) bs ->
  length bs = length (bucket_list d) -> bucket_count d2 = bucket_count d ->
  dir_entry_count d2 = dir_entry_count d -> dir_entry_buflen d2 = dir_entry_buflen d ->
  last_failed_lookup d2 = None ->
  dir_repr h2 (with_buckets d2 bs (bucket_count d2)) (view C gn).
Proof.
  intros Hi Hl (Hnx & gn2 & gu2 & Hx & Hrec) Hdl Hok Hne Hnd Hbd Hlen Hbc Hec Heb Hlf.
  split; [done|]. exists gn2, gu2. split.
  - pose proof Hx as [X1 X2 X3 X4 X5 X6 _]. split; cbn -[Z.of_nat sum_rec]; try done.
    + split; [done|done|by rewrite <- Hdl|done].
    + rewrite Hec, (di_count _ _ _ _ _ Hi), <- Hl. f_equal. apply (f_equal length) in Hrec.
      by rewrite !length_fmap in Hrec.
    + rewrite Heb, (di_buflen _ _ _ _ _ Hi), <- (sum_rec_perm _ _ _ Hl).
      by rewrite !sum_rec_recs, Hrec.
    + by rewrite Hbc, Hlen, (di_bcount _ _ _ _ _ Hi).
    + intros x Hx'. by rewrite Hlf in Hx'.
  - destruct (idx_records _ _ _ _ _ l (idx_of_dn _ _ _ _ _ Hi) Hl) as [-> _].
    destruct (idx_records _ _ _ _ _ (dirents_list d2) Hx) as [-> _]; [done|]. by rewrite Hrec.
Qed.

(** The part of an image before the buckets. *)
Lemma parse_image C nx d gn gu b0 bs tbuf t2 h2 :
  dn_inv C nx d gn gu -> dir_header_ok d -> bucket_list d = b0 :: bs ->
  Forall bucket_rec_ok (bucket_list d) ->
  attribute_table_from_buffer (tbuf ++ bucket_content C b0) = Some (t2, bucket_content C b0) ->
  Z.of_nat (length tbuf) = attribute_table_get_size t2 ->
  forall c2 rs,
  dirnode_from_buffer volumekey (dir_image C d tbuf b0) h2 c2 rs =
    ('(b0, d', h, _) ← bucket_load_from_buffer (blank_bucket (next_addr h2) b0)
        (with_dtable (with_symlinks (blank_dirnode d) (symlink_list d) (symlink_count d) (symlink_buflen d)) t2)
        {| cells := cells h2; next_addr := next_addr h2 + Z.of_nat (length (bucket_list d)) |}
        (bucket_content C b0);
     '(bs, d', h, c, ret, tr) ← load_other_buckets volumekey (blank_buckets (next_addr h2 + 1) bs) rs d' h c2;
     if negb (ret =? 0) then Some (None, h2, c, tr)
     else Some (Some (with_buckets d' (b0 :: bs) (bucket_count d')), h, c, tr)).
Proof.
  intros Hi Hh Eb Hrec Ht Hlt c2 rs. unfold dirnode_from_buffer.
  pose proof (length_dir_header d Hh) as Hlh.
  rewrite (proj2 (Z.ltb_ge _ _)) by (unfold dir_image, DIRNODE_HDR_SIZE; rewrite length_app; lia).
  unfold dir_image. rewrite (parse_header_eq _ _ _ _ _ _ Hi Hh). cbn [mbind option_bind].
  change (dec_list parse_symlink) with (dec_list (dec (A := symlink_entry))).
  change (serialize_symlink <$> symlink_list d) with (enc <$> symlink_list d).
  cbn [symlink_count blank_dirnode symlink_buflen bucket_count].
  rewrite (dh_scount _ Hh) at 1. rewrite Nat2Z.id, (dec_list_app (symlink_list d)) by apply Hh.
  cbn [mbind option_bind].
  destruct (image_bounds _ _ _ _ _ Hi (dh_buckets _ Hh)) as (_ & _ & Hbc & _).
  rewrite Hbc, Nat2Z.id, parse_records_roundtrip by done. cbn [mbind option_bind].
  rewrite Ht, Eb. cbn [blank_buckets].
  rewrite <- Hlt, Nat2Z.id, drop_app_length. done.
Qed.

Lemma load_image d h gn gu b0 bs disk tbuf t2 c2 h2 ts :
  dn_inv (cells h) (next_addr h) d gn gu -> dir_header_ok d -> bucket_list d = b0 :: bs ->
  Forall bucket_rec_ok (bucket_list d) -> Forall (on_store volumekey disk (cells h)) bs ->
  NoDup (b_uuid <$> bs) -> Forall (fun b => bcache_get c2 (b_uuid b) = None) bs -> 0 < next_addr h2 ->
  attribute_table_from_buffer (tbuf ++ bucket_content (cells h) b0) = Some (t2, bucket_content (cells h) b0) ->
  Z.of_nat (length tbuf) = attribute_table_get_size t2 ->
  exists d2 h3 c3 tr,
    dirnode_from_buffer volumekey (dir_image (cells h) d tbuf b0) h2 c2 (ask disk ts <$> (b_uuid <$> bs))
      = Some (Some d2, h3, c3, tr) /\
    dir_repr h3 d2 (view (cells h) gn) /\ my_uuid d2 = my_uuid d /\ root_uuid d2 = root_uuid d /\
    symlink_list d2 = symlink_list d /\ symlink_count d2 = symlink_count d /\
    symlink_buflen d2 = symlink_buflen d /\ dn_attribute_table d2 = t2.
Proof.
  intros Hi Hh Eb Hrec Hdisk Hnd Hc Hnx Ht Hlt.
  rewrite (parse_image _ _ _ _ _ _ _ _ _ h2 Hi Hh Eb Hrec Ht Hlt).
  destruct (image_bounds _ _ _ _ _ Hi (dh_buckets _ Hh)) as (Hcnt & _).
  pose proof (di_buckets _ _ _ _ _ Hi) as [_ _ Hp Hbok]. rewrite Eb in Hp, Hbok.
  apply Forall_cons in Hbok as [Hb0 Hbok]. rewrite fmap_cons in Hp. cbn [concat] in Hp.
  destruct (idx_records _ _ _ _ _ _ (idx_of_dn _ _ _ _ _ Hi) Hp) as (_ & Hnm & Hrok).
  assert (Hlen : Z.of_nat (length (dir_entries b0) + length (concat (dir_entries <$> bs))) = dir_entry_count d).
  { by rewrite <- length_app, Hp, (di_count _ _ _ _ _ Hi). }
  set (n := Z.of_nat (length (bucket_list d))).
  set (dblank := with_dtable _ t2). set (hb := {| cells := cells h2; next_addr := next_addr h2 + n |}).
  pose proof Hnm as Hnm0. pose proof Hrok as Hrok0. rewrite fmap_app in Hnm, Hrok.
  apply Forall_app in Hrok as [Hrok1 Hrok2].
  destruct (load_entries_spec (rec_at (cells h) <$> dir_entries b0) (blank_bucket (next_addr h2) b0) dblank hb [] [])
    as (d1 & h1 & Hload & Hx1 & Hre1 & Hext & Hdl1).
  { apply blank_indexed. simpl. lia. } { done. }
  { rewrite fmap_app in Hnm. by apply NoDup_app in Hnm as (? & _). }
  { rewrite length_fmap. simpl. lia. }
  rewrite app_nil_r, length_fmap in Hload. rewrite length_fmap in Hdl1. cbn [app] in Hx1.
  unfold bucket_load_from_buffer. cbn [num_items blank_bucket].
  rewrite (bo_items _ _ Hb0), Nat2Z.id. unfold bucket_content. rewrite Hload. cbn [mbind option_bind].
  destruct (load_other_spec volumekey (cells h) bs (ask disk ts <$> (b_uuid <$> bs)) (next_addr h2 + 1) d1 h1 c2
              (rec_at (cells h) <$> dir_entries b0) Hbok)
    as (bs' & d2 & h3 & c3 & tr & -> & Hx2 & Hre2 & Hdl2 & Hbok2 & Hadr & Hnx2 & Hfr2).
  { by apply served_by_store. } { done. } { done. } { done. } { done. } { done. }
  { rewrite length_fmap. lia. }
  cbn [mbind option_bind negb Z.eqb]. do 4 eexists. split; [done|].
  destruct (reindexed_trans _ _ _ Hre1 Hre2) as (l & fn & fu & Ed2).
  split; [|by rewrite Ed2]. rewrite <- fmap_app in Hx2.
  pose proof Hext as (Hn1 & _). rewrite length_fmap in Hn1.
  assert (Hadr' : b_addr <$> (bucket_with (blank_bucket (next_addr h2) b0) (is_dirty (blank_bucket (next_addr h2) b0))
     (on_disk (blank_bucket (next_addr h2) b0)) (b_mac (blank_bucket (next_addr h2) b0))
     (dir_entries (blank_bucket (next_addr h2) b0) ++ seqZ (next_addr hb) (Z.of_nat (length (dir_entries b0)))) :: bs')
     = seqZ (next_addr h2) n).
  { rewrite fmap_cons, Hadr, blank_addrs. unfold n. rewrite Eb. cbn [length b_addr bucket_with blank_bucket].
    rewrite (seqZ_cons (next_addr h2)) by lia. f_equal. f_equal; lia. }
  eapply (assemble_dir _ _ _ _ _ _ _ _ _ Hi Hp Hx2).
  - rewrite Hdl2, Hdl1. done.
  - constructor; [|done]. eapply bucket_ok_frame; [|by eapply (loaded_bucket_ok _ b0 hb h1)].
    intros a Ha. apply Hfr2. cbn [dir_entries bucket_with] in Ha. apply elem_of_seqZ in Ha. lia.
  - done.
  - rewrite Hadr'. apply NoDup_seqZ.
  - apply Forall_forall. intros b Hb. apply (list_elem_of_fmap_2 b_addr) in Hb. rewrite Hadr' in Hb.
    apply elem_of_seqZ in Hb. simpl in Hn1. lia.
  - apply (f_equal length) in Hadr'. rewrite length_fmap, length_seqZ in Hadr'. lia.
  - by rewrite Ed2.
  - by rewrite Ed2.
  - by rewrite Ed2.
  - by rewrite Ed2.
Qed.
End load_image.

(** ** Storing a dirnode *)
Section store_dir.
Context `{BlockCipher} `{KeyWrapCipher}.
Variable volumekey : bytes.
Implicit Types (d : nexus_dirnode) (h : dheap) (b : dir_bucket) (c : bcache) (C : cellmap)
  (disk : gmap uuid bytes) (g : gmap uuid Z).

(** A dirnode that fits its serialized form, whose unmodified buckets are on
    the store and whose other buckets no one holds. *)
Record dir_storable disk c h d g : Prop := {
  ds_header : dir_header_ok d;
  ds_slen : symlink_buflen d = foldr (fun s acc => total_len s + acc) 0 (symlink_list d);
  ds_size : forall b0, head (bucket_list d) = Some b0 ->
    50 + symlink_buflen d + 40 * Z.of_nat (length (bucket_list d))
    + attribute_table_get_size (dn_attribute_table d) + size_bytes b0 < 2 ^ 31;
  ds_ids : Forall (fun b => length (b_uuid b) = 16%nat /\ length (b_mac b) = 16%nat) (bucket_list d);
  ds_names : NoDup (my_uuid d :: (b_uuid <$> tail (bucket_list d)));
  ds_free : Forall (fun b => free_buffer c (b_uuid b)) (tail (bucket_list d));
  ds_disk : Forall (fun b => is_dirty b = false -> on_store volumekey disk (cells h) b)
              (tail (bucket_list d));
  ds_table : at_inv (dn_attribute_table d) g;
  ds_tsize : Z.of_nat (size g) < 2 ^ 28;
  ds_gen : in_range 64 (at_generation (dn_attribute_table d));
  ds_audit : uuid_ok (at_audit_log_uuid (dn_attribute_table d))
}.

Lemma delete_buckets_frame us c disk u :
  u ∉ us ->
  bcache_get (delete_buckets c us).1 u = bcache_get c u /\
  apply_trace disk (delete_buckets c us).2 !! u = disk !! u.
Proof.
  revert c disk. induction us as [|x us IH]; intros c disk Hu; [done|].
  apply not_elem_of_cons in Hu as [Hne Hu]. cbn [delete_buckets buffer_layer_delete].
  specialize (IH (buffer_layer_evict c x) (delete x disk) Hu).
  destruct (delete_buckets (buffer_layer_evict c x) us) as [c' t']. simpl in *.
  destruct IH as [-> ->]. split; [|by apply lookup_delete_ne].
  unfold buffer_layer_evict, bcache_evict. destruct (bcache_get c x); [|done].
  unfold bcache_get. simpl. by apply lookup_delete_ne.
Qed.

(** Dropping the empty buckets keeps a dirnode storable. *)
Lemma storable_drop disk c h d g b0 bs kept gone count :
  dir_storable disk c h d g -> bucket_list d = b0 :: bs -> delete_empty_loop bs = (kept, gone) ->
  kept `sublist_of` bs ->
  dir_storable (apply_trace disk (delete_buckets c gone).2) (delete_buckets c gone).1 h
    (with_buckets d (b0 :: kept) count) g.
Proof.
  intros [[H1 H2 H3 H4 H5 H6] S2 S3 S4 S5 S6 S7 S8 S9 S10 S11] Eb El Hsub.
  rewrite Eb in H6, S3, S4, S5, S6, S7. cbn [tail length head] in *.
  pose proof (sublist_length _ _ Hsub) as Hlen. apply NoDup_cons in S5 as [S51 S52].
  pose proof (delete_empty_split _ _ _ El) as Hp.
  assert (Hk : forall b, b ∈ kept -> b_uuid b ∉ gone).
  { intros b Hb Hg. rewrite Hp in S52. apply NoDup_app in S52 as (_ & Hdis & _).
    apply (Hdis (b_uuid b)); [by apply list_elem_of_fmap_2|done]. }
  split; cbn [bucket_list with_buckets tail length head my_uuid symlink_buflen symlink_list
              dn_attribute_table]; try done.
  - split; try done. cbn [bucket_list with_buckets length]. lia.
  - intros b1 Hb1. specialize (S3 b1 Hb1). lia.
  - apply Forall_cons in S4 as [? S4]. constructor; [done|]. by eapply Forall_sublist.
  - apply NoDup_cons. split; [|by eapply sublist_NoDup; [exact S52|apply fmap_sublist]].
    intros Hin. apply S51. rewrite Hp. apply elem_of_app. by left.
  - apply (Forall_sublist _ _ _ Hsub) in S6. rewrite Forall_forall in S6 |- *. intros b Hb.
    unfold free_buffer. rewrite (proj1 (delete_buckets_frame _ _ disk _ (Hk b Hb))). by apply S6.
  - apply (Forall_sublist _ _ _ Hsub) in S7. rewrite Forall_forall in S7 |- *. intros b Hb Hcl.
    destruct (S7 b Hb Hcl) as (data & v & Hd & Hs). exists data, v. split; [|done].
    by rewrite (proj2 (delete_buckets_frame _ c disk _ (Hk b Hb))).
Qed.

Lemma length_links l :
  Forall symlink_ok l ->
  Z.of_nat (length (concat (serialize_symlink <$> l))) = foldr (fun s acc => total_len s + acc) 0 l.
Proof.
  induction 1 as [|s l (_ & Hu & H1 & H2 & H3) _ IH]; [done|]. rewrite fmap_cons. cbn [concat foldr].
  rewrite length_app, Nat2Z.inj_add, IH. f_equal. unfold serialize_symlink.
  rewrite length_take, !length_app, !length_le_encode, Hu. simpl. lia.
Qed.

Lemma length_records bs :
  Forall bucket_rec_ok bs -> length (concat (bucket_to_record <$> bs)) = (40 * length bs)%nat.
Proof.
  induction 1 as [|b bs Hb _ IH]; [done|]. rewrite fmap_cons. cbn [concat length].
  rewrite length_app, IH, length_bucket_to_record by done. lia.
Qed.

(** A flush changes neither the entries nor the identity of a bucket. *)
Definition refreshed b b' : Prop :=
  exists dirty od m, length m = 16%nat /\ b' = bucket_with b dirty od m (dir_entries b).

Lemma sealed_mac u v p data m : sealed volumekey u v p data m -> length m = 16%nat.
Proof. intros (hd & ctx & (_ & _ & _ & _ & _ & Hm) & _ & _ & <- & _). done. Qed.

Lemma flushed_refreshed disk C bs bs' :
  Forall2 (flushed volumekey disk C) bs bs' ->
  Forall2 refreshed bs bs' /\ Forall (on_store volumekey disk C) bs' /\
  Forall (fun b => is_dirty b = false) bs'.
Proof.
  induction 1 as [|b b' bs bs' (od & m & -> & Ho) _ (IH1 & IH2 & IH3)]; [by split_and!|].
  split; [|split; by constructor]. constructor; [|done]. exists false, od, m. split; [|done].
  destruct Ho as (data & v & _ & Hs). by apply sealed_mac in Hs.
Qed.

Lemma refreshed_list bs bs' :
  Forall2 refreshed bs bs' ->
  b_addr <$> bs' = b_addr <$> bs /\ b_uuid <$> bs' = b_uuid <$> bs /\
  dir_entries <$> bs' = dir_entries <$> bs /\ length bs' = length bs.
Proof.
  induction 1 as [|b b' bs bs' (dirty & od & m & _ & ->) _ (H1 & H2 & H3 & H4)]; [done|].
  rewrite !fmap_cons, H1, H2, H3. simpl. by rewrite H4.
Qed.

Lemma refreshed_forall (P : dir_bucket -> Prop) bs bs' :
  (forall b dirty od m, P b -> length m = 16%nat -> P (bucket_with b dirty od m (dir_entries b))) ->
  Forall2 refreshed bs bs' -> Forall P bs -> Forall P bs'.
Proof.
  intros HP. induction 1 as [|b b' bs bs' (dirty & od & m & Hm & ->) _ IH]; [done|].
  intros [? ?]%Forall_cons. constructor; auto.
Qed.

Lemma dn_inv_refreshed C nx d gn gu bs' t :
  dn_inv C nx d gn gu -> Forall2 refreshed (bucket_list d) bs' ->
  dn_inv C nx (with_buckets (with_dtable d t) bs' (bucket_count d)) gn gu.
Proof.
  intros Hi Hre. destruct (refreshed_list _ _ Hre) as (E1 & _ & E3 & E4).
  pose proof (di_buckets _ _ _ _ _ Hi) as [B1 B2 B3 B4]. pose proof (di_nonempty _ _ _ _ _ Hi) as Hne.
  pose proof (di_bcount _ _ _ _ _ Hi) as Hbc. destruct Hi. split; try done.
  - split; simpl; [by rewrite E1| |by rewrite E3|].
    + by eapply refreshed_forall; [|exact Hre|exact B2].
    + eapply refreshed_forall; [|exact Hre|exact B4]. intros b dirty od m [] _. by split.
  - simpl. intros ->. by destruct (bucket_list d).
  - simpl. by rewrite Hbc, E4.
Qed.

Lemma records_fit C nx d gn gu :
  dn_inv C nx d gn gu -> Z.of_nat (length (bucket_list d)) < 2 ^ 16 ->
  Forall (fun b => length (b_uuid b) = 16%nat /\ length (b_mac b) = 16%nat) (bucket_list d) ->
  Forall bucket_rec_ok (bucket_list d).
Proof.
  intros Hi Hn Hid. destruct (image_bounds _ _ _ _ _ Hi Hn) as (_ & _ & _ & Hb).
  rewrite Forall_forall in Hb, Hid |- *. intros b Hin. destruct (Hb b Hin), (Hid b Hin).
  unfold bucket_rec_ok, in_range in *. split_and!; try done; lia.
Qed.

Lemma buckets_recs_ok C nx d gn gu :
  dn_inv C nx d gn gu -> Forall (fun b => Forall rec_ok (rec_at C <$> dir_entries b)) (bucket_list d).
Proof.
  intros Hi. pose proof (di_buckets _ _ _ _ _ Hi) as [_ _ Hp _].
  destruct (idx_records _ _ _ _ _ _ (idx_of_dn _ _ _ _ _ Hi) Hp) as (_ & _ & Hrok).
  rewrite Forall_forall in Hrok. apply Forall_forall. intros b Hin. apply Forall_forall. intros r Hr.
  apply Hrok. apply list_elem_of_fmap in Hr as (a & -> & Ha). apply list_elem_of_fmap_2.
  by eapply in_bucket_in_all.
Qed.

(** The image is exactly as long as [__get_bucket0_size] says. *)
Lemma image_size disk c h d gn gu g b0 bs tbuf :
  dn_inv (cells h) (next_addr h) d gn gu -> dir_storable disk c h d g -> bucket_list d = b0 :: bs ->
  Z.of_nat (length tbuf) = attribute_table_get_size (dn_attribute_table d) ->
  get_bucket0_size d b0 = Z.of_nat (length (dir_image (cells h) d tbuf b0)) /\
  Z.of_nat (length (dir_image (cells h) d tbuf b0)) < 2 ^ 31 /\
  attribute_table_get_size (dn_attribute_table d) <=
    get_bucket0_size d b0 -64 Z.of_nat (length (serialize_dirnode_header d)
      + length (concat (serialize_symlink <$> symlink_list d)) + 40 * length (bucket_list d)).
Proof.
  intros Hi Hs Eb Ht. pose proof (ds_header _ _ _ _ _ Hs) as Hh.
  destruct (image_bounds _ _ _ _ _ Hi (dh_buckets _ Hh)) as (_ & _ & Hbc & Hb).
  pose proof (records_fit _ _ _ _ _ Hi (dh_buckets _ Hh) (ds_ids _ _ _ _ _ Hs)) as Hrec.
  pose proof (ds_size _ _ _ _ _ Hs b0 ltac:(by rewrite Eb)) as Hsz.
  pose proof (di_buckets _ _ _ _ _ Hi) as [_ _ _ Hbok]. pose proof (buckets_recs_ok _ _ _ _ _ Hi) as Hrok.
  rewrite Eb in Hbok, Hrok. apply Forall_cons in Hrok as [Hrok _], Hbok as [Hb0 _].
  pose proof (length_bucket_content _ _ Hb0 Hrok) as Hc0. pose proof (length_dir_header d Hh) as Hhl.
  pose proof (length_links _ (dh_links _ Hh)) as Hll. rewrite <- (ds_slen _ _ _ _ _ Hs) in Hll.
  pose proof (length_records _ Hrec) as Hrl.
  assert (Hlen : Z.of_nat (length (dir_image (cells h) d tbuf b0)) =
    50 + symlink_buflen d + 40 * Z.of_nat (length (bucket_list d))
    + attribute_table_get_size (dn_attribute_table d) + size_bytes b0).
  { unfold dir_image. rewrite !length_app, Hrl. lia. }
  assert (Hg : get_bucket0_size d b0 = Z.of_nat (length (dir_image (cells h) d tbuf b0))).
  { unfold get_bucket0_size, DIRNODE_HDR_SIZE, BUCKET_REC_SIZE. rewrite Hbc, Hlen.
    apply wrap_small. unfold in_range. lia. }
  split; [done|]. split; [lia|]. rewrite Hg, Hlen, wrap_small by (unfold in_range; lia). lia.
Qed.

Lemma length_image_refreshed C d bs' t tbuf b0 :
  Forall2 refreshed (bucket_list d) bs' -> Forall bucket_rec_ok (bucket_list d) ->
  length (dir_image C (with_buckets (with_dtable d t) bs' (bucket_count d)) tbuf b0)
  = length (dir_image C d tbuf b0).
Proof.
  intros Hre Hrec. destruct (refreshed_list _ _ Hre) as (_ & _ & _ & Hl).
  assert (Hrec' : Forall bucket_rec_ok bs').
  { eapply refreshed_forall; [|exact Hre|exact Hrec].
    intros b dirty od m (? & ? & ? & _) Hm. by split_and!. }
  unfold dir_image. rewrite !length_app. cbn [bucket_list with_buckets symlink_list with_dtable].
  by rewrite (length_records _ Hrec), (length_records _ Hrec'), Hl.
Qed.

Lemma serialize_dir_spec d h gn gu g disk c es mv b0 bs :
  dn_inv (cells h) (next_addr h) d gn gu -> dir_storable disk c h d g -> bucket_list d = b0 :: bs ->
  Forall benv_ok es -> (length bs <= length es)%nat -> macversion_ok mv ->
  exists bs' c1 tr tbuf t1 t2 g2,
    let b0' := bucket_with b0 false (on_disk b0) (b_mac b0) (dir_entries b0) in
    let d1 := with_buckets (with_dtable d t1) (b0' :: bs') (bucket_count d) in
    dirnode_serialize volumekey d h c (Some mv) es (get_bucket0_size d b0)
      = Some (d1, c1, 0, tr, dir_image (cells h) d1 tbuf b0) /\
    get_bucket0_size d b0 = Z.of_nat (length (dir_image (cells h) d1 tbuf b0)) /\
    get_bucket0_size d b0 < 2 ^ 31 /\
    Forall2 (flushed volumekey (apply_trace disk tr) (cells h)) bs bs' /\
    attribute_table_from_buffer (tbuf ++ bucket_content (cells h) b0)
      = Some (t2, bucket_content (cells h) b0) /\
    Z.of_nat (length tbuf) = attribute_table_get_size t2 /\
    at_inv t2 g2 /\ at_generation t2 = at_generation (dn_attribute_table d) /\
    at_audit_log_uuid t2 = at_audit_log_uuid (dn_attribute_table d) /\ at_macversion t2 = mv /\
    (forall u, uuid_ok u -> at_lookup t2 u = trim <$> at_lookup (dn_attribute_table d) u) /\
    (forall u, u ∉ b_uuid <$> bs ->
      bcache_get c1 u = bcache_get c u /\ apply_trace disk tr !! u = disk !! u).
Proof.
  intros Hi Hs Eb Hes Hlen Hmv. pose proof (ds_header _ _ _ _ _ Hs) as Hh.
  set (left := get_bucket0_size d b0 -64 Z.of_nat (length (serialize_dirnode_header d)
      + length (concat (serialize_symlink <$> symlink_list d)) + 40 * length (bucket_list d))).
  set (sz := Z.to_nat (attribute_table_get_size (dn_attribute_table d))).
  destruct (store_load_spec (dn_attribute_table d) g mv left (bucket_content (cells h) b0))
    as (t1 & tbuf & t2 & g2 & Hst & Htl & Htb & A1 & A2 & A3 & A4 & A5 & A6).
  { apply Hs. } { apply Hs. } { apply Hs. } { apply Hs. } { done. }
  { apply (image_size disk c h d gn gu g b0 bs (replicate sz 0) Hi Hs Eb).
    rewrite length_replicate. unfold sz. apply Z2Nat.id. unfold attribute_table_get_size, wrap.
    apply Z.mod_pos_bound. lia. }
  destruct (image_size disk c h d gn gu g b0 bs tbuf Hi Hs Eb Htl) as (Hsz & Hlt & _).
  unfold dirnode_serialize. fold left. rewrite Hst. cbn [bucket_list with_dtable]. rewrite Eb.
  pose proof (di_buckets _ _ _ _ _ Hi) as [_ _ _ Hbok]. pose proof (buckets_recs_ok _ _ _ _ _ Hi) as Hrok.
  destruct (image_bounds _ _ _ _ _ Hi (dh_buckets _ Hh)) as (_ & _ & _ & Hb).
  pose proof (records_fit _ _ _ _ _ Hi (dh_buckets _ Hh) (ds_ids _ _ _ _ _ Hs)) as Hrec.
  pose proof (ds_names _ _ _ _ _ Hs) as Hnm. pose proof (ds_free _ _ _ _ _ Hs) as Hfree.
  pose proof (ds_disk _ _ _ _ _ Hs) as Hdisk.
  rewrite Eb in Hbok, Hrok, Hb, Hnm, Hfree, Hdisk. cbn [tail] in Hnm, Hfree, Hdisk.
  apply Forall_cons in Hbok as [Hb0 Hbok], Hrok as [_ Hrok], Hb as [_ Hb].
  rewrite bucket_serialize_eq by done. cbn [mbind option_bind].
  destruct (store_other_spec volumekey bs h c es disk Hbok) as (bs' & c1 & tr & -> & Hfl & Hfr); try done.
  { eapply Forall_impl; [exact Hb|]. simpl. intros b [_ ?]. lia. }
  { by apply NoDup_cons in Hnm as [_ ?]. }
  cbn [mbind option_bind negb Z.eqb]. exists bs', c1, tr, tbuf, t1, t2, g2.
  change (bucket_count (with_dtable d t1)) with (bucket_count d).
  set (b0' := bucket_with b0 false _ _ _). set (d1 := with_buckets _ _ _).
  assert (Hdl : length (dir_image (cells h) d1 tbuf b0) = length (dir_image (cells h) d tbuf b0)).
  { apply length_image_refreshed; [|done]. rewrite Eb. constructor; [|by apply flushed_refreshed in Hfl as [? _]].
    rewrite Eb in Hrec. apply Forall_cons in Hrec as [(_ & _ & _ & Hm) _]. by exists false, (on_disk b0), (b_mac b0). }
  split; [done|]. rewrite Hdl. split; [done|]. split; [by rewrite Hsz|]. split; [done|]. split; [done|].
  split; [|done]. rewrite Htl. unfold attribute_table_get_size. by rewrite A2.
Qed.

(** What a successful [dirnode_store] leaves: in memory the same directory
    with clean buckets, on the store an image of it and its buckets. *)
Definition stored_as disk h d d1 (mv : mac_and_version) (data : bytes) (m : mac) (ver : Z) : Prop :=
  exists b0 bs tbuf t2 g2,
    bucket_list d1 = b0 :: bs /\ Forall bucket_rec_ok (bucket_list d1) /\ dir_header_ok d1 /\
    Forall (on_store volumekey disk (cells h)) bs /\ NoDup (my_uuid d :: (b_uuid <$> bs)) /\
    disk !! my_uuid d = Some data /\
    sealed volumekey (my_uuid d) ver (dir_image (cells h) d1 tbuf b0) data m /\
    attribute_table_from_buffer (tbuf ++ bucket_content (cells h) b0)
      = Some (t2, bucket_content (cells h) b0) /\
    Z.of_nat (length tbuf) = attribute_table_get_size t2 /\
    at_inv t2 g2 /\ at_generation t2 = at_generation (dn_attribute_table d) /\
    at_audit_log_uuid t2 = at_audit_log_uuid (dn_attribute_table d) /\ at_macversion t2 = mv /\
    (forall u, uuid_ok u -> at_lookup t2 u = trim <$> at_lookup (dn_attribute_table d) u).

Lemma on_store_insert disk C bs u data :
  u ∉ b_uuid <$> bs -> Forall (on_store volumekey disk C) bs ->
  Forall (on_store volumekey (<[u := data]> disk) C) bs.
Proof.
  intros Hu Ho. rewrite Forall_forall in Ho |- *. intros b Hb. destruct (Ho b Hb) as (x & v & Hx & Hs).
  exists x, v. split; [|done]. rewrite lookup_insert_ne; [done|]. intros ->. apply Hu.
  by apply list_elem_of_fmap_2.
Qed.

Lemma store_dir_spec d h v g disk c es env ver mv :
  dir_repr h d v -> dir_storable disk c h d g -> one_writer c (my_uuid d) ->
  Forall benv_ok es -> (length (bucket_list d) <= length es)%nat -> put_ok env ->
  macversion_ok mv -> in_range 32 ver ->
  exists d1 c1 m t data,
    dirnode_store volumekey d h ver (Some mv) c es env = Some (d1, c1, 0, Some m, t) /\
    dir_repr h d1 v /\ Forall (fun b => is_dirty b = false) (bucket_list d1) /\
    idle c1 (my_uuid d) /\ my_uuid d1 = my_uuid d /\ root_uuid d1 = root_uuid d /\
    symlink_list d1 = symlink_list d /\
    stored_as (apply_trace disk t) h d d1 mv data m (u32 (ver + 1)).
Proof.
  intros Hr Hs Hone Hes Hlen (Hput & Hk1 & Hk2 & mem & Hmem) Hmv Hver.
  unfold dirnode_store, delete_empty_dirnode_buckets.
  destruct (bucket_list d) as [|b0 bs] eqn:Eb.
  { destruct Hr as (_ & gn & gu & Hi & _). by destruct (di_nonempty _ _ _ _ _ Hi). }
  destruct (delete_empty_loop bs) as [kept gone] eqn:El.
  assert (Hsub : kept `sublist_of` bs).
  { destruct Hr as (_ & gn & gu & Hi & _). pose proof (di_buckets _ _ _ _ _ Hi) as [_ _ _ Hb].
    rewrite Eb in Hb. apply Forall_cons in Hb as [_ Hb]. by apply (delete_empty_loop_spec _ _ _ _ Hb El). }
  set (d0 := with_buckets d _ _).
  destruct (delete_empty_repr _ _ _ _ _ _ _ Hr Eb El) as (Hnx & gn & gu & Hi & ->). fold d0 in Hi.
  pose proof (storable_drop _ _ _ _ _ _ _ _ _ (bucket_count d -64 Z.of_nat (length gone)) Hs Eb El Hsub) as Hs0.
  fold d0 in Hs0. pose proof (delete_buckets_frame gone c disk (my_uuid d)) as Hdf.
  destruct (delete_buckets c gone) as [c0 t0]. cbn [fst snd] in Hs0, Hdf.
  assert (Hgone : my_uuid d ∉ gone).
  { pose proof (ds_names _ _ _ _ _ Hs) as Hnm. rewrite Eb in Hnm. cbn [tail] in Hnm.
    apply NoDup_cons in Hnm as [Hnm _]. rewrite (delete_empty_split _ _ _ El) in Hnm. set_solver. }
  cbn [bucket_list with_buckets head d0 mbind option_bind].
  destruct (serialize_dir_spec d0 h gn gu g (apply_trace disk t0) c0 es mv b0 kept Hi Hs0 eq_refl Hes)
    as (bs' & c1 & tr & tbuf & t1 & t2 & g2 & -> & Hsz & Hlt & Hfl & Htb & Htl & A1 & A2 & A3 & A4 & A5 & Hfr).
  { apply sublist_length in Hsub. simpl in Hlen. lia. } { done. }
  set (b0' := bucket_with b0 false _ _ _) in *.
  set (d1 := with_buckets (with_dtable d0 t1) (b0' :: bs') (bucket_count d0)) in *.
  cbn [mbind option_bind negb Z.eqb]. rewrite Hsz, Z.ltb_irrefl, Nat2Z.id, Nat.sub_diag. cbn [replicate].
  rewrite app_nil_r. change (my_uuid d1) with (my_uuid d).
  pose proof (ds_names _ _ _ _ _ Hs0) as Hnm. cbn [my_uuid d0 with_buckets bucket_list tail] in Hnm.
  pose proof Hnm as [Hmy Hnd]%NoDup_cons. destruct (Hfr (my_uuid d) Hmy) as [Hc1 _].
  destruct (put_new_spec volumekey c1 (my_uuid d) (dir_image (cells h) d1 tbuf b0) ver env mem 0)
    as (cb & c2 & data & m & Hsl & Hp & _ & Hidle & _).
  { unfold one_writer in *. by rewrite Hc1, (proj1 (Hdf Hgone)). } { done. } { done. } { done. } { lia. } { done. }
  change (nexus_crypto_buf_set_datasize (nexus_crypto_buf_new ?p ?v ?u) 0)
    with (nexus_crypto_buf_new p v u) in Hp. rewrite Hp, Hput. rewrite Hput in Hidle.
  cbn [mbind option_bind negb Z.eqb].
  destruct (flushed_refreshed _ _ _ _ Hfl) as (Href & Hon & Hcl).
  pose proof (records_fit _ _ _ _ _ Hi (dh_buckets _ (ds_header _ _ _ _ _ Hs0)) (ds_ids _ _ _ _ _ Hs0)) as Hrec.
  assert (Hre : Forall2 refreshed (bucket_list d0) (b0' :: bs')).
  { constructor; [|done]. apply Forall_cons in Hrec as [(_ & _ & _ & Hm) _]. by exists false, (on_disk b0), (b_mac b0). }
  pose proof (dn_inv_refreshed _ _ _ _ _ _ t1 Hi Hre) as Hi1. fold d1 in Hi1.
  destruct (refreshed_list _ _ Href) as (_ & Eu & _ & El').
  exists (dirnode_set_clean d1), c2, m, (t0 ++ tr ++ [ocall_buffer_put (my_uuid d) data 0]), data.
  split; [done|]. split; [split; [done|]; exists gn, gu; split; [by destruct Hi1|done]|].
  split; [by constructor|]. do 4 (split; [done|]).
  exists b0', bs', tbuf, t2, g2. split; [done|]. rewrite !apply_trace_app. cbn [apply_trace]. split.
  { eapply refreshed_forall; [|exact Hre|exact Hrec]. intros b dirty od x (? & ? & ? & _) Hm. by split_and!. }
  split. { pose proof (ds_header _ _ _ _ _ Hs0) as [? ? ? ? ? Hn]. split; try done. cbn in Hn |- *. by rewrite El'. }
  split; [by apply on_store_insert; [rewrite Eu|]|]. split; [by rewrite Eu|].
  split; [apply lookup_insert_eq|]. done.
Qed.

(** [d2] is [d] as it comes back from the store. *)
Definition dir_reloaded d d2 (mv : mac_and_version) : Prop :=
  my_uuid d2 = my_uuid d /\ root_uuid d2 = root_uuid d /\ symlink_list d2 = symlink_list d /\
  (exists g2, at_inv (dn_attribute_table d2) g2) /\ at_macversion (dn_attribute_table d2) = mv /\
  at_generation (dn_attribute_table d2) = at_generation (dn_attribute_table d) /\
  at_audit_log_uuid (dn_attribute_table d2) = at_audit_log_uuid (dn_attribute_table d) /\
  forall u, uuid_ok u ->
    at_lookup (dn_attribute_table d2) u = trim <$> at_lookup (dn_attribute_table d) u.

Lemma load_stored disk h d d1 v mv data m ver h2 c2 flags ts :
  dir_repr h d1 v -> my_uuid d1 = my_uuid d -> root_uuid d1 = root_uuid d ->
  symlink_list d1 = symlink_list d -> stored_as disk h d d1 mv data m ver ->
  0 < next_addr h2 -> (forall u, bcache_get c2 u = None) ->
  exists d2 h3 c3 t,
    dirnode_load volumekey (my_uuid d) flags h2 c2 (ask disk ts (my_uuid d))
      (ask disk ts <$> (b_uuid <$> tail (bucket_list d1))) = Some (Some d2, h3, c3, t) /\
    dir_repr h3 d2 v /\ dir_reloaded d d2 mv.
Proof.
  intros (Hnx & gn & gu & Hi & ->) Em Er Es
    (b0 & bs & tbuf & t2 & g2 & Eb & Hrec & Hh & Hon & [Hmy Hnd]%NoDup_cons & Hd & Hs & Htb & Htl & HA) Hn2 Hc2.
  rewrite Eb. cbn [tail]. set (rs := ask disk ts <$> _).
  unfold dirnode_load, nexus_crypto_buf_create, buffer_layer_get. cbn [br_err br_data br_ts ask].
  rewrite Hc2, Hd. cbn [negb Z.eqb].
  destruct (get_update c2 (my_uuid d) ts flags) as (mb & Hm & _). rewrite Hm.
  unfold dirnode_from_crypto_buf.
  destruct (get_sealed volumekey (my_uuid d) ver _ data m
    (mk_cbuf empty_ctx (external_version data) 0 (my_uuid d) (Some (ExtStore data)) None) Hs)
    as (cb & ->); [done..|]. cbn [mbind option_bind].
  set (cu := if in_write_mode mb then _ else _).
  assert (Hcu : forall u, my_uuid d <> u -> bcache_get cu u = None).
  { intros u Hu. unfold cu. destruct (in_write_mode mb); [rewrite get_set_buf_ne by done|];
      rewrite get_update_ne by done; apply Hc2. }
  destruct (load_image volumekey d1 h gn gu b0 bs disk tbuf t2 cu h2 ts)
    as (d2 & h3 & c3 & tr & Hload & Hr & E1 & E2 & E3 & _ & _ & E6); try done.
  { apply Forall_forall. intros b Hb. apply Hcu. intros Heq. apply Hmy. rewrite Heq.
    by apply list_elem_of_fmap_2. }
  unfold rs. rewrite Hload. cbn [mbind option_bind]. do 4 eexists. split; [done|]. split; [done|].
  unfold dir_reloaded. rewrite E1, E2, E3, E6, Em, Er, Es. destruct HA as (A1 & A2 & A3 & A4 & A5).
  split_and!; try done. by exists g2.
Qed.
End store_dir.

(** C32: a directory survives its store: with a store that goes along, a
    dirnode that fits its serialized form is written ([dirnode_store] returns
    0, leaves the same directory in memory with no modified bucket, and gives
    up the lock), and [dirnode_load] on what the store then holds gives back
    the same directory: the same name to link map with its invariant, in
    whatever buckets the entries were, the same symbolic links, UUIDs and
    attributes. *)
Theorem dirnode_store_load `{BlockCipher} `{KeyWrapCipher} vk d h v g disk c es env ver mv :
  dir_repr h d v -> dir_storable vk disk c h d g -> one_writer c (my_uuid d) ->
  Forall benv_ok es -> (length (bucket_list d) <= length es)%nat -> put_ok env ->
  macversion_ok mv -> in_range 32 ver ->
  exists d1 c1 m t,
    dirnode_store vk d h ver (Some mv) c es env = Some (d1, c1, 0, Some m, t) /\
    dir_repr h d1 v /\ Forall (fun b => is_dirty b = false) (bucket_list d1) /\ idle c1 (my_uuid d) /\
    forall h2 c2 flags ts, 0 < next_addr h2 -> (forall u, bcache_get c2 u = None) ->
      exists d2 h3 c3 t',
        dirnode_load vk (my_uuid d) flags h2 c2 (ask (apply_trace disk t) ts (my_uuid d))
          (ask (apply_trace disk t) ts <$> (b_uuid <$> tail (bucket_list d1)))
          = Some (Some d2, h3, c3, t') /\
        dir_repr h3 d2 v /\ dir_reloaded d d2 mv.
Proof.
  intros Hr Hs Hone Hes Hlen Henv Hmv Hver.
  destruct (store_dir_spec vk d h v g disk c es env ver mv Hr Hs Hone Hes Hlen Henv Hmv Hver)
    as (d1 & c1 & m & t & data & Hst & Hr1 & Hcl & Hidle & E1 & E2 & E3 & Hstored).
  exists d1, c1, m, t. do 4 (split; [done|]). intros h2 c2 flags ts Hn2 Hc2.
  by eapply load_stored.
Qed.

(** [one_dir] with its entry in a second bucket, as after bucket 0 was filled
    and emptied again. *)
Definition spread_dir : nexus_dirnode * dheap :=
  let '(d, h) := one_dir in
  (with_buckets d (bucket_create (next_addr h) (uuid_const 6) BUCKET_CAPACITY :: bucket_list d) 2,
   {| cells := cells h; next_addr := next_addr h + 1 |}).

Lemma spread_dir_repr : dir_repr spread_dir.2 spread_dir.1 one_view.
Proof.
  destruct one_dir_repr as (Hnx & gn & gu & Hi & Hv).
  assert (Hlen : length (bucket_list one_dir.1) = 1%nat) by (by vm_compute).
  unfold spread_dir. destruct one_dir as [d h]. cbn [fst snd] in *. split; [simpl; lia|].
  exists gn, gu. split; [|done].
  pose proof (di_buckets _ _ _ _ _ Hi) as [_ Hbd _ _].
  apply (dn_inv_frame _ (cells h) _ (next_addr h + 1)) in Hi; [|lia|done].
  pose proof (di_buckets _ _ _ _ _ Hi) as [B1 B2 B3 B4]. destruct Hi. split; try done.
  - split; simpl; [|constructor; [simpl; lia|done]|done|].
    + apply NoDup_cons. split; [|done]. intros (b & Heq & Hb)%list_elem_of_fmap.
      rewrite Forall_forall in Hbd. specialize (Hbd b Hb). simpl in Heq. lia.
    + constructor; [|done]. split; try done. intros a Ha. by apply not_elem_of_nil in Ha.
  - simpl. rewrite Hlen. done.
Qed.

Definition toy_benv : bucket_env := mk_benv reply_ok (toy_env reply_ok).

Lemma toy_benv_ok : benv_ok toy_benv.
Proof. split; [done|]. split; [done|]. split; [|split]; [apply toy_draw_ok; unfold byte_ok; lia..|by eexists]. Qed.

Lemma spread_dir_storable :
  dir_storable (H := toy_cipher) (H0 := toy_wrap) [] ∅ (held_cache (uuid_const 2) 1) spread_dir.2 spread_dir.1 ∅.
Proof.
  split.
  - split; [done|done|done|by split; vm_compute|constructor|by vm_compute].
  - done.
  - intros b0 Hb0. vm_compute in Hb0. injection Hb0 as <-. by vm_compute.
  - vm_compute. repeat constructor.
  - apply (bool_decide_unpack _). by vm_compute.
  - vm_compute. repeat constructor.
  - apply (Forall_impl (fun b => is_dirty b = true)); [by vm_compute; repeat constructor|].
    intros b H1 H2. congruence.
  - apply at_create_inv.
  - done.
  - by vm_compute.
  - by split; vm_compute; repeat constructor.
Qed.

Lemma dirnode_store_load_witness :
  exists d1 c1 m t,
    dirnode_store (H := toy_cipher) (H0 := toy_wrap) [] spread_dir.1 spread_dir.2 0
      (Some (mk_macversion 5 nexus_mac_zeroize)) (held_cache (uuid_const 2) 1) [toy_benv; toy_benv]
      (toy_env reply_ok) = Some (d1, c1, 0, Some m, t) /\
    dir_repr spread_dir.2 d1 one_view /\ Forall (fun b => is_dirty b = false) (bucket_list d1) /\
    idle c1 (my_uuid spread_dir.1) /\
    forall h2 c2 flags ts, 0 < next_addr h2 -> (forall u, bcache_get c2 u = None) ->
      exists d2 h3 c3 t',
        dirnode_load (H := toy_cipher) (H0 := toy_wrap) [] (my_uuid spread_dir.1) flags h2 c2
          (ask (apply_trace ∅ t) ts (my_uuid spread_dir.1))
          (ask (apply_trace ∅ t) ts <$> (b_uuid <$> tail (bucket_list d1)))
          = Some (Some d2, h3, c3, t') /\
        dir_repr h3 d2 one_view /\ dir_reloaded spread_dir.1 d2 (mk_macversion 5 nexus_mac_zeroize).
Proof.
  apply (dirnode_store_load (H := toy_cipher) (H0 := toy_wrap) [] spread_dir.1 spread_dir.2 one_view ∅ ∅
    (held_cache (uuid_const 2) 1) [toy_benv; toy_benv] (toy_env reply_ok) 0 (mk_macversion 5 nexus_mac_zeroize)).
  - apply spread_dir_repr.
  - apply spread_dir_storable.
  - apply held_one_writer.
  - apply Forall_cons. split; [apply toy_benv_ok|]. apply Forall_singleton, toy_benv_ok.
  - by vm_compute; lia.
  - apply toy_benv_ok.
  - split; [by vm_compute|done].
  - by vm_compute.
Defined.

(** ** Which buckets are accepted *)
(** The object of the bucket [b] is a sealing under its UUID whose MAC is the
    one in the dirnode's record. *)
Definition pinned `{BlockCipher} `{KeyWrapCipher} (vk : bytes) (b : dir_bucket) (r : bucket_reply) : Prop :=
  exists data hd key ct p, br_data r = Some data /\ data = hdr_bytes hd ++ ct /\
    h_mac hd = b_mac b /\ unwrap_key vk (b_uuid b) (h_ekey hd) = Some key /\
    crypto_gcm_encrypt (mk_ctx key (h_iv hd) (b_mac b)) p (hdr_bytes (zero_mac_hdr hd))
      = Some (0, mk_ctx key (h_iv hd) (b_mac b), ct).

Definition reply_bounded (r : bucket_reply) : Prop :=
  forall data, br_data r = Some data -> Forall byte_ok data /\ Z.of_nat (length data) < 2 ^ 31.

Section acceptance.
Context `{BlockCipher} `{KeyWrapCipher}.
Variable volumekey : bytes.

Lemma load_entries_mac n b d h buf b' d' h' rest :
  load_entries n b d h buf = Some (b', d', h', rest) -> b_mac b' = b_mac b.
Proof.
  revert b d h buf. induction n as [|n IH]; intros b d h buf Hl; simpl in Hl.
  - unfold dec_ret in Hl. by simplify_eq.
  - unfold dec_bind in Hl. destruct (parse_dir_entry buf) as [[r buf']|]; [|done].
    apply IH in Hl. done.
Qed.

Lemma load_uuid_pinned b d h c flags r b' d' h' c' m t :
  bcache_get c (b_uuid b) = None -> reply_bounded r -> length (b_mac b) = 16%nat ->
  bucket_load_from_uuid volumekey b d h c flags r = Some (b', d', h', c', 0, m, t) ->
  nexus_mac_compare (b_mac b') (default [] m) = 0 ->
  pinned volumekey b r /\ forall u, b_uuid b <> u -> bcache_get c' u = bcache_get c u.
Proof.
  intros Hc Hr Hm. unfold bucket_load_from_uuid, nexus_crypto_buf_create, buffer_layer_get.
  rewrite Hc. destruct (br_data r) as [data|] eqn:Ed; [|by intros [= <- <- <- <- ? <- <-]].
  destruct (negb (br_err r =? 0)); [by intros [= <- <- <- <- ? <- <-]|].
  destruct (get_update c (b_uuid b) (br_ts r) flags) as (mb & Hmb & _). rewrite Hmb.
  destruct (nexus_crypto_buf_get _ _) as [[[cb p] m']|] eqn:Eg; [|done]. cbn [mbind option_bind].
  destruct p as [p|]; [|by intros [= <- <- <- <- ? <- <-]].
  destruct (bucket_load_from_buffer b d h p) as [[[[b1 d1] h1] rest]|] eqn:El; [|done].
  cbn [mbind option_bind]. intros [= <- <- <- <- <- <-] Hcmp.
  destruct (Hr data Ed) as [Hb Hl].
  destruct (get_authentic volumekey _ _ data cb p m' Hb Hl Eg) as (hd & key & ct & Hd & _ & _ & _ & Hk & He & -> & Hlm).
  apply load_entries_mac in El. cbn [b_mac bucket_with default] in Hcmp. rewrite El in Hcmp.
  assert (Hmac : h_mac hd = b_mac b).
  { symmetry. apply memcmp_eq; [by rewrite Hm|done]. }
  split.
  - exists data, hd, key, ct, p. rewrite <- Hmac. done.
  - intros u Hu. destruct (in_write_mode mb); [rewrite get_set_buf_ne by done|]; by apply get_update_ne.
Qed.

Lemma load_other_pinned bs rs d h c bs' d' h' c' t :
  Forall (fun b => bcache_get c (b_uuid b) = None /\ length (b_mac b) = 16%nat) bs ->
  NoDup (b_uuid <$> bs) -> Forall reply_bounded rs ->
  load_other_buckets volumekey bs rs d h c = Some (bs', d', h', c', 0, t) ->
  Forall2 (pinned volumekey) bs (take (length bs) rs).
Proof.
  revert rs d h c bs' d' h' c' t. induction bs as [|b bs IH]; intros rs d h c bs' d' h' c' t Hc Hnd Hr Hl;
    [constructor|].
  apply Forall_cons in Hc as [[Hcb Hm] Hc]. rewrite fmap_cons in Hnd. apply NoDup_cons in Hnd as [Hub Hnd].
  destruct rs as [|r rs]; [done|]. apply Forall_cons in Hr as [Hr Hrs]. cbn [load_other_buckets] in Hl.
  destruct (bucket_load_from_uuid _ _ _ _ _ _ _) as [[[[[[[b1 d1] h1] c1] ret] m] t1]|] eqn:Eb; [|done].
  cbn [mbind option_bind] in Hl. destruct (Z.eqb_spec ret 0) as [->|]; [|done]. cbn [negb] in Hl.
  destruct (Z.eqb_spec (nexus_mac_compare (b_mac b1) (default [] m)) 0) as [Hcmp|]; [|done]. cbn [negb] in Hl.
  destruct (load_uuid_pinned _ _ _ _ _ _ _ _ _ _ _ _ Hcb Hr Hm Eb Hcmp) as [Hp Hfr].
  destruct (load_other_buckets _ bs rs _ _ _) as [[[[[[bs1 d2] h2] c2] ret] t2]|] eqn:El; [|done].
  cbn [mbind option_bind] in Hl. simplify_eq. simpl. constructor; [done|].
  eapply IH; [|exact Hnd|exact Hrs|exact El].
  rewrite Forall_forall in Hc |- *. intros b' Hb'. destruct (Hc b' Hb') as [Hc' ?]. split; [|done].
  rewrite Hfr; [done|]. intros Heq. apply Hub. rewrite Heq. by apply list_elem_of_fmap_2.
Qed.
End acceptance.

(** C33: no bucket can be swapped or rolled back: when [__load_other_buckets]
    succeeds, every object it took is authentic for the bucket's UUID and
    carries exactly the MAC the dirnode's record pins; an object with any
    other MAC makes the load fail. *)
Theorem dirnode_buckets_pinned `{BlockCipher} `{KeyWrapCipher} vk bs rs d h c bs' d' h' c' t :
  Forall (fun b => bcache_get c (b_uuid b) = None /\ length (b_mac b) = 16%nat) bs ->
  NoDup (b_uuid <$> bs) -> Forall reply_bounded rs ->
  load_other_buckets vk bs rs d h c = Some (bs', d', h', c', 0, t) ->
  Forall2 (pinned vk) bs (take (length bs) rs).
Proof. apply load_other_pinned. Qed.

(** The bucket of [spread_dir] that holds its entry, as loaded from a record
    that pins the object [toy_bucket_data]. *)
Definition toy_bucket_data : bytes :=
  toy_sealed (uuid_const 3) (concat (bucket_content (cells spread_dir.2) <$> bucket_list spread_dir.1)).
Definition toy_bucket : dir_bucket :=
  {| b_addr := 9; is_dirty := false; on_disk := false; capacity := BUCKET_CAPACITY; num_items := 1;
     size_bytes := 26; b_uuid := uuid_const 3; b_mac := take 16 (drop 60 toy_bucket_data);
     dir_entries := [] |}.

Lemma dirnode_buckets_pinned_witness :
  Forall2 (pinned (H := toy_cipher) (H0 := toy_wrap) []) [toy_bucket] [mk_breply 0 (Some toy_bucket_data) 5].
Proof.
  assert (Hb : forallb (fun b => (0 <=? b) && (b <? 256)) toy_bucket_data = true) by (by vm_compute).
  eapply (dirnode_buckets_pinned (H := toy_cipher) (H0 := toy_wrap) [] [toy_bucket]
            [mk_breply 0 (Some toy_bucket_data) 5] (new_dir 1).1 (new_dir 1).2 buffer_layer_init).
  - apply Forall_singleton. split; [apply lookup_empty|]. vm_compute. reflexivity.
  - apply NoDup_singleton.
  - apply Forall_singleton. intros data Hd. apply (inj Some) in Hd. cbn [br_data] in Hd.
    rewrite <- Hd. split; [|by vm_compute]. apply Forall_forall. intros b Hin%list_elem_of_In. rewrite forallb_forall in Hb.
    specialize (Hb b Hin). unfold byte_ok. lia.
  - vm_compute. reflexivity.
Defined.
