(* ===== verification/UserTable.v ===== *)
(** * The user table

    Models [user.c]: the accounts of a volume, each a name, an id, a UUID and
    the hash of a public key, with the owner's key kept apart; its serialized
    form, its store and its load.  The list of users is a Rocq list in the
    order of the linked list.  SHA-256 and the parsing of a public key are the
    operations of the class [PubkeyHash]; the only fact used about them is the
    length of a digest.  The theorems show that names and keys stay unique,
    that an id is never handed out twice, and that a stored table comes back. *)
From S2P Require Import Prelude Types AttributeTable Gcm Crypto BufferLayer CryptoBuf.

Definition NEXUS_MAX_NAMELEN : nat := 25.
Definition NEXUS_ROOT_USER : Z := 0.
Definition CONFIG_HASH_SIZE : nat := 32.

(** [sha256 s] is [mbedtls_sha256]; [key_to_str s] parses a public key and
    prints it again ([None]: it does not parse). *)
Class PubkeyHash := {
  sha256 : bytes -> bytes;
  key_to_str : bytes -> option bytes;
  sha256_length : forall s, length (sha256 s) = CONFIG_HASH_SIZE
}.

Record nexus_user := mk_user {
  user_name : bytes;
  user_flags : Z;
  user_id : Z;
  user_uuid : uuid;
  pubkey_hash : bytes
}.

(** Of the embedded owner only the id and the key hash are ever set. *)
Record nexus_usertable := mk_usertable {
  auto_increment : Z;
  user_count : Z;
  total_size : Z;
  ut_my_uuid : uuid;
  ut_root_uuid : uuid;
  owner_id : Z;
  owner_hash : bytes;
  userlist : list nexus_user;
  ut_mac : mac;
  (* the [is_dirty] flag of the attached metadata *)
  ut_metadata : option bool
}.

#[export] Instance user_eq_dec : EqDecision nexus_user.
Proof. solve_decision. Defined.

Definition with_users (t : nexus_usertable) (incr count : Z) (l : list nexus_user) : nexus_usertable :=
  {| auto_increment := incr; user_count := count; total_size := total_size t;
     ut_my_uuid := ut_my_uuid t; ut_root_uuid := ut_root_uuid t; owner_id := owner_id t;
     owner_hash := owner_hash t; userlist := l; ut_mac := ut_mac t;
     ut_metadata := const true <$> ut_metadata t |}.

Definition with_stored (t : nexus_usertable) (size : Z) (m : mac) : nexus_usertable :=
  {| auto_increment := auto_increment t; user_count := user_count t; total_size := size;
     ut_my_uuid := ut_my_uuid t; ut_root_uuid := ut_root_uuid t; owner_id := owner_id t;
     owner_hash := owner_hash t; userlist := userlist t; ut_mac := m; ut_metadata := ut_metadata t |}.

(** [sizeof(struct __table_hdr)]: 16 + 16 + 8 + 8 + 8 + 32, and
    [sizeof(struct __user)]: 4 + 8 + 16 + 32 + 25, packed. *)
Definition TABLE_HDR_SIZE : Z := 88.
Definition USER_SIZE : Z := 85.

Definition usertable_buflen (t : nexus_usertable) : Z :=
  u64 (TABLE_HDR_SIZE + user_count t * USER_SIZE).

(** A zeroed table: the owner is user 0 with a zero hash. *)
Definition nexus_usertable_create (root my : uuid) : nexus_usertable :=
  {| auto_increment := 0; user_count := 0; total_size := 0; ut_my_uuid := my; ut_root_uuid := root;
     owner_id := 0; owner_hash := replicate CONFIG_HASH_SIZE 0; userlist := [];
     ut_mac := nexus_mac_zeroize; ut_metadata := None |}.

(** ** Serialization *)
(** [strncpy] into the zeroed 25-byte array. *)
Definition write_user_to_buf (u : nexus_user) : bytes :=
  le_encode 4 (user_flags u) ++ le_encode 8 (user_id u) ++ user_uuid u ++ pubkey_hash u ++
  take NEXUS_MAX_NAMELEN (user_name u) ++ replicate (NEXUS_MAX_NAMELEN - length (user_name u)) 0.

Definition read_user_from_buf : decoder nexus_user :=
  fl <~ dec_uint 4; id <~ dec_uint 8; u <~ dec_bytes NEXUS_UUID_SIZE; h <~ dec_bytes CONFIG_HASH_SIZE;
  name <~ dec_bytes NEXUS_MAX_NAMELEN;
  dec_ret {| user_name := cstr name; user_flags := fl; user_id := id; user_uuid := u; pubkey_hash := h |}.

Definition serialize_usertable_header (t : nexus_usertable) : bytes :=
  ut_my_uuid t ++ ut_root_uuid t ++ le_encode 8 (total_size t) ++ le_encode 8 (user_count t) ++
  le_encode 8 (auto_increment t) ++ owner_hash t.

Definition serialize_usertable (t : nexus_usertable) : bytes :=
  serialize_usertable_header t ++ concat (write_user_to_buf <$> userlist t).

(** Fills a zeroed table. *)
Definition parse_usertable_header : decoder nexus_usertable :=
  my <~ dec_bytes NEXUS_UUID_SIZE; root <~ dec_bytes NEXUS_UUID_SIZE; size <~ dec_uint 8;
  count <~ dec_uint 8; incr <~ dec_uint 8; h <~ dec_bytes CONFIG_HASH_SIZE;
  dec_ret {| auto_increment := incr; user_count := count; total_size := size; ut_my_uuid := my;
             ut_root_uuid := root; owner_id := 0; owner_hash := h; userlist := [];
             ut_mac := nexus_mac_zeroize; ut_metadata := None |}.

Definition with_list (t : nexus_usertable) (l : list nexus_user) : nexus_usertable :=
  {| auto_increment := auto_increment t; user_count := user_count t; total_size := total_size t;
     ut_my_uuid := ut_my_uuid t; ut_root_uuid := ut_root_uuid t; owner_id := owner_id t;
     owner_hash := owner_hash t; userlist := l; ut_mac := ut_mac t; ut_metadata := ut_metadata t |}.

(** The outer [None] is a read past the buffer, the inner one the result -1. *)
Definition parse_usertable (buffer : bytes) : option (option nexus_usertable) :=
  if Z.of_nat (length buffer) <? TABLE_HDR_SIZE then Some None
  else
    '(t, p) ← parse_usertable_header buffer;
    '(l, _) ← dec_list read_user_from_buf (Z.to_nat (user_count t)) p;
    Some (Some (with_list t l)).

(** ** Lookups *)
Inductive found := FoundOwner | FoundUser (u : nexus_user).

Definition usertable_find_name (t : nexus_usertable) (name : bytes) : option (nat * nexus_user) :=
  list_find (fun u => strncmp (user_name u) name NEXUS_MAX_NAMELEN = 0) (userlist t).

Definition nexus_hash_compare (h1 h2 : bytes) : Z := memcmp h1 h2.

Definition usertable_find_pubkey_hash (t : nexus_usertable) (h : bytes) : option (nat * nexus_user) :=
  list_find (fun u => nexus_hash_compare (pubkey_hash u) h = 0) (userlist t).

Definition usertable_find_uuid (t : nexus_usertable) (id : uuid) : option (nat * nexus_user) :=
  list_find (fun u => nexus_uuid_compare (user_uuid u) id = 0) (userlist t).

Definition nexus_usertable_find_name (t : nexus_usertable) (name : bytes) : option nexus_user :=
  snd <$> usertable_find_name t name.

(** The owner's key is compared first. *)
Definition nexus_usertable_find_pubkey_hash (t : nexus_usertable) (h : bytes) : option found :=
  if nexus_hash_compare (owner_hash t) h =? 0 then Some FoundOwner
  else (fun iu => FoundUser iu.2) <$> usertable_find_pubkey_hash t h.

Definition nexus_usertable_find_uuid (t : nexus_usertable) (id : uuid) : option nexus_user :=
  snd <$> usertable_find_uuid t id.

Section keys.
Context `{PubkeyHash}.

Definition nexus_usertable_set_owner_pubkey (t : nexus_usertable) (key : bytes) : nexus_usertable :=
  {| auto_increment := auto_increment t; user_count := user_count t; total_size := total_size t;
     ut_my_uuid := ut_my_uuid t; ut_root_uuid := ut_root_uuid t; owner_id := NEXUS_ROOT_USER;
     owner_hash := sha256 key; userlist := userlist t; ut_mac := ut_mac t; ut_metadata := ut_metadata t |}.

(** [crypto_hash_pubkey]: the hash of the key as it is printed again. *)
Definition crypto_hash_pubkey (key : bytes) : option bytes := sha256 <$> key_to_str key.

Definition nexus_usertable_find_pubkey (t : nexus_usertable) (key : bytes) : option found :=
  h ← crypto_hash_pubkey key; nexus_usertable_find_pubkey_hash t h.

(** ** Changes *)
(** The new account, or [None] when the name or the key is taken; [rnd] is
    the draw of [nexus_uuid_gen].  The key is hashed as it was given. *)
Definition nexus_usertable_add (t : nexus_usertable) (name key : bytes) (rnd : uuid)
    : nexus_usertable * option nexus_user :=
  let h := sha256 key in
  match nexus_usertable_find_name t name with
  | Some _ => (t, None)
  | None =>
      match nexus_usertable_find_pubkey_hash t h with
      | Some _ => (t, None)
      | None =>
          let id := auto_increment t +64 1 in
          let u := {| user_name := take NEXUS_MAX_NAMELEN name; user_flags := 0; user_id := id;
                      user_uuid := rnd; pubkey_hash := h |} in
          (with_users t id (user_count t +64 1) (userlist t ++ [u]), Some u)
      end
  end.

(** Return code and the UUID of the removed account. *)
Definition remove_found (t : nexus_usertable) (r : option (nat * nexus_user))
    : nexus_usertable * Z * option uuid :=
  match r with
  | None => (t, -1, None)
  | Some (i, u) =>
      (with_users t (auto_increment t) (user_count t -64 1) (delete i (userlist t)), 0, Some (user_uuid u))
  end.

Definition nexus_usertable_remove_username (t : nexus_usertable) (name : bytes) :=
  remove_found t (usertable_find_name t name).

Definition nexus_usertable_remove_pubkey (t : nexus_usertable) (key : bytes) :=
  match crypto_hash_pubkey key with
  | None => (t, -1, None)
  | Some h => remove_found t (usertable_find_pubkey_hash t h)
  end.
End keys.

(** [UNSAFE_dump_user_buffer] of [ecalls/users.c]: [n] accounts from [offset]
    on, and the number of all of them; [None] is -1. *)
Definition dump_user_buffer (t : nexus_usertable) (n offset : Z)
    : option (list nexus_user * Z) :=
  if user_count t <? offset then None
  else Some (take (Z.to_nat n) (drop (Z.to_nat offset) (userlist t)), user_count t).

(** ** Store and load *)
Section store.
Context `{BlockCipher} `{KeyWrapCipher}.
Variable volumekey : bytes.

Definition nexus_usertable_from_crypto_buf (c : nexus_crypto_buf) : option (option nexus_usertable) :=
  '(_, p, m) ← nexus_crypto_buf_get volumekey c;
  match p with
  | None => Some None
  | Some buf =>
      t ← parse_usertable buf;
      Some (match t with
            | None => None
            | Some t => Some (with_stored t (total_size t) (default (ut_mac t) m))
            end)
  end.

Definition nexus_usertable_load (b : bcache) (u : uuid) (flags err : Z) (data : option bytes) (ts : Z)
    : option (bcache * option nexus_usertable * list ocall) :=
  let '(b, c, t) := nexus_crypto_buf_create b u flags err data ts in
  match c with
  | None => Some (b, None, t)
  | Some c => r ← nexus_usertable_from_crypto_buf c; Some (b, r, t)
  end.

(** [caller_mac] is the MAC argument of the source: it is copied into the
    table. *)
Definition nexus_usertable_store (t : nexus_usertable) (version : Z) (caller_mac : option mac)
    (b : bcache) (env : put_env) : option (nexus_usertable * bcache * Z * list ocall) :=
  let size := usertable_buflen t in
  let buf := serialize_usertable t in
  if size <? Z.of_nat (length buf) then None
  else
    let content := buf ++ replicate (Z.to_nat size - length buf) 0 in
    '(_, b, ret, m, tr) ← nexus_crypto_buf_put volumekey
                            (nexus_crypto_buf_new content version (ut_my_uuid t)) b env;
    let t := with_stored t (total_size t) (default (ut_mac t) m) in
    if negb (ret =? 0) then Some (t, b, -1, tr)
    else Some (with_stored t size (default (ut_mac t) caller_mac), b, 0, tr).
End store.

(** ** Invariant *)
Record user_ok (u : nexus_user) : Prop := {
  uo_name : cstr_ok (user_name u) /\ (length (user_name u) <= NEXUS_MAX_NAMELEN)%nat;
  uo_flags : in_range 32 (user_flags u);
  uo_uuid : length (user_uuid u) = NEXUS_UUID_SIZE;
  uo_hash : length (pubkey_hash u) = CONFIG_HASH_SIZE
}.

(** Names and keys are unique, ids are unique and were handed out before. *)
Record ut_inv (t : nexus_usertable) : Prop := {
  ui_users : Forall user_ok (userlist t);
  ui_names : NoDup (user_name <$> userlist t);
  ui_keys : NoDup (owner_hash t :: (pubkey_hash <$> userlist t));
  ui_ids : NoDup (user_id <$> userlist t);
  ui_past : Forall (fun u => 1 <= user_id u <= auto_increment t) (userlist t);
  ui_incr : in_range 64 (auto_increment t);
  ui_owner : length (owner_hash t) = CONFIG_HASH_SIZE;
  ui_count : user_count t = Z.of_nat (length (userlist t)) /\ in_range 64 (user_count t)
}.

Section lookups.
Implicit Types (t : nexus_usertable) (u : nexus_user) (l : list nexus_user) (name h : bytes).

Lemma name_match u name :
  user_ok u -> cstr_ok name ->
  strncmp (user_name u) name NEXUS_MAX_NAMELEN = 0 <-> user_name u = take NEXUS_MAX_NAMELEN name.
Proof. intros [[Hn Hl] _ _ _] Hc. rewrite strncmp_take by done. by rewrite (take_ge (user_name u)). Qed.

Lemma hash_match u h :
  user_ok u -> length h = CONFIG_HASH_SIZE -> nexus_hash_compare (pubkey_hash u) h = 0 <-> pubkey_hash u = h.
Proof. intros [_ _ _ Hu] Hh. apply memcmp_eq. by rewrite Hu. Qed.

(** Searching a list for the only element with a given key. *)
Lemma list_find_key {K} (P : nexus_user -> Prop) `{!forall u, Decision (P u)} (key : nexus_user -> K)
    (k : K) l :
  (forall u, u ∈ l -> P u <-> key u = k) ->
  match list_find P l with
  | Some (i, u) => l !! i = Some u /\ key u = k
  | None => k ∉ key <$> l
  end.
Proof.
  intros HP. destruct (list_find P l) as [[i u]|] eqn:E.
  - apply list_find_Some in E as (Hi & Hu & _). split; [done|]. apply HP; [|done].
    by eapply list_elem_of_lookup_2.
  - apply list_find_None in E. intros (u & -> & Hu)%list_elem_of_fmap.
    rewrite Forall_forall in E. by apply (E u Hu), HP.
Qed.

Lemma user_find_name_spec t name :
  ut_inv t -> cstr_ok name ->
  match usertable_find_name t name with
  | Some (i, u) => userlist t !! i = Some u /\ user_name u = take NEXUS_MAX_NAMELEN name
  | None => take NEXUS_MAX_NAMELEN name ∉ user_name <$> userlist t
  end.
Proof.
  intros Hi Hn. apply list_find_key. intros u Hu. apply name_match; [|done].
  pose proof (ui_users _ Hi) as Hf. rewrite Forall_forall in Hf. by apply Hf.
Qed.

Lemma find_hash_spec t h :
  ut_inv t -> length h = CONFIG_HASH_SIZE ->
  match usertable_find_pubkey_hash t h with
  | Some (i, u) => userlist t !! i = Some u /\ pubkey_hash u = h
  | None => h ∉ pubkey_hash <$> userlist t
  end.
Proof.
  intros Hi Hh. apply list_find_key. intros u Hu. apply hash_match; [|done].
  pose proof (ui_users _ Hi) as Hf. rewrite Forall_forall in Hf. by apply Hf.
Qed.

Lemma find_key_spec t h :
  ut_inv t -> length h = CONFIG_HASH_SIZE ->
  match nexus_usertable_find_pubkey_hash t h with
  | Some FoundOwner => owner_hash t = h
  | Some (FoundUser u) => u ∈ userlist t /\ pubkey_hash u = h
  | None => h ∉ owner_hash t :: (pubkey_hash <$> userlist t)
  end.
Proof.
  intros Hi Hh. unfold nexus_usertable_find_pubkey_hash.
  assert (Hl : length (owner_hash t) = length h) by (rewrite Hh; apply Hi).
  unfold nexus_hash_compare. destruct (Z.eqb_spec (memcmp (owner_hash t) h) 0) as [He|He].
  { by apply memcmp_eq in He. }
  assert (Hno : owner_hash t <> h) by (intros <-; apply He; by apply memcmp_eq).
  pose proof (find_hash_spec t h Hi Hh) as Hf. destruct (usertable_find_pubkey_hash t h) as [[i u]|]; simpl.
  - destruct Hf as [Hlk Hp]. split; [by eapply list_elem_of_lookup_2|done].
  - apply not_elem_of_cons. split; [congruence|done].
Qed.
End lookups.

(** ** The contract: a set of accounts *)
(** An account's id, UUID and key hash, by name; the last id handed out; the
    owner's key hash. *)
Abbreviation account := (Z * uuid * bytes)%type.
Record accounts := mk_accounts { ac_map : gmap bytes account; ac_last : Z; ac_owner : bytes }.

Inductive ut_op :=
  | Add (name key : bytes) (rnd : uuid) | RemoveName (name : bytes) | RemoveKey (key : bytes).

(** The id of the new account, or the UUID of the removed one. *)
Inductive ut_reply := Refused | Added (id : Z) | Removed (u : uuid).

Definition key_users (m : gmap bytes account) (h : bytes) : gmap bytes account :=
  filter (fun na => na.2.2 = h) m.

Section contract.
Context `{PubkeyHash}.

Definition ac_step (a : accounts) (op : ut_op) : accounts * ut_reply :=
  match op with
  | Add name key rnd =>
      let n := take NEXUS_MAX_NAMELEN name in let h := sha256 key in
      if bool_decide (is_Some (ac_map a !! n) \/ ac_owner a = h \/ key_users (ac_map a) h <> ∅)
      then (a, Refused)
      else (mk_accounts (<[n := (ac_last a + 1, rnd, h)]> (ac_map a)) (ac_last a + 1) (ac_owner a),
            Added (ac_last a + 1))
  | RemoveName name =>
      let n := take NEXUS_MAX_NAMELEN name in
      match ac_map a !! n with
      | None => (a, Refused)
      | Some x => (mk_accounts (delete n (ac_map a)) (ac_last a) (ac_owner a), Removed x.1.2)
      end
  | RemoveKey key =>
      match crypto_hash_pubkey key with
      | None => (a, Refused)
      | Some h =>
          match map_to_list (key_users (ac_map a) h) with
          | [] => (a, Refused)
          | (n, x) :: _ => (mk_accounts (delete n (ac_map a)) (ac_last a) (ac_owner a), Removed x.1.2)
          end
      end
  end.

Definition ut_step (t : nexus_usertable) (op : ut_op) : nexus_usertable * ut_reply :=
  match op with
  | Add name key rnd =>
      let '(t, r) := nexus_usertable_add t name key rnd in
      (t, match r with Some u => Added (user_id u) | None => Refused end)
  | RemoveName name =>
      let '(t, ret, u) := nexus_usertable_remove_username t name in
      (t, match u with Some u => Removed u | None => Refused end)
  | RemoveKey key =>
      let '(t, ret, u) := nexus_usertable_remove_pubkey t key in
      (t, match u with Some u => Removed u | None => Refused end)
  end.

Fixpoint run {S} (step : S -> ut_op -> S * ut_reply) (s : S) (ops : list ut_op) : S * list ut_reply :=
  match ops with
  | [] => (s, [])
  | op :: ops' =>
      let '(s, r) := step s op in
      let '(s, rs) := run step s ops' in (s, r :: rs)
  end.

Definition ut_op_ok (op : ut_op) : Prop :=
  match op with
  | Add name _ rnd => cstr_ok name /\ length rnd = NEXUS_UUID_SIZE
  | RemoveName name => cstr_ok name
  | RemoveKey _ => True
  end.
End contract.

Definition account_of (u : nexus_user) : bytes * account :=
  (user_name u, (user_id u, user_uuid u, pubkey_hash u)).

Record ut_repr (t : nexus_usertable) (a : accounts) : Prop := {
  ur_inv : ut_inv t;
  ur_map : ac_map a = list_to_map (account_of <$> userlist t);
  ur_last : ac_last a = auto_increment t;
  ur_owner : ac_owner a = owner_hash t
}.

Section refinement.
Implicit Types (t : nexus_usertable) (u : nexus_user) (l : list nexus_user) (a : accounts)
  (name h n : bytes) (x : account).

Lemma account_names l : (account_of <$> l).*1 = user_name <$> l.
Proof. by rewrite <- list_fmap_compose. Qed.

Lemma accounts_lookup l n x :
  NoDup (user_name <$> l) ->
  (list_to_map (account_of <$> l) : gmap bytes account) !! n = Some x <->
  exists u, u ∈ l /\ account_of u = (n, x).
Proof.
  intros Hnd. rewrite <- elem_of_list_to_map by (by rewrite account_names).
  rewrite list_elem_of_fmap. split; intros (u & H1 & H2); exists u; done.
Qed.

Lemma accounts_taken l n :
  NoDup (user_name <$> l) ->
  is_Some ((list_to_map (account_of <$> l) : gmap bytes account) !! n) <-> n ∈ user_name <$> l.
Proof.
  intros Hnd. rewrite list_elem_of_fmap. split.
  - intros [x (u & Hu & [= <- _])%accounts_lookup]; [eauto|done].
  - intros (u & -> & Hu). exists (user_id u, user_uuid u, pubkey_hash u). apply accounts_lookup; eauto.
Qed.

Lemma key_users_none l h :
  NoDup (user_name <$> l) ->
  key_users (list_to_map (account_of <$> l)) h = ∅ <-> h ∉ pubkey_hash <$> l.
Proof.
  intros Hnd. unfold key_users. rewrite map_empty. split.
  - intros He (u & -> & Hu)%list_elem_of_fmap. specialize (He (user_name u)).
    rewrite map_lookup_filter_None in He. destruct He as [He|He].
    + assert (Hs : user_name u ∈ user_name <$> l) by (by apply list_elem_of_fmap_2).
      apply accounts_taken in Hs as [x Hx]; [|done]. congruence.
    + apply (He (user_id u, user_uuid u, pubkey_hash u)); [|done]. apply accounts_lookup; eauto.
  - intros Hh n. apply map_lookup_filter_None. right. intros x (u & Hu & [= <- <-])%accounts_lookup Heq; [|done].
    apply Hh. simpl in Heq. rewrite <- Heq. by apply list_elem_of_fmap_2.
Qed.

Lemma key_users_one l u :
  NoDup (user_name <$> l) -> NoDup (pubkey_hash <$> l) -> u ∈ l ->
  key_users (list_to_map (account_of <$> l)) (pubkey_hash u) = {[ user_name u := (user_id u, user_uuid u, pubkey_hash u) ]}.
Proof.
  intros Hnd Hkd Hu. apply map_eq. intros n. apply option_eq. intros x. unfold key_users.
  rewrite map_lookup_filter_Some, accounts_lookup, lookup_singleton_Some by done. split.
  - intros [(u' & Hu' & [= <- <-]) Hk]. simpl in Hk.
    assert (u' = u) as -> by (eapply (NoDup_fmap_elem pubkey_hash); done). done.
  - intros [<- <-]. eauto.
Qed.

Lemma remove_repr t a i u :
  ut_repr t a -> userlist t !! i = Some u ->
  ut_repr (remove_found t (Some (i, u))).1.1
    (mk_accounts (delete (user_name u) (ac_map a)) (ac_last a) (ac_owner a)).
Proof.
  intros [Hi Hm Hl Ho] Hu. pose proof (delete_Permutation _ _ _ Hu) as Hp.
  destruct Hi as [I1 I2 I3 I4 I5 I6 I7 [I8 I9]].
  assert (Hsub : delete i (userlist t) `sublist_of` userlist t) by apply sublist_delete.
  pose proof (length_delete _ _ (mk_is_Some _ _ Hu)) as Hlen.
  assert (Hlt : (0 < length (userlist t))%nat) by (apply lookup_lt_Some in Hu; lia).
  split; cbn [fst remove_found with_users userlist auto_increment owner_hash user_count ac_map ac_last ac_owner]; try done.
  - split; cbn [with_users userlist auto_increment owner_hash user_count]; try done.
    + by eapply Forall_sublist.
    + eapply sublist_NoDup; [exact I2|]. by apply fmap_sublist.
    + apply NoDup_cons in I3 as [I31 I32]. apply NoDup_cons. split.
      * intros Hin. apply I31. eapply elem_of_sublist; [exact Hin|]. by apply fmap_sublist.
      * eapply sublist_NoDup; [exact I32|]. by apply fmap_sublist.
    + eapply sublist_NoDup; [exact I4|]. by apply fmap_sublist.
    + by eapply Forall_sublist.
    + unfold in_range in *. rewrite wrap_small by (unfold in_range; lia). lia.
  - rewrite Hm. rewrite (list_to_map_proper (account_of <$> userlist t)
      (account_of <$> (u :: delete i (userlist t)))).
    + rewrite fmap_cons. simpl. rewrite delete_insert_id; [done|].
      apply not_elem_of_list_to_map_1. rewrite account_names. rewrite Hp in I2.
      rewrite fmap_cons in I2. by apply NoDup_cons in I2 as [? _].
    + by rewrite account_names.
    + by rewrite <- Hp.
Qed.
End refinement.

Section steps.
Context `{PubkeyHash}.
Implicit Types (t : nexus_usertable) (u : nexus_user) (a : accounts) (name key h n : bytes).

Lemma add_user_inv t u :
  ut_inv t -> user_ok u -> user_name u ∉ user_name <$> userlist t ->
  pubkey_hash u ∉ owner_hash t :: (pubkey_hash <$> userlist t) -> auto_increment t < 2 ^ 64 - 1 ->
  user_count t < 2 ^ 64 - 1 -> user_id u = auto_increment t + 1 ->
  ut_inv (with_users t (auto_increment t + 1) (user_count t + 1) (userlist t ++ [u])).
Proof.
  intros [I1 I2 I3 I4 I5 I6 I7 [I8 I9]] Hu Hn [Hh1 Hh2]%not_elem_of_cons Hb Hc Hid.
  split; cbn [with_users userlist auto_increment owner_hash user_count]; try done.
  - apply Forall_app. split; [done|by apply Forall_singleton].
  - rewrite fmap_app. apply NoDup_app. split; [done|]. split; [|apply NoDup_singleton].
    intros n Hn' ->%list_elem_of_singleton. done.
  - apply NoDup_cons in I3 as [I31 I32]. rewrite fmap_app. apply NoDup_cons. split.
    + intros [?|?%list_elem_of_singleton]%elem_of_app; [done|congruence].
    + apply NoDup_app. split; [done|]. split; [|apply NoDup_singleton].
      intros n Hn' ->%list_elem_of_singleton. done.
  - rewrite fmap_app. apply NoDup_app. split; [done|]. split; [|apply NoDup_singleton].
    intros i (u' & -> & Hu')%list_elem_of_fmap Hi%list_elem_of_singleton. rewrite Hid in Hi.
    rewrite Forall_forall in I5. specialize (I5 u' Hu'). lia.
  - unfold in_range in I6. apply Forall_app. split; [|apply Forall_singleton; lia].
    eapply Forall_impl; [exact I5|]. simpl. lia.
  - unfold in_range in *. lia.
  - rewrite length_app. unfold in_range in *. simpl. lia.
Qed.

Lemma add_step t a name key rnd :
  ut_repr t a -> cstr_ok name -> length rnd = NEXUS_UUID_SIZE -> auto_increment t < 2 ^ 64 - 1 ->
  user_count t < 2 ^ 64 - 1 ->
  ut_repr (ut_step t (Add name key rnd)).1 (ac_step a (Add name key rnd)).1 /\
  (ut_step t (Add name key rnd)).2 = (ac_step a (Add name key rnd)).2.
Proof.
  intros Hr Hn Hrnd Hb Hc. pose proof Hr as [Hi Hm Hl Ho].
  cbn [ut_step ac_step]. unfold nexus_usertable_add, nexus_usertable_find_name.
  set (n := take NEXUS_MAX_NAMELEN name).
  pose proof (user_find_name_spec t name Hi Hn) as Hf1. fold n in Hf1.
  destruct (usertable_find_name t name) as [[i u]|]; cbn [fmap option_fmap option_map].
  { rewrite bool_decide_eq_true_2; [done|]. left. rewrite Hm. apply accounts_taken; [apply Hi|].
    destruct Hf1 as [Hf1 <-]. apply list_elem_of_fmap_2. by eapply list_elem_of_lookup_2. }
  pose proof (find_key_spec t (sha256 key) Hi (sha256_length key)) as Hf2.
  destruct (nexus_usertable_find_pubkey_hash t (sha256 key)) as [f|].
  { rewrite bool_decide_eq_true_2; [done|]. right. destruct f as [|u]; [left; by rewrite Ho|right].
    rewrite Hm, key_users_none by apply Hi. intros Hx. apply Hx. destruct Hf2 as [Hu <-].
    by apply list_elem_of_fmap_2. }
  rewrite bool_decide_eq_false_2; [|rewrite Hm, Ho, accounts_taken, key_users_none by apply Hi;
    apply not_elem_of_cons in Hf2 as [? ?]; intros [?|[?|?]]; [done|congruence|done]].
  pose proof (ui_incr _ Hi) as Hir. pose proof (proj2 (ui_count _ Hi)) as Hcr. unfold in_range in Hir, Hcr.
  rewrite !wrap_small by (unfold in_range; lia). cbn [fst snd]. split; [|by rewrite Hl].
  split; cbn [ac_map ac_last ac_owner].
  - apply add_user_inv; try done. split; cbn; [|done|done|apply sha256_length].
    split; [by apply Forall_take|]. rewrite length_take. unfold NEXUS_MAX_NAMELEN. lia.
  - cbn [with_users userlist]. rewrite fmap_app, Hm, Hl. symmetry. apply list_to_map_snoc.
    by rewrite account_names.
  - cbn [with_users auto_increment]. lia.
  - done.
Qed.

Lemma remove_step t a op :
  ut_repr t a -> ut_op_ok op -> (forall name key rnd, op <> Add name key rnd) ->
  ut_repr (ut_step t op).1 (ac_step a op).1 /\ (ut_step t op).2 = (ac_step a op).2 /\
  auto_increment (ut_step t op).1 = auto_increment t /\ user_count (ut_step t op).1 <= user_count t.
Proof.
  intros Hr Hop Hno. pose proof Hr as [Hi Hm Hl Ho]. pose proof (proj2 (ui_count _ Hi)) as Hcr.
  unfold in_range in Hcr. pose proof (ui_keys _ Hi) as [_ Hkd]%NoDup_cons.
  assert (Hrem : forall i u, userlist t !! i = Some u -> user_count t -64 1 <= user_count t).
  { intros i u Hu%lookup_lt_Some. destruct (ui_count _ Hi) as [Hc _].
    rewrite wrap_small by (unfold in_range; lia). lia. }
  destruct op as [name key rnd|name|key]; [by destruct (Hno name key rnd)| |]; cbn [ut_step ac_step].
  - unfold nexus_usertable_remove_username. pose proof (user_find_name_spec t name Hi Hop) as Hf.
    destruct (usertable_find_name t name) as [[i u]|]; cbn [remove_found].
    + destruct Hf as [Hu <-].
      assert (Hlk : ac_map a !! user_name u = Some (user_id u, user_uuid u, pubkey_hash u)).
      { rewrite Hm. apply accounts_lookup; [apply Hi|]. exists u. split; [by eapply list_elem_of_lookup_2|done]. }
      rewrite Hlk. cbn. split; [by apply (remove_repr t a i u)|]. eauto.
    + assert (Hlk : ac_map a !! take NEXUS_MAX_NAMELEN name = None).
      { apply eq_None_not_Some. rewrite Hm. by rewrite accounts_taken by apply Hi. }
      rewrite Hlk. cbn. split_and!; try done; lia.
  - unfold nexus_usertable_remove_pubkey. destruct (crypto_hash_pubkey key) as [h|] eqn:Eh;
      [|cbn; split_and!; try done; lia].
    assert (Hh : length h = CONFIG_HASH_SIZE).
    { unfold crypto_hash_pubkey in Eh. destruct (key_to_str key); simplify_eq/=. apply sha256_length. }
    pose proof (find_hash_spec t h Hi Hh) as Hf.
    destruct (usertable_find_pubkey_hash t h) as [[i u]|]; cbn [remove_found].
    + destruct Hf as [Hu <-]. rewrite Hm, key_users_one; [|apply Hi|done|by eapply list_elem_of_lookup_2].
      rewrite map_to_list_singleton, <- Hm. cbn. split; [by apply (remove_repr t a i u)|]. eauto.
    + apply key_users_none in Hf; [|apply Hi]. rewrite Hm, Hf, map_to_list_empty. cbn.
      split_and!; try done; lia.
Qed.

(** One operation: the replies agree, and the counters move by at most one. *)
Lemma step_refines t a op :
  ut_repr t a -> ut_op_ok op -> auto_increment t < 2 ^ 64 - 1 -> user_count t <= auto_increment t ->
  ut_repr (ut_step t op).1 (ac_step a op).1 /\ (ut_step t op).2 = (ac_step a op).2 /\
  auto_increment (ut_step t op).1 <= auto_increment t + 1 /\
  user_count (ut_step t op).1 <= auto_increment (ut_step t op).1.
Proof.
  intros Hr Hop Hb Hc. destruct op as [name key rnd|name|key].
  - destruct Hop as [Hn Hu]. destruct (add_step t a name key rnd Hr Hn Hu Hb) as [H1 H2]; [lia|].
    split; [done|]. split; [done|]. cbn [ut_step]. unfold nexus_usertable_add.
    pose proof (ui_incr _ (ur_inv _ _ Hr)) as Hir. pose proof (proj2 (ui_count _ (ur_inv _ _ Hr))) as Hcr.
    unfold in_range in Hir, Hcr. rewrite !wrap_small by (unfold in_range; lia).
    destruct (nexus_usertable_find_name t name); [cbn; lia|].
    destruct (nexus_usertable_find_pubkey_hash t (sha256 key)); cbn; lia.
  - destruct (remove_step t a _ Hr Hop) as (H1 & H2 & H3 & H4); [done|]. rewrite H3. split_and!; done || lia.
  - destruct (remove_step t a _ Hr Hop) as (H1 & H2 & H3 & H4); [done|]. rewrite H3. split_and!; done || lia.
Qed.

Lemma run_refines_ut ops t a :
  ut_repr t a -> Forall ut_op_ok ops -> auto_increment t + Z.of_nat (length ops) < 2 ^ 64 ->
  user_count t <= auto_increment t ->
  ut_repr (run ut_step t ops).1 (run ac_step a ops).1 /\ (run ut_step t ops).2 = (run ac_step a ops).2.
Proof.
  revert t a. induction ops as [|op ops IH]; intros t a Hr Hok Hb Hc; [done|].
  apply Forall_cons in Hok as [Hop Hok]. cbn [length] in Hb.
  destruct (step_refines t a op Hr Hop) as (H1 & H2 & H3 & H4); [lia|done|].
  cbn [run]. destruct (ut_step t op) as [t1 r1], (ac_step a op) as [a1 r2]. cbn [fst snd] in *.
  destruct (IH t1 a1 H1 Hok) as [IH1 IH2]; [lia|done|].
  destruct (run ut_step t1 ops), (run ac_step a1 ops). cbn [fst snd] in *. split; [done|congruence].
Qed.
End steps.

(** ** The serialized form *)
Definition user_storable (u : nexus_user) : Prop := user_ok u /\ in_range 64 (user_id u).

Lemma user_roundtrip u rest :
  user_storable u -> read_user_from_buf (write_user_to_buf u ++ rest) = Some (u, rest).
Proof.
  intros [[[Hc Hl] Hf Hu Hh] Hid]. unfold read_user_from_buf, write_user_to_buf. rewrite <- !app_assoc.
  do 4 dec_step. rewrite (take_ge (user_name u)) by done. rewrite app_assoc. unfold dec_bind at 1.
  rewrite dec_bytes_app by (rewrite length_app, length_replicate; lia).
  rewrite cstr_app, cstr_replicate, app_nil_r by done. by destruct u.
Qed.

#[export] Instance user_codec : Codec nexus_user :=
  {| enc := write_user_to_buf; dec := read_user_from_buf; enc_ok := user_storable; dec_enc := user_roundtrip |}.

Lemma length_write_users l :
  Forall user_ok l -> length (concat (write_user_to_buf <$> l)) = (85 * length l)%nat.
Proof.
  induction 1 as [|u l [[_ Hn] _ Hu Hh] _ IH]; [done|]. rewrite fmap_cons. cbn [concat length].
  rewrite length_app, IH. unfold write_user_to_buf.
  rewrite !length_app, !length_le_encode, Hu, Hh, length_take, length_replicate.
  unfold NEXUS_UUID_SIZE, CONFIG_HASH_SIZE, NEXUS_MAX_NAMELEN in *. lia.
Qed.

Record ut_storable (t : nexus_usertable) : Prop := {
  us_inv : ut_inv t;
  us_my : length (ut_my_uuid t) = 16%nat;
  us_root : length (ut_root_uuid t) = 16%nat;
  us_total : in_range 64 (total_size t);
  us_size : usertable_buflen t < 2 ^ 31;
  us_count : user_count t < 2 ^ 56
}.

(** The same table in another enclave: everything but the cached MAC, the
    owner's constant id and the dirty flag. *)
Definition ut_same (t t' : nexus_usertable) : Prop :=
  auto_increment t' = auto_increment t /\ user_count t' = user_count t /\ userlist t' = userlist t /\
  ut_my_uuid t' = ut_my_uuid t /\ ut_root_uuid t' = ut_root_uuid t /\ owner_hash t' = owner_hash t.

Lemma usertable_codec t :
  ut_storable t ->
  exists t', parse_usertable (serialize_usertable t) = Some (Some t') /\ ut_same t t' /\
    Z.of_nat (length (serialize_usertable t)) = usertable_buflen t.
Proof.
  intros [Hi Hm Hr Ht Hs Hc]. pose proof (ui_incr _ Hi) as Hir. destruct (ui_count _ Hi) as [Hcnt _].
  pose proof (length_write_users _ (ui_users _ Hi)) as Hlu. pose proof (ui_owner _ Hi) as Hol.
  assert (Hlh : length (serialize_usertable_header t) = 88%nat).
  { unfold serialize_usertable_header. by rewrite !length_app, !length_le_encode, Hm, Hr, Hol. }
  assert (Hsz : Z.of_nat (length (serialize_usertable t)) = usertable_buflen t).
  { unfold serialize_usertable, usertable_buflen, TABLE_HDR_SIZE, USER_SIZE.
    rewrite length_app, Hlh, Hlu, wrap_small by (unfold in_range; lia). lia. }
  unfold parse_usertable. rewrite Hsz. unfold serialize_usertable in Hsz |- *. rewrite <- Hsz, length_app, Hlh.
  rewrite (proj2 (Z.ltb_ge _ _)) by (unfold TABLE_HDR_SIZE; lia).
  unfold parse_usertable_header, serialize_usertable_header. rewrite <- !app_assoc.
  unfold in_range in *. do 6 dec_step. cbn [mbind option_bind dec_ret user_count].
  rewrite Hcnt, Nat2Z.id. rewrite <- (app_nil_r (concat _)).
  change read_user_from_buf with (dec (A := nexus_user)). change write_user_to_buf with (enc (A := nexus_user)).
  rewrite dec_list_app.
  - eexists. split; [done|]. split; [by rewrite <- Hcnt|done].
  - pose proof (ui_users _ Hi) as Hu. pose proof (ui_past _ Hi) as Hp. rewrite Forall_forall in Hu, Hp |- *.
    intros u Hin. split; [by apply Hu|]. specialize (Hp u Hin). unfold in_range. lia.
Qed.

Lemma usertable_store_spec `{BlockCipher} `{KeyWrapCipher} vk t version m0 b env mem :
  ut_storable t -> one_writer b (ut_my_uuid t) -> in_range 32 version ->
  key_ok (pe_draw env).1 -> key_ok (pe_draw env).2 -> pe_heap env = Some mem ->
  exists t' b' data m, nexus_usertable_store vk t version m0 b env =
      Some (t', b', if failed (pe_reply env) then -1 else 0, [ocall_buffer_put (ut_my_uuid t) data 0]) /\
    userlist t' = userlist t /\ ut_mac t' = (if failed (pe_reply env) then m else default m m0) /\
    (if failed (pe_reply env) then
       exists flags, buffer_layer_lock_status b' (ut_my_uuid t) = Some flags /\ nexus_io_in_lock_mode flags = true
     else idle b' (ut_my_uuid t)) /\
    external_version data = u32 (version + 1) /\
    forall ctx, exists t2,
      nexus_usertable_from_crypto_buf vk
        (mk_cbuf ctx (external_version data) 0 (ut_my_uuid t) (Some (ExtStore data)) None)
        = Some (Some t2) /\ ut_same t t2 /\ ut_mac t2 = m.
Proof.
  intros Hs Hw Hv Hk1 Hk2 Hh. destruct (usertable_codec t Hs) as (t2 & Hparse & Hsame & Hlen).
  set (u := ut_my_uuid t). unfold nexus_usertable_store. fold u.
  destruct (store_buffer_spec vk b u _ _ version env mem Hw Hv Hk1 Hk2 Hlen (us_size _ Hs) Hh)
    as (-> & c' & b' & data & m & -> & Hsd & Hev & Hlock). cbn [mbind option_bind].
  exists (if failed (pe_reply env) then with_stored t (total_size t) m
          else with_stored t (usertable_buflen t) (default m m0)), b', data, m.
  split; [by destruct (failed (pe_reply env))|]. split; [by destruct (failed (pe_reply env))|].
  split; [by destruct (failed (pe_reply env))|]. split; [done|]. split; [done|].
  intros ctx. unfold nexus_usertable_from_crypto_buf.
  destruct (get_sealed vk u _ _ data m (mk_cbuf ctx (external_version data) 0 u (Some (ExtStore data)) None) Hsd)
    as (c3 & ->); [done..|]. cbn [mbind option_bind]. rewrite Hparse. cbn [mbind option_bind].
  eexists. split; [done|]. done.
Qed.

(** What lookups return, in terms of the accounts. *)
Section answers.
Implicit Types (t : nexus_usertable) (u : nexus_user) (a : accounts) (name h : bytes).

Lemma find_name_answer t a name :
  ut_repr t a -> cstr_ok name ->
  (fun u => (account_of u).2) <$> nexus_usertable_find_name t name = ac_map a !! take NEXUS_MAX_NAMELEN name.
Proof.
  intros [Hi Hm _ _] Hn. unfold nexus_usertable_find_name. pose proof (user_find_name_spec t name Hi Hn) as Hf.
  rewrite Hm. destruct (usertable_find_name t name) as [[i u]|]; simpl.
  - destruct Hf as [Hu <-]. symmetry. apply accounts_lookup; [apply Hi|]. exists u.
    split; [by eapply list_elem_of_lookup_2|done].
  - symmetry. apply eq_None_not_Some. by rewrite accounts_taken by apply Hi.
Qed.

Lemma find_key_answer t a h :
  ut_repr t a -> length h = CONFIG_HASH_SIZE ->
  match nexus_usertable_find_pubkey_hash t h with
  | Some FoundOwner => ac_owner a = h
  | Some (FoundUser u) => ac_map a !! user_name u = Some (user_id u, user_uuid u, h)
  | None => ac_owner a <> h /\ key_users (ac_map a) h = ∅
  end.
Proof.
  intros [Hi Hm _ Ho] Hh. pose proof (find_key_spec t h Hi Hh) as Hf.
  destruct (nexus_usertable_find_pubkey_hash t h) as [[|u]|]; rewrite ?Hm, ?Ho.
  - done.
  - destruct Hf as [Hu <-]. apply accounts_lookup; [apply Hi|]. by exists u.
  - apply not_elem_of_cons in Hf as [? ?]. split; [congruence|]. by apply key_users_none; [apply Hi|].
Qed.

Context `{PubkeyHash}.

Definition added_id (r : ut_reply) : option Z := match r with Added id => Some id | _ => None end.

Lemma run_ids ops a :
  omap added_id (run ac_step a ops).2
  = seqZ (ac_last a + 1) (Z.of_nat (length (omap added_id (run ac_step a ops).2))).
Proof.
  revert a. induction ops as [|op ops IH]; intros a; [done|]. cbn [run].
  assert (Hstep : match (ac_step a op).2 with
    | Added id => id = ac_last a + 1 /\ ac_last (ac_step a op).1 = id
    | _ => ac_last (ac_step a op).1 = ac_last a end).
  { destruct op; cbn [ac_step]; repeat case_match; simpl in *; simplify_eq/=; done. }
  destruct (ac_step a op) as [a1 r]. cbn [fst snd] in Hstep. specialize (IH a1).
  destruct (run ac_step a1 ops) as [a2 rs]. cbn [fst snd] in *. cbn [omap list_omap].
  destruct r as [|id|u]; cbn [added_id]; [by rewrite Hstep in IH| |by rewrite Hstep in IH].
  destruct Hstep as [-> Hl]. rewrite Hl in IH. cbn [length]. rewrite seqZ_cons by lia. f_equal.
  etransitivity; [exact IH|]. f_equal; lia.
Qed.

Lemma new_table_repr root my key :
  ut_repr (nexus_usertable_set_owner_pubkey (nexus_usertable_create root my) key)
    (mk_accounts ∅ 0 (sha256 key)).
Proof.
  split; cbn; try done. split; cbn; try done; [apply NoDup_nil_2|apply NoDup_singleton|apply NoDup_nil_2|
    apply sha256_length].
Qed.
End answers.

(** C34: the user table is a set of accounts: over any sequence of additions
    and removals on a fresh table, each reply is the one of the abstract
    machine (an addition is refused exactly when the name, cut at 25
    characters, or the key is in use or is the owner's), and lookups by name
    and by key hash return exactly the accounts it holds: a removed user's key
    no longer authenticates. *)
Theorem usertable_refines_accounts `{PubkeyHash} root my key ops :
  Forall ut_op_ok ops -> Z.of_nat (length ops) < 2 ^ 64 ->
  let '(t, rs) := run ut_step (nexus_usertable_set_owner_pubkey (nexus_usertable_create root my) key) ops in
  let '(a, rs') := run ac_step (mk_accounts ∅ 0 (sha256 key)) ops in
  rs = rs' /\ user_count t = Z.of_nat (size (ac_map a)) /\
  (forall name, cstr_ok name ->
     (fun u => (account_of u).2) <$> nexus_usertable_find_name t name
     = ac_map a !! take NEXUS_MAX_NAMELEN name) /\
  (forall h, length h = CONFIG_HASH_SIZE ->
     match nexus_usertable_find_pubkey_hash t h with
     | Some FoundOwner => ac_owner a = h
     | Some (FoundUser u) => ac_map a !! user_name u = Some (user_id u, user_uuid u, h)
     | None => ac_owner a <> h /\ key_users (ac_map a) h = ∅
     end).
Proof.
  intros Hok Hlen. pose proof (run_refines_ut ops _ _ (new_table_repr root my key) Hok) as Hr.
  destruct (run ut_step _ ops) as [t rs], (run ac_step _ ops) as [a rs']. cbn [fst snd] in Hr.
  destruct Hr as [Hr ->]; [simpl; lia|done|]. split; [done|]. split; [|split].
  - pose proof (ur_inv _ _ Hr) as Hi. rewrite (ur_map _ _ Hr), (proj1 (ui_count _ Hi)). f_equal.
    rewrite <- length_map_to_list, map_to_list_to_map by (rewrite account_names; apply Hi).
    by rewrite length_fmap.
  - intros name Hn. by apply find_name_answer.
  - intros h Hh. by apply find_key_answer.
Qed.

(** An id is never handed out twice: over any sequence of additions and
    removals the ids of the new accounts are 1, 2, 3, ... in this order,
    whatever was removed in between. *)
Theorem usertable_ids_never_reused `{PubkeyHash} root my key ops :
  Forall ut_op_ok ops -> Z.of_nat (length ops) < 2 ^ 64 ->
  let rs := (run ut_step (nexus_usertable_set_owner_pubkey (nexus_usertable_create root my) key) ops).2 in
  omap added_id rs = seqZ 1 (Z.of_nat (length (omap added_id rs))).
Proof.
  intros Hok Hlen. destruct (run_refines_ut ops _ _ (new_table_repr root my key) Hok) as [_ ->];
    [simpl; lia|done|]. apply run_ids.
Qed.

(** ** Concrete tables *)
Lemma toy_digest_length (s : bytes) : length (take 32 (s ++ replicate 32 0)) = CONFIG_HASH_SIZE.
Proof. rewrite length_take, length_app, length_replicate. unfold CONFIG_HASH_SIZE. lia. Qed.

(** A digest that pads the key, and keys printed as they are given. *)
Definition toy_hash : PubkeyHash :=
  {| sha256 := fun s => take 32 (s ++ replicate 32 0); key_to_str := Some;
     sha256_length := toy_digest_length |}.

(** Two accounts, a refused duplicate key, a removal and a new account. *)
Definition toy_ops : list ut_op :=
  [Add [97] [1] (uuid_const 1); Add [98] [2] (uuid_const 2); Add [99] [1] (uuid_const 3);
   RemoveName [97]; Add [99] [1] (uuid_const 3); RemoveKey [2]].

Lemma toy_ops_ok : Forall ut_op_ok toy_ops.
Proof. repeat constructor; lia. Qed.

Lemma usertable_refines_accounts_witness :
  let '(t, rs) := run (ut_step (H := toy_hash)) (nexus_usertable_set_owner_pubkey (H := toy_hash)
                    (nexus_usertable_create (uuid_const 8) (uuid_const 9)) [7]) toy_ops in
  let '(a, rs') := run (ac_step (H := toy_hash)) (mk_accounts ∅ 0 (sha256 (PubkeyHash := toy_hash) [7])) toy_ops in
  rs = rs' /\ user_count t = Z.of_nat (size (ac_map a)) /\
  (forall name, cstr_ok name ->
     (fun u => (account_of u).2) <$> nexus_usertable_find_name t name
     = ac_map a !! take NEXUS_MAX_NAMELEN name) /\
  (forall h, length h = CONFIG_HASH_SIZE ->
     match nexus_usertable_find_pubkey_hash t h with
     | Some FoundOwner => ac_owner a = h
     | Some (FoundUser u) => ac_map a !! user_name u = Some (user_id u, user_uuid u, h)
     | None => ac_owner a <> h /\ key_users (ac_map a) h = ∅
     end).
Proof.
  apply (usertable_refines_accounts (H := toy_hash) (uuid_const 8) (uuid_const 9) [7] toy_ops);
    [apply toy_ops_ok|by vm_compute].
Defined.

Lemma usertable_ids_witness :
  let rs := (run (ut_step (H := toy_hash)) (nexus_usertable_set_owner_pubkey (H := toy_hash)
               (nexus_usertable_create (uuid_const 8) (uuid_const 9)) [7]) toy_ops).2 in
  rs = [Added 1; Added 2; Refused; Removed (uuid_const 1); Added 3; Removed (uuid_const 2)] /\
  omap added_id rs = seqZ 1 (Z.of_nat (length (omap added_id rs))).
Proof.
  split; [by vm_compute|].
  apply (usertable_ids_never_reused (H := toy_hash) (uuid_const 8) (uuid_const 9) [7] toy_ops);
    [apply toy_ops_ok|by vm_compute].
Defined.

(** A stored user table comes back in any enclave that holds the volume
    key: the same accounts in the same order, counters, UUIDs and owner key,
    under the MAC of the stored bytes; a refused flush returns -1, keeps the
    lock, and leaves the accounts in memory as they were. *)
Theorem usertable_store_load `{BlockCipher} `{KeyWrapCipher} vk t version m0 b env mem :
  ut_storable t -> one_writer b (ut_my_uuid t) -> in_range 32 version ->
  key_ok (pe_draw env).1 -> key_ok (pe_draw env).2 -> pe_heap env = Some mem ->
  exists t' b' data m, nexus_usertable_store vk t version m0 b env =
      Some (t', b', if failed (pe_reply env) then -1 else 0, [ocall_buffer_put (ut_my_uuid t) data 0]) /\
    userlist t' = userlist t /\ ut_mac t' = (if failed (pe_reply env) then m else default m m0) /\
    (if failed (pe_reply env) then
       exists flags, buffer_layer_lock_status b' (ut_my_uuid t) = Some flags /\ nexus_io_in_lock_mode flags = true
     else idle b' (ut_my_uuid t)) /\
    external_version data = u32 (version + 1) /\
    forall ctx, exists t2,
      nexus_usertable_from_crypto_buf vk
        (mk_cbuf ctx (external_version data) 0 (ut_my_uuid t) (Some (ExtStore data)) None)
        = Some (Some t2) /\ ut_same t t2 /\ ut_mac t2 = m.
Proof. apply usertable_store_spec. Qed.

(** The table [toy_ops] leaves. *)
Definition toy_table : nexus_usertable :=
  (run (ut_step (H := toy_hash)) (nexus_usertable_set_owner_pubkey (H := toy_hash)
     (nexus_usertable_create (uuid_const 8) (uuid_const 9)) [7]) toy_ops).1.

Lemma toy_table_storable : ut_storable toy_table.
Proof.
  destruct (run_refines_ut (H := toy_hash) toy_ops _ _ (new_table_repr (H := toy_hash) (uuid_const 8)
    (uuid_const 9) [7]) toy_ops_ok) as [Hr _]; [by vm_compute|done|].
  split; [apply Hr| | | | |]; by vm_compute.
Qed.

Lemma usertable_store_load_witness :
  exists t' b' data m,
    nexus_usertable_store (H := toy_cipher) (H0 := toy_wrap) [] toy_table 4 None
      (held_cache (uuid_const 9) 1) (toy_env reply_ok) =
      Some (t', b', 0, [ocall_buffer_put (uuid_const 9) data 0]) /\
    userlist t' = userlist toy_table /\ ut_mac t' = m /\ idle b' (uuid_const 9) /\
    external_version data = 5 /\
    forall ctx, exists t2,
      nexus_usertable_from_crypto_buf (H := toy_cipher) (H0 := toy_wrap) []
        (mk_cbuf ctx (external_version data) 0 (uuid_const 9) (Some (ExtStore data)) None)
        = Some (Some t2) /\ ut_same toy_table t2 /\ ut_mac t2 = m.
Proof.
  apply (usertable_store_load (H := toy_cipher) (H0 := toy_wrap) [] toy_table 4 None
    (held_cache (uuid_const 9) 1) (toy_env reply_ok) []).
  - apply toy_table_storable.
  - apply held_one_writer.
  - by vm_compute.
  - apply toy_draw_ok. unfold byte_ok. lia.
  - apply toy_draw_ok. unfold byte_ok. lia.
  - done.
Defined.
