(* ===== verification/Supernode.v ===== *)
(** * The supernode

    Models [supernode.c]: the anchor of a volume, which names its root
    directory, its user table, its hardlink table and the two stores of the
    access control engine.  The five random draws of [supernode_create] are
    arguments.  [supernode_store] takes its version as a signed [int] where
    the other kinds take an unsigned one; the crypto buffer reduces it. *)
From S2P Require Import Prelude Types Gcm Crypto BufferLayer CryptoBuf.

Record abac_superinfo := mk_superinfo { policy_store_uuid : uuid; attribute_space_uuid : uuid }.

Record nexus_supernode := mk_supernode {
  sn_my_uuid : uuid;
  sn_root_uuid : uuid;
  usertable_uuid : uuid;
  hardlink_table_uuid : uuid;
  sn_abac_superinfo : abac_superinfo;
  sn_mac : mac;
  (* the [is_dirty] flag of the attached metadata *)
  sn_metadata : option bool
}.

Definition sn_with_metadata (s : nexus_supernode) (m : option bool) : nexus_supernode :=
  {| sn_my_uuid := sn_my_uuid s; sn_root_uuid := sn_root_uuid s; usertable_uuid := usertable_uuid s;
     hardlink_table_uuid := hardlink_table_uuid s; sn_abac_superinfo := sn_abac_superinfo s;
     sn_mac := sn_mac s; sn_metadata := m |}.
Definition supernode_set_clean (s : nexus_supernode) := sn_with_metadata s (const false <$> sn_metadata s).
Definition supernode_set_dirty (s : nexus_supernode) := sn_with_metadata s (const true <$> sn_metadata s).

(** [sizeof(struct __supernode_hdr)]: six UUIDs. *)
Definition SUPERNODE_HDR_SIZE : Z := 96.
Definition supernode_buflen (s : nexus_supernode) : Z := SUPERNODE_HDR_SIZE.

Definition serialize_supernode_header (s : nexus_supernode) : bytes :=
  sn_my_uuid s ++ sn_root_uuid s ++ usertable_uuid s ++ hardlink_table_uuid s ++
  policy_store_uuid (sn_abac_superinfo s) ++ attribute_space_uuid (sn_abac_superinfo s).

(** The inner [None] is NULL: the buffer is too short.  Fills a zeroed
    supernode. *)
Definition parse_supernode_header (buffer : bytes) : option (option nexus_supernode) :=
  if Z.of_nat (length buffer) <? SUPERNODE_HDR_SIZE then Some None
  else
    '(s, _) ← (my <~ dec_bytes NEXUS_UUID_SIZE; root <~ dec_bytes NEXUS_UUID_SIZE;
               ut <~ dec_bytes NEXUS_UUID_SIZE; hl <~ dec_bytes NEXUS_UUID_SIZE;
               ps <~ dec_bytes NEXUS_UUID_SIZE; sp <~ dec_bytes NEXUS_UUID_SIZE;
               dec_ret (mk_supernode my root ut hl (mk_superinfo ps sp) nexus_mac_zeroize None)) buffer;
    Some (Some s).

Definition supernode_create (my root hl ut : uuid) : nexus_supernode :=
  mk_supernode my root ut hl (mk_superinfo nexus_uuid_zeroize nexus_uuid_zeroize) nexus_mac_zeroize None.

Section store.
Context `{BlockCipher} `{KeyWrapCipher}.
Variable volumekey : bytes.

Definition supernode_from_crypto_buf (c : nexus_crypto_buf) : option (option nexus_supernode) :=
  '(_, p, _) ← nexus_crypto_buf_get volumekey c;
  match p with
  | None => Some None
  | Some buf => parse_supernode_header buf
  end.

Definition supernode_load (b : bcache) (u : uuid) (flags err : Z) (data : option bytes) (ts : Z)
    : option (bcache * option nexus_supernode * list ocall) :=
  let '(b, c, t) := nexus_crypto_buf_create b u flags err data ts in
  match c with
  | None => Some (b, None, t)
  | Some c => s ← supernode_from_crypto_buf c; Some (b, s, t)
  end.

(** Return code and MAC. *)
Definition supernode_store (s : nexus_supernode) (version : Z) (b : bcache) (env : put_env)
    : option (nexus_supernode * bcache * Z * option mac * list ocall) :=
  let size := supernode_buflen s in
  let buf := serialize_supernode_header s in
  if size <? Z.of_nat (length buf) then None
  else
    let content := buf ++ replicate (Z.to_nat size - length buf) 0 in
    '(_, b, ret, m, tr) ← nexus_crypto_buf_put volumekey
                            (nexus_crypto_buf_new content (u32 version) (sn_my_uuid s)) b env;
    if negb (ret =? 0) then Some (s, b, ret, m, tr)
    else Some (supernode_set_clean s, b, 0, m, tr).
End store.

(** ** The serialized form *)
Definition superinfo_ok (i : abac_superinfo) : Prop :=
  length (policy_store_uuid i) = 16%nat /\ length (attribute_space_uuid i) = 16%nat.
Record sn_storable (s : nexus_supernode) : Prop := {
  so_my : length (sn_my_uuid s) = 16%nat;
  so_root : length (sn_root_uuid s) = 16%nat;
  so_ut : length (usertable_uuid s) = 16%nat;
  so_hl : length (hardlink_table_uuid s) = 16%nat;
  so_info : superinfo_ok (sn_abac_superinfo s)
}.

(** Every UUID a volume hangs on. *)
Definition sn_same (s s' : nexus_supernode) : Prop :=
  sn_my_uuid s' = sn_my_uuid s /\ sn_root_uuid s' = sn_root_uuid s /\
  usertable_uuid s' = usertable_uuid s /\ hardlink_table_uuid s' = hardlink_table_uuid s /\
  sn_abac_superinfo s' = sn_abac_superinfo s.

Lemma supernode_codec s :
  sn_storable s ->
  length (serialize_supernode_header s) = 96%nat /\
  exists s', parse_supernode_header (serialize_supernode_header s) = Some (Some s') /\ sn_same s s'.
Proof.
  intros [H1 H2 H3 H4 [H5 H6]].
  assert (Hl : length (serialize_supernode_header s) = 96%nat).
  { unfold serialize_supernode_header. by rewrite !length_app, H1, H2, H3, H4, H5, H6. }
  split; [done|]. unfold parse_supernode_header. rewrite Hl. cbn [Z.of_nat Z.ltb].
  rewrite (proj2 (Z.ltb_ge _ _)) by (unfold SUPERNODE_HDR_SIZE; lia).
  unfold serialize_supernode_header. rewrite <- (app_nil_r (attribute_space_uuid _)).
  do 6 dec_step. eexists. split; [done|]. split_and!; try done. by destruct (sn_abac_superinfo s).
Qed.
