(* ===== verification/FsOps.v ===== *)
(** * File system operations

    Models the operations of [ecalls/dirs.c] on loaded metadata: create,
    remove, lookup, symlink, readlink, hardlink and rename, over the dirnodes,
    the hardlink table and the objects they delete from the volume.  Path
    lookup, access checks and flushing are the callers' part: the replies of
    the buffer layer and of the table's flush are arguments. *)
From S2P Require Import Prelude Hashmap Types AttributeTable Dirnode DirnodeSpec.
From S2P Require Import Gcm Crypto BufferLayer CryptoBuf HardlinkTable.

Record fs := mk_fs {
  fs_dirs : dirnodes;
  fs_heap : dheap;
  fs_links : hardlink_table;
  fs_deleted : list uuid             (* [nexus_vfs_delete] calls, oldest first *)
}.

(** What the calls into the metadata layer return: the table could be
    acquired, its flush result, the reply of [buffer_layer_new]. *)
Record fs_env := mk_fsenv { en_table : bool; en_flush : Z; en_new : reply; en_rnd : uuid }.

Definition set_dir (s : fs) (d : Z) (dn : nexus_dirnode) (h : dheap) : fs :=
  {| fs_dirs := <[d := dn]> (fs_dirs s); fs_heap := h; fs_links := fs_links s; fs_deleted := fs_deleted s |}.
Definition set_links (s : fs) (t : hardlink_table) : fs :=
  {| fs_dirs := fs_dirs s; fs_heap := fs_heap s; fs_links := t; fs_deleted := fs_deleted s |}.
Definition vfs_delete (s : fs) (u : uuid) : fs :=
  {| fs_dirs := fs_dirs s; fs_heap := fs_heap s; fs_links := fs_links s; fs_deleted := fs_deleted s ++ [u] |}.

(** [u] is what [nexus_uuid_gen] drew for the new entry. *)
Definition nxs_fs_create (s : fs) (env : fs_env) (d : Z) (name : bytes) (type : nexus_dirent_type)
    (u : uuid) : option (fs * Z) :=
  if negb (fst (buffer_layer_new u (en_new env)) =? 0) then Some (s, -1)
  else
    dn ← fs_dirs s !! d;
    '(dn, h, ret) ← dirnode_add dn (fs_heap s) (en_rnd env) name type u;
    Some (set_dir s d dn h, if ret =? 0 then 0 else -1).

(** Return code and [*should_remove] ([None]: not written). *)
Definition remove_filenode (s : fs) (env : fs_env) (u : uuid) : fs * Z * option bool :=
  if negb (en_table env) then (s, -1, None)
  else if negb (hardlink_table_contains_uuid (fs_links s) u) then (vfs_delete s u, 0, Some true)
  else
    let '(t, n) := hardlink_table_decr_uuid (fs_links s) u in
    let s := set_links s t in
    if n =? 0 then (vfs_delete s u, en_flush env, Some true) else (s, en_flush env, Some false).

Definition remove_dirnode (s : fs) (u : uuid) : fs := vfs_delete s u.

(** Return code, type and UUID of the entry, [should_remove]. *)
Definition nxs_fs_remove (s : fs) (env : fs_env) (d : Z) (name : bytes)
    : option (fs * Z * option (nexus_dirent_type * uuid) * bool) :=
  dn ← fs_dirs s !! d;
  let '(dn, found) := find_by_name dn name in
  let s := set_dir s d dn (fs_heap s) in
  match found with
  | None => Some (s, -1, None, true)
  | Some a =>
      de ← cells (fs_heap s) !! a;
      let type := dr_type (de_rec de) in
      let u := link_uuid (de_rec de) in
      let '(s, ret, rm) :=
        match type with
        | NEXUS_REG => remove_filenode s env u
        | NEXUS_DIR => (remove_dirnode s u, 0, None)
        | NEXUS_LNK => (s, 0, None)
        end in
      if negb (ret =? 0) then Some (s, -1, None, default true rm)
      else
        '(dn, h) ← dirnode_clobber_dir_entry dn (fs_heap s) a;
        Some (set_dir s d dn h, 0, Some (type, u), default true rm)
  end.

Definition nxs_fs_lookup (s : fs) (d : Z) (name : bytes)
    : option (fs * Z * option (nexus_dirent_type * uuid)) :=
  dn ← fs_dirs s !! d;
  let '(dn, r) := dirnode_find_by_name dn (fs_heap s) name in
  Some (set_dir s d dn (fs_heap s), match r with None => -1 | Some _ => 0 end, r).

Definition nxs_fs_symlink (s : fs) (env : fs_env) (d : Z) (name target : bytes) (u : uuid)
    : option (fs * Z) :=
  if negb (fst (buffer_layer_new u (en_new env)) =? 0) then Some (s, -1)
  else
    dn ← fs_dirs s !! d;
    '(dn, h, ret) ← dirnode_add_link dn (fs_heap s) (en_rnd env) name target u;
    Some (set_dir s d dn h, if ret =? 0 then 0 else -1).

Definition nxs_fs_readlink (s : fs) (d : Z) (name : bytes) : option (fs * option bytes) :=
  dn ← fs_dirs s !! d;
  let '(dn, r) := dirnode_find_by_name dn (fs_heap s) name in
  Some (set_dir s d dn (fs_heap s), match r with None => None | Some (_, u) => dirnode_get_link dn u end).

(** The link count goes up before the name is added. *)
Definition nxs_fs_hardlink (s : fs) (env : fs_env) (link_dir : Z) (link_name : bytes)
    (tgt_dir : Z) (tgt_name : bytes) : option (fs * Z) :=
  dn ← fs_dirs s !! tgt_dir;
  let '(dn, r) := dirnode_find_by_name dn (fs_heap s) tgt_name in
  let s := set_dir s tgt_dir dn (fs_heap s) in
  match r with
  | None => Some (s, -1)
  | Some (type, u) =>
      if decide (type <> NEXUS_REG) then Some (s, -1)
      else if negb (en_table env) then Some (s, -1)
      else
        let s := set_links s (hardlink_table_incr_uuid (fs_links s) u) in
        if negb (en_flush env =? 0) then Some (s, -1)
        else
          ln ← fs_dirs s !! link_dir;
          '(ln, h, ret) ← dirnode_add ln (fs_heap s) (en_rnd env) link_name NEXUS_REG u;
          Some (set_dir s link_dir ln h, if ret =? 0 then 0 else -1)
  end.

(** [tmp_type] is initialised to 0 and never assigned, since [dirnode_rename]
    writes the type of an overwritten entry to [overwrite_entry->type]. *)
Definition nxs_fs_rename (s : fs) (env : fs_env) (from : Z) (oldname : bytes) (to : Z) (newname : bytes)
    : option (fs * Z * rename_result) :=
  let tmp_type := 0 in
  '(ds, h, r) ← dirnode_rename (fs_dirs s) (fs_heap s) (en_rnd env) from oldname to newname;
  let s := {| fs_dirs := ds; fs_heap := h; fs_links := fs_links s; fs_deleted := fs_deleted s |} in
  if negb (rn_ret r =? 0) then Some (s, -1, r)
  else if negb (tmp_type =? 0) then
    '(u, _) ← rn_overwrite r;
    if tmp_type =? dirent_type_val NEXUS_REG then
      let '(s, ret, _) := remove_filenode s env u in Some (s, if ret =? 0 then 0 else -1, r)
    else if tmp_type =? dirent_type_val NEXUS_DIR then Some (remove_dirnode s u, 0, r)
    else Some (s, 0, r)
  else Some (s, 0, r).

Section lemmas.
Implicit Types (s : fs) (dn : nexus_dirnode) (v : dir_view) (links : uuid -> Z).

(** Removing one name of a file: what happens to the volume. *)
Lemma remove_filenode_spec s env u links :
  hl_repr (fs_links s) links -> en_table env = true -> en_flush env = 0 -> 1 <= links u ->
  exists s', remove_filenode s env u = (s', 0, Some (links u =? 1)) /\
    fs_dirs s' = fs_dirs s /\ fs_heap s' = fs_heap s /\
    fs_deleted s' = (if links u =? 1 then fs_deleted s ++ [u] else fs_deleted s) /\
    hl_repr (fs_links s') (if links u =? 1 then links else add_links links u (-1)).
Proof.
  intros Hr Ht Hf Hl. unfold remove_filenode. rewrite Ht. cbn [negb].
  rewrite (contains_repr _ links) by done. destruct (Z.leb_spec 2 (links u)) as [H2|H2]; cbn [negb].
  - destruct (decr_repr (fs_links s) links u Hr) as [Hd _]. specialize (Hd H2).
    destruct (hardlink_table_decr_uuid (fs_links s) u) as [t n]. destruct Hd as (-> & Hn & Hrt).
    rewrite (proj2 (Z.eqb_neq (links u - 1) 0)), (proj2 (Z.eqb_neq (links u) 1)), Hf by lia. eauto 10.
  - rewrite (proj2 (Z.eqb_eq (links u) 1)) by lia. eauto 10.
Qed.

(** Dropping an entry drops its name from the directory and nothing else. *)
Lemma clobber_repr dn h gn gu name a :
  0 < next_addr h -> dn_inv (cells h) (next_addr h) dn gn gu -> gn !! name = Some a ->
  dir_entry_count dn < 2 ^ 29 ->
  exists dn' h', dirnode_clobber_dir_entry dn h a = Some (dn', h') /\
    dir_repr h' dn' (delete name (view (cells h) gn)) /\ symlink_list dn' = symlink_list dn.
Proof.
  intros Hnx Hi Hg Hsz.
  destruct (clobber_spec dn h gn gu name a Hi Hg)
    as (dn' & h' & gu' & Hclob & Hi' & _ & Hc' & Hnx' & Hsl & _);
    [apply (repr_count _ _ _ _ _ Hi) in Hsz; lia|].
  exists dn', h'. split; [done|]. split; [|done]. split; [lia|]. exists (delete name gn), gu'. split; [done|].
  rewrite <- view_delete. symmetry. apply view_frame. intros m x [Hm Hx]%lookup_delete_Some. unfold link_of.
  rewrite Hc', lookup_delete_ne; [done|]. intros ->. apply Hm. by eapply (dn_addr_inj _ _ dn).
Qed.

(** The links survive the table's reading at a file's only name, where the
    count drops to zero without the table holding the file. *)
Lemma repr_last t links u :
  hl_repr t links -> links u = 1 -> hl_repr t (add_links links u (-1)).
Proof.
  intros [He Hl Hc Hb] H1. split; [|intros v; specialize (Hl v); unfold add_links; case_decide; subst; lia|done..].
  intros v. rewrite He. unfold add_links. case_decide; [subst|done]. by rewrite H1.
Qed.
End lemmas.

(** ** A concrete volume: directory 5 holds the file [a], directory 6 is empty *)
Definition toy_fs : fs :=
  {| fs_dirs := {[ 5 := one_dir.1; 6 := other_dir.1 ]}; fs_heap := other_dir.2;
     fs_links := hardlink_table_create (uuid_const 1) (uuid_const 2); fs_deleted := [] |}.
Definition toy_fsenv : fs_env := mk_fsenv true 0 reply_ok (uuid_const 3).

Lemma toy_links : hl_repr (fs_links toy_fs) (fun _ => 1).
Proof. apply create_links. Qed.

(** Directory 5 with a second file, [b]. *)
Definition two_dir : nexus_dirnode * dheap :=
  match dirnode_add one_dir.1 one_dir.2 (uuid_const 3) [98] NEXUS_REG (uuid_const 8) with
  | Some (d, h, _) => (d, h)
  | None => one_dir
  end.
Definition two_view : dir_view := <[ [98] := (NEXUS_REG, uuid_const 8) ]> one_view.

Lemma two_dir_repr : dir_repr two_dir.2 two_dir.1 two_view.
Proof.
  unfold two_dir. destruct (add_repr one_dir.1 one_dir.2 (uuid_const 3) [98] NEXUS_REG (uuid_const 8) one_view
    one_dir_repr name_b_ok) as (d' & h' & ret & -> & Hv);
    [apply uuid_const_ok; unfold byte_ok; lia|rewrite one_dir_count; lia|].
  by destruct Hv.
Qed.

(** Directory 5 with a symbolic link, [b]. *)
Definition link_dir : nexus_dirnode * dheap :=
  match dirnode_add_link one_dir.1 one_dir.2 (uuid_const 3) [98] [120; 121] (uuid_const 8) with
  | Some (d, h, _) => (d, h)
  | None => one_dir
  end.
Definition link_view : dir_view := <[ [98] := (NEXUS_LNK, uuid_const 8) ]> one_view.

Lemma link_dir_repr : dir_repr link_dir.2 link_dir.1 link_view /\
  dirnode_get_link link_dir.1 (uuid_const 8) = Some [120; 121].
Proof.
  unfold link_dir. destruct (add_link_spec one_dir.1 one_dir.2 (uuid_const 3) [98] (uuid_const 8) [120; 121] one_view
    one_dir_repr name_b_ok) as (d' & h' & -> & Hv);
    [apply uuid_const_ok; unfold byte_ok; lia| |done|by vm_compute|rewrite one_dir_count; lia|done].
  split; [repeat constructor; lia|]. simpl. unfold NEXUS_PATH_MAX. lia.
Qed.

(** ** Properties *)
(** Removing a name from a directory returns the entry's type and UUID and
    drops the name; for a regular file the object leaves the volume exactly
    when the name was its last one, [should_remove] says so, and the link
    counts go down by one for that file only; a directory's object always
    leaves the volume. *)
Theorem fs_remove_correct s env d dn v name type u links :
  fs_dirs s !! d = Some dn -> dir_repr (fs_heap s) dn v -> name_ok name -> dir_entry_count dn < 2 ^ 29 ->
  v !! name = Some (type, u) -> hl_repr (fs_links s) links -> 1 <= links u ->
  en_table env = true -> en_flush env = 0 ->
  exists s' dn' rm, nxs_fs_remove s env d name = Some (s', 0, Some (type, u), rm) /\
    fs_dirs s' = <[d := dn']> (fs_dirs s) /\ dir_repr (fs_heap s') dn' (delete name v) /\
    rm = (match type with NEXUS_REG => links u =? 1 | _ => true end) /\
    fs_deleted s' = fs_deleted s ++ (match type with
      | NEXUS_REG => if links u =? 1 then [u] else [] | NEXUS_DIR => [u] | NEXUS_LNK => [] end) /\
    hl_repr (fs_links s') (match type with NEXUS_REG => add_links links u (-1) | _ => links end).
Proof.
  intros Hd (Hnx & gn & gu & Hi & ->) Hn Hsz Hv Hr Hl Ht Hf. unfold nxs_fs_remove. rewrite Hd.
  cbn [mbind option_bind]. destruct (find_by_name_spec _ _ _ _ _ name Hi Hn) as (l & -> & Hi1).
  rewrite view_lookup in Hv. destruct (gn !! name) as [a|] eqn:Hg; [|done]. simpl in Hv.
  unfold link_of in Hv. cbn [fs_heap set_dir].
  destruct (cells (fs_heap s) !! a) as [de|] eqn:Hc; [|done]. injection Hv as Hty Hu.
  cbn [mbind option_bind]. rewrite Hty, Hu.
  set (dn1 := with_lookup dn l (dn_metadata dn)) in *. set (s1 := set_dir s d dn1 (fs_heap s)).
  destruct (clobber_repr dn1 (fs_heap s) gn gu name a Hnx Hi1 Hg Hsz) as (dn' & h' & Hclob & Hrep & _).
  assert (Hset : forall s2, fs_dirs s2 = fs_dirs s1 -> <[d := dn']> (fs_dirs s2) = <[d := dn']> (fs_dirs s)).
  { intros s2 ->. apply insert_insert_eq. }
  destruct type.
  - destruct (remove_filenode_spec s1 env u links Hr Ht Hf Hl) as (s2 & -> & Hds & Hh & Hdel & Hrl).
    cbn [negb Z.eqb default]. rewrite Hh. change (fs_heap s1) with (fs_heap s). rewrite Hclob.
    cbn [mbind option_bind]. eexists _, dn', _. split; [done|]. simpl. split; [by apply Hset|]. split; [done|].
    split; [done|]. rewrite Hdel. destruct (Z.eqb_spec (links u) 1) as [H1|H1]; (split; [simpl; rewrite ?app_nil_r; done|]).
    + by apply repr_last.
    + done.
  - cbn [negb Z.eqb]. change (fs_heap (remove_dirnode s1 u)) with (fs_heap s). rewrite Hclob.
    cbn [mbind option_bind]. eexists _, dn', _. split; [done|]. simpl. split; [apply insert_insert_eq|]. done.
  - cbn [negb Z.eqb]. change (fs_heap s1) with (fs_heap s). rewrite Hclob.
    cbn [mbind option_bind]. eexists _, dn', _. split; [done|]. simpl. rewrite app_nil_r.
    split; [apply insert_insert_eq|]. done.
Qed.

Lemma fs_remove_witness :
  exists s' dn' rm, nxs_fs_remove toy_fs toy_fsenv 5 [97] = Some (s', 0, Some (NEXUS_REG, uuid_const 7), rm) /\
    fs_dirs s' = <[5 := dn']> (fs_dirs toy_fs) /\ dir_repr (fs_heap s') dn' (delete [97] one_view) /\
    rm = true /\ fs_deleted s' = [uuid_const 7] /\
    hl_repr (fs_links s') (add_links (fun _ => 1) (uuid_const 7) (-1)).
Proof.
  destruct other_dir_repr as (_ & Hone & _).
  apply (fs_remove_correct toy_fs toy_fsenv 5 one_dir.1 one_view [97] NEXUS_REG (uuid_const 7) (fun _ => 1)).
  - apply lookup_insert_eq.
  - exact Hone.
  - apply name_a_ok.
  - rewrite one_dir_count. lia.
  - by vm_compute.
  - apply toy_links.
  - lia.
  - done.
  - done.
Defined.

(** Making a hard link to a regular file under a free name of another
    directory binds the name to the file and raises the file's link count by
    one; under a taken name the call fails with -1, both directories stay,
    and the count has been raised all the same, so the file outlives its
    last name. *)
Theorem fs_hardlink_counts s env l t ln tn lv tv name target u links :
  fs_dirs s !! l = Some ln -> fs_dirs s !! t = Some tn -> l <> t ->
  dir_repr (fs_heap s) ln lv -> dir_repr (fs_heap s) tn tv -> name_ok name -> name_ok target -> uuid_ok u ->
  dir_entry_count ln < 2 ^ 29 -> tv !! target = Some (NEXUS_REG, u) ->
  hl_repr (fs_links s) links -> 1 <= links u < 2 ^ 31 - 1 -> hl_count (fs_links s) < 2 ^ 32 - 1 ->
  en_table env = true -> en_flush env = 0 ->
  exists s' ln' tn' ret, nxs_fs_hardlink s env l name t target = Some (s', ret) /\
    fs_dirs s' !! l = Some ln' /\ fs_dirs s' !! t = Some tn' /\ dir_repr (fs_heap s') tn' tv /\
    hl_repr (fs_links s') (add_links links u 1) /\
    fs_deleted s' = fs_deleted s /\
    match lv !! name with
    | None => ret = 0 /\ dir_repr (fs_heap s') ln' (<[name := (NEXUS_REG, u)]> lv)
    | Some _ => ret = -1 /\ dir_repr (fs_heap s') ln' lv
    end.
Proof.
  intros Hl Ht Hne (Hnx & gl & gul & Hil & ->) (_ & gt_ & gut & Hit & ->) Hn Htg Hu Hsz Hv Hr Hlk Hcnt He Hf.
  unfold nxs_fs_hardlink. rewrite Ht. cbn [mbind option_bind]. unfold dirnode_find_by_name.
  destruct (find_by_name_spec _ _ _ _ _ target Hit Htg) as (c & -> & Hit1).
  rewrite view_lookup in Hv. destruct (gt_ !! target) as [a|]; [|done]. cbn [mbind option_bind] in *.
  unfold link_of in Hv. destruct (cells (fs_heap s) !! a) as [de|]; [|done]. cbn [mbind option_bind] in *.
  injection Hv as Hty Hlu. rewrite Hty, Hlu. rewrite decide_False by (by intros []). rewrite He, Hf.
  cbn [negb Z.eqb fs_dirs fs_heap set_links set_dir fs_links].
  rewrite lookup_insert_ne, Hl by done. cbn [mbind option_bind].
  assert (Hinc : hl_repr (hardlink_table_incr_uuid (fs_links s) u) (add_links links u 1)) by (apply incr_repr; done || lia).
  destruct (dirnode_add_spec ln (fs_heap s) (en_rnd env) name NEXUS_REG u gl gul Hnx Hil Hn Hu) as [Hold Hnew];
    [by eapply repr_count|].
  pose proof (view_None _ _ _ _ _ name Hil) as Hvn. destruct (view (cells (fs_heap s)) gl !! name) as [x|] eqn:Hvl.
  - destruct Hold as (ln' & -> & Hi' & _); [by intros ?%Hvn|]. cbn [mbind option_bind Z.eqb].
    eexists _, ln', _, _. split; [done|]. simpl.
    rewrite lookup_insert_eq, lookup_insert_ne, lookup_insert_eq by done. do 2 (split; [done|]).
    split; [split; [done|]; by eauto|]. do 3 (split; [done|]). split; [done|]. eauto.
  - destruct Hnew as (ln' & h' & p & r & -> & Hi' & Hc & Ht' & Hl' & Hlt & _); [by apply Hvn|].
    cbn [mbind option_bind Z.eqb]. eexists _, ln', _, _. split; [done|]. simpl.
    rewrite lookup_insert_eq, lookup_insert_ne, lookup_insert_eq by done. do 2 (split; [done|]). split.
    { split; [lia|]. exists gt_, gut. split.
      - eapply dn_inv_frame; [exact Hit1|lia|]. intros x Hx. rewrite Hc. apply lookup_insert_ne.
        intros <-. by eapply fresh_not_in in Hit1.
      - symmetry. apply view_frame. intros m x Hx. unfold link_of. rewrite Hc, lookup_insert_ne; [done|].
        intros <-. apply (fresh_not_in _ _ _ _ _ Hit1). by eapply in_dirents. }
    do 3 (split; [done|]). split; [lia|]. eexists _, _. split; [done|].
    rewrite (view_insert _ _ _ _ {| de_bucket := Some p; de_rec := r |})
      by (rewrite Hc; apply lookup_insert_eq). simpl. rewrite Ht', Hl'. f_equal.
    symmetry. apply view_frame. intros m b Hb. unfold link_of. rewrite Hc, lookup_insert_ne; [done|].
    intros <-. apply (fresh_not_in _ _ _ _ _ Hil). by eapply in_dirents.
Qed.

Lemma fs_hardlink_witness :
  exists s' ln' tn' ret, nxs_fs_hardlink toy_fs toy_fsenv 6 [98] 5 [97] = Some (s', ret) /\
    fs_dirs s' !! 6 = Some ln' /\ fs_dirs s' !! 5 = Some tn' /\ dir_repr (fs_heap s') tn' one_view /\
    hl_repr (fs_links s') (add_links (fun _ => 1) (uuid_const 7) 1) /\
    fs_deleted s' = [] /\
    match (∅ : dir_view) !! [98] with
    | None => ret = 0 /\ dir_repr (fs_heap s') ln' (<[ [98] := (NEXUS_REG, uuid_const 7) ]> ∅)
    | Some _ => ret = -1 /\ dir_repr (fs_heap s') ln' ∅
    end.
Proof.
  destruct other_dir_repr as (Hother & Hone & _ & Hcnt).
  apply (fs_hardlink_counts toy_fs toy_fsenv 6 5 other_dir.1 one_dir.1 ∅ one_view [98] [97] (uuid_const 7) (fun _ => 1)).
  - cbn [fs_dirs toy_fs]. rewrite lookup_insert_ne by done. apply lookup_singleton_eq.
  - apply lookup_insert_eq.
  - done.
  - exact Hother.
  - exact Hone.
  - apply name_b_ok.
  - apply name_a_ok.
  - apply uuid_const_ok. unfold byte_ok. lia.
  - rewrite Hcnt. lia.
  - by vm_compute.
  - apply toy_links.
  - lia.
  - simpl. lia.
  - done.
  - done.
Defined.

(** A rename onto an existing regular file of the directory succeeds,
    moves the name and reports the file it replaced, but neither deletes the
    replaced file's object nor lowers its link count, although its name is
    gone: the block meant for that never runs. *)
Theorem fs_rename_leaks_overwritten s env d dn v oldname newname link u :
  fs_dirs s !! d = Some dn -> dir_repr (fs_heap s) dn v -> name_ok oldname -> name_ok newname ->
  oldname <> newname -> dir_entry_count dn < 2 ^ 29 ->
  v !! oldname = Some link -> v !! newname = Some (NEXUS_REG, u) ->
  exists s' dn' r, nxs_fs_rename s env d oldname d newname = Some (s', 0, r) /\
    rn_overwrite r = Some (u, NEXUS_REG) /\ fs_dirs s' !! d = Some dn' /\
    dir_repr (fs_heap s') dn' (<[newname := link]> (delete oldname v)) /\
    fs_deleted s' = fs_deleted s /\ fs_links s' = fs_links s.
Proof.
  intros Hd Hr Ho Hn Hne Hc Hv Hv'. unfold nxs_fs_rename.
  destruct (rename_same_spec (fs_dirs s) (fs_heap s) (en_rnd env) d dn v oldname newname)
    as (ds & h & dn' & r & -> & Hd' & _ & Hres); [done..|].
  rewrite Hv, Hv' in Hres. destruct Hres as (Hret & _ & Hov & Hrep).
  cbn [mbind option_bind]. rewrite Hret. cbn [negb Z.eqb]. eexists _, dn', r. by split_and!.
Qed.

Lemma fs_rename_leaks_witness :
  let s := {| fs_dirs := {[ 5 := two_dir.1 ]}; fs_heap := two_dir.2;
              fs_links := hardlink_table_create (uuid_const 1) (uuid_const 2); fs_deleted := [] |} in
  exists s' dn' r, nxs_fs_rename s toy_fsenv 5 [97] 5 [98] = Some (s', 0, r) /\
    rn_overwrite r = Some (uuid_const 8, NEXUS_REG) /\ fs_dirs s' !! 5 = Some dn' /\
    dir_repr (fs_heap s') dn' (<[ [98] := (NEXUS_REG, uuid_const 7) ]> (delete [97] two_view)) /\
    fs_deleted s' = [] /\ fs_links s' = hardlink_table_create (uuid_const 1) (uuid_const 2).
Proof.
  intros s. apply (fs_rename_leaks_overwritten s toy_fsenv 5 two_dir.1 two_view).
  - apply lookup_singleton_eq.
  - apply two_dir_repr.
  - apply name_a_ok.
  - apply name_b_ok.
  - done.
  - by vm_compute.
  - by vm_compute.
  - by vm_compute.
Defined.

(** Removing a symbolic link drops its name but keeps its target stored
    in the dirnode, to be serialized with it from then on. *)
Theorem fs_remove_keeps_symlink s env d dn v name u t :
  fs_dirs s !! d = Some dn -> dir_repr (fs_heap s) dn v -> name_ok name -> dir_entry_count dn < 2 ^ 29 ->
  v !! name = Some (NEXUS_LNK, u) -> dirnode_get_link dn u = Some t ->
  exists s' dn', nxs_fs_remove s env d name = Some (s', 0, Some (NEXUS_LNK, u), true) /\
    fs_dirs s' !! d = Some dn' /\ dir_repr (fs_heap s') dn' (delete name v) /\
    dirnode_get_link dn' u = Some t.
Proof.
  intros Hd (Hnx & gn & gu & Hi & ->) Hn Hsz Hv Hlk. unfold nxs_fs_remove. rewrite Hd.
  cbn [mbind option_bind]. destruct (find_by_name_spec _ _ _ _ _ name Hi Hn) as (l & -> & Hi1).
  rewrite view_lookup in Hv. destruct (gn !! name) as [a|] eqn:Hg; [|done]. simpl in Hv.
  unfold link_of in Hv. cbn [fs_heap set_dir].
  destruct (cells (fs_heap s) !! a) as [de|] eqn:Hc; [|done]. injection Hv as Hty Hu.
  cbn [mbind option_bind]. rewrite Hty, Hu. cbn [negb Z.eqb].
  set (dn1 := with_lookup dn l (dn_metadata dn)) in *.
  destruct (clobber_repr dn1 (fs_heap s) gn gu name a Hnx Hi1 Hg Hsz) as (dn' & h' & Hclob & Hrep & Hsl).
  cbn [fs_heap set_dir]. rewrite Hclob. cbn [mbind option_bind]. eexists _, dn'. split; [done|].
  simpl. rewrite lookup_insert_eq. split; [done|]. split; [done|].
  unfold dirnode_get_link in *. by rewrite (find_symlink_list dn1 dn' u Hsl).
Qed.

Lemma fs_remove_keeps_symlink_witness :
  let s := {| fs_dirs := {[ 5 := link_dir.1 ]}; fs_heap := link_dir.2;
              fs_links := hardlink_table_create (uuid_const 1) (uuid_const 2); fs_deleted := [] |} in
  exists s' dn', nxs_fs_remove s toy_fsenv 5 [98] = Some (s', 0, Some (NEXUS_LNK, uuid_const 8), true) /\
    fs_dirs s' !! 5 = Some dn' /\ dir_repr (fs_heap s') dn' (delete [98] link_view) /\
    dirnode_get_link dn' (uuid_const 8) = Some [120; 121].
Proof.
  intros s. destruct link_dir_repr as [Hrep Hget].
  apply (fs_remove_keeps_symlink s toy_fsenv 5 link_dir.1 link_view [98] (uuid_const 8) [120; 121]).
  - apply lookup_singleton_eq.
  - exact Hrep.
  - apply name_b_ok.
  - by vm_compute.
  - by vm_compute.
  - exact Hget.
Defined.
