(* ===== verification/Metadata.v ===== *)
(** * Metadata objects: loading, locking, revalidating, storing

    Models [metadata.c]: the life cycle of a cached metadata object.  What the
    layer needs of the object kinds (dirnode, filenode, tables) is the class
    [MetadataObject]: create, load from a crypto buffer, store, with the law
    that stored objects come back; [Filenode.v], [HardlinkTable.v],
    [UserTable.v] and [Supernode.v] discharge it at the end of this file.  Replies of the store are
    arguments, ocalls are returned as a trace. *)
From S2P Require Import Prelude Hashmap Types AttributeTable Gcm Crypto BufferLayer CryptoBuf.
From S2P Require Import Filenode HardlinkTable UserTable Supernode.

Inductive nexus_metadata_type :=
  | NEXUS_SUPERNODE | NEXUS_DIRNODE | NEXUS_FILENODE | NEXUS_HARDLINK_TABLE | NEXUS_USER_TABLE
  | NEXUS_ATTRIBUTE_STORE | NEXUS_POLICY_STORE | NEXUS_USER_PROFILE | NEXUS_AUDIT_LOG.

#[export] Instance metadata_type_eq_dec : EqDecision nexus_metadata_type.
Proof. solve_decision. Defined.

(** The kinds [__read_object] creates afresh at version 0. *)
Definition created_at_zero (t : nexus_metadata_type) : bool :=
  match t with
  | NEXUS_DIRNODE | NEXUS_FILENODE | NEXUS_ATTRIBUTE_STORE | NEXUS_POLICY_STORE
  | NEXUS_USER_PROFILE | NEXUS_AUDIT_LOG => true
  | NEXUS_SUPERNODE | NEXUS_HARDLINK_TABLE | NEXUS_USER_TABLE => false
  end.

(** ** What the layer asks of an object kind *)
(** The functions the layer dispatches to. *)
Class MetadataOps (O : Type) := {
  obj_type : nexus_metadata_type;
  obj_create : uuid -> uuid -> O;
  (* the outer [None] is a memory error, the inner one NULL *)
  obj_load : bytes -> nexus_crypto_buf -> Z -> option (option O);
  obj_store : bytes -> O -> Z -> bcache -> put_env -> option (O * bcache * Z * list ocall)
}.

(** What they promise: objects that are stored come back. *)
Class MetadataObject (O : Type) := {
  obj_ops :: MetadataOps O;
  obj_ok : O -> uuid -> Prop;
  obj_same : O -> O -> Prop;
  obj_law : forall vk o u version b env mem,
    obj_ok o u -> one_writer b u -> in_range 32 version ->
    key_ok (pe_draw env).1 -> key_ok (pe_draw env).2 -> pe_heap env = Some mem ->
    exists o' b' data dsize, obj_store vk o version b env =
        Some (o', b', if failed (pe_reply env) then -1 else 0, [ocall_buffer_put u data dsize]) /\
      (if failed (pe_reply env) then
         exists flags, buffer_layer_lock_status b' u = Some flags /\ nexus_io_in_lock_mode flags = true
       else idle b' u) /\
      external_version data = u32 (version + 1) /\
      forall flags ctx, exists o2,
        obj_load vk (mk_cbuf ctx (external_version data) 0 u (Some (ExtStore data)) None) flags
          = Some (Some o2) /\ obj_same o o2
}.
Coercion obj_ops : MetadataObject >-> MetadataOps.

Section metadata.
Context {Obj : Type} {MO : MetadataOps Obj}.
(** The volume key and [global_supernode->root_uuid]. *)
Variables (volumekey : bytes) (root_uuid : uuid).

Record nexus_metadata := mk_metadata {
  md_uuid : uuid;
  md_flags : Z;
  md_version : Z;
  ref_count : Z;
  md_is_dirty : bool;
  is_invalid : bool;
  is_locked : bool;
  md_object : Obj
}.

Definition metadata_set_clean (m : nexus_metadata) : nexus_metadata :=
  mk_metadata (md_uuid m) (md_flags m) (md_version m) (ref_count m) false (is_invalid m) (is_locked m) (md_object m).
Definition metadata_set_dirty (m : nexus_metadata) : nexus_metadata :=
  mk_metadata (md_uuid m) (md_flags m) (md_version m) (ref_count m) true (is_invalid m) (is_locked m) (md_object m).
Definition metadata_set_locked (m : nexus_metadata) (l : bool) : nexus_metadata :=
  mk_metadata (md_uuid m) (md_flags m) (md_version m) (ref_count m) (md_is_dirty m) (is_invalid m) l (md_object m).

Definition nexus_metadata_from_object (u : uuid) (o : Obj) (flags version : Z) : nexus_metadata :=
  mk_metadata u flags version 0 false false (nexus_io_in_lock_mode flags) o.

(** Reply of the store to a read: SGX status, buffer, timestamp. *)
Record get_reply := mk_getreply { g_err : Z; g_data : option bytes; g_ts : Z }.

Definition nexus_metadata_create (b : bcache) (u : uuid) (r : reply)
    : bcache * option nexus_metadata * list ocall :=
  let '(b, ret, t) := buffer_layer_lock b u NEXUS_FCREATE r in
  if negb (ret =? 0) then (b, None, t)
  else if created_at_zero (obj_type (O := Obj)) || bool_decide (obj_type (O := Obj) = NEXUS_HARDLINK_TABLE) then
    (b, Some (nexus_metadata_from_object u (obj_create (O := Obj) root_uuid u) NEXUS_FCREATE 0), t)
  else (b, None, t).

Definition io_flags (flags : Z) : Z :=
  if decide (obj_type (O := Obj) = NEXUS_FILENODE) then Z.lor flags NEXUS_IO_FNODE else flags.

(** [__read_object]: the object (inner [None]: NULL) and its version. *)
Definition read_object (b : bcache) (u : uuid) (flags : Z) (r : get_reply)
    : option (bcache * option (Obj * Z) * list ocall) :=
  let flags := io_flags flags in
  let '(b, cbuf, t) := nexus_crypto_buf_create b u flags (g_err r) (g_data r) (g_ts r) in
  match cbuf with
  | None => Some (b, None, t)
  | Some c =>
      let version := nexus_crypto_buf_version c in
      if version =? 0 then
        Some (b, if created_at_zero (obj_type (O := Obj)) then Some (obj_create (O := Obj) root_uuid u, 0) else None, t)
      else
        match obj_load (O := Obj) volumekey c flags with
        | None => None
        | Some None => Some (b, None, t)
        | Some (Some o) => Some (b, Some (o, version), t)
        end
  end.

Definition nexus_metadata_load (b : bcache) (u : uuid) (flags : Z) (r : get_reply)
    : option (bcache * option nexus_metadata * list ocall) :=
  '(b, res, t) ← read_object b u flags r;
  Some (b, option_map (fun ov => nexus_metadata_from_object u ov.1 flags ov.2) res, t).

(** 0 or -1. *)
Definition nexus_metadata_reload (m : nexus_metadata) (b : bcache) (flags : Z) (r : get_reply)
    : option (nexus_metadata * bcache * Z * list ocall) :=
  '(b, res, t) ← read_object b (md_uuid m) flags r;
  match res with
  | None => Some (m, b, -1, t)
  | Some (o, version) =>
      Some (mk_metadata (md_uuid m) flags version (ref_count m) false false
              (nexus_io_in_lock_mode flags) o, b, 0, t)
  end.

Definition nexus_metadata_lock (m : nexus_metadata) (b : bcache) (flags : Z) (r : reply)
    : nexus_metadata * bcache * Z * list ocall :=
  let '(b, ret, t) := buffer_layer_lock b (md_uuid m) (io_flags flags) r in
  if negb (ret =? 0) then (m, b, -1, t) else (metadata_set_locked m true, b, 0, t).

Definition nexus_metadata_unlock (m : nexus_metadata) (b : bcache) (r : reply)
    : nexus_metadata * bcache * list ocall :=
  if is_locked m then
    let '(b, _, t) := buffer_layer_unlock b (md_uuid m) r in (metadata_set_locked m false, b, t)
  else (m, b, []).

(** The replies a revalidation may need: the stat, a read, a lock. *)
Record reval_env := mk_reval { rv_stat : reply; rv_stat_ts : Z; rv_get : get_reply; rv_lock : reply }.

(** The object, the cache, [*has_changed] and the return code.  [*has_changed]
    keeps the caller's value when the stat failed, and when the object is
    reloaded because it is invalid. *)
Definition nexus_metadata_revalidate (m : nexus_metadata) (b : bcache) (flags : Z)
    (has_changed : bool) (e : reval_env) : option (nexus_metadata * bcache * bool * Z * list ocall) :=
  if is_invalid m then
    '(m, b, ret, t) ← nexus_metadata_reload m b flags (rv_get e); Some (m, b, has_changed, ret, t)
  else
    let '(_, changed, t) := buffer_layer_revalidate b (md_uuid m) (rv_stat e) (rv_stat_ts e) in
    let has_changed := default has_changed changed in
    if has_changed then
      '(m, b, ret, t') ← nexus_metadata_reload m b flags (rv_get e); Some (m, b, has_changed, ret, t ++ t')
    else if nexus_io_in_lock_mode flags then
      let '(m, b, ret, t') := nexus_metadata_lock m b flags (rv_lock e) in
      Some (m, b, has_changed, ret, t ++ t')
    else Some (m, b, has_changed, 0, t).

Definition nexus_metadata_store (m : nexus_metadata) (b : bcache) (env : put_env)
    : option (nexus_metadata * bcache * Z * list ocall) :=
  if negb (md_is_dirty m) && (Z.land (md_flags m) NEXUS_FCREATE =? 0) then Some (m, b, 0, [])
  else
    '(o, b, ret, t) ← obj_store (O := Obj) volumekey (md_object m) (md_version m) b env;
    if ret =? 0 then
      Some (mk_metadata (md_uuid m) (md_flags m) (u32 (md_version m + 1)) (ref_count m) false
              (is_invalid m) false o, b, 0, t)
    else
      let locked := match buffer_layer_lock_status b (md_uuid m) with
                    | Some flags => nexus_io_in_lock_mode flags | None => false end in
      Some (mk_metadata (md_uuid m) (md_flags m) (md_version m) (ref_count m) (md_is_dirty m)
              true locked o, b, ret, t).

(** [__nexus_metadata_sync]: lock if needed, store, take the lock back. *)
Definition nexus_metadata_sync (m : nexus_metadata) (b : bcache) (env : put_env) (r1 r2 : reply)
    : option (nexus_metadata * bcache * Z * list ocall) :=
  let old_flags := md_flags m in
  let '(m, b, ret, t1) := if is_locked m then (m, b, 0, []) else nexus_metadata_lock m b NEXUS_FWRITE r1 in
  if negb (ret =? 0) then Some (m, b, -1, t1)
  else
    '(m, b, ret, t2) ← nexus_metadata_store m b env;
    if negb (ret =? 0) then Some (m, b, -1, t1 ++ t2)
    else if nexus_io_in_lock_mode old_flags then
      let '(m, b, ret, t3) := nexus_metadata_lock m b old_flags r2 in
      Some (m, b, if ret =? 0 then 0 else -1, t1 ++ t2 ++ t3)
    else Some (m, b, 0, t1 ++ t2).

Definition nexus_metadata_get (m : nexus_metadata) : nexus_metadata :=
  mk_metadata (md_uuid m) (md_flags m) (md_version m) (ref_count m +64 1) (md_is_dirty m)
    (is_invalid m) (is_locked m) (md_object m).
Definition nexus_metadata_put (m : nexus_metadata) : nexus_metadata :=
  mk_metadata (md_uuid m) (md_flags m) (md_version m) (ref_count m -64 1) (md_is_dirty m)
    (is_invalid m) (is_locked m) (md_object m).

(** [nexus_vfs_put] of [vfs.c]. *)
Definition nexus_vfs_put (m : nexus_metadata) (b : bcache) (r : reply) : nexus_metadata * bcache * list ocall :=
  let m := nexus_metadata_put m in
  if is_locked m then nexus_metadata_unlock m b r else (m, b, []).

Definition nexus_metadata_reset (m : nexus_metadata) (b : bcache) (r : reply) (g : get_reply)
    : option (nexus_metadata * bcache * list ocall) :=
  let '(m, b, t) := nexus_metadata_unlock m b r in
  '(m, b, _, t') ← nexus_metadata_reload m b NEXUS_FREAD g; Some (m, b, t ++ t').

End metadata.

Arguments nexus_metadata Obj : clear implicits.

(** ** Lemmas *)
(** A read of bytes that are not cached and claim a version other than 0. *)
Lemma read_object_loads {Obj} {MO : MetadataObject Obj} volumekey root_uuid b u flags data ts o2 :
  bcache_get b u = None -> external_version data <> 0 ->
  (forall f ctx, exists o, obj_load (O := Obj) volumekey
     (mk_cbuf ctx (external_version data) 0 u (Some (ExtStore data)) None) f = Some (Some o) /\ obj_same o2 o) ->
  exists b' o, read_object volumekey root_uuid b u flags (mk_getreply 0 (Some data) ts) =
      Some (b', Some (o, external_version data), [ocall_buffer_get u (io_flags (Obj := Obj) flags)]) /\ obj_same o2 o.
Proof.
  intros Hb Hv Hl. unfold read_object, nexus_crypto_buf_create, buffer_layer_get. rewrite Hb.
  cbn [g_err g_data g_ts negb Z.eqb].
  destruct (get_update b u ts (io_flags (Obj := Obj) flags)) as (mb & -> & _).
  destruct (Hl (io_flags (Obj := Obj) flags) empty_ctx) as (o & Ho & Hs).
  exists (if in_write_mode mb then set_buf (bcache_update b u ts (io_flags (Obj := Obj) flags)) u
           (with_writers mb (s32 (writers mb + 1))) else bcache_update b u ts (io_flags (Obj := Obj) flags)), o.
  split; [|done]. cbn [nexus_crypto_buf_version cb_version].
  rewrite (proj2 (Z.eqb_neq _ 0)) by done. rewrite Ho. done.
Qed.

(** ** Filenodes and the hardlink table are metadata objects *)
Section instances.
Context `{BlockCipher} `{KeyWrapCipher}.

(** [mv] is the exported attribute-space MAC, [l2] the enclave's
    [global_log2chunk_size]. *)
Variables (mv : mac_and_version) (mv_ok : macversion_ok mv) (l2 : Z).

Lemma filenode_law vk f u version b env mem :
  (fn_my_uuid f = u /\ fn_inv f /\ exists g, fn_storable f g /\ get_filenode_size f < 2 ^ 31) ->
  one_writer b u -> in_range 32 version ->
  key_ok (pe_draw env).1 -> key_ok (pe_draw env).2 -> pe_heap env = Some mem ->
  exists f' b' data dsize,
    ('(f, b, ret, _, t) ← filenode_store vk f version (Some mv) b env; Some (f, b, ret, t)) =
      Some (f', b', if failed (pe_reply env) then -1 else 0, [ocall_buffer_put u data dsize]) /\
    (if failed (pe_reply env) then
       exists flags, buffer_layer_lock_status b' u = Some flags /\ nexus_io_in_lock_mode flags = true
     else idle b' u) /\
    external_version data = u32 (version + 1) /\
    forall flags ctx, exists f2,
      filenode_from_crypto_buf vk (mk_cbuf ctx (external_version data) 0 u (Some (ExtStore data)) None) flags
        = Some (Some f2) /\ fn_reloaded f f2 mv.
Proof.
  intros (<- & Hi & g & Hs & Hsz) Hw Hv Hk1 Hk2 Hh.
  destruct (filenode_store_spec vk f g mv version b env mem Hi Hs mv_ok Hsz Hw Hv Hk1 Hk2 Hh)
    as (f1 & b1 & data & m & -> & _ & Hl & _ & Hload).
  cbn [mbind option_bind]. exists f1, b1, data, (filesize f). split; [done|]. split; [done|].
  split; [by destruct (Hload 0 empty_ctx) as (? & ? & _)|].
  intros flags ctx. destruct (Hload flags ctx) as (f2 & _ & H1 & H2). eauto.
Qed.

Definition filenode_object : MetadataObject nexus_filenode :=
  {| obj_ops := {| obj_type := NEXUS_FILENODE;
     obj_create := fun root u => filenode_create root u l2;
     obj_load := filenode_from_crypto_buf;
     obj_store := fun vk f version b env =>
       '(f, b, ret, _, t) ← filenode_store vk f version (Some mv) b env; Some (f, b, ret, t) |};
     obj_ok := fun f u => fn_my_uuid f = u /\ fn_inv f /\
       exists g, fn_storable f g /\ get_filenode_size f < 2 ^ 31;
     obj_same := fun f f' => fn_reloaded f f' mv;
     obj_law := filenode_law |}.

(** Any iteration order of the hash table will do. *)
Variable order : hardlink_table -> list (uuid * Z).
Variable order_perm : forall t, order t ≡ₚ map_to_list (hl_entries t).

Record hl_storable (t : hardlink_table) (u : uuid) : Prop := {
  hs_uuid : hl_my_uuid t = u;
  hs_my : length (hl_my_uuid t) = 16%nat;
  hs_root : length (hl_root_uuid t) = 16%nat;
  hs_entries : map_Forall (fun u c => hl_entry_ok (u, c)) (hl_entries t);
  hs_count : hl_count t = Z.of_nat (size (hl_entries t));
  hs_bound : hl_count t < 2 ^ 26
}.

Definition hl_same (t t' : hardlink_table) : Prop :=
  hl_my_uuid t' = hl_my_uuid t /\ hl_root_uuid t' = hl_root_uuid t /\
  hl_count t' = hl_count t /\ hl_entries t' = hl_entries t.

Lemma hardlink_law vk t u version b env mem :
  hl_storable t u -> one_writer b u -> in_range 32 version ->
  key_ok (pe_draw env).1 -> key_ok (pe_draw env).2 -> pe_heap env = Some mem ->
  exists t' b' data dsize, hardlink_table_store vk t version (order t) b env =
      Some (t', b', if failed (pe_reply env) then -1 else 0, [ocall_buffer_put u data dsize]) /\
    (if failed (pe_reply env) then
       exists flags, buffer_layer_lock_status b' u = Some flags /\ nexus_io_in_lock_mode flags = true
     else idle b' u) /\
    external_version data = u32 (version + 1) /\
    forall (flags : Z) ctx, exists t2,
      hardlink_table_from_crypto_buf vk (mk_cbuf ctx (external_version data) 0 u (Some (ExtStore data)) None)
        = Some (Some t2) /\ hl_same t t2.
Proof.
  intros [Hu Hm Hr He Hc Hb] Hw Hv Hk1 Hk2 Hh.
  assert (Hok : Forall hl_entry_ok (order t)).
  { apply Forall_forall. intros [u' c] Hin. rewrite order_perm, elem_of_map_to_list in Hin. by apply He in Hin. }
  assert (Hlo : length (order t) = size (hl_entries t)) by (rewrite order_perm; apply length_map_to_list).
  destruct (hl_table_codec t (order t) Hm Hr (order_perm t) Hok Hc) as (t2 & Hparse & Hsame); [lia|].
  assert (Hlen : Z.of_nat (length (serialize_hardlink_table t (order t))) = hardlink_total_size t).
  { unfold serialize_hardlink_table, hardlink_total_size.
    rewrite !length_app, length_le_encode, length_hl_entries, Hm, Hr, Hlo by done.
    rewrite wrap_small by (unfold in_range; lia). lia. }
  assert (Hsz : hardlink_total_size t = hl_count t * 20 + 36)
    by (unfold hardlink_total_size; apply wrap_small; unfold in_range; lia).
  unfold hardlink_table_store. rewrite Hu.
  destruct (store_buffer_spec vk b u _ _ version env mem Hw Hv Hk1 Hk2 Hlen)
    as (-> & c' & b' & data & m & -> & Hsd & Hev & Hlock); [lia|done|]. cbn [mbind option_bind].
  exists (if failed (pe_reply env) then with_hlmac t m else hl_set_clean (with_hlmac t m)), b', data, 0.
  split; [by destruct (failed (pe_reply env))|]. split; [done|]. split; [done|].
  intros flags ctx. unfold hardlink_table_from_crypto_buf.
  destruct (get_sealed vk u _ _ data m (mk_cbuf ctx (external_version data) 0 u (Some (ExtStore data)) None) Hsd)
    as (c3 & ->); [done..|]. cbn [mbind option_bind]. rewrite Hparse. cbn [mbind option_bind].
  eexists. split; [done|]. exact Hsame.
Qed.

Definition hardlink_ops : MetadataOps hardlink_table :=
  {| obj_type := NEXUS_HARDLINK_TABLE;
     obj_create := hardlink_table_create;
     obj_load := fun vk c _ => hardlink_table_from_crypto_buf vk c;
     obj_store := fun vk t version b env => hardlink_table_store vk t version (order t) b env |}.
Definition hardlink_object : MetadataObject hardlink_table :=
  {| obj_ops := hardlink_ops; obj_ok := hl_storable; obj_same := hl_same; obj_law := hardlink_law |}.

(** [nexus_metadata_store] passes no MAC to fill. *)
Lemma usertable_law vk t u version b env mem :
  (ut_my_uuid t = u /\ ut_storable t) -> one_writer b u -> in_range 32 version ->
  key_ok (pe_draw env).1 -> key_ok (pe_draw env).2 -> pe_heap env = Some mem ->
  exists t' b' data dsize, nexus_usertable_store vk t version None b env =
      Some (t', b', if failed (pe_reply env) then -1 else 0, [ocall_buffer_put u data dsize]) /\
    (if failed (pe_reply env) then
       exists flags, buffer_layer_lock_status b' u = Some flags /\ nexus_io_in_lock_mode flags = true
     else idle b' u) /\
    external_version data = u32 (version + 1) /\
    forall (flags : Z) ctx, exists t2,
      nexus_usertable_from_crypto_buf vk (mk_cbuf ctx (external_version data) 0 u (Some (ExtStore data)) None)
        = Some (Some t2) /\ ut_same t t2.
Proof.
  intros [<- Hs] Hw Hv Hk1 Hk2 Hh.
  destruct (usertable_store_spec vk t version None b env mem Hs Hw Hv Hk1 Hk2 Hh)
    as (t' & b' & data & m & -> & _ & _ & Hlk & Hev & Hload).
  exists t', b', data, 0. split; [done|]. split; [done|]. split; [done|].
  intros flags ctx. destruct (Hload ctx) as (t2 & H1 & H2 & _). eauto.
Qed.

Definition usertable_object : MetadataObject nexus_usertable :=
  {| obj_ops := {| obj_type := NEXUS_USER_TABLE;
     obj_create := nexus_usertable_create;
     obj_load := fun vk c _ => nexus_usertable_from_crypto_buf vk c;
     obj_store := fun vk t version b env => nexus_usertable_store vk t version None b env |};
     obj_ok := fun t u => ut_my_uuid t = u /\ ut_storable t; obj_same := ut_same;
     obj_law := usertable_law |}.

Lemma supernode_law vk s u version b env mem :
  (sn_my_uuid s = u /\ sn_storable s) -> one_writer b u -> in_range 32 version ->
  key_ok (pe_draw env).1 -> key_ok (pe_draw env).2 -> pe_heap env = Some mem ->
  exists s' b' data dsize,
    ('(s, b, ret, _, t) ← supernode_store vk s version b env; Some (s, b, ret, t)) =
      Some (s', b', if failed (pe_reply env) then -1 else 0, [ocall_buffer_put u data dsize]) /\
    (if failed (pe_reply env) then
       exists flags, buffer_layer_lock_status b' u = Some flags /\ nexus_io_in_lock_mode flags = true
     else idle b' u) /\
    external_version data = u32 (version + 1) /\
    forall (flags : Z) ctx, exists s2,
      supernode_from_crypto_buf vk (mk_cbuf ctx (external_version data) 0 u (Some (ExtStore data)) None)
        = Some (Some s2) /\ sn_same s s2.
Proof.
  intros [<- Hs] Hw Hv Hk1 Hk2 Hh. destruct (supernode_codec s Hs) as (Hlen & s2 & Hparse & Hsame).
  unfold supernode_store. rewrite (wrap_small 32 version) by done.
  destruct (store_buffer_spec vk b (sn_my_uuid s) (serialize_supernode_header s) (supernode_buflen s)
              version env mem Hw Hv Hk1 Hk2)
    as (-> & c' & b' & data & m & -> & Hsd & Hev & Hlk); [by rewrite Hlen|done|done|]. cbn [mbind option_bind].
  exists (if failed (pe_reply env) then s else supernode_set_clean s), b', data, 0.
  split; [by destruct (failed (pe_reply env))|]. split; [done|]. split; [done|].
  intros flags ctx. unfold supernode_from_crypto_buf.
  destruct (get_sealed vk (sn_my_uuid s) _ _ data m
    (mk_cbuf ctx (external_version data) 0 (sn_my_uuid s) (Some (ExtStore data)) None) Hsd)
    as (c3 & ->); [done..|]. cbn [mbind option_bind]. eauto.
Qed.

(** A supernode is never created by the metadata layer: [obj_create] is not
    reached ([created_at_zero] is false and [nexus_metadata_create] refuses). *)
Definition supernode_object : MetadataObject nexus_supernode :=
  {| obj_ops := {| obj_type := NEXUS_SUPERNODE;
     obj_create := fun root u => supernode_create u root u u;
     obj_load := fun vk c _ => supernode_from_crypto_buf vk c;
     obj_store := fun vk s version b env =>
       '(s, b, ret, _, t) ← supernode_store vk s version b env; Some (s, b, ret, t) |};
     obj_ok := fun s u => sn_my_uuid s = u /\ sn_storable s; obj_same := sn_same;
     obj_law := supernode_law |}.
End instances.

(** ** A concrete object: [toy_file], modified, at version 4 *)
Definition toy_mv : mac_and_version := mk_macversion 3 nexus_mac_zeroize.

Lemma toy_mv_ok : macversion_ok toy_mv.
Proof. split; [by vm_compute|done]. Qed.

Definition toy_object : MetadataObject nexus_filenode :=
  filenode_object (H := toy_cipher) (H0 := toy_wrap) toy_mv toy_mv_ok 5.

Definition toy_metadata : nexus_metadata nexus_filenode :=
  metadata_set_dirty (nexus_metadata_from_object (uuid_const 7) toy_file NEXUS_FRDWR 4).

(** ** Properties *)
(** The store of a metadata object, for its clients. *)
Lemma metadata_store_spec {Obj} {MO : MetadataObject Obj}
    vk root (m : nexus_metadata Obj) b env mem :
  obj_ok (md_object m) (md_uuid m) -> one_writer b (md_uuid m) -> in_range 32 (md_version m) ->
  u32 (md_version m + 1) <> 0 -> key_ok (pe_draw env).1 -> key_ok (pe_draw env).2 -> pe_heap env = Some mem ->
  exists m' b' ret t, nexus_metadata_store vk m b env = Some (m', b', ret, t) /\
    if negb (md_is_dirty m) && (Z.land (md_flags m) NEXUS_FCREATE =? 0) then m' = m /\ b' = b /\ ret = 0 /\ t = []
    else if failed (pe_reply env) then
      ret = -1 /\ md_version m' = md_version m /\ md_is_dirty m' = md_is_dirty m /\
      is_invalid m' = true /\ is_locked m' = true
    else
      ret = 0 /\ md_version m' = u32 (md_version m + 1) /\ md_is_dirty m' = false /\ is_locked m' = false /\
      idle b' (md_uuid m) /\
      exists data dsize, t = [ocall_buffer_put (md_uuid m) data dsize] /\
        forall b2 flags ts, bcache_get b2 (md_uuid m) = None ->
          exists b3 m2, nexus_metadata_load vk root b2 (md_uuid m) flags (mk_getreply 0 (Some data) ts) =
              Some (b3, Some m2, [ocall_buffer_get (md_uuid m) (io_flags (Obj := Obj) flags)]) /\
            md_version m2 = md_version m' /\ obj_same (md_object m) (md_object m2).
Proof.
  intros Hok Hw Hv Hnz Hk1 Hk2 Hh. unfold nexus_metadata_store.
  destruct (negb (md_is_dirty m) && (Z.land (md_flags m) NEXUS_FCREATE =? 0)); [by eauto 10|].
  destruct (obj_law vk (md_object m) (md_uuid m) (md_version m) b env mem Hok Hw Hv Hk1 Hk2 Hh)
    as (o' & b' & data & dsize & -> & Hl & Hev & Hload).
  cbn [mbind option_bind]. destruct (failed (pe_reply env)); cbn [Z.eqb].
  - destruct Hl as (flags & -> & Hlm). do 4 eexists. split; [done|]. by split_and!.
  - do 4 eexists. split; [done|]. do 4 (split; [done|]). split; [done|].
    exists data, dsize. split; [done|]. intros b2 flags ts Hb2.
    destruct (read_object_loads vk root b2 (md_uuid m) flags data ts (md_object m) Hb2)
      as (b3 & o & Hr & Hs); [congruence|done|].
    unfold nexus_metadata_load. rewrite Hr. cbn [mbind option_bind option_map].
    do 2 eexists. split; [done|]. simpl. by split.
Qed.

(** C14: storing a modified object: if the store accepts the flush, the object
    is clean and unlocked at the next version, and any client that reads the
    bytes that were sent gets an equal object at that version; if it refuses,
    the object keeps its version and its modifications, is marked invalid,
    and stays locked; an unmodified object is not written at all. *)
Theorem metadata_store_correct {Obj} {MO : MetadataObject Obj}
    vk root (m : nexus_metadata Obj) b env mem :
  obj_ok (md_object m) (md_uuid m) -> one_writer b (md_uuid m) -> in_range 32 (md_version m) ->
  u32 (md_version m + 1) <> 0 -> key_ok (pe_draw env).1 -> key_ok (pe_draw env).2 -> pe_heap env = Some mem ->
  exists m' b' ret t, nexus_metadata_store vk m b env = Some (m', b', ret, t) /\
    if negb (md_is_dirty m) && (Z.land (md_flags m) NEXUS_FCREATE =? 0) then m' = m /\ b' = b /\ ret = 0 /\ t = []
    else if failed (pe_reply env) then
      ret = -1 /\ md_version m' = md_version m /\ md_is_dirty m' = md_is_dirty m /\
      is_invalid m' = true /\ is_locked m' = true
    else
      ret = 0 /\ md_version m' = u32 (md_version m + 1) /\ md_is_dirty m' = false /\ is_locked m' = false /\
      idle b' (md_uuid m) /\
      exists data dsize, t = [ocall_buffer_put (md_uuid m) data dsize] /\
        forall b2 flags ts, bcache_get b2 (md_uuid m) = None ->
          exists b3 m2, nexus_metadata_load vk root b2 (md_uuid m) flags (mk_getreply 0 (Some data) ts) =
              Some (b3, Some m2, [ocall_buffer_get (md_uuid m) (io_flags (Obj := Obj) flags)]) /\
            md_version m2 = md_version m' /\ obj_same (md_object m) (md_object m2).
Proof. apply metadata_store_spec. Qed.

Lemma metadata_store_witness :
  let b := held_cache (uuid_const 7) 1 in
  exists m' b' ret t,
    nexus_metadata_store (MO := toy_object) [] toy_metadata b (toy_env reply_ok) = Some (m', b', ret, t) /\
    (ret = 0 /\ md_version m' = 5 /\ md_is_dirty m' = false /\ is_locked m' = false /\
     idle b' (uuid_const 7) /\
     exists data dsize, t = [ocall_buffer_put (uuid_const 7) data dsize] /\
       forall b2 flags ts, bcache_get b2 (uuid_const 7) = None ->
         exists b3 m2, nexus_metadata_load (MO := toy_object) [] (uuid_const 1) b2 (uuid_const 7) flags
               (mk_getreply 0 (Some data) ts) =
             Some (b3, Some m2, [ocall_buffer_get (uuid_const 7) (io_flags (MO := toy_object) flags)]) /\
           md_version m2 = md_version m' /\ fn_reloaded toy_file (md_object m2) toy_mv).
Proof.
  intros b. apply (metadata_store_correct (MO := toy_object) [] (uuid_const 1) toy_metadata b (toy_env reply_ok) []).
  - split; [done|]. split; [apply toy_file_inv|]. exists ∅. split; [apply toy_file_storable|by vm_compute].
  - apply held_one_writer.
  - by vm_compute.
  - by vm_compute.
  - apply toy_draw_ok. unfold byte_ok. lia.
  - apply toy_draw_ok. unfold byte_ok. lia.
  - done.
Defined.

(** The version is taken from the header before anything is verified, and
    version 0 means a new object: whoever controls the stored bytes can have
    any dirnode, filenode or attribute table load as a fresh empty object, by
    clearing the version field, without any key. *)
Theorem metadata_version_zero_unverified {Obj} {MO : MetadataOps Obj}
    vk root b u flags magic size rest ts :
  created_at_zero (obj_type (O := Obj)) = true -> bcache_get b u = None ->
  length magic = 4%nat -> length size = 4%nat -> (64 <= length rest)%nat ->
  exists b' m, nexus_metadata_load vk root b u flags
      (mk_getreply 0 (Some (magic ++ [0; 0; 0; 0] ++ size ++ rest)) ts) =
      Some (b', Some m, [ocall_buffer_get u (io_flags (Obj := Obj) flags)]) /\
    md_object m = obj_create root u /\ md_version m = 0.
Proof.
  intros Hz Hb Hm Hs Hr. unfold nexus_metadata_load, read_object, nexus_crypto_buf_create, buffer_layer_get.
  rewrite Hb. cbn [g_err g_data g_ts negb Z.eqb].
  destruct (get_update b u ts (io_flags (Obj := Obj) flags)) as (mb & -> & _).
  cbn [nexus_crypto_buf_version cb_version].
  assert (Hev : external_version (magic ++ [0; 0; 0; 0] ++ size ++ rest) = 0).
  { unfold external_version. rewrite !length_app, Hm, Hs. unfold get_header_len.
    rewrite (proj2 (Z.leb_le _ _)) by (simpl; lia). rewrite drop_app_length' by done.
    rewrite take_app_length' by done. done. }
  rewrite Hev, Hz. cbn [Z.eqb mbind option_bind option_map]. do 2 eexists. split; [done|]. done.
Qed.

Lemma metadata_version_zero_witness :
  exists b' m, nexus_metadata_load (MO := toy_object) [] (uuid_const 1) buffer_layer_init (uuid_const 7) NEXUS_FREAD
      (mk_getreply 0 (Some ([1; 2; 3; 4] ++ [0; 0; 0; 0] ++ [9; 9; 9; 9] ++ replicate 64 255)) 8) =
      Some (b', Some m, [ocall_buffer_get (uuid_const 7) (io_flags (MO := toy_object) NEXUS_FREAD)]) /\
    md_object m = filenode_create (uuid_const 1) (uuid_const 7) 5 /\ md_version m = 0.
Proof.
  apply (metadata_version_zero_unverified (MO := toy_object)); [done|by vm_compute|done|done|simpl; lia].
Defined.
