(* ===== verification/Lru.v ===== *)
(** * The LRU cache

    Models [libnexus_trusted/nexus_lru.c]: nodes linked in order of use and
    indexed by a hash table.  A node is a heap cell, found through the table
    and through the list by its address; the hash table of the source is a
    finite map.  The calls of the [freer] are returned, in order.  [None]
    results are memory errors (a freed node, the last entry of an empty
    list).  The theorem is that the structure implements an abstract cache:
    a list of bindings, most recently used first. *)
From S2P Require Import Prelude.

Section lru.
Context {K V : Type} `{Countable K}.

Record lru_node := mk_lnode { ln_key : K; ln_value : V }.

Record nexus_lru := mk_lru {
  lru_count : Z;
  lru_capacity : Z;
  lru_htable : gmap K Z;
  lru_list : list Z;
  lru_nodes : gmap Z lru_node;
  lru_next : Z
}.

Definition nexus_lru_create (capacity : Z) : nexus_lru := mk_lru 0 capacity ∅ [] ∅ 1.

(** The node is handed to the freer and unlinked. *)
Definition free_lru_node (s : nexus_lru) (a : Z) : option (nexus_lru * (K * V)) :=
  n ← lru_nodes s !! a;
  Some (mk_lru (lru_count s -64 1) (lru_capacity s) (lru_htable s) (remove_first a (lru_list s))
          (delete a (lru_nodes s)) (lru_next s), (ln_key n, ln_value n)).

(** The loop of [nexus_lru_destroy], for at most as many nodes as there are. *)
Fixpoint destroy_nodes (fuel : nat) (s : nexus_lru) : option (list (K * V)) :=
  match lru_list s, fuel with
  | [], _ => Some []
  | _ :: _, O => None
  | a :: _, S fuel' =>
      '(s, kv) ← free_lru_node s a; rest ← destroy_nodes fuel' s; Some (kv :: rest)
  end.
Definition nexus_lru_destroy (s : nexus_lru) : option (list (K * V)) :=
  destroy_nodes (length (lru_list s)) s.

Definition list_move (s : nexus_lru) (a : Z) : list Z := a :: remove_first a (lru_list s).

Definition nexus_lru_get (s : nexus_lru) (k : K) : option (nexus_lru * option V) :=
  match lru_htable s !! k with
  | None => Some (s, None)
  | Some a =>
      n ← lru_nodes s !! a;
      Some (mk_lru (lru_count s) (lru_capacity s) (lru_htable s) (list_move s a) (lru_nodes s)
              (lru_next s), Some (ln_value n))
  end.

Definition try_shrinking_lru (s : nexus_lru) : option (nexus_lru * list (K * V)) :=
  if lru_count s <? lru_capacity s then Some (s, [])
  else
    a ← last (lru_list s);
    n ← lru_nodes s !! a;
    '(s, kv) ← free_lru_node (mk_lru (lru_count s) (lru_capacity s) (delete (ln_key n) (lru_htable s))
                                (lru_list s) (lru_nodes s) (lru_next s)) a;
    Some (s, [kv]).

Definition nexus_lru_put (s : nexus_lru) (k : K) (v : V) : option (nexus_lru * list (K * V)) :=
  match lru_htable s !! k with
  | None =>
      '(s, freed) ← try_shrinking_lru s;
      let a := lru_next s in
      Some (mk_lru (lru_count s +64 1) (lru_capacity s) (<[k := a]> (lru_htable s)) (a :: lru_list s)
              (<[a := mk_lnode k v]> (lru_nodes s)) (a + 1), freed)
  | Some a =>
      n ← lru_nodes s !! a;
      Some (mk_lru (lru_count s) (lru_capacity s) (<[k := a]> (delete k (lru_htable s))) (list_move s a)
              (<[a := mk_lnode k v]> (lru_nodes s)) (lru_next s), [(ln_key n, ln_value n)])
  end.

Definition nexus_lru_del (s : nexus_lru) (k : K) : option (nexus_lru * list (K * V)) :=
  match lru_htable s !! k with
  | None => Some (s, [])
  | Some a =>
      '(s, kv) ← free_lru_node (mk_lru (lru_count s) (lru_capacity s) (delete k (lru_htable s))
                                  (lru_list s) (lru_nodes s) (lru_next s)) a;
      Some (s, [kv])
  end.

(** ** The contract: bindings, most recently used first *)
Definition others (k : K) (l : list (K * V)) : list (K * V) := filter (fun p => p.1 <> k) l.
Definition cached (l : list (K * V)) (k : K) : option V := (list_to_map l : gmap K V) !! k.

Inductive lru_op := Get (k : K) | Put (k : K) (v : V) | Del (k : K).

(** New contents, the value a lookup returns, and the bindings given up. *)
Definition cache_step (capacity : nat) (l : list (K * V)) (op : lru_op)
    : list (K * V) * option V * list (K * V) :=
  match op with
  | Get k => match cached l k with
             | Some v => ((k, v) :: others k l, Some v, [])
             | None => (l, None, [])
             end
  | Put k v => match cached l k with
               | Some v0 => ((k, v) :: others k l, None, [(k, v0)])
               | None => ((k, v) :: take (capacity - 1) l, None, drop (capacity - 1) l)
               end
  | Del k => (others k l, None, filter (fun p => p.1 = k) l)
  end.

(** What an insertion keeps besides the new binding, and the contents after a
    lookup. *)
Definition kept_by_put (capacity : nat) (l : list (K * V)) (k : K) : list (K * V) :=
  match cached l k with Some _ => others k l | None => take (capacity - 1) l end.
Definition fronted (l : list (K * V)) (k : K) : list (K * V) :=
  match cached l k with Some v => (k, v) :: others k l | None => l end.

Definition lru_step (s : nexus_lru) (op : lru_op) : option (nexus_lru * option V * list (K * V)) :=
  match op with
  | Get k => '(s, r) ← nexus_lru_get s k; Some (s, r, [])
  | Put k v => '(s, f) ← nexus_lru_put s k v; Some (s, None, f)
  | Del k => '(s, f) ← nexus_lru_del s k; Some (s, None, f)
  end.

(** Sequences of operations: the results of the lookups and all the bindings
    given up. *)
Fixpoint cache_run (capacity : nat) (l : list (K * V)) (ops : list lru_op)
    : list (K * V) * list (option V) * list (K * V) :=
  match ops with
  | [] => (l, [], [])
  | op :: ops' =>
      let '(l, r, f) := cache_step capacity l op in
      let '(l, rs, f') := cache_run capacity l ops' in (l, r :: rs, f ++ f')
  end.

Fixpoint lru_run (s : nexus_lru) (ops : list lru_op)
    : option (nexus_lru * list (option V) * list (K * V)) :=
  match ops with
  | [] => Some (s, [], [])
  | op :: ops' =>
      '(s, r, f) ← lru_step s op;
      '(s, rs, f') ← lru_run s ops'; Some (s, r :: rs, f ++ f')
  end.

Record lru_repr (s : nexus_lru) (l : list (K * V)) : Prop := {
  lr_nodes : Forall2 (fun a p => lru_nodes s !! a = Some (mk_lnode p.1 p.2)) (lru_list s) l;
  lr_nodup : NoDup (lru_list s);
  lr_keys : NoDup l.*1;
  lr_htable : forall k a, lru_htable s !! k = Some a <->
    a ∈ lru_list s /\ exists v, lru_nodes s !! a = Some (mk_lnode k v);
  lr_count : lru_count s = Z.of_nat (length l);
  lr_cap : lru_count s <= lru_capacity s;
  lr_range : 0 < lru_capacity s < 2 ^ 64;
  lr_fresh : Forall (fun a => a < lru_next s) (lru_list s)
}.
End lru.

Arguments lru_node K V : clear implicits.
Arguments nexus_lru K V {_ _}.
Arguments lru_op K V : clear implicits.

Section lemmas.
Context {K V : Type} `{Countable K}.
Implicit Types (s : nexus_lru K V) (l : list (K * V)) (k : K) (v : V) (a : Z).

Lemma others_id k l : k ∉ l.*1 -> others k l = l.
Proof.
  intros Hk. unfold others. apply filter_all, Forall_forall. intros p Hp Heq. apply Hk.
  rewrite <- Heq. by apply list_elem_of_fmap_2.
Qed.

Lemma others_keys k l : k ∉ (others k l).*1.
Proof. intros (p & Hp & [Hne _]%list_elem_of_filter)%list_elem_of_fmap. by apply Hne. Qed.

Lemma others_sub k l : (others k l).*1 `sublist_of` l.*1.
Proof. apply fmap_sublist, sublist_filter. Qed.

Lemma Forall2_others (R : Z -> K * V -> Prop) l (as_ : list Z) i a k v :
  Forall2 R as_ l -> NoDup as_ -> NoDup l.*1 -> as_ !! i = Some a -> l !! i = Some (k, v) ->
  Forall2 R (remove_first a as_) (others k l) /\ length l = S (length (others k l)).
Proof.
  intros HR. revert i. induction HR as [|b p as_ l Hp HR IH]; intros [|i] Hnd Hkd Ha Hl; simplify_eq/=.
  - apply NoDup_cons in Hkd as [Hk _]. rewrite decide_True by done. unfold others.
    rewrite filter_cons_False by (by intros ?). fold (others k l). by rewrite others_id.
  - apply NoDup_cons in Hnd as [Hb Hnd]. apply NoDup_cons in Hkd as [Hk Hkd].
    assert (a <> b) by (intros ->; apply Hb; by eapply list_elem_of_lookup_2).
    assert (p.1 <> k).
    { intros <-. apply Hk. apply list_elem_of_fmap. exists (p.1, v). split; [done|]. by eapply list_elem_of_lookup_2. }
    rewrite decide_False by done. unfold others. rewrite filter_cons_True by done. fold (others k l).
    destruct (IH i Hnd Hkd Ha Hl) as [E1 E2]. split; [by constructor|]. simpl. by rewrite E2.
Qed.

Lemma nodes_frame s (N : gmap Z (lru_node K V)) (as_ : list Z) l :
  Forall2 (fun a p => lru_nodes s !! a = Some (mk_lnode p.1 p.2)) as_ l ->
  (forall a, a ∈ as_ -> N !! a = lru_nodes s !! a) ->
  Forall2 (fun a p => N !! a = Some (mk_lnode p.1 p.2)) as_ l.
Proof.
  induction 1 as [|a p as_ l Hp _ IH]; intros Hf; constructor.
  - rewrite Hf; [done|left].
  - apply IH. intros b Hb. apply Hf. by right.
Qed.

(** The node of a key, in the table, in the list and in the contents. *)
Lemma repr_find s l k :
  lru_repr s l ->
  match lru_htable s !! k with
  | Some a => exists v i, lru_list s !! i = Some a /\ l !! i = Some (k, v) /\
      lru_nodes s !! a = Some (mk_lnode k v) /\ cached l k = Some v
  | None => k ∉ l.*1 /\ cached l k = None
  end.
Proof.
  intros [Hn Hnd Hkd Hht _ _ _ _]. destruct (lru_htable s !! k) as [a|] eqn:E.
  - apply Hht in E as [[i Hi]%list_elem_of_lookup [v Hv]].
    destruct (Forall2_lookup_l _ _ _ _ _ Hn Hi) as ([k' v'] & Hl & Hk). simpl in Hk.
    rewrite Hv in Hk. injection Hk as <- <-. exists v, i. split_and!; try done.
    apply elem_of_list_to_map_1; [done|]. by eapply list_elem_of_lookup_2.
  - assert (Hk : k ∉ l.*1).
    { intros ([k' v] & -> & [i Hi]%list_elem_of_lookup)%list_elem_of_fmap. simpl in E.
      destruct (Forall2_lookup_r _ _ _ _ _ Hn Hi) as (a & Ha & Hv).
      assert (lru_htable s !! k' = Some a) as He; [|congruence].
      apply Hht. split; [by eapply list_elem_of_lookup_2|by exists v]. }
    split; [done|]. by apply not_elem_of_list_to_map_1.
Qed.

(** Moving the node of [k] to the front, with the value [v']. *)
Lemma repr_front s l k v v' i a :
  lru_repr s l -> lru_list s !! i = Some a -> l !! i = Some (k, v) -> lru_nodes s !! a = Some (mk_lnode k v) ->
  lru_repr (mk_lru (lru_count s) (lru_capacity s) (<[k := a]> (delete k (lru_htable s))) (list_move s a)
              (<[a := mk_lnode k v']> (lru_nodes s)) (lru_next s)) ((k, v') :: others k l).
Proof.
  intros [Hn Hnd Hkd Hht Hc Hcap Hr Hf] Hi Hl Ha.
  destruct (Forall2_others _ _ _ _ _ _ _ Hn Hnd Hkd Hi Hl) as [Hn' Hlen].
  assert (Hin : a ∈ lru_list s) by (by eapply list_elem_of_lookup_2).
  assert (Hm : forall b, b ∈ list_move s a <-> b ∈ lru_list s).
  { intros b. unfold list_move. rewrite elem_of_cons, elem_of_remove_first by done.
    destruct (decide (b = a)) as [->|]; naive_solver. }
  split; cbn [lru_nodes lru_list lru_htable lru_count lru_capacity lru_next].
  - constructor; [by rewrite lookup_insert_eq|]. eapply nodes_frame; [exact Hn'|].
    intros b Hb. apply lookup_insert_ne. apply elem_of_remove_first in Hb; [|done]. naive_solver.
  - apply NoDup_cons. split; [rewrite elem_of_remove_first by done; naive_solver|by apply NoDup_remove_first].
  - apply NoDup_cons. split; [apply others_keys|]. eapply sublist_NoDup; [exact Hkd|apply others_sub].
  - intros k' b. rewrite Hm, insert_delete_eq, lookup_insert_Some, Hht, lookup_insert. split.
    + intros [[<- <-]|[Hne [Hb [w Hw]]]]; [rewrite decide_True by done; eauto|].
      rewrite decide_False by (intros <-; rewrite Ha in Hw; congruence). eauto.
    + intros [Hb [w Hw]]. case_decide as Hd; [left; split; congruence|]. right. split; [|eauto].
      intros <-. apply Hd. assert (Hk1 : lru_htable s !! k = Some a) by (apply Hht; eauto).
      assert (Hk2 : lru_htable s !! k = Some b) by (apply Hht; eauto). congruence.
  - rewrite Hc, Hlen. done.
  - done.
  - done.
  - apply Forall_forall. intros b Hb. rewrite Forall_forall in Hf. by apply Hf, Hm.
Qed.

(** Unlinking the node of [k]. *)
Lemma lru_repr_unlink s l k v i a :
  lru_repr s l -> lru_list s !! i = Some a -> l !! i = Some (k, v) -> lru_nodes s !! a = Some (mk_lnode k v) ->
  exists s', free_lru_node (mk_lru (lru_count s) (lru_capacity s) (delete k (lru_htable s)) (lru_list s)
                              (lru_nodes s) (lru_next s)) a = Some (s', (k, v)) /\
    lru_repr s' (others k l) /\ lru_capacity s' = lru_capacity s.
Proof.
  intros [Hn Hnd Hkd Hht Hc Hcap Hr Hf] Hi Hl Ha.
  destruct (Forall2_others _ _ _ _ _ _ _ Hn Hnd Hkd Hi Hl) as [Hn' Hlen].
  assert (Hin : a ∈ lru_list s) by (by eapply list_elem_of_lookup_2).
  unfold free_lru_node. cbn [lru_nodes]. rewrite Ha. cbn [mbind option_bind ln_key ln_value].
  eexists. split; [done|]. split; [|done].
  split; cbn [lru_nodes lru_list lru_htable lru_count lru_capacity lru_next].
  - eapply nodes_frame; [exact Hn'|]. intros b Hb. apply lookup_delete_ne.
    apply elem_of_remove_first in Hb; [|done]. naive_solver.
  - by apply NoDup_remove_first.
  - eapply sublist_NoDup; [exact Hkd|apply others_sub].
  - intros k' b. rewrite elem_of_remove_first, lookup_delete_Some, Hht by done. split.
    + intros [Hne [Hb [w Hw]]]. assert (b <> a) by (intros ->; congruence).
      split; [done|]. exists w. by rewrite lookup_delete_ne.
    + intros [[Hb Hba] [w Hw]]. rewrite lookup_delete_ne in Hw by done. split; [|eauto].
      intros <-. apply Hba. assert (Hk1 : lru_htable s !! k = Some a) by (apply Hht; eauto).
      assert (Hk2 : lru_htable s !! k = Some b) by (apply Hht; eauto). congruence.
  - rewrite Hc, Hlen, wrap_small; [lia|]. unfold in_range. lia.
  - rewrite wrap_small; [lia|]. unfold in_range. lia.
  - done.
  - apply Forall_forall. intros b [Hb _]%elem_of_remove_first; [|done]. rewrite Forall_forall in Hf. by apply Hf.
Qed.
End lemmas.

Section operations.
Context {K V : Type} `{Countable K}.
Implicit Types (s : nexus_lru K V) (l : list (K * V)) (k : K) (v : V) (a : Z).

Lemma create_spec capacity :
  0 < capacity < 2 ^ 64 -> lru_repr (nexus_lru_create (K := K) (V := V) capacity) [].
Proof.
  intros Hc. split; cbn; try done; try apply NoDup_nil_2; try lia.
  intros k a. rewrite lookup_empty. split; [done|]. by intros [?%not_elem_of_nil _].
Qed.

Lemma get_spec s l k :
  lru_repr s l ->
  exists s', nexus_lru_get s k = Some (s', cached l k) /\ lru_capacity s' = lru_capacity s /\
    lru_repr s' (cache_step (Z.to_nat (lru_capacity s)) l (Get k)).1.1.
Proof.
  intros Hr. pose proof (repr_find s l k Hr) as Hf. unfold nexus_lru_get. cbn [cache_step].
  destruct (lru_htable s !! k) as [a|] eqn:E.
  - destruct Hf as (v & i & Hi & Hl & Ha & ->). rewrite Ha. cbn [mbind option_bind ln_value].
    eexists. split; [done|]. split; [done|]. cbn [fst].
    pose proof (repr_front s l k v v i a Hr Hi Hl Ha) as Hm.
    rewrite insert_delete_eq, (insert_id (lru_htable s)), (insert_id (lru_nodes s)) in Hm by done. exact Hm.
  - destruct Hf as [_ ->]. exists s. done.
Qed.

Lemma del_spec s l k :
  lru_repr s l ->
  exists s', nexus_lru_del s k = Some (s', filter (fun p => p.1 = k) l) /\
    lru_capacity s' = lru_capacity s /\ lru_repr s' (others k l).
Proof.
  intros Hr. pose proof (repr_find s l k Hr) as Hf. unfold nexus_lru_del.
  destruct (lru_htable s !! k) as [a|] eqn:E.
  - destruct Hf as (v & i & Hi & Hl & Ha & _).
    destruct (lru_repr_unlink s l k v i a Hr Hi Hl Ha) as (s' & -> & Hr' & Hc). cbn [mbind option_bind].
    exists s'. split; [|done]. do 2 f_equal. pose proof (lr_keys _ _ Hr) as Hkd.
    apply (delete_Permutation) in Hl as Hp.
    assert (Hnone : filter (fun p : K * V => p.1 = k) (delete i l) = []).
    { apply filter_none, Forall_forall. intros p Hin <-. rewrite Hp in Hkd. rewrite fmap_cons in Hkd.
      apply NoDup_cons in Hkd as [Hkd _]. apply Hkd. exact (list_elem_of_fmap_2 fst _ p Hin). }
    apply Permutation_singleton_l. rewrite Hp, filter_cons_True by done. by rewrite Hnone.
  - destruct Hf as [Hk _]. exists s. rewrite filter_none, others_id by
      (done || (apply Forall_forall; intros p Hin <-; apply Hk; by apply list_elem_of_fmap_2)). done.
Qed.

Lemma shrink_spec s l :
  lru_repr s l ->
  exists s', try_shrinking_lru s = Some (s', drop (Z.to_nat (lru_capacity s) - 1) l) /\
    lru_repr s' (take (Z.to_nat (lru_capacity s) - 1) l) /\ lru_capacity s' = lru_capacity s /\
    lru_count s' < lru_capacity s.
Proof.
  intros Hr. pose proof Hr as [Hn Hnd Hkd Hht Hc Hcap Hrg _]. unfold try_shrinking_lru.
  destruct (Z.ltb_spec (lru_count s) (lru_capacity s)) as [Hlt|Hge].
  { exists s. rewrite drop_ge, take_ge by lia. done. }
  destruct l as [|[k v] l _] using rev_ind; [simpl in Hc; lia|]. rewrite length_app in Hc. simpl in Hc.
  apply Forall2_app_inv_r in Hn as (as_ & as2 & Hn & H2 & Eas). apply Forall2_cons_inv_r in H2 as (a & as3 & Ha & H3 & ->).
  apply Forall2_nil_inv_r in H3 as ->. simpl in Ha. rewrite Eas, last_snoc. cbn [mbind option_bind]. rewrite Ha.
  cbn [mbind option_bind ln_key]. pose proof (Forall2_length _ _ _ Hn) as Hlen.
  destruct (lru_repr_unlink s (l ++ [(k, v)]) k v (length as_) a Hr) as (s' & Hfree & Hr' & Hc').
  { by rewrite Eas, list_lookup_middle. } { by rewrite Hlen, list_lookup_middle. } { done. }
  rewrite <- Eas. rewrite Hfree. cbn [mbind option_bind]. exists s'.
  replace (Z.to_nat (lru_capacity s) - 1)%nat with (length l) by lia.
  rewrite take_app_length, drop_app_length. split; [done|].
  assert (Ho : others k (l ++ [(k, v)]) = l).
  { unfold others. rewrite filter_app, filter_cons_False, app_nil_r by (by intros ?).
    apply (others_id k). rewrite fmap_app in Hkd. apply NoDup_app in Hkd as (_ & Hd & _).
    intros Hin. apply (Hd k Hin). simpl. left. }
  rewrite Ho in Hr'. split; [done|]. split; [done|]. rewrite (lr_count _ _ Hr'). lia.
Qed.

Lemma add_spec s l k v :
  lru_repr s l -> k ∉ l.*1 -> lru_count s < lru_capacity s ->
  lru_repr (mk_lru (lru_count s +64 1) (lru_capacity s) (<[k := lru_next s]> (lru_htable s))
              (lru_next s :: lru_list s) (<[lru_next s := mk_lnode k v]> (lru_nodes s)) (lru_next s + 1))
    ((k, v) :: l).
Proof.
  intros [Hn Hnd Hkd Hht Hc Hcap Hr Hf] Hk Hlt. rewrite Forall_forall in Hf.
  assert (Hni : lru_next s ∉ lru_list s) by (intros Hin; specialize (Hf _ Hin); simpl in Hf; lia).
  split; cbn [lru_nodes lru_list lru_htable lru_count lru_capacity lru_next].
  - constructor; [by rewrite lookup_insert_eq|]. eapply nodes_frame; [exact Hn|].
    intros b Hb. apply lookup_insert_ne. by intros <-.
  - by apply NoDup_cons.
  - by apply NoDup_cons.
  - intros k' b. rewrite elem_of_cons, lookup_insert_Some, Hht. split.
    + intros [[<- <-]|[Hne [Hb [w Hw]]]]; [split; [by left|]; exists v; by rewrite lookup_insert_eq|].
      split; [by right|]. exists w. rewrite lookup_insert_ne by (by intros <-). done.
    + intros [[->|Hb] [w Hw]]; [left; rewrite lookup_insert_eq in Hw; by simplify_eq|].
      rewrite lookup_insert_ne in Hw by (by intros <-). right. split; [|eauto]. intros <-. apply Hk.
      destruct (proj1 (list_elem_of_lookup _ _) Hb) as [i Hi].
      destruct (Forall2_lookup_l _ _ _ _ _ Hn Hi) as (p & Hp & Hq). rewrite Hw in Hq. injection Hq as -> _.
      apply list_elem_of_fmap_2. by eapply list_elem_of_lookup_2.
  - rewrite Hc. simpl length. rewrite wrap_small; [lia|]. unfold in_range. lia.
  - rewrite wrap_small; [lia|]. unfold in_range. lia.
  - done.
  - constructor; [lia|]. apply Forall_forall. intros b Hb. specialize (Hf b Hb). simpl in Hf. lia.
Qed.

Lemma put_spec s l k v :
  lru_repr s l ->
  exists s', nexus_lru_put s k v = Some (s', (cache_step (Z.to_nat (lru_capacity s)) l (Put k v)).2) /\
    lru_capacity s' = lru_capacity s /\
    lru_repr s' (cache_step (Z.to_nat (lru_capacity s)) l (Put k v)).1.1.
Proof.
  intros Hr. pose proof (repr_find s l k Hr) as Hf. unfold nexus_lru_put. cbn [cache_step].
  destruct (lru_htable s !! k) as [a|] eqn:E.
  - destruct Hf as (v0 & i & Hi & Hl & Ha & ->). rewrite Ha. cbn [mbind option_bind ln_value ln_key].
    eexists. split; [done|]. split; [done|]. by eapply repr_front.
  - destruct Hf as [Hk ->]. destruct (shrink_spec s l Hr) as (s1 & -> & Hr1 & Hc1 & Hlt).
    cbn [mbind option_bind]. eexists. split; [done|]. split; [done|]. cbn [fst].
    apply add_spec; [done| |lia]. intros (p & -> & Hp)%list_elem_of_fmap. apply Hk.
    apply list_elem_of_fmap_2. eapply elem_of_sublist; [exact Hp|apply sublist_take].
Qed.

Lemma step_spec s l op :
  lru_repr s l ->
  let '(l', r, f) := cache_step (Z.to_nat (lru_capacity s)) l op in
  exists s', lru_step s op = Some (s', r, f) /\ lru_capacity s' = lru_capacity s /\ lru_repr s' l'.
Proof.
  intros Hr. destruct op as [k|k v|k].
  - destruct (get_spec s l k Hr) as (s' & Hg & Hc & Hr'). cbn [lru_step]. rewrite Hg. cbn [mbind option_bind].
    cbn [cache_step] in *. destruct (cached l k); by exists s'.
  - destruct (put_spec s l k v Hr) as (s' & Hg & Hc & Hr'). cbn [lru_step]. rewrite Hg. cbn [mbind option_bind].
    cbn [cache_step] in *. destruct (cached l k); by exists s'.
  - destruct (del_spec s l k Hr) as (s' & Hg & Hc & Hr'). cbn [lru_step]. rewrite Hg. cbn [mbind option_bind].
    cbn [cache_step]. by exists s'.
Qed.

Lemma run_spec ops s l :
  lru_repr s l ->
  let '(l', rs, f) := cache_run (Z.to_nat (lru_capacity s)) l ops in
  exists s', lru_run s ops = Some (s', rs, f) /\ lru_capacity s' = lru_capacity s /\ lru_repr s' l'.
Proof.
  revert s l. induction ops as [|op ops IH]; intros s l Hr; cbn [cache_run lru_run]; [by exists s|].
  pose proof (step_spec s l op Hr) as Hs. destruct (cache_step _ l op) as [[l1 r] f].
  destruct Hs as (s1 & -> & Hc & Hr1). cbn [mbind option_bind]. specialize (IH s1 l1 Hr1). rewrite Hc in IH.
  destruct (cache_run _ l1 ops) as [[l2 rs] f2]. destruct IH as (s2 & -> & Hc2 & Hr2).
  cbn [mbind option_bind]. exists s2. by split; [|split].
Qed.

Lemma destroy_spec s l :
  Forall2 (fun a p => lru_nodes s !! a = Some (mk_lnode p.1 p.2)) (lru_list s) l -> NoDup (lru_list s) ->
  nexus_lru_destroy s = Some l.
Proof.
  unfold nexus_lru_destroy. revert s. induction l as [|p l IH]; intros s Hn Hnd.
  - apply Forall2_nil_inv_r in Hn. by rewrite Hn; cbn; rewrite Hn.
  - apply Forall2_cons_inv_r in Hn as (a & as_ & Hp & Hn & E). rewrite E in *.
    apply NoDup_cons in Hnd as [Ha Hnd]. cbn [length destroy_nodes]. rewrite E. unfold free_lru_node.
    rewrite Hp. cbn [mbind option_bind ln_key ln_value]. set (s1 := mk_lru _ _ _ _ _ _).
    assert (E1 : lru_list s1 = as_) by (unfold s1; cbn; rewrite E; cbn; by rewrite decide_True).
    specialize (IH s1). rewrite E1 in IH. rewrite IH; [by destruct p|  |done].
    eapply nodes_frame; [exact Hn|]. intros b Hb. apply lookup_delete_ne. by intros <-.
Qed.

(** What an insertion keeps and what it gives up. *)
Lemma others_split k v l :
  NoDup l.*1 -> cached l k = Some v -> l ≡ₚ (k, v) :: others k l.
Proof.
  intros Hnd Hc. unfold cached in Hc. apply elem_of_list_to_map in Hc; [|done]. apply list_elem_of_lookup in Hc as [i Hi].
  pose proof (delete_Permutation _ _ _ Hi) as Hp. set (l' := delete i l) in *. clearbody l'.
  assert (Hk : k ∉ l'.*1).
  { rewrite Hp, fmap_cons in Hnd. by apply NoDup_cons in Hnd as [? _]. }
  assert (Ho : others k l ≡ₚ l').
  { rewrite <- (others_id k l' Hk). unfold others. by rewrite Hp, filter_cons_False by (by intros ?). }
  by rewrite Ho.
Qed.

Lemma put_contents n l k v :
  NoDup l.*1 ->
  exists freed, cache_step n l (Put k v) = ((k, v) :: kept_by_put n l k, None, freed) /\ kept_by_put n l k ++ freed ≡ₚ l /\
    k ∉ (kept_by_put n l k).*1.
Proof.
  intros Hnd. unfold kept_by_put. cbn [cache_step]. destruct (cached l k) as [v0|] eqn:E.
  - exists [(k, v0)]. split; [done|]. split; [|apply others_keys].
    rewrite (Permutation_app_comm (others k l)). simpl. symmetry. by apply others_split.
  - eexists. split; [done|]. split; [by rewrite take_drop|]. intros Hin.
    unfold cached in E. apply not_elem_of_list_to_map_2 in E. apply E. eapply elem_of_sublist; [exact Hin|].
    apply fmap_sublist, sublist_take.
Qed.

(** Moving a binding to the front does not change what is kept. *)
Lemma cached_front k v l : cached ((k, v) :: l) k = Some v.
Proof. unfold cached. simpl. apply lookup_insert_eq. Qed.

Lemma others_front k v l : others k ((k, v) :: others k l) = others k l.
Proof.
  unfold others at 1. rewrite filter_cons_False by (by intros ?). apply others_id, others_keys.
Qed.

Lemma fronted_twice l k : fronted (fronted l k) k = fronted l k.
Proof.
  unfold fronted. destruct (cached l k) as [v|] eqn:E; [by rewrite cached_front, others_front|by rewrite E].
Qed.

Lemma kept_fronted n l k : kept_by_put n (fronted l k) k = kept_by_put n l k.
Proof.
  unfold kept_by_put, fronted. destruct (cached l k) as [v|] eqn:E; [by rewrite cached_front, others_front|by rewrite E].
Qed.
End operations.

(** C36: the LRU cache behaves as a list of bindings kept in order of use: for
    any sequence of lookups, insertions and deletions it returns the same
    values and hands the same bindings to the freer, in the same order (a
    replaced value, or the least recently used binding when a new key meets a
    full cache); the count is the number of bindings and never exceeds the
    capacity, and destroying the cache frees each remaining binding once. *)
Theorem lru_refines_cache {K V} `{Countable K} (capacity : Z) (ops : list (lru_op K V)) :
  0 < capacity < 2 ^ 64 ->
  let '(l, rs, freed) := cache_run (Z.to_nat capacity) [] ops in
  exists s, lru_run (nexus_lru_create capacity) ops = Some (s, rs, freed) /\
    lru_count s = Z.of_nat (length l) /\ lru_count s <= capacity /\ nexus_lru_destroy s = Some l.
Proof.
  intros Hc. pose proof (run_spec ops _ _ (create_spec capacity Hc)) as Hs. cbn [nexus_lru_create lru_capacity] in Hs.
  destruct (cache_run (Z.to_nat capacity) [] ops) as [[l rs] freed]. destruct Hs as (s & Hrun & Hcap & Hrs).
  exists s. split; [done|]. split; [apply Hrs|]. split; [rewrite <- Hcap; apply Hrs|].
  apply destroy_spec; apply Hrs.
Qed.

(** A cache of two: key 1 is used again, so key 2 makes room for key 3. *)
Definition toy_lru_ops : list (lru_op Z Z) := [Put 1 10; Put 2 20; Get 1; Put 3 30; Get 2; Get 1; Put 1 11].

Lemma lru_refines_cache_witness :
  let rs := [None; None; Some 10; None; None; Some 10; None] in
  cache_run (Z.to_nat 2) [] toy_lru_ops = ([(1, 11); (3, 30)], rs, [(2, 20); (1, 10)]) /\
  exists s, lru_run (nexus_lru_create 2) toy_lru_ops = Some (s, rs, [(2, 20); (1, 10)]) /\
    lru_count s = 2 /\ lru_count s <= 2 /\ nexus_lru_destroy s = Some [(1, 11); (3, 30)].
Proof.
  intros rs.
  assert (Hc : cache_run (Z.to_nat 2) [] toy_lru_ops = ([(1, 11); (3, 30)], rs, [(2, 20); (1, 10)])) by (by vm_compute).
  split; [exact Hc|]. pose proof (lru_refines_cache 2 toy_lru_ops ltac:(lia)) as Hw.
  rewrite Hc in Hw. exact Hw.
Defined.
