(* ===== verification/Vfs.v ===== *)
(** * The metadata cache

    Models the cache of [vfs.c]: metadata objects loaded by the enclave, kept
    in the LRU cache of [Lru.v] under their UUID.  An object is a heap cell,
    found by its address from the cache and from whoever holds the pointer;
    what is evicted is freed and its buffer forgotten ([__lru_shrinker]).  The
    cache holds objects of every kind: what it needs of them is the class
    [CachedMetadata], and the type argument of [nexus_vfs_load] is the loader
    of that kind.  [Metadata.v] discharges both for the kinds it knows.  The
    spinlocks only order the calls and are left out. *)
From S2P Require Import Prelude Hashmap Types AttributeTable Gcm Crypto BufferLayer CryptoBuf.
From S2P Require Import Filenode Metadata Lru.

Definition LRU_CAPACITY : Z := 256.

(** Revalidation keeps an object's UUID. *)
Class CachedMetadata (M : Type) := {
  cm_uuid : M -> uuid;
  cm_revalidate : M -> bcache -> Z -> bool -> reval_env -> option (M * bcache * bool * Z * list ocall);
  cm_revalidate_uuid : forall m b flags ch e m' b' ch' ret t,
    cm_revalidate m b flags ch e = Some (m', b', ch', ret, t) -> cm_uuid m' = cm_uuid m
}.

Section vfs.
Context {M : Type} {CM : CachedMetadata M}.

Record vfs := mk_vfs {
  v_cache : nexus_lru uuid Z;
  v_objects : gmap Z M;
  v_next : Z;
  v_bufs : bcache
}.

Definition nexus_vfs_init (b : bcache) : vfs := mk_vfs (nexus_lru_create LRU_CAPACITY) ∅ 1 b.

Definition with_cache (s : vfs) (c : nexus_lru uuid Z) : vfs := mk_vfs c (v_objects s) (v_next s) (v_bufs s).

(** [__lru_shrinker], on each binding the cache gives up. *)
Fixpoint lru_shrinker (s : vfs) (freed : list (uuid * Z)) : option vfs :=
  match freed with
  | [] => Some s
  | (_, a) :: freed' =>
      m ← v_objects s !! a;
      lru_shrinker (mk_vfs (v_cache s) (delete a (v_objects s)) (v_next s)
                      (buffer_layer_evict (v_bufs s) (cm_uuid m))) freed'
  end.

(** [*has_changed], which every caller clears first, and 0 or -1; a revalidated
    object moves to the front of the cache. *)
Definition nexus_vfs_revalidate (s : vfs) (a : Z) (flags : Z) (e : reval_env)
    : option (vfs * bool * Z * list ocall) :=
  m ← v_objects s !! a;
  '(m, b, ch, ret, t) ← cm_revalidate m (v_bufs s) flags false e;
  let s := mk_vfs (v_cache s) (<[a := m]> (v_objects s)) (v_next s) b in
  if ret =? 0 then '(c, _) ← nexus_lru_get (v_cache s) (cm_uuid m); Some (with_cache s c, ch, 0, t)
  else Some (s, ch, -1, t).

(** [nexus_metadata_load] for the type that was asked for. *)
Abbreviation loader := (bcache -> uuid -> Z -> get_reply -> option (bcache * option M * list ocall)).

(** The part of [nexus_vfs_load] after a miss: read the object and cache it. *)
Definition load_and_cache (load : loader) (s : vfs) (u : uuid) (flags : Z) (g : get_reply)
    : option (vfs * option Z * list ocall) :=
  '(b, m, t) ← load (v_bufs s) u flags g;
  match m with
  | None => Some (mk_vfs (v_cache s) (v_objects s) (v_next s) b, None, t)
  | Some m =>
      let a := v_next s in
      '(c, freed) ← nexus_lru_put (v_cache s) (cm_uuid m) a;
      s ← lru_shrinker (mk_vfs c (<[a := m]> (v_objects s)) (a + 1) b) freed;
      Some (s, Some a, t)
  end.

Definition nexus_vfs_load (load : loader) (s : vfs) (u : uuid) (flags : Z) (e : reval_env) (g : get_reply)
    : option (vfs * option Z * list ocall) :=
  '(c, hit) ← nexus_lru_get (v_cache s) u;
  let s := with_cache s c in
  match hit with
  | None => load_and_cache load s u flags g
  | Some a =>
      '(s, _, ret, t) ← nexus_vfs_revalidate s a flags e;
      if ret =? 0 then Some (s, Some a, t)
      else '(s, r, t') ← load_and_cache load s u flags g; Some (s, r, t ++ t')
  end.

Definition nexus_vfs_delete (s : vfs) (u : uuid) (r : reply) : option (vfs * list ocall) :=
  '(c, freed) ← nexus_lru_del (v_cache s) u;
  s ← lru_shrinker (with_cache s c) freed;
  let '(b, _, t) := buffer_layer_delete (v_bufs s) u r in
  Some (mk_vfs (v_cache s) (v_objects s) (v_next s) b, t).

(** ** Invariant *)
(** [l] is the contents of the cache: every binding leads to a live object of
    that UUID, and every live object is in the cache. *)
Record vfs_inv (s : vfs) (l : list (uuid * Z)) : Prop := {
  vi_cache : lru_repr (v_cache s) l;
  vi_cap : lru_capacity (v_cache s) = LRU_CAPACITY;
  vi_objects : Forall (fun p => exists m, v_objects s !! p.2 = Some m /\ cm_uuid m = p.1) l;
  vi_fresh : Forall (fun p => p.2 < v_next s) l;
  vi_live : forall a m, v_objects s !! a = Some m -> a ∈ l.*2
}.
End vfs.

Arguments vfs M : clear implicits.

Section lemmas.
Context {M : Type} {CM : CachedMetadata M}.
Implicit Types (s : vfs M) (l freed kept : list (uuid * Z)) (u : uuid) (a : Z) (m : M) (b : bcache).

(** A cached object, and the part of the state the cache decides on. *)
Definition holds (O : gmap Z M) (p : uuid * Z) : Prop := exists m, O !! p.2 = Some m /\ cm_uuid m = p.1.

Lemma addrs_nodup (O : gmap Z M) l : Forall (holds O) l -> NoDup l.*1 -> NoDup l.*2.
Proof.
  intros Hh Hnd. apply NoDup_fmap_2_strong; [|by eapply NoDup_fmap_1].
  intros [u1 a1] [u2 a2] H1 H2 Heq. simpl in Heq. subst a2. rewrite Forall_forall in Hh.
  destruct (Hh _ H1) as (m1 & E1 & F1), (Hh _ H2) as (m2 & E2 & F2). simpl in *. congruence.
Qed.

(** Freeing objects that are distinct and alive. *)
Lemma shrinker_spec freed s :
  Forall (holds (v_objects s)) freed -> NoDup freed.*2 ->
  exists s', lru_shrinker s freed = Some s' /\ v_cache s' = v_cache s /\ v_next s' = v_next s /\
    (forall a, a ∉ freed.*2 -> v_objects s' !! a = v_objects s !! a) /\
    (forall a, a ∈ freed.*2 -> v_objects s' !! a = None) /\
    (forall u, u ∉ freed.*1 -> bcache_get (v_bufs s') u = bcache_get (v_bufs s) u) /\
    (forall u, u ∈ freed.*1 -> bcache_get (v_bufs s') u = None).
Proof.
  revert s. induction freed as [|[u a] freed IH]; intros s Hh Hnd.
  { exists s. cbn. split_and!; try done; intros u Hu; by apply not_elem_of_nil in Hu. }
  apply Forall_cons in Hh as [(m & Hm & Hmu) Hh]. apply NoDup_cons in Hnd as [Ha Hnd]. simpl in Hm, Hmu, Ha, Hnd.
  cbn [lru_shrinker]. rewrite Hm. cbn [mbind option_bind]. set (s1 := mk_vfs _ _ _ _).
  destruct (IH s1) as (s' & -> & H1 & H2 & H3 & H3' & H4 & H5); [|done|].
  { rewrite Forall_forall in Hh |- *. intros p Hp. destruct (Hh p Hp) as (m' & Hm' & Hu'). exists m'.
    split; [|done]. cbn. rewrite lookup_delete_ne; [done|]. intros ->. apply Ha. by apply list_elem_of_fmap_2. }
  assert (Hev : forall v, bcache_get (v_bufs s1) v = if decide (v = u) then None else bcache_get (v_bufs s) v).
  { intros v. unfold s1, buffer_layer_evict, bcache_evict. cbn [v_bufs]. rewrite Hmu.
    destruct (bcache_get (v_bufs s) u) eqn:E; case_decide as Hv; subst; try done;
      unfold bcache_get; cbn; [by rewrite lookup_delete_eq|by rewrite lookup_delete_ne]. }
  exists s'. split; [done|]. split; [done|]. split; [done|]. cbn [fmap list_fmap]. split; [|split; [|split]].
  - intros x [Hx1 Hx2]%not_elem_of_cons. rewrite H3 by done. cbn. by apply lookup_delete_ne.
  - intros x [->|Hx]%elem_of_cons; [|by apply H3']. rewrite H3 by done. cbn. apply lookup_delete_eq.
  - intros v [Hv1 Hv2]%not_elem_of_cons. rewrite H4, Hev by done. by rewrite decide_False.
  - intros v Hv. destruct (decide (v ∈ freed.*1)) as [Hin|Hout]; [by apply H5|].
    rewrite H4, Hev by done. apply elem_of_cons in Hv as [->|?]; [|done]. by rewrite decide_True.
Qed.

Lemma load_and_cache_spec (load : bcache -> uuid -> Z -> get_reply -> option (bcache * option M * list ocall))
    s l u flags g :
  vfs_inv s l ->
  (forall b b' m t, load b u flags g = Some (b', Some m, t) -> cm_uuid m = u) ->
  match load_and_cache load s u flags g with
  | None => load (v_bufs s) u flags g = None
  | Some (s', None, _) => vfs_inv s' l /\ v_objects s' = v_objects s
  | Some (s', Some a, _) => exists b m t freed, let kept := kept_by_put (Z.to_nat LRU_CAPACITY) l u in
      load (v_bufs s) u flags g = Some (b, Some m, t) /\
      vfs_inv s' ((u, a) :: kept) /\ v_objects s' !! a = Some m /\ kept ++ freed ≡ₚ l /\ u ∉ kept.*1 /\
      (forall p, p ∈ kept -> v_objects s' !! p.2 = v_objects s !! p.2) /\
      (u ∈ l.*1 -> bcache_get (v_bufs s') u = None)
  end.
Proof.
  intros [Hc Hcap Ho Hf Hlv] Hu. unfold load_and_cache.
  destruct (load (v_bufs s) u flags g) as [[[b [m|]] t]|] eqn:El; cbn [mbind option_bind]; [|done|done].
  rewrite (Hu _ _ _ _ El). destruct (put_spec (v_cache s) l u (v_next s) Hc) as (c & Hput & Hcc & Hcr).
  destruct (put_contents (Z.to_nat (lru_capacity (v_cache s))) l u (v_next s) (lr_keys _ _ Hc))
    as (freed & Hst & Hp & Hk). rewrite Hcap in *. set (kept := kept_by_put (Z.to_nat LRU_CAPACITY) l u) in *. rewrite Hst in Hput, Hcr. cbn [fst snd] in Hput, Hcr. rewrite Hput.
  cbn [mbind option_bind]. set (s1 := mk_vfs _ _ _ _). change (Forall (holds (v_objects s)) l) in Ho.
  assert (Hlt : forall p, p ∈ l -> p.2 < v_next s) by (intros p Hin; rewrite Forall_forall in Hf; by apply Hf).
  assert (Hin : forall p, p ∈ kept \/ p ∈ freed -> p ∈ l) by (intros p Hin; rewrite <- Hp; by apply elem_of_app).
  assert (Hs1 : forall p, p ∈ l -> v_objects s1 !! p.2 = v_objects s !! p.2).
  { intros p Hpl. cbn. apply lookup_insert_ne. specialize (Hlt p Hpl). lia. }
  pose proof (addrs_nodup _ _ Ho (lr_keys _ _ Hc)) as Hand. rewrite <- Hp, fmap_app in Hand.
  apply NoDup_app in Hand as (_ & Hdis & Hfnd).
  destruct (shrinker_spec freed s1) as (s' & -> & H1 & H2 & H3 & H3' & H4 & H5); [|done|].
  { rewrite Forall_forall in Ho |- *. intros p Hpf. destruct (Ho p) as (m' & Hm' & Hu'); [apply Hin; by right|].
    exists m'. split; [|done]. rewrite Hs1; [done|]. apply Hin. by right. }
  assert (Hkeep : forall p, p ∈ kept -> v_objects s' !! p.2 = v_objects s !! p.2).
  { intros p Hpk. rewrite H3, Hs1; [done|apply Hin; by left|]. apply Hdis. by apply list_elem_of_fmap_2. }
  assert (Hnew : v_objects s' !! v_next s = Some m).
  { rewrite H3; [cbn; apply lookup_insert_eq|]. intros (p & Heq & Hpf)%list_elem_of_fmap.
    specialize (Hlt p (Hin p (or_intror Hpf))). lia. }
  cbn [mbind option_bind]. exists b, m, t, freed. split; [done|]. split.
  { split.
    - by rewrite H1.
    - rewrite H1. cbn. by rewrite Hcc.
    - constructor; [exists m; split; [done|]; by eapply Hu|]. apply Forall_forall. intros p Hpk. rewrite Forall_forall in Ho.
      destruct (Ho p) as (m' & Hm' & Hu'); [apply Hin; by left|]. exists m'. by rewrite Hkeep.
    - rewrite H2. cbn. constructor; [simpl; lia|]. apply Forall_forall. intros p Hpk.
      specialize (Hlt p (Hin p (or_introl Hpk))). lia.
    - intros x mx Hx. destruct (decide (x ∈ freed.*2)) as [Hfx|Hfx]; [by rewrite H3' in Hx|].
      rewrite H3 in Hx by done. cbn in Hx. rewrite lookup_insert_Some in Hx.
      destruct Hx as [[<- _]|[_ Hx]]; [by left|]. apply Hlv in Hx. rewrite <- Hp, fmap_app in Hx. simpl.
      apply elem_of_app in Hx as [?|?]; [by right|done]. }
  split; [done|]. split; [done|]. split; [done|]. split; [done|].
  intros Hul. apply H5. rewrite <- Hp, fmap_app in Hul. apply elem_of_app in Hul as [?|?]; done.
Qed.
End lemmas.

Section loading.
Context {M : Type} {CM : CachedMetadata M}.
Implicit Types (s : vfs M) (l : list (uuid * Z)) (u : uuid) (a : Z) (m : M) (b : bcache).

(** A lookup that hits: the binding is at the front. *)
Lemma get_front s l u a :
  vfs_inv s l -> (u, a) ∈ l ->
  exists c, nexus_lru_get (v_cache s) u = Some (c, Some a) /\ vfs_inv (with_cache s c) ((u, a) :: others u l) /\
    (u, a) :: others u l ≡ₚ l /\ u ∉ (others u l).*1 /\ cached l u = Some a.
Proof.
  intros [Hc Hcap Ho Hf Hlv] Hin. pose proof (lr_keys _ _ Hc) as Hnd.
  assert (Hca : cached l u = Some a) by (by apply elem_of_list_to_map_1).
  destruct (get_spec (v_cache s) l u Hc) as (c & Hg & Hcc & Hr). rewrite Hca in Hg.
  cbn [cache_step] in Hr. rewrite Hca in Hr. cbn [fst] in Hr.
  pose proof (others_split u a l Hnd Hca) as Hp.
  exists c. split; [done|]. split; [|split; [by symmetry|split; [apply others_keys|done]]].
  split; cbn; [done|by rewrite Hcc|by rewrite <- Hp|by rewrite <- Hp|].
  intros x m Hx. apply Hlv in Hx. rewrite Hp in Hx. exact Hx.
Qed.

(** An object is replaced by another of the same UUID. *)
Lemma set_object_inv s l a m m' b :
  vfs_inv s l -> v_objects s !! a = Some m -> cm_uuid m' = cm_uuid m ->
  vfs_inv (mk_vfs (v_cache s) (<[a := m']> (v_objects s)) (v_next s) b) l.
Proof.
  intros [Hc Hcap Ho Hf Hlv] Hm Hu. rewrite Forall_forall in Ho. split; cbn; try done.
  - apply Forall_forall. intros p Hp. destruct (Ho p Hp) as (mp & Hmp & Hup).
    destruct (decide (p.2 = a)) as [Heq|Hne].
    + exists m'. rewrite Heq, lookup_insert_eq. rewrite Heq in Hmp. split; [done|]. congruence.
    + exists mp. by rewrite lookup_insert_ne.
  - intros x mx [[<- _]|[_ Hx]]%lookup_insert_Some; by eapply Hlv.
Qed.

Lemma revalidate_spec s l u a flags e :
  vfs_inv s l -> (u, a) ∈ l ->
  match nexus_vfs_revalidate s a flags e with
  | None => exists m b, cm_revalidate m b flags false e = None
  | Some (s', _, ret, _) => exists l', vfs_inv s' l' /\ l' ≡ₚ l /\
      (ret = 0 \/ ret = -1) /\ l' = (if ret =? 0 then fronted l u else l) /\
      (forall p, p ∈ l -> p.2 <> a -> v_objects s' !! p.2 = v_objects s !! p.2)
  end.
Proof.
  intros Hi Hin. unfold nexus_vfs_revalidate. pose proof (vi_objects _ _ Hi) as Ho. rewrite Forall_forall in Ho.
  destruct (Ho _ Hin) as (m & Hm & Hu). simpl in Hm, Hu. rewrite Hm. cbn [mbind option_bind].
  destruct (cm_revalidate m (v_bufs s) flags false e) as [[[[[m1 b1] ch] ret] t]|] eqn:Er; [|cbn; eauto].
  cbn [mbind option_bind]. pose proof (cm_revalidate_uuid _ _ _ _ _ _ _ _ _ _ Er) as Hu1.
  set (s1 := mk_vfs _ _ _ _). assert (Hinv : vfs_inv s1 l) by (by eapply set_object_inv).
  assert (Hfr : forall p, p ∈ l -> p.2 <> a -> v_objects s1 !! p.2 = v_objects s !! p.2).
  { intros p _ Hne. cbn. by apply lookup_insert_ne. }
  destruct (Z.eqb_spec ret 0) as [->|Hret].
  - rewrite Hu1, Hu. destruct (get_front s1 l u a Hinv Hin) as (c & Hg & Hi1 & Hp & _ & Hca). rewrite Hg.
    cbn [mbind option_bind]. exists ((u, a) :: others u l). split; [exact Hi1|]. split; [done|].
    split; [by left|]. split; [cbn [Z.eqb]; unfold fronted; by rewrite Hca|]. exact Hfr.
  - exists l. split; [done|]. split; [done|]. split; [by right|done].
Qed.

(** The result of a load of [u] from the state [s] with the contents [l]: the
    object is at the front; behind it are all the others in their order, less
    the last one when [u] is new to a full cache; they are the objects they
    were.  A failed load evicts nothing. *)
Definition loaded_from s l u (r : option Z) (s' : vfs M) (l' : list (uuid * Z)) : Prop :=
  let kept := kept_by_put (Z.to_nat LRU_CAPACITY) l u in
  match r with
  | Some a => l' = (u, a) :: kept /\ (exists m, v_objects s' !! a = Some m /\ cm_uuid m = u) /\
      forall p, p ∈ kept -> v_objects s' !! p.2 = v_objects s !! p.2
  | None => l' = fronted l u /\ forall p, p ∈ l -> p.1 <> u -> v_objects s' !! p.2 = v_objects s !! p.2
  end.

Lemma cache_bounded s l : vfs_inv s l -> Z.of_nat (length l) <= LRU_CAPACITY.
Proof. intros [Hc Hcap _ _ _]. rewrite <- Hcap, <- (lr_count _ _ Hc). apply Hc. Qed.

Lemma bounded_load s l u r s' :
  (exists l', vfs_inv s' l' /\ loaded_from s l u r s' l') ->
  exists l', vfs_inv s' l' /\ Z.of_nat (length l') <= LRU_CAPACITY /\ loaded_from s l u r s' l'.
Proof. intros (l' & Hi & Hl). exists l'. split; [done|]. split; [by eapply cache_bounded|done]. Qed.

(** The bindings that stay are those of other objects. *)
Lemma kept_others n l u p : NoDup l.*1 -> p ∈ kept_by_put n l u -> p ∈ l /\ p.1 <> u.
Proof.
  intros Hnd Hp. destruct (put_contents n l u p.2 Hnd) as (freed & _ & Hperm & Hk). split.
  - rewrite <- Hperm. apply elem_of_app. by left.
  - intros <-. apply Hk. by apply list_elem_of_fmap_2.
Qed.

Lemma loaded_from_trans s l s1 u r s' l' :
  vfs_inv s l -> (forall p, p ∈ l -> p.1 <> u -> v_objects s1 !! p.2 = v_objects s !! p.2) ->
  loaded_from s1 (fronted l u) u r s' l' -> loaded_from s l u r s' l'.
Proof.
  intros Hi Hfr. pose proof (lr_keys _ _ (vi_cache _ _ Hi)) as Hnd. unfold loaded_from.
  rewrite kept_fronted, fronted_twice. destruct r as [a|].
  - intros (H1 & H2 & H3). split; [done|]. split; [done|]. intros p Hp. rewrite H3 by done.
    by apply Hfr; eapply kept_others.
  - intros [H1 H2]. split; [done|]. intros p Hp Hne. rewrite H2, Hfr; [done|done|done| |done].
    unfold fronted. destruct (cached l u) as [a|] eqn:E; [|done]. right. apply list_elem_of_filter. done.
Qed.

Lemma load_and_cache_ok (load : bcache -> uuid -> Z -> get_reply -> option (bcache * option M * list ocall))
    s l u flags g :
  vfs_inv s l -> (forall b b' m t, load b u flags g = Some (b', Some m, t) -> cm_uuid m = u) -> fronted l u = l ->
  match load_and_cache load s u flags g with
  | None => exists b, load b u flags g = None
  | Some (s', r, _) => exists l', vfs_inv s' l' /\ loaded_from s l u r s' l'
  end.
Proof.
  intros Hi Hu Hfront. pose proof (load_and_cache_spec load s l u flags g Hi Hu) as Hl.
  destruct (load_and_cache load s u flags g) as [[[s3 [a3|]] t3]|]; [| |eauto].
  - destruct Hl as (b & m & t & freed & Hld & Hi3 & Hm & Hpk & Hk & Hkeep & _).
    eexists. split; [exact Hi3|]. split; [done|]. split; [exists m; split; [done|]; by eapply Hu|done].
  - destruct Hl as [Hi3 Heq]. exists l. split; [done|]. cbn. rewrite Heq. done.
Qed.

(** A hit: the object is revalidated in place. *)
Lemma revalidate_hit s l u a flags e :
  vfs_inv s l -> (u, a) ∈ l -> fronted l u = l ->
  match nexus_vfs_revalidate s a flags e with
  | None => exists m b, cm_revalidate m b flags false e = None
  | Some (s', _, ret, _) => vfs_inv s' l /\
      (forall p, p ∈ l -> p.1 <> u -> v_objects s' !! p.2 = v_objects s !! p.2) /\
      (ret = 0 -> loaded_from s l u (Some a) s' l)
  end.
Proof.
  intros Hi Hin Hfront. pose proof (revalidate_spec s l u a flags e Hi Hin) as Hr.
  destruct (nexus_vfs_revalidate s a flags e) as [[[[s2 ch2] ret] t2]|]; [|done].
  destruct Hr as (l2 & Hi2 & _ & _ & Hl2 & Hfr). rewrite Hfront in Hl2. assert (l2 = l) as -> by (by destruct (ret =? 0)).
  split; [done|]. pose proof (vi_objects _ _ Hi) as Ho. rewrite Forall_forall in Ho.
  pose proof (lr_keys _ _ (vi_cache _ _ Hi)) as Hnd.
  assert (Hold : forall p, p ∈ l -> p.1 <> u -> v_objects s2 !! p.2 = v_objects s !! p.2).
  { intros p Hp Hne. apply Hfr; [done|]. intros Heq. apply Hne.
    destruct (Ho p Hp) as (m1 & E1 & F1), (Ho _ Hin) as (m2 & E2 & F2). simpl in E2, F2. congruence. }
  split; [done|]. intros _. assert (Hca : cached l u = Some a) by (by apply elem_of_list_to_map_1).
  assert (Hkept : l = (u, a) :: kept_by_put (Z.to_nat LRU_CAPACITY) l u).
  { rewrite <- Hfront at 1. unfold fronted, kept_by_put. by rewrite Hca. }
  split; [exact Hkept|]. split.
  - pose proof (vi_objects _ _ Hi2) as Ho2. rewrite Forall_forall in Ho2. by apply (Ho2 (u, a)).
  - intros p Hp. by apply Hold; eapply kept_others.
Qed.

(** Objects stay in the state [P], and the buffers in the state [B], when the
    store answers every request. *)
Section responsive.
Context (P : M -> Prop) (B : bcache -> Prop).
Hypothesis evict_ok : forall b u, B b -> B (buffer_layer_evict b u).

Lemma shrinker_bufs freed s s' : lru_shrinker s freed = Some s' -> B (v_bufs s) -> B (v_bufs s').
Proof.
  revert s. induction freed as [|[u a] freed IH]; intros s; cbn [lru_shrinker]; [by intros [= <-]|].
  destruct (v_objects s !! a) as [m|]; [|done]. cbn [mbind option_bind]. intros Hs Hb. eapply IH; [done|].
  by apply evict_ok.
Qed.

Lemma revalidate_responsive s l a m flags e m' b' ch t :
  vfs_inv s l -> v_objects s !! a = Some m -> cm_revalidate m (v_bufs s) flags false e = Some (m', b', ch, 0, t) ->
  exists s' l', nexus_vfs_revalidate s a flags e = Some (s', ch, 0, t) /\ vfs_inv s' l' /\
    v_objects s' = <[a := m']> (v_objects s) /\ v_bufs s' = b'.
Proof.
  intros Hi Hm Hre. pose proof (vi_live _ _ Hi _ _ Hm) as ([u a'] & Ha & Hin)%list_elem_of_fmap. cbn in Ha. subst a'.
  pose proof (cm_revalidate_uuid _ _ _ _ _ _ _ _ _ _ Hre) as Hu.
  pose proof (vi_objects _ _ Hi) as Ho. rewrite Forall_forall in Ho. destruct (Ho _ Hin) as (m0 & Hm0 & Hu0).
  simpl in Hm0, Hu0. rewrite Hm in Hm0. injection Hm0 as <-.
  unfold nexus_vfs_revalidate. rewrite Hm. cbn [mbind option_bind]. rewrite Hre. cbn [mbind option_bind Z.eqb].
  set (s1 := mk_vfs _ _ _ _). assert (Hinv : vfs_inv s1 l) by (by eapply set_object_inv). rewrite Hu, Hu0.
  destruct (get_front s1 l u a Hinv Hin) as (c & -> & Hi1 & _). cbn [mbind option_bind].
  eexists _, _. split; [done|]. split; [exact Hi1|]. done.
Qed.

Lemma load_responsive (load : bcache -> uuid -> Z -> get_reply -> option (bcache * option M * list ocall))
    s l u flags e g :
  vfs_inv s l -> B (v_bufs s) -> (forall a m, v_objects s !! a = Some m -> P m) ->
  (forall m b, P m -> B b -> cm_uuid m = u ->
     exists m' b' ch t, cm_revalidate m b flags false e = Some (m', b', ch, 0, t) /\ P m' /\ B b') ->
  (forall b b' m t, load b u flags g = Some (b', Some m, t) -> cm_uuid m = u) ->
  (forall b, B b -> exists b' m t, load b u flags g = Some (b', Some m, t) /\ P m /\ B b') ->
  exists s' l' a t m, nexus_vfs_load load s u flags e g = Some (s', Some a, t) /\ vfs_inv s' l' /\ B (v_bufs s') /\
    v_objects s' !! a = Some m /\ cm_uuid m = u /\ (forall x o, v_objects s' !! x = Some o -> P o) /\
    (forall x o, v_objects s' !! x = Some o -> x <> a -> v_objects s !! x = Some o) /\
    (forall o, v_objects s !! a = Some o -> cm_uuid o = u).
Proof.
  intros Hi Hb HP Hre Hlu Hld. unfold nexus_vfs_load. destruct (decide (u ∈ l.*1)) as [Hin|Hout].
  - apply list_elem_of_fmap in Hin as ([u' a] & -> & Hin). cbn [fst] in *.
    destruct (get_front s l u' a Hi Hin) as (c & -> & Hi1 & _). cbn [mbind option_bind].
    pose proof (vi_objects _ _ Hi1) as [(m & Hm & Hu) _]%Forall_cons. cbn [fst snd] in Hm, Hu.
    destruct (Hre m (v_bufs s)) as (m' & b' & ch & t & Hrv & HP' & Hb'); [by eapply HP|done|done|].
    destruct (revalidate_responsive (with_cache s c) _ a m flags e m' b' ch t Hi1 Hm Hrv) as (s' & l' & -> & Hi' & Ho' & Hbs).
    cbn [mbind option_bind Z.eqb]. exists s', l', a, t, m'. split; [done|]. split; [done|]. split; [by rewrite Hbs|].
    rewrite Ho'. split; [apply lookup_insert_eq|]. split; [rewrite <- Hu; by eapply cm_revalidate_uuid|]. split; [|split].
    + intros x o [[<- <-]|[_ Hx]]%lookup_insert_Some; [done|by eapply HP].
    + intros x o [[<- <-]|[_ Hx]]%lookup_insert_Some Hne; done.
    + intros o Hob. cbn in Hm. congruence.
  - pose proof (repr_find _ _ u (vi_cache _ _ Hi)) as Hf. destruct (lru_htable (v_cache s) !! u) as [x|] eqn:Eh.
    { destruct Hf as (x0 & i & _ & Hl & _). exfalso. apply Hout. apply list_elem_of_lookup_2 in Hl.
      by apply (list_elem_of_fmap_2 fst) in Hl. }
    unfold nexus_lru_get. rewrite Eh. cbn [mbind option_bind]. replace (with_cache s (v_cache s)) with s by (by destruct s).
    destruct (Hld (v_bufs s) Hb) as (b' & m & t & Hl & HPm & Hb').
    pose proof (load_and_cache_spec load s l u flags g Hi Hlu) as Hls.
    assert (Hbuf : forall s' r t', load_and_cache load s u flags g = Some (s', r, t') -> B (v_bufs s') /\ r = Some (v_next s)).
    { unfold load_and_cache. rewrite Hl. cbn [mbind option_bind]. intros s' r t'.
      destruct (nexus_lru_put _ _ _) as [[c f]|]; [|done]. cbn [mbind option_bind].
      destruct (lru_shrinker _ f) as [s1|] eqn:Es; [|done]. cbn [mbind option_bind]. intros [= <- <- <-].
      split; [|done]. by eapply shrinker_bufs. }
    destruct (load_and_cache load s u flags g) as [[[s' [a|]] t']|].
    + destruct Hls as (b1 & m1 & t1 & freed & Hl1 & Hi' & Hm' & Hp & Hk & Hkeep & _).
      rewrite Hl in Hl1. injection Hl1 as <- <- <-. eexists s', _, a, t', m. cbn [mbind option_bind].
      split; [done|]. split; [done|]. split; [by eapply Hbuf|]. split; [done|]. split; [by eapply Hlu|].
      assert (Hsame : forall x o, v_objects s' !! x = Some o -> x <> a -> v_objects s !! x = Some o).
      { intros x o Hx Hne. pose proof (vi_live _ _ Hi' _ _ Hx) as Hin. simpl in Hin.
        apply elem_of_cons in Hin as [?|Hin]; [done|]. apply list_elem_of_fmap in Hin as (p & -> & Hin).
        rewrite <- Hkeep by done. done. }
      split; [|split; [done|]].
      { intros x o Hx. destruct (decide (x = a)) as [->|Hne]; [congruence|]. by eapply HP, Hsame. }
      destruct (Hbuf _ _ _ eq_refl) as [_ [= ->]]. intros o Ho. pose proof (vi_live _ _ Hi _ _ Ho) as (p & Hpn & Hin)%list_elem_of_fmap.
      pose proof (vi_fresh _ _ Hi) as Hfr. rewrite Forall_forall in Hfr. specialize (Hfr _ Hin). lia.
    + by destruct (Hbuf _ _ _ eq_refl) as [_ ?].
    + congruence.
Qed.
End responsive.
End loading.

(** C35: [nexus_vfs_load] returns the object of the UUID that was asked for: a
    cached object is revalidated, a missing one is read and inserted.  The
    returned object is the most recently used one of the cache; behind it the
    other objects stay as they were and in their order, all of them when the
    UUID was cached, and otherwise all but the least recently used one of a
    full cache, which is freed.  The cache stays well formed, with at most 256
    objects.  When the object cannot be read nothing is evicted and the other
    objects stay as they were.  The cache itself never touches freed memory: an
    abnormal end comes from the loader or the revalidation of the object. *)
Theorem vfs_load_correct {M} {CM : CachedMetadata M}
    (load : bcache -> uuid -> Z -> get_reply -> option (bcache * option M * list ocall))
    (s : vfs M) l u flags e g :
  vfs_inv s l -> (forall b b' m t, load b u flags g = Some (b', Some m, t) -> cm_uuid m = u) ->
  match nexus_vfs_load load s u flags e g with
  | None => (exists b, load b u flags g = None) \/ (exists m b, cm_revalidate m b flags false e = None)
  | Some (s', r, _) => exists l', vfs_inv s' l' /\ Z.of_nat (length l') <= LRU_CAPACITY /\ loaded_from s l u r s' l'
  end.
Proof.
  intros Hi Hu. unfold nexus_vfs_load.
  destruct (decide (u ∈ l.*1)) as [Hin|Hout].
  - apply list_elem_of_fmap in Hin as ([u' a] & -> & Hin). cbn [fst] in *.
    destruct (get_front s l u' a Hi Hin) as (c & -> & Hi1 & _ & _ & Hca). cbn [mbind option_bind].
    assert (Hfr : (u', a) :: others u' l = fronted l u') by (unfold fronted; by rewrite Hca). rewrite Hfr in Hi1.
    pose proof (revalidate_hit (with_cache s c) _ u' a flags e Hi1 ltac:(rewrite <- Hfr; left) (fronted_twice _ _)) as Hr.
    destruct (nexus_vfs_revalidate (with_cache s c) a flags e) as [[[[s2 ch2] ret] t2]|]; cbn [mbind option_bind]; [|by right].
    destruct Hr as (Hi2 & Hkeep & Hok). destruct (Z.eqb_spec ret 0) as [->|Hne].
    + apply bounded_load. exists (fronted l u'). split; [done|].
      eapply (loaded_from_trans _ _ (with_cache s c)); [done|done|]. by apply Hok.
    + pose proof (load_and_cache_ok load s2 _ u' flags g Hi2 Hu (fronted_twice _ _)) as Hl.
      destruct (load_and_cache load s2 u' flags g) as [[[s3 r3] t3]|]; cbn [mbind option_bind]; [|by left].
      destruct Hl as (l3 & Hi3 & Hl3). apply bounded_load. exists l3. split; [done|].
      eapply (loaded_from_trans _ _ s2); [done| |done]. intros p Hp Hne'. rewrite Hkeep; [done| |done].
      unfold fronted. rewrite Hca. right. by apply list_elem_of_filter.
  - pose proof (repr_find _ _ u (vi_cache _ _ Hi)) as Hf. destruct (lru_htable (v_cache s) !! u) as [x|] eqn:Eh.
    { destruct Hf as (x0 & i & _ & Hl & _). exfalso. apply Hout. apply list_elem_of_lookup_2 in Hl.
      by apply (list_elem_of_fmap_2 fst) in Hl. }
    unfold nexus_lru_get. rewrite Eh. cbn [mbind option_bind].
    replace (with_cache s (v_cache s)) with s by (by destruct s).
    assert (Hfr : fronted l u = l).
    { unfold fronted, cached. by rewrite (proj1 (not_elem_of_list_to_map l u) Hout). }
    pose proof (load_and_cache_ok load s l u flags g Hi Hu Hfr) as Hl.
    destruct (load_and_cache load s u flags g) as [[[s3 r3] t3]|]; [by apply bounded_load|by left].
Qed.

(** ** Metadata objects are cached metadata *)
Section instance.
Context {Obj : Type} {MO : MetadataOps Obj}.
Variables (volumekey : bytes) (root_uuid : uuid).

Lemma reload_uuid (m : nexus_metadata Obj) b flags g m' b' ret t :
  nexus_metadata_reload volumekey root_uuid m b flags g = Some (m', b', ret, t) -> md_uuid m' = md_uuid m.
Proof.
  unfold nexus_metadata_reload. destruct (read_object _ _ _ _ _ _) as [[[b1 r] t1]|]; [|done].
  destruct r as [[o v]|]; cbn; by intros [= <- _ _ _].
Qed.

Lemma metadata_revalidate_uuid (m : nexus_metadata Obj) b flags ch e m' b' ch' ret t :
  nexus_metadata_revalidate volumekey root_uuid m b flags ch e = Some (m', b', ch', ret, t) ->
  md_uuid m' = md_uuid m.
Proof.
  unfold nexus_metadata_revalidate. destruct (is_invalid m).
  { destruct (nexus_metadata_reload _ _ _ _ _ _) as [[[[m1 b1] r1] t1]|] eqn:E; [|done].
    cbn. intros [= <- _ _ _ _]. by eapply reload_uuid. }
  destruct (buffer_layer_revalidate _ _ _ _) as [[r changed] t0]. destruct (default ch changed).
  - destruct (nexus_metadata_reload _ _ _ _ _ _) as [[[[m1 b1] r1] t1]|] eqn:E; [|done].
    cbn. intros [= <- _ _ _ _]. by eapply reload_uuid.
  - destruct (nexus_io_in_lock_mode flags); [|by intros [= <- _ _ _ _]].
    unfold nexus_metadata_lock. destruct (buffer_layer_lock _ _ _ _) as [[b1 r1] t1].
    destruct (negb (r1 =? 0)); by intros [= <- _ _ _ _].
Qed.

Definition metadata_cached : CachedMetadata (nexus_metadata Obj) :=
  {| cm_uuid := md_uuid; cm_revalidate := nexus_metadata_revalidate volumekey root_uuid;
     cm_revalidate_uuid := metadata_revalidate_uuid |}.

Lemma metadata_load_uuid b u flags g b' (m : nexus_metadata Obj) t :
  nexus_metadata_load volumekey root_uuid b u flags g = Some (b', Some m, t) -> md_uuid m = u.
Proof.
  unfold nexus_metadata_load. destruct (read_object _ _ _ _ _ _) as [[[b1 r] t1]|]; [|done].
  destruct r; cbn; [|done]. by intros [= _ <- _].
Qed.
End instance.

(** When the revalidation of a cached object fails and the object is then
    read again, the new object replaces the old one in the cache, and freeing
    the old one evicts the buffer of its UUID: the state that read just set up
    (the lock of a writer included) is forgotten, so the caller holds an
    object whose buffer the enclave no longer knows. *)
Theorem vfs_reload_forgets_buffer {M} {CM : CachedMetadata M}
    (load : bcache -> uuid -> Z -> get_reply -> option (bcache * option M * list ocall))
    (s : vfs M) l u a0 m0 flags e g m1 b1 ch ret t1 b2 m t2 :
  vfs_inv s l -> (u, a0) ∈ l -> v_objects s !! a0 = Some m0 ->
  (forall b b' m t, load b u flags g = Some (b', Some m, t) -> cm_uuid m = u) ->
  cm_revalidate m0 (v_bufs s) flags false e = Some (m1, b1, ch, ret, t1) -> ret <> 0 ->
  load b1 u flags g = Some (b2, Some m, t2) ->
  exists s' a t, nexus_vfs_load load s u flags e g = Some (s', Some a, t) /\
    v_objects s' !! a = Some m /\ bcache_get (v_bufs s') u = None.
Proof.
  intros Hi Hin Hm0 Hu Hre Hret Hload. unfold nexus_vfs_load.
  destruct (get_front s l u a0 Hi Hin) as (c & -> & Hi1 & Hp1 & _). cbn [mbind option_bind].
  pose proof (revalidate_spec (with_cache s c) _ u a0 flags e Hi1 ltac:(left)) as Hr.
  unfold nexus_vfs_revalidate in *. cbn [v_objects with_cache v_bufs v_cache v_next] in *. rewrite Hm0 in *.
  cbn [mbind option_bind] in *. rewrite Hre in *. cbn [mbind option_bind] in *.
  rewrite (proj2 (Z.eqb_neq ret 0) Hret) in *. cbn [mbind option_bind Z.eqb].
  set (s2 := mk_vfs _ _ _ _) in *. destruct Hr as (l2 & Hi2 & Hp2 & _).
  pose proof (load_and_cache_spec load s2 l2 u flags g Hi2 Hu) as Hl.
  destruct (load_and_cache load s2 u flags g) as [[[s3 [a3|]] t3]|] eqn:El.
  - destruct Hl as (b & m' & t & freed & Hld & Hi3 & Hm & _ & _ & _ & Hnone).
    cbn [v_bufs s2] in Hld. rewrite Hload in Hld. injection Hld as <- <- <-. cbn [mbind option_bind].
    exists s3, a3, (t1 ++ t3). split; [done|]. split; [done|]. apply Hnone.
    rewrite Hp2. simpl. by left.
  - exfalso. unfold load_and_cache in El. cbn [v_bufs s2] in El. rewrite Hload in El. cbn [mbind option_bind] in El.
    destruct (nexus_lru_put _ _ _) as [[c' f]|]; [|done]. cbn [mbind option_bind] in El.
    by destruct (lru_shrinker _ _).
  - cbn [v_bufs s2] in Hl. congruence.
Qed.

(** ** A concrete cache of files *)
Definition toy_cached : CachedMetadata (nexus_metadata nexus_filenode) :=
  metadata_cached (MO := toy_object) [] (uuid_const 1).
Definition toy_loader := nexus_metadata_load (MO := toy_object) [] (uuid_const 1).

(** What the store holds once [toy_metadata] was flushed. *)
Definition toy_file_data : bytes :=
  match nexus_metadata_store (MO := toy_object) [] toy_metadata
          (held_cache (uuid_const 7) 1) (toy_env reply_ok) with
  | Some (_, _, _, [ocall_buffer_put _ data _]) => data
  | _ => []
  end.
Definition toy_get (err : Z) : get_reply := mk_getreply err (Some toy_file_data) 7.
Definition toy_reval : reval_env := mk_reval reply_ok 7 (toy_get 1) reply_ok.

(** The file in the cache, after a failed flush marked it invalid. *)
Definition stale_md : nexus_metadata nexus_filenode :=
  mk_metadata (uuid_const 7) NEXUS_FREAD 5 0 false true false toy_file.
Definition stale_vfs : vfs (nexus_metadata nexus_filenode) :=
  mk_vfs (mk_lru 1 LRU_CAPACITY {[ uuid_const 7 := 1 ]} [1] {[ 1 := mk_lnode (uuid_const 7) 1 ]} 2)
    {[ 1 := stale_md ]} 2 buffer_layer_init.

Lemma stale_vfs_inv : vfs_inv (CM := toy_cached) stale_vfs [(uuid_const 7, 1)].
Proof.
  split.
  - apply (add_spec (nexus_lru_create LRU_CAPACITY) [] (uuid_const 7) 1); [apply create_spec| |];
      unfold LRU_CAPACITY; [lia|by apply not_elem_of_nil|cbn; lia].
  - done.
  - apply Forall_singleton. exists stale_md. done.
  - apply Forall_singleton. cbn. lia.
  - intros a m Hm. cbn [v_objects stale_vfs] in Hm. apply lookup_singleton_Some in Hm as [<- _]. by left.
Qed.

Lemma vfs_load_correct_witness :
  match nexus_vfs_load (CM := toy_cached) toy_loader stale_vfs (uuid_const 7) NEXUS_FRDWR toy_reval (toy_get 0) with
  | None => (exists b, toy_loader b (uuid_const 7) NEXUS_FRDWR (toy_get 0) = None) \/
      (exists m b, cm_revalidate (CachedMetadata := toy_cached) m b NEXUS_FRDWR false toy_reval = None)
  | Some (s', r, _) => exists l', vfs_inv (CM := toy_cached) s' l' /\ Z.of_nat (length l') <= LRU_CAPACITY /\
      loaded_from (CM := toy_cached) stale_vfs [(uuid_const 7, 1)] (uuid_const 7) r s' l'
  end.
Proof.
  apply (vfs_load_correct (CM := toy_cached) toy_loader stale_vfs [(uuid_const 7, 1)]); [apply stale_vfs_inv|].
  intros b b' m t Hl. by eapply metadata_load_uuid.
Defined.

(** The caller gets a locked file whose buffer is gone. *)
Lemma vfs_reload_forgets_buffer_witness :
  exists s' a t m,
    nexus_vfs_load (CM := toy_cached) toy_loader stale_vfs (uuid_const 7) NEXUS_FRDWR toy_reval (toy_get 0)
      = Some (s', Some a, t) /\
    v_objects s' !! a = Some m /\ is_locked m = true /\ bcache_get (v_bufs s') (uuid_const 7) = None.
Proof.
  assert (Hre : exists m1 b1 t1, cm_revalidate (CachedMetadata := toy_cached) stale_md buffer_layer_init
                  NEXUS_FRDWR false toy_reval = Some (m1, b1, false, -1, t1) /\ b1 = buffer_layer_init).
  { do 3 eexists. split; vm_compute; reflexivity. }
  destruct Hre as (m1 & b1 & t1 & Hre & ->).
  assert (Hld : exists b2 m t2, toy_loader buffer_layer_init (uuid_const 7) NEXUS_FRDWR (toy_get 0)
                  = Some (b2, Some m, t2) /\ is_locked m = true).
  { do 3 eexists. split; vm_compute; reflexivity. }
  destruct Hld as (b2 & m & t2 & Hld & Hlk).
  destruct (vfs_reload_forgets_buffer (CM := toy_cached) toy_loader stale_vfs [(uuid_const 7, 1)] (uuid_const 7)
    1 stale_md NEXUS_FRDWR toy_reval (toy_get 0) m1 buffer_layer_init false (-1) t1 b2 m t2 stale_vfs_inv)
    as (s' & a & t & H1 & H2 & H3).
  - by left.
  - apply lookup_singleton_eq.
  - intros b b' m' t' Hl. by eapply metadata_load_uuid.
  - exact Hre.
  - done.
  - exact Hld.
  - exists s', a, t, m. split; [exact H1|]. split; [exact H2|]. split; [exact Hlk|exact H3].
Defined.
