(* ===== verification/Dentry.v ===== *)
(** * Dentries and path walking

    Models [dentry.c] and the lookups of [vfs.c]: the tree of cached directory
    entries, its reference counts, its links to the metadata cache of [Vfs.v],
    and the walk that resolves a path.  A dentry is a heap cell, found by its
    address; the [dentry_list] and [dentry_count] of a metadata object are kept
    with the tree, under the object's address.  What the walk needs of a
    metadata object is the class [PathMetadata]: its dirnode, and the loader of
    each kind.  The store's answer to a request about a UUID, at each step, is
    an argument.  Three outcomes are told apart: a result, a memory error
    ([Fault]) and the end of the fuel ([Spin]). *)
From S2P Require Import Prelude Hashmap Types AttributeTable Dirnode Gcm Crypto BufferLayer CryptoBuf.
From S2P Require Import Metadata Lru Vfs.

(** ** The dentry tree *)
(** Reference counts count live pointers, each of which occupies memory of its
    own, so they are kept as unbounded integers. *)
Definition DENTRY_INITIALIZED : Z := 0x0001.
Definition DENTRY_PARENT_CHANGED : Z := 0x0002.
Definition DENTRY_DELETED : Z := 0x0004.

Record nexus_dentry := mk_dentry {
  d_type : nexus_dirent_type;
  d_flags : Z;
  d_count : Z;
  d_name : bytes;
  d_name_len : Z;
  d_link : uuid;
  d_parent : option Z;
  d_metadata : option Z;
  d_children : list Z
}.

(** The [dentry_count] and [dentry_list] of a metadata object. *)
Record md_dentries := mk_mdd { dentry_count : Z; dentry_list : list Z }.

Record dcache := mk_dcache {
  dents : gmap Z nexus_dentry;
  d_next : Z;
  root_dentry : Z;
  pruned_dentries : list Z;
  md_links : gmap Z md_dentries
}.

Definition set_dents (dc : dcache) (m : gmap Z nexus_dentry) : dcache :=
  mk_dcache m (d_next dc) (root_dentry dc) (pruned_dentries dc) (md_links dc).
Definition set_links (dc : dcache) (m : gmap Z md_dentries) : dcache :=
  mk_dcache (dents dc) (d_next dc) (root_dentry dc) (pruned_dentries dc) m.

(** An assignment through a pointer to a dentry. *)
Definition modify (dc : dcache) (a : Z) (f : nexus_dentry -> nexus_dentry) : option dcache :=
  d ← dents dc !! a; Some (set_dents dc (<[a := f d]> (dents dc))).

Definition with_flags (f : Z) (d : nexus_dentry) : nexus_dentry :=
  mk_dentry (d_type d) f (d_count d) (d_name d) (d_name_len d) (d_link d) (d_parent d) (d_metadata d) (d_children d).
Definition with_count (n : Z) (d : nexus_dentry) : nexus_dentry :=
  mk_dentry (d_type d) (d_flags d) n (d_name d) (d_name_len d) (d_link d) (d_parent d) (d_metadata d) (d_children d).
Definition with_parent (p : option Z) (d : nexus_dentry) : nexus_dentry :=
  mk_dentry (d_type d) (d_flags d) (d_count d) (d_name d) (d_name_len d) (d_link d) p (d_metadata d) (d_children d).
Definition with_metadata (m : option Z) (d : nexus_dentry) : nexus_dentry :=
  mk_dentry (d_type d) (d_flags d) (d_count d) (d_name d) (d_name_len d) (d_link d) (d_parent d) m (d_children d).
Definition with_children (l : list Z) (d : nexus_dentry) : nexus_dentry :=
  mk_dentry (d_type d) (d_flags d) (d_count d) (d_name d) (d_name_len d) (d_link d) (d_parent d) (d_metadata d) l.

Definition links_of (dc : dcache) (m : Z) : md_dentries := default (mk_mdd 0 []) (md_links dc !! m).

(** [d_alloc]; a parent gets a reference and a child at the end of its list. *)
Definition d_alloc (dc : dcache) (parent : option Z) (u : uuid) (name : bytes) (type : nexus_dirent_type)
    : option (dcache * Z) :=
  let a := d_next dc in
  let d := mk_dentry type 0 1 (take (Z.to_nat NEXUS_NAME_MAX) name)
             (Z.min (Z.of_nat (length name)) NEXUS_NAME_MAX) u parent None [] in
  let fresh dc := mk_dcache (<[a := d]> (dents dc)) (a + 1) (root_dentry dc) (pruned_dentries dc) (md_links dc) in
  match parent with
  | None => Some (fresh dc, a)
  | Some p =>
      dc ← modify dc p (fun d => with_children (d_children d ++ [a]) (with_count (d_count d + 1) d));
      Some (fresh dc, a)
  end.

(** [list_del(&dentry->siblings)] of a child of [p]. *)
Definition unlink_sibling (dc : dcache) (p a : Z) : option dcache :=
  modify dc p (fun d => with_children (filter (fun c => c <> a) (d_children d)) d).

Definition d_iput (dc : dcache) (a : Z) : option dcache :=
  d ← dents dc !! a;
  match d_metadata d with
  | None => Some dc
  | Some m =>
      let l := links_of dc m in
      modify (set_links dc (<[m := mk_mdd (dentry_count l - 1) (filter (fun x => x <> a) (dentry_list l))]> (md_links dc)))
        a (with_metadata None)
  end.

Definition dentry_get (dc : dcache) (a : Z) : option dcache := modify dc a (fun d => with_count (d_count d + 1) d).

(** [dentry_put], [dentry_delete] and [__dcache_prune] call each other; the
    recursion is bounded by [n].  The loop over the children runs on the list
    as it was when the loop started. *)
Fixpoint dentry_put_ (n : nat) (dc : dcache) (a : Z) : option dcache :=
  match n with
  | O => None
  | S n =>
      d ← dents dc !! a;
      let c := d_count d - 1 in
      dc ← modify dc a (with_count c);
      if c =? 0 then dentry_delete_ n dc a else Some dc
  end
with dentry_delete_ (n : nat) (dc : dcache) (a : Z) : option dcache :=
  match n with
  | O => None
  | S n =>
      if a =? root_dentry dc then Some dc
      else
        d ← dents dc !! a;
        if negb (Z.land (d_flags d) DENTRY_DELETED =? 0) then Some dc
        else
          dc ← match d_parent d with
               | None => Some dc
               | Some p =>
                   dc ← dentry_put_ n dc p;
                   dc ← unlink_sibling dc p a;
                   modify dc a (with_parent None)
               end;
          dc ← modify dc a (with_flags DENTRY_DELETED);
          dc ← d_iput dc a;
          d ← dents dc !! a;
          if d_count d <=? 1 then dcache_prune_ n dc a
          else Some (mk_dcache (dents dc) (d_next dc) (root_dentry dc) (a :: pruned_dentries dc) (md_links dc))
  end
with dcache_prune_ (n : nat) (dc : dcache) (a : Z) : option dcache :=
  match n with
  | O => None
  | S n =>
      d ← dents dc !! a;
      dc ← foldl (fun o c => dc ← o; dcache_prune_ n dc c) (Some dc) (d_children d);
      d ← dents dc !! a;
      if d_count d <=? 1 then
        dc ← d_iput dc a;
        dc ← match d_parent d with
             | None => Some dc
             | Some p => dc ← dentry_put_ n dc p; unlink_sibling dc p a
             end;
        Some (set_dents dc (delete a (dents dc)))
      else Some dc
  end.

(** A chain of calls climbs the tree or goes down it. *)
Definition call_depth (dc : dcache) : nat := (3 * size (dents dc) + 3)%nat.
Definition dentry_put (dc : dcache) (a : Z) : option dcache := dentry_put_ (call_depth dc) dc a.
Definition dentry_delete (dc : dcache) (a : Z) : option dcache := dentry_delete_ (call_depth dc) dc a.

(** The first child with that name. *)
Fixpoint find_child (dc : dcache) (l : list Z) (name : bytes) : option (option Z) :=
  match l with
  | [] => Some None
  | c :: l' =>
      d ← dents dc !! c;
      if (d_name_len d =? Z.of_nat (length name)) && bool_decide (take (length name) (d_name d) = name)
      then Some (Some c) else find_child dc l' name
  end.

Definition d_lookup (dc : dcache) (parent : Z) (name : bytes) : option (option Z) :=
  d ← dents dc !! parent; find_child dc (d_children d) name.

(** The [abort] of a dentry that already has its metadata is [None]. *)
Definition dentry_instantiate (dc : dcache) (a m : Z) : option dcache :=
  d ← dents dc !! a;
  match d_metadata d with
  | Some _ => None
  | None =>
      let l := links_of dc m in
      modify (set_links dc (<[m := mk_mdd (dentry_count l + 1) (a :: dentry_list l)]> (md_links dc)))
        a (fun d => with_flags (Z.lor (d_flags d) DENTRY_INITIALIZED) (with_metadata (Some m) d))
  end.

Definition dentry_invalidate (dc : dcache) (a : Z) : option dcache :=
  dc ← d_iput dc a;
  modify dc a (fun d => with_flags (Z.ldiff (d_flags d) DENTRY_INITIALIZED) d).

Definition dentry_delete_child (dc : dcache) (parent : Z) (name : bytes) : option dcache :=
  r ← d_lookup dc parent name;
  match r with None => Some dc | Some a => dentry_delete dc a end.

(** [metadata_get_dentry] of [metadata.c]. *)
Definition metadata_get_dentry (dc : dcache) (m : Z) : option Z :=
  let l := links_of dc m in if dentry_count l =? 0 then None else head (dentry_list l).

(** The end of [nexus_metadata_free]: the dentries of the object let go of it. *)
Definition metadata_detach (dc : dcache) (m : Z) : option dcache :=
  let l := links_of dc m in
  dc ← (if dentry_count l =? 0 then Some dc
        else foldl (fun o a => dc ← o; dentry_invalidate dc a) (Some dc) (dentry_list l));
  Some (set_links dc (delete m (md_links dc))).

(** [dcache_init_root]: a previous root is freed, its children are not. *)
Definition dcache_init_root (dc : dcache) (root_uuid : uuid) : option dcache :=
  let dc := set_dents dc (delete (root_dentry dc) (dents dc)) in
  '(dc, a) ← d_alloc dc None root_uuid [47] NEXUS_DIR;
  Some (mk_dcache (dents dc) (d_next dc) a [] (md_links dc)).

Definition dcache_start (root_uuid : uuid) : dcache :=
  default (mk_dcache ∅ 1 0 [] ∅) (dcache_init_root (mk_dcache ∅ 1 0 [] ∅) root_uuid).

(** The loops of [dentry_get_fullpath] write "/name" from the end; [n] bounds
    the climb, on which addresses go down: a parent is older than its children. *)
Fixpoint fullpath_loop (n : nat) (dc : dcache) (a : Z) (acc : bytes) : option bytes :=
  match n with
  | O => None
  | S n =>
      d ← dents dc !! a;
      match d_parent d with
      | None => Some acc
      | Some p => fullpath_loop n dc p (47 :: take (Z.to_nat (d_name_len d)) (d_name d) ++ acc)
      end
  end.

Definition dentry_get_fullpath (dc : dcache) (a : Z) : option bytes :=
  d ← dents dc !! a;
  match d_parent d with
  | None => Some [47]
  | Some _ => fullpath_loop (S (Z.to_nat a)) dc a []
  end.

(** ** Invariant *)
(** A flag as a bit. *)
Definition has_flag (k : Z) (d : nexus_dentry) : bool := Z.testbit (d_flags d) k.

(** What a path sees of a dentry, and what the shape of the tree depends on. *)
Definition place (d : nexus_dentry) : bytes * nexus_dirent_type * uuid * option Z :=
  (d_name d, d_type d, d_link d, d_parent d).
Definition shape (d : nexus_dentry) : bytes * nexus_dirent_type * uuid * option Z * Z * Z * list Z :=
  (place d, d_count d, d_name_len d, d_children d).

(** The tree is well formed: parents and children agree, a parent is older
    than its children, each dentry counts itself and its children, and names
    differ among siblings. *)
Record tinv (dc : dcache) : Prop := {
  di_fresh : forall a d, dents dc !! a = Some d -> 0 < a < d_next dc;
  di_next : 0 < d_next dc;
  di_root : exists d, dents dc !! root_dentry dc = Some d /\ d_parent d = None /\ d_type d = NEXUS_DIR;
  di_parent : forall a d p, dents dc !! a = Some d -> d_parent d = Some p ->
    p < a /\ exists dp, dents dc !! p = Some dp /\ a ∈ d_children dp;
  di_child : forall a d c, dents dc !! a = Some d -> c ∈ d_children d ->
    exists e, dents dc !! c = Some e /\ d_parent e = Some a;
  di_nodup : forall a d, dents dc !! a = Some d -> NoDup (d_children d);
  di_count : forall a d, dents dc !! a = Some d -> d_count d = 1 + Z.of_nat (length (d_children d));
  di_len : forall a d, dents dc !! a = Some d -> d_name_len d = Z.of_nat (length (d_name d));
  di_names : forall c1 c2 d1 d2, dents dc !! c1 = Some d1 -> dents dc !! c2 = Some d2 ->
    d_parent d1 = d_parent d2 -> is_Some (d_parent d1) -> d_name d1 = d_name d2 -> c1 = c2
}.

(** Dentries and the live metadata objects point at each other, and only a
    dentry without a parent is deleted. *)
Record dinv (live : Z -> Prop) (dc : dcache) : Prop := {
  di_tree : tinv dc;
  di_deleted : forall a d, dents dc !! a = Some d -> has_flag 2 d = true -> d_parent d = None;
  di_meta : forall a d m, dents dc !! a = Some d -> d_metadata d = Some m ->
    live m /\ exists l, md_links dc !! m = Some l /\ a ∈ dentry_list l;
  di_links : forall m l, md_links dc !! m = Some l ->
    NoDup (dentry_list l) /\ dentry_count l = Z.of_nat (length (dentry_list l)) /\
    forall a, a ∈ dentry_list l -> exists d, dents dc !! a = Some d /\ d_metadata d = Some m
}.

(** ** Lemmas *)
Lemma flag_land d k : 0 <= k -> (Z.land (d_flags d) (2 ^ k) =? 0) = negb (has_flag k d).
Proof.
  intros Hk. unfold has_flag. destruct (Z.testbit (d_flags d) k) eqn:E; simpl.
  - apply Z.eqb_neq. intros H0. assert (Hb : Z.testbit (Z.land (d_flags d) (2 ^ k)) k = true).
    { rewrite Z.land_spec, E, Z.pow2_bits_true by done. done. }
    by rewrite H0, Z.bits_0 in Hb.
  - apply Z.eqb_eq. apply Z.bits_inj'. intros i Hi. rewrite Z.land_spec, Z.bits_0.
    destruct (decide (i = k)) as [->|Hne]; [by rewrite E|]. rewrite Z.pow2_bits_false by done.
    apply andb_false_r.
Qed.

Lemma filter_ne_length (a : Z) (l : list Z) :
  NoDup l -> a ∈ l -> Z.of_nat (length (filter (fun c => c <> a) l)) = Z.of_nat (length l) - 1.
Proof.
  induction 1 as [|c l Hc Hnd IH]; intros Ha; [by apply not_elem_of_nil in Ha|]. rewrite filter_cons.
  apply elem_of_cons in Ha as [<-|Ha].
  - rewrite decide_False by (intros ?; done). rewrite filter_all; [simpl; lia|]. apply Forall_forall. intros x Hx ->. done.
  - rewrite decide_True by (intros ->; done). simpl. rewrite Nat2Z.inj_succ, IH by done. lia.
Qed.

(** Two trees with the same shape. *)
Definition same_shape (dc dc' : dcache) : Prop :=
  d_next dc' = d_next dc /\ root_dentry dc' = root_dentry dc /\
  forall a, shape <$> dents dc' !! a = shape <$> dents dc !! a.

Section dentry_lemmas.
Implicit Types (dc : dcache) (d e : nexus_dentry) (a p c m : Z).

#[export] Instance same_shape_equiv : Equivalence same_shape.
Proof.
  split.
  - intros dc. done.
  - intros dc dc' (H1 & H2 & H3). split; [done|]. split; [done|]. intros a. by rewrite H3.
  - intros dc dc' dc'' (H1 & H2 & H3) (H4 & H5 & H6). split; [congruence|]. split; [congruence|]. intros a. by rewrite H6.
Qed.

Lemma shape_lookup dc dc' a d : same_shape dc dc' -> dents dc' !! a = Some d ->
  exists d0, dents dc !! a = Some d0 /\ shape d0 = shape d.
Proof.
  intros (_ & _ & H) Ha. specialize (H a). rewrite Ha in H. simpl in H.
  destruct (dents dc !! a) as [d0|]; [|done]. simpl in H. injection H as ?. exists d0. split; [done|].
  unfold shape, place. congruence.
Qed.

Lemma tinv_same dc dc' : same_shape dc dc' -> tinv dc -> tinv dc'.
Proof.
  intros Hs Hi. pose proof Hs as (Hn & Hr & _).
  assert (Hb : forall a d, dents dc' !! a = Some d -> exists d0, dents dc !! a = Some d0 /\ shape d0 = shape d)
    by (intros a d; by apply shape_lookup).
  assert (Hf : forall a d, dents dc !! a = Some d -> exists d0, dents dc' !! a = Some d0 /\ shape d0 = shape d)
    by (intros a d; by apply shape_lookup).
  split.
  - intros a d (d0 & Ha & _)%Hb. rewrite Hn. by eapply di_fresh.
  - rewrite Hn. by apply Hi.
  - rewrite Hr. destruct (di_root _ Hi) as (d & Hd & H1 & H2). destruct (Hf _ _ Hd) as (d0 & Hd0 & [= ]).
    exists d0. split; [done|]. split; congruence.
  - intros a d p (d0 & Ha & [= ])%Hb Hp. destruct (di_parent _ Hi a d0 p) as (Hlt & dp & Hdp & Hin); [done|congruence|].
    split; [done|]. destruct (Hf _ _ Hdp) as (dp0 & ? & [= ]). exists dp0. split; [done|]. congruence.
  - intros a d c (d0 & Ha & [= ])%Hb Hc. destruct (di_child _ Hi a d0 c) as (e & He & Hep); [done|congruence|].
    destruct (Hf _ _ He) as (e0 & ? & [= ]). exists e0. split; [done|]. congruence.
  - intros a d (d0 & Ha & [= ])%Hb. replace (d_children d) with (d_children d0) by congruence. by eapply di_nodup.
  - intros a d (d0 & Ha & [= ])%Hb. pose proof (di_count _ Hi _ _ Ha). congruence.
  - intros a d (d0 & Ha & [= ])%Hb. pose proof (di_len _ Hi _ _ Ha). congruence.
  - intros c1 c2 d1 d2 (e1 & Ha1 & [= ])%Hb (e2 & Ha2 & [= ])%Hb Hp Hs1 Hnm.
    apply (di_names _ Hi c1 c2 e1 e2); try done; congruence.
Qed.

Lemma shape_insert dc dc' a d e :
  dents dc !! a = Some d -> shape e = shape d -> dents dc' = <[a := e]> (dents dc) ->
  d_next dc' = d_next dc -> root_dentry dc' = root_dentry dc -> same_shape dc dc'.
Proof.
  intros Ha He Hdc Hn Hr. split; [done|]. split; [done|]. intros x. rewrite Hdc. destruct (decide (x = a)) as [->|Hne].
  - rewrite lookup_insert_eq, Ha. cbn. by rewrite He.
  - by rewrite lookup_insert_ne.
Qed.


Context (live : Z -> Prop).

(** An assignment to the flags. *)
Lemma flags_spec dc a d f :
  dinv live dc -> dents dc !! a = Some d -> (Z.testbit (f d) 2 = true -> d_parent d = None) ->
  let dc' := set_dents dc (<[a := with_flags (f d) d]> (dents dc)) in
  modify dc a (fun d => with_flags (f d) d) = Some dc' /\ dinv live dc' /\ same_shape dc dc'.
Proof.
  intros [Ht Hd Hm Hl] Ha Hf dc'.
  assert (Hs : same_shape dc dc') by (by apply (shape_insert _ _ a d (with_flags (f d) d))).
  split; [unfold modify; by rewrite Ha|]. split; [|done]. split.
  - by eapply tinv_same.
  - intros x dx Hx Hfl. cbn in Hx. apply lookup_insert_Some in Hx as [[<- <-]|[_ Hx]]; [by apply Hf|by eapply Hd].
  - intros x dx m Hx Hxm. cbn in Hx. apply lookup_insert_Some in Hx as [[<- <-]|[_ Hx]]; by eapply Hm.
  - intros m l Hml. destruct (Hl m l Hml) as (H1 & H2 & H3). split; [done|]. split; [done|].
    intros x Hx. destruct (H3 x Hx) as (dx & Hdx & Hxm). cbn. destruct (decide (x = a)) as [->|Hne].
    + rewrite lookup_insert_eq. exists (with_flags (f d) d). simplify_eq. done.
    + rewrite lookup_insert_ne by done. eauto.
Qed.

(** [d_iput]: the dentry and its object let go of each other. *)
Lemma d_iput_spec dc a d :
  dinv live dc -> dents dc !! a = Some d ->
  exists dc', d_iput dc a = Some dc' /\ dinv live dc' /\ same_shape dc dc' /\
    dents dc' = <[a := with_metadata None d]> (dents dc) /\ pruned_dentries dc' = pruned_dentries dc /\
    (forall m, d_metadata d <> Some m -> md_links dc' !! m = md_links dc !! m) /\
    (forall m, is_Some (md_links dc' !! m) <-> is_Some (md_links dc !! m)).
Proof.
  intros Hi Ha. pose proof Hi as [Ht Hd Hm Hl]. unfold d_iput. rewrite Ha. cbn [mbind option_bind].
  destruct (d_metadata d) as [m|] eqn:Em.
  2:{ exists dc. assert (Hid : with_metadata None d = d) by (destruct d; cbn in Em; by subst).
      rewrite Hid, insert_id by done. done. }
  destruct (Hm a d m Ha Em) as (Hlv & l & Hml & Hin). destruct (Hl m l Hml) as (Hnd & Hc & Hall).
  unfold links_of. rewrite Hml. cbn [default id from_option]. unfold modify. cbn [dents set_links]. rewrite Ha. cbn [mbind option_bind].
  set (dc' := set_dents _ _). assert (Hs : same_shape dc dc') by (by apply (shape_insert _ _ a d (with_metadata None d))).
  exists dc'. split; [done|]. split; [|split; [done|split; [done|split; [done|split]]]].
  - split.
    + by eapply tinv_same.
    + intros x dx Hx Hfl. cbn in Hx. apply lookup_insert_Some in Hx as [[<- <-]|[_ Hx]].
      * exact (Hd _ _ Ha Hfl).
      * exact (Hd _ _ Hx Hfl).
    + intros x dx m' Hx Hxm. cbn in Hx. apply lookup_insert_Some in Hx as [[<- <-]|[Hne Hx]]; [done|].
      destruct (Hm _ _ _ Hx Hxm) as (Hlv' & l' & Hl' & Hin'). split; [done|]. cbn.
      destruct (decide (m' = m)) as [->|Hnm]; [|rewrite lookup_insert_ne by done; by exists l'].
      rewrite lookup_insert_eq. eexists. split; [done|]. cbn. simplify_eq. apply list_elem_of_filter. done.
    + intros m' l' Hl'. cbn in Hl'. apply lookup_insert_Some in Hl' as [[<- <-]|[Hnm Hl']].
      * cbn. split; [by apply NoDup_filter|]. rewrite filter_ne_length, Hc by done.
        split; [lia|].
        intros x [Hxa Hx]%list_elem_of_filter. destruct (Hall x Hx) as (dx & Hdx & Hxm). exists dx.
        by rewrite lookup_insert_ne.
      * destruct (Hl _ _ Hl') as (H1 & H2 & H3). split; [done|]. split; [done|].
        intros x Hx. destruct (H3 x Hx) as (dx & Hdx & Hxm). exists dx. cbn. rewrite lookup_insert_ne; [done|].
        intros <-. congruence.
  - intros m' Hne. cbn. apply lookup_insert_ne. congruence.
  - intros m'. cbn. destruct (decide (m' = m)) as [->|Hnm]; [|by rewrite lookup_insert_ne].
    rewrite lookup_insert_eq, Hml. split; eauto.
Qed.

(** The parent after one of its children is gone. *)
Definition without_child (a : Z) (dp : nexus_dentry) : nexus_dentry :=
  with_children (filter (fun c => c <> a) (d_children dp)) (with_count (d_count dp - 1) dp).

(** A dentry leaves its parent. *)
Lemma detach_inv dc dc' a d p dp :
  dinv live dc -> dents dc !! a = Some d -> d_parent d = Some p -> dents dc !! p = Some dp ->
  dents dc' = <[a := with_parent None d]> (<[p := without_child a dp]> (dents dc)) ->
  d_next dc' = d_next dc -> root_dentry dc' = root_dentry dc -> md_links dc' = md_links dc -> dinv live dc'.
Proof.
  intros Hi Ha Hpa Hp Hdc Hn Hr Hml. pose proof Hi as [Ht Hd Hm Hl].
  destruct (di_parent _ Ht _ _ _ Ha Hpa) as (Hlt & dp0 & Hp0 & Hin). rewrite Hp in Hp0. injection Hp0 as <-.
  assert (Hpne : p <> a) by lia.
  assert (Hlk : forall x dx, dents dc' !! x = Some dx -> (x = a /\ dx = with_parent None d) \/
    (x = p /\ dx = without_child a dp) \/ (x <> a /\ x <> p /\ dents dc !! x = Some dx)).
  { intros x dx. rewrite Hdc. destruct (decide (x = a)) as [->|]; [rewrite lookup_insert_eq; intros [= <-]; by left|].
    rewrite lookup_insert_ne by done. destruct (decide (x = p)) as [->|].
    - rewrite lookup_insert_eq. intros [= <-]. right. by left.
    - rewrite lookup_insert_ne by done. right. by right. }
  assert (Hold : forall x dx, dents dc' !! x = Some dx -> exists d0, dents dc !! x = Some d0 /\ d_name dx = d_name d0 /\
    d_name_len dx = d_name_len d0 /\ d_metadata dx = d_metadata d0 /\ has_flag 2 dx = has_flag 2 d0 /\
    (d_parent dx = None \/ d_parent dx = d_parent d0) /\ (x <> a -> d_parent dx = d_parent d0)).
  { intros x dx [[-> ->]|[[-> ->]|(? & ? & Hx)]]%Hlk; eexists; split_and!; try done; auto. }
  assert (Hnew : forall x d0, dents dc !! x = Some d0 -> exists dx, dents dc' !! x = Some dx /\ d_metadata dx = d_metadata d0 /\
    d_type dx = d_type d0 /\ (x <> a -> d_parent dx = d_parent d0) /\ (x <> p -> d_children dx = d_children d0)).
  { intros x d0 Hx. rewrite Hdc. destruct (decide (x = a)) as [->|].
    { rewrite lookup_insert_eq. eexists. split; [done|]. simplify_eq. done. }
    rewrite lookup_insert_ne by done. destruct (decide (x = p)) as [->|].
    - rewrite lookup_insert_eq. eexists. split; [done|]. simplify_eq. done.
    - rewrite lookup_insert_ne by done. eexists. split; [done|]. done. }
  split; [split|..].
  - intros x dx (d0 & Hx & _)%Hold. rewrite Hn. by eapply di_fresh.
  - rewrite Hn. by apply Ht.
  - rewrite Hr. destruct (di_root _ Ht) as (dr & Hdr & H1 & H2). destruct (Hnew _ _ Hdr) as (dx & Hdx & _ & H3 & H4 & _).
    exists dx. split; [done|]. rewrite H4 by congruence. split; congruence.
  - intros x dx q Hx Hq. destruct (Hlk _ _ Hx) as [[-> ->]|H1]; [done|].
    assert (Hxa : x <> a) by (destruct H1 as [[-> _]|(? & _)]; done).
    destruct (Hold _ _ Hx) as (d0 & Hx0 & _ & _ & _ & _ & _ & Hpe). rewrite Hpe in Hq by done.
    destruct (di_parent _ Ht _ _ _ Hx0 Hq) as (Hlt' & dq & Hdq & Hinq). split; [done|].
    destruct (decide (q = p)) as [->|Hqp].
    + exists (without_child a dp). rewrite Hdc, lookup_insert_ne, lookup_insert_eq by done. split; [done|].
      simplify_eq. cbn. by apply list_elem_of_filter.
    + destruct (Hnew _ _ Hdq) as (dx' & Hdx' & _ & _ & _ & Hch). exists dx'. split; [done|]. by rewrite Hch.
  - intros x dx c Hx Hc. assert (Hc0 : exists d0, dents dc !! x = Some d0 /\ c ∈ d_children d0 /\ c <> a).
    { destruct (Hlk _ _ Hx) as [[-> ->]|[[-> ->]|(? & ? & Hx0)]].
      - exists d. split; [done|]. split; [done|]. intros ->. destruct (di_child _ Ht _ _ _ Ha Hc) as (e & He & Hpe).
        simplify_eq.
      - cbn in Hc. apply list_elem_of_filter in Hc as [? ?]. eauto.
      - exists dx. split; [done|]. split; [done|]. intros ->. destruct (di_child _ Ht _ _ _ Hx0 Hc) as (e & He & Hpe).
        simplify_eq. }
    destruct Hc0 as (d0 & Hx0 & Hc0 & Hca). destruct (di_child _ Ht _ _ _ Hx0 Hc0) as (e & He & Hpe).
    destruct (Hnew _ _ He) as (e' & He' & _ & _ & H5 & _). exists e'. split; [done|]. by rewrite H5.
  - intros x dx [[-> ->]|[[-> ->]|(? & ? & Hx0)]]%Hlk; [cbn; by eapply di_nodup| |by eapply di_nodup].
    cbn. apply NoDup_filter. by eapply di_nodup.
  - intros x dx [[-> ->]|[[-> ->]|(? & ? & Hx0)]]%Hlk; [cbn; by eapply di_count| |by eapply di_count].
    cbn. rewrite filter_ne_length, (di_count _ Ht _ _ Hp); [lia|by eapply di_nodup|done].
  - intros x dx (d0 & Hx & -> & -> & _)%Hold. by eapply di_len.
  - intros c1 c2 d1 d2 H1 H2 Hpe Hs Hnm. destruct (Hold _ _ H1) as (e1 & He1 & Hn1 & _ & _ & _ & [Hx1|Hx1] & _);
      [by rewrite Hx1 in Hs; destruct Hs|].
    destruct (Hold _ _ H2) as (e2 & He2 & Hn2 & _ & _ & _ & [Hx2|Hx2] & _); [rewrite <- Hpe in Hx2; rewrite Hx2 in Hs; by destruct Hs|].
    apply (di_names _ Ht c1 c2 e1 e2); try done; congruence.
  - intros x dx (d0 & Hx & _ & _ & _ & -> & [H1|H1] & _)%Hold Hfl; [done|]. rewrite H1. by eapply Hd.
  - intros x dx m (d0 & Hx & _ & _ & -> & _)%Hold Hxm. rewrite Hml. by eapply Hm.
  - intros m l. rewrite Hml. intros Hl'. destruct (Hl _ _ Hl') as (H1 & H2 & H3). split; [done|]. split; [done|].
    intros x Hx. destruct (H3 x Hx) as (d0 & Hd0 & Hxm). destruct (Hnew _ _ Hd0) as (dx & Hdx & Hme & _).
    exists dx. split; [done|]. congruence.
Qed.

(** A dentry that nothing points at is freed. *)
Lemma free_inv dc a d :
  dinv live dc -> dents dc !! a = Some d -> d_parent d = None -> d_children d = [] -> d_metadata d = None ->
  a <> root_dentry dc -> dinv live (set_dents dc (delete a (dents dc))).
Proof.
  intros [Ht Hd Hm Hl] Ha Hp Hc Hme Hr.
  assert (Hlk : forall x dx, delete a (dents dc) !! x = Some dx <-> x <> a /\ dents dc !! x = Some dx)
    by (intros x dx; rewrite lookup_delete_Some; naive_solver).
  split; [split|..]; cbn [dents set_dents d_next root_dentry md_links].
  - intros x dx [_ Hx]%Hlk. by eapply di_fresh.
  - by apply Ht.
  - destruct (di_root _ Ht) as (dr & Hdr & H1 & H2). exists dr. split; [|done]. apply Hlk. done.
  - intros x dx p [Hne Hx]%Hlk Hpx. destruct (di_parent _ Ht _ _ _ Hx Hpx) as (Hlt & dp & Hdp & Hin).
    split; [done|]. exists dp. split; [|done]. apply Hlk. split; [|done]. intros ->. simplify_eq.
    rewrite Hc in Hin. by apply not_elem_of_nil in Hin.
  - intros x dx c [Hne Hx]%Hlk Hcx. destruct (di_child _ Ht _ _ _ Hx Hcx) as (e & He & Hpe). exists e.
    split; [|done]. apply Hlk. split; [|done]. intros ->. simplify_eq.
  - intros x dx [_ Hx]%Hlk. by eapply di_nodup.
  - intros x dx [_ Hx]%Hlk. by eapply di_count.
  - intros x dx [_ Hx]%Hlk. by eapply di_len.
  - intros c1 c2 d1 d2 [_ H1]%Hlk [_ H2]%Hlk. by eapply di_names.
  - intros x dx [_ Hx]%Hlk. by eapply Hd.
  - intros x dx m [_ Hx]%Hlk. by eapply Hm.
  - intros m l Hml. destruct (Hl m l Hml) as (H1 & H2 & H3). split; [done|]. split; [done|].
    intros x Hx. destruct (H3 x Hx) as (dx & Hdx & Hxm). exists dx. split; [|done]. apply Hlk. split; [|done].
    intros ->. simplify_eq.
Qed.

Lemma modify_eq dc a d f : dents dc !! a = Some d -> modify dc a f = Some (set_dents dc (<[a := f d]> (dents dc))).
Proof. intros Ha. unfold modify. by rewrite Ha. Qed.

(** Deleting a child: it leaves its parent and its metadata; it is freed, or
    kept aside while it has children.  No other dentry is affected. *)
Lemma dentry_delete_spec dc a d p :
  dinv live dc -> dents dc !! a = Some d -> d_parent d = Some p ->
  exists dc' dp, dentry_delete dc a = Some dc' /\ dinv live dc' /\
    d_next dc' = d_next dc /\ root_dentry dc' = root_dentry dc /\
    (forall x, x <> a -> x <> p -> dents dc' !! x = dents dc !! x) /\
    dents dc !! p = Some dp /\ dents dc' !! p = Some (without_child a dp) /\
    (forall dx, dents dc' !! a = Some dx -> dx = with_metadata None (with_flags DENTRY_DELETED (with_parent None d))).
Proof.
  intros Hi Ha Hpa. pose proof (di_tree _ _ Hi) as Ht.
  destruct (di_parent _ Ht _ _ _ Ha Hpa) as (Hlt & dp & Hp & Hin). assert (Hpne : a <> p) by lia.
  assert (Hroot : a <> root_dentry dc).
  { intros ->. destruct (di_root _ Ht) as (dr & Hdr & H1 & _). simplify_eq. }
  assert (Hdel : has_flag 2 d = false).
  { destruct (has_flag 2 d) eqn:E; [|done]. rewrite (di_deleted _ _ Hi _ _ Ha E) in Hpa. done. }
  assert (Hcp0 : d_count dp - 1 <> 0).
  { rewrite (di_count _ Ht _ _ Hp). destruct (d_children dp); [by apply not_elem_of_nil in Hin|]. simpl length. lia. }
  set (dc1 := mk_dcache (<[a := with_parent None d]> (<[p := without_child a dp]> (dents dc)))
                (d_next dc) (root_dentry dc) (pruned_dentries dc) (md_links dc)).
  assert (Hi1 : dinv live dc1) by (by eapply (detach_inv dc dc1 a d p dp)).
  assert (Ha1 : dents dc1 !! a = Some (with_parent None d)) by apply lookup_insert_eq.
  destruct (flags_spec dc1 a _ (fun _ => DENTRY_DELETED) Hi1 Ha1 ltac:(done)) as (Hf2 & Hi2 & Hs2).
  set (dc2 := set_dents dc1 (<[a := with_flags DENTRY_DELETED (with_parent None d)]> (dents dc1))) in *.
  set (d2 := with_flags DENTRY_DELETED (with_parent None d)) in *.
  assert (Ha2 : dents dc2 !! a = Some d2) by apply lookup_insert_eq.
  destruct (d_iput_spec dc2 a d2 Hi2 Ha2) as (dc3 & Hp3 & Hi3 & Hs3 & Hd3 & Hpr3 & _).
  assert (Ha3 : dents dc3 !! a = Some (with_metadata None d2)) by (rewrite Hd3; apply lookup_insert_eq).
  assert (Hx3 : forall x, x <> a -> dents dc3 !! x = <[p := without_child a dp]> (dents dc) !! x).
  { intros x Hx. rewrite Hd3, lookup_insert_ne by done. cbn. by rewrite !lookup_insert_ne by done. }
  destruct Hs3 as (Hn3 & Hr3 & _). cbn in Hn3, Hr3.
  assert (Hgo : exists dc', (if d_count d <=? 1 then dcache_prune_ (S (3 * size (dents dc) + 1)) dc3 a
      else Some (mk_dcache (dents dc3) (d_next dc3) (root_dentry dc3) (a :: pruned_dentries dc3) (md_links dc3))) = Some dc' /\
    dinv live dc' /\ d_next dc' = d_next dc /\ root_dentry dc' = root_dentry dc /\
    (forall x, x <> a -> dents dc' !! x = dents dc3 !! x) /\
    (forall dx, dents dc' !! a = Some dx -> dx = with_metadata None d2)).
  { destruct (Z.leb_spec (d_count d) 1) as [Hc|Hc].
    - assert (Hch : d_children d = []).
      { rewrite (di_count _ Ht _ _ Ha) in Hc. by destruct (d_children d); [|simpl in Hc; lia]. }
      exists (set_dents dc3 (delete a (dents dc3))). split.
      { cbn [dcache_prune_]. rewrite Ha3. cbn [mbind option_bind d_children with_metadata d2 with_flags with_parent].
        rewrite Hch. cbn [foldl mbind option_bind]. rewrite Ha3. cbn [mbind option_bind d_count with_metadata d2 with_flags with_parent].
        rewrite (proj2 (Z.leb_le _ _) Hc). unfold d_iput. rewrite Ha3. done. }
      split; [eapply free_inv; try done; by rewrite Hr3|]. split; [done|]. split; [done|]. split.
      + intros x Hx. cbn. by apply lookup_delete_ne.
      + intros dx. cbn. rewrite lookup_delete_eq. done.
    - eexists. split; [done|]. split; [destruct Hi3 as [? ? ? ?]; split; [by apply (tinv_same dc3)|done..]|]. split; [done|]. split; [done|]. split; [done|].
      intros dx. cbn. rewrite Ha3. by intros [= <-]. }
  destruct Hgo as (dc' & Hgo & Hi' & Hn' & Hr' & Hx' & Ha'). exists dc', dp.
  split.
  { unfold dentry_delete, call_depth. replace (3 * size (dents dc) + 3)%nat with (S (S (3 * size (dents dc) + 1))) by lia.
    cbn [dentry_delete_]. rewrite (proj2 (Z.eqb_neq _ _) Hroot), Ha. cbn [mbind option_bind].
    change DENTRY_DELETED with (2 ^ 2) at 1. rewrite flag_land, Hdel by done. cbn [negb]. rewrite Hpa.
    cbn [dentry_put_]. rewrite Hp. cbn [mbind option_bind]. rewrite (modify_eq _ _ _ _ Hp).
    cbn [mbind option_bind]. rewrite (proj2 (Z.eqb_neq _ _) Hcp0). cbn [mbind option_bind]. unfold unlink_sibling.
    rewrite (modify_eq _ _ (with_count (d_count dp - 1) dp)) by (cbn; apply lookup_insert_eq).
    cbn [mbind option_bind]. rewrite (modify_eq _ _ d) by (cbn; by rewrite !lookup_insert_ne).
    cbn [mbind option_bind dents set_dents]. rewrite insert_insert_eq.
    change (modify _ a (with_flags DENTRY_DELETED)) with (modify dc1 a (fun d => with_flags DENTRY_DELETED d)).
    rewrite Hf2. cbn [mbind option_bind]. rewrite Hp3. cbn [mbind option_bind]. rewrite Ha3.
    cbn [mbind option_bind d_count with_metadata d2 with_flags with_parent]. exact Hgo. }
  split; [done|]. split; [done|]. split; [done|]. split.
  { intros x H1 H2. rewrite Hx', Hx3 by done. by apply lookup_insert_ne. }
  split; [done|]. split; [rewrite Hx', Hx3 by done; apply lookup_insert_eq|].
  exact Ha'.
Qed.

(** A new child at the end of its parent's list. *)
Definition with_child (a : Z) (dp : nexus_dentry) : nexus_dentry :=
  with_children (d_children dp ++ [a]) (with_count (d_count dp + 1) dp).

Lemma d_alloc_spec dc p dp u name type :
  dinv live dc -> dents dc !! p = Some dp -> (length name <= 256)%nat ->
  (forall c e, dents dc !! c = Some e -> d_parent e = Some p -> d_name e <> name) ->
  let a := d_next dc in
  let d := mk_dentry type 0 1 name (Z.of_nat (length name)) u (Some p) None [] in
  exists dc', d_alloc dc (Some p) u name type = Some (dc', a) /\ dinv live dc' /\
    dents dc' = <[a := d]> (<[p := with_child a dp]> (dents dc)) /\
    d_next dc' = a + 1 /\ root_dentry dc' = root_dentry dc /\ dents dc !! a = None /\ p < a.
Proof.
  intros Hi Hp Hlen Hfree a d. pose proof Hi as [Ht Hd Hm Hl].
  assert (Hfr : dents dc !! a = None).
  { destruct (dents dc !! a) as [x|] eqn:E; [|done]. apply (di_fresh _ Ht) in E. unfold a in E. lia. }
  pose proof (di_fresh _ Ht _ _ Hp) as Hpf. assert (Hpa : p <> a) by (unfold a; lia).
  unfold d_alloc. rewrite take_ge by (change (Z.to_nat NEXUS_NAME_MAX) with 256%nat; lia).
  rewrite (Z.min_l _ NEXUS_NAME_MAX) by (change NEXUS_NAME_MAX with 256; lia).
  rewrite (modify_eq _ _ _ _ Hp). cbn [mbind option_bind dents set_dents d_next root_dentry pruned_dentries md_links].
  fold a d. fold (with_child a dp).
  set (dc' := mk_dcache _ _ _ _ _). exists dc'. split; [done|].
  split; [|split; [done|split; [done|split; [done|split; [done|unfold a; lia]]]]].
  assert (Hlk : forall x dx, dents dc' !! x = Some dx -> (x = a /\ dx = d) \/
    (x = p /\ dx = with_child a dp) \/ (x <> a /\ x <> p /\ dents dc !! x = Some dx)).
  { intros x dx. cbn. destruct (decide (x = a)) as [->|]; [rewrite lookup_insert_eq; intros [= <-]; by left|].
    rewrite lookup_insert_ne by done. destruct (decide (x = p)) as [->|].
    - rewrite lookup_insert_eq. intros [= <-]. right. by left.
    - rewrite lookup_insert_ne by done. right. by right. }
  assert (Hold : forall x dx, dents dc' !! x = Some dx -> x <> a -> exists d0, dents dc !! x = Some d0 /\ place dx = place d0 /\
    d_name_len dx = d_name_len d0 /\ d_metadata dx = d_metadata d0 /\ has_flag 2 dx = has_flag 2 d0 ).
  { intros x dx [[-> ->]|[[-> ->]|(? & ? & Hx)]]%Hlk Hne; [done|..]; eexists; split_and!; done. }
  assert (Hnew : forall x d0, dents dc !! x = Some d0 -> x <> a /\ exists dx, dents dc' !! x = Some dx /\ place dx = place d0 /\
    d_metadata dx = d_metadata d0 /\ forall c, c ∈ d_children d0 -> c ∈ d_children dx).
  { intros x d0 Hx. assert (Hxa : x <> a) by (intros ->; congruence). split; [done|]. cbn. rewrite lookup_insert_ne by done.
    destruct (decide (x = p)) as [->|].
    - rewrite lookup_insert_eq. eexists. split; [done|]. simplify_eq. split; [done|]. split; [done|].
      intros c Hc. apply elem_of_app. by left.
    - rewrite lookup_insert_ne by done. eexists. split; [done|]. done. }
  split; [split|..].
  - intros x dx Hx. cbn [d_next dc']. destruct (decide (x = a)) as [->|Hne]; [unfold a; lia|].
    destruct (Hold _ _ Hx Hne) as (d0 & Hx0 & _). apply (di_fresh _ Ht) in Hx0. unfold a. lia.
  - cbn. unfold a. lia.
  - destruct (di_root _ Ht) as (dr & Hdr & H1 & H2). destruct (Hnew _ _ Hdr) as (_ & dx & Hdx & [= ] & _).
    exists dx. split; [done|]. split; congruence.
  - intros x dx q Hx Hq. destruct (decide (x = a)) as [->|Hne].
    + destruct (Hlk _ _ Hx) as [[_ ->]|[[? _]|(? & _)]]; [|done..]. injection Hq as <-. split; [unfold a; lia|].
      exists (with_child a dp). cbn. rewrite lookup_insert_ne, lookup_insert_eq by done. split; [done|].
      apply elem_of_app. right. by left.
    + destruct (Hold _ _ Hx Hne) as (d0 & Hx0 & [= ] & _).
      destruct (di_parent _ Ht x d0 q) as (Hlt & dq & Hdq & Hin); [done|congruence|]. split; [done|].
      destruct (Hnew _ _ Hdq) as (_ & dq' & Hdq' & _ & _ & Hch). exists dq'. split; [done|]. by apply Hch.
  - intros x dx c Hx Hc. destruct (Hlk _ _ Hx) as [[-> ->]|[[-> ->]|(? & ? & Hx0)]].
    + by apply not_elem_of_nil in Hc.
    + cbn in Hc. apply elem_of_app in Hc as [Hc|Hc%list_elem_of_singleton].
      * destruct (di_child _ Ht _ _ _ Hp Hc) as (e & He & Hpe). destruct (Hnew _ _ He) as (_ & e' & He' & [= ] & _).
        exists e'. split; [done|]. congruence.
      * subst c. exists d. split; [apply lookup_insert_eq|done].
    + destruct (di_child _ Ht _ _ _ Hx0 Hc) as (e & He & Hpe). destruct (Hnew _ _ He) as (_ & e' & He' & [= ] & _).
      exists e'. split; [done|]. congruence.
  - intros x dx [[-> ->]|[[-> ->]|(? & ? & Hx0)]]%Hlk; [cbn; apply NoDup_nil_2| |by eapply di_nodup].
    cbn. apply NoDup_app. split; [by eapply di_nodup|]. split; [|apply NoDup_singleton].
    intros c Hc Hca%list_elem_of_singleton. subst c. destruct (di_child _ Ht _ _ _ Hp Hc) as (e & He & _). congruence.
  - intros x dx [[-> ->]|[[-> ->]|(? & ? & Hx0)]]%Hlk; [done| |by eapply di_count].
    cbn. rewrite length_app, (di_count _ Ht _ _ Hp). simpl. lia.
  - intros x dx Hx. destruct (decide (x = a)) as [->|Hne].
    + destruct (Hlk _ _ Hx) as [[_ ->]|[[? _]|(? & _)]]; done.
    + destruct (Hold _ _ Hx Hne) as (d0 & Hx0 & [= ] & Hnl & _). pose proof (di_len _ Ht _ _ Hx0). congruence.
  - assert (Hda : dents dc' !! a = Some d) by apply lookup_insert_eq.
    intros c1 c2 d1 d2 H1 H2 Hpe Hs Hnm.
    destruct (decide (c1 = a)) as [->|N1], (decide (c2 = a)) as [->|N2]; [done|..].
    + exfalso. rewrite Hda in H1. injection H1 as <-. destruct (Hold _ _ H2 N2) as (e2 & He2 & [= ] & _).
      apply (Hfree c2 e2); [done|cbn in Hpe; congruence|cbn in Hnm; congruence].
    + exfalso. rewrite Hda in H2. injection H2 as <-. destruct (Hold _ _ H1 N1) as (e1 & He1 & [= ] & _).
      apply (Hfree c1 e1); [done|cbn in Hpe; congruence|cbn in Hnm; congruence].
    + destruct (Hold _ _ H1 N1) as (e1 & He1 & [= ] & _). destruct (Hold _ _ H2 N2) as (e2 & He2 & [= ] & _).
      apply (di_names _ Ht c1 c2 e1 e2); try done; congruence.
  - intros x dx Hx Hfl. destruct (decide (x = a)) as [->|Hne].
    + destruct (Hlk _ _ Hx) as [[_ ->]|[[? _]|(? & _)]]; done.
    + destruct (Hold _ _ Hx Hne) as (d0 & Hx0 & [= ] & _ & _ & Hf0). rewrite Hf0 in Hfl.
      pose proof (Hd _ _ Hx0 Hfl). congruence.
  - intros x dx m Hx Hxm. destruct (decide (x = a)) as [->|Hne].
    + destruct (Hlk _ _ Hx) as [[_ ->]|[[? _]|(? & _)]]; done.
    + destruct (Hold _ _ Hx Hne) as (d0 & Hx0 & _ & _ & Hme & _). rewrite Hme in Hxm. by eapply Hm.
  - intros m l Hml. destruct (Hl _ _ Hml) as (H1 & H2 & H3). split; [done|]. split; [done|].
    intros x Hx. destruct (H3 x Hx) as (d0 & Hd0 & Hxm). destruct (Hnew _ _ Hd0) as (_ & dx & Hdx & _ & Hme & _).
    exists dx. split; [done|]. congruence.
Qed.

Lemma dentry_instantiate_spec dc a d m :
  dinv live dc -> dents dc !! a = Some d -> d_metadata d = None -> live m ->
  let d' := with_flags (Z.lor (d_flags d) DENTRY_INITIALIZED) (with_metadata (Some m) d) in
  exists dc', dentry_instantiate dc a m = Some dc' /\ dinv live dc' /\ same_shape dc dc' /\
    dents dc' = <[a := d']> (dents dc).
Proof.
  intros [Ht Hd Hm Hl] Ha Hme Hlv d'. unfold dentry_instantiate. rewrite Ha. cbn [mbind option_bind]. rewrite Hme.
  rewrite (modify_eq _ _ d) by done. set (dc' := set_dents _ _). exists dc'. split; [done|].
  assert (Hs : same_shape dc dc') by (by apply (shape_insert _ _ a d d')). split; [|split; [done|done]].
  assert (Hlm : NoDup (dentry_list (links_of dc m)) /\
    dentry_count (links_of dc m) = Z.of_nat (length (dentry_list (links_of dc m))) /\
    forall x, x ∈ dentry_list (links_of dc m) -> exists d, dents dc !! x = Some d /\ d_metadata d = Some m).
  { unfold links_of. destruct (md_links dc !! m) as [l|] eqn:E; cbn; [by apply Hl|].
    split; [apply NoDup_nil_2|]. split; [done|]. intros x Hx. by apply not_elem_of_nil in Hx. }
  destruct Hlm as (Hnd & Hcnt & Hall).
  assert (Hna : a ∉ dentry_list (links_of dc m)) by (intros Hin; destruct (Hall _ Hin) as (d0 & ? & ?); congruence).
  split.
  - by eapply tinv_same.
  - intros x dx Hx Hfl. cbn in Hx. apply lookup_insert_Some in Hx as [[<- <-]|[_ Hx]]; [|by eapply Hd].
    apply (Hd _ _ Ha). unfold has_flag in *. cbn [d_flags with_flags with_metadata d'] in Hfl. rewrite Z.lor_spec in Hfl. by destruct (Z.testbit (d_flags d) 2).
  - intros x dx m' Hx Hxm. cbn in Hx. cbn. apply lookup_insert_Some in Hx as [[<- <-]|[Hne Hx]].
    + injection Hxm as <-. split; [done|]. rewrite lookup_insert_eq. eexists. split; [done|]. by left.
    + destruct (Hm _ _ _ Hx Hxm) as (H1 & l & H2 & H3). split; [done|]. destruct (decide (m' = m)) as [->|].
      * rewrite lookup_insert_eq. eexists. split; [done|]. cbn. right. unfold links_of. by rewrite H2.
      * rewrite lookup_insert_ne by done. eauto.
  - intros m' l Hml. cbn in Hml. apply lookup_insert_Some in Hml as [[<- <-]|[Hne Hml]].
    + cbn. split; [by apply NoDup_cons|]. split.
      * rewrite Hcnt. simpl. lia.
      * intros x [->|Hx]%elem_of_cons; [exists d'; by rewrite lookup_insert_eq|].
        destruct (Hall _ Hx) as (dx & Hdx & Hxm). exists dx. rewrite lookup_insert_ne; [done|]. intros <-. done.
    + destruct (Hl _ _ Hml) as (H1 & H2 & H3). split; [done|]. split; [done|]. intros x Hx.
      destruct (H3 x Hx) as (dx & Hdx & Hxm). exists dx. cbn. rewrite lookup_insert_ne; [done|]. intros <-. congruence.
Qed.

(** Dentries may have lost their metadata, and nothing else happened. *)
Definition calm dc dc' : Prop :=
  same_shape dc dc' /\ forall x d d', dents dc !! x = Some d -> dents dc' !! x = Some d' ->
    has_flag 1 d' = has_flag 1 d /\ (d_metadata d' = d_metadata d \/ d_metadata d' = None).

Lemma calm_refl dc : calm dc dc.
Proof. split; [done|]. intros x d d' H1 H2. simplify_eq. auto. Qed.

Lemma calm_trans dc1 dc2 dc3 : calm dc1 dc2 -> calm dc2 dc3 -> calm dc1 dc3.
Proof.
  intros [H1 H2] [H3 H4]. split; [by transitivity dc2|]. intros x d d' Hd Hd'.
  destruct (shape_lookup _ _ _ _ H3 Hd') as (d2 & Hd2 & _). destruct (H2 _ _ _ Hd Hd2) as [F1 M1].
  destruct (H4 _ _ _ Hd2 Hd') as [F2 M2]. split; [congruence|]. destruct M2 as [->|]; auto.
Qed.

Lemma dentry_invalidate_spec dc a d :
  dinv live dc -> dents dc !! a = Some d ->
  exists dc', dentry_invalidate dc a = Some dc' /\ dinv live dc' /\ calm dc dc' /\
    (forall d', dents dc' !! a = Some d' -> d_metadata d' = None) /\
    (forall x, x <> a -> dents dc' !! x = dents dc !! x).
Proof.
  intros Hi Ha. unfold dentry_invalidate. destruct (d_iput_spec dc a d Hi Ha) as (dc1 & -> & Hi1 & Hs1 & Hd1 & _).
  cbn [mbind option_bind]. assert (Ha1 : dents dc1 !! a = Some (with_metadata None d)) by (rewrite Hd1; apply lookup_insert_eq).
  destruct (flags_spec dc1 a _ (fun d => Z.ldiff (d_flags d) DENTRY_INITIALIZED) Hi1 Ha1) as (-> & Hi2 & Hs2).
  { cbn [d_flags with_metadata d_parent]. rewrite Z.ldiff_spec. intros Hf. apply (di_deleted _ _ Hi _ _ Ha). unfold has_flag.
    by destruct (Z.testbit (d_flags d) 2). }
  eexists. split; [done|]. split; [done|]. split; [|split].
  - split; [by transitivity dc1|]. intros x e e' He He'. cbn in He'. rewrite Hd1, insert_insert_eq in He'.
    apply lookup_insert_Some in He' as [[<- <-]|[Hne He']]; [|simplify_eq; auto].
    simplify_eq. split; [|by right]. unfold has_flag. cbn [d_flags with_flags with_metadata]. rewrite Z.ldiff_spec. by rewrite andb_true_r.
  - intros d'. cbn. rewrite lookup_insert_eq. by intros [= <-].
  - intros x Hx. cbn. rewrite lookup_insert_ne, Hd1, lookup_insert_ne by done. done.
Qed.

(** Freeing a metadata object leaves no dentry pointing at it. *)
Lemma invalidate_all (l : list Z) dc :
  dinv live dc -> NoDup l -> (forall a, a ∈ l -> is_Some (dents dc !! a)) ->
  exists dc', foldl (fun o a => dc ← o; dentry_invalidate dc a) (Some dc) l = Some dc' /\ dinv live dc' /\ calm dc dc' /\
    (forall a d', a ∈ l -> dents dc' !! a = Some d' -> d_metadata d' = None) /\
    (forall a, a ∉ l -> dents dc' !! a = dents dc !! a).
Proof.
  revert dc. induction l as [|a l IH]; intros dc Hi Hnd Hin.
  { exists dc. split; [done|]. split; [done|]. split; [apply calm_refl|].
    split; [|done]. intros a d' Ha. by apply not_elem_of_nil in Ha. }
  apply NoDup_cons in Hnd as [Hna Hnd]. destruct (Hin a) as [d Hd]; [by left|].
  destruct (dentry_invalidate_spec dc a d Hi Hd) as (dc1 & Hdc1 & Hi1 & Hc1 & Hm1 & Hx1).
  cbn [foldl mbind option_bind]. rewrite Hdc1. destruct (IH dc1 Hi1 Hnd) as (dc2 & -> & Hi2 & Hc2 & Hm2 & Hx2).
  { intros x Hx. rewrite Hx1; [apply Hin; by right|]. intros ->. done. }
  exists dc2. split; [done|]. split; [done|]. split; [by eapply calm_trans|].
  split; [|intros x [H1 H2]%not_elem_of_cons; by rewrite Hx2, Hx1].
  intros x d' [->|Hx]%elem_of_cons Hd'; [|by eapply Hm2].
  destruct (shape_lookup _ _ _ _ (proj1 Hc2) Hd') as (d1 & Hd1 & _).
  destruct (proj2 Hc2 _ _ _ Hd1 Hd') as [_ [->| ->]]; [|done]. by eapply Hm1.
Qed.

Lemma metadata_detach_spec dc m :
  dinv live dc ->
  exists dc', metadata_detach dc m = Some dc' /\ dinv (fun x => live x /\ x <> m) dc' /\ calm dc dc' /\
    (forall x d, dents dc !! x = Some d -> d_metadata d <> Some m -> dents dc' !! x = Some d).
Proof.
  intros Hi. pose proof Hi as [Ht Hd Hm Hl].
  assert (Hl0 : NoDup (dentry_list (links_of dc m)) /\
    dentry_count (links_of dc m) = Z.of_nat (length (dentry_list (links_of dc m))) /\
    forall x, x ∈ dentry_list (links_of dc m) -> exists d, dents dc !! x = Some d /\ d_metadata d = Some m).
  { unfold links_of. destruct (md_links dc !! m) as [l|] eqn:E; cbn.
    - by apply Hl.
    - split; [apply NoDup_nil_2|]. split; [done|]. intros x Hx. by apply not_elem_of_nil in Hx. }
  destruct Hl0 as (Hnd & Hcnt & Hall).
  assert (Hgo : exists dc1, (if dentry_count (links_of dc m) =? 0 then Some dc
      else foldl (fun o a => dc ← o; dentry_invalidate dc a) (Some dc) (dentry_list (links_of dc m))) = Some dc1 /\
    dinv live dc1 /\ calm dc dc1 /\ (forall a d, dents dc1 !! a = Some d -> d_metadata d <> Some m) /\
    (forall x d, dents dc !! x = Some d -> d_metadata d <> Some m -> dents dc1 !! x = Some d)).
  { destruct (Z.eqb_spec (dentry_count (links_of dc m)) 0) as [Hz|Hz].
    - exists dc. split; [done|]. split; [done|]. split; [apply calm_refl|].
      split; [|done]. intros a d Ha Hma. destruct (Hm _ _ _ Ha Hma) as (_ & l & E & Hin). unfold links_of in *. rewrite E in *. cbn in *.
      rewrite Hz in Hcnt. destruct (dentry_list l); [by apply not_elem_of_nil in Hin|]. simpl in Hcnt. lia.
    - destruct (invalidate_all _ dc Hi Hnd) as (dc1 & -> & Hi1 & Hc1 & Hm1 & Hx1).
      { intros x Hx. destruct (Hall x Hx) as (d & -> & _). eauto. }
      exists dc1. split; [done|]. split; [done|]. split; [done|]. split.
      2:{ intros x d Hx Hne. rewrite Hx1; [done|]. intros Hin. destruct (Hall x Hin) as (d0 & ? & ?). congruence. }
      intros a d Ha Hma.
      destruct (shape_lookup _ _ _ _ (proj1 Hc1) Ha) as (d0 & Hd0 & _).
      destruct (proj2 Hc1 _ _ _ Hd0 Ha) as [_ [Heq|Heq]]; [|congruence]. rewrite Heq in Hma.
      destruct (Hm _ _ _ Hd0 Hma) as (_ & l & E & Hin). unfold links_of in Hm1. rewrite E in Hm1.
      specialize (Hm1 _ _ Hin Ha). congruence. }
  unfold metadata_detach. destruct Hgo as (dc1 & -> & [Ht1 Hd1 Hm1 Hl1] & Hc1 & Hno & Hx1). cbn [mbind option_bind].
  eexists. split; [done|]. split; [|split; [exact Hc1|exact Hx1]]. split.
  - by apply (tinv_same dc1).
  - exact Hd1.
  - intros a d m' Ha Hma. destruct (Hm1 _ _ _ Ha Hma) as (H1 & l & H2 & H3).
    assert (Hmm : m' <> m) by (intros ->; by eapply Hno). split; [done|]. exists l. cbn. by rewrite lookup_delete_ne.
  - intros m' l Hml. cbn in Hml. apply lookup_delete_Some in Hml as [_ Hml]. by apply Hl1.
Qed.

(** The lookup finds the child of that name. *)
Lemma find_child_spec dc p l name :
  tinv dc -> (forall c, c ∈ l -> exists d, dents dc !! c = Some d /\ d_parent d = Some p) ->
  exists r, find_child dc l name = Some r /\
    match r with
    | Some c => exists d, dents dc !! c = Some d /\ d_parent d = Some p /\ d_name d = name
    | None => forall c d, c ∈ l -> dents dc !! c = Some d -> d_name d <> name
    end.
Proof.
  intros Ht. induction l as [|c l IH]; intros Hall.
  { exists None. split; [done|]. intros c d Hc. by apply not_elem_of_nil in Hc. }
  destruct (Hall c) as (d & Hd & Hpd); [by left|]. cbn [find_child]. rewrite Hd. cbn [mbind option_bind].
  destruct ((d_name_len d =? Z.of_nat (length name)) && bool_decide (take (length name) (d_name d) = name)) eqn:E.
  - apply andb_true_iff in E as [E1%Z.eqb_eq E2%bool_decide_eq_true]. exists (Some c). split; [done|].
    exists d. split; [done|]. split; [done|]. rewrite (di_len _ Ht _ _ Hd) in E1. rewrite take_ge in E2 by lia. done.
  - destruct IH as (r & Hr & Hs); [intros x Hx; apply Hall; by right|]. exists r. split; [done|].
    destruct r; [done|]. intros x dx [->|Hx]%elem_of_cons Hdx; [|by eapply Hs]. simplify_eq.
    intros Heq. rewrite (di_len _ Ht _ _ Hd), Heq, take_ge, Z.eqb_refl, bool_decide_true in E by done. done.
Qed.

Lemma d_lookup_spec dc p dp name :
  tinv dc -> dents dc !! p = Some dp ->
  exists r, d_lookup dc p name = Some r /\
    match r with
    | Some c => exists d, dents dc !! c = Some d /\ d_parent d = Some p /\ d_name d = name
    | None => forall c d, dents dc !! c = Some d -> d_parent d = Some p -> d_name d <> name
    end.
Proof.
  intros Ht Hp. unfold d_lookup. rewrite Hp. cbn [mbind option_bind].
  destruct (find_child_spec dc p (d_children dp) name Ht) as (r & -> & Hr); [intros c; by eapply di_child|].
  exists r. split; [done|]. destruct r; [done|]. intros c d Hc Hpc. eapply Hr; [|done].
  destruct (di_parent _ Ht _ _ _ Hc Hpc) as (_ & dp' & Hp' & Hin). congruence.
Qed.
End dentry_lemmas.
