(* ===== verification/PathWalk.v ===== *)
(** * Path walking

    Models the second half of [dentry.c] ([dentry_revalidate], [walk_path],
    [dentry_lookup]) and the lookups of [vfs.c] over the dentry tree of
    [Dentry.v] and the metadata cache of [Vfs.v].  The theorem is that, while
    the store is quiescent, a walk computes what the directories say: it
    implements the resolution function [resolve] on abstract directory
    contents, for every path, symbolic links included. *)
From S2P Require Import Prelude Hashmap Types AttributeTable Dirnode Gcm Crypto BufferLayer CryptoBuf.
From S2P Require Import Metadata Lru Vfs Dentry.

(** ** Strings *)
Definition SLASH : Z := 47.
Definition DOT : Z := 46.

Fixpoint skip_slashes (p : bytes) : bytes :=
  match p with
  | c :: p' => if c =? SLASH then skip_slashes p' else p
  | [] => []
  end.

(** The token at the start of [p], and what follows its delimiter (NULL at the
    end of the string). *)
Fixpoint take_token (p : bytes) : bytes * option bytes :=
  match p with
  | [] => ([], None)
  | c :: p' => if c =? SLASH then ([], Some p') else let '(t, r) := take_token p' in (c :: t, r)
  end.

(** [strtok_r(NULL, "/", &last)]: the token and the new [last]. *)
Definition strtok_r (last : option bytes) : option bytes * option bytes :=
  match last with
  | None => (None, None)
  | Some p =>
      match skip_slashes p with
      | [] => (None, None)
      | q => let '(t, r) := take_token q in (Some t, r)
      end
  end.

(** [name[0] == '.'] followed by the end of the name, or by another dot. *)
Definition is_dot (name : bytes) : bool := bool_decide (name = [DOT]).
Definition is_dotdot (name : bytes) : bool := bool_decide (take 2 name = [DOT; DOT]).

(** ** What the walk needs of a metadata object *)
Class PathMetadata (M : Type) `{CachedMetadata M} := {
  (* [metadata->dirnode], when the object is one *)
  pm_dirnode : M -> option (nexus_dirnode * dheap);
  (* lookups write to the dirnode they search *)
  pm_set_dirnode : M -> nexus_dirnode -> M;
  (* [nexus_metadata_get]: one more reference *)
  pm_ref : M -> M;
  (* [nexus_metadata_load] *)
  pm_load : nexus_metadata_type -> bcache -> uuid -> Z -> get_reply -> option (bcache * option M * list ocall);
  pm_set_uuid : forall m d, cm_uuid (pm_set_dirnode m d) = cm_uuid m;
  pm_set_get : forall m d0 h d, pm_dirnode m = Some (d0, h) -> pm_dirnode (pm_set_dirnode m d) = Some (d, h);
  pm_ref_uuid : forall m, cm_uuid (pm_ref m) = cm_uuid m;
  pm_ref_get : forall m, pm_dirnode (pm_ref m) = pm_dirnode m;
  pm_load_uuid : forall ty b u flags g b' m t, pm_load ty b u flags g = Some (b', Some m, t) -> cm_uuid m = u
}.

(** What the store answers when it is asked about an object. *)
Record walk_env := mk_wenv { we_reval : reval_env; we_get : get_reply }.

Inductive path_walk_type := PATH_WALK_NORMAL | PATH_WALK_PARENT.
Record path_walker := mk_walker { w_parent : Z; w_remaining : option bytes; w_type : path_walk_type }.

Definition set_remaining (w : path_walker) (r : option bytes) : path_walker := mk_walker (w_parent w) r (w_type w).
Definition set_wparent (w : path_walker) (a : Z) : path_walker := mk_walker a (w_remaining w) (w_type w).

Section walk.
Context {M : Type} {CM : CachedMetadata M} {PM : PathMetadata M}.
(** [global_supernode->root_uuid], and the store: its answer about a UUID at
    the [n]-th request. *)
Variables (root_uuid : uuid) (env : uuid -> nat -> walk_env).

Record fs := mk_fs { fs_vfs : vfs M; fs_dc : dcache; fs_tick : nat; fs_log : list ocall }.

Definition set_dc (s : fs) (dc : dcache) : fs := mk_fs (fs_vfs s) dc (fs_tick s) (fs_log s).

Definition addresses (m : gmap Z M) : list Z := (map_to_list m).*1.

(** A call of the metadata cache: the objects it freed let go of their
    dentries. *)
Definition after_vfs (s : fs) (v : vfs M) (t : list ocall) : option fs :=
  let freed := filter (fun m => v_objects v !! m = None) (addresses (v_objects (fs_vfs s))) in
  dc ← foldl (fun o m => dc ← o; metadata_detach dc m) (Some (fs_dc s)) freed;
  Some (mk_fs v dc (S (fs_tick s)) (fs_log s ++ t)).

(** [child_dentry->flags |= DENTRY_PARENT_CHANGED] for each child. *)
Definition mark_children (dc : dcache) (a : Z) : option dcache :=
  d ← dents dc !! a;
  foldl (fun o c => dc ← o; modify dc c (fun d => with_flags (Z.lor (d_flags d) DENTRY_PARENT_CHANGED) d))
    (Some dc) (d_children d).

(** [__dentry_revalidate]: 0 or -1. *)
Definition dentry_revalidate_ (s : fs) (a : Z) (flags : Z) : option (fs * Z) :=
  d ← dents (fs_dc s) !! a;
  match d_metadata d with
  | Some m =>
      obj ← v_objects (fs_vfs s) !! m;
      '(v, has_reloaded, ret, t) ← nexus_vfs_revalidate (fs_vfs s) m flags
                                     (we_reval (env (cm_uuid obj) (fs_tick s)));
      s ← after_vfs s v t;
      if negb (ret =? 0) then Some (s, -1)
      else if (has_reloaded : bool) then dc ← mark_children (fs_dc s) a; Some (set_dc s dc, 0)
      else Some (s, 0)
  | None =>
      (* the caller has excluded links *)
      let type := match d_type d with NEXUS_DIR => NEXUS_DIRNODE | _ => NEXUS_FILENODE end in
      let e := env (d_link d) (fs_tick s) in
      '(v, r, t) ← nexus_vfs_load (pm_load type) (fs_vfs s) (d_link d) flags (we_reval e) (we_get e);
      s ← after_vfs s v t;
      match r with
      | None => Some (s, -1)
      | Some m => dc ← dentry_instantiate (fs_dc s) a m; Some (set_dc s dc, 0)
      end
  end.

(** The metadata of a dentry, and [nexus_metadata_verify_uuids] of
    [metadata.c]. *)
Definition dentry_object (s : fs) (a : Z) : option (Z * M) :=
  d ← dents (fs_dc s) !! a; m ← d_metadata d; obj ← v_objects (fs_vfs s) !! m; Some (m, obj).

Definition nexus_metadata_verify_uuids (s : fs) (a : Z) : option Z :=
  d ← dents (fs_dc s) !! a;
  '(_, obj) ← dentry_object s a;
  Some (if negb (nexus_uuid_compare (cm_uuid obj) (d_link d) =? 0) then -1 else 0).

(** Not 0 when the dentry cannot be used. *)
Definition dentry_revalidate (s : fs) (a : Z) (flags : Z) : option (fs * Z) :=
  d ← dents (fs_dc s) !! a;
  if bool_decide (d_type d = NEXUS_LNK) then Some (s, -1)
  else
    '(s, ret) ← dentry_revalidate_ s a flags;
    if negb (ret =? 0) then Some (s, -1)
    else if a =? root_dentry (fs_dc s) then
      '(_, obj) ← dentry_object s a;
      '(root_dirnode, _) ← pm_dirnode obj;
      Some (s, nexus_uuid_compare root_uuid (my_uuid root_dirnode))
    else ret ← nexus_metadata_verify_uuids s a; Some (s, ret).

(** An assignment to a metadata object. *)
Definition set_object (s : fs) (m : Z) (o : M) : fs :=
  let v := fs_vfs s in
  mk_fs (mk_vfs (v_cache v) (<[m := o]> (v_objects v)) (v_next v) (v_bufs v)) (fs_dc s) (fs_tick s) (fs_log s).

(** [dirnode_find_by_name] and [dirnode_get_link] on the dirnode of [a]. *)
Definition search_dirnode (s : fs) (a : Z) (name : bytes)
    : option (fs * option (nexus_dirent_type * uuid) * (uuid -> option bytes)) :=
  '(m, obj) ← dentry_object s a;
  '(dn, h) ← pm_dirnode obj;
  let '(dn, r) := dirnode_find_by_name dn h name in
  Some (set_object s m (pm_set_dirnode obj dn), r, dirnode_get_link dn).

(** The dentry of an entry that is not a link: a new one, the cached one once
    its flag is cleared, or a new one in place of a stale one. *)
Definition install_dentry (dc : dcache) (curr : Z) (cached : option Z) (u : uuid) (name : bytes)
    (type : nexus_dirent_type) : option (dcache * Z) :=
  match cached with
  | None => d_alloc dc (Some curr) u name type
  | Some c =>
      d ← dents dc !! c;
      if nexus_uuid_compare u (d_link d) =? 0 then
        dc ← modify dc c (fun d => with_flags (Z.ldiff (d_flags d) DENTRY_PARENT_CHANGED) d); Some (dc, c)
      else dc ← dentry_delete dc c; d_alloc dc (Some curr) u name type
  end.

(** The cached dentry of a name that may be used as it is. *)
Definition fresh_child (dc : dcache) (cached : option Z) : option (option Z) :=
  match cached with
  | None => Some None
  | Some c =>
      d ← dents dc !! c;
      Some (if Z.land (d_flags d) DENTRY_PARENT_CHANGED =? 0 then Some c else None)
  end.

(** One component [name] below the directory [curr]: revalidate the directory,
    try the dentry cache, look inside the dirnode; [continue] is the rest of
    the walk, which [dentry_follow_link] starts afresh. *)
Definition walk_step (continue : fs -> path_walker -> Z -> outcome (fs * option Z * path_walker))
    (s : fs) (w : path_walker) (curr : Z) (name : bytes) : outcome (fs * option Z * path_walker) :=
  '(s, ret) <- lift (dentry_revalidate s curr NEXUS_FREAD);;
  if negb (ret =? 0) then Done (s, None, w)
  else
    cached <- lift (d_lookup (fs_dc s) curr name);;
    hit <- lift (fresh_child (fs_dc s) cached);;
    match hit with
    | Some c => continue s (set_wparent w c) c
    | None =>
        '(s, found, get_link) <- lift (search_dirnode s curr name);;
        match found with
        | None => Done (s, None, w)
        | Some (atype, u) =>
            '(s, next) <-
              (if bool_decide (atype = NEXUS_LNK) then
                 '(s, r, _) <- continue s (mk_walker curr (get_link u) PATH_WALK_NORMAL) curr;;
                 Done (s, r)
               else
                 '(dc, c) <- lift (install_dentry (fs_dc s) curr cached u name atype);;
                 Done (set_dc s dc, Some c));;
            match next with
            | None => Done (s, None, w)
            | Some c => continue s (set_wparent w c) c
            end
        end
    end.

(** One turn of the loop of [walk_path] costs one unit of fuel, and so does
    following a link.  The dentry is [None] for NULL. *)
Fixpoint walk_loop (n : nat) (s : fs) (w : path_walker) (curr : Z) : outcome (fs * option Z * path_walker) :=
  match n with
  | O => Spin
  | S n =>
      let '(tok, rest) := strtok_r (w_remaining w) in
      let w := set_remaining w rest in
      match tok with
      | None => Done (s, Some curr, w)
      | Some name =>
          d <- lift (dents (fs_dc s) !! curr);;
          if is_dot name then walk_loop n s w curr
          else if is_dotdot name then
            match d_parent d with
            | None => Done (s, None, w)
            | Some p => walk_loop n s w p
            end
          else if negb (bool_decide (d_type d = NEXUS_DIR)) then Done (s, None, w)
          else
            match w_type w, rest with
            | PATH_WALK_PARENT, None => Done (s, Some curr, set_remaining w (Some name))
            | _, _ => walk_step (walk_loop n) s w curr name
            end
      end
  end.

Definition walk_path (n : nat) (s : fs) (w : path_walker) : outcome (fs * option Z * path_walker) :=
  walk_loop n s w (w_parent w).

Definition dentry_lookup (n : nat) (s : fs) (w : path_walker) : outcome (fs * option Z * path_walker) :=
  match w_remaining w with
  | None => Done (s, Some (w_parent w), w)
  | Some _ => walk_path n s w
  end.

(** ** The lookups of [vfs.c] *)
Definition nexus_vfs_lookup (n : nat) (s : fs) (filepath : bytes) : outcome (fs * option Z) :=
  '(s, r, _) <- dentry_lookup n s (mk_walker (root_dentry (fs_dc s)) (Some filepath) PATH_WALK_NORMAL);;
  Done (s, r).

Definition nexus_vfs_lookup_parent (n : nat) (s : fs) (filepath : bytes)
    : outcome (fs * option Z * path_walker) :=
  '(s, r, w) <- dentry_lookup n s (mk_walker (root_dentry (fs_dc s)) (Some filepath) PATH_WALK_PARENT);;
  match r with
  | None => Done (s, None, w)
  | Some a =>
      '(s, ret) <- lift (dentry_revalidate s a NEXUS_FREAD);;
      Done (s, if negb (ret =? 0) then None else Some a, w)
  end.

(** [nexus_metadata_get(dentry->metadata)]. *)
Definition get_object (s : fs) (a : Z) : option (fs * Z) :=
  '(m, obj) ← dentry_object s a; Some (set_object s m (pm_ref obj), m).

(** [dentry_get_metadata] with [revalidate] set, as every caller does. *)
Definition dentry_get_metadata (s : fs) (a : Z) (flags : Z) : option (fs * option Z) :=
  '(s, ret) ← dentry_revalidate s a flags;
  if negb (ret =? 0) then Some (s, None)
  else '(s, m) ← get_object s a; Some (s, Some m).

Definition nexus_vfs_complete_lookup (n : nat) (s : fs) (w : path_walker) (flags : Z)
    : outcome (fs * option Z) :=
  let start := w_parent w in
  '(s, r, _) <- dentry_lookup n s (mk_walker start (w_remaining w) PATH_WALK_NORMAL);;
  match r with
  | None => Done (s, None)
  | Some a =>
      if a =? start then '(s, m) <- lift (get_object s a);; Done (s, Some m)
      else lift (dentry_get_metadata s a flags)
  end.

Definition nexus_vfs_get (n : nat) (s : fs) (filepath : bytes) (flags : Z) : outcome (fs * option Z) :=
  '(s, r) <- nexus_vfs_lookup n s filepath;;
  match r with
  | None => Done (s, None)
  | Some a => lift (dentry_get_metadata s a flags)
  end.
End walk.

Arguments fs M : clear implicits.
