(* ===== verification/PathSpec.v ===== *)
(** * A walk resolves a path

    The refinement theorem of [PathWalk.v].  The abstract file system is a map
    from UUIDs to directory contents; [resolve] follows a path over it,
    component by component.  While the store answers every request with the
    current contents, a walk over any well formed dentry cache returns exactly
    what [resolve] says, whatever the cache held before, and does not return
    exactly when [resolve] does not. *)
From S2P Require Import Prelude Hashmap Types AttributeTable Dirnode Gcm Crypto BufferLayer CryptoBuf.
From S2P Require Import Metadata Lru Vfs Dentry PathWalk.

(** ** Splitting a path *)
Fixpoint split_slash (p : bytes) : list bytes :=
  match p with
  | [] => [[]]
  | c :: p' =>
      if c =? SLASH then [] :: split_slash p'
      else match split_slash p' with [] => [[c]] | t :: ts => (c :: t) :: ts end
  end.

(** Each piece, and whether it ends the string. *)
Fixpoint mark_last (l : list bytes) : list (bytes * bool) :=
  match l with
  | [] => []
  | [t] => [(t, true)]
  | t :: l' => (t, false) :: mark_last l'
  end.

(** The components of a path: the pieces that are not empty. *)
Definition tokens (p : bytes) : list (bytes * bool) := filter (fun x => x.1 <> []) (mark_last (split_slash p)).
Definition otokens (o : option bytes) : list (bytes * bool) := from_option tokens [] o.

Lemma split_slash_cons p : exists t ts, split_slash p = t :: ts.
Proof.
  induction p as [|c p (t & ts & IH)]; [by eexists _, _|]. cbn. rewrite IH. destruct (c =? SLASH); by eexists _, _.
Qed.

Lemma tokens_slash p : tokens (SLASH :: p) = tokens p.
Proof.
  unfold tokens. cbn [split_slash]. rewrite Z.eqb_refl. destruct (split_slash_cons p) as (t & ts & ->).
  cbn [mark_last]. by rewrite filter_cons_False by (intros H; done).
Qed.

Lemma tokens_skip p : tokens (skip_slashes p) = tokens p.
Proof.
  induction p as [|c p IH]; [done|]. cbn [skip_slashes]. destruct (Z.eqb_spec c SLASH) as [->|Hne]; [|done].
  by rewrite IH, tokens_slash.
Qed.

Lemma mark_cons t ts : mark_last (t :: ts) = (t, bool_decide (ts = [])) :: mark_last ts.
Proof. by destruct ts. Qed.

Lemma take_token_spec q :
  mark_last (split_slash q) = ((take_token q).1, bool_decide ((take_token q).2 = None)) ::
    from_option (mark_last ∘ split_slash) [] (take_token q).2.
Proof.
  induction q as [|c q IH]; [done|]. cbn [split_slash take_token]. destruct (Z.eqb_spec c SLASH) as [->|Hne].
  - destruct (split_slash_cons q) as (t & ts & E). cbn. by rewrite E.
  - destruct (take_token q) as [t r] eqn:Et. cbn [fst snd] in *. destruct (split_slash_cons q) as (t0 & ts & E).
    rewrite E, mark_cons in *. injection IH as IH0 IH1 IH2. by rewrite IH0, IH1, IH2.
Qed.

(** [strtok_r] hands out the components in order. *)
Lemma strtok_tokens o :
  match strtok_r o with
  | (None, r) => r = None /\ otokens o = []
  | (Some t, r) => otokens o = (t, bool_decide (r = None)) :: otokens r
  end.
Proof.
  destruct o as [p|]; [|done]. cbn [strtok_r otokens from_option]. pose proof (tokens_skip p) as Hs.
  assert (Hh : forall c q, skip_slashes p = c :: q -> c <> SLASH).
  { clear Hs. induction p as [|x p IH]; [done|]. cbn. intros c q. destruct (Z.eqb_spec x SLASH); [apply IH|].
    by intros [= <- _]. }
  destruct (skip_slashes p) as [|c q] eqn:E; [by rewrite <- Hs|]. specialize (Hh _ _ eq_refl).
  destruct (take_token (c :: q)) as [t r] eqn:Et. rewrite <- Hs. unfold tokens at 1.
  rewrite take_token_spec, Et. cbn [fst snd]. rewrite filter_cons_True.
  - f_equal. by destruct r.
  - cbn. cbn in Et. rewrite (proj2 (Z.eqb_neq _ _) Hh) in Et. destruct (take_token q). by injection Et as <- _.
Qed.

(** ** The abstract file system *)
Record content := mk_content { c_view : dir_view; c_link : uuid -> option bytes }.

(** Where a walk stands: the entries from there up to the root, which is []. *)
Abbreviation position := (list (bytes * nexus_dirent_type * uuid)).

Section resolve.
Variables (root_uuid : uuid) (F : uuid -> option content).

Definition pos_type (pos : position) : nexus_dirent_type := match pos with [] => NEXUS_DIR | (_, ty, _) :: _ => ty end.
Definition pos_uuid (pos : position) : uuid := match pos with [] => root_uuid | (_, _, u) :: _ => u end.

(** The entry [name] of the directory at [pos]. *)
Definition entry_at (pos : position) (name : bytes) : option (nexus_dirent_type * uuid) :=
  c ← F (pos_uuid pos); c_view c !! name.
Definition target_at (pos : position) (u : uuid) : option bytes := c ← F (pos_uuid pos); c_link c u.

(** [None]: more than [n] steps; [Some None]: no such path; otherwise where the
    path leads, with the last component when it was to be left over. *)
Fixpoint resolve (n : nat) (mode : path_walk_type) (pos : position) (toks : list (bytes * bool))
    : option (option (position * option bytes)) :=
  match n with
  | O => None
  | S n =>
      match toks with
      | [] => Some (Some (pos, None))
      | (name, last) :: toks =>
          if is_dot name then resolve n mode pos toks
          else if is_dotdot name then
            match pos with [] => Some None | _ :: pos => resolve n mode pos toks end
          else if negb (bool_decide (pos_type pos = NEXUS_DIR)) then Some None
          else
            match mode, last with
            | PATH_WALK_PARENT, true => Some (Some (pos, Some name))
            | _, _ =>
                match entry_at pos name with
                | None => Some None
                | Some (NEXUS_LNK, u) =>
                    match resolve n PATH_WALK_NORMAL pos (otokens (target_at pos u)) with
                    | None => None
                    | Some None => Some None
                    | Some (Some (pos, _)) => resolve n mode pos toks
                    end
                | Some (ty, u) => resolve n mode ((name, ty, u) :: pos) toks
                end
            end
      end
  end.
End resolve.

(** ** Positions in the dentry tree *)
Inductive at_pos (dc : dcache) : Z -> position -> Prop :=
  | at_root : at_pos dc (root_dentry dc) []
  | at_child a d p pos :
      dents dc !! a = Some d -> d_parent d = Some p -> at_pos dc p pos ->
      at_pos dc a ((d_name d, d_type d, d_link d) :: pos).

Lemma at_pos_frame dc dc' a pos :
  tinv dc -> root_dentry dc' = root_dentry dc ->
  (forall x d, x <= a -> dents dc !! x = Some d -> exists d', dents dc' !! x = Some d' /\ place d' = place d) ->
  at_pos dc a pos -> at_pos dc' a pos.
Proof.
  intros Ht Hr Hfr Hat. induction Hat as [|a d p pos Ha Hp Hat IH].
  - rewrite <- Hr. constructor.
  - destruct (di_parent _ Ht _ _ _ Ha Hp) as [Hlt _]. destruct (Hfr a d) as (d' & Hd' & [= E1 E2 E3 E4]); [lia|done|].
    rewrite <- E1, <- E2, <- E3. apply (at_child dc' a d' p); [done|congruence|]. apply IH. intros x dx Hx. apply Hfr. lia.
Qed.

Lemma at_pos_shape dc dc' a pos : same_shape dc dc' -> tinv dc -> at_pos dc a pos -> at_pos dc' a pos.
Proof.
  intros Hs Ht. apply at_pos_frame; [done|apply Hs|]. intros x d _ Hx.
  symmetry in Hs. destruct (shape_lookup _ _ _ _ Hs Hx) as (d' & Hd' & [= ]). exists d'. split; [done|].
  unfold place. congruence.
Qed.

Section refinement.
Context {M : Type} {CM : CachedMetadata M} {PM : PathMetadata M}.
Variables (root_uuid : uuid) (env : uuid -> nat -> walk_env).
(** The contents of the store, what each UUID stands for, and the states of
    the buffer layer. *)
Variables (F : uuid -> option content) (kind : uuid -> nexus_dirent_type) (B : bcache -> Prop).

(** An object holds the current contents of its UUID. *)
Definition current (o : M) : Prop :=
  match pm_dirnode o, F (cm_uuid o) with
  | Some (d, h), Some c =>
      dir_repr h d (c_view c) /\ (forall u, dirnode_get_link d u = c_link c u) /\ my_uuid d = cm_uuid o
  | None, None => True
  | _, _ => False
  end.

(** The store is well formed, nobody else writes to it, and it answers. *)
Record quiescent : Prop := {
  q_root : is_Some (F root_uuid) /\ uuid_ok root_uuid /\ kind root_uuid = NEXUS_DIR;
  q_entry : forall u c n ty u', F u = Some c -> c_view c !! n = Some (ty, u') ->
    uuid_ok u' /\ ty = kind u' /\ (ty = NEXUS_DIR -> is_Some (F u'));
  q_kind : forall u c, F u = Some c -> kind u = NEXUS_DIR;
  q_link : forall u c u' t, F u = Some c -> c_link c u' = Some t -> Forall (fun x => name_ok x.1) (tokens t);
  q_reval : forall o b n, current o -> B b -> exists o' b' ch t,
    cm_revalidate o b NEXUS_FREAD false (we_reval (env (cm_uuid o) n)) = Some (o', b', ch, 0, t) /\ current o' /\ B b';
  q_load : forall u b n, is_Some (F u) -> B b -> exists b' o t,
    pm_load NEXUS_DIRNODE b u NEXUS_FREAD (we_get (env u n)) = Some (b', Some o, t) /\ current o /\ B b';
  q_evict : forall b u, B b -> B (buffer_layer_evict b u)
}.

(** What [quiescent] says of reads, for any mode: the store answers, and
    with what is current. *)
Definition answers (flags : Z) : Prop :=
  (forall o b n, current o -> B b -> exists o' b' ch t,
    cm_revalidate o b flags false (we_reval (env (cm_uuid o) n)) = Some (o', b', ch, 0, t) /\ current o' /\ B b') /\
  (forall u b n, is_Some (F u) -> B b -> exists b' o t,
    pm_load NEXUS_DIRNODE b u flags (we_get (env u n)) = Some (b', Some o, t) /\ current o /\ B b').

(** A dentry that is not marked says what its directory says. *)
Definition coherent (dc : dcache) : Prop :=
  forall a d p dp, dents dc !! a = Some d -> d_parent d = Some p -> dents dc !! p = Some dp -> has_flag 1 d = false ->
    exists c, F (d_link dp) = Some c /\ c_view c !! d_name d = Some (d_type d, d_link d) /\ d_type d <> NEXUS_LNK.

Definition live_in (s : fs M) (m : Z) : Prop := is_Some (v_objects (fs_vfs s) !! m).

Record winv (s : fs M) : Prop := {
  wi_tree : dinv (live_in s) (fs_dc s);
  wi_vfs : exists l, vfs_inv (fs_vfs s) l;
  wi_current : forall m o, v_objects (fs_vfs s) !! m = Some o -> current o;
  wi_bufs : B (v_bufs (fs_vfs s));
  wi_root : exists d, dents (fs_dc s) !! root_dentry (fs_dc s) = Some d /\ d_link d = root_uuid;
  wi_kind : forall a d, dents (fs_dc s) !! a = Some d -> d_type d = kind (d_link d) /\ uuid_ok (d_link d);
  wi_coherent : coherent (fs_dc s);
  wi_uuid : forall a d m o, dents (fs_dc s) !! a = Some d -> d_metadata d = Some m ->
    v_objects (fs_vfs s) !! m = Some o -> cm_uuid o = d_link d
}.

(** A position that the directories confirm. *)
Fixpoint valid_pos (pos : position) : Prop :=
  match pos with
  | [] => True
  | (n, ty, u) :: pos' => entry_at root_uuid F pos' n = Some (ty, u) /\ ty <> NEXUS_LNK /\ valid_pos pos'
  end.

(** ** Lemmas *)
Implicit Types (s : fs M) (a : Z) (d : nexus_dentry).

Lemma dinv_mono (P Q : Z -> Prop) dc : (forall m, P m -> Q m) -> dinv P dc -> dinv Q dc.
Proof.
  intros HPQ [Ht Hd Hm Hl]. split; try done. intros a d m Ha Hma. destruct (Hm _ _ _ Ha Hma) as (H1 & H2).
  split; [by apply HPQ|done].
Qed.

Lemma detach_all (l : list Z) (P : Z -> Prop) dc :
  dinv P dc ->
  exists dc', foldl (fun o m => dc ← o; metadata_detach dc m) (Some dc) l = Some dc' /\
    dinv (fun m => P m /\ m ∉ l) dc' /\ calm dc dc' /\
    (forall x d, dents dc !! x = Some d -> (forall m, d_metadata d = Some m -> m ∉ l) -> dents dc' !! x = Some d).
Proof.
  revert P dc. induction l as [|m l IH]; intros P dc Hi.
  { exists dc. split; [done|]. split; [|split; [apply calm_refl|done]]. eapply dinv_mono; [|done]. intros m Hm. split; [done|].
    apply not_elem_of_nil. }
  destruct (metadata_detach_spec P dc m Hi) as (dc1 & Hdc1 & Hi1 & Hc1 & Hx1). cbn [foldl mbind option_bind]. rewrite Hdc1.
  destruct (IH _ _ Hi1) as (dc2 & -> & Hi2 & Hc2 & Hx2). exists dc2. split; [done|]. split; [|split; [by eapply calm_trans|]].
  2:{ intros x d Hx Hn. apply Hx2; [apply Hx1; [done|]|].
      - intros Hm. destruct (Hn _ Hm). by left.
      - intros m' Hm' Hin. destruct (Hn _ Hm'). by right. }
  eapply dinv_mono; [|done]. intros x [[H1 H2] H3]. split; [done|]. by apply not_elem_of_cons.
Qed.

Lemma coherent_calm dc dc' : calm dc dc' -> coherent dc -> coherent dc'.
Proof.
  intros [Hs Hf] Hc a d p dp Ha Hp Hdp Hfl.
  destruct (shape_lookup _ _ _ _ Hs Ha) as (d0 & Ha0 & [= ]), (shape_lookup _ _ _ _ Hs Hdp) as (dp0 & Hp0 & [= ]).
  destruct (Hf _ _ _ Ha0 Ha) as [Hf0 _].
  destruct (Hc a d0 p dp0) as (c & K1 & K2 & K3); [done|congruence|done|congruence|]. exists c. split; [congruence|].
  split; congruence.
Qed.

(** A call of the metadata cache after which the objects are current. *)
Lemma after_vfs_spec s v l t :
  winv s -> vfs_inv v l -> B (v_bufs v) -> (forall m o, v_objects v !! m = Some o -> current o) ->
  (forall m o o0, v_objects v !! m = Some o -> v_objects (fs_vfs s) !! m = Some o0 -> cm_uuid o = cm_uuid o0) ->
  exists s', after_vfs s v t = Some s' /\ winv s' /\ calm (fs_dc s) (fs_dc s') /\ fs_vfs s' = v /\
    (forall x d, dents (fs_dc s) !! x = Some d -> (forall m, d_metadata d = Some m -> is_Some (v_objects v !! m)) ->
       dents (fs_dc s') !! x = Some d).
Proof.
  intros [Ht Hv Hcur Hb Hr Hk Hco Hu] Hvi Hbv Hcv Huv. unfold after_vfs.
  set (freed := filter _ _). destruct (detach_all freed _ _ Ht) as (dc' & -> & Hi & Hc & Hx). cbn [mbind option_bind].
  eexists. split; [done|]. cbn [fs_vfs fs_dc]. split; [|split; [done|split; [done|]]].
  2:{ intros x d Hd Hm. apply Hx; [done|]. intros m Hmd Hin. apply list_elem_of_filter in Hin as [Hn _].
      destruct (Hm _ Hmd). congruence. }
  assert (Hlive : forall m, live_in s m /\ m ∉ freed -> is_Some (v_objects v !! m)).
  { intros m [[o Ho] Hn]. destruct (v_objects v !! m) eqn:E; [eauto|]. exfalso. apply Hn. apply list_elem_of_filter.
    split; [done|]. unfold addresses. apply list_elem_of_fmap. exists (m, o). split; [done|]. by apply elem_of_map_to_list. }
  split; cbn [fs_vfs fs_dc]; try done.
  - eapply dinv_mono; [exact Hlive|exact Hi].
  - eauto.
  - destruct Hr as (d & Hd & Hlk). destruct Hc as [Hs _]. rewrite (proj1 (proj2 Hs)). symmetry in Hs.
    destruct (shape_lookup _ _ _ _ Hs Hd) as (d' & Hd' & [= ]). exists d'. split; [done|]. congruence.
  - intros a d Ha. destruct (shape_lookup _ _ _ _ (proj1 Hc) Ha) as (d0 & Ha0 & [= ]).
    destruct (Hk _ _ Ha0) as [? ?]. split; congruence.
  - by eapply coherent_calm.
  - intros a d m o Ha Hm Ho. destruct (shape_lookup _ _ _ _ (proj1 Hc) Ha) as (d0 & Ha0 & [= ]).
    destruct (proj2 Hc _ _ _ Ha0 Ha) as [_ [Hme|Hme]]; [|congruence]. rewrite Hme in Hm.
    destruct (di_meta _ _ Ht _ _ _ Ha0 Hm) as ([o0 Ho0] & _). rewrite (Huv _ _ _ Ho Ho0).
    rewrite (Hu _ _ _ _ Ha0 Hm Ho0). congruence.
Qed.

(** A change of the dentry tree that keeps its shape. *)
Lemma winv_dc s dc' :
  winv s -> dinv (live_in s) dc' -> same_shape (fs_dc s) dc' ->
  (forall x d d', dents (fs_dc s) !! x = Some d -> dents dc' !! x = Some d' ->
     (has_flag 1 d' = false -> has_flag 1 d = false) /\
     (forall m, d_metadata d' = Some m -> d_metadata d = Some m \/
        exists o, v_objects (fs_vfs s) !! m = Some o /\ cm_uuid o = d_link d)) ->
  winv (set_dc s dc').
Proof.
  intros [Ht Hv Hcur Hb Hr Hk Hco Hu] Hi Hs Hfr. split; cbn [fs_vfs fs_dc set_dc]; try done.
  - destruct Hr as (d & Hd & Hlk). pose proof Hs as Hs'. symmetry in Hs'. rewrite (proj1 (proj2 Hs)).
    destruct (shape_lookup _ _ _ _ Hs' Hd) as (d' & Hd' & [= ]). exists d'. split; [done|]. congruence.
  - intros a d Ha. destruct (shape_lookup _ _ _ _ Hs Ha) as (d0 & Ha0 & [= ]).
    destruct (Hk _ _ Ha0) as [? ?]. split; congruence.
  - intros a d p dp Ha Hp Hdp Hfl.
    destruct (shape_lookup _ _ _ _ Hs Ha) as (d0 & Ha0 & [= ]), (shape_lookup _ _ _ _ Hs Hdp) as (dp0 & Hp0 & [= ]).
    destruct (Hfr _ _ _ Ha0 Ha) as [Hf0 _].
    destruct (Hco a d0 p dp0) as (c & K1 & K2 & K3); [done|congruence|done|by apply Hf0|]. exists c. split; [congruence|].
    split; congruence.
  - intros a d m o Ha Hm Ho. destruct (shape_lookup _ _ _ _ Hs Ha) as (d0 & Ha0 & [= ]).
    destruct (Hfr _ _ _ Ha0 Ha) as [_ Hmm]. destruct (Hmm m Hm) as [Hm0|(o' & Ho' & Huo)].
    + rewrite (Hu _ _ _ _ Ha0 Hm0 Ho). congruence.
    + rewrite Ho' in Ho. injection Ho as <-. congruence.
Qed.

Lemma mark_all (P : Z -> Prop) (l : list Z) dc :
  dinv P dc -> (forall c, c ∈ l -> is_Some (dents dc !! c)) ->
  exists dc', foldl (fun o c => dc ← o; modify dc c (fun d => with_flags (Z.lor (d_flags d) DENTRY_PARENT_CHANGED) d))
      (Some dc) l = Some dc' /\ dinv P dc' /\ same_shape dc dc' /\
    (forall x d d', dents dc !! x = Some d -> dents dc' !! x = Some d' -> d_metadata d' = d_metadata d /\
       (has_flag 1 d' = false -> has_flag 1 d = false) /\ (x ∈ l -> has_flag 1 d' = true)).
Proof.
  revert dc. induction l as [|c l IH]; intros dc Hi Hl.
  { exists dc. split; [done|]. split; [done|]. split; [done|]. intros x d d' H1 H2. simplify_eq.
    split; [done|]. split; [done|]. intros Hx. by apply not_elem_of_nil in Hx. }
  destruct (Hl c) as [dx Hc]; [by left|].
  destruct (flags_spec P dc c dx (fun d => Z.lor (d_flags d) DENTRY_PARENT_CHANGED) Hi Hc) as (Hm & Hi1 & Hs1).
  { rewrite Z.lor_spec. intros Hf. apply (di_deleted _ _ Hi _ _ Hc). unfold has_flag.
    by destruct (Z.testbit (d_flags dx) 2). }
  cbn [foldl mbind option_bind]. rewrite Hm. set (dc1 := set_dents _ _) in *.
  assert (H1 : forall x d d1, dents dc !! x = Some d -> dents dc1 !! x = Some d1 -> d_metadata d1 = d_metadata d /\
    (has_flag 1 d1 = false -> has_flag 1 d = false) /\ (x = c -> has_flag 1 d1 = true)).
  { intros x d d1 Hd Hd1. cbn in Hd1. apply lookup_insert_Some in Hd1 as [[<- <-]|[Hne Hd1]]; simplify_eq; [|done].
    split; [done|]. unfold has_flag. cbn [d_flags with_flags]. rewrite Z.lor_spec. change (Z.testbit DENTRY_PARENT_CHANGED 1) with true.
    rewrite orb_true_r. done. }
  destruct (IH dc1 Hi1) as (dc2 & -> & Hi2 & Hs2 & H2).
  { intros x Hx. destruct (Hl x) as [d Hd]; [by right|]. symmetry in Hs1. destruct (shape_lookup _ _ _ _ Hs1 Hd) as (? & -> & _). eauto. }
  exists dc2. split; [done|]. split; [done|]. split; [by transitivity dc1|]. intros x d d2 Hd Hd2.
  destruct (shape_lookup _ _ _ _ Hs2 Hd2) as (d1 & Hd1 & _). destruct (H1 _ _ _ Hd Hd1) as (M1 & F1 & C1).
  destruct (H2 _ _ _ Hd1 Hd2) as (M2 & F2 & C2). split; [congruence|]. split; [auto|].
  intros [->|Hx]%elem_of_cons; [|by apply C2]. destruct (has_flag 1 d2) eqn:E; [done|]. rewrite (C1 eq_refl) in F2. by specialize (F2 eq_refl).
Qed.

Lemma dir_object s a d :
  winv s -> dents (fs_dc s) !! a = Some d -> is_Some (F (d_link d)) -> forall m, d_metadata d = Some m ->
  exists o dn h c, dentry_object s a = Some (m, o) /\ v_objects (fs_vfs s) !! m = Some o /\ cm_uuid o = d_link d /\
    pm_dirnode o = Some (dn, h) /\ F (d_link d) = Some c /\ dir_repr h dn (c_view c) /\
    (forall u, dirnode_get_link dn u = c_link c u) /\ my_uuid dn = d_link d.
Proof.
  intros Hw Ha [c Hc] m Hm. destruct (di_meta _ _ (wi_tree _ Hw) _ _ _ Ha Hm) as ([o Ho] & _).
  pose proof (wi_uuid _ Hw _ _ _ _ Ha Hm Ho) as Hu. pose proof (wi_current _ Hw _ _ Ho) as Hcur.
  unfold current in Hcur. rewrite Hu, Hc in Hcur. destruct (pm_dirnode o) as [[dn h]|] eqn:Ed; [|done].
  destruct Hcur as (H1 & H2 & H3). exists o, dn, h, c. unfold dentry_object. rewrite Ha. cbn [mbind option_bind]. rewrite Hm.
  cbn [mbind option_bind]. rewrite Ho. done.
Qed.

(** Revalidating a directory: its object is current. *)
Lemma revalidate_inner s a d flags :
  quiescent -> answers flags -> winv s -> dents (fs_dc s) !! a = Some d -> d_type d = NEXUS_DIR -> is_Some (F (d_link d)) ->
  exists s' d' m, dentry_revalidate_ env s a flags = Some (s', 0) /\ winv s' /\
    same_shape (fs_dc s) (fs_dc s') /\ dents (fs_dc s') !! a = Some d' /\ d_metadata d' = Some m /\ shape d' = shape d.
Proof.
  intros Hq [Hre0 Hld0] Hw Ha Hty HF. unfold dentry_revalidate_. rewrite Ha. cbn [mbind option_bind].
  destruct (wi_vfs _ Hw) as [l Hv].
  destruct (d_metadata d) as [m|] eqn:Hm.
  - destruct (dir_object s a d Hw Ha HF m Hm) as (o & dn & h & c & _ & Ho & Hu & _). rewrite Ho. cbn [mbind option_bind].
    destruct (Hre0 o (v_bufs (fs_vfs s)) (fs_tick s)) as (o' & b' & ch & t & Hre & Hcur & Hb');
      [by eapply wi_current|by eapply wi_bufs|].
    destruct (revalidate_responsive (fs_vfs s) l m o _ _ _ _ _ _ Hv Ho Hre) as (v' & l' & -> & Hv' & Hob & Hbs).
    cbn [mbind option_bind]. destruct (after_vfs_spec s v' l' t Hw Hv') as (s1 & -> & Hw1 & Hc1 & Hvs & Hx1).
    { by rewrite Hbs. }
    { intros x ox. rewrite Hob. intros [[<- <-]|[_ Hx]]%lookup_insert_Some; [done|by eapply wi_current]. }
    { intros x ox ox0. rewrite Hob. intros [[<- <-]|[_ Hx]]%lookup_insert_Some Hx0; [|congruence].
      rewrite Ho in Hx0. injection Hx0 as <-. by eapply cm_revalidate_uuid. }
    pose proof (Hx1 a d Ha) as Ha1. cbn [mbind option_bind Z.eqb negb].
    assert (Hlive : forall m', d_metadata d = Some m' -> is_Some (v_objects v' !! m')).
    { intros m' Hm'. rewrite Hm in Hm'. injection Hm' as <-. rewrite Hob, lookup_insert_eq. eauto. }
    specialize (Ha1 Hlive). destruct ch; [|exists s1, d, m; split; [done|]; split; [done|]; split; [apply Hc1|done]].
    unfold mark_children. rewrite Ha1. cbn [mbind option_bind].
    destruct (mark_all (live_in s1) (d_children d) (fs_dc s1) (wi_tree _ Hw1)) as (dc2 & -> & Hi2 & Hs2 & Hx2).
    { intros x Hx. destruct (di_child _ (di_tree _ _ (wi_tree _ Hw1)) _ _ _ Ha1 Hx) as (e & -> & _). eauto. }
    cbn [mbind option_bind]. pose proof Hs2 as Hs2'. symmetry in Hs2'.
    destruct (shape_lookup _ _ _ _ Hs2' Ha1) as (d2 & Hd2 & Hsh2). exists (set_dc s1 dc2), d2, m. split; [done|].
    split; [|split; [transitivity (fs_dc s1); [apply Hc1|done]|split; [done|split; [|done]]]].
    + apply winv_dc; try done. intros x dx dx' H1 H2. destruct (Hx2 _ _ _ H1 H2) as (K1 & K2 & _). split; [done|].
      intros m' Hm'. left. congruence.
    + destruct (Hx2 _ _ _ Ha1 Hd2) as (-> & _). done.
  - rewrite Hty.
    destruct (load_responsive current B (q_evict Hq) (pm_load NEXUS_DIRNODE) (fs_vfs s) l (d_link d) flags
      (we_reval (env (d_link d) (fs_tick s))) (we_get (env (d_link d) (fs_tick s))) Hv)
      as (v' & l' & m & t & o & -> & Hv' & Hbv & Ho & Hu & Hcv & Hsame & Hold).
    { by eapply wi_bufs. }
    { by eapply wi_current. }
    { intros o b Hcur Hb <-. by apply Hre0. }
    { intros b b' o t. apply pm_load_uuid. }
    { intros b Hb. by apply Hld0. }
    cbn [mbind option_bind]. destruct (after_vfs_spec s v' l' t Hw Hv') as (s1 & -> & Hw1 & Hc1 & Hvs & Hx1); [done|done|..].
    { intros x ox ox0 Hx Hx0. destruct (decide (x = m)) as [->|Hne]; [|specialize (Hsame _ _ Hx Hne); congruence].
      rewrite (Hold _ Hx0). congruence. }
    pose proof (Hx1 a d Ha ltac:(congruence)) as Ha1. cbn [mbind option_bind].
    assert (Hom : v_objects (fs_vfs s1) !! m = Some o) by (by rewrite Hvs).
    destruct (dentry_instantiate_spec (live_in s1) (fs_dc s1) a d m (wi_tree _ Hw1) Ha1 Hm) as (dc2 & -> & Hi2 & Hs2 & Hd2).
    { unfold live_in. rewrite Hom. eauto. }
    cbn [mbind option_bind]. eexists (set_dc s1 dc2), _, m. split; [done|]. split.
    { apply winv_dc; try done. intros x dx dx' H1 H2. rewrite Hd2 in H2.
      apply lookup_insert_Some in H2 as [[<- <-]|[Hne H2]]; simplify_eq; [|auto].
      split; [unfold has_flag; cbn [d_flags with_flags with_metadata]; rewrite Z.lor_spec; by rewrite orb_false_r|].
      intros m' [= <-]. right. eauto. }
    split; [transitivity (fs_dc s1); [apply Hc1|done]|]. cbn [fs_dc set_dc]. rewrite Hd2, lookup_insert_eq. done.
Qed.

Lemma dentry_revalidate_any s a d flags :
  quiescent -> answers flags -> winv s -> dents (fs_dc s) !! a = Some d -> d_type d = NEXUS_DIR -> is_Some (F (d_link d)) ->
  exists s' d' m, dentry_revalidate root_uuid env s a flags = Some (s', 0) /\ winv s' /\
    same_shape (fs_dc s) (fs_dc s') /\ dents (fs_dc s') !! a = Some d' /\ d_metadata d' = Some m /\ shape d' = shape d.
Proof.
  intros Hq Han Hw Ha Hty HF. unfold dentry_revalidate. rewrite Ha. cbn [mbind option_bind].
  rewrite bool_decide_false by congruence.
  destruct (revalidate_inner s a d flags Hq Han Hw Ha Hty HF) as (s' & d' & m & -> & Hw' & Hs' & Ha' & Hm' & Hsh).
  cbn [mbind option_bind Z.eqb negb]. exists s', d', m.
  assert (Hl : d_link d' = d_link d) by (injection Hsh; congruence).
  destruct (dir_object s' a d' Hw' Ha' ltac:(by rewrite Hl) m Hm') as (o & dn & h & c & Ho & _ & Hu & Hdn & _ & _ & _ & Hmy).
  destruct (Z.eqb_spec a (root_dentry (fs_dc s'))) as [->|Hne].
  - rewrite Ho. cbn [mbind option_bind]. rewrite Hdn. cbn [mbind option_bind].
    destruct (wi_root _ Hw') as (dr & Hdr & Hlr). rewrite Ha' in Hdr. injection Hdr as <-.
    rewrite Hmy, Hlr. destruct (q_root Hq) as (_ & Hok & _). by rewrite (proj2 (uuid_compare_eq _ _ Hok Hok)).
  - unfold nexus_metadata_verify_uuids. rewrite Ha'. cbn [mbind option_bind]. rewrite Ho. cbn [mbind option_bind].
    rewrite Hu. destruct (wi_kind _ Hw' _ _ Ha') as [_ Hok]. by rewrite (proj2 (uuid_compare_eq _ _ Hok Hok)).
Qed.

Lemma quiescent_answers : quiescent -> answers NEXUS_FREAD.
Proof. intros Hq. split; [apply (q_reval Hq)|apply (q_load Hq)]. Qed.

Lemma dentry_revalidate_ok s a d :
  quiescent -> winv s -> dents (fs_dc s) !! a = Some d -> d_type d = NEXUS_DIR -> is_Some (F (d_link d)) ->
  exists s' d' m, dentry_revalidate root_uuid env s a NEXUS_FREAD = Some (s', 0) /\ winv s' /\
    same_shape (fs_dc s) (fs_dc s') /\ dents (fs_dc s') !! a = Some d' /\ d_metadata d' = Some m /\ shape d' = shape d.
Proof. intros Hq. apply dentry_revalidate_any; [done|by apply quiescent_answers]. Qed.

(** A lookup in a dirnode finds what the directory holds. *)
Lemma find_repr (d0 : nexus_dirnode) h v n :
  dir_repr h d0 v -> name_ok n ->
  exists d1 : nexus_dirnode, dirnode_find_by_name d0 h n = (d1, v !! n) /\ dir_repr h d1 v /\ my_uuid d1 = my_uuid d0 /\
    forall u, dirnode_get_link d1 u = dirnode_get_link d0 u.
Proof.
  intros (Hn & gn & gu & Hi & ->) Hok. destruct (find_by_name_spec _ _ _ _ _ n Hi Hok) as (l & Hf & Hi').
  unfold dirnode_find_by_name. rewrite Hf. eexists. split.
  { rewrite view_lookup. unfold link_of. done. }
  split; [split; [done|]; by exists gn, gu|]. done.
Qed.

Lemma search_dirnode_ok s a d m name :
  winv s -> dents (fs_dc s) !! a = Some d -> is_Some (F (d_link d)) -> d_metadata d = Some m -> name_ok name ->
  exists s' get_link c, search_dirnode s a name = Some (s', c_view c !! name, get_link) /\ F (d_link d) = Some c /\
    (forall u, get_link u = c_link c u) /\ winv s' /\ fs_dc s' = fs_dc s.
Proof.
  intros Hw Ha HF Hm Hn.
  destruct (dir_object s a d Hw Ha HF m Hm) as (o & dn & h & c & Ho & Hob & Hu & Hdn & Hc & Hr & Hl & Hmy).
  unfold search_dirnode. rewrite Ho. cbn [mbind option_bind]. rewrite Hdn. cbn [mbind option_bind].
  destruct (find_repr dn h (c_view c) name Hr Hn) as (d1 & -> & Hr1 & Hmy1 & Hl1).
  eexists _, _, c. split; [done|]. split; [done|]. split; [intros u; by rewrite Hl1|]. split; [|done].
  set (o' := pm_set_dirnode o d1). assert (Huo : cm_uuid o' = cm_uuid o) by apply pm_set_uuid.
  assert (Hcur : current o').
  { unfold current. unfold o' at 1. rewrite (pm_set_get _ _ _ _ Hdn), Huo, Hu, Hc. split; [done|].
    split; [intros u; by rewrite Hl1|]. congruence. }
  destruct Hw as [Ht [l Hv] Hcu Hb Hroot Hk Hco Huu]. split; cbn [fs_vfs fs_dc set_object v_objects v_bufs]; try done.
  - eapply dinv_mono; [|done]. intros x [ox Hox]. unfold live_in. cbn. destruct (decide (x = m)) as [->|].
    + rewrite lookup_insert_eq. eauto.
    + rewrite lookup_insert_ne by done. eauto.
  - exists l. by eapply set_object_inv.
  - intros x ox [[<- <-]|[_ Hx]]%lookup_insert_Some; [done|by eapply Hcu].
  - intros x dx mx ox Hx Hmx [[<- <-]|[_ Hox]]%lookup_insert_Some; [|by eapply Huu]. rewrite Huo. by eapply Huu.
Qed.

(** The entry of a child in the tree, when it is not the root's. *)
Definition installed (dc dc' : dcache) (curr c : Z) (name : bytes) (ty : nexus_dirent_type) (u : uuid) : Prop :=
  root_dentry dc' = root_dentry dc /\
  (exists e, dents dc' !! c = Some e /\ place e = (name, ty, u, Some curr)) /\
  forall x d, x <= curr -> dents dc !! x = Some d -> exists d', dents dc' !! x = Some d' /\ place d' = place d.

(** Allocating the dentry of an entry. *)
Lemma alloc_ok s curr d c name ty u :
  winv s -> dents (fs_dc s) !! curr = Some d -> F (d_link d) = Some c -> c_view c !! name = Some (ty, u) ->
  ty <> NEXUS_LNK -> ty = kind u -> uuid_ok u -> (length name <= 256)%nat ->
  (forall x e, dents (fs_dc s) !! x = Some e -> d_parent e = Some curr -> d_name e <> name) ->
  exists dc' a, d_alloc (fs_dc s) (Some curr) u name ty = Some (dc', a) /\ winv (set_dc s dc') /\
    installed (fs_dc s) dc' curr a name ty u.
Proof.
  intros [Ht Hv Hcu Hb Hroot Hk Hco Huu] Hcurr HF Hent Hty Hku Huo Hlen Hfree.
  destruct (d_alloc_spec _ _ curr d u name ty Ht Hcurr Hlen Hfree) as (dc' & Ha & Hi' & Hd' & _ & Hr' & Hnone & Hlt).
  set (a := d_next (fs_dc s)) in *. set (e := mk_dentry ty 0 1 name _ u (Some curr) None []) in *.
  exists dc', a. split; [done|].
  assert (Hold : forall x dx, dents dc' !! x = Some dx -> (x = a /\ dx = e) \/
    exists d0, x <> a /\ dents (fs_dc s) !! x = Some d0 /\ place dx = place d0 /\ d_flags dx = d_flags d0 /\ d_metadata dx = d_metadata d0).
  { intros x dx. rewrite Hd'. intros [[<- <-]|[Hne [[<- <-]|[_ Hx]]%lookup_insert_Some]]%lookup_insert_Some; [by left|..];
      right; eexists; split_and!; done. }
  assert (Hnew : forall x d0, dents (fs_dc s) !! x = Some d0 -> exists dx, dents dc' !! x = Some dx /\ place dx = place d0).
  { intros x d0 Hx. rewrite Hd'. rewrite lookup_insert_ne by congruence. destruct (decide (x = curr)) as [->|].
    - rewrite lookup_insert_eq. eexists. split; [done|]. by simplify_eq.
    - rewrite lookup_insert_ne by done. eauto. }
  assert (Hae : dents dc' !! a = Some e) by (rewrite Hd'; apply lookup_insert_eq).
  split; [|split; [done|split; [by exists e|]]].
  2:{ intros x d0 _. apply Hnew. }
  split; cbn [fs_vfs fs_dc set_dc]; try done.
  - destruct Hroot as (dr & Hdr & Hlr). rewrite Hr'. destruct (Hnew _ _ Hdr) as (dx & Hdx & [= ]). exists dx.
    split; [done|]. congruence.
  - intros x dx Hx. destruct (Hold _ _ Hx) as [[-> ->]|(d0 & _ & Hx0 & [= ] & _)]; [done|].
    destruct (Hk _ _ Hx0) as [? ?]. split; congruence.
  - intros x dx p dp Hx Hp Hdp Hfl. destruct (Hold _ _ Hx) as [[-> ->]|(d0 & _ & Hx0 & [= E1 E2 E3 E4] & Ef & _)].
    + injection Hp as <-. destruct (Hnew _ _ Hcurr) as (dx & Hdx & [= ]). exists c. split; [congruence|]. done.
    + destruct (Hold _ _ Hdp) as [[-> ->]|(dp0 & _ & Hp0 & [= ] & _)].
      { exfalso. rewrite E4 in Hp. destruct (di_parent _ (di_tree _ _ Ht) _ _ _ Hx0 Hp) as (_ & dq & Hdq & _). congruence. }
      destruct (Hco x d0 p dp0) as (c0 & K1 & K2 & K3); [done|congruence|done|unfold has_flag in *; congruence|].
      exists c0. split; [congruence|]. split; congruence.
  - intros x dx m o Hx Hm Ho. destruct (Hold _ _ Hx) as [[-> ->]|(d0 & _ & Hx0 & [= ] & _ & Hme)]; [done|].
    rewrite Hme in Hm. rewrite (Huu _ _ _ _ Hx0 Hm Ho). congruence.
Qed.

(** Deleting a stale child. *)
Lemma delete_ok s curr d a e :
  winv s -> dents (fs_dc s) !! curr = Some d -> dents (fs_dc s) !! a = Some e -> d_parent e = Some curr ->
  exists dc' d', dentry_delete (fs_dc s) a = Some dc' /\ winv (set_dc s dc') /\ root_dentry dc' = root_dentry (fs_dc s) /\
    dents dc' !! curr = Some d' /\ place d' = place d /\
    (forall x dx, x <= curr -> dents (fs_dc s) !! x = Some dx -> exists dx', dents dc' !! x = Some dx' /\ place dx' = place dx) /\
    (forall x dx, dents dc' !! x = Some dx -> d_parent dx = Some curr -> d_name dx <> d_name e).
Proof.
  intros [Ht Hv Hcu Hb Hroot Hk Hco Huu] Hcurr Ha Hpa.
  destruct (dentry_delete_spec _ _ a e curr Ht Ha Hpa) as (dc' & dp & Hdel & Hi' & _ & Hr' & Hx' & Hp & Hp' & Ha').
  rewrite Hcurr in Hp. injection Hp as <-.
  destruct (di_parent _ (di_tree _ _ Ht) _ _ _ Ha Hpa) as [Hlt _].
  assert (Hold : forall x dx, dents dc' !! x = Some dx -> exists d0, dents (fs_dc s) !! x = Some d0 /\
    d_type dx = d_type d0 /\ d_link dx = d_link d0 /\ ((x = a /\ d_parent dx = None /\ d_metadata dx = None) \/
    (x <> a /\ place dx = place d0 /\ d_flags dx = d_flags d0 /\ d_metadata dx = d_metadata d0))).
  { intros x dx Hx. destruct (decide (x = a)) as [->|Hna].
    { exists e. rewrite (Ha' _ Hx). split; [done|]. split; [done|]. split; [done|]. by left. }
    destruct (decide (x = curr)) as [->|Hnc].
    - rewrite Hp' in Hx. injection Hx as <-. exists d. split; [done|]. split; [done|]. split; [done|]. by right.
    - rewrite Hx' in Hx by done. exists dx. split; [done|]. split; [done|]. split; [done|]. by right. }
  assert (Hnew : forall x d0, x <> a -> dents (fs_dc s) !! x = Some d0 -> exists dx, dents dc' !! x = Some dx /\ place dx = place d0).
  { intros x d0 Hna Hx. destruct (decide (x = curr)) as [->|Hnc].
    - exists (without_child a d). split; [done|]. by simplify_eq.
    - exists d0. by rewrite Hx'. }
  exists dc', (without_child a d). split; [done|]. split; [|split; [done|split; [done|split; [done|split]]]].
  - split; cbn [fs_vfs fs_dc set_dc]; try done.
    + destruct Hroot as (dr & Hdr & Hlr). rewrite Hr'. destruct (di_root _ (di_tree _ _ Ht)) as (dr' & Hdr' & Hpr & _).
      destruct (Hnew (root_dentry (fs_dc s)) dr) as (dx & Hdx & [= ]); [congruence|done|].
      exists dx. split; [done|]. congruence.
    + intros x dx Hx. destruct (Hold _ _ Hx) as (d0 & Hx0 & -> & -> & _). by eapply Hk.
    + intros x dx p dp Hx Hpx Hdp Hfl. destruct (Hold _ _ Hx) as (d0 & Hx0 & _ & _ & [(_ & Hn & _)|(_ & [= E1 E2 E3 E4] & Ef & _)]);
        [congruence|]. destruct (Hold _ _ Hdp) as (dp0 & Hp0 & _ & El & _).
      destruct (Hco x d0 p dp0) as (c0 & K1 & K2 & K3); [done|congruence|done|unfold has_flag in *; congruence|].
      exists c0. split; [congruence|]. split; congruence.
    + intros x dx m o Hx Hm Ho. destruct (Hold _ _ Hx) as (d0 & Hx0 & _ & -> & [(_ & _ & Hn)|(_ & _ & _ & Hme)]); [congruence|].
      rewrite Hme in Hm. by eapply Huu.
  - intros x dx Hle Hx. apply Hnew; [lia|done].
  - intros x dx Hx Hpx Hnm. destruct (Hold _ _ Hx) as (d0 & Hx0 & _ & _ & [(_ & Hn & _)|(Hna & [= ] & _)]); [congruence|].
    apply Hna. apply (di_names _ (di_tree _ _ Ht) x a d0 e); try done; try congruence.
    replace (d_parent d0) with (Some curr) by congruence. eauto.
Qed.

(** The dentry of an entry that is not a link, whatever was cached. *)
Lemma install_ok s curr d c name ty u cached :
  winv s -> dents (fs_dc s) !! curr = Some d -> F (d_link d) = Some c -> c_view c !! name = Some (ty, u) ->
  ty <> NEXUS_LNK -> ty = kind u -> uuid_ok u -> (length name <= 256)%nat ->
  match cached with
  | Some a => exists e, dents (fs_dc s) !! a = Some e /\ d_parent e = Some curr /\ d_name e = name
  | None => forall x e, dents (fs_dc s) !! x = Some e -> d_parent e = Some curr -> d_name e <> name
  end ->
  exists dc' a, install_dentry (fs_dc s) curr cached u name ty = Some (dc', a) /\ winv (set_dc s dc') /\
    installed (fs_dc s) dc' curr a name ty u.
Proof.
  intros Hw Hcurr HF Hent Hty Hku Huo Hlen Hca. destruct cached as [a|]; cbn [install_dentry]; [|by eapply alloc_ok].
  destruct Hca as (e & He & Hpe & Hne). rewrite He. cbn [mbind option_bind].
  destruct (wi_kind _ Hw _ _ He) as [Hke Hoe].
  destruct (Z.eqb_spec (nexus_uuid_compare u (d_link e)) 0) as [Heq|Hdiff].
  - apply uuid_compare_eq in Heq; [|done..]. subst u.
    destruct (flags_spec _ _ a e (fun d => Z.ldiff (d_flags d) DENTRY_PARENT_CHANGED) (wi_tree _ Hw) He) as (-> & Hi' & Hs').
    { rewrite Z.ldiff_spec. intros Hf. apply (di_deleted _ _ (wi_tree _ Hw) _ _ He). unfold has_flag.
      by destruct (Z.testbit (d_flags e) 2). }
    cbn [mbind option_bind]. set (e' := with_flags _ e) in *. set (dc' := set_dents _ _) in *. exists dc', a. split; [done|].
    assert (Hplace : forall x dx, dents (fs_dc s) !! x = Some dx -> exists dx', dents dc' !! x = Some dx' /\ place dx' = place dx).
    { intros x dx Hx. symmetry in Hs'. destruct (shape_lookup _ _ _ _ Hs' Hx) as (dx' & Hdx' & [= ]). exists dx'.
      split; [done|]. unfold place. congruence. }
    split.
    + destruct Hw as [Ht Hv Hcu Hb Hroot Hk Hco Huu]. split; cbn [fs_vfs fs_dc set_dc]; try done.
      * destruct Hroot as (dr & Hdr & Hlr). destruct (Hplace _ _ Hdr) as (dx & Hdx & [= ]). exists dx. split; [done|]. congruence.
      * intros x dx. cbn. intros [[<- <-]|[_ Hx]]%lookup_insert_Some; [exact (Hk _ _ He)|exact (Hk _ _ Hx)].
      * intros x dx p dp Hx Hp Hdp Hfl. destruct (shape_lookup _ _ _ _ Hs' Hdp) as (dp0 & Hp0 & [= ]).
        cbn in Hx. apply lookup_insert_Some in Hx as [[<- <-]|[_ Hx]].
        -- cbn in Hp. rewrite Hpe in Hp. injection Hp as <-. exists c. split; [congruence|]. cbn [d_name d_type d_link e' with_flags].
           rewrite Hne, Hent, Hku, Hke. split; [done|]. congruence.
        -- destruct (Hco x dx p dp0) as (c0 & K1 & K2); [done..|]. exists c0. split; [congruence|done].
      * intros x dx m o. cbn. intros [[<- <-]|[_ Hx]]%lookup_insert_Some; [|by eapply Huu]. intros Hm. by eapply (Huu a e).
    + split; [done|]. split; [|intros x dx _; apply Hplace]. exists e'. split; [apply lookup_insert_eq|].
      unfold place. cbn. rewrite Hpe, Hne, Hke, Hku. done.
  - destruct (delete_ok s curr d a e Hw Hcurr He Hpe) as (dc1 & d1 & -> & Hw1 & Hr1 & Hc1 & [= E1 E2 E3 E4] & Hx1 & Hf1).
    cbn [mbind option_bind]. rewrite Hne in Hf1.
    destruct (alloc_ok (set_dc s dc1) curr d1 c name ty u Hw1 Hc1) as (dc2 & a2 & Hal & Hw2 & Hr2 & He2 & Hx2); try done; [congruence|].
    exists dc2, a2. cbn in Hal. split; [done|]. split; [exact Hw2|]. split; [cbn in Hr2; congruence|]. split; [done|].
    intros x dx Hle Hx. destruct (Hx1 _ _ Hle Hx) as (dx1 & Hdx1 & Hpl1). destruct (Hx2 x dx1 Hle Hdx1) as (dx2 & Hdx2 & Hpl2).
    exists dx2. split; [done|]. congruence.
Qed.

(** ** The walk *)
Lemma at_pos_dentry s a pos :
  winv s -> at_pos (fs_dc s) a pos ->
  exists d, dents (fs_dc s) !! a = Some d /\ d_type d = pos_type pos /\ d_link d = pos_uuid root_uuid pos /\
    match pos with
    | [] => d_parent d = None
    | _ :: pos' => exists p, d_parent d = Some p /\ at_pos (fs_dc s) p pos'
    end.
Proof.
  intros Hw Hat. destruct Hat as [|a d p pos Ha Hp Hat].
  - destruct (di_root _ (di_tree _ _ (wi_tree _ Hw))) as (d & Hd & H1 & H2), (wi_root _ Hw) as (d' & Hd' & Hl).
    rewrite Hd in Hd'. injection Hd' as <-. exists d. done.
  - exists d. split; [done|]. split; [done|]. split; [done|]. eauto.
Qed.

Lemma valid_dir pos : quiescent -> valid_pos pos -> pos_type pos = NEXUS_DIR -> is_Some (F (pos_uuid root_uuid pos)).
Proof.
  intros Hq Hv Hty. destruct pos as [|[[n ty] u] pos]; [apply (q_root Hq)|]. cbn in *. destruct Hv as (He & _). subst ty.
  unfold entry_at in He. destruct (F (pos_uuid root_uuid pos)) as [c|] eqn:E; [|done].
  by destruct (q_entry Hq _ _ _ _ _ E He) as (_ & _ & ?); auto.
Qed.

(** What a walk has to do, given what [resolve] says. *)
Definition walked (r : option (option (position * option bytes))) (out : outcome (fs M * option Z * path_walker)) : Prop :=
  match r with
  | None => out = Spin
  | Some None => exists s' w', out = Done (s', None, w') /\ winv s'
  | Some (Some (pos', rem)) => exists s' a w', out = Done (s', Some a, w') /\ winv s' /\
      at_pos (fs_dc s') a pos' /\ valid_pos pos' /\ w_remaining w' = rem
  end.

Definition resolve_step (n : nat) (mode : path_walk_type) (pos : position) (name : bytes) (toks : list (bytes * bool))
    : option (option (position * option bytes)) :=
  match entry_at root_uuid F pos name with
  | None => Some None
  | Some (NEXUS_LNK, u) =>
      match resolve root_uuid F n PATH_WALK_NORMAL pos (otokens (target_at root_uuid F pos u)) with
      | None => None
      | Some None => Some None
      | Some (Some (pos, _)) => resolve root_uuid F n mode pos toks
      end
  | Some (ty, u) => resolve root_uuid F n mode ((name, ty, u) :: pos) toks
  end.

Definition walk_ok (n : nat) : Prop := forall s w curr pos,
  winv s -> at_pos (fs_dc s) curr pos -> valid_pos pos ->
  Forall (fun x => name_ok x.1) (otokens (w_remaining w)) ->
  walked (resolve root_uuid F n (w_type w) pos (otokens (w_remaining w))) (walk_loop root_uuid env n s w curr).

Lemma walk_step_ok n s w curr pos name :
  quiescent -> winv s -> at_pos (fs_dc s) curr pos -> valid_pos pos -> pos_type pos = NEXUS_DIR -> name_ok name ->
  Forall (fun x => name_ok x.1) (otokens (w_remaining w)) -> walk_ok n ->
  walked (resolve_step n (w_type w) pos name (otokens (w_remaining w)))
    (walk_step root_uuid env (walk_loop root_uuid env n) s w curr name).
Proof.
  intros Hq Hw Hat Hv Hdir Hname Hrest IH.
  destruct (at_pos_dentry s curr pos Hw Hat) as (d & Hd & Hty & Hlk & _).
  assert (HF : is_Some (F (d_link d))) by (rewrite Hlk; by apply valid_dir).
  unfold walk_step.
  destruct (dentry_revalidate_ok s curr d Hq Hw Hd) as (s1 & d1 & m & -> & Hw1 & Hs1 & Hd1 & Hm1 & Hsh); [congruence|done|].
  assert (Hl1 : d_link d1 = d_link d) by (injection Hsh; congruence). rewrite <- Hl1 in HF.
  assert (Hat1 : at_pos (fs_dc s1) curr pos) by (eapply at_pos_shape; [done|apply (wi_tree _ Hw)|done]).
  cbn [lift obind Z.eqb negb].
  destruct (d_lookup_spec (fs_dc s1) curr d1 name (di_tree _ _ (wi_tree _ Hw1)) Hd1) as (cached & -> & Hca). cbn [lift obind].
  assert (Hent : forall c, F (d_link d1) = Some c -> entry_at root_uuid F pos name = c_view c !! name).
  { intros c Hc. unfold entry_at. rewrite <- Hlk, <- Hl1, Hc. done. }
  assert (Hhit : (exists a e c, fresh_child (fs_dc s1) cached = Some (Some a) /\ dents (fs_dc s1) !! a = Some e /\
      d_parent e = Some curr /\ d_name e = name /\ F (d_link d1) = Some c /\ c_view c !! name = Some (d_type e, d_link e) /\
      d_type e <> NEXUS_LNK) \/ fresh_child (fs_dc s1) cached = Some None).
  { destruct cached as [a|]; cbn [fresh_child]; [|by right]. destruct Hca as (e & He & Hpe & Hne). rewrite He. cbn [mbind option_bind].
    change DENTRY_PARENT_CHANGED with (2 ^ 1). rewrite flag_land by done. destruct (has_flag 1 e) eqn:Ef; [by right|].
    left. destruct (wi_coherent _ Hw1 a e curr d1 He Hpe Hd1 Ef) as (c & Hc & Hce & Hnl). exists a, e, c. rewrite Hne in Hce. done. }
  destruct Hhit as [(a & e & c & -> & He & Hpe & Hne & Hc & Hce & Hnl)| ->]; cbn [lift obind].
  { unfold resolve_step. rewrite (Hent _ Hc), Hce.
    assert (Hata : at_pos (fs_dc s1) a ((name, d_type e, d_link e) :: pos)) by (rewrite <- Hne; by eapply at_child).
    assert (Hva : valid_pos ((name, d_type e, d_link e) :: pos)) by (split; [by rewrite (Hent _ Hc)|done]).
    pose proof (IH s1 (set_wparent w a) a _ Hw1 Hata Hva Hrest) as Hgo. by destruct (d_type e). }
  destruct (search_dirnode_ok s1 curr d1 m name Hw1 Hd1 HF Hm1 Hname) as (s2 & gl & c & -> & Hc & Hgl & Hw2 & Hdc).
  cbn [lift obind]. unfold resolve_step. rewrite (Hent _ Hc). destruct (c_view c !! name) as [[ty u]|] eqn:Ee; [|by exists s2, w].
  destruct (q_entry Hq _ _ _ _ _ Hc Ee) as (Huo & Hku & _).
  destruct (decide (ty = NEXUS_LNK)) as [->|Hnl].
  - rewrite bool_decide_true by done. cbn [obind].
    assert (Htg : target_at root_uuid F pos u = gl u).
    { unfold target_at. rewrite <- Hlk, <- Hl1, Hc. by rewrite Hgl. }
    rewrite Htg. pose proof (IH s2 (mk_walker curr (gl u) PATH_WALK_NORMAL) curr pos Hw2) as Hlink.
    rewrite Hdc in Hlink. cbn [w_type w_remaining] in Hlink.
    specialize (Hlink Hat1 Hv).
    assert (Hoks : Forall (fun x => name_ok x.1) (otokens (gl u))).
    { rewrite Hgl. destruct (c_link c u) as [t|] eqn:Et; [by eapply (q_link Hq)|constructor]. }
    specialize (Hlink Hoks). destruct (resolve root_uuid F n PATH_WALK_NORMAL pos (otokens (gl u))) as [[[pos' rem]|]|].
    + destruct Hlink as (s3 & a & w3 & -> & Hw3 & Hat3 & Hv3 & _). cbn [obind].
      exact (IH s3 (set_wparent w a) a pos' Hw3 Hat3 Hv3 Hrest).
    + destruct Hlink as (s3 & w3 & -> & Hw3). by exists s3, w.
    + cbn in Hlink. by rewrite Hlink.
  - rewrite bool_decide_false by done.
    destruct (install_ok s2 curr d1 c name ty u cached Hw2) as (dc' & a & -> & Hw3 & Hr3 & (e & He & [= E1 E2 E3 E4]) & Hx3);
      try done; rewrite ?Hdc; try done; [destruct Hname; lia|]. cbn [lift obind].
    assert (Hata : at_pos dc' a ((name, ty, u) :: pos)).
    { rewrite <- E1, <- E2, <- E3. apply (at_child _ a e curr); [done|done|]. rewrite Hdc in Hr3, Hx3.
      apply (at_pos_frame (fs_dc s1)); try done. apply (di_tree _ _ (wi_tree _ Hw1)). }
    assert (Hva : valid_pos ((name, ty, u) :: pos)) by (split; [by rewrite (Hent _ Hc)|done]).
    pose proof (IH (set_dc s2 dc') (set_wparent w a) a _ Hw3 Hata Hva Hrest) as Hgo. by destruct ty.
Qed.

Lemma walk_loop_ok n s w curr pos :
  quiescent -> winv s -> at_pos (fs_dc s) curr pos -> valid_pos pos ->
  Forall (fun x => name_ok x.1) (otokens (w_remaining w)) ->
  walked (resolve root_uuid F n (w_type w) pos (otokens (w_remaining w))) (walk_loop root_uuid env n s w curr).
Proof.
  intros Hq. revert s w curr pos. fold (walk_ok n). induction n as [|n IH]; intros s w curr pos Hw Hat Hv Hok; [done|].
  cbn [resolve walk_loop]. pose proof (strtok_tokens (w_remaining w)) as Htok.
  destruct (strtok_r (w_remaining w)) as [[name|] rest].
  2:{ destruct Htok as [-> ->]. exists s, curr, (set_remaining w None). done. }
  rewrite Htok in *. apply Forall_cons in Hok as [Hname Hrest]. cbn [fst] in Hname.
  destruct (at_pos_dentry s curr pos Hw Hat) as (d & Hd & Hty & Hlk & Hpar). rewrite Hd. cbn [lift obind].
  set (w1 := set_remaining w rest).
  destruct (is_dot name); [by apply (IH s w1)|]. destruct (is_dotdot name).
  { destruct pos as [|e pos]; [rewrite Hpar; by exists s, w1|]. destruct Hpar as (p & -> & Hatp).
    apply (IH s w1); try done. destruct e as [[? ?] ?]. apply Hv. }
  rewrite Hty. destruct (bool_decide (pos_type pos = NEXUS_DIR)) eqn:Edir; cbn [negb]; [|by exists s, w1].
  apply bool_decide_eq_true in Edir.
  pose proof (walk_step_ok n s w1 curr pos name Hq Hw Hat Hv Edir Hname Hrest IH) as Hgo. cbn [w_type w1 set_remaining w_remaining] in Hgo.
  change (w_type w1) with (w_type w). destruct (w_type w), rest as [r|]; [exact Hgo..|].
  exists s, curr, (set_remaining w1 (Some name)). done.
Qed.
End refinement.
