(* ===== verification/PathProps.v ===== *)
(** * What holds of path lookups

    The properties of the lookups of [PathWalk.v]: they resolve paths as the
    directories say, they return on a volume without links, the path of a
    dentry leads back to its place; and the behaviours to know of: a link that
    leads to itself, names that start with two dots, and cached entries of a
    directory that was evicted and read again. *)
From S2P Require Import Prelude Hashmap Types AttributeTable Dirnode DirnodeSpec Gcm Crypto BufferLayer CryptoBuf.
From S2P Require Import Filenode Metadata Lru Vfs Dentry PathWalk PathSpec.

(** ** A small volume *)
(** The root holds a directory [d], which holds a file [a], a file [..x] and a
    link [l] to itself. *)
Definition vol_dir0 : nexus_dirnode * dheap :=
  dirnode_create (uuid_const 1) (uuid_const 1) {| cells := ∅; next_addr := 1 |} (uuid_const 3).
Definition vol_dir1 : nexus_dirnode * dheap :=
  match dirnode_add vol_dir0.1 vol_dir0.2 (uuid_const 3) [100] NEXUS_DIR (uuid_const 2) with
  | Some (d, h, _) => (d, h)
  | None => vol_dir0
  end.
Definition vol_dir2 : nexus_dirnode * dheap :=
  match dirnode_add vol_dir1.1 vol_dir1.2 (uuid_const 3) [46; 46; 120] NEXUS_REG (uuid_const 7) with
  | Some (d, h, _) => (d, h)
  | None => vol_dir1
  end.
Definition vol_root : nexus_dirnode * dheap :=
  match dirnode_add_link vol_dir2.1 vol_dir2.2 (uuid_const 3) [108] [108] (uuid_const 4) with
  | Some (d, h, _) => (d, h)
  | None => vol_dir2
  end.
Definition root_view : dir_view :=
  <[ [108] := (NEXUS_LNK, uuid_const 4) ]> (<[ [46; 46; 120] := (NEXUS_REG, uuid_const 7) ]>
    (<[ [100] := (NEXUS_DIR, uuid_const 2) ]> ∅)).

Lemma vol_names : name_ok [100] /\ name_ok [108] /\ name_ok [97] /\ name_ok [46; 46; 120].
Proof. split_and!; (split; [|simpl; lia]; repeat (constructor; [lia|]); constructor). Qed.

Lemma uuid_ok_small z : 0 <= z < 256 -> uuid_ok (uuid_const z).
Proof. intros. apply uuid_const_ok. done. Qed.

Lemma vol_dir1_repr : dir_repr vol_dir1.2 vol_dir1.1 (<[ [100] := (NEXUS_DIR, uuid_const 2) ]> ∅).
Proof.
  unfold vol_dir1. pose proof (create_repr (uuid_const 1) (uuid_const 1) {| cells := ∅; next_addr := 1 |} (uuid_const 3)) as Hc.
  fold vol_dir0 in Hc. assert (Hz : dir_entry_count vol_dir0.1 = 0) by (by vm_compute).
  destruct vol_dir0 as [d h]. destruct Hc as [Hr _]; [simpl; lia|]. cbn [fst snd] in *.
  destruct (add_repr d h (uuid_const 3) [100] NEXUS_DIR (uuid_const 2) ∅) as (d' & h' & r & -> & Hr');
    [done|apply vol_names|apply uuid_ok_small; lia|lia|].
  rewrite lookup_empty in Hr'. by destruct Hr' as [_ Hr'].
Qed.

Lemma vol_dir2_repr :
  dir_repr vol_dir2.2 vol_dir2.1 (<[ [46; 46; 120] := (NEXUS_REG, uuid_const 7) ]> (<[ [100] := (NEXUS_DIR, uuid_const 2) ]> ∅)).
Proof.
  unfold vol_dir2. assert (Hz : dir_entry_count vol_dir1.1 = 1) by (by vm_compute).
  pose proof vol_dir1_repr as Hr. destruct vol_dir1 as [d h]. cbn [fst snd] in *.
  destruct (add_repr d h (uuid_const 3) [46; 46; 120] NEXUS_REG (uuid_const 7) _ Hr) as (d' & h' & r & -> & Hr');
    [apply vol_names|apply uuid_ok_small; lia|lia|].
  rewrite lookup_insert_ne, lookup_empty in Hr' by done. by destruct Hr' as [_ Hr'].
Qed.

Lemma vol_root_repr : dir_repr vol_root.2 vol_root.1 root_view.
Proof.
  unfold vol_root. assert (Hz : dir_entry_count vol_dir2.1 = 2) by (by vm_compute).
  assert (Hs : find_symlink vol_dir2.1 (uuid_const 4) = None) by (by vm_compute).
  pose proof vol_dir2_repr as Hr. destruct vol_dir2 as [d h]. cbn [fst snd] in *.
  destruct (add_link_spec d h (uuid_const 3) [108] (uuid_const 4) [108] _ Hr) as (d' & h' & -> & Hr' & _); try done.
  - apply vol_names.
  - apply uuid_ok_small; lia.
  - split; [repeat constructor; lia|]. simpl. unfold NEXUS_PATH_MAX. lia.
  - rewrite Hz. lia.
Qed.

(** Metadata objects that are their dirnode, and a store that is always
    current. *)
Record vol_md := mk_vol { vm_uuid : uuid; vm_dir : option (nexus_dirnode * dheap); vm_file : option nexus_filenode; vm_refs : Z }.

Definition vol_store (u : uuid) : option (nexus_dirnode * dheap) :=
  if bool_decide (u = uuid_const 1) then Some vol_root
  else if bool_decide (u = uuid_const 2) then Some one_dir else None.

Definition vol_file (u : uuid) : option nexus_filenode := if bool_decide (u = uuid_const 7) then Some toy_file else None.

#[export] Instance vol_cached : CachedMetadata vol_md.
Proof.
  refine {| cm_uuid := vm_uuid; cm_revalidate := fun m b _ _ _ => Some (m, b, false, 0, []) |}.
  intros. by simplify_eq.
Defined.

#[export] Instance vol_path : PathMetadata vol_md.
Proof.
  refine {| pm_dirnode := vm_dir;
    pm_set_dirnode := fun m d => mk_vol (vm_uuid m) ((fun x => (d, x.2)) <$> vm_dir m) (vm_file m) (vm_refs m);
    pm_ref := fun m => mk_vol (vm_uuid m) (vm_dir m) (vm_file m) (vm_refs m + 1);
    pm_load := fun _ b u _ _ => Some (b, Some (mk_vol u (vol_store u) (vol_file u) 0), []) |}.
  - done.
  - intros m d0 h d Hm. cbn. by rewrite Hm.
  - done.
  - done.
  - intros. by simplify_eq.
Defined.

Definition vol_content (u : uuid) : option content :=
  if bool_decide (u = uuid_const 1) then Some (mk_content root_view (dirnode_get_link vol_root.1))
  else if bool_decide (u = uuid_const 2) then Some (mk_content one_view (dirnode_get_link one_dir.1)) else None.
Definition vol_kind (u : uuid) : nexus_dirent_type :=
  if bool_decide (u = uuid_const 7) then NEXUS_REG else if bool_decide (u = uuid_const 4) then NEXUS_LNK else NEXUS_DIR.
Definition vol_env (u : uuid) (n : nat) : walk_env :=
  mk_wenv (mk_reval reply_ok 0 (mk_getreply 0 None 0) reply_ok) (mk_getreply 0 None 0).

Lemma vol_quiescent : quiescent (uuid_const 1) vol_env vol_content vol_kind (fun _ => True).
Proof.
  assert (Hcases : forall u c, vol_content u = Some c ->
    (u = uuid_const 1 /\ c = mk_content root_view (dirnode_get_link vol_root.1)) \/
    (u = uuid_const 2 /\ c = mk_content one_view (dirnode_get_link one_dir.1))).
  { intros u c. unfold vol_content. case_bool_decide; [intros [= <-]; by left|]. case_bool_decide; [intros [= <-]; by right|done]. }
  split.
  - split; [by eexists|]. split; [apply uuid_ok_small; lia|done].
  - intros u c n ty u' [[-> ->]|[-> ->]]%Hcases; cbn [c_view].
    + unfold root_view. rewrite !lookup_insert_Some, lookup_empty.
      intros [[<- [= <- <-]]|[_ [[<- [= <- <-]]|[_ [[<- [= <- <-]]|[_ ?]]]]]];
        [split; [apply uuid_ok_small; lia|done]..|done].
    + unfold one_view. intros [<- [= <- <-]]%lookup_singleton_Some. split; [apply uuid_ok_small; lia|done].
  - intros u c [[-> _]|[-> _]]%Hcases; done.
  - intros u c u' t [[-> ->]|[-> ->]]%Hcases; cbn [c_link].
    + unfold dirnode_get_link, find_symlink. assert (Hl : exists e, symlink_list vol_root.1 = [e] /\ target_path e = [108]) by (by vm_compute; eexists).
      destruct Hl as (e & -> & He). cbn [list_find]. destruct (decide _); cbn; [|done]. rewrite He. intros [= <-].
      apply Forall_singleton. apply vol_names.
    + unfold dirnode_get_link, find_symlink. assert (Hl : symlink_list one_dir.1 = []) by (by vm_compute). by rewrite Hl.
  - intros o b n Hc _. eexists _, _, _, _. split; [done|]. done.
  - intros u b n HF _. eexists _, _, _. split; [done|]. split; [|done]. unfold current. cbn [pm_dirnode vol_path vm_dir cm_uuid vol_cached vm_uuid].
    unfold vol_store, vol_content in *. case_bool_decide as E1; [subst; destruct vol_root as [d h] eqn:Er; split; [|split; [done|]]|].
    + rewrite <- (f_equal fst Er : vol_root.1 = d). rewrite <- (f_equal snd Er : vol_root.2 = h). apply vol_root_repr.
    + rewrite <- (f_equal fst Er : vol_root.1 = d). by vm_compute.
    + case_bool_decide as E2; [|by destruct HF]. subst. destruct one_dir as [d h] eqn:Er. split; [|split; [done|]].
      * rewrite <- (f_equal fst Er : one_dir.1 = d). rewrite <- (f_equal snd Er : one_dir.2 = h). apply one_dir_repr.
      * rewrite <- (f_equal fst Er : one_dir.1 = d). by vm_compute.
  - done.
Qed.

(** The state after mounting a volume. *)
Definition fs_start {M} (root_uuid : uuid) (b : bcache) : fs M := mk_fs (nexus_vfs_init b) (dcache_start root_uuid) 0 [].

Lemma start_winv {M} {CM : CachedMetadata M} {PM : PathMetadata M} root_uuid env F kind (B : bcache -> Prop) b :
  quiescent root_uuid env F kind B -> B b -> winv root_uuid F kind B (fs_start (M := M) root_uuid b).
Proof.
  intros Hq Hb. destruct (q_root _ _ _ _ _ Hq) as (_ & Hok & Hk).
  set (d := mk_dentry NEXUS_DIR 0 1 [47] 1 root_uuid None None []).
  assert (Hdc : dcache_start root_uuid = mk_dcache {[ 1 := d ]} 2 1 [] ∅).
  { unfold dcache_start, dcache_init_root, d_alloc. cbn. by rewrite delete_empty. }
  unfold fs_start. rewrite Hdc.
  assert (Hlk : forall a e, ({[ 1 := d ]} : gmap Z nexus_dentry) !! a = Some e -> a = 1 /\ e = d)
    by (by intros a e [-> ->]%lookup_singleton_Some).
  split; cbn [fs_vfs fs_dc nexus_vfs_init v_objects v_bufs dents root_dentry].
  - split; [split|..]; cbn [dents d_next root_dentry md_links].
    + intros a e [-> ->]%Hlk. lia.
    + lia.
    + exists d. by rewrite lookup_singleton_eq.
    + by intros a e p [-> ->]%Hlk.
    + intros a e c [-> ->]%Hlk Hc. by apply not_elem_of_nil in Hc.
    + intros a e [-> ->]%Hlk. apply NoDup_nil_2.
    + by intros a e [-> ->]%Hlk.
    + by intros a e [-> ->]%Hlk.
    + by intros c1 c2 d1 d2 [-> _]%Hlk [-> _]%Hlk.
    + by intros a e [-> ->]%Hlk.
    + by intros a e m [-> ->]%Hlk.
    + intros m l Hm. by rewrite lookup_empty in Hm.
  - exists []. split; cbn [v_cache v_objects v_next nexus_vfs_init].
    + apply create_spec. unfold LRU_CAPACITY. lia.
    + done.
    + done.
    + done.
    + intros a m Hm. by rewrite lookup_empty in Hm.
  - intros m o Hm. by rewrite lookup_empty in Hm.
  - done.
  - exists d. by rewrite lookup_singleton_eq.
  - intros a e [-> ->]%Hlk. done.
  - by intros a e p dp [-> ->]%Hlk.
  - by intros a e m o [-> ->]%Hlk.
Qed.

(** C20: while the store is quiescent, a lookup computes what the directories
    say.  Over any well formed dentry tree and metadata cache, whatever stale
    dentries it holds as long as they are marked, [nexus_vfs_lookup] returns
    NULL when the path does not resolve, the dentry at the resolved position
    when it does, and does not return within [n] turns exactly when the
    resolution does not end within [n] steps; it never touches freed memory,
    and the tree and the cache stay well formed. *)
Theorem vfs_lookup_resolves {M} {CM : CachedMetadata M} {PM : PathMetadata M} root_uuid env F kind B n (s : fs M) path :
  quiescent root_uuid env F kind B -> winv root_uuid F kind B s -> Forall (fun x => name_ok x.1) (tokens path) ->
  match resolve root_uuid F n PATH_WALK_NORMAL [] (tokens path) with
  | None => nexus_vfs_lookup root_uuid env n s path = Spin
  | Some None => exists s', nexus_vfs_lookup root_uuid env n s path = Done (s', None) /\ winv root_uuid F kind B s'
  | Some (Some (pos, _)) => exists s' a, nexus_vfs_lookup root_uuid env n s path = Done (s', Some a) /\
      winv root_uuid F kind B s' /\ at_pos (fs_dc s') a pos /\ valid_pos root_uuid F pos
  end.
Proof.
  intros Hq Hw Hok. unfold nexus_vfs_lookup, dentry_lookup, walk_path. cbn [w_remaining w_parent].
  pose proof (walk_loop_ok _ _ _ _ _ n s (mk_walker (root_dentry (fs_dc s)) (Some path) PATH_WALK_NORMAL)
    (root_dentry (fs_dc s)) [] Hq Hw (at_root _) I Hok) as Hwk. cbn [w_type w_remaining otokens from_option] in Hwk.
  destruct (resolve root_uuid F n PATH_WALK_NORMAL [] (tokens path)) as [[[pos rem]|]|].
  - destruct Hwk as (s' & a & w' & -> & Hw' & Hat & Hv & _). exists s', a. done.
  - destruct Hwk as (s' & w' & -> & Hw'). by exists s'.
  - cbn in Hwk. by rewrite Hwk.
Qed.

Lemma vfs_lookup_resolves_witness :
  exists s' a, nexus_vfs_lookup (uuid_const 1) vol_env 3 (fs_start (M := vol_md) (uuid_const 1) buffer_layer_init) [47; 100; 47; 97]
      = Done (s', Some a) /\ winv (uuid_const 1) vol_content vol_kind (fun _ => True) s' /\
    at_pos (fs_dc s') a [([97], NEXUS_REG, uuid_const 7); ([100], NEXUS_DIR, uuid_const 2)] /\
    valid_pos (uuid_const 1) vol_content [([97], NEXUS_REG, uuid_const 7); ([100], NEXUS_DIR, uuid_const 2)].
Proof.
  apply (vfs_lookup_resolves (uuid_const 1) vol_env vol_content vol_kind (fun _ => True) 3
    (fs_start (uuid_const 1) buffer_layer_init) [47; 100; 47; 97]).
  - exact vol_quiescent.
  - by apply start_winv with (env := vol_env); [apply vol_quiescent|].
  - destruct vol_names as (? & ? & ? & ?). by repeat constructor.
Defined.

(** Looking up the parent of a path ([nexus_vfs_lookup_parent]) stops at
    the directory that would hold the last component, hands that component
    back, and has revalidated the directory: its object is loaded, is a
    dirnode and holds the directory's current contents. *)
Theorem vfs_lookup_parent_resolves {M} {CM : CachedMetadata M} {PM : PathMetadata M} root_uuid env F kind B n (s : fs M) path
    pos name :
  quiescent root_uuid env F kind B -> winv root_uuid F kind B s -> Forall (fun x => name_ok x.1) (tokens path) ->
  resolve root_uuid F n PATH_WALK_PARENT [] (tokens path) = Some (Some (pos, Some name)) ->
  exists s' a w' m o dn h c, nexus_vfs_lookup_parent root_uuid env n s path = Done (s', Some a, w') /\
    winv root_uuid F kind B s' /\ at_pos (fs_dc s') a pos /\ w_remaining w' = Some name /\
    dentry_object s' a = Some (m, o) /\ pm_dirnode o = Some (dn, h) /\
    F (pos_uuid root_uuid pos) = Some c /\ dir_repr h dn (c_view c) /\ pos_type pos = NEXUS_DIR.
Proof.
  intros Hq Hw Hok Hres. unfold nexus_vfs_lookup_parent, dentry_lookup, walk_path. cbn [w_remaining w_parent].
  pose proof (walk_loop_ok _ _ _ _ _ n s (mk_walker (root_dentry (fs_dc s)) (Some path) PATH_WALK_PARENT)
    (root_dentry (fs_dc s)) [] Hq Hw (at_root _) I Hok) as Hwk. cbn [w_type w_remaining otokens from_option] in Hwk.
  rewrite Hres in Hwk. destruct Hwk as (s1 & a & w' & -> & Hw1 & Hat & Hv & Hrem). cbn [obind].
  assert (Hdir : pos_type pos = NEXUS_DIR).
  { clear -Hres. revert Hres. generalize (tokens path) as toks. generalize ([] : position) as p0.
    induction n as [|n IH]; intros p0 toks; cbn [resolve]; [done|].
    destruct toks as [|[nm last] toks]; [done|]. destruct (is_dot nm); [apply IH|].
    destruct (is_dotdot nm); [destruct p0; [done|apply IH]|].
    destruct (bool_decide (pos_type p0 = NEXUS_DIR)) eqn:E; cbn [negb]; [|done]. apply bool_decide_eq_true in E.
    destruct last; [by intros [= <- <-]|]. destruct (entry_at _ _ _ _) as [[ty u]|]; [|done].
    destruct ty; [apply IH..|]. destruct (resolve _ _ n _ _ _) as [[[p1 ?]|]|]; [apply IH|done|done]. }
  destruct (at_pos_dentry _ _ _ _ _ _ _ Hw1 Hat) as (d & Hd & Hty & Hlk & _).
  assert (HF : is_Some (F (d_link d))) by (rewrite Hlk; by eapply valid_dir).
  destruct (dentry_revalidate_ok _ _ _ _ _ s1 a d Hq Hw1 Hd) as (s2 & d2 & m & -> & Hw2 & Hs2 & Hd2 & Hm2 & Hsh);
    [congruence|done|]. cbn [lift obind Z.eqb negb].
  assert (Hl2 : d_link d2 = d_link d) by (injection Hsh; congruence). rewrite <- Hl2 in HF.
  destruct (dir_object _ _ _ _ s2 a d2 Hw2 Hd2 HF m Hm2) as (o & dn & h & c & Hob & _ & _ & Hdn & Hc & Hr & _).
  exists s2, a, w', m, o, dn, h, c. split; [done|]. split; [done|].
  split; [eapply at_pos_shape; [done|apply (wi_tree _ _ _ _ _ Hw1)|done]|]. split; [done|]. split; [done|]. split; [done|].
  split; [congruence|]. done.
Qed.

Lemma vfs_lookup_parent_witness :
  exists s' a w' m o dn h c, nexus_vfs_lookup_parent (uuid_const 1) vol_env 3
      (fs_start (M := vol_md) (uuid_const 1) buffer_layer_init) [100; 47; 98] = Done (s', Some a, w') /\
    winv (uuid_const 1) vol_content vol_kind (fun _ => True) s' /\
    at_pos (fs_dc s') a [([100], NEXUS_DIR, uuid_const 2)] /\ w_remaining w' = Some [98] /\
    dentry_object s' a = Some (m, o) /\ pm_dirnode o = Some (dn, h) /\
    vol_content (uuid_const 2) = Some c /\ dir_repr h dn (c_view c) /\ NEXUS_DIR = NEXUS_DIR.
Proof.
  apply (vfs_lookup_parent_resolves (uuid_const 1) vol_env vol_content vol_kind (fun _ => True) 3
    (fs_start (uuid_const 1) buffer_layer_init) [100; 47; 98] [([100], NEXUS_DIR, uuid_const 2)]).
  - exact vol_quiescent.
  - by apply start_winv with (env := vol_env); [apply vol_quiescent|].
  - destruct vol_names as (? & ? & ? & ?). constructor; [done|]. constructor; [apply name_b_ok|constructor].
  - vm_compute. reflexivity.
Defined.

(** ** Termination *)
Lemma resolve_link_free root_uuid F mode toks n pos :
  (forall u c nm u', F u = Some c -> c_view c !! nm <> Some (NEXUS_LNK, u')) -> (length toks < n)%nat ->
  resolve root_uuid F n mode pos toks <> None.
Proof.
  intros Hno. revert n pos. induction toks as [|[nm last] toks IH]; intros n pos Hn; (destruct n as [|n]; [simpl in Hn; lia|]);
    cbn [resolve]; [done|]. simpl in Hn.
  destruct (is_dot nm); [apply IH; lia|]. destruct (is_dotdot nm); [destruct pos; [done|apply IH; lia]|].
  destruct (negb _); [done|].
  assert (Hgo : match entry_at root_uuid F pos nm with
    | None => Some None
    | Some (NEXUS_LNK, u) =>
        match resolve root_uuid F n PATH_WALK_NORMAL pos (otokens (target_at root_uuid F pos u)) with
        | None => None | Some None => Some None
        | Some (Some (pos, _)) => resolve root_uuid F n mode pos toks
        end
    | Some (ty, u) => resolve root_uuid F n mode ((nm, ty, u) :: pos) toks
    end <> None).
  { destruct (entry_at root_uuid F pos nm) as [[ty u]|] eqn:E; [|done]. unfold entry_at in E.
    destruct (F (pos_uuid root_uuid pos)) as [c|] eqn:EF; [|done]. cbn in E.
    destruct ty; [apply IH; lia..|]. exfalso. exact (Hno _ _ _ _ EF E). }
  destruct mode, last; done.
Qed.

(** A lookup on a volume without symbolic links returns: one turn of the
    loop per component of the path, and one to find the end of it. *)
Theorem vfs_lookup_terminates {M} {CM : CachedMetadata M} {PM : PathMetadata M} root_uuid env F kind B (s : fs M) path :
  quiescent root_uuid env F kind B -> winv root_uuid F kind B s -> Forall (fun x => name_ok x.1) (tokens path) ->
  (forall u c nm u', F u = Some c -> c_view c !! nm <> Some (NEXUS_LNK, u')) ->
  exists s' r, nexus_vfs_lookup root_uuid env (S (length (tokens path))) s path = Done (s', r) /\
    winv root_uuid F kind B s'.
Proof.
  intros Hq Hw Hok Hno. unfold nexus_vfs_lookup, dentry_lookup, walk_path. cbn [w_remaining w_parent].
  pose proof (walk_loop_ok _ _ _ _ _ (S (length (tokens path))) s
    (mk_walker (root_dentry (fs_dc s)) (Some path) PATH_WALK_NORMAL) (root_dentry (fs_dc s)) [] Hq Hw (at_root _) I Hok) as Hwk.
  cbn [w_type w_remaining otokens from_option] in Hwk.
  pose proof (resolve_link_free root_uuid F PATH_WALK_NORMAL (tokens path) (S (length (tokens path))) [] Hno ltac:(lia)) as Hne.
  destruct (resolve _ _ _ _ _ _) as [[[pos rem]|]|]; [..|done].
  - destruct Hwk as (s' & a & w' & -> & Hw' & _). by exists s', (Some a).
  - destruct Hwk as (s' & w' & -> & Hw'). by exists s', None.
Qed.

(** The directory [d] of the small volume, as a volume of its own. *)
Definition flat_content (u : uuid) : option content :=
  if bool_decide (u = uuid_const 2) then Some (mk_content one_view (dirnode_get_link one_dir.1)) else None.

Lemma flat_quiescent : quiescent (uuid_const 2) vol_env flat_content vol_kind (fun _ => True).
Proof.
  assert (Hcases : forall u c, flat_content u = Some c -> u = uuid_const 2 /\ vol_content u = Some c).
  { intros u c. unfold flat_content. case_bool_decide; [|done]. subst. by intros [= <-]. }
  pose proof vol_quiescent as Hq. split.
  - split; [by eexists|]. split; [apply uuid_ok_small; lia|done].
  - intros u c n ty u' [-> Hc]%Hcases He. injection Hc as <-. cbn [c_view] in He. unfold one_view in He.
    apply lookup_singleton_Some in He as [<- [= <- <-]]. split; [apply uuid_ok_small; lia|done].
  - intros u c [_ Hc]%Hcases. by apply (q_kind _ _ _ _ _ Hq _ _ Hc).
  - intros u c u' t [_ Hc]%Hcases. by apply (q_link _ _ _ _ _ Hq _ _ _ _ Hc).
  - intros o b n Hc _. eexists _, _, _, _. done.
  - intros u b n HF _. eexists _, _, _. split; [done|]. split; [|done].
    assert (u = uuid_const 2) as -> by (destruct HF as [c Hc]; by apply Hcases in Hc as [-> _]).
    destruct (q_load _ _ _ _ _ Hq (uuid_const 2) b n) as (b' & o & t & Hl & Hcur & _); [by eexists|done|].
    cbn in Hl. injection Hl as <- <- <-. exact Hcur.
  - done.
Qed.

Lemma vfs_lookup_terminates_witness :
  exists s' r, nexus_vfs_lookup (uuid_const 2) vol_env 2 (fs_start (M := vol_md) (uuid_const 2) buffer_layer_init) [97]
    = Done (s', r) /\ winv (uuid_const 2) flat_content vol_kind (fun _ => True) s'.
Proof.
  apply (vfs_lookup_terminates (uuid_const 2) vol_env flat_content vol_kind (fun _ => True) (fs_start (uuid_const 2) buffer_layer_init) [97]).
  - exact flat_quiescent.
  - by apply start_winv with (env := vol_env); [apply flat_quiescent|].
  - destruct vol_names as (? & ? & ? & ?). by repeat constructor.
  - intros u c nm u' HF. unfold flat_content in HF. case_bool_decide; [|done]. injection HF as <-. cbn [c_view].
    unfold one_view. by intros [_ [= ]]%lookup_singleton_Some.
Defined.

(** A symbolic link in the root whose target is its own name is followed
    for ever: whatever the number [n] of turns allowed, the lookup has not
    returned, so the recursion of [dentry_follow_link] exhausts the stack.
    Nothing bounds the number of links a walk follows. *)
Theorem vfs_lookup_link_loop {M} {CM : CachedMetadata M} {PM : PathMetadata M} root_uuid env F kind B n (s : fs M) name u c :
  quiescent root_uuid env F kind B -> winv root_uuid F kind B s -> name_ok name ->
  is_dot name = false -> is_dotdot name = false -> tokens name = [(name, true)] ->
  F root_uuid = Some c -> c_view c !! name = Some (NEXUS_LNK, u) -> c_link c u = Some name ->
  nexus_vfs_lookup root_uuid env n s name = Spin.
Proof.
  intros Hq Hw Hok Hd Hdd Htok HF He Hl.
  assert (Hres : forall n, resolve root_uuid F n PATH_WALK_NORMAL [] [(name, true)] = None).
  { clear n. induction n as [|n IH]; [done|]. cbn [resolve]. rewrite Hd, Hdd. cbn [pos_type]. rewrite bool_decide_true by done.
    cbn [negb]. unfold entry_at, target_at. cbn [pos_uuid]. rewrite HF. cbn [mbind option_bind]. rewrite He, Hl.
    cbn [otokens from_option]. rewrite Htok, IH. done. }
  unfold nexus_vfs_lookup, dentry_lookup, walk_path. cbn [w_remaining w_parent].
  pose proof (walk_loop_ok _ _ _ _ _ n s (mk_walker (root_dentry (fs_dc s)) (Some name) PATH_WALK_NORMAL)
    (root_dentry (fs_dc s)) [] Hq Hw (at_root _) I) as Hwk. cbn [w_type w_remaining otokens from_option] in Hwk.
  rewrite Htok, Hres in Hwk. cbn in Hwk. rewrite Hwk; [done|]. by constructor.
Qed.

Lemma vfs_lookup_link_loop_witness :
  nexus_vfs_lookup (uuid_const 1) vol_env 1000 (fs_start (M := vol_md) (uuid_const 1) buffer_layer_init) [108] = Spin.
Proof.
  apply (vfs_lookup_link_loop (uuid_const 1) vol_env vol_content vol_kind (fun _ => True) 1000
    (fs_start (uuid_const 1) buffer_layer_init) [108] (uuid_const 4) (mk_content root_view (dirnode_get_link vol_root.1))).
  - exact vol_quiescent.
  - by apply start_winv with (env := vol_env); [apply vol_quiescent|].
  - apply vol_names.
  - reflexivity.
  - reflexivity.
  - reflexivity.
  - reflexivity.
  - reflexivity.
  - vm_compute. reflexivity.
Defined.

(** A component that starts with two dots is taken for the parent
    directory, whatever follows the dots: an entry of the root called ["..x"]
    cannot be looked up, although the root holds it. *)
Theorem vfs_lookup_dotdot_prefix {M} {CM : CachedMetadata M} {PM : PathMetadata M} root_uuid env F kind B n (s : fs M) x u c :
  quiescent root_uuid env F kind B -> winv root_uuid F kind B s -> name_ok (DOT :: DOT :: x) ->
  tokens (DOT :: DOT :: x) = [(DOT :: DOT :: x, true)] ->
  F root_uuid = Some c -> c_view c !! (DOT :: DOT :: x) = Some (NEXUS_REG, u) ->
  exists s', nexus_vfs_lookup root_uuid env (S n) s (DOT :: DOT :: x) = Done (s', None).
Proof.
  intros Hq Hw Hok Htok HF He. unfold nexus_vfs_lookup, dentry_lookup, walk_path. cbn [w_remaining w_parent].
  pose proof (walk_loop_ok _ _ _ _ _ (S n) s (mk_walker (root_dentry (fs_dc s)) (Some (DOT :: DOT :: x)) PATH_WALK_NORMAL)
    (root_dentry (fs_dc s)) [] Hq Hw (at_root _) I) as Hwk. cbn [w_type w_remaining otokens from_option] in Hwk.
  rewrite Htok in Hwk. cbn [resolve] in Hwk. assert (Hdd : is_dotdot (DOT :: DOT :: x) = true) by done.
  assert (Hd : is_dot (DOT :: DOT :: x) = false) by done. rewrite Hd, Hdd in Hwk.
  destruct Hwk as (s' & w' & -> & _); [by constructor|]. by exists s'.
Qed.

Lemma vfs_lookup_dotdot_prefix_witness :
  exists s', nexus_vfs_lookup (uuid_const 1) vol_env 5 (fs_start (M := vol_md) (uuid_const 1) buffer_layer_init) [46; 46; 120]
    = Done (s', None).
Proof.
  apply (vfs_lookup_dotdot_prefix (uuid_const 1) vol_env vol_content vol_kind (fun _ => True) 4
    (fs_start (uuid_const 1) buffer_layer_init) [120] (uuid_const 7) (mk_content root_view (dirnode_get_link vol_root.1))).
  - exact vol_quiescent.
  - by apply start_winv with (env := vol_env); [apply vol_quiescent|].
  - apply vol_names.
  - reflexivity.
  - reflexivity.
  - reflexivity.
Defined.

(** ** The path of a dentry *)
Fixpoint path_string (pos : position) : bytes :=
  match pos with [] => [] | (n, _, _) :: pos' => path_string pos' ++ SLASH :: n end.

(** A name that a path can spell. *)
Definition plain (n : bytes) : Prop :=
  name_ok n /\ n <> [] /\ SLASH ∉ n /\ is_dot n = false /\ is_dotdot n = false.

Lemma split_slash_app p q : split_slash (p ++ SLASH :: q) = split_slash p ++ split_slash q.
Proof.
  induction p as [|c p IH]; [done|]. cbn [app split_slash]. rewrite IH. destruct (c =? SLASH); [done|].
  destruct (split_slash_cons p) as (t & ts & ->). done.
Qed.

Lemma split_slash_name n : SLASH ∉ n -> split_slash n = [n].
Proof.
  induction n as [|c n IH]; [done|]. intros [H1 H2]%not_elem_of_cons. cbn [split_slash].
  rewrite (proj2 (Z.eqb_neq _ _)) by done. by rewrite IH.
Qed.

Lemma mark_last_fst l : (mark_last l).*1 = l.
Proof. induction l as [|t l IH]; [done|]. rewrite mark_cons. cbn. by rewrite IH. Qed.

Lemma split_path_string pos :
  Forall plain pos.*1.*1 -> split_slash (path_string pos) = [] :: reverse pos.*1.*1.
Proof.
  induction pos as [|[[n ty] u] pos IH]; [done|]. intros [Hn Hp]%Forall_cons. cbn [path_string fmap list_fmap fst].
  rewrite split_slash_app, IH, split_slash_name, reverse_cons by (done || apply Hn). done.
Qed.

Lemma tokens_path_string pos :
  Forall plain pos.*1.*1 -> (tokens (path_string pos)).*1 = reverse pos.*1.*1.
Proof.
  intros Hp. unfold tokens. rewrite split_path_string, mark_cons, filter_cons_False by (done || (intros H; done)).
  rewrite filter_all; [apply mark_last_fst|]. apply Forall_forall. intros x Hx. apply (list_elem_of_fmap_2 fst) in Hx.
  rewrite mark_last_fst, elem_of_reverse in Hx. rewrite Forall_forall in Hp. by apply Hp.
Qed.

Lemma resolve_valid root_uuid env F kind (B : bcache -> Prop) {M} {CM : CachedMetadata M} {PM : PathMetadata M} pos toks rest k :
  quiescent (M := M) root_uuid env F kind B -> valid_pos root_uuid F pos -> Forall plain pos.*1.*1 -> toks.*1 = reverse pos.*1.*1 ->
  resolve root_uuid F (length pos + k) PATH_WALK_NORMAL [] (toks ++ rest) = resolve root_uuid F k PATH_WALK_NORMAL pos rest.
Proof.
  intros Hq. revert toks rest k. induction pos as [|[[n ty] u] pos IH]; intros toks rest k Hv Hp Ht.
  { by destruct toks. }
  cbn [fmap list_fmap fst] in Ht, Hp. rewrite reverse_cons in Ht. apply Forall_cons in Hp as [Hn Hp].
  apply fmap_app_inv in Ht as (toks' & last & Ht1 & Ht2 & ->). destruct last as [|[n' b] [|]]; [done| |done].
  cbn in Ht2. injection Ht2 as <-. destruct Hv as (He & Hnl & Hv).
  rewrite <- app_assoc. cbn [length]. replace (S (length pos) + k)%nat with (length pos + S k)%nat by lia.
  rewrite (IH toks' _ (S k)) by done. cbn [app resolve]. destruct Hn as (_ & _ & _ & -> & ->).
  assert (Hdir : pos_type pos = NEXUS_DIR).
  { destruct pos as [|[[n1 ty1] u1] pos1]; [done|]. cbn in *. unfold entry_at in He. cbn [pos_uuid] in He.
    destruct (F u1) as [c|] eqn:E1; [|done]. destruct Hv as (He1 & _). unfold entry_at in He1.
    destruct (F (pos_uuid root_uuid pos1)) as [c1|] eqn:E2; [|done]. cbn in He1.
    destruct (q_entry _ _ _ _ _ Hq _ _ _ _ _ E2 He1) as (_ & -> & _). by eapply q_kind. }
  rewrite bool_decide_true by done. cbn [negb]. rewrite He. by destruct ty.
Qed.

Lemma fullpath_loop_spec dc a pos n acc :
  tinv dc -> at_pos dc a pos -> 0 <= a < Z.of_nat n -> (forall x d, dents dc !! x = Some d -> 0 < x) ->
  (exists dr, dents dc !! root_dentry dc = Some dr /\ d_parent dr = None) ->
  fullpath_loop n dc a acc = Some (path_string pos ++ acc).
Proof.
  intros Ht Hat Hn Hpos Hroot. revert n acc Hn. induction Hat as [|a d p pos Ha Hp Hat IH]; intros n acc Hn.
  - destruct n as [|n]; [lia|]. cbn [fullpath_loop]. destruct Hroot as (dr & -> & Hpr). cbn [mbind option_bind]. by rewrite Hpr.
  - destruct n as [|n]; [lia|]. cbn [fullpath_loop]. rewrite Ha. cbn [mbind option_bind]. rewrite Hp.
    destruct (di_parent _ Ht _ _ _ Ha Hp) as (Hlt & dp & Hdp & _). specialize (Hpos _ _ Hdp).
    rewrite IH by lia. cbn [path_string]. rewrite (di_len _ Ht _ _ Ha), take_ge by lia. by rewrite <- app_assoc.
Qed.

(** The path [dentry_get_fullpath] prints for a dentry leads back to its
    place: looking the path up, in as many turns as the dentry is deep and one
    more, returns a dentry at the same position, reached through the same
    names, types and UUIDs. *)
Theorem fullpath_leads_back {M} {CM : CachedMetadata M} {PM : PathMetadata M} root_uuid env F kind B (s : fs M) a pos :
  quiescent root_uuid env F kind B -> winv root_uuid F kind B s -> at_pos (fs_dc s) a pos -> valid_pos root_uuid F pos ->
  Forall plain pos.*1.*1 ->
  exists path s' a', dentry_get_fullpath (fs_dc s) a = Some path /\
    nexus_vfs_lookup root_uuid env (S (length pos)) s path = Done (s', Some a') /\
    winv root_uuid F kind B s' /\ at_pos (fs_dc s') a' pos.
Proof.
  intros Hq Hw Hat Hv Hp. pose proof (di_tree _ _ (wi_tree _ _ _ _ _ Hw)) as Ht.
  destruct (at_pos_dentry _ _ _ _ _ _ _ Hw Hat) as (d & Hd & _ & _ & Hpar).
  assert (Hpath : exists path, dentry_get_fullpath (fs_dc s) a = Some path /\ (tokens path).*1 = reverse pos.*1.*1).
  { unfold dentry_get_fullpath. rewrite Hd. cbn [mbind option_bind]. destruct pos as [|e pos].
    { rewrite Hpar. by exists [47]. }
    destruct Hpar as (p & -> & _). exists (path_string (e :: pos)). split; [|by apply tokens_path_string].
    rewrite (fullpath_loop_spec _ _ (e :: pos)); [by rewrite app_nil_r|done|done| | |].
    - pose proof (di_fresh _ Ht _ _ Hd). lia.
    - intros x dx Hx. apply (di_fresh _ Ht) in Hx. lia.
    - destruct (di_root _ Ht) as (dr & ? & ? & _). eauto. }
  destruct Hpath as (path & Hfp & Htok). exists path.
  assert (Hok : Forall (fun x => name_ok x.1) (tokens path)).
  { apply Forall_forall. intros x Hx. apply (list_elem_of_fmap_2 fst) in Hx. rewrite Htok, elem_of_reverse in Hx.
    rewrite Forall_forall in Hp. by apply Hp. }
  pose proof (resolve_valid root_uuid env F kind B pos (tokens path) [] 1 Hq Hv Hp Htok) as Hres.
  rewrite app_nil_r, Nat.add_1_r in Hres. change (resolve root_uuid F 1 _ pos []) with (Some (Some (pos, None : option bytes))) in Hres.
  unfold nexus_vfs_lookup, dentry_lookup, walk_path. cbn [w_remaining w_parent].
  pose proof (walk_loop_ok _ _ _ _ _ (S (length pos)) s (mk_walker (root_dentry (fs_dc s)) (Some path) PATH_WALK_NORMAL)
    (root_dentry (fs_dc s)) [] Hq Hw (at_root _) I Hok) as Hwk. cbn [w_type w_remaining otokens from_option] in Hwk.
  rewrite Hres in Hwk. destruct Hwk as (s' & a' & w' & -> & Hw' & Hat' & _). exists s', a'. done.
Qed.

(** A tree that has the file of the small volume. *)
Definition vol_state : fs vol_md :=
  match nexus_vfs_lookup (uuid_const 1) vol_env 3 (fs_start (uuid_const 1) buffer_layer_init) [100; 47; 97] with
  | Done (s, _) => s
  | _ => fs_start (uuid_const 1) buffer_layer_init
  end.

Lemma vol_state_winv : winv (uuid_const 1) vol_content vol_kind (fun _ => True) vol_state.
Proof.
  unfold vol_state.
  pose proof (walk_loop_ok (uuid_const 1) vol_env vol_content vol_kind (fun _ => True) 3 (fs_start (uuid_const 1) buffer_layer_init)
    (mk_walker 1 (Some [100; 47; 97]) PATH_WALK_NORMAL) 1 [] vol_quiescent) as Hwk.
  unfold nexus_vfs_lookup, dentry_lookup, walk_path. cbn [w_remaining w_parent].
  change (root_dentry (fs_dc (fs_start (M := vol_md) (uuid_const 1) buffer_layer_init))) with 1.
  destruct Hwk as (s' & a & w' & -> & Hw & _); [| |done| |exact Hw].
  - by apply start_winv with (env := vol_env); [apply vol_quiescent|].
  - apply (at_root (fs_dc (fs_start (M := vol_md) (uuid_const 1) buffer_layer_init))).
  - destruct vol_names as (? & ? & ? & ?). by repeat constructor.
Qed.

Lemma vol_plain : plain [97] /\ plain [100].
Proof.
  destruct vol_names as (? & ? & ? & _).
  split; (split; [done|]; split; [done|]; split; [|done]; apply not_elem_of_cons; split; [done|apply not_elem_of_nil]).
Qed.

Lemma fullpath_leads_back_witness :
  exists path s' a', dentry_get_fullpath (fs_dc vol_state) 3 = Some path /\
    nexus_vfs_lookup (uuid_const 1) vol_env 3 vol_state path = Done (s', Some a') /\
    winv (uuid_const 1) vol_content vol_kind (fun _ => True) s' /\
    at_pos (fs_dc s') a' [([97], NEXUS_REG, uuid_const 7); ([100], NEXUS_DIR, uuid_const 2)].
Proof.
  assert (H3 : exists d3, dents (fs_dc vol_state) !! 3 = Some d3 /\ d_parent d3 = Some 2 /\
    (d_name d3, d_type d3, d_link d3) = ([97], NEXUS_REG, uuid_const 7)) by (eexists; split_and!; vm_compute; reflexivity).
  assert (H2 : exists d2, dents (fs_dc vol_state) !! 2 = Some d2 /\ d_parent d2 = Some (root_dentry (fs_dc vol_state)) /\
    (d_name d2, d_type d2, d_link d2) = ([100], NEXUS_DIR, uuid_const 2)) by (eexists; split_and!; vm_compute; reflexivity).
  destruct H3 as (d3 & D3 & P3 & E3), H2 as (d2 & D2 & P2 & E2).
  apply (fullpath_leads_back (uuid_const 1) vol_env vol_content vol_kind (fun _ => True) vol_state 3
    [([97], NEXUS_REG, uuid_const 7); ([100], NEXUS_DIR, uuid_const 2)]).
  - exact vol_quiescent.
  - exact vol_state_winv.
  - rewrite <- E3, <- E2. eapply at_child; [exact D3|exact P3|]. eapply at_child; [exact D2|exact P2|]. apply at_root.
  - vm_compute. split_and!; done.
  - constructor; [apply vol_plain|]. constructor; [apply vol_plain|constructor].
Defined.

(** ** A directory that was evicted *)
Lemma instantiate_frame dc a m dc' :
  dentry_instantiate dc a m = Some dc' ->
  exists d, dents dc !! a = Some d /\ same_shape dc dc' /\ (forall x, x <> a -> dents dc' !! x = dents dc !! x).
Proof.
  unfold dentry_instantiate. destruct (dents dc !! a) as [d|] eqn:Ha; [|done]. cbn [mbind option_bind].
  destruct (d_metadata d); [done|]. rewrite (modify_eq _ _ d) by done. intros [= <-]. exists d. split; [done|]. split.
  - by apply (shape_insert _ _ a d (with_flags (Z.lor (d_flags d) DENTRY_INITIALIZED) (with_metadata (Some m) d))).
  - intros x Hx. cbn. by apply lookup_insert_ne.
Qed.

(** Revalidating a dentry without metadata leaves the marks of the others. *)
Lemma reload_frame {M} {CM : CachedMetadata M} {PM : PathMetadata M} root_uuid env (s : fs M) a d s' c e :
  dinv (live_in s) (fs_dc s) -> dents (fs_dc s) !! a = Some d -> d_metadata d = None -> c <> a ->
  dents (fs_dc s) !! c = Some e -> dentry_revalidate root_uuid env s a NEXUS_FREAD = Some (s', 0) ->
  tinv (fs_dc s') /\ exists e', dents (fs_dc s') !! c = Some e' /\ place e' = place e /\ has_flag 1 e' = has_flag 1 e.
Proof.
  intros Hi Ha Hm Hca Hc. unfold dentry_revalidate, dentry_revalidate_. rewrite Ha. cbn [mbind option_bind].
  destruct (bool_decide _); [done|]. rewrite Hm.
  destruct (nexus_vfs_load _ _ _ _ _ _) as [[[v r] t]|]; [|done]. cbn [mbind option_bind]. unfold after_vfs.
  destruct (detach_all (filter (fun m => v_objects v !! m = None) (addresses (v_objects (fs_vfs s)))) _ _ Hi)
    as (dc1 & Hdc1 & Hi1 & [Hs1 Hf1] & _). rewrite Hdc1. cbn [mbind option_bind].
  destruct r as [m|]; [|done]. cbn [fs_dc]. destruct (dentry_instantiate dc1 a m) as [dc2|] eqn:Ein; [|done].
  cbn [mbind option_bind Z.eqb negb]. destruct (instantiate_frame _ _ _ _ Ein) as (_ & _ & Hs2 & Hx2).
  set (s2 := set_dc _ dc2). intros Hfin.
  assert (s' = s2) as ->.
  { destruct (a =? root_dentry (fs_dc s2)).
    - destruct (dentry_object s2 a) as [[m0 o]|]; [|done]. cbn in Hfin. destruct (pm_dirnode o) as [[dn h]|]; [|done].
      by injection Hfin.
    - destruct (nexus_metadata_verify_uuids s2 a); [|done]. by injection Hfin. }
  cbn [fs_dc set_dc s2]. split; [eapply tinv_same; [|apply (di_tree _ _ Hi)]; by transitivity dc1|].
  rewrite Hx2 by done. pose proof Hs1 as Hs1'. symmetry in Hs1'. destruct (shape_lookup _ _ _ _ Hs1' Hc) as (e1 & He1 & Hsh).
  exists e1. split; [done|]. split; [injection Hsh; unfold place; congruence|]. by eapply Hf1.
Qed.

(** A directory whose object was evicted and is read again keeps its cached
    children as they are: none is marked as changed, so a walk takes the
    cached child of a name without looking into the dirnode that was just
    loaded, whatever that dirnode says now. *)
Theorem walk_trusts_children_of_evicted {M} {CM : CachedMetadata M} {PM : PathMetadata M} root_uuid env (s : fs M) a d c e s' :
  dinv (live_in s) (fs_dc s) -> dents (fs_dc s) !! a = Some d -> d_metadata d = None ->
  dents (fs_dc s) !! c = Some e -> d_parent e = Some a -> has_flag 1 e = false ->
  dentry_revalidate root_uuid env s a NEXUS_FREAD = Some (s', 0) ->
  (exists e', dents (fs_dc s') !! c = Some e' /\ d_link e' = d_link e) /\
  forall continue w, walk_step root_uuid env continue s w a (d_name e) = continue s' (set_wparent w c) c.
Proof.
  intros Hi Ha Hm Hc Hpe Hfl Hrv. destruct (di_parent _ (di_tree _ _ Hi) _ _ _ Hc Hpe) as [Hlt _].
  destruct (reload_frame root_uuid env s a d s' c e Hi Ha Hm ltac:(lia) Hc Hrv) as (Ht' & e' & He' & [= E1 E2 E3 E4] & Hf').
  split; [by exists e'|]. intros continue w. unfold walk_step. rewrite Hrv. cbn [lift obind Z.eqb negb].
  destruct (di_parent _ Ht' c e' a He') as (_ & da & Hda & _); [congruence|].
  destruct (d_lookup_spec (fs_dc s') a da (d_name e) Ht' Hda) as (r & -> & Hr). cbn [lift obind].
  destruct r as [c'|].
  - destruct Hr as (x & Hx & Hpx & Hnx).
    assert (c' = c) as -> by (apply (di_names _ Ht' c' c x e'); try done; try congruence; rewrite Hpx; eauto).
    cbn [fresh_child]. rewrite He'. cbn [mbind option_bind]. change DENTRY_PARENT_CHANGED with (2 ^ 1).
    rewrite flag_land, Hf', Hfl by done. done.
  - exfalso. apply (Hr c e'); [done|congruence|done].
Qed.

(** The entry [d] of the root was replaced by another directory while the
    root's object was out of the cache: the walk still goes to the old one. *)
Definition stale_root : nexus_dentry := mk_dentry NEXUS_DIR 0 2 [47] 1 (uuid_const 1) None None [2].
Definition stale_child : nexus_dentry := mk_dentry NEXUS_DIR 0 1 [100] 1 (uuid_const 9) (Some 1) None [].
Definition stale_fs : fs vol_md :=
  mk_fs (nexus_vfs_init buffer_layer_init) (mk_dcache (<[ 2 := stale_child ]> {[ 1 := stale_root ]}) 3 1 [] ∅) 0 [].

Lemma stale_dents a d : dents (fs_dc stale_fs) !! a = Some d -> (a = 2 /\ d = stale_child) \/ (a = 1 /\ d = stale_root).
Proof.
  cbn [fs_dc stale_fs dents]. intros [[<- <-]|[_ Hd]]%lookup_insert_Some; [by left|].
  apply lookup_singleton_Some in Hd as [<- <-]. by right.
Qed.

Lemma stale_dinv : dinv (live_in stale_fs) (fs_dc stale_fs).
Proof.
  split; [split|..].
  - intros a d [[-> _]|[-> _]]%stale_dents; cbn; lia.
  - cbn. lia.
  - exists stale_root. done.
  - intros a d p [[-> ->]|[-> ->]]%stale_dents; [|done]. intros [= <-]. split; [lia|]. exists stale_root. split; [done|]. by left.
  - intros a d c [[-> ->]|[-> ->]]%stale_dents Hc; [by apply not_elem_of_nil in Hc|].
    apply list_elem_of_singleton in Hc as ->. exists stale_child. done.
  - intros a d [[-> ->]|[-> ->]]%stale_dents; [apply NoDup_nil_2|apply NoDup_singleton].
  - intros a d [[-> ->]|[-> ->]]%stale_dents; done.
  - intros a d [[-> ->]|[-> ->]]%stale_dents; done.
  - intros c1 c2 d1 d2 [[-> ->]|[-> ->]]%stale_dents [[-> ->]|[-> ->]]%stale_dents; done.
  - intros a d [[-> ->]|[-> ->]]%stale_dents; done.
  - intros a d m [[-> ->]|[-> ->]]%stale_dents; done.
  - intros m l Hm. cbn [fs_dc stale_fs md_links] in Hm. by rewrite lookup_empty in Hm.
Qed.

Definition stale_after : fs vol_md :=
  match dentry_revalidate (uuid_const 1) vol_env stale_fs 1 NEXUS_FREAD with Some (s, _) => s | None => stale_fs end.

Lemma stale_revalidated : dentry_revalidate (uuid_const 1) vol_env stale_fs 1 NEXUS_FREAD = Some (stale_after, 0).
Proof.
  assert (Hret : snd <$> dentry_revalidate (uuid_const 1) vol_env stale_fs 1 NEXUS_FREAD = Some 0) by (vm_compute; reflexivity).
  unfold stale_after. destruct (dentry_revalidate _ _ _ _ _) as [[s r]|]; [|done]. cbn in Hret. by injection Hret as ->.
Qed.

Lemma walk_trusts_children_of_evicted_witness :
  exists e', nexus_vfs_lookup (uuid_const 1) vol_env 2 stale_fs [100] = Done (stale_after, Some 2) /\
    dents (fs_dc stale_after) !! 2 = Some e' /\ d_link e' = uuid_const 9 /\
    snd <$> (search_dirnode stale_after 1 [100] ≫= fun r => r.1.2) = Some (uuid_const 2).
Proof.
  destruct (walk_trusts_children_of_evicted (uuid_const 1) vol_env stale_fs 1 stale_root 2 stale_child stale_after
    stale_dinv eq_refl eq_refl eq_refl eq_refl eq_refl stale_revalidated) as ((e' & He' & Hl) & Hstep).
  exists e'. split; [|split; [exact He'|split; [exact Hl|vm_compute; reflexivity]]].
  assert (Hgo : nexus_vfs_lookup (uuid_const 1) vol_env 2 stale_fs [100] =
    ('(s, r, _) <- walk_step (uuid_const 1) vol_env (walk_loop (uuid_const 1) vol_env 1) stale_fs
       (mk_walker 1 None PATH_WALK_NORMAL) 1 [100];; Done (s, r))) by reflexivity.
  rewrite Hgo. change [100] with (d_name stale_child). rewrite Hstep. reflexivity.
Defined.
