(* ===== verification/AbacValue.v ===== *)
(** * ABAC values, permissions and boolean operators

    Models [abac/value.c], [abac/perm.c] and [abac/boolean_operators.c], with
    the C string functions they use.  A value is a typed block of bytes: the
    union of the C struct is the block [raw_ptr] points to for strings and
    identifiers, and the eight bytes of the union itself for numbers.  A result
    of type [option (option _)] is [None] for an access outside the memory the
    code owns and [Some None] for the NULL the function returns. *)
From stdpp Require Import strings.
From S2P Require Import Prelude.

(** ** Results that may be NULL
    [x <?- e; k] returns NULL when [e] does, and faults when [e] faults. *)
Definition nbind {A B} (k : A -> option (option B)) (o : option (option A)) : option (option B) :=
  match o with Some (Some a) => k a | Some None => Some None | None => None end.
Definition nret {A} (a : A) : option (option A) := Some (Some a).
Definition null {A} : option (option A) := Some None.

Notation "x <?- y ; z" := (nbind (fun x => z) y)
  (at level 20, y at level 100, z at level 200, only parsing) : nexus_scope.
Notation "' x <?- y ; z" := (nbind (fun x => z) y)
  (at level 20, x pattern, y at level 100, z at level 200, only parsing) : nexus_scope.

(** ** C strings *)
(** A string literal of the source, without its terminator. *)
Definition str (s : string) : bytes :=
  (fun c => Z.of_nat (Ascii.nat_of_ascii c)) <$> String.list_ascii_of_string s.
Arguments str s%_string.

(** The C string at the start of a block: [None] when no NUL ends it. *)
Fixpoint c_string (b : bytes) : option bytes :=
  match b with
  | [] => None
  | c :: b' => if c =? 0 then Some [] else cons c <$> c_string b'
  end.

(** [strndup(s, n)] of a block of at least [n] bytes. *)
Fixpoint strndup (b : bytes) (n : nat) : bytes :=
  match n, b with
  | S n, c :: b' => if c =? 0 then [] else c :: strndup b' n
  | _, _ => []
  end.

(** The digits of a number, and ["%d"] of an [int]. *)
Fixpoint digits (fuel : nat) (z : Z) (acc : bytes) : bytes :=
  match fuel with
  | O => acc
  | S fuel =>
      let acc := (48 + z mod 10) :: acc in
      if z <? 10 then acc else digits fuel (z / 10) acc
  end.

Definition print_int (i : Z) : bytes :=
  if i <? 0 then 45 :: digits 10 (- i) [] else digits 10 i [].

(** [atoi]: [strtol] saturates at the ends of a 64-bit [long], the result is
    cut to an [int].  The callers only pass digits. *)
Definition is_digit (c : Z) : bool := (48 <=? c) && (c <=? 57).

Fixpoint strtol (s : bytes) (acc : Z) : Z :=
  match s with
  | c :: s' => if is_digit c then strtol s' (Z.min (10 * acc + (c - 48)) (2 ^ 63 - 1)) else acc
  | [] => acc
  end.

Definition atoi (s : bytes) : Z := s32 (strtol s 0).

(** ** value.c *)
Definition ABAC_VALUE_STRING : Z := 1.
Definition ABAC_VALUE_IDENTIFIER : Z := 2.
Definition ABAC_VALUE_NUMBER : Z := 3.
Definition ABAC_VALUE_MAXLEN : nat := 1024.

Record abac_value := mk_value { av_type : Z; is_shallow_copy : bool; data_sz : Z; av_data : bytes }.

#[export] Instance abac_value_eq_dec : EqDecision abac_value.
Proof. solve_decision. Defined.

(** [int_val] is the low half of the union. *)
Definition int_val (v : abac_value) : Z := s32 (le_decode (take 4 (av_data v))).

(** [sizeof(struct __abac_value_buf)] = 4 + 8. *)
Definition VALUE_HDR_SIZE : Z := 12.
Definition abac_value_bufsize (v : abac_value) : Z := VALUE_HDR_SIZE +64 data_sz v.

Definition abac_value_from_data (data : bytes) (size type : Z) : abac_value := mk_value type false size data.

Definition abac_value_shallow_copy (v : abac_value) : abac_value := mk_value (av_type v) true (data_sz v) (av_data v).

Definition abac_value_from_str_ (s : bytes) (is_identifier : bool) : abac_value :=
  let sz := strnlen s ABAC_VALUE_MAXLEN in
  abac_value_from_data (take sz s ++ [0]) (Z.of_nat (S sz))
    (if is_identifier then ABAC_VALUE_IDENTIFIER else ABAC_VALUE_STRING).

Definition abac_value_from_str (s : bytes) : abac_value := abac_value_from_str_ s false.
Definition abac_value_from_str_as_identifier (s : bytes) : abac_value := abac_value_from_str_ s true.

Definition abac_value_from_int (i : Z) : abac_value :=
  abac_value_from_data (le_encode 4 i ++ replicate 4 0) 4 ABAC_VALUE_NUMBER.

(** The header is read before the length is looked at; the copy of a number
    goes into the eight bytes of the union, whatever size the buffer claims. *)
Definition abac_value_from_buf (buf : bytes) : option (option (abac_value * bytes)) :=
  '((type, size), src) ← (type <~ dec_uint 4; size <~ dec_uint 8; dec_ret (type, size)) buf;
  let minsize := VALUE_HDR_SIZE +64 size in
  if Z.of_nat (length buf) <? minsize then Some None
  else
    '(data, _) ← dec_bytes (Z.to_nat size) src;
    v ← (if type =? ABAC_VALUE_NUMBER then
           if 8 <? size then None
           else Some (mk_value type false size (data ++ replicate (8 - Z.to_nat size) 0))
         else Some (mk_value type false size data));
    Some (Some (v, drop (Z.to_nat minsize) buf)).

(** The bytes written at the start of a buffer of [buflen] bytes. *)
Definition abac_value_to_buf (v : abac_value) (buflen : Z) : option (option bytes) :=
  if buflen <? abac_value_bufsize v then Some None
  else
    '(data, _) ← dec_bytes (Z.to_nat (data_sz v)) (av_data v);
    Some (Some (le_encode 4 (av_type v) ++ le_encode 8 (data_sz v) ++ data)).

(** [snprintf(buffer, 10, "%d", int_val)] keeps nine characters. *)
Definition abac_value_stringify (v : abac_value) : option bytes :=
  if (av_type v =? ABAC_VALUE_STRING) || (av_type v =? ABAC_VALUE_IDENTIFIER) then
    Some (strndup (av_data v) (Z.to_nat (data_sz v)))
  else if av_type v =? ABAC_VALUE_NUMBER then Some (take 9 (print_int (int_val v)))
  else None.

(** ** perm.c *)
Definition PERM_UNK : Z := -1.
Definition PERM_READ : Z := 1.
Definition PERM_WRITE : Z := 2.
Definition PERM_CREATE : Z := 3.
Definition PERM_DELETE : Z := 4.
Definition PERM_AUDIT : Z := 5.

Definition perm_map : list (Z * bytes) :=
  [(PERM_READ, str "read"); (PERM_WRITE, str "write"); (PERM_CREATE, str "create");
   (PERM_DELETE, str "delete"); (PERM_AUDIT, str "audit")].

Definition perm_type_from_string (s : bytes) : Z :=
  from_option fst PERM_UNK (List.find (fun p => strncmp p.2 s 32 =? 0) perm_map).

Definition perm_type_to_string (perm : Z) : option bytes :=
  (fun p => strndup p.2 32) <$> List.find (fun p => p.1 =? perm) perm_map.

Definition perm_type_modifies_object (perm : Z) : bool :=
  (perm =? PERM_DELETE) || (perm =? PERM_WRITE) || (perm =? PERM_CREATE).

(** ** boolean_operators.c *)
Definition boolean_operators : list (bytes * bytes) :=
  [(str ">", str "_gt"); (str "<", str "_lt"); (str ">=", str "_ge"); (str "<=", str "_le");
   (str "!=", str "_ne"); (str "==", str "=")].

Definition find_boolean_operator (s : bytes) : option (bytes * bytes) :=
  List.find (fun o => strncmp s o.1 5 =? 0) boolean_operators.

Definition boolean_operator_to_datalog_str (s : bytes) : option bytes := snd <$> find_boolean_operator s.
Definition boolean_operator_exists (s : bytes) : bool := bool_decide (is_Some (find_boolean_operator s)).

(** ** Numbers and their text *)
Lemma digits_app fuel z acc : digits fuel z acc = digits fuel z [] ++ acc.
Proof.
  revert z acc; induction fuel as [|n IH]; intros z acc; [done|]. cbn [digits].
  case_match; [done|]. rewrite IH, (IH _ [_]). by rewrite <- app_assoc.
Qed.

Lemma digits_step n z : digits (S n) z [] = if z <? 10 then [48 + z mod 10] else digits n (z / 10) [] ++ [48 + z mod 10].
Proof. cbn [digits]. case_match; [done|]. apply digits_app. Qed.

Lemma length_digits k z : 10 ^ Z.of_nat k <= z < 10 ^ Z.of_nat (S k) -> length (digits (S k) z []) = S k.
Proof.
  revert z; induction k as [|k IH]; intros z Hz; rewrite digits_step.
  { simpl in Hz. change (10 ^ 1) with 10 in Hz. by destruct (Z.ltb_spec z 10); [|lia]. }
  rewrite !Nat2Z.inj_succ, !Z.pow_succ_r in Hz by lia.
  assert (0 < 10 ^ Z.of_nat k) by (apply Z.pow_pos_nonneg; lia). destruct (Z.ltb_spec z 10); [lia|].
  rewrite length_app, IH; [simpl; lia|]. rewrite Nat2Z.inj_succ, Z.pow_succ_r by lia.
  split; [apply Z.div_le_lower_bound|apply Z.div_lt_upper_bound]; lia.
Qed.

Lemma length_digits_le n k z : 0 <= z < 10 ^ Z.of_nat k -> (1 <= k)%nat -> (length (digits n z []) <= k)%nat.
Proof.
  revert k z; induction n as [|n IH]; intros k z Hz Hk; [simpl; lia|]. rewrite digits_step.
  destruct (Z.ltb_spec z 10); [simpl; lia|]. destruct k as [|[|k]]; [lia|simpl in Hz; lia|].
  rewrite Nat2Z.inj_succ, Z.pow_succ_r in Hz by lia. rewrite length_app. simpl.
  enough (length (digits n (z / 10) []) <= S k)%nat by lia. apply IH; [|lia].
  split; [apply Z.div_pos; lia|apply Z.div_lt_upper_bound; lia].
Qed.

Lemma is_digit_of d : 0 <= d < 10 -> is_digit (48 + d) = true.
Proof. intros. unfold is_digit. by destruct (Z.leb_spec 48 (48 + d)), (Z.leb_spec (48 + d) 57); try lia. Qed.

Lemma digits_are_digits n z : 0 <= z -> Forall (fun c => is_digit c = true) (digits n z []).
Proof.
  revert z; induction n as [|n IH]; intros z Hz; [constructor|]. rewrite digits_step.
  pose proof (Z.mod_pos_bound z 10 ltac:(lia)). destruct (z <? 10); repeat constructor; try by apply is_digit_of.
  apply Forall_app; split; [apply IH, Z.div_pos; lia|]. repeat constructor. by apply is_digit_of.
Qed.

Lemma strtol_app s c acc :
  Forall (fun c => is_digit c = true) s -> strtol (s ++ [c]) acc = strtol [c] (strtol s acc).
Proof.
  revert acc; induction s as [|d s IH]; intros acc Hs; [done|]. apply Forall_cons in Hs as [Hd Hs].
  cbn [strtol app]. rewrite Hd. by apply IH.
Qed.

Lemma strtol_digits n z : 0 <= z < 10 ^ Z.of_nat n -> z < 2 ^ 63 -> strtol (digits n z []) 0 = z.
Proof.
  revert z; induction n as [|n IH]; intros z Hz Hb; [simpl in *; lia|]. rewrite digits_step.
  rewrite Nat2Z.inj_succ, Z.pow_succ_r in Hz by lia. pose proof (Z.div_mod z 10 ltac:(lia)) as Hdm.
  pose proof (Z.mod_pos_bound z 10 ltac:(lia)) as Hm. destruct (Z.ltb_spec z 10) as [Hlt|Hge].
  { cbn [strtol]. rewrite is_digit_of, Z.mod_small by lia. lia. }
  rewrite strtol_app by (apply digits_are_digits; lia). rewrite IH.
  - cbn [strtol]. rewrite is_digit_of by lia. lia.
  - split; [apply Z.div_pos; lia|apply Z.div_lt_upper_bound; lia].
  - lia.
Qed.

Lemma int_val_from_int i : - 2 ^ 31 <= i < 2 ^ 31 -> int_val (abac_value_from_int i) = i.
Proof.
  intros Hi. unfold int_val, abac_value_from_int, abac_value_from_data. cbn [av_data].
  rewrite take_app_le, take_ge by (rewrite length_le_encode; lia).
  rewrite le_decode_encode. change (2 ^ (8 * Z.of_nat 4)) with (2 ^ 32). unfold s32. rewrite Z.mod_mod by lia.
  destruct (Z.ltb_spec (i mod 2 ^ 32) (2 ^ 31)) as [H|H].
  - destruct (Z.lt_ge_cases i 0); [|apply Z.mod_small; lia].
    rewrite <- (Z_mod_plus_full i 1), Z.mod_small in H by lia. lia.
  - destruct (Z.lt_ge_cases i 0) as [Hneg|Hpos]; [|rewrite Z.mod_small in H by lia; lia].
    rewrite <- (Z_mod_plus_full i 1), Z.mod_small by lia. lia.
Qed.

(** Reading back the text of a number in a policy gives the number, except
    that a number of ten digits has lost its last one. *)
Lemma number_text i :
  0 <= i < 2 ^ 31 ->
  exists s, abac_value_stringify (abac_value_from_int i) = Some s /\
    atoi s = if i <? 10 ^ 9 then i else i / 10.
Proof.
  intros Hi. assert (Hs : abac_value_stringify (abac_value_from_int i) = Some (take 9 (digits 10 i []))).
  { unfold abac_value_stringify. cbn [av_type abac_value_from_int abac_value_from_data]. cbn [Z.eqb orb].
    change (ABAC_VALUE_NUMBER =? ABAC_VALUE_STRING) with false. change (ABAC_VALUE_NUMBER =? ABAC_VALUE_IDENTIFIER) with false.
    cbn [orb]. rewrite Z.eqb_refl, int_val_from_int by lia. unfold print_int. by destruct (Z.ltb_spec i 0); [lia|]. }
  eexists; split; [exact Hs|]. clear Hs. unfold atoi. destruct (Z.ltb_spec i (10 ^ 9)) as [Hlt|Hge].
  - rewrite take_ge by (apply length_digits_le; simpl; lia).
    rewrite strtol_digits by (simpl; lia). apply s32_small; lia.
  - assert (Hlen : length (digits 9 (i / 10) []) = 9%nat).
    { apply (length_digits 8). change (10 ^ Z.of_nat 8) with (10 ^ 8). change (10 ^ Z.of_nat 9) with (10 ^ 9).
      split; [apply Z.div_le_lower_bound; lia|apply Z.div_lt_upper_bound; lia]. }
    rewrite digits_step. destruct (Z.ltb_spec i 10); [lia|].
    rewrite take_app_le by lia. rewrite take_ge by lia. rewrite strtol_digits.
    + apply s32_small. split; [transitivity 0; [lia|apply Z.div_pos; lia]|apply Z.div_lt_upper_bound; lia].
    + split; [apply Z.div_pos; lia|]. apply Z.div_lt_upper_bound; [lia|]. simpl. lia.
    + apply Z.div_lt_upper_bound; lia.
Qed.

(** ** Well formed values and their serialized form *)
Record value_ok (v : abac_value) : Prop := {
  vo_type : in_range 32 (av_type v);
  vo_own : is_shallow_copy v = false;
  vo_size : 0 <= data_sz v < 2 ^ 32;
  vo_bytes : Forall byte_ok (av_data v);
  vo_data : if av_type v =? ABAC_VALUE_NUMBER
            then data_sz v = 4 /\ exists w, length w = 4%nat /\ av_data v = w ++ replicate 4 0
            else Z.of_nat (length (av_data v)) = data_sz v
}.

Lemma from_str_ok s b : cstr_ok s -> value_ok (abac_value_from_str_ s b).
Proof.
  intros Hs. assert (Hsz : (strnlen s ABAC_VALUE_MAXLEN <= length s)%nat /\ (strnlen s ABAC_VALUE_MAXLEN <= 1024)%nat)
    by (unfold strnlen, ABAC_VALUE_MAXLEN; lia). unfold abac_value_from_str_, abac_value_from_data.
  split; cbn [av_type is_shallow_copy data_sz av_data].
  - destruct b; done.
  - done.
  - lia.
  - apply Forall_app; split; [|by repeat constructor]. apply Forall_take.
    eapply Forall_impl; [exact Hs|]. unfold byte_ok. intros; lia.
  - destruct b; match goal with |- if ?c then _ else _ => change c with false end; cbv iota;
      rewrite length_app, length_take; cbn [length]; lia.
Qed.

Lemma from_int_ok i : value_ok (abac_value_from_int i).
Proof.
  split; [by vm_compute|done|by vm_compute| |].
  - apply Forall_app; split; [apply le_encode_bytes|by repeat constructor].
  - split; [done|]. eexists; split; [apply length_le_encode|done].
Qed.

Definition value_bytes (v : abac_value) : bytes :=
  le_encode 4 (av_type v) ++ le_encode 8 (data_sz v) ++ take (Z.to_nat (data_sz v)) (av_data v).

Lemma value_data_length v : value_ok v -> (Z.to_nat (data_sz v) <= length (av_data v))%nat.
Proof.
  intros [_ _ Hsz _ Hd]. destruct (av_type v =? ABAC_VALUE_NUMBER); [|lia].
  destruct Hd as [-> (w & Hw & ->)]. rewrite length_app, Hw. simpl. lia.
Qed.

Lemma value_bufsize v : value_ok v -> abac_value_bufsize v = 12 + data_sz v.
Proof. intros [_ _ Hsz _ _]. unfold abac_value_bufsize, VALUE_HDR_SIZE. word_solve. Qed.

Lemma length_value_bytes v : value_ok v -> Z.of_nat (length (value_bytes v)) = abac_value_bufsize v.
Proof.
  intros Hv. rewrite value_bufsize by done. unfold value_bytes. rewrite !length_app, !length_le_encode, length_take.
  pose proof (value_data_length v Hv). destruct Hv as [_ _ Hsz _ _]. lia.
Qed.

Lemma value_to_buf v buflen :
  value_ok v -> abac_value_bufsize v <= buflen -> abac_value_to_buf v buflen = Some (Some (value_bytes v)).
Proof.
  intros Hv Hb. unfold abac_value_to_buf. destruct (Z.ltb_spec buflen (abac_value_bufsize v)); [lia|].
  unfold dec_bytes. pose proof (value_data_length v Hv). by destruct (Nat.leb_spec (Z.to_nat (data_sz v)) (length (av_data v))); [|lia].
Qed.

Lemma value_from_buf v rest : value_ok v -> abac_value_from_buf (value_bytes v ++ rest) = Some (Some (v, rest)).
Proof.
  intros Hv. pose proof (length_value_bytes v Hv) as Hlen. pose proof (value_data_length v Hv) as Hdl.
  assert (Hdrop : drop (Z.to_nat (abac_value_bufsize v)) (value_bytes v ++ rest) = rest)
    by (rewrite <- Hlen, Nat2Z.id; apply drop_app_length).
  unfold abac_value_from_buf. unfold abac_value_bufsize in *.
  set (l := Z.of_nat (length (value_bytes v ++ rest))). assert (Hl : l = 12 + data_sz v + Z.of_nat (length rest)).
  { unfold l. rewrite length_app, Nat2Z.inj_add, Hlen. unfold VALUE_HDR_SIZE. destruct Hv as [_ _ Hsz _ _]. word_solve. }
  assert (Hdec : (type <~ dec_uint 4; size <~ dec_uint 8; dec_ret (type, size)) (value_bytes v ++ rest) =
    Some ((av_type v, data_sz v), take (Z.to_nat (data_sz v)) (av_data v) ++ rest)).
  { unfold value_bytes. rewrite <- !app_assoc. destruct Hv as [Hty _ Hsz _ _]. dec_step.
    unfold dec_bind. by rewrite dec_uint_app by (unfold in_range; simpl; lia). }
  rewrite Hdec. cbn [mbind option_bind]. destruct Hv as [_ Hown Hsz _ Hd].
  destruct (Z.ltb_spec l (VALUE_HDR_SIZE +64 data_sz v)) as [Hlt|_].
  { unfold VALUE_HDR_SIZE in Hlt. rewrite wrap_small in Hlt by (unfold in_range; lia). lia. }
  rewrite dec_bytes_app by (rewrite length_take; lia). cbn [mbind option_bind]. rewrite Hdrop.
  destruct v as [ty sh sz dat]; cbn [av_type is_shallow_copy data_sz av_data] in *. subst sh.
  destruct (ty =? ABAC_VALUE_NUMBER).
  - destruct Hd as [-> (w & Hw & ->)]. change (8 <? 4) with false. cbn [mbind option_bind].
    change (Z.to_nat 4) with 4%nat. by rewrite take_app_le, take_ge by lia.
  - cbn [mbind option_bind]. rewrite take_ge by lia. done.
Qed.
