(* ===== verification/AbacRule.v ===== *)
(** * Policy atoms and rules

    Models [abac/atom.c] and [abac/rule.c] up to the calls of the Datalog
    engine: construction, serialization, loading and printing.  The lists of
    the source are lists; a read of a C string that no NUL ends inside its
    array is [None]. *)
From stdpp Require Import strings.
From S2P Require Import Prelude Types AttributeTable AbacValue.

(** ** abac_types.h *)
Definition ATTRIBUTE_NAME_MAX : nat := 32.
Definition SYSTEM_FUNC_MAX_LENGTH : nat := ATTRIBUTE_NAME_MAX.

Definition ATOM_TYPE_NONE : Z := 0.
Definition ATOM_TYPE_USER : Z := 1.
Definition ATOM_TYPE_OBJECT : Z := 2.

Definition PREDICATE_ATTR : Z := 1.
Definition PREDICATE_FUNC : Z := 2.
Definition PREDICATE_BOOL : Z := 3.

Record policy_atom := mk_atom {
  atom_type : Z;
  pred_type : Z;
  predicate : bytes;            (* char[SYSTEM_FUNC_MAX_LENGTH] *)
  arity : Z;
  args_bufsize : Z;
  args_list : list abac_value
}.

Record policy_rule := mk_rule {
  perm_type : Z;
  atom_count : Z;
  atom_types : Z;
  rule_uuid : uuid;
  atoms : list policy_atom
}.

#[export] Instance policy_atom_eq_dec : EqDecision policy_atom.
Proof. solve_decision. Defined.

#[export] Instance policy_rule_eq_dec : EqDecision policy_rule.
Proof. solve_decision. Defined.

Definition atom_type_from_char (c : Z) : Z :=
  if c =? 117 then ATOM_TYPE_USER else if c =? 111 then ATOM_TYPE_OBJECT else ATOM_TYPE_NONE.

(** ** atom.c *)
Definition policy_atom_new : policy_atom := mk_atom 0 0 (replicate SYSTEM_FUNC_MAX_LENGTH 0) 0 0 [].

(** [strncpy] into a cleared array: cut at 32 characters, no NUL then. *)
Definition strncpy_field (n : nat) (s : bytes) : bytes := take n s ++ replicate (n - length s) 0.

Definition pred_type_of_char (c : Z) : Z :=
  if (c =? 62) || (c =? 60) || (c =? 61) || (c =? 33) then PREDICATE_BOOL
  else if c =? 64 then PREDICATE_FUNC else PREDICATE_ATTR.

Definition policy_atom_set_predicate (a : policy_atom) (s : bytes) : policy_atom :=
  let p := strncpy_field SYSTEM_FUNC_MAX_LENGTH s in
  mk_atom (atom_type a) (pred_type_of_char (default 0 (head p))) p (arity a) (args_bufsize a) (args_list a).

Definition policy_atom_new_from_predicate (s : bytes) : policy_atom := policy_atom_set_predicate policy_atom_new s.

Definition set_atom_type (a : policy_atom) (ty : Z) : policy_atom :=
  mk_atom ty (pred_type a) (predicate a) (arity a) (args_bufsize a) (args_list a).

Definition policy_atom_push_arg (a : policy_atom) (v : abac_value) : policy_atom :=
  mk_atom (atom_type a) (pred_type a) (predicate a) (arity a +64 1) (args_bufsize a +64 abac_value_bufsize v)
    (args_list a ++ [v]).

Definition policy_atom_get_arg (a : policy_atom) (i : nat) : option abac_value := args_list a !! i.

(** [sizeof(struct __policy_atom_buf)] = 4 + 4 + 32 + 2 + 2. *)
Definition ATOM_HDR_SIZE : Z := 44.
Definition policy_atom_buf_size (a : policy_atom) : Z := ATOM_HDR_SIZE +64 args_bufsize a.

(** [__atom_argument_to_buffer] over the list of arguments. *)
Fixpoint args_to_buf (l : list abac_value) (output_len : Z) : option (option bytes) :=
  match l with
  | [] => Some (Some [])
  | v :: l' =>
      if output_len <? abac_value_bufsize v then Some None
      else
        b <?- abac_value_to_buf v output_len;
        b' <?- args_to_buf l' (output_len -64 abac_value_bufsize v);
        nret (b ++ b')
  end.

Definition policy_atom_to_buf (a : policy_atom) (buflen : Z) : option (option bytes) :=
  if buflen <? policy_atom_buf_size a then Some None
  else
    args <?- args_to_buf (args_list a) (buflen -64 ATOM_HDR_SIZE);
    let buf := le_encode 4 (atom_type a) ++ le_encode 4 (pred_type a) ++ predicate a
               ++ le_encode 2 (arity a) ++ le_encode 2 (args_bufsize a) ++ args in
    if Z.of_nat (length buf) =? policy_atom_buf_size a then nret buf else null.

Definition parse_atom_header : decoder (Z * Z * bytes * Z * Z) :=
  aty <~ dec_uint 4; pty <~ dec_uint 4; p <~ dec_bytes SYSTEM_FUNC_MAX_LENGTH;
  n <~ dec_uint 2; sz <~ dec_uint 2; dec_ret (aty, pty, p, n, sz).

(** [__atom_argument_from_buffer], [n] times. *)
Fixpoint args_from_buf (n : nat) (buf : bytes) : option (option (list abac_value * bytes)) :=
  match n with
  | O => Some (Some ([], buf))
  | S n =>
      '(v, buf) <?- abac_value_from_buf buf;
      '(l, buf) <?- args_from_buf n buf;
      nret (v :: l, buf)
  end.

Definition policy_atom_from_buf (buf : bytes) : option (option (policy_atom * bytes)) :=
  '((aty, pty, p, n, sz), src) ← parse_atom_header buf;
  let total_size := ATOM_HDR_SIZE + sz in
  if Z.of_nat (length buf) <? total_size then Some None
  else
    '(args, rest) <?- args_from_buf (Z.to_nat n) src;
    if Z.of_nat (length rest) =? Z.of_nat (length buf) - total_size
    then nret (mk_atom aty pty p n sz args, rest) else null.

(** *** Printing: the string builder's contents, or NULL *)
Definition stringify_atom_argument (v : abac_value) : option bytes :=
  s ← abac_value_stringify v;
  let q := if av_type v =? ABAC_VALUE_STRING then [34] else [] in
  Some (q ++ s ++ q).

(** The operator applied to two arguments; a missing one is a NULL read. *)
Definition stringify_boolean_atom (a : policy_atom) : option (option bytes) :=
  match boolean_operator_to_datalog_str (cstr (predicate a)) with
  | None => Some None
  | Some op =>
      v1 ← policy_atom_get_arg a 0; s1 ← stringify_atom_argument v1;
      v2 ← policy_atom_get_arg a 1; s2 ← stringify_atom_argument v2;
      Some (Some (op ++ str "(" ++ s1 ++ str ", " ++ s2 ++ str ")"))
  end.

Definition stringify_regular_atom (a : policy_atom) : option (option bytes) :=
  p ← c_string (predicate a);
  let ty := if atom_type a =? ATOM_TYPE_USER then Some (str "u")
            else if atom_type a =? ATOM_TYPE_OBJECT then Some (str "o") else None in
  match ty with
  | None => Some None
  | Some t =>
      if arity a =? 0 then Some (Some (p ++ str "(" ++ t ++ str ")"))
      else
        match policy_atom_get_arg a 0 with
        | None => Some None
        | Some v => s ← stringify_atom_argument v; Some (Some (p ++ str "(" ++ t ++ str ", " ++ s ++ str ")"))
        end
  end.

Definition policy_atom_to_str (a : policy_atom) : option (option bytes) :=
  if (pred_type a =? PREDICATE_ATTR) || (pred_type a =? PREDICATE_FUNC) then stringify_regular_atom a
  else if pred_type a =? PREDICATE_BOOL then stringify_boolean_atom a
  else Some None.

(** ** rule.c *)
(** [nexus_uuid_gen] picks the UUID. *)
Definition policy_rule_new (perm : Z) (u : uuid) : policy_rule := mk_rule perm 0 0 u [].

Definition policy_rule_new_from_perm_str (s : bytes) (u : uuid) : option policy_rule :=
  let perm := perm_type_from_string s in
  if perm =? PERM_UNK then None else Some (policy_rule_new perm u).

Definition policy_rule_push_atom (r : policy_rule) (a : policy_atom) : policy_rule :=
  mk_rule (perm_type r) (atom_count r +64 1) (Z.lor (atom_types r) (atom_type a)) (rule_uuid r) (atoms r ++ [a]).

(** [sizeof(struct __policy_rule_hdr)] = 4 + 2 + 16. *)
Definition RULE_HDR_SIZE : Z := 22.
Definition policy_rule_buf_size (r : policy_rule) : Z :=
  foldl (fun n a => n +64 policy_atom_buf_size a) RULE_HDR_SIZE (atoms r).

Fixpoint atoms_to_buf (l : list policy_atom) (buflen : Z) : option (option bytes) :=
  match l with
  | [] => Some (Some [])
  | a :: l' =>
      b <?- policy_atom_to_buf a buflen;
      b' <?- atoms_to_buf l' (buflen -64 policy_atom_buf_size a);
      nret (b ++ b')
  end.

Definition policy_rule_to_buf (r : policy_rule) (buflen : Z) : option (option bytes) :=
  if buflen <? policy_rule_buf_size r then Some None
  else
    b <?- atoms_to_buf (atoms r) (buflen -64 RULE_HDR_SIZE);
    nret (le_encode 4 (perm_type r) ++ le_encode 2 (atom_count r) ++ rule_uuid r ++ b).

Definition parse_rule_header : decoder (Z * Z * uuid) :=
  p <~ dec_uint 4; n <~ dec_uint 2; u <~ dec_bytes NEXUS_UUID_SIZE; dec_ret (s32 p, n, u).

Fixpoint atoms_from_buf (n : nat) (r : policy_rule) (buf : bytes) : option (option (policy_rule * bytes)) :=
  match n with
  | O => Some (Some (r, buf))
  | S n =>
      '(a, buf) <?- policy_atom_from_buf buf;
      atoms_from_buf n (policy_rule_push_atom r a) buf
  end.

Definition policy_rule_from_buf (buf : bytes) : option (option (policy_rule * bytes)) :=
  if Z.of_nat (length buf) <? RULE_HDR_SIZE then Some None
  else
    '((p, n, u), src) ← parse_rule_header buf;
    '(r, rest) <?- atoms_from_buf (Z.to_nat n) (mk_rule p 0 0 u []) src;
    if atom_count r =? n then nret (r, rest) else null.

(** [__policy_rule_datalog_string]; an unknown permission is a NULL read. *)
Fixpoint join_atoms (first : bool) (l : list policy_atom) : option (option bytes) :=
  match l with
  | [] => Some (Some [])
  | a :: l' =>
      s <?- policy_atom_to_str a;
      t <?- join_atoms false l';
      nret ((if first then [] else str ", ") ++ s ++ t)
  end.

Definition policy_rule_datalog_string (r : policy_rule) : option (option bytes) :=
  if atom_count r <? 1 then Some None
  else
    p ← perm_type_to_string (perm_type r);
    s <?- join_atoms true (atoms r);
    nret (p ++ str "(u, o) :- " ++ s).

(** ** Well formed atoms and rules *)
Definition args_size (l : list abac_value) : Z := foldr (fun v n => abac_value_bufsize v + n) 0 l.

Record atom_ok (a : policy_atom) : Prop := {
  ao_type : in_range 32 (atom_type a);
  ao_pred : in_range 32 (pred_type a);
  ao_name : length (predicate a) = SYSTEM_FUNC_MAX_LENGTH;
  ao_arity : arity a = Z.of_nat (length (args_list a));
  ao_size : args_bufsize a = args_size (args_list a);
  ao_small : args_bufsize a < 2 ^ 16;
  ao_args : Forall value_ok (args_list a)
}.

Definition types_of (l : list policy_atom) : Z := foldl (fun z a => Z.lor z (atom_type a)) 0 l.

(** A rule whose counters agree with its atoms; [rule_ok] when the count fits
    the 16 bits it has in the serialized form, too. *)
Record rule_shape (r : policy_rule) : Prop := {
  rs_perm : - 2 ^ 31 <= perm_type r < 2 ^ 31;
  rs_count : atom_count r = Z.of_nat (length (atoms r));
  rs_types : atom_types r = types_of (atoms r);
  rs_uuid : uuid_ok (rule_uuid r);
  rs_atoms : Forall atom_ok (atoms r)
}.

Record rule_ok (r : policy_rule) : Prop := {
  ro_perm : - 2 ^ 31 <= perm_type r < 2 ^ 31;
  ro_count : atom_count r = Z.of_nat (length (atoms r));
  ro_small : atom_count r < 2 ^ 16;
  ro_types : atom_types r = types_of (atoms r);
  ro_uuid : uuid_ok (rule_uuid r);
  ro_atoms : Forall atom_ok (atoms r)
}.

Lemma args_size_app l l' : args_size (l ++ l') = args_size l + args_size l'.
Proof. induction l as [|v l IH]; simpl; [done|]. rewrite IH. lia. Qed.

Lemma args_size_nonneg l : Forall value_ok l -> 12 * Z.of_nat (length l) <= args_size l.
Proof.
  induction 1 as [|v l Hv _ IH]; simpl; [lia|]. rewrite value_bufsize by done. destruct Hv as [_ _ ? _ _]. lia.
Qed.

Lemma length_strncpy_field n s : length (strncpy_field n s) = n.
Proof. unfold strncpy_field. rewrite length_app, length_take, length_replicate. lia. Qed.

Lemma new_from_predicate_ok s : atom_ok (policy_atom_new_from_predicate s).
Proof.
  split; try done; cbn [policy_atom_new_from_predicate policy_atom_set_predicate pred_type predicate].
  - unfold pred_type_of_char. by repeat case_match.
  - apply length_strncpy_field.
Qed.

Lemma set_atom_type_ok a ty : atom_ok a -> in_range 32 ty -> atom_ok (set_atom_type a ty).
Proof. by intros [] ?; split. Qed.

Lemma push_arg_ok a v :
  atom_ok a -> value_ok v -> args_bufsize a + abac_value_bufsize v < 2 ^ 16 -> atom_ok (policy_atom_push_arg a v).
Proof.
  intros [Hty Hpt Hn Har Hsz Hsm Hargs] Hv Hb. pose proof (args_size_nonneg _ Hargs) as Hnn.
  rewrite value_bufsize in Hb by done. pose proof (vo_size _ Hv).
  split; cbn [policy_atom_push_arg atom_type pred_type predicate arity args_bufsize args_list]; try done;
    rewrite ?value_bufsize by done.
  - rewrite length_app, Har. simpl. word_solve.
  - rewrite args_size_app, <- Hsz. simpl. rewrite value_bufsize by done. word_solve.
  - word_solve.
  - apply Forall_app; split; [done|]. by apply Forall_singleton.
Qed.

Lemma rule_ok_shape r : rule_ok r <-> rule_shape r /\ atom_count r < 2 ^ 16.
Proof. split; [intros []; by split|intros [[] ?]; by split]. Qed.

Lemma push_atom_shape r a :
  rule_shape r -> atom_ok a -> atom_count r + 1 < 2 ^ 64 -> rule_shape (policy_rule_push_atom r a).
Proof.
  intros [Hp Hc Ht Hu Ha] Hok Hb.
  split; cbn [policy_rule_push_atom perm_type atom_count atom_types rule_uuid atoms]; try done.
  - rewrite length_app. simpl. word_solve.
  - unfold types_of. by rewrite foldl_app, Ht.
  - apply Forall_app; split; [done|]. by apply Forall_singleton.
Qed.

Lemma push_atom_ok r a :
  rule_ok r -> atom_ok a -> atom_count r + 1 < 2 ^ 16 -> rule_ok (policy_rule_push_atom r a).
Proof.
  intros [Hs Hc]%rule_ok_shape Hok Hb. apply rule_ok_shape. pose proof (rs_count _ Hs).
  split; [apply push_atom_shape; [done|done|lia]|]. cbn [policy_rule_push_atom atom_count]. word_solve.
Qed.

(** ** Round trips *)
Definition atom_bytes (a : policy_atom) : bytes :=
  le_encode 4 (atom_type a) ++ le_encode 4 (pred_type a) ++ predicate a
  ++ le_encode 2 (arity a) ++ le_encode 2 (args_bufsize a) ++ concat (value_bytes <$> args_list a).

Definition rule_bytes (r : policy_rule) : bytes :=
  le_encode 4 (perm_type r) ++ le_encode 2 (atom_count r) ++ rule_uuid r ++ concat (atom_bytes <$> atoms r).

Lemma args_to_buf_ok l len :
  Forall value_ok l -> args_size l <= len < 2 ^ 64 -> args_to_buf l len = nret (concat (value_bytes <$> l)).
Proof.
  intros Hl. revert len; induction Hl as [|v l Hv Hl IH]; intros len Hlen; [done|]. simpl in Hlen.
  pose proof (args_size_nonneg _ Hl). pose proof (vo_size _ Hv). cbn [args_to_buf fmap list_fmap concat].
  rewrite value_bufsize in Hlen by done. destruct (Z.ltb_spec len (abac_value_bufsize v)) as [Hb|Hb].
  { rewrite value_bufsize in Hb by done. lia. }
  rewrite value_to_buf by done. cbn [nbind]. rewrite value_bufsize by done. by rewrite IH by word_solve.
Qed.

Lemma args_from_buf_ok l rest :
  Forall value_ok l -> args_from_buf (length l) (concat (value_bytes <$> l) ++ rest) = nret (l, rest).
Proof.
  induction 1 as [|v l Hv _ IH]; [done|]. cbn [length args_from_buf fmap list_fmap concat].
  rewrite <- app_assoc, value_from_buf by done. cbn [nbind]. by rewrite IH.
Qed.

Lemma length_args_bytes l : Forall value_ok l -> Z.of_nat (length (concat (value_bytes <$> l))) = args_size l.
Proof.
  induction 1 as [|v l Hv _ IH]; [done|]. cbn [fmap list_fmap concat]. rewrite length_app, Nat2Z.inj_add, IH.
  by rewrite length_value_bytes.
Qed.

Lemma atom_buf_size a : atom_ok a -> policy_atom_buf_size a = 44 + args_bufsize a /\ 0 <= args_bufsize a.
Proof.
  intros [_ _ _ _ Hsz Hsm Hargs]. pose proof (args_size_nonneg _ Hargs).
  unfold policy_atom_buf_size, ATOM_HDR_SIZE. split; [word_solve|lia].
Qed.

Lemma length_atom_bytes a : atom_ok a -> Z.of_nat (length (atom_bytes a)) = policy_atom_buf_size a.
Proof.
  intros Ha. rewrite (proj1 (atom_buf_size a Ha)). destruct Ha as [_ _ Hn _ Hsz _ Hargs]. unfold atom_bytes.
  rewrite !length_app, !length_le_encode, Hn, Hsz, <- length_args_bytes by done. unfold SYSTEM_FUNC_MAX_LENGTH, ATTRIBUTE_NAME_MAX. lia.
Qed.

Lemma atom_to_buf_ok a len :
  atom_ok a -> policy_atom_buf_size a <= len < 2 ^ 64 -> policy_atom_to_buf a len = nret (atom_bytes a).
Proof.
  intros Ha Hlen. unfold policy_atom_to_buf. destruct (Z.ltb_spec len (policy_atom_buf_size a)); [lia|].
  destruct (atom_buf_size a Ha) as [Hbs Hnn]. rewrite args_to_buf_ok; cbn [nbind nret].
  - fold (atom_bytes a). by rewrite length_atom_bytes, Z.eqb_refl.
  - apply Ha.
  - rewrite <- (ao_size _ Ha). unfold ATOM_HDR_SIZE. word_solve.
Qed.

Lemma atom_from_buf_ok a rest : atom_ok a -> policy_atom_from_buf (atom_bytes a ++ rest) = nret (a, rest).
Proof.
  intros Ha. pose proof (length_atom_bytes a Ha) as Hlen. destruct (atom_buf_size a Ha) as [Hbs Hnn].
  pose proof (args_size_nonneg _ (ao_args _ Ha)) as Hsz0. unfold policy_atom_from_buf.
  assert (Hdec : parse_atom_header (atom_bytes a ++ rest) =
    Some ((atom_type a, pred_type a, predicate a, arity a, args_bufsize a), concat (value_bytes <$> args_list a) ++ rest)).
  { destruct Ha as [Hty Hpt Hn Har Hsz Hsm Hargs]. unfold parse_atom_header, atom_bytes. rewrite <- !app_assoc.
    rewrite <- Hsz in Hsz0. do 2 dec_step. unfold dec_bind at 1. rewrite dec_bytes_app by done. do 2 dec_step. done. }
  rewrite Hdec. cbn [mbind option_bind]. rewrite length_app, Nat2Z.inj_add, Hlen, Hbs. unfold ATOM_HDR_SIZE.
  destruct (Z.ltb_spec (44 + args_bufsize a + Z.of_nat (length rest)) (44 + args_bufsize a)); [lia|].
  rewrite (ao_arity _ Ha), Nat2Z.id, args_from_buf_ok by apply Ha. cbn [nbind nret].
  destruct (Z.eqb_spec (Z.of_nat (length rest)) (44 + args_bufsize a + Z.of_nat (length rest) - (44 + args_bufsize a))); [|lia].
  pose proof (ao_arity _ Ha) as Har. by destruct a; simpl in *; subst.
Qed.

Lemma atoms_from_buf_ok l r rest :
  Forall atom_ok l -> 0 <= atom_count r -> atom_count r + Z.of_nat (length l) < 2 ^ 16 ->
  atoms_from_buf (length l) r (concat (atom_bytes <$> l) ++ rest) =
  nret (mk_rule (perm_type r) (atom_count r + Z.of_nat (length l))
          (foldl (fun z a => Z.lor z (atom_type a)) (atom_types r) l) (rule_uuid r) (atoms r ++ l), rest).
Proof.
  intros Hl. revert r; induction Hl as [|a l Ha _ IH]; intros r H0 Hs.
  { cbn. rewrite Z.add_0_r, app_nil_r. by destruct r. }
  cbn [length atoms_from_buf fmap list_fmap concat]. rewrite <- app_assoc, atom_from_buf_ok by done. cbn [nbind nret].
  simpl in Hs. assert (Hc : atom_count (policy_rule_push_atom r a) = atom_count r + 1) by (simpl; word_solve).
  rewrite IH by (rewrite Hc; lia). rewrite Hc. cbn [policy_rule_push_atom perm_type atom_types rule_uuid atoms foldl].
  rewrite <- app_assoc. replace (atom_count r + 1 + Z.of_nat (length l)) with (atom_count r + Z.of_nat (S (length l))) by lia. done.
Qed.

Lemma rule_buf_size r :
  rule_ok r -> policy_rule_buf_size r = Z.of_nat (length (rule_bytes r)) /\ policy_rule_buf_size r < 2 ^ 33.
Proof.
  intros [_ Hc Hs _ [Hul _] Ha]. unfold policy_rule_buf_size, rule_bytes.
  rewrite !length_app, !length_le_encode, Hul. unfold NEXUS_UUID_SIZE.
  assert (Hgen : forall l n, Forall atom_ok l -> 0 <= n -> n + 2 ^ 17 * Z.of_nat (length l) < 2 ^ 34 ->
    foldl (fun n a => n +64 policy_atom_buf_size a) n l = n + Z.of_nat (length (concat (atom_bytes <$> l))) /\
    Z.of_nat (length (concat (atom_bytes <$> l))) <= (2 ^ 16 + 44) * Z.of_nat (length l)).
  { clear. intros l n Hl; revert n; induction Hl as [|a l Ha _ IH]; intros n Hn Hb;
      cbn [foldl fmap list_fmap concat length] in *; [lia|].
    rewrite length_app, Nat2Z.inj_add, length_atom_bytes by done. destruct (atom_buf_size a Ha) as [Hbs Hnn].
    pose proof (ao_small _ Ha). rewrite Hbs in *. rewrite wrap_small by (unfold in_range; lia).
    destruct (IH (n + (44 + args_bufsize a))) as [-> ?]; [lia|lia|]. lia. }
  destruct (Hgen (atoms r) RULE_HDR_SIZE) as [-> Hlen]; [done|unfold RULE_HDR_SIZE; lia|unfold RULE_HDR_SIZE; lia|].
  unfold RULE_HDR_SIZE. lia.
Qed.

Lemma atoms_to_buf_ok l len :
  Forall atom_ok l -> Z.of_nat (length (concat (atom_bytes <$> l))) <= len < 2 ^ 64 ->
  atoms_to_buf l len = nret (concat (atom_bytes <$> l)).
Proof.
  intros Hl; revert len; induction Hl as [|a l Ha _ IH]; intros len Hlen; [done|].
  cbn [atoms_to_buf fmap list_fmap concat] in *. rewrite length_app, Nat2Z.inj_add, length_atom_bytes in Hlen by done.
  destruct (atom_buf_size a Ha) as [Hbs Hnn]. rewrite atom_to_buf_ok by (done || lia). cbn [nbind nret].
  by rewrite IH by word_solve.
Qed.

Lemma rule_to_buf_ok r len :
  rule_ok r -> policy_rule_buf_size r <= len < 2 ^ 64 -> policy_rule_to_buf r len = nret (rule_bytes r).
Proof.
  intros Hr Hlen. unfold policy_rule_to_buf. destruct (Z.ltb_spec len (policy_rule_buf_size r)); [lia|].
  rewrite (proj1 (rule_buf_size r Hr)) in Hlen. unfold rule_bytes in Hlen.
  rewrite !length_app, !length_le_encode, (proj1 (ro_uuid _ Hr)) in Hlen. unfold NEXUS_UUID_SIZE in Hlen.
  rewrite atoms_to_buf_ok; [done|apply Hr|]. unfold RULE_HDR_SIZE. word_solve.
Qed.

Lemma s32_wrap p : - 2 ^ 31 <= p < 2 ^ 31 -> s32 (wrap (8 * Z.of_nat 4) p) = p.
Proof.
  intros Hp. rewrite <- (int_val_from_int p Hp) at 2. unfold int_val, abac_value_from_int, abac_value_from_data. cbn [av_data].
  rewrite take_app_le, take_ge by (rewrite length_le_encode; lia). by rewrite le_decode_encode.
Qed.

Lemma rule_from_buf_ok r rest : rule_ok r -> policy_rule_from_buf (rule_bytes r ++ rest) = nret (r, rest).
Proof.
  intros [Hp Hc Hs Ht [Hul Hub] Ha]. unfold policy_rule_from_buf.
  destruct (Z.ltb_spec (Z.of_nat (length (rule_bytes r ++ rest))) RULE_HDR_SIZE) as [Hlt|_].
  { unfold rule_bytes, RULE_HDR_SIZE, NEXUS_UUID_SIZE in *. rewrite !length_app, !length_le_encode, Hul in Hlt. lia. }
  unfold parse_rule_header, rule_bytes. rewrite <- !app_assoc. unfold dec_bind at 1. rewrite dec_uint_trunc. dec_step.
  unfold dec_bind at 1. rewrite dec_bytes_app by done. cbn [mbind option_bind dec_ret].
  rewrite s32_wrap, Hc, Nat2Z.id by done. rewrite atoms_from_buf_ok by (done || (simpl; lia)).
  cbn [nbind nret perm_type atom_count atom_types rule_uuid atoms app].
  rewrite Z.add_0_l, Z.eqb_refl. destruct r; simpl in *; subst. done.
Qed.
