(* ===== verification/AttributeSpace.v ===== *)
(** * The attribute space of a volume

    Models [abac/attribute_space.c] and the attribute type names of
    [abac/runtime.c]: the declared attributes, in a list by order of
    declaration and in the hash map of [Hashmap.v] by UUID.  The contract is a
    list of schemas with distinct names and UUIDs; every operation and both
    lookups refine it, and the serialized form is read back. *)
From stdpp Require Import strings.
From S2P Require Import Prelude Hashmap Types AttributeTable Gcm Crypto BufferLayer CryptoBuf AbacValue AbacRule.

Definition UNKNOWN_ATTRIBUTE_TYPE : Z := 0.
Definition USER_ATTRIBUTE_TYPE : Z := 1.
Definition OBJECT_ATTRIBUTE_TYPE : Z := 2.

Record attribute_schema := mk_schema { as_type : Z; as_name : bytes; as_uuid : uuid }.

(** The list nodes are inside the schemas: the list carries their addresses.
    [sp_metadata] is the metadata's [is_dirty], [None] when NULL. *)
Record attribute_space := mk_space {
  sp_my_uuid : uuid;
  sp_root_uuid : uuid;
  sp_count : Z;
  sp_last_size : Z;
  sp_mac : mac;
  sp_map : hashmap uuid;
  sp_list : list (Z * attribute_schema);
  sp_next : Z;
  sp_metadata : option bool
}.

Definition with_schemas (sp : attribute_space) (m : hashmap uuid) (l : list (Z * attribute_schema)) (count next : Z)
    : attribute_space :=
  mk_space (sp_my_uuid sp) (sp_root_uuid sp) count (sp_last_size sp) (sp_mac sp) m l next (sp_metadata sp).

Definition with_sp_meta (sp : attribute_space) (md : option bool) : attribute_space :=
  mk_space (sp_my_uuid sp) (sp_root_uuid sp) (sp_count sp) (sp_last_size sp) (sp_mac sp) (sp_map sp) (sp_list sp)
    (sp_next sp) md.

Definition with_sp_saved (sp : attribute_space) (size : Z) (m : mac) : attribute_space :=
  mk_space (sp_my_uuid sp) (sp_root_uuid sp) (sp_count sp) size m (sp_map sp) (sp_list sp) (sp_next sp) (sp_metadata sp).

(** ** Lookups *)
(** Names are compared over [strnlen] of both, at most 32 characters. *)
Definition schema_name (s : attribute_schema) : bytes := cstr (as_name s).

Definition name_matches (name : bytes) (s : attribute_schema) : bool :=
  let len := strnlen name ATTRIBUTE_NAME_MAX in
  (len =? strnlen (schema_name s) ATTRIBUTE_NAME_MAX)%nat && bool_decide (take len name = take len (as_name s)).

Definition find_attribute_schema_by_name (sp : attribute_space) (name : bytes) : option (Z * attribute_schema) :=
  List.find (fun p => name_matches name p.2) (sp_list sp).

(** The schema at an address; [None] when it was freed. *)
Definition schema_at (l : list (Z * attribute_schema)) (a : Z) : option attribute_schema :=
  snd <$> List.find (fun p => p.1 =? a) l.

Definition find_attribute_schema_by_uuid (sp : attribute_space) (u : uuid) : option (option attribute_schema) :=
  match hashmap_get nexus_uuid_compare (sp_map sp) (attr_key u STACK_ADDR) with
  | None => null
  | Some e => Some <$> schema_at (sp_list sp) (he_addr e)
  end.

Definition attribute_space_find_name (sp : attribute_space) (name : bytes) : option attribute_schema :=
  snd <$> find_attribute_schema_by_name sp name.
Definition attribute_space_find_uuid (sp : attribute_space) (u : uuid) : option (option attribute_schema) :=
  find_attribute_schema_by_uuid sp u.

(** ** Updates *)
Definition put_attribute (sp : attribute_space) (name : bytes) (u : uuid) (type : Z) : attribute_space :=
  let a := sp_next sp in
  let s := mk_schema type (strncpy_field ATTRIBUTE_NAME_MAX name) u in
  with_schemas sp (hashmap_add (sp_map sp) (attr_key u a)) (sp_list sp ++ [(a, s)]) (sp_count sp +64 1) (a + 1).

Definition del_attribute (sp : attribute_space) (a : Z) (s : attribute_schema) : attribute_space :=
  with_schemas sp (fst (hashmap_remove_entry (sp_map sp) (attr_key (as_uuid s) a)))
    (filter (fun p => p.1 <> a) (sp_list sp)) (sp_count sp -64 1) (sp_next sp).

Definition attribute_space_set_dirty (sp : attribute_space) : attribute_space :=
  with_sp_meta sp (const true <$> sp_metadata sp).

Definition isalpha (c : Z) : bool := ((97 <=? c) && (c <=? 122)) || ((65 <=? c) && (c <=? 90)).

(** [u] is the UUID [nexus_uuid_gen] draws. *)
Definition attribute_space_add (sp : attribute_space) (name : bytes) (type : Z) (u : uuid) : attribute_space * Z :=
  match find_attribute_schema_by_name sp name with
  | Some _ => (sp, -1)
  | None =>
      if negb (isalpha (default 0 (head name))) then (sp, -1)
      else if negb (perm_type_from_string name =? PERM_UNK) then (sp, -1)
      else (attribute_space_set_dirty (put_attribute sp name u type), 0)
  end.

Definition attribute_space_del (sp : attribute_space) (name : bytes) : attribute_space * Z :=
  match find_attribute_schema_by_name sp name with
  | None => (sp, -1)
  | Some (a, s) => (attribute_space_set_dirty (del_attribute sp a s), 0)
  end.

Definition attribute_space_create (root_uuid u : uuid) : attribute_space :=
  mk_space u root_uuid 0 0 nexus_mac_zeroize (hashmap_init 0) [] 1 None.

Definition attribute_space_export_macversion (sp : attribute_space) (mv : mac_and_version) : mac_and_version :=
  mk_macversion (mv_version mv) (sp_mac sp).

(** ** Serialized form: 16 + 16 + 4 bytes, then 4 + 32 + 16 per attribute *)
Definition attribute_space_size (sp : attribute_space) : Z := u64 (36 + sp_count sp * 52).

Definition schema_bytes (s : attribute_schema) : bytes := le_encode 4 (as_type s) ++ as_name s ++ as_uuid s.
Definition parse_schema : decoder attribute_schema :=
  ty <~ dec_uint 4; n <~ dec_bytes ATTRIBUTE_NAME_MAX; u <~ dec_bytes NEXUS_UUID_SIZE; dec_ret (mk_schema ty n u).

Definition attribute_space_serialize (sp : attribute_space) : bytes :=
  sp_my_uuid sp ++ sp_root_uuid sp ++ le_encode 4 (sp_count sp) ++ concat (schema_bytes <$> (sp_list sp).*2).

Definition put_schemas (sp : attribute_space) (l : list attribute_schema) : attribute_space :=
  foldl (fun sp s => put_attribute sp (cstr (as_name s)) (as_uuid s) (as_type s)) sp l.

(** A buffer shorter than the header is reported and then read all the same. *)
Definition attribute_space_from_buffer : decoder attribute_space :=
  my <~ dec_bytes NEXUS_UUID_SIZE; root <~ dec_bytes NEXUS_UUID_SIZE; count <~ dec_uint 4;
  l <~ dec_list parse_schema (Z.to_nat count);
  dec_ret (put_schemas (attribute_space_create root my) l).

Section store.
Context `{BlockCipher} `{KeyWrapCipher}.
Variable volumekey : bytes.

Definition attribute_space_from_crypto_buf (c : nexus_crypto_buf) : option (option attribute_space) :=
  '(_, p, m) ← nexus_crypto_buf_get volumekey c;
  match p with
  | None => Some None
  | Some buf =>
      '(sp, _) ← attribute_space_from_buffer buf;
      Some (Some (with_sp_saved sp (Z.of_nat (length buf)) (default (sp_mac sp) m)))
  end.

(** The caller's MAC is not written. *)
Definition attribute_space_store (sp : attribute_space) (version : Z) (b : bcache) (env : put_env)
    : option (attribute_space * bcache * Z * list ocall) :=
  let size := attribute_space_size sp in
  let buf := attribute_space_serialize sp in
  if size <? Z.of_nat (length buf) then None
  else
    let content := buf ++ replicate (Z.to_nat size - length buf) 0 in
    '(c, b, ret, m, tr) ← nexus_crypto_buf_put volumekey
                            (nexus_crypto_buf_new content version (sp_my_uuid sp)) b env;
    let sp := with_sp_saved sp (sp_last_size sp) (default (sp_mac sp) m) in
    if negb (ret =? 0) then Some (sp, b, -1, tr) else Some (with_sp_saved sp size (sp_mac sp), b, 0, tr).
End store.

(** *** runtime.c: the names of the attribute types *)
Definition attribute_type_from_str (s : bytes) : Z :=
  if strncmp (str "user") s 5 =? 0 then USER_ATTRIBUTE_TYPE
  else if strncmp (str "object") s 6 =? 0 then OBJECT_ATTRIBUTE_TYPE else -1.

Definition attribute_type_to_str (type : Z) : option bytes :=
  if type =? USER_ATTRIBUTE_TYPE then Some (str "user")
  else if type =? OBJECT_ATTRIBUTE_TYPE then Some (str "object") else None.

(** [UNSAFE_attribute_space_export]: the names and types of at most [capacity]
    attributes from [offset] on, how many, and how many there are.  The test
    on the capacity comes after the copy. *)
Fixpoint export_loop (l : list attribute_schema) (offset : nat) (copied capacity : Z)
    : list (bytes * option bytes) * Z :=
  match l with
  | [] => ([], copied)
  | s :: l' =>
      match offset with
      | S n => export_loop l' n copied capacity
      | O =>
          let x := (strncpy_field ATTRIBUTE_NAME_MAX (schema_name s), attribute_type_to_str (as_type s)) in
          if copied + 1 =? capacity then ([x], copied + 1)
          else let '(xs, n) := export_loop l' O (copied + 1) capacity in (x :: xs, n)
      end
  end.

Definition UNSAFE_attribute_space_export (sp : attribute_space) (capacity : Z) (offset : nat)
    : list (bytes * option bytes) * Z * Z :=
  let '(xs, n) := export_loop (sp_list sp).*2 offset 0 capacity in (xs, n, sp_count sp).

(** ** The contract: a list of schemas *)
Definition schema_ok (s : attribute_schema) : Prop :=
  in_range 32 (as_type s) /\ uuid_ok (as_uuid s) /\
  as_name s = strncpy_field ATTRIBUTE_NAME_MAX (schema_name s) /\ cstr_ok (schema_name s).

Definition uuid_index (l : list (Z * attribute_schema)) : gmap uuid Z :=
  list_to_map ((fun p => (as_uuid p.2, p.1)) <$> l).

Record sp_inv (sp : attribute_space) : Prop := {
  si_repr : hm_repr memhash uuid_ok (sp_map sp) (uuid_index (sp_list sp));
  si_uuids : NoDup (as_uuid <$> (sp_list sp).*2);
  si_names : NoDup (schema_name <$> (sp_list sp).*2);
  si_addrs : NoDup (sp_list sp).*1;
  si_range : Forall (fun p => 0 < p.1 < sp_next sp) (sp_list sp);
  si_next : 0 < sp_next sp;
  si_count : sp_count sp = Z.of_nat (length (sp_list sp));
  si_small : Z.of_nat (length (sp_list sp)) < 2 ^ 29;
  si_schemas : Forall schema_ok (sp_list sp).*2
}.

(** What the operations mean on the list. *)
Definition has_name (name : bytes) (s : attribute_schema) : bool := bool_decide (schema_name s = take ATTRIBUTE_NAME_MAX name).

Definition name_allowed (name : bytes) : bool :=
  isalpha (default 0 (head name)) && (perm_type_from_string name =? PERM_UNK).

Inductive space_op := SpAdd (name : bytes) (type : Z) (u : uuid) | SpDel (name : bytes).

Definition space_spec (l : list attribute_schema) (op : space_op) : list attribute_schema * Z :=
  match op with
  | SpAdd name type u =>
      if existsb (has_name name) l || negb (name_allowed name) then (l, -1)
      else (l ++ [mk_schema type (strncpy_field ATTRIBUTE_NAME_MAX name) u], 0)
  | SpDel name =>
      if existsb (has_name name) l then (filter (fun s => schema_name s <> take ATTRIBUTE_NAME_MAX name) l, 0)
      else (l, -1)
  end.

Definition space_step (sp : attribute_space) (op : space_op) : attribute_space * Z :=
  match op with
  | SpAdd name type u => attribute_space_add sp name type u
  | SpDel name => attribute_space_del sp name
  end.

(** Names are C strings, and the generated UUIDs are new. *)
Definition space_op_ok (l : list attribute_schema) (op : space_op) : Prop :=
  match op with
  | SpAdd name type u => cstr_ok name /\ in_range 32 type /\ uuid_ok u /\ u ∉ as_uuid <$> l
  | SpDel name => cstr_ok name
  end.

Section lemmas.
Implicit Types (sp : attribute_space) (s : attribute_schema) (name : bytes) (l : list (Z * attribute_schema)).

Lemma cstr_nul_free b : cstr_ok b -> cstr b = b.
Proof.
  induction 1 as [|c b Hc _ IH]; [done|]. simpl. destruct (Z.eqb_spec c 0); [lia|]. by rewrite IH.
Qed.

Lemma cstr_app_zeros b n : cstr_ok b -> cstr (b ++ replicate n 0) = b.
Proof.
  induction 1 as [|c b Hc _ IH]; simpl.
  - by destruct n.
  - destruct (Z.eqb_spec c 0); [lia|]. by rewrite IH.
Qed.

Lemma cstr_strncpy name n : cstr_ok name -> cstr (strncpy_field n name) = take n name.
Proof. intros Hn. unfold strncpy_field. apply cstr_app_zeros. by apply Forall_take. Qed.

Lemma length_schema_name s : schema_ok s -> (length (schema_name s) <= ATTRIBUTE_NAME_MAX)%nat.
Proof.
  intros (_ & _ & Hn & Hc). assert (Hl : length (as_name s) = ATTRIBUTE_NAME_MAX) by (rewrite Hn; apply length_strncpy_field).
  rewrite <- Hl. unfold schema_name. clear. induction (as_name s) as [|c b IH]; simpl; [lia|].
  destruct (c =? 0); simpl; lia.
Qed.

Lemma name_matches_spec name s : cstr_ok name -> schema_ok s -> name_matches name s = has_name name s.
Proof.
  intros Hn Hs. pose proof (length_schema_name s Hs) as Hl. destruct Hs as (_ & _ & Hnm & Hc).
  unfold name_matches, has_name, strnlen. apply eq_true_iff_eq. rewrite andb_true_iff, !bool_decide_eq_true, Nat.eqb_eq.
  set (k := schema_name s) in *. rewrite (Nat.min_l (length k)) by done. rewrite Hnm. unfold strncpy_field.
  rewrite (take_ge k) by done. split.
  - intros [Hlen Htk]. rewrite Hlen, take_app_length in Htk. rewrite <- Htk, <- Hlen.
    destruct (decide (length name <= ATTRIBUTE_NAME_MAX)%nat).
    + by rewrite Nat.min_l, !take_ge by lia.
    + by rewrite Nat.min_r by lia.
  - intros Hk. assert (Hlen : Init.Nat.min (length name) ATTRIBUTE_NAME_MAX = length k) by (rewrite Hk, length_take; lia).
    split; [done|]. rewrite Hlen, take_app_length, Hk. rewrite length_take.
    destruct (decide (length name <= ATTRIBUTE_NAME_MAX)%nat); [by rewrite Nat.min_r, !take_ge by lia|by rewrite Nat.min_l by lia].
Qed.

Lemma schema_at_lookup l a s : NoDup l.*1 -> (a, s) ∈ l -> schema_at l a = Some s.
Proof.
  unfold schema_at. induction l as [|[b x] l IH]; intros Hd Hin; [by apply not_elem_of_nil in Hin|].
  simpl. apply NoDup_cons in Hd as [Hn Hd]. apply elem_of_cons in Hin as [[= <- <-]|Hin]; [by rewrite Z.eqb_refl|].
  destruct (Z.eqb_spec b a) as [->|]; [|by apply IH]. destruct Hn. apply list_elem_of_fmap. by exists (a, s).
Qed.

Lemma uuid_index_lookup l u a :
  NoDup (as_uuid <$> l.*2) -> uuid_index l !! u = Some a <-> exists s, (a, s) ∈ l /\ as_uuid s = u.
Proof.
  intros Hd. unfold uuid_index. rewrite <- elem_of_list_to_map.
  - rewrite list_elem_of_fmap. split; [intros ([b s] & [= -> ->] & Hin); eauto|intros (s & Hin & <-); by exists (a, s)].
  - rewrite <- !list_fmap_compose in *. done.
Qed.

Lemma uuid_index_app l a s :
  as_uuid s ∉ as_uuid <$> l.*2 -> uuid_index (l ++ [(a, s)]) = <[as_uuid s := a]> (uuid_index l).
Proof.
  intros Hn. induction l as [|[b x] l IH]; [done|]. apply not_elem_of_cons in Hn as [Hne Hn]. cbn [app].
  change (uuid_index ((b, x) :: l ++ [(a, s)])) with (<[as_uuid x := b]> (uuid_index (l ++ [(a, s)]))).
  rewrite IH by done. change (uuid_index ((b, x) :: l)) with (<[as_uuid x := b]> (uuid_index l)).
  by rewrite insert_insert_ne.
Qed.

Lemma uuid_index_none l u : u ∉ as_uuid <$> l.*2 -> uuid_index l !! u = None.
Proof.
  intros Hn. unfold uuid_index. apply not_elem_of_list_to_map_1. intros Hin. apply Hn.
  by rewrite <- !list_fmap_compose in *.
Qed.

Lemma size_uuid_index l : (size (uuid_index l) <= length l)%nat.
Proof.
  induction l as [|[b x] l IH]; [done|]. change (uuid_index ((b, x) :: l)) with (<[as_uuid x := b]> (uuid_index l)).
  rewrite map_size_insert. cbn [length]. destruct (_ !! _); simpl; lia.
Qed.

Lemma stack_is_no_schema sp u : sp_inv sp -> forall k, uuid_index (sp_list sp) !! k = Some STACK_ADDR -> k = u.
Proof.
  intros Hi k Hk. apply (uuid_index_lookup _ _ _ (si_uuids _ Hi)) in Hk as (s & Hin & _).
  pose proof (si_range _ Hi) as Hr. rewrite Forall_forall in Hr. specialize (Hr _ Hin). simpl in Hr. unfold STACK_ADDR in Hr. lia.
Qed.

(** Both lookups return the schema of the list. *)
Lemma find_name_spec sp name : sp_inv sp -> cstr_ok name ->
  attribute_space_find_name sp name = List.find (has_name name) (sp_list sp).*2.
Proof.
  intros Hi Hn. unfold attribute_space_find_name, find_attribute_schema_by_name. pose proof (si_schemas _ Hi) as Hok.
  induction (sp_list sp) as [|[a s] l IH]; [done|]. cbn [List.find fmap list_fmap] in *. apply Forall_cons in Hok as [Hs Hok].
  cbn [snd] in *. rewrite name_matches_spec by done. by destruct (has_name name s); [|apply IH].
Qed.

Lemma find_uuid_spec sp u : sp_inv sp -> uuid_ok u ->
  attribute_space_find_uuid sp u = Some (List.find (fun s => bool_decide (as_uuid s = u)) (sp_list sp).*2).
Proof.
  intros Hi Hu. unfold attribute_space_find_uuid, find_attribute_schema_by_uuid.
  pose proof (repr_get _ _ _ uuid_compare_eq _ _ u STACK_ADDR (si_repr _ Hi) Hu (stack_is_no_schema sp u Hi)) as Hg.
  change (entry_of memhash u STACK_ADDR) with (attr_key u STACK_ADDR) in Hg.
  assert (Hfind : forall a s, (a, s) ∈ sp_list sp -> as_uuid s = u ->
    List.find (fun s => bool_decide (as_uuid s = u)) (sp_list sp).*2 = Some s).
  { intros a s Hin <-. pose proof (si_uuids _ Hi) as Hd. clear -Hin Hd. induction (sp_list sp) as [|[b x] l IH]; [by apply not_elem_of_nil in Hin|].
    cbn [fmap list_fmap List.find fst snd] in *. apply NoDup_cons in Hd as [Hn Hd]. apply elem_of_cons in Hin as [[= <- <-]|Hin].
    - by rewrite bool_decide_true.
    - rewrite bool_decide_false; [by apply IH|]. intros He. apply Hn. rewrite He. apply list_elem_of_fmap. exists s. split; [done|].
      apply list_elem_of_fmap. by exists (a, s). }
  destruct (hashmap_get _ _ _) as [e|]; simpl in Hg.
  - symmetry in Hg. apply (uuid_index_lookup _ _ _ (si_uuids _ Hi)) in Hg as (s & Hin & Hs).
    by rewrite (schema_at_lookup _ _ s (si_addrs _ Hi)), (Hfind _ _ Hin Hs).
  - unfold null. f_equal. symmetry. destruct (List.find _ _) as [s|] eqn:E; [|done]. exfalso.
    apply find_some in E as [Hin Hs%bool_decide_eq_true]. apply list_elem_of_In, list_elem_of_fmap in Hin as ([a s'] & -> & Hin).
    assert (uuid_index (sp_list sp) !! u = Some a) by (apply (uuid_index_lookup _ _ _ (si_uuids _ Hi)); eauto). congruence.
Qed.
Lemma create_inv root u : sp_inv (attribute_space_create root u).
Proof. split; simpl; try (by constructor); try lia. apply repr_init. lia. Qed.

Lemma put_inv sp name u ty :
  sp_inv sp -> cstr_ok name -> in_range 32 ty -> uuid_ok u -> u ∉ as_uuid <$> (sp_list sp).*2 ->
  take ATTRIBUTE_NAME_MAX name ∉ schema_name <$> (sp_list sp).*2 -> Z.of_nat (length (sp_list sp)) < 2 ^ 29 - 1 ->
  sp_inv (put_attribute sp name u ty).
Proof.
  intros [Hr Hu Hn Ha Hrg Hnx Hc Hs Hok] Hname Hty Hun Hnew Hnm Hb.
  set (s := mk_schema ty (strncpy_field ATTRIBUTE_NAME_MAX name) u).
  assert (Hsn : schema_name s = take ATTRIBUTE_NAME_MAX name) by (by apply cstr_strncpy).
  split; cbn [put_attribute with_schemas sp_map sp_list sp_next sp_count]; fold s; rewrite ?fmap_app; cbn [fmap list_fmap snd fst].
  - rewrite uuid_index_app by done. apply repr_add; [done|done|by apply uuid_index_none|].
    pose proof (size_uuid_index (sp_list sp)). lia.
  - apply NoDup_app. split; [done|]. split; [|apply NoDup_singleton]. by intros x Hx ->%list_elem_of_singleton.
  - apply NoDup_app. split; [done|]. split; [|apply NoDup_singleton]. rewrite Hsn. by intros x Hx ->%list_elem_of_singleton.
  - apply NoDup_app. split; [done|]. split; [|apply NoDup_singleton].
    intros x Hx ->%list_elem_of_singleton. apply list_elem_of_fmap in Hx as ([b y] & Heq & Hin).
    rewrite Forall_forall in Hrg. specialize (Hrg _ Hin). simpl in *. lia.
  - apply Forall_app; split; [|apply Forall_singleton; simpl; lia].
    eapply Forall_impl; [exact Hrg|]. intros [b y]; simpl; lia.
  - lia.
  - rewrite length_app, Hc. simpl. word_solve.
  - rewrite length_app. simpl. lia.
  - apply Forall_app; split; [done|]. apply Forall_singleton. split_and!; try done.
    + rewrite Hsn. unfold s. cbn [as_name]. unfold strncpy_field.
      rewrite take_take, Nat.min_id, length_take. f_equal. f_equal. lia.
    + rewrite Hsn. by apply Forall_take.
Qed.

Lemma filter_addr sp a s :
  sp_inv sp -> (a, s) ∈ sp_list sp ->
  (filter (fun p => p.1 <> a) (sp_list sp)).*2 = filter (fun x => schema_name x <> schema_name s) (sp_list sp).*2.
Proof.
  intros [_ _ Hn Ha _ _ _ _ _] Hin. revert Hin Hn Ha. generalize (sp_list sp). intros l Hin Hn Ha.
  assert (Hiff : forall b x, (b, x) ∈ l -> b = a <-> schema_name x = schema_name s).
  { intros b x Hx. split.
    - intros ->. assert ((a, x) = (a, s)) as [= ->]; [|done]. by eapply (NoDup_fmap_elem fst).
    - intros He. assert ((b, x) = (a, s)) as [= -> ->]; [|done].
      eapply (NoDup_fmap_elem (fun p => schema_name p.2)); [|done..]. by rewrite <- list_fmap_compose in Hn. }
  clear -Hiff. induction l as [|[b x] l IH]; [done|]. rewrite fmap_cons, !filter_cons. cbn [fst snd].
  pose proof (Hiff b x ltac:(left)) as Hb. rewrite <- IH by (intros; apply Hiff; by right).
  destruct (decide (b <> a)), (decide (schema_name x <> schema_name s)); naive_solver.
Qed.

Lemma uuid_index_filter sp a s :
  sp_inv sp -> (a, s) ∈ sp_list sp ->
  uuid_index (filter (fun p => p.1 <> a) (sp_list sp)) = delete (as_uuid s) (uuid_index (sp_list sp)).
Proof.
  intros Hi Hin. apply map_eq. intros u. apply option_eq. intros b. destruct Hi as [_ Hu _ Ha _ _ _ _ _].
  rewrite lookup_delete_Some, !uuid_index_lookup; try done.
  - setoid_rewrite list_elem_of_filter. cbn [fst]. split.
    + intros (x & [Hne Hx] & <-). split; [|eauto]. intros He. apply Hne.
      assert ((b, x) = (a, s)) as [= -> ->]; [|done]. eapply (NoDup_fmap_elem (fun p => as_uuid p.2)); [|done..].
      by rewrite <- list_fmap_compose in Hu.
    + intros [Hne (x & Hx & <-)]. exists x. split; [split; [|done]|done]. intros ->.
      assert ((a, x) = (a, s)) as [= ->] by (by eapply (NoDup_fmap_elem fst)). done.
  - rewrite <- list_fmap_compose in *. eapply sublist_NoDup; [apply Hu|]. apply fmap_sublist, sublist_filter.
Qed.

Lemma del_inv sp a s : sp_inv sp -> (a, s) ∈ sp_list sp -> sp_inv (del_attribute sp a s).
Proof.
  intros Hi Hin. pose proof (uuid_index_filter sp a s Hi Hin) as Hidx. destruct Hi as [Hr Hu Hn Ha Hrg Hnx Hc Hs Hok].
  assert (Hsub : sublist (filter (fun p => p.1 <> a) (sp_list sp)) (sp_list sp)) by apply sublist_filter.
  pose proof (sublist_length _ _ Hsub) as Hlen.
  split; cbn [del_attribute with_schemas sp_map sp_list sp_next sp_count].
  - rewrite Hidx. pose proof (repr_remove_entry memhash uuid_ok (sp_map sp) _ (as_uuid s) a Hr) as Hrm.
    assert (Hg : uuid_index (sp_list sp) !! as_uuid s = Some a) by (apply uuid_index_lookup; eauto).
    rewrite decide_True in Hrm by done. apply Hrm. intros k' Hk'. apply uuid_index_lookup in Hk' as (x & Hx & <-); [|done].
    assert ((a, x) = (a, s)) as [= ->]; [|done]. by eapply (NoDup_fmap_elem fst).
  - eapply sublist_NoDup; [exact Hu|]. by do 2 apply fmap_sublist.
  - eapply sublist_NoDup; [exact Hn|]. by do 2 apply fmap_sublist.
  - eapply sublist_NoDup; [exact Ha|]. by apply fmap_sublist.
  - eapply Forall_sublist; done.
  - done.
  - assert (Hl : S (length (filter (fun p => p.1 <> a) (sp_list sp))) = length (sp_list sp)).
    { clear -Hin Ha. induction (sp_list sp) as [|[b x] l IH]; [by apply not_elem_of_nil in Hin|].
      apply NoDup_cons in Ha as [Hnb Ha]. rewrite filter_cons. cbn [fst]. destruct (decide (b <> a)) as [Hne|Heq].
      - cbn [length]. f_equal. apply IH; [done|]. apply elem_of_cons in Hin as [Heq|]; [|done]. by injection Heq as -> ->.
      - cbn [length]. f_equal. f_equal. assert (b = a) as -> by (destruct (decide (b = a)); naive_solver). apply filter_all.
        apply Forall_forall. intros [c y] Hy Hc'. simpl in Hc'. subst c. apply Hnb, list_elem_of_fmap. by exists (a, y). }
    rewrite Hc. word_solve.
  - lia.
  - eapply Forall_sublist; [|exact Hok]. by apply fmap_sublist.
Qed.

Lemma set_dirty_inv sp : sp_inv sp -> sp_inv (attribute_space_set_dirty sp).
Proof. by intros []; split. Qed.

Lemma find_schema_spec sp name : sp_inv sp -> cstr_ok name ->
  match find_attribute_schema_by_name sp name with
  | Some (a, s) => (a, s) ∈ sp_list sp /\ schema_name s = take ATTRIBUTE_NAME_MAX name /\ existsb (has_name name) (sp_list sp).*2 = true
  | None => existsb (has_name name) (sp_list sp).*2 = false /\ take ATTRIBUTE_NAME_MAX name ∉ schema_name <$> (sp_list sp).*2
  end.
Proof.
  intros Hi Hn. unfold find_attribute_schema_by_name. pose proof (si_schemas _ Hi) as Hok. rewrite Forall_forall in Hok.
  assert (Hm : forall a s, (a, s) ∈ sp_list sp -> name_matches name s = has_name name s).
  { intros a s Hin. apply name_matches_spec; [done|]. apply Hok, list_elem_of_fmap. by exists (a, s). }
  destruct (List.find _ _) as [[a s]|] eqn:E.
  - apply find_some in E as [Hin%list_elem_of_In Hmt]. simpl in Hmt. rewrite (Hm a s Hin) in Hmt. split; [done|].
    split; [by apply bool_decide_eq_true in Hmt|]. apply existsb_exists. exists s. split; [|done].
    apply list_elem_of_In, list_elem_of_fmap. by exists (a, s).
  - assert (Hnone : forall s, s ∈ (sp_list sp).*2 -> has_name name s = false).
    { intros s [[a s'] [-> Hin]]%list_elem_of_fmap. cbn [snd]. rewrite <- (Hm a s' Hin).
      exact (find_none _ _ E (a, s') (proj1 (list_elem_of_In _ _) Hin)). }
    split.
    + apply not_true_is_false. intros (s & Hin & Hs)%existsb_exists. apply list_elem_of_In in Hin. by rewrite Hnone in Hs.
    + intros (s & Hs & Hin)%list_elem_of_fmap. specialize (Hnone s Hin). apply bool_decide_eq_false in Hnone. by apply Hnone.
Qed.

Lemma space_step_refines sp op :
  sp_inv sp -> space_op_ok (sp_list sp).*2 op -> Z.of_nat (length (sp_list sp)) < 2 ^ 29 - 1 ->
  sp_inv (space_step sp op).1 /\
  space_spec (sp_list sp).*2 op = ((sp_list (space_step sp op).1).*2, (space_step sp op).2) /\
  (length (sp_list (space_step sp op).1) <= S (length (sp_list sp)))%nat.
Proof.
  intros Hi Hop Hb. destruct op as [name ty u|name]; cbn [space_step space_spec space_op_ok] in *.
  - destruct Hop as (Hn & Hty & Hu & Hnew). unfold attribute_space_add.
    pose proof (find_schema_spec sp name Hi Hn) as Hf. destruct (find_attribute_schema_by_name sp name) as [[a s]|].
    { destruct Hf as (_ & _ & ->). cbn. split; [done|]. split; [done|lia]. }
    destruct Hf as [-> Hnm]. unfold name_allowed. cbn [orb]. destruct (isalpha _); cbn [andb negb]; [|split; [done|split; [done|simpl; lia]]].
    destruct (_ =? PERM_UNK); cbn [negb]; [|split; [done|split; [done|simpl; lia]]].
    split; [apply set_dirty_inv; by apply put_inv|]. cbn [fst snd attribute_space_set_dirty with_sp_meta sp_list put_attribute with_schemas].
    rewrite fmap_app, length_app. split; [done|simpl; lia].
  - unfold attribute_space_del. pose proof (find_schema_spec sp name Hi Hop) as Hf.
    destruct (find_attribute_schema_by_name sp name) as [[a s]|].
    + destruct Hf as (Hin & Hs & ->). split; [apply set_dirty_inv; by apply del_inv|].
      cbn [fst snd attribute_space_set_dirty with_sp_meta sp_list del_attribute with_schemas].
      rewrite (filter_addr sp a s Hi Hin), Hs. split; [done|]. pose proof (length_filter (fun p => p.1 <> a) (sp_list sp)). lia.
    + destruct Hf as [-> _]. split; [done|]. split; [done|simpl; lia].
Qed.
End lemmas.

(** ** Sequences of operations *)
Fixpoint space_run {S} (step : S -> space_op -> S * Z) (s : S) (ops : list space_op) : S * list Z :=
  match ops with
  | [] => (s, [])
  | op :: ops' => let '(s', r) := step s op in let '(s'', rs) := space_run step s' ops' in (s'', r :: rs)
  end.

Fixpoint space_ops_ok (l : list attribute_schema) (ops : list space_op) : Prop :=
  match ops with
  | [] => True
  | op :: ops' => space_op_ok l op /\ space_ops_ok (space_spec l op).1 ops'
  end.

Lemma space_run_refines ops sp :
  sp_inv sp -> space_ops_ok (sp_list sp).*2 ops -> Z.of_nat (length (sp_list sp) + length ops) < 2 ^ 29 - 1 ->
  sp_inv (space_run space_step sp ops).1 /\
  space_run space_spec (sp_list sp).*2 ops =
    ((sp_list (space_run space_step sp ops).1).*2, (space_run space_step sp ops).2).
Proof.
  revert sp; induction ops as [|op ops IH]; intros sp Hi Hok Hb; [done|]. destruct Hok as [Hop Hok].
  destruct (space_step_refines sp op Hi Hop) as (Hi' & Hs & Hl); [simpl in Hb; lia|].
  cbn [space_run]. rewrite Hs in *. destruct (space_step sp op) as [sp' r]. cbn [fst snd] in *.
  destruct (IH sp' Hi' Hok) as [Hi'' Hs'']; [simpl in Hb; lia|]. rewrite Hs''.
  destruct (space_run space_step sp' ops) as [sp'' rs]. done.
Qed.

(** ** Serialization *)
#[export] Program Instance schema_codec : Codec attribute_schema :=
  {| enc := schema_bytes; dec := parse_schema; enc_ok := schema_ok |}.
Next Obligation.
  intros [ty nm u] rest (Hty & [Hu _] & Hn & _). unfold parse_schema, schema_bytes. cbn [as_type as_name as_uuid] in *.
  rewrite <- !app_assoc. dec_step. unfold dec_bind at 1. rewrite dec_bytes_app by (rewrite Hn; apply length_strncpy_field).
  unfold dec_bind at 1. by rewrite dec_bytes_app.
Qed.

Lemma put_schemas_spec l sp :
  sp_inv sp -> Forall schema_ok l -> NoDup (as_uuid <$> (sp_list sp).*2 ++ l) -> NoDup (schema_name <$> (sp_list sp).*2 ++ l) ->
  Z.of_nat (length (sp_list sp) + length l) < 2 ^ 29 ->
  sp_inv (put_schemas sp l) /\ (sp_list (put_schemas sp l)).*2 = (sp_list sp).*2 ++ l /\
  sp_my_uuid (put_schemas sp l) = sp_my_uuid sp /\ sp_root_uuid (put_schemas sp l) = sp_root_uuid sp.
Proof.
  revert sp; induction l as [|s l IH]; intros sp Hi Hok Hu Hn Hb; [by rewrite app_nil_r|].
  apply Forall_cons in Hok as [Hs Hok]. pose proof (length_schema_name s Hs) as Hl. destruct Hs as (Hty & Hun & Hnm & Hc).
  rewrite cons_middle, app_assoc in Hu, Hn. cbn [put_schemas foldl]. fold (put_schemas (put_attribute sp (cstr (as_name s)) (as_uuid s) (as_type s)) l).
  assert (Hs' : mk_schema (as_type s) (strncpy_field ATTRIBUTE_NAME_MAX (cstr (as_name s))) (as_uuid s) = s).
  { fold (schema_name s). rewrite <- Hnm. by destruct s. }
  assert (Hlist : (sp_list (put_attribute sp (cstr (as_name s)) (as_uuid s) (as_type s))).*2 = (sp_list sp).*2 ++ [s]).
  { cbn [put_attribute with_schemas sp_list]. by rewrite fmap_app, Hs'. }
  destruct (IH (put_attribute sp (cstr (as_name s)) (as_uuid s) (as_type s))) as (Hi' & Hl' & H1 & H2).
  - apply put_inv; try done; cbn [length] in Hb; [| |lia].
    + rewrite fmap_app, fmap_app in Hu. apply NoDup_app in Hu as (Hu & _ & _). apply NoDup_app in Hu as (_ & Hd & _).
      intros Hin. apply (Hd _ Hin). by left.
    + fold (schema_name s). rewrite take_ge by done. rewrite fmap_app, fmap_app in Hn. apply NoDup_app in Hn as (Hn & _ & _).
      apply NoDup_app in Hn as (_ & Hd & _). intros Hin. apply (Hd _ Hin). by left.
  - done.
  - by rewrite Hlist.
  - by rewrite Hlist.
  - cbn [put_attribute with_schemas sp_list]. rewrite length_app. cbn [length] in *. lia.
  - rewrite Hl', Hlist, <- app_assoc. split_and!; done.
Qed.

Lemma length_schemas l : Forall schema_ok l -> length (concat (schema_bytes <$> l)) = (52 * length l)%nat.
Proof.
  induction 1 as [|s l (_ & [Hu _] & Hn & _) _ IH]; [done|]. rewrite fmap_cons. cbn [concat length].
  rewrite length_app, IH. unfold schema_bytes. rewrite !length_app, length_le_encode, Hu, Hn, length_strncpy_field.
  unfold NEXUS_UUID_SIZE, ATTRIBUTE_NAME_MAX. lia.
Qed.

Definition space_storable (sp : attribute_space) : Prop :=
  sp_inv sp /\ length (sp_my_uuid sp) = NEXUS_UUID_SIZE /\ length (sp_root_uuid sp) = NEXUS_UUID_SIZE /\
  attribute_space_size sp < 2 ^ 31.

Definition space_same (sp sp' : attribute_space) : Prop :=
  sp_inv sp' /\ (sp_list sp').*2 = (sp_list sp).*2 /\ sp_my_uuid sp' = sp_my_uuid sp /\ sp_root_uuid sp' = sp_root_uuid sp.

Lemma space_codec sp :
  space_storable sp ->
  Z.of_nat (length (attribute_space_serialize sp)) = attribute_space_size sp /\
  exists sp', attribute_space_from_buffer (attribute_space_serialize sp) = Some (sp', []) /\ space_same sp sp'.
Proof.
  intros (Hi & Hm & Hr & Hsz). pose proof (si_schemas _ Hi) as Hok. pose proof (si_count _ Hi) as Hc. pose proof (si_small _ Hi) as Hb.
  split.
  { unfold attribute_space_serialize. rewrite !length_app, length_le_encode, length_schemas, Hm, Hr, length_fmap by done.
    unfold attribute_space_size, NEXUS_UUID_SIZE. rewrite Hc. word_solve. }
  unfold attribute_space_from_buffer, attribute_space_serialize.
  unfold dec_bind at 1. rewrite dec_bytes_app by done. unfold dec_bind at 1. rewrite dec_bytes_app by done. dec_step.
  rewrite Hc, Nat2Z.id. rewrite <- (length_fmap snd (sp_list sp)). unfold dec_bind at 1.
  rewrite <- (app_nil_r (concat (schema_bytes <$> _))). change parse_schema with (dec (A := attribute_schema)).
  change schema_bytes with (enc (A := attribute_schema)). rewrite dec_list_app by done. eexists; split; [done|].
  destruct (put_schemas_spec (sp_list sp).*2 (attribute_space_create (sp_root_uuid sp) (sp_my_uuid sp))) as (Hi' & Hl & H1 & H2);
    [apply create_inv|done|apply Hi|apply Hi|rewrite length_fmap; simpl; lia|].
  split; [done|]. split; [by rewrite Hl|]. by rewrite H1, H2.
Qed.

(** ** Properties *)
(** Over any sequence of declarations and deletions, the attribute space
    behaves as a list of schemas with distinct names: the results and the list
    agree with the specification step by step, a name that is taken, does not
    start with a letter or is the name of a permission is refused, and at the
    end a lookup by name through the list and a lookup by UUID through the hash
    map both return exactly the schema of the list. *)
Theorem attribute_space_refines ops root u :
  space_ops_ok [] ops -> Z.of_nat (length ops) < 2 ^ 29 - 1 ->
  let '(sp, rs) := space_run space_step (attribute_space_create root u) ops in
  let '(l, rs') := space_run space_spec [] ops in
  rs = rs' /\ (sp_list sp).*2 = l /\ sp_count sp = Z.of_nat (length l) /\
  (forall name, cstr_ok name -> attribute_space_find_name sp name = List.find (has_name name) l) /\
  (forall v, uuid_ok v -> attribute_space_find_uuid sp v = Some (List.find (fun s => bool_decide (as_uuid s = v)) l)).
Proof.
  intros Hok Hb. destruct (space_run_refines ops _ (create_inv root u) Hok) as [Hi Hs]; [simpl; lia|].
  destruct (space_run space_step _ ops) as [sp rs]. cbn [fst snd] in *.
  change ((sp_list (attribute_space_create root u)).*2) with (@nil attribute_schema) in Hs. rewrite Hs.
  split; [done|]. split; [done|]. split; [by rewrite (si_count _ Hi), length_fmap|].
  split; [intros; by apply find_name_spec|intros; by apply find_uuid_spec].
Qed.

Definition toy_space_ops : list space_op :=
  [SpAdd (str "role") USER_ATTRIBUTE_TYPE (uuid_const 3); SpAdd (str "level") OBJECT_ATTRIBUTE_TYPE (uuid_const 4);
   SpAdd (str "role") USER_ATTRIBUTE_TYPE (uuid_const 5); SpAdd (str "read") USER_ATTRIBUTE_TYPE (uuid_const 6);
   SpDel (str "level"); SpDel (str "level"); SpAdd (str "age") USER_ATTRIBUTE_TYPE (uuid_const 7)].

Lemma toy_space_ops_ok : space_ops_ok [] toy_space_ops.
Proof.
  assert (Hs : forall z, byte_ok z -> uuid_ok (uuid_const z)) by apply uuid_const_ok. unfold byte_ok in Hs.
  repeat (split; [repeat split; try (apply Hs; lia); try (by vm_compute); try (by repeat constructor); by (vm_compute; set_solver)|]). done.
Qed.

Definition toy_space : attribute_space :=
  (space_run space_step (attribute_space_create (uuid_const 1) (uuid_const 2)) toy_space_ops).1.

Lemma attribute_space_refines_witness :
  (space_run space_step (attribute_space_create (uuid_const 1) (uuid_const 2)) toy_space_ops).2 = [0; 0; -1; -1; 0; -1; 0] /\
  attribute_space_find_name toy_space (str "age") =
    Some (mk_schema USER_ATTRIBUTE_TYPE (strncpy_field ATTRIBUTE_NAME_MAX (str "age")) (uuid_const 7)) /\
  attribute_space_find_uuid toy_space (uuid_const 4) = Some None.
Proof.
  split; [by vm_compute|].
  pose proof (attribute_space_refines toy_space_ops (uuid_const 1) (uuid_const 2) toy_space_ops_ok ltac:(by vm_compute)) as Hr.
  unfold toy_space. destruct (space_run space_step _ toy_space_ops) as [sp rs]. cbn [fst].
  destruct (space_run space_spec [] toy_space_ops) as [l rs'] eqn:E. destruct Hr as (_ & _ & _ & Hn & Hu).
  vm_compute in E. injection E as <- <-. split.
  - rewrite Hn by (by repeat constructor). by vm_compute.
  - rewrite Hu by (apply uuid_const_ok; unfold byte_ok; lia). by vm_compute.
Defined.

(** A stored attribute space comes back in any enclave that holds the
    volume key, with the same schemas in the same order, the same UUIDs and
    the MAC of the stored bytes, again well formed, so that lookups give the
    same answers; a refused flush returns -1 and keeps the lock. *)
Theorem attribute_space_store_load `{BlockCipher} `{KeyWrapCipher} vk sp version b env mem :
  space_storable sp -> one_writer b (sp_my_uuid sp) -> in_range 32 version ->
  key_ok (pe_draw env).1 -> key_ok (pe_draw env).2 -> pe_heap env = Some mem ->
  exists sp' b' data m, attribute_space_store vk sp version b env =
      Some (sp', b', if failed (pe_reply env) then -1 else 0, [ocall_buffer_put (sp_my_uuid sp) data 0]) /\
    sp_list sp' = sp_list sp /\ sp_mac sp' = m /\
    (if failed (pe_reply env) then
       exists flags, buffer_layer_lock_status b' (sp_my_uuid sp) = Some flags /\ nexus_io_in_lock_mode flags = true
     else idle b' (sp_my_uuid sp)) /\
    external_version data = u32 (version + 1) /\
    forall ctx, exists sp2,
      attribute_space_from_crypto_buf vk
        (mk_cbuf ctx (external_version data) 0 (sp_my_uuid sp) (Some (ExtStore data)) None) = Some (Some sp2) /\
      space_same sp sp2 /\ sp_mac sp2 = m /\ length m = NEXUS_MAC_SIZE.
Proof.
  intros Hs Hw Hv Hk1 Hk2 Hh. destruct (space_codec sp Hs) as (Hlen & sp2 & Hparse & Hsame).
  unfold attribute_space_store. destruct Hs as (_ & _ & _ & Hsz).
  destruct (store_buffer_spec vk b (sp_my_uuid sp) _ _ version env mem Hw Hv Hk1 Hk2 Hlen Hsz Hh)
    as (-> & c' & b' & data & m & -> & Hsd & Hev & Hlock). cbn [mbind option_bind].
  exists (with_sp_saved sp (if failed (pe_reply env) then sp_last_size sp else attribute_space_size sp) m), b', data, m.
  split; [by destruct (failed (pe_reply env))|].
  split; [done|]. split; [done|]. split; [done|]. split; [done|]. intros ctx. unfold attribute_space_from_crypto_buf.
  destruct (get_sealed vk (sp_my_uuid sp) _ _ data m
    (mk_cbuf ctx (external_version data) 0 (sp_my_uuid sp) (Some (ExtStore data)) None) Hsd) as (c3 & ->); [done..|].
  cbn [mbind option_bind]. rewrite Hparse. cbn [mbind option_bind]. eexists. split; [done|].
  split; [|split; [done|]].
  - destruct Hsame as (Hi & H1 & H2 & H3). split; [by destruct Hi; split|]. done.
  - by destruct Hsd as (h & ? & (_ & _ & _ & _ & _ & Hm) & _ & _ & <- & _).
Qed.

Lemma toy_space_storable : space_storable toy_space.
Proof.
  pose proof (space_run_refines toy_space_ops _ (create_inv (uuid_const 1) (uuid_const 2)) toy_space_ops_ok ltac:(by vm_compute)) as [Hi _].
  split; [exact Hi|]. split_and!; by vm_compute.
Qed.

Lemma attribute_space_store_load_witness :
  exists sp' b' data m,
    attribute_space_store (H := toy_cipher) (H0 := toy_wrap) [] toy_space 4 (held_cache (uuid_const 2) 1) (toy_env reply_ok) =
      Some (sp', b', 0, [ocall_buffer_put (uuid_const 2) data 0]) /\
    sp_list sp' = sp_list toy_space /\ sp_mac sp' = m /\ idle b' (uuid_const 2) /\ external_version data = 5 /\
    forall ctx, exists sp2,
      attribute_space_from_crypto_buf (H := toy_cipher) (H0 := toy_wrap) []
        (mk_cbuf ctx (external_version data) 0 (uuid_const 2) (Some (ExtStore data)) None) = Some (Some sp2) /\
      space_same toy_space sp2 /\ sp_mac sp2 = m /\ length m = NEXUS_MAC_SIZE.
Proof.
  apply (attribute_space_store_load (H := toy_cipher) (H0 := toy_wrap) [] toy_space 4 (held_cache (uuid_const 2) 1) (toy_env reply_ok) []).
  - apply toy_space_storable.
  - apply held_one_writer.
  - by vm_compute.
  - apply toy_draw_ok. unfold byte_ok. lia.
  - apply toy_draw_ok. unfold byte_ok. lia.
  - done.
Defined.
