(* ===== verification/SystemFunctions.v ===== *)
(** * System functions

    Models [abac/system_functions.c]: the built-in facts about users and
    objects that policies may name.  A metadata object is seen through its
    address, which leads to its dentries, and the kind and size of what it
    holds. *)
From stdpp Require Import strings.
From S2P Require Import Prelude Types Dentry AbacValue.

Inductive sys_func_type := USER_FUNCTION | OBJECT_FUNCTION.

#[export] Instance sys_func_type_eq_dec : EqDecision sys_func_type.
Proof. solve_decision. Defined.

(** What the handlers read: the current user's name, the dentry tree, the
    address of the metadata and the object it holds. *)
Inductive object_kind := DirnodeObject (dir_entry_count : Z) | FilenodeObject (filesize : Z) | OtherObject.
Record sys_arg := mk_sys_arg { sa_user : bytes; sa_dc : dcache; sa_md : Z; sa_kind : object_kind }.

Definition handler := sys_arg -> option (option abac_value).

Definition handle_uname : handler := fun x => nret (abac_value_from_str (sa_user x)).
Definition handle_upkey : handler := fun _ => null.

(** A name that fills its array has no NUL. *)
Definition dentry_name (d : nexus_dentry) : option bytes :=
  if Z.of_nat (length (d_name d)) <? NEXUS_NAME_MAX then Some (d_name d) else None.

Definition with_dentry (x : sys_arg) (k : nexus_dentry -> option (option abac_value)) : option (option abac_value) :=
  match metadata_get_dentry (sa_dc x) (sa_md x) with
  | None => null
  | Some a => d ← dents (sa_dc x) !! a; k d
  end.

Definition handle_odirname : handler := fun x =>
  with_dentry x (fun d =>
    match d_parent d with
    | None => nret (abac_value_from_str (str "/"))
    | Some p =>
        dp ← dents (sa_dc x) !! p;
        match d_parent dp with
        | None => nret (abac_value_from_str (str "/"))
        | Some _ => n ← dentry_name dp; nret (abac_value_from_str n)
        end
    end).

Definition handle_opath : handler := fun x =>
  match metadata_get_dentry (sa_dc x) (sa_md x) with
  | None => null
  | Some a => path ← dentry_get_fullpath (sa_dc x) a; nret (abac_value_from_str path)
  end.

Definition handle_oname : handler := fun x =>
  with_dentry x (fun d => n ← dentry_name d; nret (abac_value_from_str n)).

(** Both counts are passed as an [int]. *)
Definition handle_osize : handler := fun x =>
  match sa_kind x with
  | DirnodeObject n => nret (abac_value_from_int (s32 n))
  | FilenodeObject n => nret (abac_value_from_int (s32 n))
  | OtherObject => null
  end.

Definition handle_otype : handler := fun x =>
  match sa_kind x with
  | DirnodeObject _ => nret (abac_value_from_str (str "dir"))
  | FilenodeObject _ => nret (abac_value_from_str (str "file"))
  | OtherObject => null
  end.

Record sys_func := mk_sys_func { sf_name : bytes; sf_handler : handler; sf_type : sys_func_type }.

Definition system_functions : list sys_func :=
  [mk_sys_func (str "@uname") handle_uname USER_FUNCTION;
   mk_sys_func (str "@upkey") handle_upkey USER_FUNCTION;
   mk_sys_func (str "@opath") handle_opath OBJECT_FUNCTION;
   mk_sys_func (str "@oname") handle_oname OBJECT_FUNCTION;
   mk_sys_func (str "@osize") handle_osize OBJECT_FUNCTION;
   mk_sys_func (str "@otype") handle_otype OBJECT_FUNCTION;
   mk_sys_func (str "@odirname") handle_odirname OBJECT_FUNCTION].

(** Only as many characters as the function's own name has are compared. *)
Definition find_system_function (name : bytes) : option sys_func :=
  List.find (fun f => strncmp (sf_name f) name (strnlen (sf_name f) 32) =? 0) system_functions.

Definition system_function_exists (name : bytes) (type : sys_func_type) : bool :=
  match find_system_function name with
  | None => false
  | Some f => bool_decide (sf_type f = type)
  end.

Definition system_function_execute (name : bytes) (type : sys_func_type) (x : sys_arg) : option (option abac_value) :=
  match find_system_function name with
  | None => null
  | Some f => if bool_decide (sf_type f = type) then sf_handler f x else null
  end.

Definition system_function_export_sysfuncs (type : sys_func_type) : list sys_func :=
  filter (fun f => sf_type f = type) system_functions.

Definition system_function_run (f : sys_func) (x : sys_arg) : option (option abac_value) := sf_handler f x.
