(* ===== verification/AbacParser.v ===== *)
(** * The policy language: lexer and parser

    Models [abac/parser_lexer.c] and the validation of atoms in [abac/atom.c].
    The input is a C string; a position one past its end is where the NUL
    stands.  Every loop takes fuel, and [Spin] is a loop that has not ended.
    Token positions, which only appear in messages, are left out. *)
From stdpp Require Import strings.
From S2P Require Import Prelude Hashmap Types AttributeTable AbacValue AbacRule AttributeSpace SystemFunctions.

(** ** Lexer *)
Inductive token_type :=
  | TOK_UNKNOWN | TOK_LPAREN | TOK_RPAREN | TOK_COMMA | TOK_NUMBER | TOK_STRING | TOK_IDENTIFIER
  | TOK_DOTNOTATION | TOK_COLONEQUALS | TOK_LT | TOK_LE | TOK_GT | TOK_GE | TOK_EE | TOK_NE | TOK_END.

#[export] Instance token_type_eq_dec : EqDecision token_type.
Proof. solve_decision. Defined.

Record my_token := mk_tok { tok_type : token_type; tok_val : option bytes }.
Record my_lexer := mk_lexer { lx_input : bytes; lx_pos : nat }.

Definition MAX_ARGUMENT_LEN : nat := 256.

Definition lexer_create (input : bytes) : my_lexer := mk_lexer input 0.
Definition tok (t : token_type) : my_token := mk_tok t None.

(** At the end of the input the position stays where it is. *)
Definition next_char (lx : my_lexer) : Z * my_lexer :=
  match lx_input lx !! lx_pos lx with
  | Some c => (c, mk_lexer (lx_input lx) (S (lx_pos lx)))
  | None => (0, lx)
  end.

Definition backup (lx : my_lexer) : my_lexer := mk_lexer (lx_input lx) (pred (lx_pos lx)).

(** [strndup(&input[start], len)]. *)
Definition lexeme (lx : my_lexer) (start len : nat) : bytes := take len (drop start (lx_input lx)).

Fixpoint scan_number (n : nat) (lx : my_lexer) (len : nat) : outcome (my_lexer * nat) :=
  match n with
  | O => Spin
  | S n =>
      let '(c, lx) := next_char lx in
      if is_digit c then scan_number n lx (S len) else Done (backup lx, len)
  end.

Definition lex_number (n : nat) (lx : my_lexer) : outcome (my_token * my_lexer) :=
  let start := pred (lx_pos lx) in
  '(lx, len) <- scan_number n lx 1;;
  if (MAX_ARGUMENT_LEN <? len)%nat then Done (tok TOK_UNKNOWN, lx)
  else Done (mk_tok TOK_NUMBER (Some (lexeme lx start len)), lx).

Definition isalnum (c : Z) : bool := isalpha c || is_digit c.

(** [None] is a second dot or a second at sign. *)
Fixpoint scan_identifier (n : nat) (lx : my_lexer) (len : nat) (dot at_ : bool)
    : outcome (my_lexer * option (nat * bool)) :=
  match n with
  | O => Spin
  | S n =>
      let '(c, lx) := next_char lx in
      if isalnum c then scan_identifier n lx (S len) dot at_
      else if c =? 46 then if dot then Done (lx, None) else scan_identifier n lx (S len) true at_
      else if c =? 64 then if at_ then Done (lx, None) else scan_identifier n lx (S len) dot true
      else Done (backup lx, Some (len, dot))
  end.

Definition lex_identifier (n : nat) (lx : my_lexer) : outcome (my_token * my_lexer) :=
  let start := pred (lx_pos lx) in
  let at_notation := bool_decide (lx_input lx !! start = Some 64) in
  '(lx, r) <- scan_identifier n lx 1 false at_notation;;
  match r with
  | None => Done (tok TOK_UNKNOWN, lx)
  | Some (len, dot_notation) =>
      if (MAX_ARGUMENT_LEN <? len)%nat then Done (tok TOK_UNKNOWN, lx)
      else Done (mk_tok (if (dot_notation : bool) then TOK_DOTNOTATION else TOK_IDENTIFIER) (Some (lexeme lx start len)), lx)
  end.

(** Only a closing quote ends the loop. *)
Fixpoint scan_string (n : nat) (lx : my_lexer) (len : nat) : outcome (my_lexer * nat) :=
  match n with
  | O => Spin
  | S n => let '(c, lx) := next_char lx in if c =? 34 then Done (lx, len) else scan_string n lx (S len)
  end.

Definition lex_string (n : nat) (lx : my_lexer) : outcome (my_token * my_lexer) :=
  let start := lx_pos lx in
  '(lx, len) <- scan_string n lx 0;;
  if (MAX_ARGUMENT_LEN <? len)%nat then Done (tok TOK_UNKNOWN, lx)
  else Done (mk_tok TOK_STRING (Some (lexeme lx start len)), lx).

Definition lex_boolean_op (lx : my_lexer) (curr_char : Z) : my_token * my_lexer :=
  let '(c, lx') := next_char lx in
  let eq := c =? 61 in
  if curr_char =? 60 then if eq then (tok TOK_LE, lx') else (tok TOK_LT, backup lx')
  else if curr_char =? 62 then if eq then (tok TOK_GE, lx') else (tok TOK_GT, backup lx')
  else if curr_char =? 33 then if eq then (tok TOK_NE, lx') else (tok TOK_UNKNOWN, lx')
  else if curr_char =? 61 then if eq then (tok TOK_EE, lx') else (tok TOK_UNKNOWN, lx')
  else (tok TOK_UNKNOWN, lx').

Fixpoint lexer_next_token (n : nat) (lx : my_lexer) : outcome (my_token * my_lexer) :=
  match n with
  | O => Spin
  | S n' =>
      let '(c, lx) := next_char lx in
      if c =? 0 then Done (tok TOK_END, lx)
      else if (c =? 32) || (c =? 9) then lexer_next_token n' lx
      else if c =? 44 then Done (tok TOK_COMMA, lx)
      else if c =? 40 then Done (tok TOK_LPAREN, lx)
      else if c =? 41 then Done (tok TOK_RPAREN, lx)
      else if (c =? 60) || (c =? 62) || (c =? 33) || (c =? 61) then Done (lex_boolean_op lx c)
      else if c =? 58 then
        let '(d, lx) := next_char lx in
        Done (tok (if d =? 45 then TOK_COLONEQUALS else TOK_UNKNOWN), lx)
      else if isalpha c || (c =? 64) then lex_identifier n lx
      else if c =? 34 then lex_string n lx
      else if (49 <=? c) && (c <=? 57) then lex_number n lx
      else Done (tok TOK_UNKNOWN, backup lx)
  end.

(** ** Parser *)
Record my_parser := mk_parser {
  ps_lexer : my_lexer;
  ps_token : option my_token;
  ps_prev : option my_token;
  ps_rule : option policy_rule
}.

Definition parser_new (lx : my_lexer) : my_parser := mk_parser lx None None None.

Definition token_is_boolean_op (t : my_token) : bool :=
  match tok_type t with TOK_LT | TOK_LE | TOK_GT | TOK_GE | TOK_EE | TOK_NE => true | _ => false end.

Definition my_token_to_string (t : token_type) : bytes :=
  match t with
  | TOK_EE => str "==" | TOK_NE => str "!=" | TOK_GT => str ">" | TOK_LT => str "<"
  | TOK_GE => str ">=" | TOK_LE => str "<=" | TOK_COMMA => str "," | TOK_LPAREN => str "("
  | TOK_RPAREN => str ")" | TOK_NUMBER => str "number" | TOK_STRING => str "string"
  | TOK_IDENTIFIER => str "identifier" | TOK_DOTNOTATION => str "dotnotation" | _ => str "(unknown)"
  end.

Definition prev_token (p : my_parser) : my_parser := mk_parser (ps_lexer p) None (ps_token p) (ps_rule p).

Definition next_token (n : nat) (p : my_parser) : outcome (my_token * my_parser) :=
  match ps_prev p with
  | Some t => Done (t, mk_parser (ps_lexer p) (Some t) None (ps_rule p))
  | None =>
      '(t, lx) <- lexer_next_token n (ps_lexer p);;
      Done (t, mk_parser lx (Some t) None (ps_rule p))
  end.

Definition consume_token (n : nat) (p : my_parser) (expected : token_type) : outcome (my_token * my_parser * Z) :=
  '(t, p) <- next_token n p;;
  Done (t, p, if bool_decide (tok_type t = expected) then 0 else -1).

Definition token_text (t : my_token) : bytes := default [] (tok_val t).

Definition abac_value_from_token (t : my_token) : option abac_value :=
  match tok_type t with
  | TOK_DOTNOTATION => Some (abac_value_from_str_as_identifier (token_text t))
  | TOK_STRING => Some (abac_value_from_str (token_text t))
  | TOK_NUMBER => Some (abac_value_from_int (atoi (token_text t)))
  | _ => None
  end.

(** The test that should exclude what is neither a string nor a number
    excludes numbers; a NULL value is then pushed, which reads through it. *)
Definition parse_regular_atom_type (n : nat) (p : my_parser) (a : policy_atom)
    : outcome (my_parser * policy_atom * Z) :=
  '(t, p, ret) <- consume_token n p TOK_IDENTIFIER;;
  if negb (ret =? 0) then Done (p, a, -1)
  else
    let ty := if strncmp (token_text t) (str "u") 5 =? 0 then Some ATOM_TYPE_USER
              else if strncmp (token_text t) (str "o") 5 =? 0 then Some ATOM_TYPE_OBJECT else None in
    match ty with
    | None => Done (p, a, -1)
    | Some ty =>
        let a := set_atom_type a ty in
        '(t, p) <- next_token n p;;
        match tok_type t with
        | TOK_COMMA =>
            '(t, p) <- next_token n p;;
            if bool_decide (tok_type t <> TOK_STRING) && bool_decide (tok_type t = TOK_NUMBER) then Done (p, a, -1)
            else
              match abac_value_from_token t with
              | None => Fault
              | Some v => Done (p, policy_atom_push_arg a v, 0)
              end
        | TOK_RPAREN => Done (prev_token p, a, 0)
        | _ => Done (p, a, -1)
        end
    end.

(** An argument of a boolean operator. *)
Definition push_boolean_arg (a : policy_atom) (t : my_token) : option policy_atom :=
  v ← abac_value_from_token t;
  let a := policy_atom_push_arg a v in
  Some (if bool_decide (tok_type t = TOK_DOTNOTATION) then
          let c := default 0 (head (token_text t)) in
          if c =? 117 then set_atom_type a (Z.lor (atom_type a) ATOM_TYPE_USER)
          else if c =? 111 then set_atom_type a (Z.lor (atom_type a) ATOM_TYPE_OBJECT) else a
        else a).

Definition parse_boolean_atom_type (n : nat) (p : my_parser) (a : policy_atom)
    : outcome (my_parser * policy_atom * Z) :=
  '(t, p) <- next_token n p;;
  match push_boolean_arg a t with
  | None => Done (p, a, -1)
  | Some a =>
      '(_, p, ret) <- consume_token n p TOK_COMMA;;
      if negb (ret =? 0) then Done (p, a, -1)
      else
        '(t, p) <- next_token n p;;
        match push_boolean_arg a t with
        | None => Done (p, a, -1)
        | Some a => Done (p, a, 0)
        end
  end.

(** *** Validation of atoms, atom.c *)
Section parse.
(** What [abac_acquire_attribute_space] returns, and the UUID drawn for a new
    rule. *)
Variables (space : option attribute_space) (new_uuid : uuid).

Definition check_attribute (name : bytes) (type : Z) : bool :=
  match space with
  | None => false
  | Some sp =>
      match attribute_space_find_name sp name with
      | None => false
      | Some s =>
          if type =? ATOM_TYPE_USER then as_type s =? USER_ATTRIBUTE_TYPE
          else if type =? ATOM_TYPE_OBJECT then as_type s =? OBJECT_ATTRIBUTE_TYPE else false
      end
  end.

Definition check_system_function (name : bytes) (type : Z) : bool :=
  if type =? ATOM_TYPE_OBJECT then system_function_exists name OBJECT_FUNCTION
  else if type =? ATOM_TYPE_USER then system_function_exists name USER_FUNCTION else false.

Definition validate_abac_attribute_atom (a : policy_atom) : bool := true.

(** A predicate without a NUL is read past its end. *)
Definition validate_system_function_atom (a : policy_atom) : option bool :=
  p ← c_string (predicate a); Some (check_system_function p (atom_type a)).

(** [u.name], [o.name], [u.@name] or [o.@name]: the third character decides. *)
Definition validate_boolean_arg (v : abac_value) : bool :=
  if negb (av_type v =? ABAC_VALUE_IDENTIFIER) then true
  else
    let s := cstr (av_data v) in
    if (strnlen s ABAC_VALUE_MAXLEN <? 2)%nat then false
    else
      let type := atom_type_from_char (default 0 (head s)) in
      if type =? ATOM_TYPE_NONE then false
      else if bool_decide (s !! 2%nat = Some 64) then check_system_function (drop 2 s) type
      else check_attribute (drop 2 s) type.

Definition validate_boolean_operator_atom (a : policy_atom) : option bool :=
  if negb (arity a =? 2) then Some false
  else
    v1 ← policy_atom_get_arg a 0;
    if negb (validate_boolean_arg v1) then Some false
    else v2 ← policy_atom_get_arg a 1; Some (validate_boolean_arg v2).

Definition policy_atom_is_valid (a : policy_atom) : option bool :=
  if pred_type a =? PREDICATE_FUNC then validate_system_function_atom a
  else if pred_type a =? PREDICATE_ATTR then Some (validate_abac_attribute_atom a)
  else if pred_type a =? PREDICATE_BOOL then validate_boolean_operator_atom a
  else Some false.

(** *** Rules *)
Definition set_rule (p : my_parser) (r : policy_rule) : my_parser := mk_parser (ps_lexer p) (ps_token p) (ps_prev p) (Some r).

Definition parse_atom (n : nat) (p : my_parser) : outcome (my_parser * Z) :=
  '(t, p) <- next_token n p;;
  let name := match tok_type t with
              | TOK_IDENTIFIER => Some (token_text t)
              | _ => if token_is_boolean_op t then Some (my_token_to_string (tok_type t)) else None
              end in
  match name with
  | None => Done (p, -1)
  | Some s =>
      let a := policy_atom_new_from_predicate s in
      '(_, p, ret) <- consume_token n p TOK_LPAREN;;
      if negb (ret =? 0) then Done (p, -1)
      else
        '(p, a, ret) <- (if pred_type a =? PREDICATE_BOOL then parse_boolean_atom_type n p a
                         else parse_regular_atom_type n p a);;
        if negb (ret =? 0) then Done (p, -1)
        else
          '(_, p, ret) <- consume_token n p TOK_RPAREN;;
          if negb (ret =? 0) then Done (p, -1)
          else
            valid <- lift (policy_atom_is_valid a);;
            if negb (valid : bool) then Done (p, -1)
            else r <- lift (ps_rule p);; Done (set_rule p (policy_rule_push_atom r a), 0)
  end.

(** The atoms of a rule, separated by commas; the token after the last one has
    been read when the loop ends. *)
Fixpoint parse_atoms (n : nat) (p : my_parser) : outcome (my_parser * Z) :=
  match n with
  | O => Spin
  | S n' =>
      '(p, ret) <- parse_atom n p;;
      if negb (ret =? 0) then Done (p, -1)
      else
        '(t, p) <- next_token n p;;
        match tok_type t with TOK_COMMA => parse_atoms n' p | _ => Done (p, 0) end
  end.

Definition parse_rule (n : nat) (p : my_parser) : outcome (my_parser * Z) :=
  '(t, p) <- next_token n p;;
  match tok_type t with
  | TOK_IDENTIFIER =>
      match policy_rule_new_from_perm_str (token_text t) new_uuid with
      | None => Done (p, -1)
      | Some r =>
          let p := set_rule p r in
          '(_, p, ret) <- consume_token n p TOK_COLONEQUALS;;
          if negb (ret =? 0) then Done (p, -1) else parse_atoms n p
      end
  | _ => Done (p, -1)
  end.

Definition parse_abac_policy (n : nat) (text : bytes) : outcome (option policy_rule) :=
  '(p, ret) <- parse_rule n (parser_new (lexer_create text));;
  if negb (ret =? 0) then Done None
  else
    t <- lift (ps_token p);;
    match tok_type t with TOK_END => Done (ps_rule p) | _ => Done None end.
End parse.
