(* ===== verification/AbacSyntax.v ===== *)
(** * The concrete syntax of policies

    The reference for the parser of [AbacParser.v]: an abstract syntax, its
    canonical text, and the rule it stands for.  Lemmas on the lexer, one per
    kind of token, and on the parser, one per production. *)
From stdpp Require Import strings.
From S2P Require Import Prelude Hashmap Types AttributeTable AbacValue AbacRule AttributeSpace SystemFunctions AbacParser.

(** ** Words *)
(** The characters after the first of an identifier, with at most one dot and
    one at sign; the result says whether there was a dot. *)
Fixpoint ident_run (b : bytes) (dot at_ : bool) : option bool :=
  match b with
  | [] => Some dot
  | c :: b' =>
      if isalnum c then ident_run b' dot at_
      else if c =? 46 then if dot then None else ident_run b' true at_
      else if c =? 64 then if at_ then None else ident_run b' dot true
      else None
  end.

(** A name ([dotted = false]) or a qualified name such as [u.age]. *)
Definition word (dotted : bool) (w : bytes) : bool :=
  match w with
  | [] => false
  | c :: b =>
      (isalpha c || (c =? 64)) && bool_decide (ident_run b false (c =? 64) = Some dotted)
      && (length w <=? MAX_ARGUMENT_LEN)%nat
  end.

(** What may follow a word or a number. *)
Definition delimiter (d : Z) : bool := negb (isalnum d) && negb (d =? 46) && negb (d =? 64).

(** ** Lexer *)
Definition L (pre k : bytes) : my_lexer := mk_lexer (pre ++ k) (length pre).

Lemma next_char_L pre c k : next_char (L pre (c :: k)) = (c, L (pre ++ [c]) k).
Proof.
  unfold next_char, L. cbn [lx_input lx_pos]. rewrite lookup_app_r, Nat.sub_diag by lia. cbn.
  by rewrite <- app_assoc, length_app, Nat.add_comm.
Qed.

Lemma next_char_end pre : next_char (L pre []) = (0, L pre []).
Proof. unfold next_char, L. cbn [lx_input lx_pos]. by rewrite app_nil_r, lookup_ge_None_2 by lia. Qed.

Lemma backup_L pre c k : backup (L (pre ++ [c]) k) = L pre (c :: k).
Proof. unfold backup, L. cbn [lx_input lx_pos]. rewrite length_app, Nat.add_comm, <- app_assoc. done. Qed.

Lemma lexeme_at lx pre w k len start :
  lx_input lx = pre ++ w ++ k -> len = length w -> start = length pre -> lexeme lx start len = w.
Proof. intros Hi -> ->. unfold lexeme. by rewrite Hi, drop_app_length, take_app_length. Qed.

Lemma lexeme_L pre w k len start : len = length w -> start = length pre -> lexeme (L (pre ++ w) k) start len = w.
Proof. apply (lexeme_at _ _ _ k). unfold L. cbn [lx_input]. by rewrite <- app_assoc. Qed.

Lemma scan_identifier_run n pre b d k len dot at_ dot' :
  ident_run b dot at_ = Some dot' -> delimiter d = true -> (length b < n)%nat ->
  scan_identifier n (L pre (b ++ d :: k)) len dot at_ = Done (L (pre ++ b) (d :: k), Some ((len + length b)%nat, dot')).
Proof.
  revert n pre len dot at_; induction b as [|c b IH]; intros n pre len dot at_ Hr Hd Hn; (destruct n as [|n]; [simpl in Hn; lia|]);
    cbn [scan_identifier app ident_run length] in *; rewrite next_char_L.
  - unfold delimiter in Hd. apply andb_true_iff in Hd as [[H1%negb_true_iff H2%negb_true_iff]%andb_true_iff H3%negb_true_iff].
    rewrite H1, H2, H3, backup_L, app_nil_r, Nat.add_0_r. by simplify_eq.
  - replace (len + S (length b))%nat with (S len + length b)%nat by lia.
    replace (pre ++ c :: b) with ((pre ++ [c]) ++ b) by (by rewrite <- app_assoc).
    destruct (isalnum c); [by apply IH; [| |lia]|]. destruct (c =? 46); [destruct dot; [done|by apply IH; [| |lia]]|].
    destruct (c =? 64); [destruct at_; [done|by apply IH; [| |lia]]|done].
Qed.

Lemma word_cons dotted c b :
  word dotted (c :: b) = true ->
  (isalpha c || (c =? 64)) = true /\ ident_run b false (c =? 64) = Some dotted /\ (length (c :: b) <= MAX_ARGUMENT_LEN)%nat.
Proof.
  unfold word. intros [[Hc Hr%bool_decide_eq_true]%andb_true_iff Hl%Nat.leb_le]%andb_true_iff. done.
Qed.

(** Decides the comparisons with character constants. *)
Ltac decide_eqb :=
  repeat match goal with
  | |- context [?c =? ?z] =>
      first [rewrite (proj2 (Z.eqb_neq c z)) by lia | rewrite (proj2 (Z.eqb_eq c z)) by lia]
  end.

(** Characters that start a word are none of the punctuation. *)
Lemma word_start c : (isalpha c || (c =? 64)) = true ->
  65 <= c <= 122 \/ c = 64.
Proof. unfold isalpha. lia. Qed.

Lemma lex_identifier_word n pre c b d k dotted :
  word dotted (c :: b) = true -> delimiter d = true -> (length b < n)%nat ->
  lex_identifier n (L (pre ++ [c]) (b ++ d :: k)) =
  Done (mk_tok (if dotted then TOK_DOTNOTATION else TOK_IDENTIFIER) (Some (c :: b)), L (pre ++ c :: b) (d :: k)).
Proof.
  intros (Hc & Hr & Hl)%word_cons Hd Hn. unfold lex_identifier. set (lx := L (pre ++ [c]) (b ++ d :: k)).
  assert (Hpos : lx_pos lx = S (length pre)) by (unfold lx, L; simpl; rewrite length_app; simpl; lia).
  assert (Hlk : lx_input lx !! length pre = Some c).
  { unfold lx, L. cbn [lx_input]. rewrite <- app_assoc, lookup_app_r, Nat.sub_diag by lia. done. }
  rewrite Hpos. cbn [pred]. rewrite Hlk. unfold lx.
  assert (Hat : bool_decide (Some c = Some 64) = (c =? 64)).
  { apply eq_true_iff_eq. rewrite bool_decide_eq_true, Z.eqb_eq. split; congruence. }
  rewrite Hat, (scan_identifier_run _ _ _ _ _ _ _ _ dotted) by done. cbn [obind]. cbn [length] in Hl.
  destruct (Nat.ltb_spec MAX_ARGUMENT_LEN (1 + length b)); [lia|]. rewrite <- app_assoc. cbn [app].
  do 2 f_equal. f_equal. f_equal. apply lexeme_L; [done|]. done.
Qed.

Lemma lex_word n pre w d k dotted :
  word dotted w = true -> delimiter d = true -> (length w < n)%nat ->
  lexer_next_token n (L pre (w ++ d :: k)) =
  Done (mk_tok (if dotted then TOK_DOTNOTATION else TOK_IDENTIFIER) (Some w), L (pre ++ w) (d :: k)).
Proof.
  destruct w as [|c b]; [done|]. intros Hw Hd Hn. pose proof (word_start c (proj1 (word_cons _ _ _ Hw))) as Hc.
  pose proof (proj1 (word_cons _ _ _ Hw)) as Hc'. destruct n as [|n]; [simpl in Hn; lia|]. cbn [lexer_next_token app].
  rewrite next_char_L, Hc'. decide_eqb. cbn [orb]. by apply lex_identifier_word; [| |simpl in Hn; lia].
Qed.

Lemma scan_string_run n pre s k len :
  Forall (fun c => c <> 34) s -> (length s < n)%nat ->
  scan_string n (L pre (s ++ 34 :: k)) len = Done (L (pre ++ s ++ [34]) k, (len + length s)%nat).
Proof.
  intros Hs. revert n pre len; induction Hs as [|c s Hc _ IH]; intros n pre len Hn; (destruct n as [|n]; [simpl in Hn; lia|]);
    cbn [scan_string app length] in *; rewrite next_char_L.
  - by rewrite Z.eqb_refl, Nat.add_0_r.
  - destruct (Z.eqb_spec c 34); [done|]. replace (len + S (length s))%nat with (S len + length s)%nat by lia.
    rewrite IH by lia. by rewrite <- app_assoc.
Qed.

Lemma lex_quoted n pre s k :
  Forall (fun c => c <> 34) s -> (length s <= MAX_ARGUMENT_LEN)%nat -> (length s < n)%nat ->
  lexer_next_token n (L pre (34 :: s ++ 34 :: k)) = Done (mk_tok TOK_STRING (Some s), L (pre ++ 34 :: s ++ [34]) k).
Proof.
  intros Hs Hl Hn. destruct n as [|n]; [lia|]. cbn [lexer_next_token]. rewrite next_char_L. cbn [Z.eqb Pos.eqb orb]. decide_eqb.
  change (isalpha 34) with false. cbn [orb]. unfold lex_string. rewrite scan_string_run by done. cbn [obind].
  destruct (Nat.ltb_spec MAX_ARGUMENT_LEN (0 + length s)); [lia|]. rewrite <- app_assoc. cbn [app]. do 4 f_equal.
  apply (lexeme_at _ (pre ++ [34]) s (34 :: k)); [|done|unfold L; by rewrite length_app].
  unfold L. cbn [lx_input]. rewrite <- !app_assoc. cbn [app]. by rewrite <- !app_assoc.
Qed.

Lemma scan_number_run n pre b d k len :
  Forall (fun c => is_digit c = true) b -> is_digit d = false -> (length b < n)%nat ->
  scan_number n (L pre (b ++ d :: k)) len = Done (L (pre ++ b) (d :: k), (len + length b)%nat).
Proof.
  intros Hb Hd. revert n pre len; induction Hb as [|c b Hc _ IH]; intros n pre len Hn; (destruct n as [|n]; [simpl in Hn; lia|]);
    cbn [scan_number app length] in *; rewrite next_char_L.
  - by rewrite Hd, backup_L, app_nil_r, Nat.add_0_r.
  - rewrite Hc. replace (len + S (length b))%nat with (S len + length b)%nat by lia. rewrite IH by lia. by rewrite <- app_assoc.
Qed.

(** A positive number does not start with a zero. *)
Lemma digits_head n z : 1 <= z < 10 ^ Z.of_nat n -> exists c b, digits n z [] = c :: b /\ 49 <= c <= 57.
Proof.
  revert z; induction n as [|n IH]; intros z Hz; [simpl in Hz; lia|]. rewrite digits_step.
  rewrite Nat2Z.inj_succ, Z.pow_succ_r in Hz by lia. destruct (Z.ltb_spec z 10).
  - rewrite Z.mod_small by lia. eexists _, _; split; [done|lia].
  - destruct (IH (z / 10)) as (c & b & -> & Hc); [|by eexists _, _].
    split; [apply Z.div_le_lower_bound; lia|apply Z.div_lt_upper_bound; lia].
Qed.

Lemma lex_digits n pre z d k :
  1 <= z < 2 ^ 31 -> is_digit d = false -> (length (print_int z) < n)%nat ->
  lexer_next_token n (L pre (print_int z ++ d :: k)) = Done (mk_tok TOK_NUMBER (Some (print_int z)), L (pre ++ print_int z) (d :: k)).
Proof.
  intros Hz Hd. unfold print_int. destruct (Z.ltb_spec z 0); [lia|].
  destruct (digits_head 10 z) as (c & b & Hcb & Hc); [simpl; lia|]. rewrite Hcb. intros Hn.
  pose proof (digits_are_digits 10 z ltac:(lia)) as Hdg. rewrite Hcb in Hdg. apply Forall_cons in Hdg as [_ Hdg].
  pose proof (length_digits_le 10 10 z ltac:(simpl; lia) ltac:(lia)) as Hl. rewrite Hcb in Hl. cbn [length] in Hl, Hn.
  destruct n as [|n]; [lia|]. cbn [lexer_next_token app]. rewrite next_char_L. decide_eqb.
  assert (isalpha c = false) as -> by (unfold isalpha; lia). cbn [orb].
  destruct (Z.leb_spec 49 c), (Z.leb_spec c 57); try lia. cbn [andb]. unfold lex_number. rewrite scan_number_run by (done || lia).
  cbn [obind]. unfold MAX_ARGUMENT_LEN. destruct (Nat.ltb_spec 256 (1 + length b)); [lia|]. rewrite <- app_assoc. cbn [app].
  do 4 f_equal. apply lexeme_L; [done|]. unfold L. cbn [lx_pos]. rewrite length_app. simpl. lia.
Qed.

Lemma atoi_print_int z : 0 <= z < 2 ^ 31 -> atoi (print_int z) = z.
Proof.
  intros Hz. unfold atoi, print_int. destruct (Z.ltb_spec z 0); [lia|]. rewrite strtol_digits by (simpl; lia).
  apply s32_small; lia.
Qed.

(** *** Punctuation *)
Lemma lex_space n pre k : lexer_next_token (S n) (L pre (32 :: k)) = lexer_next_token n (L (pre ++ [32]) k).
Proof. cbn [lexer_next_token]. by rewrite next_char_L. Qed.

Lemma lex_punct n pre k c t :
  (c, t) ∈ [(44, TOK_COMMA); (40, TOK_LPAREN); (41, TOK_RPAREN)] -> (0 < n)%nat ->
  lexer_next_token n (L pre (c :: k)) = Done (tok t, L (pre ++ [c]) k).
Proof.
  intros Hin Hn. destruct n as [|n]; [lia|]. cbn [lexer_next_token]. rewrite next_char_L.
  repeat (apply elem_of_cons in Hin as [[= -> ->]|Hin]; [done|]). by apply not_elem_of_nil in Hin.
Qed.

Lemma lex_arrow n pre k : (0 < n)%nat ->
  lexer_next_token n (L pre (58 :: 45 :: k)) = Done (tok TOK_COLONEQUALS, L (pre ++ [58; 45]) k).
Proof.
  intros Hn. destruct n as [|n]; [lia|]. cbn [lexer_next_token]. rewrite next_char_L. cbn [Z.eqb Pos.eqb orb].
  rewrite next_char_L. by rewrite <- app_assoc.
Qed.

Lemma lex_end n pre : (0 < n)%nat -> lexer_next_token n (L pre []) = Done (tok TOK_END, L pre []).
Proof. intros Hn. destruct n as [|n]; [lia|]. cbn [lexer_next_token]. by rewrite next_char_end. Qed.

Lemma lex_operator n pre k op :
  token_is_boolean_op (tok op) = true -> (0 < n)%nat ->
  lexer_next_token n (L pre (my_token_to_string op ++ 40 :: k)) =
  Done (tok op, L (pre ++ my_token_to_string op) (40 :: k)).
Proof.
  intros Hop Hn. destruct n as [|n]; [lia|]. cbn [lexer_next_token].
  destruct op; try done;
    match goal with |- context [my_token_to_string ?o] => let x := eval vm_compute in (my_token_to_string o) in
      change (my_token_to_string o) with x end; cbn [app]; rewrite next_char_L; cbn [Z.eqb Pos.eqb orb];
    unfold lex_boolean_op; rewrite next_char_L; cbn [Z.eqb Pos.eqb]; rewrite ?backup_L, <- ?app_assoc; done.
Qed.

(** ** Abstract syntax *)
Inductive sarg := SStr (s : bytes) | SDot (w : bytes) | SNum (z : Z).
Inductive satom := SRegular (name : bytes) (user : bool) (arg : option sarg) | SBoolean (op : token_type) (x y : sarg).
Record spolicy := mk_spolicy { sp_perm : Z; sp_atoms : list satom }.

(** *** Text *)
Definition sarg_text (x : sarg) : bytes :=
  match x with SStr s => 34 :: s ++ [34] | SDot w => w | SNum z => print_int z end.

Definition satom_text (a : satom) : bytes :=
  match a with
  | SRegular name user arg =>
      name ++ str "(" ++ (if user then str "u" else str "o") ++
      match arg with None => [] | Some x => str ", " ++ sarg_text x end ++ str ")"
  | SBoolean op x y => my_token_to_string op ++ str "(" ++ sarg_text x ++ str ", " ++ sarg_text y ++ str ")"
  end.

Fixpoint satoms_text (l : list satom) : bytes :=
  match l with
  | [] => []
  | [a] => satom_text a
  | a :: l' => satom_text a ++ str ", " ++ satoms_text l'
  end.

Definition spolicy_text (p : spolicy) : bytes :=
  default [] (perm_type_to_string (sp_perm p)) ++ str " :- " ++ satoms_text (sp_atoms p).

(** *** Meaning *)
Definition sarg_value (x : sarg) : abac_value :=
  match x with
  | SStr s => mk_value ABAC_VALUE_STRING false (Z.of_nat (S (length s))) (s ++ [0])
  | SDot w => mk_value ABAC_VALUE_IDENTIFIER false (Z.of_nat (S (length w))) (w ++ [0])
  | SNum z => mk_value ABAC_VALUE_NUMBER false 4 (le_encode 4 z ++ replicate 4 0)
  end.

(** The kind of entity a qualified name speaks of. *)
Definition sarg_type (x : sarg) : Z :=
  match x with SDot w => atom_type_from_char (default 0 (head w)) | _ => ATOM_TYPE_NONE end.

Definition satom_atom (a : satom) : policy_atom :=
  match a with
  | SRegular name user arg =>
      let vs := sarg_value <$> option_list arg in
      mk_atom (if user then ATOM_TYPE_USER else ATOM_TYPE_OBJECT) (pred_type_of_char (default 0 (head name)))
        (strncpy_field SYSTEM_FUNC_MAX_LENGTH name) (Z.of_nat (length vs)) (args_size vs) vs
  | SBoolean op x y =>
      let vs := [sarg_value x; sarg_value y] in
      mk_atom (Z.lor (sarg_type x) (sarg_type y)) PREDICATE_BOOL
        (strncpy_field SYSTEM_FUNC_MAX_LENGTH (my_token_to_string op)) 2 (args_size vs) vs
  end.

Definition spolicy_rule (u : uuid) (p : spolicy) : policy_rule :=
  let l := satom_atom <$> sp_atoms p in
  mk_rule (sp_perm p) (Z.of_nat (length l)) (types_of l) u l.

(** *** Well formed policies *)
Definition sarg_ok (x : sarg) : Prop :=
  match x with
  | SStr s => cstr_ok s /\ Forall (fun c => c <> 34) s /\ (length s <= MAX_ARGUMENT_LEN)%nat
  | SDot w => cstr_ok w /\ word true w = true
  | SNum z => 1 <= z < 2 ^ 31
  end.

(** A regular atom takes a string or a qualified name. *)
Definition satom_ok (a : satom) : Prop :=
  match a with
  | SRegular name _ arg =>
      word false name = true /\
      match arg with None => True | Some (SNum _) => False | Some x => sarg_ok x end
  | SBoolean op x y => token_is_boolean_op (tok op) = true /\ sarg_ok x /\ sarg_ok y
  end.

Record spolicy_ok (space : option attribute_space) (p : spolicy) : Prop := {
  so_perm : sp_perm p ∈ perm_map.*1;
  so_some : sp_atoms p <> [];
  so_small : Z.of_nat (length (sp_atoms p)) < 2 ^ 16;
  so_atoms : Forall satom_ok (sp_atoms p);
  so_valid : Forall (fun a => policy_atom_is_valid space (satom_atom a) = Some true) (sp_atoms p)
}.

(** ** Parser *)
Section parser.
Implicit Types (pre k : bytes) (n : nat) (tk : option my_token) (r : option policy_rule).

Lemma next_token_L n pre k tk r t lx :
  lexer_next_token n (L pre k) = Done (t, lx) ->
  next_token n (mk_parser (L pre k) tk None r) = Done (t, mk_parser lx (Some t) None r).
Proof. intros Ht. unfold next_token. cbn [ps_prev ps_lexer ps_rule]. by rewrite Ht. Qed.

Lemma consume_token_L n pre k tk r t lx :
  lexer_next_token n (L pre k) = Done (t, lx) ->
  consume_token n (mk_parser (L pre k) tk None r) (tok_type t) = Done (t, mk_parser lx (Some t) None r, 0).
Proof. intros Ht. unfold consume_token. rewrite (next_token_L _ _ _ _ _ _ _ Ht). cbn [obind]. by rewrite bool_decide_true. Qed.

(** The token of an argument, and what is made of it. *)
Definition sarg_token (x : sarg) : my_token :=
  match x with
  | SStr s => mk_tok TOK_STRING (Some s)
  | SDot w => mk_tok TOK_DOTNOTATION (Some w)
  | SNum z => mk_tok TOK_NUMBER (Some (print_int z))
  end.

Lemma lex_sarg n pre x d k :
  sarg_ok x -> delimiter d = true -> (length (sarg_text x) < n)%nat ->
  lexer_next_token n (L pre (sarg_text x ++ d :: k)) = Done (sarg_token x, L (pre ++ sarg_text x) (d :: k)).
Proof.
  intros Hx Hd Hn. destruct x as [s|w|z]; cbn [sarg_text sarg_ok sarg_token] in *.
  - destruct Hx as (_ & Hq & Hl). cbn [app]. rewrite <- app_assoc. cbn [app length] in *. rewrite length_app in Hn.
    simpl in Hn. by apply lex_quoted; [| |lia].
  - destruct Hx as [_ Hw]. by apply (lex_word n pre w d k true).
  - apply lex_digits; [done| |done]. unfold delimiter, isalnum in Hd. by destruct (isalpha d), (is_digit d).
Qed.

Lemma length_sarg x : sarg_ok x -> match x with SStr s | SDot s => (length s <= MAX_ARGUMENT_LEN)%nat | SNum _ => True end.
Proof.
  destruct x as [s|w|z]; cbn; [by intros (_ & _ & ?)| |done]. intros [_ Hw]. destruct w as [|c b]; [done|].
  by apply word_cons in Hw as (_ & _ & ?).
Qed.

Lemma value_of_sarg x : sarg_ok x -> abac_value_from_token (sarg_token x) = Some (sarg_value x).
Proof.
  intros Hx. pose proof (length_sarg x Hx) as Hl.
  destruct x as [s|w|z]; cbn [sarg_token sarg_value]; unfold abac_value_from_token, token_text;
    cbn [tok_type tok_val default from_option id].
  - unfold abac_value_from_str, abac_value_from_str_, strnlen, ABAC_VALUE_MAXLEN, MAX_ARGUMENT_LEN in *.
    rewrite Nat.min_l by lia. cbn. by rewrite take_ge by lia.
  - unfold abac_value_from_str_as_identifier, abac_value_from_str_, strnlen, ABAC_VALUE_MAXLEN, MAX_ARGUMENT_LEN in *.
    rewrite Nat.min_l by lia. cbn. by rewrite take_ge by lia.
  - cbn [sarg_ok] in Hx. by rewrite atoi_print_int by lia.
Qed.

Lemma sarg_value_ok x : sarg_ok x -> value_ok (sarg_value x) /\ 0 <= data_sz (sarg_value x) <= 257.
Proof.
  intros Hx. pose proof (value_of_sarg x Hx) as Hv. pose proof (length_sarg x Hx) as Hl. unfold MAX_ARGUMENT_LEN in Hl.
  destruct x as [s|w|z]; cbn [sarg_token] in Hv; unfold abac_value_from_token, token_text in Hv;
    cbn [tok_type tok_val default from_option id] in Hv; apply (inj Some) in Hv; (split; [rewrite <- Hv|cbn [sarg_value data_sz]; lia]).
  - apply from_str_ok, Hx.
  - apply from_str_ok, Hx.
  - apply from_int_ok.
Qed.

Lemma push_boolean_arg_spec a x :
  sarg_ok x -> 0 <= arity a < 2 -> 0 <= args_bufsize a < 2 ^ 10 ->
  push_boolean_arg a (sarg_token x) =
  Some (mk_atom (Z.lor (atom_type a) (sarg_type x)) (pred_type a) (predicate a) (arity a + 1)
          (args_bufsize a + abac_value_bufsize (sarg_value x)) (args_list a ++ [sarg_value x])).
Proof.
  intros Hx Ha Hb. unfold push_boolean_arg. rewrite value_of_sarg by done. cbn [mbind option_bind].
  destruct (sarg_value_ok x Hx) as [Hv Hd]. pose proof (value_bufsize _ Hv) as Hbs.
  assert (Hpush : policy_atom_push_arg a (sarg_value x) =
    mk_atom (atom_type a) (pred_type a) (predicate a) (arity a + 1) (args_bufsize a + abac_value_bufsize (sarg_value x)) (args_list a ++ [sarg_value x])).
  { unfold policy_atom_push_arg. rewrite Hbs. rewrite !wrap_small by (unfold in_range; lia). done. }
  rewrite Hpush. f_equal. destruct x as [s|w|z]; cbn [sarg_token tok_type sarg_type];
    [by rewrite bool_decide_false, Z.lor_0_r by done| |by rewrite bool_decide_false, Z.lor_0_r by done].
  rewrite bool_decide_true by done. unfold token_text, atom_type_from_char. cbn [tok_val default from_option id].
  destruct (_ =? 117); [done|]. destruct (_ =? 111); [done|]. by rewrite Z.lor_0_r.
Qed.

(** The first token of an atom may follow a space. *)
Definition blank (sp : bytes) : Prop := sp = [] \/ sp = [32].

Lemma lex_blank n pre sp k t lx :
  blank sp -> (forall m, (n <= S m)%nat -> lexer_next_token m (L (pre ++ sp) k) = Done (t, lx)) ->
  (0 < n)%nat -> lexer_next_token n (L pre (sp ++ k)) = Done (t, lx).
Proof.
  intros [-> | ->] Ht Hn; cbn [app].
  - rewrite app_nil_r in Ht. apply Ht. lia.
  - destruct n as [|n]; [lia|]. rewrite lex_space. apply Ht. lia.
Qed.

(** After a comma comes one space. *)
Lemma lex_comma_space n pre x d k :
  sarg_ok x -> delimiter d = true -> (S (length (sarg_text x)) < n)%nat ->
  lexer_next_token n (L pre (32 :: sarg_text x ++ d :: k)) = Done (sarg_token x, L (pre ++ 32 :: sarg_text x) (d :: k)).
Proof.
  intros Hx Hd Hn. destruct n as [|n]; [lia|]. rewrite lex_space, lex_sarg by (done || lia). by rewrite <- app_assoc.
Qed.

Lemma parse_boolean_spec n pre k tk r a x y :
  sarg_ok x -> sarg_ok y -> arity a = 0 -> args_bufsize a = 0 -> args_list a = [] -> atom_type a = 0 ->
  (length (sarg_text x) + length (sarg_text y) + 2 < n)%nat ->
  parse_boolean_atom_type n (mk_parser (L pre (sarg_text x ++ 44 :: 32 :: sarg_text y ++ 41 :: k)) tk None r) a =
  Done (mk_parser (L (pre ++ sarg_text x ++ 44 :: 32 :: sarg_text y) (41 :: k)) (Some (sarg_token y)) None r,
    mk_atom (Z.lor (sarg_type x) (sarg_type y)) (pred_type a) (predicate a) 2 (args_size [sarg_value x; sarg_value y])
      [sarg_value x; sarg_value y], 0).
Proof.
  intros Hx Hy Har Hsz Hl Hty Hn. unfold parse_boolean_atom_type.
  rewrite (next_token_L _ _ _ _ _ _ _ (lex_sarg n pre x 44 _ Hx eq_refl ltac:(lia))). cbn [obind].
  rewrite push_boolean_arg_spec by (done || lia). 
  change TOK_COMMA with (tok_type (tok TOK_COMMA)). rewrite (consume_token_L _ _ _ _ _ _ _ (lex_punct n _ _ 44 TOK_COMMA ltac:(left) ltac:(lia))).
  cbn [obind negb Z.eqb]. rewrite (next_token_L _ _ _ _ _ _ _ (lex_comma_space n _ y 41 k Hy eq_refl ltac:(lia))). cbn [obind].
  destruct (sarg_value_ok x Hx) as [Hvx Hdx]. pose proof (value_bufsize _ Hvx) as Hbx.
  rewrite push_boolean_arg_spec; [|done|simpl; lia|simpl; rewrite Hbx; lia].
  cbn [atom_type pred_type predicate arity args_bufsize args_list]. rewrite Har, Hsz, Hl, Hty, Z.lor_0_l. cbn [app args_size foldr].
  rewrite <- !app_assoc. cbn [app]. rewrite !Z.add_0_l, Z.add_0_r. done.
Qed.

Definition type_letter (user : bool) : Z := if user then 117 else 111.

Lemma lex_letter n pre user d k :
  delimiter d = true -> (1 < n)%nat ->
  lexer_next_token n (L pre (type_letter user :: d :: k)) =
  Done (mk_tok TOK_IDENTIFIER (Some [type_letter user]), L (pre ++ [type_letter user]) (d :: k)).
Proof. intros Hd Hn. by apply (lex_word n pre [type_letter user] d k false); [destruct user| |]. Qed.

Lemma letter_type user :
  (if strncmp (token_text (mk_tok TOK_IDENTIFIER (Some [type_letter user]))) (str "u") 5 =? 0 then Some ATOM_TYPE_USER
   else if strncmp (token_text (mk_tok TOK_IDENTIFIER (Some [type_letter user]))) (str "o") 5 =? 0 then Some ATOM_TYPE_OBJECT else None)
  = Some (if user then ATOM_TYPE_USER else ATOM_TYPE_OBJECT).
Proof. by destruct user. Qed.

(** The arguments of a regular atom, up to the closing parenthesis. *)
Lemma parse_regular_spec n pre k tk r a user arg :
  match arg with None => True | Some (SNum _) => False | Some x => sarg_ok x end ->
  arity a = 0 -> args_bufsize a = 0 -> args_list a = [] ->
  let body := type_letter user :: match arg with None => [] | Some x => 44 :: 32 :: sarg_text x end in
  (length body < n)%nat ->
  exists p', parse_regular_atom_type n (mk_parser (L pre (body ++ 41 :: k)) tk None r) a =
    Done (p', mk_atom (if user then ATOM_TYPE_USER else ATOM_TYPE_OBJECT) (pred_type a) (predicate a)
      (Z.of_nat (length (option_list arg))) (args_size (sarg_value <$> option_list arg)) (sarg_value <$> option_list arg), 0) /\
    consume_token n p' TOK_RPAREN = Done (tok TOK_RPAREN, mk_parser (L (pre ++ body ++ [41]) k) (Some (tok TOK_RPAREN)) None r, 0).
Proof.
  intros Harg Har Hsz Hl body Hn. unfold parse_regular_atom_type. unfold body in Hn. cbn [length] in Hn.
  change TOK_IDENTIFIER with (tok_type (mk_tok TOK_IDENTIFIER (Some [type_letter user]))). destruct arg as [x|].
  - assert (Hx : sarg_ok x) by (by destruct x). cbn [length] in Hn. unfold body. cbn [app].
    rewrite (consume_token_L _ _ _ _ _ _ _ (lex_letter n pre user 44 _ eq_refl ltac:(lia))). cbn [obind negb Z.eqb].
    rewrite letter_type.
    rewrite (next_token_L _ _ _ _ _ _ _ (lex_punct n _ _ 44 TOK_COMMA ltac:(left) ltac:(lia))). cbn [obind tok_type tok].
    rewrite (next_token_L _ _ _ _ _ _ _ (lex_comma_space n _ x 41 k Hx eq_refl ltac:(lia))). cbn [obind].
    assert (Hnum : bool_decide (tok_type (sarg_token x) <> TOK_STRING) && bool_decide (tok_type (sarg_token x) = TOK_NUMBER) = false)
      by (by destruct x). rewrite Hnum, value_of_sarg by done. eexists. split; [|].
    + do 2 f_equal. f_equal. unfold policy_atom_push_arg. cbn [set_atom_type atom_type pred_type predicate arity args_bufsize args_list].
      rewrite Har, Hsz, Hl. change (option_list (Some x)) with [x]. cbn [app fmap list_fmap length]. rewrite Z.add_0_l.
      unfold args_size. cbn [foldr]. rewrite Z.add_0_r.
      destruct (sarg_value_ok x Hx) as [Hv Hd]. rewrite value_bufsize by done. rewrite !wrap_small by (unfold in_range; lia). done.
    + change TOK_RPAREN with (tok_type (tok TOK_RPAREN)) at 1.
      rewrite (consume_token_L _ _ _ _ _ _ _ (lex_punct n _ _ 41 TOK_RPAREN ltac:(set_solver) ltac:(lia))).
      rewrite <- !app_assoc. cbn [app]. by rewrite <- ?app_assoc.
  - unfold body. cbn [app].
    rewrite (consume_token_L _ _ _ _ _ _ _ (lex_letter n pre user 41 _ eq_refl ltac:(lia))). cbn [obind negb Z.eqb].
    rewrite letter_type.
    rewrite (next_token_L _ _ _ _ _ _ _ (lex_punct n _ _ 41 TOK_RPAREN ltac:(set_solver) ltac:(lia))). cbn [obind tok_type tok].
    eexists. split; [|].
    + do 2 f_equal. f_equal. unfold set_atom_type. by rewrite Har, Hsz, Hl.
    + unfold consume_token, next_token, prev_token. cbn [ps_prev ps_token ps_lexer ps_rule obind].
      rewrite bool_decide_true by done. by rewrite <- !app_assoc.
Qed.

Definition regular_body (user : bool) (arg : option sarg) : bytes :=
  type_letter user :: match arg with None => [] | Some x => 44 :: 32 :: sarg_text x end.

Lemma regular_text name user arg : satom_text (SRegular name user arg) = name ++ 40 :: regular_body user arg ++ [41].
Proof. by destruct user, arg. Qed.

Lemma boolean_text op x y :
  satom_text (SBoolean op x y) = my_token_to_string op ++ 40 :: sarg_text x ++ 44 :: 32 :: sarg_text y ++ [41].
Proof. done. Qed.

Lemma parse_atom_spec space n pre sp k tk (r : policy_rule) a :
  satom_ok a -> policy_atom_is_valid space (satom_atom a) = Some true -> blank sp -> (S (length (satom_text a)) < n)%nat ->
  parse_atom space n (mk_parser (L pre (sp ++ satom_text a ++ k)) tk None (Some r)) =
  Done (mk_parser (L (pre ++ sp ++ satom_text a) k) (Some (tok TOK_RPAREN)) None (Some (policy_rule_push_atom r (satom_atom a))), 0).
Proof.
  intros Ha Hv Hsp Hn. unfold parse_atom. destruct a as [name user arg|op x y].
  - destruct Ha as [Hw Harg]. rewrite regular_text in *. rewrite length_app in Hn. cbn [length] in Hn. rewrite length_app in Hn. simpl in Hn.
    rewrite <- app_assoc. cbn [app]. rewrite <- app_assoc. cbn [app].
    rewrite (next_token_L _ _ _ _ _ _ _ (lex_blank n pre sp _ _ _ Hsp
      (fun m Hm => lex_word m (pre ++ sp) name 40 _ false Hw eq_refl ltac:(lia)) ltac:(lia))). cbn [obind tok_type].
    change (token_text (mk_tok TOK_IDENTIFIER (Some name))) with name. change TOK_LPAREN with (tok_type (tok TOK_LPAREN)).
    rewrite (consume_token_L _ _ _ _ _ _ _ (lex_punct n _ _ 40 TOK_LPAREN ltac:(set_solver) ltac:(lia))). cbn [obind negb Z.eqb].
    assert (Hhd : head (strncpy_field SYSTEM_FUNC_MAX_LENGTH name) = head name) by (by destruct name).
    assert (Hpt : pred_type (policy_atom_new_from_predicate name) = pred_type_of_char (default 0 (head name))) by (simpl; by rewrite Hhd).
    assert (Hnb : (pred_type (policy_atom_new_from_predicate name) =? PREDICATE_BOOL) = false).
    { rewrite Hpt. destruct name as [|c b]; [done|]. pose proof (word_start c (proj1 (word_cons _ _ _ Hw))) as Hc. cbn [head default from_option id].
      unfold pred_type_of_char. decide_eqb. cbn [orb]. by destruct (c =? 64). }
    rewrite Hnb. destruct (parse_regular_spec n (((pre ++ sp) ++ name) ++ [40]) k (Some (tok TOK_LPAREN)) (Some r)
      (policy_atom_new_from_predicate name) user arg Harg eq_refl eq_refl eq_refl) as (p' & Hp & Hc); [unfold regular_body in Hn; simpl in *; lia|].
    unfold regular_body. rewrite Hp. cbn [obind negb Z.eqb]. rewrite Hc. cbn [obind negb Z.eqb]. rewrite Hpt.
    match goal with |- context [policy_atom_is_valid _ ?x] => replace x with (satom_atom (SRegular name user arg)) end.
    2: { cbn [satom_atom]. by rewrite length_fmap. }
    rewrite Hv. cbn [lift obind negb ps_rule set_rule ps_lexer ps_token ps_prev]. do 3 f_equal. f_equal. by rewrite <- !app_assoc.
  - destruct Ha as (Hop & Hx & Hy). rewrite boolean_text in *. rewrite !length_app in Hn. cbn [length] in Hn. rewrite !length_app in Hn.
    cbn [length] in Hn. rewrite length_app in Hn. simpl in Hn.
    rewrite <- app_assoc. cbn [app]. rewrite <- app_assoc. cbn [app]. rewrite <- app_assoc. cbn [app].
    rewrite (next_token_L _ _ _ _ _ _ _ (lex_blank n pre sp _ _ _ Hsp
      (fun m Hm => lex_operator m (pre ++ sp) _ op Hop ltac:(lia)) ltac:(lia))). cbn [obind].
    assert (Hname : match tok_type (tok op) with TOK_IDENTIFIER => Some (token_text (tok op))
      | _ => if token_is_boolean_op (tok op) then Some (my_token_to_string (tok_type (tok op))) else None end = Some (my_token_to_string op))
      by (by destruct op). rewrite Hname. change TOK_LPAREN with (tok_type (tok TOK_LPAREN)).
    rewrite (consume_token_L _ _ _ _ _ _ _ (lex_punct n _ _ 40 TOK_LPAREN ltac:(set_solver) ltac:(lia))). cbn [obind negb Z.eqb].
    assert (Hb : pred_type (policy_atom_new_from_predicate (my_token_to_string op)) = PREDICATE_BOOL) by (by destruct op).
    rewrite Hb, Z.eqb_refl. rewrite parse_boolean_spec by (done || lia). cbn [obind negb Z.eqb].
    change TOK_RPAREN with (tok_type (tok TOK_RPAREN)) at 1.
    rewrite (consume_token_L _ _ _ _ _ _ _ (lex_punct n _ _ 41 TOK_RPAREN ltac:(set_solver) ltac:(lia))). cbn [obind negb Z.eqb].
    rewrite Hb. match goal with |- context [policy_atom_is_valid _ ?b] => change b with (satom_atom (SBoolean op x y)) end.
    rewrite Hv. cbn [lift obind negb ps_rule set_rule ps_lexer ps_token ps_prev].
    do 3 f_equal. f_equal. by repeat (rewrite <- ?app_assoc; cbn [app]).
Qed.

Lemma satoms_text_cons a b l : satoms_text (a :: b :: l) = satom_text a ++ 44 :: 32 :: satoms_text (b :: l).
Proof. done. Qed.

Lemma parse_atoms_spec space l n pre sp tk (r : policy_rule) :
  l <> [] -> Forall satom_ok l -> Forall (fun a => policy_atom_is_valid space (satom_atom a) = Some true) l ->
  blank sp -> (S (length (satoms_text l)) < n)%nat ->
  exists pre', parse_atoms space n (mk_parser (L pre (sp ++ satoms_text l)) tk None (Some r)) =
    Done (mk_parser (L pre' []) (Some (tok TOK_END)) None (Some (foldl policy_rule_push_atom r (satom_atom <$> l))), 0).
Proof.
  revert n pre sp tk r; induction l as [|a l IH]; intros n pre sp tk r Hne Hok Hv Hsp Hn; [done|].
  apply Forall_cons in Hok as [Ha Hok], Hv as [Hva Hv]. destruct n as [|n]; [simpl in Hn; lia|].
  cbn [parse_atoms]. destruct l as [|b l].
  - change (satoms_text [a]) with (satom_text a) in *. assert (Hnil : satom_text a = satom_text a ++ []) by (by rewrite app_nil_r).
    rewrite Hnil. rewrite parse_atom_spec by done. cbn [obind negb Z.eqb].
    rewrite (next_token_L _ _ _ _ _ _ _ (lex_end (S n) _ ltac:(lia))). cbn [obind tok tok_type]. by eexists.
  - rewrite satoms_text_cons in *. rewrite length_app in Hn. cbn [length] in Hn.
    rewrite parse_atom_spec by (done || lia). cbn [obind negb Z.eqb].
    rewrite (next_token_L _ _ _ _ _ _ _ (lex_punct (S n) _ _ 44 TOK_COMMA ltac:(left) ltac:(lia))). cbn [obind tok tok_type].
    change (32 :: satoms_text (b :: l)) with ([32] ++ satoms_text (b :: l)).
    apply IH; [done|done|done|by right|lia].
Qed.

Lemma push_atoms_fold l (r : policy_rule) :
  0 <= atom_count r -> atom_count r + Z.of_nat (length l) < 2 ^ 64 ->
  foldl policy_rule_push_atom r l =
  mk_rule (perm_type r) (atom_count r + Z.of_nat (length l)) (foldl (fun z a => Z.lor z (atom_type a)) (atom_types r) l)
    (rule_uuid r) (atoms r ++ l).
Proof.
  revert r; induction l as [|a l IH]; intros r H0 Hb.
  - cbn. rewrite Z.add_0_r, app_nil_r. by destruct r.
  - cbn [foldl length] in *. assert (Hc : atom_count (policy_rule_push_atom r a) = atom_count r + 1) by (simpl; word_solve).
    rewrite IH by (rewrite Hc; lia). rewrite Hc. cbn [policy_rule_push_atom perm_type atom_types rule_uuid atoms].
    rewrite <- app_assoc. replace (atom_count r + 1 + Z.of_nat (length l)) with (atom_count r + Z.of_nat (S (length l))) by lia. done.
Qed.

Lemma perm_text perm :
  perm ∈ perm_map.*1 -> exists s, perm_type_to_string perm = Some s /\ word false s = true /\
    policy_rule_new_from_perm_str s = fun u => Some (policy_rule_new perm u).
Proof.
  intros Hin. repeat (apply elem_of_cons in Hin as [->|Hin]; [by eexists; split_and!|]). by apply not_elem_of_nil in Hin.
Qed.

Lemma parse_policy_spec space u n p :
  spolicy_ok space p -> (length (spolicy_text p) < n)%nat ->
  parse_abac_policy space u n (spolicy_text p) = Done (Some (spolicy_rule u p)).
Proof.
  intros [Hp Hne Hsm Hok Hv] Hn. unfold spolicy_text in *. destruct (perm_text _ Hp) as (s & Hs & Hw & Hnew). rewrite Hs in *.
  cbn [default from_option id] in *. change (str " :- ") with [32; 58; 45; 32] in *. rewrite length_app in Hn. cbn [app length] in *.
  unfold parse_abac_policy, parse_rule, parser_new. change (lexer_create ?x) with (L [] x).
  rewrite (next_token_L _ _ _ _ _ _ _ (lex_word n [] s 32 _ false Hw eq_refl ltac:(lia))). cbn [obind tok_type].
  change (token_text (mk_tok TOK_IDENTIFIER (Some s))) with s. rewrite Hnew. unfold set_rule. cbn [ps_lexer ps_token ps_prev].
  change TOK_COLONEQUALS with (tok_type (tok TOK_COLONEQUALS)).
  rewrite (consume_token_L _ _ _ _ _ _ _ (lex_blank n _ [32] (58 :: 45 :: 32 :: satoms_text (sp_atoms p)) _ _ (or_intror eq_refl)
    (fun m Hm => lex_arrow m _ _ ltac:(lia)) ltac:(lia))). cbn [obind negb Z.eqb].
  change (32 :: satoms_text (sp_atoms p)) with ([32] ++ satoms_text (sp_atoms p)).
  match goal with |- context [parse_atoms _ _ (mk_parser (L ?pre _) ?tk None _)] =>
    destruct (parse_atoms_spec space (sp_atoms p) n pre [32] tk (policy_rule_new (sp_perm p) u) Hne Hok Hv (or_intror eq_refl) ltac:(lia))
      as (pre' & ->) end.
  cbn [obind negb Z.eqb ps_token lift tok tok_type ps_rule]. rewrite push_atoms_fold by (rewrite ?length_fmap; simpl; lia). done.
Qed.
End parser.
