(* ===== verification/AbacParserProps.v ===== *)
(** * Properties of the policy parser

    What holds of the parser on any input: the rules it returns are well
    formed, and it returns within as many turns as the text has characters
    unless a string is left open.  Both come from one Hoare-style walk over
    the lexer and the parser. *)
From stdpp Require Import strings.
From S2P Require Import Prelude Hashmap Types AttributeTable AbacValue AbacRule AttributeSpace SystemFunctions AbacParser AbacSyntax.

(** The number of quotes in a text. *)
Definition quotes (k : bytes) : nat := length (filter (fun c => c = 34) k).

Lemma quotes_app k k' : quotes (k ++ k') = (quotes k + quotes k')%nat.
Proof. unfold quotes. by rewrite filter_app, length_app. Qed.

Lemma quotes_cons c k : quotes (c :: k) = ((if (c =? 34)%Z then 1 else 0) + quotes k)%nat.
Proof. unfold quotes. rewrite filter_cons. destruct (decide (c = 34)) as [->|Hne]; [done|]. by rewrite (proj2 (Z.eqb_neq c 34)). Qed.

(** [hoare total P o]: a result of [o] satisfies [P]; when [total], [o] does
    not spin. *)
Definition hoare {A} (total : bool) (P : A -> Prop) (o : outcome A) : Prop :=
  match o with Done x => P x | Fault => True | Spin => total = false end.

Lemma hoare_bind {A B} total (P : A -> Prop) (Q : B -> Prop) o f :
  hoare total P o -> (forall x, P x -> hoare total Q (f x)) -> hoare total Q (obind f o).
Proof. destruct o; cbn; auto. Qed.

Lemma hoare_mono {A} total (P Q : A -> Prop) o : hoare total P o -> (forall x, P x -> Q x) -> hoare total Q o.
Proof. destruct o; cbn; auto. Qed.

Section hoare.
Variable total : bool.
Implicit Types (pre k : bytes) (n m : nat).

(** [lx'] stands in the same text as [pre ++ k], with at most [m] characters
    left, and as many quotes left as [k] has. *)
Definition moved (input : bytes) (m q : nat) (lx' : my_lexer) : Prop :=
  exists pre' k', lx' = L pre' k' /\ pre' ++ k' = input /\ (length k' <= m)%nat /\ quotes k' = q.

(** ** Scanning loops *)
(** A loop that gives back the character it stopped at: at the end of the
    text it steps back over the last character of the token instead. *)
Lemma stopped_ok pre c0 k :
  c0 <> 34 -> moved (pre ++ c0 :: k) (S (length k)) (quotes k) (backup (next_char (L (pre ++ [c0]) k)).2).
Proof.
  intros Hc. destruct k as [|c k].
  - rewrite next_char_end. cbn [snd]. rewrite backup_L. exists pre, [c0]. split_and!; try done.
    rewrite quotes_cons. by destruct (Z.eqb_spec c0 34).
  - rewrite next_char_L. cbn [snd]. rewrite backup_L. exists (pre ++ [c0]), (c :: k). split_and!; try done; [by rewrite <- app_assoc|simpl; lia].
Qed.

Lemma moved_shift pre c0 c k m q lx :
  moved ((pre ++ [c0]) ++ c :: k) m q lx -> moved (pre ++ c0 :: c :: k) m q lx.
Proof. by rewrite <- app_assoc. Qed.

Lemma moved_le input m m' q lx : moved input m q lx -> (m <= m')%nat -> moved input m' q lx.
Proof. intros (pre' & k' & -> & ? & ? & ?) Hm. exists pre', k'. split_and!; auto. lia. Qed.

Lemma quotes_skip c k : c <> 34 -> quotes (c :: k) = quotes k.
Proof. intros. rewrite quotes_cons. by destruct (Z.eqb_spec c 34). Qed.

Lemma scan_number_hoare n pre c0 k len :
  c0 <> 34 -> (total = true -> length k < n)%nat ->
  hoare total (fun r => moved (pre ++ c0 :: k) (S (length k)) (quotes k) r.1) (scan_number n (L (pre ++ [c0]) k) len).
Proof.
  revert pre c0 k len; induction n as [|n IH]; intros pre c0 k len Hc Hn; [destruct total; [specialize (Hn eq_refl); lia|done]|].
  cbn [scan_number]. pose proof (stopped_ok pre c0 k Hc) as Hstop. destruct k as [|c k].
  - rewrite next_char_end in *. done.
  - rewrite next_char_L in *. destruct (is_digit c) eqn:Hd; [|done].
    assert (Hc' : c <> 34) by (intros ->; done). eapply hoare_mono; [apply IH; [done|]|].
    + intros Ht. specialize (Hn Ht). simpl in Hn. lia.
    + intros [lx l] Hm. apply moved_shift. rewrite quotes_skip by done. eapply moved_le; [exact Hm|]. simpl; lia.
Qed.

Lemma isalnum_not_quote c : isalnum c = true -> c <> 34.
Proof. by intros Ha ->. Qed.

Lemma scan_identifier_hoare n pre c0 k len dot at_ :
  c0 <> 34 -> (total = true -> length k < n)%nat ->
  hoare total (fun r => moved (pre ++ c0 :: k) (S (length k)) (quotes k) r.1) (scan_identifier n (L (pre ++ [c0]) k) len dot at_).
Proof.
  revert pre c0 k len dot at_; induction n as [|n IH]; intros pre c0 k len dot at_ Hc Hn; [destruct total; [specialize (Hn eq_refl); lia|done]|].
  cbn [scan_identifier]. pose proof (stopped_ok pre c0 k Hc) as Hstop. destruct k as [|c k].
  - rewrite next_char_end in *. done.
  - rewrite next_char_L in *. cbn [snd] in Hstop.
    assert (Hrec : forall dot at_, c <> 34 ->
      hoare total (fun r => moved (pre ++ c0 :: c :: k) (S (length (c :: k))) (quotes (c :: k)) r.1) (scan_identifier n (L ((pre ++ [c0]) ++ [c]) k) (S len) dot at_)).
    { intros dot' at' Hc'. eapply hoare_mono; [apply IH; [done|]|].
      - intros Ht. specialize (Hn Ht). simpl in Hn. lia.
      - intros [lx l] Hm. apply moved_shift. rewrite quotes_skip by done. eapply moved_le; [exact Hm|]. simpl; lia. }
    assert (Hdone : c <> 34 -> moved (pre ++ c0 :: c :: k) (S (length (c :: k))) (quotes (c :: k)) (L ((pre ++ [c0]) ++ [c]) k)).
    { intros Hc'. exists ((pre ++ [c0]) ++ [c]), k. rewrite quotes_skip by done. split_and!; try done; [by rewrite <- !app_assoc|simpl; lia]. }
    destruct (isalnum c) eqn:Ha; [by apply Hrec, isalnum_not_quote|].
    destruct (Z.eqb_spec c 46) as [->|]; [destruct dot; [by apply Hdone|by apply Hrec]|].
    destruct (Z.eqb_spec c 64) as [->|]; [destruct at_; [by apply Hdone|by apply Hrec]|]. done.
Qed.

(** Without a closing quote the loop goes on at the end of the text. *)
Lemma scan_string_open n pre k len : Forall (fun c => c <> 34) k -> scan_string n (L pre k) len = Spin.
Proof.
  revert pre k len; induction n as [|n IH]; intros pre k len Hk; [done|]. cbn [scan_string]. destruct k as [|c k].
  - rewrite next_char_end. by apply IH.
  - rewrite next_char_L. apply Forall_cons in Hk as [Hc Hk]. destruct (Z.eqb_spec c 34); [done|]. by apply IH.
Qed.

(** The closing quote is found when the quotes are paired. *)
Lemma scan_string_hoare n pre k len :
  (total = true -> length k < n /\ Nat.odd (quotes k) = true)%nat ->
  hoare total (fun r => exists pre' k', r.1 = L pre' k' /\ pre' ++ k' = pre ++ k /\ (length k' < length k)%nat /\ quotes k = S (quotes k'))
    (scan_string n (L pre k) len).
Proof.
  revert pre k len; induction n as [|n IH]; intros pre k len Hn; [destruct total; [destruct (Hn eq_refl); lia|done]|].
  cbn [scan_string]. destruct k as [|c k].
  - rewrite next_char_end. cbn [Z.eqb]. rewrite (scan_string_open n pre []) by done. destruct total; [by destruct (Hn eq_refl)|done].
  - rewrite next_char_L. rewrite quotes_cons in *. destruct (c =? 34).
    + exists (pre ++ [c]), k. split_and!; try done; [by rewrite <- app_assoc|simpl; lia].
    + eapply hoare_mono; [apply IH|].
      * intros Ht. destruct (Hn Ht). simpl in *. split; [lia|done].
      * intros [lx l] (pre' & k' & -> & Hp & Hl & Hq). exists pre', k'. rewrite Hp, <- app_assoc. split_and!; try done; simpl; lia.
Qed.

(** ** Tokens *)
Definition tok_good (t : my_token) : Prop := cstr_ok (token_text t) /\ (length (token_text t) <= MAX_ARGUMENT_LEN)%nat.

(** Tokens that use up at least one character. *)
Definition strict (t : token_type) : Prop := t = TOK_LPAREN \/ t = TOK_RPAREN \/ t = TOK_COMMA.

Definition lexed (pre k : bytes) (r : my_token * my_lexer) : Prop :=
  tok_good r.1 /\ exists pre' k', r.2 = L pre' k' /\ pre' ++ k' = pre ++ k /\ (length k' <= length k)%nat /\
    (tok_type r.1 <> TOK_UNKNOWN -> Nat.even (quotes k') = Nat.even (quotes k)) /\
    (strict (tok_type r.1) -> (length k' < length k)%nat).

Lemma tok_good_plain t : tok_good (tok t).
Proof. split; [constructor|simpl; lia]. Qed.

Lemma not_strict t : t <> TOK_LPAREN -> t <> TOK_RPAREN -> t <> TOK_COMMA -> ~ strict t.
Proof. intros ? ? ? [?|[?|?]]; done. Qed.

Lemma lexeme_good lx start len ty :
  cstr_ok (lx_input lx) -> (len <= MAX_ARGUMENT_LEN)%nat -> tok_good (mk_tok ty (Some (lexeme lx start len))).
Proof.
  intros Hi Hl. split; unfold token_text; cbn [tok_val default from_option id]; unfold lexeme.
  - by apply Forall_take, Forall_drop.
  - rewrite length_take. lia.
Qed.

(** A token whose scan stayed in the text. *)
Lemma lexed_moved pre c k t lx :
  tok_good t -> moved (pre ++ c :: k) (S (length k)) (quotes k) lx -> c <> 34 -> ~ strict (tok_type t) ->
  lexed pre (c :: k) (t, lx).
Proof.
  intros Ht (pre' & k' & -> & Hp & Hl & Hq) Hc Hs. split; [done|]. exists pre', k'. cbn [fst snd]. rewrite quotes_skip, Hq by done. done.
Qed.

(** A token of plain characters. *)
Lemma lexed_plain pre w k t :
  Forall (fun c => c <> 34) w -> w <> [] -> lexed pre (w ++ k) (tok t, L (pre ++ w) k).
Proof.
  intros Hw Hne. split; [apply tok_good_plain|]. exists (pre ++ w), k. cbn [fst snd]. rewrite length_app.
  assert (quotes w = 0%nat) as Hq by (unfold quotes; rewrite filter_none; done). rewrite quotes_app, Hq.
  destruct w; [done|]. split_and!; try done; [by rewrite <- app_assoc|simpl; lia..].
Qed.

Lemma lexed_unknown pre pre' k k' :
  pre' ++ k' = pre ++ k -> (length k' <= length k)%nat -> lexed pre k (tok TOK_UNKNOWN, L pre' k').
Proof.
  intros Hp Hl. split; [apply tok_good_plain|]. exists pre', k'. cbn [fst snd]. split_and!; try done. by intros [?|[?|?]].
Qed.

Lemma lex_number_hoare n pre c k :
  cstr_ok (pre ++ c :: k) -> c <> 34 -> (total = true -> length k < n)%nat ->
  hoare total (lexed pre (c :: k)) (lex_number n (L (pre ++ [c]) k)).
Proof.
  intros Hi Hc Hn. unfold lex_number. eapply hoare_bind; [by apply scan_number_hoare|]. intros [lx len] Hm. cbn [fst] in Hm.
  assert (Hin : lx_input lx = pre ++ c :: k) by (destruct Hm as (pre' & k' & -> & ? & _); done).
  destruct (Nat.ltb_spec MAX_ARGUMENT_LEN len); apply lexed_moved; try done.
  - apply tok_good_plain.
  - by apply not_strict.
  - apply lexeme_good; [by rewrite Hin|lia].
  - by apply not_strict.
Qed.

Lemma lex_identifier_hoare n pre c k :
  cstr_ok (pre ++ c :: k) -> c <> 34 -> (total = true -> length k < n)%nat ->
  hoare total (lexed pre (c :: k)) (lex_identifier n (L (pre ++ [c]) k)).
Proof.
  intros Hi Hc Hn. unfold lex_identifier. eapply hoare_bind; [by apply scan_identifier_hoare|]. intros [lx r] Hm. cbn [fst] in Hm.
  assert (Hin : lx_input lx = pre ++ c :: k) by (destruct Hm as (pre' & k' & -> & ? & _); done).
  destruct r as [[len dot]|]; [destruct (Nat.ltb_spec MAX_ARGUMENT_LEN len)|]; apply lexed_moved; try done; try by apply not_strict.
  - apply tok_good_plain.
  - apply lexeme_good; [by rewrite Hin|lia].
  - destruct dot; by apply not_strict.
  - apply tok_good_plain.
Qed.

Lemma lex_string_hoare n pre k :
  cstr_ok (pre ++ 34 :: k) -> (total = true -> (length k < n)%nat /\ Nat.even (quotes (34 :: k)) = true) ->
  hoare total (lexed pre (34 :: k)) (lex_string n (L (pre ++ [34]) k)).
Proof.
  intros Hi Hn. unfold lex_string. rewrite quotes_cons in Hn. cbn [Z.eqb Pos.eqb Nat.add] in Hn.
  eapply hoare_bind.
  { apply scan_string_hoare. intros Ht. destruct (Hn Ht) as [Hl He]. split; [done|]. by rewrite Nat.even_succ in He. }
  intros [lx len] (pre' & k' & Hlx & Hp & Hl & Hq). cbn [fst] in Hlx. subst lx. rewrite <- app_assoc in Hp. cbn [app] in Hp.
  assert (Heq : Nat.even (quotes k') = Nat.even (quotes (34 :: k))) by (rewrite quotes_cons, Hq; done).
  destruct (Nat.ltb_spec MAX_ARGUMENT_LEN len); (split; cbn [fst snd];
    [|exists pre', k'; split_and!; try done; simpl; [lia|intros; lia]]).
  - apply tok_good_plain.
  - apply lexeme_good; [|lia]. unfold L. cbn [lx_input]. by rewrite Hp.
Qed.

Lemma lex_boolean_hoare pre c k :
  c = 60 \/ c = 62 \/ c = 33 \/ c = 61 -> lexed pre (c :: k) (lex_boolean_op (L (pre ++ [c]) k) c).
Proof.
  intros Hc. assert (Hc' : c <> 34) by lia. unfold lex_boolean_op.
  assert (Hbk : forall t, t = TOK_LT \/ t = TOK_GT -> lexed pre (c :: k) (tok t, backup (next_char (L (pre ++ [c]) k)).2)).
  { intros t Ht. apply lexed_moved; [apply tok_good_plain|by apply stopped_ok|done|]. destruct Ht as [-> | ->]; by apply not_strict. }
  assert (Hun : lexed pre (c :: k) (tok TOK_UNKNOWN, (next_char (L (pre ++ [c]) k)).2)).
  { destruct k as [|d k]; [rewrite next_char_end|rewrite next_char_L]; apply lexed_unknown; try (simpl; lia); by rewrite <- !app_assoc. }
  assert (Htwo : forall t, (next_char (L (pre ++ [c]) k)).1 = 61 -> lexed pre (c :: k) (tok t, (next_char (L (pre ++ [c]) k)).2)).
  { intros t. destruct k as [|d k]; [by rewrite next_char_end|rewrite next_char_L; cbn [fst snd]; intros ->].
    rewrite <- app_assoc. apply (lexed_plain pre [c; 61]); [|done]. repeat constructor; [lia|done]. }
  destruct (next_char (L (pre ++ [c]) k)) as [d lx]. cbn [fst snd] in *.
  destruct (Z.eqb_spec d 61) as [->|]; repeat case_match; eauto.
Qed.

Lemma lexer_hoare n pre k :
  cstr_ok (pre ++ k) -> (total = true -> length k < n /\ Nat.even (quotes k) = true)%nat ->
  hoare total (lexed pre k) (lexer_next_token n (L pre k)).
Proof.
  revert pre k; induction n as [|n IH]; intros pre k Hi Hn; [destruct total; [destruct (Hn eq_refl); lia|done]|].
  cbn [lexer_next_token]. destruct k as [|c k].
  { rewrite next_char_end. cbn [Z.eqb hoare]. split; [apply tok_good_plain|]. exists pre, []. split_and!; try done. by intros [?|[?|?]]. }
  rewrite next_char_L. assert (Hc0 : c <> 0).
  { apply Forall_app in Hi as [_ Hi]. apply Forall_cons in Hi as [? _]. lia. }
  rewrite (proj2 (Z.eqb_neq c 0)) by done. cbn [length] in Hn.
  assert (Hone : forall t, c <> 34 -> hoare total (lexed pre (c :: k)) (Done (tok t, L (pre ++ [c]) k))).
  { intros t Hc. apply (lexed_plain pre [c] k); [by apply Forall_singleton|done]. }
  destruct ((c =? 32) || (c =? 9)) eqn:Hsp.
  { assert (Hc : c <> 34) by (destruct (Z.eqb_spec c 32), (Z.eqb_spec c 9); lia || done). rewrite quotes_skip in Hn by done.
    eapply hoare_mono; [apply IH; [by rewrite <- app_assoc|intros Ht; destruct (Hn Ht); split; [lia|done]]|].
    intros [t lx] [Hg (pre' & k' & Hlx & Hp & Hl & He & Hs)]. split; [done|]. exists pre', k'. rewrite quotes_skip by done.
    rewrite Hp, <- app_assoc. cbn [length]. split_and!; try done; [lia|]. intros Hst. specialize (Hs Hst). lia. }
  destruct (Z.eqb_spec c 44); [apply Hone; lia|]. destruct (Z.eqb_spec c 40); [apply Hone; lia|]. destruct (Z.eqb_spec c 41); [apply Hone; lia|].
  destruct (_ || (c =? 61)) eqn:Hop.
  { apply lex_boolean_hoare. lia. }
  destruct (Z.eqb_spec c 58) as [->|].
  { destruct k as [|d k]; [rewrite next_char_end; apply Hone; lia|]. rewrite next_char_L. destruct (Z.eqb_spec d 45) as [->|].
    - rewrite <- app_assoc. apply (lexed_plain pre [58; 45] k); [|done]. by repeat constructor.
    - apply lexed_unknown; [by rewrite <- !app_assoc|simpl; lia]. }
  destruct (isalpha c || (c =? 64)) eqn:Hal.
  { apply lex_identifier_hoare; [done| |intros Ht; destruct (Hn Ht); lia]. intros ->. done. }
  destruct (Z.eqb_spec c 34) as [->|Hq].
  { apply lex_string_hoare; [done|]. intros Ht. destruct (Hn Ht). split; [lia|done]. }
  destruct (_ && _).
  { apply lex_number_hoare; [done|done|]. intros Ht. destruct (Hn Ht). lia. }
  rewrite backup_L. by apply lexed_unknown.
Qed.

(** ** Parser *)
Definition lex_ok (m : nat) (p : my_parser) : Prop :=
  exists pre k, ps_lexer p = L pre k /\ cstr_ok (pre ++ k) /\ (length k <= m)%nat /\ (total = true -> Nat.even (quotes k) = true).

Record next_post (m : nat) (r : option policy_rule) (t : my_token) (p : my_parser) : Prop := {
  np_good : tok_good t;
  np_prev : ps_prev p = None;
  np_token : ps_token p = Some t;
  np_rule : ps_rule p = r;
  np_lex : tok_type t <> TOK_UNKNOWN -> lex_ok m p;
  np_strict : strict (tok_type t) -> (0 < m)%nat /\ lex_ok (pred m) p
}.

Lemma next_token_hoare n m p :
  ps_prev p = None -> lex_ok m p -> (total = true -> m < n)%nat ->
  hoare total (fun x => next_post m (ps_rule p) x.1 x.2) (next_token n p).
Proof.
  intros Hp (pre & k & Hlx & Hi & Hl & He) Hn. unfold next_token. rewrite Hp, Hlx. eapply hoare_bind.
  { apply lexer_hoare; [done|]. intros Ht. split; [specialize (Hn Ht); lia|by apply He]. }
  intros [t lx] [Hg (pre' & k' & Hlx' & Hpk & Hl' & He' & Hs)]. cbn [fst snd] in *. subst lx.
  assert (Hok : forall m', (length k' <= m')%nat -> tok_type t <> TOK_UNKNOWN ->
    lex_ok m' (mk_parser (L pre' k') (Some t) None (ps_rule p))).
  { intros m' Hm' Ht. exists pre', k'. split; [done|]. rewrite Hpk. split_and!; try done. intros Htot. by rewrite He', He. }
  split; try done; cbn [fst snd].
  - intros Ht. apply Hok; [lia|done].
  - intros Hst. specialize (Hs Hst). split; [lia|]. apply Hok; [lia|]. intros Hu. rewrite Hu in Hst. by destruct Hst as [?|[?|?]].
Qed.

Lemma consume_token_hoare n m p e :
  ps_prev p = None -> lex_ok m p -> (total = true -> m < n)%nat ->
  hoare total (fun '(t, p', ret) => next_post m (ps_rule p) t p' /\ (ret = 0 -> tok_type t = e)) (consume_token n p e).
Proof.
  intros Hp Hl Hn. unfold consume_token. eapply hoare_bind; [by apply next_token_hoare|]. intros [t p'] Hpost. cbn [fst snd] in *.
  split; [done|]. by destruct (bool_decide_reflect (tok_type t = e)).
Qed.

Lemma token_value_ok t v : abac_value_from_token t = Some v -> tok_good t -> value_ok v /\ abac_value_bufsize v <= 300.
Proof.
  unfold abac_value_from_token. intros Hv [Hc Hl]. unfold MAX_ARGUMENT_LEN in Hl.
  assert (Hs : forall b, value_ok (abac_value_from_str_ (token_text t) b) /\ abac_value_bufsize (abac_value_from_str_ (token_text t) b) <= 300).
  { intros b. pose proof (from_str_ok (token_text t) b Hc) as Ho. split; [done|]. rewrite value_bufsize by done.
    unfold abac_value_from_str_, abac_value_from_data, strnlen. cbn [data_sz]. lia. }
  destruct (tok_type t); simplify_eq; try apply Hs. split; [apply from_int_ok|by vm_compute].
Qed.

(** The closing parenthesis has been read, or is the next token. *)
Definition before_close (m : nat) (r : option policy_rule) (p : my_parser) : Prop :=
  ps_rule p = r /\ lex_ok m p /\ (ps_prev p = None \/ exists t, ps_prev p = Some t /\ tok_type t = TOK_RPAREN).

Definition small_atom (a : policy_atom) (b : Z) : Prop := atom_ok a /\ args_bufsize a <= b.

Lemma push_small a v b :
  small_atom a b -> value_ok v -> abac_value_bufsize v <= 300 -> b <= 1000 -> small_atom (policy_atom_push_arg a v) (b + 300).
Proof.
  intros [Ha Hb] Hv Hs Hb'. pose proof (proj2 (atom_buf_size a Ha)). split; [apply push_arg_ok; [done|done|lia]|].
  cbn [policy_atom_push_arg args_bufsize]. pose proof (vo_size _ Hv). rewrite value_bufsize in * by done. word_solve.
Qed.

Lemma parse_regular_hoare n m p a :
  ps_prev p = None -> lex_ok m p -> (total = true -> m < n)%nat -> small_atom a 0 ->
  hoare total (fun '(p', a', ret) => ret = 0 -> before_close m (ps_rule p) p' /\ small_atom a' 300) (parse_regular_atom_type n p a).
Proof.
  intros Hp Hl Hn Ha. unfold parse_regular_atom_type. eapply hoare_bind; [by apply consume_token_hoare|].
  intros [[t p1] ret] [[_ Hp1 _ Hr1 Hl1 _] Hret]. destruct (Z.eqb_spec ret 0) as [->|]; [|done]. specialize (Hret eq_refl). cbn [negb].
  destruct (if strncmp (token_text t) (str "u") 5 =? 0 then _ else _) as [ty|] eqn:Hty; [|done].
  assert (Hat : small_atom (set_atom_type a ty) 0).
  { destruct Ha as [Ha Hb]. split; [|done]. apply set_atom_type_ok; [done|]. by repeat case_match; simplify_eq. }
  rewrite Hret in Hl1. specialize (Hl1 ltac:(done)). eapply hoare_bind; [by apply next_token_hoare|].
  intros [t2 p2] [_ Hp2 Ht2 Hr2 Hl2 _]. cbn [fst snd] in *. destruct (tok_type t2) eqn:Et2; try done.
  - intros _. split; [|split; [apply Hat|destruct Hat; lia]]. split; [by rewrite <- Hr1, <- Hr2|]. split; [by apply Hl2|].
    right. exists t2. cbn. by rewrite Ht2.
  - specialize (Hl2 ltac:(done)). eapply hoare_bind; [by apply next_token_hoare|].
    intros [t3 p3] [Hg3 Hp3 _ Hr3 Hl3 _]. cbn [fst snd] in *. destruct (_ && _); [done|].
    destruct (abac_value_from_token t3) as [v|] eqn:Hv; [|done]. intros _. destruct (token_value_ok _ _ Hv Hg3) as [Hvo Hvs].
    split; [|change 300 with (0 + 300); by apply push_small]. split; [by rewrite <- Hr1, <- Hr2, <- Hr3|]. split; [|by left]. apply Hl3.
    intros Hu. unfold abac_value_from_token in Hv. by rewrite Hu in Hv.
Qed.

Lemma push_boolean_small a t a' b :
  push_boolean_arg a t = Some a' -> tok_good t -> small_atom a b -> b <= 1000 -> small_atom a' (b + 300) /\ tok_type t <> TOK_UNKNOWN.
Proof.
  unfold push_boolean_arg. destruct (abac_value_from_token t) as [v|] eqn:Hv; [|done]. cbn [mbind option_bind]. intros [= <-] Hg Ha Hb.
  destruct (token_value_ok _ _ Hv Hg) as [Hvo Hvs]. pose proof (push_small _ _ _ Ha Hvo Hvs Hb) as [Hp Hps].
  split; [|intros Hu; unfold abac_value_from_token in Hv; by rewrite Hu in Hv].
  assert (Hty : forall z, in_range 32 z -> small_atom (set_atom_type (policy_atom_push_arg a v) z) (b + 300)).
  { intros z Hz. split; [by apply set_atom_type_ok|done]. }
  assert (Hor : forall z, 0 <= z < 4 -> in_range 32 (Z.lor (atom_type a) z)).
  { intros z Hz. pose proof (ao_type _ (proj1 Ha)) as Hr. unfold in_range in *. split; [apply Z.lor_nonneg; lia|].
    destruct (Z.eq_dec (Z.lor (atom_type a) z) 0) as [->|Hne]; [lia|]. apply Z.log2_lt_pow2; [apply Z.le_neq; split; [apply Z.lor_nonneg; lia|done]|].
    rewrite Z.log2_lor by lia. apply Z.max_lub_lt.
    - destruct (Z.eq_dec (atom_type a) 0) as [->|]; [by vm_compute|]. apply Z.log2_lt_pow2; lia.
    - destruct (Z.eq_dec z 0) as [->|]; [by vm_compute|]. apply Z.log2_lt_pow2; lia. }
  destruct (bool_decide _); [|done]. destruct (_ =? 117); [by apply Hty, Hor|]. destruct (_ =? 111); [by apply Hty, Hor|done].
Qed.

Lemma parse_boolean_hoare n m p a :
  ps_prev p = None -> lex_ok m p -> (total = true -> m < n)%nat -> small_atom a 0 ->
  hoare total (fun '(p', a', ret) => ret = 0 -> before_close m (ps_rule p) p' /\ small_atom a' 600) (parse_boolean_atom_type n p a).
Proof.
  intros Hp Hl Hn Ha. unfold parse_boolean_atom_type. eapply hoare_bind; [by apply next_token_hoare|].
  intros [t1 p1] [Hg1 Hp1 _ Hr1 Hl1 _]. cbn [fst snd] in *. destruct (push_boolean_arg a t1) as [a1|] eqn:Ha1; [|done].
  destruct (push_boolean_small _ _ _ _ Ha1 Hg1 Ha ltac:(lia)) as [Hs1 Hu1]. eapply hoare_bind; [apply consume_token_hoare; [done|by apply Hl1|done]|].
  intros [[t2 p2] ret] [[_ Hp2 _ Hr2 Hl2 _] Hret]. destruct (Z.eqb_spec ret 0) as [->|]; [|done]. specialize (Hret eq_refl). cbn [negb].
  eapply hoare_bind; [apply next_token_hoare; [done|apply Hl2; by rewrite Hret|done]|].
  intros [t3 p3] [Hg3 Hp3 _ Hr3 Hl3 _]. cbn [fst snd] in *. destruct (push_boolean_arg a1 t3) as [a3|] eqn:Ha3; [|done]. intros _.
  destruct (push_boolean_small _ _ _ _ Ha3 Hg3 Hs1 ltac:(lia)) as [Hs3 Hu3]. split; [|done].
  split; [by rewrite <- Hr1, <- Hr2, <- Hr3|]. split; [by apply Hl3|by left].
Qed.

Lemma consume_close_hoare n m p r :
  before_close m r p -> (total = true -> m < n)%nat ->
  hoare total (fun '(_, p', ret) => ret = 0 -> ps_prev p' = None /\ ps_rule p' = r /\ lex_ok m p') (consume_token n p TOK_RPAREN).
Proof.
  intros (Hr & Hl & [Hp|(t & Hp & Ht)]) Hn.
  - eapply hoare_mono; [by apply consume_token_hoare|]. intros [[t p'] ret] [[_ Hp' _ Hr' Hl' _] Hret] Hz.
    split_and!; [done|by rewrite Hr'|]. apply Hl'. by rewrite (Hret Hz).
  - unfold consume_token, next_token. rewrite Hp. by cbn.
Qed.

Section valid.
Variables (space : option attribute_space) (new_uuid : uuid).

(** The atoms the parser accepts. *)
Definition valid_atom (a : policy_atom) : Prop := atom_ok a /\ policy_atom_is_valid space a = Some true.

Lemma parse_atom_hoare n m p r :
  ps_prev p = None -> ps_rule p = Some r -> lex_ok m p -> (total = true -> m < n)%nat ->
  hoare total (fun '(p', ret) => ret = 0 -> ps_prev p' = None /\ (0 < m)%nat /\ lex_ok (pred m) p' /\
      exists a, valid_atom a /\ ps_rule p' = Some (policy_rule_push_atom r a)) (parse_atom space n p).
Proof.
  intros Hp Hr Hl Hn. unfold parse_atom. eapply hoare_bind; [by apply next_token_hoare|].
  intros [t p1] [Hg1 Hp1 _ Hr1 Hl1 _]. cbn [fst snd] in *.
  destruct (match tok_type t with TOK_IDENTIFIER => _ | _ => _ end) as [s|] eqn:Hs; [|done].
  assert (Hu : tok_type t <> TOK_UNKNOWN) by (intros Hu; unfold token_is_boolean_op in Hs; by rewrite Hu in Hs).
  eapply hoare_bind; [apply consume_token_hoare; [done|by apply Hl1|done]|].
  intros [[t2 p2] ret] [[_ Hp2 _ Hr2 _ Hst2] Hret]. destruct (Z.eqb_spec ret 0) as [->|]; [|done]. specialize (Hret eq_refl). cbn [negb].
  destruct (Hst2 ltac:(left; done)) as [Hm Hl2]. clear Hst2.
  assert (Ha : small_atom (policy_atom_new_from_predicate s) 0) by (split; [apply new_from_predicate_ok|done]).
  eapply (hoare_bind _ (fun '(p', a', ret) => ret = 0 -> before_close (pred m) (Some r) p' /\ atom_ok a')).
  { rewrite <- Hr, <- Hr1, <- Hr2. destruct (_ =? PREDICATE_BOOL).
    - eapply hoare_mono; [apply parse_boolean_hoare; try done; intros Ht; specialize (Hn Ht); lia|].
      intros [[p3 a3] ret] H Hz. destruct (H Hz) as [? []]. done.
    - eapply hoare_mono; [apply parse_regular_hoare; try done; intros Ht; specialize (Hn Ht); lia|].
      intros [[p3 a3] ret] H Hz. destruct (H Hz) as [? []]. done. }
  intros [[p3 a3] ret3] H3. destruct (Z.eqb_spec ret3 0) as [->|]; [|done]. destruct (H3 eq_refl) as [Hbc Ha3]. cbn [negb].
  eapply hoare_bind; [apply consume_close_hoare; [done|intros Ht; specialize (Hn Ht); lia]|].
  intros [[t4 p4] ret4] H4. destruct (Z.eqb_spec ret4 0) as [->|]; [|done]. destruct (H4 eq_refl) as (Hp4 & Hr4 & Hl4). cbn [negb].
  destruct (policy_atom_is_valid space a3) as [[]|] eqn:Hv; [|done|done]. rewrite Hr4. cbn. intros _. split_and!; try done.
  by exists a3.
Qed.

(** From [r0] to [r], by at most [m] atoms. *)
Record parsed (m : nat) (r0 r : policy_rule) : Prop := {
  pa_shape : rule_shape r;
  pa_grown : atom_count r0 < atom_count r <= atom_count r0 + Z.of_nat m;
  pa_valid : Forall valid_atom (atoms r);
  pa_some : atoms r <> [];
  pa_perm : perm_type r = perm_type r0;
  pa_uuid : rule_uuid r = rule_uuid r0
}.

Lemma push_parsed m r a :
  (0 < m)%nat -> rule_shape r -> Forall valid_atom (atoms r) -> valid_atom a -> atom_count r + 1 < 2 ^ 64 -> parsed m r (policy_rule_push_atom r a).
Proof.
  intros Hm Hr Hf Ha Hc. split; try done; [apply push_atom_shape; [done|apply Ha|done]|..]; cbn [policy_rule_push_atom atoms atom_count].
  - pose proof (rs_count _ Hr). word_solve.
  - apply Forall_app. split; [done|by apply Forall_singleton].
  - by destruct (atoms r).
Qed.

Lemma parse_atoms_hoare n m p r :
  ps_prev p = None -> ps_rule p = Some r -> lex_ok m p -> (total = true -> m < n)%nat ->
  rule_shape r -> Forall valid_atom (atoms r) -> atom_count r + Z.of_nat m < 2 ^ 64 ->
  hoare total (fun '(p', ret) => ret = 0 -> exists r', ps_rule p' = Some r' /\ parsed m r r' /\ is_Some (ps_token p')) (parse_atoms space n p).
Proof.
  revert m p r; induction n as [|n IH]; intros m p r Hp Hr Hl Hn Hok Hf Hc; [destruct total; [specialize (Hn eq_refl); lia|done]|].
  cbn [parse_atoms]. eapply hoare_bind; [by apply (parse_atom_hoare _ m _ r)|]. intros [p1 ret] H1.
  destruct (Z.eqb_spec ret 0) as [->|]; [|done]. destruct (H1 eq_refl) as (Hp1 & Hm & Hl1 & a & Ha & Hr1). cbn [negb].
  assert (Hpa : parsed m r (policy_rule_push_atom r a)) by (apply push_parsed; try done; lia).
  assert (Hcount : atom_count (policy_rule_push_atom r a) = atom_count r + 1).
  { cbn [policy_rule_push_atom atom_count]. pose proof (rs_count _ Hok). word_solve. }
  eapply hoare_bind; [apply (next_token_hoare _ (pred m)); [done|done|intros Ht; specialize (Hn Ht); lia]|].
  intros [t p2] [_ Hp2 Ht2 Hr2 Hl2 _]. cbn [fst snd] in *.
  assert (Hend : hoare total (fun '(p', ret) => ret = 0 -> exists r', ps_rule p' = Some r' /\ parsed m r r' /\ is_Some (ps_token p')) (Done (p2, 0))).
  { intros _. eexists. split; [by rewrite Hr2|]. split; [done|]. by rewrite Ht2. }
  destruct (tok_type t) eqn:Et; try exact Hend. eapply hoare_mono.
  { apply (IH (pred m) p2 (policy_rule_push_atom r a)); [done|by rewrite Hr2|by apply Hl2|intros Ht; specialize (Hn Ht); lia|apply Hpa|apply Hpa|].
    rewrite Hcount. lia. }
  intros [p3 ret] H3 Hz. destruct (H3 Hz) as (r' & Hr' & [? Hg] & Hs). rewrite Hcount in Hg. exists r'. split_and!; try done. split; try done. lia.
Qed.

(** What the parser returns on a text of [m] characters. *)
Definition policy_good (m : nat) (r : policy_rule) : Prop :=
  rule_shape r /\ atom_count r <= Z.of_nat m /\ rule_uuid r = new_uuid /\ atoms r <> [] /\ perm_type r ∈ perm_map.*1 /\ Forall valid_atom (atoms r).

Lemma perm_known s : perm_type_from_string s <> PERM_UNK -> perm_type_from_string s ∈ perm_map.*1.
Proof.
  unfold perm_type_from_string. destruct (List.find _ _) as [q|] eqn:Hf; [|done]. intros _. cbn [from_option].
  apply find_some in Hf as [Hin _]. apply list_elem_of_fmap. exists q. split; [done|]. by apply list_elem_of_In.
Qed.

Lemma parse_policy_hoare n text :
  cstr_ok text -> uuid_ok new_uuid -> Z.of_nat (length text) < 2 ^ 64 ->
  (total = true -> length text < n /\ Nat.even (quotes text) = true)%nat ->
  hoare total (fun o => forall r, o = Some r -> policy_good (length text) r) (parse_abac_policy space new_uuid n text).
Proof.
  intros Ht Hu Hlen Hn. unfold parse_abac_policy.
  eapply (hoare_bind _ (fun '(p', ret) => ret = 0 -> exists r, ps_rule p' = Some r /\ policy_good (length text) r /\ is_Some (ps_token p'))).
  - unfold parse_rule. set (m := length text). assert (Hn' : (total = true -> m < n)%nat) by (intros H; by destruct (Hn H)).
    eapply hoare_bind; [apply (next_token_hoare _ m); try done; exists [], text; split_and!; try done; intros H; by destruct (Hn H)|].
    intros [t p1] [_ Hp1 _ _ Hl1 _]. cbn [fst snd] in *. destruct (tok_type t) eqn:Et; try done.
    unfold policy_rule_new_from_perm_str. destruct (Z.eqb_spec (perm_type_from_string (token_text t)) PERM_UNK) as [|Hk]; [done|].
    apply perm_known in Hk. set (r0 := policy_rule_new _ _).
    assert (Hr0 : rule_shape r0).
    { split; try done. subst r0. cbn [policy_rule_new perm_type].
      revert Hk. generalize (perm_type_from_string (token_text t)). intros z Hz.
      assert (Hall : Forall (fun z => - 2 ^ 31 <= z < 2 ^ 31) perm_map.*1) by (apply Forall_forall; intros ? Hx; vm_compute in Hx; set_solver by lia).
      by apply (proj1 (Forall_forall _ _) Hall). }
    eapply hoare_bind; [apply (consume_token_hoare _ m); [done| |done]|].
    { destruct (Hl1 ltac:(done)) as (pre & k & ?). by exists pre, k. }
    intros [[t2 p2] ret] [[_ Hp2 _ Hr2 Hl2 _] Hret]. destruct (Z.eqb_spec ret 0) as [->|]; [|done]. specialize (Hret eq_refl). cbn [negb].
    eapply hoare_mono; [apply (parse_atoms_hoare _ m _ r0); try done; [apply Hl2; by rewrite Hret]|].
    intros [p3 ret] H3 Hz. destruct (H3 Hz) as (r & Hr & [? [_ Hgr] ? ? Hpe Hue] & Hs). exists r. split_and!; try done.
    split_and!; try done. by rewrite Hpe.
  - intros [p ret] Hp. destruct (Z.eqb_spec ret 0) as [->|]; [|done]. destruct (Hp eq_refl) as (r & Hr & Hg & [t ->]). cbn.
    destruct (tok_type t); try done. cbn. intros r' Hr'. rewrite Hr in Hr'. by simplify_eq.
Qed.
End valid.
End hoare.

(** ** The second argument of an attribute *)
(** [perm :- name(u, tail]: what the parser does is decided by the token at
    the start of [tail]. *)
Definition second_arg_text (perm : Z) (name : bytes) (user : bool) (tail : bytes) : bytes :=
  default [] (perm_type_to_string perm) ++ str " :- " ++ name ++ 40 :: type_letter user :: 44 :: 32 :: tail.

Lemma operator_name name :
  word false name = true -> (pred_type (policy_atom_new_from_predicate name) =? PREDICATE_BOOL) = false.
Proof.
  destruct name as [|c b]; [done|]. intros Hw. pose proof (word_start c (proj1 (word_cons _ _ _ Hw))) as Hc.
  unfold policy_atom_new_from_predicate, policy_atom_set_predicate. cbn [pred_type].
  change (head (strncpy_field SYSTEM_FUNC_MAX_LENGTH (c :: b))) with (Some c). cbn [default from_option id].
  unfold pred_type_of_char. decide_eqb. cbn [orb]. by destruct (c =? 64).
Qed.

(** A lexer result that stops the parser on a second argument, and how. *)
Definition stops (o : outcome (my_token * my_lexer)) : Prop :=
  match o with Spin => True | Done (t, _) => tok_type t = TOK_IDENTIFIER | Fault => False end.

Definition stopped {A} (o : outcome (my_token * my_lexer)) : outcome A :=
  match o with Spin => Spin | _ => Fault end.

Lemma parse_regular_stops n pre tk r a user tail :
  let o := lexer_next_token n (L ((pre ++ [type_letter user]) ++ [44]) (32 :: tail)) in
  stops o -> (1 < n)%nat ->
  parse_regular_atom_type n (mk_parser (L pre (type_letter user :: 44 :: 32 :: tail)) tk None r) a = stopped o.
Proof.
  intros o Ho Hn. unfold parse_regular_atom_type. change TOK_IDENTIFIER with (tok_type (mk_tok TOK_IDENTIFIER (Some [type_letter user]))).
  rewrite (consume_token_L _ _ _ _ _ _ _ (lex_letter n pre user 44 _ eq_refl Hn)). cbn [obind negb Z.eqb]. rewrite letter_type.
  rewrite (next_token_L _ _ _ _ _ _ _ (lex_punct n _ _ 44 TOK_COMMA ltac:(left) ltac:(lia))). cbn [obind tok_type tok].
  unfold next_token. cbn [ps_prev ps_lexer ps_rule]. fold o. destruct o as [[t lx]| |]; [|done..]. cbn [obind stopped].
  unfold abac_value_from_token. cbn [stops] in Ho. by rewrite Ho.
Qed.

Lemma parse_atom_stops space n pre tk (r : policy_rule) name user tail :
  let o := lexer_next_token n (L ((((((pre ++ [32]) ++ name) ++ [40])) ++ [type_letter user]) ++ [44]) (32 :: tail)) in
  stops o -> word false name = true -> (S (length name) < n)%nat -> (1 < n)%nat ->
  parse_atom space n (mk_parser (L pre (32 :: name ++ 40 :: type_letter user :: 44 :: 32 :: tail)) tk None (Some r)) = stopped o.
Proof.
  intros o Ho Hw Hn Hn1. unfold parse_atom. change (32 :: name ++ ?k) with ([32] ++ name ++ k).
  rewrite (next_token_L _ _ _ _ _ _ _ (lex_blank n pre [32] _ _ _ (or_intror eq_refl)
    (fun m Hm => lex_word m (pre ++ [32]) name 40 _ false Hw eq_refl ltac:(lia)) ltac:(lia))). cbn [obind tok_type].
  change (token_text (mk_tok TOK_IDENTIFIER (Some name))) with name. change TOK_LPAREN with (tok_type (tok TOK_LPAREN)).
  rewrite (consume_token_L _ _ _ _ _ _ _ (lex_punct n _ _ 40 TOK_LPAREN ltac:(set_solver) ltac:(lia))). cbn [obind negb Z.eqb].
  rewrite operator_name, parse_regular_stops by done. fold o. by destruct o as [[t lx]| |].
Qed.

Lemma second_arg_stops space u n perm name user tail :
  perm ∈ perm_map.*1 -> word false name = true -> (length (second_arg_text perm name user tail) < n)%nat ->
  exists pre, let o := lexer_next_token n (L pre (32 :: tail)) in
    stops o -> parse_abac_policy space u n (second_arg_text perm name user tail) = stopped o.
Proof.
  intros Hp Hw Hn. unfold second_arg_text in *. destruct (perm_text _ Hp) as (s & Hs & Hws & Hnew). rewrite Hs in *.
  cbn [default from_option id] in *. change (str " :- ") with [32; 58; 45; 32] in *. rewrite length_app in Hn. cbn [app length] in *.
  rewrite length_app in Hn. cbn [length] in Hn. eexists. cbn zeta. intros Ho.
  unfold parse_abac_policy, parse_rule, parser_new. change (lexer_create ?x) with (L [] x).
  rewrite (next_token_L _ _ _ _ _ _ _ (lex_word n [] s 32 _ false Hws eq_refl ltac:(lia))). cbn [obind tok_type].
  change (token_text (mk_tok TOK_IDENTIFIER (Some s))) with s. rewrite Hnew. unfold set_rule. cbn [ps_lexer ps_token ps_prev].
  change TOK_COLONEQUALS with (tok_type (tok TOK_COLONEQUALS)).
  rewrite (consume_token_L _ _ _ _ _ _ _ (lex_blank n _ [32] (58 :: 45 :: 32 :: name ++ 40 :: type_letter user :: 44 :: 32 :: tail) _ _ (or_intror eq_refl)
    (fun m Hm => lex_arrow m _ _ ltac:(lia)) ltac:(lia))). cbn [obind negb Z.eqb].
  destruct n as [|n]; [lia|]. cbn [parse_atoms]. rewrite parse_atom_stops; [|exact Ho|done|lia|lia].
  by destruct (lexer_next_token _ _).
Qed.

(** ** What holds of every text *)
(** C19: Parsing the text of a policy gives back the policy: for every
    permission and every list of attribute, function and comparison atoms that
    the language can write and that the attribute space and the system
    functions accept, [parse_abac_policy] applied to the printed text returns
    exactly the rule with those atoms, their types, arities and argument
    sizes. *)
Theorem parse_policy_roundtrip space u n p :
  spolicy_ok space p -> (length (spolicy_text p) < n)%nat ->
  parse_abac_policy space u n (spolicy_text p) = Done (Some (spolicy_rule u p)).
Proof. apply parse_policy_spec. Qed.

(** [read :- role(u, "admin"), >(u.age, 18), @oname(o, "f")] *)
Definition toy_policy : spolicy :=
  mk_spolicy PERM_READ [SRegular (str "role") true (Some (SStr (str "admin")));
    SBoolean TOK_GT (SDot (str "u.age")) (SNum 18); SRegular (str "@oname") false (Some (SStr (str "f")))].

Lemma cstr_okb s : forallb (fun c => (0 <? c) && (c <? 256)) s = true -> cstr_ok s.
Proof. intros Hs. apply Forall_forall. intros c Hc. rewrite forallb_forall in Hs. apply list_elem_of_In, Hs in Hc. lia. Qed.

Lemma parse_policy_roundtrip_witness :
  parse_abac_policy (Some toy_space) (uuid_const 9) 100 (str "read :- role(u") = Done None /\
  parse_abac_policy (Some toy_space) (uuid_const 9) 100 (spolicy_text toy_policy) = Done (Some (spolicy_rule (uuid_const 9) toy_policy)).
Proof.
  split; [by vm_compute|]. apply parse_policy_roundtrip; [|apply Nat.ltb_lt; by vm_compute].
  split.
  - left.
  - done.
  - by vm_compute.
  - repeat constructor; try (by vm_compute); try (apply cstr_okb; by vm_compute).
  - repeat constructor; by vm_compute.
Defined.

(** C24: Whatever the text, a rule that [parse_abac_policy] returns is well
    formed: its counters agree with its atom list, it carries the drawn UUID, it
    has at least one atom and no more than the text has characters, its
    permission is one of the five known ones, and every atom is well formed, its
    own counters within the 16 bits they are stored in, and has passed
    [policy_atom_is_valid].  (The number of atoms fits its 16 bits, too, when it
    is below 2^16, [rule_ok_shape], as it is in any text that short.) *)
Theorem parse_policy_wf space u n text r :
  cstr_ok text -> uuid_ok u -> Z.of_nat (length text) < 2 ^ 64 ->
  parse_abac_policy space u n text = Done (Some r) -> policy_good space u (length text) r.
Proof.
  intros Ht Hu Hl Hp. pose proof (parse_policy_hoare false space u n text Ht Hu Hl ltac:(done)) as H. rewrite Hp in H. by apply H.
Qed.

(** Spaces and tabs, and no space where the printer puts one. *)
Definition toy_text : bytes := str "write:-  role(u),<=(3,o.@osize)".

Lemma parse_policy_wf_witness :
  exists r, parse_abac_policy (Some toy_space) (uuid_const 9) 100 toy_text = Done (Some r) /\ policy_good (Some toy_space) (uuid_const 9) 30 r.
Proof.
  eexists. split; [vm_compute; reflexivity|].
  apply (parse_policy_wf (Some toy_space) (uuid_const 9) 100 toy_text);
    [apply cstr_okb; by vm_compute|by repeat constructor|by vm_compute|vm_compute; reflexivity].
Defined.

(** C40: The parser terminates on every text whose quotes are paired, in as
    many turns of its loops as the text has characters, whether it accepts the
    text, rejects it or reads through a NULL pointer. *)
Theorem parse_policy_terminates space u n text :
  cstr_ok text -> uuid_ok u -> Z.of_nat (length text) < 2 ^ 64 ->
  Nat.even (quotes text) = true -> (length text < n)%nat ->
  parse_abac_policy space u n text <> Spin.
Proof.
  intros Ht Hu Hl He Hn Hs. pose proof (parse_policy_hoare true space u n text Ht Hu Hl ltac:(done)) as H. by rewrite Hs in H.
Qed.

Lemma parse_policy_terminates_witness : parse_abac_policy None (uuid_const 9) 32 (str "read :- ((((, ;;") <> Spin.
Proof.
  apply parse_policy_terminates; [apply cstr_okb; by vm_compute|by repeat constructor|by vm_compute|by vm_compute|].
  apply Nat.ltb_lt; by vm_compute.
Defined.

(** A string that is never closed hangs the parser: after
    [perm :- name(u,] and an opening quote, a text without a further quote keeps [lex_string]
    reading the terminating NUL for ever, however many turns it is given. *)
Theorem parse_unclosed_string space u n perm name user s :
  perm ∈ perm_map.*1 -> word false name = true -> Forall (fun c => c <> 34) s ->
  (length (second_arg_text perm name user (34%Z :: s)) < n)%nat ->
  parse_abac_policy space u n (second_arg_text perm name user (34 :: s)) = Spin.
Proof.
  intros Hp Hw Hs Hn. destruct (second_arg_stops space u n perm name user (34 :: s) Hp Hw Hn) as [pre Hst].
  assert (Hlex : lexer_next_token n (L pre (32 :: 34 :: s)) = Spin).
  { destruct n as [|[|n]]; [done|by rewrite lex_space|]. rewrite lex_space. cbn [lexer_next_token]. rewrite next_char_L. cbn.
    unfold lex_string. by rewrite scan_string_open. }
  cbn zeta in Hst. rewrite Hlex in Hst. by apply Hst.
Qed.

Lemma parse_unclosed_string_witness :
  parse_abac_policy None (uuid_const 9) 1000 (str "read :- role(u, " ++ 34 :: str "admin)") = Spin.
Proof.
  apply (parse_unclosed_string None (uuid_const 9) 1000 PERM_READ (str "role") true (str "admin)"));
    [left|done|by repeat constructor|apply Nat.ltb_lt; by vm_compute].
Defined.

(** An identifier where an attribute's value should stand, as in
    [read :- role(u, admin)], makes the parser read through a NULL pointer:
    the guard meant to reject it tests for the wrong token. *)
Theorem parse_identifier_argument_faults space u n perm name user w d k :
  perm ∈ perm_map.*1 -> word false name = true -> word false w = true -> delimiter d = true ->
  (length (second_arg_text perm name user (w ++ d :: k)) < n)%nat ->
  parse_abac_policy space u n (second_arg_text perm name user (w ++ d :: k)) = Fault.
Proof.
  intros Hp Hw Hww Hd Hn. destruct (second_arg_stops space u n perm name user (w ++ d :: k) Hp Hw Hn) as [pre Hst].
  unfold second_arg_text in Hn. rewrite !length_app in Hn. cbn [length] in Hn. rewrite !length_app in Hn. cbn [length] in Hn.
  destruct n as [|n]; [lia|]. cbn zeta in Hst. rewrite lex_space, (lex_word _ _ _ _ _ false Hww Hd) in Hst by lia. by apply Hst.
Qed.

Lemma parse_identifier_argument_faults_witness :
  parse_abac_policy (Some toy_space) (uuid_const 9) 100 (str "read :- role(u, admin)") = Fault.
Proof.
  apply (parse_identifier_argument_faults (Some toy_space) (uuid_const 9) 100 PERM_READ (str "role") true (str "admin") 41 []);
    [left|done|done|done|apply Nat.ltb_lt; by vm_compute].
Defined.
