(* ===== verification/PolicyStore.v ===== *)
(** * The policy store of a volume

    Models [abac/policy_store.c]: the list of policy rules, its operations and
    its stored form, and [abac_global_export_macversion] of [abac/runtime.c].
    The contract is a list of rules: adding appends, deleting takes the first
    rule with the UUID, selecting filters by permission.  Sizes the code keeps
    in an [int] are below 2^31; the model answers [None] beyond. *)
From stdpp Require Import strings.
From S2P Require Import Prelude Types Gcm Crypto BufferLayer CryptoBuf AbacValue AbacRule AttributeSpace.

(** [pst_metadata] is the metadata's [is_dirty], [None] when NULL. *)
Record policy_store := mk_pstore {
  pst_my_uuid : uuid;
  pst_root_uuid : uuid;
  pst_count : Z;                (* uint32_t rules_count *)
  pst_mac : mac;
  pst_macversion : mac_and_version;
  pst_rules : list policy_rule;
  pst_last_size : Z;
  pst_metadata : option bool
}.

Definition with_rules (ps : policy_store) (count : Z) (l : list policy_rule) : policy_store :=
  mk_pstore (pst_my_uuid ps) (pst_root_uuid ps) count (pst_mac ps) (pst_macversion ps) l (pst_last_size ps) (pst_metadata ps).

Definition with_pst_dirty (ps : policy_store) (md : option bool) : policy_store :=
  mk_pstore (pst_my_uuid ps) (pst_root_uuid ps) (pst_count ps) (pst_mac ps) (pst_macversion ps) (pst_rules ps) (pst_last_size ps) md.

Definition with_pst_saved (ps : policy_store) (m : mac) (mv : mac_and_version) (size : Z) : policy_store :=
  mk_pstore (pst_my_uuid ps) (pst_root_uuid ps) (pst_count ps) m mv (pst_rules ps) size (pst_metadata ps).

Definition policy_store_create (root_uuid u : uuid) : policy_store :=
  mk_pstore u root_uuid 0 nexus_mac_zeroize (mk_macversion 0 nexus_mac_zeroize) [] 0 None.

Definition policy_store_set_dirty (ps : policy_store) : policy_store := with_pst_dirty ps (const true <$> pst_metadata ps).

(** ** Updates *)
Definition put_policy_rule (ps : policy_store) (r : policy_rule) : policy_store :=
  with_rules ps (u32 (pst_count ps + 1)) (pst_rules ps ++ [r]).

(** The first rule with the UUID is taken out of the list. *)
Fixpoint remove_rule (u : uuid) (l : list policy_rule) : option (list policy_rule) :=
  match l with
  | [] => None
  | r :: l' => if nexus_uuid_compare (rule_uuid r) u =? 0 then Some l' else cons r <$> remove_rule u l'
  end.

Definition del_policy_rule (ps : policy_store) (u : uuid) : policy_store * Z :=
  match remove_rule u (pst_rules ps) with
  | None => (ps, -1)
  | Some l => (with_rules ps (u32 (pst_count ps - 1)) l, 0)
  end.

Definition policy_store_add (ps : policy_store) (r : policy_rule) : policy_store * Z :=
  (policy_store_set_dirty (put_policy_rule ps r), 0).

Definition policy_store_del (ps : policy_store) (u : uuid) : policy_store * Z :=
  let '(ps, ret) := del_policy_rule ps u in
  if negb (ret =? 0) then (ps, -1) else (policy_store_set_dirty ps, 0).

(** A count that is not zero promises a first rule. *)
Definition policy_store_del_first (ps : policy_store) : option (policy_store * Z) :=
  if pst_count ps <? 1 then Some (ps, -1)
  else r ← head (pst_rules ps); Some (policy_store_del ps (rule_uuid r)).

(** ** Queries *)
(** A do-while loop over the list: the first turn reads through the iterator
    without looking.  [Some None] is NULL. *)
Fixpoint select_loop (l : list policy_rule) (permission : Z) : list policy_rule :=
  match l with
  | [] => []
  | r :: l' => (if perm_type r =? permission then [r] else []) ++ select_loop l' permission
  end.

Definition policy_store_select_rules (ps : policy_store) (permission : Z) : option (option (list policy_rule)) :=
  if pst_count ps =? 0 then null
  else
    match pst_rules ps with
    | [] => None
    | l => match select_loop l permission with [] => null | found => nret found end
    end.

Definition NEXUS_POLICY_MAXLEN : nat := 256.

(** [__export_policy_rule]: 8 bytes of length, the UUID, the text; the byte
    after the text keeps what the caller's buffer held.  [out] is what is left
    of that buffer; the result is what was written, [[]] when it does not fit. *)
Definition export_policy_rule (r : policy_rule) (out : bytes) : option (option bytes) :=
  s <?- policy_rule_datalog_string r;
  let policy_len := strnlen s NEXUS_POLICY_MAXLEN in
  let total_len := (policy_len + 24 + 1)%nat in
  if (length out <? total_len)%nat then nret []
  else nret (le_encode 8 (Z.of_nat total_len) ++ rule_uuid r ++ take policy_len s ++ take 1 (drop (policy_len + 24) out)).

Fixpoint ls_loop (l : list policy_rule) (offset : nat) (out : bytes) (count : Z) : option (option (bytes * Z)) :=
  match l with
  | [] => nret ([], count)
  | r :: l' =>
      match offset with
      | S k => ls_loop l' k out count
      | O =>
          b <?- export_policy_rule r out;
          match b with
          | [] => nret ([], count)
          | _ => '(b', n) <?- ls_loop l' O (drop (length b) out) (count + 1); nret (b ++ b', n)
          end
      end
  end.

(** The bytes written, [*result_count] and [*total_count]. *)
Definition policy_store_ls (ps : policy_store) (out : bytes) (offset : nat) : option (option (bytes * Z * Z)) :=
  '(b, n) <?- ls_loop (pst_rules ps) offset out 0; nret (b, n, pst_count ps).

(** ** Stored form: 16 + 16 + 20 + 4 bytes, then the rules *)
Definition PSTORE_HDR_SIZE : Z := 56.

Definition policy_store_buf_size (ps : policy_store) : Z :=
  PSTORE_HDR_SIZE +64 foldl (fun n r => n +64 policy_rule_buf_size r) 0 (pst_rules ps).

Fixpoint put_rules (n : nat) (ps : policy_store) (buf : bytes) : option (option policy_store) :=
  match n with
  | O => nret ps
  | S n => '(r, buf) <?- policy_rule_from_buf buf; put_rules n (put_policy_rule ps r) buf
  end.

Definition parse_pstore_header : decoder (uuid * uuid * mac_and_version * Z) :=
  my <~ dec_bytes NEXUS_UUID_SIZE; root <~ dec_bytes NEXUS_UUID_SIZE;
  mv <~ mac_and_version_from_buf; n <~ dec_uint 4; dec_ret (my, root, mv, n).

Definition policy_store_parse (buf : bytes) : option (option policy_store) :=
  let buflen := Z.of_nat (length buf) in
  if 2 ^ 31 <=? buflen then None
  else if buflen <? PSTORE_HDR_SIZE then null
  else
    '((my, root, mv, n), src) ← parse_pstore_header buf;
    let ps := policy_store_create root my in
    ps <?- put_rules (Z.to_nat n) (with_pst_saved ps (pst_mac ps) mv (pst_last_size ps)) src;
    nret (with_pst_saved ps (pst_mac ps) (pst_macversion ps) buflen).

Fixpoint serialize_rules (l : list policy_rule) (bytes_left : Z) : option (option bytes) :=
  match l with
  | [] => nret []
  | r :: l' =>
      b <?- policy_rule_to_buf r bytes_left;
      b' <?- serialize_rules l' (bytes_left - Z.of_nat (length b));
      nret (b ++ b')
  end.

Definition pstore_header (ps : policy_store) : bytes :=
  pst_my_uuid ps ++ pst_root_uuid ps ++ mac_and_version_to_buf (pst_macversion ps) ++ le_encode 4 (pst_count ps).

Definition policy_store_serialize (ps : policy_store) (buflen : Z) : option (option bytes) :=
  if 2 ^ 31 <=? buflen then None
  else b <?- serialize_rules (pst_rules ps) (buflen - PSTORE_HDR_SIZE); nret (pstore_header ps ++ b).

(** *** runtime.c: the MAC and version of the attribute space in use *)
(** [sp] is what [abac_acquire_attribute_space] returns, with the version of
    its metadata. *)
Definition abac_global_export_macversion (sp : option (attribute_space * Z)) : option mac_and_version :=
  '(sp, version) ← sp; Some (mk_macversion version (sp_mac sp)).

Section store.
Context `{BlockCipher} `{KeyWrapCipher}.
Variable volumekey : bytes.

(** A buffer that does not open is a NULL pointer of length 0: too small. *)
Definition policy_store_from_crypto_buf (c : nexus_crypto_buf) : option (option policy_store) :=
  '(_, p, _) ← nexus_crypto_buf_get volumekey c; policy_store_parse (default [] p).

(** The result's last component is the caller's [mac], unwritten on failure. *)
Definition policy_store_store (ps : policy_store) (version : Z) (sp : option (attribute_space * Z)) (b : bcache) (env : put_env)
    : option (policy_store * bcache * Z * list ocall * option mac) :=
  let size := policy_store_buf_size ps in
  match abac_global_export_macversion sp with
  | None => Some (ps, b, -1, [], None)
  | Some mv =>
      let ps := with_pst_saved ps (pst_mac ps) mv (pst_last_size ps) in
      o ← policy_store_serialize ps size;
      match o with
      | None => Some (ps, b, -1, [], None)
      | Some buf =>
          if size <? Z.of_nat (length buf) then None
          else
            let content := buf ++ replicate (Z.to_nat size - length buf) 0 in
            '(c, b, ret, m, tr) ← nexus_crypto_buf_put volumekey (nexus_crypto_buf_new content version (pst_my_uuid ps)) b env;
            let ps := with_pst_saved ps (default (pst_mac ps) m) mv (pst_last_size ps) in
            if negb (ret =? 0) then Some (ps, b, -1, tr, None)
            else Some (with_pst_saved ps (pst_mac ps) mv size, b, 0, tr, Some (pst_mac ps))
      end
  end.
End store.

(** ** The contract: a list of rules *)
Record pst_inv (ps : policy_store) : Prop := {
  pi_count : pst_count ps = Z.of_nat (length (pst_rules ps));
  pi_small : pst_count ps < 2 ^ 32;
  pi_rules : Forall rule_ok (pst_rules ps)
}.

Inductive store_op := PAdd (r : policy_rule) | PDel (u : uuid) | PDelFirst | PSelect (perm : Z).

(** What an operation answers: a return code, or the rules selected. *)
Inductive store_answer := Code (z : Z) | Rules (l : option (list policy_rule)).

Fixpoint delete_first (u : uuid) (l : list policy_rule) : list policy_rule :=
  match l with [] => [] | r :: l' => if bool_decide (rule_uuid r = u) then l' else r :: delete_first u l' end.

Definition store_spec (l : list policy_rule) (op : store_op) : list policy_rule * store_answer :=
  match op with
  | PAdd r => (l ++ [r], Code 0)
  | PDel u => if bool_decide (u ∈ rule_uuid <$> l) then (delete_first u l, Code 0) else (l, Code (-1))
  | PDelFirst => (tail l, Code (if bool_decide (l = []) then -1 else 0))
  | PSelect p =>
      let found := filter (fun r => perm_type r = p) l in
      (l, Rules (if bool_decide (found = []) then None else Some found))
  end.

Definition store_step (ps : policy_store) (op : store_op) : option (policy_store * store_answer) :=
  match op with
  | PAdd r => let '(ps, z) := policy_store_add ps r in Some (ps, Code z)
  | PDel u => let '(ps, z) := policy_store_del ps u in Some (ps, Code z)
  | PDelFirst => '(ps, z) ← policy_store_del_first ps; Some (ps, Code z)
  | PSelect p => l ← policy_store_select_rules ps p; Some (ps, Rules l)
  end.

Definition store_op_ok (op : store_op) : Prop :=
  match op with PAdd r => rule_ok r | PDel u => uuid_ok u | _ => True end.

Fixpoint store_run (ps : policy_store) (ops : list store_op) : option (policy_store * list store_answer) :=
  match ops with
  | [] => Some (ps, [])
  | op :: ops' => '(ps, a) ← store_step ps op; '(ps, l) ← store_run ps ops'; Some (ps, a :: l)
  end.

Fixpoint spec_run (l : list policy_rule) (ops : list store_op) : list policy_rule * list store_answer :=
  match ops with
  | [] => (l, [])
  | op :: ops' => let '(l, a) := store_spec l op in let '(l, answers) := spec_run l ops' in (l, a :: answers)
  end.

Section lemmas.
Implicit Types (ps : policy_store) (r : policy_rule) (l : list policy_rule).

Lemma create_pst_inv root u : pst_inv (policy_store_create root u).
Proof. by split. Qed.

Lemma remove_rule_spec u l :
  uuid_ok u -> Forall rule_ok l ->
  remove_rule u l = if bool_decide (u ∈ rule_uuid <$> l) then Some (delete_first u l) else None.
Proof.
  intros Hu. induction 1 as [|r l Hr _ IH]; [done|]. cbn [remove_rule delete_first].
  rewrite fmap_cons. pose proof (uuid_compare_eq (rule_uuid r) u (ro_uuid _ Hr) Hu) as Hc.
  destruct (Z.eqb_spec (nexus_uuid_compare (rule_uuid r) u) 0) as [He|He].
  - apply Hc in He as ->. rewrite !bool_decide_true by (done || left). done.
  - rewrite (bool_decide_false (rule_uuid r = u)) by tauto. rewrite IH.
    rewrite (bool_decide_ext (u ∈ rule_uuid r :: _) (u ∈ rule_uuid <$> l)).
    + by destruct (bool_decide _).
    + rewrite elem_of_cons. split; [intros [Heq|]; [by destruct He; apply Hc|done]|by right].
Qed.

Lemma delete_first_spec u l :
  u ∈ rule_uuid <$> l -> exists l1 r l2, l = l1 ++ r :: l2 /\ rule_uuid r = u /\ u ∉ rule_uuid <$> l1 /\ delete_first u l = l1 ++ l2.
Proof.
  induction l as [|r l IH]; [by intros ?%not_elem_of_nil|]. rewrite fmap_cons. intros Hin. cbn [delete_first].
  destruct (bool_decide_reflect (rule_uuid r = u)) as [<-|Hne].
  - exists [], r, l. split_and!; try done. apply not_elem_of_nil.
  - apply elem_of_cons in Hin as [->|Hin]; [done|]. destruct (IH Hin) as (l1 & r' & l2 & -> & Hu & Hn & ->).
    exists (r :: l1), r', l2. split_and!; try done. rewrite fmap_cons. by apply not_elem_of_cons.
Qed.

Lemma select_loop_spec l p : select_loop l p = filter (fun r => perm_type r = p) l.
Proof.
  induction l as [|r l IH]; [done|]. cbn [select_loop]. rewrite filter_cons, IH.
  destruct (Z.eqb_spec (perm_type r) p), (decide (perm_type r = p)); done.
Qed.

(** The rest of the store stays as it is. *)
Definition same_head ps ps' : Prop := pst_my_uuid ps' = pst_my_uuid ps /\ pst_root_uuid ps' = pst_root_uuid ps.

Lemma pst_del_spec ps u :
  pst_inv ps -> uuid_ok u ->
  exists ps', policy_store_del ps u = (ps', if bool_decide (u ∈ rule_uuid <$> pst_rules ps) then 0 else -1) /\
    pst_inv ps' /\ pst_rules ps' = (if bool_decide (u ∈ rule_uuid <$> pst_rules ps) then delete_first u (pst_rules ps) else pst_rules ps).
Proof.
  intros [Hc Hs Hr] Hu. unfold policy_store_del, del_policy_rule. rewrite remove_rule_spec by done.
  destruct (bool_decide_reflect (u ∈ rule_uuid <$> pst_rules ps)) as [Hin|Hin]; [|by eexists].
  eexists. split; [done|]. split; [|done].
  destruct (delete_first_spec _ _ Hin) as (l1 & r & l2 & Hl & _ & _ & Hd).
  rewrite Hl in Hr, Hc. rewrite length_app in Hc. cbn [length] in Hc. apply Forall_app in Hr as [H1 H2]. apply Forall_cons in H2 as [_ H2].
  split; cbn [policy_store_set_dirty with_pst_dirty with_rules pst_count pst_rules]; rewrite ?Hd, ?length_app.
  - word_solve.
  - word_solve.
  - by apply Forall_app.
Qed.

Lemma store_step_refines ps op :
  pst_inv ps -> store_op_ok op -> Z.of_nat (length (pst_rules ps)) + 1 < 2 ^ 32 ->
  exists ps', store_step ps op = Some (ps', (store_spec (pst_rules ps) op).2) /\ pst_inv ps' /\
    pst_rules ps' = (store_spec (pst_rules ps) op).1 /\ (length (pst_rules ps') <= S (length (pst_rules ps)))%nat.
Proof.
  intros Hi Hok Hb. destruct op as [r|u| |p]; cbn [store_step store_spec store_op_ok] in *.
  - eexists. split; [done|]. cbn. split; [|rewrite length_app; simpl; split; [done|lia]].
    destruct Hi as [Hc Hs Hr]. split; cbn.
    + rewrite length_app. simpl. word_solve.
    + word_solve.
    + apply Forall_app. split; [done|by apply Forall_singleton].
  - destruct (pst_del_spec ps u Hi Hok) as (ps' & -> & Hi' & Hr). exists ps'. rewrite Hr.
    destruct (bool_decide_reflect (u ∈ rule_uuid <$> pst_rules ps)) as [Hin|]; [|split_and!; try done; lia].
    split_and!; try done. destruct (delete_first_spec _ _ Hin) as (l1 & r & l2 & -> & _ & _ & ->). rewrite !length_app. simpl. lia.
  - unfold policy_store_del_first. rewrite (pi_count _ Hi). destruct (pst_rules ps) as [|r l] eqn:Hl.
    { eexists. split; [done|]. rewrite Hl. split_and!; try done. simpl; lia. }
    destruct (Z.ltb_spec (Z.of_nat (length (r :: l))) 1); [simpl in *; lia|]. cbn [head mbind option_bind].
    destruct (pst_del_spec ps (rule_uuid r) Hi) as (ps' & -> & Hi' & Hr).
    { apply ro_uuid. pose proof (pi_rules _ Hi) as Hf. rewrite Hl in Hf. by apply Forall_cons in Hf as [? _]. }
    rewrite Hl, fmap_cons in Hr |- *. rewrite bool_decide_true in Hr |- * by left. cbn [delete_first] in Hr.
    rewrite bool_decide_true in Hr by done. exists ps'. rewrite Hr. split_and!; try done. simpl; lia.
  - unfold policy_store_select_rules. rewrite (pi_count _ Hi). destruct (pst_rules ps) as [|r l] eqn:Hl.
    { eexists. split; [done|]. rewrite Hl. split_and!; try done. simpl; lia. }
    destruct (Z.eqb_spec (Z.of_nat (length (r :: l))) 0); [simpl in *; lia|]. rewrite select_loop_spec.
    exists ps. rewrite Hl. cbn [fst snd]. split; [|split_and!; try done; simpl; lia].
    by destruct (filter _ (r :: l)).
Qed.

Lemma store_run_refines ops ps :
  pst_inv ps -> Forall store_op_ok ops -> Z.of_nat (length (pst_rules ps) + length ops) < 2 ^ 32 ->
  exists ps', store_run ps ops = Some (ps', (spec_run (pst_rules ps) ops).2) /\ pst_inv ps' /\
    pst_rules ps' = (spec_run (pst_rules ps) ops).1.
Proof.
  revert ps; induction ops as [|op ops IH]; intros ps Hi Hok Hb; [by eexists|]. apply Forall_cons in Hok as [Hop Hok].
  simpl in Hb. destruct (store_step_refines ps op Hi Hop ltac:(lia)) as (ps1 & Hs & Hi1 & Hr1 & Hl1).
  cbn [store_run spec_run]. rewrite Hs. cbn [mbind option_bind]. destruct (store_spec (pst_rules ps) op) as [l a]. cbn [fst snd] in *. subst l.
  destruct (IH ps1 Hi1 Hok ltac:(lia)) as (ps2 & -> & Hi2 & Hr2). destruct (spec_run (pst_rules ps1) ops) as [l as_]. by eexists.
Qed.

(** ** Serialization *)
Lemma rules_size l :
  Forall rule_ok l -> Z.of_nat (length l) < 2 ^ 27 ->
  foldl (fun n r => n +64 policy_rule_buf_size r) 0 l = Z.of_nat (length (concat (rule_bytes <$> l))) /\
  Z.of_nat (length (concat (rule_bytes <$> l))) <= 2 ^ 33 * Z.of_nat (length l).
Proof.
  intros Hl Hb. assert (Hgen : forall n, 0 <= n -> n + 2 ^ 33 * Z.of_nat (length l) < 2 ^ 62 ->
    foldl (fun n r => n +64 policy_rule_buf_size r) n l = n + Z.of_nat (length (concat (rule_bytes <$> l))) /\
    Z.of_nat (length (concat (rule_bytes <$> l))) <= 2 ^ 33 * Z.of_nat (length l)); [|destruct (Hgen 0) as [-> ?]; lia].
  clear Hb. induction Hl as [|r l Hr _ IH]; intros n Hn Hb; cbn [foldl fmap list_fmap concat length] in *; [lia|].
  destruct (rule_buf_size r Hr) as [Hs Hlt]. rewrite length_app, Nat2Z.inj_add, <- Hs.
  rewrite wrap_small by (unfold in_range; lia). destruct (IH (n + policy_rule_buf_size r)) as [-> ?]; lia.
Qed.

Lemma serialize_rules_ok l len :
  Forall rule_ok l -> Z.of_nat (length (concat (rule_bytes <$> l))) <= len < 2 ^ 64 ->
  serialize_rules l len = nret (concat (rule_bytes <$> l)).
Proof.
  intros Hl. revert len; induction Hl as [|r l Hr _ IH]; intros len Hlen; [done|].
  cbn [serialize_rules fmap list_fmap concat] in *. rewrite length_app in Hlen. destruct (rule_buf_size r Hr) as [Hs _].
  rewrite rule_to_buf_ok by (done || lia). cbn [nbind nret]. by rewrite IH by lia.
Qed.

Lemma put_rules_ok l ps rest :
  Forall rule_ok l -> pst_count ps = Z.of_nat (length (pst_rules ps)) -> Z.of_nat (length (pst_rules ps) + length l) < 2 ^ 32 ->
  put_rules (length l) ps (concat (rule_bytes <$> l) ++ rest) =
  nret (with_rules ps (Z.of_nat (length (pst_rules ps) + length l)) (pst_rules ps ++ l)).
Proof.
  intros Hl. revert ps; induction Hl as [|r l Hr _ IH]; intros ps Hc Hb.
  { cbn. rewrite app_nil_r, Nat.add_0_r, <- Hc. by destruct ps. }
  cbn [length put_rules fmap list_fmap concat] in *. rewrite <- app_assoc, rule_from_buf_ok by done. cbn [nbind nret].
  assert (Hcnt : u32 (pst_count ps + 1) = Z.of_nat (length (pst_rules ps ++ [r]))).
  { rewrite length_app. simpl. word_solve. }
  rewrite IH; [|exact Hcnt|cbn [put_policy_rule with_rules pst_rules]; rewrite length_app; simpl; lia].
  cbn [put_policy_rule with_rules pst_rules pst_my_uuid pst_root_uuid pst_mac pst_macversion pst_last_size pst_metadata].
  rewrite length_app, <- app_assoc. cbn [length app].
  replace (length (pst_rules ps) + 1 + length l)%nat with (length (pst_rules ps) + S (length l))%nat by lia. done.
Qed.

Definition pst_storable ps : Prop :=
  pst_inv ps /\ length (pst_my_uuid ps) = NEXUS_UUID_SIZE /\ length (pst_root_uuid ps) = NEXUS_UUID_SIZE /\
  Z.of_nat (length (pst_rules ps)) < 2 ^ 27 /\ policy_store_buf_size ps < 2 ^ 31.

Definition pstore_bytes ps : bytes := pstore_header ps ++ concat (rule_bytes <$> pst_rules ps).

Lemma length_pstore_bytes ps mv m z :
  pst_storable ps -> macversion_ok mv ->
  Z.of_nat (length (pstore_bytes (with_pst_saved ps m mv z))) = policy_store_buf_size ps.
Proof.
  intros ([Hc Hs Hr] & Hm & Hrt & Hn & Hsz) [_ Hmac]. destruct (rules_size _ Hr Hn) as [Hfold Hle].
  unfold pstore_bytes, pstore_header, policy_store_buf_size, mac_and_version_to_buf, PSTORE_HDR_SIZE in *.
  cbn [with_pst_saved pst_my_uuid pst_root_uuid pst_macversion pst_count pst_rules].
  rewrite Hfold in *. rewrite !length_app, !length_le_encode, Hm, Hrt, Hmac. unfold NEXUS_UUID_SIZE, NEXUS_MAC_SIZE. word_solve.
Qed.

Lemma pstore_codec ps mv m z :
  pst_storable ps -> macversion_ok mv ->
  let ps1 := with_pst_saved ps m mv z in
  policy_store_serialize ps1 (policy_store_buf_size ps) = nret (pstore_bytes ps1) /\
  policy_store_parse (pstore_bytes ps1) =
    nret (mk_pstore (pst_my_uuid ps) (pst_root_uuid ps) (pst_count ps) nexus_mac_zeroize mv (pst_rules ps) (policy_store_buf_size ps) None).
Proof.
  intros Hst Hmv ps1. pose proof (length_pstore_bytes ps mv m z Hst Hmv) as Hlen. fold ps1 in Hlen.
  destruct Hst as ([Hc Hs Hr] & Hm & Hrt & Hn & Hsz). pose proof Hmv as [Hv Hmac].
  assert (Hhdr : length (pstore_header ps1) = 56%nat).
  { unfold pstore_header, ps1, mac_and_version_to_buf. cbn [with_pst_saved pst_my_uuid pst_root_uuid pst_macversion pst_count].
    rewrite !length_app, !length_le_encode, Hm, Hrt, Hmac. done. }
  unfold pstore_bytes in Hlen. rewrite length_app, Hhdr in Hlen. split.
  - unfold policy_store_serialize. destruct (Z.leb_spec (2 ^ 31) (policy_store_buf_size ps)); [lia|].
    rewrite serialize_rules_ok; [done|done|]. unfold PSTORE_HDR_SIZE. lia.
  - unfold policy_store_parse, pstore_bytes. rewrite length_app, Hhdr. rewrite Hlen. unfold PSTORE_HDR_SIZE.
    destruct (Z.leb_spec (2 ^ 31) (policy_store_buf_size ps)); [lia|]. destruct (Z.ltb_spec (policy_store_buf_size ps) 56); [lia|].
    assert (Hdec : parse_pstore_header (pstore_header ps1 ++ concat (rule_bytes <$> pst_rules ps1)) =
      Some ((pst_my_uuid ps, pst_root_uuid ps, mv, pst_count ps), concat (rule_bytes <$> pst_rules ps))).
    { unfold parse_pstore_header, pstore_header, ps1. cbn [with_pst_saved pst_my_uuid pst_root_uuid pst_macversion pst_count pst_rules].
      rewrite <- !app_assoc. unfold dec_bind at 1. rewrite dec_bytes_app by done. unfold dec_bind at 1. rewrite dec_bytes_app by done.
      unfold dec_bind at 1. rewrite macversion_roundtrip by done. dec_step. done. }
    rewrite Hdec. cbn [mbind option_bind]. rewrite Hc, Nat2Z.id, <- (app_nil_r (concat _)).
    by rewrite put_rules_ok by (done || (simpl; lia)).
Qed.
End lemmas.

(** ** Properties *)
(** Over any sequence of additions, deletions and selections of well
    formed rules, the policy store behaves as a list: adding appends, deleting
    removes exactly the first rule with the UUID and fails when there is none,
    deleting the first fails exactly on the empty store, and selecting a
    permission returns the rules with that permission in order, or NULL.  No
    step reads past the list, and the counter stays the length of the list. *)
Theorem policy_store_refines ops root u :
  Forall store_op_ok ops -> Z.of_nat (length ops) < 2 ^ 32 ->
  exists ps, store_run (policy_store_create root u) ops = Some (ps, (spec_run [] ops).2) /\
    pst_rules ps = (spec_run [] ops).1 /\ pst_count ps = Z.of_nat (length (pst_rules ps)) /\ Forall rule_ok (pst_rules ps).
Proof.
  intros Hok Hb. destruct (store_run_refines ops _ (create_pst_inv root u) Hok) as (ps & Hr & Hi & Hl); [simpl; lia|].
  exists ps. split_and!; [done|done|apply Hi|apply Hi].
Qed.

(** [read :- role(u)] *)
Definition toy_rule (perm : Z) (u : uuid) : policy_rule :=
  policy_rule_push_atom (policy_rule_new perm u) (set_atom_type (policy_atom_new_from_predicate (str "role")) ATOM_TYPE_USER).

Lemma toy_rule_ok perm u : - 2 ^ 31 <= perm < 2 ^ 31 -> uuid_ok u -> rule_ok (toy_rule perm u).
Proof.
  intros Hp Hu. apply push_atom_ok; [by split| |by vm_compute]. apply set_atom_type_ok; [apply new_from_predicate_ok|by vm_compute].
Qed.

Definition toy_store_ops : list store_op :=
  [PAdd (toy_rule PERM_READ (uuid_const 3)); PAdd (toy_rule PERM_WRITE (uuid_const 4)); PAdd (toy_rule PERM_READ (uuid_const 5));
   PSelect PERM_READ; PSelect PERM_AUDIT; PDel (uuid_const 4); PDel (uuid_const 4); PDelFirst].

Lemma toy_store_ops_ok : Forall store_op_ok toy_store_ops.
Proof.
  assert (Hu : forall z, 0 <= z < 256 -> uuid_ok (uuid_const z)) by (intros; by apply uuid_const_ok).
  repeat constructor; try done; try apply toy_rule_ok; try apply Hu; try lia; by vm_compute.
Qed.

Lemma policy_store_refines_witness :
  exists ps, store_run (policy_store_create (uuid_const 1) (uuid_const 2)) toy_store_ops =
    Some (ps, [Code 0; Code 0; Code 0; Rules (Some [toy_rule PERM_READ (uuid_const 3); toy_rule PERM_READ (uuid_const 5)]);
      Rules None; Code 0; Code (-1); Code 0]) /\
    pst_rules ps = [toy_rule PERM_READ (uuid_const 5)] /\ pst_count ps = Z.of_nat (length (pst_rules ps)) /\ Forall rule_ok (pst_rules ps).
Proof. apply (policy_store_refines toy_store_ops (uuid_const 1) (uuid_const 2) toy_store_ops_ok). by vm_compute. Defined.

(** A stored policy store comes back in any enclave that holds the volume
    key with the same rules in the same order, atom by atom and argument by
    argument, the UUIDs, and the MAC and version of the attribute space it was
    written against; when the attribute space cannot be acquired nothing is
    written; a refused flush returns -1 and leaves the caller's MAC alone. *)
Theorem policy_store_store_load `{BlockCipher} `{KeyWrapCipher} vk ps version sp b env mem :
  pst_storable ps -> one_writer b (pst_my_uuid ps) -> in_range 32 version ->
  key_ok (pe_draw env).1 -> key_ok (pe_draw env).2 -> pe_heap env = Some mem ->
  (forall mv, abac_global_export_macversion sp = Some mv -> macversion_ok mv) ->
  match abac_global_export_macversion sp with
  | None => policy_store_store vk ps version sp b env = Some (ps, b, -1, [], None)
  | Some mv =>
      exists ps' b' data m, policy_store_store vk ps version sp b env =
          Some (ps', b', if failed (pe_reply env) then -1 else 0, [ocall_buffer_put (pst_my_uuid ps) data 0],
                if failed (pe_reply env) then None else Some m) /\
        pst_rules ps' = pst_rules ps /\ pst_mac ps' = m /\
        (if failed (pe_reply env) then
           exists flags, buffer_layer_lock_status b' (pst_my_uuid ps) = Some flags /\ nexus_io_in_lock_mode flags = true
         else idle b' (pst_my_uuid ps)) /\
        external_version data = u32 (version + 1) /\
        forall ctx, exists ps2,
          policy_store_from_crypto_buf vk
            (mk_cbuf ctx (external_version data) 0 (pst_my_uuid ps) (Some (ExtStore data)) None) = Some (Some ps2) /\
          pst_inv ps2 /\ pst_rules ps2 = pst_rules ps /\ pst_my_uuid ps2 = pst_my_uuid ps /\
          pst_root_uuid ps2 = pst_root_uuid ps /\ pst_macversion ps2 = mv
  end.
Proof.
  intros Hs Hw Hv Hk1 Hk2 Hh Hmv. unfold policy_store_store.
  destruct (abac_global_export_macversion sp) as [mv|]; [|done]. specialize (Hmv mv eq_refl).
  destruct (pstore_codec ps mv (pst_mac ps) (pst_last_size ps) Hs Hmv) as [Hser Hparse]. rewrite Hser. cbn [mbind option_bind nret].
  pose proof (length_pstore_bytes ps mv (pst_mac ps) (pst_last_size ps) Hs Hmv) as Hlen.
  pose proof Hs as (Hi & _ & _ & _ & Hsz). cbn [with_pst_saved pst_my_uuid].
  destruct (store_buffer_spec vk b (pst_my_uuid ps) _ _ version env mem Hw Hv Hk1 Hk2 Hlen Hsz Hh)
    as (-> & c' & b' & data & m & -> & Hsd & Hev & Hlock). cbn [mbind option_bind].
  exists (with_pst_saved ps m mv (if failed (pe_reply env) then pst_last_size ps else policy_store_buf_size ps)), b', data, m.
  split; [by destruct (failed (pe_reply env))|]. split; [done|]. split; [done|]. split; [done|]. split; [done|]. intros ctx.
  unfold policy_store_from_crypto_buf.
  destruct (get_sealed vk (pst_my_uuid ps) _ _ data m
    (mk_cbuf ctx (external_version data) 0 (pst_my_uuid ps) (Some (ExtStore data)) None) Hsd) as (c3 & ->); [done..|].
  cbn [mbind option_bind default from_option id]. cbn zeta in Hparse. rewrite Hparse. eexists. split; [done|]. split_and!; try done.
  by destruct Hi; split.
Qed.

Definition toy_pstore : policy_store :=
  with_rules (policy_store_create (uuid_const 1) (uuid_const 2)) 2 [toy_rule PERM_READ (uuid_const 3); toy_rule PERM_WRITE (uuid_const 4)].

Lemma policy_store_store_load_witness :
  exists ps' b' data m,
    policy_store_store (H := toy_cipher) (H0 := toy_wrap) [] toy_pstore 4 (Some (toy_space, 7)) (held_cache (uuid_const 2) 1) (toy_env reply_ok) =
      Some (ps', b', 0, [ocall_buffer_put (uuid_const 2) data 0], Some m) /\
    pst_rules ps' = pst_rules toy_pstore /\ pst_mac ps' = m /\ idle b' (uuid_const 2) /\ external_version data = 5 /\
    forall ctx, exists ps2,
      policy_store_from_crypto_buf (H := toy_cipher) (H0 := toy_wrap) []
        (mk_cbuf ctx (external_version data) 0 (uuid_const 2) (Some (ExtStore data)) None) = Some (Some ps2) /\
      pst_inv ps2 /\ pst_rules ps2 = pst_rules toy_pstore /\ pst_my_uuid ps2 = uuid_const 2 /\
      pst_root_uuid ps2 = uuid_const 1 /\ pst_macversion ps2 = mk_macversion 7 (sp_mac toy_space).
Proof.
  apply (policy_store_store_load (H := toy_cipher) (H0 := toy_wrap) [] toy_pstore 4 (Some (toy_space, 7)) (held_cache (uuid_const 2) 1) (toy_env reply_ok) []).
  - split_and!; try by vm_compute. split; [done|by vm_compute|].
    repeat constructor; try apply toy_rule_ok; try (apply uuid_const_ok; unfold byte_ok; lia); by vm_compute.
  - apply held_one_writer.
  - by vm_compute.
  - apply toy_draw_ok. unfold byte_ok. lia.
  - apply toy_draw_ok. unfold byte_ok. lia.
  - done.
  - intros mv [= <-]. split; by vm_compute.
Defined.
