(* ===== verification/UserProfile.v ===== *)
(** * User profiles

    Models [abac/user_profile.c] and the readers of the attribute table that
    need the attribute space ([attribute_table_export_facts] and
    [UNSAFE_attribute_table_ls] of [abac/attribute_table.c]).  A profile is a
    header and the attribute table of [AttributeTable.v]. *)
From stdpp Require Import strings.
From S2P Require Import Prelude Hashmap Types AttributeTable Gcm Crypto BufferLayer CryptoBuf AbacValue AbacRule AttributeSpace PolicyStore.

(** ** attribute_table.c *)
(** The facts of an attribute table as Datalog text, and how many attributes
    the space does not know.  A name or a value without a NUL is read past its
    end. *)
Fixpoint export_facts (sp : attribute_space) (first_term : bytes) (l : list attribute_entry) : option (bytes * Z) :=
  match l with
  | [] => Some ([], 0)
  | e :: l' =>
      o ← attribute_space_find_uuid sp (attr_uuid e);
      '(t, n) ← export_facts sp first_term l';
      match o with
      | None => Some (t, n +64 1)
      | Some s =>
          name ← c_string (as_name s);
          val ← c_string (attr_val e);
          Some (name ++ str "(" ++ first_term ++ [44; 32; 34] ++ val ++ [34; 41; 46; 10] ++ t, n)
      end
  end.

Definition attribute_table_export_facts (t : attribute_table) (sp : attribute_space) (first_term : bytes) : option (bytes * Z) :=
  export_facts sp first_term (at_entries t).

Definition NXS_ATTRIBUTE_NAME_MAX : nat := 32.
Definition NXS_ATTRIBUTE_VALUE_MAX : nat := 32.

(** One pair is copied before the capacity is looked at. *)
Fixpoint ls_pairs (sp : attribute_space) (l : list attribute_entry) (offset : nat) (copied capacity : Z)
    : option (list (bytes * bytes) * Z) :=
  match l with
  | [] => Some ([], copied)
  | e :: l' =>
      match offset with
      | S k => if copied <? capacity then ls_pairs sp l' k copied capacity else Some ([], copied)
      | O =>
          o ← attribute_space_find_uuid sp (attr_uuid e);
          let name := strncpy_field NXS_ATTRIBUTE_NAME_MAX (match o with Some s => schema_name s | None => str "XXX" end) in
          let p := (name, strncpy_field NXS_ATTRIBUTE_VALUE_MAX (cstr (attr_val e))) in
          if copied + 1 <? capacity then
            '(ps, n) ← ls_pairs sp l' O (copied + 1) capacity; Some (p :: ps, n)
          else Some ([p], copied + 1)
      end
  end.

(** The pairs, [*result_count] and [*total_count]. *)
Definition UNSAFE_attribute_table_ls (t : attribute_table) (sp : attribute_space) (capacity : Z) (offset : nat)
    : option (list (bytes * bytes) * Z * Z) :=
  '(ps, n) ← ls_pairs sp (at_entries t) offset 0 capacity; Some (ps, n, at_count t).

(** ** user_profile.c *)
(** [up_metadata] is the metadata's [is_dirty], [None] when NULL. *)
Record user_profile := mk_profile {
  up_my_uuid : uuid;
  up_root_uuid : uuid;
  up_mac : mac;
  up_table : attribute_table;
  up_metadata : option bool
}.

Definition with_up_table (p : user_profile) (t : attribute_table) : user_profile :=
  mk_profile (up_my_uuid p) (up_root_uuid p) (up_mac p) t (up_metadata p).
Definition with_up_mac (p : user_profile) (m : mac) : user_profile :=
  mk_profile (up_my_uuid p) (up_root_uuid p) m (up_table p) (up_metadata p).
Definition user_profile_set_dirty (p : user_profile) : user_profile :=
  mk_profile (up_my_uuid p) (up_root_uuid p) (up_mac p) (up_table p) (const true <$> up_metadata p).

Definition user_profile_create (root_uuid u : uuid) : user_profile :=
  mk_profile u root_uuid nexus_mac_zeroize attribute_table_create None.

Definition USER_PROFILE_HDR_SIZE : Z := 32.

Definition user_profile_get_size (p : user_profile) : Z := USER_PROFILE_HDR_SIZE +64 attribute_table_get_size (up_table p).

Definition user_profile_from_buffer (buf : bytes) : option user_profile :=
  if Z.of_nat (length buf) <? USER_PROFILE_HDR_SIZE then None
  else
    '(my, src) ← dec_bytes NEXUS_UUID_SIZE buf;
    '(root, src) ← dec_bytes NEXUS_UUID_SIZE src;
    '(t, _) ← attribute_table_from_buffer src;
    Some (mk_profile my root nexus_mac_zeroize t None).

(** [sp] is what [abac_acquire_attribute_space(NEXUS_FREAD)] returns. *)
Definition user_profile_grant_attribute (p : user_profile) (sp : option attribute_space) (name value : bytes) : user_profile * Z :=
  match sp with
  | None => (p, -1)
  | Some sp =>
      match attribute_space_find_name sp name with
      | None => (p, -1)
      | Some s =>
          if negb (as_type s =? USER_ATTRIBUTE_TYPE) then (p, -1)
          else (user_profile_set_dirty (with_up_table p (attribute_table_add (up_table p) (as_uuid s) value)), 0)
      end
  end.

Definition user_profile_revoke_attribute (p : user_profile) (sp : option attribute_space) (name : bytes) : user_profile * Z :=
  match sp with
  | None => (p, -1)
  | Some sp =>
      match attribute_space_find_name sp name with
      | None => (p, -1)
      | Some s =>
          let '(t, ret) := attribute_table_del (up_table p) (as_uuid s) in
          if negb (ret =? 0) then (with_up_table p t, -1) else (user_profile_set_dirty (with_up_table p t), 0)
      end
  end.

Definition UNSAFE_user_profile_attribute_ls (p : user_profile) (sp : option attribute_space) (capacity : Z) (offset : nat)
    : option (option (list (bytes * bytes) * Z * Z)) :=
  match sp with
  | None => null
  | Some sp => Some <$> UNSAFE_attribute_table_ls (up_table p) sp capacity offset
  end.

Section store.
Context `{BlockCipher} `{KeyWrapCipher}.
Variable volumekey : bytes.

(** [Some None] is NULL. *)
Definition user_profile_from_crypto_buf (c : nexus_crypto_buf) : option (option user_profile) :=
  '(_, p, _) ← nexus_crypto_buf_get volumekey c; Some (p ≫= user_profile_from_buffer).

(** The result's last component is the caller's [mac], unwritten on failure. *)
Definition user_profile_store (p : user_profile) (version : Z) (sp : option (attribute_space * Z)) (b : bcache) (env : put_env)
    : option (user_profile * bcache * Z * list ocall * option mac) :=
  let size := user_profile_get_size p in
  match attribute_table_store (up_table p) (abac_global_export_macversion sp) (size -64 USER_PROFILE_HDR_SIZE) with
  | None => Some (p, b, -1, [], None)
  | Some (t, tb) =>
      let p := with_up_table p t in
      let buf := up_my_uuid p ++ up_root_uuid p ++ tb in
      if size <? Z.of_nat (length buf) then None
      else
        let content := buf ++ replicate (Z.to_nat size - length buf) 0 in
        '(c, b, ret, m, tr) ← nexus_crypto_buf_put volumekey (nexus_crypto_buf_new content version (up_my_uuid p)) b env;
        let p := with_up_mac p (default (up_mac p) m) in
        if negb (ret =? 0) then Some (p, b, -1, tr, None) else Some (p, b, 0, tr, Some (up_mac p))
  end.
End store.

(** ** Properties *)
(** The value a profile gives an attribute name. *)
Definition profile_value (p : user_profile) (sp : attribute_space) (name : bytes) : option bytes :=
  s ← attribute_space_find_name sp name; attribute_table_find (up_table p) (as_uuid s).

Lemma find_name_ok sp name s : sp_inv sp -> cstr_ok name -> attribute_space_find_name sp name = Some s -> uuid_ok (as_uuid s) /\ s ∈ (sp_list sp).*2.
Proof.
  intros Hi Hn Hf. rewrite find_name_spec in Hf by done. apply find_some in Hf as [Hin _]. apply list_elem_of_In in Hin.
  split; [|done]. pose proof (proj1 (Forall_forall _ _) (si_schemas _ Hi) _ Hin) as (_ & ? & _). done.
Qed.

Lemma find_name_inj sp n1 n2 s1 s2 :
  sp_inv sp -> cstr_ok n1 -> cstr_ok n2 -> attribute_space_find_name sp n1 = Some s1 -> attribute_space_find_name sp n2 = Some s2 ->
  as_uuid s1 = as_uuid s2 -> s1 = s2.
Proof.
  intros Hi H1 H2 Hf1 Hf2 Hu. destruct (find_name_ok _ _ _ Hi H1 Hf1) as [_ Hin1]. destruct (find_name_ok _ _ _ Hi H2 Hf2) as [_ Hin2].
  apply list_elem_of_lookup in Hin1 as [i Hi1], Hin2 as [j Hj2].
  assert (i = j) as ->; [|congruence]. eapply (NoDup_lookup (as_uuid <$> (sp_list sp).*2)); [apply Hi| |].
  - by rewrite list_lookup_fmap, Hi1.
  - by rewrite list_lookup_fmap, Hj2, Hu.
Qed.

Record profile_inv (p : user_profile) (g : gmap uuid Z) : Prop := {
  pr_table : at_inv (up_table p) g;
  pr_clean : at_clean (up_table p) g;
  pr_small : Z.of_nat (size g) < 2 ^ 28
}.

(** The value read back after an addition. *)
Definition added (old : option bytes) (v : bytes) : bytes := match old with Some old => overwritten old v | None => v end.

Lemma table_add_spec t g u v :
  at_inv t g -> at_clean t g -> uuid_ok u -> Z.of_nat (size g) < 2 ^ 29 -> cstr_ok v -> (length v < VALUE_LEN)%nat ->
  forall u', uuid_ok u' ->
    attribute_table_find (attribute_table_add t u v) u' = if decide (u' = u) then Some (added (attribute_table_find t u) v) else attribute_table_find t u'.
Proof.
  intros Hi Hcl Hu Hsz Hv Hl. unfold added. destruct (attribute_table_find t u) as [old|] eqn:Ho.
  - by destruct (attribute_table_add_bound t g u v old) as (_ & _ & Hf).
  - assert (Hg : g !! u = None).
    { unfold attribute_table_find in Ho. rewrite (at_lookup_eq _ _ _ Hi Hu) in Ho. destruct (g !! u) as [a|] eqn:Ha; [|done].
      destruct (ai_cell _ _ Hi _ _ Ha) as (_ & e & He & _). cbn in Ho. by rewrite He in Ho. }
    by destruct (attribute_table_add_new t g u v) as [_ Hf].
Qed.

(** Granting gives the named user attribute the value (over the tail of a
    longer old value) and leaves every other attribute of the profile alone;
    revoking takes exactly the named attribute away.  A name that the
    attribute space does not declare is refused by both, a name declared for
    objects by granting only, and then the profile is unchanged. *)
Theorem user_profile_grant_revoke p g sp name value :
  profile_inv p g -> sp_inv sp -> cstr_ok name -> cstr_ok value -> (length value < VALUE_LEN)%nat ->
  match attribute_space_find_name sp name with
  | None => user_profile_grant_attribute p (Some sp) name value = (p, -1) /\ user_profile_revoke_attribute p (Some sp) name = (p, -1)
  | Some s =>
      (if as_type s =? USER_ATTRIBUTE_TYPE then
         exists p', user_profile_grant_attribute p (Some sp) name value = (p', 0) /\
           profile_value p' sp name = Some (added (profile_value p sp name) value) /\
           forall n, cstr_ok n -> attribute_space_find_name sp n <> Some s -> profile_value p' sp n = profile_value p sp n
       else user_profile_grant_attribute p (Some sp) name value = (p, -1)) /\
      exists p', user_profile_revoke_attribute p (Some sp) name = (p', if profile_value p sp name then 0 else -1) /\
        profile_value p' sp name = None /\
        forall n, cstr_ok n -> attribute_space_find_name sp n <> Some s -> profile_value p' sp n = profile_value p sp n
  end.
Proof.
  intros [Hi Hcl Hsz] Hsp Hn Hv Hl. unfold user_profile_grant_attribute, user_profile_revoke_attribute.
  destruct (attribute_space_find_name sp name) as [s|] eqn:Hf; [|done]. destruct (find_name_ok _ _ _ Hsp Hn Hf) as [Hu _].
  assert (Hother : forall n s', cstr_ok n -> attribute_space_find_name sp n <> Some s -> attribute_space_find_name sp n = Some s' ->
    uuid_ok (as_uuid s') /\ as_uuid s' <> as_uuid s).
  { intros n s' Hcn Hne Hf'. split; [by eapply find_name_ok|]. intros He. apply Hne. rewrite Hf'. f_equal. by apply (find_name_inj sp n name). }
  split.
  - destruct (Z.eqb_spec (as_type s) USER_ATTRIBUTE_TYPE) as [Hty|]; [|done]. cbn [negb]. eexists. split; [done|].
    pose proof (table_add_spec _ _ (as_uuid s) value Hi Hcl Hu ltac:(lia) Hv Hl) as Hadd. unfold profile_value. rewrite Hf.
    cbn [mbind option_bind user_profile_set_dirty with_up_table up_table]. split; [by rewrite Hadd, decide_True by done|].
    intros n Hcn Hne. destruct (attribute_space_find_name sp n) as [s'|] eqn:Hf'; [|done]. cbn.
    destruct (Hother n s' Hcn ltac:(congruence) Hf'). by rewrite Hadd, decide_False by done.
  - destruct (attribute_table_del_spec _ _ (as_uuid s) Hi Hu) as [Hno Hyes]. unfold profile_value at 1. rewrite Hf. cbn [mbind option_bind].
    destruct (g !! as_uuid s) as [a|] eqn:Hg.
    + destruct (Hyes ltac:(done)) as (Hr & _ & Hfind). destruct (attribute_table_del (up_table p) (as_uuid s)) as [t ret]. cbn [fst snd] in *. subst ret.
      assert (Hsome : is_Some (attribute_table_find (up_table p) (as_uuid s))).
      { unfold attribute_table_find. rewrite (at_lookup_eq _ _ _ Hi Hu), Hg. cbn. destruct (ai_cell _ _ Hi _ _ Hg) as (_ & e & -> & _). done. }
      destruct Hsome as [v0 ->]. eexists. split; [done|]. unfold profile_value. cbn [user_profile_set_dirty with_up_table up_table].
      rewrite Hf. cbn [mbind option_bind]. split; [by rewrite Hfind, decide_True|].
      intros n Hcn Hne. destruct (attribute_space_find_name sp n) as [s'|] eqn:Hf'; [|done]. cbn.
      destruct (Hother n s' Hcn ltac:(congruence) Hf'). by rewrite Hfind, decide_False.
    + rewrite (Hno eq_refl). cbn [negb Z.eqb].
      assert (Hnone : attribute_table_find (up_table p) (as_uuid s) = None).
      { unfold attribute_table_find. by rewrite (at_lookup_eq _ _ _ Hi Hu), Hg. }
      rewrite Hnone. eexists. split; [done|]. unfold profile_value. cbn [with_up_table up_table]. rewrite Hf. by cbn.
Qed.

Definition toy_profile : user_profile := user_profile_create (uuid_const 1) (uuid_const 2).

Lemma toy_profile_inv : profile_inv toy_profile ∅.
Proof. split; [apply at_create_inv|by intros ? ? ? ?|done]. Qed.

Lemma user_profile_grant_revoke_witness :
  (exists p', user_profile_grant_attribute toy_profile (Some toy_space) (str "role") (str "admin") = (p', 0) /\
     profile_value p' toy_space (str "role") = Some (str "admin")) /\
  (exists p', user_profile_revoke_attribute toy_profile (Some toy_space) (str "role") = (p', -1)).
Proof.
  pose proof (user_profile_grant_revoke toy_profile ∅ toy_space (str "role") (str "admin") toy_profile_inv
    (proj1 toy_space_storable) ltac:(by repeat constructor) ltac:(by repeat constructor) ltac:(apply Nat.ltb_lt; by vm_compute)) as H.
  assert (Hf : attribute_space_find_name toy_space (str "role") =
    Some (mk_schema USER_ATTRIBUTE_TYPE (strncpy_field ATTRIBUTE_NAME_MAX (str "role")) (uuid_const 3))) by (by vm_compute).
  rewrite Hf in H. destruct H as [(p1 & H1 & H2 & _) (p2 & H3 & _)]. split; [by exists p1|by exists p2].
Defined.

(** A stored user profile comes back in any enclave that holds the volume
    key with every attribute it had, its value cut to the length that was
    recorded, and with the MAC and version of the attribute space it was
    written against; without an attribute space nothing is written. *)
Theorem user_profile_store_load `{BlockCipher} `{KeyWrapCipher} vk p g version sp b env mem :
  at_inv (up_table p) g -> Z.of_nat (size g) < 2 ^ 28 -> in_range 64 (at_generation (up_table p)) -> uuid_ok (at_audit_log_uuid (up_table p)) ->
  length (up_my_uuid p) = NEXUS_UUID_SIZE -> length (up_root_uuid p) = NEXUS_UUID_SIZE -> user_profile_get_size p < 2 ^ 31 ->
  one_writer b (up_my_uuid p) -> in_range 32 version ->
  key_ok (pe_draw env).1 -> key_ok (pe_draw env).2 -> pe_heap env = Some mem ->
  (forall mv, abac_global_export_macversion sp = Some mv -> macversion_ok mv) ->
  match abac_global_export_macversion sp with
  | None => user_profile_store vk p version sp b env = Some (p, b, -1, [], None)
  | Some mv =>
      exists p' b' data m, user_profile_store vk p version sp b env =
          Some (p', b', if failed (pe_reply env) then -1 else 0, [ocall_buffer_put (up_my_uuid p) data 0],
                if failed (pe_reply env) then None else Some m) /\
        (if failed (pe_reply env) then
           exists flags, buffer_layer_lock_status b' (up_my_uuid p) = Some flags /\ nexus_io_in_lock_mode flags = true
         else idle b' (up_my_uuid p)) /\
        external_version data = u32 (version + 1) /\
        forall ctx, exists p2 g2,
          user_profile_from_crypto_buf vk
            (mk_cbuf ctx (external_version data) 0 (up_my_uuid p) (Some (ExtStore data)) None) = Some (Some p2) /\
          at_inv (up_table p2) g2 /\ up_my_uuid p2 = up_my_uuid p /\ up_root_uuid p2 = up_root_uuid p /\
          at_count (up_table p2) = at_count (up_table p) /\ at_macversion (up_table p2) = mv /\
          forall u, uuid_ok u -> at_lookup (up_table p2) u = trim <$> at_lookup (up_table p) u
  end.
Proof.
  intros Hi Hsz Hgen Hau Hm Hr Hlt Hw Hv Hk1 Hk2 Hh Hmv. unfold user_profile_store.
  assert (Hts : user_profile_get_size p -64 USER_PROFILE_HDR_SIZE = attribute_table_get_size (up_table p) /\
    user_profile_get_size p = 32 + attribute_table_get_size (up_table p)).
  { unfold user_profile_get_size, attribute_table_get_size, USER_PROFILE_HDR_SIZE, ATTR_TABLE_HDR_SIZE, ATTR_TABLE_ENTRY_SIZE.
    rewrite (ai_count _ _ Hi). word_solve. }
  destruct Hts as [-> Hsize]. destruct (abac_global_export_macversion sp) as [mv|].
  2: { unfold attribute_table_store. by destruct (_ <? _). }
  specialize (Hmv mv eq_refl).
  destruct (store_load_spec (up_table p) g mv (attribute_table_get_size (up_table p)) [] Hi Hsz Hgen Hau Hmv ltac:(lia))
    as (t1 & tb & t2 & g2 & -> & Hlen & Hload & Hi2 & Hc2 & _ & _ & Hmv2 & Hlk). cbn [with_up_table up_my_uuid up_root_uuid up_mac].
  assert (Hbl : Z.of_nat (length (up_my_uuid p ++ up_root_uuid p ++ tb)) = user_profile_get_size p).
  { rewrite !length_app, Hm, Hr, Hsize, <- Hlen. unfold NEXUS_UUID_SIZE. lia. }
  destruct (store_buffer_spec vk b (up_my_uuid p) _ _ version env mem Hw Hv Hk1 Hk2 Hbl Hlt Hh)
    as (-> & c' & b' & data & m & -> & Hsd & Hev & Hlock). cbn [mbind option_bind].
  exists (with_up_mac (with_up_table p t1) m), b', data, m. split; [by destruct (failed (pe_reply env))|]. split; [done|]. split; [done|]. intros ctx.
  unfold user_profile_from_crypto_buf.
  destruct (get_sealed vk (up_my_uuid p) _ _ data m
    (mk_cbuf ctx (external_version data) 0 (up_my_uuid p) (Some (ExtStore data)) None) Hsd) as (c3 & ->); [done..|].
  cbn [mbind option_bind]. unfold user_profile_from_buffer. rewrite Hbl, Hsize. unfold USER_PROFILE_HDR_SIZE.
  destruct (Z.ltb_spec (32 + attribute_table_get_size (up_table p)) 32); [lia|].
  rewrite dec_bytes_app by done. cbn [mbind option_bind]. rewrite dec_bytes_app by done. cbn [mbind option_bind].
  rewrite app_nil_r in Hload. rewrite Hload. cbn [mbind option_bind]. eexists _, g2. split_and!; done.
Qed.

Lemma user_profile_store_load_witness :
  exists p' b' data m,
    user_profile_store (H := toy_cipher) (H0 := toy_wrap) [] toy_profile 4 (Some (toy_space, 7)) (held_cache (uuid_const 2) 1) (toy_env reply_ok) =
      Some (p', b', 0, [ocall_buffer_put (uuid_const 2) data 0], Some m).
Proof.
  destruct (user_profile_store_load (H := toy_cipher) (H0 := toy_wrap) [] toy_profile ∅ 4 (Some (toy_space, 7)) (held_cache (uuid_const 2) 1) (toy_env reply_ok) [])
    as (p' & b' & data & m & Hs & _).
  - apply toy_profile_inv.
  - apply toy_profile_inv.
  - by vm_compute.
  - apply uuid_const_ok. unfold byte_ok. lia.
  - done.
  - done.
  - by vm_compute.
  - apply held_one_writer.
  - by vm_compute.
  - apply toy_draw_ok. unfold byte_ok. lia.
  - apply toy_draw_ok. unfold byte_ok. lia.
  - done.
  - intros mv [= <-]. split; by vm_compute.
  - by exists p', b', data, m.
Defined.
