(* ===== verification/AuditLog.v ===== *)
(** * Audit logs

    Models [abac/audit_log.c]: the log of an object keeps its last events, and
    a write that was announced is completed with the version it produced.
    [list_first_entry] and [list_last_entry] of an empty list are [None]. *)
From stdpp Require Import strings.
From S2P Require Import Prelude Types Gcm Crypto BufferLayer CryptoBuf AbacValue AbacRule.

Definition MAX_EVENT_COUNT : Z := 100.

(** [struct __audit_log_event]; [perm_type_t] is an [int]. *)
Record audit_event := mk_event { ev_version : Z; ev_perm : Z; ev_uuid : uuid }.

(** [al_metadata] is the metadata's [is_dirty], [None] when NULL. *)
Record audit_log := mk_log {
  al_uuid : uuid;
  al_count : Z;
  al_max : Z;
  al_events : list audit_event;
  al_mac : mac;
  al_metadata : option bool
}.

Definition with_events (a : audit_log) (count : Z) (l : list audit_event) : audit_log :=
  mk_log (al_uuid a) count (al_max a) l (al_mac a) (al_metadata a).
Definition with_al_mac (a : audit_log) (m : mac) : audit_log :=
  mk_log (al_uuid a) (al_count a) (al_max a) (al_events a) m (al_metadata a).
Definition audit_log_set_dirty (a : audit_log) : audit_log :=
  mk_log (al_uuid a) (al_count a) (al_max a) (al_events a) (al_mac a) (const true <$> al_metadata a).

Definition audit_log_create (u : uuid) : audit_log := mk_log u 0 MAX_EVENT_COUNT [] nexus_mac_zeroize None.

Definition AUDIT_HDR_SIZE : Z := 24.
Definition AUDIT_EVENT_SIZE : Z := 28.
Definition audit_log_buf_size (a : audit_log) : Z := u64 (AUDIT_HDR_SIZE + AUDIT_EVENT_SIZE * al_count a).

(** A full log loses its first event. *)
Definition audit_log_put (a : audit_log) (e : audit_event) : option audit_log :=
  a ← (if al_count a =? al_max a then
         match al_events a with [] => None | _ :: l => Some (with_events a (al_count a -64 1) l) end
       else Some a);
  Some (with_events a (al_count a +64 1) (al_events a ++ [e])).

Definition audit_log_add_event (a : audit_log) (perm : Z) (u : uuid) (version : Z) : option (audit_log * Z) :=
  a ← audit_log_put a (mk_event version perm u); Some (audit_log_set_dirty a, 0).

Definition set_last_version (l : list audit_event) (v : Z) : list audit_event :=
  match last l with
  | None => l
  | Some e => take (pred (length l)) l ++ [mk_event v (ev_perm e) (ev_uuid e)]
  end.

Definition audit_log_complete_write (a : audit_log) (new_version : Z) : option (audit_log * Z) :=
  e ← last (al_events a);
  if negb (perm_type_modifies_object (ev_perm e)) then Some (a, -1)
  else if new_version <=? ev_version e then Some (a, -1)
  else Some (audit_log_set_dirty (with_events a (al_count a) (set_last_version (al_events a) new_version)), 0).

(** The users and permissions [audit_log_print] prints: at most ten events
    whose user is in the table. *)
Fixpoint audit_log_print (find_user : uuid -> option bytes) (l : list audit_event) (count : nat) : list (bytes * option bytes) :=
  match l with
  | [] => []
  | e :: l' =>
      match find_user (ev_uuid e) with
      | None => audit_log_print find_user l' count
      | Some name =>
          let x := (name, perm_type_to_string (ev_perm e)) in
          if (S count =? 10)%nat then [x] else x :: audit_log_print find_user l' (S count)
      end
  end.

(** ** Stored form *)
Definition event_bytes (e : audit_event) : bytes := le_encode 8 (ev_version e) ++ le_encode 4 (ev_perm e) ++ ev_uuid e.
Definition parse_event : decoder audit_event :=
  v <~ dec_uint 8; p <~ dec_uint 4; u <~ dec_bytes NEXUS_UUID_SIZE; dec_ret (mk_event v (s32 p) u).

Definition parse_audit_header : decoder (uuid * Z * Z) :=
  u <~ dec_bytes NEXUS_UUID_SIZE; n <~ dec_uint 4; mx <~ dec_uint 4; dec_ret (u, n, mx).

(** [Some None] is NULL. *)
Fixpoint put_events (n : nat) (a : audit_log) (buf : bytes) : option (option audit_log) :=
  match n with
  | O => nret a
  | S n =>
      if Z.of_nat (length buf) <? AUDIT_EVENT_SIZE then null
      else '(e, buf) ← parse_event buf; a ← audit_log_put a e; put_events n a buf
  end.

Definition audit_log_parse (buf : bytes) : option (option audit_log) :=
  if Z.of_nat (length buf) <? AUDIT_HDR_SIZE then null
  else
    '((u, n, mx), src) ← parse_audit_header buf;
    a <?- put_events (Z.to_nat n) (mk_log u 0 mx [] nexus_mac_zeroize None) src;
    if al_count a =? n then nret a else null.

Definition audit_log_serialize (a : audit_log) : bytes :=
  al_uuid a ++ le_encode 4 (al_count a) ++ le_encode 4 (al_max a) ++ concat (event_bytes <$> al_events a).

Section store.
Context `{BlockCipher} `{KeyWrapCipher}.
Variable volumekey : bytes.

Definition audit_log_from_crypto_buf (c : nexus_crypto_buf) : option (option audit_log) :=
  '(_, p, _) ← nexus_crypto_buf_get volumekey c; audit_log_parse (default [] p).

(** Events that do not fit the buffer are refused; the result's last
    component is the caller's [mac], unwritten on failure. *)
Definition audit_log_store (a : audit_log) (version : Z) (b : bcache) (env : put_env)
    : option (audit_log * bcache * Z * list ocall * option mac) :=
  let size := audit_log_buf_size a in
  let buf := audit_log_serialize a in
  if size <? Z.of_nat (length buf) then Some (a, b, -1, [], None)
  else
    let content := buf ++ replicate (Z.to_nat size - length buf) 0 in
    '(c, b, ret, m, tr) ← nexus_crypto_buf_put volumekey (nexus_crypto_buf_new content version (al_uuid a)) b env;
    let a := with_al_mac a (default (al_mac a) m) in
    if negb (ret =? 0) then Some (a, b, -1, tr, None) else Some (a, b, 0, tr, Some (al_mac a)).
End store.

(** ** Lemmas *)
Definition event_ok (e : audit_event) : Prop :=
  in_range 64 (ev_version e) /\ - 2 ^ 31 <= ev_perm e < 2 ^ 31 /\ uuid_ok (ev_uuid e).

Record log_inv (a : audit_log) : Prop := {
  li_count : al_count a = Z.of_nat (length (al_events a));
  li_max : al_count a <= al_max a;
  li_some : 0 < al_max a < 2 ^ 32;
  li_uuid : length (al_uuid a) = NEXUS_UUID_SIZE;
  li_events : Forall event_ok (al_events a)
}.

(** The last [n] elements. *)
Definition last_n {A} (n : nat) (l : list A) : list A := drop (length l - n) l.

Lemma create_log_inv u : length u = NEXUS_UUID_SIZE -> log_inv (audit_log_create u).
Proof. by split. Qed.

Lemma log_put_spec a e :
  log_inv a -> event_ok e ->
  exists a', audit_log_put a e = Some a' /\ log_inv a' /\ al_max a' = al_max a /\ al_uuid a' = al_uuid a /\
    al_events a' = last_n (Z.to_nat (al_max a)) (al_events a ++ [e]).
Proof.
  intros [Hc Hm Hs Hu He] Hok. unfold audit_log_put. destruct (Z.eqb_spec (al_count a) (al_max a)) as [Heq|Hne].
  - destruct (al_events a) as [|x l] eqn:Hl; [simpl in Hc; lia|]. cbn [mbind option_bind]. eexists. split; [done|].
    apply Forall_cons in He as [_ He]. cbn [length] in Hc.
    assert (Hev : l ++ [e] = last_n (Z.to_nat (al_max a)) ((x :: l) ++ [e])).
    { unfold last_n. rewrite length_app. cbn [length app].
      replace (S (length l) + 1 - Z.to_nat (al_max a))%nat with 1%nat by lia. done. }
    split_and!; try done. split; cbn [with_events al_count al_max al_uuid al_events]; try done.
    + rewrite length_app. simpl. word_solve.
    + word_solve.
    + apply Forall_app. split; [done|by apply Forall_singleton].
  - cbn [mbind option_bind]. eexists. split; [done|].
    assert (Hev : al_events a ++ [e] = last_n (Z.to_nat (al_max a)) (al_events a ++ [e])).
    { unfold last_n. rewrite length_app. cbn [length]. replace (length (al_events a) + 1 - Z.to_nat (al_max a))%nat with 0%nat by lia. done. }
    split_and!; try done. split; cbn [with_events al_count al_max al_uuid al_events]; try done.
    + rewrite length_app. simpl. word_solve.
    + word_solve.
    + apply Forall_app. split; [done|by apply Forall_singleton].
Qed.

Fixpoint add_events (a : audit_log) (l : list audit_event) : option audit_log :=
  match l with
  | [] => Some a
  | e :: l' => '(a, _) ← audit_log_add_event a (ev_perm e) (ev_uuid e) (ev_version e); add_events a l'
  end.

Lemma last_n_app {A} n (l : list A) x l' : last_n n (last_n n (l ++ [x]) ++ l') = last_n n (l ++ x :: l').
Proof.
  unfold last_n. rewrite !length_app, !length_drop, !length_app. cbn [length].
  replace (l ++ x :: l') with ((l ++ [x]) ++ l') by (by rewrite <- app_assoc).
  destruct (Nat.le_ge_cases (length l + 1) n) as [Hle|Hle].
  - replace (length l + 1 - n)%nat with 0%nat by lia. rewrite drop_0. f_equal. lia.
  - rewrite <- (drop_app_le (l ++ [x]) l' (length l + 1 - n)) by (rewrite length_app; simpl; lia).
    rewrite drop_drop. f_equal. lia.
Qed.

Lemma add_events_spec l a :
  log_inv a -> Forall event_ok l -> (length (al_events a) <= Z.to_nat (al_max a))%nat ->
  exists a', add_events a l = Some a' /\ log_inv a' /\ al_events a' = last_n (Z.to_nat (al_max a)) (al_events a ++ l) /\
    al_max a' = al_max a.
Proof.
  revert a; induction l as [|e l IH]; intros a Hi Hok Hl.
  - exists a. split_and!; try done. unfold last_n. rewrite app_nil_r. by replace (length (al_events a) - _)%nat with 0%nat by lia.
  - apply Forall_cons in Hok as [He Hok]. cbn [add_events]. unfold audit_log_add_event.
    replace (mk_event (ev_version e) (ev_perm e) (ev_uuid e)) with e by (by destruct e).
    destruct (log_put_spec a e Hi He) as (a1 & -> & Hi1 & Hm1 & Hu1 & He1). cbn [mbind option_bind].
    destruct (IH (audit_log_set_dirty a1)) as (a2 & -> & Hi2 & He2 & Hm2).
    + by destruct Hi1; split.
    + done.
    + cbn [audit_log_set_dirty al_events al_max]. rewrite He1, Hm1. unfold last_n. rewrite length_drop. lia.
    + exists a2. split_and!; try done; [|by rewrite Hm2].
      rewrite He2. cbn [audit_log_set_dirty al_events al_max]. rewrite He1, Hm1. apply last_n_app.
Qed.

Lemma parse_event_ok e rest : event_ok e -> parse_event (event_bytes e ++ rest) = Some (e, rest).
Proof.
  intros (Hv & Hp & [Hu _]). unfold parse_event, event_bytes. rewrite <- !app_assoc. dec_step. unfold dec_bind at 1.
  rewrite dec_uint_trunc. unfold dec_bind at 1. rewrite dec_bytes_app by done. unfold dec_ret. rewrite s32_wrap by done. by destruct e.
Qed.

Lemma length_event e : event_ok e -> length (event_bytes e) = 28%nat.
Proof. intros (_ & _ & [Hu _]). unfold event_bytes. by rewrite !length_app, !length_le_encode, Hu. Qed.

Lemma length_events l : Forall event_ok l -> length (concat (event_bytes <$> l)) = (28 * length l)%nat.
Proof.
  induction 1 as [|e l He _ IH]; [done|]. rewrite fmap_cons. cbn [concat length]. rewrite length_app, length_event, IH by done. lia.
Qed.

Lemma put_events_ok l a :
  Forall event_ok l -> al_count a = Z.of_nat (length (al_events a)) -> al_count a + Z.of_nat (length l) <= al_max a < 2 ^ 32 ->
  put_events (length l) a (concat (event_bytes <$> l)) = nret (with_events a (al_count a + Z.of_nat (length l)) (al_events a ++ l)).
Proof.
  intros Hl. revert a; induction Hl as [|e l He _ IH]; intros a Hc Hm.
  { cbn. rewrite app_nil_r, Z.add_0_r. by destruct a. }
  rewrite fmap_cons. cbn [length put_events concat] in *. rewrite length_app, length_event by done. unfold AUDIT_EVENT_SIZE.
  destruct (Z.ltb_spec (Z.of_nat (28 + length (concat (event_bytes <$> l)))) 28); [lia|].
  rewrite parse_event_ok by done. cbn [mbind option_bind]. unfold audit_log_put.
  destruct (Z.eqb_spec (al_count a) (al_max a)); [lia|]. cbn [mbind option_bind].
  assert (Hw : al_count a +64 1 = al_count a + 1) by word_solve. rewrite Hw.
  rewrite IH; cbn [with_events al_count al_events al_max]; [|rewrite length_app; simpl; lia|lia].
  rewrite <- app_assoc. cbn [app]. unfold nret. do 3 f_equal. lia.
Qed.

Lemma log_codec a :
  log_inv a ->
  Z.of_nat (length (audit_log_serialize a)) = audit_log_buf_size a /\
  audit_log_parse (audit_log_serialize a) = nret (mk_log (al_uuid a) (al_count a) (al_max a) (al_events a) nexus_mac_zeroize None).
Proof.
  intros [Hc Hm Hs Hu He]. pose proof (length_events _ He) as Hl.
  assert (Hlen : Z.of_nat (length (audit_log_serialize a)) = 24 + 28 * al_count a).
  { unfold audit_log_serialize. rewrite !length_app, !length_le_encode, Hl, Hu. unfold NEXUS_UUID_SIZE. lia. }
  split; [unfold audit_log_buf_size, AUDIT_HDR_SIZE, AUDIT_EVENT_SIZE; rewrite Hlen; word_solve|].
  unfold audit_log_parse. rewrite Hlen. unfold AUDIT_HDR_SIZE. destruct (Z.ltb_spec (24 + 28 * al_count a) 24); [lia|].
  unfold parse_audit_header, audit_log_serialize. unfold dec_bind at 1. rewrite dec_bytes_app by done. do 2 dec_step.
  cbn [mbind option_bind dec_ret]. rewrite Hc, Nat2Z.id, put_events_ok by (done || (simpl; lia)).
  cbn [nbind nret with_events al_count al_events al_uuid al_max al_mac al_metadata app]. by rewrite Z.add_0_l, Z.eqb_refl.
Qed.

(** ** Properties *)
(** C39: an audit log that starts empty keeps exactly the last hundred of the
    events added to it, oldest first, and completing a write sets the version
    of the newest of them and of no other: it is refused, with the log
    unchanged, when that event only read or already carries a version at least
    as high. *)
Theorem audit_log_keeps_last u l v :
  length u = NEXUS_UUID_SIZE -> Forall event_ok l -> l <> [] ->
  exists a, add_events (audit_log_create u) l = Some a /\ al_events a = last_n 100 l /\
    al_count a = Z.of_nat (length (al_events a)) /\
    exists e, last l = Some e /\
      (if perm_type_modifies_object (ev_perm e) && (ev_version e <? v) then
         exists a', audit_log_complete_write a v = Some (a', 0) /\
           al_events a' = last_n 100 (take (pred (length l)) l ++ [mk_event v (ev_perm e) (ev_uuid e)])
       else audit_log_complete_write a v = Some (a, -1)).
Proof.
  intros Hu Hl Hne. destruct (add_events_spec l _ (create_log_inv u Hu) Hl) as (a & Ha & Hi & He & _); [simpl; lia|].
  change (al_events (audit_log_create u)) with (@nil audit_event) in He. cbn [app audit_log_create al_max] in He.
  change (Z.to_nat MAX_EVENT_COUNT) with 100%nat in He. exists a. split; [done|]. split; [done|]. split; [apply Hi|].
  destruct l as [|e l _] using rev_ind; [done|]. exists e. rewrite last_snoc. split; [done|].
  rewrite length_app. cbn [length]. replace (pred (length l + 1)) with (length l) by lia. rewrite take_app_length.
  assert (Hlast : exists l', al_events a = l' ++ [e] /\ forall x, last_n 100 (l ++ [x]) = l' ++ [x]).
  { exists (last_n 99 l). rewrite He. assert (Hx : forall x : audit_event, last_n 100 (l ++ [x]) = last_n 99 l ++ [x]); [|by split].
    intros x. unfold last_n. rewrite length_app. cbn [length]. replace (length l + 1 - 100)%nat with (length l - 99)%nat by lia.
    by rewrite drop_app_le by lia. }
  destruct Hlast as (l' & Hev & Hx). unfold audit_log_complete_write, set_last_version. rewrite Hev, last_snoc. cbn [mbind option_bind].
  rewrite length_app. cbn [length]. replace (pred (length l' + 1)) with (length l') by lia. rewrite take_app_length.
  destruct (perm_type_modifies_object (ev_perm e)); [|done]. cbn [negb andb].
  destruct (Z.ltb_spec (ev_version e) v), (Z.leb_spec v (ev_version e)); try lia; [|done]. eexists. split; [done|]. by rewrite Hx.
Qed.

Definition toy_event (n : Z) : audit_event := mk_event n (if n =? 149 then PERM_WRITE else PERM_READ) (uuid_const 5).
Definition toy_events : list audit_event := toy_event <$> seqZ 0 150.

Lemma audit_log_keeps_last_witness :
  exists a, add_events (audit_log_create (uuid_const 7)) toy_events = Some a /\ al_events a = toy_event <$> seqZ 50 100 /\
    exists a', audit_log_complete_write a 200 = Some (a', 0) /\
      al_events a' = (toy_event <$> seqZ 50 99) ++ [mk_event 200 PERM_WRITE (uuid_const 5)].
Proof.
  destruct (audit_log_keeps_last (uuid_const 7) toy_events 200) as (a & Ha & He & _ & e & Hl & Hc).
  - done.
  - apply Forall_fmap, Forall_forall. intros z Hz%elem_of_seqZ. unfold toy_event, event_ok. simpl. split; [unfold in_range; lia|].
    split; [by destruct (z =? 149)|]. apply uuid_const_ok. unfold byte_ok. lia.
  - done.
  - vm_compute in Hl. injection Hl as <-. destruct Hc as (a' & Hc & He'). exists a. split; [done|]. split; [by rewrite He; vm_compute|].
    exists a'. split; [done|]. rewrite He'. by vm_compute.
Defined.

(** A stored audit log comes back in any enclave that holds the volume key
    with the same events in the same order and the same capacity; a refused
    flush returns -1, keeps the lock and leaves the caller's MAC alone. *)
Theorem audit_log_store_load `{BlockCipher} `{KeyWrapCipher} vk a version b env mem :
  log_inv a -> audit_log_buf_size a < 2 ^ 31 -> one_writer b (al_uuid a) -> in_range 32 version ->
  key_ok (pe_draw env).1 -> key_ok (pe_draw env).2 -> pe_heap env = Some mem ->
  exists b' data m, audit_log_store vk a version b env =
      Some (with_al_mac a m, b', if failed (pe_reply env) then -1 else 0, [ocall_buffer_put (al_uuid a) data 0],
            if failed (pe_reply env) then None else Some m) /\
    (if failed (pe_reply env) then
       exists flags, buffer_layer_lock_status b' (al_uuid a) = Some flags /\ nexus_io_in_lock_mode flags = true
     else idle b' (al_uuid a)) /\
    forall ctx, audit_log_from_crypto_buf vk
        (mk_cbuf ctx (external_version data) 0 (al_uuid a) (Some (ExtStore data)) None) =
      Some (Some (mk_log (al_uuid a) (al_count a) (al_max a) (al_events a) nexus_mac_zeroize None)).
Proof.
  intros Hi Hsz Hw Hv Hk1 Hk2 Hh. destruct (log_codec a Hi) as [Hlen Hparse]. unfold audit_log_store.
  destruct (store_buffer_spec vk b (al_uuid a) _ _ version env mem Hw Hv Hk1 Hk2 Hlen Hsz Hh)
    as (-> & c' & b' & data & m & -> & Hsd & Hev & Hlock). cbn [mbind option_bind].
  exists b', data, m. split; [by destruct (failed (pe_reply env))|]. split; [done|]. intros ctx. unfold audit_log_from_crypto_buf.
  destruct (get_sealed vk (al_uuid a) _ _ data m
    (mk_cbuf ctx (external_version data) 0 (al_uuid a) (Some (ExtStore data)) None) Hsd) as (c3 & ->); [done..|]. exact Hparse.
Qed.

Definition toy_log : audit_log := mk_log (uuid_const 2) 2 MAX_EVENT_COUNT [toy_event 1; toy_event 149] nexus_mac_zeroize None.

Lemma audit_log_store_load_witness :
  exists b' data m,
    audit_log_store (H := toy_cipher) (H0 := toy_wrap) [] toy_log 4 (held_cache (uuid_const 2) 1) (toy_env reply_ok) =
      Some (with_al_mac toy_log m, b', 0, [ocall_buffer_put (uuid_const 2) data 0], Some m) /\ idle b' (uuid_const 2) /\
    forall ctx, audit_log_from_crypto_buf (H := toy_cipher) (H0 := toy_wrap) []
        (mk_cbuf ctx (external_version data) 0 (uuid_const 2) (Some (ExtStore data)) None) = Some (Some toy_log).
Proof.
  apply (audit_log_store_load (H := toy_cipher) (H0 := toy_wrap) [] toy_log 4 (held_cache (uuid_const 2) 1) (toy_env reply_ok) []).
  - split; [done|done|by vm_compute|done|]. repeat constructor; try done; try (by vm_compute).
  - by vm_compute.
  - apply held_one_writer.
  - by vm_compute.
  - apply toy_draw_ok. unfold byte_ok. lia.
  - apply toy_draw_ok. unfold byte_ok. lia.
  - done.
Defined.
