(* ===== verification/Datalog.v ===== *)
(** * The Datalog engine

    Models [abac/datalog-engine/datalog.lua] and the C functions over it in
    [datalog.c] and [interp.c]: terms, literals, clauses and their
    identifiers, unification, the clause database with the operations added
    for the knowledge base, and the tabled prover.  Tables that Lua walks in
    an unspecified order are finite maps or lists walked in theirs.  A
    predicate object is its name and arity; the weak tables matter only for the
    primitives, which a full collection drops once nothing refers to them.
    The prover takes fuel ([None] is a search that has not ended).  How Lua
    reads and prints numbers is a parameter. *)
From stdpp Require Import strings.
From S2P Require Import Prelude AbacValue.

(** ** Terms *)
(** Named variables are interned, fresh ones are compared by address. *)
Inductive var := VNamed (id : bytes) | VFresh (n : nat).
Inductive term := Var (v : var) | Const (c : bytes).

#[export] Instance var_eq_dec : EqDecision var.
Proof. solve_decision. Defined.
#[export] Instance term_eq_dec : EqDecision term.
Proof. solve_decision. Defined.

(** A predicate has a name and an arity; its identifier, under which it is
    interned, is [mk_pred_id]. *)
Definition pred : Type := bytes * nat.
Record literal := mk_lit { l_name : bytes; l_args : list term }.
Definition l_pred (l : literal) : pred := (l_name l, length (l_args l)).
Record clause := mk_clause { c_head : literal; c_body : list literal }.

#[export] Instance literal_eq_dec : EqDecision literal.
Proof. solve_decision. Defined.
#[export] Instance clause_eq_dec : EqDecision clause.
Proof. solve_decision. Defined.

Definition print_nat (n : nat) : bytes := print_int (Z.of_nat n).
Definition mk_pred_id (p : pred) : bytes := p.1 ++ str "/" ++ print_nat p.2.
Definition make_literal (name : bytes) (terms : list term) : literal := mk_lit name terms.

(** ** Identifiers and tags *)
Definition add_size (s : bytes) : bytes := print_nat (length s) ++ str ":" ++ s.

Definition var_id (v : var) : bytes := match v with VNamed id => id | VFresh n => print_nat n end.
Definition term_id (t : term) : bytes := match t with Const c => str "c" ++ c | Var v => str "v" ++ var_id v end.
Definition get_id (l : literal) : bytes := add_size (mk_pred_id (l_pred l)) ++ concat ((fun t => add_size (term_id t)) <$> l_args l).
Definition get_clause_id (c : clause) : bytes :=
  add_size (get_id (c_head c)) ++ concat ((fun l => add_size (get_id l)) <$> c_body c).

(** Variables are tagged with the position where they first occur. *)
Fixpoint args_tag (i : nat) (env : list (var * bytes)) (l : list term) : bytes :=
  match l with
  | [] => []
  | Const c :: l' => add_size (str "c" ++ c) ++ args_tag (S i) env l'
  | Var v :: l' =>
      match List.find (fun p => bool_decide (p.1 = v)) env with
      | Some (_, t) => add_size t ++ args_tag (S i) env l'
      | None => let t := str "v" ++ print_nat i in add_size t ++ args_tag (S i) ((v, t) :: env) l'
      end
  end.
Definition get_tag (l : literal) : bytes := add_size (mk_pred_id (l_pred l)) ++ args_tag 1 [] (l_args l).

(** ** Substitution *)
Definition env := list (var * term).
Definition env_get (e : env) (v : var) : option term := snd <$> List.find (fun p => bool_decide (p.1 = v)) e.

Definition subst_term (e : env) (t : term) : term :=
  match t with Const c => Const c | Var v => default (Var v) (env_get e v) end.
Definition subst (l : literal) (e : env) : literal := mk_lit (l_name l) (subst_term e <$> l_args l).
Definition subst_in_clause (c : clause) (e : env) : clause :=
  mk_clause (subst (c_head c) e) ((fun l => subst l e) <$> c_body c).

(** [shuffle]: every variable not yet in the environment gets a fresh one. *)
Fixpoint shuffle (args : list term) (e : env) (fresh : nat) : env * nat :=
  match args with
  | [] => (e, fresh)
  | Const _ :: l' => shuffle l' e fresh
  | Var v :: l' =>
      match env_get e v with
      | Some _ => shuffle l' e fresh
      | None => shuffle l' ((v, Var (VFresh fresh)) :: e) (S fresh)
      end
  end.

Definition rename (l : literal) (fresh : nat) : literal * nat :=
  let '(e, fresh) := shuffle (l_args l) [] fresh in (subst l e, fresh).

Fixpoint shuffle_body (body : list literal) (e : env) (fresh : nat) : env * nat :=
  match body with
  | [] => (e, fresh)
  | l :: body' => let '(e, fresh) := shuffle (l_args l) e fresh in shuffle_body body' e fresh
  end.

Definition rename_clause (c : clause) (fresh : nat) : clause * nat :=
  let '(e, fresh) := shuffle_body (c_body c) [] fresh in (subst_in_clause c e, fresh).

(** ** Unification *)
(** A binding leads to a constant or to a variable bound later or not at all:
    as many steps as there are bindings. *)
Fixpoint chase_n (n : nat) (e : env) (t : term) : term :=
  match t, n with
  | Var v, S n => match env_get e v with Some t' => chase_n n e t' | None => t end
  | _, _ => t
  end.
Definition chase (e : env) (t : term) : term := chase_n (length e) e t.

(** Two different terms. *)
Definition unify_term (x y : term) (e : env) : option env :=
  match x, y with
  | Const _, Const _ => None
  | Const c, Var v => Some ((v, Const c) :: e)
  | Var v, Const c => Some ((v, Const c) :: e)
  | Var v, Var w => Some ((v, Var w) :: e)
  end.

Fixpoint unify_args (l l' : list term) (e : env) : option env :=
  match l, l' with
  | x :: l, y :: l' =>
      let x := chase e x in
      let y := chase e y in
      if bool_decide (x = y) then unify_args l l' e
      else e ← unify_term x y e; unify_args l l' e
  | _, _ => Some e
  end.

Definition unify (l l' : literal) : option env :=
  if bool_decide (l_pred l = l_pred l') then unify_args (l_args l) (l_args l') [] else None.

(** ** Database *)
Definition is_in (t : term) (l : literal) : bool := bool_decide (t ∈ l_args l).

Definition is_safe (c : clause) : bool :=
  forallb (fun t => match t with Const _ => true | Var _ => existsb (is_in t) (c_body c) end) (l_args (c_head c)).

(** The predicates in the database with their clauses by identifier, and the
    primitives that are alive. *)
Record dl_db := mk_db { db_preds : gmap pred (gmap bytes clause); db_prims : list pred }.

Definition iter_prims : list pred := (fun n => (n, 2%nat)) <$> [str "_ge"; str "_gt"; str "_le"; str "_lt"; str "_ne"].
Definition equals_pred : pred := (str "=", 2%nat).

(** [dl_open]: the primitives defined by iterators are in the database. *)
Definition dl_open : dl_db := mk_db (list_to_map ((fun p => (p, ∅)) <$> iter_prims)) (equals_pred :: iter_prims).

Definition is_prim (d : dl_db) (p : pred) : bool := bool_decide (p ∈ db_prims d).
Definition pred_db (d : dl_db) (p : pred) : gmap bytes clause := default ∅ (db_preds d !! p).

(** [None] is an unsafe clause. *)
Definition dl_assert (d : dl_db) (c : clause) : option dl_db :=
  if negb (is_safe c) then None
  else
    let p := l_pred (c_head c) in
    if is_prim d p then Some d
    else Some (mk_db (<[p := <[get_clause_id c := c]> (pred_db d p)]> (db_preds d)) (db_prims d)).

Definition dl_retract (d : dl_db) (c : clause) : dl_db :=
  let p := l_pred (c_head c) in
  let m := delete (get_clause_id c) (pred_db d p) in
  mk_db (if bool_decide (m = ∅) && negb (is_prim d p) then delete p (db_preds d)
         else match db_preds d !! p with None => db_preds d | Some _ => <[p := m]> (db_preds d) end) (db_prims d).

(** [string.find(s, sub)] for a [sub] without magic characters. *)
Fixpoint contains (s sub : bytes) : bool :=
  bool_decide (sub `prefix_of` s) || match s with [] => false | _ :: s' => contains s' sub end.

(** Two slashes make a rule. *)
Definition is_rule (id : bytes) : bool := Nat.leb 2 (length (filter (fun c => c = 47) id)).

Definition all_clauses (d : dl_db) : list (bytes * clause) := map_to_list (db_preds d) ≫= (fun p => map_to_list p.2).

Definition evicted (uuid_str : bytes) (d : dl_db) : list clause :=
  snd <$> filter (fun p => is_rule p.1 = false /\ contains p.1 uuid_str = true) (all_clauses d).

Definition dl_evict_entity (d : dl_db) (uuid_str : bytes) : dl_db * Z :=
  let l := evicted uuid_str d in (foldl dl_retract d l, Z.of_nat (length l)).

(** [next(clauses.db)]: some clause, if there is one. *)
Definition first_id (m : gmap bytes clause) : option bytes := fst <$> head (map_to_list m).
Definition rules_first (m : gmap bytes clause) : bool := match first_id m with Some id => is_rule id | None => false end.

(** [lua_gc(LUA_GCCOLLECT)]: a primitive lives while the database, a clause or
    a local variable refers to it. *)
Definition refers (p : pred) (c : clause) : bool := existsb (fun l => bool_decide (l_pred l = p)) (c_head c :: c_body c).
Definition lua_gc (d : dl_db) : dl_db :=
  mk_db (db_preds d)
    (filter (fun p => p = equals_pred \/ is_Some (db_preds d !! p) \/ existsb (refers p) (all_clauses d).*2 = true) (db_prims d)).

Definition dl_clear_facts (d : dl_db) : dl_db :=
  mk_db (filter (fun p => rules_first p.2 = true) (db_preds d)) (db_prims d).
Definition dl_clear_rules (d : dl_db) : dl_db :=
  mk_db (filter (fun p => rules_first p.2 = false) (db_preds d)) (db_prims d).

Definition count_with (f : gmap bytes clause -> bool) (d : dl_db) : Z :=
  foldr (fun p n => (if f p.2 then Z.of_nat (size p.2) else 0) + n) 0 (map_to_list (db_preds d)).
Definition dl_count_facts : dl_db -> Z := count_with (fun m => negb (rules_first m)).
Definition dl_count_rules : dl_db -> Z := count_with rules_first.

(** ** Numbers, as Lua reads, compares and prints them *)
Class LuaNumber := {
  num : Type;
  tonumber : bytes -> option num;
  tostring : num -> bytes;
  num_compare : num -> num -> comparison
}.

(** Decimal integers that policies can write. *)
Class LuaIntegers `{LuaNumber} := {
  of_int : Z -> num;
  tonumber_int : forall z, 0 <= z < 2 ^ 31 -> tonumber (print_int z) = Some (of_int z);
  tostring_int : forall z, 0 <= z < 2 ^ 31 -> tostring (of_int z) = print_int z;
  compare_int : forall y z, num_compare (of_int y) (of_int z) = (y ?= z)
}.

(** ** Prover *)
Section prover.
Context `{LuaNumber}.
Variable d : dl_db.

Record subgoal := mk_subgoal { sg_literal : literal; sg_facts : list literal; sg_waiters : list (nat * clause) }.

(** The subgoals, by age, the table from tags to subgoals, and the counter of
    fresh variables. *)
Record pstate := mk_pstate { ps_subgoals : list subgoal; ps_tags : list (bytes * nat); ps_fresh : nat }.

Definition find_subgoal (s : pstate) (l : literal) : option nat :=
  snd <$> List.find (fun p => bool_decide (p.1 = get_tag l)) (ps_tags s).

Definition is_member (l : literal) (facts : list literal) : bool := existsb (fun f => bool_decide (get_id f = get_id l)) facts.

Definition with_subgoal (s : pstate) (i : nat) (g : subgoal) : pstate :=
  mk_pstate (<[i := g]> (ps_subgoals s)) (ps_tags s) (ps_fresh s).
Definition with_fresh (s : pstate) (n : nat) : pstate := mk_pstate (ps_subgoals s) (ps_tags s) n.

Definition adjoin (g : subgoal) (l : literal) : subgoal := mk_subgoal (sg_literal g) (sg_facts g ++ [l]) (sg_waiters g).
Definition add_waiter (g : subgoal) (w : nat * clause) : subgoal := mk_subgoal (sg_literal g) (sg_facts g) (sg_waiters g ++ [w]).

(** The first literal of the body against a fact. *)
Definition resolve (c : clause) (l : literal) (fresh : nat) : option clause * nat :=
  match c_body c with
  | [] => (None, fresh)
  | l1 :: body =>
      let '(l, fresh) := rename l fresh in
      (e ← unify l1 l; Some (mk_clause (subst (c_head c) e) ((fun l => subst l e) <$> body)), fresh)
  end.

(** What a primitive reports for its two terms; [None] when it is silent. *)
Definition equals_primitive (x y : term) : option bytes :=
  match x, y with
  | Const a, Const b => if bool_decide (a = b) then Some a else None
  | Const a, Var _ | Var _, Const a => Some a
  | Var _, Var _ => None
  end.

Definition compare_primitive (p : comparison -> bool) (x y : term) : bool :=
  match x, y with
  | Const a, Const b =>
      match tonumber a, tonumber b with
      | Some j, Some k => p (num_compare j k) && bool_decide (tostring j = a) && bool_decide (tostring k = b)
      | _, _ => false
      end
  | _, _ => false
  end.

Definition ne_primitive (x y : term) : bool :=
  match x, y with Const a, Const b => negb (bool_decide (a = b)) | _, _ => false end.

Definition prim_facts (l : literal) : list literal :=
  match l_args l with
  | [x; y] =>
      let is_ (n : bytes) := bool_decide (l_name l = n) in
      let same (b : bool) := if b then [l] else [] in
      if is_ (str "=") then
        match equals_primitive x y with Some c => [mk_lit (str "=") [Const c; Const c]] | None => [] end
      else if is_ (str "_ge") then same (compare_primitive (fun c => match c with Lt => false | _ => true end) x y)
      else if is_ (str "_gt") then same (compare_primitive (fun c => match c with Gt => true | _ => false end) x y)
      else if is_ (str "_le") then same (compare_primitive (fun c => match c with Gt => false | _ => true end) x y)
      else if is_ (str "_lt") then same (compare_primitive (fun c => match c with Lt => true | _ => false end) x y)
      else if is_ (str "_ne") then same (ne_primitive x y)
      else []
  | _ => []
  end.

(** A loop over a list that may run out of fuel. *)
Definition for_each {A} (f : pstate -> A -> option pstate) : list A -> pstate -> option pstate :=
  fix go l s := match l with [] => Some s | x :: l' => s ← f s x; go l' s end.

Section step.
Variable add_clause : pstate -> nat -> clause -> option pstate.

(** The number of waiters is taken before the loop. *)
Definition fact (s : pstate) (i : nat) (l : literal) : option pstate :=
  g ← ps_subgoals s !! i;
  if is_member l (sg_facts g) then Some s
  else
    for_each (fun s w =>
        let '(r, fresh) := resolve w.2 l (ps_fresh s) in
        let s := with_fresh s fresh in
        match r with Some c => add_clause s w.1 c | None => Some s end)
      (sg_waiters g) (with_subgoal s i (adjoin g l)).

Definition search (s : pstate) (i : nat) : option pstate :=
  g ← ps_subgoals s !! i;
  let l := sg_literal g in
  if is_prim d (l_pred l) then for_each (fun s f => fact s i f) (prim_facts l) s
  else
    for_each (fun s c =>
        let '(renamed, fresh) := rename_clause c (ps_fresh s) in
        let s := with_fresh s fresh in
        match unify l (c_head renamed) with
        | Some e => add_clause s i (subst_in_clause renamed e)
        | None => Some s
        end)
      (map_to_list (pred_db d (l_pred l))).*2 s.

(** [resolve] of every fact, before any of the results is used. *)
Fixpoint resolve_all (c : clause) (facts : list literal) (fresh : nat) : list clause * nat :=
  match facts with
  | [] => ([], fresh)
  | f :: facts' =>
      let '(r, fresh) := resolve c f fresh in
      let '(todo, fresh) := resolve_all c facts' fresh in
      (match r with Some c => c :: todo | None => todo end, fresh)
  end.

Definition rule (s : pstate) (i : nat) (c : clause) (selected : literal) : option pstate :=
  match find_subgoal s selected with
  | Some j =>
      g ← ps_subgoals s !! j;
      let s := with_subgoal s j (add_waiter g (i, c)) in
      let '(todo, fresh) := resolve_all c (sg_facts g) (ps_fresh s) in
      for_each (fun s c => add_clause s i c) todo (with_fresh s fresh)
  | None =>
      let j := length (ps_subgoals s) in
      let g := mk_subgoal selected [] [(i, c)] in
      search (mk_pstate (ps_subgoals s ++ [g]) ((get_tag selected, j) :: ps_tags s) (ps_fresh s)) j
  end.

Definition add_clause_step (s : pstate) (i : nat) (c : clause) : option pstate :=
  match c_body c with
  | [] => fact s i (c_head c)
  | selected :: _ => rule s i c selected
  end.
End step.

Fixpoint add_clause (n : nat) : pstate -> nat -> clause -> option pstate :=
  match n with
  | O => fun _ _ _ => None
  | S n => add_clause_step (add_clause n)
  end.

(** The facts found for a literal. *)
Definition ask (n : nat) (fresh : nat) (l : literal) : option (list literal) :=
  s ← search (add_clause n) (mk_pstate [mk_subgoal l [] []] [(get_tag l, 0%nat)] fresh) 0;
  g ← ps_subgoals s !! 0%nat; Some (sg_facts g).

(** [datalog_engine_is_true]: is there an answer to [permission(user, object)]? *)
Definition datalog_engine_is_true (n fresh : nat) (permission user object : bytes) : option bool :=
  answers ← ask n fresh (make_literal permission [Const user; Const object]);
  Some (negb (bool_decide (answers = []))).
End prover.

(** Numerals that are the decimal text of an [int]. *)
Definition int_number : LuaNumber := {|
  num := Z;
  tonumber s := if bool_decide (print_int (atoi s) = s) then Some (atoi s) else None;
  tostring := print_int;
  num_compare := Z.compare
|}.
