(* ===== verification/DatalogSound.v ===== *)
(** * Soundness of the Datalog engine

    The meaning of a clause database is the set of ground literals that follow
    from it ([derivable]); everything the tabled prover answers is in that
    set, and an answer to a ground query is the query. *)
From stdpp Require Import strings.
From S2P Require Import Prelude AbacValue Datalog.

Section sound.
Context `{LuaNumber}.
Variable d : dl_db.

(** ** Meaning *)
Definition inst (σ : var -> bytes) (t : term) : bytes := match t with Var v => σ v | Const c => c end.

Definition prim_holds (n a b : bytes) : Prop := prim_facts (mk_lit n [Const a; Const b]) <> [].

(** The ground literals that follow from the clauses and the primitives. *)
Inductive derivable : pred -> list bytes -> Prop :=
  | der_clause p id c σ :
      is_prim d p = false -> pred_db d p !! id = Some c ->
      (forall b, b ∈ c_body c -> derivable (l_pred b) (inst σ <$> l_args b)) ->
      derivable p (inst σ <$> l_args (c_head c))
  | der_prim n a b : is_prim d (n, 2%nat) = true -> prim_holds n a b -> derivable (n, 2%nat) [a; b].

(** Clauses are kept under the predicate of their head, and are safe. *)
Definition db_ok : Prop :=
  forall p id c, pred_db d p !! id = Some c -> l_pred (c_head c) = p /\ is_safe c = true.

(** ** Substitution *)
Definition compose (σ : var -> bytes) (e : env) : var -> bytes := fun v => inst σ (subst_term e (Var v)).

Lemma inst_subst σ e l : inst σ <$> l_args (subst l e) = inst (compose σ e) <$> l_args l.
Proof. unfold subst. cbn [l_args]. rewrite <- list_fmap_compose. apply list_fmap_ext. by intros i [v|c] _. Qed.

Lemma pred_subst l e : l_pred (subst l e) = l_pred l.
Proof. unfold l_pred, subst. cbn [l_name l_args]. by rewrite length_fmap. Qed.

Definition clause_sound (c : clause) : Prop :=
  forall σ, (forall b, b ∈ c_body c -> derivable (l_pred b) (inst σ <$> l_args b)) ->
    derivable (l_pred (c_head c)) (inst σ <$> l_args (c_head c)).

Lemma subst_sound c e : clause_sound c -> clause_sound (subst_in_clause c e).
Proof.
  intros Hc σ Hb. cbn [subst_in_clause c_head]. rewrite pred_subst, inst_subst. apply Hc. intros b Hin.
  rewrite <- inst_subst, <- (pred_subst b e). apply (Hb (subst b e)).
  cbn [subst_in_clause c_body]. apply list_elem_of_fmap. by exists b.
Qed.

Lemma stored_sound p id c : db_ok -> is_prim d p = false -> pred_db d p !! id = Some c -> clause_sound c.
Proof. intros Hd Hp Hc σ Hb. destruct (Hd _ _ _ Hc) as [-> _]. by apply (der_clause p id). Qed.

(** ** Safety *)
Lemma is_safe_spec c : is_safe c = true <-> forall v, Var v ∈ l_args (c_head c) -> exists b, b ∈ c_body c /\ Var v ∈ l_args b.
Proof.
  unfold is_safe. rewrite forallb_forall. split.
  - intros Hs v Hv. specialize (Hs (Var v)). rewrite <- list_elem_of_In in Hs. specialize (Hs Hv). cbn in Hs.
    apply existsb_exists in Hs as (b & Hb & Hi). apply list_elem_of_In in Hb. exists b. split; [done|].
    by apply bool_decide_eq_true in Hi.
  - intros Hs t Ht. destruct t as [v|]; [|done]. apply list_elem_of_In in Ht. destruct (Hs v Ht) as (b & Hb & Hi).
    apply existsb_exists. exists b. split; [by apply list_elem_of_In|]. by apply bool_decide_eq_true.
Qed.

Lemma elem_subst v e l : Var v ∈ l_args (subst l e) <-> exists w, Var w ∈ l_args l /\ subst_term e (Var w) = Var v.
Proof.
  unfold subst. cbn [l_args]. rewrite list_elem_of_fmap. split.
  - intros ([w|c] & Heq & Hw); [by exists w|done].
  - intros (w & Hw & Heq). by exists (Var w).
Qed.

Lemma subst_safe c e : is_safe c = true -> is_safe (subst_in_clause c e) = true.
Proof.
  rewrite !is_safe_spec. intros Hs v Hv. apply elem_subst in Hv as (w & Hw & Heq). destruct (Hs w Hw) as (b & Hb & Hi).
  exists (subst b e). split; [apply list_elem_of_fmap; by exists b|]. apply elem_subst. by exists w.
Qed.

(** Ground literals: no variables. *)
Definition ground (l : literal) : Prop := exists cs, l_args l = Const <$> cs.

Lemma ground_no_var l : ground l <-> forall v, Var v ∉ l_args l.
Proof.
  unfold ground. destruct l as [p args]. cbn [l_args]. split.
  - intros [cs ->] v Hv. by apply list_elem_of_fmap in Hv as (c & ? & _).
  - induction args as [|[v|c] args IH]; intros Hn; [by exists []|destruct (Hn v); left|].
    destruct IH as [cs ->]; [|by exists (c :: cs)]. intros v Hv. apply (Hn v). by right.
Qed.

Lemma subst_ground l e : ground l -> subst l e = l.
Proof. intros [cs Hl]. destruct l as [p args]. unfold subst. cbn in *. rewrite Hl, <- list_fmap_compose. done. Qed.

(** ** Unification with a ground literal *)
(** Environments that bind variables to constants. *)
Definition const_env (e : env) : Prop := Forall (fun p => exists c, p.2 = Const c) e.

Lemma env_get_const e v t : const_env e -> env_get e v = Some t -> exists c, t = Const c.
Proof.
  unfold env_get. intros He Hg. destruct (List.find _ e) as [q|] eqn:Hf; [|done]. simplify_eq/=.
  apply find_some in Hf as [Hin _]. apply list_elem_of_In in Hin. apply (proj1 (Forall_forall _ _) He _ Hin).
Qed.

Lemma chase_const e t : const_env e -> chase e t = subst_term e t.
Proof.
  intros He. unfold chase. destruct t as [v|c]; [|by destruct (length e)]. destruct e as [|q e]; [done|].
  cbn [length chase_n subst_term]. destruct (env_get (q :: e) v) as [t|] eqn:Hg; [|done].
  destruct (env_get_const _ _ _ He Hg) as [c ->]. by destruct (length e).
Qed.

Lemma env_get_cons v t e w : env_get ((v, t) :: e) w = if decide (v = w) then Some t else env_get e w.
Proof. unfold env_get. cbn. destruct (bool_decide_reflect (v = w)), (decide (v = w)); done. Qed.

(** An extension keeps what was bound. *)
Definition extends (e e' : env) : Prop := forall v t, env_get e v = Some t -> env_get e' v = Some t.

Lemma subst_extends e e' t c : extends e e' -> subst_term e t = Const c -> subst_term e' t = Const c.
Proof.
  intros Hx. destruct t as [v|]; [|done]. cbn. destruct (env_get e v) as [t|] eqn:Hg; [|done]. by rewrite (Hx _ _ Hg).
Qed.

(** One side of the pair of arguments is ground. *)
Lemma bind_const e v c : const_env e -> env_get e v = None -> const_env ((v, Const c) :: e) /\ extends e ((v, Const c) :: e).
Proof.
  intros He Hn. split; [constructor; [by eexists|done]|]. intros w t Hw. rewrite env_get_cons. by destruct (decide (v = w)) as [<-|]; [congruence|].
Qed.

Lemma chased_var e t v : subst_term e t = Var v -> const_env e -> env_get e v = None /\ t = Var v.
Proof.
  destruct t as [w|]; [|done]. cbn. intros Hs He. destruct (env_get e w) as [t|] eqn:Hg.
  - destruct (env_get_const _ _ _ He Hg) as [c ->]. done.
  - by simplify_eq/=.
Qed.

Definition unify_sides (swap : bool) (l : list term) (cs : list bytes) (e : env) : option env :=
  if swap then unify_args (Const <$> cs) l e else unify_args l (Const <$> cs) e.

Lemma unify_args_ground swap l cs e e' :
  const_env e -> length l = length cs -> unify_sides swap l cs e = Some e' ->
  const_env e' /\ extends e e' /\ subst_term e' <$> l = Const <$> cs.
Proof.
  revert cs e; induction l as [|t l IH]; intros [|c cs] e He Hl Hu; try done.
  { destruct swap; simplify_eq/=; split_and!; try done; by intros ? ?. }
  rewrite !fmap_cons.
  assert (Hstep : unify_sides swap (t :: l) (c :: cs) e =
    if bool_decide (subst_term e t = Const c) then unify_sides swap l cs e
    else match subst_term e t with Var v => unify_sides swap l cs ((v, Const c) :: e) | Const _ => None end).
  { destruct swap; cbn [unify_sides fmap list_fmap unify_args]; rewrite !chase_const by done; cbn [subst_term].
    - rewrite (bool_decide_ext (Const c = subst_term e t) (subst_term e t = Const c)) by done.
      case_bool_decide; [done|]. by destruct (subst_term e t).
    - case_bool_decide; [done|]. by destruct (subst_term e t). }
  rewrite Hstep in Hu. clear Hstep. injection Hl as Hl. case_bool_decide as Heq.
  - destruct (IH cs e He Hl Hu) as (He' & Hx & ->). split_and!; try done. f_equal. by eapply subst_extends.
  - destruct (subst_term e t) as [v|c0] eqn:Ht; [|done].
    destruct (chased_var _ _ _ Ht He) as [Hn ->]. destruct (bind_const e v c He Hn) as [He1 Hx1].
    destruct (IH cs _ He1 Hl Hu) as (He' & Hx & ->). split_and!; try done; [intros w t Hw; by apply Hx, Hx1|].
    f_equal. cbn [subst_term]. erewrite Hx; [done|]. by rewrite env_get_cons, decide_True.
Qed.

(** The non-ground side becomes the ground one. *)
Lemma unify_ground (swap : bool) l f e : ground f -> (if swap then unify f l else unify l f) = Some e -> subst l e = f.
Proof.
  intros [cs Hf] Hu. assert (Hu' : l_pred l = l_pred f /\ unify_sides swap (l_args l) cs [] = Some e).
  { unfold unify_sides. rewrite <- Hf. unfold unify in Hu. by destruct swap; case_bool_decide. }
  destruct Hu' as [Hp Hu']. destruct f as [n args]. unfold l_pred in Hp. cbn [l_name l_args] in *. subst args. injection Hp as Hn Hl.
  rewrite length_fmap in Hl. destruct (unify_args_ground swap (l_args l) cs [] e) as (_ & _ & Hs); [constructor|done|done|].
  unfold subst. by rewrite Hs, Hn.
Qed.

(** ** The prover's invariant *)
Definition lits (s : pstate) : list literal := sg_literal <$> ps_subgoals s.

Definition fact_ok (l f : literal) : Prop :=
  ground f /\ derivable (l_pred f) (inst (fun _ => []) <$> l_args f) /\ (ground l -> f = l).

(** Clauses on their way to answering subgoal [i]. *)
Record clause_ok (ls : list literal) (i : nat) (c : clause) : Prop := {
  co_sound : clause_sound c;
  co_safe : is_safe c = true;
  co_goal : exists l, ls !! i = Some l /\ (ground l -> c_head c = l)
}.

Definition subgoal_ok (ls : list literal) (g : subgoal) : Prop :=
  Forall (fact_ok (sg_literal g)) (sg_facts g) /\ Forall (fun w => clause_ok ls w.1 w.2) (sg_waiters g).

Definition pinv (s : pstate) : Prop := Forall (subgoal_ok (lits s)) (ps_subgoals s).

(** What every step of the prover keeps. *)
Definition steps (s s' : pstate) : Prop := pinv s' /\ lits s `prefix_of` lits s'.

Lemma clause_ok_mono ls ls' i c : ls `prefix_of` ls' -> clause_ok ls i c -> clause_ok ls' i c.
Proof. intros Hp [? ? (l & Hl & ?)]. split; [done..|]. exists l. split; [by eapply prefix_lookup_Some|done]. Qed.

Lemma subgoal_ok_mono ls ls' g : ls `prefix_of` ls' -> subgoal_ok ls g -> subgoal_ok ls' g.
Proof. intros Hp [Hf Hw]. split; [done|]. eapply Forall_impl; [exact Hw|]. intros w. by apply clause_ok_mono. Qed.

Lemma lits_with_subgoal s i g g' :
  ps_subgoals s !! i = Some g -> sg_literal g' = sg_literal g -> lits (with_subgoal s i g') = lits s.
Proof.
  intros Hg Hl. unfold lits, with_subgoal. cbn [ps_subgoals]. rewrite list_fmap_insert, Hl. apply list_insert_id.
  by rewrite list_lookup_fmap, Hg.
Qed.

Lemma with_subgoal_inv s i g g' :
  pinv s -> ps_subgoals s !! i = Some g -> sg_literal g' = sg_literal g -> subgoal_ok (lits s) g' -> steps s (with_subgoal s i g').
Proof.
  intros Hi Hg Hl Hok. unfold steps, pinv. rewrite (lits_with_subgoal _ _ _ _ Hg Hl). split; [|done].
  unfold with_subgoal. cbn [ps_subgoals]. by apply Forall_insert.
Qed.

Lemma steps_trans s1 s2 s3 : steps s1 s2 -> steps s2 s3 -> steps s1 s3.
Proof. intros [_ H1] [Hi H2]. split; [done|by etrans]. Qed.

Lemma pinv_subgoal s i g : pinv s -> ps_subgoals s !! i = Some g -> subgoal_ok (lits s) g.
Proof. intros Hi Hg. by eapply Forall_lookup_1 in Hi. Qed.

Lemma for_each_steps {A} (f : pstate -> A -> option pstate) (P : A -> Prop) l s s' :
  (forall s1 x s2, steps s s1 -> P x -> f s1 x = Some s2 -> steps s1 s2) ->
  pinv s -> Forall P l -> for_each f l s = Some s' -> steps s s'.
Proof.
  intros Hf Hi Hl. assert (Hgo : forall s1, steps s s1 -> for_each f l s1 = Some s' -> steps s1 s'); [|apply Hgo; by split].
  induction Hl as [|x l Hx _ IH]; intros s1 Hs Hfe; simplify_eq/=; [by destruct Hs|].
  destruct (f s1 x) as [s2|] eqn:E; [|done]. cbn in Hfe. pose proof (Hf _ _ _ Hs Hx E) as H12.
  eapply steps_trans; [exact H12|]. apply IH; [|done]. by eapply steps_trans.
Qed.

(** ** Resolution *)
Lemma rename_ground l n : ground l -> rename l n = (l, n).
Proof.
  intros Hg. unfold rename. assert (Hs : shuffle (l_args l) [] n = ([], n)).
  { destruct Hg as [cs ->]. by induction cs. }
  rewrite Hs. by rewrite subst_ground.
Qed.

Lemma resolve_ok ls i c f n c' n' g0 :
  clause_ok ls i c -> fact_ok g0 f -> resolve c f n = (Some c', n') -> clause_ok ls i c'.
Proof.
  intros [Hs Hsafe (l & Hl & Hh)] (Hg & Hd & _) Hr. unfold resolve in Hr. destruct (c_body c) as [|l1 body] eqn:Hb; [done|].
  rewrite rename_ground in Hr by done. destruct (unify l1 f) as [e|] eqn:Hu; [|done]. simplify_eq/=.
  pose proof (unify_ground false l1 f e Hg Hu) as Hl1. split.
  - intros σ Hbody. cbn [c_head c_body] in *. rewrite pred_subst, inst_subst. apply Hs. intros b Hin. rewrite Hb in Hin.
    apply elem_of_cons in Hin as [->|Hin].
    + rewrite <- inst_subst, <- (pred_subst l1 e), Hl1. destruct Hg as [cs Hcs]. rewrite Hcs in *.
      rewrite <- list_fmap_compose in *. done.
    + rewrite <- inst_subst, <- (pred_subst b e). apply Hbody. apply list_elem_of_fmap. by exists b.
  - rewrite is_safe_spec in *. cbn [c_head c_body]. intros v Hv. apply elem_subst in Hv as (w & Hw & Heq).
    destruct (Hsafe w Hw) as (b & Hin & Hwb). rewrite Hb in Hin. apply elem_of_cons in Hin as [->|Hin].
    + exfalso. apply (proj1 (ground_no_var f) Hg v). rewrite <- Hl1. apply elem_subst. by exists w.
    + exists (subst b e). split; [apply list_elem_of_fmap; by exists b|]. apply elem_subst. by exists w.
  - exists l. split; [done|]. intros Hgl. cbn [c_head]. rewrite (Hh Hgl). by apply subst_ground.
Qed.

Lemma resolve_all_ok ls i c g0 facts n todo n' :
  clause_ok ls i c -> Forall (fact_ok g0) facts -> resolve_all c facts n = (todo, n') -> Forall (clause_ok ls i) todo.
Proof.
  intros Hc Hf. revert n todo n'; induction Hf as [|f facts Hf _ IH]; intros n todo n' Hr; simplify_eq/=; [constructor|].
  destruct (resolve c f n) as [r n1] eqn:E. destruct (resolve_all c facts n1) as [t n2] eqn:E2. simplify_eq/=.
  specialize (IH _ _ _ E2). destruct r as [c'|]; [|done]. constructor; [by eapply resolve_ok|done].
Qed.

(** ** Primitives *)
(** A primitive reports its own literal, or an equality that binds a variable. *)
Lemma prim_facts_spec l f :
  f ∈ prim_facts l ->
  (exists a b, l_args l = [Const a; Const b] /\ f = l) \/
  (exists c, l_name l = str "=" /\ f = mk_lit (str "=") [Const c; Const c] /\ ~ ground l /\ length (l_args l) = 2%nat).
Proof.
  unfold prim_facts. destruct l as [n [|x [|y [|]]]]; cbn [l_args l_name]; intros Hf; try by apply not_elem_of_nil in Hf.
  assert (Hsame : forall b : bool, f ∈ (if b then [mk_lit n [x; y]] else []) -> (b = true -> exists a c, x = Const a /\ y = Const c) ->
    exists a c, [x; y] = [Const a; Const c] /\ f = mk_lit n [x; y]).
  { intros b Hin Hb. destruct b; [|by apply not_elem_of_nil in Hin]. apply list_elem_of_singleton in Hin as ->.
    destruct (Hb eq_refl) as (a & c & -> & ->). by exists a, c. }
  assert (Hcmp : forall p, compare_primitive p x y = true -> exists a c, x = Const a /\ y = Const c).
  { intros p. destruct x, y; cbn; try done. by eexists _, _. }
  assert (Hne : ne_primitive x y = true -> exists a c, x = Const a /\ y = Const c) by (destruct x, y; cbn; try done; by eexists _, _).
  case_bool_decide as Hn; [|left; repeat case_bool_decide; try (by eapply Hsame; [exact Hf|]; eauto); by apply not_elem_of_nil in Hf].
  subst n. assert (Hvar : forall v, Var v ∈ [x; y] -> ~ ground (mk_lit (str "=") [x; y])).
  { intros v Hv Hg. by apply (proj1 (ground_no_var _) Hg v). }
  destruct x as [v|a], y as [w|b]; cbn [equals_primitive] in Hf; try by apply not_elem_of_nil in Hf.
  - apply list_elem_of_singleton in Hf as ->. right. exists b. split_and!; try done. apply (Hvar v). left.
  - apply list_elem_of_singleton in Hf as ->. right. exists a. split_and!; try done. apply (Hvar w). right. left.
  - case_bool_decide; [|by apply not_elem_of_nil in Hf]. subst b. apply list_elem_of_singleton in Hf as ->. left. by exists a, a.
Qed.

Lemma prim_fact_ok l f : is_prim d (l_pred l) = true -> f ∈ prim_facts l -> fact_ok l f.
Proof.
  intros Hp Hf. destruct (prim_facts_spec l f Hf) as [(a & b & Hl & ->)|(c & Hn & -> & Hng & Hlen)].
  - split; [by exists [a; b]|]. split; [|done]. destruct l as [n args]. cbn [l_args] in Hl. subst args. apply der_prim; [done|].
    unfold prim_holds. cbn [inst l_name]. intros Hnil. rewrite Hnil in Hf. by apply not_elem_of_nil in Hf.
  - split; [by exists [c; c]|]. split; [|by intros ?]. apply der_prim.
    + unfold l_pred in Hp. by rewrite Hn, Hlen in Hp.
    + unfold prim_holds, prim_facts. cbn [l_args l_name]. rewrite bool_decide_true by done. cbn. by rewrite bool_decide_true.
Qed.

(** ** The steps *)
Section step.
Hypothesis Hdb : db_ok.
Variable rec : pstate -> nat -> clause -> option pstate.
Hypothesis Hrec : forall s i c s', pinv s -> clause_ok (lits s) i c -> rec s i c = Some s' -> steps s s'.

Lemma with_fresh_inv s n : pinv s -> pinv (with_fresh s n).
Proof. done. Qed.

Lemma fact_steps s i l g s' :
  pinv s -> ps_subgoals s !! i = Some g -> fact_ok (sg_literal g) l -> fact rec s i l = Some s' -> steps s s'.
Proof.
  intros Hi Hg Hl Hf. unfold fact in Hf. rewrite Hg in Hf. cbn [mbind option_bind] in Hf.
  destruct (is_member l (sg_facts g)); [simplify_eq; by split|]. pose proof (pinv_subgoal _ _ _ Hi Hg) as [Hfacts Hw].
  assert (H1 : steps s (with_subgoal s i (adjoin g l))).
  { apply (with_subgoal_inv s i g); try done. split; [|done]. apply Forall_app. split; [done|by apply Forall_singleton]. }
  eapply steps_trans; [exact H1|]. eapply for_each_steps; [|apply H1|exact Hw|exact Hf].
  intros s1 [j c] s2 Hs1 Hc Hstep. cbn [fst snd] in *. destruct (resolve c l (ps_fresh s1)) as [[c'|] n] eqn:Hr; [|simplify_eq; split; [apply Hs1|done]].
  apply (Hrec _ j c' s2) in Hstep; [done|apply Hs1|]. eapply resolve_ok; [|exact Hl|exact Hr]. eapply clause_ok_mono; [|exact Hc].
  etrans; [apply H1|apply Hs1].
Qed.

Lemma steps_subgoal s s' i g : steps s s' -> ps_subgoals s !! i = Some g -> exists g', ps_subgoals s' !! i = Some g' /\ sg_literal g' = sg_literal g.
Proof.
  intros [_ Hp] Hg. assert (Hl : lits s !! i = Some (sg_literal g)) by (unfold lits; by rewrite list_lookup_fmap, Hg).
  pose proof (prefix_lookup_Some _ _ _ _ Hl Hp) as Hl'. unfold lits in Hl'. rewrite list_lookup_fmap in Hl'.
  destruct (ps_subgoals s' !! i) as [g'|]; [|done]. simplify_eq/=. by exists g'.
Qed.

Lemma search_steps s i g s' :
  pinv s -> ps_subgoals s !! i = Some g -> search d rec s i = Some s' -> steps s s'.
Proof.
  intros Hi Hg Hs. unfold search in Hs. rewrite Hg in Hs. cbn [mbind option_bind] in Hs.
  destruct (is_prim d (l_pred (sg_literal g))) eqn:Hp.
  - eapply (for_each_steps _ (fun f => f ∈ prim_facts (sg_literal g))); [|done|by apply Forall_forall|exact Hs].
    intros s1 f s2 Hs1 Hf Hfa. destruct (steps_subgoal _ _ _ _ Hs1 Hg) as (g1 & Hg1 & Hl1).
    eapply fact_steps; [apply Hs1|exact Hg1| |exact Hfa]. rewrite Hl1. by apply prim_fact_ok.
  - eapply (for_each_steps _ (fun c => exists id, pred_db d (l_pred (sg_literal g)) !! id = Some c)); [|done| |exact Hs].
    + intros s1 c s2 Hs1 [id Hc] Hstep. destruct (rename_clause c (ps_fresh s1)) as [c1 n] eqn:Hren.
      assert (Hc1 : clause_sound c1 /\ is_safe c1 = true).
      { unfold rename_clause in Hren. destruct (shuffle_body _ _ _) as [e n0]. simplify_eq.
        split; [apply subst_sound; by eapply stored_sound|apply subst_safe; by apply (Hdb _ _ _ Hc)]. }
      destruct (unify (sg_literal g) (c_head c1)) as [e|] eqn:Hu; [|simplify_eq; split; [apply Hs1|done]].
      apply (Hrec _ i _ s2) in Hstep; [done|apply Hs1|]. destruct Hc1 as [Hso Hsa]. split; [by apply subst_sound|by apply subst_safe|].
      destruct (steps_subgoal _ _ _ _ Hs1 Hg) as (g1 & Hg1 & Hl1). exists (sg_literal g). split.
      * change (lits (with_fresh s1 n)) with (lits s1). unfold lits. by rewrite list_lookup_fmap, Hg1, <- Hl1.
      * intros Hgr. by apply (unify_ground true).
    + apply Forall_forall. intros c Hc. apply list_elem_of_fmap in Hc as ([id c'] & -> & Hin). exists id. by apply elem_of_map_to_list.
Qed.

Lemma rule_steps s i c l body s' :
  pinv s -> clause_ok (lits s) i c -> c_body c = l :: body -> rule d rec s i c l = Some s' -> steps s s'.
Proof.
  intros Hi Hc Hb Hr. unfold rule in Hr. destruct (find_subgoal s l) as [j|].
  - destruct (ps_subgoals s !! j) as [g|] eqn:Hg; [|done]. cbn [mbind option_bind] in Hr.
    pose proof (pinv_subgoal _ _ _ Hi Hg) as [Hfacts Hw].
    assert (H1 : steps s (with_subgoal s j (add_waiter g (i, c)))).
    { apply (with_subgoal_inv s j g); try done. split; [done|]. apply Forall_app. split; [done|by apply Forall_singleton]. }
    destruct (resolve_all c (sg_facts g) _) as [todo n] eqn:Hall.
    eapply (steps_trans _ (with_fresh (with_subgoal s j (add_waiter g (i, c))) n)); [exact H1|]. eapply (for_each_steps _ (clause_ok (lits s) i)); [|apply H1|by eapply resolve_all_ok|exact Hr].
    intros s1 c1 s2 Hs1 Hc1 Hstep. apply (Hrec _ i c1 s2) in Hstep; [done|apply Hs1|]. eapply clause_ok_mono; [|exact Hc1].
    etrans; [apply H1|apply Hs1].
  - set (s1 := mk_pstate _ _ _) in Hr. assert (Hls : lits s1 = lits s ++ [l]) by (unfold lits, s1; cbn; by rewrite fmap_app).
    assert (H1 : steps s s1).
    { split; [|rewrite Hls; by apply prefix_app_r]. unfold pinv. rewrite Hls. apply Forall_app. split.
      - eapply Forall_impl; [exact Hi|]. intros g. apply subgoal_ok_mono. by apply prefix_app_r.
      - apply Forall_singleton. split; [constructor|]. apply Forall_singleton. eapply clause_ok_mono; [by apply prefix_app_r|done]. }
    eapply steps_trans; [exact H1|]. eapply search_steps; [apply H1| |exact Hr]. cbn [s1 ps_subgoals].
    by rewrite lookup_app_r, Nat.sub_diag by lia.
Qed.

Lemma add_clause_step_ok s i c s' :
  pinv s -> clause_ok (lits s) i c -> add_clause_step d rec s i c = Some s' -> steps s s'.
Proof.
  intros Hi Hc Hs. unfold add_clause_step in Hs. destruct (c_body c) as [|l body] eqn:Hb; [|by eapply rule_steps].
  destruct Hc as [Hso Hsa (l & Hl & Hh)]. unfold lits in Hl. rewrite list_lookup_fmap in Hl.
  destruct (ps_subgoals s !! i) as [g|] eqn:Hg; [|done]. simplify_eq/=. eapply fact_steps; [done|done| |done]. split; [|split].
  - apply ground_no_var. intros v Hv. destruct (proj1 (is_safe_spec c) Hsa v Hv) as (b & Hin & _). rewrite Hb in Hin. by apply not_elem_of_nil in Hin.
  - apply Hso. intros b Hin. rewrite Hb in Hin. by apply not_elem_of_nil in Hin.
  - exact Hh.
Qed.
End step.

Lemma add_clause_ok n : db_ok -> forall s i c s', pinv s -> clause_ok (lits s) i c -> add_clause d n s i c = Some s' -> steps s s'.
Proof. intros Hd. induction n as [|n IH]; [done|]. intros s i c s'. by apply add_clause_step_ok. Qed.

(** Every answer follows from the database, and answers the query. *)
Lemma ask_sound n fresh l answers f :
  db_ok -> ask d n fresh l = Some answers -> f ∈ answers ->
  ground f /\ derivable (l_pred f) (inst (fun _ => []) <$> l_args f) /\ (ground l -> f = l).
Proof.
  intros Hd Ha Hf. unfold ask in Ha. set (s0 := mk_pstate _ _ _) in Ha. destruct (search d (add_clause d n) s0 0) as [s|] eqn:Hs; [|done].
  cbn [mbind option_bind] in Ha. assert (H0 : pinv s0) by (apply Forall_singleton; by split).
  assert (Hst : steps s0 s) by (by apply (search_steps Hd (add_clause d n) (add_clause_ok n Hd) s0 0 (mk_subgoal l [] []))).
  destruct (ps_subgoals s !! 0%nat) as [g|] eqn:Hg; [|done]. simplify_eq/=.
  destruct (steps_subgoal _ _ 0 (mk_subgoal l [] []) Hst eq_refl) as (g' & Hg' & Hl). simplify_eq.
  destruct (pinv_subgoal _ _ _ (proj1 Hst) Hg) as [Hfacts _]. rewrite Hl in Hfacts. cbn [sg_literal] in Hfacts.
  by apply (proj1 (Forall_forall _ _) Hfacts).
Qed.

(** A yes of [datalog_engine_is_true] is a derivation. *)
Lemma is_true_sound n fresh perm u o :
  db_ok -> datalog_engine_is_true d n fresh perm u o = Some true -> derivable (perm, 2%nat) [u; o].
Proof.
  intros Hd Ht. unfold datalog_engine_is_true in Ht. destruct (ask d n fresh _) as [[|f answers]|] eqn:Ha; [done| |done].
  destruct (ask_sound _ _ _ _ f Hd Ha ltac:(left)) as (_ & Hder & Heq). rewrite Heq in Hder by (by exists [u; o]). exact Hder.
Qed.
End sound.

(** C17: Every answer of the engine is a ground literal that follows from the
    clauses of the database and the comparison primitives, and an answer to a
    ground query is the query itself. *)
Theorem datalog_answers_sound `{LuaNumber} d n fresh l answers f :
  db_ok d -> ask d n fresh l = Some answers -> f ∈ answers ->
  ground f /\ derivable d (l_pred f) (inst (fun _ => []) <$> l_args f) /\ (ground l -> f = l).
Proof. apply ask_sound. Qed.

(** Ancestors: [anc(X, Y) :- par(X, Y)] and [anc(X, Y) :- par(X, Z), anc(Z, Y)]. *)
Definition dvar (s : string) : term := Var (VNamed (str s)).
Definition dconst (s : string) : term := Const (str s).
Definition family : list clause :=
  [mk_clause (mk_lit (str "par") [dconst "a"; dconst "b"]) []; mk_clause (mk_lit (str "par") [dconst "b"; dconst "c"]) [];
   mk_clause (mk_lit (str "anc") [dvar "X"; dvar "Y"]) [mk_lit (str "par") [dvar "X"; dvar "Y"]];
   mk_clause (mk_lit (str "anc") [dvar "X"; dvar "Y"]) [mk_lit (str "par") [dvar "X"; dvar "Z"]; mk_lit (str "anc") [dvar "Z"; dvar "Y"]]].
Definition family_db : dl_db := foldl (fun d c => default d (dl_assert d c)) dl_open family.

Lemma family_ok : db_ok family_db.
Proof.
  assert (Hall : forallb (fun q => forallb (fun c => bool_decide (l_pred (c_head c) = q.1) && is_safe c) (map_to_list q.2).*2)
                   (map_to_list (db_preds family_db)) = true) by (vm_compute; reflexivity).
  intros p i c Hc. unfold pred_db in Hc. destruct (db_preds family_db !! p) as [m|] eqn:Hm; cbn [default from_option id] in Hc; [|by rewrite lookup_empty in Hc].
  rewrite forallb_forall in Hall. specialize (Hall (p, m)). cbn [fst snd] in Hall. rewrite forallb_forall in Hall.
  apply elem_of_map_to_list in Hm, Hc. specialize (Hall (proj1 (list_elem_of_In _ _) Hm) c).
  rewrite andb_true_iff, bool_decide_eq_true in Hall. apply Hall. apply list_elem_of_In, list_elem_of_fmap. by exists (i, c).
Qed.

Lemma datalog_answers_sound_witness :
  ask (H := int_number) family_db 50 0 (mk_lit (str "anc") [dconst "a"; dvar "Y"]) =
    Some [mk_lit (str "anc") [dconst "a"; dconst "c"]; mk_lit (str "anc") [dconst "a"; dconst "b"]] /\
  derivable (H := int_number) family_db (str "anc", 2%nat) [str "a"; str "c"].
Proof.
  assert (Ha : ask (H := int_number) family_db 50 0 (mk_lit (str "anc") [dconst "a"; dvar "Y"]) =
    Some [mk_lit (str "anc") [dconst "a"; dconst "c"]; mk_lit (str "anc") [dconst "a"; dconst "b"]]) by (vm_compute; reflexivity).
  split; [exact Ha|].
  destruct (datalog_answers_sound (H := int_number) family_db 50 0 _ _ (mk_lit (str "anc") [dconst "a"; dconst "c"]) family_ok Ha) as (_ & Hd & _); [|exact Hd].
  left.
Defined.
