(* ===== verification/KnowledgeBase.v ===== *)
(** * The knowledge base

    Models [abac/db.c] and the translation of policies into clauses
    ([policy_rule_to_db] of [abac/rule.c], [policy_atom_to_db] of
    [abac/atom.c]) over the engine of [Datalog.v].  The Lua stack is not kept:
    a construction that fails leaves the database as it was.  Results that may
    be an error code are [option (option _)]: [None] is a read through NULL or
    past an array, [Some None] is -1. *)
From stdpp Require Import strings.
From S2P Require Import Prelude Types AttributeTable AbacValue AbacRule AttributeSpace Datalog.

(** ** Literals *)
Inductive datalog_term_type := DATALOG_VAR_TERM | DATALOG_CONST_TERM.

(** An empty string adds no term. *)
Definition db_push_term (s : bytes) (type : datalog_term_type) : list term :=
  match s with
  | [] => []
  | _ => [match type with DATALOG_VAR_TERM => Var (VNamed s) | DATALOG_CONST_TERM => Const s end]
  end.

Definition db_make_literal (predicate first : bytes) (first_type : datalog_term_type) (second : option bytes)
    (second_type : datalog_term_type) : literal :=
  make_literal predicate
    (db_push_term first first_type ++ match second with Some s => db_push_term s second_type | None => [] end).

(** ** Policies as clauses *)
Definition atom_type_char_uppercase_str (c : Z) : option bytes :=
  if c =? 111 then Some (str "O") else if c =? 117 then Some (str "U") else None.

Definition atom_type_to_uppercase_str (t : Z) : option bytes :=
  if t =? ATOM_TYPE_OBJECT then Some (str "O") else if t =? ATOM_TYPE_USER then Some (str "U") else None.

(** [snprintf(dest, 10, "X%zu", index)]. *)
Definition free_variable (index : nat) : bytes := take 9 (str "X" ++ print_nat index).

(** The literals pushed, the term of the argument with its type, and the next
    index.  An identifier is [u.name] or [o.name]; one of a single character
    is read past its end. *)
Definition try_push_boolean_fact (v : abac_value) (index : nat) : option (option (list literal * bytes * datalog_term_type * nat)) :=
  if negb (av_type v =? ABAC_VALUE_IDENTIFIER) then
    match abac_value_stringify v with None => null | Some s => nret ([], s, DATALOG_CONST_TERM, index) end
  else
    let s := cstr (av_data v) in
    match atom_type_char_uppercase_str (default 0 (head s)) with
    | None => null
    | Some ty =>
        if (length s <? 2)%nat then None
        else
          let x := free_variable index in
          nret ([db_make_literal (drop 2 s) ty DATALOG_VAR_TERM (Some x) DATALOG_VAR_TERM], x, DATALOG_VAR_TERM, S index)
    end.

Definition push_boolean_atom_to_db (a : policy_atom) (index : nat) : option (option (list literal * nat)) :=
  v1 ← policy_atom_get_arg a 0;
  v2 ← policy_atom_get_arg a 1;
  o1 ← try_push_boolean_fact v1 index;
  o2 ← try_push_boolean_fact v2 (match o1 with Some (_, _, _, index) => index | None => index end);
  match o1, o2 with
  | Some (l1, s1, t1, _), Some (l2, s2, t2, index) =>
      match boolean_operator_to_datalog_str (cstr (predicate a)) with
      | None => null
      | Some op => nret (l1 ++ l2 ++ [db_make_literal op s1 t1 (Some s2) t2], index)
      end
  | _, _ => null
  end.

(** An argument that has no text is a missing term. *)
Definition push_normal_atom_to_db (a : policy_atom) : option (option (list literal)) :=
  match atom_type_to_uppercase_str (atom_type a) with
  | None => null
  | Some ty =>
      let second := match policy_atom_get_arg a 0 with Some v => abac_value_stringify v | None => Some [] end in
      p ← c_string (predicate a);
      nret [db_make_literal p ty DATALOG_VAR_TERM second DATALOG_CONST_TERM]
  end.

Definition policy_atom_to_db (a : policy_atom) (index : nat) : option (option (list literal * nat)) :=
  if (pred_type a =? PREDICATE_ATTR) || (pred_type a =? PREDICATE_FUNC) then
    l <?- push_normal_atom_to_db a; nret (l, index)
  else if pred_type a =? PREDICATE_BOOL then push_boolean_atom_to_db a index
  else null.

Fixpoint policy_atoms_to_db (l : list policy_atom) (index : nat) : option (option (list literal)) :=
  match l with
  | [] => nret []
  | a :: l' => '(ls, index) <?- policy_atom_to_db a index; ls' <?- policy_atoms_to_db l' index; nret (ls ++ ls')
  end.

Definition type_literal (name var : bytes) : literal := db_make_literal name var DATALOG_VAR_TERM None DATALOG_VAR_TERM.

Definition policy_rule_to_db (r : policy_rule) : option (option clause) :=
  match perm_type_to_string (perm_type r) with
  | None => null
  | Some p =>
      body <?- policy_atoms_to_db (atoms r) 0;
      nret (mk_clause (db_make_literal p (str "U") DATALOG_VAR_TERM (Some (str "O")) DATALOG_VAR_TERM)
              (type_literal (str "_isUser") (str "U") :: type_literal (str "_isObject") (str "O") :: body))
  end.

(** ** Entities *)
Definition hex_digit (z : Z) : Z := if z <? 10 then 48 + z else 87 + z.
Definition nexus_hex_encode (b : bytes) : bytes := b ≫= (fun z => [hex_digit (z / 16); hex_digit (z mod 16)]).

Record kb_entity := mk_entity { ke_uuid : uuid; ke_uuid_str : bytes; ke_version : Z; ke_type : Z }.

Definition kb_entity_new (u : uuid) (type : Z) : kb_entity := mk_entity u (nexus_hex_encode u) 0 type.
Definition with_version (e : kb_entity) (v : Z) : kb_entity := mk_entity (ke_uuid e) (ke_uuid_str e) v (ke_type e).

(** ** The database *)
(** [my_database] and the two counters. *)
Record kb := mk_kb { kb_db : dl_db; cached_facts_count : Z; cached_rules_count : Z }.

(** The statics of db.c are 0 when the enclave starts.  A later [db_init] does
    not set the two counters back; they are printed only, and a session begins
    with 0 here. *)
Definition db_init : kb := mk_kb dl_open 0 0.

Definition insert_db_fact (predicate object_name : bytes) (value : option bytes) : clause :=
  mk_clause (db_make_literal predicate object_name DATALOG_CONST_TERM value DATALOG_CONST_TERM) [].

(** [None] is -1. *)
Definition db_assert_fact (k : kb) (e : kb_entity) (predicate : bytes) (value : option bytes) : option kb :=
  d ← dl_assert (kb_db k) (insert_db_fact predicate (ke_uuid_str e) value);
  Some (mk_kb d (cached_facts_count k +64 1) (cached_rules_count k)).

Definition db_retract_fact (k : kb) (e : kb_entity) (predicate : bytes) (value : option bytes) : kb :=
  mk_kb (dl_retract (kb_db k) (insert_db_fact predicate (ke_uuid_str e) value)) (cached_facts_count k) (cached_rules_count k).

Definition db_assert_kb_entity_type (k : kb) (e : kb_entity) : option kb :=
  if ke_type e =? USER_ATTRIBUTE_TYPE then db_assert_fact k e (str "_isUser") None
  else if ke_type e =? OBJECT_ATTRIBUTE_TYPE then db_assert_fact k e (str "_isObject") None
  else None.

Definition db_assert_policy_rule (k : kb) (r : policy_rule) : option (option kb) :=
  c <?- policy_rule_to_db r;
  match dl_assert (kb_db k) c with
  | None => null
  | Some d => nret (mk_kb d (cached_facts_count k) (cached_rules_count k +64 1))
  end.

Definition db_retract_policy_rule (k : kb) (r : policy_rule) : option (option kb) :=
  c <?- policy_rule_to_db r;
  nret (mk_kb (dl_retract (kb_db k) c) (cached_facts_count k) (cached_rules_count k -64 1)).

Section ask.
Context `{LuaNumber}.

(** [Some true] is 0.  An unknown permission is a NULL string, for which Lua
    has no predicate: the construction of the query fails. *)
Definition db_ask_permission (n fresh : nat) (k : kb) (perm : Z) (user object : kb_entity) : option bool :=
  match perm_type_to_string perm with
  | None => Some false
  | Some p => datalog_engine_is_true (kb_db k) n fresh p (ke_uuid_str user) (ke_uuid_str object)
  end.
End ask.

(** [owner]: is the current user the owner of the volume? *)
Definition db_clear_facts (owner : bool) (k : kb) : kb :=
  if owner then k else mk_kb (lua_gc (dl_clear_facts (kb_db k))) 0 (cached_rules_count k).

Definition db_clear_rules (owner : bool) (k : kb) : kb :=
  if owner then k else mk_kb (lua_gc (dl_clear_rules (kb_db k))) (cached_facts_count k) 0.

Definition db_evict_entity (owner : bool) (k : kb) (e : kb_entity) : kb :=
  if owner then k
  else
    let '(d, n) := dl_evict_entity (kb_db k) (ke_uuid_str e) in
    mk_kb d (cached_facts_count k -64 n) (cached_rules_count k).
