(* ===== verification/Bouncer.v ===== *)
(** * The bouncer: access decisions

    Models [abac/bouncer.c] and [abac_refresh_bouncer_policy_store] of
    [abac/runtime.c]: the knowledge base is kept in step with the policy
    store, the current user's profile and the objects in use, and a request is
    granted when the engine finds the permission.  What the metadata layer
    delivers to one request is a record of inputs.  [None] results are reads
    through NULL or past an array, or a search that has not ended. *)
From stdpp Require Import strings.
From S2P Require Import Prelude Hashmap Types AttributeTable AbacValue AbacRule AttributeSpace SystemFunctions PolicyStore AuditLog Lru Datalog KnowledgeBase.

(** A metadata object as the bouncer reads it. *)
Record meta := mk_meta { m_uuid : uuid; m_version : Z; m_table : attribute_table; m_sys : sys_arg }.

(** The statics of the file.  Cached entities live on the heap: the cache
    holds their addresses. *)
Record bouncer := mk_bouncer {
  b_kb : kb;
  b_cache : @nexus_lru uuid Z _ _;
  b_heap : gmap Z kb_entity;
  b_next : Z;
  b_user : kb_entity;
  b_policy_version : Z;
  b_policy : option (policy_store * Z)      (* policy_store_metadata, with its version *)
}.

Definition with_kb (b : bouncer) (k : kb) : bouncer :=
  mk_bouncer k (b_cache b) (b_heap b) (b_next b) (b_user b) (b_policy_version b) (b_policy b).
Definition with_user (b : bouncer) (e : kb_entity) : bouncer :=
  mk_bouncer (b_kb b) (b_cache b) (b_heap b) (b_next b) e (b_policy_version b) (b_policy b).
Definition with_cache (b : bouncer) (c : @nexus_lru uuid Z _ _) (h : gmap Z kb_entity) (next : Z) : bouncer :=
  mk_bouncer (b_kb b) c h next (b_user b) (b_policy_version b) (b_policy b).
Definition with_policy_version (b : bouncer) (v : Z) : bouncer :=
  mk_bouncer (b_kb b) (b_cache b) (b_heap b) (b_next b) (b_user b) v (b_policy b).
Definition with_policy (b : bouncer) (p : option (policy_store * Z)) : bouncer :=
  mk_bouncer (b_kb b) (b_cache b) (b_heap b) (b_next b) (b_user b) (b_policy_version b) p.

(** ** Facts *)
Fixpoint insert_system_functions (k : kb) (e : kb_entity) (x : sys_arg) (l : list sys_func) : option (kb * Z) :=
  match l with
  | [] => Some (k, 0)
  | f :: l' =>
      o ← system_function_run f x;
      match o with
      | None => insert_system_functions k e x l'
      | Some v =>
          match db_assert_fact k e (sf_name f) (abac_value_stringify v) with
          | None => Some (k, -1)
          | Some k => insert_system_functions k e x l'
          end
      end
  end.

Fixpoint insert_attributes (k : kb) (e : kb_entity) (sp : attribute_space) (l : list attribute_entry) : option (kb * Z) :=
  match l with
  | [] => Some (k, 0)
  | a :: l' =>
      o ← attribute_space_find_uuid sp (attr_uuid a);
      match o with
      | None => insert_attributes k e sp l'
      | Some s =>
          name ← c_string (as_name s);
          val ← c_string (attr_val a);
          match db_assert_fact k e name (Some val) with
          | None => Some (k, -1)
          | Some k => insert_attributes k e sp l'
          end
      end
  end.

(** The entity comes back with the version its facts are from. *)
Definition abac_request_insert_facts (k : kb) (e : kb_entity) (sp : attribute_space) (m : meta) (funcs : list sys_func)
    : option (kb * kb_entity * Z) :=
  if negb (m_version m =? 0) && (m_version m =? ke_version e) then Some (k, e, 0)
  else
    let k := db_evict_entity false k e in
    match db_assert_kb_entity_type k e with
    | None => Some (k, e, -1)
    | Some k =>
        '(k, ret) ← insert_system_functions k e (m_sys m) funcs;
        if negb (ret =? 0) then Some (k, e, -1)
        else
          '(k, ret) ← insert_attributes k e sp (at_entries (m_table m));
          if negb (ret =? 0) then Some (k, e, -1) else Some (k, with_version e (m_version m), 0)
    end.

(** ** The policy store *)
Fixpoint assert_policy_rules (k : kb) (l : list policy_rule) : option (kb * Z) :=
  match l with
  | [] => Some (k, 0)
  | r :: l' =>
      o ← db_assert_policy_rule k r;
      match o with None => Some (k, -1) | Some k => assert_policy_rules k l' end
  end.

Definition bouncer_update_policy_store (owner : bool) (b : bouncer) (ps : policy_store) (version : Z) : option (bouncer * Z) :=
  if owner then Some (b, 0)
  else if b_policy_version b =? version then Some (b, 0)
  else
    '(k, ret) ← assert_policy_rules (db_clear_rules owner (b_kb b)) (pst_rules ps);
    if negb (ret =? 0) then Some (with_kb b k, -1) else Some (with_policy_version (with_kb b k) version, 0).

(** [changed] is [nexus_metadata_has_changed], [load] what
    [nexus_metadata_load] returns.  Without a store loaded before, the old one
    is read through NULL. *)
Definition abac_refresh_bouncer_policy_store (owner : bool) (b : bouncer) (changed : bool) (load : option (policy_store * Z))
    : option (bouncer * option policy_store) :=
  match b_policy b, changed with
  | Some (ps, v), false =>
      '(b, ret) ← bouncer_update_policy_store owner b ps v;
      Some (b, if ret =? 0 then Some ps else None)
  | old, _ =>
      match load with
      | None => Some (b, None)
      | Some (ps, v) =>
          _ ← old;
          '(b, ret) ← bouncer_update_policy_store owner b ps v;
          if negb (ret =? 0) then Some (b, None) else Some (with_policy b (Some (ps, v)), Some ps)
      end
  end.

(** ** Entities of objects *)
Definition evict_obj_entity (b : bouncer) (a : Z) : option bouncer :=
  e ← b_heap b !! a;
  Some (with_cache (with_kb b (db_evict_entity false (b_kb b) e)) (b_cache b) (delete a (b_heap b)) (b_next b)).

Fixpoint evict_all (b : bouncer) (l : list (uuid * Z)) : option bouncer :=
  match l with [] => Some b | p :: l' => b ← evict_obj_entity b p.2; evict_all b l' end.

(** The address of the object's entity. *)
Definition cache_obj_entity (b : bouncer) (u : uuid) : option (bouncer * Z) :=
  '(c, o) ← nexus_lru_get (b_cache b) u;
  match o with
  | Some a => Some (with_cache b c (b_heap b) (b_next b), a)
  | None =>
      let a := b_next b in
      '(c, freed) ← nexus_lru_put c u a;
      b ← evict_all (with_cache b c (<[a := kb_entity_new u OBJECT_ATTRIBUTE_TYPE]> (b_heap b)) (a + 1)) freed;
      Some (b, a)
  end.

(** ** Requests *)
(** What the metadata layer delivers: the policy store, the attribute space,
    the current user's profile, and the object's audit log. *)
Record request_env := mk_req {
  re_owner : bool;
  re_changed : bool;
  re_load : option (policy_store * Z);
  re_space : option attribute_space;
  re_profile : option meta;
  re_audit_created : bool;
  re_audit_log : option audit_log;
  re_audit_stored : bool
}.

(** The request: the attribute space, the user's metadata and the address of
    the object's entity.  [Some (_, None)] is NULL. *)
Definition create_abac_request (env : request_env) (b : bouncer) (obj : option meta)
    : option (bouncer * option (attribute_space * meta * option Z)) :=
  '(b, ps) ← abac_refresh_bouncer_policy_store (re_owner env) b (re_changed env) (re_load env);
  match ps, re_space env, re_profile env with
  | Some _, Some sp, Some profile =>
      match obj with
      | None => Some (b, Some (sp, profile, None))
      | Some m => '(b, a) ← cache_obj_entity b (m_uuid m); Some (b, Some (sp, profile, Some a))
      end
  | _, _, _ => Some (b, None)
  end.

Section decide.
Context `{LuaNumber}.

(** The event is logged when the policies ask for it.  The result is the code
    and the log that was written. *)
Definition audit_abac_request (n : nat) (env : request_env) (b : bouncer) (obj_entity : kb_entity) (perm : Z) (m : meta)
    : option (Z * option audit_log) :=
  audited ← db_ask_permission n 0 (b_kb b) PERM_AUDIT (b_user b) obj_entity;
  if negb audited then Some (0, None)
  else if negb (re_audit_created env) then Some (-1, None)
  else
    match re_audit_log env with
    | None => Some (-1, None)
    | Some log =>
        '(log, _) ← audit_log_add_event log perm (ke_uuid (b_user b)) (m_version m);
        Some (if re_audit_stored env then 0 else -1, Some log)
    end.

(** [return -1] in a function that returns [bool] is true. *)
Definition bouncer_access_check (n : nat) (env : request_env) (b : bouncer) (m : meta) (perm : Z)
    : option (bouncer * bool * option audit_log) :=
  if re_owner env then Some (b, true, None)
  else
    '(b, req) ← create_abac_request env b (Some m);
    match req with
    | None => Some (b, true, None)
    | Some (_, _, None) => None
    | Some (sp, profile, Some a) =>
        '(k, ue, ret) ← abac_request_insert_facts (b_kb b) (b_user b) sp profile (system_function_export_sysfuncs USER_FUNCTION);
        let b := with_user (with_kb b k) ue in
        if negb (ret =? 0) then Some (b, false, None)
        else
          oe ← b_heap b !! a;
          '(k, oe, ret) ← abac_request_insert_facts (b_kb b) oe sp m (system_function_export_sysfuncs OBJECT_FUNCTION);
          let b := with_cache (with_kb b k) (b_cache b) (<[a := oe]> (b_heap b)) (b_next b) in
          if negb (ret =? 0) then Some (b, false, None)
          else
            granted ← db_ask_permission n 0 (b_kb b) perm (b_user b) oe;
            if negb granted then Some (b, false, None)
            else
              '(ret, log) ← audit_abac_request n env b oe perm m;
              Some (b, ret =? 0, log)
    end.
End decide.

(** [bounce_remove_from_kb]. *)
Definition bounce_remove_from_kb (owner : bool) (b : bouncer) (u : uuid) : option bouncer :=
  '(c, o) ← nexus_lru_get (b_cache b) u;
  let b := with_cache b c (b_heap b) (b_next b) in
  match o with
  | None => Some b
  | Some a => e ← b_heap b !! a; Some (with_kb b (db_evict_entity owner (b_kb b) e))
  end.

(** [bouncer_init] for a user who is not the owner: [None] is a fault,
    [Some None] is -1.  The statics [policy_store_cached_version] and
    [policy_store_metadata] are as an earlier session left them. *)
Definition bouncer_init (env : request_env) (user_uuid : uuid) (version : Z) (policy : option (policy_store * Z)) : option (option bouncer) :=
  let b := mk_bouncer db_init (nexus_lru_create 16) ∅ 1 (kb_entity_new user_uuid USER_ATTRIBUTE_TYPE) version policy in
  '(b, req) ← create_abac_request env b None;
  match req with
  | None => Some None
  | Some (sp, profile, _) =>
      '(k, ue, ret) ← abac_request_insert_facts (b_kb b) (b_user b) sp profile (system_function_export_sysfuncs USER_FUNCTION);
      if negb (ret =? 0) then Some None else Some (Some (with_user (with_kb b k) ue))
  end.
