(* ===== verification/KbProps.v ===== *)
(** * Properties of the knowledge base

    What the operations do to the set of clauses, that identifiers tell facts
    apart, and what a derivation of a permission says about the policies and
    the facts. *)
From stdpp Require Import strings.
From S2P Require Import Prelude Types AttributeTable AbacValue AbacRule AttributeSpace AbacSyntax Datalog DatalogSound KnowledgeBase.

(** ** Identifiers *)
Definition short (s : bytes) : Prop := Z.of_nat (length s) < 2 ^ 31.

Lemma print_nat_inj m n : Z.of_nat m < 2 ^ 31 -> Z.of_nat n < 2 ^ 31 -> print_nat m = print_nat n -> m = n.
Proof.
  unfold print_nat. intros Hm Hn Heq. apply Nat2Z.inj. rewrite <- (atoi_print_int (Z.of_nat m)), <- (atoi_print_int (Z.of_nat n)) by lia.
  by rewrite Heq.
Qed.

Lemma print_nat_digits n : Z.of_nat n < 2 ^ 31 -> Forall (fun c => is_digit c = true) (print_nat n).
Proof. intros Hn. unfold print_nat, print_int. destruct (Z.ltb_spec (Z.of_nat n) 0); [lia|]. apply digits_are_digits. lia. Qed.

(** Two texts up to a separator that neither holds. *)
Lemma split_at_sep {A} (P : A -> Prop) (x : A) s s' r r' :
  Forall P s -> Forall P s' -> ~ P x -> s ++ x :: r = s' ++ x :: r' -> s = s' /\ r = r'.
Proof.
  intros Hs Hs' Hx. revert s' Hs'; induction Hs as [|y s Hy _ IH]; intros [|y' s'] Hs' Heq; simplify_eq/=; try done.
  - by apply Forall_cons in Hs' as [? _].
  - apply Forall_cons in Hs' as [_ Hs']. by destruct (IH s' Hs') as [-> ->].
Qed.

Lemma add_size_inj s s' r r' : short s -> short s' -> add_size s ++ r = add_size s' ++ r' -> s = s' /\ r = r'.
Proof.
  unfold short, add_size. intros Hs Hs' Heq. rewrite <- !app_assoc in Heq. change (str ":" ++ ?x) with (58 :: x) in Heq.
  apply (split_at_sep (fun c => is_digit c = true)) in Heq as [Hn Heq]; [|by apply print_nat_digits..|done].
  apply print_nat_inj in Hn; [|done..]. by apply app_inj_1 in Heq.
Qed.

Lemma pred_id_inj (p q : pred) : Z.of_nat p.2 < 2 ^ 31 -> Z.of_nat q.2 < 2 ^ 31 -> mk_pred_id p = mk_pred_id q -> p = q.
Proof.
  destruct p as [n a], q as [n' a']. unfold mk_pred_id. cbn [fst snd]. intros Ha Ha' Heq.
  apply (f_equal reverse) in Heq. rewrite !reverse_app in Heq. change (reverse (str "/")) with [47] in Heq.
  rewrite <- !app_assoc in Heq. change ([47] ++ ?x) with (47 :: x) in Heq.
  apply (split_at_sep (fun c => is_digit c = true)) in Heq as [Hn Heq]; [| | |done].
  - apply (inj reverse) in Hn. apply print_nat_inj in Hn; [|done..]. apply (inj reverse) in Heq. by subst.
  - apply Forall_reverse. by apply print_nat_digits.
  - apply Forall_reverse. by apply print_nat_digits.
Qed.

(** Facts whose parts are short. *)
Record short_fact (c : clause) : Prop := {
  sf_body : c_body c = [];
  sf_args : exists cs, l_args (c_head c) = Const <$> cs /\ Forall (fun s => Z.of_nat (length s) < 2 ^ 20) cs /\ (length cs <= 2)%nat;
  sf_len : Z.of_nat (length (l_name (c_head c))) < 2 ^ 20
}.

Lemma length_print_nat n : (length (print_nat n) <= 11)%nat.
Proof.
  unfold print_nat, print_int. assert (Hd : forall k z acc, (length (digits k z acc) <= k + length acc)%nat).
  { induction k as [|k IH]; intros z acc; simpl; [lia|]. case_match; simpl; [lia|]. etrans; [apply IH|]. simpl. lia. }
  destruct (_ <? 0); simpl; [specialize (Hd 10%nat (- Z.of_nat n) [])|specialize (Hd 10%nat (Z.of_nat n) [])]; simpl in Hd; lia.
Qed.

Lemma short_pred c : short_fact c -> Z.of_nat (length (mk_pred_id (l_pred (c_head c)))) < 2 ^ 21 /\ (length (l_args (c_head c)) <= 2)%nat.
Proof.
  intros [_ (cs & Hc & _ & Hl) Hn]. unfold mk_pred_id, l_pred. cbn [fst snd]. rewrite Hc, length_fmap, !length_app.
  pose proof (length_print_nat (length cs)). simpl. lia.
Qed.

Definition term_text (t : term) : bytes := add_size (term_id t).

Lemma length_add_size s : (length (add_size s) <= 12 + length s)%nat.
Proof. unfold add_size. rewrite !length_app. pose proof (length_print_nat (length s)). simpl. lia. Qed.

Lemma const_args_inj cs cs' :
  Forall (fun s => Z.of_nat (length s) < 2 ^ 20) cs -> Forall (fun s => Z.of_nat (length s) < 2 ^ 20) cs' -> length cs = length cs' ->
  concat (term_text <$> (Const <$> cs)) = concat (term_text <$> (Const <$> cs')) -> cs = cs'.
Proof.
  intros Hc. revert cs'; induction Hc as [|c cs Hc _ IH]; intros [|c' cs'] Hc' Hl Heq; try done.
  apply Forall_cons in Hc' as [Hc1 Hc']. rewrite !fmap_cons in Heq. cbn [concat] in Heq.
  apply add_size_inj in Heq as [Ht Heq]; [|unfold short; cbn [term_id]; rewrite length_app; simpl; lia..].
  injection Ht as ->. f_equal. apply IH; [done| |done]. by injection Hl.
Qed.

Lemma length_concat_args cs :
  Forall (fun s => Z.of_nat (length s) < 2 ^ 20) cs -> (length cs <= 2)%nat -> Z.of_nat (length (concat (term_text <$> (Const <$> cs)))) < 2 ^ 22.
Proof.
  intros Hc Hl. assert (Hgen : Z.of_nat (length (concat (term_text <$> (Const <$> cs)))) <= (2 ^ 20 + 20) * Z.of_nat (length cs)); [|lia].
  induction Hc as [|c cs Hc _ IH]; [done|]. rewrite !fmap_cons. cbn [concat length] in *. rewrite length_app.
  assert (Ha : (length (term_text (Const c)) <= 13 + length c)%nat) by (unfold term_text; etrans; [apply length_add_size|simpl; lia]). lia.
Qed.

Lemma fact_id_inj c c' : short_fact c -> short_fact c' -> get_clause_id c = get_clause_id c' -> c = c'.
Proof.
  intros Hc Hc' Heq. destruct (short_pred c Hc) as [Hp Hla]. destruct (short_pred c' Hc') as [Hp' Hla'].
  destruct Hc as [Hb (cs & Hargs & Hcs & Hl) _], Hc' as [Hb' (cs' & Hargs' & Hcs' & Hl') _].
  destruct c as [[n args] body], c' as [[n' args'] body']. cbn [c_body c_head l_args l_name] in *. subst body body' args args'.
  unfold get_clause_id in Heq. cbn [c_head c_body fmap list_fmap concat] in Heq.
  pose proof (length_concat_args cs Hcs Hl) as Hlen. pose proof (length_concat_args cs' Hcs' Hl') as Hlen'.
  pose proof (length_add_size (mk_pred_id (l_pred (mk_lit n (Const <$> cs))))) as Hx.
  pose proof (length_add_size (mk_pred_id (l_pred (mk_lit n' (Const <$> cs'))))) as Hx'.
  apply add_size_inj in Heq as [Hid _]; [|unfold short, get_id; rewrite length_app; cbn [l_args];
    change (fun t => add_size (term_id t)) with term_text; lia..].
  unfold get_id in Hid. cbn [l_args] in Hid. change (fun t => add_size (term_id t)) with term_text in Hid.
  apply add_size_inj in Hid as [Hpid Hargs]; [|unfold short; lia..].
  apply pred_id_inj in Hpid; [|unfold l_pred; cbn [snd l_args]; rewrite length_fmap; lia..].
  unfold l_pred in Hpid. cbn [l_name l_args] in Hpid. rewrite !length_fmap in Hpid. injection Hpid as -> Hlc.
  by rewrite (const_args_inj cs cs' Hcs Hcs' Hlc Hargs).
Qed.

(** ** The clauses of a database *)
Record db_wf (d : dl_db) : Prop := {
  wf_clause : forall p id c, pred_db d p !! id = Some c -> p = l_pred (c_head c) /\ id = get_clause_id c /\ is_safe c = true;
  wf_prims : forall p, is_prim d p = true -> p ∈ equals_pred :: iter_prims
}.

Definition has (d : dl_db) (c : clause) : Prop := pred_db d (l_pred (c_head c)) !! get_clause_id c = Some c.

Lemma wf_has d p id c : db_wf d -> pred_db d p !! id = Some c -> has d c.
Proof. intros Hw Hc. destruct (wf_clause _ Hw _ _ _ Hc) as (-> & -> & _). done. Qed.

Lemma wf_ok d : db_wf d -> db_ok d.
Proof. intros Hw p id c Hc. by destruct (wf_clause _ Hw _ _ _ Hc) as (-> & _ & ?). Qed.

Lemma open_pred_db p : pred_db dl_open p = ∅.
Proof.
  unfold pred_db, dl_open. cbn [db_preds]. destruct (list_to_map _ !! p) as [m|] eqn:Hm; [|done].
  apply elem_of_list_to_map_2 in Hm. apply list_elem_of_fmap in Hm as (q & [= -> ->] & _). done.
Qed.

Lemma open_wf : db_wf dl_open.
Proof.
  split; [intros p id c Hc; by rewrite open_pred_db, lookup_empty in Hc|]. intros p Hp. by apply bool_decide_eq_true in Hp.
Qed.

Lemma assert_pred_db d c d' p id :
  dl_assert d c = Some d' -> is_prim d (l_pred (c_head c)) = false ->
  pred_db d' p !! id = if decide (p = l_pred (c_head c) /\ id = get_clause_id c) then Some c else pred_db d p !! id.
Proof.
  unfold dl_assert. destruct (is_safe c); [|done]. cbn [negb]. intros Ha Hp. rewrite Hp in Ha. simplify_eq/=.
  unfold pred_db at 1. cbn [db_preds]. destruct (decide (p = l_pred (c_head c))) as [->|Hne].
  - rewrite lookup_insert_eq. cbn. destruct (decide (id = get_clause_id c)) as [->|Hne].
    + by rewrite lookup_insert_eq, decide_True by done.
    + rewrite lookup_insert_ne by done. by rewrite decide_False by tauto.
  - rewrite lookup_insert_ne by done. by rewrite decide_False by tauto.
Qed.

Lemma assert_prims d c d' : dl_assert d c = Some d' -> db_prims d' = db_prims d.
Proof. unfold dl_assert. destruct (is_safe c); [|done]. cbn. destruct (is_prim d _); intros; by simplify_eq/=. Qed.

Lemma assert_wf d c d' : db_wf d -> dl_assert d c = Some d' -> db_wf d'.
Proof.
  intros Hw Ha. split.
  - intros p id c' Hc. destruct (is_prim d (l_pred (c_head c))) eqn:Hp.
    + unfold dl_assert in Ha. rewrite Hp in Ha. destruct (is_safe c); [|done]. simplify_eq/=. by apply Hw.
    + rewrite (assert_pred_db _ _ _ _ _ Ha Hp) in Hc. case_decide as Hd; [|by apply Hw]. destruct Hd as [-> ->]. simplify_eq.
      unfold dl_assert in Ha. destruct (is_safe c') eqn:Hs; [|done]. done.
  - intros p Hp. apply Hw. unfold is_prim in *. by rewrite <- (assert_prims _ _ _ Ha).
Qed.

Lemma retract_pred_db d c p id :
  pred_db (dl_retract d c) p !! id = if decide (p = l_pred (c_head c) /\ id = get_clause_id c) then None else pred_db d p !! id.
Proof.
  unfold dl_retract. set (q := l_pred (c_head c)). set (m := delete (get_clause_id c) (pred_db d q)).
  assert (Hm : pred_db (mk_db (if bool_decide (m = ∅) && negb (is_prim d q) then delete q (db_preds d)
      else match db_preds d !! q with None => db_preds d | Some _ => <[q := m]> (db_preds d) end) (db_prims d)) p =
    if decide (p = q) then m else pred_db d p).
  { unfold pred_db at 1. cbn [db_preds]. destruct (decide (p = q)) as [->|Hne].
    - destruct (bool_decide_reflect (m = ∅)) as [Hm|Hm]; cbn [andb].
      + destruct (negb (is_prim d q)); [by rewrite lookup_delete_eq, Hm|].
        destruct (db_preds d !! q) eqn:Hq; [by rewrite lookup_insert_eq|]. by rewrite Hq, Hm.
      + destruct (db_preds d !! q) eqn:Hq; [by rewrite lookup_insert_eq|]. destruct Hm. unfold m, pred_db. rewrite Hq. apply delete_empty.
    - destruct (_ && _); [by rewrite lookup_delete_ne|]. destruct (db_preds d !! q); [by rewrite lookup_insert_ne|done]. }
  rewrite Hm. destruct (decide (p = q)) as [->|Hne]; [|by rewrite decide_False by tauto]. unfold m.
  destruct (decide (id = get_clause_id c)) as [->|Hne]; [by rewrite lookup_delete_eq, decide_True|].
  by rewrite lookup_delete_ne, decide_False by (done || tauto).
Qed.

Lemma retract_all_pred_db l d p id :
  pred_db (foldl dl_retract d l) p !! id =
  if decide (Exists (fun c => p = l_pred (c_head c) /\ id = get_clause_id c) l) then None else pred_db d p !! id.
Proof.
  revert d; induction l as [|c l IH]; intros d; [by rewrite decide_False by (by intros ?%Exists_nil)|]. cbn [foldl]. rewrite IH, retract_pred_db.
  destruct (decide (Exists _ l)) as [He|He]; [by rewrite decide_True by (by apply Exists_cons; right)|].
  destruct (decide (p = _ /\ id = _)) as [Hc|Hc]; [by rewrite decide_True by (by apply Exists_cons; left)|].
  rewrite decide_False; [done|]. rewrite Exists_cons. tauto.
Qed.

Lemma elem_of_all_clauses d id c : (id, c) ∈ all_clauses d <-> exists p, pred_db d p !! id = Some c.
Proof.
  unfold all_clauses. rewrite list_elem_of_bind. split.
  - intros ([p m] & Hid & Hp). apply elem_of_map_to_list in Hid, Hp. exists p. unfold pred_db. by rewrite Hp.
  - intros [p Hp]. unfold pred_db in Hp. destruct (db_preds d !! p) as [m|] eqn:Hm; [|cbn in Hp; by rewrite lookup_empty in Hp].
    exists (p, m). by rewrite !elem_of_map_to_list.
Qed.

(** Eviction takes away the clauses that name the entity and have at most one
    slash in their identifier. *)
Lemma evict_pred_db d u p id :
  db_wf d ->
  pred_db (dl_evict_entity d u).1 p !! id =
  if negb (is_rule id) && contains id u then None else pred_db d p !! id.
Proof.
  intros Hw. unfold dl_evict_entity. cbn [fst]. rewrite retract_all_pred_db.
  assert (Hel : forall c, c ∈ evicted u d <-> has d c /\ is_rule (get_clause_id c) = false /\ contains (get_clause_id c) u = true).
  { intros c. unfold evicted. rewrite list_elem_of_fmap. split.
    - intros ([id' c'] & -> & Hin). apply list_elem_of_filter in Hin as [[Hr Hc] Hin]. apply elem_of_all_clauses in Hin as [q Hq].
      pose proof (wf_has _ _ _ _ Hw Hq) as Hh. destruct (wf_clause _ Hw _ _ _ Hq) as (-> & -> & _). done.
    - intros (Hh & Hr & Hc). exists (get_clause_id c, c). split; [done|]. apply list_elem_of_filter. split; [done|].
      apply elem_of_all_clauses. by eexists. }
  destruct (decide (Exists _ _)) as [He|He].
  - apply Exists_exists in He as (c & Hc & -> & ->). apply Hel in Hc as (_ & -> & ->). done.
  - destruct (negb (is_rule id) && contains id u) eqn:Hb; [|done]. destruct (pred_db d p !! id) as [c|] eqn:Hc; [|done].
    exfalso. apply He. apply Exists_exists. exists c. pose proof (wf_has _ _ _ _ Hw Hc) as Hh.
    destruct (wf_clause _ Hw _ _ _ Hc) as (-> & -> & _). apply andb_true_iff in Hb as [Hr%negb_true_iff Hk]. split; [|done]. by apply Hel.
Qed.

Lemma evict_prims d u : db_prims (dl_evict_entity d u).1 = db_prims d.
Proof. unfold dl_evict_entity. cbn [fst]. generalize (evicted u d). intros l. revert d; induction l as [|c l IH]; intros d; [done|]. cbn. by rewrite IH. Qed.

Lemma evict_wf d u : db_wf d -> db_wf (dl_evict_entity d u).1.
Proof.
  intros Hw. split.
  - intros p id c Hc. rewrite evict_pred_db in Hc by done. destruct (_ && _); [done|]. by apply Hw.
  - intros p Hp. apply Hw. unfold is_prim in *. by rewrite <- evict_prims with (u := u).
Qed.

Lemma clear_pred_db d p :
  pred_db (lua_gc (dl_clear_rules d)) p = if rules_first (pred_db d p) then ∅ else pred_db d p.
Proof.
  unfold lua_gc, dl_clear_rules, pred_db at 1. cbn [db_preds]. unfold pred_db. rewrite map_lookup_filter.
  destruct (db_preds d !! p) as [m|] eqn:Hm; cbn [mbind option_bind default from_option id].
  - destruct (rules_first m) eqn:Hr; [by rewrite option_guard_False by (cbn; congruence)|by rewrite option_guard_True].
  - by destruct (rules_first ∅).
Qed.

Lemma clear_wf d : db_wf d -> db_wf (lua_gc (dl_clear_rules d)).
Proof.
  intros Hw. split.
  - intros p id c Hc. rewrite clear_pred_db in Hc. destruct (rules_first _); [by rewrite lookup_empty in Hc|by apply Hw].
  - intros p Hp. apply Hw. unfold is_prim, lua_gc in *. apply bool_decide_eq_true in Hp. cbn [db_prims] in Hp.
    apply list_elem_of_filter in Hp as [_ Hp]. by apply bool_decide_eq_true.
Qed.

(** ** The meaning of a policy *)
Section meaning.
Context `{LuaNumber}.
Variables (d : dl_db) (u o : bytes).

Definition ent (ty : bytes) : bytes := if bool_decide (ty = str "U") then u else o.

(** The term a constant makes. *)
Definition shown (s : bytes) : list bytes := match s with [] => [] | _ => [s] end.

(** The values an argument of a comparison may take: its text, or any value
    of the attribute it names. *)
Definition arg_true (v : abac_value) (vals : list bytes) : Prop :=
  if negb (av_type v =? ABAC_VALUE_IDENTIFIER) then exists s, abac_value_stringify v = Some s /\ vals = shown s
  else exists ty x, atom_type_char_uppercase_str (default 0 (head (cstr (av_data v)))) = Some ty /\
    vals = [x] /\ derivable d (drop 2 (cstr (av_data v)), 2%nat) [ent ty; x].

Definition atom_true (a : policy_atom) : Prop :=
  if (pred_type a =? PREDICATE_ATTR) || (pred_type a =? PREDICATE_FUNC) then
    exists name ty, c_string (predicate a) = Some name /\ atom_type_to_uppercase_str (atom_type a) = Some ty /\
      let args := ent ty :: match policy_atom_get_arg a 0 with Some v => default [] (shown <$> abac_value_stringify v) | None => [] end in
      derivable d (name, length args) args
  else
    exists v1 v2 xs ys op, policy_atom_get_arg a 0 = Some v1 /\ policy_atom_get_arg a 1 = Some v2 /\
      arg_true v1 xs /\ arg_true v2 ys /\ boolean_operator_to_datalog_str (cstr (predicate a)) = Some op /\
      derivable d (op, length (xs ++ ys)) (xs ++ ys).

(** Every atom of the policy holds of the user and the object. *)
Definition rule_true (r : policy_rule) : Prop :=
  derivable d (str "_isUser", 1%nat) [u] /\ derivable d (str "_isObject", 1%nat) [o] /\ Forall atom_true (atoms r).

Variable σ : var -> bytes.
Hypothesis HU : σ (VNamed (str "U")) = u.
Hypothesis HO : σ (VNamed (str "O")) = o.

Definition lit_true (l : literal) : Prop := derivable d (l_pred l) (inst σ <$> l_args l).

Lemma ent_inst ty : (exists c, atom_type_char_uppercase_str c = Some ty) \/ (exists t, atom_type_to_uppercase_str t = Some ty) ->
  inst σ <$> db_push_term ty DATALOG_VAR_TERM = [ent ty].
Proof.
  intros Hty. assert (Hc : ty = str "U" \/ ty = str "O").
  { unfold atom_type_char_uppercase_str, atom_type_to_uppercase_str in Hty. destruct Hty as [[c Hc]|[c Hc]]; repeat case_match; simplify_eq; auto. }
  unfold ent. rewrite <- HU, <- HO. by destruct Hc as [-> | ->].
Qed.

Lemma push_const s : inst σ <$> db_push_term s DATALOG_CONST_TERM = shown s.
Proof. by destruct s. Qed.

Lemma try_push_true v index ls s t index' :
  try_push_boolean_fact v index = Some (Some (ls, s, t, index')) -> Forall lit_true ls ->
  arg_true v (inst σ <$> db_push_term s t).
Proof.
  unfold try_push_boolean_fact, arg_true. destruct (negb _).
  - destruct (abac_value_stringify v) as [x|]; [|done]. intros [= <- <- <- <-] _. exists x. by rewrite push_const.
  - destruct (atom_type_char_uppercase_str _) as [ty|] eqn:Hty; [|done]. destruct (_ <? _)%nat; [done|].
    intros [= <- <- <- <-] [Hl _]%Forall_cons. unfold lit_true, db_make_literal, make_literal, l_pred in Hl. cbn [l_name l_args] in Hl.
    rewrite <- (length_fmap (inst σ)), fmap_app, ent_inst in Hl by (left; by eexists). exists ty, (σ (VNamed (free_variable index))).
    split; [done|]. split; [done|]. exact Hl.
Qed.

Lemma atom_lits_true a index ls index' :
  policy_atom_to_db a index = Some (Some (ls, index')) -> Forall lit_true ls -> atom_true a.
Proof.
  unfold policy_atom_to_db, atom_true. destruct (_ || _).
  - unfold push_normal_atom_to_db. destruct (atom_type_to_uppercase_str _) as [ty|] eqn:Hty; [|done].
    destruct (c_string (predicate a)) as [name|]; [|done]. cbn [mbind option_bind nbind]. intros [= <- <-] [Hl _]%Forall_cons.
    unfold lit_true, db_make_literal, make_literal, l_pred in Hl. cbn [l_name l_args] in Hl.
    rewrite <- (length_fmap (inst σ)), fmap_app, ent_inst in Hl by (right; by eexists). exists name, ty. split; [done|]. split; [done|].
    destruct (policy_atom_get_arg a 0) as [v|]; [|exact Hl]. destruct (abac_value_stringify v) as [s|]; [|exact Hl].
    cbn [fmap option_fmap option_map default from_option]. rewrite push_const in Hl. exact Hl.
  - destruct (pred_type a =? PREDICATE_BOOL); [|done]. unfold push_boolean_atom_to_db.
    destruct (policy_atom_get_arg a 0) as [v1|]; [|done]. destruct (policy_atom_get_arg a 1) as [v2|]; [|done]. cbn [mbind option_bind].
    destruct (try_push_boolean_fact v1 index) as [[[[[l1 s1] t1] i1]|]|] eqn:H1; cbn [mbind option_bind]; [| |done].
    2: { destruct (try_push_boolean_fact v2 index) as [[|]|]; done. }
    destruct (try_push_boolean_fact v2 i1) as [[[[[l2 s2] t2] i2]|]|] eqn:H2; cbn [mbind option_bind]; [|done|done].
    destruct (boolean_operator_to_datalog_str _) as [op|]; [|done]. intros [= <- <-] Hl.
    apply Forall_app in Hl as [Hl1 Hl]. apply Forall_app in Hl as [Hl2 [Hl _]%Forall_cons].
    exists v1, v2, (inst σ <$> db_push_term s1 t1), (inst σ <$> db_push_term s2 t2), op.
    split_and!; try done; [by eapply try_push_true|by eapply try_push_true|].
    unfold lit_true, db_make_literal, make_literal, l_pred in Hl. cbn [l_name l_args] in Hl.
    by rewrite <- (length_fmap (inst σ)), fmap_app in Hl.
Qed.

Lemma atoms_lits_true l index ls : policy_atoms_to_db l index = Some (Some ls) -> Forall lit_true ls -> Forall atom_true l.
Proof.
  revert index ls; induction l as [|a l IH]; intros index ls Hl Ht; [constructor|]. cbn [policy_atoms_to_db] in Hl.
  destruct (policy_atom_to_db a index) as [[[ls1 i1]|]|] eqn:Ha; cbn [nbind] in Hl; [|done|done].
  destruct (policy_atoms_to_db l i1) as [[ls2|]|] eqn:Hls; cbn [nbind] in Hl; [|done|done]. injection Hl as <-.
  apply Forall_app in Ht as [H1 H2]. constructor; [by eapply atom_lits_true|by eapply IH].
Qed.
End meaning.

(** A policy's clause: its head and the permission. *)
Lemma policy_clause_head r c :
  policy_rule_to_db r = Some (Some c) -> exists p, perm_type_to_string (perm_type r) = Some p /\
    c_head c = mk_lit p [Var (VNamed (str "U")); Var (VNamed (str "O"))] /\
    exists body, policy_atoms_to_db (atoms r) 0 = Some (Some body) /\
      c_body c = type_literal (str "_isUser") (str "U") :: type_literal (str "_isObject") (str "O") :: body.
Proof.
  unfold policy_rule_to_db. destruct (perm_type_to_string _) as [p|]; [|done].
  destruct (policy_atoms_to_db _ _) as [[body|]|]; cbn [nbind]; [|done|done]. intros [= <-]. exists p. split_and!; try done. by exists body.
Qed.

Lemma policy_clause_true `{LuaNumber} d r c σ :
  policy_rule_to_db r = Some (Some c) -> (forall b, b ∈ c_body c -> lit_true d σ b) ->
  rule_true d (σ (VNamed (str "U"))) (σ (VNamed (str "O"))) r.
Proof.
  intros Hc Hb. destruct (policy_clause_head _ _ Hc) as (p & _ & _ & body & Hat & Hbody). rewrite Hbody in Hb.
  split; [apply (Hb (type_literal (str "_isUser") (str "U"))); left|].
  split; [apply (Hb (type_literal (str "_isObject") (str "O"))); right; left|].
  eapply atoms_lits_true; [done|done|exact Hat|]. apply Forall_forall. intros b Hin. apply Hb. by do 2 right.
Qed.

(** ** The invariant of the knowledge base *)
Definition perm_pred (p : pred) : Prop := p.2 = 2%nat /\ p.1 ∈ perm_map.*2.

(** Clauses for a permission are policies of [rules]; all others are facts. *)
Record kb_inv (d : dl_db) (rules : list policy_rule) : Prop := {
  ki_wf : db_wf d;
  ki_policy : forall c, has d c -> perm_pred (l_pred (c_head c)) -> exists r, r ∈ rules /\ policy_rule_to_db r = Some (Some c);
  ki_facts : forall c, has d c -> ~ perm_pred (l_pred (c_head c)) -> short_fact c
}.

Lemma kb_inv_mono d rules rules' : kb_inv d rules -> rules ⊆ rules' -> kb_inv d rules'.
Proof. intros [Hw Hp Hf] Hs. split; [done| |done]. intros c Hc Hpp. destruct (Hp c Hc Hpp) as (r & Hr & ?). exists r. split; [by apply Hs|done]. Qed.

Lemma perm_to_string_pred t p : perm_type_to_string t = Some p -> p ∈ perm_map.*2.
Proof.
  unfold perm_type_to_string. destruct (List.find _ _) as [q|] eqn:Hf; [|done]. intros [= <-].
  apply find_some in Hf as [Hin _]. apply list_elem_of_In in Hin. apply list_elem_of_fmap. exists q. split; [|done].
  repeat (apply elem_of_cons in Hin as [->|Hin]; [done|]). by apply not_elem_of_nil in Hin.
Qed.

Lemma policy_perm_pred r c : policy_rule_to_db r = Some (Some c) -> perm_pred (l_pred (c_head c)).
Proof.
  intros Hc. destruct (policy_clause_head _ _ Hc) as (p & Hp & -> & _). split; [done|]. by eapply perm_to_string_pred.
Qed.

Lemma perm_not_prim p : perm_pred p -> p ∉ equals_pred :: iter_prims.
Proof.
  destruct p as [n a]. intros [Ha Hn] Hin. cbn [fst snd] in *.
  assert (Hd : forallb (fun n => forallb (fun q => negb (bool_decide (q.1 = n))) (equals_pred :: iter_prims)) perm_map.*2 = true) by (by vm_compute).
  rewrite forallb_forall in Hd. apply list_elem_of_In in Hn, Hin. specialize (Hd n Hn). rewrite forallb_forall in Hd.
  specialize (Hd (n, a) Hin). cbn [fst] in Hd. by rewrite bool_decide_true in Hd.
Qed.

(** *** What a derived permission says *)
Lemma granted_by_rule `{LuaNumber} d rules p u o :
  kb_inv d rules -> p ∈ perm_map.*2 -> derivable d (p, 2%nat) [u; o] ->
  exists r, r ∈ rules /\ perm_type_to_string (perm_type r) = Some p /\ rule_true d u o r.
Proof.
  intros [Hw Hpol _] Hp Hd. inversion Hd as [p' id c σ Hnp Hc Hb Hpe Hargs|n a b Hpr _ Hpe]; subst.
  - destruct (wf_clause _ Hw _ _ _ Hc) as (Hpred & _ & _). pose proof (wf_has _ _ _ _ Hw Hc) as Hh.
    assert (Hpp : perm_pred (l_pred (c_head c))) by (rewrite <- Hpred; by split).
    destruct (Hpol c Hh Hpp) as (r & Hr & Hrc). exists r. split; [done|].
    destruct (policy_clause_head _ _ Hrc) as (q & Hq & Hhead & _). rewrite Hhead in Hargs, Hpred.
    injection Hargs as <- <-. injection Hpred as ->. split; [done|]. by eapply policy_clause_true.
  - exfalso. apply (perm_not_prim (p, 2%nat)); [by split|]. by apply Hw.
Qed.

(** Whatever else is derived is in the database. *)
Lemma derived_is_fact `{LuaNumber} d rules name args :
  kb_inv d rules -> ~ perm_pred (name, length args) -> (name, length args) ∉ equals_pred :: iter_prims ->
  derivable d (name, length args) args -> has d (mk_clause (mk_lit name (Const <$> args)) []).
Proof.
  intros [Hw _ Hf] Hnp Hpr Hd. inversion Hd as [p id c σ _ Hc _ Hpe Hargs|n a b Hp _ Hpe]; subst.
  - destruct (wf_clause _ Hw _ _ _ Hc) as (Hpred & _ & _). pose proof (wf_has _ _ _ _ Hw Hc) as Hh.
    rewrite Hpred in Hnp. destruct (Hf c Hh Hnp) as [Hbody (cs & Hcs & _) _]. destruct c as [[n la] body]. cbn [c_head c_body l_args] in *. subst body la.
    unfold l_pred in Hpred. cbn [l_name l_args] in Hpred. injection Hpred as <- _.
    assert (Hi : inst σ <$> (Const <$> cs) = cs) by (rewrite <- list_fmap_compose; apply list_fmap_id). rewrite Hi. exact Hh.
  - exfalso. apply Hpr. by apply Hw.
Qed.

(** *** Preservation *)
Lemma kb_inv_open : kb_inv dl_open [].
Proof. split; [apply open_wf| |]; intros c Hc; unfold has in Hc; by rewrite open_pred_db, lookup_empty in Hc. Qed.

Lemma assert_has d c d' c' : dl_assert d c = Some d' -> has d' c' -> c' = c \/ has d c'.
Proof.
  intros Ha Hc. destruct (is_prim d (l_pred (c_head c))) eqn:Hp.
  - unfold dl_assert in Ha. rewrite Hp in Ha. destruct (is_safe c); [|done]. simplify_eq/=. by right.
  - unfold has in Hc. rewrite (assert_pred_db _ _ _ _ _ Ha Hp) in Hc. case_decide; [left; congruence|by right].
Qed.

Lemma kb_inv_fact d rules c d' :
  kb_inv d rules -> short_fact c -> ~ perm_pred (l_pred (c_head c)) -> dl_assert d c = Some d' -> kb_inv d' rules.
Proof.
  intros [Hw Hp Hf] Hs Hnp Ha. split; [by eapply assert_wf| |]; intros c' Hc'; destruct (assert_has _ _ _ _ Ha Hc') as [->|Hh]; auto; done.
Qed.

Lemma kb_inv_policy d rules r c d' :
  kb_inv d rules -> r ∈ rules -> policy_rule_to_db r = Some (Some c) -> dl_assert d c = Some d' -> kb_inv d' rules.
Proof.
  intros [Hw Hp Hf] Hr Hc Ha. pose proof (policy_perm_pred _ _ Hc) as Hpp.
  split; [by eapply assert_wf| |]; intros c' Hc'; destruct (assert_has _ _ _ _ Ha Hc') as [->|Hh]; auto; [|done]. intros _. by exists r.
Qed.

Lemma kb_inv_evict d rules u : kb_inv d rules -> kb_inv (dl_evict_entity d u).1 rules.
Proof.
  intros [Hw Hp Hf].
  assert (Hh : forall c, has (dl_evict_entity d u).1 c -> has d c).
  { intros c Hc. unfold has in *. rewrite evict_pred_db in Hc by done. by destruct (_ && _). }
  split; [by apply evict_wf| |]; intros c Hc; [apply Hp|apply Hf]; by apply Hh.
Qed.

(** Two predicates make two slashes. *)
Definition slashes (s : bytes) : nat := length (filter (fun c => c = 47) s).

Lemma slashes_app s s' : slashes (s ++ s') = (slashes s + slashes s')%nat.
Proof. unfold slashes. by rewrite filter_app, length_app. Qed.

Lemma slashes_literal l : (1 <= slashes (add_size (get_id l)))%nat.
Proof. unfold add_size, get_id at 2, add_size at 1, mk_pred_id at 2. rewrite !slashes_app. change (slashes (str "/")) with 1%nat. lia. Qed.

Lemma policy_is_rule r c : policy_rule_to_db r = Some (Some c) -> is_rule (get_clause_id c) = true.
Proof.
  intros Hc. destruct (policy_clause_head _ _ Hc) as (p & _ & _ & body & _ & Hb). unfold is_rule. apply Nat.leb_le.
  fold (slashes (get_clause_id c)). unfold get_clause_id. rewrite Hb, fmap_cons. cbn [concat]. rewrite !slashes_app.
  pose proof (slashes_literal (c_head c)). pose proof (slashes_literal (type_literal (str "_isUser") (str "U"))). lia.
Qed.

Lemma kb_inv_clear d rules : kb_inv d rules -> kb_inv (lua_gc (dl_clear_rules d)) [].
Proof.
  intros [Hw Hp Hf]. split; [by apply clear_wf| |]; intros c Hc; unfold has in Hc; rewrite clear_pred_db in Hc;
    destruct (rules_first _) eqn:Hr; try (by rewrite lookup_empty in Hc); [|by apply Hf].
  intros Hpp. exfalso. unfold rules_first, first_id in Hr. set (m := pred_db d (l_pred (c_head c))) in *.
  destruct (map_to_list m) as [|[id c'] l] eqn:Hm.
  { apply map_to_list_empty_iff in Hm. by rewrite Hm, lookup_empty in Hc. }
  assert (Hc' : m !! id = Some c') by (apply elem_of_map_to_list; rewrite Hm; left).
  change (is_rule id = false) in Hr.
  destruct (wf_clause _ Hw _ _ _ Hc') as (Hpred & -> & _). pose proof (wf_has _ _ _ _ Hw Hc') as Hh.
  destruct (Hp c' Hh) as (r & _ & Hrc); [by rewrite <- Hpred|]. by rewrite (policy_is_rule _ _ Hrc) in Hr.
Qed.

(** ** Comparisons *)
(** What the operators of the policy language say of two numbers. *)
Definition operator_holds (op : bytes) (y z : Z) : Prop :=
  (op = str ">" /\ z < y) \/ (op = str "<" /\ y < z) \/ (op = str ">=" /\ z <= y) \/ (op = str "<=" /\ y <= z) \/
  (op = str "!=" /\ y <> z) \/ (op = str "==" /\ y = z).

Lemma print_int_inj y z : 0 <= y < 2 ^ 31 -> 0 <= z < 2 ^ 31 -> print_int y = print_int z -> y = z.
Proof. intros Hy Hz Heq. rewrite <- (atoi_print_int y), <- (atoi_print_int z) by done. by rewrite Heq. Qed.

Lemma compare_holds `{LuaIntegers} p y z :
  0 <= y < 2 ^ 31 -> 0 <= z < 2 ^ 31 -> compare_primitive p (Const (print_int y)) (Const (print_int z)) = p (y ?= z).
Proof.
  intros Hy Hz. cbn [compare_primitive]. rewrite !tonumber_int, compare_int, !tostring_int by done.
  by rewrite !bool_decide_true, !andb_true_r.
Qed.

(** The predicate an operator of the policy language is translated to
    holds of the texts of two numbers exactly when the operator holds of the
    numbers. *)
Theorem comparisons_are_numeric `{LuaIntegers} op p y z :
  0 <= y < 2 ^ 31 -> 0 <= z < 2 ^ 31 -> op ∈ boolean_operators.*1 -> boolean_operator_to_datalog_str op = Some p ->
  prim_holds p (print_int y) (print_int z) <-> operator_holds op y z.
Proof.
  intros Hy Hz Hin Hop. assert (Hb : forall (b : bool) (l : literal), (if b then [l] else []) <> [] <-> b = true) by (by intros [] ?).
  assert (Hne : print_int y = print_int z <-> y = z) by (split; [by apply print_int_inj|by intros ->]).
  unfold boolean_operators in Hin. unfold prim_holds, prim_facts, operator_holds.
  repeat (apply elem_of_cons in Hin as [-> |Hin]; [vm_compute in Hop; injection Hop as <-; cbn [l_args l_name];
    repeat match goal with |- context [bool_decide (?a = str ?s)] => let b := eval vm_compute in (bool_decide (a = str s)) in change (bool_decide (a = str s)) with b end;
    cbv iota;
    rewrite ?Hb, ?compare_holds by done|]); [| | | | | |by apply not_elem_of_nil in Hin].
  1-4: destruct (Z.compare_spec y z); naive_solver lia.
  - cbn [ne_primitive]. rewrite negb_true_iff, bool_decide_eq_false, Hne. naive_solver.
  - cbn [equals_primitive]. case_bool_decide; naive_solver.
Qed.

#[export] Program Instance int_number_integers : LuaIntegers (H := int_number) := {| of_int z := z |}.
Next Obligation. intros z Hz. cbn. by rewrite atoi_print_int, bool_decide_true. Qed.
Next Obligation. done. Qed.
Next Obligation. done. Qed.

Lemma comparisons_are_numeric_witness : prim_holds (H := int_number) (str "_ge") (print_int 10) (print_int 9).
Proof.
  apply (comparisons_are_numeric (H := int_number) (str ">=") (str "_ge") 10 9); [lia|lia| |by vm_compute|].
  - do 2 right. left.
  - do 2 right. left. split; [done|lia].
Defined.
