(* ===== verification/BouncerProps.v ===== *)
(** * Properties of access decisions

    A request is granted only if a policy of the store in force holds of the
    facts in the knowledge base; which facts those are after an entity has
    been refreshed; and the ways in which access is granted without. *)
From stdpp Require Import strings.
From S2P Require Import Prelude Hashmap Types AttributeTable Dentry AbacValue AbacRule AttributeSpace SystemFunctions PolicyStore AuditLog Lru Datalog DatalogSound KnowledgeBase KbProps Bouncer.

(** ** The facts of an entity *)
Definition fact_of (e : kb_entity) (name : bytes) (value : option bytes) : clause := insert_db_fact name (ke_uuid_str e) value.

Definition type_fact (e : kb_entity) : option clause :=
  if ke_type e =? USER_ATTRIBUTE_TYPE then Some (fact_of e (str "_isUser") None)
  else if ke_type e =? OBJECT_ATTRIBUTE_TYPE then Some (fact_of e (str "_isObject") None) else None.

Fixpoint sys_facts (e : kb_entity) (x : sys_arg) (l : list sys_func) : option (list clause) :=
  match l with
  | [] => Some []
  | f :: l' =>
      o ← system_function_run f x; cs ← sys_facts e x l';
      Some (match o with Some v => [fact_of e (sf_name f) (abac_value_stringify v)] | None => [] end ++ cs)
  end.

Fixpoint attribute_facts (e : kb_entity) (sp : attribute_space) (l : list attribute_entry) : option (list clause) :=
  match l with
  | [] => Some []
  | a :: l' =>
      o ← attribute_space_find_uuid sp (attr_uuid a);
      match o with
      | None => attribute_facts e sp l'
      | Some s =>
          name ← c_string (as_name s); val ← c_string (attr_val a); cs ← attribute_facts e sp l';
          Some (fact_of e name (Some val) :: cs)
      end
  end.

(** What the metadata of an entity says: its type, the system functions and
    the attributes the space declares. *)
Definition entity_facts (e : kb_entity) (sp : attribute_space) (m : meta) (funcs : list sys_func) : option (list clause) :=
  t ← type_fact e; s ← sys_facts e (m_sys m) funcs; a ← attribute_facts e sp (at_entries (m_table m)); Some (t :: s ++ a).

Definition assert_all (d : dl_db) (l : list clause) : dl_db := foldl (fun d c => default d (dl_assert d c)) d l.

(** ** Facts are safe, and short *)
Lemma fact_safe name e v : is_safe (fact_of e name v) = true.
Proof.
  unfold is_safe, fact_of, insert_db_fact, db_make_literal, make_literal, db_push_term. cbn [c_head l_args].
  destruct (ke_uuid_str e), v as [[|]|]; done.
Qed.

Record entity_ok (e : kb_entity) : Prop := {
  eo_str : ke_uuid_str e = nexus_hex_encode (ke_uuid e);
  eo_uuid : length (ke_uuid e) = NEXUS_UUID_SIZE
}.

Lemma length_hex b : length (nexus_hex_encode b) = (2 * length b)%nat.
Proof. unfold nexus_hex_encode. induction b as [|z b IH]; [done|]. cbn [mbind list_bind]. rewrite length_app, IH. simpl. lia. Qed.

Lemma fact_short e name v :
  entity_ok e -> Z.of_nat (length name) < 2 ^ 20 -> (forall s, v = Some s -> Z.of_nat (length s) < 2 ^ 20) -> short_fact (fact_of e name v).
Proof.
  intros [He Hu] Hn Hv. split; [done| |done]. assert (Hl : length (ke_uuid_str e) = 32%nat) by (rewrite He, length_hex, Hu; done).
  unfold fact_of, insert_db_fact, db_make_literal, make_literal, db_push_term. cbn [c_head l_args].
  destruct (ke_uuid_str e) as [|c u] eqn:Eu; [done|].
  destruct v as [[|c' s]|].
  - exists [c :: u]. split; [done|]. split; [|simpl; lia]. apply Forall_singleton. rewrite Hl. lia.
  - exists [c :: u; c' :: s]. split; [done|]. split; [|simpl; lia]. repeat constructor; [rewrite Hl; lia|by apply Hv].
  - exists [c :: u]. split; [done|]. split; [|simpl; lia]. apply Forall_singleton. rewrite Hl. lia.
Qed.

Lemma c_string_cstr b s : c_string b = Some s -> s = cstr b /\ (length s <= length b)%nat.
Proof.
  revert s; induction b as [|c b IH]; intros s Hs; [done|]. cbn in *. destruct (c =? 0); [simplify_eq; simpl; split; [done|lia]|].
  destruct (c_string b) as [s'|]; [|done]. simplify_eq/=. destruct (IH s' eq_refl) as [-> ?]. split; [done|lia].
Qed.

Lemma stringify_short v s : abac_value_stringify v = Some s -> (length s <= 9 + length (av_data v))%nat.
Proof.
  unfold abac_value_stringify. destruct (_ || _).
  - intros [= <-]. generalize (Z.to_nat (data_sz v)). generalize (av_data v). intros b n. revert b; induction n as [|n IH]; intros [|c b]; simpl; try lia.
    destruct (c =? 0); simpl; [lia|]. specialize (IH b). lia.
  - destruct (_ =? _); [|done]. intros [= <-]. rewrite length_take. lia.
Qed.

Lemma sys_value_short f x v : f ∈ system_functions -> system_function_run f x = Some (Some v) -> (length (av_data v) <= 1025)%nat.
Proof.
  assert (Hs : forall s, (length (av_data (abac_value_from_str s)) <= 1025)%nat).
  { intros s. cbn. rewrite length_app, length_take. unfold strnlen, ABAC_VALUE_MAXLEN. simpl. lia. }
  intros Hf Hr. unfold system_function_run in Hr. unfold system_functions in Hf.
  repeat (apply elem_of_cons in Hf as [->|Hf]; [cbn [sf_handler] in Hr;
    unfold handle_uname, handle_upkey, handle_opath, handle_oname, handle_osize, handle_otype, handle_odirname, with_dentry, nret, null in Hr;
    repeat first [match goal with H : (_ ≫= _) = Some _ |- _ => apply bind_Some in H as (? & ? & ?) end | progress simplify_eq/= | case_match];
    try apply Hs; simpl; lia|]).
  by apply not_elem_of_nil in Hf.
Qed.

(** ** Insertion *)
Lemma assert_fact_db k e name v :
  exists k', db_assert_fact k e name v = Some k' /\ kb_db k' = default (kb_db k) (dl_assert (kb_db k) (fact_of e name v)).
Proof.
  unfold db_assert_fact. fold (fact_of e name v). unfold dl_assert at 1 2. rewrite fact_safe. cbn [negb].
  destruct (is_prim _ _); by eexists.
Qed.

Lemma insert_sys_db k e x l k' ret :
  insert_system_functions k e x l = Some (k', ret) -> exists cs, sys_facts e x l = Some cs /\ kb_db k' = assert_all (kb_db k) cs /\ ret = 0.
Proof.
  revert k; induction l as [|f l IH]; intros k Hi; [simplify_eq/=; by exists []|]. cbn [insert_system_functions sys_facts] in *.
  apply bind_Some in Hi as (o & Ho & Hi). rewrite Ho. cbn [mbind option_bind]. destruct o as [v|].
  - destruct (assert_fact_db k e (sf_name f) (abac_value_stringify v)) as (k1 & Hk1 & Hd1). rewrite Hk1 in Hi.
    destruct (IH _ Hi) as (cs & -> & Hd & ->). eexists. split; [done|]. split; [|done]. by rewrite Hd, Hd1.
  - destruct (IH _ Hi) as (cs & -> & Hd & ->). by eexists.
Qed.

Lemma insert_attr_db k e sp l k' ret :
  insert_attributes k e sp l = Some (k', ret) -> exists cs, attribute_facts e sp l = Some cs /\ kb_db k' = assert_all (kb_db k) cs /\ ret = 0.
Proof.
  revert k; induction l as [|a l IH]; intros k Hi; [simplify_eq/=; by exists []|]. cbn [insert_attributes attribute_facts] in *.
  apply bind_Some in Hi as (o & Ho & Hi). rewrite Ho. cbn [mbind option_bind]. destruct o as [s|]; [|by apply IH].
  apply bind_Some in Hi as (name & Hn & Hi). apply bind_Some in Hi as (val & Hv & Hi). rewrite Hn, Hv. cbn [mbind option_bind].
  destruct (assert_fact_db k e name (Some val)) as (k1 & Hk1 & Hd1). rewrite Hk1 in Hi.
  destruct (IH _ Hi) as (cs & -> & Hd & ->). eexists. split; [done|]. split; [|done]. by rewrite Hd, Hd1.
Qed.

Lemma evict_db k e : kb_db (db_evict_entity false k e) = (dl_evict_entity (kb_db k) (ke_uuid_str e)).1.
Proof. unfold db_evict_entity. by destruct (dl_evict_entity _ _). Qed.

Definition up_to_date (m : meta) (e : kb_entity) : bool := negb (m_version m =? 0) && (m_version m =? ke_version e).

(** A refresh replaces the entity's facts, unless they are of this version. *)
Lemma insert_facts_db k e sp m funcs k' e' ret :
  abac_request_insert_facts k e sp m funcs = Some (k', e', ret) -> is_Some (type_fact e) ->
  ke_uuid e' = ke_uuid e /\ ke_uuid_str e' = ke_uuid_str e /\ ke_type e' = ke_type e /\ ret = 0 /\
  if up_to_date m e then k' = k
  else exists cs, entity_facts e sp m funcs = Some cs /\ ke_version e' = m_version m /\
    kb_db k' = assert_all (dl_evict_entity (kb_db k) (ke_uuid_str e)).1 cs.
Proof.
  unfold abac_request_insert_facts. fold (up_to_date m e). destruct (up_to_date m e); [intros [= <- <- <-]; done|].
  intros Hi Ht. set (k1 := db_evict_entity false k e) in *.
  assert (Hty : exists t k2, type_fact e = Some t /\ db_assert_kb_entity_type k1 e = Some k2 /\ kb_db k2 = default (kb_db k1) (dl_assert (kb_db k1) t)).
  { unfold type_fact, db_assert_kb_entity_type in *. destruct (ke_type e =? USER_ATTRIBUTE_TYPE).
    - destruct (assert_fact_db k1 e (str "_isUser") None) as (k2 & ? & ?). by eexists _, k2.
    - destruct (ke_type e =? OBJECT_ATTRIBUTE_TYPE); [|by destruct Ht].
      destruct (assert_fact_db k1 e (str "_isObject") None) as (k2 & ? & ?). by eexists _, k2. }
  destruct Hty as (t & k2 & Ht2 & Hk2 & Hd2). rewrite Hk2 in Hi.
  apply bind_Some in Hi as ([k3 r3] & H3 & Hi). destruct (insert_sys_db _ _ _ _ _ _ H3) as (cs3 & Hc3 & Hd3 & ->). cbn [negb Z.eqb] in Hi.
  apply bind_Some in Hi as ([k4 r4] & H4 & Hi). destruct (insert_attr_db _ _ _ _ _ _ H4) as (cs4 & Hc4 & Hd4 & ->). cbn [negb Z.eqb] in Hi.
  simplify_eq. split_and!; try done. exists (t :: cs3 ++ cs4). unfold entity_facts. rewrite Ht2, Hc3, Hc4. split_and!; try done.
  rewrite Hd4, Hd3. unfold assert_all. cbn [foldl]. rewrite foldl_app. unfold k1 in Hd2. rewrite evict_db in Hd2. by rewrite Hd2.
Qed.

(** *** Names *)
(** What declaring an attribute checks: the name starts with a letter and is
    not that of a permission. *)
Definition names_ok (sp : attribute_space) : Prop := Forall (fun s => name_allowed (schema_name s) = true) (sp_list sp).*2.

Definition reserved : list bytes := perm_map.*2 ++ (equals_pred :: iter_prims).*1.

Lemma name_allowed_free name : name_allowed name = true -> name ∉ reserved.
Proof.
  intros Hn Hin. assert (Hd : forallb (fun n => negb (name_allowed n)) reserved = true) by (by vm_compute).
  rewrite forallb_forall in Hd. apply list_elem_of_In in Hin. specialize (Hd _ Hin). by rewrite Hn in Hd.
Qed.

Record space_ok (sp : attribute_space) : Prop := { so_inv : sp_inv sp; so_names : names_ok sp }.

Definition meta_ok (m : meta) : Prop := exists g, at_inv (m_table m) g.

Definition good_fact (c : clause) : Prop := short_fact c /\ l_name (c_head c) ∉ reserved.

Lemma good_not_perm c : good_fact c -> ~ perm_pred (l_pred (c_head c)).
Proof. intros [_ Hn] [_ Hin]. apply Hn. apply elem_of_app. by left. Qed.

Lemma good_not_prim d c : db_wf d -> good_fact c -> is_prim d (l_pred (c_head c)) = false.
Proof.
  intros Hw [_ Hn]. apply not_true_is_false. intros Hp. apply Hn. apply elem_of_app. right. apply list_elem_of_fmap.
  exists (l_pred (c_head c)). split; [done|]. by apply Hw.
Qed.

Lemma good_fact_of e name v :
  entity_ok e -> Z.of_nat (length name) < 2 ^ 20 -> (forall s, v = Some s -> Z.of_nat (length s) < 2 ^ 20) ->
  name ∉ reserved -> good_fact (fact_of e name v).
Proof. intros He Hn Hv Hp. split; [by apply fact_short|done]. Qed.

Lemma type_fact_good e c : entity_ok e -> type_fact e = Some c -> good_fact c.
Proof.
  intros He. unfold type_fact. repeat case_match; intros [= <-]; apply good_fact_of; try done; by vm_compute; set_solver.
Qed.

Lemma sys_facts_good e x l cs : entity_ok e -> l ⊆ system_functions -> sys_facts e x l = Some cs -> Forall good_fact cs.
Proof.
  intros He. revert cs; induction l as [|f l IH]; intros cs Hl Hs; [simplify_eq/=; constructor|]. cbn [sys_facts] in Hs.
  apply bind_Some in Hs as (o & Ho & Hs). apply bind_Some in Hs as (cs' & Hcs & Hs). simplify_eq/=.
  assert (Hf : f ∈ system_functions) by (apply Hl; left). assert (Hl' : l ⊆ system_functions) by (intros y Hy; apply Hl; by right).
  specialize (IH _ Hl' Hcs). destruct o as [v|]; [|done]. cbn [app]. constructor; [|done].
  assert (Hname : (length (sf_name f) <= 32)%nat /\ sf_name f ∉ reserved).
  { unfold system_functions in Hf. repeat (apply elem_of_cons in Hf as [->|Hf]; [split; [apply Nat.leb_le; by vm_compute|by vm_compute; set_solver]|]).
    by apply not_elem_of_nil in Hf. }
  destruct Hname as [Hlen Hperm]. apply good_fact_of; [done|lia| |done]. intros s Hs.
  pose proof (stringify_short _ _ Hs). pose proof (sys_value_short _ _ _ Hf Ho). lia.
Qed.

Lemma attribute_facts_good e sp l cs :
  entity_ok e -> space_ok sp -> Forall entry_ok l -> attribute_facts e sp l = Some cs -> Forall good_fact cs.
Proof.
  intros He [Hsp Hnm] Hl. revert cs; induction Hl as [|a l (Hu & Hval & _) _ IH]; intros cs Hs; [simplify_eq/=; constructor|].
  cbn [attribute_facts] in Hs. apply bind_Some in Hs as (o & Ho & Hs). destruct o as [s|]; [|by apply IH].
  apply bind_Some in Hs as (name & Hn & Hs). apply bind_Some in Hs as (val & Hv & Hs). apply bind_Some in Hs as (cs' & Hcs & Hs). simplify_eq/=.
  constructor; [|by apply IH]. unfold attribute_space_find_uuid in Ho. pose proof (find_uuid_spec sp (attr_uuid a) Hsp Hu) as Hf.
  unfold attribute_space_find_uuid in Hf. rewrite Ho in Hf. injection Hf as Hf. symmetry in Hf. apply find_some in Hf as [Hin _].
  apply list_elem_of_In in Hin. destruct (proj1 (Forall_forall _ _) (si_schemas _ Hsp) s Hin) as (_ & _ & Hname & _).
  pose proof (name_allowed_free _ (proj1 (Forall_forall _ _) Hnm s Hin)) as Hperm. destruct (c_string_cstr _ _ Hn) as [-> Hln]. destruct (c_string_cstr _ _ Hv) as [_ Hlv].
  apply good_fact_of; [done| |intros s' [= <-]|done].
  - assert (Hl32 : length (as_name s) = ATTRIBUTE_NAME_MAX) by (rewrite Hname; apply length_strncpy_field). unfold ATTRIBUTE_NAME_MAX in Hl32. lia.
  - rewrite Hval in Hlv. unfold VALUE_LEN in Hlv. lia.
Qed.

Lemma entity_facts_good e sp m funcs cs :
  entity_ok e -> space_ok sp -> meta_ok m -> funcs ⊆ system_functions -> entity_facts e sp m funcs = Some cs -> Forall good_fact cs.
Proof.
  intros He Hsp [g Hm] Hfu Hcs. unfold entity_facts in Hcs. apply bind_Some in Hcs as (t & Ht & Hcs).
  apply bind_Some in Hcs as (s & Hs & Hcs). apply bind_Some in Hcs as (a & Ha & Hcs). simplify_eq/=.
  constructor; [by eapply type_fact_good|]. apply Forall_app. split; [by eapply sys_facts_good|].
  eapply attribute_facts_good; [done|done| |exact Ha]. by apply (at_entries_ok _ g).
Qed.

(** ** What is known afterwards *)
Lemma assert_all_inv d rules l : kb_inv d rules -> Forall good_fact l -> kb_inv (assert_all d l) rules.
Proof.
  intros Hk Hl. revert d Hk; induction Hl as [|c l Hc _ IH]; intros d Hk; [done|]. unfold assert_all. cbn [foldl]. apply IH.
  destruct (dl_assert d c) as [d'|] eqn:Ha; [|done]. eapply kb_inv_fact; [done|apply Hc|by apply good_not_perm|done].
Qed.

Lemma assert_all_has d rules l c :
  kb_inv d rules -> Forall good_fact l -> Forall (fun c => is_safe c = true) l -> good_fact c ->
  has (assert_all d l) c <-> c ∈ l \/ has d c.
Proof.
  intros Hk Hl. revert d Hk; induction Hl as [|c0 l Hc0 _ IH]; intros d Hk Hs Hc.
  { split; [by right|]. by intros [?%not_elem_of_nil|]. }
  apply Forall_cons in Hs as [Hs0 Hs]. unfold assert_all. cbn [foldl]. fold (assert_all (default d (dl_assert d c0)) l).
  assert (Ha : exists d', dl_assert d c0 = Some d').
  { unfold dl_assert. rewrite Hs0. cbn. destruct (is_prim _ _); by eexists. }
  destruct Ha as [d' Ha]. rewrite Ha. cbn [default from_option id].
  assert (Hk' : kb_inv d' rules) by (eapply kb_inv_fact; [done|apply Hc0|by apply good_not_perm|done]).
  rewrite IH by done. rewrite elem_of_cons.
  assert (Hh : has d' c <-> c = c0 \/ has d c); [|tauto]. unfold has.
  rewrite (assert_pred_db _ _ _ _ _ Ha) by (apply good_not_prim; [apply Hk|done]). split.
  - case_decide; [intros [= <-]; by left|by right].
  - intros [-> |Hh]; [by rewrite decide_True|]. case_decide as Hd; [|done]. destruct Hd as [_ Hid].
    f_equal. symmetry. by apply fact_id_inj; [apply Hc|apply Hc0|].
Qed.

Lemma contains_app s1 sub s2 : contains (s1 ++ sub ++ s2) sub = true.
Proof.
  induction s1 as [|c s1 IH]; cbn [app].
  - destruct (sub ++ s2) eqn:E; cbn [contains]; apply orb_true_iff; left; apply bool_decide_eq_true; rewrite <- E; by apply prefix_app_r.
  - cbn [contains]. apply orb_true_iff. by right.
Qed.

(** A fact about an entity carries the entity's name in its identifier. *)
Lemma fact_names_entity e name v : entity_ok e -> contains (get_clause_id (fact_of e name v)) (ke_uuid_str e) = true.
Proof.
  intros [He Hu]. assert (Hl : length (ke_uuid_str e) = 32%nat) by (rewrite He, length_hex, Hu; done).
  unfold get_clause_id, fact_of, insert_db_fact. cbn [c_head c_body fmap list_fmap concat]. rewrite app_nil_r.
  unfold get_id, db_make_literal, make_literal. cbn [l_args].
  assert (Hpush : db_push_term (ke_uuid_str e) DATALOG_CONST_TERM = [Const (ke_uuid_str e)]) by (by destruct (ke_uuid_str e)).
  rewrite Hpush. cbn [app]. rewrite fmap_cons. cbn [concat term_id]. unfold add_size at 1 3.
  match goal with |- contains (?a ++ ?b ++ (?p ++ (?n ++ ?s ++ ?c ++ ?u) ++ ?r)) _ = true =>
    replace (a ++ b ++ (p ++ (n ++ s ++ c ++ u) ++ r)) with ((a ++ b ++ p ++ n ++ s ++ c) ++ u ++ r) by (by rewrite <- !app_assoc) end.
  apply contains_app.
Qed.

Lemma entity_facts_safe e sp m funcs cs : entity_facts e sp m funcs = Some cs -> Forall (fun c => is_safe c = true) cs.
Proof.
  intros Hcs. unfold entity_facts in Hcs. apply bind_Some in Hcs as (t & Ht & Hcs).
  apply bind_Some in Hcs as (s & Hs & Hcs). apply bind_Some in Hcs as (a & Ha & Hcs). simplify_eq/=.
  constructor; [unfold type_fact in Ht; repeat case_match; simplify_eq; apply fact_safe|]. apply Forall_app. split.
  - clear Ht Ha. revert s Hs; induction funcs as [|f l IH]; intros s Hs; [simplify_eq/=; constructor|]. cbn [sys_facts] in Hs.
    apply bind_Some in Hs as (o & Ho & Hs). apply bind_Some in Hs as (cs' & Hcs & Hs). simplify_eq/=.
    destruct o; [constructor; [apply fact_safe|]|]; by apply IH.
  - clear Ht Hs. revert a Ha; induction (at_entries (m_table m)) as [|x l IH]; intros a Ha; [simplify_eq/=; constructor|].
    cbn [attribute_facts] in Ha. apply bind_Some in Ha as (o & Ho & Ha). destruct o as [s'|]; [|by apply IH].
    apply bind_Some in Ha as (? & _ & Ha). apply bind_Some in Ha as (? & _ & Ha). apply bind_Some in Ha as (? & Hcs & Ha). simplify_eq/=.
    constructor; [apply fact_safe|by apply IH].
Qed.

Lemma evict_has d rules e c :
  kb_inv d rules -> has (dl_evict_entity d (ke_uuid_str e)).1 c <->
    has d c /\ (is_rule (get_clause_id c) = true \/ contains (get_clause_id c) (ke_uuid_str e) = false).
Proof.
  intros Hk. unfold has. rewrite evict_pred_db by apply Hk. destruct (is_rule (get_clause_id c)) eqn:Hr, (contains (get_clause_id c) (ke_uuid_str e)) eqn:Hc;
    cbn [negb andb]; naive_solver.
Qed.

Lemma insert_facts_inv k rules e sp m funcs k' e' ret :
  kb_inv (kb_db k) rules -> entity_ok e -> is_Some (type_fact e) -> space_ok sp -> meta_ok m -> funcs ⊆ system_functions ->
  abac_request_insert_facts k e sp m funcs = Some (k', e', ret) ->
  kb_inv (kb_db k') rules /\ entity_ok e' /\ ke_uuid e' = ke_uuid e /\ is_Some (type_fact e') /\ ret = 0.
Proof.
  intros Hk He Ht Hsp Hm Hf Hi. destruct (insert_facts_db _ _ _ _ _ _ _ _ Hi Ht) as (Hu & Hs & Hty & -> & Hd).
  assert (He' : entity_ok e') by (destruct He as [H1 H2]; split; [by rewrite Hs, Hu|by rewrite Hu]).
  assert (Ht' : is_Some (type_fact e')) by (unfold type_fact in *; rewrite Hty; repeat case_match; done).
  split_and!; try done. destruct (up_to_date m e); [by subst|]. destruct Hd as (cs & Hcs & _ & ->).
  apply assert_all_inv; [by apply kb_inv_evict|by apply (entity_facts_good e sp m funcs)].
Qed.

Lemma funcs_sub type : system_function_export_sysfuncs type ⊆ system_functions.
Proof. intros f Hf. by apply list_elem_of_filter in Hf as [_ Hf]. Qed.

(** ** The policies in force *)
Lemma policy_clause_safe r c : policy_rule_to_db r = Some (Some c) -> is_safe c = true.
Proof.
  intros Hc. destruct (policy_clause_head _ _ Hc) as (p & _ & Hh & body & _ & Hb). apply is_safe_spec. rewrite Hh, Hb. cbn [l_args].
  intros v Hv. apply elem_of_cons in Hv as [[= ->]|Hv]; [exists (type_literal (str "_isUser") (str "U")); split; [left|by left]|].
  apply list_elem_of_singleton in Hv as [= ->]. exists (type_literal (str "_isObject") (str "O")). split; [right; left|by left].
Qed.

Definition translatable (r : policy_rule) : Prop := exists c, policy_rule_to_db r = Some (Some c).

Lemma assert_policies_inv l k rules :
  kb_inv (kb_db k) rules -> l ⊆ rules -> Forall translatable l ->
  exists k', assert_policy_rules k l = Some (k', 0) /\ kb_inv (kb_db k') rules.
Proof.
  revert k; induction l as [|r l IH]; intros k Hk Hs Ht; [by exists k|]. apply Forall_cons in Ht as [[c Hc] Ht].
  cbn [assert_policy_rules]. unfold db_assert_policy_rule. rewrite Hc. cbn [nbind].
  destruct (dl_assert (kb_db k) c) as [d|] eqn:Ha.
  - cbn [mbind option_bind nret]. apply IH; [|set_solver|done]. cbn [kb_db]. eapply kb_inv_policy; [done| |done|done]. apply Hs. left.
  - exfalso. unfold dl_assert in Ha. rewrite (policy_clause_safe _ _ Hc) in Ha. cbn in Ha. by destruct (is_prim _ _).
Qed.

(** [store_at v] is the content of the policy store at version [v]. *)
Section bouncer.
Variable store_at : Z -> list policy_rule.
Hypothesis store_ok : forall v, Forall translatable (store_at v).

Definition store_matches (p : policy_store * Z) : Prop := pst_rules p.1 = store_at p.2.

Record cache_ok (b : bouncer) (l : list (uuid * Z)) : Prop := {
  ca_repr : lru_repr (b_cache b) l;
  ca_addrs : NoDup l.*2;
  ca_heap : Forall (fun p => exists e, b_heap b !! p.2 = Some e /\ ke_uuid e = p.1 /\ entity_ok e /\ is_Some (type_fact e)) l;
  ca_next : Forall (fun p => p.2 < b_next b) l;
  ca_keys : Forall (fun p => length p.1 = NEXUS_UUID_SIZE) l
}.

(** The policies in the knowledge base are those of the version recorded. *)
Record b_inv (b : bouncer) : Prop := {
  bi_kb : kb_inv (kb_db (b_kb b)) (store_at (b_policy_version b));
  bi_user : entity_ok (b_user b) /\ is_Some (type_fact (b_user b));
  bi_cache : exists l, cache_ok b l;
  bi_policy : match b_policy b with Some p => store_matches p | None => True end
}.

(** What the metadata layer delivers is well formed. *)
Record env_ok (env : request_env) : Prop := {
  en_load : match re_load env with Some p => store_matches p | None => True end;
  en_space : match re_space env with Some sp => space_ok sp | None => True end;
  en_profile : match re_profile env with Some m => meta_ok m | None => True end
}.

Lemma update_policy_inv b ps v b' ret :
  b_inv b -> store_matches (ps, v) -> bouncer_update_policy_store false b ps v = Some (b', ret) -> b_inv b' /\ ret = 0 /\ b_policy_version b' = v.
Proof.
  intros [Hk Hu Hc Hp] Hm Hup. unfold bouncer_update_policy_store in Hup.
  destruct (Z.eqb_spec (b_policy_version b) v) as [Hv|Hv]; [simplify_eq; split; [by split|done]|].
  unfold store_matches in Hm. cbn [fst snd] in Hm. rewrite Hm in Hup.
  destruct (assert_policies_inv (store_at v) (db_clear_rules false (b_kb b)) (store_at v)) as (k' & Hk' & Hki).
  - cbn [db_clear_rules kb_db]. eapply kb_inv_mono; [by eapply kb_inv_clear|]. set_solver.
  - done.
  - done.
  - rewrite Hk' in Hup. cbn [mbind option_bind negb Z.eqb] in Hup. simplify_eq. split; [|done].
    split; cbn [with_policy_version with_kb b_kb b_policy_version b_user b_policy]; try done.
    destruct Hc as [l [? ? ? ? ?]]. exists l. by split.
Qed.

Lemma refresh_inv b env b' ps :
  b_inv b -> env_ok env -> abac_refresh_bouncer_policy_store false b (re_changed env) (re_load env) = Some (b', ps) -> b_inv b'.
Proof.
  intros Hb He Hr. pose proof (bi_policy _ Hb) as Hp. pose proof (en_load _ He) as Hl. unfold abac_refresh_bouncer_policy_store in Hr.
  assert (Hload : forall old : option (policy_store * Z),
    (match re_load env with None => Some (b, None) | Some (ps, v) => _ ← old; '(b, ret) ← bouncer_update_policy_store false b ps v;
      if negb (ret =? 0) then Some (b, None) else Some (with_policy b (Some (ps, v)), Some ps) end = Some (b', ps)) -> b_inv b').
  { clear Hr. intros old Hr. destruct (re_load env) as [[ps' v]|]; [|simplify_eq; done].
    apply bind_Some in Hr as (_ & _ & Hr). apply bind_Some in Hr as ([b1 ret] & Hup & Hr).
    destruct (update_policy_inv _ _ _ _ _ Hb Hl Hup) as (Hb1 & -> & _). cbn [negb Z.eqb] in Hr. simplify_eq.
    destruct Hb1 as [? ? [l [? ? ? ? ?]] ?]. split; try done. exists l. by split. }
  destruct (b_policy b) as [[ps' v]|]; [|by apply (Hload None)]. destruct (re_changed env); [by apply (Hload (Some (ps', v)))|].
  apply bind_Some in Hr as ([b1 ret] & Hup & Hr). destruct (update_policy_inv _ _ _ _ _ Hb Hp Hup) as (Hb1 & -> & _). by simplify_eq/=.
Qed.

(** ** Cached entities *)
Lemma evict_all_spec l b rules :
  kb_inv (kb_db (b_kb b)) rules -> NoDup l.*2 -> Forall (fun p => is_Some (b_heap b !! p.2)) l ->
  exists k h, evict_all b l = Some (with_cache (with_kb b k) (b_cache b) h (b_next b)) /\ kb_inv (kb_db k) rules /\
    forall a, a ∉ l.*2 -> h !! a = b_heap b !! a.
Proof.
  revert b; induction l as [|p l IH]; intros b Hk Hnd Hl.
  { exists (b_kb b), (b_heap b). by destruct b. }
  rewrite fmap_cons in Hnd. apply NoDup_cons in Hnd as [Hp Hnd]. apply Forall_cons in Hl as [[e He] Hl]. cbn [evict_all]. unfold evict_obj_entity at 1. rewrite He.
  cbn [mbind option_bind].
  destruct (IH (with_cache (with_kb b (db_evict_entity false (b_kb b) e)) (b_cache b) (delete p.2 (b_heap b)) (b_next b))) as (k & h & -> & Hk' & Hh).
  - cbn [with_cache with_kb b_kb]. rewrite evict_db. by apply kb_inv_evict.
  - done.
  - apply Forall_forall. intros q Hq. cbn [with_cache b_heap]. rewrite lookup_delete_ne; [by apply (proj1 (Forall_forall _ _) Hl)|].
    intros Heq. apply Hp. rewrite Heq. by apply list_elem_of_fmap_2.
  - exists k, h. split; [done|]. split; [done|]. intros a Ha. rewrite fmap_cons, elem_of_cons in Ha. rewrite Hh by tauto.
    cbn [with_cache b_heap]. apply lookup_delete_ne. intros Heq. apply Ha. left. by rewrite Heq.
Qed.

Definition heap_entity (h : gmap Z kb_entity) (u : uuid) (a : Z) : Prop :=
  exists e, h !! a = Some e /\ ke_uuid e = u /\ entity_ok e /\ is_Some (type_fact e).

Lemma with_cache_ok b c h next l :
  b_inv b -> lru_repr c l -> NoDup l.*2 -> Forall (fun p => heap_entity h p.1 p.2 /\ p.2 < next /\ length p.1 = NEXUS_UUID_SIZE) l ->
  b_inv (with_cache b c h next).
Proof.
  intros [Hk Hu _ Hp] Hr Hnd Hl. split; try done. exists l.
  split; [done|done| | |]; eapply Forall_impl; try exact Hl; by intros p (? & ? & ?).
Qed.

Lemma cache_contents b l : cache_ok b l -> Forall (fun p => heap_entity (b_heap b) p.1 p.2 /\ p.2 < b_next b /\ length p.1 = NEXUS_UUID_SIZE) l.
Proof.
  intros [_ _ Hh Hn Hk]. apply Forall_forall. intros p Hp. rewrite Forall_forall in Hh, Hn, Hk. split_and!; [by apply Hh|by apply Hn|by apply Hk].
Qed.

Lemma cached_elem (l : list (uuid * Z)) u a : cached l u = Some a -> (u, a) ∈ l.
Proof. apply elem_of_list_to_map_2. Qed.

Lemma front_contents (P : uuid * Z -> Prop) l u a :
  cached l u = Some a -> NoDup l.*1 -> NoDup l.*2 -> Forall P l -> NoDup ((u, a) :: others u l).*2 /\ Forall P ((u, a) :: others u l).
Proof.
  intros Hc Hk Hnd Hl. apply cached_elem in Hc. split.
  - cbn [fmap list_fmap snd]. apply NoDup_cons. split.
    + intros (q & Hq & Hin)%list_elem_of_fmap. apply list_elem_of_filter in Hin as [Hne Hin]. destruct q as [u' a']. cbn [fst snd] in *. subst a'.
      apply Hne. apply list_elem_of_lookup in Hc as [i Hi], Hin as [j Hj].
      assert (i = j); [|congruence]. eapply (NoDup_lookup l.*2); [done| |]; rewrite list_lookup_fmap; [by rewrite Hi|by rewrite Hj].
    + eapply sublist_NoDup; [exact Hnd|]. apply fmap_sublist, sublist_filter.
  - constructor; [by eapply (proj1 (Forall_forall _ _) Hl)|]. eapply Forall_forall. intros q [_ Hq]%list_elem_of_filter. by eapply (proj1 (Forall_forall _ _) Hl).
Qed.

Lemma get_keeps b u c o :
  b_inv b -> nexus_lru_get (b_cache b) u = Some (c, o) -> b_inv (with_cache b c (b_heap b) (b_next b)) /\
    match o with Some a => heap_entity (b_heap b) u a | None => forall l, cache_ok b l -> cached l u = None /\ c = b_cache b end.
Proof.
  intros Hb Hg. destruct (bi_cache _ Hb) as [l Hl]. pose proof (cache_contents _ _ Hl) as Hc.
  destruct (get_spec _ _ u (ca_repr _ _ Hl)) as (c' & Hg' & _ & Hr). rewrite Hg in Hg'. injection Hg' as <- ->. cbn [cache_step] in Hr.
  destruct (cached l u) as [a|] eqn:Ha; cbn [fst] in Hr.
  - destruct (front_contents _ l u a Ha (lr_keys _ _ (ca_repr _ _ Hl)) (ca_addrs _ _ Hl) Hc) as [Hnd Hf]. split; [by eapply with_cache_ok|].
    apply Forall_cons in Hf as [[Hf _] _]. exact Hf.
  - split; [eapply with_cache_ok; [done|done|apply Hl|done]|]. intros l' Hl'.
    destruct (get_spec _ _ u (ca_repr _ _ Hl')) as (c' & Hg' & _). rewrite Hg in Hg'. injection Hg' as <- <-. split; [done|].
    unfold nexus_lru_get in Hg. pose proof (repr_find _ _ u (ca_repr _ _ Hl)) as Hf. destruct (lru_htable _ !! u); [|by simplify_eq].
    destruct Hf as (? & ? & _ & _ & Hn & ?). congruence.
Qed.

Lemma new_entity_ok u : length u = NEXUS_UUID_SIZE -> entity_ok (kb_entity_new u OBJECT_ATTRIBUTE_TYPE).
Proof. by split. Qed.

Lemma take_contents (P : uuid * Z -> Prop) l n : Forall P l -> NoDup l.*2 -> Forall P (take n l) /\ NoDup (take n l).*2.
Proof. intros Hl Hnd. split; [by apply Forall_take|]. eapply sublist_NoDup; [exact Hnd|]. apply fmap_sublist, sublist_take. Qed.

Lemma take_drop_disjoint (l : list (uuid * Z)) n p : NoDup l.*2 -> p ∈ take n l -> p.2 ∉ (drop n l).*2.
Proof.
  intros Hnd Hp Hin. rewrite <- (take_drop n l), fmap_app in Hnd. apply NoDup_app in Hnd as (_ & Hd & _).
  apply (Hd p.2); [by apply list_elem_of_fmap_2|done].
Qed.

Lemma cache_obj_inv b u b' a :
  b_inv b -> length u = NEXUS_UUID_SIZE -> cache_obj_entity b u = Some (b', a) ->
  b_inv b' /\ heap_entity (b_heap b') u a /\ b_policy_version b' = b_policy_version b /\ b_user b' = b_user b.
Proof.
  intros Hb Hu Hc. unfold cache_obj_entity in Hc. apply bind_Some in Hc as ([c o] & Hg & Hc).
  destruct (get_keeps _ _ _ _ Hb Hg) as [Hb1 Ho]. destruct o as [a1|]; [by simplify_eq|].
  destruct (bi_cache _ Hb) as [l Hl]. destruct (Ho l Hl) as [Hnone ->]. clear Ho Hb1 Hg.
  pose proof (cache_contents _ _ Hl) as Hcon. apply bind_Some in Hc as ([c freed] & Hp & Hc). apply bind_Some in Hc as (b1 & Hev & Hc). simplify_eq.
  destruct (put_spec _ _ u (b_next b) (ca_repr _ _ Hl)) as (c' & Hp' & _ & Hr). rewrite Hp in Hp'. cbn [cache_step] in Hp', Hr. rewrite Hnone in Hp', Hr.
  cbn [fst snd] in Hp', Hr. injection Hp' as <- ->. set (n := (Z.to_nat (lru_capacity (b_cache b)) - 1)%nat) in *.
  set (h1 := <[b_next b := kb_entity_new u OBJECT_ATTRIBUTE_TYPE]> (b_heap b)) in *.
  assert (Hfresh : Forall (fun p => b_next b <> p.2) l) by (eapply Forall_impl; [exact Hcon|]; intros p (_ & ? & _); lia).
  destruct (evict_all_spec (drop n l) (with_cache b c h1 (b_next b + 1)) (store_at (b_policy_version b))) as (k & h & He & Hk & Hh).
  { apply Hb. }
  { eapply sublist_NoDup; [apply (ca_addrs _ _ Hl)|]. apply fmap_sublist, sublist_drop. }
  { apply Forall_drop. eapply Forall_impl; [exact (proj2 (Forall_and _ _) (conj Hcon Hfresh))|]. intros p [((e & He & _) & _) Hne]. cbn [with_cache b_heap]. unfold h1.
    rewrite lookup_insert_ne by done. by rewrite He. }
  rewrite He in Hev. injection Hev as <-. cbn [with_cache b_heap b_cache b_next] in *.
  destruct (take_contents _ l n (proj2 (Forall_and _ _) (conj Hcon Hfresh)) (ca_addrs _ _ Hl)) as [Hct Hndt].
  assert (Hnew : h !! b_next b = Some (kb_entity_new u OBJECT_ATTRIBUTE_TYPE)).
  { rewrite Hh; [apply lookup_insert_eq|]. intros (p & Hq & Hin)%list_elem_of_fmap. 
    apply (proj1 (Forall_forall _ _) (Forall_drop _ n _ Hfresh) p Hin). by rewrite Hq. }
  assert (Hhe : heap_entity h u (b_next b)) by (eexists; split; [exact Hnew|]; split; [done|]; split; [by apply new_entity_ok|done]).
  split; [|done]. apply (with_cache_ok (with_kb b k) c h _ ((u, b_next b) :: take n l)).
  - destruct Hb as [_ H2 [l0 [? ? ? ? ?]] H4]. split; try done. exists l0. by split.
  - done.
  - cbn [fmap list_fmap snd]. apply NoDup_cons. split; [|done]. intros (p & Hq & Hin)%list_elem_of_fmap.
    destruct (proj1 (Forall_forall _ _) Hct p Hin) as [_ Hne]. by apply Hne.
  - constructor; [cbn [fst snd]; split_and!; [done|lia|done]|]. apply Forall_forall. intros p Hpt.
    destruct (proj1 (Forall_forall _ _) Hct p Hpt) as [((e & Hpe & Hrest) & Hlt & Hlen) Hne]. split_and!; [|lia|done].
    exists e. split; [|done]. rewrite Hh by (by apply take_drop_disjoint; [apply Hl|]). unfold h1. by rewrite lookup_insert_ne.
Qed.

Lemma create_request_inv env b m b' req :
  b_inv b -> env_ok env -> re_owner env = false -> length (m_uuid m) = NEXUS_UUID_SIZE ->
  create_abac_request env b (Some m) = Some (b', req) ->
  b_inv b' /\ match req with
              | Some (sp, profile, Some a) => heap_entity (b_heap b') (m_uuid m) a /\ space_ok sp /\ meta_ok profile
              | Some (_, _, None) => False
              | None => True
              end.
Proof.
  intros Hb He Hown Hu Hc. unfold create_abac_request in Hc. rewrite Hown in Hc. apply bind_Some in Hc as ([b1 ps] & Hr & Hc).
  pose proof (refresh_inv _ _ _ _ Hb He Hr) as Hb1. destruct He as [_ Hsp Hpr].
  destruct ps as [ps|]; [|simplify_eq; done]. destruct (re_space env) as [sp|]; [|simplify_eq; done].
  destruct (re_profile env) as [pr|]; [|simplify_eq; done]. apply bind_Some in Hc as ([b2 a] & Hco & Hc). simplify_eq.
  destruct (cache_obj_inv _ _ _ _ Hb1 Hu Hco) as (? & ? & _). done.
Qed.

Lemma with_user_inv b k e :
  b_inv b -> kb_inv (kb_db k) (store_at (b_policy_version b)) -> entity_ok e -> is_Some (type_fact e) -> b_inv (with_user (with_kb b k) e).
Proof. intros [_ _ [l [? ? ? ? ?]] H4] Hk He Ht. split; try done. exists l. by split. Qed.

Lemma with_obj_inv b k a e u :
  b_inv b -> kb_inv (kb_db k) (store_at (b_policy_version b)) -> heap_entity (b_heap b) u a ->
  entity_ok e -> ke_uuid e = u -> is_Some (type_fact e) ->
  b_inv (with_cache (with_kb b k) (b_cache b) (<[a := e]> (b_heap b)) (b_next b)).
Proof.
  intros Hb Hk (e0 & He0 & Hu0 & _) He Hu Ht. destruct (bi_cache _ Hb) as [l Hl]. eapply with_cache_ok.
  - destruct Hb as [_ H2 H3 H4]. split; [exact Hk|done| |done]. destruct H3 as [l0 [? ? ? ? ?]]. exists l0. by split.
  - apply Hl.
  - apply Hl.
  - eapply Forall_impl; [by apply cache_contents|]. intros p ((e1 & He1 & Hu1 & Hrest) & Hlt & Hlen). split_and!; try done.
    destruct (decide (p.2 = a)) as [<-|Hne].
    + exists e. rewrite lookup_insert_eq. split_and!; try done. congruence.
    + exists e1. rewrite lookup_insert_ne by done. done.
Qed.

Lemma heap_entity_get h u a e : heap_entity h u a -> h !! a = Some e -> ke_uuid e = u /\ entity_ok e /\ is_Some (type_fact e).
Proof. intros (e0 & He0 & ? & ? & ?) He. by simplify_eq. Qed.

(** The facts of the user and of the object are in the knowledge base when
    the engine is asked. *)
Definition request_facts (env : request_env) (b : bouncer) (m : meta) (b' : bouncer) (oe : kb_entity) : Prop :=
  exists b1 sp profile a k1 ue e k2,
    create_abac_request env b (Some m) = Some (b1, Some (sp, profile, Some a)) /\
    abac_request_insert_facts (b_kb b1) (b_user b1) sp profile (system_function_export_sysfuncs USER_FUNCTION) = Some (k1, ue, 0) /\
    b_heap b1 !! a = Some e /\
    abac_request_insert_facts k1 e sp m (system_function_export_sysfuncs OBJECT_FUNCTION) = Some (k2, oe, 0) /\
    b' = with_cache (with_kb (with_user (with_kb b1 k1) ue) k2) (b_cache b1) (<[a := oe]> (b_heap b1)) (b_next b1).

Lemma request_facts_inv env b m b' oe :
  b_inv b -> env_ok env -> re_owner env = false -> meta_ok m -> length (m_uuid m) = NEXUS_UUID_SIZE ->
  request_facts env b m b' oe -> b_inv b' /\ ke_uuid_str oe = nexus_hex_encode (m_uuid m).
Proof.
  intros Hb He Hown Hm Hu (b1 & sp & profile & a & k1 & ue & e & k2 & Hc & H1 & Hh & H2 & ->).
  destruct (create_request_inv _ _ _ _ _ Hb He Hown Hu Hc) as (Hb1 & Hhe & Hsp & Hpr).
  destruct (bi_user _ Hb1) as [Huo Hut]. destruct (insert_facts_inv _ _ _ _ _ _ _ _ _ (bi_kb _ Hb1) Huo Hut Hsp Hpr (funcs_sub _) H1) as (Hk1 & Huo1 & _ & Hut1 & _).
  destruct (heap_entity_get _ _ _ _ Hhe Hh) as (Heu & Heo & Het).
  destruct (insert_facts_inv _ _ _ _ _ _ _ _ _ Hk1 Heo Het Hsp Hm (funcs_sub _) H2) as (Hk2 & Heo2 & Heu2 & Het2 & _).
  split; [|by rewrite (eo_str _ Heo2), Heu2, Heu].
  apply (with_obj_inv (with_user (with_kb b1 k1) ue) k2 a oe (m_uuid m)); [by apply with_user_inv|done|done|done|congruence|done].
Qed.

Lemma insert_facts_ok k rules e sp m funcs k' e' ret :
  kb_inv (kb_db k) rules -> entity_ok e -> is_Some (type_fact e) -> space_ok sp -> meta_ok m -> funcs ⊆ system_functions ->
  abac_request_insert_facts k e sp m funcs = Some (k', e', ret) -> ret = 0.
Proof. intros. by eapply insert_facts_inv. Qed.

Section check.
Context `{LuaNumber}.

(** Past the owner's short cut, a check fails to make its request, or asks the
    engine with the facts in place. *)
Lemma access_check_cases n env b m perm b' r log :
  b_inv b -> env_ok env -> re_owner env = false -> meta_ok m -> length (m_uuid m) = NEXUS_UUID_SIZE ->
  bouncer_access_check n env b m perm = Some (b', r, log) ->
  (create_abac_request env b (Some m) = Some (b', None) /\ r = true) \/
  exists oe, request_facts env b m b' oe /\ (r = true -> db_ask_permission n 0 (b_kb b') perm (b_user b') oe = Some true).
Proof.
  intros Hb He Hown Hm Hu Hac. unfold bouncer_access_check in Hac. rewrite Hown in Hac. apply bind_Some in Hac as ([b1 req] & Hc & Hac).
  destruct req as [[[sp profile] [a|]]|]; [|done|left; by simplify_eq]. right.
  destruct (create_request_inv _ _ _ _ _ Hb He Hown Hu Hc) as (Hb1 & Hhe & Hsp & Hpr).
  destruct (bi_user _ Hb1) as [Huo Hut]. apply bind_Some in Hac as ([[k1 ue] r1] & H1 & Hac).
  destruct (insert_facts_inv _ _ _ _ _ _ _ _ _ (bi_kb _ Hb1) Huo Hut Hsp Hpr (funcs_sub _) H1) as (Hk1 & _ & _ & _ & ->). cbn [negb Z.eqb] in Hac.
  cbn [with_user with_kb b_heap b_kb] in Hac. apply bind_Some in Hac as (e & Hh & Hac).
  destruct (heap_entity_get _ _ _ _ Hhe Hh) as (Heu & Heo & Het). apply bind_Some in Hac as ([[k2 oe] r2] & H2 & Hac).
  pose proof (insert_facts_ok _ _ _ _ _ _ _ _ _ Hk1 Heo Het Hsp Hm (funcs_sub _) H2) as ->. cbn [negb Z.eqb] in Hac.
  apply bind_Some in Hac as (g & Hg & Hac). exists oe. split.
  - exists b1, sp, profile, a, k1, ue, e, k2. split_and!; try done. destruct g; cbn [negb] in Hac; [|by simplify_eq].
    apply bind_Some in Hac as ([r3 log3] & _ & Hac). by simplify_eq.
  - destruct g; cbn [negb] in Hac; [|by simplify_eq]. apply bind_Some in Hac as ([r3 log3] & _ & Hac). by simplify_eq.
Qed.

Lemma access_check_inv n env b m perm b' r log :
  b_inv b -> env_ok env -> meta_ok m -> length (m_uuid m) = NEXUS_UUID_SIZE ->
  bouncer_access_check n env b m perm = Some (b', r, log) -> b_inv b'.
Proof.
  intros Hb He Hm Hu Hac. destruct (re_owner env) eqn:Hown.
  - unfold bouncer_access_check in Hac. rewrite Hown in Hac. by simplify_eq.
  - destruct (access_check_cases _ _ _ _ _ _ _ _ Hb He Hown Hm Hu Hac) as [[Hc _]|(oe & Hrf & _)].
    + by destruct (create_request_inv _ _ _ _ _ Hb He Hown Hu Hc).
    + by destruct (request_facts_inv _ _ _ _ _ Hb He Hown Hm Hu Hrf).
Qed.
End check.

Lemma remove_inv owner b u b' : b_inv b -> bounce_remove_from_kb owner b u = Some b' -> b_inv b'.
Proof.
  intros Hb Hr. unfold bounce_remove_from_kb in Hr. apply bind_Some in Hr as ([c o] & Hg & Hr).
  destruct (get_keeps _ _ _ _ Hb Hg) as [Hb1 _]. destruct o as [a|]; [|by simplify_eq].
  apply bind_Some in Hr as (e & He & Hr). simplify_eq. pose proof Hb1 as [Hk Hu [l [? ? ? ? ?]] Hp]. split; try done.
  - cbn [with_kb b_kb]. unfold db_evict_entity. destruct owner; [done|]. destruct (dl_evict_entity _ _) as [d cnt] eqn:Hev. cbn [kb_db].
    change d with (d, cnt).1. rewrite <- Hev. by apply kb_inv_evict.
  - exists l. by split.
Qed.

Lemma init_inv env u v policy b :
  env_ok env -> re_owner env = false -> length u = NEXUS_UUID_SIZE -> (match policy with Some p => store_matches p | None => True end) ->
  bouncer_init env u v policy = Some (Some b) -> b_inv b.
Proof.
  intros He Hown Hu Hp Hi. unfold bouncer_init in Hi. apply bind_Some in Hi as ([b1 req] & Hc & Hi).
  unfold create_abac_request in Hc. rewrite Hown in Hc. apply bind_Some in Hc as ([b2 ps] & Hr & Hc).
  assert (Hb2 : b_inv b2).
  { eapply refresh_inv; [|exact He|exact Hr]. split; [eapply kb_inv_mono; [apply kb_inv_open|set_solver]|by repeat split| |done].
    exists []. split; [by apply create_spec|apply NoDup_nil_2|by constructor..]. }
  destruct He as [_ Hsp Hpr]. destruct ps as [ps|]; [|by simplify_eq]. destruct (re_space env) as [sp|]; [|by simplify_eq].
  destruct (re_profile env) as [pr|]; [|by simplify_eq]. simplify_eq. apply bind_Some in Hi as ([[k1 ue] r1] & H1 & Hi).
  destruct (bi_user _ Hb2) as [Huo Hut].
  destruct (insert_facts_inv _ _ _ _ _ _ _ _ _ (bi_kb _ Hb2) Huo Hut Hsp Hpr (funcs_sub _) H1) as (Hk1 & Huo1 & _ & Hut1 & ->).
  simplify_eq/=. by apply with_user_inv.
Qed.

(** ** Sessions *)
Lemma refresh_total b changed load ps0 :
  b_inv b -> b_policy b = Some ps0 -> (match load with Some p => store_matches p | None => True end) ->
  exists b' ps, abac_refresh_bouncer_policy_store false b changed load = Some (b', ps).
Proof.
  intros Hb Hp Hl. pose proof (bi_policy _ Hb) as Hm. rewrite Hp in Hm. unfold abac_refresh_bouncer_policy_store. rewrite Hp. destruct ps0 as [ps0 v0].
  assert (Hup : forall ps v, store_matches (ps, v) -> exists b', bouncer_update_policy_store false b ps v = Some (b', 0)).
  { intros ps v Hs. unfold bouncer_update_policy_store. destruct (_ =? _); [by eexists|]. unfold store_matches in Hs. cbn [fst snd] in Hs. rewrite Hs.
    destruct (assert_policies_inv (store_at v) (db_clear_rules false (b_kb b)) (store_at v)) as (k' & -> & _); [|done|done|by eexists].
    eapply kb_inv_mono; [by eapply kb_inv_clear, Hb|set_solver]. }
  destruct changed.
  - destruct load as [[ps v]|]; [|by eexists _, _]. destruct (Hup ps v Hl) as [b' ->]. by eexists _, _.
  - destruct (Hup ps0 v0 Hm) as [b' ->]. by eexists _, _.
Qed.

Section session.
Context `{LuaNumber}.

(** The states of a session of a user who is not the owner: it starts with
    [bouncer_init], checks accesses and drops objects. *)
Inductive reachable (user : uuid) : bouncer -> Prop :=
| reach_init env v policy b :
    env_ok env -> re_owner env = false -> length user = NEXUS_UUID_SIZE ->
    (match policy with Some p => store_matches p | None => True end) ->
    bouncer_init env user v policy = Some (Some b) -> reachable user b
| reach_check n env b m perm b' r log :
    reachable user b -> env_ok env -> re_owner env = false -> meta_ok m -> length (m_uuid m) = NEXUS_UUID_SIZE ->
    bouncer_access_check n env b m perm = Some (b', r, log) -> reachable user b'
| reach_remove b u b' : reachable user b -> bounce_remove_from_kb false b u = Some b' -> reachable user b'.

Lemma evict_all_user l b b' : evict_all b l = Some b' -> b_user b' = b_user b.
Proof.
  revert b; induction l as [|p l IH]; intros b He; [by simplify_eq/=|]. cbn [evict_all] in He. apply bind_Some in He as (b1 & H1 & He).
  rewrite (IH _ He). unfold evict_obj_entity in H1. apply bind_Some in H1 as (e & _ & H1). by simplify_eq.
Qed.

Lemma create_request_user env b obj b' req : create_abac_request env b obj = Some (b', req) -> b_user b' = b_user b.
Proof.
  intros Hc. unfold create_abac_request, abac_refresh_bouncer_policy_store, bouncer_update_policy_store, cache_obj_entity in Hc.
  repeat first [match goal with H : (_ ≫= _) = Some _ |- _ => apply bind_Some in H as (? & ? & ?)
    | H : evict_all _ _ = Some _ |- _ => apply evict_all_user in H as -> end | progress simplify_eq/= | case_match]; done.
Qed.

Lemma reachable_inv user b : reachable user b -> b_inv b /\ ke_uuid (b_user b) = user.
Proof.
  induction 1 as [env v policy b He Hown Hu Hp Hi|n env b m perm b' r log _ [Hb Hus] He Hown Hm Hu Hac|b u b' _ [Hb Hus] Hr].
  - split; [by eapply init_inv|]. unfold bouncer_init in Hi. apply bind_Some in Hi as ([b1 req] & Hc & Hi).
    apply create_request_user in Hc. destruct req as [[[sp profile] a]|]; [|done]. apply bind_Some in Hi as ([[k1 ue] r1] & H1 & Hi).
    destruct (insert_facts_db _ _ _ _ _ _ _ _ H1) as (Hue & _); [by rewrite Hc|]. destruct (negb _); [done|]. simplify_eq/=. by rewrite Hue, Hc.
  - split; [by eapply access_check_inv|].
    destruct (access_check_cases _ _ _ _ _ _ _ _ Hb He Hown Hm Hu Hac) as [[Hc _]|(oe & (b1 & sp & profile & a & k1 & ue & e & k2 & Hc & H1 & _ & _ & ->) & _)].
    + by rewrite (create_request_user _ _ _ _ _ Hc).
    + cbn [with_cache with_kb with_user b_user]. apply create_request_user in Hc.
      destruct (insert_facts_db _ _ _ _ _ _ _ _ H1) as (-> & _); [rewrite Hc; apply Hb|by rewrite Hc].
  - split; [by eapply remove_inv|]. unfold bounce_remove_from_kb in Hr. apply bind_Some in Hr as ([c o] & _ & Hr).
    destruct o; [|by simplify_eq]. apply bind_Some in Hr as (e & _ & Hr). by simplify_eq.
Qed.

(** What a granted request says about the policy store. *)
Lemma grant_has_rule user n env b m perm b' log :
  reachable user b -> env_ok env -> re_owner env = false -> meta_ok m -> length (m_uuid m) = NEXUS_UUID_SIZE ->
  bouncer_access_check n env b m perm = Some (b', true, log) ->
  create_abac_request env b (Some m) = Some (b', None) \/
  exists p r, perm_type_to_string perm = Some p /\ r ∈ store_at (b_policy_version b') /\ perm_type_to_string (perm_type r) = Some p /\
    rule_true (kb_db (b_kb b')) (nexus_hex_encode user) (nexus_hex_encode (m_uuid m)) r.
Proof.
  intros Hre He Hown Hm Hu Hac. destruct (reachable_inv _ _ Hre) as [Hb Hus].
  destruct (reachable_inv user b') as [Hb' Hus']; [by eapply reach_check|].
  destruct (access_check_cases _ _ _ _ _ _ _ _ Hb He Hown Hm Hu Hac) as [[Hc _]|(oe & Hrf & Hask)]; [by left|]. right.
  specialize (Hask eq_refl). destruct (request_facts_inv _ _ _ _ _ Hb He Hown Hm Hu Hrf) as [_ Hoe].
  unfold db_ask_permission in Hask. destruct (perm_type_to_string perm) as [p|] eqn:Hp; [|done].
  destruct (bi_user _ Hb') as [Hue _]. rewrite (eo_str _ Hue), Hus', Hoe in Hask.
  apply is_true_sound in Hask; [|apply wf_ok, Hb']. exists p.
  destruct (granted_by_rule _ _ _ _ _ (bi_kb _ Hb') (perm_to_string_pred _ _ Hp) Hask) as (r & Hr & Hrp & Hrt). by exists r.
Qed.

(** C2: In every session of a user who is not the owner of the volume, an
    access is granted only if the request could not be made, or if the policy
    store in force has a rule for that permission all of whose atoms hold, in
    the knowledge base, of the user and of the object. *)
Theorem access_granted_by_policy user n env b m perm b' log :
  reachable user b -> env_ok env -> re_owner env = false -> meta_ok m -> length (m_uuid m) = NEXUS_UUID_SIZE ->
  bouncer_access_check n env b m perm = Some (b', true, log) ->
  create_abac_request env b (Some m) = Some (b', None) \/
  exists p r, perm_type_to_string perm = Some p /\ r ∈ store_at (b_policy_version b') /\ perm_type_to_string (perm_type r) = Some p /\
    rule_true (kb_db (b_kb b')) (nexus_hex_encode user) (nexus_hex_encode (m_uuid m)) r.
Proof. apply grant_has_rule. Qed.
End session.

(** A request that cannot read the attribute space is granted: whatever
    the permission, the object and the policies, the check returns true. *)
Theorem access_check_error_grants `{LuaNumber} n env b m perm :
  b_inv b -> env_ok env -> re_owner env = false -> is_Some (b_policy b) -> re_space env = None ->
  exists b', bouncer_access_check n env b m perm = Some (b', true, None).
Proof.
  intros Hb He Hown [ps0 Hps] Hsp. destruct (refresh_total b (re_changed env) (re_load env) ps0 Hb Hps) as (b' & ps & Hr); [apply He|].
  exists b'. unfold bouncer_access_check, create_abac_request. rewrite Hown, Hr, Hsp. cbn [mbind option_bind]. by destruct ps.
Qed.
End bouncer.

(** C18: After the facts of an entity have been refreshed, the knowledge base
    says of it what its metadata says, and, besides, every older fact whose
    identifier has two slashes. *)
Theorem refresh_replaces_facts k rules e sp m type k' e' ret name v :
  kb_inv (kb_db k) rules -> entity_ok e -> is_Some (type_fact e) -> space_ok sp -> meta_ok m -> up_to_date m e = false ->
  abac_request_insert_facts k e sp m (system_function_export_sysfuncs type) = Some (k', e', ret) ->
  good_fact (fact_of e name v) ->
  ret = 0 /\ ke_version e' = m_version m /\ kb_inv (kb_db k') rules /\
  exists cs, entity_facts e sp m (system_function_export_sysfuncs type) = Some cs /\
    (has (kb_db k') (fact_of e name v) <->
     fact_of e name v ∈ cs \/ has (kb_db k) (fact_of e name v) /\ is_rule (get_clause_id (fact_of e name v)) = true).
Proof.
  intros Hk He Ht Hsp Hm Hup Hi Hg. destruct (insert_facts_inv _ _ _ _ _ _ _ _ _ Hk He Ht Hsp Hm (funcs_sub _) Hi) as (Hk' & _ & _ & _ & ->).
  destruct (insert_facts_db _ _ _ _ _ _ _ _ Hi Ht) as (_ & _ & _ & _ & Hd). rewrite Hup in Hd. destruct Hd as (cs & Hcs & Hv & Hd).
  split_and!; try done. exists cs. split; [done|]. rewrite Hd.
  rewrite (assert_all_has _ rules); [|by apply kb_inv_evict|by eapply (entity_facts_good e sp m), Hcs; try apply funcs_sub|by eapply entity_facts_safe|done].
  rewrite (evict_has _ rules) by done. rewrite (fact_names_entity e) by done. naive_solver.
Qed.

(** ** Attribute spaces in use are as required *)
Lemma strncmp_cut a b n : strncmp a (take n b) n = strncmp a b n.
Proof. revert a b; induction n as [|n IH]; intros [|x a] [|y b]; cbn; try done. by rewrite IH. Qed.

Lemma name_allowed_cut name : name_allowed (take ATTRIBUTE_NAME_MAX name) = name_allowed name.
Proof.
  unfold name_allowed, perm_type_from_string, perm_map. cbn [List.find snd]. rewrite !(strncmp_cut _ name 32).
  by destruct name.
Qed.

Lemma space_spec_names l op :
  space_op_ok l op -> Forall (fun s => name_allowed (schema_name s) = true) l ->
  Forall (fun s => name_allowed (schema_name s) = true) (space_spec l op).1.
Proof.
  intros Hop Hl. destruct op as [name type u|name]; cbn [space_spec].
  - destruct Hop as [Hc _]. destruct (existsb _ l || negb (name_allowed name)) eqn:E; [done|]. apply orb_false_iff in E as [_ E%negb_false_iff].
    cbn [fst]. apply Forall_app. split; [done|]. apply Forall_singleton. unfold schema_name. cbn [as_name].
    by rewrite cstr_strncpy, name_allowed_cut.
  - destruct (existsb _ l); [|done]. cbn [fst]. apply Forall_forall. intros s [_ Hs]%list_elem_of_filter. by apply (proj1 (Forall_forall _ _) Hl).
Qed.

Lemma space_run_names ops l :
  space_ops_ok l ops -> Forall (fun s => name_allowed (schema_name s) = true) l ->
  Forall (fun s => name_allowed (schema_name s) = true) (space_run space_spec l ops).1.
Proof.
  revert l; induction ops as [|op ops IH]; intros l Hok Hl; [done|]. destruct Hok as [Hop Hok]. cbn [space_run].
  pose proof (space_spec_names l op Hop Hl) as Hl'. destruct (space_spec l op) as [l' r]. cbn [fst] in *. specialize (IH l' Hok Hl').
  by destruct (space_run space_spec l' ops).
Qed.

(** Every attribute space that declarations and deletions make. *)
Lemma declared_space_ok ops root u :
  space_ops_ok [] ops -> Z.of_nat (length ops) < 2 ^ 29 - 1 -> space_ok (space_run space_step (attribute_space_create root u) ops).1.
Proof.
  intros Hok Hb. destruct (space_run_refines ops _ (create_inv root u) Hok) as [Hi Hs]; [simpl; lia|]. split; [done|].
  unfold names_ok. pose proof (space_run_names ops [] Hok (Forall_nil_2 _)) as Hn. change (@nil attribute_schema) with ((sp_list (attribute_space_create root u)).*2) in Hn.
  by rewrite Hs in Hn.
Qed.

(** ** A session *)
Section session.
Local Existing Instance int_number.

(** [read :- role(u, value)]: the user's profile has the role, then not. *)
Definition role_rule (value : bytes) : policy_rule :=
  policy_rule_push_atom (policy_rule_new PERM_READ (uuid_const 9))
    (policy_atom_push_arg (set_atom_type (policy_atom_new_from_predicate (str "role")) ATOM_TYPE_USER) (abac_value_from_str value)).
Definition role_store (value : bytes) : policy_store :=
  (policy_store_add (policy_store_create (uuid_const 1) (uuid_const 2)) (role_rule value)).1.
Definition no_dentries : dcache := mk_dcache ∅ 1 0 [] ∅.
Definition role_table (value : bytes) : attribute_table := attribute_table_add attribute_table_create (uuid_const 3) value.
Definition profile_env (t : attribute_table) (version : Z) : request_env :=
  mk_req false false None (Some toy_space) (Some (mk_meta (uuid_const 20) version t (mk_sys_arg (str "ann") no_dentries 0 OtherObject))) true None true.
Definition doc : meta := mk_meta (uuid_const 30) 4 attribute_table_create (mk_sys_arg [] no_dentries 0 (FilenodeObject 12)).

Definition session_start (value : bytes) : option bouncer :=
  mjoin (bouncer_init (profile_env (role_table value) 1) (uuid_const 20) 0 (Some (role_store value, 1))).

Definition revoke_session (value : bytes) : option (bool * bool) :=
  b ← session_start value;
  '(b, before, _) ← bouncer_access_check 100 (profile_env (role_table value) 1) b doc PERM_READ;
  '(b, after, _) ← bouncer_access_check 100 (profile_env attribute_table_create 2) b doc PERM_READ;
  Some (before, after).

(** Revoking an attribute takes the access it gave away when its value has
    no slash; when it has one, the fact stays in the knowledge base and the
    user, whose profile no longer has the attribute, is still granted. *)
Theorem revoked_slash_attribute_still_grants :
  revoke_session (str "eng") = Some (true, false) /\ revoke_session (str "eng/k") = Some (true, true).
Proof. split; by vm_compute. Qed.

Definition role_stores (value : bytes) (v : Z) : list policy_rule := pst_rules (role_store value).

Lemma role_stores_ok value v : is_Some (policy_rule_to_db (role_rule value) ≫= id) -> Forall translatable (role_stores value v).
Proof.
  intros [c Hc]. apply Forall_singleton. unfold translatable. destruct (policy_rule_to_db (role_rule value)) as [[c'|]|]; try done. by exists c'.
Qed.

Lemma toy_space_ok : space_ok toy_space.
Proof. apply declared_space_ok; [apply toy_space_ops_ok|by vm_compute]. Qed.

Lemma role_table_ok value : cstr_ok value -> (length value < VALUE_LEN)%nat -> exists g, at_inv (role_table value) g.
Proof.
  intros Hv Hl. unfold role_table. eexists. apply (attribute_table_add_new attribute_table_create ∅); try done; [apply at_create_inv|].
  apply uuid_const_ok. unfold byte_ok. lia.
Qed.

Lemma profile_env_ok value t v : (exists g, at_inv t g) -> env_ok (role_stores value) (profile_env t v).
Proof. intros Ht. split; cbn; [done|apply toy_space_ok|done]. Qed.

Lemma doc_ok : meta_ok doc.
Proof. exists ∅. apply at_create_inv. Qed.

Definition eng : bytes := str "eng".

Lemma eng_ok : cstr_ok eng.
Proof. by apply attr_value_ok. Qed.

Lemma eng_env_ok : env_ok (role_stores eng) (profile_env (role_table eng) 1).
Proof. apply profile_env_ok, role_table_ok; [apply eng_ok|unfold VALUE_LEN; simpl; lia]. Qed.

Lemma eng_stores_ok v : Forall translatable (role_stores eng v).
Proof. apply role_stores_ok. vm_compute. by eexists. Qed.

Definition started : bouncer :=
  default (mk_bouncer db_init (nexus_lru_create 16) ∅ 1 (kb_entity_new [] 0) 0 None) (session_start eng).

Lemma eng_start : bouncer_init (profile_env (role_table eng) 1) (uuid_const 20) 0 (Some (role_store eng, 1)) = Some (Some started).
Proof.
  assert (Hi : match bouncer_init (profile_env (role_table eng) 1) (uuid_const 20) 0 (Some (role_store eng, 1)) with Some (Some _) => true | _ => false end = true)
    by (vm_compute; reflexivity).
  unfold started, session_start. by destruct (bouncer_init _ _ _ _) as [[b|]|].
Qed.

Lemma eng_reachable : reachable (role_stores eng) (uuid_const 20) started.
Proof. eapply reach_init; [apply eng_env_ok|done|done| |apply eng_start]. done. Qed.

Lemma access_granted_by_policy_witness :
  exists b', bouncer_access_check 100 (profile_env (role_table eng) 1) started doc PERM_READ = Some (b', true, None) /\
  (create_abac_request (profile_env (role_table eng) 1) started (Some doc) = Some (b', None) \/
   exists p r, perm_type_to_string PERM_READ = Some p /\ r ∈ role_stores eng (b_policy_version b') /\ perm_type_to_string (perm_type r) = Some p /\
     rule_true (kb_db (b_kb b')) (nexus_hex_encode (uuid_const 20)) (nexus_hex_encode (uuid_const 30)) r).
Proof.
  assert (Hr : (fun p : bouncer * bool * option audit_log => (p.1.2, p.2)) <$> bouncer_access_check 100 (profile_env (role_table eng) 1) started doc PERM_READ = Some (true, None))
    by (vm_compute; reflexivity).
  destruct (bouncer_access_check 100 (profile_env (role_table eng) 1) started doc PERM_READ) as [[[b' r] log]|] eqn:E; [|done].
  injection Hr as -> ->. exists b'. split; [done|].
  eapply (access_granted_by_policy (role_stores eng) eng_stores_ok (uuid_const 20) 100 (profile_env (role_table eng) 1) started doc).
  - apply eng_reachable.
  - apply eng_env_ok.
  - reflexivity.
  - apply doc_ok.
  - reflexivity.
  - exact E.
Defined.

(** The environment in which the attribute space cannot be had. *)
Definition no_space_env : request_env := mk_req false false None None None true None true.

Lemma access_check_error_grants_witness :
  exists b', bouncer_access_check 100 no_space_env started doc PERM_DELETE = Some (b', true, None).
Proof.
  apply (access_check_error_grants (role_stores eng) eng_stores_ok).
  - apply (reachable_inv (role_stores eng) eng_stores_ok (uuid_const 20)), eng_reachable.
  - by split.
  - reflexivity.
  - exists (role_store eng, 1). vm_compute. reflexivity.
  - reflexivity.
Defined.

Definition ann : kb_entity := kb_entity_new (uuid_const 20) USER_ATTRIBUTE_TYPE.
Definition ann_meta : meta := mk_meta (uuid_const 20) 1 (role_table eng) (mk_sys_arg (str "ann") no_dentries 0 OtherObject).

Lemma role_fact_good : good_fact (fact_of ann (str "role") (Some eng)).
Proof.
  apply good_fact_of; [by split|by vm_compute| |].
  - intros s Hs. apply Some_inj in Hs as <-. by vm_compute.
  - apply name_allowed_free. by vm_compute.
Qed.

Lemma refresh_replaces_facts_witness :
  exists k', abac_request_insert_facts db_init ann toy_space ann_meta (system_function_export_sysfuncs USER_FUNCTION) = Some (k', with_version ann 1, 0) /\
    has (kb_db k') (fact_of ann (str "role") (Some eng)).
Proof.
  assert (He : (fun p => (p.1.2, p.2)) <$> abac_request_insert_facts db_init ann toy_space ann_meta (system_function_export_sysfuncs USER_FUNCTION) = Some (with_version ann 1, 0))
    by (vm_compute; reflexivity).
  destruct (abac_request_insert_facts db_init ann toy_space ann_meta (system_function_export_sysfuncs USER_FUNCTION)) as [[[k' e'] r]|] eqn:E; [|done].
  change (Some (e', r) = Some (with_version ann 1, 0)) in He. apply Some_inj, pair_equal_spec in He as [-> ->]. exists k'. split; [done|].
  destruct (refresh_replaces_facts db_init [] ann toy_space ann_meta USER_FUNCTION k' (with_version ann 1) 0 (str "role") (Some eng)) as (_ & _ & _ & cs & Hcs & Hiff).
  - apply kb_inv_open.
  - by split.
  - by eexists.
  - apply toy_space_ok.
  - apply role_table_ok; [apply eng_ok|unfold VALUE_LEN; simpl; lia].
  - reflexivity.
  - exact E.
  - apply role_fact_good.
  - apply Hiff. left. clear E Hiff. vm_compute in Hcs. apply Some_inj in Hcs as <-. apply list_elem_of_In. vm_compute. tauto.
Defined.
End session.
