(* ===== verification/Ecalls.v ===== *)
(** * The file system ecalls

    Models the entry points of [ecalls/dirs.c] and [ecalls/files.c]: each
    finds a metadata object by its path ([PathWalk.v]), asks the bouncer where
    the source does ([Bouncer.v]), runs an operation on the directory or the
    file ([FsOps.v], [Filenode.v], [FileCrypto.v]), stores the object and gives
    it back.  What the entry points need of a metadata object on top of the
    walk is the class [EcallMetadata].  [vfs_ops_lock] makes an ecall one step;
    [ecall_fs_rename] is in [Rename.v].  [metadata->dirnode] and [metadata->filenode] are
    members of one union: reading the wrong one is a [Fault]. *)
From S2P Require Import Prelude Hashmap Types AttributeTable Dirnode DirnodeSpec Gcm Crypto BufferLayer CryptoBuf.
From S2P Require Import Filenode FileCrypto HardlinkTable FsOps Metadata Lru Vfs Dentry PathWalk.
From S2P Require Import AbacValue AbacRule SystemFunctions AuditLog Datalog Bouncer.

(** ** What the ecalls need of a metadata object *)
(** [E] is what the store answers to one [nexus_metadata_store]. *)
Class EcallMetadata (M E : Type) {CM : CachedMetadata M} {PM : PathMetadata M} := {
  em_version : M -> Z;
  em_table : M -> attribute_table;
  (* operations on a directory work on its heap too *)
  em_set_dir : M -> nexus_dirnode -> dheap -> M;
  em_filenode : M -> option nexus_filenode;
  em_set_filenode : M -> nexus_filenode -> M;
  (* [nexus_metadata_store] and [nexus_vfs_put] *)
  em_store : M -> bcache -> E -> option (M * bcache * Z * list ocall);
  em_put : M -> bcache -> reply -> M * bcache * list ocall;
  em_set_dir_uuid : forall o d h, cm_uuid (em_set_dir o d h) = cm_uuid o;
  em_set_dir_get : forall o d h, is_Some (pm_dirnode o) -> pm_dirnode (em_set_dir o d h) = Some (d, h);
  em_set_file_uuid : forall o f, cm_uuid (em_set_filenode o f) = cm_uuid o;
  em_set_file_get : forall o f, is_Some (em_filenode o) -> em_filenode (em_set_filenode o f) = Some f;
  em_put_uuid : forall o b r o' b' t, em_put o b r = (o', b', t) -> cm_uuid o' = cm_uuid o;
  em_put_dir : forall o b r o' b' t, em_put o b r = (o', b', t) -> pm_dirnode o' = pm_dirnode o;
  em_put_file : forall o b r o' b' t, em_put o b r = (o', b', t) -> em_filenode o' = em_filenode o;
  em_store_uuid : forall o b e o' b' ret t, em_store o b e = Some (o', b', ret, t) -> cm_uuid o' = cm_uuid o;
  (* storing keeps the directory *)
  em_store_dir : forall o b e o' b' ret t d h v, em_store o b e = Some (o', b', ret, t) ->
    pm_dirnode o = Some (d, h) -> dir_repr h d v ->
    exists d' h', pm_dirnode o' = Some (d', h') /\ dir_repr h' d' v /\ my_uuid d' = my_uuid d /\
      forall u, dirnode_get_link d' u = dirnode_get_link d u;
  (* and the size of a file *)
  em_store_file : forall o b e o' b' ret t f, em_store o b e = Some (o', b', ret, t) -> em_filenode o = Some f ->
    exists f', em_filenode o' = Some f' /\ filesize f' = filesize f
}.

(** ** The state of the enclave and what one ecall is answered *)
Record ecall_env (E : Type) := mk_ecall_env {
  ee_walk : nat;                     (* turns a path walk may take *)
  ee_prover : nat;                   (* steps a permission query may take *)
  ee_user : bytes;                   (* name of the current user *)
  ee_req : request_env;
  ee_fs : fs_env;
  ee_uuid : uuid;                    (* drawn by [nexus_uuid_gen] *)
  ee_draws : nat -> bytes * bytes;   (* keys and IVs of new chunks *)
  ee_delete : reply;
  ee_store : E;
  ee_put : reply
}.
Arguments mk_ecall_env {E}.
Arguments ee_walk {E}.
Arguments ee_prover {E}.
Arguments ee_user {E}.
Arguments ee_req {E}.
Arguments ee_fs {E}.
Arguments ee_uuid {E}.
Arguments ee_draws {E}.
Arguments ee_delete {E}.
Arguments ee_store {E}.
Arguments ee_put {E}.

Record enclave (M : Type) := mk_enclave {
  en_fs : PathWalk.fs M;
  en_bouncer : bouncer;
  en_links : hardlink_table;
  en_xfers : xfer_state;
  en_audits : list audit_log         (* the audit logs written, oldest first *)
}.
Arguments mk_enclave {M}.
Arguments en_fs {M}.
Arguments en_bouncer {M}.
Arguments en_links {M}.
Arguments en_xfers {M}.
Arguments en_audits {M}.

Section ecalls.
Context {M E : Type} {CM : CachedMetadata M} {PM : PathMetadata M} {EM : EcallMetadata M E} `{LuaNumber}.
(** As in [PathWalk.v]. *)
Variables (root_uuid : uuid) (env : uuid -> nat -> walk_env).

Definition with_fs (s : enclave M) (f : PathWalk.fs M) : enclave M :=
  mk_enclave f (en_bouncer s) (en_links s) (en_xfers s) (en_audits s).
Definition with_bouncer (s : enclave M) (b : bouncer) : enclave M :=
  mk_enclave (en_fs s) b (en_links s) (en_xfers s) (en_audits s).
Definition with_links (s : enclave M) (t : hardlink_table) : enclave M :=
  mk_enclave (en_fs s) (en_bouncer s) t (en_xfers s) (en_audits s).
Definition with_xfers (s : enclave M) (x : xfer_state) : enclave M :=
  mk_enclave (en_fs s) (en_bouncer s) (en_links s) x (en_audits s).
Definition add_audit (s : enclave M) (l : option audit_log) : enclave M :=
  mk_enclave (en_fs s) (en_bouncer s) (en_links s) (en_xfers s) (en_audits s ++ option_list l).

Definition object_at (s : enclave M) (m : Z) : option M := v_objects (fs_vfs (en_fs s)) !! m.

(** Ocalls of a call that leaves the metadata cache alone. *)
Definition log_ocalls (s : enclave M) (t : list ocall) : enclave M :=
  let f := en_fs s in with_fs s (PathWalk.mk_fs (fs_vfs f) (fs_dc f) (fs_tick f) (fs_log f ++ t)).

(** An object and the buffers after a call on them. *)
Definition update_object (s : enclave M) (m : Z) (o : M) (b : bcache) (t : list ocall) : enclave M :=
  let f := en_fs s in let v := fs_vfs f in
  with_fs s (PathWalk.mk_fs (mk_vfs (v_cache v) (<[m := o]> (v_objects v)) (v_next v) b) (fs_dc f) (fs_tick f) (fs_log f ++ t)).

(** ** The calls every ecall is made of *)
Definition vfs_get (s : enclave M) (e : ecall_env E) (path : bytes) (flags : Z) : outcome (enclave M * option Z) :=
  '(f, r) <- nexus_vfs_get root_uuid env (ee_walk e) (en_fs s) path flags;;
  Done (with_fs s f, r).

(** The object as the bouncer reads it. *)
Definition object_kind_of (o : M) : object_kind :=
  match pm_dirnode o, em_filenode o with
  | Some (d, _), _ => DirnodeObject (dir_entry_count d)
  | None, Some f => FilenodeObject (filesize f)
  | None, None => OtherObject
  end.
Definition meta_of (s : enclave M) (e : ecall_env E) (m : Z) (o : M) : meta :=
  mk_meta (cm_uuid o) (em_version o) (em_table o) (mk_sys_arg (ee_user e) (fs_dc (en_fs s)) m (object_kind_of o)).

Definition access_check (s : enclave M) (e : ecall_env E) (m : Z) (perm : Z) : option (enclave M * bool) :=
  o ← object_at s m;
  '(b, ok, log) ← bouncer_access_check (ee_prover e) (ee_req e) (en_bouncer s) (meta_of s e m o) perm;
  Some (add_audit (with_bouncer s b) log, ok).

Definition vfs_put (s : enclave M) (e : ecall_env E) (m : Z) : option (enclave M) :=
  o ← object_at s m;
  let '(o, b, t) := em_put o (v_bufs (fs_vfs (en_fs s))) (ee_put e) in
  Some (update_object s m o b t).

Definition metadata_store (s : enclave M) (e : ecall_env E) (m : Z) : option (enclave M * Z) :=
  o ← object_at s m;
  '(o, b, ret, t) ← em_store o (v_bufs (fs_vfs (en_fs s))) (ee_store e);
  Some (update_object s m o b t, ret).

Fixpoint vfs_delete_all (f : PathWalk.fs M) (us : list uuid) (r : reply) : option (PathWalk.fs M) :=
  match us with
  | [] => Some f
  | u :: us' => '(v, t) ← nexus_vfs_delete (fs_vfs f) u r; f ← after_vfs f v t; vfs_delete_all f us' r
  end.

(** An operation of [FsOps.v] on the directory [m], and the deletions it asks
    for.  It writes to the directory afterwards: a fault when the directory
    itself was deleted. *)
Definition on_dir {A} (s : enclave M) (e : ecall_env E) (m : Z) (op : FsOps.fs -> option (FsOps.fs * A))
    : option (enclave M * A) :=
  o ← object_at s m;
  '(dn, h) ← pm_dirnode o;
  '(r, x) ← op (FsOps.mk_fs {[m := dn]} h (en_links s) []);
  f ← vfs_delete_all (en_fs s) (fs_deleted r) (ee_delete e);
  _ ← v_objects (fs_vfs f) !! m;
  dn ← fs_dirs r !! m;
  Some (with_links (with_fs s (set_object f m (em_set_dir o dn (fs_heap r)))) (fs_links r), x).

(** [goto out]: give the object back. *)
Definition put_and_return {A} (s : enclave M) (e : ecall_env E) (m : Z) (x : A) : outcome (enclave M * A) :=
  s <- lift (vfs_put s e m);; Done (s, x).

(** ** Directories *)
(** Return code and the UUID of the new entry. *)
Definition ecall_fs_create (s : enclave M) (e : ecall_env E) (dirpath filename : bytes) (type : nexus_dirent_type)
    : outcome (enclave M * (Z * option uuid)) :=
  '(s, r) <- vfs_get s e dirpath NEXUS_FRDWR;;
  match r with
  | None => Done (s, (-1, None))
  | Some m =>
      '(s, ok) <- lift (access_check s e m PERM_CREATE);;
      if negb ok then put_and_return s e m (-1, None)
      else
        let s := log_ocalls s (snd (buffer_layer_new (ee_uuid e) (en_new (ee_fs e)))) in
        '(s, ret) <- lift (on_dir s e m (fun x => nxs_fs_create x (ee_fs e) m filename type (ee_uuid e)));;
        if negb (ret =? 0) then put_and_return s e m (ret, None)
        else
          '(s, ret) <- lift (metadata_store s e m);;
          if negb (ret =? 0) then put_and_return s e m (ret, None)
          else put_and_return s e m (0, Some (ee_uuid e))
  end.

(** The entry that was removed, and [*should_remove_out]. *)
Definition ecall_fs_remove (s : enclave M) (e : ecall_env E) (dirpath filename : bytes)
    : outcome (enclave M * (Z * option (nexus_dirent_type * uuid) * option bool)) :=
  '(s, r) <- vfs_get s e dirpath NEXUS_FRDWR;;
  match r with
  | None => Done (s, (-1, None, None))
  | Some m =>
      '(s, ok) <- lift (access_check s e m PERM_DELETE);;
      if negb ok then put_and_return s e m (-1, None, None)
      else
        d <- lift (metadata_get_dentry (fs_dc (en_fs s)) m);;
        dc <- lift (dentry_delete_child (fs_dc (en_fs s)) d filename);;
        let s := with_fs s (set_dc (en_fs s) dc) in
        '(s, (ret, entry, rm)) <- lift (on_dir s e m (fun x =>
            '(x, ret, entry, rm) ← nxs_fs_remove x (ee_fs e) m filename; Some (x, (ret, entry, rm))));;
        if negb (ret =? 0) then put_and_return s e m (ret, entry, None)
        else
          '(s, ret) <- lift (metadata_store s e m);;
          if negb (ret =? 0) then put_and_return s e m (ret, entry, None)
          else put_and_return s e m (0, entry, Some rm)
  end.

Definition ecall_fs_lookup (s : enclave M) (e : ecall_env E) (dirpath filename : bytes)
    : outcome (enclave M * (Z * option (nexus_dirent_type * uuid))) :=
  '(s, r) <- vfs_get s e dirpath NEXUS_FREAD;;
  match r with
  | None => Done (s, (-1, None))
  | Some m =>
      '(s, ok) <- lift (access_check s e m PERM_READ);;
      if negb ok then put_and_return s e m (-1, None)
      else
        '(s, (ret, entry)) <- lift (on_dir s e m (fun x =>
            '(x, ret, entry) ← nxs_fs_lookup x m filename; Some (x, (ret, entry))));;
        put_and_return s e m (ret, entry)
  end.

(** The entries, and the size of the directory. *)
Definition ecall_fs_readdir (s : enclave M) (e : ecall_env E) (dirpath : bytes) (count offset : Z)
    : outcome (enclave M * (Z * list nexus_dirent * Z)) :=
  '(s, r) <- vfs_get s e dirpath NEXUS_FREAD;;
  match r with
  | None => Done (s, (-1, [], 0))
  | Some m =>
      '(s, ok) <- lift (access_check s e m PERM_READ);;
      if negb ok then put_and_return s e m (-1, [], 0)
      else
        o <- lift (object_at s m);;
        '(dn, h) <- lift (pm_dirnode o);;
        '(ret, l, size) <- lift (dirnode_readdir dn h count offset);;
        put_and_return s e m (ret, l, size)
  end.

(** ** Links: no access check *)
Definition ecall_fs_symlink (s : enclave M) (e : ecall_env E) (dirpath linkname target : bytes)
    : outcome (enclave M * (Z * option uuid)) :=
  '(s, r) <- vfs_get s e dirpath NEXUS_FRDWR;;
  match r with
  | None => Done (s, (-1, None))
  | Some m =>
      let s := log_ocalls s (snd (buffer_layer_new (ee_uuid e) (en_new (ee_fs e)))) in
      '(s, ret) <- lift (on_dir s e m (fun x => nxs_fs_symlink x (ee_fs e) m linkname target (ee_uuid e)));;
      if negb (ret =? 0) then put_and_return s e m (ret, None)
      else
        '(s, ret) <- lift (metadata_store s e m);;
        if negb (ret =? 0) then put_and_return s e m (ret, None)
        else put_and_return s e m (0, Some (ee_uuid e))
  end.

Definition ecall_fs_readlink (s : enclave M) (e : ecall_env E) (dirpath linkname : bytes)
    : outcome (enclave M * (Z * option bytes)) :=
  '(s, r) <- vfs_get s e dirpath NEXUS_FREAD;;
  match r with
  | None => Done (s, (-1, None))
  | Some m =>
      o <- lift (object_at s m);;
      match pm_dirnode o with
      | None => put_and_return s e m (-1, None)
      | Some _ =>
          '(s, result) <- lift (on_dir s e m (fun x => nxs_fs_readlink x m linkname));;
          match result with
          | None => put_and_return s e m (-1, None)
          | Some t => put_and_return s e m (0, Some (take (Z.to_nat NEXUS_PATH_MAX) t))
          end
      end
  end.

(** [__nxs_fs_hardlink] on two objects, which may be the same one: the file
    [tgt_name] of [tgt] gets the name [link_name] in [link]. *)
Definition hardlink_objects (s : enclave M) (e : ecall_env E) (link : Z) (link_name : bytes) (tgt : Z) (tgt_name : bytes)
    : option (enclave M * (Z * option uuid)) :=
  '(s, (_, entry)) ← on_dir s e tgt (fun x =>
      '(x, ret, entry) ← nxs_fs_lookup x tgt tgt_name; Some (x, (ret, entry)));
  match entry with
  | None => Some (s, (-1, None))
  | Some (type, u) =>
      if decide (type <> NEXUS_REG) then Some (s, (-1, Some u))
      else if negb (en_table (ee_fs e)) then Some (s, (-1, Some u))
      else
        let s := with_links s (hardlink_table_incr_uuid (en_links s) u) in
        if negb (en_flush (ee_fs e) =? 0) then Some (s, (-1, Some u))
        else
          '(s, ret) ← on_dir s e link (fun x =>
              dn ← fs_dirs x !! link;
              '(dn, h, ret) ← dirnode_add dn (fs_heap x) (en_rnd (ee_fs e)) link_name NEXUS_REG u;
              Some (FsOps.set_dir x link dn h, ret));
          Some (s, (if ret =? 0 then 0 else -1, Some u))
  end.

(** The objects of the two directories: [nexus_metadata_get] when the paths
    are the same string. *)
Definition hardlink_get_src (s : enclave M) (e : ecall_env E) (src_dirpath dst_dirpath : bytes) (dst : Z)
    : outcome (enclave M * option Z) :=
  if strncmp dst_dirpath src_dirpath (Z.to_nat NEXUS_PATH_MAX) =? 0 then
    o <- lift (object_at s dst);;
    Done (with_fs s (set_object (en_fs s) dst (pm_ref o)), Some dst)
  else vfs_get s e src_dirpath NEXUS_FREAD.

(** It is the object of the destination that is stored. *)
Definition ecall_fs_hardlink (s : enclave M) (e : ecall_env E) (src_dirpath src_name dst_dirpath dst_name : bytes)
    : outcome (enclave M * (Z * option uuid)) :=
  '(s, r) <- vfs_get s e dst_dirpath NEXUS_FRDWR;;
  match r with
  | None => Done (s, (-1, None))
  | Some dst =>
      '(s, r) <- hardlink_get_src s e src_dirpath dst_dirpath dst;;
      match r with
      | None => put_and_return s e dst (-1, None)
      | Some src =>
          '(s, (ret, u)) <- lift (hardlink_objects s e src src_name dst dst_name);;
          '(s, ret, out) <-
            (if negb (ret =? 0) then Done (s, ret, None)
             else
               '(s, ret) <- lift (metadata_store s e dst);;
               if negb (ret =? 0) then Done (s, ret, None) else Done (s, 0, u));;
          s <- lift (vfs_put s e src);;
          put_and_return s e dst (ret, out)
      end
  end.

(** ** Stat *)
Definition NEXUS_STAT_LINK : Z := 1.
Definition NEXUS_STAT_FILE : Z := 2.

(** [stat_out->link_count]; [None]: not written. *)
Definition export_link_count (s : enclave M) (e : ecall_env E) (u : uuid) : option Z :=
  if negb (en_table (ee_fs e)) then None
  else if hardlink_table_contains_uuid (en_links s) u then hardlink_table_get_uuid (en_links s) u
  else Some 0.

(** The part for [NEXUS_STAT_LINK], on the parent [a] of the last component.
    The count is looked up under the UUID of the directory. *)
Definition stat_link (s : enclave M) (e : ecall_env E) (a : Z) (w : path_walker) (st : nexus_stat)
    : option (enclave M * Z * nexus_stat * option Z) :=
  '(m, o) ← dentry_object (en_fs s) a;
  '(dn, h) ← pm_dirnode o;
  match w_remaining w with
  | Some name =>
      '(dn, st, ret) ← dirnode_export_link_stat dn h name st;
      let s := with_fs s (set_object (en_fs s) m (pm_set_dirnode o dn)) in
      Some (s, ret, st, if (ret =? 0) && bool_decide (st_link_type st = NEXUS_REG)
                        then export_link_count s e (my_uuid dn) else None)
  | None => Some (s, 0, dirnode_export_stat dn st, None)
  end.

(** [st] is what the caller's buffer holds; the result has the link count when
    it was written. *)
Definition ecall_fs_stat (s : enclave M) (e : ecall_env E) (path : bytes) (stat_flags : Z) (st : nexus_stat)
    : outcome (enclave M * (Z * nexus_stat * option Z)) :=
  '(f, r, w) <- nexus_vfs_lookup_parent root_uuid env (ee_walk e) (en_fs s) path;;
  let s := with_fs s f in
  match r with
  | None => Done (s, (-1, st, None))
  | Some a =>
      '(s, ret, st, count) <- (if Z.land stat_flags NEXUS_STAT_LINK =? 0 then Done (s, 0, st, None)
                               else lift (stat_link s e a w st));;
      if negb (Z.land stat_flags NEXUS_STAT_FILE =? 0) || negb (bool_decide (st_link_type st = NEXUS_LNK)) then
        '(f, r) <- nexus_vfs_complete_lookup root_uuid env (ee_walk e) (en_fs s) w NEXUS_FREAD;;
        let s := with_fs s f in
        match r with
        | None => Done (s, (-1, st, count))
        | Some m =>
            o <- lift (object_at s m);;
            match pm_dirnode o with
            | Some (dn, _) => put_and_return s e m (ret, dirnode_export_stat dn st, count)
            | None =>
                f <- lift (em_filenode o);;
                let c := export_link_count s e (cm_uuid o) in
                put_and_return s e m (ret, filenode_export_stat f st, if c is Some _ then c else count)
            end
        end
      else Done (s, (ret, st, count))
  end.

(** ** Files *)
(** A denied request gives the object back and goes on. *)
Definition ecall_fs_truncate (s : enclave M) (e : ecall_env E) (filepath : bytes) (size : Z) (st : nexus_stat)
    : outcome (enclave M * (Z * nexus_stat)) :=
  '(s, r) <- vfs_get s e filepath (Z.lor (Z.lor NEXUS_FRDWR NEXUS_IO_FCRYPTO) NEXUS_IO_FNODE);;
  match r with
  | None => Done (s, (-1, st))
  | Some m =>
      '(s, ok) <- lift (access_check s e m PERM_WRITE);;
      s <- (if negb ok then lift (vfs_put s e m) else Done s);;
      o <- lift (object_at s m);;
      f <- lift (em_filenode o);;
      f <- lift (filenode_set_filesize f size (ee_draws e));;
      let s := with_fs s (set_object (en_fs s) m (em_set_filenode o f)) in
      '(s, ret) <- lift (metadata_store s e m);;
      if negb (ret =? 0) then put_and_return s e m (-1, st)
      else
        o <- lift (object_at s m);;
        f <- lift (em_filenode o);;
        put_and_return s e m (0, filenode_export_stat f st)
  end.

Definition io_mode_of (mode : nexus_crypto_mode) : Z := if is_encrypt mode then NEXUS_FRDWR else NEXUS_FREAD.
Definition permission_of (mode : nexus_crypto_mode) : Z :=
  if io_mode_of mode =? NEXUS_FREAD then PERM_READ else PERM_WRITE.

(** The transfer id, the UUID and the size of the file.  The transfer takes
    control of the object: its filenode moves to the transfer state. *)
Definition nxs_file_crypto_start (s : enclave M) (e : ecall_env E) (filepath : bytes) (size : Z) (mode : nexus_crypto_mode)
    : outcome (enclave M * (Z * option (Z * uuid * Z))) :=
  '(s, r) <- vfs_get s e filepath (Z.lor (io_mode_of mode) NEXUS_IO_FCRYPTO);;
  match r with
  | None => Done (s, (-1, None))
  | Some m =>
      '(s, ok) <- lift (access_check s e m (permission_of mode));;
      if negb ok then put_and_return s e m (-1, None)
      else
        o <- lift (object_at s m);;
        f <- lift (em_filenode o);;
        f <- (if is_encrypt mode then lift (filenode_set_filesize f size (ee_draws e)) else Done f);;
        let s := with_fs s (set_object (en_fs s) m (em_set_filenode o f)) in
        let '(x, xfer_id) := file_crypto_new (set_file (en_xfers s) m f) m mode in
        let s := with_xfers s x in
        if xfer_id =? -1 then put_and_return s e m (-1, None)
        else Done (s, (0, Some (xfer_id, cm_uuid o, filesize f)))
  end.

Definition ecall_fs_file_encrypt_start (s : enclave M) (e : ecall_env E) (filepath : bytes) (size : Z) :=
  nxs_file_crypto_start s e filepath size NEXUS_ENCRYPT.
Definition ecall_fs_file_decrypt_start (s : enclave M) (e : ecall_env E) (filepath : bytes) :=
  nxs_file_crypto_start s e filepath 0 NEXUS_DECRYPT.
End ecalls.
