(* ===== verification/EcallProps.v ===== *)
(** * Properties of the file system ecalls

    Three groups over [Ecalls.v]: the entry points that ask the bouncer succeed
    only with a policy for the permission and change nothing when denied; the
    ones that do not ask work whatever the policies say; and creating a file
    makes the volume the one with that entry: the path walk's invariant holds
    afterwards of the new contents. *)
From stdpp Require Import strings.
From S2P Require Import Prelude Hashmap Types AttributeTable Dirnode DirnodeSpec Gcm Crypto BufferLayer CryptoBuf.
From S2P Require Import Filenode FileCrypto HardlinkTable FsOps Metadata Lru Vfs Dentry PathWalk PathSpec PathProps.
From S2P Require Import AbacValue AbacRule PolicyStore SystemFunctions AuditLog Datalog KnowledgeBase Bouncer KbProps BouncerProps Ecalls.

(** ** Directories *)
Lemma entry_count_size h d v : dir_repr h d v -> dir_entry_count d = Z.of_nat (size v).
Proof.
  intros (_ & gn & gu & Hi & ->). rewrite (Dirnode.di_count _ _ _ _ _ Hi). f_equal.
  rewrite <- (dn_size_names _ _ _ _ _ Hi), <- (size_dom (D := gset bytes) gn), <- (size_dom (D := gset bytes) (view _ _)).
  f_equal. apply set_eq. intros n. rewrite !elem_of_dom, view_lookup. split.
  - intros [a Ha]. rewrite Ha. destruct (di_cell _ _ _ _ _ Hi _ _ Ha) as (_ & de & Hde & _). cbn. unfold link_of. rewrite Hde. eauto.
  - intros [x Hx]. destruct (gn !! n); [eauto|done].
Qed.

(** Operations on the entries keep the directory's name and its links. *)
Definition same_header (d d' : nexus_dirnode) : Prop := my_uuid d' = my_uuid d /\ symlink_list d' = symlink_list d.

Lemma find_header d n : same_header d (find_by_name d n).1.
Proof.
  unfold find_by_name. destruct (last_failed_lookup d); [destruct (_ =? 0); [done|]|]; by destruct (hashmap_get _ _ _).
Qed.

Lemma add_direntry_header d h rnd a d' h' : dirnode_add_direntry d h rnd a = Some (d', h') -> same_header d d'.
Proof.
  unfold dirnode_add_direntry, get_available_bucket. destruct (list_find _ _) as [[i b]|]; intros Hd;
    apply bind_Some in Hd as ([[b1 h1] x] & _ & Hd); apply bind_Some in Hd as (de & _ & Hd); by simplify_eq/=.
Qed.

Lemma add_header d h rnd n ty u d' h' ret : dirnode_add d h rnd n ty u = Some (d', h', ret) -> same_header d d'.
Proof.
  unfold dirnode_add. pose proof (find_header d n) as Hh. destruct (find_by_name d n) as [d1 [a|]]; [intros; by simplify_eq|].
  intros Hd. apply bind_Some in Hd as ([h1 a] & _ & Hd). apply bind_Some in Hd as ([d2 h2] & Ha & Hd). simplify_eq.
  apply add_direntry_header in Ha as [Ha1 Ha2]. destruct Hh as [H1 H2]. split; cbn in *; congruence.
Qed.

Lemma header_link d d' u : same_header d d' -> dirnode_get_link d' u = dirnode_get_link d u.
Proof. intros [_ Hs]. unfold dirnode_get_link, find_symlink. by rewrite Hs. Qed.

(** ** The volume with one more entry *)
Definition add_entry (F : uuid -> option content) (dir : uuid) (name : bytes) (type : nexus_dirent_type) (u : uuid)
    : uuid -> option content :=
  fun x => if decide (x = dir) then (fun c => mk_content (<[name := (type, u)]> (c_view c)) (c_link c)) <$> F x else F x.

Section refinement.
Context {M : Type} {CM : CachedMetadata M} {PM : PathMetadata M}.
Variables (root_uuid : uuid) (env : uuid -> nat -> walk_env).
Variables (F : uuid -> option content) (kind : uuid -> nexus_dirent_type) (B : bcache -> Prop).
Implicit Types (s : PathWalk.fs M) (o : M) (m : Z).

(** Two live objects have different UUIDs. *)
Lemma live_unique s m m' o o' :
  winv root_uuid F kind B s -> v_objects (fs_vfs s) !! m = Some o -> v_objects (fs_vfs s) !! m' = Some o' ->
  cm_uuid o = cm_uuid o' -> m = m'.
Proof.
  intros Hw Hm Hm' Hu. destruct (wi_vfs _ _ _ _ _ Hw) as [l Hv]. pose proof (vi_objects _ _ Hv) as Ho.
  rewrite Forall_forall in Ho.
  assert (Hin : forall x ox, v_objects (fs_vfs s) !! x = Some ox -> (cm_uuid ox, x) ∈ l).
  { intros x ox Hx. pose proof (vi_live _ _ Hv _ _ Hx) as Hl. apply list_elem_of_fmap in Hl as ([u y] & -> & Hl).
    destruct (Ho _ Hl) as (oy & Hy & Huy). cbn in *. rewrite Hx in Hy. injection Hy as <-. by rewrite Huy. }
  pose proof (Hin _ _ Hm) as H1. pose proof (Hin _ _ Hm') as H2. rewrite Hu in H1.
  pose proof (lr_keys _ _ (vi_cache _ _ Hv)) as Hnd. apply elem_of_list_to_map_1 in H1, H2; [|done|done]. congruence.
Qed.

(** The object of a directory takes a state that is current for a volume in
    which only that directory has changed, and not in an entry that is cached. *)
Lemma winv_change (F' : uuid -> option content) s m o o' b t :
  winv root_uuid F kind B s -> v_objects (fs_vfs s) !! m = Some o -> cm_uuid o' = cm_uuid o -> current F' o' -> B b ->
  (forall x, x <> cm_uuid o -> F' x = F x) ->
  (forall a d p dp c y, dents (fs_dc s) !! a = Some d -> d_parent d = Some p -> dents (fs_dc s) !! p = Some dp ->
    F (d_link dp) = Some c -> c_view c !! d_name d = Some y -> exists c', F' (d_link dp) = Some c' /\ c_view c' !! d_name d = Some y) ->
  let v := fs_vfs s in
  winv root_uuid F' kind B (PathWalk.mk_fs (mk_vfs (v_cache v) (<[m := o']> (v_objects v)) (v_next v) b) (fs_dc s) (fs_tick s) t).
Proof.
  intros Hw Hm Hu Hcur Hb Hsame Hgrow v. pose proof Hw as [Ht [l Hv] Hcu Hbs Hr Hk Hco Huu].
  split; cbn [fs_vfs fs_dc v_objects v_bufs]; try done.
  - eapply dinv_mono; [|done]. intros x [ox Hox]. unfold live_in. cbn. destruct (decide (x = m)) as [->|].
    + rewrite lookup_insert_eq. eauto.
    + rewrite lookup_insert_ne by done. eauto.
  - exists l. by eapply set_object_inv.
  - intros x ox [[<- <-]|[Hne Hx]]%lookup_insert_Some; [done|]. unfold current in *. rewrite Hsame; [by apply (Hcu x)|].
    intros Heq. apply Hne. symmetry. by eapply live_unique.
  - intros a d p dp Ha Hp Hdp Hfl. destruct (Hco a d p dp Ha Hp Hdp Hfl) as (c & H1 & H2 & H3).
    destruct (Hgrow a d p dp c _ Ha Hp Hdp H1 H2) as (c' & H1' & H2'). eauto.
  - intros x dx mx ox Hx Hmx [[<- <-]|[_ Hox]]%lookup_insert_Some; [|by eapply Huu]. rewrite Hu. by eapply Huu.
Qed.

(** The directory has only grown. *)
Lemma winv_grow (F' : uuid -> option content) s m o o' b t :
  winv root_uuid F kind B s -> v_objects (fs_vfs s) !! m = Some o -> cm_uuid o' = cm_uuid o -> current F' o' -> B b ->
  (forall x, x <> cm_uuid o -> F' x = F x) ->
  (forall x c n y, F x = Some c -> c_view c !! n = Some y -> exists c', F' x = Some c' /\ c_view c' !! n = Some y) ->
  let v := fs_vfs s in
  winv root_uuid F' kind B (PathWalk.mk_fs (mk_vfs (v_cache v) (<[m := o']> (v_objects v)) (v_next v) b) (fs_dc s) (fs_tick s) t).
Proof. intros Hw Hm Hu Hcur Hb Hsame Hgrow. apply (winv_change F' s m o); try done. intros. by eapply Hgrow. Qed.

(** A directory object that has gained an entry. *)
Lemma add_entry_winv s m o o' dn dn' h' c name type u t :
  winv root_uuid F kind B s -> v_objects (fs_vfs s) !! m = Some o -> cm_uuid o' = cm_uuid o -> pm_dirnode o' = Some (dn', h') ->
  same_header dn dn' -> (forall x, dirnode_get_link dn x = c_link c x) -> my_uuid dn = cm_uuid o ->
  F (cm_uuid o) = Some c -> c_view c !! name = None -> dir_repr h' dn' (<[name := (type, u)]> (c_view c)) ->
  let v := fs_vfs s in
  winv root_uuid (add_entry F (cm_uuid o) name type u) kind B
    (PathWalk.mk_fs (mk_vfs (v_cache v) (<[m := o']> (v_objects v)) (v_next v) (v_bufs v)) (fs_dc s) (fs_tick s) t).
Proof.
  intros Hw Ho Hu Hd Hh Hl Hmy HF Hfree Hr. apply (winv_grow _ s m o); try done; [|by apply Hw|..].
  - unfold current, add_entry. rewrite Hd, Hu, decide_True, HF by done. cbn [fmap option_fmap option_map c_view c_link].
    split; [done|]. split; [intros x; rewrite (header_link _ _ _ Hh); apply Hl|]. destruct Hh as [-> _]. done.
  - intros x Hx. unfold add_entry. by rewrite decide_False.
  - intros x cx n y Hx Hy. unfold add_entry. rewrite Hx. case_decide as Hdx; [|eauto]. subst x. eexists. split; [done|]. cbn.
    rewrite HF in Hx. injection Hx as <-. rewrite lookup_insert_ne; [done|]. intros ->. congruence.
Qed.

(** [nexus_vfs_get] of a path that leads to a directory. *)
Lemma vfs_get_dir n s path flags pos rem :
  quiescent root_uuid env F kind B -> answers env F B flags -> winv root_uuid F kind B s ->
  Forall (fun x => name_ok x.1) (tokens path) ->
  PathSpec.resolve root_uuid F n PATH_WALK_NORMAL [] (tokens path) = Some (Some (pos, rem)) -> pos_type pos = NEXUS_DIR ->
  exists s' m o dn h c, nexus_vfs_get root_uuid env n s path flags = Done (s', Some m) /\ winv root_uuid F kind B s' /\
    v_objects (fs_vfs s') !! m = Some o /\ cm_uuid o = pos_uuid root_uuid pos /\ pm_dirnode o = Some (dn, h) /\
    F (pos_uuid root_uuid pos) = Some c /\ dir_repr h dn (c_view c) /\
    (forall u, dirnode_get_link dn u = c_link c u) /\ my_uuid dn = pos_uuid root_uuid pos.
Proof.
  intros Hq Han Hw Hok Hres Hdir.
  pose proof (walk_loop_ok root_uuid env F kind B n s (mk_walker (root_dentry (fs_dc s)) (Some path) PATH_WALK_NORMAL)
    (root_dentry (fs_dc s)) [] Hq Hw (at_root _) I Hok) as Hwk. cbn [w_type w_remaining otokens from_option] in Hwk.
  rewrite Hres in Hwk. destruct Hwk as (s1 & a & w' & Hwk & Hw1 & Hat & Hv & _).
  unfold nexus_vfs_get, nexus_vfs_lookup, dentry_lookup, walk_path. cbn [w_remaining w_parent]. rewrite Hwk. cbn [obind].
  destruct (at_pos_dentry _ _ _ _ s1 a pos Hw1 Hat) as (d & Hd & Hty & Hlk & _).
  pose proof (valid_dir root_uuid env F kind B pos Hq Hv Hdir) as HF. rewrite <- Hlk in HF.
  destruct (dentry_revalidate_any root_uuid env F kind B s1 a d flags Hq Han Hw1 Hd) as (s2 & d2 & m & Hrv & Hw2 & _ & Hd2 & Hm2 & Hsh);
    [congruence|done|]. assert (Hl2 : d_link d2 = d_link d) by (injection Hsh; congruence).
  destruct (dir_object root_uuid F kind B s2 a d2 Hw2 Hd2) with (m := m) as (o & dn & h & c & Hob & Ho & Hu & Hdn & Hc & Hr & Hl & Hmy);
    [by rewrite Hl2|done|].
  unfold dentry_get_metadata. rewrite Hrv. cbn [mbind option_bind Z.eqb negb]. unfold get_object. rewrite Hob.
  cbn [mbind option_bind lift]. rewrite Hl2, Hlk in *. exists (set_object s2 m (pm_ref o)), m, (pm_ref o), dn, h, c.
  split; [done|]. split.
  { apply (winv_grow F s2 m o); try done; [apply pm_ref_uuid| |by apply Hw2|eauto].
    unfold current. rewrite pm_ref_get, pm_ref_uuid, Hdn, Hu, Hc. split; [done|]. split; [done|]. congruence. }
  cbn. rewrite lookup_insert_eq. split; [done|]. rewrite pm_ref_uuid, pm_ref_get. done.
Qed.
End refinement.

Section entry_points.
Context {M E : Type} {CM : CachedMetadata M} {PM : PathMetadata M} {EM : EcallMetadata M E} `{LuaNumber}.
Variables (root_uuid : uuid) (env : uuid -> nat -> walk_env).
Implicit Types (s : enclave M) (e : ecall_env E) (m : Z) (o : M).

(** ** Frames *)
Lemma vfs_get_frame s e path flags s1 r :
  vfs_get root_uuid env s e path flags = Done (s1, r) ->
  nexus_vfs_get root_uuid env (ee_walk e) (en_fs s) path flags = Done (en_fs s1, r) /\ s1 = with_fs s (en_fs s1).
Proof. unfold vfs_get. destruct (nexus_vfs_get _ _ _ _ _ _) as [[f r']| |]; cbn; [|done..]. intros [= <- <-]. done. Qed.

Lemma vfs_get_live s e path flags s1 m :
  vfs_get root_uuid env s e path flags = Done (s1, Some m) -> is_Some (object_at s1 m).
Proof.
  intros Hg. apply vfs_get_frame in Hg as [Hg _]. unfold nexus_vfs_get in Hg.
  destruct (nexus_vfs_lookup _ _ _ _ _) as [[f [a|]]| |]; [|done..]. cbn [obind] in Hg.
  destruct (dentry_get_metadata _ _ _ _ _) as [[f2 r]|] eqn:Hd; [|done]. cbn [lift] in Hg. injection Hg as -> ->.
  unfold dentry_get_metadata in Hd. apply bind_Some in Hd as ([f3 ret] & _ & Hd). destruct (negb _); [done|].
  apply bind_Some in Hd as ([f4 m4] & Hd & Heq). unfold get_object in Hd. apply bind_Some in Hd as ([m5 o] & _ & Hd).
  injection Hd as Hf ->. injection Heq as Hf2 ->. unfold object_at. rewrite <- Hf2, <- Hf. cbn. rewrite lookup_insert_eq. eauto.
Qed.

Lemma access_check_frame s e m perm s2 ok :
  access_check s e m perm = Some (s2, ok) ->
  en_fs s2 = en_fs s /\ en_links s2 = en_links s /\ en_xfers s2 = en_xfers s /\
  exists o b log, object_at s m = Some o /\
    bouncer_access_check (ee_prover e) (ee_req e) (en_bouncer s) (meta_of s e m o) perm = Some (b, ok, log) /\
    s2 = add_audit (with_bouncer s b) log.
Proof.
  unfold access_check. destruct (object_at s m) as [o|] eqn:Ho; [|done]. cbn [mbind option_bind].
  destruct (bouncer_access_check _ _ _ _ _) as [[[b ok'] log]|] eqn:Hb; [|done]. cbn [mbind option_bind]. intros [= <- <-].
  split; [done|]. split; [done|]. split; [done|]. by exists o, b, log.
Qed.

(** ** A directory operation that deletes nothing *)
Lemma on_dir_plain {A} s e m op o dn h r (x : A) dn' :
  object_at s m = Some o -> pm_dirnode o = Some (dn, h) ->
  op (FsOps.mk_fs {[m := dn]} h (en_links s) []) = Some (r, x) -> fs_deleted r = [] -> fs_dirs r !! m = Some dn' ->
  on_dir s e m op = Some (with_links (with_fs s (set_object (en_fs s) m (em_set_dir o dn' (fs_heap r)))) (fs_links r), x).
Proof.
  intros Ho Hd Hop Hdel Hdn. unfold on_dir. rewrite Ho. cbn [mbind option_bind]. rewrite Hd. cbn [mbind option_bind].
  rewrite Hop. cbn [mbind option_bind]. rewrite Hdel. cbn [vfs_delete_all mbind option_bind].
  unfold object_at in Ho. rewrite Ho. cbn [mbind option_bind]. by rewrite Hdn.
Qed.

Section create.
Variables (kind : uuid -> nexus_dirent_type) (B : bcache -> Prop).

(** The store takes what it is given, and giving back an object leaves the
    buffers in order. *)
Definition stores e : Prop := forall o b, B b -> exists o' b' t, em_store o b (ee_store e) = Some (o', b', 0, t) /\ B b'.
Definition gives_back e : Prop := forall o b, B b -> B (em_put o b (ee_put e)).1.2.

(** The bouncer lets the request on the object at [path] through. *)
Definition granted s e (path : bytes) (flags perm : Z) : Prop :=
  forall s1 m, vfs_get root_uuid env s e path flags = Done (s1, Some m) -> exists s2, access_check s1 e m perm = Some (s2, true).

(** Storing a directory, and giving it back. *)
Lemma store_current (F : uuid -> option content) s e m o dn h c :
  stores e -> winv root_uuid F kind B (en_fs s) -> object_at s m = Some o -> pm_dirnode o = Some (dn, h) -> F (cm_uuid o) = Some c ->
  exists s1 o1 dn1 h1, metadata_store s e m = Some (s1, 0) /\ winv root_uuid F kind B (en_fs s1) /\
    object_at s1 m = Some o1 /\ cm_uuid o1 = cm_uuid o /\ pm_dirnode o1 = Some (dn1, h1) /\
    (forall m', m' <> m -> object_at s1 m' = object_at s m') /\ en_bouncer s1 = en_bouncer s /\ en_links s1 = en_links s.
Proof.
  intros Hst Hw Ho Hd Hc. pose proof (wi_bufs _ _ _ _ _ Hw) as Hb. pose proof (wi_current _ _ _ _ _ Hw _ _ Ho) as Hcu.
  unfold current in Hcu. rewrite Hd, Hc in Hcu. destruct Hcu as (Hr & Hl & Hmy).
  destruct (Hst o _ Hb) as (o1 & b1 & t1 & Hs1 & Hb1). pose proof (em_store_uuid _ _ _ _ _ _ _ Hs1) as Hu1.
  destruct (em_store_dir _ _ _ _ _ _ _ _ _ _ Hs1 Hd Hr) as (d1 & h1 & Hd1 & Hr1 & Hmy1 & Hl1).
  unfold metadata_store. rewrite Ho. cbn [mbind option_bind]. rewrite Hs1. cbn [mbind option_bind].
  exists (update_object s m o1 b1 t1), o1, d1, h1. split; [done|].
  assert (Hw1 : winv root_uuid F kind B (en_fs (update_object s m o1 b1 t1))).
  { apply (winv_grow root_uuid F kind B F (en_fs s) m o); try done; [|eauto]. unfold current. rewrite Hd1, Hu1, Hc.
    split; [done|]. split; [intros u; by rewrite Hl1|congruence]. }
  split; [done|]. split; [apply lookup_insert_eq|]. split; [done|]. split; [done|].
  split; [intros m' Hne; unfold object_at; cbn; by apply lookup_insert_ne|done].
Qed.

Lemma put_current (F : uuid -> option content) s e m o :
  gives_back e -> winv root_uuid F kind B (en_fs s) -> object_at s m = Some o ->
  exists s1 o1, vfs_put s e m = Some s1 /\ winv root_uuid F kind B (en_fs s1) /\
    object_at s1 m = Some o1 /\ cm_uuid o1 = cm_uuid o /\ pm_dirnode o1 = pm_dirnode o /\
    (forall m', m' <> m -> object_at s1 m' = object_at s m') /\ en_bouncer s1 = en_bouncer s /\ en_links s1 = en_links s.
Proof.
  intros Hgb Hw Ho. pose proof (Hgb o _ (wi_bufs _ _ _ _ _ Hw)) as Hb2. unfold vfs_put. rewrite Ho. cbn [mbind option_bind].
  destruct (em_put o (v_bufs (fs_vfs (en_fs s))) (ee_put e)) as [[o2 b2] t2] eqn:Hp. cbn [fst snd] in Hb2.
  exists (update_object s m o2 b2 t2), o2. split; [done|].
  assert (Hw1 : winv root_uuid F kind B (en_fs (update_object s m o2 b2 t2))).
  { apply (winv_grow root_uuid F kind B F (en_fs s) m o); try done; [by eapply em_put_uuid| |eauto].
    pose proof (wi_current _ _ _ _ _ Hw _ _ Ho) as Hcu. unfold current in *.
    by rewrite (em_put_uuid _ _ _ _ _ _ Hp), (em_put_dir _ _ _ _ _ _ Hp). }
  split; [done|]. split; [apply lookup_insert_eq|]. split; [by eapply em_put_uuid|]. split; [by eapply em_put_dir|].
  split; [intros m' Hne; unfold object_at; cbn; by apply lookup_insert_ne|done].
Qed.

Lemma store_and_put (F : uuid -> option content) s e m o dn h c {A} (x : A) :
  stores e -> gives_back e -> winv root_uuid F kind B (en_fs s) ->
  object_at s m = Some o -> pm_dirnode o = Some (dn, h) -> F (cm_uuid o) = Some c ->
  exists s1 s2, metadata_store s e m = Some (s1, 0) /\ put_and_return s1 e m x = Done (s2, x) /\
    winv root_uuid F kind B (en_fs s2) /\ en_bouncer s2 = en_bouncer s /\ en_links s2 = en_links s.
Proof.
  intros Hst Hgb Hw Ho Hd Hc.
  destruct (store_current F s e m o dn h c Hst Hw Ho Hd Hc) as (s1 & o1 & d1 & h1 & H1 & Hw1 & Ho1 & _ & _ & _ & Hb1 & Hl1).
  destruct (put_current F s1 e m o1 Hgb Hw1 Ho1) as (s2 & o2 & H2 & Hw2 & _ & _ & _ & _ & Hb2 & Hl2).
  exists s1, s2. split; [done|]. split; [unfold put_and_return; by rewrite H2|]. split; [done|]. split; congruence.
Qed.

(** C6: creating a file or a directory under a free name of a directory that
    the path leads to: the ecall returns 0 and the UUID it drew, and
    afterwards the metadata cache, the dentry tree and every loaded object
    agree with the volume in which that directory has the new entry and
    nothing else has changed.  The store answers, nobody else writes to it,
    and the bouncer lets the request through. *)
Theorem ecall_create_refines (F : uuid -> option content) s e path name type pos rem c :
  quiescent root_uuid env F kind B -> answers env F B NEXUS_FRDWR -> winv root_uuid F kind B (en_fs s) ->
  stores e -> gives_back e -> failed (en_new (ee_fs e)) = false -> granted s e path NEXUS_FRDWR PERM_CREATE ->
  Forall (fun x => name_ok x.1) (tokens path) -> name_ok name -> uuid_ok (ee_uuid e) ->
  PathSpec.resolve root_uuid F (ee_walk e) PATH_WALK_NORMAL [] (tokens path) = Some (Some (pos, rem)) ->
  pos_type pos = NEXUS_DIR -> F (pos_uuid root_uuid pos) = Some c -> c_view c !! name = None ->
  Z.of_nat (size (c_view c)) < 2 ^ 29 ->
  exists s', ecall_fs_create root_uuid env s e path name type = Done (s', (0, Some (ee_uuid e))) /\
    winv root_uuid (add_entry F (pos_uuid root_uuid pos) name type (ee_uuid e)) kind B (en_fs s') /\
    en_links s' = en_links s.
Proof.
  intros Hq Han Hw Hst Hgb Hnew Hgr Hok Hn Hu Hres Hdir HF Hfree Hsz.
  destruct (vfs_get_dir root_uuid env F kind B (ee_walk e) (en_fs s) path NEXUS_FRDWR pos rem Hq Han Hw Hok Hres Hdir)
    as (f1 & m & o & dn & h & c' & Hget & Hw1 & Ho & Hou & Hdn & Hc' & Hr & Hl & Hmy). rewrite HF in Hc'. injection Hc' as <-.
  unfold ecall_fs_create. assert (Hvg : vfs_get root_uuid env s e path NEXUS_FRDWR = Done (with_fs s f1, Some m)).
  { unfold vfs_get. by rewrite Hget. }
  rewrite Hvg. cbn [obind]. destruct (Hgr _ _ Hvg) as (s2 & Hac). rewrite Hac. cbn [lift obind negb].
  destruct (access_check_frame _ _ _ _ _ _ Hac) as (Hf2 & Hl2 & _). cbn [with_fs en_fs en_links] in Hf2, Hl2.
  destruct (add_repr dn h (en_rnd (ee_fs e)) name type (ee_uuid e) (c_view c) Hr Hn Hu) as (dn' & h' & ret & Hadd & Hrep);
    [rewrite (entry_count_size _ _ _ Hr); lia|]. rewrite Hfree in Hrep. destruct Hrep as [-> Hrep].
  set (s3 := log_ocalls s2 _).
  assert (Ho3 : object_at s3 m = Some o) by (unfold object_at, s3; cbn; by rewrite Hf2).
  rewrite (on_dir_plain s3 e m _ o dn h (FsOps.mk_fs (<[m := dn']> {[m := dn]}) h' (en_links s3) []) 0 dn' Ho3 Hdn); [|..].
  2:{ unfold nxs_fs_create, buffer_layer_new. rewrite Hnew. cbn [fst negb Z.eqb fs_dirs]. rewrite lookup_singleton_eq.
      cbn [mbind option_bind fs_heap]. rewrite Hadd. done. }
  2:{ done. }
  2:{ apply lookup_insert_eq. }
  cbn [lift obind Z.eqb negb fs_heap FsOps.fs_links]. set (F' := add_entry F _ _ _ _).
  set (o' := em_set_dir o dn' h'). set (s4 := with_links _ _).
  assert (Huo : cm_uuid o' = cm_uuid o) by apply em_set_dir_uuid.
  assert (Hdo : pm_dirnode o' = Some (dn', h')) by (apply em_set_dir_get; by rewrite Hdn).
  assert (Hw4 : winv root_uuid F' kind B (en_fs s4)).
  { unfold F'. rewrite <- Hou. apply (add_entry_winv root_uuid F kind B (en_fs s3) m o o' dn dn' h' c); try done.
    - unfold s3. cbn. rewrite Hf2. destruct Hw1. by split.
    - by eapply add_header.
    - congruence.
    - congruence. }
  destruct (store_and_put F' s4 e m o' dn' h' (mk_content (<[name := (type, ee_uuid e)]> (c_view c)) (c_link c))
    (0, Some (ee_uuid e)) Hst Hgb Hw4) as (s5 & s6 & -> & Hput & Hw6 & _ & Hl6);
    [apply lookup_insert_eq|done|unfold F', add_entry; by rewrite Huo, Hou, decide_True, HF|].
  cbn [lift obind Z.eqb negb]. exists s6. split; [exact Hput|]. split; [done|].
  rewrite Hl6. cbn. by rewrite Hl2.
Qed.
End create.

(** ** The ecalls that ask the bouncer *)
Inductive checked_call :=
  | CCreate (name : bytes) (type : nexus_dirent_type)
  | CRemove (name : bytes)
  | CLookup (name : bytes)
  | CReaddir (count offset : Z)
  | CEncrypt (size : Z)
  | CDecrypt.

Definition call_flags (c : checked_call) : Z :=
  match c with
  | CCreate _ _ | CRemove _ => NEXUS_FRDWR
  | CLookup _ | CReaddir _ _ => NEXUS_FREAD
  | CEncrypt _ => Z.lor NEXUS_FRDWR NEXUS_IO_FCRYPTO
  | CDecrypt => Z.lor NEXUS_FREAD NEXUS_IO_FCRYPTO
  end.
Definition call_perm (c : checked_call) : Z :=
  match c with
  | CCreate _ _ => PERM_CREATE
  | CRemove _ => PERM_DELETE
  | CLookup _ | CReaddir _ _ | CDecrypt => PERM_READ
  | CEncrypt _ => PERM_WRITE
  end.

(** The return code. *)
Definition run_call (c : checked_call) s e (path : bytes) : outcome (enclave M * Z) :=
  match c with
  | CCreate name type => '(s, (ret, _)) <- ecall_fs_create root_uuid env s e path name type;; Done (s, ret)
  | CRemove name => '(s, (ret, _, _)) <- ecall_fs_remove root_uuid env s e path name;; Done (s, ret)
  | CLookup name => '(s, (ret, _)) <- ecall_fs_lookup root_uuid env s e path name;; Done (s, ret)
  | CReaddir count offset => '(s, (ret, _, _)) <- ecall_fs_readdir root_uuid env s e path count offset;; Done (s, ret)
  | CEncrypt size => '(s, (ret, _)) <- ecall_fs_file_encrypt_start root_uuid env s e path size;; Done (s, ret)
  | CDecrypt => '(s, (ret, _)) <- ecall_fs_file_decrypt_start root_uuid env s e path;; Done (s, ret)
  end.

Ltac open_call c := destruct c; cbn [call_flags run_call call_perm] in *;
  unfold ecall_fs_create, ecall_fs_remove, ecall_fs_lookup, ecall_fs_readdir, ecall_fs_file_encrypt_start,
    ecall_fs_file_decrypt_start, nxs_file_crypto_start; cbn [io_mode_of is_encrypt];
  try change (permission_of NEXUS_ENCRYPT) with PERM_WRITE; try change (permission_of NEXUS_DECRYPT) with PERM_READ.

Lemma run_call_denied c s e path s1 m s2 :
  vfs_get root_uuid env s e path (call_flags c) = Done (s1, Some m) -> access_check s1 e m (call_perm c) = Some (s2, false) ->
  run_call c s e path = (s' <- lift (vfs_put s2 e m);; Done (s', -1)).
Proof.
  intros Hg Hac. open_call c; rewrite Hg; cbn [obind]; rewrite Hac; cbn [lift obind negb]; unfold put_and_return;
    by destruct (vfs_put s2 e m).
Qed.

(** What a call that returned 0 has been through. *)
Lemma run_call_checked c s e path s' :
  run_call c s e path = Done (s', 0) ->
  exists s1 m s2, vfs_get root_uuid env s e path (call_flags c) = Done (s1, Some m) /\ access_check s1 e m (call_perm c) = Some (s2, true).
Proof.
  intros Hrun. destruct (vfs_get root_uuid env s e path (call_flags c)) as [[s1 [m|]]| |] eqn:Hg;
    [|exfalso; revert Hrun; open_call c; by rewrite Hg..].
  exists s1, m. destruct (access_check s1 e m (call_perm c)) as [[s2 [|]]|] eqn:Hac; [by exists s2| |].
  - rewrite (run_call_denied _ _ _ _ _ _ _ Hg Hac) in Hrun. by destruct (vfs_put s2 e m).
  - exfalso. revert Hrun. open_call c; rewrite Hg; cbn [obind]; by rewrite Hac.
Qed.

(** C8: create, remove, lookup, readdir and the starts of encryption and
    decryption, when the bouncer denies the request: the call returns -1;
    every directory, every file, the dentry tree, the link counts and the
    transfers are as the path lookup left them, and the only ocalls are those
    of giving the object back. *)
Theorem denied_ecall_changes_nothing c s e path s1 m s2 :
  vfs_get root_uuid env s e path (call_flags c) = Done (s1, Some m) -> access_check s1 e m (call_perm c) = Some (s2, false) ->
  exists s' o b t, run_call c s e path = Done (s', -1) /\ em_put o (v_bufs (fs_vfs (en_fs s1))) (ee_put e) = (b, t) /\
    fs_log (en_fs s') = fs_log (en_fs s1) ++ t /\ fs_dc (en_fs s') = fs_dc (en_fs s1) /\
    en_links s' = en_links s /\ en_xfers s' = en_xfers s /\
    (forall x, pm_dirnode <$> object_at s' x = pm_dirnode <$> object_at s1 x) /\
    (forall x, em_filenode <$> object_at s' x = em_filenode <$> object_at s1 x).
Proof.
  intros Hg Hac. rewrite (run_call_denied _ _ _ _ _ _ _ Hg Hac).
  destruct (access_check_frame _ _ _ _ _ _ Hac) as (Hf & Hl & Hx & o & b & log & Ho & _ & _).
  destruct (vfs_get_frame _ _ _ _ _ _ Hg) as (_ & Hs1). unfold vfs_put, object_at in *. rewrite Hf, Ho. cbn [mbind option_bind].
  destruct (em_put o (v_bufs (fs_vfs (en_fs s1))) (ee_put e)) as [[o' b'] t] eqn:Hp. cbn [lift obind].
  eexists _, o, (o', b'), t. split; [done|]. split; [done|]. cbn. rewrite Hf, Hl, Hx. rewrite Hs1 at 5 6. cbn.
  split; [done|]. split; [done|]. split; [done|]. split; [done|].
  split; intros x; destruct (decide (x = m)) as [->|Hne]; rewrite ?lookup_insert_ne by done; try done; rewrite lookup_insert_eq, Ho; cbn; f_equal.
  - by eapply em_put_dir.
  - by eapply em_put_file.
Qed.

Section policy.
Variable store_at : Z -> list policy_rule.
Hypothesis store_ok : forall v, Forall translatable (store_at v).

(** C5: in every session of a user who is not the owner, a create, remove,
    lookup, readdir or the start of an encryption or a decryption that returns
    0 acted on the object its path leads to, and either the request could not
    be made or the policy store in force has a rule for the call's permission
    all of whose atoms hold of the user and of that object. *)
Theorem successful_ecall_has_policy user c s e path s' :
  reachable store_at user (en_bouncer s) -> env_ok store_at (ee_req e) -> re_owner (ee_req e) = false ->
  (forall s1 m o, vfs_get root_uuid env s e path (call_flags c) = Done (s1, Some m) -> object_at s1 m = Some o ->
     meta_ok (meta_of s1 e m o) /\ length (cm_uuid o) = NEXUS_UUID_SIZE) ->
  run_call c s e path = Done (s', 0) ->
  exists s1 m o b, vfs_get root_uuid env s e path (call_flags c) = Done (s1, Some m) /\ object_at s1 m = Some o /\
    (create_abac_request (ee_req e) (en_bouncer s) (Some (meta_of s1 e m o)) = Some (b, None) \/
     exists p r, perm_type_to_string (call_perm c) = Some p /\ r ∈ store_at (b_policy_version b) /\
       perm_type_to_string (perm_type r) = Some p /\
       rule_true (kb_db (b_kb b)) (nexus_hex_encode user) (nexus_hex_encode (cm_uuid o)) r).
Proof.
  intros Hre He Hown Hmeta Hrun. destruct (run_call_checked _ _ _ _ _ Hrun) as (s1 & m & s2 & Hg & Hac).
  destruct (access_check_frame _ _ _ _ _ _ Hac) as (_ & _ & _ & o & b & log & Ho & Hb & _).
  destruct (vfs_get_frame _ _ _ _ _ _ Hg) as (_ & Hs1). rewrite Hs1 in Hb at 1. cbn [with_fs en_bouncer] in Hb.
  exists s1, m, o, b. split; [done|]. split; [done|]. destruct (Hmeta _ _ _ Hg Ho) as [Hm Hu].
  by apply (grant_has_rule store_at store_ok user _ _ _ _ _ _ log Hre He Hown) in Hb.
Qed.
End policy.

(** ** The ecalls that do not ask *)
Definition with_req e (r : request_env) : ecall_env E :=
  mk_ecall_env (ee_walk e) (ee_prover e) (ee_user e) r (ee_fs e) (ee_uuid e) (ee_draws e) (ee_delete e) (ee_store e) (ee_put e).

Definition omap_state {A} (b : bouncer) (x : outcome (enclave M * A)) : outcome (enclave M * A) :=
  '(s, a) <- x;; Done (with_bouncer s b, a).

Section blind.
Variables (b : bouncer) (r : request_env).

Lemma vfs_get_blind s e path flags :
  vfs_get root_uuid env (with_bouncer s b) (with_req e r) path flags = omap_state b (vfs_get root_uuid env s e path flags).
Proof. unfold vfs_get. cbn. by destruct (nexus_vfs_get _ _ _ _ _ _) as [[f x]| |]. Qed.

Lemma vfs_put_blind s e m {A} (x : A) :
  put_and_return (with_bouncer s b) (with_req e r) m x = omap_state b (put_and_return s e m x).
Proof.
  unfold put_and_return, vfs_put, object_at. cbn [en_fs with_bouncer ee_put with_req]. destruct (_ !! m) as [o|]; [|done].
  cbn [mbind option_bind]. by destruct (em_put _ _ _) as [[o' b'] t].
Qed.

Lemma store_blind s e m :
  lift (metadata_store (with_bouncer s b) (with_req e r) m) = omap_state b (lift (metadata_store s e m)).
Proof.
  unfold metadata_store, object_at. cbn [en_fs with_bouncer ee_store with_req]. destruct (_ !! m) as [o|]; [|done].
  cbn [mbind option_bind]. by destruct (em_store _ _ _) as [[[[o' b'] ret] t]|].
Qed.

Lemma on_dir_blind {A} s e m (op : FsOps.fs -> option (FsOps.fs * A)) :
  lift (on_dir (with_bouncer s b) (with_req e r) m op) = omap_state b (lift (on_dir s e m op)).
Proof.
  unfold on_dir, object_at. cbn [en_fs en_links with_bouncer ee_delete with_req]. destruct (_ !! m) as [o|]; [|done].
  cbn [mbind option_bind]. destruct (pm_dirnode o) as [[dn h]|]; [|done]. cbn [mbind option_bind].
  destruct (op _) as [[x a]|]; [|done]. cbn [mbind option_bind]. destruct (vfs_delete_all _ _ _) as [f|]; [|done].
  cbn [mbind option_bind]. destruct (v_objects (fs_vfs f) !! m); [|done]. cbn [mbind option_bind]. by destruct (fs_dirs x !! m).
Qed.

Lemma obind_blind {A C} (x : outcome (enclave M * A)) (k k' : enclave M * A -> outcome (enclave M * C)) :
  (forall s a, k (with_bouncer s b, a) = omap_state b (k' (s, a))) -> obind k (omap_state b x) = omap_state b (obind k' x).
Proof. intros Hk. destruct x as [[s a]| |]; [|done..]. cbn. apply Hk. Qed.
End blind.

(** Making a symbolic link and reading one never look at the policies:
    with any other state of the bouncer and any other attributes, profile and
    policy store, the calls return the same and do the same to the volume.  A
    user without any permission on a directory can add links to it. *)
Theorem symlinks_ignore_policies s e b r path name target :
  ecall_fs_symlink root_uuid env (with_bouncer s b) (with_req e r) path name target =
    omap_state b (ecall_fs_symlink root_uuid env s e path name target) /\
  ecall_fs_readlink root_uuid env (with_bouncer s b) (with_req e r) path name =
    omap_state b (ecall_fs_readlink root_uuid env s e path name).
Proof.
  split.
  - unfold ecall_fs_symlink. rewrite vfs_get_blind. apply obind_blind. intros s1 [m|]; [|done].
    cbn [ee_uuid ee_fs with_req]. change (log_ocalls (with_bouncer s1 b) ?t) with (with_bouncer (log_ocalls s1 t) b).
    rewrite on_dir_blind. apply obind_blind. intros s2 ret. destruct (negb _); [apply vfs_put_blind|].
    rewrite store_blind. apply obind_blind. intros s3 ret3. destruct (negb _); apply vfs_put_blind.
  - unfold ecall_fs_readlink. rewrite vfs_get_blind. apply obind_blind. intros s1 [m|]; [|done].
    change (object_at (with_bouncer s1 b) m) with (object_at s1 m). destruct (object_at s1 m) as [o|]; [|done]. cbn [lift obind].
    destruct (pm_dirnode o); [|apply vfs_put_blind]. rewrite on_dir_blind. apply obind_blind. intros s2 [t|]; apply vfs_put_blind.
Qed.

Lemma set_filesize_size f size draws f' : filenode_set_filesize f size draws = Some f' -> filesize f' = size.
Proof.
  unfold filenode_set_filesize. destruct (Z.eqb_spec (filesize (filenode_set_dirty f)) size) as [Heq|_]; [by intros [= <-]|].
  destruct (_ =? 0); [by intros [= <-]|]. intros Hs. apply bind_Some in Hs as (l & _ & Hs). by simplify_eq/=.
Qed.

(** [ecall_fs_truncate] goes on after the bouncer has denied the request:
    when the store takes the object, the call returns 0 and the file has the
    new size. *)
Theorem truncate_ignores_denial s e path size st s1 m s2 o f f' :
  vfs_get root_uuid env s e path (Z.lor (Z.lor NEXUS_FRDWR NEXUS_IO_FCRYPTO) NEXUS_IO_FNODE) = Done (s1, Some m) ->
  access_check s1 e m PERM_WRITE = Some (s2, false) ->
  object_at s1 m = Some o -> em_filenode o = Some f -> filenode_set_filesize f size (ee_draws e) = Some f' ->
  (forall x b, exists x' b' t, em_store x b (ee_store e) = Some (x', b', 0, t)) ->
  exists s' st', ecall_fs_truncate root_uuid env s e path size st = Done (s', (0, st')) /\
    exists o' f'', object_at s' m = Some o' /\ em_filenode o' = Some f'' /\ filesize f'' = size.
Proof.
  intros Hg Hac Ho Hf Hset Hst. unfold ecall_fs_truncate. rewrite Hg. cbn [obind]. rewrite Hac. cbn [lift obind negb].
  destruct (access_check_frame _ _ _ _ _ _ Hac) as (Hf2 & _). unfold vfs_put, object_at in *. rewrite Hf2, Ho.
  cbn [mbind option_bind]. destruct (em_put o (v_bufs (fs_vfs (en_fs s1))) (ee_put e)) as [[o1 b1] t1] eqn:Hp1. cbn [lift obind].
  cbn. rewrite lookup_insert_eq. cbn [lift obind]. rewrite (em_put_file _ _ _ _ _ _ Hp1), Hf. cbn [lift obind]. rewrite Hset.
  cbn [lift obind]. set (s3 := with_fs _ _). assert (Ho3 : object_at s3 m = Some (em_set_filenode o1 f')) by apply lookup_insert_eq.
  unfold metadata_store. rewrite Ho3. cbn [mbind option_bind].
  destruct (Hst (em_set_filenode o1 f') (v_bufs (fs_vfs (en_fs s3)))) as (o2 & b2 & t2 & Hs2). rewrite Hs2. cbn [mbind option_bind lift obind Z.eqb negb].
  set (s4 := update_object _ _ _ _ _). assert (Ho4 : object_at s4 m = Some o2) by apply lookup_insert_eq. unfold object_at in Ho4.
  rewrite Ho4. cbn [lift obind].
  assert (Hf1 : em_filenode (em_set_filenode o1 f') = Some f').
  { apply em_set_file_get. rewrite (em_put_file _ _ _ _ _ _ Hp1), Hf. eauto. }
  destruct (em_store_file _ _ _ _ _ _ _ _ Hs2 Hf1) as (f2 & Hf2' & Hsz). rewrite Hf2'. cbn [lift obind].
  unfold put_and_return, vfs_put, object_at. rewrite Ho4. cbn [mbind option_bind].
  destruct (em_put o2 (v_bufs (fs_vfs (en_fs s4))) (ee_put e)) as [[o5 b5] t5] eqn:Hp5. cbn [lift obind]. eexists _, _. split; [done|].
  exists o5, f2. split; [apply lookup_insert_eq|]. rewrite (em_put_file _ _ _ _ _ _ Hp5). split; [done|].
  rewrite Hsz. by eapply set_filesize_size.
Qed.

(** What an operation that deletes nothing has done. *)
Lemma on_dir_inv {A} s e m (op : FsOps.fs -> option (FsOps.fs * A)) s' x :
  on_dir s e m op = Some (s', x) -> (forall t r y, op t = Some (r, y) -> fs_deleted r = fs_deleted t) ->
  exists o dn h r dn', object_at s m = Some o /\ pm_dirnode o = Some (dn, h) /\
    op (FsOps.mk_fs {[m := dn]} h (en_links s) []) = Some (r, x) /\ fs_dirs r !! m = Some dn' /\
    s' = with_links (with_fs s (set_object (en_fs s) m (em_set_dir o dn' (fs_heap r)))) (fs_links r).
Proof.
  unfold on_dir. intros Hon Hdel. apply bind_Some in Hon as (o & Ho & Hon). apply bind_Some in Hon as ([dn h] & Hd & Hon).
  apply bind_Some in Hon as ([r y] & Hop & Hon). rewrite (Hdel _ _ _ Hop) in Hon. cbn [vfs_delete_all mbind option_bind FsOps.fs_deleted] in Hon.
  apply bind_Some in Hon as (_ & _ & Hon). apply bind_Some in Hon as (dn' & Hdn & Hon). simplify_eq. by exists o, dn, h, r, dn'.
Qed.

Lemma lookup_deletes m name (t r : FsOps.fs) y :
  ('(x, ret, entry) ← nxs_fs_lookup t m name; Some (x, (ret, entry))) = Some (r, y) -> fs_deleted r = fs_deleted t.
Proof.
  unfold nxs_fs_lookup. intros Ht. apply bind_Some in Ht as ([[x ret] en] & Hx & Ht). simplify_eq.
  apply bind_Some in Hx as (dn & _ & Hx). destruct (dirnode_find_by_name _ _ _). by simplify_eq.
Qed.

(** A new name, and the object it went to. *)
Lemma hardlink_objects_inv s e link link_name tgt tgt_name s' u :
  link <> tgt -> hardlink_objects s e link link_name tgt tgt_name = Some (s', (0, u)) ->
  exists o dn h dn' h' v, u = Some v /\ object_at s link = Some o /\ pm_dirnode o = Some (dn, h) /\
    dirnode_add dn h (en_rnd (ee_fs e)) link_name NEXUS_REG v = Some (dn', h', 0) /\ object_at s' link = Some (em_set_dir o dn' h').
Proof.
  intros Hne Hh. unfold hardlink_objects in Hh. apply bind_Some in Hh as ([s1 [ret1 entry]] & H1 & Hh).
  apply on_dir_inv in H1; [|intros t r y; by apply lookup_deletes].
  destruct H1 as (ot & dt & ht & rt & dt' & _ & _ & _ & _ & ->). destruct entry as [[type v]|]; [|done].
  destruct (decide _); [done|]. destruct (negb _); [done|]. destruct (negb _); [done|].
  apply bind_Some in Hh as ([s2 ret2] & H2 & Hh). destruct (Z.eqb_spec ret2 0) as [->|]; [|done]. injection Hh as <- <-.
  apply on_dir_inv in H2 as (o & dn & h & r & dn' & Ho & Hd & Hop & Hdn & ->).
  2:{ intros t r y Ht. apply bind_Some in Ht as (d & _ & Ht). apply bind_Some in Ht as ([[d' h'] rr] & _ & Ht). by simplify_eq. }
  change (object_at (with_links ?x _) link) with (object_at x link) in Ho.
  assert (Ho' : object_at s link = Some o) by (unfold object_at in *; cbn in Ho; by rewrite lookup_insert_ne in Ho).
  cbn [fs_dirs] in Hop. rewrite lookup_singleton_eq in Hop. cbn [mbind option_bind fs_heap] in Hop.
  apply bind_Some in Hop as ([[d2 h2] r2] & Hadd & Hop). simplify_eq. cbn [FsOps.set_dir fs_dirs fs_heap] in *.
  rewrite lookup_insert_eq in Hdn. injection Hdn as ->. exists o, dn, h, dn', h2, v. split; [done|]. split; [done|]. split; [done|]. split; [done|].
  unfold object_at. cbn. apply lookup_insert_eq.
Qed.

Lemma store_other s e m m' s' ret : metadata_store s e m = Some (s', ret) -> m' <> m -> object_at s' m' = object_at s m'.
Proof.
  unfold metadata_store. intros Hs Hne. apply bind_Some in Hs as (o & _ & Hs). apply bind_Some in Hs as ([[[o' b] r] t] & _ & Hs).
  simplify_eq. unfold object_at. cbn. by apply lookup_insert_ne.
Qed.

Lemma put_result s e m s' :
  vfs_put s e m = Some s' -> exists o, object_at s m = Some o /\
    object_at s' m = Some (em_put o (v_bufs (fs_vfs (en_fs s))) (ee_put e)).1.1 /\
    forall m', m' <> m -> object_at s' m' = object_at s m'.
Proof.
  unfold vfs_put. intros Hs. apply bind_Some in Hs as (o & Ho & Hs). destruct (em_put _ _ _) as [[o' b] t] eqn:Hp. simplify_eq.
  exists o. split; [done|]. rewrite Hp. split; [apply lookup_insert_eq|]. intros m' Hne. by apply lookup_insert_ne.
Qed.

(** A hard link between two directories: the new name goes to the source
    directory and the destination is what is stored.  When the call returns 0
    the object of the source directory has the new entry and has only been
    given back: no store of it has taken place. *)
Theorem hardlink_leaves_link_unstored s e src_path src_name dst_path dst_name s1 dst s2 src s' u :
  vfs_get root_uuid env s e dst_path NEXUS_FRDWR = Done (s1, Some dst) ->
  strncmp dst_path src_path (Z.to_nat NEXUS_PATH_MAX) <> 0 ->
  vfs_get root_uuid env s1 e src_path NEXUS_FREAD = Done (s2, Some src) -> src <> dst ->
  ecall_fs_hardlink root_uuid env s e src_path src_name dst_path dst_name = Done (s', (0, u)) ->
  exists o dn h dn' h' v b, u = Some v /\ object_at s2 src = Some o /\ pm_dirnode o = Some (dn, h) /\
    dirnode_add dn h (en_rnd (ee_fs e)) src_name NEXUS_REG v = Some (dn', h', 0) /\
    object_at s' src = Some (em_put (em_set_dir o dn' h') b (ee_put e)).1.1.
Proof.
  intros Hd Hcmp Hs Hne. unfold ecall_fs_hardlink, hardlink_get_src. rewrite Hd. cbn [obind].
  rewrite (proj2 (Z.eqb_neq _ _) Hcmp), Hs. cbn [obind].
  destruct (hardlink_objects s2 e src src_name dst dst_name) as [[s3 [ret v]]|] eqn:Hh; [|done]. cbn [lift obind].
  destruct (Z.eqb_spec ret 0) as [->|Hret]; cbn [negb].
  2:{ cbn [obind]. destruct (vfs_put s3 e src) as [s4|]; [|done]. cbn [lift obind]. unfold put_and_return.
      destruct (vfs_put s4 e dst); [|done]. cbn. congruence. }
  destruct (hardlink_objects_inv _ _ _ _ _ _ _ _ Hne Hh) as (o & dn & h & dn' & h' & w & -> & Ho & Hdn & Hadd & Ho3).
  destruct (metadata_store s3 e dst) as [[s4 ret4]|] eqn:Hst; [|done]. cbn [lift obind].
  pose proof (store_other _ _ _ src _ _ Hst Hne) as Ho4.
  assert (Hput : forall ret' out, (s <- lift (vfs_put s4 e src);; put_and_return s e dst (ret', out)) = Done (s', (0, u)) ->
    ret' = 0 /\ out = u /\ exists b, object_at s' src = Some (em_put (em_set_dir o dn' h') b (ee_put e)).1.1).
  { intros ret' out. destruct (vfs_put s4 e src) as [s5|] eqn:H5; [|done]. cbn [lift obind]. unfold put_and_return.
    destruct (vfs_put s5 e dst) as [s6|] eqn:H6; [|done]. cbn [lift obind]. intros [= <- -> ->].
    apply put_result in H5 as (o5 & Ho5 & Hr5 & _). apply put_result in H6 as (_ & _ & _ & Hr6).
    split; [done|]. split; [done|]. rewrite Hr6, Hr5 by done. assert (o5 = em_set_dir o dn' h') as -> by congruence. by eexists. }
  destruct (Z.eqb_spec ret4 0) as [->|Hr4]; cbn [negb obind]; intros Hfin; apply Hput in Hfin as (H0 & <- & b & Hb); [|done].
  by exists o, dn, h, dn', h', w, b.
Qed.
End entry_points.

(** ** A volume whose objects are stored as they are *)
#[export] Instance vol_ecall : EcallMetadata vol_md unit.
Proof.
  refine {| em_version := fun _ => 1; em_table := fun _ => attribute_table_create;
    em_set_dir := fun m d h => mk_vol (vm_uuid m) (Some (d, h)) (vm_file m) (vm_refs m);
    em_filenode := vm_file;
    em_set_filenode := fun m f => mk_vol (vm_uuid m) (vm_dir m) (Some f) (vm_refs m);
    em_store := fun m b _ => Some (m, b, 0, []);
    em_put := fun m b _ => (mk_vol (vm_uuid m) (vm_dir m) (vm_file m) (vm_refs m - 1), b, []) |}.
  all: try done.
  all: try (intros; by simplify_eq).
  - intros o b e o' b' ret t d h v Hs Hd Hr. simplify_eq. by exists d, h.
  - intros o b e o' b' ret t f Hs Hf. simplify_eq. by exists f.
Defined.

Section witnesses.
Local Existing Instance int_number.

Definition owner_env : request_env := mk_req true false None None None true None true.
Definition eng_env : request_env := profile_env (role_table eng) 1.

Definition vol_ee (r : request_env) (u : uuid) : ecall_env unit :=
  mk_ecall_env 5 100 (str "ann") r toy_fsenv u toy_draws reply_ok tt reply_ok.
Definition vol_enclave : enclave vol_md :=
  mk_enclave (fs_start (uuid_const 1) buffer_layer_init) started (hardlink_table_create (uuid_const 1) (uuid_const 9)) toy_xfers [].

Lemma vol_start : winv (uuid_const 1) vol_content vol_kind (fun _ => True) (en_fs vol_enclave).
Proof. by apply start_winv with (env := vol_env); [apply vol_quiescent|]. Qed.

Lemma vol_answers flags : answers (M := vol_md) vol_env vol_content (fun _ => True) flags.
Proof.
  split; [intros o b n Hc _; eexists _, _, _, _; done|]. intros u b n HF Hb.
  apply (q_load _ _ _ _ _ vol_quiescent u b n HF Hb).
Qed.

Lemma owner_granted s u path flags perm : granted (uuid_const 1) vol_env s (vol_ee owner_env u) path flags perm.
Proof.
  intros s1 m Hg. apply vfs_get_live in Hg as [o Ho]. unfold access_check. rewrite Ho. cbn. eauto.
Qed.

Lemma ecall_create_refines_witness :
  exists s', ecall_fs_create (uuid_const 1) vol_env vol_enclave (vol_ee owner_env (uuid_const 8)) [100] [98] NEXUS_REG
      = Done (s', (0, Some (uuid_const 8))) /\
    winv (uuid_const 1) (add_entry vol_content (uuid_const 2) [98] NEXUS_REG (uuid_const 8)) vol_kind (fun _ => True) (en_fs s') /\
    en_links s' = en_links vol_enclave.
Proof.
  apply (ecall_create_refines (uuid_const 1) vol_env vol_kind (fun _ => True) vol_content vol_enclave
    (vol_ee owner_env (uuid_const 8)) [100] [98] NEXUS_REG [([100], NEXUS_DIR, uuid_const 2)] None
    (mk_content one_view (dirnode_get_link one_dir.1))).
  - exact vol_quiescent.
  - apply vol_answers.
  - exact vol_start.
  - intros o b _. eexists _, _, _. done.
  - done.
  - reflexivity.
  - apply owner_granted.
  - apply Forall_singleton. apply vol_names.
  - apply name_b_ok.
  - apply uuid_ok_small. lia.
  - vm_compute. reflexivity.
  - reflexivity.
  - reflexivity.
  - vm_compute. reflexivity.
  - vm_compute. reflexivity.
Defined.

(** The bouncer's answer about the object at a path. *)
Definition answer_is s (e : ecall_env unit) (path : bytes) (flags perm : Z) (ok : bool) : bool :=
  match vfs_get (uuid_const 1) vol_env s e path flags with
  | Done (s1, Some m) => match access_check s1 e m perm with Some (_, r) => Bool.eqb r ok | None => false end
  | _ => false
  end.

Lemma answer_inv s e path flags perm ok :
  answer_is s e path flags perm ok = true ->
  exists s1 m s2, vfs_get (uuid_const 1) vol_env s e path flags = Done (s1, Some m) /\ access_check s1 e m perm = Some (s2, ok).
Proof.
  unfold answer_is. destruct (vfs_get _ _ _ _ _ _) as [[s1 [m|]]| |]; [|done..].
  destruct (access_check s1 e m perm) as [[s2 r]|] eqn:Hac; [|done]. intros ->%eqb_prop. by exists s1, m, s2.
Qed.

Lemma denied_ecall_changes_nothing_witness :
  exists s1 s' o b t, run_call (uuid_const 1) vol_env (CCreate [98] NEXUS_REG) vol_enclave (vol_ee eng_env (uuid_const 8)) [100] = Done (s', -1) /\
    em_put o (v_bufs (fs_vfs (en_fs s1))) reply_ok = (b, t) /\
    fs_log (en_fs s') = fs_log (en_fs s1) ++ t /\ fs_dc (en_fs s') = fs_dc (en_fs s1) /\
    en_links s' = en_links vol_enclave /\ en_xfers s' = en_xfers vol_enclave /\
    (forall x, pm_dirnode <$> object_at s' x = pm_dirnode <$> object_at s1 x) /\
    (forall x, em_filenode <$> object_at s' x = em_filenode <$> object_at s1 x).
Proof.
  destruct (answer_inv vol_enclave (vol_ee eng_env (uuid_const 8)) [100] NEXUS_FRDWR PERM_CREATE false) as (s1 & m & s2 & Hg & Hac);
    [vm_compute; reflexivity|]. exists s1.
  exact (denied_ecall_changes_nothing (uuid_const 1) vol_env (CCreate [98] NEXUS_REG) vol_enclave (vol_ee eng_env (uuid_const 8)) [100] s1 m s2 Hg Hac).
Defined.

Lemma truncate_ignores_denial_witness :
  exists s' st', ecall_fs_truncate (uuid_const 1) vol_env vol_enclave (vol_ee eng_env (uuid_const 8)) [100; 47; 97] 40
      (mk_stat NEXUS_REG 0 [] NEXUS_REG 0 []) = Done (s', (0, st')) /\
    exists m o' f'', object_at s' m = Some o' /\ em_filenode o' = Some f'' /\ filesize f'' = 40.
Proof.
  set (fl := Z.lor (Z.lor NEXUS_FRDWR NEXUS_IO_FCRYPTO) NEXUS_IO_FNODE).
  destruct (answer_inv vol_enclave (vol_ee eng_env (uuid_const 8)) [100; 47; 97] fl PERM_WRITE false)
    as (s1 & m & s2 & Hg & Hac); [vm_compute; reflexivity|].
  assert (Hf : match vfs_get (uuid_const 1) vol_env vol_enclave (vol_ee eng_env (uuid_const 8)) [100; 47; 97] fl with
    | Done (s1, Some m) => o ← object_at s1 m; em_filenode o | _ => None end = Some toy_file) by (vm_compute; reflexivity).
  rewrite Hg in Hf. apply bind_Some in Hf as (o & Ho & Hf).
  assert (Hset : exists f', filenode_set_filesize toy_file 40 toy_draws = Some f') by (eexists; vm_compute; reflexivity).
  destruct Hset as (f' & Hset).
  destruct (truncate_ignores_denial (uuid_const 1) vol_env vol_enclave (vol_ee eng_env (uuid_const 8)) [100; 47; 97] 40
    (mk_stat NEXUS_REG 0 [] NEXUS_REG 0 []) s1 m s2 o toy_file f' Hg Hac Ho Hf Hset) as (s' & st' & Hr & o' & f'' & H1 & H2 & H3).
  - intros x b. eexists _, _, _. reflexivity.
  - exists s', st'. split; [exact Hr|]. exists m, o', f''. exact (conj H1 (conj H2 H3)).
Defined.

Lemma successful_ecall_has_policy_witness :
  exists s' s1 m o b,
    run_call (uuid_const 1) vol_env (CLookup [97]) vol_enclave (vol_ee eng_env (uuid_const 8)) [100] = Done (s', 0) /\
    vfs_get (uuid_const 1) vol_env vol_enclave (vol_ee eng_env (uuid_const 8)) [100] NEXUS_FREAD = Done (s1, Some m) /\
    object_at s1 m = Some o /\
    (create_abac_request eng_env started (Some (meta_of s1 (vol_ee eng_env (uuid_const 8)) m o)) = Some (b, None) \/
     exists p r, perm_type_to_string PERM_READ = Some p /\ r ∈ role_stores eng (b_policy_version b) /\
       perm_type_to_string (perm_type r) = Some p /\
       rule_true (kb_db (b_kb b)) (nexus_hex_encode (uuid_const 20)) (nexus_hex_encode (cm_uuid o)) r).
Proof.
  assert (Hrun : match run_call (uuid_const 1) vol_env (CLookup [97]) vol_enclave (vol_ee eng_env (uuid_const 8)) [100] with
    | Done (_, ret) => ret =? 0 | _ => false end = true) by (vm_compute; reflexivity).
  destruct (run_call _ _ _ _ _ _) as [[s' ret]| |] eqn:Er; [|done..]. apply Z.eqb_eq in Hrun as ->. exists s'.
  assert (Hlen : forall s1 m o, vfs_get (uuid_const 1) vol_env vol_enclave (vol_ee eng_env (uuid_const 8)) [100] NEXUS_FREAD = Done (s1, Some m) ->
    object_at s1 m = Some o -> length (cm_uuid o) = NEXUS_UUID_SIZE).
  { intros s1 m o Hg Ho.
    assert (Hc : match vfs_get (uuid_const 1) vol_env vol_enclave (vol_ee eng_env (uuid_const 8)) [100] NEXUS_FREAD with
      | Done (s1, Some m) => length ∘ cm_uuid <$> object_at s1 m | _ => None end = Some NEXUS_UUID_SIZE) by (vm_compute; reflexivity).
    rewrite Hg, Ho in Hc. by injection Hc. }
  destruct (successful_ecall_has_policy (uuid_const 1) vol_env (role_stores eng) eng_stores_ok (uuid_const 20) (CLookup [97]) vol_enclave
    (vol_ee eng_env (uuid_const 8)) [100] s') as (s1 & m & o & b & H1 & H2 & H3).
  - apply eng_reachable.
  - apply eng_env_ok.
  - reflexivity.
  - intros s1 m o Hg Ho. split; [apply doc_ok|by eapply Hlen].
  - exact Er.
  - exists s1, m, o, b. exact (conj eq_refl (conj H1 (conj H2 H3))).
Defined.

Lemma hardlink_leaves_link_unstored_witness :
  exists s2 src s' o dn h dn' h' v b,
    ecall_fs_hardlink (uuid_const 1) vol_env vol_enclave (vol_ee eng_env (uuid_const 8)) [100] [98] [47] [46; 46; 120] = Done (s', (0, Some v)) /\
    object_at s2 src = Some o /\ pm_dirnode o = Some (dn, h) /\
    dirnode_add dn h (uuid_const 3) [98] NEXUS_REG v = Some (dn', h', 0) /\
    object_at s' src = Some (em_put (em_set_dir o dn' h') b reply_ok).1.1.
Proof.
  set (e := vol_ee eng_env (uuid_const 8)).
  assert (Hgets : match vfs_get (uuid_const 1) vol_env vol_enclave e [47] NEXUS_FRDWR with
    | Done (s1, Some dst) => match vfs_get (uuid_const 1) vol_env s1 e [100] NEXUS_FREAD with
        | Done (s2, Some src) => negb (src =? dst) | _ => false end
    | _ => false end = true) by (vm_compute; reflexivity).
  assert (Hrun : match ecall_fs_hardlink (uuid_const 1) vol_env vol_enclave e [100] [98] [47] [46; 46; 120] with
    | Done (_, (ret, _)) => ret =? 0 | _ => false end = true) by (vm_compute; reflexivity).
  destruct (vfs_get _ _ vol_enclave e [47] NEXUS_FRDWR) as [[s1 [dst|]]| |] eqn:Hd; [|discriminate Hgets..].
  destruct (vfs_get _ _ s1 e [100] NEXUS_FREAD) as [[s2 [src|]]| |] eqn:Hs; [|discriminate Hgets..].
  destruct (ecall_fs_hardlink _ _ _ _ _ _ _ _) as [[s' [ret u]]| |] eqn:Hr; [|discriminate Hrun..]. apply Z.eqb_eq in Hrun as ->.
  destruct (hardlink_leaves_link_unstored (uuid_const 1) vol_env vol_enclave e [100] [98] [47] [46; 46; 120] s1 dst s2 src s' u Hd)
    as (o & dn & h & dn' & h' & v & b & -> & H1 & H2 & H3 & H4).
  - vm_compute. discriminate.
  - exact Hs.
  - intros ->. rewrite Z.eqb_refl in Hgets. discriminate Hgets.
  - exact Hr.
  - exists s2, src, s', o, dn, h, dn', h', v, b. exact (conj eq_refl (conj H1 (conj H2 (conj H3 H4)))).
Defined.
End witnesses.
