(* ===== verification/Rename.v ===== *)
(** * Renaming between directories of the cache

    Models [ecall_fs_rename] of [ecalls/dirs.c] over the metadata cache and the
    dentry tree of [Ecalls.v].  The two directories are objects of their own,
    and so are the heaps of their entries: the entry that moves gets an address
    in the other heap ([move_cell]), where [Dirnode.dirnode_rename] has both
    directories in one.  The theorem is that on a quiescent volume the cache,
    the tree and the loaded objects become those of the volume in which the
    entry has moved, and that moving a cached directory into itself reads
    through a null dentry. *)
From stdpp Require Import strings.
From S2P Require Import Prelude Hashmap Types AttributeTable Dirnode DirnodeSpec Gcm Crypto BufferLayer CryptoBuf.
From S2P Require Import Filenode FileCrypto HardlinkTable FsOps Metadata Lru Vfs Dentry PathWalk PathSpec PathProps.
From S2P Require Import AbacValue AbacRule SystemFunctions AuditLog Datalog Bouncer BouncerProps Ecalls EcallProps.

(** ** Two directories, two heaps *)
(** The cell at [a] leaves one heap and gets an address in the other. *)
Definition move_cell (src dst : dheap) (a : Z) : option (dheap * dheap * Z) :=
  c ← cells src !! a;
  Some (mk_dheap (delete a (cells src)) (next_addr src),
        mk_dheap (<[next_addr dst := c]> (cells dst)) (next_addr dst + 1), next_addr dst).

(** [dirnode_rename] from [sd] to another directory [dd]. *)
Definition dirnode_rename_between (sd : nexus_dirnode) (sh : dheap) (dd : nexus_dirnode) (dh : dheap)
    (rnd : uuid) (oldname newname : bytes)
    : option (nexus_dirnode * dheap * nexus_dirnode * dheap * rename_result) :=
  let '(sd, so) := find_by_name sd oldname in
  match so with
  | None => Some (sd, sh, dd, dh, mk_rename (-1) None None)
  | Some sa =>
      let '(dd, dst_direntry) := find_by_name dd newname in
      '(dd, dh, over) ←
        match dst_direntry with
        | None => Some (dd, dh, None)
        | Some da =>
            de ← cells dh !! da;
            '(dd, dh) ← dirnode_clobber_dir_entry dd dh da;
            Some (dd, dh, Some (link_uuid (de_rec de), dr_type (de_rec de)))
        end;
      '(sd, sh) ← dirnode_del_direntry sd sh sa;
      '(sh, dh, a) ← move_cell sh dh sa;
      dh ← rename_dir_entry dh a newname;
      '(dd, dh) ← dirnode_add_direntry dd dh rnd a;
      de ← cells dh !! a;
      let u := link_uuid (de_rec de) in
      let '(sd, _, path) := remove_symlink sd u in
      let dd := match path with Some p => dirnode_add_symlink dd u p | None => dd end in
      Some (sd, sh, dd, dh, mk_rename 0 (Some (u, dr_type (de_rec de))) over)
  end.

Section between.
Implicit Types (d sd dd : nexus_dirnode) (h sh dh : dheap) (n : bytes) (v vs vt : dir_view)
  (gn : gmap bytes Z) (gu : gmap uuid Z).

Lemma del_direntry_header d h a d' h' : dirnode_del_direntry d h a = Some (d', h') -> same_header d d'.
Proof.
  unfold dirnode_del_direntry. intros Hd. apply bind_Some in Hd as (de & _ & Hd). apply bind_Some in Hd as (p & _ & Hd).
  apply bind_Some in Hd as ([i b] & _ & Hd). apply bind_Some in Hd as ([[b1 h1] x] & _ & Hd). by simplify_eq/=.
Qed.

Lemma clobber_header d h a d' h' : dirnode_clobber_dir_entry d h a = Some (d', h') -> same_header d d'.
Proof.
  unfold dirnode_clobber_dir_entry. intros Hd. apply bind_Some in Hd as ([d1 h1] & Hdel & Hd).
  apply bind_Some in Hd as (h2 & _ & Hd). simplify_eq. by eapply del_direntry_header.
Qed.

Lemma header_trans d1 d2 d3 : same_header d1 d2 -> same_header d2 d3 -> same_header d1 d3.
Proof. intros [H1 H2] [H3 H4]. split; congruence. Qed.

(** Making room for the new name. *)
Lemma overwrite_between dd dh gn gu new :
  dn_inv (cells dh) (next_addr dh) dd gn gu -> Z.of_nat (length (dirents_list dd)) < 2 ^ 29 ->
  exists dd' dh' gu',
    match gn !! new with
    | None => Some (dd, dh, None)
    | Some da =>
        de ← cells dh !! da;
        '(dd, dh) ← dirnode_clobber_dir_entry dd dh da;
        Some (dd, dh, Some (link_uuid (de_rec de), dr_type (de_rec de)))
    end = Some (dd', dh', (fun l => (l.2, l.1)) <$> view (cells dh) gn !! new) /\
    dn_inv (cells dh') (next_addr dh') dd' (delete new gn) gu' /\ same_header dd dd' /\
    (length (dirents_list dd') <= length (dirents_list dd))%nat /\ next_addr dh' = next_addr dh /\
    view (cells dh') (delete new gn) = delete new (view (cells dh) gn).
Proof.
  intros Hi Hsz. rewrite view_lookup. destruct (gn !! new) as [da|] eqn:Hgn; simpl.
  - destruct (di_cell _ _ _ _ _ Hi _ _ Hgn) as (_ & de & Hc & _). unfold link_of. rewrite Hc. cbn [mbind option_bind].
    destruct (clobber_spec dd dh gn gu new da Hi Hgn) as (d3 & h' & gu' & Hcl & Hi3 & Hdl & Hc' & Hn' & _); [lia|].
    rewrite Hcl. exists d3, h', gu'. split; [done|]. split; [done|]. split; [by eapply clobber_header|].
    split; [rewrite Hdl; apply dirents_le_remove|]. split; [done|].
    rewrite <- view_delete. apply view_frame. intros m x [Hm Hx]%lookup_delete_Some. unfold link_of. rewrite Hc'.
    rewrite lookup_delete_ne; [done|]. intros ->. apply Hm. by eapply (dn_addr_inj _ _ dd).
  - exists dd, dh, gu. rewrite !delete_id by (done || (by rewrite view_lookup, Hgn)). done.
Qed.

(** The moved entry under its new name. *)
Lemma attach_moved dd dh rnd gn gu r new sh a :
  dn_inv (cells dh) (next_addr dh) dd gn gu -> 0 < next_addr dh ->
  cells sh !! a = Some {| de_bucket := None; de_rec := r |} -> rec_ok r -> name_ok new -> gn !! new = None ->
  Z.of_nat (length (dirents_list dd)) < 2 ^ 29 ->
  exists dh1 b dh2 dd' dh' gu' p r',
    move_cell sh dh a = Some (mk_dheap (delete a (cells sh)) (next_addr sh), dh1, b) /\
    rename_dir_entry dh1 b new = Some dh2 /\ dirnode_add_direntry dd dh2 rnd b = Some (dd', dh') /\
    dn_inv (cells dh') (next_addr dh') dd' (<[new := b]> gn) gu' /\ same_header dd dd' /\ 0 < next_addr dh' /\
    cells dh' !! b = Some {| de_bucket := Some p; de_rec := r' |} /\ dr_type r' = dr_type r /\ link_uuid r' = link_uuid r /\
    view (cells dh') (<[new := b]> gn) = <[new := (dr_type r, link_uuid r)]> (view (cells dh) gn).
Proof.
  intros Hi Hnx Hc Hr Hn Hg Hsz. unfold move_cell. rewrite Hc. cbn [mbind option_bind].
  set (b := next_addr dh). set (dh1 := mk_dheap (<[b := _]> (cells dh)) (b + 1)).
  assert (Hfr : b ∉ dirents_list dd) by (by eapply fresh_not_in in Hi).
  assert (Hi1 : dn_inv (cells dh1) (next_addr dh1) dd gn gu).
  { eapply dn_inv_frame; [exact Hi|unfold dh1; simpl; lia|]. intros x Hx. apply lookup_insert_ne. by intros <-. }
  destruct (attach_renamed dd dh1 rnd gn gu b r new Hi1)
    as (dh2 & dd' & dh' & gu' & Hren & Hadd & Hi' & (p & r' & Hc' & Ht & Hu) & Hf & Hnx' & _);
    [apply lookup_insert_eq|done|done|unfold dh1, b in *; simpl; lia|done|done|done|].
  exists dh1, b, dh2, dd', dh', gu', p, r'. split_and!; try done.
  - by eapply add_direntry_header.
  - unfold dh1, b in *. simpl in *. lia.
  - assert (Hno : forall m x, gn !! m = Some x -> x <> b).
    { intros m x Hm ->. apply Hfr. by eapply (in_dirents _ _ dd). }
    rewrite (view_gained (cells dh1) (cells dh') gn b new (dr_type r, link_uuid r) Hf); [|unfold link_of; rewrite Hc'; simpl; by rewrite Ht, Hu|done].
    f_equal. apply view_frame. intros m x Hm. unfold link_of, dh1. simpl. rewrite lookup_insert_ne; [done|]. symmetry. by eapply Hno.
Qed.
(** Each symlink of a directory is there once. *)
Definition links_ok d : Prop := Forall (fun l => uuid_ok (sl_uuid l)) (symlink_list d) /\ NoDup (sl_uuid <$> symlink_list d).

(** The links of a directory after one has been taken out, and after one has
    been put in. *)
Definition link_removed (link : uuid -> option bytes) (u x : uuid) : option bytes :=
  if decide (x = u) then None else link x.
Definition link_added (link : uuid -> option bytes) (u : uuid) (target : option bytes) (x : uuid) : option bytes :=
  match link x with Some t => Some t | None => if decide (x = u) then target else None end.

Definition find_in (l : list symlink_entry) (x : uuid) : option (nat * symlink_entry) :=
  list_find (fun s => nexus_uuid_compare (sl_uuid s) x = 0) l.

Lemma snd_shift (r : option (nat * symlink_entry)) : snd <$> (prod_map S id <$> r) = snd <$> r.
Proof. by destruct r as [[k e]|]. Qed.

(** Taking out the one entry of [u]. *)
Lemma find_removed l u i e x :
  Forall (fun s => uuid_ok (sl_uuid s)) l -> NoDup (sl_uuid <$> l) -> uuid_ok u -> uuid_ok x -> find_in l u = Some (i, e) ->
  snd <$> find_in (delete i l) x = if decide (x = u) then None else snd <$> find_in l x.
Proof.
  intros Hok Hnd Hu Hx Hf. unfold find_in in *. revert i Hf. induction l as [|s l IH]; intros i Hf; [done|].
  apply Forall_cons in Hok as [Hs Hok]. apply NoDup_cons in Hnd as [Hns Hnd]. cbn [list_find] in Hf |- *.
  destruct (decide (nexus_uuid_compare (sl_uuid s) u = 0)) as [Hsu|Hsu].
  - injection Hf as <- <-. apply uuid_compare_eq in Hsu; [|done..]. cbn [delete list_delete]. case_decide as Hxu.
    + subst x. destruct (list_find _ l) as [[k e]|] eqn:El; [|done]. exfalso. apply list_find_Some in El as (He & Hm & _).
      apply Hns. rewrite Hsu. pose proof (Forall_lookup_1 _ _ _ _ Hok He) as Hue. cbn beta in Hue. apply uuid_compare_eq in Hm; [|done..].
      rewrite <- Hm. apply list_elem_of_fmap. exists e. split; [done|]. by eapply list_elem_of_lookup_2.
    + rewrite decide_False; [symmetry; apply snd_shift|]. rewrite uuid_compare_eq by done. congruence.
  - destruct (list_find (fun s => nexus_uuid_compare (sl_uuid s) u = 0) l) as [[k e']|] eqn:El; [|done]. cbn in Hf. injection Hf as <- ->.
    specialize (IH Hok Hnd k eq_refl). cbn [delete list_delete list_find].
    destruct (decide (nexus_uuid_compare (sl_uuid s) x = 0)) as [Hsx|Hsx].
    + rewrite decide_False; [done|]. intros ->. done.
    + rewrite !snd_shift. exact IH.
Qed.

(** The target of a symlink moves with its entry. *)
Lemma moved_link sd dd u :
  uuid_ok u -> (is_Some (dirnode_get_link sd u) -> links_ok sd) ->
  match remove_symlink sd u with
  | (sd', _, path) =>
      let dd' := match path with Some p => dirnode_add_symlink dd u p | None => dd end in
      forall x, uuid_ok x -> dirnode_get_link sd' x = link_removed (dirnode_get_link sd) u x /\
        dirnode_get_link dd' x = link_added (dirnode_get_link dd) u (dirnode_get_link sd u) x
  end.
Proof.
  intros Hu. unfold remove_symlink, dirnode_get_link, link_removed, link_added, find_symlink. fold (find_in (symlink_list sd) u).
  destruct (find_in (symlink_list sd) u) as [[i sl]|] eqn:Ef; cbn [mbind option_bind].
  - intros Hl x Hx. destruct (Hl (mk_is_Some _ _ eq_refl)) as [Hok Hnd]. split.
    + pose proof (find_removed _ u i sl x Hok Hnd Hu Hx Ef) as Hr. unfold find_in in Hr. cbn [symlink_list with_symlinks].
      destruct (list_find _ (delete i _)) as [[k e]|], (list_find _ (symlink_list sd)) as [[k' e']|]; cbn in Hr |- *; case_decide; congruence.
    + unfold dirnode_add_symlink, dirnode_set_dirty. cbn [snd target_path].
      set (p := take (Z.to_nat NEXUS_PATH_MAX) (target_path sl)).
      assert (Hp : take (Z.to_nat NEXUS_PATH_MAX) (take (Z.to_nat (Z.of_nat (strnlen p (Z.to_nat NEXUS_PATH_MAX)))) p) = p).
      { assert (length p <= Z.to_nat NEXUS_PATH_MAX)%nat by (unfold p; rewrite length_take; lia).
        unfold strnlen. rewrite Nat2Z.id, (take_ge p) by lia. by apply take_ge. }
      set (e := {| total_len := _; sl_uuid := u; target_len := _; target_path := _ |}).
      match goal with |- context [symlink_list (clear_last_failed_lookup ?d)] => change (symlink_list (clear_last_failed_lookup d)) with (symlink_list dd ++ [e]) end.
      destruct (list_find (fun s => nexus_uuid_compare (sl_uuid s) x = 0) (symlink_list dd)) as [[k e']|] eqn:Ed.
      * by rewrite (list_find_app_l _ _ _ _ _ Ed).
      * rewrite list_find_app_r by done. cbn [list_find]. case_decide as Hm.
        -- apply uuid_compare_eq in Hm; [|done..]. cbn [sl_uuid e] in Hm. rewrite decide_True by done. cbn. by rewrite Hp.
        -- rewrite decide_False; [done|]. intros ->. apply Hm. by apply uuid_compare_eq.
  - intros _ x Hx. unfold find_in in Ef. split; [case_decide as Hxu; [by subst; rewrite Ef|done]|].
    destruct (list_find _ (symlink_list dd)) as [[k e]|]; [done|]. by case_decide.
Qed.

(** Renaming from one directory to another: a missing source changes neither;
    otherwise the link leaves the first and is bound to the new name in the
    second, replacing and reporting what was there, with its target when it is
    a symlink. *)
Lemma rename_between_spec sd sh dd dh rnd vs vt old new :
  dir_repr sh sd vs -> dir_repr dh dd vt -> name_ok old -> name_ok new ->
  dir_entry_count sd < 2 ^ 29 -> dir_entry_count dd < 2 ^ 29 ->
  exists sd' sh' dd' dh' res, dirnode_rename_between sd sh dd dh rnd old new = Some (sd', sh', dd', dh', res) /\
    match vs !! old with
    | None => rn_ret res = -1 /\ dir_repr sh' sd' vs /\ same_header sd sd' /\ dd' = dd /\ dh' = dh
    | Some link => rn_ret res = 0 /\ rn_src res = Some (link.2, link.1) /\
        rn_overwrite res = (fun l => (l.2, l.1)) <$> vt !! new /\
        dir_repr sh' sd' (delete old vs) /\ dir_repr dh' dd' (<[new := link]> vt) /\
        my_uuid sd' = my_uuid sd /\ my_uuid dd' = my_uuid dd /\ uuid_ok link.2 /\
        ((is_Some (dirnode_get_link sd link.2) -> links_ok sd) -> forall x, uuid_ok x ->
          dirnode_get_link sd' x = link_removed (dirnode_get_link sd) link.2 x /\
          dirnode_get_link dd' x = link_added (dirnode_get_link dd) link.2 (dirnode_get_link sd link.2) x)
    end.
Proof.
  intros (Hnxs & gns & gus & His & ->) (Hnxt & gnt & gut & Hit & ->) Hold Hnew Hcs Hct.
  apply (repr_count _ _ _ _ _ His) in Hcs. apply (repr_count _ _ _ _ _ Hit) in Hct.
  unfold dirnode_rename_between. pose proof (find_header sd old) as Hhs.
  destruct (find_by_name_spec _ _ _ _ _ old His Hold) as (l & Hf & His1). rewrite Hf in *. cbn [fst] in Hhs.
  set (sd1 := with_lookup sd l _) in *. rewrite view_lookup. destruct (gns !! old) as [sa|] eqn:Hgo; cbn [mbind option_bind].
  2:{ eexists _, _, _, _, _. split; [done|]. split; [done|]. split; [split; [done|]; eauto|done]. }
  pose proof (find_header dd new) as Hht. destruct (find_by_name_spec _ _ _ _ _ new Hit Hnew) as (l2 & Hf2 & Hit1).
  rewrite Hf2 in *. cbn [fst] in Hht. set (dd1 := with_lookup dd l2 _) in *.
  destruct (overwrite_between dd1 dh gnt gut new Hit1) as (dd2 & dh2 & gut2 & -> & Hit2 & Hh2 & Hlen & Hnx2 & Hv2); [done|].
  cbn [mbind option_bind].
  destruct (dirnode_del_direntry_spec sd1 sh gns gus old sa His1 Hgo)
    as (sd2 & sh2 & r & gus2 & Hdel & His2 & _ & Hdl & (p0 & Hc) & _ & Hr & Hc2 & Hnxs2 & _); [simpl; lia|].
  rewrite Hdel. cbn [mbind option_bind]. rewrite (link_at sh sa _ _ Hc).
  destruct (attach_moved dd2 dh2 rnd (delete new gnt) gut2 r new sh2 sa Hit2)
    as (dh3 & b & dh4 & dd3 & dh5 & gut3 & p & r' & -> & Hren & Hadd & Hit3 & Hh3 & Hnx5 & Hc5 & Ht & Hu & Hv5);
    [lia|rewrite Hc2; apply lookup_insert_eq|done|done|apply lookup_delete_eq|simpl in Hlen; lia|].
  cbn [mbind option_bind]. rewrite Hren. cbn [mbind option_bind]. rewrite Hadd. cbn [mbind option_bind]. rewrite Hc5.
  cbn [mbind option_bind de_rec]. rewrite Hu, Ht.
  assert (Hhs2 : same_header sd sd2) by (eapply header_trans; [exact Hhs|by eapply del_direntry_header]).
  assert (Hht3 : same_header dd dd3) by (eapply header_trans; [exact Hht|]; by eapply header_trans).
  pose proof (moved_link sd2 dd3 (link_uuid r) (Dirnode.ro_uuid _ Hr)) as Hlk.
  assert (Hsd : forall gn gu C nx, dn_inv C nx sd2 gn gu -> dn_inv C nx (remove_symlink sd2 (link_uuid r)).1.1 gn gu /\
    my_uuid (remove_symlink sd2 (link_uuid r)).1.1 = my_uuid sd2).
  { intros. unfold remove_symlink. destruct (find_symlink _ _) as [[i sl]|]; [split; [by apply dn_inv_symlinks|done]|done]. }
  destruct (remove_symlink sd2 (link_uuid r)) as [[sd3 osl] path]. cbn [fst] in Hsd.
  destruct (Hsd _ _ _ _ His2) as [His3 Hmy3].
  eexists _, _, _, _, _. split; [done|]. cbn [rn_ret rn_src rn_overwrite fst snd].
  split; [done|]. split; [done|]. split; [done|]. split; [|split; [|split; [|split; [|split]]]].
  - split; [simpl; lia|]. exists (delete old gns), gus2. split.
    + eapply dn_inv_frame; [exact His3|simpl; lia|]. intros y Hy. apply lookup_delete_ne. intros <-.
      apply (di_dom _ _ _ _ _ His3) in Hy as [m [Hm Hy]%lookup_delete_Some]. apply Hm. by eapply (dn_addr_inj _ _ sd).
    + rewrite <- view_delete. apply view_frame. intros m y [Hm Hy]%lookup_delete_Some. unfold link_of. simpl.
      assert (y <> sa) by (intros ->; apply Hm; by eapply (dn_addr_inj _ _ sd)).
      by rewrite lookup_delete_ne, Hc2, lookup_insert_ne.
  - split; [done|]. exists (<[new := b]> (delete new gnt)), gut3. split.
    + destruct path; [apply dn_inv_dirty; by apply dn_inv_symlinks|done].
    + rewrite Hv5, Hv2. by rewrite insert_delete_eq.
  - destruct Hhs2. congruence.
  - destruct Hht3 as [<- _]. by destruct path.
  - apply Hr.
  - unfold links_ok. destruct Hhs2 as [_ Hsl2]. rewrite <- Hsl2. intros Hl y Hx.
    assert (E1 : forall z, dirnode_get_link sd2 z = dirnode_get_link sd z) by (intros z; unfold dirnode_get_link, find_symlink; by rewrite Hsl2).
    assert (E2 : forall z, dirnode_get_link dd3 z = dirnode_get_link dd z) by (intros z; by apply header_link).
    unfold link_removed, link_added in *. rewrite <- E1, <- E1, <- E2. apply Hlk; [by rewrite E1|done].
Qed.
End between.

(** ** The ecall *)
Section rename_ecall.
Context {M E : Type} {CM : CachedMetadata M} {PM : PathMetadata M} {EM : EcallMetadata M E} `{LuaNumber}.
Variables (root_uuid : uuid) (env : uuid -> nat -> walk_env).
Implicit Types (s : enclave M) (e : ecall_env E) (m : Z) (o : M) (old new : bytes).

(** [from_metadata], [tmp_metadata], and whether [to_metadata] is set. *)
Definition rename_dirs s e (from_dirpath to_dirpath : bytes) : outcome (enclave M * (option Z * option Z * bool)) :=
  if strncmp from_dirpath to_dirpath (Z.to_nat NEXUS_PATH_MAX) =? 0 then
    '(s, r) <- vfs_get root_uuid env s e from_dirpath NEXUS_FRDWR;; Done (s, (r, r, false))
  else
    '(f, from_dentry) <- nexus_vfs_lookup root_uuid env (ee_walk e) (en_fs s) from_dirpath;;
    '(f, to_dentry) <- nexus_vfs_lookup root_uuid env (ee_walk e) f to_dirpath;;
    match from_dentry, to_dentry with
    | Some a, Some b =>
        '(f, from) <- lift (dentry_get_metadata root_uuid env f a NEXUS_FRDWR);;
        if a =? b then Done (with_fs s f, (from, from, false))
        else '(f, to) <- lift (dentry_get_metadata root_uuid env f b NEXUS_FRDWR);; Done (with_fs s f, (from, to, true))
    | _, _ => Done (with_fs s f, (None, None, false))
    end.

(** [dentry_delete_child] on the dentry of an object. *)
Definition forget_child s m (name : bytes) : option (enclave M) :=
  d ← metadata_get_dentry (fs_dc (en_fs s)) m;
  dc ← dentry_delete_child (fs_dc (en_fs s)) d name;
  Some (with_fs s (set_dc (en_fs s) dc)).

(** [__nxs_fs_rename] on the dirnodes of two objects, or twice the same.
    [tmp_type] stays 0, so nothing is removed ([FsOps.nxs_fs_rename]). *)
Definition rename_objects s e (from : Z) old (to : Z) new : option (enclave M * (Z * rename_result)) :=
  if from =? to then on_dir s e from (fun x => '(x, ret, r) ← nxs_fs_rename x (ee_fs e) from old from new; Some (x, (ret, r)))
  else
    o ← object_at s from;
    '(sd, sh) ← pm_dirnode o;
    t ← object_at s to;
    '(dd, dh) ← pm_dirnode t;
    '(sd, sh, dd, dh, r) ← dirnode_rename_between sd sh dd dh (en_rnd (ee_fs e)) old new;
    let f := set_object (en_fs s) from (em_set_dir o sd sh) in
    Some (with_fs s (set_object f to (em_set_dir t dd dh)), (if rn_ret r =? 0 then 0 else -1, r)).

(** From [do_rename] to the stores: the return code and the UUID of the entry.
    [e'] is what the store answers about the second directory. *)
Definition do_rename s e e' (from : Z) old (to : Z) new (two : bool) : option (enclave M * (Z * option uuid)) :=
  s ← forget_child s from old;
  s ← forget_child s to new;
  '(s, (ret, r)) ← rename_objects s e from old to new;
  let u := fst <$> rn_src r in
  if negb (ret =? 0) then Some (s, (ret, None))
  else
    '(s, ret) ← metadata_store s e from;
    if negb (ret =? 0) then Some (s, (ret, None))
    else if two then '(s, ret) ← metadata_store s e' to; Some (s, (ret, if ret =? 0 then u else None))
    else Some (s, (0, u)).

(** [goto out]. *)
Definition rename_out {A} s e e' (from to : Z) (two : bool) (x : A) : outcome (enclave M * A) :=
  s <- lift (vfs_put s e from);;
  if two then put_and_return s e' to x else Done (s, x).

(** The copy of [existing_entry] is to [&overwrite_entry_out], the parameter
    itself: it holds a pointer. *)
Definition SIZEOF_POINTER : Z := 8.
Definition SIZEOF_FS_LOOKUP : Z := Z.of_nat NEXUS_UUID_SIZE + 4.
Definition copy_to_param (room n : Z) : option unit := if n <=? room then Some tt else None.

Definition ecall_fs_rename s e e' (from_dirpath : bytes) old (to_dirpath : bytes) new : outcome (enclave M * (Z * option uuid)) :=
  '(s, (from, to, two)) <- rename_dirs s e from_dirpath to_dirpath;;
  match from, to with
  | None, _ => Done (s, (-1, None))
  | Some from, None => put_and_return s e from (-1, None)
  | Some from, Some to =>
      '(s, (ret, u)) <- lift (do_rename s e e' from old to new two);;
      if negb (ret =? 0) then rename_out s e e' from to two (ret, None)
      else
        _ <- lift (copy_to_param SIZEOF_POINTER SIZEOF_FS_LOOKUP);;
        rename_out s e e' from to two (0, u)
  end.

(** ** The dentry tree *)
(** No dentry is cached for an entry of a directory. *)
Definition uncached (dc : dcache) (dir : uuid) (name : bytes) : Prop :=
  forall x dx p dp, dents dc !! x = Some dx -> d_parent dx = Some p -> dents dc !! p = Some dp -> d_link dp = dir -> d_name dx <> name.

(** The directory of the object [m] has the dentry [a] and no other. *)
Definition only_dentry (dc : dcache) (a m : Z) (dir : uuid) : Prop :=
  (exists d, dents dc !! a = Some d /\ d_metadata d = Some m) /\
  forall x dx, dents dc !! x = Some dx -> d_link dx = dir -> x = a.

Definition child_named (dc : dcache) (a c : Z) (name : bytes) : Prop :=
  exists d, dents dc !! c = Some d /\ d_parent d = Some a /\ d_name d = name.

(** The volume with other content in a directory. *)
Definition with_content (F : uuid -> option content) (dir : uuid) (c : content) : uuid -> option content :=
  fun x => if decide (x = dir) then Some c else F x.

(** The links of two directories once the entry of [u] has moved from the one
    to the other: a symlink takes its target along. *)
Definition target_moves (cf ct : content) (u : uuid) (lf lt : uuid -> option bytes) : Prop :=
  forall x, uuid_ok x -> lf x = link_removed (c_link cf) u x /\ lt x = link_added (c_link ct) u (c_link cf u) x.

Section tree.
Variables (kind : uuid -> nexus_dirent_type) (B : bcache -> Prop) (F : uuid -> option content).

Lemma only_dentry_found (f : PathWalk.fs M) a m o :
  winv root_uuid F kind B f -> v_objects (fs_vfs f) !! m = Some o -> only_dentry (fs_dc f) a m (cm_uuid o) ->
  metadata_get_dentry (fs_dc f) m = Some a /\ exists d, dents (fs_dc f) !! a = Some d /\ d_link d = cm_uuid o.
Proof.
  intros Hw Ho ((d & Hd & Hm) & Hall). destruct (di_meta _ _ (wi_tree _ _ _ _ _ Hw) _ _ _ Hd Hm) as (_ & l & Hl & Hin).
  destruct (di_links _ _ (wi_tree _ _ _ _ _ Hw) _ _ Hl) as (_ & Hn & Hback). split.
  2:{ exists d. split; [done|]. symmetry. by eapply (wi_uuid _ _ _ _ _ Hw). }
  unfold metadata_get_dentry, links_of. rewrite Hl. cbn [from_option id]. destruct (dentry_list l) as [|x l'] eqn:El.
  { by apply not_elem_of_nil in Hin. }
  rewrite Hn. cbn [length]. rewrite (proj2 (Z.eqb_neq _ _)) by lia. cbn [head]. f_equal.
  destruct (Hback x) as (dx & Hx & Hmx); [by left|]. apply (Hall x dx Hx). symmetry. by eapply (wi_uuid _ _ _ _ _ Hw).
Qed.

(** What a deletion leaves of the other dentries. *)
Lemma delete_frame (live : Z -> Prop) dc c (e : nexus_dentry) a dc' :
  dinv live dc -> dents dc !! c = Some e -> d_parent e = Some a -> dentry_delete dc c = Some dc' ->
  (forall dir name, uncached dc dir name -> uncached dc' dir name) /\
  (forall b m dir, b <> c -> only_dentry dc b m dir -> only_dentry dc' b m dir) /\
  (forall x dx m, dents dc' !! x = Some dx -> d_metadata dx = Some m -> x <> c /\ exists d0, dents dc !! x = Some d0 /\ d_link dx = d_link d0) /\
  (forall x dx, x <> c -> dents dc !! x = Some dx -> exists dx', dents dc' !! x = Some dx' /\ d_parent dx' = d_parent dx /\ d_name dx' = d_name dx).
Proof.
  intros Hi Hc Hp Hdel. destruct (dentry_delete_spec _ _ c e a Hi Hc Hp) as (dc1 & dp & Hd & _ & _ & _ & Hx & Ha & Ha' & Hc').
  rewrite Hdel in Hd. injection Hd as <-.
  assert (Hold : forall x dx, dents dc' !! x = Some dx -> exists d0, dents dc !! x = Some d0 /\ d_link dx = d_link d0 /\
    d_name dx = d_name d0 /\ (d_parent dx = None \/ d_parent dx = d_parent d0)).
  { intros x dx H1. destruct (decide (x = c)) as [->|]; [exists e; rewrite (Hc' _ H1); split_and!; by (cbn; auto)|].
    destruct (decide (x = a)) as [->|]; [|rewrite Hx in H1 by done; exists dx; by auto].
    rewrite Ha' in H1. injection H1 as <-. exists dp. split_and!; by (cbn; auto). }
  split_and!.
  - intros dir name Hu x dx p dpp H1 H2 H3 H4. destruct (Hold _ _ H1) as (d0 & K1 & _ & -> & [K|K]); [congruence|].
    destruct (Hold _ _ H3) as (p0 & K3 & K4 & _). apply (Hu x d0 p p0); congruence.
  - intros b m dir Hbc ((d & Hd & Hm) & Hall). split.
    + destruct (decide (b = a)) as [->|]; [|exists d; by rewrite Hx]. rewrite Ha'. eexists. split; [done|]. cbn. congruence.
    + intros x dx H1 H2. destruct (Hold _ _ H1) as (d0 & K1 & K2 & _). apply (Hall x d0 K1). congruence.
  - intros x dx m H1 H2. split; [|by destruct (Hold _ _ H1) as (d0 & K1 & K2 & _); exists d0]. intros ->. by rewrite (Hc' _ H1) in H2.
  - intros x dx Hxc H1. destruct (decide (x = a)) as [->|]; [|exists dx; by rewrite Hx]. rewrite Ha'. eexists. split; [done|].
    rewrite Ha in H1. by injection H1 as <-.
Qed.

(** An object none of whose dentries are cached. *)
Lemma no_dentry_found (f : PathWalk.fs M) m :
  winv root_uuid F kind B f -> (forall x dx, dents (fs_dc f) !! x = Some dx -> d_metadata dx <> Some m) ->
  metadata_get_dentry (fs_dc f) m = None.
Proof.
  intros Hw Hno. unfold metadata_get_dentry, links_of. destruct (md_links (fs_dc f) !! m) as [l|] eqn:Hl; [|done]. cbn [from_option id].
  destruct (di_links _ _ (wi_tree _ _ _ _ _ Hw) _ _ Hl) as (_ & Hn & Hback). destruct (dentry_list l) as [|x l']; [by case_match|].
  destruct (Hback x) as (dx & Hx & Hmx); [by left|]. by destruct (Hno x dx).
Qed.

Lemma forget_child_spec s m o a name :
  winv root_uuid F kind B (en_fs s) -> object_at s m = Some o -> only_dentry (fs_dc (en_fs s)) a m (cm_uuid o) ->
  exists dc', forget_child s m name = Some (with_fs s (set_dc (en_fs s) dc')) /\
    winv root_uuid F kind B (set_dc (en_fs s) dc') /\ uncached dc' (cm_uuid o) name /\
    (forall dir n, uncached (fs_dc (en_fs s)) dir n -> uncached dc' dir n) /\
    (forall b m' dir, ~ child_named (fs_dc (en_fs s)) a b name -> only_dentry (fs_dc (en_fs s)) b m' dir -> only_dentry dc' b m' dir) /\
    (forall b m' t, child_named (fs_dc (en_fs s)) a b name -> object_at s m' = Some t ->
      only_dentry (fs_dc (en_fs s)) b m' (cm_uuid t) -> metadata_get_dentry dc' m' = None).
Proof.
  intros Hw Ho Honly. destruct (only_dentry_found _ _ _ _ Hw Ho Honly) as (Hget & d & Hd & Hlk). unfold forget_child. rewrite Hget.
  cbn [mbind option_bind]. unfold dentry_delete_child. pose proof (wi_tree _ _ _ _ _ Hw) as Hi.
  destruct (d_lookup_spec (fs_dc (en_fs s)) a d name (di_tree _ _ Hi) Hd) as ([c|] & -> & Hc); cbn [mbind option_bind].
  - destruct Hc as (e & He & Hpe & Hne).
    destruct (delete_ok root_uuid F kind B (en_fs s) a d c e Hw Hd He Hpe) as (dc' & d' & Hdel & Hw' & _ & _ & _ & _ & Hgone).
    rewrite Hdel. cbn [mbind option_bind]. exists dc'. split; [done|]. split; [done|].
    destruct (delete_frame _ _ _ _ _ _ Hi He Hpe Hdel) as (Hun & Hon & Hmd & Hkeep).
    assert (Honc : only_dentry dc' a m (cm_uuid o)).
    { apply Hon; [|done]. intros ->. destruct (di_parent _ (di_tree _ _ Hi) _ _ _ He Hpe). lia. }
    split; [|split; [done|]].
    + intros x dx p dp H1 H2 H3 H4. rewrite <- Hne. apply (Hgone x dx); [done|]. rewrite H2. f_equal. by eapply Honc.
    + split; [intros b m' dir Hnc; apply Hon; intros ->; apply Hnc; by exists e|].
      intros b m' t (db & Hb & Hpb & Hnb) Ht [_ Hall]. assert (b = c) as ->.
      { destruct (decide (b = c)) as [|Hbc]; [done|]. destruct (Hkeep b db Hbc Hb) as (db' & Hb' & Hpb' & Hnb').
        destruct (Hgone b db' Hb'); congruence. }
      apply (no_dentry_found (set_dc (en_fs s) dc')); [done|]. intros x dx Hx Hm. destruct (Hmd x dx m' Hx Hm) as (Hxc & d0 & Hd0 & Hl0).
      apply Hxc. apply (Hall x d0 Hd0). rewrite <- Hl0. symmetry. eapply (wi_uuid _ _ _ _ _ Hw'); [exact Hx|exact Hm|exact Ht].
  - exists (fs_dc (en_fs s)). split; [done|]. split; [by destruct (en_fs s)|]. split; [|split; [done|]; split; [done|]].
    + intros x dx p dp H1 H2 H3 H4. apply (Hc x dx H1). rewrite H2. f_equal. by eapply Honly.
    + intros b m' t (db & Hb & Hpb & Hnb). by destruct (Hc b db Hb Hpb).
Qed.
(** ** Moving the entry *)
(** The new state of a directory object is that of a volume in which the
    entries of the directory have changed, none of them cached. *)
Lemma set_dir_winv (F1 F2 : uuid -> option content) s m o dn' h' c1 c2 :
  winv root_uuid F1 kind B (en_fs s) -> object_at s m = Some o -> is_Some (pm_dirnode o) ->
  F1 (cm_uuid o) = Some c1 -> F2 (cm_uuid o) = Some c2 -> (forall x, x <> cm_uuid o -> F2 x = F1 x) ->
  dir_repr h' dn' (c_view c2) -> (forall u, dirnode_get_link dn' u = c_link c2 u) -> my_uuid dn' = cm_uuid o ->
  (forall n y, c_view c1 !! n = Some y -> c_view c2 !! n = Some y \/ uncached (fs_dc (en_fs s)) (cm_uuid o) n) ->
  winv root_uuid F2 kind B (set_object (en_fs s) m (em_set_dir o dn' h')).
Proof.
  intros Hw Ho Hd H1 H2 Hsame Hr Hl Hmy Hkeep.
  apply (winv_change root_uuid F1 kind B F2 (en_fs s) m o); [done|done|apply em_set_dir_uuid| |by apply Hw|done|].
  - unfold current. rewrite em_set_dir_get, em_set_dir_uuid, H2 by done. done.
  - intros a d p dp c y Ha Hp Hdp Hc Hy. destruct (decide (d_link dp = cm_uuid o)) as [Heq|Hne].
    + rewrite Heq, H1 in Hc. injection Hc as <-. rewrite Heq. exists c2. split; [done|].
      destruct (Hkeep _ _ Hy) as [?|Hun]; [done|]. by destruct (Hun _ _ _ _ Ha Hp Hdp Heq).
    + exists c. by rewrite Hsame.
Qed.

Lemma current_dir s m o c :
  winv root_uuid F kind B (en_fs s) -> object_at s m = Some o -> F (cm_uuid o) = Some c ->
  exists d h, pm_dirnode o = Some (d, h) /\ dir_repr h d (c_view c) /\ (forall u, dirnode_get_link d u = c_link c u) /\
    my_uuid d = cm_uuid o.
Proof.
  intros Hw Ho Hc. pose proof (wi_current _ _ _ _ _ Hw _ _ Ho) as Hcu. unfold current in Hcu. rewrite Hc in Hcu.
  destruct (pm_dirnode o) as [[d h]|]; [|done]. exists d, h. tauto.
Qed.

(** The volume in which an entry has moved between two directories whose links
    are now [lf] and [lt]. *)
Definition moved (fu : uuid) (cf : content) old (tu : uuid) (ct : content) new (link : nexus_dirent_type * uuid)
    (lf lt : uuid -> option bytes) : uuid -> option content :=
  with_content (with_content F fu (mk_content (delete old (c_view cf)) lf)) tu (mk_content (<[new := link]> (c_view ct)) lt).

Lemma rename_objects_spec s e from old to new o t cf ct :
  winv root_uuid F kind B (en_fs s) -> from <> to -> object_at s from = Some o -> object_at s to = Some t ->
  F (cm_uuid o) = Some cf -> F (cm_uuid t) = Some ct ->
  uncached (fs_dc (en_fs s)) (cm_uuid o) old -> uncached (fs_dc (en_fs s)) (cm_uuid t) new ->
  name_ok old -> name_ok new -> Z.of_nat (size (c_view cf)) < 2 ^ 29 -> Z.of_nat (size (c_view ct)) < 2 ^ 29 ->
  exists s' o' t' ret r, rename_objects s e from old to new = Some (s', (ret, r)) /\
    object_at s' from = Some o' /\ cm_uuid o' = cm_uuid o /\ object_at s' to = Some t' /\ cm_uuid t' = cm_uuid t /\
    match c_view cf !! old with
    | None => ret = -1 /\ winv root_uuid F kind B (en_fs s')
    | Some link => (is_Some (c_link cf link.2) -> forall d h, pm_dirnode o = Some (d, h) -> links_ok d) ->
        ret = 0 /\ fst <$> rn_src r = Some link.2 /\ exists lf lt, target_moves cf ct link.2 lf lt /\
        winv root_uuid (moved (cm_uuid o) cf old (cm_uuid t) ct new link lf lt) kind B (en_fs s')
    end.
Proof.
  intros Hw Hne Ho Ht Hcf Hct Huo Hut Hold Hnew Hsf Hst.
  assert (Hun : cm_uuid o <> cm_uuid t) by (intros Heq; apply Hne; eapply live_unique; [exact Hw|exact Ho|exact Ht|done]).
  destruct (current_dir s from o cf Hw Ho Hcf) as (sd & sh & Hsd & Hrs & Hls & Hms).
  destruct (current_dir s to t ct Hw Ht Hct) as (dd & dh & Hdd & Hrd & Hld & Hmd).
  destruct (rename_between_spec sd sh dd dh (en_rnd (ee_fs e)) _ _ old new Hrs Hrd Hold Hnew)
    as (sd' & sh' & dd' & dh' & r & Hren & Hcase);
    [by rewrite (entry_count_size _ _ _ Hrs)|by rewrite (entry_count_size _ _ _ Hrd)|].
  unfold rename_objects. rewrite (proj2 (Z.eqb_neq _ _) Hne), Ho. cbn [mbind option_bind]. rewrite Hsd. cbn [mbind option_bind].
  rewrite Ht. cbn [mbind option_bind]. rewrite Hdd. cbn [mbind option_bind]. rewrite Hren. cbn [mbind option_bind].
  set (s1 := with_fs s (set_object (en_fs s) from (em_set_dir o sd' sh'))).
  exists (with_fs s1 (set_object (en_fs s1) to (em_set_dir t dd' dh'))), (em_set_dir o sd' sh'), (em_set_dir t dd' dh').
  assert (Ht1 : object_at s1 to = Some t) by (unfold object_at, s1; cbn; by rewrite lookup_insert_ne).
  eexists _, r. split; [reflexivity|].
  split; [unfold object_at; cbn; rewrite lookup_insert_ne by done; apply lookup_insert_eq|]. split; [apply em_set_dir_uuid|].
  split; [apply lookup_insert_eq|]. split; [apply em_set_dir_uuid|].
  destruct (c_view cf !! old) as [link|] eqn:Hlk.
  - intros Hcl. destruct Hcase as (-> & -> & _ & Hrs' & Hrd' & Hm1 & Hm2 & _ & Hlk2). split; [done|]. split; [done|].
    exists (dirnode_get_link sd'), (dirnode_get_link dd'). split.
    { intros x Hx. destruct (Hlk2) with (x := x) as [-> ->]; [rewrite Hls; intros Hl; by apply (Hcl Hl sd sh)|done|].
      unfold link_removed, link_added. by rewrite !Hls, Hld. }
    set (cf' := mk_content (delete old (c_view cf)) (dirnode_get_link sd')). set (F1 := with_content F (cm_uuid o) cf').
    assert (Hw1 : winv root_uuid F1 kind B (en_fs s1)).
    { apply (set_dir_winv F F1 s from o sd' sh' cf cf'); try done;
        [unfold F1, with_content; by rewrite decide_True|intros x Hx; unfold F1, with_content; by rewrite decide_False|congruence|].
      intros n y Hy. cbn. destruct (decide (n = old)) as [->|]; [by right|]. left. by rewrite lookup_delete_ne. }
    apply (set_dir_winv F1 _ s1 to t dd' dh' ct (mk_content (<[new := link]> (c_view ct)) (dirnode_get_link dd'))); try done;
      [unfold F1, with_content; by rewrite decide_False|unfold moved, with_content; by rewrite decide_True
      |intros x Hx; unfold moved, F1, with_content; by rewrite !(decide_False (P := x = cm_uuid t))|congruence|].
    intros n y Hy. cbn. destruct (decide (n = new)) as [->|]; [by right|]. left. by rewrite lookup_insert_ne.
  - destruct Hcase as (-> & Hrs' & Hh & -> & ->). split; [done|].
    assert (Hw1 : winv root_uuid F kind B (en_fs s1)).
    { apply (set_dir_winv F F s from o sd' sh' cf cf); try done.
      - intros u. rewrite (header_link _ _ _ Hh). apply Hls.
      - destruct Hh. congruence.
      - by left. }
    apply (set_dir_winv F F s1 to t dd dh ct ct); try done; by left.
Qed.
(** The stores of the two directories, and giving them back. *)
Lemma store_both (F' : uuid -> option content) s e e' from to o t c1 c2 :
  stores B e -> stores B e' -> winv root_uuid F' kind B (en_fs s) -> from <> to ->
  object_at s from = Some o -> object_at s to = Some t -> F' (cm_uuid o) = Some c1 -> F' (cm_uuid t) = Some c2 ->
  exists s1 s2, metadata_store s e from = Some (s1, 0) /\ metadata_store s1 e' to = Some (s2, 0) /\
    winv root_uuid F' kind B (en_fs s2) /\ is_Some (object_at s2 from) /\ is_Some (object_at s2 to).
Proof.
  intros Hst Hst' Hw Hne Ho Ht H1 H2.
  assert (Hdir : forall m x c, object_at s m = Some x -> F' (cm_uuid x) = Some c -> exists d h, pm_dirnode x = Some (d, h)).
  { intros m x c Hx Hc. pose proof (wi_current _ _ _ _ _ Hw _ _ Hx) as Hcu. unfold current in Hcu. rewrite Hc in Hcu.
    destruct (pm_dirnode x) as [[d h]|]; [eauto|done]. }
  destruct (Hdir _ _ _ Ho H1) as (d & h & Hd), (Hdir _ _ _ Ht H2) as (d' & h' & Hd').
  destruct (store_current root_uuid kind B F' s e from o d h c1 Hst Hw Ho Hd H1) as (s1 & o1 & _ & _ & Hs1 & Hw1 & Ho1 & _ & _ & Hx1 & _).
  destruct (store_current root_uuid kind B F' s1 e' to t d' h' c2 Hst' Hw1) as (s2 & t2 & _ & _ & Hs2 & Hw2 & Ht2 & _ & _ & Hx2 & _);
    [by rewrite Hx1|done..|].
  exists s1, s2. split; [done|]. split; [done|]. split; [done|]. split; [rewrite Hx2 by done; by eexists|by eexists].
Qed.

Lemma put_both (F' : uuid -> option content) s e e' from to {A} (x : A) :
  gives_back B e -> gives_back B e' -> winv root_uuid F' kind B (en_fs s) -> from <> to ->
  is_Some (object_at s from) -> is_Some (object_at s to) ->
  exists s', rename_out s e e' from to true x = Done (s', x) /\ winv root_uuid F' kind B (en_fs s').
Proof.
  intros Hg Hg' Hw Hne [o Ho] [t Ht]. unfold rename_out, put_and_return.
  destruct (put_current root_uuid kind B F' s e from o Hg Hw Ho) as (s1 & o1 & -> & Hw1 & _ & _ & _ & Hx1 & _).
  cbn [lift obind]. destruct (put_current root_uuid kind B F' s1 e' to t Hg' Hw1) as (s2 & t2 & -> & Hw2 & _); [by rewrite Hx1|].
  by exists s2.
Qed.

Lemma do_rename_spec s e e' from old to new a b o t cf ct :
  winv root_uuid F kind B (en_fs s) -> from <> to -> object_at s from = Some o -> object_at s to = Some t ->
  F (cm_uuid o) = Some cf -> F (cm_uuid t) = Some ct ->
  only_dentry (fs_dc (en_fs s)) a from (cm_uuid o) -> only_dentry (fs_dc (en_fs s)) b to (cm_uuid t) ->
  ~ child_named (fs_dc (en_fs s)) a b old -> stores B e -> stores B e' ->
  name_ok old -> name_ok new -> Z.of_nat (size (c_view cf)) < 2 ^ 29 -> Z.of_nat (size (c_view ct)) < 2 ^ 29 ->
  match c_view cf !! old with
  | None => exists s', do_rename s e e' from old to new true = Some (s', (-1, None)) /\ winv root_uuid F kind B (en_fs s') /\
      is_Some (object_at s' from) /\ is_Some (object_at s' to)
  | Some link => (is_Some (c_link cf link.2) -> forall d h, pm_dirnode o = Some (d, h) -> links_ok d) ->
      exists s' lf lt, do_rename s e e' from old to new true = Some (s', (0, Some link.2)) /\ target_moves cf ct link.2 lf lt /\
        winv root_uuid (moved (cm_uuid o) cf old (cm_uuid t) ct new link lf lt) kind B (en_fs s') /\
        is_Some (object_at s' from) /\ is_Some (object_at s' to)
  end.
Proof.
  intros Hw Hne Ho Ht Hcf Hct Ha Hb Hnc Hst Hst' Hold Hnew Hsf Hs2.
  destruct (forget_child_spec s from o a old Hw Ho Ha) as (dc1 & Hf1 & Hw1 & Hu1 & _ & Hon1 & _).
  set (s1 := with_fs s (set_dc (en_fs s) dc1)) in *.
  destruct (forget_child_spec s1 to t b new Hw1 Ht (Hon1 _ _ _ Hnc Hb)) as (dc2 & Hf2 & Hw2 & Hu2 & Hk2 & _).
  set (s2 := with_fs s1 (set_dc (en_fs s1) dc2)) in *.
  destruct (rename_objects_spec s2 e from old to new o t cf ct Hw2 Hne Ho Ht Hcf Hct (Hk2 _ _ Hu1) Hu2 Hold Hnew Hsf Hs2)
    as (s3 & o' & t' & ret & r & Hren & Ho3 & Huo & Ht3 & Hut & Hcase).
  unfold do_rename. rewrite Hf1. cbn [mbind option_bind]. rewrite Hf2. cbn [mbind option_bind]. rewrite Hren. cbn [mbind option_bind].
  destruct (c_view cf !! old) as [link|].
  - intros Hcl. destruct (Hcase Hcl) as (-> & -> & lf & lt & Hlk & Hw3). cbn [Z.eqb negb]. set (F' := moved _ _ _ _ _ _ _ _ _) in *.
    assert (Hun : cm_uuid o <> cm_uuid t) by (intros Heq; apply Hne; eapply live_unique; [exact Hw|exact Ho|exact Ht|done]).
    destruct (store_both F' s3 e e' from to o' t' (mk_content (delete old (c_view cf)) lf)
      (mk_content (<[new := link]> (c_view ct)) lt) Hst Hst' Hw3 Hne Ho3 Ht3) as (s4 & s5 & -> & Hs5 & Hw5 & Hl5 & Hl6).
    + unfold F', moved, with_content. by rewrite Huo, decide_False, decide_True by done.
    + unfold F', moved, with_content. by rewrite Hut, decide_True by done.
    + cbn [mbind option_bind Z.eqb negb]. rewrite Hs5. cbn [mbind option_bind Z.eqb]. by exists s5, lf, lt.
  - destruct Hcase as [-> Hw3]. exists s3. split; [done|]. split; [done|]. split; by eexists.
Qed.

(** Moving a directory into itself: the second deletion has no dentry to start
    from. *)
Lemma rename_into_child s e e' from old to new two a b o t :
  winv root_uuid F kind B (en_fs s) -> object_at s from = Some o -> object_at s to = Some t ->
  only_dentry (fs_dc (en_fs s)) a from (cm_uuid o) -> only_dentry (fs_dc (en_fs s)) b to (cm_uuid t) ->
  child_named (fs_dc (en_fs s)) a b old -> do_rename s e e' from old to new two = None.
Proof.
  intros Hw Ho Ht Ha Hb Hc. destruct (forget_child_spec s from o a old Hw Ho Ha) as (dc1 & Hf1 & _ & _ & _ & _ & Hno).
  unfold do_rename. rewrite Hf1. cbn [mbind option_bind]. unfold forget_child at 1. cbn [with_fs en_fs set_dc fs_dc].
  by rewrite (Hno b to t Hc Ht Hb).
Qed.

(** C7: renaming between two directories of the cache, each with exactly one
    cached dentry ([only_dentry]) and fewer than 2^29 entries, on a quiescent
    volume with a store that goes along. When the second directory is itself
    the cached entry that is to move, the ecall reads through a null dentry.
    Otherwise a missing source returns -1 and the volume stays, and a source
    that is there moves: both directories are stored and given back, and the
    metadata cache, the dentry tree and every loaded object agree with the
    volume in which the entry has left the one directory and is bound to the
    new name in the other, replacing what was there, and in which a symlink has
    taken its target along (it is assumed to be recorded once in the first
    directory); the ecall itself then overruns its parameter when it copies the
    replaced entry out. *)
Theorem ecall_rename_moves_entry s e e' from_path old to_path new s1 from to a b o t cf ct :
  rename_dirs s e from_path to_path = Done (s1, (Some from, Some to, true)) ->
  winv root_uuid F kind B (en_fs s1) -> from <> to -> object_at s1 from = Some o -> object_at s1 to = Some t ->
  F (cm_uuid o) = Some cf -> F (cm_uuid t) = Some ct ->
  only_dentry (fs_dc (en_fs s1)) a from (cm_uuid o) -> only_dentry (fs_dc (en_fs s1)) b to (cm_uuid t) ->
  stores B e -> stores B e' -> gives_back B e -> gives_back B e' ->
  name_ok old -> name_ok new -> Z.of_nat (size (c_view cf)) < 2 ^ 29 -> Z.of_nat (size (c_view ct)) < 2 ^ 29 ->
  (child_named (fs_dc (en_fs s1)) a b old -> ecall_fs_rename s e e' from_path old to_path new = Fault) /\
  (~ child_named (fs_dc (en_fs s1)) a b old ->
   match c_view cf !! old with
   | None => exists s', ecall_fs_rename s e e' from_path old to_path new = Done (s', (-1, None)) /\
       winv root_uuid F kind B (en_fs s')
   | Some link => (is_Some (c_link cf link.2) -> forall d h, pm_dirnode o = Some (d, h) -> links_ok d) ->
       exists s2 s' lf lt, do_rename s1 e e' from old to new true = Some (s2, (0, Some link.2)) /\
         rename_out s2 e e' from to true tt = Done (s', tt) /\ target_moves cf ct link.2 lf lt /\
         winv root_uuid (moved (cm_uuid o) cf old (cm_uuid t) ct new link lf lt) kind B (en_fs s') /\
         ecall_fs_rename s e e' from_path old to_path new = Fault
   end).
Proof.
  intros Hd Hw Hne Ho Ht Hcf Hct Ha Hb Hst Hst' Hg Hg' Hold Hnew Hsf Hs2. unfold ecall_fs_rename. rewrite Hd. cbn [obind].
  split; [intros Hc; by rewrite (rename_into_child s1 e e' from old to new true a b o t)|intros Hnc].
  pose proof (do_rename_spec s1 e e' from old to new a b o t cf ct Hw Hne Ho Ht Hcf Hct Ha Hb Hnc Hst Hst' Hold Hnew Hsf Hs2) as Hspec.
  destruct (c_view cf !! old) as [link|].
  - intros Hcl. destruct (Hspec Hcl) as (s2 & lf & lt & -> & Hlk & Hw2 & Hl1 & Hl2).
    destruct (put_both _ s2 e e' from to tt Hg Hg' Hw2 Hne Hl1 Hl2) as (s' & Hout & Hw').
    exists s2, s', lf, lt. done.
  - destruct Hspec as (s2 & -> & Hw2 & Hl1 & Hl2).
    destruct (put_both F s2 e e' from to (-1, @None uuid) Hg Hg' Hw2 Hne Hl1 Hl2) as (s' & Hout & Hw'). by exists s'.
Qed.

(** No rename returns 0. *)
Theorem ecall_rename_never_succeeds s e e' from_path old to_path new s' out :
  ecall_fs_rename s e e' from_path old to_path new <> Done (s', (0, out)).
Proof.
  unfold ecall_fs_rename. destruct (rename_dirs _ _ _ _) as [[s1 [[[from|] [to|]] two]]| |]; cbn [obind]; try done.
  - destruct (do_rename _ _ _ _ _ _ _ _) as [[s2 [ret u]]|]; [|done]. cbn [lift obind].
    destruct (Z.eqb_spec ret 0) as [->|Hr]; cbn [negb]; [done|]. unfold rename_out, put_and_return.
    destruct (vfs_put s2 e from); [|done]. cbn [lift obind].
    destruct two; [destruct (vfs_put _ e' to); [|done]|]; cbn; congruence.
  - unfold put_and_return. destruct (vfs_put s1 e from); [|done]. cbn. congruence.
Qed.
(** ** Finding the directories *)
Lemma lookup_winv n (f : PathWalk.fs M) path pos rem :
  quiescent root_uuid env F kind B -> winv root_uuid F kind B f -> Forall (fun x => name_ok x.1) (tokens path) ->
  PathSpec.resolve root_uuid F n PATH_WALK_NORMAL [] (tokens path) = Some (Some (pos, rem)) -> pos_type pos = NEXUS_DIR ->
  exists f' a d, nexus_vfs_lookup root_uuid env n f path = Done (f', Some a) /\ winv root_uuid F kind B f' /\
    dents (fs_dc f') !! a = Some d /\ d_type d = NEXUS_DIR /\ is_Some (F (d_link d)).
Proof.
  intros Hq Hw Hok Hres Hdir.
  pose proof (walk_loop_ok root_uuid env F kind B n f (mk_walker (root_dentry (fs_dc f)) (Some path) PATH_WALK_NORMAL)
    (root_dentry (fs_dc f)) [] Hq Hw (at_root _) I Hok) as Hwk. cbn [w_type w_remaining otokens from_option] in Hwk.
  rewrite Hres in Hwk. destruct Hwk as (f' & a & w' & Hwk & Hw' & Hat & Hv & _).
  unfold nexus_vfs_lookup, dentry_lookup, walk_path. cbn [w_remaining w_parent]. rewrite Hwk. cbn [obind].
  destruct (at_pos_dentry _ _ _ _ f' a pos Hw' Hat) as (d & Hd & Hty & Hlk & _).
  exists f', a, d. split; [done|]. split; [done|]. split; [done|]. split; [congruence|]. rewrite Hlk.
  by apply (valid_dir root_uuid env F kind B).
Qed.

Lemma get_metadata_winv (f : PathWalk.fs M) a d flags :
  quiescent root_uuid env F kind B -> answers env F B flags -> winv root_uuid F kind B f ->
  dents (fs_dc f) !! a = Some d -> d_type d = NEXUS_DIR -> is_Some (F (d_link d)) ->
  exists f' m, dentry_get_metadata root_uuid env f a flags = Some (f', Some m) /\ winv root_uuid F kind B f' /\
    same_shape (fs_dc f) (fs_dc f').
Proof.
  intros Hq Han Hw Hd Hty HF.
  destruct (dentry_revalidate_any root_uuid env F kind B f a d flags Hq Han Hw Hd Hty HF) as (f2 & d2 & m & Hrv & Hw2 & Hs2 & Hd2 & Hm2 & Hsh).
  assert (Hl2 : d_link d2 = d_link d) by (injection Hsh; congruence).
  destruct (dir_object root_uuid F kind B f2 a d2 Hw2 Hd2) with (m := m) as (o & dn & h & c & Hob & Ho & Hu & Hdn & Hc & Hr & Hl & Hmy);
    [by rewrite Hl2|done|].
  unfold dentry_get_metadata. rewrite Hrv. cbn [mbind option_bind Z.eqb negb]. unfold get_object. rewrite Hob. cbn [mbind option_bind].
  exists (set_object f2 m (pm_ref o)), m. split; [done|]. split; [|done].
  apply (winv_grow root_uuid F kind B F f2 m o); try done; [apply pm_ref_uuid| |by apply Hw2|eauto].
  unfold current. rewrite pm_ref_get, pm_ref_uuid, Hdn, Hu, Hc. split; [done|]. split; [done|]. congruence.
Qed.

(** Both paths lead to directories: their objects, as long as the second
    lookup keeps the dentry of the first. *)
Lemma rename_dirs_found s e from_path to_path p1 r1 p2 r2 f1 a f2 b :
  quiescent root_uuid env F kind B -> answers env F B NEXUS_FRDWR -> winv root_uuid F kind B (en_fs s) ->
  Forall (fun x => name_ok x.1) (tokens from_path) -> Forall (fun x => name_ok x.1) (tokens to_path) ->
  PathSpec.resolve root_uuid F (ee_walk e) PATH_WALK_NORMAL [] (tokens from_path) = Some (Some (p1, r1)) -> pos_type p1 = NEXUS_DIR ->
  PathSpec.resolve root_uuid F (ee_walk e) PATH_WALK_NORMAL [] (tokens to_path) = Some (Some (p2, r2)) -> pos_type p2 = NEXUS_DIR ->
  strncmp from_path to_path (Z.to_nat NEXUS_PATH_MAX) <> 0 ->
  nexus_vfs_lookup root_uuid env (ee_walk e) (en_fs s) from_path = Done (f1, Some a) ->
  nexus_vfs_lookup root_uuid env (ee_walk e) f1 to_path = Done (f2, Some b) -> a <> b ->
  place <$> dents (fs_dc f2) !! a = place <$> dents (fs_dc f1) !! a ->
  exists s1 m m', rename_dirs s e from_path to_path = Done (s1, (Some m, Some m', true)) /\ winv root_uuid F kind B (en_fs s1) /\
    same_shape (fs_dc f2) (fs_dc (en_fs s1)).
Proof.
  intros Hq Han Hw Hok1 Hok2 Hr1 Hd1 Hr2 Hd2 Hcmp Hl1 Hl2 Hab Hkeep.
  destruct (lookup_winv _ _ _ _ _ Hq Hw Hok1 Hr1 Hd1) as (g1 & x & d1 & E1 & Hw1 & Ha & Hty & HF). rewrite Hl1 in E1. injection E1 as <- <-.
  destruct (lookup_winv _ _ _ _ _ Hq Hw1 Hok2 Hr2 Hd2) as (g2 & x & d2 & E2 & Hw2 & Hb & Hty2 & HF2). rewrite Hl2 in E2. injection E2 as <- <-.
  rewrite Ha in Hkeep. destruct (dents (fs_dc f2) !! a) as [d1'|] eqn:Ha2; [|done]. injection Hkeep as Hn Ht Hlk Hp.
  destruct (get_metadata_winv f2 a d1' NEXUS_FRDWR Hq Han Hw2 Ha2) as (f3 & m & Hg3 & Hw3 & Hs3); [congruence|by rewrite Hlk|].
  symmetry in Hs3. destruct (shape_lookup _ _ _ _ Hs3 Hb) as (d2' & Hb3 & [= ]).
  destruct (get_metadata_winv f3 b d2' NEXUS_FRDWR Hq Han Hw3 Hb3) as (f4 & m' & Hg4 & Hw4 & Hs4); [congruence|congruence|].
  unfold rename_dirs. rewrite (proj2 (Z.eqb_neq _ _) Hcmp), Hl1. cbn [obind]. rewrite Hl2. cbn [obind]. rewrite Hg3. cbn [lift obind].
  rewrite (proj2 (Z.eqb_neq _ _) Hab), Hg4. cbn [lift obind]. exists (with_fs s f4), m, m'. split; [done|]. split; [done|].
  etransitivity; [symmetry; exact Hs3|exact Hs4].
Qed.
End tree.
End rename_ecall.

(** ** A rename on the example volume *)
Lemma only_dentry_check dc a m dir :
  (d_metadata <$> dents dc !! a) = Some (Some m) ->
  forallb (fun '(x, dx) => negb (bool_decide (d_link dx = dir)) || (x =? a)) (map_to_list (dents dc)) = true ->
  only_dentry dc a m dir.
Proof.
  intros Ha Hall. split.
  - destruct (dents dc !! a) as [d|]; [|done]. exists d. split; [done|]. by injection Ha.
  - intros x dx Hx Hl. rewrite forallb_forall in Hall. specialize (Hall (x, dx)). cbn beta iota in Hall.
    rewrite bool_decide_true in Hall by done. apply Z.eqb_eq, Hall. apply list_elem_of_In. by apply elem_of_map_to_list.
Qed.

Lemma done_fst {A C} (x y : A) (a b : C) : Done (x, a) = Done (y, b) -> x = y.
Proof. by intros [= -> _]. Qed.

Section witness.
Local Existing Instance int_number.

Definition toy_ee : ecall_env unit := vol_ee owner_env (uuid_const 8).
Definition found_dirs := rename_dirs (uuid_const 1) vol_env vol_enclave toy_ee [100] [47].
Definition found_state : enclave vol_md := match found_dirs with Done (s, _) => s | _ => vol_enclave end.
Definition found_object (m : Z) : vol_md := default (mk_vol [] None None 0) (object_at found_state m).

Definition found_lookup (f : PathWalk.fs vol_md) (path : bytes) : outcome (PathWalk.fs vol_md * option Z) :=
  nexus_vfs_lookup (uuid_const 1) vol_env 5 f path.
Definition found_tree (r : outcome (PathWalk.fs vol_md * option Z)) : PathWalk.fs vol_md :=
  match r with Done (f, _) => f | _ => en_fs vol_enclave end.
Definition from_tree := found_tree (found_lookup (en_fs vol_enclave) [100]).
Definition to_tree := found_tree (found_lookup from_tree [47]).

Lemma found_dirs_eq : found_dirs = Done (found_state, (Some 2, Some 1, true)).
Proof.
  assert (Hx : match found_dirs with Done (_, x) => Some x | _ => None end = Some (Some 2, Some 1, true)) by (vm_compute; reflexivity).
  unfold found_state. destruct found_dirs as [[s x]| |]; [|discriminate Hx..]. injection Hx as ->. reflexivity.
Qed.
Lemma from_found : found_lookup (en_fs vol_enclave) [100] = Done (from_tree, Some 2).
Proof. vm_compute. reflexivity. Qed.
Lemma to_found : found_lookup from_tree [47] = Done (to_tree, Some 1).
Proof. vm_compute. reflexivity. Qed.
Lemma from_kept : place <$> dents (fs_dc to_tree) !! 2 = place <$> dents (fs_dc from_tree) !! 2.
Proof. vm_compute. reflexivity. Qed.

Lemma found_winv : winv (uuid_const 1) vol_content vol_kind (fun _ => True) (en_fs found_state).
Proof.
  destruct (rename_dirs_found (uuid_const 1) vol_env vol_kind (fun _ => True) vol_content vol_enclave toy_ee [100] [47]
    [([100], NEXUS_DIR, uuid_const 2)] None [] None from_tree 2 to_tree 1) as (s1 & m & m' & Hd & Hw & _).
  - exact vol_quiescent.
  - apply vol_answers.
  - exact vol_start.
  - apply Forall_singleton. apply vol_names.
  - apply Forall_nil_2.
  - vm_compute. reflexivity.
  - reflexivity.
  - vm_compute. reflexivity.
  - reflexivity.
  - vm_compute. discriminate.
  - exact from_found.
  - exact to_found.
  - discriminate.
  - exact from_kept.
  - by rewrite (done_fst _ _ _ _ (eq_trans (eq_sym found_dirs_eq) Hd)).
Qed.

Definition found_from : content := mk_content one_view (dirnode_get_link one_dir.1).
Definition found_to : content := mk_content root_view (dirnode_get_link vol_root.1).

Lemma ecall_rename_moves_entry_witness :
  exists s2 s' lf lt, do_rename found_state toy_ee toy_ee 2 [97] 1 [98] true = Some (s2, (0, Some (uuid_const 7))) /\
    rename_out s2 toy_ee toy_ee 2 1 true tt = Done (s', tt) /\ target_moves found_from found_to (uuid_const 7) lf lt /\
    winv (uuid_const 1) (moved vol_content (cm_uuid (found_object 2)) found_from [97] (cm_uuid (found_object 1)) found_to [98]
      (NEXUS_REG, uuid_const 7) lf lt) vol_kind (fun _ => True) (en_fs s') /\
    ecall_fs_rename (uuid_const 1) vol_env vol_enclave toy_ee toy_ee [100] [97] [47] [98] = Fault.
Proof.
  unshelve epose proof (proj2 (ecall_rename_moves_entry (uuid_const 1) vol_env vol_kind (fun _ => True) vol_content vol_enclave toy_ee toy_ee
    [100] [97] [47] [98] found_state 2 1 2 1 (found_object 2) (found_object 1) found_from found_to
    _ _ _ _ _ _ _ _ _ _ _ _ _ _ _ _ _) _) as Hmoved.
  - exact found_dirs_eq.
  - exact found_winv.
  - discriminate.
  - vm_compute. reflexivity.
  - vm_compute. reflexivity.
  - reflexivity.
  - reflexivity.
  - apply only_dentry_check; vm_compute; reflexivity.
  - apply only_dentry_check; vm_compute; reflexivity.
  - intros o b _. eexists _, _, _. done.
  - intros o b _. eexists _, _, _. done.
  - done.
  - done.
  - apply vol_names.
  - apply name_b_ok.
  - reflexivity.
  - reflexivity.
  - intros (d & Hd & Hp & _). revert Hd Hp. vm_compute. intros [= <-]. discriminate.
  - assert (Hv : one_view !! [97] = Some (NEXUS_REG, uuid_const 7)) by reflexivity. cbn [c_view found_from] in Hmoved. rewrite Hv in Hmoved.
    apply Hmoved. vm_compute. intros [x Hx]. discriminate Hx.
Defined.
End witness.
