(* ===== verification/Acl.v ===== *)
(** * Access control lists

    Models [acl.c]: a list of entries, each a user id with a set of
    permissions.  A list node whose data pointer is NULL is [None].  Loops run
    on fuel: [find_acl_entry] has a loop that does not move its iterator, so
    what it finds is decided by the first node alone. *)
From S2P Require Import Prelude Types UserTable.

Definition NEXUS_ACL_VERSION : Z := 1.

(** [nexus_perm_t] is an [int]-sized bit set, [nexus_uid_t] has 64 bits. *)
Record nexus_acl_entry := mk_acl_entry { acl_perm : Z; acl_uid : Z }.
Record nexus_acl := mk_acl { acl_count : Z; acls : list (option nexus_acl_entry) }.

Definition with_perm (e : nexus_acl_entry) (p : Z) : nexus_acl_entry := mk_acl_entry p (acl_uid e).

Definition nexus_acl_init : nexus_acl := mk_acl 0 [].

(** [sizeof(struct __acl_header)] is 6; an entry is 4 bytes, 4 of padding and 8. *)
Definition acl_header_size : Z := 6.
Definition acl_entry_size : Z := 16.
Definition nexus_acl_size (a : nexus_acl) : Z := u64 (acl_header_size + u64 (acl_count a * acl_entry_size)).

(** ** Serialized form *)
Definition serialize_acl_entry (e : nexus_acl_entry) : bytes :=
  le_encode 4 (acl_perm e) ++ replicate 4 0 ++ le_encode 8 (acl_uid e).
Definition serialize_acl_header (a : nexus_acl) : bytes := le_encode 2 NEXUS_ACL_VERSION ++ le_encode 4 (acl_count a).

(** The bytes written; [None] when an entry is read through NULL. *)
Fixpoint serialize_acl_entries (l : list (option nexus_acl_entry)) : option bytes :=
  match l with
  | [] => Some []
  | None :: _ => None
  | Some e :: l' => bs ← serialize_acl_entries l'; Some (serialize_acl_entry e ++ bs)
  end.
Definition nexus_acl_to_buffer (a : nexus_acl) : option (bytes * Z) :=
  bs ← serialize_acl_entries (acls a); Some (serialize_acl_header a ++ bs, 0).

(** The entry is copied to memory that the caller's pointer never gets. *)
Definition parse_acl_entry (b : bytes) : option (option nexus_acl_entry * bytes) :=
  '(_, b) ← dec_bytes (Z.to_nat acl_entry_size) b; Some (None, b).

Fixpoint parse_acl_entries (n : nat) (b : bytes) : option (list (option nexus_acl_entry)) :=
  match n with
  | O => Some []
  | S n => '(e, b) ← parse_acl_entry b; l ← parse_acl_entries n b; Some (e :: l)
  end.

(** The count, and what follows the header. *)
Definition parse_acl_header (b : bytes) (buflen : Z) : option (option (Z * bytes)) :=
  if buflen <? acl_header_size then Some None
  else '(_, b) ← dec_uint 2 b; '(count, b) ← dec_uint 4 b; Some (Some (count, b)).

(** [None]: reads past the buffer. *)
Definition nexus_acl_from_buffer (b : bytes) (buflen : Z) : option (nexus_acl * Z) :=
  r ← parse_acl_header b buflen;
  match r with
  | None => Some (nexus_acl_init, -1)
  | Some (count, b) => l ← parse_acl_entries (Z.to_nat count) b; Some (mk_acl count l, 0)
  end.

(** ** Finding an entry *)
(** [i] is the position of the iterator, which the loop does not move. *)
Fixpoint find_loop (n : nat) (l : list (option nexus_acl_entry)) (i : nat) (uid : Z) : outcome (option nat) :=
  match n with
  | O => Spin
  | S n =>
      match l !! i with
      | None => Done None
      | Some None => Fault
      | Some (Some e) => if acl_uid e =? uid then Done (Some i) else find_loop n l i uid
      end
  end.
Definition find_acl_entry (n : nat) (a : nexus_acl) (uid : Z) : outcome (option nat) := find_loop n (acls a) 0 uid.

(** The position of the new entry comes with it. *)
Definition add_acl_entry (a : nexus_acl) (uid : Z) : nexus_acl * nat :=
  (mk_acl (acl_count a +64 1) (acls a ++ [Some (mk_acl_entry 0 uid)]), length (acls a)).

(** [acl_entry->perm = f(acl_entry->perm)]. *)
Definition update_entry (a : nexus_acl) (i : nat) (f : Z -> Z) : outcome nexus_acl :=
  match acls a !! i with
  | Some (Some e) => Done (mk_acl (acl_count a) (<[i := Some (with_perm e (f (acl_perm e)))]> (acls a)))
  | _ => Fault
  end.

(** [~perm] of a 32-bit value. *)
Definition lnot32 (p : Z) : Z := wrap 32 (Z.lnot p).

(** ** Operations *)
Definition nexus_acl_set (n : nat) (a : nexus_acl) (uid perm : Z) : outcome (nexus_acl * Z) :=
  r <- find_acl_entry n a uid;;
  let '(a, i) := match r with None => add_acl_entry a uid | Some i => (a, i) end in
  a <- update_entry a i (fun p => Z.lor p perm);; Done (a, 0).

Definition nexus_acl_unset (n : nat) (a : nexus_acl) (uid perm : Z) : outcome (nexus_acl * Z) :=
  r <- find_acl_entry n a uid;;
  match r with
  | None => Done (a, 0)
  | Some i => a <- update_entry a i (fun p => Z.lor p (lnot32 perm));; Done (a, 0)
  end.

Definition nexus_acl_remove (n : nat) (a : nexus_acl) (uid : Z) : outcome (nexus_acl * Z) :=
  r <- find_acl_entry n a uid;;
  match r with
  | None => Done (a, 0)
  | Some i => Done (mk_acl (acl_count a -64 1) (delete i (acls a)), 0)
  end.

(** [global_user_id] is an argument. *)
Definition nexus_acl_is_authorized (n : nat) (a : nexus_acl) (user perm : Z) : outcome bool :=
  if user =? NEXUS_ROOT_USER then Done true
  else
    r <- find_acl_entry n a user;;
    match r with
    | None => Done false
    | Some i =>
        match acls a !! i with
        | Some (Some e) => Done (negb (Z.land (acl_perm e) perm =? 0))
        | _ => Fault
        end
    end.

(** ** Lemmas *)
(** The loop looks at the first node only. *)
Lemma find_first n a uid :
  find_acl_entry (S n) a uid =
    match acls a with
    | [] => Done None
    | None :: _ => Fault
    | Some e :: _ => if acl_uid e =? uid then Done (Some 0%nat) else Spin
    end.
Proof.
  unfold find_acl_entry. induction n as [|n IH]; cbn [find_loop] in *; destruct (acls a) as [|[e|] l]; cbn [lookup list_lookup] in *; try done.
  all: by destruct (acl_uid e =? uid).
Qed.

(** The ACLs that the operations build. *)
Inductive acl_reachable : nexus_acl -> Prop :=
  | acl_start : acl_reachable nexus_acl_init
  | acl_set n a uid perm a' : acl_reachable a -> nexus_acl_set n a uid perm = Done (a', 0) -> acl_reachable a'
  | acl_unset n a uid perm a' : acl_reachable a -> nexus_acl_unset n a uid perm = Done (a', 0) -> acl_reachable a'
  | acl_remove n a uid a' : acl_reachable a -> nexus_acl_remove n a uid = Done (a', 0) -> acl_reachable a'.

(** No entry, or the entry of one user. *)
Definition acl_single (a : nexus_acl) : Prop :=
  a = nexus_acl_init \/ exists e, a = mk_acl 1 [Some e].

Lemma find_single n a uid r :
  acl_single a -> find_acl_entry n a uid = Done r ->
  (r = None /\ a = nexus_acl_init) \/ (exists e, r = Some 0%nat /\ a = mk_acl 1 [Some e] /\ acl_uid e = uid).
Proof.
  intros Hs Hf. destruct n as [|n]; [done|]. rewrite find_first in Hf. destruct Hs as [->|(e & ->)]; cbn in Hf.
  - left. by injection Hf as <-.
  - right. exists e. destruct (Z.eqb_spec (acl_uid e) uid); [|done]. by injection Hf as <-.
Qed.

Lemma reachable_single a : acl_reachable a -> acl_single a.
Proof.
  induction 1 as [|n a uid perm a' _ IH Hop|n a uid perm a' _ IH Hop|n a uid a' _ IH Hop]; [by left|..].
  - unfold nexus_acl_set in Hop. destruct (find_acl_entry n a uid) as [r| |] eqn:Hf; [|done..]. cbn [obind] in Hop. right.
    destruct (find_single _ _ _ _ IH Hf) as [[-> ->]|(e & -> & -> & _)]; cbn in Hop; injection Hop as <-; eauto.
  - unfold nexus_acl_unset in Hop. destruct (find_acl_entry n a uid) as [r| |] eqn:Hf; [|done..]. cbn [obind] in Hop.
    destruct (find_single _ _ _ _ IH Hf) as [[-> ->]|(e & -> & -> & _)]; cbn in Hop; injection Hop as <-; [by left|right; eauto].
  - unfold nexus_acl_remove in Hop. destruct (find_acl_entry n a uid) as [r| |] eqn:Hf; [|done..]. cbn [obind] in Hop. left.
    destruct (find_single _ _ _ _ IH Hf) as [[-> ->]|(e & -> & -> & _)]; cbn in Hop; by injection Hop as <-.
Qed.

(** A lookup for another user than the one of the entry. *)
Lemma find_other n c e uid : acl_uid e <> uid -> find_acl_entry n (mk_acl c [Some e]) uid = Spin.
Proof. intros Hne. destruct n as [|n]; [done|]. rewrite find_first. cbn. by rewrite (proj2 (Z.eqb_neq _ _) Hne). Qed.

(** ** Properties *)
(** An ACL serves one user.  Every ACL the operations build has no entry or
    exactly one; once it has the entry of a user, setting, unsetting and
    removing permissions of any other user and checking any other user who is
    not the owner never returns, however long it runs. *)
Theorem acl_serves_one_user a :
  acl_reachable a ->
  a = nexus_acl_init \/
  exists e, a = mk_acl 1 [Some e] /\ forall n uid perm, uid <> acl_uid e ->
    nexus_acl_set n a uid perm = Spin /\ nexus_acl_unset n a uid perm = Spin /\ nexus_acl_remove n a uid = Spin /\
    (uid <> NEXUS_ROOT_USER -> nexus_acl_is_authorized n a uid perm = Spin).
Proof.
  intros Hr. destruct (reachable_single _ Hr) as [->|(e & ->)]; [by left|]. right. exists e. split; [done|].
  intros n uid perm Hne. unfold nexus_acl_set, nexus_acl_unset, nexus_acl_remove, nexus_acl_is_authorized.
  rewrite !find_other by done. split; [done|]. split; [done|]. split; [done|]. intros Hroot.
  by rewrite (proj2 (Z.eqb_neq _ _) Hroot).
Qed.

Definition toy_acl : nexus_acl := mk_acl 1 [Some (mk_acl_entry 1 5)].

Lemma toy_acl_reachable : acl_reachable toy_acl.
Proof. apply (acl_set 1 nexus_acl_init 5 1); [apply acl_start|reflexivity]. Qed.

Lemma acl_serves_one_user_witness :
  toy_acl = nexus_acl_init \/
  exists e, toy_acl = mk_acl 1 [Some e] /\ forall n uid perm, uid <> acl_uid e ->
    nexus_acl_set n toy_acl uid perm = Spin /\ nexus_acl_unset n toy_acl uid perm = Spin /\ nexus_acl_remove n toy_acl uid = Spin /\
    (uid <> NEXUS_ROOT_USER -> nexus_acl_is_authorized n toy_acl uid perm = Spin).
Proof. apply acl_serves_one_user, toy_acl_reachable. Defined.

Lemma lnot32_bit p i : 0 <= i < 32 -> Z.testbit (lnot32 p) i = negb (Z.testbit p i).
Proof. intros Hi. unfold lnot32, wrap. rewrite Z.mod_pow2_bits_low, Z.lnot_spec by lia. done. Qed.

(** The user of the entry, after a change of the permissions. *)
Lemma authorized_entry n e q :
  acl_uid e <> NEXUS_ROOT_USER ->
  nexus_acl_is_authorized (S n) (mk_acl 1 [Some e]) (acl_uid e) q = Done (negb (Z.land (acl_perm e) q =? 0)).
Proof.
  intros Hr. unfold nexus_acl_is_authorized. rewrite (proj2 (Z.eqb_neq _ _) Hr), find_first. cbn [acls]. by rewrite Z.eqb_refl.
Qed.

Lemma land_bit p i : 0 <= i -> negb (Z.land p (2 ^ i) =? 0) = Z.testbit p i.
Proof.
  intros Hi. destruct (Z.testbit p i) eqn:Hb.
  - apply negb_true_iff, Z.eqb_neq. intros H0. apply (f_equal (fun x => Z.testbit x i)) in H0.
    rewrite Z.land_spec, Z.pow2_bits_true, Hb, Z.bits_0 in H0 by lia. done.
  - apply negb_false_iff, Z.eqb_eq. apply Z.bits_inj'. intros j Hj. rewrite Z.land_spec, Z.bits_0.
    destruct (decide (j = i)) as [->|Hne]; [by rewrite Hb|]. rewrite Z.pow2_bits_false by lia. apply andb_false_r.
Qed.

(** Taking permissions away from a user takes none away and grants all the
    others: afterwards the user is authorized for every permission that was
    not named, and for a named one exactly when he was before. *)
Theorem acl_unset_grants n e perm i :
  acl_uid e <> NEXUS_ROOT_USER -> 0 <= i < 32 ->
  exists a, nexus_acl_unset (S n) (mk_acl 1 [Some e]) (acl_uid e) perm = Done (a, 0) /\
    nexus_acl_is_authorized (S n) a (acl_uid e) (2 ^ i) =
      if Z.testbit perm i then nexus_acl_is_authorized (S n) (mk_acl 1 [Some e]) (acl_uid e) (2 ^ i) else Done true.
Proof.
  intros Hr Hi. unfold nexus_acl_unset. rewrite find_first. cbn [acls]. rewrite Z.eqb_refl. cbn [obind update_entry acls lookup list_lookup].
  eexists. split; [done|]. cbn [list_insert insert acl_count].
  change (acl_uid e) with (acl_uid (with_perm e (Z.lor (acl_perm e) (lnot32 perm)))) at 1. rewrite !authorized_entry by done.
  cbn [acl_perm with_perm]. rewrite !land_bit, Z.lor_spec, lnot32_bit by lia. destruct (Z.testbit perm i); cbn; [by rewrite orb_false_r|by rewrite orb_true_r].
Qed.

Lemma acl_unset_grants_witness :
  exists a, nexus_acl_unset 1 toy_acl 5 1 = Done (a, 0) /\
    nexus_acl_is_authorized 1 a 5 (2 ^ 5) = Done true /\ nexus_acl_is_authorized 1 a 5 (2 ^ 0) = Done true.
Proof.
  destruct (acl_unset_grants 0 (mk_acl_entry 1 5) 1 5) as (a & Ha & H5); [done|lia|]. exists a. split; [exact Ha|]. split; [exact H5|].
  destruct (acl_unset_grants 0 (mk_acl_entry 1 5) 1 0) as (a' & Ha' & H0); [done|lia|]. rewrite Ha in Ha'. injection Ha' as <-. exact H0.
Defined.

(** An ACL with an entry does not survive being written and read: the count
    comes back, the entries are NULL, and the first lookup faults. *)
Lemma parse_entries_null l bs rest :
  serialize_acl_entries l = Some bs -> parse_acl_entries (length l) (bs ++ rest) = Some (replicate (length l) None).
Proof.
  revert bs. induction l as [|[e|] l IH]; intros bs Hs; [done| |done]. cbn [serialize_acl_entries] in Hs.
  apply bind_Some in Hs as (bs' & Hb & Hs). apply (inj Some) in Hs as <-. cbn [length parse_acl_entries]. unfold parse_acl_entry.
  rewrite <- app_assoc, dec_bytes_app; [|unfold serialize_acl_entry; by rewrite !length_app, !length_le_encode].
  cbn [mbind option_bind]. by rewrite (IH _ Hb).
Qed.

Theorem acl_reload_loses_entries e l bs n uid :
  Z.of_nat (length (Some e :: l)) < 2 ^ 32 ->
  nexus_acl_to_buffer (mk_acl (Z.of_nat (length (Some e :: l))) (Some e :: l)) = Some (bs, 0) ->
  exists a, nexus_acl_from_buffer bs (Z.of_nat (length bs)) = Some (a, 0) /\
    acl_count a = Z.of_nat (length (Some e :: l)) /\ find_acl_entry (S n) a uid = Fault.
Proof.
  intros Hlen Hb. unfold nexus_acl_to_buffer in Hb. apply bind_Some in Hb as (es & Hes & Hb).
  apply (inj Some), (f_equal fst) in Hb. cbn [fst] in Hb. subst bs.
  cbn [acls] in Hes. set (c := Z.of_nat (length (Some e :: l))) in *. unfold nexus_acl_from_buffer, parse_acl_header, serialize_acl_header. cbn [acl_count].
  rewrite !length_app, !length_le_encode. replace (_ <? acl_header_size) with false by (symmetry; apply Z.ltb_ge; unfold acl_header_size; lia).
  rewrite <- app_assoc.
  rewrite dec_uint_app by done. cbn [mbind option_bind]. rewrite dec_uint_app by (unfold in_range; change (8 * Z.of_nat 4) with 32; lia).
  cbn [mbind option_bind]. pose proof (parse_entries_null _ _ [] Hes) as Hp. rewrite app_nil_r in Hp. unfold c. rewrite Nat2Z.id, Hp. cbn [mbind option_bind].
  eexists. split; [done|]. split; [done|]. by rewrite find_first.
Qed.
