(* ===== verification/Encode.v ===== *)
(** * Base64 strings

    Models the encoders and decoders of [nexus_encode.c]: [nexus_alt64_encode],
    [nexus_base64_encode] and their inverses are the same code over two
    alphabets and padding characters, which are the section's variables.
    Strings are lists of characters without the final NUL.  A write outside the
    decoder's output buffer is [None]. *)
From stdpp Require Import strings.
From S2P Require Import Prelude AbacValue.

(** [index(s, c)], as an offset. *)
Definition index (s : bytes) (c : Z) : option nat := fst <$> list_find (fun x => x = c) s.

Section codec.
(** The alphabet, the address it is at, and the padding character. *)
Variables (table : bytes) (table_addr : Z) (pad : Z).

(** ** Encoding *)
Definition num_chunks (len : nat) : nat := if (len mod 3 =? 0)%nat then (len / 3)%nat else S (len / 3).

(** The bytes of chunk [i], with zeros past the end. *)
Definition chunk_byte (src : bytes) (i k : nat) : Z := default 0 (src !! (i * 3 + k)%nat).

Definition sextet (a b c : Z) (j : nat) : Z :=
  match j with
  | 0%nat => Z.shiftr a 2
  | 1%nat => Z.lor (Z.shiftr b 4) (Z.shiftl (Z.land a 3) 4)
  | 2%nat => Z.lor (Z.shiftr c 6) (Z.shiftl (Z.land b 15) 2)
  | _ => Z.land c 63
  end.

Definition encode_char (src : bytes) (i j : nat) : Z :=
  let val := sextet (chunk_byte src i 0) (chunk_byte src i 1) (chunk_byte src i 2) j in
  let c := default 0 (table !! Z.to_nat val) in
  if (2 <=? j)%nat && (length src <=? i * 3 + (j - 1))%nat then pad else c.

Definition encode_chunk (src : bytes) (i : nat) : bytes := encode_char src i <$> [0; 1; 2; 3]%nat.
Definition encode (src : bytes) : bytes := seq 0 (num_chunks (length src)) ≫= encode_chunk src.

(** ** Decoding *)
(** [index(table, c) - table] in a [uint8_t]; [index] returns NULL for a
    character that is not in the alphabet. *)
Definition table_val (c : Z) : Z :=
  match index table c with Some v => wrap 8 (Z.of_nat v) | None => wrap 8 (0 - table_addr) end.
Definition table_val_opt (c : Z) : Z := match index table c with Some _ => table_val c | None => 0 end.

Definition write (buf : bytes) (k : nat) (v : Z) : option bytes :=
  if (k <? length buf)%nat then Some (<[k := v]> buf) else None.

Definition join0 (v0 v1 : Z) : Z := wrap 8 (Z.lor (Z.shiftl (Z.land v0 0x3f) 2) (Z.shiftr (Z.land v1 0x30) 4)).
Definition join1 (v1 v2 : Z) : Z := wrap 8 (Z.lor (Z.shiftl (Z.land v1 0x0f) 4) (Z.shiftr (Z.land v2 0x3c) 2)).
Definition join2 (v2 v3 : Z) : Z := wrap 8 (Z.lor (Z.shiftl (Z.land v2 0x03) 6) (Z.land v3 0x3f)).

Definition decode_chunk (s : bytes) (n i : nat) (padding : Z) (buf : bytes) : option bytes :=
  let c j := default 0 (s !! (i * 4 + j)%nat) in
  let v0 := table_val (c 0%nat) in
  let v1 := table_val (c 1%nat) in
  let v2 := table_val_opt (c 2%nat) in
  let v3 := table_val_opt (c 3%nat) in
  let not_last := negb (Z.of_nat i =? Z.of_nat n - 1) in
  buf ← write buf (i * 3) (join0 v0 v1);
  buf ← (if (padding <=? 1) || not_last then write buf (i * 3 + 1) (join1 v1 v2) else Some buf);
  if (padding =? 0) || not_last then write buf (i * 3 + 2) (join2 v2 v3) else Some buf.

Fixpoint decode_loop (k : nat) (s : bytes) (n i : nat) (padding : Z) (buf : bytes) : option bytes :=
  match k with
  | O => Some buf
  | S k => buf ← decode_chunk s n i padding buf; decode_loop k s n (S i) padding buf
  end.

Definition padding_of (s : bytes) : Z :=
  match index s pad with Some p => Z.of_nat (length s - p) | None => 0 end.

(** Return code and the bytes.  The length of a string is an [int]; the
    allocation of a length that wrapped aborts ([None]). *)
Definition decode (s : bytes) : option (Z * bytes) :=
  let len := length s in
  if negb (Nat.modulo len 4 =? 0)%nat then Some (-1, [])
  else
    let n := (len / 4)%nat in
    let padding := padding_of s in
    let out_len := 3 * Z.of_nat n - padding in
    if out_len <? 0 then None
    else buf ← decode_loop n s n 0 padding (replicate (Z.to_nat out_len) 0); Some (0, buf).
End codec.

Definition alt64_table : bytes := str "ABCDEFGHIJKLMNOPQRSTUVWXYZabcdefghijklmnopqrstuvwxyz0123456789-_".
Definition base64_table : bytes := str "ABCDEFGHIJKLMNOPQRSTUVWXYZabcdefghijklmnopqrstuvwxyz0123456789+/".

Definition nexus_alt64_encode (src : bytes) : bytes := encode alt64_table 46 src.
Definition nexus_alt64_decode (table_addr : Z) (s : bytes) : option (Z * bytes) := decode alt64_table table_addr 46 s.
Definition nexus_base64_encode (src : bytes) : bytes := encode base64_table 61 src.
Definition nexus_base64_decode (table_addr : Z) (s : bytes) : option (Z * bytes) := decode base64_table table_addr 61 s.

(** ** Bits *)
Definition bytes256 : list Z := Z.of_nat <$> seq 0 256.

Lemma byte_in z : byte_ok z -> z ∈ bytes256.
Proof.
  intros Hz. apply list_elem_of_fmap. exists (Z.to_nat z). unfold byte_ok in Hz. split; [lia|]. apply elem_of_seq. lia.
Qed.

(** A statement about two bytes, checked on all of them. *)
Lemma all_bytes (P : Z -> Z -> bool) a b :
  forallb (fun a => forallb (P a) bytes256) bytes256 = true -> byte_ok a -> byte_ok b -> P a b = true.
Proof.
  intros Hall Ha Hb. rewrite forallb_forall in Hall. specialize (Hall a). rewrite forallb_forall in Hall.
  apply Hall; apply list_elem_of_In, byte_in; done.
Qed.

Lemma sextet_low a b c j : byte_ok a -> byte_ok b -> byte_ok c -> 0 <= sextet a b c j < 64.
Proof.
  intros Ha Hb Hc. assert (Hr : forall v, ((0 <=? v) && (v <? 64))%bool = true -> 0 <= v < 64).
  { intros v [H1%Z.leb_le H2%Z.ltb_lt]%andb_true_iff. lia. }
  apply Hr. destruct j as [|[|[|j]]]; cbn [sextet].
  - by apply (all_bytes (fun a _ => (0 <=? Z.shiftr a 2) && (Z.shiftr a 2 <? 64)) a a); [vm_compute; reflexivity|..].
  - by apply (all_bytes (fun a b => (0 <=? Z.lor (Z.shiftr b 4) (Z.shiftl (Z.land a 3) 4)) && (Z.lor (Z.shiftr b 4) (Z.shiftl (Z.land a 3) 4) <? 64)) a b); [vm_compute; reflexivity|..].
  - by apply (all_bytes (fun b c => (0 <=? Z.lor (Z.shiftr c 6) (Z.shiftl (Z.land b 15) 2)) && (Z.lor (Z.shiftr c 6) (Z.shiftl (Z.land b 15) 2) <? 64)) b c); [vm_compute; reflexivity|..].
  - by apply (all_bytes (fun c _ => (0 <=? Z.land c 63) && (Z.land c 63 <? 64)) c c); [vm_compute; reflexivity|..].
Qed.

Lemma join0_byte a b c : byte_ok a -> byte_ok b -> join0 (sextet a b c 0) (sextet a b c 1) = a.
Proof.
  intros Ha Hb. apply Z.eqb_eq. cbn [sextet].
  by apply (all_bytes (fun a b => join0 (Z.shiftr a 2) (Z.lor (Z.shiftr b 4) (Z.shiftl (Z.land a 3) 4)) =? a) a b); [vm_compute; reflexivity|..].
Qed.

Lemma join1_byte a b c : byte_ok a -> byte_ok b -> byte_ok c -> join1 (sextet a b c 1) (sextet a b c 2) = b.
Proof.
  intros Ha Hb Hc. unfold join1. cbn [sextet].
  assert (H1 : Z.land (Z.lor (Z.shiftr b 4) (Z.shiftl (Z.land a 3) 4)) 0x0f = Z.shiftr b 4).
  { apply Z.eqb_eq. by apply (all_bytes (fun a b => Z.land (Z.lor (Z.shiftr b 4) (Z.shiftl (Z.land a 3) 4)) 0x0f =? Z.shiftr b 4) a b);
      [vm_compute; reflexivity|..]. }
  assert (H2 : Z.land (Z.lor (Z.shiftr c 6) (Z.shiftl (Z.land b 15) 2)) 0x3c = Z.shiftl (Z.land b 15) 2).
  { apply Z.eqb_eq. by apply (all_bytes (fun b c => Z.land (Z.lor (Z.shiftr c 6) (Z.shiftl (Z.land b 15) 2)) 0x3c =? Z.shiftl (Z.land b 15) 2) b c);
      [vm_compute; reflexivity|..]. }
  rewrite H1, H2. apply Z.eqb_eq.
  by apply (all_bytes (fun b _ => wrap 8 (Z.lor (Z.shiftl (Z.shiftr b 4) 4) (Z.shiftr (Z.shiftl (Z.land b 15) 2) 2)) =? b) b b); [vm_compute; reflexivity|..].
Qed.

Lemma join2_byte a b c : byte_ok b -> byte_ok c -> join2 (sextet a b c 2) (sextet a b c 3) = c.
Proof.
  intros Hb Hc. apply Z.eqb_eq. cbn [sextet].
  by apply (all_bytes (fun b c => join2 (Z.lor (Z.shiftr c 6) (Z.shiftl (Z.land b 15) 2)) (Z.land c 63) =? c) b c); [vm_compute; reflexivity|..].
Qed.

(** ** Lists of chunks *)
Lemma chunks_lookup (f : nat -> bytes) k n i j :
  (forall x, length (f x) = 4%nat) -> (i < n)%nat -> (j < 4)%nat -> (seq k n ≫= f) !! (i * 4 + j)%nat = f (k + i)%nat !! j.
Proof.
  intros Hf. revert k i. induction n as [|n IH]; intros k i Hi Hj; [lia|]. cbn [seq]. rewrite bind_cons. destruct i as [|i].
  - rewrite lookup_app_l by (rewrite Hf; lia). by rewrite Nat.add_0_r.
  - rewrite lookup_app_r by (rewrite Hf; lia). rewrite Hf. replace (S i * 4 + j - 4)%nat with (i * 4 + j)%nat by lia.
    rewrite IH by lia. f_equal. f_equal. lia.
Qed.

Lemma chunks_length (f : nat -> bytes) k n : (forall x, length (f x) = 4%nat) -> length (seq k n ≫= f) = (4 * n)%nat.
Proof. intros Hf. revert k. induction n as [|n IH]; intros k; [done|]. cbn [seq]. rewrite bind_cons, length_app, IH, Hf. lia. Qed.

Lemma num_chunks_bounds len : (len <= 3 * num_chunks len)%nat /\ (3 * num_chunks len < len + 3)%nat.
Proof.
  unfold num_chunks. pose proof (Nat.div_mod len 3 ltac:(lia)). pose proof (Nat.mod_upper_bound len 3 ltac:(lia)).
  destruct (Nat.eqb_spec (len mod 3) 0); lia.
Qed.

Lemma index_Some s c k : s !! k = Some c -> (forall j, (j < k)%nat -> s !! j <> Some c) -> index s c = Some k.
Proof.
  intros Hk Hlt. apply fmap_Some. exists (k, c). split; [|done]. apply list_find_Some. split; [done|]. split; [done|].
  intros j y Hj Hjk ->. by apply (Hlt j).
Qed.

Lemma index_None s c : c ∉ s -> index s c = None.
Proof.
  intros Hc. apply fmap_None, list_find_None, Forall_forall. intros x Hx ->. done.
Qed.

Section roundtrip.
Variables (table : bytes) (table_addr : Z) (pad : Z).
Hypothesis table_len : length table = 64%nat.
Hypothesis table_nodup : NoDup table.
Hypothesis pad_fresh : pad ∉ table.
Implicit Types (src buf : bytes) (i j : nat).

Lemma table_val_enc v : 0 <= v < 64 -> table_val table table_addr (default 0 (table !! Z.to_nat v)) = v.
Proof.
  intros Hv. destruct (lookup_lt_is_Some_2 table (Z.to_nat v)) as [c Hc]; [lia|]. rewrite Hc. cbn [from_option id].
  unfold table_val. rewrite (index_Some table c (Z.to_nat v) Hc).
  - rewrite wrap_small; unfold in_range; lia.
  - intros j Hj Hjc. pose proof (NoDup_lookup _ _ _ _ table_nodup Hjc Hc). lia.
Qed.

Lemma table_val_opt_enc v : 0 <= v < 64 -> table_val_opt table table_addr (default 0 (table !! Z.to_nat v)) = v.
Proof.
  intros Hv. pose proof (table_val_enc v Hv) as Ht. unfold table_val_opt.
  destruct (lookup_lt_is_Some_2 table (Z.to_nat v)) as [c Hc]; [lia|]. rewrite Hc in *. cbn [from_option id] in *.
  rewrite (index_Some table c (Z.to_nat v) Hc); [done|].
  intros j Hj Hjc. pose proof (NoDup_lookup _ _ _ _ table_nodup Hjc Hc). lia.
Qed.

Lemma table_val_opt_pad : table_val_opt table table_addr pad = 0.
Proof. unfold table_val_opt. by rewrite index_None. Qed.

(** The characters of the encoding. *)
Lemma encode_lookup src i j :
  (i < num_chunks (length src))%nat -> (j < 4)%nat -> encode table pad src !! (i * 4 + j)%nat = Some (encode_char table pad src i j).
Proof.
  intros Hi Hj. unfold encode. rewrite chunks_lookup by done. destruct j as [|[|[|[|j]]]]; [done..|lia].
Qed.

Lemma encode_length src : length (encode table pad src) = (4 * num_chunks (length src))%nat.
Proof. by apply chunks_length. Qed.

Lemma chunk_bytes_ok src i k : Forall byte_ok src -> byte_ok (chunk_byte src i k).
Proof.
  intros Hs. unfold chunk_byte. destruct (src !! _) eqn:E; cbn; [|unfold byte_ok; lia]. by eapply Forall_lookup_1.
Qed.

(** A padding character is where the source has ended. *)
Lemma encode_char_pad src i j :
  Forall byte_ok src -> (encode_char table pad src i j = pad <-> (2 <= j)%nat /\ (length src <= i * 3 + (j - 1))%nat).
Proof.
  intros Hs. unfold encode_char. destruct (Nat.leb_spec 2 j) as [H2|H2]; destruct (Nat.leb_spec (length src) (i * 3 + (j - 1))) as [Hl|Hl];
    cbn [andb]; (split; [|try lia; try done]); intros Heq; try lia.
  all: exfalso; apply pad_fresh; rewrite <- Heq.
  all: pose proof (sextet_low (chunk_byte src i 0) (chunk_byte src i 1) (chunk_byte src i 2) j
    (chunk_bytes_ok _ _ _ Hs) (chunk_bytes_ok _ _ _ Hs) (chunk_bytes_ok _ _ _ Hs)) as Hv.
  all: destruct (lookup_lt_is_Some_2 table (Z.to_nat (sextet (chunk_byte src i 0) (chunk_byte src i 1) (chunk_byte src i 2) j))) as [c Hc]; [lia|].
  all: rewrite Hc; cbn [from_option id]; by eapply list_elem_of_lookup_2.
Qed.

Lemma padding_encode src :
  Forall byte_ok src -> padding_of pad (encode table pad src) = 3 * Z.of_nat (num_chunks (length src)) - Z.of_nat (length src).
Proof.
  intros Hs. pose proof (num_chunks_bounds (length src)) as [Hn1 Hn2]. unfold padding_of.
  set (n := num_chunks (length src)) in *.
  assert (Hat : forall k, (k < 4 * n)%nat -> encode table pad src !! k = Some (encode_char table pad src (k / 4) (k mod 4))).
  { intros k Hk. pose proof (Nat.div_mod k 4 ltac:(lia)) as Hd. pose proof (Nat.mod_upper_bound k 4 ltac:(lia)).
    rewrite Hd at 1. rewrite (Nat.mul_comm 4). apply encode_lookup; [apply Nat.Div0.div_lt_upper_bound; lia|done]. }
  destruct (decide (length src = 3 * n)%nat) as [Heq|Hne].
  - rewrite index_None; [lia|]. intros (k & Hk)%list_elem_of_lookup. pose proof (lookup_lt_Some _ _ _ Hk) as Hlt. rewrite encode_length in Hlt. fold n in Hlt.
    rewrite Hat in Hk by done. apply (inj Some) in Hk. apply encode_char_pad in Hk as [H1 H2]; [|done].
    pose proof (Nat.div_mod k 4 ltac:(lia)) as Hd. pose proof (Nat.mod_upper_bound k 4 ltac:(lia)) as Hm.
    lia.
  - set (r := (length src - 3 * (n - 1))%nat). assert (Hr : (1 <= r <= 2)%nat) by (unfold r; lia).
    assert (Hk : index (encode table pad src) pad = Some ((n - 1) * 4 + (r + 1))%nat).
    { apply index_Some.
      - rewrite encode_lookup by (fold n; lia). f_equal. apply encode_char_pad; [done|]. unfold r. lia.
      - intros j Hj Hjp. rewrite Hat in Hjp by lia. apply (inj Some) in Hjp. apply encode_char_pad in Hjp as [H1 H2]; [|done].
        pose proof (Nat.div_mod j 4 ltac:(lia)). pose proof (Nat.mod_upper_bound j 4 ltac:(lia)). unfold r in Hj. lia. }
    rewrite Hk, encode_length. fold n. unfold r. lia.
Qed.

(** The buffer after [k] bytes have been written. *)
Definition filled src (k : nat) : bytes := take k src ++ replicate (length src - k) 0.

Lemma write_next src i k v :
  (i * 3 + k < length src)%nat -> chunk_byte src i k = v ->
  write (filled src (i * 3 + k)) (i * 3 + k) v = Some (filled src (i * 3 + k + 1)).
Proof.
  intros Hk Hv. unfold write, filled. rewrite length_app, length_take, length_replicate.
  rewrite (proj2 (Nat.ltb_lt _ _)) by lia. f_equal.
  destruct (lookup_lt_is_Some_2 src (i * 3 + k)%nat) as [x Hx]; [lia|]. unfold chunk_byte in Hv. rewrite Hx in Hv. cbn in Hv. subst x.
  rewrite insert_app_r_alt by (rewrite length_take; lia). rewrite length_take, Nat.min_l by lia. rewrite Nat.sub_diag.
  replace (length src - (i * 3 + k))%nat with (S (length src - (i * 3 + k + 1))) by lia. cbn [replicate].
  rewrite Nat.add_1_r, (take_S_r _ _ _ Hx), <- app_assoc. done.
Qed.

(** The values the decoder reads back. *)
Lemma read_val src i j :
  Forall byte_ok src -> (i < num_chunks (length src))%nat -> (j < 4)%nat -> encode_char table pad src i j <> pad ->
  let v := sextet (chunk_byte src i 0) (chunk_byte src i 1) (chunk_byte src i 2) j in
  let c := default 0 (encode table pad src !! (i * 4 + j)%nat) in
  table_val table table_addr c = v /\ table_val_opt table table_addr c = v.
Proof.
  intros Hs Hi Hj Hp v c. pose proof (sextet_low (chunk_byte src i 0) (chunk_byte src i 1) (chunk_byte src i 2) j
    (chunk_bytes_ok _ _ _ Hs) (chunk_bytes_ok _ _ _ Hs) (chunk_bytes_ok _ _ _ Hs)) as Hv. fold v in Hv.
  assert (Hc : c = default 0 (table !! Z.to_nat v)).
  { unfold c. rewrite encode_lookup by done. cbn [from_option id]. rewrite encode_char_pad in Hp by done. unfold encode_char. fold v.
    destruct (Nat.leb_spec 2 j), (Nat.leb_spec (length src) (i * 3 + (j - 1))); cbn [andb]; try done. tauto. }
  rewrite Hc. split; [by apply table_val_enc|by apply table_val_opt_enc].
Qed.

(** The decoder on one chunk of an encoding. *)
Lemma decode_chunk_enc src i :
  Forall byte_ok src -> (i < num_chunks (length src))%nat ->
  decode_chunk table table_addr (encode table pad src) (num_chunks (length src)) i
    (3 * Z.of_nat (num_chunks (length src)) - Z.of_nat (length src)) (filled src (i * 3))
  = Some (filled src (Nat.min (S i * 3) (length src))).
Proof.
  intros Hs Hi. pose proof (num_chunks_bounds (length src)) as [Hn1 Hn2]. set (n := num_chunks (length src)) in *.
  pose proof (chunk_bytes_ok src i 0 Hs) as Ha. pose proof (chunk_bytes_ok src i 1 Hs) as Hb. pose proof (chunk_bytes_ok src i 2 Hs) as Hc.
  unfold decode_chunk.
  destruct (read_val src i 0 Hs Hi ltac:(lia)) as [-> _]; [rewrite encode_char_pad by done; lia|].
  destruct (read_val src i 1 Hs Hi ltac:(lia)) as [-> _]; [rewrite encode_char_pad by done; lia|].
  assert (H2 : (i * 3 + 1 < length src)%nat -> table_val_opt table table_addr (default 0 (encode table pad src !! (i * 4 + 2)%nat)) =
    sextet (chunk_byte src i 0) (chunk_byte src i 1) (chunk_byte src i 2) 2).
  { intros Hl. apply read_val; [done|done|lia|]. rewrite encode_char_pad by done. lia. }
  assert (H3 : (i * 3 + 2 < length src)%nat -> table_val_opt table table_addr (default 0 (encode table pad src !! (i * 4 + 3)%nat)) =
    sextet (chunk_byte src i 0) (chunk_byte src i 1) (chunk_byte src i 2) 3).
  { intros Hl. apply read_val; [done|done|lia|]. rewrite encode_char_pad by done. lia. }
  pose proof (write_next src i 0 (chunk_byte src i 0)) as W0. rewrite !Nat.add_0_r in W0.
  rewrite join0_byte, W0 by (done || lia). cbn [mbind option_bind].
  destruct (Nat.ltb_spec (i * 3 + 1) (length src)) as [L1|L1].
  - rewrite H2 by done. rewrite join1_byte by done.
    replace ((_ <=? 1) || _) with true by (symmetry; destruct (Z.leb_spec (3 * Z.of_nat n - Z.of_nat (length src)) 1); [done|];
      cbn; apply negb_true_iff, Z.eqb_neq; lia).
    rewrite (write_next src i 1) by done. cbn [mbind option_bind].
    destruct (Nat.ltb_spec (i * 3 + 2) (length src)) as [L2|L2].
    + rewrite H3, join2_byte by done.
      replace ((_ =? 0) || _) with true by (symmetry; destruct (Z.eqb_spec (3 * Z.of_nat n - Z.of_nat (length src)) 0); [done|];
        cbn; apply negb_true_iff, Z.eqb_neq; lia).
      replace (i * 3 + 1 + 1)%nat with (i * 3 + 2)%nat by lia. rewrite (write_next src i 2) by done. do 2 f_equal. lia.
    + rewrite (proj2 (Z.eqb_neq (3 * Z.of_nat n - Z.of_nat (length src)) 0)) by lia.
      rewrite (proj2 (Z.eqb_eq (Z.of_nat i) _)) by lia. cbn [negb orb]. do 2 f_equal. lia.
  - rewrite (proj2 (Z.leb_gt (3 * Z.of_nat n - Z.of_nat (length src)) 1)) by lia.
    rewrite (proj2 (Z.eqb_neq (3 * Z.of_nat n - Z.of_nat (length src)) 0)) by lia.
    rewrite (proj2 (Z.eqb_eq (Z.of_nat i) _)) by lia. cbn [negb orb mbind option_bind]. do 2 f_equal. lia.
Qed.

Lemma decode_loop_enc src k i :
  Forall byte_ok src -> (i + k = num_chunks (length src))%nat ->
  decode_loop table table_addr k (encode table pad src) (num_chunks (length src)) i
    (3 * Z.of_nat (num_chunks (length src)) - Z.of_nat (length src)) (filled src (Nat.min (i * 3) (length src))) = Some src.
Proof.
  intros Hs. revert i. induction k as [|k IH]; intros i Hk; pose proof (num_chunks_bounds (length src)) as [Hn1 Hn2].
  - cbn [decode_loop]. rewrite Nat.min_r by lia. unfold filled. by rewrite Nat.sub_diag, app_nil_r, take_ge.
  - cbn [decode_loop]. rewrite Nat.min_l by lia. rewrite decode_chunk_enc by (done || lia). cbn [mbind option_bind]. apply IH. lia.
Qed.

Lemma decode_encode src : Forall byte_ok src -> decode table table_addr pad (encode table pad src) = Some (0, src).
Proof.
  intros Hs. unfold decode. rewrite encode_length, padding_encode by done. set (n := num_chunks (length src)).
  replace ((4 * n) mod 4)%nat with 0%nat by (rewrite Nat.mul_comm; symmetry; apply Nat.Div0.mod_mul). cbn [Nat.eqb negb].
  replace (4 * n / 4)%nat with n by (rewrite Nat.mul_comm; symmetry; by apply Nat.div_mul).
  replace (3 * Z.of_nat n - (3 * Z.of_nat n - Z.of_nat (length src))) with (Z.of_nat (length src)) by lia.
  rewrite (proj2 (Z.ltb_ge _ _)) by lia. rewrite Nat2Z.id.
  pose proof (decode_loop_enc src n 0 Hs eq_refl) as Hd. cbn [Nat.mul Nat.min] in Hd. unfold filled in Hd. cbn [take app] in Hd.
  rewrite Nat.sub_0_r in Hd. change (take 0 src ++ ?l) with l in Hd. fold n in Hd. by rewrite Hd.
Qed.
End roundtrip.

(** ** Properties *)
(** What the two encoders write, their decoders read back: for every
    sequence of bytes, whatever its length modulo 3 and wherever the alphabet
    is in memory. *)
Theorem base64_roundtrip addr src :
  Forall byte_ok src ->
  nexus_base64_decode addr (nexus_base64_encode src) = Some (0, src) /\
  nexus_alt64_decode addr (nexus_alt64_encode src) = Some (0, src).
Proof.
  intros Hs. split; apply decode_encode; try done; refine (bool_decide_unpack _ _); vm_compute; exact I.
Qed.

Lemma base64_roundtrip_witness :
  nexus_base64_encode [77; 97] = str "TWE=" /\ nexus_base64_decode 0 (str "TWE=") = Some (0, [77; 97]).
Proof.
  destruct (base64_roundtrip 0 [77; 97]) as [H1 _]; [repeat constructor; unfold byte_ok; lia|]. by split.
Defined.

(** A string whose padding character comes three or more characters before
    the end makes the decoder write past the buffer it allocated. *)
Lemma decode_loop_bound table addr s n padding k i buf r :
  decode_loop table addr k s n i padding buf = Some r -> length r = length buf /\ (k <> 0%nat -> ((i + k - 1) * 3 < length buf)%nat).
Proof.
  assert (Hw : forall b x v b', write b x v = Some b' -> length b' = length b /\ (x < length b)%nat).
  { intros b x v b'. unfold write. destruct (Nat.ltb_spec x (length b)); [|done]. intros [= <-]. by rewrite length_insert. }
  revert i buf. induction k as [|k IH]; intros i buf; cbn [decode_loop]; [intros [= <-]; by split|].
  intros Hd. apply bind_Some in Hd as (b1 & Hc & Hd). apply IH in Hd as [Hl Hb].
  unfold decode_chunk in Hc. apply bind_Some in Hc as (b2 & Hw0 & Hc). apply Hw in Hw0 as [E0 B0]. apply bind_Some in Hc as (b3 & Hw1 & Hc).
  assert (E1 : length b3 = length b2) by (destruct ((padding <=? 1) || _); [by apply Hw in Hw1 as [? _]|by injection Hw1 as <-]).
  assert (E2 : length b1 = length b3) by (destruct ((padding =? 0) || _); [by apply Hw in Hc as [? _]|by injection Hc as <-]).
  split; [congruence|]. intros _. destruct (decide (k = 0)%nat) as [->|Hk]; [|specialize (Hb Hk)]; lia.
Qed.

Theorem base64_decode_overflows addr s p :
  (length s mod 4 = 0)%nat -> index s 61 = Some p -> (3 <= length s - p)%nat ->
  nexus_base64_decode addr s = None.
Proof.
  intros Hm Hp H3. unfold nexus_base64_decode, decode, padding_of. rewrite Hm, Hp. cbn [Nat.eqb negb].
  destruct (Z.ltb_spec (3 * Z.of_nat (length s / 4) - Z.of_nat (length s - p)) 0); [done|].
  destruct (decode_loop _ _ _ _ _ _ _ _) as [r|] eqn:Hd; [|done]. exfalso.
  apply decode_loop_bound in Hd as [_ Hb]. rewrite length_replicate in Hb.
  pose proof (Nat.div_mod (length s) 4 ltac:(lia)). lia.
Qed.
