(* ===== verification/Keys.v ===== *)
(** * Keys and the volume key

    Models [libnexus_trusted/nexus_key.c] with its parts for raw, wrapped and
    sealed keys, [key_buffer.c] and [volumekey.c].  A key holds its bytes; a
    public key holds its printed form, parsing and printing being those of
    [UserTable.v].  Sealing is the SGX SDK's: the class [SealedStorage].  The
    outer [None] of a result is a memory error, a failed assertion or an
    aborted allocation; the inner one is NULL or -1. *)
From stdpp Require Import strings.
From S2P Require Import Prelude Types Gcm Crypto BufferLayer CryptoBuf UserTable AbacValue Encode.

Inductive nexus_key_type :=
  | NEXUS_INVALID_KEY | NEXUS_MBEDTLS_PUB_KEY | NEXUS_MBEDTLS_PRV_KEY
  | NEXUS_RAW_128_KEY | NEXUS_RAW_256_KEY | NEXUS_WRAPPED_128_KEY | NEXUS_WRAPPED_256_KEY
  | NEXUS_SEALED_VOLUME_KEY.

#[export] Instance key_type_eq_dec : EqDecision nexus_key_type.
Proof. solve_decision. Defined.

(** [k_data] is what [key->key] points at. *)
Record nexus_key := mk_key { k_type : nexus_key_type; k_uuid : option uuid; k_data : option bytes }.

Definition nexus_init_key (t : nexus_key_type) : nexus_key := mk_key t None None.

(** [sgx_seal_data] with the randomness it uses, and [sgx_unseal_data]. *)
Class SealedStorage := {
  sgx_seal : bytes -> bytes -> bytes;
  sgx_unseal : bytes -> option bytes;
  seal_bytes : forall r d, Forall byte_ok d -> Forall byte_ok (sgx_seal r d) /\ sgx_seal r d <> [];
  unseal_seal : forall r d, sgx_unseal (sgx_seal r d) = Some d
}.

(** ** Sizes *)
Definition raw_key_bytes (t : nexus_key_type) : Z :=
  match t with NEXUS_RAW_256_KEY => 256 / 8 | NEXUS_RAW_128_KEY => 128 / 8 | _ => -1 end.
Definition raw_key_bits (t : nexus_key_type) : Z :=
  match t with NEXUS_RAW_256_KEY => 256 | NEXUS_RAW_128_KEY => 128 | _ => -1 end.
Definition wrapped_key_bytes (t : nexus_key_type) : Z :=
  match t with NEXUS_WRAPPED_256_KEY => 256 / 8 | NEXUS_WRAPPED_128_KEY => 128 / 8 | _ => -1 end.
Definition wrapped_key_bits (t : nexus_key_type) : Z :=
  match t with NEXUS_WRAPPED_256_KEY => 256 | NEXUS_WRAPPED_128_KEY => 128 | _ => -1 end.
Definition wrapped_key_bufsize (t : nexus_key_type) : Z := 16 + wrapped_key_bytes t.

Definition vol_key_bytes (k : nexus_key) : Z :=
  match k_type k, k_data k with NEXUS_SEALED_VOLUME_KEY, Some d => Z.of_nat (length d) | _, _ => -1 end.

Definition nexus_key_bytes (k : nexus_key) : Z :=
  match k_type k with
  | NEXUS_RAW_128_KEY | NEXUS_RAW_256_KEY => raw_key_bytes (k_type k)
  | NEXUS_WRAPPED_128_KEY | NEXUS_WRAPPED_256_KEY => wrapped_key_bytes (k_type k)
  | NEXUS_SEALED_VOLUME_KEY => vol_key_bytes k
  | _ => -1
  end.
Definition nexus_key_bits (k : nexus_key) : Z :=
  match k_type k with
  | NEXUS_RAW_128_KEY | NEXUS_RAW_256_KEY => raw_key_bits (k_type k)
  | NEXUS_WRAPPED_128_KEY | NEXUS_WRAPPED_256_KEY => wrapped_key_bits (k_type k)
  | _ => -1
  end.

(** Reading [n] bytes of a key's memory. *)
Definition read_key (k : nexus_key) (n : Z) : option bytes :=
  d ← k_data k; if (0 <=? n) && (n <=? Z.of_nat (length d)) then Some (take (Z.to_nat n) d) else None.

(** ** Creating and copying *)
Definition nexus_generate_key (t : nexus_key_type) (draw : bytes) : option nexus_key :=
  match t with
  | NEXUS_RAW_128_KEY | NEXUS_RAW_256_KEY => Some (mk_key t None (Some (take (Z.to_nat (raw_key_bytes t)) draw)))
  | _ => None
  end.

Definition nexus_copy_key (k : nexus_key) : option (option nexus_key) :=
  match k_type k with
  | NEXUS_RAW_128_KEY | NEXUS_RAW_256_KEY => d ← read_key k (raw_key_bytes (k_type k)); Some (Some (mk_key (k_type k) None (Some d)))
  | NEXUS_WRAPPED_128_KEY | NEXUS_WRAPPED_256_KEY =>
      d ← read_key k (wrapped_key_bufsize (k_type k)); Some (Some (mk_key (k_type k) None (Some d)))
  | NEXUS_SEALED_VOLUME_KEY =>
      d ← k_data k; if Z.of_nat (length d) =? 0 then None else Some (Some (mk_key (k_type k) None (Some d)))
  | _ => Some None
  end.

Section derive.
Context `{KeyWrapCipher} `{SealedStorage}.
(** [global_volumekey]. *)
Variable volumekey : option nexus_key.

(** [__wrap_key] and [__unwrap_key]: without a UUID, -1. *)
Definition wrap_key_op (t : nexus_key_type) (src : nexus_key) : option (option nexus_key) :=
  match k_uuid src with
  | None => Some None
  | Some u =>
      vk ← volumekey; vd ← k_data vk;
      d ← read_key src (raw_key_bytes (k_type src));
      Some (Some (mk_key t None (Some (wrap_key vd u d))))
  end.

Definition unwrap_key_op (t : nexus_key_type) (src : nexus_key) : option (option nexus_key) :=
  match k_uuid src with
  | None => Some None
  | Some u =>
      if wrapped_key_bytes (k_type src) <? 0 then None
      else
        vk ← volumekey; vd ← k_data vk;
        d ← read_key src (wrapped_key_bufsize (k_type src));
        Some ((fun r => mk_key t None (Some r)) <$> unwrap_key vd u d)
  end.

Definition vol_key_unseal (t : nexus_key_type) (src : nexus_key) : option (option nexus_key) :=
  d ← k_data src; Some ((fun r => mk_key t None (Some r)) <$> sgx_unseal d).

Definition vol_key_seal (src : nexus_key) (rnd : bytes) : option (option nexus_key) :=
  d ← read_key src (raw_key_bytes (k_type src));
  Some (Some (mk_key NEXUS_SEALED_VOLUME_KEY None (Some (sgx_seal rnd d)))).

(** Deriving a public key from a private one is mbedtls' part and left out. *)
Definition nexus_derive_key (t : nexus_key_type) (src : nexus_key) (rnd : bytes) : option (option nexus_key) :=
  match t with
  | NEXUS_WRAPPED_128_KEY => if decide (k_type src = NEXUS_RAW_128_KEY) then wrap_key_op t src else Some None
  | NEXUS_WRAPPED_256_KEY => if decide (k_type src = NEXUS_RAW_256_KEY) then wrap_key_op t src else Some None
  | NEXUS_RAW_128_KEY =>
      match k_type src with
      | NEXUS_WRAPPED_128_KEY => unwrap_key_op t src
      | NEXUS_SEALED_VOLUME_KEY => vol_key_unseal t src
      | _ => Some None
      end
  | NEXUS_RAW_256_KEY =>
      match k_type src with
      | NEXUS_WRAPPED_256_KEY => _ ← unwrap_key_op t src; unwrap_key_op t src
      | NEXUS_SEALED_VOLUME_KEY => _ ← unwrap_key_op t src; vol_key_unseal t src
      | _ => Some None
      end
  | NEXUS_SEALED_VOLUME_KEY =>
      match k_type src with NEXUS_RAW_128_KEY | NEXUS_RAW_256_KEY => vol_key_seal src rnd | _ => Some None end
  | _ => Some None
  end.
End derive.

(** ** Buffers *)
(** [dst_size] of a caller's buffer, [None] when a new one is allocated.  For a
    sealed key it is the [struct __volkey] of 16 bytes that is copied, not the
    data it points at. *)
Definition nexus_key_to_buf (k : nexus_key) (dst_size : option Z) : option (option bytes) :=
  let copy n :=
    if (if dst_size is Some m then m <? n else false) then Some None else d ← read_key k n; Some (Some d) in
  match k_type k with
  | NEXUS_RAW_128_KEY | NEXUS_RAW_256_KEY => copy (raw_key_bytes (k_type k))
  | NEXUS_WRAPPED_128_KEY | NEXUS_WRAPPED_256_KEY => copy (wrapped_key_bufsize (k_type k))
  | NEXUS_SEALED_VOLUME_KEY =>
      if (if dst_size is Some m then m <? vol_key_bytes k else false) then Some None else None
  | _ => Some None
  end.

(** [src_size] bytes at [src]. *)
Definition nexus_key_from_buf (t : nexus_key_type) (src : bytes) (src_size : Z) : option (option nexus_key) :=
  let copy n :=
    if src_size <? n then Some None
    else if Z.of_nat (length src) <? n then None
    else Some (Some (mk_key t None (Some (take (Z.to_nat n) src)))) in
  match t with
  | NEXUS_RAW_128_KEY | NEXUS_RAW_256_KEY => copy (raw_key_bytes t)
  | NEXUS_WRAPPED_128_KEY | NEXUS_WRAPPED_256_KEY => copy (wrapped_key_bufsize t)
  | NEXUS_SEALED_VOLUME_KEY =>
      if Z.of_nat (length src) <? src_size then None else Some (Some (mk_key t None (Some (take (Z.to_nat src_size) src))))
  | _ => Some None
  end.

(** ** Strings *)
(** What mbedtls makes of a private key: parsed and printed again. *)
Class PrivateKeys := { prv_key_to_str : bytes -> option bytes }.

Section strings.
Context `{PubkeyHash} `{PrivateKeys}.
(** Where the alphabet is. *)
Variable table_addr : Z.

Definition nexus_key_to_str (k : nexus_key) : option (option bytes) :=
  match k_type k with
  | NEXUS_MBEDTLS_PRV_KEY => Some None
  | NEXUS_MBEDTLS_PUB_KEY => d ← k_data k; Some (Some d)
  | NEXUS_RAW_128_KEY | NEXUS_RAW_256_KEY => d ← read_key k (raw_key_bytes (k_type k)); Some (Some (nexus_base64_encode d))
  | NEXUS_WRAPPED_128_KEY | NEXUS_WRAPPED_256_KEY =>
      d ← read_key k (wrapped_key_bufsize (k_type k)); Some (Some (nexus_base64_encode d))
  | NEXUS_SEALED_VOLUME_KEY =>
      d ← k_data k; if Z.of_nat (length d) =? 0 then None else Some (Some (nexus_base64_encode d))
  | NEXUS_INVALID_KEY => Some None
  end.

(** The decoded bytes, when there are [n] of them. *)
Definition key_of_size (t : nexus_key_type) (s : bytes) (n : Z) : option (option nexus_key) :=
  '(ret, d) ← nexus_base64_decode table_addr s;
  Some (if (ret =? -1) || negb (Z.of_nat (length d) =? n) then None else Some (mk_key t None (Some d))).

Definition nexus_key_from_str (t : nexus_key_type) (s : bytes) : option (option nexus_key) :=
  match t with
  | NEXUS_MBEDTLS_PUB_KEY => Some ((fun p => mk_key t None (Some p)) <$> key_to_str s)
  | NEXUS_MBEDTLS_PRV_KEY => Some ((fun p => mk_key t None (Some p)) <$> prv_key_to_str s)
  | NEXUS_RAW_128_KEY | NEXUS_RAW_256_KEY => key_of_size t s (raw_key_bytes t)
  | NEXUS_WRAPPED_128_KEY | NEXUS_WRAPPED_256_KEY => key_of_size t s (wrapped_key_bufsize t)
  | NEXUS_SEALED_VOLUME_KEY =>
      '(ret, d) ← nexus_base64_decode table_addr s;
      Some (if ret =? -1 then None else Some (mk_key t None (Some d)))
  | NEXUS_INVALID_KEY => Some None
  end.
End strings.

Definition nexus_key_descriptors : list (nexus_key_type * bytes) :=
  [(NEXUS_MBEDTLS_PUB_KEY, str "NEXUS_MBEDTLS_PUB_KEY"); (NEXUS_MBEDTLS_PRV_KEY, str "NEXUS_MBEDTLS_PRV_KEY");
   (NEXUS_RAW_128_KEY, str "NEXUS_RAW_128_KEY"); (NEXUS_RAW_256_KEY, str "NEXUS_RAW_256_KEY");
   (NEXUS_WRAPPED_128_KEY, str "NEXUS_WRAPPED_128_KEY"); (NEXUS_WRAPPED_256_KEY, str "NEXUS_WRAPPED_256_KEY");
   (NEXUS_SEALED_VOLUME_KEY, str "NEXUS_SEALED_VOLUME_KEY"); (NEXUS_INVALID_KEY, str "NEXUS_INVALID_KEY_TYPE")].

Definition nexus_key_type_to_str (t : nexus_key_type) : bytes :=
  match List.find (fun d => bool_decide (t = d.1)) nexus_key_descriptors with
  | Some d => d.2
  | None => str "NEXUS_INVALID_KEY_TYPE"
  end.
Definition nexus_key_type_from_str (s : bytes) : nexus_key_type :=
  match List.find (fun d => strncmp s d.2 (length d.2) =? 0) nexus_key_descriptors with
  | Some d => d.1
  | None => NEXUS_INVALID_KEY
  end.

(** ** Key buffers *)
Definition MAX_KEY_STR : nat := 1024.
(** A key as it leaves the enclave.  The string is in untrusted memory. *)
Record nexus_key_buffer := mk_keybuf { kbuf_type : nexus_key_type; kbuf_str : option bytes }.

Section keybuf.
Context `{KeyWrapCipher} `{SealedStorage} `{PubkeyHash} `{PrivateKeys}.
Variables (table_addr : Z) (volumekey : option nexus_key).

Definition key_buffer_extract128 (kb : nexus_key_buffer) : option (option nexus_key) :=
  s ← kbuf_str kb;
  r ← nexus_key_from_str table_addr (kbuf_type kb) (take MAX_KEY_STR s);
  match r with
  | None => Some None
  | Some protected_key => nexus_derive_key volumekey NEXUS_RAW_128_KEY protected_key []
  end.

(** [alloc] is whether [ocall_calloc] gave memory. *)
Definition key_buffer_put (k : nexus_key) (t : nexus_key_type) (rnd : bytes) (alloc : bool) : option (option nexus_key_buffer) :=
  r ← nexus_derive_key volumekey t k rnd;
  match r with
  | None => Some None
  | Some protected_key =>
      s ← nexus_key_to_str protected_key;
      match s with
      | None => Some None
      | Some s => Some (if alloc then Some (mk_keybuf t (Some s)) else None)
      end
  end.

Definition key_buffer_wrap128 (k : nexus_key) (rnd : bytes) (alloc : bool) := key_buffer_put k NEXUS_WRAPPED_128_KEY rnd alloc.
Definition key_buffer_seal (k : nexus_key) (rnd : bytes) (alloc : bool) := key_buffer_put k NEXUS_SEALED_VOLUME_KEY rnd alloc.

(** ** The volume key *)
(** The new [global_volumekey] and the return code. *)
Definition nexus_enclave_volumekey_generate (draw : bytes) : option nexus_key * Z :=
  match nexus_generate_key NEXUS_RAW_128_KEY draw with
  | None => (volumekey, -1)
  | Some k => (Some k, 0)
  end.
Definition nexus_enclave_volumekey_clear : option nexus_key := None.

Definition nexus_enclave_volumekey_serialize (rnd : bytes) (alloc : bool) : option (option nexus_key_buffer) :=
  k ← volumekey; key_buffer_seal k rnd alloc.

Definition nexus_enclave_volumekey_load (kb : nexus_key_buffer) : option (option nexus_key * Z) :=
  r ← key_buffer_extract128 kb;
  Some (match r with None => (volumekey, -1) | Some k => (Some k, 0) end).
End keybuf.

(** ** Properties *)
(** The sizes of a key's memory. *)
Definition key_wf (k : nexus_key) : Prop :=
  exists d, k_data k = Some d /\ Forall byte_ok d /\
    match k_type k with
    | NEXUS_RAW_128_KEY | NEXUS_RAW_256_KEY => Z.of_nat (length d) = raw_key_bytes (k_type k)
    | NEXUS_WRAPPED_128_KEY | NEXUS_WRAPPED_256_KEY => Z.of_nat (length d) = wrapped_key_bufsize (k_type k)
    | NEXUS_SEALED_VOLUME_KEY => d <> []
    | _ => False
    end.

Lemma read_key_all k d : k_data k = Some d -> read_key k (Z.of_nat (length d)) = Some d.
Proof.
  intros Hd. unfold read_key. rewrite Hd. cbn [mbind option_bind]. rewrite (proj2 (Z.leb_le 0 _)), Z.leb_refl by lia. cbn [andb].
  by rewrite Nat2Z.id, take_ge.
Qed.

Section properties.
Context `{KeyWrapCipher} `{SealedStorage} `{PubkeyHash} `{PrivateKeys}.

Lemma decode_back addr d : Forall byte_ok d -> nexus_base64_decode addr (nexus_base64_encode d) = Some (0, d).
Proof. intros Hd. apply decode_encode; try done; refine (bool_decide_unpack _ _); vm_compute; exact I. Qed.

Lemma key_of_size_enc addr t d :
  Forall byte_ok d -> key_of_size addr t (nexus_base64_encode d) (Z.of_nat (length d)) = Some (Some (mk_key t None (Some d))).
Proof. intros Hd. unfold key_of_size. rewrite decode_back by done. cbn [mbind option_bind]. by rewrite Z.eqb_refl. Qed.

(** A raw, wrapped or sealed key that is printed and parsed again under its
    type is the same key, less the UUID that was associated with it. *)
Theorem key_str_roundtrip addr k :
  key_wf k ->
  exists s, nexus_key_to_str k = Some (Some s) /\ nexus_key_from_str addr (k_type k) s = Some (Some (mk_key (k_type k) None (k_data k))).
Proof.
  intros (d & Hd & Hb & Ht). exists (nexus_base64_encode d). unfold nexus_key_to_str, nexus_key_from_str.
  destruct (k_type k) eqn:Hk; try done; rewrite <- ?Ht, ?(read_key_all _ _ Hd), ?Hd; cbn [mbind option_bind].
  1-4: split; [done|by apply key_of_size_enc].
  destruct d as [|x d]; [done|]. split; [done|]. by rewrite decode_back.
Qed.

Lemma volumekey_sealed addr vk vk' k rnd :
  k_type k = NEXUS_RAW_128_KEY -> key_wf k -> (length (nexus_base64_encode (sgx_seal rnd (default [] (k_data k)))) <= MAX_KEY_STR)%nat ->
  exists kb, key_buffer_seal vk k rnd true = Some (Some kb) /\
    nexus_enclave_volumekey_load addr vk' kb = Some (Some (mk_key NEXUS_RAW_128_KEY None (k_data k)), 0).
Proof.
  intros Ht (d & Hd & Hb & Hw) Hlen. rewrite Ht in Hw. rewrite Hd in Hlen |- *. cbn [from_option id] in Hlen. destruct (seal_bytes rnd d Hb) as [Hsb Hne].
  unfold key_buffer_seal, key_buffer_put, nexus_derive_key, vol_key_seal. rewrite Ht, <- Hw, (read_key_all _ _ Hd). cbn [mbind option_bind].
  unfold nexus_key_to_str. cbn [k_type k_data mbind option_bind].
  replace (Z.of_nat (length (sgx_seal rnd d)) =? 0) with false by (symmetry; apply Z.eqb_neq; destruct (sgx_seal rnd d); [done|]; cbn; lia).
  cbn [mbind option_bind]. eexists. split; [done|].
  unfold nexus_enclave_volumekey_load, key_buffer_extract128, nexus_key_from_str. cbn [kbuf_str kbuf_type mbind option_bind].
  rewrite take_ge by done. rewrite decode_back by done. cbn [mbind option_bind Z.eqb].
  unfold nexus_derive_key, vol_key_unseal. cbn [k_type k_data mbind option_bind]. by rewrite unseal_seal.
Qed.
End properties.

(** ** Concrete primitives *)
(** Sealing that marks the data, and private keys printed as they are given. *)
Lemma toy_seal_bytes (d : bytes) : Forall byte_ok d -> Forall byte_ok (7 :: d) /\ 7 :: d <> [].
Proof. intros Hd. split; [|done]. constructor; [|done]. unfold byte_ok. lia. Qed.

Definition toy_storage : SealedStorage :=
  {| sgx_seal := fun _ d => 7 :: d; sgx_unseal := fun s => match s with 7 :: d => Some d | _ => None end;
     seal_bytes := fun _ d => toy_seal_bytes d; unseal_seal := fun _ _ => eq_refl |}.
Definition toy_private : PrivateKeys := {| prv_key_to_str := Some |}.

Definition toy_wrapped_key : nexus_key := mk_key NEXUS_WRAPPED_128_KEY None (Some (replicate 32 200)).

Lemma key_str_roundtrip_witness :
  exists s, nexus_key_to_str toy_wrapped_key = Some (Some s) /\
    nexus_key_from_str (H := toy_hash) (H0 := toy_private) 0 NEXUS_WRAPPED_128_KEY s = Some (Some toy_wrapped_key).
Proof.
  apply (key_str_roundtrip (H1 := toy_hash) (H2 := toy_private) 0 toy_wrapped_key).
  exists (replicate 32 200). split; [done|]. split; [|done]. apply Forall_replicate. unfold byte_ok. lia.
Defined.
