(* ===== verification/Session.v ===== *)
(** * Instances, key exchange and authentication

    Models [ecalls/instance.c], the authentication half of [ecalls/volume.c],
    [nexus_vfs_mount] and [nexus_vfs_deinit] of [vfs.c], [nexus_verfiy_pubkey]
    of [main.c] and the box and seal functions of [crypto.c]: how an enclave
    gets its key pair, how a volume key moves from one enclave to another, and
    how a user proves who he is before a volume is mounted.  The primitives of
    TweetNaCl, mbedtls and the SGX SDK are classes with the laws their
    documentation gives.  The outer [None] is a memory error. *)
From S2P Require Import Prelude Hashmap Types Gcm Crypto BufferLayer CryptoBuf UserTable Supernode Dentry Encode Keys.

(** ** Primitives *)
Definition crypto_box_ZEROBYTES : nat := 32.
Definition ECDH_KEY_SIZE : nat := 32.

(** [crypto_box] and [crypto_box_open] of NaCl: [box m n pk sk]. *)
Class CryptoBox := {
  box_public : bytes -> bytes;
  crypto_box : bytes -> bytes -> bytes -> bytes -> bytes;
  crypto_box_open : bytes -> bytes -> bytes -> bytes -> option bytes;
  box_length : forall m n pk sk, length (crypto_box m n pk sk) = length m;
  box_inverse : forall m n a b, take crypto_box_ZEROBYTES m = replicate crypto_box_ZEROBYTES 0 ->
    crypto_box_open (crypto_box m n (box_public b) a) n (box_public a) b = Some m
}.

(** [mbedtls_pk_verify] with a parsed public key, and [crypto_hash_sha512]. *)
Class Signatures := { pk_verify : bytes -> bytes -> bytes -> bool; sha512 : bytes -> bytes }.

(** ** Reports and quotes *)
Record sgx_report_body := mk_body { mr_enclave : bytes; mr_signer : bytes; report_data : bytes }.
(** The signature of a quote is there and nobody reads it. *)
Record sgx_quote := mk_quote { report_body : sgx_report_body; quote_signature : bytes }.

Section instance.
Context `{KeyWrapCipher} `{SealedStorage} `{PubkeyHash} `{PrivateKeys} `{CryptoBox} `{Signatures}.
(** The measurements of this enclave, and where the base64 alphabet is. *)
Variables (my_enclave my_signer : bytes) (table_addr : Z).

(** [global_owner_pubkey] and [global_owner_privkey]. *)
Record instance := mk_instance { in_pub : bytes; in_priv : bytes }.

(** ** crypto.c *)
Definition crypto_ecdh_encrypt (pk sk data nonce : bytes) : bytes :=
  crypto_box (replicate crypto_box_ZEROBYTES 0 ++ data) nonce pk sk.

(** The plaintext after its offset. *)
Definition crypto_ecdh_decrypt (pk sk data nonce : bytes) : option bytes :=
  drop crypto_box_ZEROBYTES <$> crypto_box_open data nonce pk sk.

Definition crypto_seal_data (rnd data : bytes) (ok : bool) : option bytes := if ok then Some (sgx_seal rnd data) else None.
Definition crypto_unseal_data (data : bytes) : option bytes := sgx_unseal data.

(** ** instance.c *)
(** [ok] is whether [sgx_create_report] succeeded. *)
Definition create_quote_from_pubkey (pubkey : bytes) (ok : bool) : option sgx_report_body :=
  if ok then Some (mk_body my_enclave my_signer (sha512 pubkey)) else None.

Definition validate_quote_and_copy_pubkey (ok : bool) (quote : sgx_quote) (pubkey : bytes) : Z :=
  if negb ok then -1
  else
    let other := report_body quote in
    if negb (memcmp my_enclave (mr_enclave other) =? 0) || negb (memcmp my_signer (mr_signer other) =? 0) then -1
    else if negb (memcmp (sha512 pubkey) (report_data other) =? 0) then -1
    else 0.

(** What the system calls of one request return. *)
Record sys_env := mk_sys { sy_report : bool; sy_seal : bool; sy_alloc : bool; sy_rnd : bytes }.

(** [sk] is the secret key [crypto_box_keypair] drew. *)
Definition ecall_new_instance (i : instance) (e : sys_env) (sk : bytes)
    : instance * Z * option (sgx_report_body * bytes * bytes) :=
  let i := mk_instance (box_public sk) sk in
  match create_quote_from_pubkey (in_pub i) (sy_report e) with
  | None => (i, -1, None)
  | Some report =>
      match crypto_seal_data (sy_rnd e) (in_priv i) (sy_seal e) with
      | None => (i, -1, None)
      | Some sealed => if sy_alloc e then (i, 0, Some (report, in_pub i, sealed)) else (i, -1, None)
      end
  end.

(** [sizeof(struct ecdh_secret_key)] bytes are copied from what was unsealed. *)
Definition ecall_mount_instance (i : instance) (pubkey sealed_privkey : bytes) : option (instance * Z) :=
  match crypto_unseal_data sealed_privkey with
  | None => Some (i, -1)
  | Some d => if (length d <? ECDH_KEY_SIZE)%nat then None else Some (mk_instance pubkey (take ECDH_KEY_SIZE d), 0)
  end.

(** The ephemeral public key, the nonce and the wrapped volume key. *)
Definition ecall_exchange_rootkey (volumekey : option nexus_key) (e : sys_env) (quote : sgx_quote) (other_pubkey eph_sk nonce : bytes)
    : option (Z * option (bytes * bytes * bytes)) :=
  match volumekey with
  | None => Some (-1, None)
  | Some vk =>
      if negb (validate_quote_and_copy_pubkey (sy_report e) quote other_pubkey =? 0) then Some (-1, None)
      else
        d ← read_key vk (nexus_key_bytes vk);
        let result := crypto_ecdh_encrypt other_pubkey eph_sk d nonce in
        Some (if sy_alloc e then (0, Some (box_public eph_sk, nonce, result)) else (-1, None))
  end.

(** The key buffer is copied out without looking whether there is one. *)
Definition seal_rootkey_and_export (volumekey : option nexus_key) (e : sys_env) (unwrapped : bytes)
    : option (Z * option nexus_key_buffer) :=
  r ← nexus_key_from_buf NEXUS_RAW_128_KEY unwrapped (Z.of_nat (length unwrapped));
  match r with
  | None => Some (-1, None)
  | Some k =>
      kb ← key_buffer_seal volumekey k (sy_rnd e) (sy_alloc e);
      kb ← kb;
      Some (0, Some kb)
  end.

Definition VOLUMEKEY_SIZE_BYTES : Z := 16.

Definition ecall_extract_rootkey (i : instance) (volumekey : option nexus_key) (e : sys_env) (eph_pk wrapped nonce : bytes)
    : option (Z * option nexus_key_buffer) :=
  match crypto_ecdh_decrypt eph_pk (in_priv i) wrapped nonce with
  | None => Some (-1, None)
  | Some unwrapped =>
      if negb (Z.of_nat (length wrapped) - Z.of_nat crypto_box_ZEROBYTES =? VOLUMEKEY_SIZE_BYTES) then Some (-1, None)
      else
        '(ret, kb) ← seal_rootkey_and_export volumekey e unwrapped;
        Some (if negb (ret =? 0) then (-1, None) else (0, kb))
  end.
End instance.

(** ** Sessions *)
(** [global_supernode_metadata]: NULL, an object, or a pointer whose object has
    been freed. *)
Inductive meta_pointer := MetaNull | MetaLive | MetaFreed.

Record session := mk_session {
  se_volumekey : option nexus_key;
  se_pubkey : option bytes;             (* [user_pubkey_key.key], printed *)
  se_pubkey_hash : bytes;
  se_nonce : bytes;
  se_supernode : option nexus_supernode;
  se_meta : meta_pointer;
  se_dcache : dcache;
  se_cache_live : bool;                 (* [metadata_cache] has not been destroyed *)
  se_table : option nexus_usertable;    (* [user_table_metadata] *)
  se_user : option found;
  se_user_id : Z
}.

Definition with_volumekey (s : session) (k : option nexus_key) : session :=
  mk_session k (se_pubkey s) (se_pubkey_hash s) (se_nonce s) (se_supernode s) (se_meta s) (se_dcache s) (se_cache_live s) (se_table s) (se_user s) (se_user_id s).
Definition with_pubkey (s : session) (k : option bytes) (h : bytes) : session :=
  mk_session (se_volumekey s) k h (se_nonce s) (se_supernode s) (se_meta s) (se_dcache s) (se_cache_live s) (se_table s) (se_user s) (se_user_id s).
Definition with_nonce (s : session) (n : bytes) : session :=
  mk_session (se_volumekey s) (se_pubkey s) (se_pubkey_hash s) n (se_supernode s) (se_meta s) (se_dcache s) (se_cache_live s) (se_table s) (se_user s) (se_user_id s).
Definition with_mount (s : session) (sn : option nexus_supernode) (m : meta_pointer) (dc : dcache) (live : bool) : session :=
  mk_session (se_volumekey s) (se_pubkey s) (se_pubkey_hash s) (se_nonce s) sn m dc live (se_table s) (se_user s) (se_user_id s).
Definition with_login (s : session) (u : option found) (id : Z) : session :=
  mk_session (se_volumekey s) (se_pubkey s) (se_pubkey_hash s) (se_nonce s) (se_supernode s) (se_meta s) (se_dcache s) (se_cache_live s) (se_table s) u id.
Definition with_table (s : session) (t : option nexus_usertable) : session :=
  mk_session (se_volumekey s) (se_pubkey s) (se_pubkey_hash s) (se_nonce s) (se_supernode s) (se_meta s) (se_dcache s) (se_cache_live s) t (se_user s) (se_user_id s).

Section auth.
Context `{BlockCipher} `{KeyWrapCipher} `{SealedStorage} `{PubkeyHash} `{PrivateKeys} `{Signatures}.
Variable table_addr : Z.

Definition clear_auth_pubkey (s : session) : session :=
  match se_pubkey s with
  | None => s
  | Some _ => with_pubkey s None (replicate CONFIG_HASH_SIZE 0)
  end.

Definition load_auth_pubkey (s : session) (pubkey : bytes) : session * Z :=
  match key_to_str pubkey, crypto_hash_pubkey pubkey with
  | Some k, Some h => (with_pubkey s (Some k) h, 0)
  | _, _ => (with_pubkey s None (se_pubkey_hash s), -1)
  end.

(** [nonce] is what [sgx_read_rand] drew; the challenge comes back. *)
Definition ecall_authentication_challenge (s : session) (pubkey : bytes) (kb : nexus_key_buffer) (nonce : bytes)
    : option (session * Z * option bytes) :=
  let '(s, ret) := load_auth_pubkey (clear_auth_pubkey s) pubkey in
  if negb (ret =? 0) then Some (s, -1, None)
  else
    '(vk, ret) ← nexus_enclave_volumekey_load table_addr (se_volumekey s) kb;
    let s := with_volumekey s vk in
    if negb (ret =? 0) then Some (clear_auth_pubkey s, -1, None)
    else Some (with_nonce s nonce, 0, Some nonce).

(** [nexus_vfs_mount]: on a remount the old object is freed, and the pointer
    to it stays. *)
Definition nexus_vfs_mount (s : session) (c : nexus_crypto_buf) : option (session * Z) :=
  if (if se_meta s is MetaFreed then true else false) then None
  else
    let freed := if se_meta s is MetaLive then MetaFreed else MetaNull in
    vk ← se_volumekey s; vd ← k_data vk;
    sn ← supernode_from_crypto_buf vd c;
    match sn with
    | None => Some (with_mount s None freed (se_dcache s) (se_cache_live s), -1)
    | Some sn =>
        dc ← dcache_init_root (se_dcache s) (sn_root_uuid sn);
        Some (with_mount s (Some sn) MetaLive dc (se_cache_live s), 0)
    end.

(** [nexus_vfs_deinit]: the cache is destroyed and the supernode freed; the
    pointers to the cache and to the supernode's metadata stay. *)
Definition nexus_vfs_deinit (s : session) : option session :=
  if negb (se_cache_live s) then None
  else Some (with_mount s None (if se_supernode s is Some _ then MetaFreed else se_meta s) (se_dcache s) false).

(** What the store and the runtime answer: the supernode's bytes, the user
    table under a UUID, what becomes of a loaded user table when it is
    revalidated, and whether [abac_runtime_mount] succeeded. *)
Record auth_env := mk_auth {
  ae_bufs : bcache; ae_err : Z; ae_data : option bytes; ae_ts : Z;
  ae_load : uuid -> option nexus_usertable;
  ae_reval : nexus_usertable -> option nexus_usertable;
  ae_abac : bool
}.

(** [nexus_vfs_acquire_user_table]: a table that was loaded once is only
    revalidated. *)
Definition acquire_user_table (s : session) (e : auth_env) : option (session * option nexus_usertable) :=
  match se_table s with
  | None =>
      sn ← se_supernode s;
      let t := ae_load e (usertable_uuid sn) in Some (with_table s t, t)
  | Some t =>
      match ae_reval e t with
      | None => Some (s, None)
      | Some t => Some (with_table s (Some t), Some t)
      end
  end.

Definition nexus_verfiy_pubkey (s : session) (e : auth_env) : option (session * Z) :=
  '(s, table) ← acquire_user_table s e;
  match table with
  | None => Some (s, -1)
  | Some t =>
      match nexus_usertable_find_pubkey_hash t (se_pubkey_hash s) with
      | None => Some (with_login s None (se_user_id s), -1)
      | Some FoundOwner => Some (with_login s (Some FoundOwner) NEXUS_ROOT_USER, 0)
      | Some (FoundUser u) => Some (with_login s (Some (FoundUser u)) (user_id u), 0)
      end
  end.

(** From the signature on: the code between the hash and [out]. *)
Definition verify_and_mount (s : session) (e : auth_env) (c : nexus_crypto_buf) (hash signature : bytes) : option (session * Z) :=
  if negb (match se_pubkey s with Some k => pk_verify k hash signature | None => false end) then Some (s, -1)
  else
    '(s, ret) ← nexus_vfs_mount s c;
    if negb (ret =? 0) then Some (s, -1)
    else
      '(s, ret) ← nexus_verfiy_pubkey s e;
      if negb (ret =? 0) then s ← nexus_vfs_deinit s; Some (s, -1)
      else if negb (ae_abac e) then s ← nexus_vfs_deinit s; Some (s, -1)
      else Some (s, 0).

(** A user who does not own the volume has his name printed, through
    [global_user_struct], which the lookup has just set. *)
Definition ecall_authentication_response (s : session) (e : auth_env) (supernode_uuid : uuid) (signature : option bytes)
    : option (session * Z) :=
  let '(_, c, _) := nexus_crypto_buf_create (ae_bufs e) supernode_uuid NEXUS_FREAD (ae_err e) (ae_data e) (ae_ts e) in
  match c with
  | None => Some (s, -1)
  | Some c =>
      sig ← signature;
      let exterior := match cb_external c with Some (ExtStore d) => d | _ => [] end in
      let hash := sha256 (se_nonce s ++ exterior) in
      '(s, ret) ← verify_and_mount s e c hash sig;
      let s := if negb (ret =? 0) then with_volumekey s None else s in
      Some (clear_auth_pubkey s, ret)
  end.
End auth.
