(* ===== verification/SessionProps.v ===== *)
(** * What holds of sessions and key exchange

    A login needs a signature over the challenge by the key of a user of the
    volume; the volume key survives the trip from one enclave to another; and
    the behaviours to know of: a quote is believed without its signature, a
    failed login leaves freed pointers behind, and the users of the first
    volume that was mounted are those of every later one. *)
From S2P Require Import Prelude Hashmap Types Gcm Crypto BufferLayer CryptoBuf UserTable Supernode Dentry Encode Keys Session.

Section auth.
Context `{BlockCipher} `{KeyWrapCipher} `{SealedStorage} `{PubkeyHash} `{PrivateKeys} `{Signatures}.
Variable table_addr : Z.
Implicit Types (s : session) (e : auth_env).

(** The buffer a response reads. *)
Definition reads e (u : uuid) (c : nexus_crypto_buf) (data : bytes) : Prop :=
  (nexus_crypto_buf_create (ae_bufs e) u NEXUS_FREAD (ae_err e) (ae_data e) (ae_ts e)).1.2 = Some c /\
  cb_external c = Some (ExtStore data).

Lemma reads_some e u c :
  (nexus_crypto_buf_create (ae_bufs e) u NEXUS_FREAD (ae_err e) (ae_data e) (ae_ts e)).1.2 = Some c -> exists data, reads e u c data.
Proof.
  intros Hc. unfold reads. rewrite Hc. unfold nexus_crypto_buf_create in Hc.
  destruct (buffer_layer_get _ _ _ _ _ _) as [[b [d|]] t]; [|done]. cbn in Hc. injection Hc as <-. cbn. eauto.
Qed.

(** A response that has read its buffer. *)
Lemma response_eq s e u sg c data :
  reads e u c data ->
  ecall_authentication_response s e u (Some sg) =
    '(s, ret) ← verify_and_mount s e c (sha256 (se_nonce s ++ data)) sg;
    Some (clear_auth_pubkey (if negb (ret =? 0) then with_volumekey s None else s), ret).
Proof.
  intros [Hc Hd]. unfold ecall_authentication_response.
  destruct (nexus_crypto_buf_create _ _ _ _ _ _) as [[b c'] t]. cbn in Hc. subst c'. cbn [mbind option_bind]. by rewrite Hd.
Qed.

(** Clearing the challenged key leaves the rest of the session. *)
Lemma clear_keeps {A} (g : session -> A) s : (forall x p h, g (with_pubkey x p h) = g x) -> g (clear_auth_pubkey s) = g s.
Proof. intros Hg. unfold clear_auth_pubkey. destruct (se_pubkey s); [apply Hg|done]. Qed.

Lemma clear_cleared s : se_pubkey (clear_auth_pubkey s) = None.
Proof. unfold clear_auth_pubkey. by destruct (se_pubkey s) eqn:E. Qed.

(** The identity a login gives. *)
Definition found_id (f : found) : Z := match f with FoundOwner => NEXUS_ROOT_USER | FoundUser u => user_id u end.

Lemma verify_pubkey_ok s e s' :
  nexus_verfiy_pubkey s e = Some (s', 0) ->
  exists t f, se_table s' = Some t /\ (se_table s = None -> exists sup, se_supernode s = Some sup /\ ae_load e (usertable_uuid sup) = Some t) /\
    nexus_usertable_find_pubkey_hash t (se_pubkey_hash s) = Some f /\ se_user s' = Some f /\ se_user_id s' = found_id f /\
    se_supernode s' = se_supernode s /\ se_pubkey s' = se_pubkey s.
Proof.
  unfold nexus_verfiy_pubkey. intros Hv. apply bind_Some in Hv as ([s1 table] & Ha & Hv). destruct table as [t|]; [|done].
  assert (Hs1 : se_table s1 = Some t /\ se_pubkey_hash s1 = se_pubkey_hash s /\ se_supernode s1 = se_supernode s /\ se_pubkey s1 = se_pubkey s /\
    (se_table s = None -> exists sup, se_supernode s = Some sup /\ ae_load e (usertable_uuid sup) = Some t)).
  { unfold acquire_user_table in Ha. destruct (se_table s) as [t0|].
    - destruct (ae_reval e t0); [|done]. by injection Ha as <- ->.
    - apply bind_Some in Ha as (sup & Hsn & Ha). injection Ha as Hs1 Ht. subst s1. rewrite Ht. cbn. eauto 10. }
  destruct Hs1 as (E1 & E2 & E3 & E4 & E5). rewrite E2 in Hv. exists t.
  destruct (nexus_usertable_find_pubkey_hash t (se_pubkey_hash s)) as [[|u]|]; [..|done]; injection Hv as <-; cbn; eauto 10.
Qed.

Lemma verify_and_mount_ok s e c hash sg s' :
  verify_and_mount s e c hash sg = Some (s', 0) ->
  exists k vk vd sup t f, se_pubkey s = Some k /\ pk_verify k hash sg = true /\
    se_volumekey s = Some vk /\ k_data vk = Some vd /\ supernode_from_crypto_buf vd c = Some (Some sup) /\ se_supernode s' = Some sup /\
    se_table s' = Some t /\ (se_table s = None -> ae_load e (usertable_uuid sup) = Some t) /\
    nexus_usertable_find_pubkey_hash t (se_pubkey_hash s) = Some f /\ se_user s' = Some f /\ se_user_id s' = found_id f.
Proof.
  unfold verify_and_mount. intros Hv. destruct (se_pubkey s) as [k|] eqn:Hk; [|done].
  destruct (pk_verify k hash sg) eqn:Hp; [|done]. cbn [negb] in Hv. apply bind_Some in Hv as ([s1 r1] & Hm & Hv).
  destruct (Z.eqb_spec r1 0) as [->|]; [|done]. cbn [negb] in Hv. apply bind_Some in Hv as ([s2 r2] & Hu & Hv).
  destruct (Z.eqb_spec r2 0) as [->|]; cbn [negb] in Hv; [|by apply bind_Some in Hv as (? & _ & ?)].
  destruct (ae_abac e); cbn [negb] in Hv; [|by apply bind_Some in Hv as (? & _ & ?)]. injection Hv as <-.
  unfold nexus_vfs_mount in Hm. destruct (se_meta s); try done.
  all: apply bind_Some in Hm as (vk & Hvk & Hm); apply bind_Some in Hm as (vd & Hvd & Hm); apply bind_Some in Hm as (sno & Hsn & Hm).
  all: destruct sno as [sup|]; [|done]; apply bind_Some in Hm as (dc & _ & Hm); injection Hm as <-.
  all: destruct (verify_pubkey_ok _ _ _ Hu) as (t & f & Q1 & Q2 & Q3 & Q4 & Q5 & Q6 & Q7); cbn in *.
  all: exists k, vk, vd, sup, t, f; split_and!; try done; intros Ht; destruct (Q2 Ht) as (sup' & [= <-] & ?); done.
Qed.

(** What a challenge leaves behind. *)
Lemma challenge_ok s pubkey kb nonce s1 n :
  ecall_authentication_challenge table_addr s pubkey kb nonce = Some (s1, 0, n) ->
  exists k, key_to_str pubkey = Some k /\ se_pubkey s1 = Some k /\ se_pubkey_hash s1 = sha256 k /\ se_nonce s1 = nonce /\ n = Some nonce /\
    se_table s1 = se_table s /\ se_meta s1 = se_meta s.
Proof.
  unfold ecall_authentication_challenge, load_auth_pubkey, crypto_hash_pubkey. destruct (key_to_str pubkey) as [k|]; cbn [fmap option_fmap option_map].
  2:{ cbn. done. }
  cbn [Z.eqb negb]. intros Hc. apply bind_Some in Hc as ([vk ret] & Hl & Hc). destruct (Z.eqb_spec ret 0) as [->|]; cbn [negb] in Hc; [|done].
  injection Hc as <- <-. exists k. unfold clear_auth_pubkey. destruct (se_pubkey s); done.
Qed.

(** C3: a login.  When a challenge to a public key is answered and the response
    is accepted, the signature verifies under that key over the hash of the
    nonce just drawn and the supernode's bytes, the mounted supernode is what
    those bytes hold under the volume key of the challenge, and the session
    belongs to the user of the table who has the hash of that key.  The
    challenge is spent: no second response is accepted before another one. *)
Theorem login_sound s pubkey kb nonce s1 n e u sg s2 :
  ecall_authentication_challenge table_addr s pubkey kb nonce = Some (s1, 0, n) ->
  ecall_authentication_response s1 e u sg = Some (s2, 0) ->
  exists k sig c data vk vd sup t f, key_to_str pubkey = Some k /\ sg = Some sig /\ reads e u c data /\
    pk_verify k (sha256 (nonce ++ data)) sig = true /\
    se_volumekey s1 = Some vk /\ k_data vk = Some vd /\ supernode_from_crypto_buf vd c = Some (Some sup) /\ se_supernode s2 = Some sup /\
    se_table s2 = Some t /\ nexus_usertable_find_pubkey_hash t (sha256 k) = Some f /\ se_user s2 = Some f /\ se_user_id s2 = found_id f /\
    forall e' u' sg', snd <$> ecall_authentication_response s2 e' u' sg' <> Some 0.
Proof.
  intros Hc Hr. destruct (challenge_ok _ _ _ _ _ _ Hc) as (k & Hk & Hpk & Hh & Hn & _).
  assert (Hsucc : forall s0 e0 u0 sg0 s3, ecall_authentication_response s0 e0 u0 sg0 = Some (s3, 0) ->
    exists sig c data s4, sg0 = Some sig /\ reads e0 u0 c data /\ verify_and_mount s0 e0 c (sha256 (se_nonce s0 ++ data)) sig = Some (s4, 0) /\
      s3 = clear_auth_pubkey s4).
  { clear. intros s e u sg s3 Hr. unfold ecall_authentication_response in Hr.
    destruct (nexus_crypto_buf_create _ _ _ _ _ _) as [[b [c|]] t] eqn:Hc; [|done].
    destruct (reads_some e u c) as (data & Hrd); [by rewrite Hc|]. destruct sg as [sig|]; [|done].
    assert (Hr' : ecall_authentication_response s e u (Some sig) = Some (s3, 0)) by (unfold ecall_authentication_response; by rewrite Hc).
    rewrite (response_eq _ _ _ _ _ _ Hrd) in Hr'. apply bind_Some in Hr' as ([s4 r] & Hv & Hr'). injection Hr' as <- ->. cbn [Z.eqb negb].
    by exists sig, c, data, s4. }
  destruct (Hsucc _ _ _ _ _ Hr) as (sig & c & data & s4 & -> & Hrd & Hv & ->). rewrite Hn in Hv.
  destruct (verify_and_mount_ok _ _ _ _ _ _ Hv) as (k' & vk & vd & sup & t & f & Q1 & Q2 & Q3 & Q4 & Q5 & Q6 & Q7 & _ & Q8 & Q9 & Q10).
  rewrite Hpk in Q1. injection Q1 as <-. rewrite Hh in Q8. exists k, sig, c, data, vk, vd, sup, t, f.
  rewrite (clear_keeps se_supernode), (clear_keeps se_table), (clear_keeps se_user), (clear_keeps se_user_id) by done. split_and!; try done.
  intros e' u' sg' Hx. apply fmap_Some in Hx as ([s5 r] & Hx & Hr5). cbn in Hr5. subst r. apply Hsucc in Hx as (? & ? & ? & s6 & _ & _ & Hx & _).
  destruct (verify_and_mount_ok _ _ _ _ _ _ Hx) as (k2 & ? & ? & ? & ? & ? & Hk2 & _). by rewrite clear_cleared in Hk2.
Qed.

(** A user who has a valid key pair and is not in the user table is
    refused, and the enclave is left with a freed supernode that it still
    points at: the next response to any challenge whose signature verifies
    frees it again. *)
Theorem refused_login_poisons s e u sg c data k vk vd sup dc t :
  reads e u c data -> se_pubkey s = Some k -> pk_verify k (sha256 (se_nonce s ++ data)) sg = true ->
  se_volumekey s = Some vk -> k_data vk = Some vd -> supernode_from_crypto_buf vd c = Some (Some sup) ->
  dcache_init_root (se_dcache s) (sn_root_uuid sup) = Some dc -> se_meta s <> MetaFreed -> se_cache_live s = true ->
  se_table s = None -> ae_load e (usertable_uuid sup) = Some t -> nexus_usertable_find_pubkey_hash t (se_pubkey_hash s) = None ->
  exists s1, ecall_authentication_response s e u (Some sg) = Some (s1, -1) /\
    forall pubkey kb nonce s2 n e' u' sg' c' data' k', ecall_authentication_challenge table_addr s1 pubkey kb nonce = Some (s2, 0, n) ->
      key_to_str pubkey = Some k' -> reads e' u' c' data' -> pk_verify k' (sha256 (nonce ++ data')) sg' = true ->
      ecall_authentication_response s2 e' u' (Some sg') = None.
Proof.
  intros Hrd Hk Hp Hvk Hvd Hsn Hdc Hm Hlive Htab Hload Hnone. rewrite (response_eq _ _ _ _ _ _ Hrd). unfold verify_and_mount. rewrite Hk, Hp.
  cbn [negb]. unfold nexus_vfs_mount. rewrite Hvk. cbn [mbind option_bind]. rewrite Hvd. cbn [mbind option_bind]. rewrite Hsn.
  cbn [mbind option_bind]. rewrite Hdc. cbn [mbind option_bind].
  assert (Hfinal : forall s1, se_meta s1 = MetaFreed -> forall pubkey kb nonce s2 n e' u' sg' c' data' k',
    ecall_authentication_challenge table_addr s1 pubkey kb nonce = Some (s2, 0, n) ->
    key_to_str pubkey = Some k' -> reads e' u' c' data' -> pk_verify k' (sha256 (nonce ++ data')) sg' = true ->
    ecall_authentication_response s2 e' u' (Some sg') = None).
  { intros s1 Hf pubkey kb nonce s2 n e' u' sg' c' data' k' Hch Hk' Hrd' Hp'.
    destruct (challenge_ok _ _ _ _ _ _ Hch) as (k2 & Hk2 & Hpk & _ & Hn & _ & _ & Hme). rewrite Hk' in Hk2. injection Hk2 as <-.
    rewrite (response_eq _ _ _ _ _ _ Hrd'), Hn. unfold verify_and_mount. rewrite Hpk, Hp'. cbn [negb]. unfold nexus_vfs_mount.
    by rewrite Hme, Hf. }
  destruct (se_meta s); try done; cbn [mbind option_bind Z.eqb negb];
    unfold nexus_verfiy_pubkey, acquire_user_table; cbn [se_table with_mount se_supernode se_pubkey_hash]; rewrite Htab; cbn [mbind option_bind];
    rewrite Hload; cbn [se_pubkey_hash with_table with_mount]; rewrite Hnone; cbn [mbind option_bind Z.eqb negb];
    unfold nexus_vfs_deinit; cbn [se_cache_live with_login with_table with_mount]; rewrite Hlive; cbn [negb mbind option_bind];
    (eexists; split; [done|]); apply Hfinal; unfold clear_auth_pubkey; cbn; by rewrite Hk.
Qed.

(** Once the user table of a volume has been loaded, every later volume is
    checked against it: a response is accepted only for a user of the first
    table, whatever table the supernode that is mounted names. *)
Theorem remount_keeps_first_users s e u sg s' t :
  se_table s = Some t -> ae_reval e t = Some t ->
  ecall_authentication_response s e u sg = Some (s', 0) ->
  exists f, nexus_usertable_find_pubkey_hash t (se_pubkey_hash s) = Some f /\ se_user s' = Some f /\
    forall e', ae_bufs e' = ae_bufs e -> ae_err e' = ae_err e -> ae_data e' = ae_data e -> ae_ts e' = ae_ts e ->
      ae_reval e' t = Some t -> ae_abac e' = true -> ecall_authentication_response s e' u sg = Some (s', 0).
Proof.
  intros Ht Hrev Hr. unfold ecall_authentication_response in *.
  destruct (nexus_crypto_buf_create _ _ _ _ _ _) as [[b [c|]] tr] eqn:Hc; [|done]. apply bind_Some in Hr as (sig & -> & Hr).
  apply bind_Some in Hr as ([s4 r] & Hv & Hr). injection Hr as <- ->. cbn [Z.eqb negb].
  unfold verify_and_mount in *. destruct (negb _) eqn:Hsig in Hv; [done|]. apply bind_Some in Hv as ([s1 r1] & Hm & Hv).
  destruct (Z.eqb_spec r1 0) as [->|]; [|done]. cbn [negb] in Hv.
  assert (Hs1 : se_table s1 = Some t /\ se_pubkey_hash s1 = se_pubkey_hash s).
  { unfold nexus_vfs_mount in Hm. destruct (se_meta s); try done.
    all: apply bind_Some in Hm as (? & _ & Hm); apply bind_Some in Hm as (? & _ & Hm); apply bind_Some in Hm as (sno & _ & Hm).
    all: destruct sno; [|done]; apply bind_Some in Hm as (? & _ & Hm); injection Hm as <-; done. }
  destruct Hs1 as [Ht1 Hh1]. unfold nexus_verfiy_pubkey, acquire_user_table in *. rewrite Ht1, Hrev in Hv. cbn [mbind option_bind] in Hv.
  cbn [se_pubkey_hash with_table] in Hv. rewrite Hh1 in Hv.
  destruct (nexus_usertable_find_pubkey_hash t (se_pubkey_hash s)) as [f|] eqn:Hf.
  2:{ cbn [mbind option_bind Z.eqb negb] in Hv. by apply bind_Some in Hv as (? & _ & ?). }
  exists f. split; [done|].
  assert (Hv' : (if negb (ae_abac e) then s ← nexus_vfs_deinit (with_login (with_table s1 (Some t)) (Some f) (found_id f)); Some (s, -1)
    else Some (with_login (with_table s1 (Some t)) (Some f) (found_id f), 0)) = Some (s4, 0)) by (by destruct f).
  destruct (ae_abac e); cbn [negb] in Hv'; [|by apply bind_Some in Hv' as (? & _ & ?)]. injection Hv' as <-.
  split; [by rewrite (clear_keeps se_user)|]. intros e' -> -> -> -> Hrev' Habac. rewrite Hc. cbn [mbind option_bind]. rewrite Hsig, Hm.
  cbn [mbind option_bind Z.eqb negb]. rewrite Ht1, Hrev'. cbn [mbind option_bind]. cbn [se_pubkey_hash with_table]. rewrite Hh1, Hf, Habac.
  by destruct f.
Qed.
End auth.

Section exchange.
Context `{KeyWrapCipher} `{SealedStorage} `{PubkeyHash} `{PrivateKeys} `{CryptoBox} `{Signatures}.
Variables (my_enclave my_signer : bytes) (table_addr : Z).

Lemma memcmp_refl a : memcmp a a = 0.
Proof. induction a as [|x a IH]; [done|]. cbn [memcmp]. by rewrite Z.eqb_refl. Qed.

(** Any body with the enclave's measurements and the hash of the key is taken. *)
Lemma validate_ok sig pubkey :
  validate_quote_and_copy_pubkey my_enclave my_signer true (mk_quote (mk_body my_enclave my_signer (sha512 pubkey)) sig) pubkey = 0.
Proof. unfold validate_quote_and_copy_pubkey. cbn. by rewrite !memcmp_refl. Qed.

Lemma exchange_ok e k d sig pubkey eph_sk nonce :
  k_type k = NEXUS_RAW_128_KEY -> k_data k = Some d -> length d = 16%nat -> sy_report e = true -> sy_alloc e = true ->
  ecall_exchange_rootkey my_enclave my_signer (Some k) e (mk_quote (mk_body my_enclave my_signer (sha512 pubkey)) sig) pubkey eph_sk nonce =
    Some (0, Some (box_public eph_sk, nonce, crypto_ecdh_encrypt pubkey eph_sk d nonce)).
Proof.
  intros Ht Hd Hl Hr Ha. unfold ecall_exchange_rootkey. rewrite Hr, validate_ok. cbn [Z.eqb negb].
  unfold nexus_key_bytes. rewrite Ht. replace (raw_key_bytes NEXUS_RAW_128_KEY) with (Z.of_nat (length d)) by (rewrite Hl; done).
  rewrite (read_key_all _ _ Hd). cbn [mbind option_bind]. by rewrite Ha.
Qed.

Lemma ecdh_inverse sk eph_sk d nonce :
  crypto_ecdh_decrypt (box_public eph_sk) sk (crypto_ecdh_encrypt (box_public sk) eph_sk d nonce) nonce = Some d.
Proof.
  unfold crypto_ecdh_decrypt, crypto_ecdh_encrypt. rewrite box_inverse.
  - cbn [fmap option_fmap option_map]. by rewrite drop_app_length' by done.
  - by rewrite take_app_length'.
Qed.

Lemma key_from_buf_exact d :
  length d = 16%nat -> nexus_key_from_buf NEXUS_RAW_128_KEY d (Z.of_nat (length d)) = Some (Some (mk_key NEXUS_RAW_128_KEY None (Some d))).
Proof.
  intros Hl. unfold nexus_key_from_buf. rewrite Hl. cbn [raw_key_bytes]. change (Z.of_nat 16 <? 128 / 8) with false. cbv iota.
  rewrite take_ge; [done|]. rewrite Hl. done.
Qed.

(** C9: the volume key reaches another enclave.  A fresh instance publishes its
    public key and a report; an enclave that holds a volume key wraps it for
    that key; the instance, also after it was closed and mounted again from
    its sealed private key, unwraps it into a sealed key buffer; and loading
    that buffer gives the volume key of the first enclave. *)
Theorem volume_key_exchange i sys_b sk_b rep pub_b sealed i_b k d sys_a sig eph_sk nonce sys_b2 vk_b i0 :
  ecall_new_instance my_enclave my_signer i sys_b sk_b = (i_b, 0, Some (rep, pub_b, sealed)) -> length sk_b = ECDH_KEY_SIZE ->
  k_type k = NEXUS_RAW_128_KEY -> k_data k = Some d -> length d = 16%nat -> Forall byte_ok d ->
  sy_report sys_a = true -> sy_alloc sys_a = true -> sy_alloc sys_b2 = true ->
  (length (nexus_base64_encode (sgx_seal (sy_rnd sys_b2) d)) <= MAX_KEY_STR)%nat ->
  exists eph w kb, ecall_exchange_rootkey my_enclave my_signer (Some k) sys_a (mk_quote rep sig) pub_b eph_sk nonce = Some (0, Some (eph, nonce, w)) /\
    ecall_mount_instance i0 pub_b sealed = Some (i_b, 0) /\
    ecall_extract_rootkey i_b vk_b sys_b2 eph w nonce = Some (0, Some kb) /\
    forall vk, nexus_enclave_volumekey_load table_addr vk kb = Some (Some (mk_key NEXUS_RAW_128_KEY None (Some d)), 0).
Proof.
  intros Hnew Hsk Ht Hd Hl Hb Hra Haa Hab Hlen. unfold ecall_new_instance, create_quote_from_pubkey, crypto_seal_data in Hnew.
  destruct (sy_report sys_b); [|done]. destruct (sy_seal sys_b); [|done]. destruct (sy_alloc sys_b); [|done].
  injection Hnew as <- <- <- <-. cbn [in_pub in_priv]. eexists _, _.
  destruct (volumekey_sealed table_addr vk_b None (mk_key NEXUS_RAW_128_KEY None (Some d)) (sy_rnd sys_b2)) as (kb & Hkb & _); [done| |done|].
  { exists d. split; [done|]. split; [done|]. cbn. rewrite Hl. done. }
  exists kb. split; [by apply exchange_ok|]. split.
  { unfold ecall_mount_instance, crypto_unseal_data. rewrite unseal_seal, Hsk. cbn [Nat.ltb Nat.leb]. by rewrite take_ge by (rewrite Hsk; lia). }
  split.
  - unfold ecall_extract_rootkey. cbn [in_priv]. rewrite ecdh_inverse. unfold crypto_ecdh_encrypt. rewrite box_length, length_app, length_replicate, Hl.
    replace (negb _) with false by done. unfold seal_rootkey_and_export. rewrite key_from_buf_exact by done. cbn [mbind option_bind].
    rewrite Hab, Hkb. done.
  - intros vk. destruct (volumekey_sealed table_addr vk_b vk (mk_key NEXUS_RAW_128_KEY None (Some d)) (sy_rnd sys_b2)) as (kb' & Hkb' & Hload); [done| |done|].
    { exists d. split; [done|]. split; [done|]. cbn. rewrite Hl. done. }
    rewrite Hkb in Hkb'. injection Hkb' as <-. exact Hload.
Qed.

(** A quote is believed without its signature: whoever knows the
    measurements of the enclave, which are public, and makes up a report body
    with the hash of a key of his own is sent the volume key, and decrypts it
    with his secret key. *)
Theorem forged_quote_gets_volume_key e k d sk sig eph_sk nonce :
  k_type k = NEXUS_RAW_128_KEY -> k_data k = Some d -> length d = 16%nat -> sy_report e = true -> sy_alloc e = true ->
  exists eph w, ecall_exchange_rootkey my_enclave my_signer (Some k) e
      (mk_quote (mk_body my_enclave my_signer (sha512 (box_public sk))) sig) (box_public sk) eph_sk nonce = Some (0, Some (eph, nonce, w)) /\
    crypto_ecdh_decrypt eph sk w nonce = Some d.
Proof.
  intros Ht Hd Hl Hr Ha. eexists _, _. split; [by apply exchange_ok|]. apply ecdh_inverse.
Qed.

(** An instance that is mounted from a sealed volume key reads past what was
    unsealed. *)
Lemma mount_instance_overreads i pubkey rnd d : (length d < ECDH_KEY_SIZE)%nat -> ecall_mount_instance i pubkey (sgx_seal rnd d) = None.
Proof.
  intros Hl. unfold ecall_mount_instance, crypto_unseal_data. rewrite unseal_seal. by rewrite (proj2 (Nat.ltb_lt _ _) Hl).
Qed.
End exchange.

(** ** Concrete sessions *)
Lemma toy_box_inverse (m : bytes) : take crypto_box_ZEROBYTES m = replicate crypto_box_ZEROBYTES 0 -> Some (reverse (reverse m)) = Some m.
Proof. intros _. by rewrite reverse_involutive. Qed.

(** A box that reverses its contents, and signatures that repeat what is
    signed after the key. *)
Definition toy_box : CryptoBox :=
  {| box_public := map (fun x => 255 - x); crypto_box := fun m _ _ _ => reverse m; crypto_box_open := fun c _ _ _ => Some (reverse c);
     box_length := fun m _ _ _ => length_reverse m; box_inverse := fun m _ _ _ => toy_box_inverse m |}.
Definition toy_signatures : Signatures :=
  {| pk_verify := fun k h s => bool_decide (s = k ++ h); sha512 := fun s => take 64 (s ++ replicate 64 0) |}.

Definition toy_supernode : nexus_supernode := supernode_create (uuid_const 1) (uuid_const 2) (uuid_const 3) (uuid_const 9).
Definition toy_supernode_data : bytes := toy_sealed (uuid_const 1) (serialize_supernode_header toy_supernode).
Definition toy_auth : auth_env :=
  mk_auth (mk_bcache ∅ 0) 0 (Some toy_supernode_data) 9 (fun u => if bool_decide (u = uuid_const 9) then Some toy_table else None) Some true.
(** The volume key, sealed and printed. *)
Definition toy_keybuf : nexus_key_buffer := mk_keybuf NEXUS_SEALED_VOLUME_KEY (Some (nexus_base64_encode (7 :: replicate 16 9))).
Definition toy_session : session := mk_session None None [] [] None MetaNull (mk_dcache ∅ 1 0 [] ∅) true None None 0.
Definition toy_nonce : bytes := replicate 16 4.
Definition toy_signature (k : bytes) : bytes := k ++ sha256 (PubkeyHash := toy_hash) (toy_nonce ++ toy_supernode_data).

Definition toy_challenge (s : session) (k : bytes) : option (session * Z * option bytes) :=
  ecall_authentication_challenge (H0 := toy_wrap) (H1 := toy_storage) (H2 := toy_hash) (H3 := toy_private) 0 s k toy_keybuf toy_nonce.
Definition toy_response (s : session) (k : bytes) : option (session * Z) :=
  ecall_authentication_response (H := toy_cipher) (H0 := toy_wrap) (H2 := toy_hash) (H4 := toy_signatures) s toy_auth (uuid_const 1)
    (Some (toy_signature k)).
Definition challenged (s : session) (k : bytes) : session := default s ((fun r => r.1.1) <$> toy_challenge s k).
Definition logged_in (s : session) (k : bytes) : session := default s (fst <$> toy_response s k).

Lemma toy_challenge_eq : toy_challenge toy_session [1] = Some (challenged toy_session [1], 0, Some toy_nonce).
Proof. vm_compute. reflexivity. Qed.
Lemma toy_response_eq : toy_response (challenged toy_session [1]) [1] = Some (logged_in (challenged toy_session [1]) [1], 0).
Proof. vm_compute. reflexivity. Qed.

(** The user whose key is [1] logs in. *)
Lemma login_sound_witness :
  exists f, nexus_usertable_find_pubkey_hash toy_table (sha256 (PubkeyHash := toy_hash) [1]) = Some f /\
    se_user_id (logged_in (challenged toy_session [1]) [1]) = found_id f /\
    forall e u sg, snd <$> ecall_authentication_response (H := toy_cipher) (H0 := toy_wrap) (H2 := toy_hash) (H4 := toy_signatures)
      (logged_in (challenged toy_session [1]) [1]) e u sg <> Some 0.
Proof.
  destruct (login_sound (H := toy_cipher) (H0 := toy_wrap) (H1 := toy_storage) (H2 := toy_hash) (H3 := toy_private) (H4 := toy_signatures)
    0 toy_session [1] toy_keybuf toy_nonce _ _ toy_auth (uuid_const 1) _ _ toy_challenge_eq toy_response_eq)
    as (k & ? & ? & ? & ? & ? & ? & t & f & Hk & _ & _ & _ & _ & _ & _ & _ & Ht & Hf & _ & Hid & Hno).
  exists f. injection Hk as <-. split; [|by split]. rewrite <- Hf. f_equal. vm_compute in Ht. injection Ht as <-. vm_compute. reflexivity.
Defined.

(** A user whose account was removed. *)
Definition toy_cbuf : nexus_crypto_buf := mk_cbuf empty_ctx (external_version toy_supernode_data) 0 (uuid_const 1) (Some (ExtStore toy_supernode_data)) None.

Lemma toy_reads : reads toy_auth (uuid_const 1) toy_cbuf toy_supernode_data.
Proof. by vm_compute. Qed.

Lemma refused_login_poisons_witness :
  exists s1, toy_response (challenged toy_session [2]) [2] = Some (s1, -1) /\
    forall s2 n, toy_challenge s1 [1] = Some (s2, 0, n) -> toy_response s2 [1] = None.
Proof.
  destruct (refused_login_poisons (H := toy_cipher) (H0 := toy_wrap) (H1 := toy_storage) (H2 := toy_hash) (H3 := toy_private)
    (H4 := toy_signatures) 0 (challenged toy_session [2]) toy_auth (uuid_const 1) (toy_signature [2]) toy_cbuf toy_supernode_data [2]
    (mk_key NEXUS_RAW_128_KEY None (Some (replicate 16 9))) (replicate 16 9) toy_supernode (dcache_start (uuid_const 2)) toy_table toy_reads)
    as (s1 & Hr & Hnext).
  1-6, 8-11: vm_compute; reflexivity.
  { vm_compute. discriminate. }
  exists s1. split; [exact Hr|]. intros s2 n Hc. apply (Hnext _ _ _ _ _ _ _ _ _ _ _ Hc eq_refl toy_reads). vm_compute. reflexivity.
Defined.

(** A session that has loaded the table, and a second volume that names
    another one. *)
Definition remounted : session := challenged (logged_in (challenged toy_session [1]) [1]) [7].

Lemma remount_keeps_first_users_witness :
  exists f, nexus_usertable_find_pubkey_hash toy_table (se_pubkey_hash remounted) = Some f /\ se_user (logged_in remounted [7]) = Some f.
Proof.
  destruct (remount_keeps_first_users (H := toy_cipher) (H0 := toy_wrap) (H2 := toy_hash) (H4 := toy_signatures) remounted toy_auth
    (uuid_const 1) (Some (toy_signature [7])) (logged_in remounted [7]) toy_table) as (f & Hf & Hu & _).
  1-3: vm_compute; reflexivity.
  exists f. exact (conj Hf Hu).
Defined.

Definition toy_sys : sys_env := mk_sys true true true [].
Definition toy_instance : instance := (ecall_new_instance (H0 := toy_storage) (H3 := toy_box) (H4 := toy_signatures) [11] [12] (mk_instance [] []) toy_sys (replicate 32 33)).1.1.
Definition toy_body : sgx_report_body := mk_body [11] [12] (sha512 (Signatures := toy_signatures) (replicate 32 222)).
Definition toy_volumekey : nexus_key := mk_key NEXUS_RAW_128_KEY None (Some (replicate 16 9)).

Lemma volume_key_exchange_witness :
  exists eph w kb,
    ecall_exchange_rootkey (H3 := toy_box) (H4 := toy_signatures) [11] [12] (Some toy_volumekey) toy_sys (mk_quote toy_body []) (replicate 32 222)
      (replicate 32 44) (replicate 24 5) = Some (0, Some (eph, replicate 24 5, w)) /\
    ecall_extract_rootkey (H := toy_wrap) (H0 := toy_storage) (H3 := toy_box) toy_instance None toy_sys eph w (replicate 24 5) = Some (0, Some kb) /\
    nexus_enclave_volumekey_load (H := toy_wrap) (H0 := toy_storage) (H1 := toy_hash) (H2 := toy_private) 0 None kb = Some (Some toy_volumekey, 0).
Proof.
  destruct (volume_key_exchange (H := toy_wrap) (H0 := toy_storage) (H1 := toy_hash) (H2 := toy_private) (H3 := toy_box) (H4 := toy_signatures)
    [11] [12] 0 (mk_instance [] []) toy_sys (replicate 32 33) toy_body (replicate 32 222) (7 :: replicate 32 33) toy_instance toy_volumekey
    (replicate 16 9) toy_sys [] (replicate 32 44) (replicate 24 5) toy_sys None (mk_instance [] [])) as (eph & w & kb & Hx & _ & He & Hl).
  1-5, 7-9: vm_compute; reflexivity.
  { apply Forall_replicate. unfold byte_ok. lia. }
  { vm_compute. lia. }
  exists eph, w, kb. split; [exact Hx|]. split; [exact He|]. apply Hl.
Defined.

Lemma forged_quote_gets_volume_key_witness :
  exists eph w, ecall_exchange_rootkey (H3 := toy_box) (H4 := toy_signatures) [11] [12] (Some toy_volumekey) toy_sys (mk_quote toy_body [])
      (replicate 32 222) (replicate 32 44) (replicate 24 5) = Some (0, Some (eph, replicate 24 5, w)) /\
    crypto_ecdh_decrypt (H3 := toy_box) eph (replicate 32 33) w (replicate 24 5) = Some (replicate 16 9).
Proof.
  apply (forged_quote_gets_volume_key (H3 := toy_box) (H4 := toy_signatures) [11] [12] toy_sys toy_volumekey (replicate 16 9) (replicate 32 33) []
    (replicate 32 44) (replicate 24 5)); vm_compute; reflexivity.
Defined.
