(* ===== verification/Runtime.v ===== *)
(** * The runtime of the access control engine and its administration

    Models [abac/runtime.c], the administration calls of [ecalls/abac.c] and
    [ecalls/users.c], and the user table of [vfs.c]: the enclave's global
    metadata objects (attribute space, policy store, user table, profile of
    the current user) are loaded once, revalidated on every use, changed under
    the lock of the store and flushed.  Each is a metadata object of
    [Metadata.v]; what the store replies is an argument, the ocalls are logged
    in the state.  [Fault] is a memory error. *)
From stdpp Require Import strings.
From S2P Require Import Prelude Hashmap Types AttributeTable Gcm Crypto BufferLayer CryptoBuf UserTable Supernode Metadata.
From S2P Require Import AbacValue AbacRule AttributeSpace AbacParser PolicyStore UserProfile.

(** ** The objects *)
Section objects.
Context `{BlockCipher} `{KeyWrapCipher}.

Definition space_ops : MetadataOps attribute_space :=
  {| obj_type := NEXUS_ATTRIBUTE_STORE; obj_create := attribute_space_create;
     obj_load := fun vk c _ => attribute_space_from_crypto_buf vk c; obj_store := attribute_space_store |}.

(** Storing a policy store or a profile exports the MAC and the version of the
    attribute space, [sp]. *)
Definition pstore_ops (sp : option (attribute_space * Z)) : MetadataOps policy_store :=
  {| obj_type := NEXUS_POLICY_STORE; obj_create := policy_store_create;
     obj_load := fun vk c _ => policy_store_from_crypto_buf vk c;
     obj_store := fun vk ps version b env => '(ps, b, ret, t, _) ← policy_store_store vk ps version sp b env; Some (ps, b, ret, t) |}.

Definition profile_ops (sp : option (attribute_space * Z)) : MetadataOps user_profile :=
  {| obj_type := NEXUS_USER_PROFILE; obj_create := user_profile_create;
     obj_load := fun vk c _ => user_profile_from_crypto_buf vk c;
     obj_store := fun vk p version b env => '(p, b, ret, t, _) ← user_profile_store vk p version sp b env; Some (p, b, ret, t) |}.

Definition users_ops : MetadataOps nexus_usertable :=
  {| obj_type := NEXUS_USER_TABLE; obj_create := nexus_usertable_create;
     obj_load := fun vk c _ => nexus_usertable_from_crypto_buf vk c;
     obj_store := fun vk t version b env => nexus_usertable_store vk t version None b env |}.
End objects.

(** ** State *)
(** The static pointers of [runtime.c] and [vfs.c]. *)
Record runtime := mk_runtime {
  rt_bufs : bcache;
  rt_space : option (nexus_metadata attribute_space);
  rt_policies : option (nexus_metadata policy_store);
  rt_profile : option (nexus_metadata user_profile);
  rt_users : option (nexus_metadata nexus_usertable);
  rt_log : list ocall
}.

Definition with_bufs (s : runtime) (b : bcache) (t : list ocall) : runtime :=
  mk_runtime b (rt_space s) (rt_policies s) (rt_profile s) (rt_users s) (rt_log s ++ t).
Definition with_space (s : runtime) (m : option (nexus_metadata attribute_space)) : runtime :=
  mk_runtime (rt_bufs s) m (rt_policies s) (rt_profile s) (rt_users s) (rt_log s).
Definition with_policies (s : runtime) (m : option (nexus_metadata policy_store)) : runtime :=
  mk_runtime (rt_bufs s) (rt_space s) m (rt_profile s) (rt_users s) (rt_log s).
Definition with_profile (s : runtime) (m : option (nexus_metadata user_profile)) : runtime :=
  mk_runtime (rt_bufs s) (rt_space s) (rt_policies s) m (rt_users s) (rt_log s).
Definition with_usertable (s : runtime) (m : option (nexus_metadata nexus_usertable)) : runtime :=
  mk_runtime (rt_bufs s) (rt_space s) (rt_policies s) (rt_profile s) m (rt_log s).

(** The replies to one acquisition: what the uninitialised [has_changed] holds,
    the read of a first load, the replies of a revalidation. *)
Record acq_env := mk_acq { aq_junk : bool; aq_get : get_reply; aq_reval : reval_env }.

(** What a call needs from outside: the acquisitions of the user table, the
    policy store and the attribute space (for the call itself, and when an
    object is stored), the read of a profile, the lock of a new object, the
    flushes, the release of a lock, the read of a reset, fresh UUIDs and the
    fuel of the parser. *)
Record call_env := mk_call {
  ce_users : acq_env; ce_policies : acq_env; ce_space : acq_env; ce_export : acq_env;
  ce_profile : get_reply; ce_create : reply; ce_put : put_env; ce_put_profile : put_env;
  ce_unlock : reply; ce_reset : get_reply; ce_delete : reply; ce_uuid : Z -> uuid; ce_fuel : nat
}.

(** *** Lines *)
Fixpoint skip_delim (d : Z) (s : bytes) : bytes :=
  match s with c :: s' => if c =? d then skip_delim d s' else s | [] => [] end.
Fixpoint take_token (d : Z) (s : bytes) : bytes * bytes :=
  match s with
  | [] => ([], [])
  | c :: s' => if c =? d then ([], s') else let '(t, r) := take_token d s' in (c :: t, r)
  end.
(** [strtok_r]: the next token and what is left; [None] is NULL. *)
Definition strtok_r (d : Z) (s : bytes) : option (bytes * bytes) :=
  match skip_delim d s with [] => None | s => Some (take_token d s) end.

(** Changing an object: it sees its metadata's dirty flag and may set it. *)
Definition edit {O A} (set_meta : O -> option bool -> O) (get_meta : O -> option bool) (m : nexus_metadata O) (f : O -> O * A)
    : nexus_metadata O * A :=
  let '(o, x) := f (set_meta (md_object m) (Some (md_is_dirty m))) in
  (mk_metadata (md_uuid m) (md_flags m) (md_version m) (ref_count m) (default (md_is_dirty m) (get_meta o)) (is_invalid m) (is_locked m) o, x).

Definition with_ut_meta (t : nexus_usertable) (md : option bool) : nexus_usertable :=
  mk_usertable (auto_increment t) (user_count t) (total_size t) (ut_my_uuid t) (ut_root_uuid t) (owner_id t) (owner_hash t) (userlist t) (ut_mac t) md.
Definition with_up_meta (p : user_profile) (md : option bool) : user_profile :=
  mk_profile (up_my_uuid p) (up_root_uuid p) (up_mac p) (up_table p) md.

Section runtime.
Context `{BlockCipher} `{KeyWrapCipher} `{PubkeyHash}.
(** The volume key, [global_supernode] and [global_user_id]. *)
Variables (volumekey : bytes) (super : nexus_supernode) (uid : Z).

Notation root := (sn_root_uuid super).

(** ** Acquiring, flushing, releasing *)
(** A first use loads the object, a later one revalidates it.  The boolean is
    whether a pointer is returned. *)
Definition acquire {O} {MO : MetadataOps O} (cur : option (nexus_metadata O)) (b : bcache) (u : uuid) (flags : Z) (e : acq_env)
    : option (option (nexus_metadata O) * bcache * bool * list ocall) :=
  match cur with
  | None =>
      '(b, r, t) ← nexus_metadata_load volumekey root b u flags (aq_get e);
      Some (r, b, if r is Some _ then true else false, t)
  | Some m =>
      '(m, b, _, ret, t) ← nexus_metadata_revalidate volumekey root m b flags (aq_junk e) (aq_reval e);
      Some (Some m, b, ret =? 0, t)
  end.

Definition abac_acquire_attribute_space (s : runtime) (flags : Z) (e : acq_env) : option (runtime * bool) :=
  '(m, b, ok, t) ← acquire (MO := space_ops) (rt_space s) (rt_bufs s) (attribute_space_uuid (sn_abac_superinfo super)) flags e;
  Some (with_space (with_bufs s b t) m, ok).

Definition abac_acquire_policy_store (s : runtime) (flags : Z) (e : acq_env) : option (runtime * bool) :=
  '(m, b, ok, t) ← acquire (MO := pstore_ops None) (rt_policies s) (rt_bufs s) (policy_store_uuid (sn_abac_superinfo super)) flags e;
  Some (with_policies (with_bufs s b t) m, ok).

Definition nexus_vfs_acquire_user_table (s : runtime) (flags : Z) (e : acq_env) : option (runtime * bool) :=
  '(m, b, ok, t) ← acquire (MO := users_ops) (rt_users s) (rt_bufs s) (usertable_uuid super) flags e;
  Some (with_usertable (with_bufs s b t) m, ok).

(** [user] is [global_user_struct->user_uuid]; the owner has no profile. *)
Definition abac_acquire_current_user_profile (s : runtime) (user : uuid) (flags : Z) (e : acq_env) : option (runtime * bool) :=
  if uid =? NEXUS_ROOT_USER then Some (s, false)
  else
    '(m, b, ok, t) ← acquire (MO := profile_ops None) (rt_profile s) (rt_bufs s) user flags e;
    Some (with_profile (with_bufs s b t) m, ok).

(** The space that was acquired, with its version. *)
Definition acquired_space (s : runtime) (e : acq_env) : option (runtime * option (attribute_space * Z)) :=
  '(s, ok) ← abac_acquire_attribute_space s NEXUS_FREAD e;
  Some (s, if (ok : bool) then (fun m => (md_object m, md_version m)) <$> rt_space s else None).

(** [nexus_metadata_store] of an object whose store exports the attribute
    space: an unmodified object is not stored and nothing is acquired. *)
Definition store_with_space {O} (ops : option (attribute_space * Z) -> MetadataOps O) (s : runtime) (m : nexus_metadata O) (e : acq_env)
    (env : put_env) : option (runtime * nexus_metadata O * Z) :=
  if negb (md_is_dirty m) && (Z.land (md_flags m) NEXUS_FCREATE =? 0) then Some (s, m, 0)
  else
    '(s, sp) ← acquired_space s e;
    '(m, b, ret, t) ← nexus_metadata_store (MO := ops sp) volumekey m (rt_bufs s) env;
    Some (with_bufs s b t, m, ret).

Definition abac_flush_attribute_space (s : runtime) (env : put_env) : option (runtime * Z) :=
  m ← rt_space s;
  '(m, b, ret, t) ← nexus_metadata_store (MO := space_ops) volumekey m (rt_bufs s) env;
  Some (with_space (with_bufs s b t) (Some m), ret).

Definition abac_flush_policy_store (s : runtime) (e : acq_env) (env : put_env) : option (runtime * Z) :=
  m ← rt_policies s;
  '(s, m, ret) ← store_with_space pstore_ops s m e env;
  Some (with_policies s (Some m), ret).

Definition nexus_vfs_flush_user_table (s : runtime) (env : put_env) : option (runtime * Z) :=
  m ← rt_users s;
  '(m, b, ret, t) ← nexus_metadata_store (MO := users_ops) volumekey m (rt_bufs s) env;
  Some (with_usertable (with_bufs s b t) (Some m), ret).

Definition abac_release_attribute_space (s : runtime) (r : reply) : option runtime :=
  m ← rt_space s;
  let '(m, b, t) := nexus_metadata_unlock m (rt_bufs s) r in Some (with_space (with_bufs s b t) (Some m)).
Definition abac_release_policy_store (s : runtime) (r : reply) : option runtime :=
  m ← rt_policies s;
  let '(m, b, t) := nexus_metadata_unlock m (rt_bufs s) r in Some (with_policies (with_bufs s b t) (Some m)).
Definition nexus_vfs_release_user_table (s : runtime) (r : reply) : option runtime :=
  m ← rt_users s;
  let '(m, b, t) := nexus_metadata_unlock m (rt_bufs s) r in Some (with_usertable (with_bufs s b t) (Some m)).
Definition abac_release_current_user_profile (s : runtime) (r : reply) : option runtime :=
  m ← rt_profile s;
  let '(m, b, t) := nexus_metadata_unlock m (rt_bufs s) r in Some (with_profile (with_bufs s b t) (Some m)).

Definition edit_space {A} (s : runtime) (f : attribute_space -> attribute_space * A) : option (runtime * A) :=
  m ← rt_space s; let '(m, x) := edit with_sp_meta sp_metadata m f in Some (with_space s (Some m), x).
Definition edit_policies {A} (s : runtime) (f : policy_store -> policy_store * A) : option (runtime * A) :=
  m ← rt_policies s; let '(m, x) := edit with_pst_dirty pst_metadata m f in Some (with_policies s (Some m), x).
Definition edit_users {A} (s : runtime) (f : nexus_usertable -> nexus_usertable * A) : option (runtime * A) :=
  m ← rt_users s; let '(m, x) := edit with_ut_meta ut_metadata m f in Some (with_usertable s (Some m), x).

(** ** ecalls/abac.c: attributes *)
Definition nxs_abac_attribute_add (sp : attribute_space) (name type_str : bytes) (u : uuid) : attribute_space * Z :=
  let type := attribute_type_from_str type_str in
  if type =? -1 then (sp, -1)
  else let '(sp, ret) := attribute_space_add sp name type u in (sp, if negb (ret =? 0) then -1 else 0).

(** The lock stays when the flush fails. *)
Definition ecall_abac_attribute_add (s : runtime) (e : call_env) (name type_str : bytes) : option (runtime * Z) :=
  '(s, ok) ← abac_acquire_attribute_space s NEXUS_FRDWR (ce_space e);
  if negb ok then Some (s, -1)
  else
    '(s, ret) ← edit_space s (fun sp => nxs_abac_attribute_add sp name type_str (ce_uuid e 0));
    if negb (ret =? 0) then s ← abac_release_attribute_space s (ce_unlock e); Some (s, -1)
    else '(s, ret) ← abac_flush_attribute_space s (ce_put e); Some (s, if negb (ret =? 0) then -1 else 0).

Definition ecall_abac_attribute_del (s : runtime) (e : call_env) (name : bytes) : option (runtime * Z) :=
  '(s, ok) ← abac_acquire_attribute_space s NEXUS_FRDWR (ce_space e);
  if negb ok then Some (s, -1)
  else
    '(s, ret) ← edit_space s (fun sp => attribute_space_del sp name);
    if negb (ret =? 0) then s ← abac_release_attribute_space s (ce_unlock e); Some (s, -1)
    else '(s, ret) ← abac_flush_attribute_space s (ce_put e); Some (s, if negb (ret =? 0) then -1 else 0).

(** One line is "name,type"; a line without a type passes NULL on.  The loop
    ends at [max] lines. *)
Fixpoint attribute_lines (n : nat) (s : runtime) (e : call_env) (rest : bytes) (added max : Z) : outcome (runtime * Z) :=
  match n with
  | O => Spin
  | S n =>
      match strtok_r 10 rest with
      | None => Done (s, 0)
      | Some (line, rest) =>
          '(name, line) <- lift (strtok_r 44 (take 1024 line));;
          '(type, _) <- lift (strtok_r 44 line);;
          '(s, ret) <- lift (edit_space s (fun sp => nxs_abac_attribute_add sp name type (ce_uuid e added)));;
          if negb (ret =? 0) then Done (s, -1)
          else if added + 1 =? max then Done (s, 0) else attribute_lines n s e rest (added + 1) max
      end
  end.

Definition ecall_abac_attribute_add_bulk (s : runtime) (e : call_env) (text : bytes) (max : Z) : outcome (runtime * Z) :=
  '(s, ok) <- lift (abac_acquire_attribute_space s NEXUS_FRDWR (ce_space e));;
  if negb ok then Done (s, -1)
  else
    '(s, ret) <- attribute_lines (S (length text)) s e text 0 max;;
    if negb (ret =? 0) then
      m <- lift (rt_space s);;
      '(m, b, t) <- lift (nexus_metadata_reset (MO := space_ops) volumekey root m (rt_bufs s) (ce_unlock e) (ce_reset e));;
      Done (with_space (with_bufs s b t) (Some m), -1)
    else '(s, ret) <- lift (abac_flush_attribute_space s (ce_put e));; Done (s, if negb (ret =? 0) then -1 else 0).

(** The names and types, how many, and how many there are. *)
Definition ecall_abac_attribute_ls (s : runtime) (e : call_env) (capacity : Z) (offset : nat)
    : option (runtime * Z * option (list (bytes * option bytes) * Z * Z)) :=
  '(s, ok) ← abac_acquire_attribute_space s NEXUS_FRDWR (ce_space e);
  if negb ok then Some (s, -1, None)
  else
    m ← rt_space s;
    s ← abac_release_attribute_space s (ce_unlock e);
    Some (s, 0, Some (UNSAFE_attribute_space_export (md_object m) capacity offset)).

(** ** ecalls/abac.c: policies *)
(** The parser acquires the attribute space for every attribute it meets; here
    it is acquired once, before the text is read. *)
Definition nxs_abac_policy_add (s : runtime) (sp : option attribute_space) (n : nat) (text : bytes) (u : uuid) : outcome (runtime * Z) :=
  r <- parse_abac_policy sp u n text;;
  match r with
  | None => Done (s, -1)
  | Some rule => '(s, ret) <- lift (edit_policies s (fun ps => policy_store_add ps rule));; Done (s, if negb (ret =? 0) then -1 else 0)
  end.

(** The UUID of the new rule comes back. *)
Definition ecall_abac_policy_add (s : runtime) (e : call_env) (text : bytes) : outcome (runtime * Z * option uuid) :=
  '(s, ok) <- lift (abac_acquire_policy_store s NEXUS_FRDWR (ce_policies e));;
  if negb ok then Done (s, -1, None)
  else
    '(s, sp) <- lift (acquired_space s (ce_space e));;
    '(s, ret) <- nxs_abac_policy_add s (fst <$> sp) (ce_fuel e) text (ce_uuid e 0);;
    if negb (ret =? 0) then s <- lift (abac_release_policy_store s (ce_unlock e));; Done (s, -1, None)
    else
      '(s, ret) <- lift (abac_flush_policy_store s (ce_export e) (ce_put e));;
      if negb (ret =? 0) then s <- lift (abac_release_policy_store s (ce_unlock e));; Done (s, -1, Some (ce_uuid e 0))
      else Done (s, 0, Some (ce_uuid e 0)).

Fixpoint policy_lines (n : nat) (s : runtime) (e : call_env) (sp : option attribute_space) (rest : bytes) (added max : Z)
    : outcome (runtime * Z) :=
  match n with
  | O => Spin
  | S n =>
      match strtok_r 10 rest with
      | None => Done (s, 0)
      | Some (line, rest) =>
          '(s, ret) <- nxs_abac_policy_add s sp (ce_fuel e) (take 1024 line) (ce_uuid e added);;
          if negb (ret =? 0) then Done (s, -1)
          else if added + 1 =? max then Done (s, 0) else policy_lines n s e sp rest (added + 1) max
      end
  end.

Definition reset_policies (s : runtime) (e : call_env) : option runtime :=
  m ← rt_policies s;
  '(m, b, t) ← nexus_metadata_reset (MO := pstore_ops None) volumekey root m (rt_bufs s) (ce_unlock e) (ce_reset e);
  Some (with_policies (with_bufs s b t) (Some m)).

Definition ecall_abac_policy_add_bulk (s : runtime) (e : call_env) (text : bytes) (max : Z) : outcome (runtime * Z) :=
  '(s, ok) <- lift (abac_acquire_policy_store s NEXUS_FRDWR (ce_policies e));;
  if negb ok then Done (s, -1)
  else
    '(s, sp) <- lift (acquired_space s (ce_space e));;
    '(s, ret) <- policy_lines (S (length text)) s e (fst <$> sp) text 0 max;;
    if negb (ret =? 0) then s <- lift (reset_policies s e);; Done (s, -1)
    else '(s, ret) <- lift (abac_flush_policy_store s (ce_export e) (ce_put e));; Done (s, if negb (ret =? 0) then -1 else 0).

(** The end of a deletion. *)
Definition flush_or_release (s : runtime) (e : call_env) (ret : Z) : option (runtime * Z) :=
  if negb (ret =? 0) then s ← abac_release_policy_store s (ce_unlock e); Some (s, -1)
  else
    '(s, ret) ← abac_flush_policy_store s (ce_export e) (ce_put e);
    if negb (ret =? 0) then s ← abac_release_policy_store s (ce_unlock e); Some (s, -1) else Some (s, 0).

Definition ecall_abac_policy_del (s : runtime) (e : call_env) (rule : uuid) : option (runtime * Z) :=
  '(s, ok) ← abac_acquire_policy_store s NEXUS_FRDWR (ce_policies e);
  if negb ok then Some (s, -1)
  else '(s, ret) ← edit_policies s (fun ps => policy_store_del ps rule); flush_or_release s e ret.

Definition ecall_abac_policy_del_first (s : runtime) (e : call_env) : option (runtime * Z) :=
  '(s, ok) ← abac_acquire_policy_store s NEXUS_FRDWR (ce_policies e);
  if negb ok then Some (s, -1)
  else
    m ← rt_policies s;
    '(ps, ret) ← policy_store_del_first (with_pst_dirty (md_object m) (Some (md_is_dirty m)));
    '(s, ret) ← edit_policies s (fun _ => (ps, ret));
    flush_or_release s e ret.

(** [out] is the caller's buffer; nothing is released, the store was only read. *)
Definition ecall_abac_policy_ls (s : runtime) (e : call_env) (out : bytes) (offset : nat) : option (runtime * Z * option (bytes * Z * Z)) :=
  '(s, ok) ← abac_acquire_policy_store s NEXUS_FREAD (ce_policies e);
  if negb ok then Some (s, -1, None)
  else
    m ← rt_policies s;
    r ← policy_store_ls (md_object m) out offset;
    match r with
    | None => s ← abac_release_policy_store s (ce_unlock e); Some (s, -1, None)
    | Some x => Some (s, 0, Some x)
    end.

(** ** Profiles of users *)
Definition abac_get_user_profile (s : runtime) (e : call_env) (username : bytes) (flags : Z)
    : option (runtime * option (nexus_metadata user_profile)) :=
  '(s, ok) ← nexus_vfs_acquire_user_table s NEXUS_FREAD (ce_users e);
  if negb ok then Some (s, None)
  else
    t ← rt_users s;
    match nexus_usertable_find_name (md_object t) username with
    | None => s ← nexus_vfs_release_user_table s (ce_unlock e); Some (s, None)
    | Some user =>
        '(b, r, tr) ← nexus_metadata_load (MO := profile_ops None) volumekey root (rt_bufs s) (user_uuid user) flags (ce_profile e);
        s ← nexus_vfs_release_user_table (with_bufs s b tr) (ce_unlock e);
        Some (s, r)
    end.

(** The object is freed, unless its store failed. *)
Definition abac_put_user_profile (s : runtime) (e : call_env) (m : nexus_metadata user_profile) : option (runtime * Z) :=
  '(s, m, ret) ← store_with_space profile_ops s m (ce_export e) (ce_put_profile e);
  if negb (ret =? 0) then Some (s, -1)
  else let '(_, b, t) := nexus_metadata_unlock m (rt_bufs s) (ce_unlock e) in Some (with_bufs s b t, 0).

(** A new object that cannot be locked is NULL, and freed. *)
Definition abac_create_user_profile (s : runtime) (e : call_env) (user : uuid) : option (runtime * Z) :=
  let '(b, m, t) := nexus_metadata_create (MO := profile_ops None) root (rt_bufs s) user (ce_create e) in
  m ← m;
  '(s, _, ret) ← store_with_space profile_ops (with_bufs s b t) m (ce_export e) (ce_put_profile e);
  Some (s, if negb (ret =? 0) then -1 else 0).

Definition abac_del_user_profile (s : runtime) (e : call_env) (user : uuid) : runtime * Z :=
  let '(b, ret, t) := buffer_layer_delete (rt_bufs s) user (ce_delete e) in (with_bufs s b t, ret).

(** Granting and revoking: [f] changes the profile, given the attribute space. *)
Definition change_profile (s : runtime) (e : call_env) (username : bytes) (f : user_profile -> option attribute_space -> user_profile * Z)
    : option (runtime * Z) :=
  '(s, r) ← abac_get_user_profile s e username NEXUS_FRDWR;
  match r with
  | None => Some (s, -1)
  | Some m =>
      '(s, sp) ← acquired_space s (ce_space e);
      let '(m, ret) := edit with_up_meta up_metadata m (fun p => f p (fst <$> sp)) in
      '(s, ret') ← abac_put_user_profile s e m;
      Some (s, if negb (ret =? 0) || negb (ret' =? 0) then -1 else 0)
  end.

Definition ecall_abac_user_attribute_grant (s : runtime) (e : call_env) (username name value : bytes) : option (runtime * Z) :=
  change_profile s e username (fun p sp => user_profile_grant_attribute p sp name value).
Definition ecall_abac_user_attribute_revoke (s : runtime) (e : call_env) (username name : bytes) : option (runtime * Z) :=
  change_profile s e username (fun p sp => user_profile_revoke_attribute p sp name).

Definition ecall_abac_user_attribute_ls (s : runtime) (e : call_env) (username : bytes) (capacity : Z) (offset : nat)
    : option (runtime * Z * option (list (bytes * bytes) * Z * Z)) :=
  '(s, r) ← abac_get_user_profile s e username NEXUS_FREAD;
  match r with
  | None => Some (s, -1, None)
  | Some m =>
      '(s, sp) ← acquired_space s (ce_space e);
      r ← UNSAFE_user_profile_attribute_ls (md_object m) (fst <$> sp) capacity offset;
      '(s, _) ← abac_put_user_profile s e m;
      Some (s, if r is Some _ then 0 else -1, r)
  end.

(** ** ecalls/users.c *)
Notation owner_only s x := (if negb (uid =? NEXUS_ROOT_USER) then Some (s, -1) else x).

(** [goto out]: the table is released and -1 returned. *)
Definition users_out (s : runtime) (e : call_env) (ret : Z) : option (runtime * Z) :=
  s ← nexus_vfs_release_user_table s (ce_unlock e); Some (s, ret).

Definition ecall_user_add (s : runtime) (e : call_env) (username pubkey : bytes) : option (runtime * Z) :=
  owner_only s (
    '(s, ok) ← nexus_vfs_acquire_user_table s NEXUS_FRDWR (ce_users e);
    if negb ok then Some (s, -1)
    else
      '(s, user) ← edit_users s (fun t => nexus_usertable_add t username pubkey (ce_uuid e 0));
      match user with
      | None => users_out s e (-1)
      | Some user =>
          '(s, ret) ← abac_create_user_profile s e (user_uuid user);
          if negb (ret =? 0) then users_out s e (-1)
          else '(s, ret) ← nexus_vfs_flush_user_table s (ce_put e); users_out s e (if negb (ret =? 0) then -1 else 0)
      end).

(** Flush the table, then delete the profile. *)
Definition user_removed (s : runtime) (e : call_env) (user : uuid) : option (runtime * Z) :=
  '(s, ret) ← nexus_vfs_flush_user_table s (ce_put e);
  if negb (ret =? 0) then users_out s e (-1)
  else let '(s, ret) := abac_del_user_profile s e user in users_out s e (if negb (ret =? 0) then -1 else 0).

(** An unknown name returns without releasing the table. *)
Definition ecall_user_remove_username (s : runtime) (e : call_env) (username : bytes) : option (runtime * Z) :=
  owner_only s (
    '(s, ok) ← nexus_vfs_acquire_user_table s NEXUS_FRDWR (ce_users e);
    if negb ok then Some (s, -1)
    else
      '(s, (ret, user)) ← edit_users s (fun t => let '(t, ret, u) := nexus_usertable_remove_username t username in (t, (ret, u)));
      if negb (ret =? 0) then Some (s, -1) else u ← user; user_removed s e u).

Definition ecall_user_remove_pubkey (s : runtime) (e : call_env) (pubkey : bytes) : option (runtime * Z) :=
  owner_only s (
    '(s, ok) ← nexus_vfs_acquire_user_table s NEXUS_FRDWR (ce_users e);
    if negb ok then Some (s, -1)
    else
      '(s, (ret, user)) ← edit_users s (fun t => let '(t, ret, u) := nexus_usertable_remove_pubkey t pubkey in (t, (ret, u)));
      if negb (ret =? 0) then users_out s e (-1) else u ← user; user_removed s e u).

(** ** Set-up *)
(** [bouncer] is what [bouncer_init] returns for a user who is not the owner;
    for the owner it returns 0 at once. *)
Definition abac_runtime_mount (s : runtime) (e : call_env) (bouncer : Z) : option (runtime * Z) :=
  '(s, ok) ← abac_acquire_attribute_space s NEXUS_FREAD (ce_space e);
  if negb ok then Some (s, -1)
  else
    '(s, ok) ← abac_acquire_policy_store s NEXUS_FREAD (ce_policies e);
    if negb ok then Some (s, -1) else Some (s, if negb ((if uid =? NEXUS_ROOT_USER then 0 else bouncer) =? 0) then -1 else 0).

(** The replies to the creation and the first store of one object. *)
Record create_env := mk_create { cr_lock : reply; cr_put : put_env }.

(** The two UUIDs of [super] are those that were just drawn; the objects are
    stored and freed.  What an acquisition of the attribute space is answered
    depends on what was sent before: [q] of the log. *)
Definition abac_runtime_create (s : runtime) (space policies : create_env) (q : list ocall -> acq_env) : option (runtime * Z) :=
  let info := sn_abac_superinfo super in
  let '(b, m, t) := nexus_metadata_create (MO := space_ops) root (rt_bufs s) (attribute_space_uuid info) (cr_lock space) in
  let s := with_bufs s b t in
  match m with
  | None => Some (s, -1)
  | Some m =>
      '(_, b, ret, t) ← nexus_metadata_store (MO := space_ops) volumekey m (rt_bufs s) (cr_put space);
      let s := with_bufs s b t in
      if negb (ret =? 0) then Some (s, -1)
      else
        let '(b, m, t) := nexus_metadata_create (MO := pstore_ops None) root (rt_bufs s) (policy_store_uuid info) (cr_lock policies) in
        let s := with_bufs s b t in
        match m with
        | None => Some (s, -1)
        | Some m =>
            '(s, _, ret) ← store_with_space pstore_ops s m (q (rt_log s)) (cr_put policies);
            Some (s, if negb (ret =? 0) then -1 else 0)
        end
  end.
End runtime.
