(* ===== verification/RuntimeProps.v ===== *)
(** * What holds of the administration calls

    The attribute space, the policy store and the profiles discharge the
    interface of [Metadata.v], and what a call changes under the lock of the
    store reaches every enclave of the volume, or is rolled back. *)
From stdpp Require Import strings.
From S2P Require Import Prelude Hashmap Types AttributeTable Gcm Crypto BufferLayer CryptoBuf UserTable Supernode Metadata.
From S2P Require Import AbacValue AbacRule AttributeSpace AbacParser AbacSyntax AbacParserProps PolicyStore UserProfile Runtime.

(** ** The objects keep the promise of the metadata layer *)
Section laws.
Context `{BlockCipher} `{KeyWrapCipher}.

(** The same declarations, and the MAC of what was read. *)
Definition space_back (sp sp' : attribute_space) : Prop := space_same sp sp' /\ length (sp_mac sp') = NEXUS_MAC_SIZE.

Lemma space_law vk sp u version b env mem :
  (sp_my_uuid sp = u /\ space_storable sp) -> one_writer b u -> in_range 32 version ->
  key_ok (pe_draw env).1 -> key_ok (pe_draw env).2 -> pe_heap env = Some mem ->
  exists sp' b' data dsize, attribute_space_store vk sp version b env =
      Some (sp', b', if failed (pe_reply env) then -1 else 0, [ocall_buffer_put u data dsize]) /\
    (if failed (pe_reply env) then
       exists flags, buffer_layer_lock_status b' u = Some flags /\ nexus_io_in_lock_mode flags = true
     else idle b' u) /\
    external_version data = u32 (version + 1) /\
    forall (flags : Z) ctx, exists sp2,
      attribute_space_from_crypto_buf vk (mk_cbuf ctx (external_version data) 0 u (Some (ExtStore data)) None)
        = Some (Some sp2) /\ space_back sp sp2.
Proof.
  intros [<- Hs] Hw Hv Hk1 Hk2 Hh.
  destruct (attribute_space_store_load vk sp version b env mem Hs Hw Hv Hk1 Hk2 Hh) as (sp' & b' & data & m & -> & _ & _ & Hl & Hev & Hload).
  exists sp', b', data, 0. split; [done|]. split; [done|]. split; [done|]. intros _ ctx. destruct (Hload ctx) as (sp2 & H1 & H2 & H3 & H4). exists sp2. split; [done|]. split; [done|congruence].
Qed.

Definition space_object : MetadataObject attribute_space :=
  {| obj_ops := space_ops; obj_ok := fun sp u => sp_my_uuid sp = u /\ space_storable sp; obj_same := space_back; obj_law := space_law |}.

(** The attribute space that a store exports. *)
Variables (sp : attribute_space) (v : Z) (mv_ok : macversion_ok (mk_macversion v (sp_mac sp))).

Definition pst_same (ps ps' : policy_store) : Prop :=
  pst_inv ps' /\ pst_rules ps' = pst_rules ps /\ pst_my_uuid ps' = pst_my_uuid ps /\ pst_root_uuid ps' = pst_root_uuid ps /\
  pst_macversion ps' = mk_macversion v (sp_mac sp).

Lemma pstore_law vk ps u version b env mem :
  (pst_my_uuid ps = u /\ pst_storable ps) -> one_writer b u -> in_range 32 version ->
  key_ok (pe_draw env).1 -> key_ok (pe_draw env).2 -> pe_heap env = Some mem ->
  exists ps' b' data dsize,
    ('(ps, b, ret, t, _) ← policy_store_store vk ps version (Some (sp, v)) b env; Some (ps, b, ret, t)) =
      Some (ps', b', if failed (pe_reply env) then -1 else 0, [ocall_buffer_put u data dsize]) /\
    (if failed (pe_reply env) then
       exists flags, buffer_layer_lock_status b' u = Some flags /\ nexus_io_in_lock_mode flags = true
     else idle b' u) /\
    external_version data = u32 (version + 1) /\
    forall (flags : Z) ctx, exists ps2,
      policy_store_from_crypto_buf vk (mk_cbuf ctx (external_version data) 0 u (Some (ExtStore data)) None)
        = Some (Some ps2) /\ pst_same ps ps2.
Proof.
  intros [<- Hs] Hw Hv Hk1 Hk2 Hh.
  pose proof (policy_store_store_load vk ps version (Some (sp, v)) b env mem Hs Hw Hv Hk1 Hk2 Hh) as Hst.
  cbn [abac_global_export_macversion mbind option_bind] in Hst.
  destruct Hst as (ps' & b' & data & m & -> & _ & _ & Hl & Hev & Hload); [by intros mv [= <-]|]. cbn [mbind option_bind].
  exists ps', b', data, 0. split; [done|]. split; [done|]. split; [done|]. intros _ ctx. destruct (Hload ctx) as (ps2 & H1 & H2). eauto.
Qed.

Definition pstore_object : MetadataObject policy_store :=
  {| obj_ops := pstore_ops (Some (sp, v)); obj_ok := fun ps u => pst_my_uuid ps = u /\ pst_storable ps; obj_same := pst_same; obj_law := pstore_law |}.

Record profile_storable (p : user_profile) : Prop := {
  po_inv : exists g, at_inv (up_table p) g /\ Z.of_nat (size g) < 2 ^ 28;
  po_gen : in_range 64 (at_generation (up_table p));
  po_audit : uuid_ok (at_audit_log_uuid (up_table p));
  po_my : length (up_my_uuid p) = NEXUS_UUID_SIZE;
  po_root : length (up_root_uuid p) = NEXUS_UUID_SIZE;
  po_size : user_profile_get_size p < 2 ^ 31
}.

(** Every value comes back, cut to its recorded length. *)
Definition profile_same (p p' : user_profile) : Prop :=
  (exists g, at_inv (up_table p') g) /\ up_my_uuid p' = up_my_uuid p /\ at_macversion (up_table p') = mk_macversion v (sp_mac sp) /\
  forall u, uuid_ok u -> at_lookup (up_table p') u = trim <$> at_lookup (up_table p) u.

Lemma profile_law vk p u version b env mem :
  (up_my_uuid p = u /\ profile_storable p) -> one_writer b u -> in_range 32 version ->
  key_ok (pe_draw env).1 -> key_ok (pe_draw env).2 -> pe_heap env = Some mem ->
  exists p' b' data dsize,
    ('(p, b, ret, t, _) ← user_profile_store vk p version (Some (sp, v)) b env; Some (p, b, ret, t)) =
      Some (p', b', if failed (pe_reply env) then -1 else 0, [ocall_buffer_put u data dsize]) /\
    (if failed (pe_reply env) then
       exists flags, buffer_layer_lock_status b' u = Some flags /\ nexus_io_in_lock_mode flags = true
     else idle b' u) /\
    external_version data = u32 (version + 1) /\
    forall (flags : Z) ctx, exists p2,
      user_profile_from_crypto_buf vk (mk_cbuf ctx (external_version data) 0 u (Some (ExtStore data)) None)
        = Some (Some p2) /\ profile_same p p2.
Proof.
  intros [<- [(g & Hi & Hc) Hg Ha Hm Hr Hsz]] Hw Hv Hk1 Hk2 Hh.
  pose proof (user_profile_store_load vk p g version (Some (sp, v)) b env mem Hi Hc Hg Ha Hm Hr Hsz Hw Hv Hk1 Hk2 Hh) as Hst.
  cbn [abac_global_export_macversion mbind option_bind] in Hst.
  destruct Hst as (p' & b' & data & m & -> & Hl & Hev & Hload); [by intros mv [= <-]|]. cbn [mbind option_bind].
  exists p', b', data, 0. split; [done|]. split; [done|]. split; [done|]. intros _ ctx.
  destruct (Hload ctx) as (p2 & g2 & Q1 & Q2 & Q3 & _ & _ & Q4 & Q5). exists p2. split; [done|]. split; [by exists g2|]. done.
Qed.

Definition profile_object : MetadataObject user_profile :=
  {| obj_ops := profile_ops (Some (sp, v)); obj_ok := fun p u => up_my_uuid p = u /\ profile_storable p; obj_same := profile_same; obj_law := profile_law |}.
End laws.

(** ** What other enclaves read *)
(** A read of [u] goes to the store. *)
Definition fetches (b : bcache) (u : uuid) : Prop := match bcache_get b u with Some m => mb_dirty m = false | None => True end.

(** Every enclave with the volume key that reads [data] under [u] gets an
    object with [P]. *)
Definition published {O} (MO : MetadataOps O) (vk : bytes) (root u : uuid) (data : bytes) (P : O -> Prop) : Prop :=
  forall b flags ts, fetches b u -> exists b' o,
    read_object vk root b u flags (mk_getreply 0 (Some data) ts) =
      Some (b', Some (o, external_version data), [ocall_buffer_get u (io_flags (Obj := O) flags)]) /\ P o.

Lemma published_intro {O} (MO : MetadataOps O) vk root u data (P : O -> Prop) :
  external_version data <> 0 ->
  (forall flags ctx, exists o, obj_load (O := O) vk (mk_cbuf ctx (external_version data) 0 u (Some (ExtStore data)) None) flags = Some (Some o) /\ P o) ->
  published MO vk root u data P.
Proof.
  intros Hv Hl b flags ts Hf. unfold read_object, nexus_crypto_buf_create, buffer_layer_get, fetches in *.
  destruct (get_update b u ts (io_flags (Obj := O) flags)) as (mb & Hmb & _). destruct (Hl (io_flags (Obj := O) flags) empty_ctx) as (o & Ho & HP).
  exists (if in_write_mode mb then set_buf (bcache_update b u ts (io_flags (Obj := O) flags)) u (with_writers mb (s32 (writers mb + 1)))
          else bcache_update b u ts (io_flags (Obj := O) flags)), o.
  split; [|done]. destruct (bcache_get b u) as [m0|]; [rewrite Hf|]; cbn [g_err g_data g_ts negb Z.eqb]; rewrite Hmb;
    cbn [nexus_crypto_buf_version cb_version]; rewrite (proj2 (Z.eqb_neq _ 0)) by done; by rewrite Ho.
Qed.

(** An enclave learns of a change: it has not loaded the object, knows that
    its copy is invalid, or the store has a newer one. *)
Definition notices {O} (cur : option (nexus_metadata O)) (b : bcache) (u : uuid) (e : acq_env) : Prop :=
  match cur with
  | None => True
  | Some m => md_uuid m = u /\
      (is_invalid m = true \/ default (aq_junk e) (buffer_layer_revalidate b u (rv_stat (aq_reval e)) (rv_stat_ts (aq_reval e))).1.2 = true)
  end.

Lemma acquire_published {O} (MO : MetadataOps O) vk super cur b u flags e data ts P :
  published MO vk (sn_root_uuid super) u data P -> fetches b u -> notices cur b u e ->
  aq_get e = mk_getreply 0 (Some data) ts -> rv_get (aq_reval e) = mk_getreply 0 (Some data) ts ->
  exists m b' t, acquire vk super cur b u flags e = Some (Some m, b', true, t) /\ P (md_object m) /\ md_version m = external_version data /\
    md_uuid m = u /\ is_invalid m = false /\ md_is_dirty m = false.
Proof.
  intros Hp Hf Hn Hg Hr. destruct (Hp b flags ts Hf) as (b' & o & Hro & HP). unfold acquire. destruct cur as [m|].
  - destruct Hn as [Hu Hch]. unfold nexus_metadata_revalidate, nexus_metadata_reload. rewrite Hr, Hu, Hro. cbn [mbind option_bind].
    destruct (is_invalid m) eqn:Hi; [do 3 eexists; split; [done|]; done|].
    destruct (buffer_layer_revalidate b u _ _) as [[z ch] t]. destruct Hch as [Hch|Hch]; [done|]. cbn [fst snd] in Hch. rewrite Hch.
    cbn [mbind option_bind]. do 3 eexists. split; [done|]. done.
  - unfold nexus_metadata_load. rewrite Hg, Hro. cbn [mbind option_bind option_map]. do 3 eexists. split; [done|]. done.
Qed.

Section policies.
Context `{BlockCipher} `{KeyWrapCipher} `{PubkeyHash}.
Variables (vk : bytes) (super : nexus_supernode).
Notation root := (sn_root_uuid super).
Implicit Types (s : runtime).

(** Acquiring the space does not depend on the policy store. *)
Lemma acquired_space_frame s e s' sp m :
  acquired_space vk super s e = Some (s', sp) ->
  acquired_space vk super (with_policies s m) e = Some (with_policies s' m, sp) /\ rt_policies s' = rt_policies s.
Proof.
  unfold acquired_space, abac_acquire_attribute_space. cbn [rt_space rt_bufs with_policies].
  destruct (acquire _ _ _ _ _ _ _) as [[[[m1 b] ok] t]|]; [|done]. cbn [mbind option_bind]. intros [= <- <-]. done.
Qed.

(** What a flush of the policy store sends, and what it leaves. *)
Definition flushed (m m' : nexus_metadata policy_store) (sp : attribute_space) (v : Z) (r : reply) (data : bytes) : Prop :=
  if failed r then is_invalid m' = true /\ is_locked m' = true
  else md_is_dirty m' = false /\ is_locked m' = false /\ md_version m' = u32 (md_version m + 1) /\
    pst_rules (md_object m') = pst_rules (md_object m) /\
    published (pstore_ops None) vk root (md_uuid m) data (fun ps => pst_inv ps /\ pst_rules ps = pst_rules (md_object m) /\
      pst_macversion ps = mk_macversion v (sp_mac sp)).

(** What the store and the buffer cache must offer. *)
Record can_store (m : nexus_metadata policy_store) (b : bcache) (env : put_env) (mem : bytes) : Prop := {
  cs_uuid : pst_my_uuid (md_object m) = md_uuid m;
  cs_storable : pst_storable (md_object m);
  cs_writer : one_writer b (md_uuid m);
  cs_version : in_range 32 (md_version m);
  cs_next : u32 (md_version m + 1) <> 0;
  cs_key1 : key_ok (pe_draw env).1;
  cs_key2 : key_ok (pe_draw env).2;
  cs_heap : pe_heap env = Some mem
}.

Lemma flush_policies_spec s m e env mem s3 sp v :
  rt_policies s = Some m -> md_is_dirty m = true -> acquired_space vk super s e = Some (s3, Some (sp, v)) ->
  macversion_ok (mk_macversion v (sp_mac sp)) -> can_store m (rt_bufs s3) env mem ->
  exists m' b' data, abac_flush_policy_store vk super s e env =
      Some (with_policies (with_bufs s3 b' [ocall_buffer_put (md_uuid m) data 0]) (Some m'), if failed (pe_reply env) then -1 else 0) /\
    md_uuid m' = md_uuid m /\ flushed m m' sp v (pe_reply env) data.
Proof.
  intros Hp Hd Hx Hmv [Hu Hst Hw Hver Hnext Hk1 Hk2 Hh]. unfold abac_flush_policy_store, store_with_space.
  rewrite Hp. cbn [mbind option_bind]. rewrite Hd. cbn [negb andb]. rewrite Hx. cbn [mbind option_bind].
  unfold nexus_metadata_store. rewrite Hd. cbn [negb andb obj_store pstore_ops].
  rewrite <- Hu in Hw. pose proof (policy_store_store_load vk (md_object m) (md_version m) (Some (sp, v)) (rt_bufs s3) env mem Hst Hw Hver Hk1 Hk2 Hh) as Hs.
  cbn [abac_global_export_macversion mbind option_bind] in Hs. destruct Hs as (ps' & b' & data & mc & -> & Hr & _ & Hl & Hev & Hload); [by intros ? [= <-]|].
  cbn [mbind option_bind]. rewrite Hu in *. unfold flushed. destruct (failed (pe_reply env)); cbn [Z.eqb].
  - destruct Hl as (flags & -> & ->). exists (mk_metadata (md_uuid m) (md_flags m) (md_version m) (ref_count m) true true true ps'), b', data.
    cbn [mbind option_bind]. done.
  - do 3 eexists. split; [done|]. cbn [md_uuid md_is_dirty is_locked md_version md_object]. do 4 (split; [done|]). split; [done|].
    apply published_intro; [congruence|]. intros flags ctx. destruct (Hload ctx) as (ps2 & ? & ? & ? & ? & ? & ?). exists ps2. done.
Qed.

(** Acquiring the policy store succeeds and gives rules with [P]. *)
Definition acquires_rules s (flags : Z) (q : acq_env) (P : list policy_rule -> Prop) : Prop :=
  exists s' m, abac_acquire_policy_store vk super s flags q = Some (s', true) /\ rt_policies s' = Some m /\ P (pst_rules (md_object m)).

(** The store answers with [data] and the enclave notices. *)
Definition served s (q : acq_env) (data : bytes) : Prop :=
  let u := policy_store_uuid (sn_abac_superinfo super) in
  fetches (rt_bufs s) u /\ notices (rt_policies s) (rt_bufs s) u q /\
  exists ts, aq_get q = mk_getreply 0 (Some data) ts /\ rv_get (aq_reval q) = mk_getreply 0 (Some data) ts.

Lemma served_acquires s flags q data P :
  published (pstore_ops None) vk root (policy_store_uuid (sn_abac_superinfo super)) data (fun ps => P (pst_rules ps)) ->
  served s q data -> acquires_rules s flags q P.
Proof.
  intros Hp (Hf & Hn & ts & Hg & Hr).
  destruct (acquire_published _ vk super _ _ _ flags q data ts _ Hp Hf Hn Hg Hr) as (m & b' & t & Ha & HP & _).
  unfold acquires_rules, abac_acquire_policy_store. rewrite Ha. cbn [mbind option_bind]. by do 2 eexists.
Qed.

(** After a flush: every enclave that is served the bytes has the new rules;
    after a refused one this enclave goes back to what the store holds. *)
Definition settled s' (r : reply) (data : bytes) (rules : list policy_rule) : Prop :=
  if failed r then
    forall data0 P flags q, published (pstore_ops None) vk root (policy_store_uuid (sn_abac_superinfo super)) data0 (fun ps => P (pst_rules ps)) ->
      (forall ts, aq_get q = mk_getreply 0 (Some data0) ts -> rv_get (aq_reval q) = mk_getreply 0 (Some data0) ts ->
       fetches (rt_bufs s') (policy_store_uuid (sn_abac_superinfo super)) -> acquires_rules s' flags q P)
  else
    (exists m', rt_policies s' = Some m' /\ pst_rules (md_object m') = rules /\ is_locked m' = false) /\
    ocall_buffer_put (policy_store_uuid (sn_abac_superinfo super)) data 0 ∈ rt_log s' /\
    forall sB flags q, served sB q data -> acquires_rules sB flags q (fun l => l = rules).

(** The flush at the end of a call that changed the policy store, and the
    release of a call that could not flush. *)
Lemma flush_settles s m (e : call_env) mem s3 sp v :
  rt_policies s = Some m -> md_is_dirty m = true -> md_uuid m = policy_store_uuid (sn_abac_superinfo super) ->
  acquired_space vk super s (ce_export e) = Some (s3, Some (sp, v)) ->
  macversion_ok (mk_macversion v (sp_mac sp)) -> can_store m (rt_bufs s3) (ce_put e) mem ->
  exists s4 data, abac_flush_policy_store vk super s (ce_export e) (ce_put e) = Some (s4, if failed (pe_reply (ce_put e)) then -1 else 0) /\
    settled s4 (pe_reply (ce_put e)) data (pst_rules (md_object m)) /\
    exists s5, abac_release_policy_store s4 (ce_unlock e) = Some s5 /\ settled s5 (pe_reply (ce_put e)) data (pst_rules (md_object m)).
Proof.
  intros Hp Hd Hu Hx Hmv Hc. destruct (flush_policies_spec s m _ _ mem s3 sp v Hp Hd Hx Hmv Hc) as (m' & b' & data & Hfl & Hu' & Hpost).
  eexists _, data. split; [exact Hfl|]. unfold abac_release_policy_store. cbn [rt_policies with_policies mbind option_bind rt_bufs with_bufs].
  unfold flushed in Hpost. unfold settled. destruct (failed (pe_reply (ce_put e))).
  - destruct Hpost as [Hi Hl].
    assert (Hback : forall s' mm, rt_policies s' = Some mm -> md_uuid mm = md_uuid m -> is_invalid mm = true ->
      forall data0 P flags q, published (pstore_ops None) vk root (policy_store_uuid (sn_abac_superinfo super)) data0 (fun ps => P (pst_rules ps)) ->
      forall ts, aq_get q = mk_getreply 0 (Some data0) ts -> rv_get (aq_reval q) = mk_getreply 0 (Some data0) ts ->
        fetches (rt_bufs s') (policy_store_uuid (sn_abac_superinfo super)) -> acquires_rules s' flags q P).
    { intros s' mm Hmm Hum Him data0 P flags q Hpub ts Hg Hr Hf. apply (served_acquires _ _ _ data0); [done|].
      split; [done|]. split; [|by exists ts]. rewrite Hmm. split; [congruence|]. by left. }
    split; [intros data0 P flags q Hpub ts; by apply (Hback _ m')|].
    unfold nexus_metadata_unlock. rewrite Hl. destruct (buffer_layer_unlock b' (md_uuid m') (ce_unlock e)) as [[b2 z2] t2].
    eexists. split; [done|]. intros data0 P flags q Hpub ts. by apply (Hback _ (metadata_set_locked m' false)).
  - destruct Hpost as (Hcl & Hl & _ & Hr & Hpub). rewrite Hu in Hpub |- *.
    assert (Hall : forall sB flags q, served sB q data -> acquires_rules sB flags q (fun l => l = pst_rules (md_object m))).
    { intros sB flags q Hs. apply (served_acquires _ _ _ data); [|done]. intros b fl ts Hf. destruct (Hpub b fl ts Hf) as (b2 & o & ? & ? & ? & ?). eauto. }
    split; [split; [by exists m'|]; split; [set_solver|done]|].
    unfold nexus_metadata_unlock. rewrite Hl. eexists. split; [done|]. split; [by exists m'|]. split; [|done]. set_solver.
Qed.

(** ** Adding rules *)
Definition add_rules (m : nexus_metadata policy_store) (rs : list policy_rule) : nexus_metadata policy_store :=
  foldl (fun m r => (edit with_pst_dirty pst_metadata m (fun ps => policy_store_add ps r)).1) m rs.

Lemma edit_add s m r :
  rt_policies s = Some m -> edit_policies s (fun ps => policy_store_add ps r) = Some (with_policies s (Some (add_rules m [r])), 0).
Proof. intros Hm. unfold edit_policies. rewrite Hm. done. Qed.

Lemma add_rules_spec rs m :
  pst_inv (md_object m) -> Forall rule_ok rs -> Z.of_nat (length (pst_rules (md_object m)) + length rs) < 2 ^ 32 ->
  let m' := add_rules m rs in
  md_uuid m' = md_uuid m /\ md_version m' = md_version m /\ is_locked m' = is_locked m /\ is_invalid m' = is_invalid m /\
  md_is_dirty m' = (if rs is [] then md_is_dirty m else true) /\
  pst_inv (md_object m') /\ pst_rules (md_object m') = pst_rules (md_object m) ++ rs /\
  pst_my_uuid (md_object m') = pst_my_uuid (md_object m) /\ pst_root_uuid (md_object m') = pst_root_uuid (md_object m).
Proof.
  revert m. induction rs as [|r rs IH]; intros m Hi Hok Hb; [rewrite app_nil_r; done|]. apply Forall_cons in Hok as [Hr Hok]. simpl in Hb.
  change (add_rules m (r :: rs)) with (add_rules (add_rules m [r]) rs).
  destruct (store_step_refines (with_pst_dirty (md_object m) (Some (md_is_dirty m))) (PAdd r)) as (ps & Hps & Hi' & Hrs & _);
    [by destruct Hi; split|done|simpl; lia|]. cbn [store_step] in Hps. injection Hps as <-.
  destruct (IH (add_rules m [r])) as (E1 & E2 & E3 & E4 & E5 & E6 & E7 & E8 & E9); [exact Hi'|done|cbn; rewrite length_app; simpl; lia|].
  split; [done|]. split; [done|]. split; [done|]. split; [done|]. split; [rewrite E5; by destruct rs|]. split; [done|].
  split; [rewrite E7; cbn; by rewrite <- app_assoc|done].
Qed.

(** ** Lines of a text *)
Fixpoint lines (n : nat) (text : bytes) : list bytes :=
  match n with
  | O => []
  | S n => match strtok_r 10 text with None => [] | Some (l, rest) => take 1024 l :: lines n rest end
  end.

Lemma skip_length d text : (length (skip_delim d text) <= length text)%nat.
Proof. induction text as [|c t IH]; simpl; [lia|]. destruct (c =? d); simpl; lia. Qed.

Lemma strtok_shorter d text l rest : strtok_r d text = Some (l, rest) -> (length rest < length text)%nat.
Proof.
  unfold strtok_r. pose proof (skip_length d text) as Hs. destruct (skip_delim d text) as [|c t] eqn:Hk; [done|]. intros Ht.
  assert (Hc : (c =? d) = false).
  { clear -Hk. revert Hk. induction text as [|x text IH]; simpl; [done|]. destruct (x =? d) eqn:E; [done|]. by intros [= -> _]. }
  cbn [take_token] in Ht. rewrite Hc in Ht. destruct (take_token d t) as [t' r] eqn:Hr. injection Ht as _ <-.
  assert (Hlen : forall x y z, take_token d x = (y, z) -> (length z <= length x)%nat).
  { clear. intros x. induction x as [|c x IH]; intros y z; cbn; [intros [= _ <-]; simpl; lia|]. destruct (c =? d); [intros [= _ <-]; lia|].
    destruct (take_token d x) as [t r] eqn:E. intros [= _ <-]. specialize (IH _ _ eq_refl). lia. }
  apply Hlen in Hr. simpl in Hs. lia.
Qed.

Definition join_lines (ls : list bytes) : bytes := concat ((fun l => l ++ [10]) <$> ls).

(** Lines that are not empty and have no newline come back. *)
Lemma lines_join n ls :
  Forall (fun l => l <> [] /\ (length l <= 1024)%nat /\ Forall (fun c => c <> 10) l) ls -> (length (join_lines ls) < n)%nat ->
  lines n (join_lines ls) = ls.
Proof.
  intros Hl. unfold join_lines. revert n. induction Hl as [|l ls (Hne & Hlen & Hnl) _ IH]; intros n Hn; [by destruct n|].
  rewrite fmap_cons, concat_cons in Hn |- *. destruct n as [|n]; [simpl in Hn; lia|]. cbn [lines].
  assert (Htok : forall l' rest, Forall (fun c => c <> 10) l' -> take_token 10 ((l' ++ [10]) ++ rest) = (l', rest)).
  { clear. intros l' rest. induction 1 as [|c l' Hc _ IHl]; [done|]. cbn. rewrite (proj2 (Z.eqb_neq _ _) Hc). by rewrite IHl. }
  assert (Hst : forall rest, strtok_r 10 ((l ++ [10]) ++ rest) = Some (l, rest)).
  { intros rest. unfold strtok_r. rewrite <- (Htok l rest Hnl). destruct l as [|c l]; [done|]. apply Forall_cons in Hnl as [Hc _]. cbn [app skip_delim].
    by rewrite (proj2 (Z.eqb_neq _ _) Hc). }
  rewrite Hst, take_ge by done. f_equal. apply IH. rewrite !length_app in Hn. cbn [length] in Hn. lia.
Qed.

(** The rules of the lines before the first one that is refused. *)
Fixpoint parse_all (sp : option attribute_space) (e : call_env) (added : Z) (ls : list bytes) : outcome (list policy_rule * bool) :=
  match ls with
  | [] => Done ([], true)
  | l :: ls =>
      r <- parse_abac_policy sp (ce_uuid e added) (ce_fuel e) l;;
      match r with
      | None => Done ([], false)
      | Some r => '(rs, ok) <- parse_all sp e (added + 1) ls;; Done (r :: rs, ok)
      end
  end.

(** [max] lines are read, all of them when it is 0. *)
Definition limit (max : Z) (ls : list bytes) : list bytes := if max =? 0 then ls else take (Z.to_nat max) ls.

Lemma policy_lines_spec n s (e : call_env) sp text added max m :
  (length text < n)%nat -> rt_policies s = Some m -> 0 <= added -> (max = 0 \/ added < max) ->
  policy_lines n s e sp text added max =
    obind (fun '(rs, ok) => Done (with_policies s (Some (add_rules m rs)), if (ok : bool) then 0 else -1))
      (parse_all sp e added (limit (if max =? 0 then 0 else max - added) (lines n text))).
Proof.
  assert (Hid : forall s m, rt_policies s = Some m -> with_policies s (Some m) = s) by (by intros [] ? [= ->]).
  revert s text added m. induction n as [|n IH]; intros s text added m Hn Hm Ha Hmax; [lia|]. cbn [policy_lines lines].
  destruct (strtok_r 10 text) as [[l rest]|] eqn:Hl.
  2:{ assert (Hnil : forall z, limit z [] = []) by (intros z; unfold limit; rewrite take_nil; by destruct (z =? 0)). rewrite Hnil. cbn [parse_all obind].
    change (add_rules m []) with m. by rewrite Hid. }
  apply strtok_shorter in Hl.
  assert (Hlim : limit (if max =? 0 then 0 else max - added) (take 1024 l :: lines n rest) =
    take 1024 l :: (if added + 1 =? max then [] else limit (if max =? 0 then 0 else max - (added + 1)) (lines n rest))).
  { unfold limit. destruct (Z.eqb_spec max 0) as [->|Hz].
    - rewrite Z.eqb_refl. by rewrite (proj2 (Z.eqb_neq (added + 1) 0)) by lia.
    - destruct Hmax as [|Hmax]; [done|]. rewrite (proj2 (Z.eqb_neq (max - added) 0)) by lia.
      replace (Z.to_nat (max - added)) with (S (Z.to_nat (max - (added + 1)))) by lia. cbn [take]. f_equal.
      destruct (Z.eqb_spec (added + 1) max) as [->|]; [by rewrite Z.sub_diag|].
      by rewrite (proj2 (Z.eqb_neq (max - (added + 1)) 0)) by lia. }
  rewrite Hlim. cbn [parse_all]. unfold nxs_abac_policy_add.
  destruct (parse_abac_policy sp (ce_uuid e added) (ce_fuel e) (take 1024 l)) as [[r|]| |]; cbn [obind]; [|change (add_rules m []) with m; by rewrite Hid|done..].
  rewrite (edit_add s m r Hm). cbn [lift obind Z.eqb negb]. destruct (Z.eqb_spec (added + 1) max) as [He|He]; [done|].
  rewrite (IH _ _ _ (add_rules m [r])); [|lia|done|lia|lia].
  by destruct (parse_all sp e (added + 1) _) as [[rs ok]| |].
Qed.

(** ** Calls that add rules *)
(** The store cooperates with the acquisitions of a call that adds [rs]: the
    policy store [m] was acquired, the attribute space [sp] is exported at
    version [v]. *)
Record policy_call s (e : call_env) mem s1 m s2 (osp : option (attribute_space * Z)) s3 sp v (rs : list policy_rule) : Prop := {
  pc_acquire : abac_acquire_policy_store vk super s NEXUS_FRDWR (ce_policies e) = Some (s1, true);
  pc_object : rt_policies s1 = Some m;
  pc_uuid : md_uuid m = policy_store_uuid (sn_abac_superinfo super);
  pc_space : acquired_space vk super s1 (ce_space e) = Some (s2, osp);
  pc_export : acquired_space vk super s2 (ce_export e) = Some (s3, Some (sp, v));
  pc_mv : macversion_ok (mk_macversion v (sp_mac sp));
  pc_store : can_store m (rt_bufs s3) (ce_put e) mem;
  pc_count : Z.of_nat (length (pst_rules (md_object m)) + length rs) < 2 ^ 27;
  pc_size : policy_store_buf_size (with_rules (md_object m) 0 (pst_rules (md_object m) ++ rs)) < 2 ^ 31
}.

Lemma policy_call_flush s e mem s1 m s2 osp s3 sp v rs :
  policy_call s e mem s1 m s2 osp s3 sp v rs -> Forall rule_ok rs -> rs <> [] ->
  exists s4 data, abac_flush_policy_store vk super (with_policies s2 (Some (add_rules m rs))) (ce_export e) (ce_put e) =
      Some (s4, if failed (pe_reply (ce_put e)) then -1 else 0) /\
    settled s4 (pe_reply (ce_put e)) data (pst_rules (md_object m) ++ rs) /\
    exists s5, abac_release_policy_store s4 (ce_unlock e) = Some s5 /\ settled s5 (pe_reply (ce_put e)) data (pst_rules (md_object m) ++ rs).
Proof.
  intros [Ha Hm Hu Hs Hx Hmv [C1 (Ci & C2 & C3 & C4 & C5) C6 C7 C8 C9 C10 C11] Hcnt Hsz] Hok Hne.
  destruct (add_rules_spec rs m Ci Hok) as (E1 & E2 & E3 & E4 & E5 & E6 & E7 & E8 & E9); [lia|]. rewrite <- E7.
  destruct (acquired_space_frame _ _ _ _ (Some (add_rules m rs)) Hx) as [Hx' _].
  apply (flush_settles _ (add_rules m rs) e mem (with_policies s3 (Some (add_rules m rs))) sp v); try done.
  - rewrite E5. by destruct rs.
  - congruence.
  - split; rewrite ?E1, ?E2; try done; [congruence|]. split; [done|]. rewrite E8, E9, E7, length_app. split; [done|]. split; [done|]. split; [lia|].
    unfold policy_store_buf_size in *. by rewrite E7.
Qed.

Lemma parse_good sp u n text r :
  cstr_ok text -> uuid_ok u -> Z.of_nat (length text) < 2 ^ 16 -> parse_abac_policy sp u n text = Done (Some r) -> rule_ok r.
Proof.
  intros Ht Hu Hl Hp. pose proof (parse_policy_hoare false sp u n text Ht Hu ltac:(lia) ltac:(done)) as Hh. rewrite Hp in Hh.
  destruct (Hh r eq_refl) as (Hs & Hc & _). apply rule_ok_shape. split; [done|lia].
Qed.

Lemma parse_all_good sp e added ls rs ok :
  Forall (fun l => cstr_ok l /\ (length l <= 1024)%nat) ls -> (forall i, uuid_ok (ce_uuid e i)) -> parse_all sp e added ls = Done (rs, ok) -> Forall rule_ok rs.
Proof.
  intros Hl Hu. revert added rs ok. induction Hl as [|l ls [Hc Hlen] _ IH]; intros added rs ok; cbn [parse_all]; [by intros [= <- _]|].
  destruct (parse_abac_policy sp (ce_uuid e added) (ce_fuel e) l) as [[r|]| |] eqn:Hp; cbn [obind]; [|by intros [= <- _]|done..].
  apply parse_good in Hp; [|done|done|lia].
  destruct (parse_all sp e (added + 1) ls) as [[rs' ok']| |] eqn:Hr; cbn [obind]; [|done..]. intros [= <- <-]. constructor; [done|]. by eapply IH.
Qed.

Lemma lines_ok n text : cstr_ok text -> Forall (fun l => cstr_ok l /\ (length l <= 1024)%nat) (lines n text).
Proof.
  assert (Hsk : forall t, cstr_ok t -> cstr_ok (skip_delim 10 t)).
  { induction 1 as [|c t Hc Ht IH]; [constructor|]. cbn. destruct (c =? 10); [done|]. by constructor. }
  assert (Htk : forall t, cstr_ok t -> cstr_ok (take_token 10 t).1 /\ cstr_ok (take_token 10 t).2).
  { induction 1 as [|c t Hc Ht IH]; [by split; constructor|]. cbn. destruct (c =? 10); [by split; [constructor|]|].
    destruct (take_token 10 t) as [x y]. destruct IH. split; [by constructor|done]. }
  revert text. induction n as [|n IH]; intros text Ht; [constructor|]. cbn [lines]. unfold strtok_r. apply Hsk in Ht.
  destruct (skip_delim 10 text) as [|c t]; [constructor|]. destruct (Htk _ Ht) as [H2 H3]. destruct (take_token 10 (c :: t)) as [l rest].
  constructor; [|by apply IH]. split; [by apply Forall_take|]. rewrite length_take. lia.
Qed.

(** C10: adding a policy.  A text that parses to a rule is flushed to the
    store: if the store accepts, the call returns 0 and the rule's UUID, this
    enclave goes on with the old rules and the new one after them, and so does
    every enclave of the volume that is served the flushed bytes; if the store
    refuses, the call returns -1 and the next acquisition in this enclave goes
    back to the rules that the store holds. *)
Theorem policy_add_reaches_every_enclave s e text mem s1 m s2 osp s3 sp v r :
  policy_call s e mem s1 m s2 osp s3 sp v [r] -> cstr_ok text -> Z.of_nat (length text) < 2 ^ 16 -> uuid_ok (ce_uuid e 0) ->
  parse_abac_policy (fst <$> osp) (ce_uuid e 0) (ce_fuel e) text = Done (Some r) ->
  exists s' data, ecall_abac_policy_add vk super s e text = Done (s', if failed (pe_reply (ce_put e)) then -1 else 0, Some (ce_uuid e 0)) /\
    settled s' (pe_reply (ce_put e)) data (pst_rules (md_object m) ++ [r]).
Proof.
  intros Hc Ht Hl Hu Hp. destruct (policy_call_flush _ _ _ _ _ _ _ _ _ _ _ Hc) as (s4 & data & Hf & Hs4 & s5 & Hr & Hs5);
    [by apply Forall_singleton; eapply parse_good|done|]. destruct Hc as [Ha Hm _ Hs _ _ _ _ _].
  destruct (acquired_space_frame _ _ _ _ None Hs) as [_ Hm2]. rewrite Hm in Hm2.
  unfold ecall_abac_policy_add. rewrite Ha. cbn [lift obind negb]. rewrite Hs. cbn [lift obind]. unfold nxs_abac_policy_add. rewrite Hp. cbn [obind].
  rewrite (edit_add _ _ _ Hm2). cbn [lift obind Z.eqb negb]. rewrite Hf. cbn [lift obind].
  destruct (failed (pe_reply (ce_put e))) eqn:Hfail; cbn [Z.eqb negb].
  - rewrite Hr. cbn [lift obind]. by exists s5, data.
  - by exists s4, data.
Qed.

Lemma unlock_fetches b u r : fetches b u -> fetches (buffer_layer_unlock b u r).1.1 u.
Proof.
  unfold fetches, buffer_layer_unlock. destruct (bcache_get b u) as [m|] eqn:Hm; [|cbn [fst]; by rewrite Hm]. intros Hd.
  destruct (negb (in_write_mode m)); [cbn [fst]; by rewrite Hm|]. destruct (writers m =? 0); [cbn [fst]; by rewrite Hm|].
  destruct (negb _); [cbn [fst]; by rewrite get_set_buf|]. destruct (negb _); cbn [fst]; by rewrite get_set_buf.
Qed.

Lemma unlock_no_put b u r b' z t u' data n : buffer_layer_unlock b u r = (b', z, t) -> ocall_buffer_put u' data n ∈ t -> False.
Proof.
  unfold buffer_layer_unlock. destruct (bcache_get b u) as [m|]; [|intros [= _ _ <-]; set_solver].
  destruct (negb (in_write_mode m)); [intros [= _ _ <-]; set_solver|]. destruct (writers m =? 0); [intros [= _ _ <-]; set_solver|].
  destruct (negb _); [intros [= _ _ <-]; set_solver|]. destruct (negb _); intros [= _ _ <-]; set_solver.
Qed.

(** C11: adding many policies is all or nothing.  If every line (of the first
    [max]) parses, the store is flushed with all the new rules in their order;
    if one is refused, the call returns -1, nothing is flushed, and the rules
    of this enclave are those that the store holds. *)
Theorem policy_bulk_all_or_nothing s e text max mem s1 m s2 osp s3 sp v rs ok :
  policy_call s e mem s1 m s2 osp s3 sp v rs -> cstr_ok text -> (forall i, uuid_ok (ce_uuid e i)) -> 0 <= max ->
  fetches (rt_bufs s2) (md_uuid m) ->
  parse_all (fst <$> osp) e 0 (limit max (lines (S (length text)) text)) = Done (rs, ok) ->
  if ok then
    rs <> [] -> exists s' data, ecall_abac_policy_add_bulk vk super s e text max = Done (s', if failed (pe_reply (ce_put e)) then -1 else 0) /\
      settled s' (pe_reply (ce_put e)) data (pst_rules (md_object m) ++ rs)
  else
    forall data0 ts P, published (pstore_ops None) vk root (md_uuid m) data0 P -> ce_reset e = mk_getreply 0 (Some data0) ts ->
      exists s' m' t, ecall_abac_policy_add_bulk vk super s e text max = Done (s', -1) /\ rt_policies s' = Some m' /\ P (md_object m') /\
        is_locked m' = false /\ rt_log s' = rt_log s2 ++ t /\ forall u data n, ocall_buffer_put u data n ∉ t.
Proof.
  intros Hc Ht Hu Hmax Hfet Hp.
  assert (Hok : Forall rule_ok rs).
  { eapply parse_all_good; [|done|exact Hp]. unfold limit. pose proof (lines_ok (S (length text)) text Ht). destruct (max =? 0); [done|]. by apply Forall_take. }
  pose proof (policy_call_flush _ _ _ _ _ _ _ _ _ _ _ Hc Hok) as Hfl. destruct Hc as [Ha Hm _ Hs _ _ _ _ _].
  destruct (acquired_space_frame _ _ _ _ None Hs) as [_ Hm2]. rewrite Hm in Hm2.
  assert (Hlines : policy_lines (S (length text)) s2 e (fst <$> osp) text 0 max = Done (with_policies s2 (Some (add_rules m rs)), if ok then 0 else -1)).
  { rewrite (policy_lines_spec _ _ _ _ _ _ _ m); [|lia|done|lia|lia].
    replace (if max =? 0 then 0 else max - 0) with max by (destruct (Z.eqb_spec max 0); lia). by rewrite Hp. }
  assert (Hrun : ecall_abac_policy_add_bulk vk super s e text max =
    if ok then '(s, ret) <- lift (abac_flush_policy_store vk super (with_policies s2 (Some (add_rules m rs))) (ce_export e) (ce_put e));;
      Done (s, if negb (ret =? 0) then -1 else 0)
    else s <- lift (reset_policies vk super (with_policies s2 (Some (add_rules m rs))) e);; Done (s, -1)).
  { unfold ecall_abac_policy_add_bulk. rewrite Ha. cbn [lift obind negb]. rewrite Hs. cbn [lift obind]. rewrite Hlines. cbn [obind]. by destruct ok. }
  rewrite Hrun. clear Hrun. destruct ok.
  - intros Hne. destruct (Hfl Hne) as (s4 & data & -> & Hs4 & _). exists s4, data. split; [|done]. cbn [lift obind].
    by destruct (failed (pe_reply (ce_put e))).
  - intros data0 ts P Hpub Hreset. unfold reset_policies. cbn [rt_policies with_policies mbind option_bind rt_bufs]. unfold nexus_metadata_reset.
    assert (Hu2 : md_uuid (add_rules m rs) = md_uuid m).
    { clear. revert m. induction rs as [|r rs IH]; intros m; [done|]. change (add_rules m (r :: rs)) with (add_rules (add_rules m [r]) rs). by rewrite IH. }
    assert (Hunl : exists b t, nexus_metadata_unlock (add_rules m rs) (rt_bufs s2) (ce_unlock e) =
        (metadata_set_locked (add_rules m rs) false, b, t) /\ fetches b (md_uuid m) /\ forall u data n, ocall_buffer_put u data n ∉ t).
    { unfold nexus_metadata_unlock. rewrite Hu2. destruct (is_locked (add_rules m rs)) eqn:Hlk.
      - pose proof (unlock_fetches (rt_bufs s2) (md_uuid m) (ce_unlock e) Hfet) as Hf2.
        destruct (buffer_layer_unlock (rt_bufs s2) (md_uuid m) (ce_unlock e)) as [[b z] t] eqn:Hul. exists b, t. split; [done|]. split; [done|].
        intros u data n Hin. by apply (unlock_no_put _ _ _ _ _ _ _ _ _ Hul) in Hin.
      - exists (rt_bufs s2), []. split; [|by split; [|set_solver]]. f_equal. f_equal. by destruct (add_rules m rs); cbn in Hlk |- *; subst. }
    destruct Hunl as (b & t & -> & Hf2 & Hnt). destruct (Hpub b NEXUS_FREAD ts Hf2) as (b' & o & Hro & HP).
    unfold nexus_metadata_reload. rewrite Hreset. cbn [md_uuid metadata_set_locked]. rewrite Hu2, Hro. cbn [mbind option_bind].
    do 3 eexists. split; [done|]. split; [done|]. split; [done|]. split; [done|]. split; [done|]. set_solver.
Qed.
End policies.

(** ** Granting an attribute *)
Lemma trim_memcpy arr v :
  cstr_ok v -> (length v < VALUE_LEN)%nat ->
  cstr (memcpy_into (replicate VALUE_LEN 0) (memcpy_into arr v (length v)) (length v)) = v.
Proof.
  intros Hv Hl. replace (memcpy_into _ (memcpy_into arr v (length v)) (length v)) with (memcpy_into (replicate VALUE_LEN 0) v (length v)).
  - by apply cstr_memcpy_zero.
  - unfold memcpy_into. rewrite !(take_ge v) by lia. by rewrite take_app_length.
Qed.

(** What an addition writes, and what a reader of the stored entry finds. *)
Lemma table_add_entry t g u v :
  at_inv t g -> at_clean t g -> uuid_ok u -> Z.of_nat (size g) < 2 ^ 29 -> cstr_ok v -> (length v < VALUE_LEN)%nat ->
  attribute_table_find t u <> Some v ->
  exists g' e, at_inv (attribute_table_add t u v) g' /\ (size g' <= S (size g))%nat /\
    at_lookup (attribute_table_add t u v) u = Some e /\ cstr (attr_val (trim e)) = v /\
    at_generation (attribute_table_add t u v) = at_generation t +64 1 /\
    at_audit_log_uuid (attribute_table_add t u v) = at_audit_log_uuid t /\
    forall u', uuid_ok u' -> u' <> u -> at_lookup (attribute_table_add t u v) u' = at_lookup t u'.
Proof.
  intros Hi Hcl Hu Hsz Hv Hl Hne. destruct (g !! u) as [a|] eqn:Hg.
  - destruct (ai_cell _ _ Hi _ _ Hg) as (Hr & e & Hs & He & Hlen & Hn). pose proof (Hcl u a e Hg Hs) as (Hc1 & Hc2 & _).
    destruct (attribute_table_add_bound t g u v (cstr (attr_val e)) Hi Hcl Hu) as (Hi' & _); [|done..|].
    { unfold attribute_table_find. rewrite (at_lookup_eq _ _ _ Hi Hu), Hg. cbn. by rewrite Hs. }
    assert (Hcmp : strncmp (cstr (attr_val e)) v VALUE_LEN <> 0).
    { intros Heq. apply strncmp_eq in Heq; [|done..]. apply Hne. unfold attribute_table_find. rewrite (at_lookup_eq _ _ _ Hi Hu), Hg. cbn. rewrite Hs. cbn. by rewrite Heq. }
    revert Hi'. unfold attribute_table_add. rewrite (at_get _ _ _ Hi Hu), Hg, strnlen_small by done. cbn [mbind option_bind]. rewrite Hs. cbn [fmap option_fmap option_map].
    rewrite (proj2 (Z.eqb_neq _ _) Hcmp), Nat2Z.id. intros Hi'. exists g. eexists. split; [exact Hi'|]. split; [lia|].
    split; [rewrite (at_lookup_eq _ _ _ Hi' Hu), Hg; cbn; by rewrite lookup_insert_eq|]. split.
    { cbn [trim attr_val attr_val_len]. rewrite Nat2Z.id. destruct v as [|c v]; [done|]. by apply trim_memcpy. }
    split; [done|]. split; [done|]. intros u' Hu' Hneu. rewrite (at_lookup_eq _ _ _ Hi' Hu'), (at_lookup_eq _ _ _ Hi Hu').
    destruct (g !! u') as [a'|] eqn:Hg'; [|done]. cbn. rewrite lookup_insert_ne; [done|]. intros ->. apply Hneu. by eapply (at_addr_inj t g).
  - destruct (attribute_table_add_new t g u v Hi Hu Hg ltac:(lia) Hv Hl) as [Hi' _]. revert Hi'. unfold attribute_table_add.
    rewrite (at_get _ _ _ Hi Hu), Hg, strnlen_small by done. cbn [mbind option_bind fmap option_fmap option_map].
    destruct (put_attr_entry_spec t g u v (Z.of_nat (length v)) Hi Hu Hg ltac:(lia)) as (t' & Hput & Hi2 & Hst & Hrest); [unfold VALUE_LEN in *; lia|lia|].
    rewrite Hput. cbn [fst]. intros Hi'. exists (<[u := at_next t]> g). eexists. split; [exact Hi'|]. split; [rewrite map_size_insert, Hg; lia|].
    split; [rewrite (at_lookup_eq _ _ _ Hi' Hu), lookup_insert_eq; cbn; rewrite Hst; by rewrite lookup_insert_eq|]. split.
    { cbn [trim attr_val attr_val_len]. rewrite Nat2Z.id. by apply trim_memcpy. }
    split; [done|]. split; [by destruct Hrest as (? & ? & ?)|]. intros u' Hu' Hneu. rewrite (at_lookup_eq _ _ _ Hi' Hu'), (at_lookup_eq _ _ _ Hi Hu'), lookup_insert_ne by done.
    destruct (g !! u') as [a'|] eqn:Hg'; [|done]. cbn. rewrite Hst. destruct (ai_cell _ _ Hi _ _ Hg') as (Hr & _). by rewrite lookup_insert_ne by lia.
Qed.

Section grants.
Context `{BlockCipher} `{KeyWrapCipher} `{PubkeyHash}.
Variables (vk : bytes) (super : nexus_supernode).
Implicit Types (s : runtime) (e : call_env).

(** A loaded profile that can be changed and stored. *)
Record profile_ready (m : nexus_metadata user_profile) g b (env : put_env) mem : Prop := {
  pd_inv : profile_inv (md_object m) g;
  pd_size : Z.of_nat (size g) < 2 ^ 20;
  pd_audit : uuid_ok (at_audit_log_uuid (up_table (md_object m)));
  pd_uuid : up_my_uuid (md_object m) = md_uuid m;
  pd_my : length (md_uuid m) = NEXUS_UUID_SIZE;
  pd_root : length (up_root_uuid (md_object m)) = NEXUS_UUID_SIZE;
  pd_writer : one_writer b (md_uuid m);
  pd_version : in_range 32 (md_version m);
  pd_next : u32 (md_version m + 1) <> 0;
  pd_key1 : key_ok (pe_draw env).1;
  pd_key2 : key_ok (pe_draw env).2;
  pd_heap : pe_heap env = Some mem
}.

(** C12: granting an attribute to a user.  When the attribute is declared for
    users and has another value or none, the profile is flushed, and if the
    store accepts, every enclave that reads the flushed profile finds exactly
    the granted value under the attribute, and every other attribute as it was
    recorded. *)
Theorem user_grant_reaches_every_enclave s e username name value mem s1 m g s2 sp v s3 sp' v' sch :
  abac_get_user_profile vk super s e username NEXUS_FRDWR = Some (s1, Some m) ->
  acquired_space vk super s1 (ce_space e) = Some (s2, Some (sp, v)) -> sp_inv sp ->
  acquired_space vk super s2 (ce_export e) = Some (s3, Some (sp', v')) -> macversion_ok (mk_macversion v' (sp_mac sp')) ->
  profile_ready m g (rt_bufs s3) (ce_put_profile e) mem ->
  cstr_ok name -> cstr_ok value -> (length value < VALUE_LEN)%nat ->
  attribute_space_find_name sp name = Some sch -> as_type sch = USER_ATTRIBUTE_TYPE ->
  profile_value (md_object m) sp name <> Some value ->
  exists s' data, ecall_abac_user_attribute_grant vk super s e username name value =
      Some (s', if failed (pe_reply (ce_put_profile e)) then -1 else 0) /\
    ocall_buffer_put (md_uuid m) data 0 ∈ rt_log s' /\
    published (profile_ops None) vk (sn_root_uuid super) (md_uuid m) data (fun p =>
      profile_value p sp name = Some value /\
      forall u, uuid_ok u -> u <> as_uuid sch -> at_lookup (up_table p) u = trim <$> at_lookup (up_table (md_object m)) u).
Proof.
  intros Hget Hs Hsp Hx Hmv [[Hi Hcl _] Hsz Hau Hu Hmy Hrt Hw Hver Hnext Hk1 Hk2 Hh] Hn Hv Hl Hf Hty Hold.
  destruct (find_name_ok _ _ _ Hsp Hn Hf) as [Huok _]. unfold profile_value in Hold. rewrite Hf in Hold. cbn [mbind option_bind] in Hold.
  destruct (table_add_entry (up_table (md_object m)) g (as_uuid sch) value Hi Hcl Huok ltac:(lia) Hv Hl Hold)
    as (g' & en & Hi' & Hsz' & Hlk & Hval & Hgen & Hlog & Hother).
  unfold ecall_abac_user_attribute_grant, change_profile. rewrite Hget. cbn [mbind option_bind]. rewrite Hs. cbn [mbind option_bind fmap option_fmap option_map fst].
  set (p1 := mk_profile (up_my_uuid (md_object m)) (up_root_uuid (md_object m)) (up_mac (md_object m))
    (attribute_table_add (up_table (md_object m)) (as_uuid sch) value) (Some true)).
  set (m1 := mk_metadata (md_uuid m) (md_flags m) (md_version m) (ref_count m) true (is_invalid m) (is_locked m) p1).
  assert (Hedit : edit with_up_meta up_metadata m (fun p => user_profile_grant_attribute p (Some sp) name value) = (m1, 0)).
  { unfold edit, user_profile_grant_attribute. by rewrite Hf, Hty. }
  rewrite Hedit. unfold abac_put_user_profile, store_with_space. cbn [m1 md_is_dirty negb andb]. rewrite Hx. cbn [mbind option_bind].
  unfold nexus_metadata_store. cbn [m1 md_is_dirty md_flags negb andb obj_store profile_ops md_object md_version].
  rewrite <- Hu in Hw, Hmy.
  destruct (user_profile_store_load vk p1 g' (md_version m) (Some (sp', v')) (rt_bufs s3) (ce_put_profile e) mem)
    as (p' & b' & data & mc & Hsto & Hlock & Hev & Hload);
    [done|lia|cbn; rewrite Hgen; apply wrap_range; lia|cbn; congruence|done|done| |done|done|done|done|done|by intros ? [= <-]|].
  { unfold user_profile_get_size, attribute_table_get_size, USER_PROFILE_HDR_SIZE, ATTR_TABLE_HDR_SIZE, ATTR_TABLE_ENTRY_SIZE.
    change (up_table p1) with (attribute_table_add (up_table (md_object m)) (as_uuid sch) value). rewrite (ai_count _ _ Hi'). word_solve. }
  rewrite Hsto. cbn [mbind option_bind]. change (up_my_uuid p1) with (up_my_uuid (md_object m)) in *. rewrite Hu in *.
  assert (Hpub : published (profile_ops None) vk (sn_root_uuid super) (md_uuid m) data (fun p => profile_value p sp name = Some value /\
    forall u, uuid_ok u -> u <> as_uuid sch -> at_lookup (up_table p) u = trim <$> at_lookup (up_table (md_object m)) u)).
  { apply published_intro; [congruence|]. intros flags ctx. destruct (Hload ctx) as (p2 & g2 & Q1 & _ & _ & _ & _ & _ & Q2). exists p2. split; [exact Q1|].
    change (up_table p1) with (attribute_table_add (up_table (md_object m)) (as_uuid sch) value) in Q2.
    split; [|intros u Huu Hne; rewrite Q2 by done; by rewrite Hother].
    unfold profile_value. rewrite Hf. cbn [mbind option_bind]. unfold attribute_table_find. rewrite Q2, Hlk by done. cbn [fmap option_fmap option_map mbind option_bind]. by rewrite Hval. }
  destruct (failed (pe_reply (ce_put_profile e))) eqn:Hfail; cbn [Z.eqb negb orb mbind option_bind].
  - do 2 eexists. split; [done|]. split; [|exact Hpub]. apply elem_of_app. right. by apply list_elem_of_singleton.
  - unfold nexus_metadata_unlock. cbn [is_locked]. cbn [mbind option_bind Z.eqb negb orb]. do 2 eexists. split; [done|]. split; [|exact Hpub].
    apply elem_of_app. left. apply elem_of_app. right. by apply list_elem_of_singleton.
Qed.
End grants.

(** ** A concrete volume *)
Definition admin_super : nexus_supernode :=
  mk_supernode (uuid_const 11) (uuid_const 1) (uuid_const 9) (uuid_const 12) (mk_superinfo (uuid_const 6) (uuid_const 2)) nexus_mac_zeroize None.
Definition admin_pstore : policy_store :=
  with_rules (policy_store_create (uuid_const 1) (uuid_const 6)) 2 [toy_rule PERM_READ (uuid_const 3); toy_rule PERM_WRITE (uuid_const 4)].

(** The bytes of the first flush in a trace. *)
Definition sent (t : list ocall) : bytes := match t with [ocall_buffer_put _ data _] => data | _ => [] end.
Definition pstore_data : bytes :=
  default [] ((fun r => sent r.1.2) <$> policy_store_store (H := toy_cipher) (H0 := toy_wrap) [] admin_pstore 4 (Some (toy_space, 7))
    (held_cache (uuid_const 6) 1) (toy_env reply_ok)).
Definition space_data : bytes :=
  default [] ((fun r => sent r.2) <$> attribute_space_store (H := toy_cipher) (H0 := toy_wrap) [] toy_space 4
    (held_cache (uuid_const 2) 1) (toy_env reply_ok)).

(** The store answers every read with [data] and every stat with time 20. *)
Definition answering (data : bytes) : acq_env :=
  mk_acq false (mk_getreply 0 (Some data) 20) (mk_reval reply_ok 20 (mk_getreply 0 (Some data) 20) reply_ok).
Definition admin_env (r : reply) : call_env :=
  mk_call (answering []) (answering pstore_data) (answering space_data) (answering space_data) (mk_getreply 0 None 0) reply_ok (toy_env r) (toy_env r)
    reply_ok (mk_getreply 0 (Some pstore_data) 20) reply_ok (fun i => uuid_const (40 + i mod 8)) 200.
Definition admin_start : runtime := mk_runtime buffer_layer_init None None None None [].

Definition admin_1 : runtime :=
  default admin_start (fst <$> abac_acquire_policy_store (H := toy_cipher) (H0 := toy_wrap) [] admin_super admin_start NEXUS_FRDWR (answering pstore_data)).
Definition admin_2 : runtime * option (attribute_space * Z) :=
  default (admin_1, None) (acquired_space (H := toy_cipher) (H0 := toy_wrap) [] admin_super admin_1 (answering space_data)).
Definition admin_3 : runtime * option (attribute_space * Z) :=
  default (admin_1, None) (acquired_space (H := toy_cipher) (H0 := toy_wrap) [] admin_super admin_2.1 (answering space_data)).
Definition admin_m : nexus_metadata policy_store :=
  default (nexus_metadata_from_object (uuid_const 6) admin_pstore 0 0) (rt_policies admin_1).
Definition admin_space : attribute_space := default toy_space (fst <$> admin_3.2).
Definition admin_rule : policy_rule :=
  match parse_abac_policy (Some toy_space) (uuid_const 40) 200 toy_text with Done (Some r) => r | _ => toy_rule 0 [] end.

Lemma admin_m_rules : pst_rules (md_object admin_m) = [toy_rule PERM_READ (uuid_const 3); toy_rule PERM_WRITE (uuid_const 4)].
Proof. vm_compute. reflexivity. Qed.

Lemma admin_can_store r : can_store admin_m (rt_bufs admin_3.1) (ce_put (admin_env r)) [].
Proof.
  split; try (vm_compute; reflexivity).
  - split; [split|].
    + rewrite admin_m_rules. vm_compute. reflexivity.
    + vm_compute. reflexivity.
    + rewrite admin_m_rules. repeat constructor; try apply toy_rule_ok; try (apply uuid_const_ok; unfold byte_ok; lia); by vm_compute.
    + rewrite admin_m_rules. split_and!; vm_compute; reflexivity.
  - exists (mk_mbuf 1 false 3 20 None 0 false). split; [vm_compute; reflexivity|]. split; [done|]. split; [done|]. cbn. lia.
  - split; vm_compute; congruence.
  - vm_compute. discriminate.
  - apply toy_draw_ok. unfold byte_ok. lia.
  - apply toy_draw_ok. unfold byte_ok. lia.
Qed.

Lemma admin_call r rs :
  Z.of_nat (length rs) < 9 -> policy_store_buf_size (with_rules admin_pstore 0 (pst_rules admin_pstore ++ rs)) < 2 ^ 31 ->
  policy_call (H := toy_cipher) (H0 := toy_wrap) [] admin_super admin_start (admin_env r) [] admin_1 admin_m admin_2.1 admin_2.2 admin_3.1 admin_space 5 rs.
Proof.
  intros Hl Hsz. split.
  1-5: vm_compute; reflexivity.
  - split; by vm_compute.
  - apply admin_can_store.
  - rewrite admin_m_rules. simpl. lia.
  - unfold policy_store_buf_size in *. cbn [pst_rules with_rules] in *. by rewrite admin_m_rules.
Qed.

Lemma toy_text_ok : cstr_ok toy_text.
Proof. apply cstr_okb. vm_compute. reflexivity. Qed.

Lemma policy_add_reaches_every_enclave_witness :
  exists s' data, ecall_abac_policy_add (H := toy_cipher) (H0 := toy_wrap) [] admin_super admin_start (admin_env reply_ok) toy_text =
      Done (s', 0, Some (uuid_const 40)) /\
    settled (H := toy_cipher) (H0 := toy_wrap) [] admin_super s' reply_ok data
      [toy_rule PERM_READ (uuid_const 3); toy_rule PERM_WRITE (uuid_const 4); admin_rule].
Proof.
  pose proof (policy_add_reaches_every_enclave (H := toy_cipher) (H0 := toy_wrap) [] admin_super admin_start (admin_env reply_ok) toy_text [] admin_1 admin_m
    admin_2.1 admin_2.2 admin_3.1 admin_space 5 admin_rule) as Hw. rewrite admin_m_rules in Hw. apply Hw.
  - apply admin_call; vm_compute; reflexivity.
  - apply toy_text_ok.
  - vm_compute. reflexivity.
  - apply (uuid_const_ok 40). unfold byte_ok. lia.
  - vm_compute. reflexivity.
Defined.

(** Two rules, and a text whose second line is refused. *)
Definition bulk_text (second : bytes) : bytes := join_lines [toy_text; second].
Definition bulk_rules (second : bytes) : list policy_rule :=
  match parse_all (fst <$> admin_2.2) (admin_env reply_ok) 0 (limit 0 (lines (S (length (bulk_text second))) (bulk_text second))) with
  | Done (rs, _) => rs
  | _ => []
  end.

Lemma policy_bulk_all_or_nothing_witness :
  (exists s' data, ecall_abac_policy_add_bulk (H := toy_cipher) (H0 := toy_wrap) [] admin_super admin_start (admin_env reply_ok) (bulk_text toy_text) 0 =
      Done (s', 0) /\
    settled (H := toy_cipher) (H0 := toy_wrap) [] admin_super s' reply_ok data (pst_rules (md_object admin_m) ++ bulk_rules toy_text)) /\
  forall data0 ts P, published (pstore_ops (H := toy_cipher) (H0 := toy_wrap) None) [] (uuid_const 1) (uuid_const 6) data0 P ->
    mk_getreply 0 (Some pstore_data) 20 = mk_getreply 0 (Some data0) ts ->
    exists s' m', ecall_abac_policy_add_bulk (H := toy_cipher) (H0 := toy_wrap) [] admin_super admin_start (admin_env reply_ok) (bulk_text (str "read :- role(u")) 0 =
        Done (s', -1) /\ rt_policies s' = Some m' /\ P (md_object m').
Proof.
  assert (Hu : forall i, uuid_ok (ce_uuid (admin_env reply_ok) i)) by (intros i; apply uuid_const_ok; pose proof (Z.mod_pos_bound i 8); unfold byte_ok; lia).
  split.
  - refine (policy_bulk_all_or_nothing (H := toy_cipher) (H0 := toy_wrap) [] admin_super admin_start (admin_env reply_ok) (bulk_text toy_text) 0 [] admin_1
      admin_m admin_2.1 admin_2.2 admin_3.1 admin_space 5 (bulk_rules toy_text) true _ _ Hu _ _ _ _).
    + apply admin_call; vm_compute; reflexivity.
    + apply cstr_okb. vm_compute. reflexivity.
    + lia.
    + vm_compute. reflexivity.
    + vm_compute. reflexivity.
    + vm_compute. discriminate.
  - intros data0 ts P Hp He.
    destruct (policy_bulk_all_or_nothing (H := toy_cipher) (H0 := toy_wrap) [] admin_super admin_start (admin_env reply_ok) (bulk_text (str "read :- role(u")) 0 []
      admin_1 admin_m admin_2.1 admin_2.2 admin_3.1 admin_space 5 (bulk_rules (str "read :- role(u")) false) with data0 ts P as (s' & m' & t & Hr & Hm & HP & _).
    + apply admin_call; vm_compute; reflexivity.
    + apply cstr_okb. vm_compute. reflexivity.
    + exact Hu.
    + lia.
    + vm_compute. reflexivity.
    + vm_compute. reflexivity.
    + exact Hp.
    + exact He.
    + exists s', m'. exact (conj Hr (conj Hm HP)).
Defined.

(** A user and his profile. *)
Definition users_data : bytes :=
  default [] ((fun r => sent r.2) <$> nexus_usertable_store (H := toy_cipher) (H0 := toy_wrap) [] toy_table 4 None
    (held_cache (uuid_const 9) 1) (toy_env reply_ok)).
Definition grant_profile : user_profile := user_profile_create (uuid_const 1) (uuid_const 3).
Definition profile_data : bytes :=
  default [] ((fun r => sent r.1.2) <$> user_profile_store (H := toy_cipher) (H0 := toy_wrap) [] grant_profile 4 (Some (toy_space, 7))
    (held_cache (uuid_const 3) 1) (toy_env reply_ok)).
Definition grant_env (r : reply) : call_env :=
  mk_call (answering users_data) (answering pstore_data) (answering space_data) (answering space_data) (mk_getreply 0 (Some profile_data) 20) reply_ok
    (toy_env r) (toy_env r) reply_ok (mk_getreply 0 None 0) reply_ok (fun i => uuid_const (40 + i mod 8)) 200.
Definition grant_1 : runtime * option (nexus_metadata user_profile) :=
  default (admin_start, None) (abac_get_user_profile (H := toy_cipher) (H0 := toy_wrap) [] admin_super admin_start (grant_env reply_ok) [99] NEXUS_FRDWR).
Definition grant_2 : runtime * option (attribute_space * Z) :=
  default (admin_start, None) (acquired_space (H := toy_cipher) (H0 := toy_wrap) [] admin_super grant_1.1 (answering space_data)).
Definition grant_3 : runtime * option (attribute_space * Z) :=
  default (admin_start, None) (acquired_space (H := toy_cipher) (H0 := toy_wrap) [] admin_super grant_2.1 (answering space_data)).
Definition grant_m : nexus_metadata user_profile := default (nexus_metadata_from_object [] grant_profile 0 0) grant_1.2.
Definition grant_space : attribute_space := default toy_space (fst <$> grant_2.2).

Lemma grant_space_inv : sp_inv grant_space.
Proof.
  destruct (attribute_space_store_load (H := toy_cipher) (H0 := toy_wrap) [] toy_space 4 (held_cache (uuid_const 2) 1) (toy_env reply_ok) [])
    as (sp' & b' & data & m & Hst & _ & _ & _ & _ & Hload).
  1: apply toy_space_storable.
  1: apply held_one_writer.
  1: by vm_compute.
  1, 2: apply toy_draw_ok; unfold byte_ok; lia.
  1: done.
  destruct (Hload empty_ctx) as (sp2 & Hl & [Hi _] & _).
  assert (Hd : data = space_data) by (unfold space_data; rewrite Hst; done). rewrite Hd in Hl.
  assert (Hg : attribute_space_from_crypto_buf (H := toy_cipher) (H0 := toy_wrap) []
    (mk_cbuf empty_ctx (external_version space_data) 0 (sp_my_uuid toy_space) (Some (ExtStore space_data)) None) = Some (Some grant_space)) by (vm_compute; reflexivity).
  rewrite Hg in Hl. apply (inj Some) in Hl. apply (inj Some) in Hl. by rewrite Hl.
Qed.

Lemma grant_ready r : profile_ready grant_m ∅ (rt_bufs grant_3.1) (ce_put_profile (grant_env r)) [].
Proof.
  assert (Hp : exists mv, md_object grant_m = mk_profile (uuid_const 3) (uuid_const 1) nexus_mac_zeroize
    (mk_attr_table 0 nexus_uuid_zeroize 0 mv (hashmap_init 0) ∅ 1) None).
  { eexists. vm_compute. reflexivity. }
  destruct Hp as [mv Hp]. split; try (vm_compute; reflexivity).
  - rewrite Hp. split; [|by intros ? ? ? ?|done]. destruct at_create_inv as [E1 E2 E3 E4]. by split.
  - rewrite Hp. apply (uuid_const_ok 0). unfold byte_ok. lia.
  - exists (mk_mbuf 1 false 3 20 None 0 false). split; [vm_compute; reflexivity|]. split; [done|]. split; [done|]. cbn. lia.
  - split; vm_compute; congruence.
  - vm_compute. discriminate.
  - apply toy_draw_ok. unfold byte_ok. lia.
  - apply toy_draw_ok. unfold byte_ok. lia.
Qed.

Lemma user_grant_reaches_every_enclave_witness :
  exists s' data, ecall_abac_user_attribute_grant (H := toy_cipher) (H0 := toy_wrap) [] admin_super admin_start (grant_env reply_ok)
      [99] (str "role") (str "admin") = Some (s', 0) /\
    ocall_buffer_put (uuid_const 3) data 0 ∈ rt_log s' /\
    published (profile_ops (H := toy_cipher) (H0 := toy_wrap) None) [] (uuid_const 1) (uuid_const 3) data (fun p =>
      profile_value p grant_space (str "role") = Some (str "admin") /\
      forall u, uuid_ok u -> u <> uuid_const 3 -> at_lookup (up_table p) u = trim <$> at_lookup (up_table (md_object grant_m)) u).
Proof.
  apply (user_grant_reaches_every_enclave (H := toy_cipher) (H0 := toy_wrap) [] admin_super admin_start (grant_env reply_ok) [99] (str "role") (str "admin") []
    grant_1.1 grant_m ∅ grant_2.1 grant_space 5 grant_3.1 grant_space 5 (mk_schema USER_ATTRIBUTE_TYPE (strncpy_field ATTRIBUTE_NAME_MAX (str "role")) (uuid_const 3))).
  - vm_compute. reflexivity.
  - vm_compute. reflexivity.
  - apply grant_space_inv.
  - vm_compute. reflexivity.
  - split; by vm_compute.
  - apply grant_ready.
  - apply cstr_okb. vm_compute. reflexivity.
  - apply cstr_okb. vm_compute. reflexivity.
  - apply Nat.ltb_lt. vm_compute. reflexivity.
  - vm_compute. reflexivity.
  - done.
  - vm_compute. discriminate.
Defined.
