(* ===== verification/Volume.v ===== *)
(** * Creating a volume

    Models [nx_create_volume] and [ecall_create_volume] of [ecalls/volume.c]:
    a volume key is drawn, the six objects that every volume starts with are
    created and flushed (attribute space, policy store, root directory,
    hardlink table, user table, supernode), and the key leaves the enclave
    sealed. *)
From S2P Require Import Prelude Hashmap Types AttributeTable Dirnode DirnodeSpec Gcm Crypto BufferLayer CryptoBuf DirnodeCodec HardlinkTable UserTable Supernode Metadata.
From S2P Require Import AttributeSpace PolicyStore Dentry Encode Keys Session SessionProps Runtime RuntimeProps.

(** What a creation needs from outside: the draws of the UUIDs (supernode, root,
    hardlink table, user table, policy store, attribute space, first bucket)
    and of the key, the replies to the creation of each object and to the
    acquisitions of the attribute space, the randomness of the sealing and
    whether memory for the key buffer was there. *)
Record volume_env := mk_venv {
  ve_my : uuid; ve_root : uuid; ve_hardlinks : uuid; ve_users : uuid; ve_policies : uuid; ve_space : uuid; ve_bucket : uuid;
  ve_key : bytes;
  ve_new_space : create_env; ve_new_policies : create_env; ve_new_root : create_env;
  ve_new_hardlinks : create_env; ve_new_users : create_env; ve_new_super : create_env;
  ve_acquire : list ocall -> acq_env;
  ve_rnd : bytes; ve_alloc : bool
}.

(** The supernode once its access control objects have UUIDs. *)
Definition ve_supernode (e : volume_env) : nexus_supernode :=
  let s := supernode_create (ve_my e) (ve_root e) (ve_hardlinks e) (ve_users e) in
  mk_supernode (sn_my_uuid s) (sn_root_uuid s) (usertable_uuid s) (hardlink_table_uuid s)
    (mk_superinfo (ve_policies e) (ve_space e)) (sn_mac s) (sn_metadata s).

Section create.
Context `{BlockCipher} `{KeyWrapCipher} `{SealedStorage} `{PubkeyHash}.
(** The iteration order of the hardlink table. *)
Variable order : hardlink_table -> list (uuid * Z).

(** A new directory has one bucket, which is stored inside it: the replies to
    the other buckets are not used.  The heap is the enclave's. *)
Definition create_root (vk : bytes) (s : runtime) (e : volume_env) (h : dheap) : option (runtime * Z) :=
  let super := ve_supernode e in
  let '(d, h) := dirnode_create (sn_root_uuid super) (sn_root_uuid super) h (ve_bucket e) in
  let '(b, ret, t) := buffer_layer_lock (rt_bufs s) (my_uuid d) NEXUS_FCREATE (cr_lock (ve_new_root e)) in
  let s := with_bufs s b t in
  if negb (ret =? 0) then Some (s, -1)
  else
    '(s, sp) ← acquired_space vk super s (ve_acquire e (rt_log s));
    '(_, b, ret, _, t) ← dirnode_store vk d h 0 (abac_global_export_macversion sp) (rt_bufs s)
                           [mk_benv (cr_lock (ve_new_root e)) (cr_put (ve_new_root e))] (cr_put (ve_new_root e));
    Some (with_bufs s b t, ret).

Definition create_hardlink_table (vk : bytes) (s : runtime) (e : volume_env) : option (runtime * Z) :=
  let super := ve_supernode e in
  let '(b, m, t) := nexus_metadata_create (MO := hardlink_ops order) (sn_root_uuid super) (rt_bufs s) (hardlink_table_uuid super)
                      (cr_lock (ve_new_hardlinks e)) in
  let s := with_bufs s b t in
  match m with
  | None => Some (s, -1)
  | Some m =>
      '(_, b, ret, t) ← nexus_metadata_store (MO := hardlink_ops order) vk m (rt_bufs s) (cr_put (ve_new_hardlinks e));
      Some (with_bufs s b t, ret)
  end.

(** The first component tells whether the lock was taken: when it was not, the
    code leaves with the [ret] of the step before. *)
Definition create_usertable (vk : bytes) (s : runtime) (e : volume_env) (pubkey : bytes) : option (bool * runtime * Z) :=
  let super := ve_supernode e in
  let table := nexus_usertable_set_owner_pubkey (nexus_usertable_create (sn_root_uuid super) (usertable_uuid super)) pubkey in
  let '(b, ret, t) := buffer_layer_lock (rt_bufs s) (ut_my_uuid table) NEXUS_FCREATE (cr_lock (ve_new_users e)) in
  let s := with_bufs s b t in
  if negb (ret =? 0) then Some (false, s, ret)
  else
    '(_, b, ret, t) ← nexus_usertable_store vk table 0 None (rt_bufs s) (cr_put (ve_new_users e));
    Some (true, with_bufs s b t, ret).

Definition create_supernode (vk : bytes) (s : runtime) (e : volume_env) : option (bool * runtime * Z) :=
  let super := ve_supernode e in
  let '(b, ret, t) := buffer_layer_lock (rt_bufs s) (sn_my_uuid super) NEXUS_FCREATE (cr_lock (ve_new_super e)) in
  let s := with_bufs s b t in
  if negb (ret =? 0) then Some (false, s, ret)
  else
    '(_, b, ret, _, t) ← supernode_store vk super 0 (rt_bufs s) (cr_put (ve_new_super e));
    Some (true, with_bufs s b t, ret).

(** The supernode's UUID comes back when everything was stored.  A lock of the
    user table or of the supernode that was refused leaves [ret] at the 0 of
    the step before. *)
Definition nx_create_volume (vk : bytes) (s : runtime) (e : volume_env) (h : dheap) (pubkey : bytes) : option (runtime * Z * option uuid) :=
  '(s, ret) ← abac_runtime_create vk (ve_supernode e) s (ve_new_space e) (ve_new_policies e) (ve_acquire e);
  if negb (ret =? 0) then Some (s, -1, None)
  else
    '(s, ret) ← create_root vk s e h;
    if negb (ret =? 0) then Some (s, ret, None)
    else
      '(s, ret) ← create_hardlink_table vk s e;
      if negb (ret =? 0) then Some (s, ret, None)
      else
        '(locked, s, ret) ← create_usertable vk s e pubkey;
        if negb locked then Some (s, 0, None)
        else if negb (ret =? 0) then Some (s, ret, None)
        else
          '(locked, s, ret) ← create_supernode vk s e;
          if negb locked then Some (s, 0, None)
          else if negb (ret =? 0) then Some (s, ret, None)
          else Some (s, 0, Some (sn_my_uuid (ve_supernode e))).

(** [global_volumekey], the runtime, the return code, the supernode's UUID and
    the sealed key. *)
Definition ecall_create_volume (k : option nexus_key) (s : runtime) (e : volume_env) (h : dheap) (pubkey : bytes)
    : option (option nexus_key * runtime * Z * option uuid * option nexus_key_buffer) :=
  let '(k, ret) := nexus_enclave_volumekey_generate k (ve_key e) in
  if negb (ret =? 0) then Some (k, s, -1, None, None)
  else
    vk ← k; vd ← k_data vk;
    '(s, ret, u) ← nx_create_volume vd s e h pubkey;
    if negb (ret =? 0) then Some (nexus_enclave_volumekey_clear, s, ret, u, None)
    else
      kb ← nexus_enclave_volumekey_serialize k (ve_rnd e) (ve_alloc e);
      Some (nexus_enclave_volumekey_clear, s, if kb is Some _ then 0 else -1, u, kb).
End create.
