(* ===== verification/VolumeProps.v ===== *)
(** * What a created volume is

    With a store that goes along, [ecall_create_volume] succeeds and what it
    sent is a volume: every object loads, and the owner's challenge and
    response on it logs him in.  The proof is by frames: each step touches the
    buffer and the stored bytes of the one object it creates. *)
From S2P Require Import Prelude Hashmap Types AttributeTable Dirnode DirnodeSpec Gcm Crypto BufferLayer CryptoBuf DirnodeCodec HardlinkTable UserTable Supernode Metadata.
From S2P Require Import AttributeSpace PolicyStore Dentry Encode Keys Session SessionProps Runtime RuntimeProps Volume.

(** ** Frames *)
Definition ocall_uuid (o : ocall) : uuid :=
  match o with
  | ocall_buffer_get u _ | ocall_buffer_put u _ _ | ocall_buffer_lock u _ | ocall_buffer_unlock u
  | ocall_buffer_new u | ocall_buffer_del u | ocall_buffer_stattime u => u
  end.

(** From [b] to [b'] with the calls [t], only [u] was touched, and reads of it
    still go to the store. *)
Record only (u : uuid) (b b' : bcache) (t : list ocall) : Prop := {
  on_others : forall u', u' <> u -> bcache_get b' u' = bcache_get b u';
  on_calls : Forall (fun o => ocall_uuid o = u) t;
  on_fetches : fetches b u -> fetches b' u
}.

Lemma only_refl u b : only u b b [].
Proof. by split. Qed.

Lemma only_trans u b b1 b2 t t' : only u b b1 t -> only u b1 b2 t' -> only u b b2 (t ++ t').
Proof.
  intros [A1 A2 A3] [B1 B2 B3]. split; [|by apply Forall_app|auto]. intros u' Hu. by rewrite B1, A1.
Qed.

Lemma only_set u b m t :
  Forall (fun o => ocall_uuid o = u) t -> (fetches b u -> mb_dirty m = false) -> only u b (set_buf b u m) t.
Proof.
  intros Ht Hd. split; [|done|].
  - intros u' Hu. by apply get_set_buf_ne.
  - intros Hf. unfold fetches. rewrite get_set_buf. auto.
Qed.

Lemma fetches_dirty b u m : fetches b u -> bcache_get b u = Some m -> mb_dirty m = false.
Proof. unfold fetches. intros Hf Hm. by rewrite Hm in Hf. Qed.

(** What other objects have on the store stays. *)
Lemma trace_frame u u' t disk : Forall (fun o => ocall_uuid o = u) t -> u' <> u -> apply_trace disk t !! u' = disk !! u'.
Proof.
  intros Ht Hu. revert disk. induction Ht as [|o t Ho _ IH]; intros disk; [done|].
  destruct o; cbn in Ho |- *; subst; rewrite IH; try done; [by rewrite lookup_insert_ne|by rewrite lookup_delete_ne].
Qed.

Lemma update_only u b ts flags : only u b (bcache_update b u ts flags) [].
Proof.
  unfold bcache_update. destruct (bcache_get b u) as [m|] eqn:E.
  - apply only_set; [done|]. intros Hf. exact (fetches_dirty _ _ _ Hf E).
  - split; [|done|].
    + intros u' Hu. unfold bcache_get. cbn. by apply lookup_insert_ne.
    + intros _. unfold fetches, bcache_get. cbn. by rewrite lookup_insert_eq.
Qed.

(** Taking a buffer for writing after its flags were set. *)
Lemma raise_only u b m :
  bcache_get b u = Some m -> only u b (set_buf b u (with_writers m (s32 (writers m + 1)))) [].
Proof. intros Hm. apply only_set; [done|]. intros Hf. exact (fetches_dirty _ _ _ Hf Hm). Qed.

Lemma lock_only u b flags r b' ret t : buffer_layer_lock b u flags r = (b', ret, t) -> only u b b' t.
Proof.
  unfold buffer_layer_lock. intros Hl.
  assert (Hask : forall x, (if failed r then (b, -1, [ocall_buffer_lock u flags])
    else let b0 := bcache_update b u 0 flags in
      match bcache_get b0 u with
      | Some m => (if in_write_mode m then set_buf b0 u (with_writers m (s32 (writers m + 1))) else b0, 0, [ocall_buffer_lock u flags])
      | None => (b0, 0, [ocall_buffer_lock u flags])
      end) = x -> only u b x.1.1 x.2).
  { intros x <-. assert (Hone : Forall (fun o => ocall_uuid o = u) [ocall_buffer_lock u flags]) by (by repeat constructor).
    destruct (failed r); [by split|]. cbv zeta. pose proof (update_only u b 0 flags) as Hup.
    destruct (bcache_get (bcache_update b u 0 flags) u) as [m|] eqn:Hm.
    - destruct (in_write_mode m); cbn [fst snd]; [|destruct Hup; by split].
      destruct (only_trans _ _ _ _ _ _ Hup (raise_only _ _ _ Hm)). by split.
    - cbn [fst snd]. destruct Hup. by split. }
  destruct (bcache_get b u) as [m|] eqn:Hm; [|by apply Hask in Hl].
  destruct (in_write_mode m); [|by apply Hask in Hl]. injection Hl as <- <- <-. by apply raise_only.
Qed.

Lemma get_only u b flags err ext ts b' d t : buffer_layer_get b u flags err ext ts = (b', d, t) -> only u b b' t.
Proof.
  unfold buffer_layer_get. assert (Hone : Forall (fun o => ocall_uuid o = u) [ocall_buffer_get u flags]) by (by repeat constructor).
  intros Hg.
  assert (Hfetch : forall x, match ext with
    | Some data => if negb (err =? 0) then (b, None, [ocall_buffer_get u flags])
        else let b0 := bcache_update b u ts flags in
          match bcache_get b0 u with
          | Some m => (if in_write_mode m then set_buf b0 u (with_writers m (s32 (writers m + 1))) else b0, Some data, [ocall_buffer_get u flags])
          | None => (b0, Some data, [ocall_buffer_get u flags])
          end
    | None => (b, None, [ocall_buffer_get u flags]) end = x -> only u b x.1.1 x.2).
  { intros x <-. destruct ext as [data|]; [|by split]. destruct (negb (err =? 0)); [by split|]. cbv zeta.
    pose proof (update_only u b ts flags) as Hup. destruct (bcache_get (bcache_update b u ts flags) u) as [m|] eqn:Hm.
    - destruct (in_write_mode m); cbn [fst snd]; [|destruct Hup; by split].
      destruct (only_trans _ _ _ _ _ _ Hup (raise_only _ _ _ Hm)). by split.
    - cbn [fst snd]. destruct Hup. by split. }
  destruct (bcache_get b u) as [m|]; [|by apply Hfetch in Hg]. destruct (mb_dirty m); [|by apply Hfetch in Hg].
  injection Hg as <- <- <-. apply only_refl.
Qed.

Section frames.
Context `{BlockCipher} `{KeyWrapCipher}.
Variable vk : bytes.

Lemma put_layer_only u b m size r ts b' ret t :
  bcache_get b u = Some m -> writers m <= 1 -> buffer_layer_put b u size r ts = (b', ret, t) -> only u b b' t.
Proof.
  intros Hm Hw. unfold buffer_layer_put. rewrite Hm. destruct (tmp_buffer m) as [buf|]; [|intros [= <- <- <-]; apply only_refl].
  rewrite (proj2 (Z.ltb_ge 1 (writers m))) by lia.
  assert (Hd : only u b (buffer_layer_dealloc b u).1 []).
  { unfold buffer_layer_dealloc. rewrite Hm. destruct (negb _); [apply only_refl|]. apply only_set; [done|].
    intros Hf. exact (fetches_dirty _ _ _ Hf Hm). }
  destruct (buffer_layer_dealloc b u) as [b1 z]. cbn [fst] in Hd.
  assert (Hone : Forall (fun o => ocall_uuid o = u) [ocall_buffer_put u buf size]) by (by repeat constructor).
  destruct (bcache_get b1 u) as [m1|] eqn:Hm1; [|intros [= <- <- <-]; destruct Hd; by split].
  destruct (failed r); intros [= <- <- <-]; (apply (only_trans _ _ _ _ [] _ Hd)); apply only_set; try done; intros Hf;
    exact (fetches_dirty _ _ _ Hf Hm1).
Qed.

(** Sealing an object touches its buffer. *)
Lemma put_only c b env c' b' ret m t :
  one_writer b (cb_uuid c) -> nexus_crypto_buf_put vk c b env = Some (c', b', ret, m, t) -> only (cb_uuid c) b b' t.
Proof.
  intros (mb & Hm & _ & _ & Hw) Hp.
  assert (Hseal : forall c b, only (cb_uuid c) b b [] -> (exists mb, bcache_get b (cb_uuid c) = Some mb /\ writers mb <= 1) ->
    forall c' b' ret m t, crypto_buf_seal vk c b env = Some (c', b', ret, m, t) -> only (cb_uuid c) b b' t).
  { clear. intros c b Hr (mb & Hm & Hw) c' b' ret m t Hs. unfold crypto_buf_seal in Hs. apply bind_Some in Hs as ([[ret0 ctx] out] & _ & Hs).
    destruct (negb (ret0 =? 0)); [injection Hs as <- <- <- <- <-; done|]. cbn [cb_uuid with_ctx with_version cb_external] in Hs.
    match type of Hs with context [buffer_layer_put ?x _ _ _ _] => set (b1 := x) in Hs end.
    assert (Hb1 : only (cb_uuid c) b b1 [] /\ exists mb', bcache_get b1 (cb_uuid c) = Some mb' /\ writers mb' <= 1).
    { unfold b1. destruct (cb_external c) as [[]|]; try by eauto. unfold buffer_write. rewrite Hm. split; [|by rewrite get_set_buf; eauto].
      apply only_set; [done|]. intros Hf. exact (fetches_dirty _ _ _ Hf Hm). }
    destruct Hb1 as [Ho (mb' & Hm' & Hw')]. destruct (buffer_layer_put b1 _ _ _ _) as [[b2 r2] t2] eqn:Hput.
    injection Hs as <- <- <- <- <-. apply (only_trans _ _ _ _ [] _ Ho). by apply (put_layer_only _ _ _ _ _ _ _ _ _ Hm' Hw' Hput). }
  unfold nexus_crypto_buf_put in Hp. destruct (cb_external c) as [x|].
  - apply (Hseal c b) in Hp; [done|apply only_refl|]. eauto with lia.
  - apply bind_Some in Hp as ([b1 got] & Ha & Hp). unfold buffer_layer_alloc in Ha. rewrite Hm in Ha.
    assert (Hst : only (cb_uuid c) b b1 [] /\ exists mb', bcache_get b1 (cb_uuid c) = Some mb' /\ writers mb' <= 1).
    { destruct (negb (in_write_mode mb)); [injection Ha as <- <-; split; [apply only_refl|eauto with lia]|]. destruct (write_lock mb); [done|].
      destruct (pe_heap env); injection Ha as <- <-; (split; [apply only_set; [done|]; intros Hf; exact (fetches_dirty _ _ _ Hf Hm)|]);
        rewrite get_set_buf; eexists; (split; [done|]); cbn; lia. }
    destruct Hst as [Ho Hm1]. destruct (negb got); [injection Hp as <- <- <- <- <-; done|].
    apply (Hseal (with_external c _) b1) in Hp; [|apply only_refl|exact Hm1]. by apply (only_trans _ _ _ _ [] _ Ho).
Qed.
(** A store that ends in one put. *)
Ltac frame_put Hs :=
  let c := fresh "c" in let Hp := fresh "Hp" in
  apply bind_Some in Hs as ([[[[c ?] ?] ?] ?] & Hp & Hs); apply put_only in Hp; [|done]; cbn [cb_uuid nexus_crypto_buf_new] in Hp;
  destruct (negb _) in Hs; injection Hs; intros; subst; exact Hp.

Lemma space_only sp version b env sp' b' ret t :
  one_writer b (sp_my_uuid sp) -> attribute_space_store vk sp version b env = Some (sp', b', ret, t) -> only (sp_my_uuid sp) b b' t.
Proof. intros Hw Hs. unfold attribute_space_store in Hs. destruct (_ <? _); [done|]. frame_put Hs. Qed.

Lemma pstore_only ps version sp b env ps' b' ret t m :
  one_writer b (pst_my_uuid ps) -> policy_store_store vk ps version sp b env = Some (ps', b', ret, t, m) -> only (pst_my_uuid ps) b b' t.
Proof.
  intros Hw Hs. unfold policy_store_store in Hs. destruct (abac_global_export_macversion sp) as [mv|];
    [|injection Hs as <- <- <- <- <-; apply only_refl].
  apply bind_Some in Hs as (o & _ & Hs). destruct o as [buf|]; [|injection Hs as <- <- <- <- <-; apply only_refl].
  destruct (_ <? _); [done|]. frame_put Hs.
Qed.

Lemma hardlink_only tb version order b env tb' b' ret t :
  one_writer b (hl_my_uuid tb) -> hardlink_table_store vk tb version order b env = Some (tb', b', ret, t) -> only (hl_my_uuid tb) b b' t.
Proof. intros Hw Hs. unfold hardlink_table_store in Hs. destruct (_ <? _); [done|]. frame_put Hs. Qed.

Lemma users_only tb version cm b env tb' b' ret t :
  one_writer b (ut_my_uuid tb) -> nexus_usertable_store vk tb version cm b env = Some (tb', b', ret, t) -> only (ut_my_uuid tb) b b' t.
Proof. intros Hw Hs. unfold nexus_usertable_store in Hs. destruct (_ <? _); [done|]. frame_put Hs. Qed.

Lemma super_only sn version b env sn' b' ret m t :
  one_writer b (sn_my_uuid sn) -> supernode_store vk sn version b env = Some (sn', b', ret, m, t) -> only (sn_my_uuid sn) b b' t.
Proof. intros Hw Hs. unfold supernode_store in Hs. destruct (_ <? _); [done|]. frame_put Hs. Qed.

(** A new directory has only its own bucket. *)
Lemma root_only root h rnd mv b es env d' b' ret m t :
  let '(d, h1) := dirnode_create root root h rnd in
  one_writer b root -> dirnode_store vk d h1 0 mv b es env = Some (d', b', ret, m, t) -> only root b b' t /\ tail (bucket_list d') = [].
Proof.
  destruct (dirnode_create root root h rnd) as [d h1] eqn:Hd. unfold dirnode_create in Hd. cbn -[hashmap_init] in Hd. injection Hd as <- <-.
  intros Hw Hs. unfold dirnode_store in Hs. cbn -[hashmap_init dirnode_serialize nexus_crypto_buf_put get_bucket0_size] in Hs.
  apply bind_Some in Hs as ([[[[d1 c1] r1] t1] buf] & Hser & Hs).
  assert (Hc : c1 = b /\ t1 = [] /\ my_uuid d1 = root /\ tail (bucket_list d1) = []).
  { unfold dirnode_serialize in Hser. destruct (attribute_table_store _ _ _) as [[tb tbuf]|]; [|by injection Hser as <- <- <- <- <-].
    cbn -[bucket_serialize] in Hser. apply bind_Some in Hser as ([b0 out0] & _ & Hser). by injection Hser as <- <- <- <- <-. }
  destruct Hc as (-> & -> & Hu & Hb). destruct (negb (r1 =? 0)); [injection Hs as <- <- <- <- <-; split; [apply only_refl|done]|].
  destruct (_ <? _); [done|]. rewrite Hu in Hs. apply bind_Some in Hs as ([[[[c b2] r2] m2] t2] & Hp & Hs). apply put_only in Hp; [|done].
  destruct (negb _) in Hs; injection Hs as <- <- <- <- <-; by split; [exact Hp|].
Qed.
End frames.

(** ** Creating one object *)
(** The store goes along with the creation of an object. *)
Definition create_ok (c : create_env) : Prop := failed (cr_lock c) = false /\ put_ok (cr_put c).

Lemma lock_created b u c :
  bcache_get b u = None -> create_ok c ->
  exists b1, buffer_layer_lock b u NEXUS_FCREATE (cr_lock c) = (b1, 0, [ocall_buffer_lock u NEXUS_FCREATE]) /\ one_writer b1 u /\
    only u b b1 [ocall_buffer_lock u NEXUS_FCREATE] /\ fetches b1 u.
Proof.
  intros Hb [Hl _]. apply not_failed in Hl. rewrite Hl.
  destruct (lock_free b u NEXUS_FCREATE) as (b1 & Hlk & Hw & _); [unfold free_buffer; by rewrite Hb|done|].
  exists b1. split; [done|]. split; [done|]. pose proof (lock_only _ _ _ _ _ _ _ Hlk) as Ho. split; [done|].
  apply (on_fetches _ _ _ _ Ho). unfold fetches. by rewrite Hb.
Qed.

Section created.
Context `{BlockCipher} `{KeyWrapCipher}.
Variables (vk : bytes) (root : uuid).

(** The bytes of [u] on the store are [data]. *)
Definition holds (log : list ocall) (u : uuid) (data : bytes) : Prop := apply_trace ∅ log !! u = Some data.

Lemma holds_frame log t u u' data : holds log u data -> Forall (fun o => ocall_uuid o = u') t -> u <> u' -> holds (log ++ t) u data.
Proof. unfold holds. intros Hh Ht Hu. rewrite apply_trace_app. by rewrite (trace_frame u'). Qed.

Lemma holds_put log u data n : holds (log ++ [ocall_buffer_put u data n]) u data.
Proof. unfold holds. rewrite apply_trace_app. apply lookup_insert_eq. Qed.

(** A new object of the metadata layer. *)
Definition new_object {O} {MO : MetadataOps O} (u : uuid) : nexus_metadata O :=
  nexus_metadata_from_object u (obj_create (O := O) root u) NEXUS_FCREATE 0.

Lemma object_created {O} {MO : MetadataOps O} b u c :
  bcache_get b u = None -> create_ok c ->
  created_at_zero (obj_type (O := O)) || bool_decide (obj_type (O := O) = NEXUS_HARDLINK_TABLE) = true ->
  exists b1, nexus_metadata_create root b u (cr_lock c) = (b1, Some (new_object u), [ocall_buffer_lock u NEXUS_FCREATE]) /\
    one_writer b1 u /\ only u b b1 [ocall_buffer_lock u NEXUS_FCREATE] /\ fetches b1 u.
Proof.
  intros Hb Hc Hty. destruct (lock_created b u c Hb Hc) as (b1 & Hl & Hw & Ho & Hf). exists b1.
  unfold nexus_metadata_create. rewrite Hl. cbn [Z.eqb negb]. by rewrite Hty.
Qed.

Lemma object_stored {O} {MO : MetadataObject O} b u c :
  one_writer b u -> fetches b u -> create_ok c -> obj_ok (obj_create (O := O) root u) u ->
  (forall o' b' ret t, obj_store vk (obj_create (O := O) root u) 0 b (cr_put c) = Some (o', b', ret, t) -> only u b b' t) ->
  exists m' b2 data n, nexus_metadata_store vk (new_object u) b (cr_put c) = Some (m', b2, 0, [ocall_buffer_put u data n]) /\
    only u b b2 [ocall_buffer_put u data n] /\ fetches b2 u /\ external_version data = 1 /\
    published _ vk root u data (obj_same (obj_create (O := O) root u)).
Proof.
  intros Hw Hf [_ (Hr & Hk1 & Hk2 & mem & Hmem)] Hok Hfr.
  destruct (obj_law vk _ u 0 b (cr_put c) mem Hok Hw) as (o' & b2 & data & n & Hst & _ & Hev & Hload); [done..|].
  rewrite Hr in Hst. pose proof (Hfr _ _ _ _ Hst) as Ho2. exists (mk_metadata u NEXUS_FCREATE 1 0 false false false o'), b2, data, n. split.
  { unfold nexus_metadata_store, new_object. cbn [md_is_dirty nexus_metadata_from_object negb md_flags md_object md_version].
    replace (true && _) with false by done. by rewrite Hst. }
  split; [done|]. split; [by apply (on_fetches _ _ _ _ Ho2)|]. split; [done|]. apply published_intro; [by rewrite Hev|done].
Qed.
End created.

(** ** Acquiring the attribute space of the volume *)
Section acquired.
Context `{BlockCipher} `{KeyWrapCipher}.
Variables (vk : bytes) (super : nexus_supernode).
Notation root := (sn_root_uuid super).
Notation u := (attribute_space_uuid (sn_abac_superinfo super)).

Lemma read_only {O} {MO : MetadataOps O} b u flags r b' res t : read_object vk root b u flags r = Some (b', res, t) -> only u b b' t.
Proof.
  unfold read_object, nexus_crypto_buf_create. intros Hr.
  destruct (buffer_layer_get b u (io_flags (Obj := O) flags) (g_err r) (g_data r) (g_ts r)) as [[b1 d] t1] eqn:Hg. apply get_only in Hg.
  destruct d as [d|]; [|by injection Hr as <- <- <-]. destruct (_ =? 0); [by injection Hr as <- <- <-|].
  destruct (obj_load _ _ _) as [[o|]|]; [..|done]; by injection Hr as <- <- <-.
Qed.

(** The copy in the enclave, if there is one. *)
Definition space_good (cur : option (nexus_metadata attribute_space)) : Prop :=
  match cur with
  | None => True
  | Some m => md_uuid m = u /\ in_range 32 (md_version m) /\ length (sp_mac (md_object m)) = NEXUS_MAC_SIZE
  end.

(** The store answers reads with [data]. *)
Definition serves (q : acq_env) (data : bytes) : Prop :=
  (exists ts, aq_get q = mk_getreply 0 (Some data) ts) /\ exists ts, rv_get (aq_reval q) = mk_getreply 0 (Some data) ts.

Lemma acquired_ok s q data :
  published space_ops vk root u data (fun sp => length (sp_mac sp) = NEXUS_MAC_SIZE) -> in_range 32 (external_version data) ->
  fetches (rt_bufs s) u -> space_good (rt_space s) -> serves q data ->
  exists s' sp v t, acquired_space vk super s q = Some (s', Some (sp, v)) /\ macversion_ok (mk_macversion v (sp_mac sp)) /\
    space_good (rt_space s') /\ only u (rt_bufs s) (rt_bufs s') t /\ rt_log s' = rt_log s ++ t /\ forall disk, apply_trace disk t = disk.
Proof.
  intros Hp Hv Hf Hg [(ts & Hq) (ts' & Hr)]. unfold acquired_space, abac_acquire_attribute_space, acquire.
  assert (Hread : forall ts, exists b' o, read_object (MO := space_ops) vk root (rt_bufs s) u NEXUS_FREAD (mk_getreply 0 (Some data) ts) =
      Some (b', Some (o, external_version data), [ocall_buffer_get u NEXUS_FREAD]) /\ length (sp_mac o) = NEXUS_MAC_SIZE).
  { intros ts0. exact (Hp _ NEXUS_FREAD ts0 Hf). }
  destruct (rt_space s) as [m|] eqn:Hm.
  - destruct Hg as (Hu & Hver & Hmac). unfold nexus_metadata_revalidate, nexus_metadata_reload. rewrite Hr, Hu.
    destruct (Hread ts') as (b' & o & Hro & Hl). rewrite Hro. pose proof (read_only _ _ _ _ _ _ _ Hro) as Ho.
    destruct (is_invalid m); [cbn [mbind option_bind Z.eqb]; do 4 eexists; split; [done|]; done|].
    assert (Hst : exists z ch t, buffer_layer_revalidate (rt_bufs s) u (rv_stat (aq_reval q)) (rv_stat_ts (aq_reval q)) = (z, ch, t) /\
      Forall (fun o => ocall_uuid o = u) t /\ forall disk, apply_trace disk t = disk).
    { unfold buffer_layer_revalidate. destruct (bcache_get (rt_bufs s) u); [|by do 3 eexists]. destruct (failed _); do 3 eexists;
        (split; [done|]); (split; [by repeat constructor|done]). }
    destruct Hst as (z & ch & t & -> & Ht & Hdisk). destruct (default (aq_junk q) ch); cbn [mbind option_bind Z.eqb].
    + do 4 eexists. split; [done|]. do 2 (split; [done|]). split; [|split; [done|]].
      * apply (only_trans _ _ _ _ t _ (Build_only _ _ _ _ (fun _ _ => eq_refl) Ht (fun x => x)) Ho).
      * intros disk. by rewrite apply_trace_app, Hdisk.
    + replace (nexus_io_in_lock_mode NEXUS_FREAD) with false by done. cbn [mbind option_bind Z.eqb]. do 4 eexists. split; [done|].
      split; [done|]. split; [done|]. by split; [|].
  - unfold nexus_metadata_load. rewrite Hq. destruct (Hread ts) as (b' & o & Hro & Hl). rewrite Hro. pose proof (read_only _ _ _ _ _ _ _ Hro) as Ho.
    cbn [mbind option_bind option_map]. do 4 eexists. split; [done|]. done.
Qed.
End acquired.

(** ** The steps of a creation *)
(** A part of the creation that touches the objects [U]. *)
Record touches (U : list uuid) (s s' : runtime) : Prop := {
  to_bufs : forall u, u ∉ U -> bcache_get (rt_bufs s') u = bcache_get (rt_bufs s) u;
  to_disk : forall u data, u ∉ U -> holds (rt_log s) u data -> holds (rt_log s') u data
}.

Lemma touches_only u U s s' t : u ∈ U -> only u (rt_bufs s) (rt_bufs s') t -> rt_log s' = rt_log s ++ t -> touches U s s'.
Proof.
  intros Hu [Ho Hc _] Hl. split.
  - intros u' Hu'. apply Ho. by intros ->.
  - intros u' data Hu' Hh. rewrite Hl. apply (holds_frame _ _ _ u); [done|done|]. by intros ->.
Qed.

Lemma touches_bufs u s b t : only u (rt_bufs s) b t -> touches [u] s (with_bufs s b t).
Proof. intros Ho. by apply (touches_only u _ _ _ t); [left|..]. Qed.

Lemma touches_trans U s s1 s2 : touches U s s1 -> touches U s1 s2 -> touches U s s2.
Proof. intros [A1 A2] [B1 B2]. split; [intros u Hu; by rewrite B1, A1|auto]. Qed.

Lemma touches_weaken U U' s s' : U ⊆ U' -> touches U s s' -> touches U' s s'.
Proof. intros Hs [A1 A2]. split; [intros u Hu; apply A1; set_solver|intros u d Hu; apply A2; set_solver]. Qed.

(** What was sent last under [u] does not depend on what was there before. *)
Lemma trace_mono disk disk' t u data :
  (forall d, disk !! u = Some d -> disk' !! u = Some d) -> apply_trace disk t !! u = Some data -> apply_trace disk' t !! u = Some data.
Proof.
  revert disk disk'. induction t as [|o t IH]; intros disk disk' Hd Ht; [auto|].
  destruct o; cbn in Ht |- *; (eapply IH; [|exact Ht]); try done; intros d.
  - destruct (decide (u0 = u)) as [->|]; [by rewrite !lookup_insert_eq|rewrite !lookup_insert_ne by done; auto].
  - destruct (decide (u0 = u)) as [->|]; [by rewrite lookup_delete_eq|rewrite !lookup_delete_ne by done; auto].
Qed.

(** The draws are UUIDs, all different; the store goes along, and serves the
    attribute space that was sent. *)
Record volume_ok (e : volume_env) : Prop := {
  vo_ids : Forall (fun u => length u = NEXUS_UUID_SIZE) [ve_my e; ve_root e; ve_hardlinks e; ve_users e; ve_policies e; ve_space e; ve_bucket e];
  vo_new : NoDup [ve_my e; ve_root e; ve_hardlinks e; ve_users e; ve_policies e; ve_space e];
  vo_create : Forall create_ok [ve_new_space e; ve_new_policies e; ve_new_root e; ve_new_hardlinks e; ve_new_users e; ve_new_super e];
  vo_serves : forall log data, holds log (ve_space e) data -> serves (ve_acquire e log) data
}.

Section steps.
Context `{BlockCipher} `{KeyWrapCipher} `{PubkeyHash}.
Variables (vk : bytes) (e : volume_env).
Hypothesis (Hok : volume_ok e).
Notation super := (ve_supernode e).

Lemma ids_ok u : u ∈ [ve_my e; ve_root e; ve_hardlinks e; ve_users e; ve_policies e; ve_space e; ve_bucket e] -> length u = 16%nat.
Proof. intros Hu. pose proof (vo_ids _ Hok) as Hi. rewrite Forall_forall in Hi. by apply Hi. Qed.

(** The attribute space of the volume is on the store, and what the enclave
    has of it is usable. *)
Record staged (s : runtime) (dsp : bytes) : Prop := {
  sg_fetches : fetches (rt_bufs s) (ve_space e);
  sg_good : space_good super (rt_space s);
  sg_holds : holds (rt_log s) (ve_space e) dsp;
  sg_version : external_version dsp = 1;
  sg_loads : published space_ops vk (ve_root e) (ve_space e) dsp (space_back (attribute_space_create (ve_root e) (ve_space e)))
}.

Lemma staged_frame U s s' dsp : staged s dsp -> ve_space e ∉ U -> touches U s s' -> rt_space s' = rt_space s -> staged s' dsp.
Proof.
  intros [A1 A2 A3 A4 A5] Hu [B1 B2] Hs. split; [|by rewrite Hs|by apply B2|done|done].
  unfold fetches in *. by rewrite B1.
Qed.

Lemma staged_acquires s dsp :
  staged s dsp -> exists s' sp v, acquired_space vk super s (ve_acquire e (rt_log s)) = Some (s', Some (sp, v)) /\
    macversion_ok (mk_macversion v (sp_mac sp)) /\ staged s' dsp /\ touches [ve_space e] s s'.
Proof.
  intros [A1 A2 A3 A4 A5].
  destruct (acquired_ok vk super s (ve_acquire e (rt_log s)) dsp) as (s' & sp & v & t & Ha & Hmv & Hg & Ho & Hl & Hd).
  { intros b flags ts Hf. destruct (A5 b flags ts Hf) as (b' & o & ? & _ & ?). eauto. }
  { by rewrite A4. } { done. } { done. } { by apply (vo_serves _ Hok). }
  exists s', sp, v. split; [done|]. split; [done|]. split; [|by apply (touches_only (ve_space e) _ _ _ t); [left|..]].
  split; [by apply (on_fetches _ _ _ _ Ho)|done| |done|done]. rewrite Hl. unfold holds. by rewrite apply_trace_app, Hd.
Qed.
Ltac in_list := repeat first [apply list_elem_of_here | apply list_elem_of_further].

Lemma space_storable_new : space_storable (attribute_space_create (ve_root e) (ve_space e)).
Proof. split; [apply create_inv|]. split_and!; try (apply ids_ok; in_list); by vm_compute. Qed.

Lemma pstore_storable_new : pst_storable (policy_store_create (ve_root e) (ve_policies e)).
Proof. split; [apply create_pst_inv|]. split_and!; try (apply ids_ok; in_list); by vm_compute. Qed.

Lemma creates c : c ∈ [ve_new_space e; ve_new_policies e; ve_new_root e; ve_new_hardlinks e; ve_new_users e; ve_new_super e] -> create_ok c.
Proof. intros Hc. pose proof (vo_create _ Hok) as Hi. rewrite Forall_forall in Hi. by apply Hi. Qed.

(** The first object. *)
Lemma space_created s :
  bcache_get (rt_bufs s) (ve_space e) = None -> rt_space s = None ->
  exists b1 m' b2 dsp n,
    nexus_metadata_create (MO := space_ops) (ve_root e) (rt_bufs s) (ve_space e) (cr_lock (ve_new_space e)) =
      (b1, Some (new_object (MO := space_ops) (ve_root e) (ve_space e)), [ocall_buffer_lock (ve_space e) NEXUS_FCREATE]) /\
    nexus_metadata_store (MO := space_ops) vk (new_object (MO := space_ops) (ve_root e) (ve_space e)) b1 (cr_put (ve_new_space e)) =
      Some (m', b2, 0, [ocall_buffer_put (ve_space e) dsp n]) /\
    let s1 := with_bufs (with_bufs s b1 [ocall_buffer_lock (ve_space e) NEXUS_FCREATE]) b2 [ocall_buffer_put (ve_space e) dsp n] in
    staged s1 dsp /\ touches [ve_space e] s s1.
Proof.
  intros Hb Hs. destruct (object_created (MO := space_ops) (ve_root e) (rt_bufs s) (ve_space e) (ve_new_space e) Hb)
    as (b1 & Hcr & Hw & Ho1 & Hf); [apply creates; in_list|done|].
  destruct (object_stored (MO := space_object) vk (ve_root e) b1 (ve_space e) (ve_new_space e) Hw Hf)
    as (m' & b2 & dsp & n & Hst & Ho2 & Hf2 & Hev & Hpub); [apply creates; in_list|split; [done|apply space_storable_new]| |].
  { intros o' b' ret t Hst. exact (space_only vk (attribute_space_create (ve_root e) (ve_space e)) _ _ _ _ _ _ _ Hw Hst). }
  exists b1, m', b2, dsp, n. split; [exact Hcr|]. split; [exact Hst|]. intros s1. split.
  - split; [done|by cbn; rewrite Hs|apply holds_put|done|exact Hpub].
  - apply (touches_only (ve_space e) _ _ _ ([ocall_buffer_lock (ve_space e) NEXUS_FCREATE] ++ [ocall_buffer_put (ve_space e) dsp n]));
      [left|exact (only_trans _ _ _ _ _ _ Ho1 Ho2)|cbn; by rewrite <- app_assoc].
Qed.
(** Two of the six objects differ. *)
Ltac distinct :=
  let Heq := fresh in let Hn := fresh in
  intros Heq; pose proof (vo_new _ Hok) as Hn; repeat (apply NoDup_cons in Hn as [? Hn]); set_solver.

Lemma abac_created s :
  bcache_get (rt_bufs s) (ve_space e) = None -> bcache_get (rt_bufs s) (ve_policies e) = None -> rt_space s = None ->
  exists s' dsp dps, abac_runtime_create vk super s (ve_new_space e) (ve_new_policies e) (ve_acquire e) = Some (s', 0) /\
    staged s' dsp /\ holds (rt_log s') (ve_policies e) dps /\
    published (pstore_ops None) vk (ve_root e) (ve_policies e) dps (fun ps => pst_inv ps /\ pst_rules ps = []) /\
    touches [ve_space e; ve_policies e] s s'.
Proof.
  intros Hb1 Hb2 Hsp. assert (Hne : ve_policies e <> ve_space e) by distinct. unfold abac_runtime_create.
  cbn [sn_abac_superinfo attribute_space_uuid policy_store_uuid sn_root_uuid ve_supernode supernode_create].
  destruct (space_created s Hb1 Hsp) as (b1 & m' & b2 & dsp & n & -> & Hst & Hsg & Ht1). cbn [rt_bufs with_bufs]. rewrite Hst.
  cbn [mbind option_bind Z.eqb negb]. set (s1 := with_bufs (with_bufs s b1 _) b2 _) in *.
  destruct (object_created (MO := pstore_ops None) (ve_root e) (rt_bufs s1) (ve_policies e) (ve_new_policies e))
    as (b3 & Hcr & Hw & Ho3 & Hf3); [rewrite (to_bufs _ _ _ Ht1); [done|set_solver]|apply creates; in_list|done|].
  change (rt_bufs s1) with b2 in Hcr. rewrite Hcr. set (s2 := with_bufs s1 b3 _).
  assert (Ht2 : touches [ve_policies e] s1 s2) by (by apply touches_bufs).
  assert (Hsg2 : staged s2 dsp) by (apply (staged_frame _ _ _ _ Hsg) in Ht2; [done|set_solver|done]).
  unfold store_with_space, new_object. cbn [md_is_dirty md_flags nexus_metadata_from_object negb]. replace (true && _) with false by done.
  destruct (staged_acquires s2 dsp Hsg2) as (s3 & sp & v & Ha & Hmv & Hsg3 & Ht3). rewrite Ha. cbn [mbind option_bind].
  assert (Hb3 : bcache_get (rt_bufs s3) (ve_policies e) = bcache_get b3 (ve_policies e)) by (rewrite (to_bufs _ _ _ Ht3); [done|set_solver]).
  assert (Hw3 : one_writer (rt_bufs s3) (ve_policies e)) by (unfold one_writer in *; by rewrite Hb3).
  destruct (object_stored (MO := pstore_object sp v Hmv) vk (ve_root e) (rt_bufs s3) (ve_policies e) (ve_new_policies e))
    as (m2 & b4 & dps & n2 & Hst4 & Ho4 & Hf4 & Hev4 & Hpub4).
  { done. } { unfold fetches in *. by rewrite Hb3. } { apply creates; in_list. }
  { split; [done|apply pstore_storable_new]. }
  { intros o' b' ret t Hs. cbn [obj_store obj_ops pstore_object pstore_ops obj_create] in Hs. apply bind_Some in Hs as ([[[[ps b5] r5] t5] m5] & Hs & Hx). injection Hx as <- <- <- <-.
    exact (pstore_only vk (policy_store_create (ve_root e) (ve_policies e)) _ _ _ _ _ _ _ _ _ Hw3 Hs). }
  unfold new_object in Hst4. cbn [obj_ops pstore_object] in Hst4.
  change (obj_create (MetadataOps := pstore_ops None)) with (obj_create (MetadataOps := pstore_ops (Some (sp, v)))). rewrite Hst4.
  cbn [mbind option_bind Z.eqb negb]. eexists _, dsp, dps. split; [done|].
  set (s4 := with_bufs s3 b4 _).
  assert (Ht4 : touches [ve_policies e] s3 s4) by (by apply touches_bufs).
  split; [apply (staged_frame _ _ _ _ Hsg3) in Ht4; [done|set_solver|done]|]. split; [apply holds_put|]. split.
  { intros b flags ts Hf. destruct (Hpub4 b flags ts Hf) as (b' & o & Hr & Hi & Hrl & _). exists b', o. by split; [exact Hr|]. }
  eapply touches_trans; [|eapply touches_trans; [|eapply touches_trans]].
  - apply (touches_weaken [ve_space e]); [set_solver|exact Ht1].
  - apply (touches_weaken [ve_policies e]); [set_solver|exact Ht2].
  - apply (touches_weaken [ve_space e]); [set_solver|exact Ht3].
  - apply (touches_weaken [ve_policies e]); [set_solver|exact Ht4].
Qed.
Lemma root_storable h : let '(d, h1) := dirnode_create (ve_root e) (ve_root e) h (ve_bucket e) in
  forall c, dir_storable vk ∅ c h1 d ∅ /\ (length (bucket_list d) = 1)%nat /\ my_uuid d = ve_root e.
Proof.
  destruct (dirnode_create _ _ _ _) as [d h1] eqn:Hd. unfold dirnode_create in Hd. cbn -[hashmap_init attribute_table_create] in Hd.
  injection Hd as <- <-. intros c. split; [|done]. split; cbn [bucket_list tail my_uuid b_uuid dn_attribute_table symlink_list symlink_buflen head]; try done.
  - split; cbn; try done; apply ids_ok; in_list.
  - intros b0 [= <-]. by vm_compute.
  - apply Forall_singleton. split; [apply ids_ok; in_list|done].
  - apply NoDup_singleton.
  - apply at_create_inv.
  - apply (uuid_const_ok 0). unfold byte_ok. lia.
Qed.

(** What a stored root directory gives its readers. *)
Definition empty_root (data : bytes) : Prop :=
  forall h2 c2 flags ts, 0 < next_addr h2 -> (forall u, bcache_get c2 u = None) ->
    exists d2 h3 c3 t, dirnode_load vk (ve_root e) flags h2 c2 (mk_breply 0 (Some data) ts) [] = Some (Some d2, h3, c3, t) /\
      dir_repr h3 d2 ∅ /\ root_uuid d2 = ve_root e.

Lemma root_created s dsp h :
  staged s dsp -> bcache_get (rt_bufs s) (ve_root e) = None -> 0 < next_addr h ->
  exists s' data, create_root vk s e h = Some (s', 0) /\ staged s' dsp /\ touches [ve_root e; ve_space e] s s' /\
    holds (rt_log s') (ve_root e) data /\ empty_root data.
Proof.
  intros Hsg Hb Hh. assert (Hne : ve_root e <> ve_space e) by distinct. unfold create_root.
  cbn [sn_root_uuid ve_supernode supernode_create].
  pose proof (create_repr (ve_root e) (ve_root e) h (ve_bucket e) Hh) as Hrepr. pose proof (root_storable h) as Hsto.
  pose proof (root_only vk (ve_root e) h (ve_bucket e)) as Honly.
  destruct (dirnode_create (ve_root e) (ve_root e) h (ve_bucket e)) as [d h1]. destruct Hrepr as (Hr & Hmy & Hrt & _). rewrite Hmy.
  destruct (lock_created _ _ (ve_new_root e) Hb) as (b1 & -> & Hw & Ho1 & _); [apply creates; in_list|]. cbn [Z.eqb negb].
  set (s1 := with_bufs s b1 _). pose proof (touches_bufs _ _ _ _ Ho1) as Ht1. fold s1 in Ht1.
  assert (Hsg1 : staged s1 dsp) by (apply (staged_frame _ _ _ _ Hsg) in Ht1; [done|set_solver|done]).
  destruct (staged_acquires s1 dsp Hsg1) as (s2 & sp & v & -> & Hmv & Hsg2 & Ht2). cbn [mbind option_bind abac_global_export_macversion].
  assert (Hw2 : one_writer (rt_bufs s2) (ve_root e)) by (unfold one_writer in *; rewrite (to_bufs _ _ _ Ht2) by set_solver; done).
  destruct (Hsto (rt_bufs s2)) as (Hst & Hlen & _).
  destruct (creates (ve_new_root e)) as [Hlk Hput]; [in_list|].
  destruct (store_dir_spec vk d h1 ∅ ∅ ∅ (rt_bufs s2) [mk_benv (cr_lock (ve_new_root e)) (cr_put (ve_new_root e))] (cr_put (ve_new_root e)) 0
    (mk_macversion v (sp_mac sp)) Hr Hst) as (d1 & c1 & m & t & data & Hds & Hr1 & _ & _ & E1 & E2 & E3 & Hstored);
    [by rewrite Hmy|by constructor|by rewrite Hlen|done|done|done|].
  rewrite Hds. cbn [mbind option_bind].
  destruct (Honly _ _ _ _ _ _ _ _ _ Hw2 Hds) as [Ho3 Htail]. eexists _, data. split; [done|].
  pose proof (touches_bufs _ _ _ _ Ho3) as Ht3. set (s3 := with_bufs s2 c1 t) in *.
  split; [apply (staged_frame _ _ _ _ Hsg2) in Ht3; [done|set_solver|done]|]. split; [|split].
  - eapply touches_trans; [|eapply touches_trans].
    + apply (touches_weaken [ve_root e]); [set_solver|exact Ht1].
    + apply (touches_weaken [ve_space e]); [set_solver|exact Ht2].
    + apply (touches_weaken [ve_root e]); [set_solver|exact Ht3].
  - unfold holds. cbn [rt_log with_bufs s3]. rewrite apply_trace_app.
    destruct Hstored as (? & ? & ? & ? & ? & _ & _ & _ & _ & _ & Hd & _). rewrite Hmy in Hd.
    apply (trace_mono ∅); [|done]. intros d0 Hx. by rewrite lookup_empty in Hx.
  - intros h2 c2 flags ts Hn2 Hc2. destruct (load_stored vk _ _ _ _ _ _ _ _ _ h2 c2 flags ts Hr1 E1 E2 E3 Hstored Hn2 Hc2)
      as (d2 & h3 & c3 & t' & Hl & Hr2 & _ & Hrr & _).
    destruct Hstored as (? & ? & ? & ? & ? & _ & _ & _ & _ & _ & Hd & _).
    rewrite Htail in Hl. unfold ask in Hl. rewrite Hd, Hmy in Hl. exists d2, h3, c3, t'. split; [exact Hl|]. split; [done|congruence].
Qed.
(** The hardlink table, whatever order its hash table is walked in. *)
Lemma hardlinks_created order (order_perm : forall tb, order tb ≡ₚ map_to_list (hl_entries tb)) s :
  bcache_get (rt_bufs s) (ve_hardlinks e) = None ->
  exists s' data, create_hardlink_table order vk s e = Some (s', 0) /\ rt_space s' = rt_space s /\ touches [ve_hardlinks e] s s' /\
    holds (rt_log s') (ve_hardlinks e) data /\
    published (hardlink_ops order) vk (ve_root e) (ve_hardlinks e) data (fun tb => hl_entries tb = ∅).
Proof.
  intros Hb. unfold create_hardlink_table. cbn [sn_root_uuid ve_supernode supernode_create hardlink_table_uuid].
  destruct (object_created (MO := hardlink_ops order) (ve_root e) (rt_bufs s) (ve_hardlinks e) (ve_new_hardlinks e) Hb)
    as (b1 & -> & Hw & Ho1 & Hf); [apply creates; in_list|done|]. cbn [rt_bufs with_bufs].
  destruct (object_stored (MO := hardlink_object order order_perm) vk (ve_root e) b1 (ve_hardlinks e) (ve_new_hardlinks e) Hw Hf)
    as (m' & b2 & data & n & Hst & Ho2 & _ & _ & Hpub); [apply creates; in_list| | |].
  { split; try done; cbn; apply ids_ok; in_list. }
  { intros o' b' ret t Hst. exact (hardlink_only vk (hardlink_table_create (ve_root e) (ve_hardlinks e)) _ _ _ _ _ _ _ _ Hw Hst). }
  cbn [obj_ops hardlink_object] in Hst. rewrite Hst. cbn [mbind option_bind]. eexists _, data. split; [done|]. split; [done|]. split; [|split].
  - eapply touches_trans; [exact (touches_bufs _ _ _ _ Ho1)|]. by apply touches_bufs.
  - apply holds_put.
  - intros b flags ts Hfe. destruct (Hpub b flags ts Hfe) as (b' & o & Hr & _ & _ & _ & He). exists b', o. by split; [exact Hr|].
Qed.

(** The owner's user table and the supernode. *)
Notation owner_table pubkey := (nexus_usertable_set_owner_pubkey (nexus_usertable_create (ve_root e) (ve_users e)) pubkey).

Lemma users_created s pubkey :
  bcache_get (rt_bufs s) (ve_users e) = None ->
  exists s' data, create_usertable vk s e pubkey = Some (true, s', 0) /\ rt_space s' = rt_space s /\ touches [ve_users e] s s' /\
    holds (rt_log s') (ve_users e) data /\
    forall ctx, exists tb, nexus_usertable_from_crypto_buf vk (mk_cbuf ctx (external_version data) 0 (ve_users e) (Some (ExtStore data)) None) = Some (Some tb) /\
      owner_hash tb = sha256 pubkey /\ userlist tb = [].
Proof.
  intros Hb. unfold create_usertable. cbn [sn_root_uuid ve_supernode supernode_create usertable_uuid].
  change (ut_my_uuid (owner_table pubkey)) with (ve_users e).
  destruct (lock_created _ _ (ve_new_users e) Hb) as (b1 & -> & Hw & Ho1 & _); [apply creates; in_list|]. cbn [Z.eqb negb rt_bufs with_bufs].
  destruct (creates (ve_new_users e)) as [_ (Hr & Hk1 & Hk2 & mem & Hmem)]; [in_list|].
  destruct (usertable_law vk (owner_table pubkey) (ve_users e) 0 b1 (cr_put (ve_new_users e)) mem) as (tb' & b2 & data & n & Hst & _ & _ & Hload);
    [|done..|].
  { split; [done|]. destruct (new_table_repr (ve_root e) (ve_users e) pubkey) as [Hi _ _ _]. split; try done; cbn; try (apply ids_ok; in_list). }
  rewrite Hr in Hst. rewrite Hst. cbn [mbind option_bind]. eexists _, data. split; [done|]. split; [done|]. split; [|split].
  - eapply touches_trans; [exact (touches_bufs _ _ _ _ Ho1)|]. apply touches_bufs. exact (users_only vk (owner_table pubkey) _ _ _ _ _ _ _ _ Hw Hst).
  - apply holds_put.
  - intros ctx. destruct (Hload 0 ctx) as (tb & Hl & _ & _ & Hul & _ & _ & Ho). eauto.
Qed.

Lemma super_created s :
  bcache_get (rt_bufs s) (ve_my e) = None ->
  exists s' data, create_supernode vk s e = Some (true, s', 0) /\ touches [ve_my e] s s' /\ holds (rt_log s') (ve_my e) data /\
    forall ctx, exists sn, supernode_from_crypto_buf vk (mk_cbuf ctx (external_version data) 0 (ve_my e) (Some (ExtStore data)) None) = Some (Some sn) /\
      sn_same super sn.
Proof.
  intros Hb. unfold create_supernode. change (sn_my_uuid super) with (ve_my e).
  destruct (lock_created _ _ (ve_new_super e) Hb) as (b1 & -> & Hw & Ho1 & _); [apply creates; in_list|]. cbn [Z.eqb negb rt_bufs with_bufs].
  destruct (creates (ve_new_super e)) as [_ (Hr & Hk1 & Hk2 & mem & Hmem)]; [in_list|].
  destruct (supernode_law vk super (ve_my e) 0 b1 (cr_put (ve_new_super e)) mem) as (sn' & b2 & data & n & Hst & _ & _ & Hload);
    [|done..|].
  { split; [done|]. split; try (apply ids_ok; in_list). split; apply ids_ok; in_list. }
  rewrite Hr in Hst. apply bind_Some in Hst as ([[[[sn2 b3] r3] m3] t3] & Hst & Hx). injection Hx as -> -> -> ->.
  rewrite Hst. cbn [mbind option_bind]. eexists _, data. split; [done|]. split; [|split].
  - eapply touches_trans; [exact (touches_bufs _ _ _ _ Ho1)|]. apply touches_bufs. exact (super_only vk super _ _ _ _ _ _ _ _ Hw Hst).
  - apply holds_put.
  - intros ctx. exact (Hload 0 ctx).
Qed.
End steps.

(** ** The volume *)
(** The six objects of a new volume on the store, and what each of them gives
    its readers; [dsn] and [dut] are the bytes of the supernode and of the user
    table. *)
Record volume_stored `{BlockCipher} `{KeyWrapCipher} `{PubkeyHash} (vk : bytes) (e : volume_env) (order : hardlink_table -> list (uuid * Z))
    (pubkey : bytes) (log : list ocall) (dsn dut : bytes) : Prop := {
  vs_super : holds log (ve_my e) dsn /\ forall ctx, exists sn,
    supernode_from_crypto_buf vk (mk_cbuf ctx (external_version dsn) 0 (ve_my e) (Some (ExtStore dsn)) None) = Some (Some sn) /\ sn_same (ve_supernode e) sn;
  vs_users : holds log (ve_users e) dut /\ forall ctx, exists tb,
    nexus_usertable_from_crypto_buf vk (mk_cbuf ctx (external_version dut) 0 (ve_users e) (Some (ExtStore dut)) None) = Some (Some tb) /\
      owner_hash tb = sha256 pubkey /\ userlist tb = [];
  vs_root : exists data, holds log (ve_root e) data /\ empty_root vk e data;
  vs_links : exists data, holds log (ve_hardlinks e) data /\
    published (hardlink_ops order) vk (ve_root e) (ve_hardlinks e) data (fun tb => hl_entries tb = ∅);
  vs_policies : exists data, holds log (ve_policies e) data /\
    published (pstore_ops None) vk (ve_root e) (ve_policies e) data (fun ps => pst_inv ps /\ pst_rules ps = []);
  vs_space : exists data, holds log (ve_space e) data /\
    published space_ops vk (ve_root e) (ve_space e) data (space_back (attribute_space_create (ve_root e) (ve_space e)))
}.

(** Nothing is known of the six objects before. *)
Definition unknown (b : bcache) (e : volume_env) : Prop :=
  Forall (fun u => bcache_get b u = None) [ve_my e; ve_root e; ve_hardlinks e; ve_users e; ve_policies e; ve_space e].

Section volume.
Context `{BlockCipher} `{KeyWrapCipher} `{SealedStorage} `{PubkeyHash} `{PrivateKeys} `{Signatures}.
Variables (order : hardlink_table -> list (uuid * Z)) (order_perm : forall tb, order tb ≡ₚ map_to_list (hl_entries tb)) (table_addr : Z).

Lemma nx_created vk e s h pubkey :
  volume_ok e -> unknown (rt_bufs s) e -> rt_space s = None -> 0 < next_addr h ->
  exists s' dsn dut, nx_create_volume order vk s e h pubkey = Some (s', 0, Some (ve_my e)) /\
    volume_stored vk e order pubkey (rt_log s') dsn dut.
Proof.
  intros Hok Hun Hsp Hh. pose proof (vo_new _ Hok) as Hnd. unfold unknown in Hun. rewrite !Forall_cons in Hun.
  destruct Hun as (B1 & B2 & B3 & B4 & B5 & B6 & _).
  do 6 (apply NoDup_cons in Hnd as [? Hnd]). unfold nx_create_volume.
  destruct (abac_created vk e Hok s B6 B5 Hsp) as (s1 & dsp & dps & -> & G1 & D1 & P1 & T1). cbn [mbind option_bind Z.eqb negb].
  destruct (root_created vk e Hok s1 dsp h G1) as (s2 & drt & -> & G2 & T2 & D2 & P2); [rewrite (to_bufs _ _ _ T1) by set_solver; done|done|].
  cbn [mbind option_bind Z.eqb negb]. assert (W1 : touches [ve_space e; ve_policies e; ve_root e] s s1) by (apply (touches_weaken [ve_space e; ve_policies e]); [set_solver|done]).
  assert (W2 : touches [ve_space e; ve_policies e; ve_root e] s1 s2) by (apply (touches_weaken [ve_root e; ve_space e]); [set_solver|done]). pose proof (touches_trans _ _ _ _ W1 W2) as W.
  destruct (hardlinks_created vk e Hok order order_perm s2) as (s3 & dhl & -> & E3 & T3 & D3 & P3); [rewrite (to_bufs _ _ _ W) by set_solver; done|].
  cbn [mbind option_bind Z.eqb negb].
  destruct (users_created vk e Hok s3 pubkey) as (s4 & dut & -> & E4 & T4 & D4 & P4);
    [rewrite (to_bufs _ _ _ T3), (to_bufs _ _ _ W) by set_solver; done|]. cbn [mbind option_bind Z.eqb negb].
  destruct (super_created vk e Hok s4) as (s5 & dsn & -> & T5 & D5 & P5);
    [rewrite (to_bufs _ _ _ T4), (to_bufs _ _ _ T3), (to_bufs _ _ _ W) by set_solver; done|]. cbn [mbind option_bind Z.eqb negb].
  exists s5, dsn, dut. split; [done|].
  assert (D6 : holds (rt_log s2) (ve_space e) dsp) by exact (sg_holds _ _ _ _ G2).
  assert (D1' : holds (rt_log s2) (ve_policies e) dps) by (apply (to_disk _ _ _ T2); [set_solver|done]).
  split; [done|split; [|done]|exists drt; split; [|done]|exists dhl; split; [|done]|exists dps; split; [|done]|
    exists dsp; split; [|exact (sg_loads _ _ _ _ G2)]];
    repeat first [done | apply (to_disk _ _ _ T5); [set_solver|] | apply (to_disk _ _ _ T4); [set_solver|] | apply (to_disk _ _ _ T3); [set_solver|]].
Qed.
(** An enclave in which no volume was mounted. *)
Definition unmounted (se : session) : Prop := se_meta se <> MetaFreed /\ se_table se = None.

(** Whether [abac_runtime_mount] succeeds for the owner. *)
Definition owner_mounts (vk : bytes) (sn : nexus_supernode) (rt : runtime) (ce : call_env) (b : Z) : bool :=
  match abac_runtime_mount vk sn NEXUS_ROOT_USER rt ce b with Some (_, ret) => ret =? 0 | None => false end.

(** The store of the volume answers a login: the supernode's bytes, the user
    table that the bytes of the volume's table hold, and, to an engine that has
    loaded nothing, the bytes of the attribute space and of the policy store. *)
Record login_served (vk : bytes) (e : volume_env) (log : list ocall) (dsn dut : bytes) (a : auth_env) (c : nexus_crypto_buf)
    (rt : runtime) (ce : call_env) (b : Z) : Prop := {
  ls_super : reads a (ve_my e) c dsn;
  ls_users : exists ctx, nexus_usertable_from_crypto_buf vk (mk_cbuf ctx (external_version dut) 0 (ve_users e) (Some (ExtStore dut)) None) =
    Some (ae_load a (ve_users e));
  ls_fresh : rt_space rt = None /\ rt_policies rt = None /\ fetches (rt_bufs rt) (ve_space e) /\ fetches (rt_bufs rt) (ve_policies e);
  ls_space : exists data ts, holds log (ve_space e) data /\ aq_get (ce_space ce) = mk_getreply 0 (Some data) ts;
  ls_policies : exists data ts, holds log (ve_policies e) data /\ aq_get (ce_policies ce) = mk_getreply 0 (Some data) ts;
  ls_abac : forall sn, supernode_from_crypto_buf vk c = Some (Some sn) -> ae_abac a = owner_mounts vk sn rt ce b
}.

Lemma served_holds log u d d' : holds log u d -> holds log u d' -> d = d'.
Proof. unfold holds. congruence. Qed.

(** The engine of the new volume comes up for its owner. *)
Lemma served_mounts vk e pubkey log dsn dut a c rt ce b sn :
  NoDup [ve_my e; ve_root e; ve_hardlinks e; ve_users e; ve_policies e; ve_space e] ->
  volume_stored vk e order pubkey log dsn dut -> login_served vk e log dsn dut a c rt ce b -> sn_same (ve_supernode e) sn ->
  owner_mounts vk sn rt ce b = true.
Proof.
  intros Hnd Hvol Hls (_ & Hroot & _ & _ & Hinfo). destruct (ls_fresh _ _ _ _ _ _ _ _ _ _ Hls) as (Hsp & Hps & Hf1 & Hf2).
  destruct (ls_space _ _ _ _ _ _ _ _ _ _ Hls) as (d1 & ts1 & Hh1 & Hq1), (ls_policies _ _ _ _ _ _ _ _ _ _ Hls) as (d2 & ts2 & Hh2 & Hq2).
  destruct (vs_space _ _ _ _ _ _ _ Hvol) as (x1 & Hx1 & Hp1), (vs_policies _ _ _ _ _ _ _ Hvol) as (x2 & Hx2 & Hp2).
  rewrite (served_holds _ _ _ _ Hx1 Hh1) in Hp1. rewrite (served_holds _ _ _ _ Hx2 Hh2) in Hp2. clear Hx1 Hx2.
  assert (Hne : ve_policies e <> ve_space e) by (do 4 (apply NoDup_cons in Hnd as [_ Hnd]); apply NoDup_cons in Hnd as [Hnd _]; set_solver).
  unfold owner_mounts, abac_runtime_mount, abac_acquire_attribute_space, acquire. rewrite Hsp, Hinfo, Hroot.
  change (attribute_space_uuid (sn_abac_superinfo (ve_supernode e))) with (ve_space e).
  change (policy_store_uuid (sn_abac_superinfo (ve_supernode e))) with (ve_policies e). change (sn_root_uuid (ve_supernode e)) with (ve_root e).
  unfold nexus_metadata_load at 1. rewrite Hq1. destruct (Hp1 (rt_bufs rt) NEXUS_FREAD ts1 Hf1) as (b1 & o1 & Hr1 & _). rewrite Hr1.
  cbn [mbind option_bind option_map negb]. unfold abac_acquire_policy_store, acquire. cbn [rt_policies rt_bufs with_space with_bufs]. rewrite Hps, Hinfo, Hroot.
  change (policy_store_uuid (sn_abac_superinfo (ve_supernode e))) with (ve_policies e). change (sn_root_uuid (ve_supernode e)) with (ve_root e).
  unfold nexus_metadata_load. rewrite Hq2. destruct (Hp2 b1 NEXUS_FREAD ts2) as (b2 & o2 & Hr2 & _).
  { unfold fetches. rewrite (on_others _ _ _ _ (read_only vk (ve_supernode e) _ _ _ _ _ _ _ Hr1)) by done. exact Hf2. }
  by rewrite Hr2.
Qed.

Lemma reads_buf a u c data : reads a u c data -> c = mk_cbuf empty_ctx (external_version data) 0 u (Some (ExtStore data)) None.
Proof.
  intros [Hc Hd]. unfold nexus_crypto_buf_create in Hc. destruct (buffer_layer_get _ _ _ _ _ _) as [[b [d|]] t]; [|done].
  cbn in Hc. injection Hc as <-. cbn in Hd. by injection Hd as ->.
Qed.

(** From the signature on: the table that was loaded has the owner, and no user. *)
Lemma owner_verified vk e pubkey log dsn dut s1 a c rt ce b k sg :
  volume_stored vk e order pubkey log dsn dut -> login_served vk e log dsn dut a c rt ce b -> unmounted s1 ->
  se_pubkey s1 = Some k -> se_pubkey_hash s1 = sha256 k -> (exists key, se_volumekey s1 = Some key /\ k_data key = Some vk) ->
  pk_verify k (sha256 (se_nonce s1 ++ dsn)) sg = true ->
  exists sn s2 tb, supernode_from_crypto_buf vk c = Some (Some sn) /\ sn_same (ve_supernode e) sn /\
    se_supernode s2 = Some sn /\ se_cache_live s2 = se_cache_live s1 /\ se_pubkey s2 = Some k /\
    owner_hash tb = sha256 pubkey /\ userlist tb = [] /\
    ecall_authentication_response s1 a (ve_my e) (Some sg) =
      '(s, ret) ←
        '(s, ret) ← match nexus_usertable_find_pubkey_hash tb (sha256 k) with
                    | None => Some (with_login s2 None (se_user_id s2), -1)
                    | Some FoundOwner => Some (with_login s2 (Some FoundOwner) NEXUS_ROOT_USER, 0)
                    | Some (FoundUser u) => Some (with_login s2 (Some (FoundUser u)) (user_id u), 0)
                    end;
        (if negb (ret =? 0) then s ← nexus_vfs_deinit s; Some (s, -1)
         else if negb (ae_abac a) then s ← nexus_vfs_deinit s; Some (s, -1) else Some (s, 0));
      Some (clear_auth_pubkey (if negb (ret =? 0) then with_volumekey s None else s), ret).
Proof.
  intros Hvol Hls [Hm Htab] Hk Hh (key & Hvk & Hvd) Hsig. pose proof (ls_super _ _ _ _ _ _ _ _ _ _ Hls) as Hrd.
  destruct (ls_users _ _ _ _ _ _ _ _ _ _ Hls) as (ctx' & Hload), (vs_super _ _ _ _ _ _ _ Hvol) as [_ Hsn], (vs_users _ _ _ _ _ _ _ Hvol) as [_ Hut].
  rewrite (response_eq _ _ _ _ _ _ Hrd). unfold verify_and_mount. rewrite Hk, Hsig. cbn [negb].
  destruct (Hsn empty_ctx) as (sn & Hsup & Hsame). rewrite <- (reads_buf _ _ _ _ Hrd) in Hsup.
  destruct (Hut ctx') as (tb & Htb & Hown & Hul). rewrite Hload in Htb. injection Htb as Htb. exists sn.
  unfold nexus_vfs_mount. rewrite Hvk. cbn [mbind option_bind]. rewrite Hvd. cbn [mbind option_bind]. rewrite Hsup.
  cbn [mbind option_bind dcache_init_root d_alloc]. assert (Hu : usertable_uuid sn = ve_users e) by apply Hsame.
  destruct (se_meta s1); [..|done]; cbn [mbind option_bind Z.eqb negb];
    unfold nexus_verfiy_pubkey, acquire_user_table; cbn [se_table with_mount se_supernode se_pubkey_hash]; rewrite Htab; cbn [mbind option_bind];
    rewrite Hu, Htb; cbn [se_pubkey_hash with_table with_mount mbind option_bind]; rewrite Hh;
    (match goal with |- context [with_login ?s _ _] => exists s, tb end); by split_and!.
Qed.

(** The owner answers the challenge to his key: he is logged in when the key
    that was challenged is spelled as the one the volume was created with. *)
Lemma owner_logs_in vk e pubkey log dsn dut s1 a c rt ce b k sg :
  NoDup [ve_my e; ve_root e; ve_hardlinks e; ve_users e; ve_policies e; ve_space e] ->
  volume_stored vk e order pubkey log dsn dut -> login_served vk e log dsn dut a c rt ce b -> unmounted s1 ->
  se_pubkey s1 = Some k -> se_pubkey_hash s1 = sha256 k -> (exists key, se_volumekey s1 = Some key /\ k_data key = Some vk) ->
  pk_verify k (sha256 (se_nonce s1 ++ dsn)) sg = true ->
  if decide (sha256 k = sha256 pubkey) then
    exists s2 sn, ecall_authentication_response s1 a (ve_my e) (Some sg) = Some (s2, 0) /\
      se_user s2 = Some FoundOwner /\ se_user_id s2 = NEXUS_ROOT_USER /\ se_supernode s2 = Some sn /\ sn_same (ve_supernode e) sn /\
      owner_mounts vk sn rt ce b = true
  else se_cache_live s1 = true ->
    exists s2, ecall_authentication_response s1 a (ve_my e) (Some sg) = Some (s2, -1) /\ se_user s2 = None /\ se_supernode s2 = None.
Proof.
  intros Hnd Hvol Hls Hun Hk Hh Hvk Hsig.
  destruct (owner_verified _ _ _ _ _ _ _ _ _ _ _ _ _ _ Hvol Hls Hun Hk Hh Hvk Hsig) as (sn & s2 & tb & Hsup & Hsame & Hsn & Hlive & Hpk & Hown & Hul & ->).
  unfold nexus_usertable_find_pubkey_hash, usertable_find_pubkey_hash. rewrite Hown, Hul. unfold nexus_hash_compare.
  pose proof (memcmp_eq (sha256 pubkey) (sha256 k)) as Hcmp. rewrite !sha256_length in Hcmp. specialize (Hcmp eq_refl).
  case_decide as Hsame_hash.
  - rewrite (proj2 (Z.eqb_eq _ 0)) by (by apply Hcmp). cbn [mbind option_bind Z.eqb negb].
    pose proof (served_mounts _ _ _ _ _ _ _ _ _ _ _ _ Hnd Hvol Hls Hsame) as Hmo.
    rewrite (ls_abac _ _ _ _ _ _ _ _ _ _ Hls _ Hsup), Hmo. cbn [negb mbind option_bind Z.eqb]. eexists _, sn. split; [done|].
    rewrite (clear_keeps se_user), (clear_keeps se_user_id), (clear_keeps se_supernode) by done. done.
  - intros Hl. rewrite (proj2 (Z.eqb_neq _ 0)) by (intros Hz; apply Hsame_hash; symmetry; by apply Hcmp).
    cbn [list_find fmap option_fmap option_map mbind option_bind Z.eqb negb]. unfold nexus_vfs_deinit. cbn [se_cache_live with_login].
    rewrite Hlive, Hl. cbn [negb mbind option_bind Z.eqb]. eexists. split; [done|].
    by rewrite (clear_keeps se_user), (clear_keeps se_supernode) by done.
Qed.

(** C4: a volume from its creation to its owner's first login. With a store
    that goes along, memory for the key and a sealed key that fits its string,
    creating a volume in an enclave that has loaded no attribute space returns
    0, the UUID of the supernode and the sealed volume key, and clears the key;
    what was sent to the store is a volume: an empty root directory, no links,
    no policies, no attributes. Any enclave that has mounted nothing loads the
    key from the sealed buffer when it challenges the owner's public key,
    [printed] when mbedtls writes it out again. If the owner signs the
    challenge over the supernode that was sent and the store serves the new
    volume, he is logged in as its owner, its attribute space and policy store
    are loaded, and the login returns 0, provided that [printed] hashes as the
    text the volume was created with; an owner whose key was spelled
    differently is turned away with -1. *)
Theorem created_volume_opens k s e h pubkey printed :
  volume_ok e -> unknown (rt_bufs s) e -> rt_space s = None -> 0 < next_addr h ->
  length (ve_key e) = 16%nat -> Forall byte_ok (ve_key e) -> ve_alloc e = true ->
  (length (nexus_base64_encode (sgx_seal (ve_rnd e) (ve_key e))) <= MAX_KEY_STR)%nat -> key_to_str pubkey = Some printed ->
  exists s' kb dsn dut, ecall_create_volume order k s e h pubkey = Some (None, s', 0, Some (ve_my e), Some kb) /\
    volume_stored (ve_key e) e order pubkey (rt_log s') dsn dut /\
    forall se nonce, unmounted se -> exists s1, ecall_authentication_challenge table_addr se pubkey kb nonce = Some (s1, 0, Some nonce) /\
      forall a c sg rt ce b, login_served (ve_key e) e (rt_log s') dsn dut a c rt ce b -> pk_verify printed (sha256 (nonce ++ dsn)) sg = true ->
        if decide (sha256 printed = sha256 pubkey) then
          exists s2 sn, ecall_authentication_response s1 a (ve_my e) (Some sg) = Some (s2, 0) /\
            se_user s2 = Some FoundOwner /\ se_user_id s2 = NEXUS_ROOT_USER /\ se_supernode s2 = Some sn /\ sn_same (ve_supernode e) sn /\
            owner_mounts (ve_key e) sn rt ce b = true
        else se_cache_live se = true ->
          exists s2, ecall_authentication_response s1 a (ve_my e) (Some sg) = Some (s2, -1) /\ se_user s2 = None /\ se_supernode s2 = None.
Proof.
  intros Hok Hun Hsp Hh Hkl Hkb Hal Hlen Hpub. unfold ecall_create_volume, nexus_enclave_volumekey_generate, nexus_generate_key.
  cbn [raw_key_bytes]. rewrite take_ge by (rewrite Hkl; done). cbn [Z.eqb negb mbind option_bind k_data].
  destruct (nx_created (ve_key e) e s h pubkey Hok Hun Hsp Hh) as (s' & dsn & dut & -> & Hvol). cbn [mbind option_bind Z.eqb negb].
  set (key := mk_key NEXUS_RAW_128_KEY None (Some (ve_key e))).
  assert (Hwf : key_wf key) by (exists (ve_key e); split; [done|]; split; [done|]; cbn; rewrite Hkl; done).
  destruct (volumekey_sealed table_addr (Some key) None key (ve_rnd e)) as (kb & Hkbuf & _); [done..|].
  unfold nexus_enclave_volumekey_serialize. cbn [mbind option_bind]. rewrite Hal. fold key. rewrite Hkbuf. cbn [mbind option_bind].
  exists s', kb, dsn, dut. split; [done|]. split; [done|]. intros se nonce [Hm Ht].
  destruct (volumekey_sealed table_addr (Some key) (se_volumekey se) key (ve_rnd e)) as (kb' & Hkbuf' & Hload); [done..|].
  rewrite Hkbuf in Hkbuf'. injection Hkbuf' as <-.
  assert (Hch : exists s1, ecall_authentication_challenge table_addr se pubkey kb nonce = Some (s1, 0, Some nonce) /\
    se_volumekey s1 = Some key /\ se_cache_live s1 = se_cache_live se).
  { unfold ecall_authentication_challenge, load_auth_pubkey, crypto_hash_pubkey. rewrite Hpub. cbn [fmap option_fmap option_map Z.eqb negb].
    cbn [se_volumekey with_pubkey]. rewrite (clear_keeps se_volumekey) by done. rewrite Hload. cbn [mbind option_bind Z.eqb negb]. eexists.
    split; [done|]. split; [done|]. cbn. by rewrite (clear_keeps se_cache_live). }
  destruct Hch as (s1 & Hch & Hvk & Hlive). exists s1. split; [done|]. intros a c sg rt ce b Hls Hsig.
  destruct (challenge_ok _ _ _ _ _ _ _ Hch) as (k0 & Hk0 & Hpk & Hph & Hn & _ & Htab & Hme). rewrite Hpub in Hk0. injection Hk0 as <-.
  rewrite <- Hlive. apply (owner_logs_in _ _ _ _ _ _ _ _ _ _ _ _ _ _ (vo_new _ Hok) Hvol Hls); [split; congruence|done|done|by exists key|by rewrite Hn].
Qed.
(** The store refuses to lock the user table. *)
Definition refuse_users (e : volume_env) (r : reply) : volume_env :=
  mk_venv (ve_my e) (ve_root e) (ve_hardlinks e) (ve_users e) (ve_policies e) (ve_space e) (ve_bucket e) (ve_key e)
    (ve_new_space e) (ve_new_policies e) (ve_new_root e) (ve_new_hardlinks e) (mk_create r (cr_put (ve_new_users e))) (ve_new_super e)
    (ve_acquire e) (ve_rnd e) (ve_alloc e).

(** The code then leaves with the result of the step before: a volume without
    user table and supernode is reported as created, with a sealed key for it
    and without a UUID. *)
Theorem refused_lock_reports_success k s e r h pubkey :
  volume_ok e -> unknown (rt_bufs s) e -> rt_space s = None -> 0 < next_addr h -> failed r = true ->
  length (ve_key e) = 16%nat -> Forall byte_ok (ve_key e) -> ve_alloc e = true ->
  (length (nexus_base64_encode (sgx_seal (ve_rnd e) (ve_key e))) <= MAX_KEY_STR)%nat ->
  exists s' kb, ecall_create_volume order k s (refuse_users e r) h pubkey = Some (None, s', 0, None, Some kb).
Proof.
  intros Hok Hun Hsp Hh Hr Hkl Hkb Hal Hlen. pose proof (vo_new _ Hok) as Hnd. unfold unknown in Hun. rewrite !Forall_cons in Hun.
  destruct Hun as (_ & B2 & B3 & B4 & B5 & B6 & _). do 6 (apply NoDup_cons in Hnd as [? Hnd]).
  unfold ecall_create_volume, nexus_enclave_volumekey_generate, nexus_generate_key.
  change (ve_key (refuse_users e r)) with (ve_key e). cbn [raw_key_bytes]. rewrite take_ge by (rewrite Hkl; done).
  cbn [Z.eqb negb mbind option_bind k_data]. unfold nx_create_volume.
  destruct (abac_created (ve_key e) e Hok s B6 B5 Hsp) as (s1 & dsp & dps & Ha & G1 & _ & _ & T1).
  change (abac_runtime_create (ve_key e) (ve_supernode (refuse_users e r)) s (ve_new_space (refuse_users e r)) (ve_new_policies (refuse_users e r))
    (ve_acquire (refuse_users e r))) with (abac_runtime_create (ve_key e) (ve_supernode e) s (ve_new_space e) (ve_new_policies e) (ve_acquire e)).
  rewrite Ha. cbn [mbind option_bind Z.eqb negb].
  destruct (root_created (ve_key e) e Hok s1 dsp h G1) as (s2 & drt & Hro & _ & T2 & _); [rewrite (to_bufs _ _ _ T1) by set_solver; done|done|].
  change (create_root (ve_key e) s1 (refuse_users e r) h) with (create_root (ve_key e) s1 e h). rewrite Hro. cbn [mbind option_bind Z.eqb negb].
  destruct (hardlinks_created (ve_key e) e Hok order order_perm s2) as (s3 & dhl & Hhl & _ & T3 & _);
    [rewrite (to_bufs _ _ _ T2), (to_bufs _ _ _ T1) by set_solver; done|].
  change (create_hardlink_table order (ve_key e) s2 (refuse_users e r)) with (create_hardlink_table order (ve_key e) s2 e). rewrite Hhl.
  cbn [mbind option_bind Z.eqb negb]. unfold create_usertable, buffer_layer_lock.
  assert (Hb : bcache_get (rt_bufs s3) (ve_users e) = None) by (rewrite (to_bufs _ _ _ T3), (to_bufs _ _ _ T2), (to_bufs _ _ _ T1) by set_solver; done).
  change (ut_my_uuid _) with (ve_users e). rewrite Hb. change (cr_lock (ve_new_users (refuse_users e r))) with r. rewrite Hr.
  cbn [Z.eqb negb mbind option_bind].
  set (key := mk_key NEXUS_RAW_128_KEY None (Some (ve_key e))).
  assert (Hwf : key_wf key) by (exists (ve_key e); split; [done|]; split; [done|]; cbn; rewrite Hkl; done).
  destruct (volumekey_sealed table_addr (Some key) None key (ve_rnd e)) as (kb & Hkbuf & _); [done..|].
  unfold nexus_enclave_volumekey_serialize. cbn [mbind option_bind]. change (ve_alloc (refuse_users e r)) with (ve_alloc e).
  change (ve_rnd (refuse_users e r)) with (ve_rnd e). rewrite Hal. fold key. rewrite Hkbuf. cbn [mbind option_bind]. by do 2 eexists.
Qed.
End volume.

(** ** A concrete volume *)
Definition new_ok : create_env := mk_create reply_ok (toy_env reply_ok).
(** The store answers with what it was sent last. *)
Definition honest (u : uuid) (log : list ocall) : acq_env :=
  let r := mk_getreply 0 (apply_trace ∅ log !! u) 9 in mk_acq false r (mk_reval reply_ok 0 r reply_ok).
Definition toy_volume : volume_env :=
  mk_venv (uuid_const 1) (uuid_const 2) (uuid_const 3) (uuid_const 4) (uuid_const 5) (uuid_const 6) (uuid_const 7) (replicate 16 9)
    new_ok new_ok new_ok new_ok new_ok new_ok (honest (uuid_const 6)) [] true.
Definition toy_runtime : runtime := mk_runtime buffer_layer_init None None None None [].
Definition toy_order (tb : hardlink_table) : list (uuid * Z) := map_to_list (hl_entries tb).

(** The store serves the two objects of the engine. *)
Definition toy_mount (dsp dps : bytes) : call_env :=
  mk_call (answering []) (answering dps) (answering dsp) (answering dsp) (mk_getreply 0 None 0) reply_ok (toy_env reply_ok) (toy_env reply_ok)
    reply_ok (mk_getreply 0 None 0) reply_ok (fun _ => uuid_const 40) 1.

Lemma toy_volume_ok : volume_ok toy_volume.
Proof.
  split.
  - repeat constructor.
  - apply (bool_decide_unpack _). by vm_compute.
  - assert (Hc : create_ok new_ok).
    { split; [done|]. split; [done|]. split; [|split]; [apply toy_draw_ok; unfold byte_ok; lia..|by eexists]. }
    by repeat constructor.
  - intros log data Hh. cbn [ve_acquire toy_volume]. unfold honest. unfold holds in Hh. change (ve_space toy_volume) with (uuid_const 6) in Hh. rewrite Hh. split; by eexists.
Qed.

Lemma created_volume_opens_witness :
  exists s' kb dsn s1 a sg s2 sn,
    ecall_create_volume (H := toy_cipher) (H0 := toy_wrap) (H1 := toy_storage) (H2 := toy_hash) toy_order None toy_runtime toy_volume
      (mk_dheap ∅ 1) [1] = Some (None, s', 0, Some (uuid_const 1), Some kb) /\
    holds (rt_log s') (uuid_const 1) dsn /\
    ecall_authentication_challenge (H0 := toy_wrap) (H1 := toy_storage) (H2 := toy_hash) (H3 := toy_private) 0 toy_session [1] kb toy_nonce =
      Some (s1, 0, Some toy_nonce) /\
    ecall_authentication_response (H := toy_cipher) (H0 := toy_wrap) (H2 := toy_hash) (H4 := toy_signatures) s1 a (uuid_const 1) (Some sg) = Some (s2, 0) /\
    se_user_id s2 = NEXUS_ROOT_USER /\ se_supernode s2 = Some sn /\ sn_root_uuid sn = uuid_const 2.
Proof.
  destruct (created_volume_opens (H := toy_cipher) (H0 := toy_wrap) (H1 := toy_storage) (H2 := toy_hash) (H3 := toy_private) (H4 := toy_signatures)
    toy_order (fun tb => reflexivity _) 0 None toy_runtime toy_volume (mk_dheap ∅ 1) [1] [1]) as (s' & kb & dsn & dut & Hcr & Hvol & Hlog).
  - apply toy_volume_ok.
  - repeat constructor.
  - done.
  - done.
  - done.
  - apply Forall_replicate. unfold byte_ok. lia.
  - done.
  - apply Nat.leb_le. by vm_compute.
  - done.
  - destruct (Hlog toy_session toy_nonce) as (s1 & Hch & Hresp); [by split|].
    destruct (vs_users _ _ _ _ _ _ _ Hvol) as [_ Hut]. destruct (Hut empty_ctx) as (tb & Htb & _).
    destruct (vs_super _ _ _ _ _ _ _ Hvol) as [Hsent Hsn]. destruct (Hsn empty_ctx) as (sn0 & Hsn0 & _).
    destruct (vs_space _ _ _ _ _ _ _ Hvol) as (dsp & Hdsp & _), (vs_policies _ _ _ _ _ _ _ Hvol) as (dps & Hdps & _).
    set (ce := toy_mount dsp dps).
    set (a := mk_auth buffer_layer_init 0 (Some dsn) 9 (fun _ => Some tb) Some
      (owner_mounts (H := toy_cipher) (H0 := toy_wrap) (ve_key toy_volume) sn0 toy_runtime ce 1)).
    set (c := mk_cbuf empty_ctx (external_version dsn) 0 (ve_my toy_volume) (Some (ExtStore dsn)) None).
    destruct (Hresp a c ([1] ++ sha256 (PubkeyHash := toy_hash) (toy_nonce ++ dsn)) toy_runtime ce 1) as (s2 & sn & Hr & _ & Hid & Hsup & Hsame & _).
    + split; [by split|exists empty_ctx; exact Htb|split_and!; done
        |exists dsp, 20; split; [exact Hdsp|reflexivity]|exists dps, 20; split; [exact Hdps|reflexivity]|].
      intros sn1 Hsn1. pose proof (eq_trans (eq_sym Hsn0) Hsn1) as [= <-]. reflexivity.
    + cbn [pk_verify toy_signatures]. by apply bool_decide_eq_true.
    + exists s', kb, dsn, s1, a, ([1] ++ sha256 (PubkeyHash := toy_hash) (toy_nonce ++ dsn)), s2, sn. split; [exact Hcr|].
      split; [exact Hsent|]. split; [exact Hch|]. split; [exact Hr|]. split; [done|]. split; [done|]. apply Hsame.
Defined.
