(* ===== verification/Store.v ===== *)
(** * Raw files and the two-level data store

    Models [libnexus/nexus_raw_file.c] and [datastore_twolevel/main.c], the
    untrusted code that keeps the sealed objects of a volume in files: an
    object is a file named by the hexadecimal form of its UUID, in a directory
    named by the first two digits.  The system calls the code makes act on a
    small model of a POSIX file system: names lead to inodes, an open file has
    an access mode and an offset, an exclusive [flock] on a locked inode never
    returns ([None]).  Any call that may fail for reasons outside the program
    takes its outcome from [fs_faults]; when the list is empty nothing fails. *)
From stdpp Require Import strings.
From S2P Require Import Prelude Types AbacValue KnowledgeBase.

(** ** The file system *)
Record inode := mk_inode { i_data : bytes; i_mtime : Z }.
Record fsys := mk_fs {
  fs_names : gmap bytes Z;
  fs_dirs : gset bytes;
  fs_inodes : gmap Z inode;
  fs_locks : gset Z;
  fs_clock : Z;
  fs_faults : list bool
}.
Implicit Types (fs : fsys) (path : bytes) (data : bytes).

Definition with_names fs m : fsys := mk_fs m (fs_dirs fs) (fs_inodes fs) (fs_locks fs) (fs_clock fs) (fs_faults fs).
Definition with_dirs fs d : fsys := mk_fs (fs_names fs) d (fs_inodes fs) (fs_locks fs) (fs_clock fs) (fs_faults fs).
Definition with_inodes fs m : fsys := mk_fs (fs_names fs) (fs_dirs fs) m (fs_locks fs) (fs_clock fs) (fs_faults fs).
Definition with_locks fs l : fsys := mk_fs (fs_names fs) (fs_dirs fs) (fs_inodes fs) l (fs_clock fs) (fs_faults fs).
Definition with_faults fs l : fsys := mk_fs (fs_names fs) (fs_dirs fs) (fs_inodes fs) (fs_locks fs) (fs_clock fs) l.

(** Whether the next call fails. *)
Definition fails fs : fsys * bool := match fs_faults fs with [] => (fs, false) | b :: l => (with_faults fs l, b) end.

Definition O_WRONLY : Z := 1.
Definition O_RDWR : Z := 2.
Definition O_CREAT : Z := 64.
Definition O_EXCL : Z := 128.
Definition O_TRUNC : Z := 512.
Definition has (flags bits : Z) : bool := negb (Z.land flags bits =? 0).

(** An open file; the access mode is the low two bits of the flags. *)
Record fd := mk_fd { fd_ino : Z; fd_acc : Z; fd_pos : Z }.
Definition readable (d : fd) : bool := (fd_acc d =? 0) || (fd_acc d =? O_RDWR).
Definition writable (d : fd) : bool := (fd_acc d =? O_WRONLY) || (fd_acc d =? O_RDWR).

(** The directory part of a path: what is before its last slash. *)
Definition slash : Z := 47.
Fixpoint after_slash (l : bytes) : bytes := match l with [] => [] | c :: l => if c =? slash then l else after_slash l end.
Definition dirname path : bytes := reverse (after_slash (reverse path)).

(** ** System calls *)
(** [None] results are the [-1] of the call. *)
Definition sys_open fs path (flags : Z) : fsys * option fd :=
  let '(fs, bad) := fails fs in
  if bad then (fs, None)
  else
    let acc := Z.land flags 3 in
    match fs_names fs !! path with
    | Some i =>
        if has flags O_CREAT && has flags O_EXCL then (fs, None)
        else
          (if has flags O_TRUNC then with_inodes fs (<[i := mk_inode [] (fs_clock fs)]> (fs_inodes fs)) else fs, Some (mk_fd i acc 0))
    | None =>
        if has flags O_CREAT && bool_decide (dirname path ∈ fs_dirs fs) then
          let i := fresh (dom (fs_inodes fs)) in
          (with_names (with_inodes fs (<[i := mk_inode [] (fs_clock fs)]> (fs_inodes fs))) (<[path := i]> (fs_names fs)), Some (mk_fd i acc 0))
        else (fs, None)
    end.

(** [flock(fd, LOCK_EX)]: waits for ever on an inode that is locked. *)
Definition sys_flock fs (d : fd) : option (fsys * Z) :=
  let '(fs, bad) := fails fs in
  if bad then Some (fs, -1)
  else if bool_decide (fd_ino d ∈ fs_locks fs) then None
  else Some (with_locks fs ({[fd_ino d]} ∪ fs_locks fs), 0).

(** Closing gives the lock of this descriptor back, also when it fails. *)
Definition sys_close fs (d : fd) (locked : bool) : fsys * Z :=
  let fs := if locked then with_locks fs (fs_locks fs ∖ {[fd_ino d]}) else fs in
  let '(fs, bad) := fails fs in (fs, if bad then -1 else 0).

Definition sys_read fs (d : fd) (n : Z) : fsys * fd * option bytes :=
  let '(fs, bad) := fails fs in
  if bad || negb (readable d) then (fs, d, None)
  else
    match fs_inodes fs !! fd_ino d with
    | Some i =>
        let got := take (Z.to_nat n) (drop (Z.to_nat (fd_pos d)) (i_data i)) in
        (fs, mk_fd (fd_ino d) (fd_acc d) (fd_pos d + Z.of_nat (length got)), Some got)
    | None => (fs, d, None)
    end.

(** Bytes past the end read as zeros once something is written behind them. *)
Definition overwrite (pos : nat) data (old : bytes) : bytes := resize pos 0 old ++ data ++ drop (pos + length data) old.

Definition set_data fs (i : Z) data : fsys := with_inodes fs (<[i := mk_inode data (fs_clock fs)]> (fs_inodes fs)).

Definition sys_write fs (d : fd) data : fsys * fd * Z :=
  let '(fs, bad) := fails fs in
  if bad || negb (writable d) then (fs, d, -1)
  else
    match fs_inodes fs !! fd_ino d with
    | Some i =>
        (if (length data =? 0)%nat then fs else set_data fs (fd_ino d) (overwrite (Z.to_nat (fd_pos d)) data (i_data i)),
         mk_fd (fd_ino d) (fd_acc d) (fd_pos d + Z.of_nat (length data)), Z.of_nat (length data))
    | None => (fs, d, -1)
    end.

Definition file_len fs (d : fd) : Z := Z.of_nat (length (default [] (i_data <$> fs_inodes fs !! fd_ino d))).

(** [lseek] from the start and from the end. *)
Definition sys_lseek_set (d : fd) (off : Z) : fd * Z := if off <? 0 then (d, -1) else (mk_fd (fd_ino d) (fd_acc d) off, off).
Definition sys_lseek_end fs (d : fd) (off : Z) : fd * Z := sys_lseek_set d (file_len fs d + off).

Definition sys_ftruncate fs (d : fd) (n : Z) : fsys * Z :=
  let '(fs, bad) := fails fs in
  if bad || negb (writable d) then (fs, -1)
  else
    match fs_inodes fs !! fd_ino d with
    | Some i => (set_data fs (fd_ino d) (resize (Z.to_nat n) 0 (i_data i)), 0)
    | None => (fs, -1)
    end.

(** [stat]: size and time of the last change. *)
Record stat := mk_stat { st_size : Z; st_mtime : Z }.
Definition sys_stat fs path : fsys * option stat :=
  let '(fs, bad) := fails fs in
  if bad then (fs, None)
  else (fs, i ← fs_names fs !! path; n ← fs_inodes fs !! i; Some (mk_stat (Z.of_nat (length (i_data n))) (i_mtime n))).

Definition sys_unlink fs path : fsys * Z :=
  let '(fs, bad) := fails fs in
  if bad then (fs, -1)
  else match fs_names fs !! path with Some _ => (with_names fs (delete path (fs_names fs)), 0) | None => (fs, -1) end.

Definition sys_link fs (old new : bytes) : fsys * Z :=
  let '(fs, bad) := fails fs in
  if bad then (fs, -1)
  else
    match fs_names fs !! old, fs_names fs !! new with
    | Some i, None => if bool_decide (dirname new ∈ fs_dirs fs) then (with_names fs (<[new := i]> (fs_names fs)), 0) else (fs, -1)
    | _, _ => (fs, -1)
    end.

Definition sys_rename fs (old new : bytes) : fsys * Z :=
  let '(fs, bad) := fails fs in
  if bad then (fs, -1)
  else
    match fs_names fs !! old with
    | Some i =>
        if bool_decide (dirname new ∈ fs_dirs fs) then (with_names fs (<[new := i]> (delete old (fs_names fs))), 0) else (fs, -1)
    | None => (fs, -1)
    end.

(** 0 also when the directory is there already ([EEXIST]), which every caller
    takes for success. *)
Definition sys_mkdir fs path : fsys * Z :=
  let '(fs, bad) := fails fs in if bad then (fs, -1) else (with_dirs fs ({[path]} ∪ fs_dirs fs), 0).

Definition sys_truncate fs path (n : Z) : fsys * Z :=
  let '(fs, bad) := fails fs in
  if bad then (fs, -1)
  else
    match fs_names fs !! path ≫= (fun i => (i,.) <$> fs_inodes fs !! i) with
    | Some (i, f) => (set_data fs i (resize (Z.to_nat n) 0 (i_data f)), 0)
    | None => (fs, -1)
    end.

(** ** Raw files (nexus_raw_file.c) *)
Definition __get_sysopen_flags (mode : Z) : Z :=
  let res := if has mode NEXUS_FREAD then (if has mode NEXUS_FWRITE then Z.lor O_RDWR O_EXCL else 0)
             else if has mode NEXUS_FWRITE then O_WRONLY else 0 in
  if has mode NEXUS_FCREATE then Z.lor res (Z.land (Z.lor O_CREAT O_WRONLY) (Z.lnot O_EXCL)) else res.

Record nexus_file_handle := mk_handle { fh_fd : fd; is_locked : bool; fh_mode : Z; touched : bool }.
Implicit Types (fh : nexus_file_handle).
Definition with_fd fh (d : fd) : nexus_file_handle := mk_handle d (is_locked fh) (fh_mode fh) (touched fh).
Definition touch fh : nexus_file_handle := mk_handle (fh_fd fh) (is_locked fh) (fh_mode fh) true.

Definition nexus_file_handle_open fs path (mode : Z) : option (fsys * option nexus_file_handle) :=
  let '(fs, d) := sys_open fs path (__get_sysopen_flags mode) in
  match d with
  | None => Some (fs, None)
  | Some d =>
      if has mode NEXUS_FWRITE then
        '(fs, ret) ← sys_flock fs d;
        if negb (ret =? 0) then Some (fst (sys_close fs d false), None) else Some (fs, Some (mk_handle d true mode false))
      else Some (fs, Some (mk_handle d false mode false))
  end.

Definition nexus_file_handle_close fs fh : fsys * Z := sys_close fs (fh_fd fh) (is_locked fh).

(** A size that is negative as an [int] cannot be allocated: the process
    exits. *)
Definition nexus_file_handle_read fs fh : option (fsys * nexus_file_handle * option bytes) :=
  let size := s32 (file_len fs (fh_fd fh)) in
  let d := fst (sys_lseek_set (fh_fd fh) 0) in
  if size <? 0 then None
  else
    let '(fs, d, got) := sys_read fs d size in
    let fh := touch (with_fd fh d) in
    Some (fs, fh, match got with Some b => if Z.of_nat (length b) =? size then Some b else None | None => None end).

Definition nexus_file_handle_write fs fh data : fsys * nexus_file_handle * Z :=
  let d := if touched fh then fst (sys_lseek_set (fh_fd fh) 0) else fh_fd fh in
  let size := Z.of_nat (length data) in
  let '(fs, d, nbytes) := sys_write fs d data in
  let fh := touch (with_fd fh d) in
  if negb (s32 nbytes =? s32 size) then (fs, fh, -1)
  else
    let '(fs, ret) := sys_ftruncate fs d size in
    (fs, fh, if ret =? 0 then 0 else -1).

Definition nexus_file_handle_flush fs : fsys * Z := let '(fs, bad) := fails fs in (fs, if bad then -1 else 0).

(** [fopen] and [fread]; [fclose] of the NULL a failed [fopen] returned is a
    memory error. *)
Definition nexus_read_raw_file fs path : option (fsys * Z * option bytes) :=
  let '(fs, st) := sys_stat fs path in
  match st with
  | None => Some (fs, -1, None)
  | Some st =>
      if st_size st <=? 0 then Some (fs, 0, Some [])
      else
        let '(fs, d) := sys_open fs path 0 in
        d ← d;
        let '(fs, d, got) := sys_read fs d (st_size st) in
        let fs := fst (sys_close fs d false) in
        match got with
        | Some b => if Z.of_nat (length b) =? st_size st then Some (fs, 0, Some b) else Some (fs, -1, None)
        | None => Some (fs, -1, None)
        end
  end.

(** [fwrite] of an empty block returns 0, which is taken for an error. *)
Definition nexus_write_raw_file fs path data : fsys * Z :=
  let '(fs, d) := sys_open fs path (Z.lor O_WRONLY (Z.lor O_CREAT O_TRUNC)) in
  match d with
  | None => (fs, -1)
  | Some d =>
      let '(fs, d, n) := sys_write fs d data in
      let ret := if (n =? Z.of_nat (length data)) && negb (length data =? 0)%nat then 0 else -1 in
      (fst (sys_close fs d false), ret)
  end.

Definition nexus_touch_raw_file2 fs path : fsys * Z :=
  let '(fs, d) := sys_open fs path O_CREAT in
  match d with Some d => (fst (sys_close fs d false), 0) | None => (fs, -1) end.

Definition nexus_delete_raw_file fs path : fsys * Z := sys_unlink fs path.

Definition COPY_BUFLEN : Z := 4096.

(** One block per turn; the fuel is one more than the length of the source. *)
Fixpoint copy_loop (n : nat) fs (src dst : fd) : option (fsys * Z) :=
  match n with
  | O => None
  | S n =>
      let '(fs, src, got) := sys_read fs src COPY_BUFLEN in
      match got with
      | None => Some (fs, -1)
      | Some [] => Some (fs, 0)
      | Some b =>
          let '(fs, dst, w) := sys_write fs dst b in
          if negb (w =? Z.of_nat (length b)) then Some (fs, -1) else copy_loop n fs src dst
      end
  end.

Definition nexus_copy_raw_file fs (src_path dst_path : bytes) : option (fsys * Z) :=
  let '(fs, src) := sys_open fs src_path 0 in
  match src with
  | None => Some (fs, -1)
  | Some src =>
      let '(fs, bad) := fails fs in
      if bad then Some (fst (sys_close fs src false), -1)
      else
        let '(fs, dst) := sys_open fs dst_path (Z.lor O_CREAT (Z.lor O_WRONLY O_TRUNC)) in
        match dst with
        | None => Some (fst (sys_close fs src false), -1)
        | Some dst =>
            '(fs, ret) ← copy_loop (S (Z.to_nat (file_len fs src))) fs src dst;
            let fs := fst (sys_close fs src false) in
            let '(fs, closed) := sys_close fs dst false in
            Some (fs, if ret =? 0 then (if closed =? 0 then 0 else -1) else -1)
        end
  end.

(** ** The two-level store (datastore_twolevel/main.c) *)
Definition LEVEL2_DIRNAME_LEN : nat := 2.
Implicit Types (root : bytes) (u : uuid).

Definition level2_dir root u : bytes := root ++ [slash] ++ take LEVEL2_DIRNAME_LEN (nexus_hex_encode u).
Definition full_path root u : bytes := level2_dir root u ++ [slash] ++ nexus_hex_encode u.

Definition __generic_full_path fs root u (makedir : bool) : fsys * option bytes :=
  if makedir then
    let '(fs, ret) := sys_mkdir fs (level2_dir root u) in (fs, if ret =? -1 then None else Some (full_path root u))
  else (fs, Some (full_path root u)).

Definition twolevel_get_uuid fs root u : option (fsys * Z * option bytes) :=
  let '(fs, path) := __generic_full_path fs root u false in
  match path with
  | None => Some (fs, -1, None)
  | Some path =>
      '(fs, ret, b) ← nexus_read_raw_file fs path;
      Some (fs, if ret =? 0 then 0 else -1, b)
  end.

Definition twolevel_fopen fs root u (flags : Z) : option (fsys * option nexus_file_handle) :=
  let '(fs, path) := __generic_full_path fs root u true in
  match path with None => Some (fs, None) | Some path => nexus_file_handle_open fs path flags end.

Definition twolevel_fread fs fh := nexus_file_handle_read fs fh.
Definition twolevel_fwrite fs fh data : fsys * nexus_file_handle * Z :=
  let '(fs, fh, ret) := nexus_file_handle_write fs fh data in (fs, fh, if ret =? 0 then 0 else -1).
Definition twolevel_fclose fs fh := nexus_file_handle_close fs fh.
Definition twolevel_fflush fs := nexus_file_handle_flush fs.

Definition __put_uuid_failsafe fs path data : fsys * Z :=
  let '(fs, ret) := sys_mkdir fs (dirname path) in
  if ret =? -1 then (fs, -1) else nexus_write_raw_file fs path data.

Definition twolevel_put_uuid fs root u data : fsys * Z :=
  let '(fs, path) := __generic_full_path fs root u false in
  match path with
  | None => (fs, -1)
  | Some path => let '(fs, ret) := __put_uuid_failsafe fs path data in (fs, if ret =? 0 then 0 else -1)
  end.

Definition twolevel_update_uuid fs root u data : fsys * Z :=
  let '(fs, path) := __generic_full_path fs root u false in
  match path with
  | None => (fs, -1)
  | Some path => let '(fs, ret) := nexus_write_raw_file fs path data in (fs, if ret =? 0 then 0 else -1)
  end.

Definition twolevel_stat_uuid fs root u : fsys * option stat :=
  let '(fs, path) := __generic_full_path fs root u false in
  match path with None => (fs, None) | Some path => sys_stat fs path end.
Definition twolevel_getattr fs root u : fsys * option stat := twolevel_stat_uuid fs root u.

(** The mode of the new file is left out. *)
Definition twolevel_touch_uuid fs root u : fsys * Z :=
  let '(fs, path) := __generic_full_path fs root u true in
  match path with None => (fs, -1) | Some path => nexus_touch_raw_file2 fs path end.
Definition twolevel_new_uuid fs root u : fsys * Z := twolevel_touch_uuid fs root u.

Definition twolevel_del_uuid fs root u : fsys * Z :=
  let '(fs, path) := __generic_full_path fs root u false in
  match path with
  | None => (fs, -1)
  | Some path => let '(fs, ret) := nexus_delete_raw_file fs path in (fs, if ret =? 0 then 0 else -1)
  end.

Definition twolevel_hardlink_uuid fs root (link_uuid target_uuid : uuid) : fsys * Z :=
  let '(fs, link) := __generic_full_path fs root link_uuid false in
  let '(fs, target) := __generic_full_path fs root target_uuid true in
  match link, target with
  | Some link, Some target => sys_link fs target link
  | _, _ => (fs, -1)
  end.

Definition twolevel_rename_uuid fs root (from_uuid to_uuid : uuid) : fsys * Z :=
  let '(fs, from) := __generic_full_path fs root from_uuid false in
  let '(fs, to) := __generic_full_path fs root to_uuid true in
  match from, to with
  | Some from, Some to => sys_rename fs from to
  | _, _ => (fs, -1)
  end.

(** From the store at [src] to the store at [dst], both of this kind.  Without
    [force_copy] a destination that is newer is kept. *)
Definition twolevel_copy_uuid fs (src dst : bytes) u (force_copy : bool) : option (fsys * Z) :=
  let '(fs, dst_path) := __generic_full_path fs dst u true in
  let '(fs, src_path) := __generic_full_path fs src u false in
  match dst_path, src_path with
  | Some dst_path, Some src_path =>
      let copy fs := '(fs, ret) ← nexus_copy_raw_file fs src_path dst_path; Some (fs, if ret =? 0 then 0 else -1) in
      if force_copy then copy fs
      else
        let '(fs, src_stat) := sys_stat fs src_path in
        match src_stat with
        | None => Some (fs, -1)
        | Some src_stat =>
            let '(fs, dst_stat) := sys_stat fs dst_path in
            if (if dst_stat is Some dst_stat then st_mtime src_stat <? st_mtime dst_stat else false) then Some (fs, 0) else copy fs
        end
  | _, _ => Some (fs, -1)
  end.

Definition twolevel_truncate fs root u (size : Z) : fsys * Z :=
  let '(fs, path) := __generic_full_path fs root u false in
  match path with
  | None => (fs, -1)
  | Some path => let '(fs, ret) := sys_truncate fs path size in (fs, if ret =? 0 then 0 else -1)
  end.
