(* ===== verification/Io.v ===== *)
(** * The I/O layer outside the enclave

    Models [backend_sgx/io.c], [backend_sgx/buffer_manager.c] and the batch
    mode of [backend_sgx/main.c]: the code that answers the ocalls of the
    buffer layer.  It keeps the last known contents of every object in memory,
    reads and writes the store of [Store.v], and in batch mode works on a second
    store, whose changes [io_buffer_sync_buffers] carries over.  A
    [metadata_buf] is found by its UUID; its mutex is a flag, and locking it
    twice never returns ([None]).  [time(NULL)] is the clock of the file
    system. *)
From stdpp Require Import strings.
From S2P Require Import Prelude Types BufferLayer Store.

(** ** The structures *)
(** [buffer] is [buffer_addr] with [buffer_size] bytes behind it. *)
Record metadata_buf := mk_mb {
  buffer : option bytes;
  buffer_time : Z;
  file_mutex : bool;
  io_flags : Z;
  sync_time : Z;
  flush_time : Z;
  file_handle : option nexus_file_handle;
  batch_handle : option nexus_file_handle;
  sync_file_exists : bool;
  batch_file_exists : bool;
  batch_mode_created : bool;
  batch_mode_modified : bool;
  data_size : Z;
  is_dirty : bool;
  is_syncing : bool
}.
Implicit Types (b : metadata_buf) (u : uuid).

Record sgx_backend := mk_backend {
  buffers_table : gmap uuid metadata_buf;
  table_size : Z;
  fsync_mode : bool;
  batch_mode : bool;
  metadata_store : bytes;
  batch_datastore : bytes;
  batch_deleted_uuids : list uuid;
  bk_fs : fsys
}.
Implicit Types (bk : sgx_backend).

Definition with_fs bk fs : sgx_backend :=
  mk_backend (buffers_table bk) (table_size bk) (fsync_mode bk) (batch_mode bk) (metadata_store bk) (batch_datastore bk) (batch_deleted_uuids bk) fs.
Definition with_bufs bk t n : sgx_backend :=
  mk_backend t n (fsync_mode bk) (batch_mode bk) (metadata_store bk) (batch_datastore bk) (batch_deleted_uuids bk) (bk_fs bk).
Definition with_batch_mode bk m : sgx_backend :=
  mk_backend (buffers_table bk) (table_size bk) (fsync_mode bk) m (metadata_store bk) (batch_datastore bk) (batch_deleted_uuids bk) (bk_fs bk).
Definition with_deleted bk l : sgx_backend :=
  mk_backend (buffers_table bk) (table_size bk) (fsync_mode bk) (batch_mode bk) (metadata_store bk) (batch_datastore bk) l (bk_fs bk).

Definition with_buffer b (d : option bytes) (t : Z) : metadata_buf :=
  mk_mb d t (file_mutex b) (io_flags b) (sync_time b) (flush_time b) (file_handle b) (batch_handle b) (sync_file_exists b) (batch_file_exists b)
    (batch_mode_created b) (batch_mode_modified b) (data_size b) (is_dirty b) (is_syncing b).
Definition with_mutex b (m : bool) : metadata_buf :=
  mk_mb (buffer b) (buffer_time b) m (io_flags b) (sync_time b) (flush_time b) (file_handle b) (batch_handle b) (sync_file_exists b) (batch_file_exists b)
    (batch_mode_created b) (batch_mode_modified b) (data_size b) (is_dirty b) (is_syncing b).
Definition with_handles b (f h : option nexus_file_handle) (flags : Z) : metadata_buf :=
  mk_mb (buffer b) (buffer_time b) (file_mutex b) flags (sync_time b) (flush_time b) f h (sync_file_exists b) (batch_file_exists b)
    (batch_mode_created b) (batch_mode_modified b) (data_size b) (is_dirty b) (is_syncing b).
Definition with_times b (sync flush : Z) : metadata_buf :=
  mk_mb (buffer b) (buffer_time b) (file_mutex b) (io_flags b) sync flush (file_handle b) (batch_handle b) (sync_file_exists b) (batch_file_exists b)
    (batch_mode_created b) (batch_mode_modified b) (data_size b) (is_dirty b) (is_syncing b).
Definition with_exists b (sync batch : bool) : metadata_buf :=
  mk_mb (buffer b) (buffer_time b) (file_mutex b) (io_flags b) (sync_time b) (flush_time b) (file_handle b) (batch_handle b) sync batch
    (batch_mode_created b) (batch_mode_modified b) (data_size b) (is_dirty b) (is_syncing b).
Definition with_batch b (created modified : bool) : metadata_buf :=
  mk_mb (buffer b) (buffer_time b) (file_mutex b) (io_flags b) (sync_time b) (flush_time b) (file_handle b) (batch_handle b) (sync_file_exists b)
    (batch_file_exists b) created modified (data_size b) (is_dirty b) (is_syncing b).
Definition with_dirty b (dirty : bool) : metadata_buf :=
  mk_mb (buffer b) (buffer_time b) (file_mutex b) (io_flags b) (sync_time b) (flush_time b) (file_handle b) (batch_handle b) (sync_file_exists b)
    (batch_file_exists b) (batch_mode_created b) (batch_mode_modified b) (data_size b) dirty (is_syncing b).
Definition with_syncing b (s : bool) : metadata_buf :=
  mk_mb (buffer b) (buffer_time b) (file_mutex b) (io_flags b) (sync_time b) (flush_time b) (file_handle b) (batch_handle b) (sync_file_exists b)
    (batch_file_exists b) (batch_mode_created b) (batch_mode_modified b) (data_size b) (is_dirty b) s.
Definition with_data_size b (n : Z) : metadata_buf :=
  mk_mb (buffer b) (buffer_time b) (file_mutex b) (io_flags b) (sync_time b) (flush_time b) (file_handle b) (batch_handle b) (sync_file_exists b)
    (batch_file_exists b) (batch_mode_created b) (batch_mode_modified b) n (is_dirty b) (is_syncing b).

Definition now bk : Z := fs_clock (bk_fs bk).

(** ** The table (buffer_manager.c) *)
Definition buffer_manager_find bk u : option metadata_buf := buffers_table bk !! u.

(** An old buffer of the UUID is freed. *)
Definition buffer_manager_add bk u b : sgx_backend :=
  let n := if buffer_manager_find bk u is Some _ then table_size bk -64 1 else table_size bk in
  with_bufs bk (<[u := b]> (buffers_table bk)) (n +64 1).

Definition buffer_manager_del bk u : sgx_backend := with_bufs bk (delete u (buffers_table bk)) (table_size bk).

(** Writing through the pointer to a buffer that is in the table. *)
Definition put_buf bk u b : sgx_backend := with_bufs bk (<[u := b]> (buffers_table bk)) (table_size bk).

(** ** Buffers (io.c) *)
Definition __alloc_metadata_buf : metadata_buf := mk_mb None 0 false 0 0 0 None None false false false false 0 false false.

Definition __update_metadata_buf bk b data : metadata_buf := with_buffer b (Some data) (now bk).

Definition __get_backend_datastore bk : bytes := if batch_mode bk then batch_datastore bk else metadata_store bk.

Definition in_batch bk b : bool := batch_mode bk && negb (is_syncing b).
Definition __metadata_buf_get_handle bk b : option nexus_file_handle := if in_batch bk b then batch_handle b else file_handle b.
Definition __metadata_buf_get_datastore bk b : bytes := if in_batch bk b then batch_datastore bk else metadata_store bk.
(** Moving the offset of the open file. *)
Definition set_handle bk b fh : metadata_buf :=
  if in_batch bk b then with_handles b (file_handle b) (Some fh) (io_flags b) else with_handles b (Some fh) (batch_handle b) (io_flags b).

Definition __acquire_metadata_buf bk b : option (metadata_buf * bool) :=
  match __metadata_buf_get_handle bk b with
  | None => Some (b, false)
  | Some _ =>
      if nexus_io_in_lock_mode (io_flags b) then if file_mutex b then None else Some (with_mutex b true, true)
      else Some (b, true)
  end.

Definition __release_metadata_buf bk b : sgx_backend * metadata_buf * Z :=
  match __metadata_buf_get_handle bk b with
  | None => (bk, b, 0)
  | Some fh =>
      let flags := io_flags b in
      let '(fs, ret) := twolevel_fclose (bk_fs bk) fh in
      let bk := with_fs bk fs in
      let was_synced := if file_handle b is Some _ then true else false in
      let b := with_dirty (with_handles b None None 0) false in
      let b := if nexus_io_in_lock_mode flags
               then with_mutex (with_times b (if (ret =? 0) && was_synced then now bk else sync_time b) (now bk)) false
               else b in
      (bk, b, ret)
  end.

Definition __copy_metadata_file_to_batch_directory bk u b (check_exists : bool) : option (sgx_backend * metadata_buf * Z) :=
  if check_exists && batch_file_exists b then Some (bk, b, 0)
  else
    '(fs, ret) ← twolevel_copy_uuid (bk_fs bk) (metadata_store bk) (batch_datastore bk) u true;
    let bk := with_fs bk fs in
    if negb (ret =? 0) then Some (bk, b, -1) else Some (bk, with_exists b true true, 0).

Definition __open_metadata_file bk u b (flags : Z) : option (sgx_backend * metadata_buf * bool) :=
  match __metadata_buf_get_handle bk b with
  | Some _ =>
      if negb (Z.land flags (io_flags b) =? flags) then Some (bk, b, false)
      else '(b, ok) ← __acquire_metadata_buf bk b; Some (bk, b, ok)
  | None =>
      let copies := batch_mode bk && negb (has flags NEXUS_FCREATE) && negb (is_syncing b) && negb (batch_mode_created b) in
      '(bk, b, ret) ← (if copies then __copy_metadata_file_to_batch_directory bk u b true else Some (bk, b, 0));
      if negb (ret =? 0) then Some (bk, b, false)
      else
        let batch := in_batch bk b in
        '(fs, fh) ← twolevel_fopen (bk_fs bk) (__metadata_buf_get_datastore bk b) u flags;
        let bk := with_fs bk fs in
        match fh with
        | None => Some (bk, b, false)
        | Some fh =>
            let b := if batch then with_handles b (file_handle b) (Some fh) flags else with_handles b (Some fh) (batch_handle b) flags in
            let b := if batch && has flags NEXUS_FCREATE then with_exists (with_batch b true (batch_mode_modified b)) (sync_file_exists b) true
                     else if negb batch then with_exists b true (batch_file_exists b) else b in
            '(b, ok) ← __acquire_metadata_buf bk b;
            Some (bk, b, ok)
        end
  end.

(** ** Filenodes: metadata behind the data of a file *)
Definition INFO_SIZE : nat := 8.

(** Seek to the record at the end, read it, seek to the metadata, read it. *)
Definition __parse_filenode fs fh : fsys * nexus_file_handle * option bytes :=
  let '(d, pos) := sys_lseek_end fs (fh_fd fh) (- Z.of_nat INFO_SIZE) in
  if pos =? -1 then (fs, with_fd fh d, None)
  else
    let '(fs, d, info) := sys_read fs d (Z.of_nat INFO_SIZE) in
    match info with
    | Some info =>
        if negb (length info =? INFO_SIZE)%nat then (fs, with_fd fh d, None)
        else
          let metadata_size := le_decode (take 4 info) in
          let filedata_size := le_decode (drop 4 info) in
          let '(d, _) := sys_lseek_set d filedata_size in
          let '(fs, d, got) := sys_read fs d metadata_size in
          (fs, with_fd fh d, match got with Some g => if s32 (Z.of_nat (length g)) =? s32 metadata_size then Some g else None | None => None end)
    | None => (fs, with_fd fh d, None)
    end.

Definition __filenode_total_size (metadata_size filedata_size : Z) : Z := u32 (metadata_size + filedata_size) + Z.of_nat INFO_SIZE.

Definition __store_filenode fs fh data (filedata_size : Z) : fsys * nexus_file_handle * Z :=
  let metadata_size := u32 (Z.of_nat (length data)) in
  let filedata_size := u32 filedata_size in
  let '(fs, ret) := sys_ftruncate fs (fh_fd fh) (__filenode_total_size metadata_size filedata_size) in
  if negb (ret =? 0) then (fs, fh, -1)
  else
    let '(d, _) := sys_lseek_set (fh_fd fh) filedata_size in
    let '(fs, d, n) := sys_write fs d data in
    if negb (s32 n =? s32 (Z.of_nat (length data))) then (fs, with_fd fh d, -1)
    else
      let '(fs, d, n) := sys_write fs d (le_encode 4 metadata_size ++ le_encode 4 filedata_size) in
      (fs, with_fd fh d, if s32 n =? Z.of_nat INFO_SIZE then 0 else -1).

(** ** Reading *)
Definition __read_metadata_file bk b : option (sgx_backend * metadata_buf * Z) :=
  fh ← __metadata_buf_get_handle bk b;
  if has (io_flags b) NEXUS_IO_FNODE then
    let '(fs, fh, got) := __parse_filenode (bk_fs bk) fh in
    let bk := with_fs bk fs in let b := set_handle bk b fh in
    Some (match got with Some data => (bk, __update_metadata_buf bk b data, 0) | None => (bk, b, -1) end)
  else
    '(fs, fh, got) ← twolevel_fread (bk_fs bk) fh;
    let bk := with_fs bk fs in let b := set_handle bk b fh in
    Some (match got with Some data => (bk, __update_metadata_buf bk b data, 0) | None => (bk, b, -1) end).

Definition __write_metadata_file bk b data : option (sgx_backend * metadata_buf * Z) :=
  fh ← __metadata_buf_get_handle bk b;
  let '(fs, fh, ret) := twolevel_fwrite (bk_fs bk) fh data in
  let bk := with_fs bk fs in Some (bk, set_handle bk b fh, if ret =? 0 then 0 else -1).

Definition __flush_metadata_file bk b : sgx_backend * metadata_buf * Z :=
  if in_batch bk b then (bk, with_dirty b true, 0)
  else if fsync_mode bk then
    let '(fs, ret) := twolevel_fflush (bk_fs bk) in
    let bk := with_fs bk fs in if ret =? 0 then (bk, with_dirty b false, 0) else (bk, b, -1)
  else (bk, with_dirty b false, 0).

(** The part of [__io_buffer_read] from [read_datastore] on. *)
Definition read_datastore bk u b (flags : Z) (st : stat) (is_new : bool) : option (sgx_backend * option metadata_buf) :=
  let finish bk b := Some (if is_new then buffer_manager_add bk u b else put_buf bk u b, Some b) in
  let fail bk b (opened : bool) :=
    let '(bk, b, _) := if opened then __release_metadata_buf bk b else (bk, b, 0) in
    Some (if is_new then bk else put_buf bk u b, None) in
  if st_size st =? 0 then finish bk (__update_metadata_buf bk b [])
  else
    let opens := if __metadata_buf_get_handle bk b is Some _ then false else true in
    '(bk, b, ok) ← (if opens then __open_metadata_file bk u b flags else Some (bk, b, true));
    if negb ok then fail bk b false
    else
      '(bk, b, ret) ← __read_metadata_file bk b;
      if negb (ret =? 0) then fail bk b opens
      else
        let '(bk, b, _) := if opens then __release_metadata_buf bk b else (bk, b, 0) in
        finish bk b.

Definition __io_buffer_read bk u (flags : Z) (st : stat) : option (sgx_backend * option metadata_buf) :=
  match buffer_manager_find bk u with
  | None => read_datastore bk u __alloc_metadata_buf flags st true
  | Some b => if is_dirty b || (st_mtime st <=? buffer_time b) then Some (bk, Some b) else read_datastore bk u b flags st false
  end.

Definition io_backend_get_datastore bk u : bytes :=
  if negb (batch_mode bk) then metadata_store bk
  else
    match buffer_manager_find bk u with
    | Some b => if batch_file_exists b then batch_datastore bk else metadata_store bk
    | None => metadata_store bk
    end.

(** ** Locking *)
Definition io_buffer_lock bk u (flags : Z) : option (sgx_backend * bool) :=
  let bk := if buffer_manager_find bk u is Some _ then bk else buffer_manager_add bk u __alloc_metadata_buf in
  b ← buffer_manager_find bk u;
  '(bk, b, ok) ← __open_metadata_file bk u b flags;
  Some (put_buf bk u b, ok).

(** Whether a buffer is returned. *)
Definition io_buffer_unlock bk u : sgx_backend * bool :=
  match buffer_manager_find bk u with
  | None => (bk, false)
  | Some b => let '(bk, b, ret) := __release_metadata_buf bk b in (put_buf bk u b, ret =? 0)
  end.

(** ** The ocalls *)
(** The bytes and the time stamp; the pointer of a buffer that was locked but
    never read may be NULL. *)
Definition io_buffer_get bk u (flags : Z) : option (sgx_backend * option (bytes * Z)) :=
  let '(fs, st) := twolevel_stat_uuid (bk_fs bk) (io_backend_get_datastore bk u) u in
  let bk := with_fs bk fs in
  match st with
  | None => Some (bk, None)
  | Some st =>
      let locks := has flags (Z.lor NEXUS_FWRITE NEXUS_IO_FCRYPTO) in
      '(bk, ok) ← (if locks then io_buffer_lock bk u flags else Some (bk, true));
      if negb ok then Some (bk, None)
      else
        '(bk, b) ← (if has flags NEXUS_FREAD then __io_buffer_read bk u flags st else Some (bk, if locks || batch_mode bk then buffer_manager_find bk u else None));
        match b with
        | None => if has flags NEXUS_FREAD then Some (bk, None) else None
        | Some b => Some (bk, (fun data => (data, buffer_time b)) <$> buffer b)
        end
  end.

(** Return code and time stamp. *)
Definition io_buffer_put bk u data (filedata_size : Z) : option (sgx_backend * Z * Z) :=
  match buffer_manager_find bk u with
  | None => Some (bk, -1, 0)
  | Some b =>
      match __metadata_buf_get_handle bk b with
      | None => Some (bk, -1, 0)
      | Some fh =>
          let fnode := has (io_flags b) NEXUS_IO_FNODE in
          let fail bk b := let '(bk, b, _) := __release_metadata_buf bk b in Some (put_buf bk u b, -1, 0) in
          let stays_dirty := negb fnode && batch_mode bk in
          '(bk, b, ret) ← (if fnode then
                             let '(fs, fh, ret) := __store_filenode (bk_fs bk) fh data filedata_size in
                             let bk := with_fs bk fs in Some (bk, set_handle bk b fh, ret)
                           else if batch_mode bk then Some (bk, b, 0)
                           else __write_metadata_file bk b data);
          if negb (ret =? 0) then fail bk b
          else
            let b := if batch_mode bk then with_batch b (batch_mode_created b) true else b in
            let '(bk, b, ret) := __flush_metadata_file bk b in
            if negb (ret =? 0) then fail bk b
            else
              let '(bk, b, ret) := __release_metadata_buf bk b in
              if negb (ret =? 0) then Some (put_buf bk u b, -1, 0)
              else
                let b := with_dirty (with_data_size (__update_metadata_buf bk b data) filedata_size) stays_dirty in
                Some (put_buf bk u b, 0, buffer_time b)
      end
  end.

Definition io_buffer_new bk u : sgx_backend * Z :=
  let '(fs, ret) := twolevel_new_uuid (bk_fs bk) (__get_backend_datastore bk) u in
  let bk := with_fs bk fs in
  if negb (ret =? 0) then (bk, -1)
  else if batch_mode bk then
    let b := with_times (with_exists (with_batch __alloc_metadata_buf true true) false true) 0 (now bk) in
    (buffer_manager_add bk u b, 0)
  else (bk, 0).

Definition io_buffer_del bk u : sgx_backend * Z :=
  let bk := match buffer_manager_find bk u with
            | Some b => if batch_mode bk && sync_file_exists b then with_deleted bk (batch_deleted_uuids bk ++ [u]) else bk
            | None => bk
            end in
  let bk := buffer_manager_del bk u in
  let '(fs, ret) := twolevel_del_uuid (bk_fs bk) (__get_backend_datastore bk) u in
  (with_fs bk fs, if ret =? 0 then 0 else -1).

Definition io_backend_stat_uuid bk u : sgx_backend * option stat :=
  let '(fs, st) := twolevel_getattr (bk_fs bk) (io_backend_get_datastore bk u) u in
  let bk := with_fs bk fs in
  match st, (if batch_mode bk then buffer_manager_find bk u else None) with
  | Some st, Some b => (bk, Some (if is_dirty b then mk_stat (st_size st) (buffer_time b) else st))
  | st, _ => (bk, st)
  end.

Definition io_buffer_stattime bk u : sgx_backend * option Z := let '(bk, st) := io_backend_stat_uuid bk u in (bk, st_mtime <$> st).

(** ** Batch mode *)
Definition __sync_on_disk_metadata bk u b : option (sgx_backend * metadata_buf * Z) :=
  '(fs, ret) ← twolevel_copy_uuid (bk_fs bk) (batch_datastore bk) (metadata_store bk) u true;
  let bk := with_fs bk fs in
  Some (if ret =? 0 then (bk, with_times b (now bk) (flush_time b), 0) else (bk, b, -1)).

Definition __sync_in_memory_metadata bk u b : option (sgx_backend * metadata_buf * Z) :=
  let flags := if batch_mode_created b then Z.lor NEXUS_FWRITE NEXUS_FCREATE else NEXUS_FWRITE in
  '(bk, b, ok) ← __open_metadata_file bk u b flags;
  if negb ok then Some (bk, b, -1)
  else
    data ← buffer b;
    '(bk, b, ret) ← __write_metadata_file bk b data;
    if negb (ret =? 0) then let '(bk, b, _) := __release_metadata_buf bk b in Some (bk, b, -1)
    else
      let '(bk, b, ret) := __flush_metadata_file bk b in
      if negb (ret =? 0) then let '(bk, b, _) := __release_metadata_buf bk b in Some (bk, b, -1)
      else let '(bk, b, ret) := __release_metadata_buf bk b in Some (bk, b, if ret =? 0 then 0 else -1).

(** One turn of the loop over the table. *)
Definition sync_one bk u : option (sgx_backend * Z) :=
  b ← buffer_manager_find bk u;
  if negb (batch_mode_modified b) then Some (bk, 0)
  else
    let b := with_syncing b true in
    '(bk, b, ret) ← (if is_dirty b then __sync_in_memory_metadata bk u b else __sync_on_disk_metadata bk u b);
    let b := with_exists (with_batch (with_syncing b false) false false) (sync_file_exists b) false in
    Some (put_buf bk u b, ret).

(** The loop ends at the first error. *)
Fixpoint sync_loop bk (order : list uuid) : option (sgx_backend * Z) :=
  match order with
  | [] => Some (bk, 0)
  | u :: order => '(bk, ret) ← sync_one bk u; if negb (ret =? 0) then Some (bk, ret) else sync_loop bk order
  end.

Fixpoint sync_deleted fs root (l : list uuid) : fsys :=
  match l with [] => fs | u :: l => sync_deleted (fst (twolevel_del_uuid fs root u)) root l end.

(** [order] is the order in which the iterator meets the buffers. *)
Definition io_buffer_sync_buffers bk (order : list uuid) : option (sgx_backend * Z) :=
  if negb (batch_mode bk) then Some (bk, 0)
  else if (size (buffers_table bk) =? 0)%nat then Some (bk, 0)
  else
    '(bk, ret) ← sync_loop bk order;
    if negb (ret =? 0) then Some (bk, ret)
    else Some (with_deleted (with_fs bk (sync_deleted (bk_fs bk) (metadata_store bk) (batch_deleted_uuids bk))) [], 0).

Definition sgx_backend_batch_mode_start bk : sgx_backend * Z := (with_batch_mode bk true, 0).
Definition sgx_backend_batch_mode_commit bk (order : list uuid) : option (sgx_backend * Z) :=
  if negb (batch_mode bk) then Some (bk, 0) else io_buffer_sync_buffers bk order.
Definition sgx_backend_batch_mode_finish bk (order : list uuid) : option (sgx_backend * Z) :=
  if negb (batch_mode bk) then Some (bk, 0)
  else
    '(bk, ret) ← io_buffer_sync_buffers bk order;
    if negb (ret =? 0) then Some (bk, -1) else Some (with_batch_mode bk false, 0).

(** ** Transfers of file data *)
(** The buffer is found again by its UUID; [fc_batch] tells which of its two
    handles [file_handle] points to. *)
Record nexus_file_crypto := mk_fc { fc_uuid : uuid; fc_batch : bool; trusted_xfer_id : Z; fc_filesize : Z; fc_mode : Z; fc_offset : Z }.
Implicit Types (fc : nexus_file_crypto).

Definition io_file_crypto_start bk (xfer_id : Z) u (mode filesize : Z) : option nexus_file_crypto :=
  b ← buffer_manager_find bk u;
  _ ← __metadata_buf_get_handle bk b;
  Some (mk_fc u (in_batch bk b) xfer_id filesize mode 0).

(** The handle behind the pointer; a handle that was closed is gone. *)
Definition fc_handle bk fc : option nexus_file_handle :=
  b ← buffer_manager_find bk (fc_uuid fc); if fc_batch fc then batch_handle b else file_handle b.
Definition set_fc_handle bk fc (fh : nexus_file_handle) : sgx_backend :=
  match buffer_manager_find bk (fc_uuid fc) with
  | Some b => put_buf bk (fc_uuid fc) (if fc_batch fc then with_handles b (file_handle b) (Some fh) (io_flags b) else with_handles b (Some fh) (batch_handle b) (io_flags b))
  | None => bk
  end.
Definition with_offset fc (n : Z) : nexus_file_crypto := mk_fc (fc_uuid fc) (fc_batch fc) (trusted_xfer_id fc) (fc_filesize fc) (fc_mode fc) n.

Definition io_file_crypto_seek bk fc (offset : Z) : option (sgx_backend * nexus_file_crypto * Z) :=
  fh ← fc_handle bk fc;
  let '(d, pos) := sys_lseek_set (fh_fd fh) offset in
  Some (if pos =? -1 then (bk, fc, -1) else (set_fc_handle bk fc (with_fd fh d), with_offset fc offset, 0)).

Definition io_file_crypto_read bk fc (nbytes : Z) : option (sgx_backend * nexus_file_crypto * option bytes) :=
  fh ← fc_handle bk fc;
  let '(fs, d, got) := sys_read (bk_fs bk) (fh_fd fh) nbytes in
  let bk := set_fc_handle (with_fs bk fs) fc (with_fd fh d) in
  Some (match got with
        | Some g => if s32 (Z.of_nat (length g)) =? s32 nbytes then (bk, with_offset fc (fc_offset fc +64 Z.of_nat (length g)), Some g) else (bk, fc, None)
        | None => (bk, fc, None)
        end).

Definition io_file_crypto_write bk fc (data : bytes) : option (sgx_backend * nexus_file_crypto * Z) :=
  fh ← fc_handle bk fc;
  let '(fs, d, n) := sys_write (bk_fs bk) (fh_fd fh) data in
  let bk := set_fc_handle (with_fs bk fs) fc (with_fd fh d) in
  Some (if s32 n =? s32 (Z.of_nat (length data)) then (bk, with_offset fc (fc_offset fc +64 n), 0) else (bk, fc, -1)).

(** ** The ocalls of the buffer layer (ocalls.c) *)
(** What an ocall brings back: its return code, the buffer and its time. *)
Record answer := mk_answer { a_ret : Z; a_data : option bytes; a_time : Z }.
Definition answer_code (r : Z) : answer := mk_answer r None 0.

Definition serve bk (o : ocall) : option (sgx_backend * answer) :=
  match o with
  | ocall_buffer_get u flags =>
      '(bk, r) ← io_buffer_get bk u flags;
      Some (bk, match r with Some (data, t) => mk_answer 0 (Some data) t | None => answer_code 0 end)
  | ocall_buffer_put u data n => '(bk, ret, t) ← io_buffer_put bk u data n; Some (bk, mk_answer ret None t)
  | ocall_buffer_lock u flags => '(bk, ok) ← io_buffer_lock bk u flags; Some (bk, answer_code (if (ok : bool) then 0 else 1))
  | ocall_buffer_unlock u => let '(bk, ok) := io_buffer_unlock bk u in Some (bk, answer_code (if ok then 0 else 1))
  | ocall_buffer_new u => let '(bk, ret) := io_buffer_new bk u in Some (bk, answer_code ret)
  | ocall_buffer_del u => let '(bk, ret) := io_buffer_del bk u in Some (bk, answer_code ret)
  | ocall_buffer_stattime u =>
      let '(bk, t) := io_buffer_stattime bk u in Some (bk, match t with Some t => mk_answer 0 None t | None => answer_code (-1) end)
  end.
