(* ===== verification/StoreProps.v ===== *)
(** * The two-level store is a map from UUIDs to files

    Different objects, and the same object in stores with different roots, lie
    in different files; opening, writing, copying and deleting one touches no
    other.  These are the facts the I/O layer of [Io.v] relies on. *)
From stdpp Require Import strings.
From S2P Require Import Prelude Types AbacValue KnowledgeBase Store.

(** ** Names *)
Lemma hex_digit_inj x y : 0 <= x < 16 -> 0 <= y < 16 -> hex_digit x = hex_digit y -> x = y.
Proof. unfold hex_digit. destruct (Z.ltb_spec x 10), (Z.ltb_spec y 10); lia. Qed.
Lemma hex_digit_not_slash x : 0 <= x < 16 -> hex_digit x <> slash.
Proof. unfold hex_digit, slash. destruct (Z.ltb_spec x 10); lia. Qed.

Lemma hex_nibbles z : byte_ok z -> 0 <= z / 16 < 16 /\ 0 <= z mod 16 < 16.
Proof. unfold byte_ok. intros Hz. pose proof (Z.div_mod z 16). pose proof (Z.mod_pos_bound z 16). lia. Qed.

Lemma hex_encode_inj a b : Forall byte_ok a -> Forall byte_ok b -> nexus_hex_encode a = nexus_hex_encode b -> a = b.
Proof.
  intros Ha. revert b. induction Ha as [|x a Hx Ha IH]; intros b Hb He; destruct Hb as [|y b Hy Hb]; try done.
  unfold nexus_hex_encode in He. cbn in He. injection He as H1 H2 He. destruct (hex_nibbles x Hx), (hex_nibbles y Hy).
  apply hex_digit_inj in H1, H2; try done. f_equal; [rewrite (Z.div_mod x 16), (Z.div_mod y 16); lia|]. by apply IH.
Qed.

Lemma length_hex_encode a : length (nexus_hex_encode a) = (2 * length a)%nat.
Proof. unfold nexus_hex_encode. induction a as [|z a IH]; [done|]. cbn [mbind list_bind]. rewrite length_app, IH. simpl. lia. Qed.

Lemma hex_no_slash a : Forall byte_ok a -> slash ∉ nexus_hex_encode a.
Proof.
  induction 1 as [|z a Hz Ha IH]; [set_solver|]. unfold nexus_hex_encode. cbn. destruct (hex_nibbles z Hz) as [H1 H2].
  pose proof (hex_digit_not_slash _ H1). pose proof (hex_digit_not_slash _ H2). set_solver.
Qed.

Lemma full_path_inj r r' u u' : uuid_ok u -> uuid_ok u' -> full_path r u = full_path r' u' -> r = r' /\ u = u'.
Proof.
  intros [Hl Hb] [Hl' Hb'] He. unfold full_path, level2_dir in He. rewrite <- !app_assoc in He.
  apply app_inj_2 in He as [-> He]; [|rewrite !length_app, !length_take, !length_hex_encode, Hl, Hl'; done]. split; [done|].
  injection He as He. apply app_inj_2 in He as [_ He]; [|simpl; by rewrite !length_hex_encode, Hl, Hl']. injection He as He. by apply hex_encode_inj.
Qed.

Lemma after_slash_app l k : slash ∉ l -> after_slash (l ++ slash :: k) = k.
Proof.
  induction l as [|c l IH]; intros Hl; [done|]. cbn. destruct (Z.eqb_spec c slash) as [->|]; [set_solver|]. apply IH. set_solver.
Qed.
Lemma dirname_full_path r u : uuid_ok u -> dirname (full_path r u) = level2_dir r u.
Proof.
  intros [_ Hb]. unfold dirname, full_path. rewrite reverse_app, reverse_app. cbn [reverse]. rewrite reverse_singleton, <- app_assoc.
  cbn [app]. rewrite after_slash_app; [apply reverse_involutive|]. intros Hs. rewrite elem_of_reverse in Hs. by apply (hex_no_slash u Hb) in Hs.
Qed.

(** ** Files *)
Section files.
Implicit Types (fs : fsys) (p q : bytes).

Definition file_at fs p : option inode := fs_names fs !! p ≫= fun i => fs_inodes fs !! i.

(** Nothing fails, every name leads to an inode of its own. *)
Record fs_ok fs : Prop := {
  fo_faults : fs_faults fs = [];
  fo_inode : forall p i, fs_names fs !! p = Some i -> is_Some (fs_inodes fs !! i);
  fo_inj : forall p q i, fs_names fs !! p = Some i -> fs_names fs !! q = Some i -> p = q;
  fo_clock : 0 < fs_clock fs;
  fo_time : forall i n, fs_inodes fs !! i = Some n -> 0 < i_mtime n <= fs_clock fs;
  fo_locks : forall i, i ∈ fs_locks fs -> is_Some (fs_inodes fs !! i)
}.

Lemma no_fault fs : fs_ok fs -> fails fs = (fs, false).
Proof. intros Hok. unfold fails. by rewrite (fo_faults _ Hok). Qed.

(** [fs'] differs from [fs] at [p] only, where it has [f]; directories and
    locks are left aside. *)
Record changes fs fs' p (f : option inode) : Prop := {
  ch_ok : fs_ok fs';
  ch_names : forall q, q <> p -> fs_names fs' !! q = fs_names fs !! q;
  ch_files : forall q, q <> p -> file_at fs' q = file_at fs q;
  ch_file : file_at fs' p = f;
  ch_clock : fs_clock fs' = fs_clock fs
}.

Lemma changes_refl fs p : fs_ok fs -> changes fs fs p (file_at fs p).
Proof. by split. Qed.
Lemma changes_trans fs1 fs2 fs3 p f g : changes fs1 fs2 p f -> changes fs2 fs3 p g -> changes fs1 fs3 p g.
Proof.
  intros [A1 A2 A3 A4 A5] [B1 B2 B3 B4 B5]. split; [done| | |done|congruence]; intros q Hq; [by rewrite B2, A2|by rewrite B3, A3].
Qed.

Lemma file_at_ino fs p i n : fs_ok fs -> fs_names fs !! p = Some i -> file_at fs p = Some n <-> fs_inodes fs !! i = Some n.
Proof. intros _ Hp. unfold file_at. by rewrite Hp. Qed.

Lemma file_at_some fs p n : file_at fs p = Some n -> exists i, fs_names fs !! p = Some i /\ fs_inodes fs !! i = Some n.
Proof. unfold file_at. destruct (fs_names fs !! p) as [i|]; [eauto|done]. Qed.
Lemma file_at_none fs p : fs_ok fs -> file_at fs p = None -> fs_names fs !! p = None.
Proof. unfold file_at. intros Hok. destruct (fs_names fs !! p) as [i|] eqn:Hp; [|done]. destruct (fo_inode _ Hok _ _ Hp) as [n Hn]. cbn. by rewrite Hn. Qed.

(** What directories and locks are plays no part. *)
Lemma fs_ok_dirs fs d : fs_ok fs -> fs_ok (with_dirs fs d).
Proof. by intros []. Qed.
Lemma fs_ok_locks fs l : fs_ok fs -> (forall i, i ∈ l -> is_Some (fs_inodes fs !! i)) -> fs_ok (with_locks fs l).
Proof. by intros []. Qed.
Lemma changes_dirs fs d p : fs_ok fs -> changes fs (with_dirs fs d) p (file_at fs p).
Proof. intros Hok. split; [by apply fs_ok_dirs|done..]. Qed.
Lemma changes_locks fs l p : fs_ok fs -> (forall i, i ∈ l -> is_Some (fs_inodes fs !! i)) -> changes fs (with_locks fs l) p (file_at fs p).
Proof. intros Hok Hl. split; [by apply fs_ok_locks|done..]. Qed.

(** New contents of a file. *)
Lemma changes_data fs p i data : fs_ok fs -> fs_names fs !! p = Some i -> changes fs (set_data fs i data) p (Some (mk_inode data (fs_clock fs))).
Proof.
  intros Hok Hp. pose proof Hok as [Hf Hi Hj Hck Ht Hl]. split; cbn.
  - assert (Hsome : forall j, is_Some (fs_inodes fs !! j) -> is_Some (<[i := mk_inode data (fs_clock fs)]> (fs_inodes fs) !! j)).
    { intros j Hj'. destruct (decide (j = i)) as [->|]; [rewrite lookup_insert_eq; eauto|by rewrite lookup_insert_ne]. }
    split; cbn; [done| |done|done| |]; [| |intros j Hj'; by apply Hsome, Hl].
    + intros q j Hq. apply Hsome. eauto.
    + intros j n. destruct (decide (j = i)) as [->|]; [rewrite lookup_insert_eq; intros [= <-]; cbn; lia|rewrite lookup_insert_ne by done; apply Ht].
  - done.
  - intros q Hq. unfold file_at. cbn. destruct (fs_names fs !! q) as [j|] eqn:Hj'; [|done]. cbn. rewrite lookup_insert_ne; [done|]. intros ->. apply Hq. by eapply Hj.
  - unfold file_at. cbn. rewrite Hp. cbn. apply lookup_insert_eq.
  - done.
Qed.

(** A new file. *)
Lemma changes_create fs p :
  fs_ok fs -> fs_names fs !! p = None ->
  let i := fresh (dom (fs_inodes fs)) in
  let fs' := with_names (with_inodes fs (<[i := mk_inode [] (fs_clock fs)]> (fs_inodes fs))) (<[p := i]> (fs_names fs)) in
  changes fs fs' p (Some (mk_inode [] (fs_clock fs))) /\ fs_names fs' !! p = Some i.
Proof.
  intros Hok Hp i fs'. assert (Hi : fs_inodes fs !! i = None) by (apply not_elem_of_dom; apply is_fresh). pose proof Hok as [Hf Hin Hj Hck Ht Hl].
  assert (Hni : forall q j, fs_names fs !! q = Some j -> j <> i) by (intros q j Hq ->; destruct (Hin _ _ Hq); congruence).
  split; [|unfold fs'; cbn; apply lookup_insert_eq]. split; unfold fs'; cbn.
  - split; cbn; [done|..].
    + intros q j. destruct (decide (q = p)) as [->|]; [rewrite lookup_insert_eq; intros [= <-]; rewrite lookup_insert_eq; eauto|].
      rewrite lookup_insert_ne by done. intros Hq. rewrite lookup_insert_ne by (symmetry; by eapply Hni). eauto.
    + intros q1 q2 j. destruct (decide (q1 = p)) as [->|H1], (decide (q2 = p)) as [->|H2]; rewrite ?lookup_insert_eq, ?lookup_insert_ne by done; [done| | |by apply Hj].
      * intros [= <-] Hq. by apply Hni in Hq.
      * intros Hq [= <-]. by apply Hni in Hq.
    + done.
    + intros j n. destruct (decide (j = i)) as [->|]; [rewrite lookup_insert_eq; intros [= <-]; cbn; lia|rewrite lookup_insert_ne by done; apply Ht].
    + intros j Hj'. destruct (Hl j Hj') as [n Hn]. rewrite lookup_insert_ne by congruence. eauto.
  - intros q Hq. by rewrite lookup_insert_ne.
  - intros q Hq. unfold file_at. cbn. rewrite lookup_insert_ne by done. destruct (fs_names fs !! q) as [j|] eqn:Hj'; [|done]. cbn.
    rewrite lookup_insert_ne; [done|]. symmetry. by eapply Hni.
  - unfold file_at. cbn. by rewrite lookup_insert_eq; cbn; rewrite lookup_insert_eq.
  - done.
Qed.
(** *** Opening *)
Definition store_flags : list Z := [NEXUS_FREAD; NEXUS_FWRITE; NEXUS_FRDWR; NEXUS_FCREATE; Z.lor NEXUS_FWRITE NEXUS_FCREATE].

Lemma store_flags_open flags :
  flags ∈ store_flags ->
  has (__get_sysopen_flags flags) O_TRUNC = false /\ has (__get_sysopen_flags flags) O_CREAT = has flags NEXUS_FCREATE /\
  has (__get_sysopen_flags flags) O_CREAT && has (__get_sysopen_flags flags) O_EXCL = false.
Proof. unfold store_flags. intros Hf. repeat (apply elem_of_cons in Hf as [->|Hf]; [done|]). by apply not_elem_of_nil in Hf. Qed.

Definition opened_fd (flags i : Z) : fd := mk_fd i (Z.land (__get_sysopen_flags flags) 3) 0.

Lemma mkdir_path fs root u : fs_ok fs -> __generic_full_path fs root u true = (with_dirs fs ({[level2_dir root u]} ∪ fs_dirs fs), Some (full_path root u)).
Proof. intros Hok. unfold __generic_full_path, sys_mkdir. rewrite (no_fault _ Hok). done. Qed.

(** The handle of a file that was opened. *)
Definition handle_for (flags i : Z) : nexus_file_handle := mk_handle (opened_fd flags i) (has flags NEXUS_FWRITE) flags false.

Lemma handle_opened fs flags i :
  fs_ok fs -> is_Some (fs_inodes fs !! i) -> (has flags NEXUS_FWRITE = true -> i ∉ fs_locks fs) ->
  exists fs', (if has flags NEXUS_FWRITE then
                 '(fs, ret) ← sys_flock fs (opened_fd flags i);
                 if negb (ret =? 0) then Some (fst (sys_close fs (opened_fd flags i) false), None) else Some (fs, Some (mk_handle (opened_fd flags i) true flags false))
               else Some (fs, Some (mk_handle (opened_fd flags i) false flags false))) = Some (fs', Some (handle_for flags i)) /\
    (forall p, changes fs fs' p (file_at fs p)) /\ fs_names fs' = fs_names fs /\ fs_locks fs' = (if has flags NEXUS_FWRITE then {[i]} ∪ fs_locks fs else fs_locks fs).
Proof.
  intros Hok Hi Hl. unfold handle_for. destruct (has flags NEXUS_FWRITE) eqn:Hw; [|exists fs; split; [done|]; split; [intros p; by apply changes_refl|done]].
  unfold sys_flock. rewrite (no_fault _ Hok). rewrite bool_decide_false by (by apply Hl). cbn [mbind option_bind negb Z.eqb].
  eexists. split; [done|]. split; [|done]. intros p. apply changes_locks; [done|]. intros j. rewrite elem_of_union, elem_of_singleton. intros [->|Hj]; [done|by apply Hok].
Qed.

Lemma fopen_some fs root u flags i :
  fs_ok fs -> flags ∈ store_flags -> fs_names fs !! full_path root u = Some i -> (has flags NEXUS_FWRITE = true -> i ∉ fs_locks fs) ->
  exists fs', twolevel_fopen fs root u flags = Some (fs', Some (handle_for flags i)) /\
    (forall p, changes fs fs' p (file_at fs p)) /\ fs_names fs' = fs_names fs /\ fs_locks fs' = (if has flags NEXUS_FWRITE then {[i]} ∪ fs_locks fs else fs_locks fs).
Proof.
  intros Hok Hf Hi Hl. unfold twolevel_fopen. rewrite (mkdir_path _ _ _ Hok). cbn [mbind]. set (fs1 := with_dirs fs _).
  assert (Hok1 : fs_ok fs1) by (by apply fs_ok_dirs). unfold nexus_file_handle_open, sys_open. rewrite (no_fault _ Hok1).
  change (fs_names fs1) with (fs_names fs). rewrite Hi. destruct (store_flags_open _ Hf) as (Ht & Hc & He). rewrite He, Ht.
  destruct (handle_opened fs1 flags i Hok1) as (fs' & Ho & Hch & Hn & Hlk); [by apply (fo_inode _ Hok1 (full_path root u))|done|].
  exists fs'. split; [exact Ho|]. split; [|done]. intros p. apply (changes_trans _ fs1 _ _ (file_at fs p)); [by apply changes_dirs|apply Hch].
Qed.

Lemma fopen_none fs root u flags :
  fs_ok fs -> flags ∈ store_flags -> fs_names fs !! full_path root u = None -> has flags NEXUS_FCREATE = false ->
  exists fs', twolevel_fopen fs root u flags = Some (fs', None) /\ (forall p, changes fs fs' p (file_at fs p)) /\ fs_names fs' = fs_names fs /\ fs_locks fs' = fs_locks fs.
Proof.
  intros Hok Hf Hi Hc. unfold twolevel_fopen. rewrite (mkdir_path _ _ _ Hok). set (fs1 := with_dirs fs _).
  assert (Hok1 : fs_ok fs1) by (by apply fs_ok_dirs). unfold nexus_file_handle_open, sys_open. rewrite (no_fault _ Hok1).
  change (fs_names fs1) with (fs_names fs). rewrite Hi. destruct (store_flags_open _ Hf) as (_ & Hc' & _). rewrite Hc', Hc. cbn [andb].
  exists fs1. split; [done|]. split; [intros p; by apply changes_dirs|done].
Qed.

Lemma fopen_create fs root u flags :
  fs_ok fs -> uuid_ok u -> flags ∈ store_flags -> fs_names fs !! full_path root u = None -> has flags NEXUS_FCREATE = true ->
  exists fs' i, twolevel_fopen fs root u flags = Some (fs', Some (handle_for flags i)) /\ fs_names fs' !! full_path root u = Some i /\
    changes fs fs' (full_path root u) (Some (mk_inode [] (fs_clock fs))) /\ fs_inodes fs !! i = None /\
    fs_locks fs' = (if has flags NEXUS_FWRITE then {[i]} ∪ fs_locks fs else fs_locks fs).
Proof.
  intros Hok Hu Hf Hi Hc. unfold twolevel_fopen. rewrite (mkdir_path _ _ _ Hok). set (fs1 := with_dirs fs _).
  assert (Hok1 : fs_ok fs1) by (by apply fs_ok_dirs). unfold nexus_file_handle_open, sys_open. rewrite (no_fault _ Hok1).
  change (fs_names fs1) with (fs_names fs). rewrite Hi. destruct (store_flags_open _ Hf) as (_ & Hc' & _). rewrite Hc', Hc. cbn [andb].
  rewrite bool_decide_true by (rewrite dirname_full_path by done; unfold fs1; cbn; set_solver).
  destruct (changes_create fs1 (full_path root u) Hok1 Hi) as [Hch Hn]. cbv zeta in Hch, Hn |- *. set (i := fresh (dom (fs_inodes fs1))) in *. set (fs2 := with_names _ _) in *.
  assert (Hfresh : fs_inodes fs !! i = None) by (apply not_elem_of_dom; apply is_fresh).
  destruct (handle_opened fs2 flags i) as (fs' & Ho & Hch' & Hn' & Hlk); [apply Hch|by apply (fo_inode _ (ch_ok _ _ _ _ Hch) (full_path root u))| |].
  { intros _ Hl. apply (fo_locks _ Hok) in Hl. rewrite Hfresh in Hl. by destruct Hl. }
  exists fs', i. split; [exact Ho|]. split; [by rewrite Hn'|]. split; [|done]. apply (changes_trans _ fs1 _ _ (file_at fs (full_path root u))); [by apply changes_dirs|].
  eapply changes_trans; [exact Hch|].
  replace (Some (mk_inode [] (fs_clock fs))) with (file_at fs2 (full_path root u)) by (exact (ch_file _ _ _ _ Hch)). apply Hch'.
Qed.

(** *** Reading and writing *)

Lemma fread_spec fs fh n :
  fs_ok fs -> fs_inodes fs !! fd_ino (fh_fd fh) = Some n -> readable (fh_fd fh) = true -> Z.of_nat (length (i_data n)) < 2 ^ 31 ->
  exists pos, twolevel_fread fs fh = Some (fs, touch (with_fd fh (mk_fd (fd_ino (fh_fd fh)) (fd_acc (fh_fd fh)) pos)), Some (i_data n)).
Proof.
  intros Hok Hn Hr Hlen. unfold twolevel_fread, nexus_file_handle_read, file_len. rewrite Hn. cbn [fmap option_fmap option_map default from_option id].
  rewrite s32_small by lia. rewrite (proj2 (Z.ltb_ge _ 0)) by lia. unfold sys_lseek_set. change (0 <? 0) with false. cbn [fst]. unfold sys_read. rewrite (no_fault _ Hok).
  cbn [fd_ino fd_pos]. unfold readable in Hr |- *. cbn [fd_acc]. rewrite Hr, Hn. cbn [negb orb]. change (Z.to_nat 0) with O. rewrite drop_0, take_ge by lia.
  rewrite Z.eqb_refl. eexists. done.
Qed.

Lemma fwrite_spec fs fh p n data :
  fs_ok fs -> fs_names fs !! p = Some (fd_ino (fh_fd fh)) -> fs_inodes fs !! fd_ino (fh_fd fh) = Some n -> writable (fh_fd fh) = true ->
  touched fh = true \/ fd_pos (fh_fd fh) = 0 -> Z.of_nat (length data) < 2 ^ 31 ->
  exists fs' pos, twolevel_fwrite fs fh data = (fs', touch (with_fd fh (mk_fd (fd_ino (fh_fd fh)) (fd_acc (fh_fd fh)) pos)), 0) /\
    changes fs fs' p (Some (mk_inode data (fs_clock fs))) /\ fs_names fs' = fs_names fs /\ fs_locks fs' = fs_locks fs.
Proof.
  intros Hok Hp Hn Hw Hpos Hlen. unfold twolevel_fwrite, nexus_file_handle_write. set (d := if touched fh then _ else _).
  assert (Hd : fd_ino d = fd_ino (fh_fd fh) /\ fd_acc d = fd_acc (fh_fd fh) /\ fd_pos d = 0).
  { unfold d. destruct (touched fh); [done|]. destruct Hpos as [Hpos|Hpos]; [done|]. by rewrite Hpos. }
  destruct Hd as (D1 & D2 & D3). unfold sys_write. rewrite (no_fault _ Hok). unfold writable in Hw |- *. rewrite D2, Hw, D1, Hn, D3. cbn [negb orb].
  change (Z.to_nat 0) with O. rewrite Z.eqb_refl. cbn [negb]. set (fs1 := if (length data =? 0)%nat then fs else _).
  set (old := if (length data =? 0)%nat then i_data n else overwrite 0 data (i_data n)).
  assert (H1 : changes fs fs1 p (file_at fs1 p) /\ fs_names fs1 = fs_names fs /\ fs_locks fs1 = fs_locks fs /\ (i_data <$> fs_inodes fs1 !! fd_ino (fh_fd fh)) = Some old).
  { unfold fs1, old. destruct (length data =? 0)%nat; [split; [by apply changes_refl|]; split; [done|]; split; [done|]; by rewrite Hn|].
    pose proof (changes_data fs p _ (overwrite 0 data (i_data n)) Hok Hp) as Hc. split; [by rewrite (ch_file _ _ _ _ Hc)|]. split; [done|]. split; [done|]. cbn. by rewrite lookup_insert_eq. }
  destruct H1 as (Hc1 & Hn1 & Hl1 & Hd1). unfold sys_ftruncate. rewrite (no_fault _ (ch_ok _ _ _ _ Hc1)). unfold writable. cbn [fd_acc fd_ino]. rewrite Hw. cbn [negb orb].
  destruct (fs_inodes fs1 !! fd_ino (fh_fd fh)) as [n1|] eqn:Hn1'; [|done]. cbn in Hd1. injection Hd1 as Hd1. rewrite Hd1.
  assert (Hres : resize (Z.to_nat (Z.of_nat (length data))) 0 old = data).
  { rewrite Nat2Z.id. unfold old. destruct (Nat.eqb_spec (length data) 0) as [H0|H0]; [destruct data; [by destruct (i_data n)|done]|].
    unfold overwrite. rewrite resize_0. cbn [app]. rewrite resize_app_le by lia. apply resize_all. }
  rewrite Hres. cbn [Z.eqb]. eexists _, _. split; [done|]. split; [|by rewrite <- Hn1, <- Hl1]. eapply changes_trans; [exact Hc1|].
  rewrite <- (ch_clock _ _ _ _ Hc1). apply changes_data; [apply Hc1|by rewrite Hn1].
Qed.

Lemma fclose_spec fs fh :
  fs_ok fs -> exists fs', twolevel_fclose fs fh = (fs', 0) /\ (forall p, changes fs fs' p (file_at fs p)) /\ fs_names fs' = fs_names fs /\
    fs_locks fs' = (if is_locked fh then fs_locks fs ∖ {[fd_ino (fh_fd fh)]} else fs_locks fs).
Proof.
  intros Hok. unfold twolevel_fclose, nexus_file_handle_close, sys_close. destruct (is_locked fh).
  - assert (Hl : forall i, i ∈ fs_locks fs ∖ {[fd_ino (fh_fd fh)]} -> is_Some (fs_inodes fs !! i)) by (intros i [Hi _]%elem_of_difference; by apply Hok).
    rewrite (no_fault _ (fs_ok_locks _ _ Hok Hl)). eexists. split; [done|]. split; [intros p; by apply changes_locks|done].
  - rewrite (no_fault _ Hok). exists fs. split; [done|]. split; [intros p; by apply changes_refl|done].
Qed.
(** *** Copying *)
Lemma set_data_twice fs j x y : set_data (set_data fs j x) j y = set_data fs j y.
Proof. unfold set_data, with_inodes. cbn. by rewrite insert_insert_eq. Qed.
Lemma set_data_same fs j x : fs_inodes fs !! j = Some (mk_inode x (fs_clock fs)) -> set_data fs j x = fs.
Proof. intros Hj. unfold set_data, with_inodes. rewrite insert_id by done. by destruct fs. Qed.

Lemma overwrite_end data chunk : overwrite (length data) chunk data = data ++ chunk.
Proof. unfold overwrite. rewrite resize_all, drop_ge by lia. by rewrite app_nil_r. Qed.

Lemma copy_loop_spec n fs i j src k :
  fs_ok fs -> i <> j -> fs_inodes fs !! i = Some src -> fs_inodes fs !! j = Some (mk_inode (take k (i_data src)) (fs_clock fs)) -> (k <= length (i_data src))%nat ->
  (length (i_data src) - k < n)%nat ->
  copy_loop n fs (mk_fd i 0 (Z.of_nat k)) (mk_fd j O_WRONLY (Z.of_nat k)) = Some (set_data fs j (i_data src), 0).
Proof.
  revert fs k. induction n as [|n IH]; intros fs k Hok Hij Hi Hj Hk Hn; [lia|]. cbn [copy_loop]. unfold sys_read. rewrite (no_fault _ Hok).
  cbn [fd_ino fd_pos fd_acc]. change (readable (mk_fd i 0 (Z.of_nat k))) with true. rewrite Hi. cbn [negb orb]. rewrite !Nat2Z.id.
  set (chunk := take (Z.to_nat COPY_BUFLEN) (drop k (i_data src))). destruct (decide (k = length (i_data src))) as [->|Hlt].
  { unfold chunk. rewrite drop_ge, take_nil by lia. rewrite set_data_same; [done|]. by rewrite take_ge in Hj by lia. }
  assert (Hc : chunk <> []).
  { unfold chunk. intros Hc. apply (f_equal length) in Hc. rewrite length_take, length_drop in Hc. cbn [length] in Hc.
    assert (0 < Z.to_nat COPY_BUFLEN)%nat by (unfold COPY_BUFLEN; lia). lia. }
  destruct chunk as [|c0 chunk0] eqn:Ec; [done|]. rewrite <- Ec in *. clear Hc. unfold sys_write. rewrite (no_fault _ Hok). cbn [fd_ino fd_pos fd_acc].
  change (writable (mk_fd j O_WRONLY (Z.of_nat k))) with true. rewrite Hj. cbn [negb orb i_data]. rewrite Z.eqb_refl. cbn [negb].
  assert (Hlc : (length chunk =? 0)%nat = false) by (rewrite Ec; done). rewrite Hlc, Nat2Z.id.
  assert (Hlk : length (take k (i_data src)) = k) by (rewrite length_take; lia).
  assert (Hov : overwrite k chunk (take k (i_data src)) = take (k + length chunk) (i_data src)).
  { rewrite <- Hlk at 1. rewrite overwrite_end. rewrite <- (take_drop k (i_data src)) at 2. rewrite take_app_ge by lia. rewrite Hlk. f_equal.
    replace (k + length chunk - k)%nat with (length chunk) by lia. unfold chunk. rewrite length_take, length_drop.
    destruct (Nat.le_ge_cases (Z.to_nat COPY_BUFLEN) (length (i_data src) - k)); [by rewrite Nat.min_l|]. rewrite Nat.min_r by done. rewrite !take_ge; [done|rewrite length_drop; lia|rewrite length_drop; lia]. }
  rewrite Hov. rewrite <- !Nat2Z.inj_add. set (fs1 := set_data fs j (take (k + length chunk) (i_data src))).
  assert (Hlen : (length chunk <= length (i_data src) - k)%nat) by (unfold chunk; rewrite length_take, length_drop; lia).
  assert (Hpos : (0 < length chunk)%nat) by (rewrite Ec; simpl; lia).
  assert (Hok1 : fs_ok fs1).
  { destruct Hok as [F1 F2 F3 F0 F4 F5]. assert (Hs : forall x, is_Some (fs_inodes fs !! x) -> is_Some (fs_inodes fs1 !! x)).
    { intros x Hx. unfold fs1. cbn. destruct (decide (x = j)) as [->|]; [rewrite lookup_insert_eq; eauto|by rewrite lookup_insert_ne]. }
    split; [done|by eauto|done|done| |by eauto]. intros x m. unfold fs1. cbn. destruct (decide (x = j)) as [->|]; [rewrite lookup_insert_eq; intros [= <-]; cbn; lia|rewrite lookup_insert_ne by done; apply F4]. }
  rewrite (IH fs1 (k + length chunk)%nat Hok1 Hij); [by unfold fs1; rewrite set_data_twice|unfold fs1; cbn; by rewrite lookup_insert_ne|unfold fs1; cbn; by rewrite lookup_insert_eq|lia|lia].
Qed.

Lemma open_read fs p i : fs_ok fs -> fs_names fs !! p = Some i -> sys_open fs p 0 = (fs, Some (mk_fd i 0 0)).
Proof. intros Hok Hi. unfold sys_open. by rewrite (no_fault _ Hok), Hi. Qed.

Lemma open_trunc fs p :
  fs_ok fs -> dirname p ∈ fs_dirs fs ->
  exists fs1 j, sys_open fs p (Z.lor O_CREAT (Z.lor O_WRONLY O_TRUNC)) = (fs1, Some (mk_fd j O_WRONLY 0)) /\
    changes fs fs1 p (Some (mk_inode [] (fs_clock fs))) /\ fs_names fs1 !! p = Some j /\ fs_locks fs1 = fs_locks fs /\
    (forall j', fs_names fs !! p = Some j' -> j' = j) /\ (fs_names fs !! p = None -> fs_inodes fs !! j = None).
Proof.
  intros Hok Hd. unfold sys_open. rewrite (no_fault _ Hok). destruct (fs_names fs !! p) as [j|] eqn:Hj.
  - eexists _, j. split; [done|]. split; [by apply changes_data|]. split; [done|]. split; [done|]. split; [by intros ? [= <-]|done].
  - rewrite bool_decide_true by done. destruct (changes_create fs p Hok Hj) as [Hc Hnm]. cbv zeta in *. eexists _, _. split; [done|]. split; [exact Hc|]. split; [exact Hnm|].
    split; [done|]. split; [done|]. intros _. apply not_elem_of_dom. apply is_fresh.
Qed.

Lemma copy_raw_spec fs src dst i n :
  fs_ok fs -> src <> dst -> fs_names fs !! src = Some i -> fs_inodes fs !! i = Some n -> dirname dst ∈ fs_dirs fs ->
  exists fs', nexus_copy_raw_file fs src dst = Some (fs', 0) /\ changes fs fs' dst (Some (mk_inode (i_data n) (fs_clock fs))) /\ fs_locks fs' = fs_locks fs /\
    (forall j, fs_names fs !! dst = Some j -> fs_names fs' !! dst = Some j) /\ (forall j, fs_names fs' !! dst = Some j -> fs_names fs !! dst = None -> fs_inodes fs !! j = None).
Proof.
  intros Hok Hne Hi Hn Hd. unfold nexus_copy_raw_file. rewrite (open_read _ _ _ Hok Hi), (no_fault _ Hok).
  destruct (open_trunc fs dst Hok Hd) as (fs1 & j & -> & Hc1 & Hj1 & Hl1 & Hold & Hnew).
  assert (Hi1 : fs_names fs1 !! src = Some i) by (by rewrite (ch_names _ _ _ _ Hc1)).
  assert (Hn1 : fs_inodes fs1 !! i = Some n).
  { pose proof (ch_files _ _ _ _ Hc1 src Hne) as Hf. unfold file_at in Hf. rewrite Hi1, Hi in Hf. cbn in Hf. by rewrite Hf. }
  assert (Hij : i <> j) by (intros ->; apply Hne; by apply (fo_inj _ (ch_ok _ _ _ _ Hc1) _ _ j)).
  assert (Hd1 : fs_inodes fs1 !! j = Some (mk_inode (take 0 (i_data n)) (fs_clock fs1))).
  { pose proof (ch_file _ _ _ _ Hc1) as Hf. unfold file_at in Hf. rewrite Hj1 in Hf. cbn in Hf. by rewrite Hf, (ch_clock _ _ _ _ Hc1). }
  change (mk_fd i 0 0) with (mk_fd i 0 (Z.of_nat 0)). change (mk_fd j O_WRONLY 0) with (mk_fd j O_WRONLY (Z.of_nat 0)).
  assert (Hlen : file_len fs1 (mk_fd i 0 (Z.of_nat 0)) = Z.of_nat (length (i_data n))) by (unfold file_len; cbn; by rewrite Hn1).
  rewrite Hlen, Nat2Z.id.
  rewrite (copy_loop_spec _ _ _ _ n 0 (ch_ok _ _ _ _ Hc1) Hij Hn1 Hd1) by lia. cbn [mbind option_bind].
  pose proof (changes_data fs1 dst j (i_data n) (ch_ok _ _ _ _ Hc1) Hj1) as Hc2. set (fs2 := set_data fs1 j (i_data n)) in *.
  assert (Hclose : forall d, sys_close fs2 d false = (fs2, 0)) by (intros d; unfold sys_close; by rewrite (no_fault _ (ch_ok _ _ _ _ Hc2))).
  rewrite !Hclose. eexists. split; [done|]. split; [rewrite <- (ch_clock _ _ _ _ Hc1); by eapply changes_trans|]. split; [done|].
  split; [intros j' Hj'; by rewrite (Hold _ Hj')|]. intros j' Hj' Hnone. change (fs_names fs2) with (fs_names fs1) in Hj'. rewrite Hj1 in Hj'. injection Hj' as <-. auto.
Qed.
Lemma copy_uuid_spec fs src dst u i n :
  fs_ok fs -> uuid_ok u -> src <> dst -> fs_names fs !! full_path src u = Some i -> fs_inodes fs !! i = Some n ->
  exists fs', twolevel_copy_uuid fs src dst u true = Some (fs', 0) /\ changes fs fs' (full_path dst u) (Some (mk_inode (i_data n) (fs_clock fs))) /\ fs_locks fs' = fs_locks fs /\
    (forall j, fs_names fs !! full_path dst u = Some j -> fs_names fs' !! full_path dst u = Some j) /\
    (forall j, fs_names fs' !! full_path dst u = Some j -> fs_names fs !! full_path dst u = None -> fs_inodes fs !! j = None).
Proof.
  intros Hok Hu Hne Hi Hn. unfold twolevel_copy_uuid. rewrite (mkdir_path _ _ _ Hok). set (fs1 := with_dirs fs _). cbn [__generic_full_path].
  assert (Hok1 : fs_ok fs1) by (by apply fs_ok_dirs).
  destruct (copy_raw_spec fs1 (full_path src u) (full_path dst u) i n Hok1) as (fs' & Hcp & Hc & Hl & Hn1 & Hn2); [|done|done| |].
  { intros He. by apply full_path_inj in He as [? _]. }
  { rewrite dirname_full_path by done. unfold fs1. cbn. set_solver. }
  rewrite Hcp. cbn [mbind option_bind]. exists fs'. split; [done|]. split; [|done].
  by apply (changes_trans _ fs1 _ _ (file_at fs (full_path dst u))); [apply changes_dirs|].
Qed.

Lemma copy_uuid_none fs src dst u :
  fs_ok fs -> fs_names fs !! full_path src u = None ->
  exists fs', twolevel_copy_uuid fs src dst u true = Some (fs', -1) /\ (forall p, changes fs fs' p (file_at fs p)) /\ fs_names fs' = fs_names fs /\ fs_locks fs' = fs_locks fs.
Proof.
  intros Hok Hi. unfold twolevel_copy_uuid. rewrite (mkdir_path _ _ _ Hok). set (fs1 := with_dirs fs _). cbn [__generic_full_path].
  assert (Hok1 : fs_ok fs1) by (by apply fs_ok_dirs). unfold nexus_copy_raw_file, sys_open. rewrite (no_fault _ Hok1).
  change (fs_names fs1) with (fs_names fs). rewrite Hi. exists fs1. split; [done|]. split; [intros p; by apply changes_dirs|done].
Qed.

(** *** The other calls *)
Lemma stat_spec fs root u : fs_ok fs -> twolevel_stat_uuid fs root u = (fs, (fun n => mk_stat (Z.of_nat (length (i_data n))) (i_mtime n)) <$> file_at fs (full_path root u)).
Proof.
  intros Hok. unfold twolevel_stat_uuid, sys_stat. cbn [__generic_full_path]. rewrite (no_fault _ Hok). f_equal. unfold file_at.
  destruct (fs_names fs !! full_path root u) as [i|]; [|done]. cbn. by destruct (fs_inodes fs !! i).
Qed.

Lemma new_spec fs root u :
  fs_ok fs -> uuid_ok u -> file_at fs (full_path root u) = None ->
  exists fs', twolevel_new_uuid fs root u = (fs', 0) /\ changes fs fs' (full_path root u) (Some (mk_inode [] (fs_clock fs))) /\ fs_locks fs' = fs_locks fs /\
    (forall i, fs_names fs' !! full_path root u = Some i -> i ∉ fs_locks fs).
Proof.
  intros Hok Hu Hn%file_at_none; [|done]. unfold twolevel_new_uuid, twolevel_touch_uuid. rewrite (mkdir_path _ _ _ Hok). set (fs1 := with_dirs fs _).
  assert (Hok1 : fs_ok fs1) by (by apply fs_ok_dirs). unfold nexus_touch_raw_file2, sys_open. rewrite (no_fault _ Hok1).
  assert (Hn1 : fs_names fs1 !! full_path root u = None) by exact Hn. rewrite Hn1. change (has O_CREAT O_CREAT) with true. cbn [andb]. rewrite bool_decide_true by (rewrite dirname_full_path by done; unfold fs1; cbn; set_solver).
  destruct (changes_create fs1 (full_path root u) Hok1 Hn1) as [Hc Hnm]. cbv zeta in *. unfold sys_close. rewrite (no_fault _ (ch_ok _ _ _ _ Hc)). eexists. split; [done|].
  split; [apply (changes_trans _ fs1 _ _ (file_at fs (full_path root u))); [by apply changes_dirs|exact Hc]|]. split; [done|].
  intros i. cbn. rewrite lookup_insert_eq. intros [= <-] Hl. apply (fo_locks _ Hok) in Hl. change (fs_inodes fs1) with (fs_inodes fs) in Hl.
  apply elem_of_dom in Hl. by apply is_fresh in Hl.
Qed.

Lemma store_del_spec fs root u :
  fs_ok fs -> exists fs', twolevel_del_uuid fs root u = (fs', if file_at fs (full_path root u) then 0 else -1) /\
    changes fs fs' (full_path root u) None /\ fs_locks fs' = fs_locks fs /\ fs_names fs' !! full_path root u = None.
Proof.
  intros Hok. unfold twolevel_del_uuid, nexus_delete_raw_file, sys_unlink. cbn [__generic_full_path]. rewrite (no_fault _ Hok). unfold file_at at 1.
  destruct (fs_names fs !! full_path root u) as [i|] eqn:Hi.
  - destruct (fo_inode _ Hok _ _ Hi) as [n Hn]. cbn. rewrite Hn. eexists. split; [done|]. split; [|split; [done|apply lookup_delete_eq]]. destruct Hok as [F1 F2 F3 F0 F4 F5]. split; cbn.
    + split; cbn; [done| | |done|done|done].
      * intros p j [_ Hp]%lookup_delete_Some. eauto.
      * intros p q j [_ Hp]%lookup_delete_Some [_ Hq]%lookup_delete_Some. eauto.
    + intros q Hq. by rewrite lookup_delete_ne.
    + intros q Hq. unfold file_at. cbn. by rewrite lookup_delete_ne.
    + unfold file_at. cbn. by rewrite lookup_delete_eq.
    + done.
  - exists fs. split; [done|]. split; [|done]. pose proof (changes_refl fs (full_path root u) Hok) as Hc. unfold file_at in Hc. by rewrite Hi in Hc.
Qed.
End files.
