(* ===== verification/IoProps.v ===== *)
(** * The I/O layer keeps a map from UUIDs to bytes

    While nothing fails and no other client writes to the volume, the ocalls of
    the buffer layer are answered from a map: what is put is got, in batch mode
    and outside it, and when batch mode is left the store of the volume holds
    everything that was put.  [io_inv] relates the buffers, the two stores and
    the map.  [spec_step] says for which requests; an unlock in batch mode, for
    one, may lose a put ([batch_unlock_loses_put]).  The files of filenodes, with
    metadata behind the data, are at the end. *)
From stdpp Require Import strings.
From S2P Require Import Prelude Types BufferLayer Store Io StoreProps.

Section io.
Implicit Types (bk : sgx_backend) (b : metadata_buf) (u v : uuid) (fs : fsys) (a : option bytes).

Definition vfile bk u : option inode := file_at (bk_fs bk) (full_path (metadata_store bk) u).
Definition bfile bk u : option inode := file_at (bk_fs bk) (full_path (batch_datastore bk) u).
Definition content (f : option inode) : option bytes := i_data <$> f.

(** No one holds the lock of the file. *)
Definition ino_free fs root u : Prop := forall i, fs_names fs !! full_path root u = Some i -> i ∉ fs_locks fs.

Record handle_ok fs root u (fh : nexus_file_handle) : Prop := {
  ho_name : fs_names fs !! full_path root u = Some (fd_ino (fh_fd fh));
  ho_write : writable (fh_fd fh) = true;
  ho_pos : touched fh = true \/ fd_pos (fh_fd fh) = 0;
  ho_unlocked : is_locked fh = false -> fd_ino (fh_fd fh) ∉ fs_locks fs
}.

(** The store a buffer is written to now, and the other one. *)
Definition cur_root bk : bytes := if batch_mode bk then batch_datastore bk else metadata_store bk.
Definition other_root bk : bytes := if batch_mode bk then metadata_store bk else batch_datastore bk.

Definition lock_state bk u b (lk : bool) : Prop :=
  if lk then
    exists fh, file_handle b = (if batch_mode bk then None else Some fh) /\ batch_handle b = (if batch_mode bk then Some fh else None) /\
      handle_ok (bk_fs bk) (cur_root bk) u fh /\ file_mutex b = true /\ has (io_flags b) NEXUS_IO_FNODE = false /\
      nexus_io_in_lock_mode (io_flags b) = true /\ ino_free (bk_fs bk) (other_root bk) u
  else
    file_handle b = None /\ batch_handle b = None /\ file_mutex b = false /\
    ino_free (bk_fs bk) (metadata_store bk) u /\ ino_free (bk_fs bk) (batch_datastore bk) u.

(** What a buffer says of the contents [a] of its object. *)
Record buf_ok bk u b a (lk : bool) : Prop := {
  bo_sync : is_syncing b = false;
  bo_lock : lock_state bk u b lk;
  bo_mem : forall x, buffer b = Some x -> a = Some x;
  bo_none : buffer b = None -> buffer_time b = 0;
  bo_clean : batch_mode_modified b = false ->
    is_dirty b = false /\
    ((batch_mode_created b = false /\ content (vfile bk u) = a) \/
     (lk = true /\ batch_mode bk = true /\ batch_mode_created b = true /\ batch_file_exists b = true /\ content (bfile bk u) = a /\ is_Some a));
  bo_modified : batch_mode_modified b = true ->
    batch_mode bk = true /\ batch_file_exists b = true /\ is_Some a /\ (batch_mode_created b = false -> is_Some (vfile bk u)) /\
    (if is_dirty b then is_Some (buffer b) else content (bfile bk u) = a);
  bo_batch : batch_file_exists b = true ->
    exists n, bfile bk u = Some n /\ (a = Some (i_data n) \/ (is_Some (buffer b) /\ i_mtime n <= buffer_time b));
  bo_locked : lk = true -> is_Some a /\ (batch_mode bk = true -> batch_file_exists b = true)
}.

Definition cell bk u (ob : option metadata_buf) a (lk : bool) : Prop :=
  match ob with
  | Some b => buf_ok bk u b a lk
  | None => lk = false /\ content (vfile bk u) = a /\ ino_free (bk_fs bk) (metadata_store bk) u /\ ino_free (bk_fs bk) (batch_datastore bk) u
  end.

(** *** Frames *)
(** [fs'] differs from [fs] in the files of [u]. *)
Record touches fs fs' u : Prop := {
  to_ok : fs_ok fs';
  to_clock : fs_clock fs' = fs_clock fs;
  to_names : forall root v, uuid_ok v -> v <> u -> fs_names fs' !! full_path root v = fs_names fs !! full_path root v;
  to_files : forall root v, uuid_ok v -> v <> u -> file_at fs' (full_path root v) = file_at fs (full_path root v);
  to_locks : forall root v i, uuid_ok v -> v <> u -> fs_names fs !! full_path root v = Some i -> i ∈ fs_locks fs' <-> i ∈ fs_locks fs
}.

Lemma touches_refl fs u : fs_ok fs -> touches fs fs u.
Proof. by split. Qed.
Lemma io_touches_trans fs1 fs2 fs3 u : touches fs1 fs2 u -> touches fs2 fs3 u -> touches fs1 fs3 u.
Proof.
  intros [A1 A2 A3 A4 A5] [B1 B2 B3 B4 B5]. split; [done|congruence|..].
  - intros root v Hv Hne. by rewrite B3, A3.
  - intros root v Hv Hne. by rewrite B4, A4.
  - intros root v i Hv Hne Hi. rewrite (B5 root v) by (done || by rewrite A3). by apply (A5 root v).
Qed.

Lemma path_ne root root' u v : uuid_ok u -> uuid_ok v -> v <> u -> full_path root' v <> full_path root u.
Proof. intros Hu Hv Hne He. apply full_path_inj in He as [_ ?]; done. Qed.

Lemma changes_touches fs fs' root u f :
  uuid_ok u -> fs_ok fs -> changes fs fs' (full_path root u) f ->
  (fs_locks fs' = fs_locks fs \/ exists i, (fs_names fs !! full_path root u = Some i \/ fs_inodes fs !! i = None) /\ (fs_locks fs' = {[i]} ∪ fs_locks fs \/ fs_locks fs' = fs_locks fs ∖ {[i]})) ->
  touches fs fs' u.
Proof.
  intros Hu Hok [C1 C2 C3 C4 C5] Hl. split; [done|done|..].
  - intros r v Hv Hne. apply C2. by apply path_ne.
  - intros r v Hv Hne. apply C3. by apply path_ne.
  - intros r v i Hv Hne Hi. destruct Hl as [->|(j & Hj & Hl)]; [done|]. assert (i <> j).
    { intros ->. destruct Hj as [Hj|Hj]; [apply (path_ne root r u v Hu Hv Hne); by apply (fo_inj _ Hok _ _ j)|]. destruct (fo_inode _ Hok _ _ Hi). congruence. }
    destruct Hl as [-> | ->]; set_solver.
Qed.

Definition same_config bk bk' : Prop :=
  batch_mode bk' = batch_mode bk /\ metadata_store bk' = metadata_store bk /\ batch_datastore bk' = batch_datastore bk.

Lemma cell_frame bk bk' v u ob a lk :
  same_config bk bk' -> touches (bk_fs bk) (bk_fs bk') u -> uuid_ok v -> v <> u -> cell bk v ob a lk -> cell bk' v ob a lk.
Proof.
  intros (S1 & S2 & S3) [T1 T2 T3 T4 T5] Hv Hne.
  assert (Hvf : vfile bk' v = vfile bk v) by (unfold vfile; rewrite S2; by apply T4).
  assert (Hbf : bfile bk' v = bfile bk v) by (unfold bfile; rewrite S3; by apply T4).
  assert (Hfree : forall root, ino_free (bk_fs bk) root v -> ino_free (bk_fs bk') root v).
  { intros root Hf i Hi. rewrite T3 in Hi by done. rewrite (T5 root v) by done. by apply Hf. }
  assert (Hh : forall root fh, handle_ok (bk_fs bk) root v fh -> handle_ok (bk_fs bk') root v fh).
  { intros root fh [H1 H2 H3 H4]. split; [by rewrite T3|done|done|]. intros Hu. rewrite (T5 root v) by done. by apply H4. }
  destruct ob as [b|]; cbn [cell].
  - intros [B1 B2 B3 B4 B5 B6 B7 B8]. split; rewrite ?Hvf, ?Hbf, ?S1; try done.
    unfold lock_state, cur_root, other_root in B2 |- *. rewrite S1, S2, S3. destruct lk; [|naive_solver].
    destruct B2 as (fh & F1 & F2 & F3 & F4 & F5 & F6 & F7). exists fh. do 2 (split; [done|]). split; [by apply Hh|]. auto.
  - intros (H1 & H2 & H3 & H4). rewrite S2, S3, Hvf. auto.
Qed.

(** ** The invariant *)
Record io_inv bk (A : gmap uuid bytes) (K U : gset uuid) : Prop := {
  ii_fs : fs_ok (bk_fs bk);
  ii_roots : metadata_store bk <> batch_datastore bk;
  ii_deleted : batch_deleted_uuids bk = [];
  ii_keys : forall u, is_Some (buffers_table bk !! u) -> uuid_ok u;
  ii_cell : forall u, uuid_ok u -> cell bk u (buffers_table bk !! u) (A !! u) (bool_decide (u ∈ K));
  ii_fresh : forall u, uuid_ok u -> u ∉ U -> buffers_table bk !! u = None /\ vfile bk u = None /\ bfile bk u = None /\ u ∉ K;
  ii_len : forall u x, A !! u = Some x -> Z.of_nat (length x) < 2 ^ 31
}.

(** One object changes. *)
Lemma inv_update bk bk' A A' K K' U u :
  io_inv bk A K U -> uuid_ok u -> same_config bk bk' -> batch_deleted_uuids bk' = batch_deleted_uuids bk ->
  (forall v, v <> u -> buffers_table bk' !! v = buffers_table bk !! v) -> touches (bk_fs bk) (bk_fs bk') u ->
  (forall v, v <> u -> A' !! v = A !! v) -> (forall v, v <> u -> v ∈ K' <-> v ∈ K) ->
  cell bk' u (buffers_table bk' !! u) (A' !! u) (bool_decide (u ∈ K')) -> (forall x, A' !! u = Some x -> Z.of_nat (length x) < 2 ^ 31) ->
  io_inv bk' A' K' ({[u]} ∪ U).
Proof.
  intros [I1 I2 I3 I4 I5 I6 I7] Hu Hc Hd Ht Hto HA HK Hcell Hlen. pose proof Hc as (S1 & S2 & S3). split.
  - apply Hto.
  - by rewrite S2, S3.
  - by rewrite Hd.
  - intros v Hv. destruct (decide (v = u)) as [->|Hne]; [done|]. rewrite Ht in Hv by done. auto.
  - intros v Hv. destruct (decide (v = u)) as [->|Hne]; [done|]. rewrite Ht, HA by done. rewrite (bool_decide_ext _ _ (HK v Hne)). eapply cell_frame; [exact Hc|exact Hto|done|done|]. by apply I5.
  - intros v Hv Hn. assert (v <> u) by set_solver. rewrite Ht by done. unfold vfile, bfile. rewrite S2, S3, !(to_files _ _ _ Hto) by done. rewrite HK by done. apply I6; [done|set_solver].
  - intros v x Hx. destruct (decide (v = u)) as [->|Hne]; [auto|]. rewrite HA in Hx by done. eauto.
Qed.
(** ** Opening, reading, releasing *)
(** The buffer [b'] after its file was opened. *)
Record opened bk bk' u b b' (flags i : Z) : Prop := {
  op_bk : bk' = with_fs bk (bk_fs bk');
  op_touch : touches (bk_fs bk) (bk_fs bk') u;
  op_fh : file_handle b' = (if batch_mode bk then None else Some (handle_for flags i));
  op_bh : batch_handle b' = (if batch_mode bk then Some (handle_for flags i) else None);
  op_flags : io_flags b' = flags;
  op_mutex : file_mutex b' = nexus_io_in_lock_mode flags;
  op_buffer : buffer b' = buffer b /\ buffer_time b' = buffer_time b;
  op_dirty : is_dirty b' = is_dirty b /\ is_syncing b' = is_syncing b /\ batch_mode_modified b' = batch_mode_modified b;
  op_name : fs_names (bk_fs bk') !! full_path (cur_root bk) u = Some i;
  op_locks : fs_locks (bk_fs bk') = (if has flags NEXUS_FWRITE then {[i]} ∪ fs_locks (bk_fs bk) else fs_locks (bk_fs bk));
  op_unlocked : i ∉ fs_locks (bk_fs bk);
  op_other : ino_free (bk_fs bk') (other_root bk) u
}.

Lemma cur_other bk : metadata_store bk <> batch_datastore bk -> cur_root bk <> other_root bk.
Proof. unfold cur_root, other_root. by destruct (batch_mode bk). Qed.

Lemma file_inode fs root u n : file_at fs (full_path root u) = Some n -> exists i, fs_names fs !! full_path root u = Some i /\ fs_inodes fs !! i = Some n.
Proof. apply file_at_some. Qed.

(** Opening a file of the current store that is there. *)
Lemma open_cur bk u flags n :
  fs_ok (bk_fs bk) -> metadata_store bk <> batch_datastore bk -> uuid_ok u -> flags ∈ store_flags ->
  ino_free (bk_fs bk) (metadata_store bk) u -> ino_free (bk_fs bk) (batch_datastore bk) u ->
  file_at (bk_fs bk) (full_path (cur_root bk) u) = Some n ->
  exists fs' i, twolevel_fopen (bk_fs bk) (cur_root bk) u flags = Some (fs', Some (handle_for flags i)) /\ touches (bk_fs bk) fs' u /\
    (forall p, changes (bk_fs bk) fs' p (file_at (bk_fs bk) p)) /\
    fs_names fs' !! full_path (cur_root bk) u = Some i /\ i ∉ fs_locks (bk_fs bk) /\ ino_free fs' (other_root bk) u /\
    fs_locks fs' = (if has flags NEXUS_FWRITE then {[i]} ∪ fs_locks (bk_fs bk) else fs_locks (bk_fs bk)).
Proof.
  intros Hok Hr Hu Hf Hfv Hfb (i & Hi & Hn)%file_inode.
  assert (Hfree : ino_free (bk_fs bk) (cur_root bk) u /\ ino_free (bk_fs bk) (other_root bk) u) by (unfold cur_root, other_root; by destruct (batch_mode bk)).
  destruct Hfree as [Hc Ho]. destruct (fopen_some (bk_fs bk) (cur_root bk) u flags i Hok Hf Hi) as (fs' & Hop & Hch & Hnm & Hlk); [intros _; by apply Hc|].
  exists fs', i. split; [done|]. split; [eapply changes_touches; [done|done|apply (Hch (full_path (cur_root bk) u))|rewrite Hlk; destruct (has flags NEXUS_FWRITE); [right; eauto|by left]]|].
  split; [done|]. split; [by rewrite Hnm|]. split; [by apply Hc|]. split; [|done].
  intros j Hj. rewrite Hnm in Hj. assert (j <> i).
  { intros ->. apply (cur_other bk Hr). assert (He : full_path (cur_root bk) u = full_path (other_root bk) u) by (by apply (fo_inj _ Hok _ _ i)). by apply full_path_inj in He as [? _]. }
  rewrite Hlk. pose proof (Ho j Hj). destruct (has flags NEXUS_FWRITE); set_solver.
Qed.
(** The end of [__open_metadata_file], once the file is in the store it is
    opened in. *)
Definition open_tail bk u b (flags : Z) : option (sgx_backend * metadata_buf * bool) :=
  let batch := in_batch bk b in
  '(fs, fh) ← twolevel_fopen (bk_fs bk) (__metadata_buf_get_datastore bk b) u flags;
  let bk := with_fs bk fs in
  match fh with
  | None => Some (bk, b, false)
  | Some fh =>
      let b := if batch then with_handles b (file_handle b) (Some fh) flags else with_handles b (Some fh) (batch_handle b) flags in
      let b := if batch && has flags NEXUS_FCREATE then with_exists (with_batch b true (batch_mode_modified b)) (sync_file_exists b) true
               else if negb batch then with_exists b true (batch_file_exists b) else b in
      '(b, ok) ← __acquire_metadata_buf bk b;
      Some (bk, b, ok)
  end.

Lemma open_split bk u b flags :
  __metadata_buf_get_handle bk b = None ->
  __open_metadata_file bk u b flags =
    ('(bk, b, ret) ← (if batch_mode bk && negb (has flags NEXUS_FCREATE) && negb (is_syncing b) && negb (batch_mode_created b)
                     then __copy_metadata_file_to_batch_directory bk u b true else Some (bk, b, 0));
     if negb (ret =? 0) then Some (bk, b, false) else open_tail bk u b flags).
Proof. intros Hh. unfold __open_metadata_file. by rewrite Hh. Qed.

Lemma in_batch_quiet bk b : is_syncing b = false -> in_batch bk b = batch_mode bk.
Proof. intros Hs. unfold in_batch. rewrite Hs. apply andb_true_r. Qed.

Lemma get_datastore_quiet bk b : is_syncing b = false -> __metadata_buf_get_datastore bk b = cur_root bk.
Proof. intros Hs. unfold __metadata_buf_get_datastore, cur_root. by rewrite in_batch_quiet. Qed.

(** The new handle is acquired. *)
Lemma acquire_new bk b fh flags :
  is_syncing b = false -> file_mutex b = false -> io_flags b = flags -> __metadata_buf_get_handle bk b = Some fh ->
  __acquire_metadata_buf bk b = Some (if nexus_io_in_lock_mode flags then with_mutex b true else b, true).
Proof. intros Hs Hm Hf Hh. unfold __acquire_metadata_buf. rewrite Hh, Hf, Hm. by destruct (nexus_io_in_lock_mode flags). Qed.

Lemma open_tail_some bk u b flags n :
  fs_ok (bk_fs bk) -> metadata_store bk <> batch_datastore bk -> uuid_ok u -> flags ∈ store_flags -> has flags NEXUS_FCREATE = false -> is_syncing b = false ->
  file_handle b = None -> batch_handle b = None -> file_mutex b = false ->
  ino_free (bk_fs bk) (metadata_store bk) u -> ino_free (bk_fs bk) (batch_datastore bk) u ->
  file_at (bk_fs bk) (full_path (cur_root bk) u) = Some n ->
  exists bk' b' i, open_tail bk u b flags = Some (bk', b', true) /\ opened bk bk' u b b' flags i /\
    batch_mode_created b' = batch_mode_created b /\ batch_file_exists b' = batch_file_exists b /\ vfile bk' u = vfile bk u /\ bfile bk' u = bfile bk u.
Proof.
  intros Hok Hr Hu Hf Hnc Hsy Hfh Hbh Hm Hfv Hfb Hn. destruct (open_cur bk u flags n Hok Hr Hu Hf Hfv Hfb Hn) as (fs' & i & Hop & Hto & Hch & Hnm & Hi & Hot & Hlk).
  unfold open_tail. rewrite get_datastore_quiet, in_batch_quiet, Hop, Hnc, andb_false_r by done. cbn [mbind option_bind]. rewrite Hfh, Hbh.
  assert (Hfiles : forall q, file_at fs' q = file_at (bk_fs bk) q) by (intros q; apply (ch_file _ _ _ _ (Hch q))).
  set (b1 := if batch_mode bk then with_handles b None (Some (handle_for flags i)) flags else with_handles b (Some (handle_for flags i)) None flags).
  set (b2 := if negb (batch_mode bk) then with_exists b1 true (batch_file_exists b1) else b1).
  rewrite (acquire_new (with_fs bk fs') b2 (handle_for flags i) flags); [|unfold b2, b1; by destruct (batch_mode bk)..|unfold __metadata_buf_get_handle, in_batch, b2, b1; cbn; destruct (batch_mode bk); cbn; by rewrite ?Hsy].
  cbn [mbind option_bind]. eexists _, _, i. split; [done|]. split; [|unfold b2, b1, vfile, bfile; destruct (nexus_io_in_lock_mode flags), (batch_mode bk); cbn; by rewrite !Hfiles].
  split; cbn [bk_fs with_fs]; try done; unfold b2, b1; destruct (nexus_io_in_lock_mode flags), (batch_mode bk); done.
Qed.
Lemma opened_from bk fs1 bk' u b b1 b' flags i :
  touches (bk_fs bk) fs1 u -> fs_locks fs1 = fs_locks (bk_fs bk) -> buffer b1 = buffer b -> buffer_time b1 = buffer_time b -> is_dirty b1 = is_dirty b ->
  is_syncing b1 = is_syncing b -> batch_mode_modified b1 = batch_mode_modified b ->
  opened (with_fs bk fs1) bk' u b1 b' flags i -> opened bk bk' u b b' flags i.
Proof.
  intros Ht Hl E1 E2 E3 E4 E5 [O1 O2 O3 O4 O5 O6 O7 O8 O9 O10 O11 O12]. cbn in *. split; try done.
  - by eapply io_touches_trans.
  - by rewrite <- E1, <- E2.
  - by rewrite <- E3, <- E4, <- E5.
  - by rewrite O10, Hl.
  - by rewrite <- Hl.
Qed.

(** Opening an object that is there, for reading or for writing: in batch mode
    it is copied into the batch store first, unless it is there already. *)
Lemma open_exists bk u b a x flags :
  fs_ok (bk_fs bk) -> metadata_store bk <> batch_datastore bk -> uuid_ok u -> flags ∈ store_flags -> has flags NEXUS_FCREATE = false ->
  buf_ok bk u b a false -> a = Some x ->
  exists bk' b' i, __open_metadata_file bk u b flags = Some (bk', b', true) /\ opened bk bk' u b b' flags i /\
    batch_mode_created b' = batch_mode_created b /\ batch_file_exists b' = batch_mode bk || batch_file_exists b /\ vfile bk' u = vfile bk u /\
    (if batch_mode bk && negb (batch_file_exists b) then content (bfile bk' u) = content (vfile bk u) else bfile bk' u = bfile bk u).
Proof.
  intros Hok Hr Hu Hf Hnc [B1 (F1 & F2 & F3 & F4 & F5) B3 B4 B5 B6 B7 _] Ha.
  rewrite open_split by (unfold __metadata_buf_get_handle; rewrite F1, F2; by destruct (in_batch bk b)). rewrite Hnc, B1. cbn [negb]. rewrite !andb_true_r.
  assert (Hclean : batch_mode_modified b = false -> batch_mode_created b = false /\ content (vfile bk u) = a) by (intros Hm; destruct (B5 Hm) as (_ & [?|(? & _)]); done).
  destruct (batch_mode bk) eqn:Hbm; cbn [andb].
  2:{ destruct (batch_mode_modified b) eqn:Hm; [by destruct (B6 eq_refl)|]. destruct (Hclean eq_refl) as [Hcr Hv]. rewrite Ha in Hv.
      destruct (vfile bk u) as [n|] eqn:Hn; [|done]. cbn [mbind option_bind negb Z.eqb].
      destruct (open_tail_some bk u b flags n) as (bk' & b' & i & Ho & Hopen & E1 & E2 & E3 & E4); try done; [unfold cur_root; by rewrite Hbm|].
      exists bk', b', i. rewrite Hn in E3. done. }
  assert (Hcur : forall fs, cur_root (with_fs bk fs) = batch_datastore bk) by (intros fs; unfold cur_root; cbn; by rewrite Hbm).
  destruct (batch_file_exists b) eqn:Hex.
  { destruct (B7 eq_refl) as (n & Hn & _).
    assert (Hret : (if negb (batch_mode_created b) then __copy_metadata_file_to_batch_directory bk u b true else Some (bk, b, 0)) = Some (bk, b, 0)).
    { unfold __copy_metadata_file_to_batch_directory. rewrite Hex. by destruct (batch_mode_created b). }
    rewrite Hret. cbn [mbind option_bind negb Z.eqb].
    destruct (open_tail_some bk u b flags n) as (bk' & b' & i & Ho & Hopen & E1 & E2 & E3 & E4); try done; [unfold cur_root; by rewrite Hbm|].
    exists bk', b', i. rewrite E2. done. }
  assert (Hm : batch_mode_modified b = false) by (destruct (batch_mode_modified b); [|done]; destruct (B6 eq_refl) as (_ & ? & _); done).
  destruct (Hclean Hm) as [Hcr Hv]. rewrite Ha in Hv. destruct (vfile bk u) as [n|] eqn:Hn; [|done]. cbn in Hv. injection Hv as Hv.
  rewrite Hcr. cbn [negb]. unfold __copy_metadata_file_to_batch_directory. rewrite Hex. cbn [andb]. destruct (file_inode _ _ _ _ Hn) as (j & Hj & Hjn).
  destruct (copy_uuid_spec (bk_fs bk) (metadata_store bk) (batch_datastore bk) u j n Hok Hu Hr Hj Hjn) as (fs1 & Hcp & Hch & Hlk & Hn1 & Hn2).
  rewrite Hcp. cbn [mbind option_bind negb Z.eqb].
  assert (Hne : full_path (metadata_store bk) u <> full_path (batch_datastore bk) u) by (intros He; by apply full_path_inj in He as [? _]).
  assert (Hto : touches (bk_fs bk) fs1 u) by (eapply changes_touches; [done|done|exact Hch|by left]).
  destruct (open_tail_some (with_fs bk fs1) u (with_exists b true true) flags (mk_inode (i_data n) (fs_clock (bk_fs bk)))) as (bk' & b' & i & Ho & Hopen & E1 & E2 & E3 & E4); try done.
  { apply Hch. }
  { intros k Hk. cbn [bk_fs with_fs batch_datastore metadata_store] in Hk |- *. rewrite Hlk. rewrite (ch_names _ _ _ _ Hch) in Hk by done. by apply F4. }
  { intros k Hk. cbn [bk_fs with_fs batch_datastore metadata_store] in Hk |- *. rewrite Hlk. destruct (fs_names (bk_fs bk) !! full_path (batch_datastore bk) u) as [k'|] eqn:Hk'.
    - specialize (Hn1 _ eq_refl). assert (k = k') as -> by congruence. by apply F5.
    - specialize (Hn2 _ Hk eq_refl). intros Hl. apply (fo_locks _ Hok) in Hl. rewrite Hn2 in Hl. by destruct Hl. }
  { rewrite Hcur. cbn. apply Hch. }
  exists bk', b', i. split; [exact Ho|]. split; [by eapply (opened_from _ _ _ _ _ (with_exists b true true)); [exact Hto|exact Hlk|..|exact Hopen]|]. split; [by rewrite E1|]. split; [by rewrite E2|]. split.
  - rewrite E3. unfold vfile. cbn [bk_fs with_fs metadata_store]. rewrite (ch_files _ _ _ _ Hch) by done. exact Hn.
  - cbn [negb]. rewrite E4. unfold bfile. cbn [bk_fs with_fs batch_datastore]. rewrite (ch_file _ _ _ _ Hch). done.
Qed.
Lemma io_alloc_ok bk u a : cell bk u None a false -> buf_ok bk u __alloc_metadata_buf a false.
Proof. intros (_ & Hv & H1 & H2). split; try done. intros _. split; [done|]. by left. Qed.

(** The buffer as it is found or made. *)
Definition buf_of bk u : metadata_buf := default __alloc_metadata_buf (buffers_table bk !! u).
Lemma cell_buf bk u a : cell bk u (buffers_table bk !! u) a false -> buf_ok bk u (buf_of bk u) a false.
Proof. unfold buf_of. destruct (buffers_table bk !! u) as [b|]; [done|]. apply io_alloc_ok. Qed.

Definition write_flags : list Z := [NEXUS_FWRITE; NEXUS_FRDWR].
Lemma write_flags_props flags i :
  flags ∈ write_flags -> flags ∈ store_flags /\ has flags NEXUS_FCREATE = false /\ has flags NEXUS_FWRITE = true /\ nexus_io_in_lock_mode flags = true /\
    has flags NEXUS_IO_FNODE = false /\ writable (opened_fd flags i) = true.
Proof. unfold write_flags. intros [->|[->|[]%not_elem_of_nil]%elem_of_cons]%elem_of_cons; (split; [unfold store_flags; set_solver|done]). Qed.

(** What a buffer keeps while its file is opened and closed. *)
Record same_buf b b' : Prop := {
  sb_buffer : buffer b' = buffer b;
  sb_time : buffer_time b' = buffer_time b;
  sb_sync : is_syncing b' = is_syncing b;
  sb_modified : batch_mode_modified b' = batch_mode_modified b;
  sb_created : batch_mode_created b' = batch_mode_created b
}.

(** The state of the files after an object that is there was opened. *)
Definition staged bk bk' u b : Prop :=
  vfile bk' u = vfile bk u /\ (if batch_mode bk && negb (batch_file_exists b) then content (bfile bk' u) = content (vfile bk u) else bfile bk' u = bfile bk u).

Lemma buf_moved bk bk' u b b' x lk :
  buf_ok bk u b (Some x) false -> batch_mode bk' = batch_mode bk -> lock_state bk' u b' lk -> same_buf b b' -> is_dirty b' = is_dirty b ->
  batch_file_exists b' = batch_mode bk || batch_file_exists b -> staged bk bk' u b -> buf_ok bk' u b' (Some x) lk.
Proof.
  intros [B1 _ B3 B4 B5 B6 B7 _] Hbm Hlk [E1 E2 E3 E4 E5] Hd Hex [Hv Hb]. split; rewrite ?E1, ?E2, ?E3, ?E4, ?E5, ?Hd, ?Hbm; try done.
  - intros Hm. destruct (B5 Hm) as (Hd' & [[C1 C2]|(? & _)]); [|done]. split; [done|]. left. by rewrite Hv.
  - intros Hm. destruct (B6 Hm) as (M1 & M2 & M3 & M4 & M5). rewrite Hex, M1, Hv. do 4 (split; [done|]). rewrite M1, M2 in Hb. cbn in Hb. by rewrite Hb.
  - intros He. rewrite Hex in He. destruct (batch_mode bk && negb (batch_file_exists b)) eqn:Hcp.
    + apply andb_prop in Hcp as [Hbt Hnx]. apply negb_true_iff in Hnx.
      assert (Hm : batch_mode_modified b = false) by (destruct (batch_mode_modified b); [|done]; destruct (B6 eq_refl) as (_ & ? & _); congruence).
      destruct (B5 Hm) as (_ & [[_ C2]|(? & _)]); [|done]. rewrite C2 in Hb. destruct (bfile bk' u) as [n|]; [|done]. cbn in Hb. injection Hb as Hb. exists n. split; [done|]. left. by rewrite Hb.
    + assert (Hx : batch_file_exists b = true) by (destruct (batch_mode bk), (batch_file_exists b); done). rewrite Hb. by apply B7.
  - intros _. split; [eauto|]. intros Hbt. by rewrite Hex, Hbt.
Qed.

Lemma opened_same bk bk' u b b' flags i : opened bk bk' u b b' flags i -> batch_mode_created b' = batch_mode_created b -> same_buf b b'.
Proof. by intros [? ? ? ? ? ? [] (? & ? & ?)] ?. Qed.

Lemma opened_locked bk bk' u b b' a x flags i :
  buf_ok bk u b a false -> a = Some x -> flags ∈ write_flags -> opened bk bk' u b b' flags i ->
  batch_mode_created b' = batch_mode_created b -> batch_file_exists b' = batch_mode bk || batch_file_exists b -> vfile bk' u = vfile bk u ->
  (if batch_mode bk && negb (batch_file_exists b) then content (bfile bk' u) = content (vfile bk u) else bfile bk' u = bfile bk u) ->
  buf_ok bk' u b' a true.
Proof.
  intros Hok -> Hfl Hop Hcr Hex Hv Hb. pose proof (opened_same _ _ _ _ _ _ _ Hop Hcr) as Hsame.
  destruct Hop as [O1 O2 O3 O4 O5 O6 _ (O8 & _) O9 O10 O11 O12]. destruct (write_flags_props flags i Hfl) as (_ & _ & W1 & W2 & W3 & W4).
  eapply buf_moved; [exact Hok|by rewrite O1| |exact Hsame|done|done|by split].
  assert (Hroots : batch_mode bk' = batch_mode bk /\ cur_root bk' = cur_root bk /\ other_root bk' = other_root bk) by (by rewrite O1). destruct Hroots as (Hbm & R1 & R2).
  exists (handle_for flags i). rewrite R1, R2, Hbm, O3, O4, O6, O5. do 2 (split; [done|]). split; [|done].
  split; [exact O9|done|by right|]. cbn. by rewrite W1.
Qed.

(** Opening an object that is not there. *)
Lemma open_absent bk u b flags :
  fs_ok (bk_fs bk) -> flags ∈ store_flags -> has flags NEXUS_FCREATE = false -> buf_ok bk u b None false ->
  exists fs', __open_metadata_file bk u b flags = Some (with_fs bk fs', b, false) /\ (forall p, changes (bk_fs bk) fs' p (file_at (bk_fs bk) p)) /\
    fs_names fs' = fs_names (bk_fs bk) /\ fs_locks fs' = fs_locks (bk_fs bk).
Proof.
  intros Hok Hf Hnc [B1 (F1 & F2 & F3 & F4 & F5) B3 B4 B5 B6 B7 _].
  rewrite open_split by (unfold __metadata_buf_get_handle; rewrite F1, F2; by destruct (in_batch bk b)). rewrite Hnc, B1. cbn [negb]. rewrite !andb_true_r.
  assert (Hm : batch_mode_modified b = false) by (destruct (batch_mode_modified b); [|done]; destruct (B6 eq_refl) as (_ & _ & [? ?] & _); done).
  destruct (B5 Hm) as (_ & [[Hcr Hv]|(? & _)]); [|done].
  assert (Hn : fs_names (bk_fs bk) !! full_path (metadata_store bk) u = None) by (apply file_at_none; [done|]; unfold vfile in Hv; by destruct (file_at _ _)).
  assert (Hex : batch_file_exists b = false).
  { destruct (batch_file_exists b); [|done]. destruct (B7 eq_refl) as (n & _ & [?|[[x Hx] _]]); [done|]. by apply B3 in Hx. }
  rewrite Hcr. cbn [negb]. destruct (batch_mode bk) eqn:Hbm; cbn [andb].
  - unfold __copy_metadata_file_to_batch_directory. rewrite Hex. cbn [andb].
    destruct (copy_uuid_none (bk_fs bk) (metadata_store bk) (batch_datastore bk) u Hok Hn) as (fs' & Hcp & Hch & Hnm & Hlk). rewrite Hcp. cbn [mbind option_bind negb Z.eqb]. by exists fs'.
  - cbn [mbind option_bind negb Z.eqb]. unfold open_tail. rewrite get_datastore_quiet by done. unfold cur_root. rewrite Hbm.
    destruct (fopen_none (bk_fs bk) (metadata_store bk) u flags Hok Hf Hn Hnc) as (fs' & Hop & Hch & Hnm & Hlk). rewrite Hop. cbn [mbind option_bind]. by exists fs'.
Qed.

(** Contents and locks as they were. *)
Lemma cell_same bk fs' u ob a lk :
  (forall p, file_at fs' p = file_at (bk_fs bk) p) -> fs_names fs' = fs_names (bk_fs bk) -> fs_locks fs' = fs_locks (bk_fs bk) -> cell bk u ob a lk -> cell (with_fs bk fs') u ob a lk.
Proof.
  intros Hf Hn Hl. assert (Hfree : forall root, ino_free (bk_fs bk) root u -> ino_free fs' root u) by (intros root H i; rewrite Hn, Hl; apply H).
  assert (Hh : forall root fh, handle_ok (bk_fs bk) root u fh -> handle_ok fs' root u fh) by (intros root fh [H1 H2 H3 H4]; split; rewrite ?Hn, ?Hl; done).
  assert (Hv : vfile (with_fs bk fs') u = vfile bk u) by apply Hf. assert (Hb : bfile (with_fs bk fs') u = bfile bk u) by apply Hf.
  destruct ob as [b|]; cbn [cell].
  - intros [B1 B2 B3 B4 B5 B6 B7 B8]. split; rewrite ?Hv, ?Hb; try done. unfold lock_state in *. destruct lk; [|naive_solver].
    destruct B2 as (fh & F1 & F2 & F3 & F4 & F5 & F6 & F7). exists fh. do 2 (split; [done|]). split; [by apply Hh|]. split; [done|]. split; [done|]. split; [done|]. by apply Hfree.
  - rewrite Hv. naive_solver.
Qed.
(** ** Locking *)
Definition ensure bk u : sgx_backend := if buffer_manager_find bk u is Some _ then bk else buffer_manager_add bk u __alloc_metadata_buf.

Lemma lock_unfold bk u flags :
  io_buffer_lock bk u flags = ('(bk', b, ok) ← __open_metadata_file (ensure bk u) u (buf_of bk u) flags; Some (put_buf bk' u b, ok)).
Proof.
  unfold io_buffer_lock, ensure, buf_of, buffer_manager_find. destruct (buffers_table bk !! u) as [b|] eqn:Hb; [by rewrite Hb|].
  unfold buffer_manager_add, buffer_manager_find. cbn [buffers_table with_bufs]. by rewrite lookup_insert_eq.
Qed.

Lemma ensure_table bk u v : v <> u -> buffers_table (ensure bk u) !! v = buffers_table bk !! v.
Proof. intros Hv. unfold ensure. destruct (buffer_manager_find bk u); [done|]. cbn. by rewrite lookup_insert_ne. Qed.
Lemma ensure_same bk u : same_config bk (ensure bk u) /\ bk_fs (ensure bk u) = bk_fs bk /\ batch_deleted_uuids (ensure bk u) = batch_deleted_uuids bk.
Proof. unfold ensure. by destruct (buffer_manager_find bk u). Qed.
(** The table plays no part in what a buffer says. *)
Lemma buf_ok_config bk bk' u b a lk : same_config bk bk' -> bk_fs bk' = bk_fs bk -> buf_ok bk u b a lk -> buf_ok bk' u b a lk.
Proof.
  intros (S1 & S2 & S3) Hf [B1 B2 B3 B4 B5 B6 B7 B8]. unfold lock_state, cur_root, other_root, vfile, bfile in *. rewrite <- S1, <- S2, <- S3, <- Hf in *. by split.
Qed.

Lemma inv_buf bk A K U u : io_inv bk A K U -> uuid_ok u -> u ∉ K -> buf_ok bk u (buf_of bk u) (A !! u) false.
Proof. intros Hi Hu Hk. pose proof (ii_cell _ _ _ _ Hi u Hu) as Hc. rewrite bool_decide_false in Hc by done. by apply cell_buf. Qed.

Lemma lock_ok bk A K U u flags x :
  io_inv bk A K U -> uuid_ok u -> u ∉ K -> flags ∈ write_flags -> A !! u = Some x ->
  exists bk' b' i, io_buffer_lock bk u flags = Some (bk', true) /\ buffers_table bk' !! u = Some b' /\ io_inv bk' A ({[u]} ∪ K) ({[u]} ∪ U) /\
    opened (ensure bk u) (with_fs (ensure bk u) (bk_fs bk')) u (buf_of bk u) b' flags i /\ same_config bk bk' /\ vfile bk' u = vfile bk u /\
    (if batch_mode bk && negb (batch_file_exists (buf_of bk u)) then content (bfile bk' u) = content (vfile bk u) else bfile bk' u = bfile bk u).
Proof.
  intros Hi Hu Hk Hfl Hx. pose proof (inv_buf _ _ _ _ _ Hi Hu Hk) as Hb. destruct (ensure_same bk u) as (Hsc & Hfs & Hdel).
  apply (buf_ok_config _ (ensure bk u)) in Hb; [|done|done]. destruct (write_flags_props flags 0 Hfl) as (W1 & W2 & _). pose proof Hsc as (S1 & S2 & S3).
  destruct (open_exists (ensure bk u) u (buf_of bk u) (A !! u) x flags) as (bk1 & b' & i & Ho & Hop & E1 & E2 & E3 & E4); try done.
  { rewrite Hfs. apply Hi. }
  { rewrite S2, S3. apply Hi. }
  rewrite lock_unfold, Ho. cbn [mbind option_bind]. pose proof (op_bk _ _ _ _ _ _ _ Hop) as Hbk.
  assert (Hsc1 : same_config bk (put_buf bk1 u b')) by (rewrite Hbk; exact Hsc).
  eexists _, b', i. split; [done|]. split; [cbn; apply lookup_insert_eq|]. split; [|split; [by rewrite Hbk in Hop|]].
  - eapply (inv_update bk _ A A K ({[u]} ∪ K) U u Hi Hu Hsc1); [by rewrite Hbk| | |done|set_solver| |apply Hi].
    + intros v Hv. cbn. rewrite lookup_insert_ne by done. rewrite Hbk. by apply ensure_table.
    + cbn. rewrite <- Hfs. apply Hop.
    + cbn [put_buf buffers_table with_bufs]. rewrite lookup_insert_eq, bool_decide_true by set_solver. apply (buf_ok_config bk1); [done|done|].
      by eapply opened_locked.
  - split; [done|]. unfold vfile, bfile in *. rewrite S2, S3, Hfs in *. rewrite Hbk in *. cbn in *. rewrite S2, S3 in *. rewrite S1 in *. done.
Qed.

Lemma lock_absent bk A K U u flags :
  io_inv bk A K U -> uuid_ok u -> u ∉ K -> flags ∈ store_flags -> has flags NEXUS_FCREATE = false -> A !! u = None ->
  exists bk', io_buffer_lock bk u flags = Some (bk', false) /\ io_inv bk' A K ({[u]} ∪ U) /\ same_config bk bk'.
Proof.
  intros Hi Hu Hk Hfl Hnc Hx. pose proof (inv_buf _ _ _ _ _ Hi Hu Hk) as Hb. rewrite Hx in Hb. destruct (ensure_same bk u) as (Hsc & Hfs & Hdel).
  apply (buf_ok_config _ (ensure bk u)) in Hb; [|done|done].
  destruct (open_absent (ensure bk u) u (buf_of bk u) flags) as (fs' & Ho & Hch & Hnm & Hlk); try done; [rewrite Hfs; apply Hi|].
  rewrite lock_unfold, Ho. cbn [mbind option_bind]. eexists. split; [done|]. split; [|exact Hsc].
  assert (Hfile : forall p, file_at fs' p = file_at (bk_fs (ensure bk u)) p) by (intros p; apply (ch_file _ _ _ _ (Hch p))).
  assert (Hcell : buf_ok (with_fs (ensure bk u) fs') u (buf_of bk u) None false) by (by apply (cell_same (ensure bk u) fs' u (Some (buf_of bk u)))).
  eapply (inv_update bk _ A A K K U u Hi Hu); [exact Hsc|done| | |done|done| |apply Hi].
  - intros v Hv. cbn. rewrite lookup_insert_ne by done. by apply ensure_table.
  - cbn. rewrite <- Hfs. eapply changes_touches; [done|rewrite Hfs; apply Hi|apply (Hch (full_path [] u))|by left].
  - cbn [put_buf buffers_table with_bufs]. rewrite lookup_insert_eq, bool_decide_false, Hx by done. by apply (buf_ok_config (with_fs (ensure bk u) fs')).
Qed.

(** ** Releasing and reading *)
Lemma io_release_spec bk b fh :
  fs_ok (bk_fs bk) -> __metadata_buf_get_handle bk b = Some fh ->
  exists fs' b', __release_metadata_buf bk b = (with_fs bk fs', b', 0) /\ (forall p, changes (bk_fs bk) fs' p (file_at (bk_fs bk) p)) /\ fs_names fs' = fs_names (bk_fs bk) /\
    fs_locks fs' = (if is_locked fh then fs_locks (bk_fs bk) ∖ {[fd_ino (fh_fd fh)]} else fs_locks (bk_fs bk)) /\
    same_buf b b' /\ file_handle b' = None /\ batch_handle b' = None /\ is_dirty b' = false /\ batch_file_exists b' = batch_file_exists b /\
    (file_mutex b = nexus_io_in_lock_mode (io_flags b) -> file_mutex b' = false).
Proof.
  intros Hok Hh. unfold __release_metadata_buf. rewrite Hh. destruct (fclose_spec (bk_fs bk) fh Hok) as (fs' & -> & Hch & Hn & Hl).
  eexists fs', _. split; [done|]. do 3 (split; [done|]). destruct (nexus_io_in_lock_mode (io_flags b)); done.
Qed.

Lemma update_ok bk u b x lk : fs_ok (bk_fs bk) -> buf_ok bk u b (Some x) lk -> buf_ok bk u (__update_metadata_buf bk b x) (Some x) lk.
Proof.
  intros Hok [B1 B2 B3 B4 B5 B6 B7 B8]. unfold __update_metadata_buf. split; cbn; try done.
  - intros Hm. destruct (B6 Hm) as (M1 & M2 & M3 & M4 & M5). do 4 (split; [done|]). destruct (is_dirty b); [eauto|done].
  - intros He. destruct (B7 He) as (n & Hn & _). exists n. split; [done|]. right. split; [eauto|]. destruct (file_inode _ _ _ _ Hn) as (i & _ & Hi). by apply (fo_time _ Hok i).
Qed.

(** The offset of the open file moves. *)
Definition moved fh fh' : Prop := fd_ino (fh_fd fh') = fd_ino (fh_fd fh) /\ fd_acc (fh_fd fh') = fd_acc (fh_fd fh) /\ is_locked fh' = is_locked fh /\ touched fh' = true.

Lemma read_spec bk b fh n :
  fs_ok (bk_fs bk) -> __metadata_buf_get_handle bk b = Some fh -> has (io_flags b) NEXUS_IO_FNODE = false ->
  fs_inodes (bk_fs bk) !! fd_ino (fh_fd fh) = Some n -> readable (fh_fd fh) = true -> Z.of_nat (length (i_data n)) < 2 ^ 31 ->
  exists fh', moved fh fh' /\ __read_metadata_file bk b = Some (bk, __update_metadata_buf bk (set_handle bk b fh') (i_data n), 0).
Proof.
  intros Hok Hh Hf Hn Hr Hl. destruct (fread_spec (bk_fs bk) fh n Hok Hn Hr Hl) as (pos & He). unfold __read_metadata_file. rewrite Hh, Hf.
  cbn [mbind option_bind]. rewrite He. eexists. split; [|cbn [mbind option_bind]; destruct bk; done]. done.
Qed.

(** The store that is asked for the size and the time of an object. *)
Lemma stat_file bk u b x :
  buf_ok bk u b (Some x) false ->
  exists n, file_at (bk_fs bk) (full_path (if batch_mode bk && batch_file_exists b then batch_datastore bk else metadata_store bk) u) = Some n /\
    (i_data n = x \/ (is_Some (buffer b) /\ i_mtime n <= buffer_time b)).
Proof.
  intros [_ _ B3 _ B5 B6 B7 _]. destruct (batch_mode bk && batch_file_exists b) eqn:He.
  - apply andb_prop in He as [_ He]. destruct (B7 He) as (n & Hn & [[= ->]|?]); exists n; auto.
  - assert (Hm : batch_mode_modified b = false) by (destruct (batch_mode_modified b); [|done]; destruct (B6 eq_refl) as (M1 & M2 & _); by rewrite M1, M2 in He).
    destruct (B5 Hm) as (_ & [[_ C2]|(? & _)]); [|done]. unfold vfile, content in C2. destruct (file_at _ _) as [n|]; [|done]. exists n. split; [done|]. left. by injection C2.
Qed.

Lemma stat_absent bk u b :
  buf_ok bk u b None false -> file_at (bk_fs bk) (full_path (if batch_mode bk && batch_file_exists b then batch_datastore bk else metadata_store bk) u) = None.
Proof.
  intros [_ _ B3 _ B5 B6 B7 _]. assert (Hex : batch_file_exists b = false).
  { destruct (batch_file_exists b); [|done]. destruct (B7 eq_refl) as (n & _ & [?|[[x Hx] _]]); [done|]. by apply B3 in Hx. }
  assert (Hm : batch_mode_modified b = false) by (destruct (batch_mode_modified b); [|done]; destruct (B6 eq_refl) as (_ & _ & [? ?] & _); done).
  rewrite Hex, andb_false_r. destruct (B5 Hm) as (_ & [[_ C2]|(? & _)]); [|done]. unfold vfile, content in C2. by destruct (file_at _ _).
Qed.

Lemma get_datastore_buf bk u : io_backend_get_datastore bk u = (if batch_mode bk && batch_file_exists (buf_of bk u) then batch_datastore bk else metadata_store bk).
Proof. unfold io_backend_get_datastore, buf_of, buffer_manager_find. destruct (batch_mode bk), (buffers_table bk !! u); done. Qed.

Lemma changes_all_touches fs fs' u :
  uuid_ok u -> fs_ok fs -> (forall p, changes fs fs' p (file_at fs p)) ->
  (fs_locks fs' = fs_locks fs \/ exists root i, fs_names fs !! full_path root u = Some i /\ fs_locks fs' = fs_locks fs ∖ {[i]}) -> touches fs fs' u.
Proof.
  intros Hu Hok Hch [Hl|(root & i & Hi & Hl)].
  - eapply changes_touches; [done|done|apply (Hch (full_path [] u))|by left].
  - eapply changes_touches; [done|done|apply (Hch (full_path root u))|right; eauto].
Qed.

(** The file a handle of the current store leads to. *)
Lemma cur_inode bk u i x :
  fs_names (bk_fs bk) !! full_path (cur_root bk) u = Some i -> content (if batch_mode bk then bfile bk u else vfile bk u) = Some x ->
  exists n, fs_inodes (bk_fs bk) !! i = Some n /\ i_data n = x.
Proof.
  unfold cur_root, bfile, vfile, file_at, content. intros Hi Hc. destruct (batch_mode bk); rewrite Hi in Hc; cbn in Hc; (destruct (fs_inodes (bk_fs bk) !! i) as [n|]; [|done]); exists n; (split; [done|]); by injection Hc.
Qed.

Lemma get_handle_quiet bk b : is_syncing b = false -> __metadata_buf_get_handle bk b = (if batch_mode bk then batch_handle b else file_handle b).
Proof. intros Hs. unfold __metadata_buf_get_handle. by rewrite in_batch_quiet. Qed.

Lemma set_handle_get bk b fh : __metadata_buf_get_handle bk (set_handle bk b fh) = Some fh.
Proof. unfold __metadata_buf_get_handle, set_handle, in_batch. destruct (batch_mode bk) eqn:Hb, (is_syncing b) eqn:Hs; cbn; by rewrite ?Hb, ?Hs. Qed.

Lemma staged_cur bk bk' u b x :
  batch_mode bk' = batch_mode bk -> staged bk bk' u b -> 
  content (file_at (bk_fs bk) (full_path (if batch_mode bk && batch_file_exists b then batch_datastore bk else metadata_store bk) u)) = Some x ->
  content (if batch_mode bk' then bfile bk' u else vfile bk' u) = Some x.
Proof.
  intros -> [Hv Hb] Hc. destruct (batch_mode bk); cbn in *; [|by rewrite Hv]. destruct (batch_file_exists b); cbn in *; [by rewrite Hb|by rewrite Hb].
Qed.

Lemma both_free bk fs u : ino_free fs (cur_root bk) u -> ino_free fs (other_root bk) u -> ino_free fs (metadata_store bk) u /\ ino_free fs (batch_datastore bk) u.
Proof. unfold cur_root, other_root. by destruct (batch_mode bk). Qed.

(** Reading an object that no one has open. *)
Lemma read_closed bk u b x st is_new :
  fs_ok (bk_fs bk) -> metadata_store bk <> batch_datastore bk -> uuid_ok u -> buf_ok bk u b (Some x) false -> is_dirty b = false ->
  Z.of_nat (length x) < 2 ^ 31 -> st_size st = Z.of_nat (length x) ->
  content (file_at (bk_fs bk) (full_path (if batch_mode bk && batch_file_exists b then batch_datastore bk else metadata_store bk) u)) = Some x ->
  exists bk' b', read_datastore bk u b NEXUS_FREAD st is_new = Some (if is_new then buffer_manager_add bk' u b' else put_buf bk' u b', Some b') /\
    bk' = with_fs bk (bk_fs bk') /\ touches (bk_fs bk) (bk_fs bk') u /\ buffer b' = Some x /\ buf_ok bk' u b' (Some x) false.
Proof.
  intros Hok Hr Hu Hb Hd Hlen Hst Hc. unfold read_datastore. rewrite Hst. destruct (Z.eqb_spec (Z.of_nat (length x)) 0) as [H0|H0].
  { destruct x; [|done]. exists bk, (__update_metadata_buf bk b []). split; [done|]. split; [by destruct bk|]. split; [by apply touches_refl|]. split; [done|]. by apply update_ok. }
  pose proof (bo_lock _ _ _ _ _ Hb) as (F1 & F2 & F3 & _). pose proof (bo_sync _ _ _ _ _ Hb) as Hsy.
  rewrite get_handle_quiet, F1, F2 by done. assert (Hnone : (if batch_mode bk then None else None) = @None nexus_file_handle) by (by destruct (batch_mode bk)). rewrite Hnone.
  destruct (open_exists bk u b (Some x) x NEXUS_FREAD Hok Hr Hu) as (bk1 & b1 & i & -> & Hop & E1 & E2 & E3 & E4); [unfold store_flags; set_solver|done|done|done|].
  cbn [mbind option_bind negb]. pose proof (opened_same _ _ _ _ _ _ _ Hop E1) as Hsame. destruct Hop as [O1 O2 O3 O4 O5 O6 _ (O8 & O8' & O8'') O9 O10 O11 O12].
  assert (Hbm : batch_mode bk1 = batch_mode bk) by (by rewrite O1). assert (Hcr : cur_root bk1 = cur_root bk) by (by rewrite O1).
  assert (Hh1 : __metadata_buf_get_handle bk1 b1 = Some (handle_for NEXUS_FREAD i)) by (rewrite get_handle_quiet by congruence; rewrite O3, O4, Hbm; by destruct (batch_mode bk)).
  destruct (cur_inode bk1 u i x) as (n & Hn & Hnx); [by rewrite Hcr|eapply staged_cur; [done|split; [exact E3|exact E4]|exact Hc]|].
  pose proof (to_ok _ _ _ O2) as Hok1.
  destruct (read_spec bk1 b1 (handle_for NEXUS_FREAD i) n) as (fh & Hmv & ->); [done|done|by rewrite O5|done|done|by rewrite Hnx|]. rewrite Hnx.
  cbn [mbind option_bind negb Z.eqb]. set (b2 := __update_metadata_buf bk1 (set_handle bk1 b1 fh) x).
  assert (Hq : is_syncing b2 = false /\ io_flags b2 = NEXUS_FREAD /\ file_mutex b2 = false /\ batch_file_exists b2 = batch_mode bk || batch_file_exists b /\ batch_mode_created b2 = batch_mode_created b1 /\ batch_mode_modified b2 = batch_mode_modified b1).
  { unfold b2, set_handle. destruct (in_batch bk1 b1); cbn; rewrite O8', O5, O6; done. }
  destruct Hq as (Q1 & Q2 & Q3 & Q4 & Q5 & Q6).
  destruct (io_release_spec bk1 b2 fh Hok1) as (fs3 & b3 & -> & Hch & Hnm & Hlk & [S1 S2 S3 S4 S5] & R1 & R2 & R3 & R4 & R5); [exact (set_handle_get bk1 b1 fh)|].
  assert (Hunl : is_locked fh = false) by (by destruct Hmv as (_ & _ & -> & _)). rewrite Hunl in Hlk.
  assert (Hfiles : forall p, file_at fs3 p = file_at (bk_fs bk1) p) by (intros p; apply (ch_file _ _ _ _ (Hch p))).
  assert (Hto : touches (bk_fs bk) fs3 u) by (eapply io_touches_trans; [exact O2|apply changes_all_touches; auto]).
  assert (Hs3 : staged bk (with_fs bk fs3) u b).
  { unfold staged, vfile, bfile. cbn [bk_fs with_fs metadata_store batch_datastore]. rewrite !Hfiles. rewrite O1 in E3, E4. split; [exact E3|exact E4]. }
  assert (Hb3 : buf_ok (with_fs bk fs3) u (with_buffer b3 (buffer b) (buffer_time b)) (Some x) false).
  { eapply buf_moved; [exact Hb|done| |split; cbn; rewrite ?S3, ?S4, ?S5, ?Q1, ?Q5, ?Q6; congruence|cbn; congruence|cbn; congruence|exact Hs3].
    cbn [lock_state with_buffer file_handle batch_handle file_mutex bk_fs with_fs metadata_store batch_datastore]. do 2 (split; [done|]). split; [apply R5; by rewrite Q2, Q3|].
    apply (both_free bk); (intros j Hj; rewrite Hnm in Hj; rewrite Hlk); [|by apply O12]. rewrite O9 in Hj. injection Hj as <-. by rewrite O10. }
  eexists (with_fs bk fs3), b3. split; [rewrite O1; by destruct is_new|]. split; [done|]. split; [done|].
  assert (Hb3' : b3 = __update_metadata_buf (with_fs bk fs3) (with_buffer b3 (buffer b) (buffer_time b)) x).
  { unfold __update_metadata_buf, now. cbn [bk_fs with_fs]. rewrite (to_clock _ _ _ Hto), <- (to_clock _ _ _ O2). change (fs_clock (bk_fs bk1)) with (buffer_time b2). rewrite <- S2.
    replace (Some x) with (buffer b3) by (rewrite S1; done). by destruct b3. }
  split; [by rewrite S1|]. rewrite Hb3'. apply update_ok; [apply Hto|done].
Qed.

Lemma set_handle_ok bk u b a fh fh' :
  buf_ok bk u b a true -> __metadata_buf_get_handle bk b = Some fh -> moved fh fh' -> buf_ok bk u (set_handle bk b fh') a true.
Proof.
  intros [B1 B2 B3 B4 B5 B6 B7 B8] Hh (M1 & M2 & M3 & M4). rewrite get_handle_quiet in Hh by done. unfold set_handle. rewrite in_batch_quiet by done.
  destruct B2 as (fh0 & F1 & F2 & [H1 H2 H3 H4] & F4 & F5 & F6 & F7).
  assert (fh0 = fh) as -> by (rewrite F1, F2 in Hh; destruct (batch_mode bk); congruence).
  assert (Hfh : handle_ok (bk_fs bk) (cur_root bk) u fh') by (split; rewrite ?M1, ?M3; [done|unfold writable in *; by rewrite M2|by left|done]).
  split; try (by destruct (batch_mode bk)). exists fh'. destruct (batch_mode bk); done.
Qed.

(** Reading an object through the handle its lock holds. *)
Lemma read_held bk u b x st flags fh :
  fs_ok (bk_fs bk) -> buf_ok bk u b (Some x) true -> __metadata_buf_get_handle bk b = Some fh -> readable (fh_fd fh) = true ->
  Z.of_nat (length x) < 2 ^ 31 -> st_size st = Z.of_nat (length x) -> content (if batch_mode bk then bfile bk u else vfile bk u) = Some x ->
  exists b', read_datastore bk u b flags st false = Some (put_buf bk u b', Some b') /\ buffer b' = Some x /\ buf_ok bk u b' (Some x) true.
Proof.
  intros Hok Hb Hh Hrd Hlen Hst Hc. unfold read_datastore. rewrite Hst, Hh. destruct (Z.eqb_spec (Z.of_nat (length x)) 0) as [H0|H0].
  { destruct x; [|done]. exists (__update_metadata_buf bk b []). split; [done|]. split; [done|]. by apply update_ok. }
  pose proof (bo_sync _ _ _ _ _ Hb) as Hsy. destruct (bo_lock _ _ _ _ _ Hb) as (fh0 & F1 & F2 & [H1 _ _ _] & _ & F5 & _).
  assert (fh0 = fh) as -> by (rewrite get_handle_quiet in Hh by done; rewrite F1, F2 in Hh; destruct (batch_mode bk); congruence).
  destruct (cur_inode bk u _ x H1 Hc) as (n & Hn & Hnx). destruct (read_spec bk b fh n) as (fh' & Hmv & Hrs); [done..|by rewrite Hnx|].
  cbn [mbind option_bind negb]. rewrite Hrs, Hnx. cbn [mbind option_bind negb Z.eqb]. eexists. split; [done|]. split; [done|]. apply update_ok; [done|]. by eapply set_handle_ok.
Qed.

(** The buffer serves the object, or its file is read again. *)
Lemma buffer_serves bk u b x n lk :
  fs_ok (bk_fs bk) -> buf_ok bk u b (Some x) lk -> 0 < i_mtime n -> is_dirty b || (i_mtime n <=? buffer_time b) = true -> buffer b = Some x.
Proof.
  intros Hok [B1 B2 B3 B4 B5 B6 B7 B8] Hn Hs. assert (Hsome : is_Some (buffer b)).
  { destruct (is_dirty b) eqn:Hd; cbn in Hs.
    - destruct (batch_mode_modified b); [by destruct (B6 eq_refl) as (_ & _ & _ & _ & ?)|]. destruct (B5 eq_refl). congruence.
    - destruct (buffer b); [eauto|]. rewrite B4 in Hs by done. apply Z.leb_le in Hs. lia. }
  destruct Hsome as [y Hy]. rewrite Hy. by rewrite (B3 _ Hy).
Qed.

Lemma mtime_pos fs p n : fs_ok fs -> file_at fs p = Some n -> 0 < i_mtime n.
Proof. intros Hok (i & _ & Hi)%file_at_some. by apply (fo_time _ Hok i). Qed.

Lemma inv_same_fs bk A K U u : io_inv bk A K U -> io_inv (with_fs bk (bk_fs bk)) A K ({[u]} ∪ U).
Proof. intros [I1 I2 I3 I4 I5 I6 I7]. assert (Hbk : with_fs bk (bk_fs bk) = bk) by (by destruct bk). rewrite Hbk. split; try done. intros v Hv Hn. apply I6; [done|set_solver]. Qed.

Lemma stat_bk bk u : fs_ok (bk_fs bk) -> twolevel_stat_uuid (bk_fs bk) (io_backend_get_datastore bk u) u =
  (bk_fs bk, (fun n => mk_stat (Z.of_nat (length (i_data n))) (i_mtime n)) <$>
     file_at (bk_fs bk) (full_path (if batch_mode bk && batch_file_exists (buf_of bk u) then batch_datastore bk else metadata_store bk) u)).
Proof. intros Hok. rewrite stat_spec by done. by rewrite get_datastore_buf. Qed.

Lemma get_absent bk A K U u flags :
  io_inv bk A K U -> uuid_ok u -> u ∉ K -> A !! u = None ->
  exists bk', io_buffer_get bk u flags = Some (bk', None) /\ io_inv bk' A K ({[u]} ∪ U) /\ same_config bk bk'.
Proof.
  intros Hi Hu Hk Ha. pose proof (inv_buf _ _ _ _ _ Hi Hu Hk) as Hb. rewrite Ha in Hb. unfold io_buffer_get. rewrite stat_bk by apply Hi. rewrite (stat_absent _ _ _ Hb).
  eexists. split; [done|]. split; [by apply inv_same_fs|done].
Qed.

(** One buffer is set, whatever the number of them. *)
Lemma inv_set bk bk' A K U u b x :
  io_inv bk A K U -> uuid_ok u -> u ∉ K -> A !! u = Some x -> same_config bk bk' -> batch_deleted_uuids bk' = batch_deleted_uuids bk ->
  buffers_table bk' = <[u := b]> (buffers_table bk) -> touches (bk_fs bk) (bk_fs bk') u -> buf_ok bk' u b (Some x) false -> io_inv bk' A K ({[u]} ∪ U).
Proof.
  intros Hi Hu Hk Ha Hc Hd Ht Hto Hb. eapply (inv_update bk bk' A A K K U u); try done; [|rewrite Ht, lookup_insert_eq, Ha, bool_decide_false by done; done|apply Hi].
  intros v Hv. rewrite Ht. by apply lookup_insert_ne.
Qed.

Lemma get_read_ok bk A K U u x :
  io_inv bk A K U -> uuid_ok u -> u ∉ K -> A !! u = Some x ->
  exists bk' t, io_buffer_get bk u NEXUS_FREAD = Some (bk', Some (x, t)) /\ io_inv bk' A K ({[u]} ∪ U) /\ same_config bk bk'.
Proof.
  intros Hi Hu Hk Ha. pose proof (inv_buf _ _ _ _ _ Hi Hu Hk) as Hb. rewrite Ha in Hb. unfold io_buffer_get. rewrite stat_bk by apply Hi.
  destruct (stat_file _ _ _ _ Hb) as (n & Hn & Hnx). rewrite Hn. assert (Hbk : with_fs bk (bk_fs bk) = bk) by (by destruct bk). rewrite Hbk.
  change (has NEXUS_FREAD (Z.lor NEXUS_FWRITE NEXUS_IO_FCRYPTO)) with false. change (has NEXUS_FREAD NEXUS_FREAD) with true. cbn [fmap option_fmap option_map mbind option_bind negb].
  pose proof (ii_fs _ _ _ _ Hi) as Hok. pose proof (mtime_pos _ _ _ Hok Hn) as Hmt.
  assert (Hread : forall is_new, is_dirty (buf_of bk u) || (i_mtime n <=? buffer_time (buf_of bk u)) = false ->
    exists bk1 b', read_datastore bk u (buf_of bk u) NEXUS_FREAD (mk_stat (Z.of_nat (length (i_data n))) (i_mtime n)) is_new = Some (if is_new then buffer_manager_add bk1 u b' else put_buf bk1 u b', Some b') /\
    bk1 = with_fs bk (bk_fs bk1) /\ touches (bk_fs bk) (bk_fs bk1) u /\ buffer b' = Some x /\ buf_ok bk1 u b' (Some x) false).
  { intros is_new [Hd Ht]%orb_false_iff. apply Z.leb_gt in Ht. destruct Hnx as [Hnx|[_ ?]]; [|lia]. apply read_closed; [done|apply Hi|done|done|done|by apply (ii_len _ _ _ _ Hi u)|cbn; by rewrite Hnx|]. by rewrite Hn, <- Hnx. }
  unfold __io_buffer_read, buffer_manager_find. unfold buf_of in Hread, Hb. destruct (buffers_table bk !! u) as [b|] eqn:Hbu; cbn [default from_option id] in Hread, Hb.
  - cbn [st_mtime]. destruct (is_dirty b || (i_mtime n <=? buffer_time b)) eqn:Hs.
    + cbn [mbind option_bind]. rewrite (buffer_serves _ _ _ _ _ _ Hok Hb Hmt Hs). eexists _, _. split; [done|]. split; [|done]. rewrite <- Hbk. by apply inv_same_fs.
    + destruct (Hread false eq_refl) as (bk1 & b' & Hrd & Hbk1 & Hto & Hx & Hb'). cbn [default from_option id] in Hrd. rewrite Hrd. cbn [mbind option_bind]. rewrite Hx. eexists _, _. split; [done|]. split; [|by rewrite Hbk1].
      eapply inv_set; [exact Hi|done|done|done|by rewrite Hbk1|by rewrite Hbk1|by rewrite Hbk1|exact Hto|]. by apply (buf_ok_config bk1).
  - destruct (Hread true) as (bk1 & b' & Hrd & Hbk1 & Hto & Hx & Hb'); [apply orb_false_iff; split; [done|]; apply Z.leb_gt; exact Hmt|].
    cbn [default from_option id] in Hrd. rewrite Hrd. cbn [mbind option_bind]. rewrite Hx. eexists _, _. split; [done|]. split; [|by rewrite Hbk1].
    eapply inv_set; [exact Hi|done|done|done|by rewrite Hbk1|by rewrite Hbk1|by rewrite Hbk1|exact Hto|]. by apply (buf_ok_config bk1).
Qed.

(** A buffer that is locked is replaced. *)
Lemma inv_put_locked bk A K U u b x :
  io_inv bk A K U -> uuid_ok u -> u ∈ K -> A !! u = Some x -> buf_ok bk u b (Some x) true -> io_inv (put_buf bk u b) A K ({[u]} ∪ U).
Proof.
  intros Hi Hu Hk Ha Hb. eapply (inv_update bk _ A A K K U u); try done; [| |cbn; rewrite lookup_insert_eq, Ha, bool_decide_true by done|apply Hi].
  - intros v Hv. cbn. by apply lookup_insert_ne.
  - apply touches_refl. apply Hi.
  - by apply (buf_ok_config bk).
Qed.

Lemma get_rdwr_ok bk A K U u x :
  io_inv bk A K U -> uuid_ok u -> u ∉ K -> A !! u = Some x ->
  exists bk' t, io_buffer_get bk u NEXUS_FRDWR = Some (bk', Some (x, t)) /\ io_inv bk' A ({[u]} ∪ K) ({[u]} ∪ U) /\ same_config bk bk'.
Proof.
  intros Hi Hu Hk Ha. pose proof (inv_buf _ _ _ _ _ Hi Hu Hk) as Hb. rewrite Ha in Hb. unfold io_buffer_get. rewrite stat_bk by apply Hi.
  destruct (stat_file _ _ _ _ Hb) as (n & Hn & Hnx). rewrite Hn. assert (Hbk : with_fs bk (bk_fs bk) = bk) by (by destruct bk). rewrite Hbk.
  change (has NEXUS_FRDWR (Z.lor NEXUS_FWRITE NEXUS_IO_FCRYPTO)) with true. change (has NEXUS_FRDWR NEXUS_FREAD) with true. cbn [fmap option_fmap option_map].
  destruct (lock_ok bk A K U u NEXUS_FRDWR x Hi Hu Hk) as (bk1 & b1 & i & -> & Hb1 & Hi1 & Hop & Hsc & Hv & Hbf); [unfold write_flags; set_solver|done|]. cbn [mbind option_bind negb].
  pose proof (ii_cell _ _ _ _ Hi1 u Hu) as Hc1. rewrite Hb1, Ha, bool_decide_true in Hc1 by set_solver. cbn [cell] in Hc1.
  pose proof (ii_fs _ _ _ _ Hi) as Hok. pose proof (ii_fs _ _ _ _ Hi1) as Hok1. pose proof (mtime_pos _ _ _ Hok Hn) as Hmt. destruct Hop as [_ _ O3 O4 _ _ [O7 O7'] (O8 & O8' & _) _ _ _ _].
  assert (HU : {[u]} ∪ ({[u]} ∪ U) = {[u]} ∪ U) by set_solver. unfold __io_buffer_read, buffer_manager_find. rewrite Hb1. cbn [st_mtime].
  destruct (is_dirty b1 || (i_mtime n <=? buffer_time b1)) eqn:Hs.
  { cbn [mbind option_bind]. rewrite (buffer_serves _ _ _ _ _ _ Hok1 Hc1 Hmt Hs). eexists _, _. done. }
  apply orb_false_iff in Hs as [Hd Ht]. apply Z.leb_gt in Ht. destruct Hnx as [Hnx|[_ Hle]]; [|lia]. destruct Hsc as (S1 & S2 & S3). destruct (ensure_same bk u) as ((E1 & _) & _).
  destruct (read_held bk1 u b1 x (mk_stat (Z.of_nat (length (i_data n))) (i_mtime n)) NEXUS_FRDWR (handle_for NEXUS_FRDWR i)) as (b2 & -> & Hx & Hb2); try done.
  - rewrite get_handle_quiet by apply Hc1. rewrite O3, O4, S1, E1. by destruct (batch_mode bk).
  - by apply (ii_len _ _ _ _ Hi u).
  - cbn. by rewrite Hnx.
  - eapply (staged_cur bk bk1 u (buf_of bk u)); [done|by split|]. by rewrite Hn, <- Hnx.
  - cbn [mbind option_bind]. rewrite Hx. eexists _, _. split; [done|]. split; [|done]. rewrite <- HU. eapply inv_put_locked; [exact Hi1|done|set_solver|done|done].
Qed.

(** ** Writing *)
Lemma lock_handle bk u b a : buf_ok bk u b a true -> exists fh, __metadata_buf_get_handle bk b = Some fh /\ handle_ok (bk_fs bk) (cur_root bk) u fh.
Proof.
  intros Hb. pose proof (bo_sync _ _ _ _ _ Hb) as Hs. destruct (bo_lock _ _ _ _ _ Hb) as (fh & F1 & F2 & F3 & _). exists fh. split; [|done].
  rewrite get_handle_quiet, F1, F2 by done. by destruct (batch_mode bk).
Qed.

(** Giving the lock of an object back leaves its files free. *)
Lemma released_free bk u fs' fh :
  fs_ok (bk_fs bk) -> handle_ok (bk_fs bk) (cur_root bk) u fh -> ino_free (bk_fs bk) (other_root bk) u -> fs_names fs' = fs_names (bk_fs bk) ->
  fs_locks fs' = (if is_locked fh then fs_locks (bk_fs bk) ∖ {[fd_ino (fh_fd fh)]} else fs_locks (bk_fs bk)) ->
  ino_free fs' (metadata_store bk) u /\ ino_free fs' (batch_datastore bk) u.
Proof.
  intros Hok [H1 _ _ H4] Ho Hn Hl. apply (both_free bk); intros j Hj; rewrite Hn in Hj; rewrite Hl.
  - rewrite H1 in Hj. injection Hj as <-. destruct (is_locked fh); [set_solver|auto].
  - specialize (Ho _ Hj). destruct (is_locked fh); set_solver.
Qed.

Lemma release_touches bk u fs' fh :
  uuid_ok u -> fs_ok (bk_fs bk) -> fs_names (bk_fs bk) !! full_path (cur_root bk) u = Some (fd_ino (fh_fd fh)) -> (forall p, changes (bk_fs bk) fs' p (file_at (bk_fs bk) p)) ->
  fs_locks fs' = (if is_locked fh then fs_locks (bk_fs bk) ∖ {[fd_ino (fh_fd fh)]} else fs_locks (bk_fs bk)) -> touches (bk_fs bk) fs' u.
Proof. intros Hu Hok Hn Hch Hl. apply changes_all_touches; try done. rewrite Hl. destruct (is_locked fh); [right; eauto|by left]. Qed.

Lemma flush_spec bk b : fs_ok (bk_fs bk) -> in_batch bk b = false -> __flush_metadata_file bk b = (bk, with_dirty b false, 0).
Proof.
  intros Hok Hb. unfold __flush_metadata_file. rewrite Hb. destruct (fsync_mode bk); [|done]. unfold twolevel_fflush, nexus_file_handle_flush. rewrite (no_fault _ Hok). by destruct bk.
Qed.

Lemma write_spec bk b fh p n data :
  fs_ok (bk_fs bk) -> __metadata_buf_get_handle bk b = Some fh -> fs_names (bk_fs bk) !! p = Some (fd_ino (fh_fd fh)) -> fs_inodes (bk_fs bk) !! fd_ino (fh_fd fh) = Some n ->
  writable (fh_fd fh) = true -> touched fh = true \/ fd_pos (fh_fd fh) = 0 -> Z.of_nat (length data) < 2 ^ 31 ->
  exists fs' fh', __write_metadata_file bk b data = Some (with_fs bk fs', set_handle (with_fs bk fs') b fh', 0) /\ moved fh fh' /\
    changes (bk_fs bk) fs' p (Some (mk_inode data (fs_clock (bk_fs bk)))) /\ fs_names fs' = fs_names (bk_fs bk) /\ fs_locks fs' = fs_locks (bk_fs bk).
Proof.
  intros Hok Hh Hp Hn Hw Hpos Hlen. destruct (fwrite_spec (bk_fs bk) fh p n data Hok Hp Hn Hw Hpos Hlen) as (fs' & pos & He & Hrest).
  unfold __write_metadata_file. rewrite Hh. cbn [mbind option_bind]. rewrite He. eexists fs', _. split; [done|]. split; [done|exact Hrest].
Qed.

(** The buffer after a put: it holds the bytes, its lock is given back. *)
Lemma written_ok bk u b' data (dirty modified : bool) :
  fs_ok (bk_fs bk) -> is_syncing b' = false -> lock_state bk u b' false -> buffer b' = Some data -> buffer_time b' = now bk -> is_dirty b' = dirty -> batch_mode_modified b' = modified ->
  (modified = false -> dirty = false /\ batch_mode_created b' = false /\ content (vfile bk u) = Some data) ->
  (modified = true -> batch_mode bk = true /\ batch_file_exists b' = true /\ (batch_mode_created b' = false -> is_Some (vfile bk u)) /\ dirty = true) ->
  (batch_file_exists b' = true -> is_Some (bfile bk u)) -> buf_ok bk u b' (Some data) false.
Proof.
  intros Hok Hs Hl Hb Ht Hd Hm H0 H1 Hex. split; rewrite ?Hb, ?Hm, ?Hd; try done.
  - intros E. destruct (H0 E) as (? & ? & ?). split; [done|]. by left.
  - intros E. destruct (H1 E) as (M1 & M2 & M3 & ->). split; [done|]. split; [done|]. split; [eauto|]. split; [done|eauto].
  - intros E. destruct (Hex E) as [m Hbm]. exists m. split; [done|]. right. split; [eauto|]. rewrite Ht. destruct (file_inode _ _ _ _ Hbm) as (i & _ & Hi). by apply (fo_time _ Hok i).
Qed.

(** What [io_buffer_put] does to a locked buffer: it is written, or marked in
    batch mode, and released. *)
Lemma io_put_inv bk A K U u b' fs' data :
  io_inv bk A K U -> uuid_ok u -> u ∈ K -> Z.of_nat (length data) < 2 ^ 31 -> touches (bk_fs bk) fs' u -> buf_ok (with_fs bk fs') u b' (Some data) false ->
  io_inv (put_buf (with_fs bk fs') u b') (<[u := data]> A) (K ∖ {[u]}) ({[u]} ∪ U).
Proof.
  intros Hi Hu Hk Hlen Hto Hb. eapply (inv_update bk _ A _ K _ U u Hi Hu); [done|done| |done| | | |].
  - intros v Hv. cbn. by apply lookup_insert_ne.
  - intros v Hv. by apply lookup_insert_ne.
  - set_solver.
  - cbn [put_buf with_bufs with_fs buffers_table]. rewrite !lookup_insert_eq, bool_decide_false by set_solver. by apply (buf_ok_config (with_fs bk fs')).
  - intros x. rewrite lookup_insert_eq. by intros [= <-].
Qed.

Lemma put_batch bk A K U u data n :
  io_inv bk A K U -> uuid_ok u -> u ∈ K -> Z.of_nat (length data) < 2 ^ 31 -> batch_mode bk = true ->
  exists bk' t, io_buffer_put bk u data n = Some (bk', 0, t) /\ io_inv bk' (<[u := data]> A) (K ∖ {[u]}) ({[u]} ∪ U) /\ same_config bk bk'.
Proof.
  intros Hi Hu Hk Hlen Hbm. pose proof (ii_cell _ _ _ _ Hi u Hu) as Hc. rewrite bool_decide_true in Hc by done. unfold io_buffer_put, buffer_manager_find.
  destruct (buffers_table bk !! u) as [b|] eqn:Hbu; cbn [cell] in Hc; [|by destruct Hc]. destruct (lock_handle _ _ _ _ Hc) as (fh & Hh & Hho). rewrite Hh.
  pose proof Hc as [B1 (fh0 & F1 & F2 & _ & F4 & F5 & F6 & F7) B3 B4 B5 B6 B7 B8]. rewrite F5. cbn [negb andb]. pose proof (ii_fs _ _ _ _ Hi) as Hok. destruct (B8 eq_refl) as [[x Hx] Hexists]. rewrite ?Hbm.
  cbn [mbind option_bind negb Z.eqb]. set (b1 := with_batch b (batch_mode_created b) true). unfold __flush_metadata_file at 1. unfold in_batch at 1. rewrite Hbm.
  change (is_syncing b1) with (is_syncing b). rewrite B1. cbn [negb andb Z.eqb].
  destruct (io_release_spec bk (with_dirty b1 true) fh Hok) as (fs' & b2 & -> & Hch & Hnm & Hlk & [S1 S2 S3 S4 S5] & R1 & R2 & R3 & R4 & R5); [exact Hh|].
  cbn [negb Z.eqb]. eexists _, _. split; [done|]. split; [|done]. pose proof (release_touches bk u fs' fh Hu Hok (ho_name _ _ _ _ Hho) Hch Hlk) as Hto.
  eapply io_put_inv; [done..|]. assert (Hfiles : forall p, file_at fs' p = file_at (bk_fs bk) p) by (intros p; apply (ch_file _ _ _ _ (Hch p))).
  pose proof (released_free bk u fs' fh Hok Hho F7 Hnm Hlk) as [L1 L2].
  eapply (written_ok _ _ _ _ true true); cbn [with_dirty with_data_size with_buffer __update_metadata_buf is_syncing buffer buffer_time is_dirty batch_mode_modified batch_mode_created batch_file_exists];
    [apply Hto|by rewrite S3| |done|done|done|by rewrite S4|done| |].
  - cbn. rewrite R1, R2. split; [done|]. split; [done|]. split; [|done]. apply R5. cbn. by rewrite F4, F6.
  - intros _. rewrite R4, S5. cbn. split; [done|]. split; [auto|]. split; [|done]. unfold vfile. cbn [bk_fs with_fs metadata_store]. rewrite Hfiles. intros Hcr.
    destruct (batch_mode_modified b) eqn:Hm; [by destruct (B6 eq_refl) as (_ & _ & _ & ? & _); auto|]. destruct (B5 eq_refl) as (_ & [[_ Hv]|(_ & _ & ? & _)]); [|congruence].
    rewrite Hx in Hv. unfold vfile, content in Hv. destruct (file_at _ _); [eauto|done].
  - intros _. unfold bfile. cbn [bk_fs with_fs batch_datastore]. rewrite Hfiles. destruct (B7 (Hexists Hbm)) as (m & Hm & _). unfold bfile in Hm. rewrite Hm. eauto.
Qed.

Lemma put_plain bk A K U u data n :
  io_inv bk A K U -> uuid_ok u -> u ∈ K -> Z.of_nat (length data) < 2 ^ 31 -> batch_mode bk = false ->
  exists bk' t, io_buffer_put bk u data n = Some (bk', 0, t) /\ io_inv bk' (<[u := data]> A) (K ∖ {[u]}) ({[u]} ∪ U) /\ same_config bk bk'.
Proof.
  intros Hi Hu Hk Hlen Hbm. pose proof (ii_cell _ _ _ _ Hi u Hu) as Hc. rewrite bool_decide_true in Hc by done. unfold io_buffer_put, buffer_manager_find.
  destruct (buffers_table bk !! u) as [b|] eqn:Hbu; cbn [cell] in Hc; [|by destruct Hc]. destruct (lock_handle _ _ _ _ Hc) as (fh & Hh & Hho). rewrite Hh.
  pose proof Hc as [B1 (fh0 & F1 & F2 & _ & F4 & F5 & F6 & F7) B3 B4 B5 B6 B7 B8]. rewrite F5. cbn [negb andb]. pose proof (ii_fs _ _ _ _ Hi) as Hok. destruct (B8 eq_refl) as [[x Hx] Hexists]. rewrite ?Hbm.
  destruct (fo_inode _ Hok _ _ (ho_name _ _ _ _ Hho)) as [m Hm].
  assert (Hcl : batch_mode_modified b = false) by (destruct (batch_mode_modified b); [destruct (B6 eq_refl); congruence|done]).
  destruct (B5 Hcl) as (Hd & [[Hcr Hv]|(_ & ? & _)]); [|congruence].
  destruct (write_spec bk b fh (full_path (cur_root bk) u) m data Hok Hh (ho_name _ _ _ _ Hho) Hm (ho_write _ _ _ _ Hho) (ho_pos _ _ _ _ Hho) Hlen) as (fs1 & fh1 & -> & (M1 & M2 & M3 & M4) & Hch1 & Hnm1 & Hlk1).
  cbn [mbind option_bind negb Z.eqb with_fs batch_mode]. rewrite Hbm. set (bk1 := with_fs bk fs1). set (b1 := set_handle bk1 b fh1).
  assert (Hb1 : is_syncing b1 = false /\ io_flags b1 = io_flags b /\ file_mutex b1 = true /\ batch_mode_modified b1 = false /\ batch_mode_created b1 = false /\ batch_file_exists b1 = batch_file_exists b).
  { unfold b1, set_handle. destruct (in_batch bk1 b); done. }
  destruct Hb1 as (Q1 & Q2 & Q3 & Q4 & Q5 & Q6). pose proof (ch_ok _ _ _ _ Hch1) as Hok1. rewrite flush_spec; [|done|unfold in_batch; cbn; by rewrite Hbm]. cbn [negb Z.eqb].
  destruct (io_release_spec bk1 (with_dirty b1 false) fh1 Hok1) as (fs2 & b2 & -> & Hch & Hnm & Hlk & [S1 S2 S3 S4 S5] & R1 & R2 & R3 & R4 & R5); [exact (set_handle_get bk1 b fh1)|].
  cbn [negb Z.eqb]. eexists _, _. split; [done|]. split; [|done]. change (with_fs bk1 fs2) with (with_fs bk fs2).
  assert (Hho1 : handle_ok (bk_fs bk1) (cur_root bk1) u fh1).
  { destruct Hho as [H1 H2 H3 H4]. change (cur_root bk1) with (cur_root bk). cbn. split; rewrite ?Hnm1, ?Hlk1, ?M1, ?M3; [done|unfold writable in *; by rewrite M2|by left|done]. }
  assert (Hto : touches (bk_fs bk) fs2 u).
  { eapply io_touches_trans; [eapply changes_touches; [done|done|exact Hch1|by left]|]. exact (release_touches bk1 u fs2 fh1 Hu Hok1 (ho_name _ _ _ _ Hho1) Hch Hlk). }
  eapply io_put_inv; [done..|]. assert (Hfiles : forall p, file_at fs2 p = file_at fs1 p) by (intros p; apply (ch_file _ _ _ _ (Hch p))).
  assert (Hcur : cur_root bk = metadata_store bk) by (unfold cur_root; by rewrite Hbm).
  destruct (released_free bk1 u fs2 fh1 Hok1 Hho1) as [L1 L2]; [|exact Hnm|exact Hlk|].
  { intros j Hj. change (other_root bk1) with (other_root bk) in Hj. cbn in Hj |- *. rewrite Hnm1 in Hj. rewrite Hlk1. by apply F7. }
  eapply (written_ok _ _ _ _ false false); cbn [with_dirty with_data_size with_buffer __update_metadata_buf is_syncing buffer buffer_time is_dirty batch_mode_modified batch_mode_created batch_file_exists];
    [apply Hto|by rewrite S3| |done|done|done|by rewrite S4| |done|].
  - cbn. rewrite R1, R2. split; [done|]. split; [done|]. split; [|done]. apply R5. cbn. by rewrite Q3, Q2, F6.
  - intros _. split; [done|]. split; [by rewrite S5|]. unfold vfile. cbn [bk_fs with_fs metadata_store]. rewrite Hfiles, <- Hcur, (ch_file _ _ _ _ Hch1). done.
  - rewrite R4. cbn [with_dirty batch_file_exists]. rewrite Q6. intros He. destruct (B7 He) as (k & Hk' & _). unfold bfile in Hk' |- *. cbn [bk_fs with_fs batch_datastore]. rewrite Hfiles, (ch_files _ _ _ _ Hch1); [by rewrite Hk'; eauto|].
    rewrite Hcur. intros E. apply full_path_inj in E as [E _]; [|done|done]. by apply (ii_roots _ _ _ _ Hi).
Qed.

Lemma put_ok bk A K U u data n :
  io_inv bk A K U -> uuid_ok u -> u ∈ K -> Z.of_nat (length data) < 2 ^ 31 ->
  exists bk' t, io_buffer_put bk u data n = Some (bk', 0, t) /\ io_inv bk' (<[u := data]> A) (K ∖ {[u]}) ({[u]} ∪ U) /\ same_config bk bk'.
Proof. intros. destruct (batch_mode bk) eqn:Hbm; [by apply put_batch|by apply put_plain]. Qed.

(** ** The other calls *)
Lemma put_unlocked bk A K U u data n : io_inv bk A K U -> uuid_ok u -> u ∉ K -> io_buffer_put bk u data n = Some (bk, -1, 0).
Proof.
  intros Hi Hu Hk. pose proof (ii_cell _ _ _ _ Hi u Hu) as Hc. rewrite bool_decide_false in Hc by done. unfold io_buffer_put, buffer_manager_find.
  destruct (buffers_table bk !! u) as [b|]; [|done]. destruct Hc as [B1 (F1 & F2 & _) _ _ _ _ _ _]. rewrite get_handle_quiet, F1, F2 by done. by destruct (batch_mode bk).
Qed.

Lemma unlock_ok bk A K U u :
  io_inv bk A K U -> uuid_ok u -> u ∈ K -> batch_mode bk = false ->
  exists bk', io_buffer_unlock bk u = (bk', true) /\ io_inv bk' A (K ∖ {[u]}) ({[u]} ∪ U) /\ same_config bk bk'.
Proof.
  intros Hi Hu Hk Hbm. pose proof (ii_cell _ _ _ _ Hi u Hu) as Hc. rewrite bool_decide_true in Hc by done. unfold io_buffer_unlock, buffer_manager_find.
  destruct (buffers_table bk !! u) as [b|] eqn:Hbu; cbn [cell] in Hc; [|by destruct Hc]. destruct (lock_handle _ _ _ _ Hc) as (fh & Hh & Hho). pose proof (ii_fs _ _ _ _ Hi) as Hok.
  pose proof Hc as [B1 (fh0 & _ & _ & _ & F4 & _ & F6 & F7) B3 B4 B5 B6 B7 B8].
  destruct (io_release_spec bk b fh Hok Hh) as (fs' & b' & -> & Hch & Hnm & Hlk & [S1 S2 S3 S4 S5] & R1 & R2 & R3 & R4 & R5). cbn [Z.eqb].
  pose proof (release_touches bk u fs' fh Hu Hok (ho_name _ _ _ _ Hho) Hch Hlk) as Hto. pose proof (released_free bk u fs' fh Hok Hho F7 Hnm Hlk) as [L1 L2].
  assert (Hfiles : forall p, file_at fs' p = file_at (bk_fs bk) p) by (intros p; apply (ch_file _ _ _ _ (Hch p))).
  assert (Hv : vfile (with_fs bk fs') u = vfile bk u) by apply Hfiles. assert (Hbf : bfile (with_fs bk fs') u = bfile bk u) by apply Hfiles.
  assert (Hm : batch_mode_modified b = false) by (destruct (batch_mode_modified b); [destruct (B6 eq_refl); congruence|done]).
  destruct (B5 Hm) as (_ & [Hcl|(_ & ? & _)]); [|congruence].
  eexists. split; [done|]. split; [|done]. eapply (inv_update bk _ A A K _ U u Hi Hu); [done|done| |done|done|set_solver| |apply Hi].
  { intros v Hne. cbn. by apply lookup_insert_ne. }
  cbn [put_buf with_bufs with_fs buffers_table]. rewrite lookup_insert_eq, bool_decide_false by set_solver. apply (buf_ok_config (with_fs bk fs')); [done|done|].
  split; rewrite ?S1, ?S2, ?S3, ?S4, ?S5, ?R3, ?R4, ?Hv, ?Hbf, ?Hm; try done.
  - cbn. rewrite R1, R2. split; [done|]. split; [done|]. split; [|done]. apply R5. by rewrite F4, F6.
  - intros _. split; [done|]. by left.
Qed.

Definition create_flags : list Z := [NEXUS_FCREATE; Z.lor NEXUS_FWRITE NEXUS_FCREATE].
Lemma create_flags_props flags i :
  flags ∈ create_flags -> flags ∈ store_flags /\ has flags NEXUS_FCREATE = true /\ nexus_io_in_lock_mode flags = true /\ has flags NEXUS_IO_FNODE = false /\ writable (opened_fd flags i) = true.
Proof. unfold create_flags. intros [->|[->|[]%not_elem_of_nil]%elem_of_cons]%elem_of_cons; (split; [unfold store_flags; set_solver|done]). Qed.

(** Two names of one object. *)
Lemma roots_path bk A K U u : io_inv bk A K U -> uuid_ok u -> full_path (metadata_store bk) u <> full_path (batch_datastore bk) u.
Proof. intros Hi Hu He. apply full_path_inj in He as [He _]; [|done|done]. by apply (ii_roots _ _ _ _ Hi). Qed.
Lemma cur_other_path bk A K U u : io_inv bk A K U -> uuid_ok u -> full_path (other_root bk) u <> full_path (cur_root bk) u.
Proof. intros Hi Hu. pose proof (roots_path _ _ _ _ _ Hi Hu). unfold cur_root, other_root. destruct (batch_mode bk); [done|by apply not_eq_sym]. Qed.

Lemma fresh_none bk A K U u : io_inv bk A K U -> uuid_ok u -> u ∉ U ->
  fs_names (bk_fs bk) !! full_path (cur_root bk) u = None /\ fs_names (bk_fs bk) !! full_path (other_root bk) u = None /\ file_at (bk_fs bk) (full_path (cur_root bk) u) = None.
Proof.
  intros Hi Hu Hn. destruct (ii_fresh _ _ _ _ Hi u Hu Hn) as (_ & Hv & Hb & _). pose proof (ii_fs _ _ _ _ Hi) as Hok. unfold vfile, bfile in *. unfold cur_root, other_root.
  destruct (batch_mode bk); (split; [by apply file_at_none|split; [by apply file_at_none|done]]).
Qed.

Lemma lock_create bk A K U u flags :
  io_inv bk A K U -> uuid_ok u -> u ∉ U -> flags ∈ create_flags ->
  exists bk', io_buffer_lock bk u flags = Some (bk', true) /\ io_inv bk' (<[u := []]> A) ({[u]} ∪ K) ({[u]} ∪ U) /\ same_config bk bk'.
Proof.
  intros Hi Hu Hn Hfl. destruct (create_flags_props flags 0 Hfl) as (W1 & W2 & W3 & W4 & _). pose proof (ii_fs _ _ _ _ Hi) as Hok.
  destruct (ii_fresh _ _ _ _ Hi u Hu Hn) as (Ht & Hv & Hb & Hk). destruct (fresh_none _ _ _ _ _ Hi Hu Hn) as (N1 & N2 & _).
  destruct (fopen_create (bk_fs bk) (cur_root bk) u flags Hok Hu W1 N1 W2) as (fs' & i & Hop & Hnm & Hch & Hfr & Hlk).
  rewrite lock_unfold. unfold ensure, buf_of, buffer_manager_find. rewrite Ht. cbn [default from_option id]. set (bk0 := buffer_manager_add bk u __alloc_metadata_buf).
  rewrite open_split by (by unfold __metadata_buf_get_handle; destruct (in_batch _ _)). rewrite W2. cbn [negb]. rewrite andb_false_r. cbn [andb mbind option_bind negb Z.eqb].
  unfold open_tail. rewrite get_datastore_quiet, in_batch_quiet by done. change (bk_fs bk0) with (bk_fs bk). change (cur_root bk0) with (cur_root bk). change (batch_mode bk0) with (batch_mode bk).
  rewrite Hop. cbn [mbind option_bind]. rewrite W2. set (b1 := if batch_mode bk && true then _ else _).
  rewrite (acquire_new (with_fs bk0 fs') b1 (handle_for flags i) flags); [|unfold b1; by destruct (batch_mode bk)..|unfold __metadata_buf_get_handle, in_batch, b1; cbn; by destruct (batch_mode bk)].
  cbn [mbind option_bind]. rewrite W3. eexists. split; [done|]. split; [|done].
  assert (Hto : touches (bk_fs bk) fs' u).
  { eapply changes_touches; [done|done|exact Hch|]. destruct (has flags NEXUS_FWRITE); [right; eauto|by left]. }
  eapply (inv_update bk _ A _ K _ U u Hi Hu); [done|done| |exact Hto| |set_solver| |].
  - intros v Hne. cbn. by rewrite !lookup_insert_ne.
  - intros v Hne. by apply lookup_insert_ne.
  - cbn [put_buf with_bufs with_fs buffers_table]. rewrite !lookup_insert_eq, bool_decide_true by set_solver. apply (buf_ok_config (with_fs bk fs')); [done|done|]. cbn [cell].
    assert (Hho : handle_ok fs' (cur_root bk) u (handle_for flags i)).
    { split; [done|by destruct (create_flags_props flags i Hfl) as (_ & _ & _ & _ & ?)|by right|]. cbn. intros Hw. rewrite Hlk, Hw. intros Hl. apply (fo_locks _ Hok) in Hl. rewrite Hfr in Hl. by destruct Hl. }
    assert (Hfo : ino_free fs' (other_root bk) u).
    { intros j Hj. rewrite (ch_names _ _ _ _ Hch) in Hj by (by eapply cur_other_path). congruence. }
    pose proof (ch_file _ _ _ _ Hch) as Hnew. unfold b1. unfold cur_root in Hnew.
    destruct (batch_mode bk) eqn:Hbm; cbn [andb negb]; (split; cbn; try done).
    + exists (handle_for flags i). unfold cur_root, other_root in *. cbn. rewrite Hbm in *. done.
    + intros _. split; [done|]. right. rewrite Hbm. unfold bfile. cbn [bk_fs with_fs batch_datastore]. rewrite Hnew. cbn. eauto 8.
    + intros _. unfold bfile. cbn [bk_fs with_fs batch_datastore]. rewrite Hnew. eexists. split; [done|]. by left.
    + exists (handle_for flags i). unfold cur_root, other_root in *. cbn. rewrite Hbm in *. done.
    + intros _. split; [done|]. left. unfold vfile. cbn [bk_fs with_fs metadata_store]. by rewrite Hnew.
    + intros _. split; [eauto|congruence].
  - intros x. rewrite lookup_insert_eq. intros [= <-]. cbn. lia.
Qed.

Lemma backend_root bk : __get_backend_datastore bk = cur_root bk.
Proof. done. Qed.

Lemma new_ok bk A K U u :
  io_inv bk A K U -> uuid_ok u -> u ∉ U ->
  exists bk', io_buffer_new bk u = (bk', 0) /\ io_inv bk' (<[u := []]> A) K ({[u]} ∪ U) /\ same_config bk bk'.
Proof.
  intros Hi Hu Hn. pose proof (ii_fs _ _ _ _ Hi) as Hok. destruct (ii_fresh _ _ _ _ Hi u Hu Hn) as (Ht & Hv & Hb & Hk). destruct (fresh_none _ _ _ _ _ Hi Hu Hn) as (N1 & N2 & N3).
  unfold io_buffer_new. rewrite backend_root. destruct (new_spec (bk_fs bk) (cur_root bk) u Hok Hu N3) as (fs' & -> & Hch & Hlk & Hfr). cbn [negb Z.eqb with_fs batch_mode].
  assert (Hto : touches (bk_fs bk) fs' u) by (eapply changes_touches; [done|done|exact Hch|by left]).
  assert (Hfree : ino_free fs' (metadata_store bk) u /\ ino_free fs' (batch_datastore bk) u).
  { apply (both_free bk); intros j Hj; rewrite Hlk; [by apply Hfr|]. rewrite (ch_names _ _ _ _ Hch) in Hj by (by eapply cur_other_path). congruence. }
  pose proof (ch_file _ _ _ _ Hch) as Hnew. destruct Hfree as [L1 L2]. unfold cur_root in Hnew. destruct (batch_mode bk) eqn:Hbm; (eexists; split; [done|]; split; [|done]).
  - eapply (inv_update bk _ A _ K _ U u Hi Hu); [done|done| |exact Hto| |done| |].
    + intros v Hne. cbn. by rewrite !lookup_insert_ne.
    + intros v Hne. by apply lookup_insert_ne.
    + cbn [buffer_manager_add with_bufs with_fs buffers_table]. rewrite !lookup_insert_eq, bool_decide_false by set_solver. apply (buf_ok_config (with_fs bk fs')); [done|done|].
      split; cbn; try done.
      * intros _. rewrite Hbm. split; [done|]. split; [done|]. split; [eauto|]. split; [done|]. unfold bfile. cbn [bk_fs with_fs batch_datastore]. by rewrite Hnew.
      * intros _. unfold bfile. cbn [bk_fs with_fs batch_datastore]. rewrite Hnew. eexists. split; [done|]. by left.
    + intros x. rewrite lookup_insert_eq. intros [= <-]. cbn. lia.
  - eapply (inv_update bk _ A _ K _ U u Hi Hu); [done|done|done|exact Hto| |done| |].
    + intros v Hne. by apply lookup_insert_ne.
    + cbn [with_fs buffers_table]. rewrite Ht, lookup_insert_eq, bool_decide_false by done. split; [done|]. unfold vfile. cbn [bk_fs with_fs metadata_store]. by rewrite Hnew.
    + intros x. rewrite lookup_insert_eq. intros [= <-]. cbn. lia.
Qed.

(** Deleting outside batch mode. *)
Lemma del_ok bk A K U u :
  io_inv bk A K U -> uuid_ok u -> u ∉ K -> batch_mode bk = false ->
  exists bk', io_buffer_del bk u = (bk', if A !! u then 0 else -1) /\ io_inv bk' (delete u A) K ({[u]} ∪ U) /\ same_config bk bk'.
Proof.
  intros Hi Hu Hk Hbm. pose proof (ii_fs _ _ _ _ Hi) as Hok. pose proof (inv_buf _ _ _ _ _ Hi Hu Hk) as Hb.
  assert (Hv : content (vfile bk u) = A !! u).
  { destruct Hb as [_ _ _ _ B5 B6 _ _]. destruct (batch_mode_modified (buf_of bk u)); [destruct (B6 eq_refl); congruence|]. by destruct (B5 eq_refl) as (_ & [[_ ?]|(? & _)]). }
  unfold io_buffer_del. set (bk0 := match buffer_manager_find bk u with Some _ => _ | None => _ end).
  assert (Hbk0 : bk0 = bk) by (unfold bk0; destruct (buffer_manager_find bk u); [by rewrite Hbm|done]). rewrite Hbk0. cbn [bk_fs buffer_manager_del with_bufs].
  change (__get_backend_datastore (buffer_manager_del bk u)) with (__get_backend_datastore bk). unfold __get_backend_datastore. rewrite Hbm.
  destruct (store_del_spec (bk_fs bk) (metadata_store bk) u Hok) as (fs' & -> & Hch & Hlk & Hgone).
  assert (Hret : (if (if file_at (bk_fs bk) (full_path (metadata_store bk) u) then 0 else -1) =? 0 then 0 else -1) = (if A !! u then 0 else -1)).
  { rewrite <- Hv. unfold vfile, content. by destruct (file_at _ _). }
  rewrite Hret. eexists. split; [done|]. split; [|done]. pose proof (bo_lock _ _ _ _ _ Hb) as (_ & _ & _ & L1 & L2).
  eapply (inv_update bk _ A _ K _ U u Hi Hu); [done|done| | | |done| |].
  - intros v Hne. cbn. by apply lookup_delete_ne.
  - eapply changes_touches; [done|done|exact Hch|by left].
  - intros v Hne. by apply lookup_delete_ne.
  - cbn [with_fs buffer_manager_del with_bufs buffers_table]. rewrite !lookup_delete_eq, bool_decide_false by done. split; [done|]. split.
    + unfold vfile. cbn [bk_fs with_fs metadata_store buffer_manager_del with_bufs]. by rewrite (ch_file _ _ _ _ Hch).
    + split; intros j Hj; cbn [bk_fs with_fs metadata_store batch_datastore buffer_manager_del with_bufs] in Hj |- *; [congruence|].
      rewrite Hlk. rewrite (ch_names _ _ _ _ Hch) in Hj by (apply not_eq_sym; by eapply roots_path). by apply L2.
  - intros x. by rewrite lookup_delete_eq.
Qed.

Lemma stattime_ok bk A K U u :
  io_inv bk A K U -> uuid_ok u -> u ∉ K -> exists t, io_buffer_stattime bk u = (bk, t) /\ (is_Some t <-> is_Some (A !! u)).
Proof.
  intros Hi Hu Hk. pose proof (inv_buf _ _ _ _ _ Hi Hu Hk) as Hb. unfold io_buffer_stattime, io_backend_stat_uuid, twolevel_getattr. rewrite stat_bk by apply Hi.
  assert (Hbk : with_fs bk (bk_fs bk) = bk) by (by destruct bk). rewrite Hbk.
  destruct (A !! u) as [x|].
  - destruct (stat_file _ _ _ _ Hb) as (n & -> & _). cbn [fmap option_fmap option_map]. destruct (if batch_mode bk then buffer_manager_find bk u else None) as [b|]; (eexists; split; [done|]; split; eauto).
  - rewrite (stat_absent _ _ _ Hb). exists None. split; [done|]. split; intros []; done.
Qed.

(** *** Time *)
Definition tick bk (d : Z) : sgx_backend :=
  let fs := bk_fs bk in with_fs bk (mk_fs (fs_names fs) (fs_dirs fs) (fs_inodes fs) (fs_locks fs) (fs_clock fs + d) (fs_faults fs)).

Lemma tick_ok bk A K U d : io_inv bk A K U -> 0 <= d -> io_inv (tick bk d) A K U.
Proof.
  intros [I1 I2 I3 I4 I5 I6 I7] Hd. split; try done.
  - destruct I1 as [F1 F2 F3 F0 F4 F5]. split; cbn; try done; [lia|]. intros i n Hi. specialize (F4 i n Hi). lia.
  - intros u Hu. specialize (I5 u Hu). unfold tick. cbv zeta. by apply (cell_same bk).
Qed.

(** *** Entering batch mode *)
Lemma start_ok bk A U : io_inv bk A ∅ U -> io_inv (fst (sgx_backend_batch_mode_start bk)) A ∅ U.
Proof.
  intros [I1 I2 I3 I4 I5 I6 I7]. split; try done. intros u Hu. specialize (I5 u Hu). rewrite bool_decide_false in I5 |- * by set_solver. cbn [fst sgx_backend_batch_mode_start with_batch_mode buffers_table].
  destruct (buffers_table bk !! u) as [b|]; [|exact I5]. destruct I5 as [B1 B2 B3 B4 B5 B6 B7 B8]. split; try done.
  - intros Hm. destruct (B5 Hm) as (? & [?|(? & _)]); [|done]. split; [done|]. by left.
  - intros Hm. destruct (B6 Hm) as (M1 & M2). split; [done|exact M2].
Qed.

(** ** Leaving batch mode *)
Definition sync_flags (created : bool) : Z := if created then Z.lor NEXUS_FWRITE NEXUS_FCREATE else NEXUS_FWRITE.

(** The file of the volume is opened, or made. *)
Lemma sync_fopen fs root u (created : bool) :
  fs_ok fs -> uuid_ok u -> ino_free fs root u -> (created = false -> is_Some (file_at fs (full_path root u))) ->
  exists fs' i f, twolevel_fopen fs root u (sync_flags created) = Some (fs', Some (handle_for (sync_flags created) i)) /\ fs_names fs' !! full_path root u = Some i /\
    changes fs fs' (full_path root u) (Some f) /\ i ∉ fs_locks fs /\ fs_locks fs' = {[i]} ∪ fs_locks fs /\ (fs_names fs !! full_path root u = Some i \/ fs_inodes fs !! i = None).
Proof.
  intros Hok Hu Hfree Hex. assert (Hfl : sync_flags created ∈ store_flags /\ has (sync_flags created) NEXUS_FWRITE = true /\ has (sync_flags created) NEXUS_FCREATE = created).
  { unfold sync_flags, store_flags. destruct created; (split; [set_solver|done]). }
  destruct Hfl as (W1 & W2 & W3). destruct (fs_names fs !! full_path root u) as [i|] eqn:Hi.
  - destruct (fopen_some fs root u _ i Hok W1 Hi) as (fs' & Hop & Hch & Hnm & Hlk); [intros _; by apply Hfree|]. rewrite W2 in Hlk. destruct (fo_inode _ Hok _ _ Hi) as [n Hn].
    exists fs', i, n. split; [done|]. split; [by rewrite Hnm|]. split; [|by eauto]. replace (Some n) with (file_at fs (full_path root u)) by (unfold file_at; rewrite Hi; done). apply Hch.
  - destruct created; [|destruct (Hex eq_refl) as [n (i & Hi' & _)%file_at_some]; congruence]. destruct (fopen_create fs root u _ Hok Hu W1 Hi W3) as (fs' & i & Hop & Hnm & Hch & Hfr & Hlk). rewrite W2 in Hlk.
    eexists fs', i, _. split; [done|]. split; [done|]. split; [exact Hch|]. split; [|by eauto]. intros Hl. apply (fo_locks _ Hok) in Hl. rewrite Hfr in Hl. by destruct Hl.
Qed.

Lemma sync_memory bk u b x :
  fs_ok (bk_fs bk) -> uuid_ok u -> metadata_store bk <> batch_datastore bk -> is_syncing b = true -> file_handle b = None -> batch_handle b = None -> file_mutex b = false ->
  ino_free (bk_fs bk) (metadata_store bk) u -> ino_free (bk_fs bk) (batch_datastore bk) u -> buffer b = Some x -> Z.of_nat (length x) < 2 ^ 31 ->
  (batch_mode_created b = false -> is_Some (vfile bk u)) ->
  exists fs' b', __sync_in_memory_metadata bk u b = Some (with_fs bk fs', b', 0) /\ touches (bk_fs bk) fs' u /\ content (file_at fs' (full_path (metadata_store bk) u)) = Some x /\
    ino_free fs' (metadata_store bk) u /\ ino_free fs' (batch_datastore bk) u /\ same_buf b b' /\ file_handle b' = None /\ batch_handle b' = None /\ file_mutex b' = false /\ is_dirty b' = false.
Proof.
  intros Hok Hu Hr Hs F1 F2 F3 L1 L2 Hx Hlen Hcr. unfold __sync_in_memory_metadata. change (if batch_mode_created b then _ else _) with (sync_flags (batch_mode_created b)).
  destruct (sync_fopen (bk_fs bk) (metadata_store bk) u (batch_mode_created b) Hok Hu L1 Hcr) as (fs1 & i & f & Hop & Hnm & Hch & Hil & Hlk & Hold). set (flags := sync_flags (batch_mode_created b)) in *.
  assert (Hfl : nexus_io_in_lock_mode flags = true /\ has flags NEXUS_FWRITE = true /\ writable (opened_fd flags i) = true) by (unfold flags, sync_flags; by destruct (batch_mode_created b)).
  destruct Hfl as (W1 & W2 & W3).
  assert (Hin : forall bk', in_batch bk' b = false) by (intros bk'; unfold in_batch; rewrite Hs; apply andb_false_r).
  rewrite open_split by (unfold __metadata_buf_get_handle; by rewrite Hin). rewrite Hs. cbn [negb]. rewrite andb_false_r. cbn [andb mbind option_bind negb Z.eqb]. unfold open_tail, __metadata_buf_get_datastore. rewrite Hin, Hop.
  cbn [mbind option_bind andb negb]. rewrite F2. set (b1 := with_exists _ true _). set (bk1 := with_fs bk fs1).
  assert (Hin1 : forall bk' m, in_batch bk' (with_mutex b1 m) = false) by (intros bk' m; unfold in_batch; cbn; rewrite Hs; apply andb_false_r).
  assert (Hacq : __acquire_metadata_buf bk1 b1 = Some (with_mutex b1 true, true)).
  { unfold __acquire_metadata_buf, __metadata_buf_get_handle. change (in_batch bk1 b1) with (in_batch bk1 b). rewrite Hin. cbn. by rewrite W1, F3. }
  rewrite Hacq. cbn [mbind option_bind negb]. change (buffer (with_mutex b1 true)) with (buffer b). rewrite Hx. cbn [mbind option_bind].
  pose proof (ch_ok _ _ _ _ Hch) as Hok1. pose proof (ch_file _ _ _ _ Hch) as Hf. destruct (file_inode _ _ _ _ Hf) as (i' & Hi' & Hn). assert (i' = i) as -> by congruence.
  destruct (write_spec bk1 (with_mutex b1 true) (handle_for flags i) (full_path (metadata_store bk) u) f x) as (fs2 & fh2 & -> & (M1 & M2 & M3 & M4) & Hch2 & Hnm2 & Hlk2); try done; [unfold __metadata_buf_get_handle; by rewrite Hin1|by right|].
  cbn [mbind option_bind negb Z.eqb]. change (with_fs bk1 fs2) with (with_fs bk fs2). set (bk2 := with_fs bk fs2). set (b2 := set_handle bk2 (with_mutex b1 true) fh2). pose proof (ch_ok _ _ _ _ Hch2) as Hok2.
  assert (Hb2 : b2 = with_handles (with_mutex b1 true) (Some fh2) None flags) by (unfold b2, set_handle; by rewrite Hin1).
  assert (Hin2 : in_batch bk2 b2 = false) by (rewrite Hb2; exact (Hin1 bk2 true)). rewrite flush_spec by done. cbn [negb Z.eqb].
  destruct (io_release_spec bk2 (with_dirty b2 false) fh2 Hok2) as (fs3 & b3 & -> & Hch3 & Hnm3 & Hlk3 & Hsame & R1 & R2 & R3 & R4 & R5); [exact (set_handle_get bk2 (with_mutex b1 true) fh2)|].
  cbn in M1, M3. rewrite M3, W2, M1 in Hlk3. change (bk_fs bk2) with fs2 in *. change (bk_fs bk1) with fs1 in *. rewrite Hb2 in Hsame, R5.
  eexists fs3, b3. split; [done|]. split; [|split; [|split; [|split; [|split; [by destruct Hsame|]]]]].
  - eapply io_touches_trans; [eapply changes_touches; [done|done|exact Hch|right; exists i; split; [done|by left]]|].
    eapply io_touches_trans; [eapply changes_touches; [done|done|exact Hch2|by left]|]. apply changes_all_touches; [done|done|done|]. right. exists (metadata_store bk), i. split; [by rewrite Hnm2|done].
  - rewrite (ch_file _ _ _ _ (Hch3 (full_path (metadata_store bk) u))), (ch_file _ _ _ _ Hch2). done.
  - intros j Hj. rewrite Hnm3, Hnm2, Hnm in Hj. injection Hj as <-. rewrite Hlk3. set_solver.
  - intros j Hj. rewrite Hnm3, Hnm2, (ch_names _ _ _ _ Hch) in Hj by (intros E; by apply full_path_inj in E as [? _]). rewrite Hlk3, Hlk2, Hlk. specialize (L2 _ Hj). set_solver.
  - split; [done|]. split; [done|]. split; [|done]. apply R5. cbn. by rewrite W1.
Qed.

Lemma sync_one_ok bk A U u b :
  io_inv bk A ∅ U -> batch_mode bk = true -> buffers_table bk !! u = Some b ->
  exists bk' b', sync_one bk u = Some (bk', 0) /\ io_inv bk' A ∅ U /\ batch_mode bk' = true /\ metadata_store bk' = metadata_store bk /\
    buffers_table bk' = <[u := b']> (buffers_table bk) /\ batch_mode_modified b' = false.
Proof.
  intros Hi Hbm Hbu. assert (Hu : uuid_ok u) by (apply (ii_keys _ _ _ _ Hi); eauto). pose proof (ii_cell _ _ _ _ Hi u Hu) as Hc. rewrite Hbu, bool_decide_false in Hc by set_solver. cbn [cell] in Hc.
  assert (HU : {[u]} ∪ U = U). { destruct (decide (u ∈ U)); [set_solver|]. destruct (ii_fresh _ _ _ _ Hi u Hu) as (? & _); [done|congruence]. }
  pose proof (ii_fs _ _ _ _ Hi) as Hok. unfold sync_one, buffer_manager_find. rewrite Hbu. cbn [mbind option_bind].
  destruct (batch_mode_modified b) eqn:Hm; cbn [negb].
  2:{ exists bk, b. split; [done|]. split; [done|]. split; [done|]. split; [done|]. split; [by rewrite insert_id|done]. }
  destruct Hc as [B1 (F1 & F2 & F3 & L1 & L2) B3 B4 _ B6 B7 _]. destruct (B6 Hm) as (_ & Hex & [x Hx] & Hcr & Hd).
  assert (Hdone : forall fs' b1, touches (bk_fs bk) fs' u -> content (file_at fs' (full_path (metadata_store bk) u)) = Some x -> ino_free fs' (metadata_store bk) u -> ino_free fs' (batch_datastore bk) u ->
    buffer b1 = buffer b -> buffer_time b1 = buffer_time b -> file_handle b1 = None -> batch_handle b1 = None -> file_mutex b1 = false -> is_dirty b1 = false ->
    let b2 := with_exists (with_batch (with_syncing b1 false) false false) (sync_file_exists b1) false in
    io_inv (put_buf (with_fs bk fs') u b2) A ∅ U).
  { intros fs' b1 Hto Hcf G1 G2 E1 E2 E3 E4 E5 E6 b2. rewrite <- HU. eapply inv_set; [exact Hi|done|set_solver|exact Hx|done|done|done|exact Hto|]. apply (buf_ok_config (with_fs bk fs')); [done|done|].
    split; cbn; rewrite ?E1, ?E2, ?E6; try done; [by rewrite <- Hx|]. intros _. split; [done|]. left. split; [done|]. exact Hcf. }
  destruct (is_dirty b) eqn:Hdirty; change (is_dirty (with_syncing b true)) with (is_dirty b); rewrite Hdirty.
  - destruct Hd as [y Hy]. assert (y = x) as -> by (pose proof (B3 _ Hy); congruence).
    destruct (sync_memory bk u (with_syncing b true) x) as (fs' & b1 & -> & Hto & Hcf & G1 & G2 & Hsame & R1 & R2 & R3 & R4); try done; [apply Hi|by apply (ii_len _ _ _ _ Hi u)|].
    cbn [mbind option_bind]. eexists _, _. split; [done|]. destruct Hsame as [S1 S2 _ _ _]. split; [by apply Hdone|]. done.
  - destruct (B7 Hex) as (n & Hn & _). rewrite Hn, Hx in Hd. cbn in Hd. injection Hd as Hd. unfold bfile in Hn. destruct (file_inode _ _ _ _ Hn) as (j & Hj & Hjn).
    destruct (copy_uuid_spec (bk_fs bk) (batch_datastore bk) (metadata_store bk) u j n Hok Hu) as (fs' & Hcp & Hch & Hlk & Hn1 & Hn2); [apply not_eq_sym; apply Hi|done|done|].
    unfold __sync_on_disk_metadata. rewrite Hcp. cbn [mbind option_bind Z.eqb]. eexists _, _. split; [done|]. split; [|done]. apply Hdone; try done.
    + eapply changes_touches; [done|done|exact Hch|by left].
    + rewrite (ch_file _ _ _ _ Hch). cbn. by rewrite Hd.
    + intros k Hk. rewrite Hlk. destruct (fs_names (bk_fs bk) !! full_path (metadata_store bk) u) as [k'|] eqn:Hk'.
      * specialize (Hn1 _ eq_refl). assert (k = k') as -> by congruence. by apply L1.
      * specialize (Hn2 _ Hk eq_refl). intros Hl. apply (fo_locks _ Hok) in Hl. rewrite Hn2 in Hl. by destruct Hl.
    + intros k Hk. rewrite Hlk. rewrite (ch_names _ _ _ _ Hch) in Hk by (apply not_eq_sym; by eapply roots_path). by apply L2.
Qed.

Definition synced bk : Prop := forall u b, buffers_table bk !! u = Some b -> batch_mode_modified b = false.

Lemma sync_loop_ok order bk A U :
  io_inv bk A ∅ U -> batch_mode bk = true -> (forall u, u ∈ order -> is_Some (buffers_table bk !! u)) ->
  exists bk', sync_loop bk order = Some (bk', 0) /\ io_inv bk' A ∅ U /\ batch_mode bk' = true /\
    (forall u, u ∈ order -> exists b, buffers_table bk' !! u = Some b /\ batch_mode_modified b = false) /\ (forall u, u ∉ order -> buffers_table bk' !! u = buffers_table bk !! u).
Proof.
  revert bk. induction order as [|u order IH]; intros bk Hi Hbm Ht; cbn [sync_loop].
  { exists bk. split; [done|]. split; [done|]. split; [done|]. split; [by intros u ?%not_elem_of_nil|done]. }
  destruct (Ht u) as [b Hb]; [set_solver|]. destruct (sync_one_ok bk A U u b Hi Hbm Hb) as (bk1 & b1 & -> & Hi1 & Hbm1 & _ & Ht1 & Hm1). cbn [mbind option_bind negb Z.eqb].
  destruct (IH bk1 Hi1 Hbm1) as (bk' & -> & Hi' & Hbm' & Hin & Hout).
  { intros v Hv. rewrite Ht1. destruct (decide (v = u)) as [->|]; [rewrite lookup_insert_eq; eauto|]. rewrite lookup_insert_ne by done. apply Ht. set_solver. }
  exists bk'. split; [done|]. split; [done|]. split; [done|]. split.
  - intros v Hv. destruct (decide (v ∈ order)) as [Ho|Ho]; [auto|]. rewrite (Hout v Ho), Ht1. assert (v = u) as -> by set_solver. rewrite lookup_insert_eq. eauto.
  - intros v Hv. rewrite Hout by set_solver. rewrite Ht1. apply lookup_insert_ne. set_solver.
Qed.

Lemma sync_ok bk A U order :
  io_inv bk A ∅ U -> batch_mode bk = true -> (forall u, u ∈ order <-> is_Some (buffers_table bk !! u)) ->
  exists bk', io_buffer_sync_buffers bk order = Some (bk', 0) /\ io_inv bk' A ∅ U /\ batch_mode bk' = true /\ synced bk'.
Proof.
  intros Hi Hbm Ho. unfold io_buffer_sync_buffers. rewrite Hbm. cbn [negb]. destruct (Nat.eqb_spec (size (buffers_table bk)) 0) as [H0|H0].
  - exists bk. split; [done|]. split; [done|]. split; [done|]. apply map_size_empty_inv in H0. intros u b Hb. by rewrite H0, lookup_empty in Hb.
  - destruct (sync_loop_ok order bk A U Hi Hbm) as (bk' & -> & Hi' & Hbm' & Hin & Hout); [apply Ho|]. cbn [mbind option_bind negb Z.eqb].
    assert (Heq : with_deleted (with_fs bk' (sync_deleted (bk_fs bk') (metadata_store bk') (batch_deleted_uuids bk'))) [] = bk').
    { pose proof (ii_deleted _ _ _ _ Hi') as Hd. destruct bk'. cbn in *. by rewrite Hd. }
    rewrite Heq. exists bk'. split; [done|]. split; [done|]. split; [done|]. intros u b Hb. destruct (decide (u ∈ order)) as [Hu|Hu].
    + destruct (Hin u Hu) as (b' & Hb' & Hm). congruence.
    + rewrite Hout in Hb by done. exfalso. apply Hu, Ho. eauto.
Qed.

Lemma leave_batch bk A U : io_inv bk A ∅ U -> synced bk -> io_inv (with_batch_mode bk false) A ∅ U.
Proof.
  intros [I1 I2 I3 I4 I5 I6 I7] Hs. split; try done. intros u Hu. specialize (I5 u Hu). rewrite bool_decide_false in I5 |- * by set_solver. cbn [with_batch_mode buffers_table].
  destruct (buffers_table bk !! u) as [b|] eqn:Hb; [|exact I5]. pose proof (Hs u b Hb) as Hm. destruct I5 as [B1 B2 B3 B4 B5 B6 B7 B8]. split; try done.
  - intros _. destruct (B5 Hm) as (? & [?|(? & _)]); [|done]. split; [done|]. by left.
  - congruence.
Qed.

(** Outside batch mode the store of the volume is the map. *)
Lemma volume_holds bk A K U u : io_inv bk A K U -> batch_mode bk = false -> uuid_ok u -> content (vfile bk u) = A !! u.
Proof.
  intros Hi Hbm Hu. pose proof (ii_cell _ _ _ _ Hi u Hu) as Hc. destruct (buffers_table bk !! u) as [b|]; [|by destruct Hc as (_ & ? & _)].
  destruct Hc as [_ _ _ _ B5 B6 _ _]. destruct (batch_mode_modified b); [destruct (B6 eq_refl); congruence|]. destruct (B5 eq_refl) as (_ & [[_ ?]|(_ & ? & _)]); [done|congruence].
Qed.

(** A lock that is held is exclusive: asking for it again is refused, or waits
    for the mutex that the holder has. *)
Lemma lock_excluded bk A K U u flags :
  io_inv bk A K U -> uuid_ok u -> u ∈ K -> io_buffer_lock bk u flags = None \/ io_buffer_lock bk u flags = Some (bk, false).
Proof.
  intros Hi Hu HK. pose proof (ii_cell _ _ _ _ Hi u Hu) as Hc. rewrite bool_decide_true in Hc by done.
  destruct (buffers_table bk !! u) as [b|] eqn:Hb; [|by destruct Hc]. pose proof (bo_sync _ _ _ _ _ Hc) as Hsy.
  destruct (bo_lock _ _ _ _ _ Hc) as (fh & Hf & Hbf & _ & Hmx & _ & Hlk & _).
  assert (Hh : __metadata_buf_get_handle bk b = Some fh) by (unfold __metadata_buf_get_handle; rewrite in_batch_quiet by done; by destruct (batch_mode bk)).
  unfold io_buffer_lock, buffer_manager_find. rewrite Hb. cbv zeta. rewrite Hb. cbn [mbind option_bind].
  unfold __open_metadata_file. rewrite Hh. destruct (negb _).
  - right. cbn [mbind option_bind]. unfold put_buf, with_bufs. rewrite insert_id by done. by destruct bk.
  - left. unfold __acquire_metadata_buf. by rewrite Hh, Hlk, Hmx.
Qed.

(** ** The specification *)
(** Objects with their bytes, those that are locked, the UUIDs that were named,
    and whether changes are held back. *)
Record spec := mk_spec { sp_contents : gmap uuid bytes; sp_locked : gset uuid; sp_used : gset uuid; sp_batch : bool }.

Inductive io_op := Ask (o : ocall) | Tick (d : Z) | Batch_start | Batch_commit | Batch_finish.

(** State, request, new state, return code and bytes.  There is no rule for the
    flags NEXUS_IO_FNODE and NEXUS_IO_FCRYPTO (the files of filenodes, below),
    for an object that is locked other than to put or unlock it, for unlocking
    and deleting in batch mode, and for a change of the mode while an object is
    locked: about these requests nothing is promised. *)
Inductive spec_step : spec -> io_op -> spec -> Z -> option bytes -> Prop :=
  | sp_get A K U m u : uuid_ok u -> u ∉ K -> spec_step (mk_spec A K U m) (Ask (ocall_buffer_get u NEXUS_FREAD)) (mk_spec A K ({[u]} ∪ U) m) 0 (A !! u)
  | sp_get_lock A K U m u x : uuid_ok u -> u ∉ K -> A !! u = Some x ->
      spec_step (mk_spec A K U m) (Ask (ocall_buffer_get u NEXUS_FRDWR)) (mk_spec A ({[u]} ∪ K) ({[u]} ∪ U) m) 0 (Some x)
  | sp_get_absent A K U m u : uuid_ok u -> u ∉ K -> A !! u = None ->
      spec_step (mk_spec A K U m) (Ask (ocall_buffer_get u NEXUS_FRDWR)) (mk_spec A K ({[u]} ∪ U) m) 0 None
  | sp_lock A K U m u flags x : uuid_ok u -> u ∉ K -> flags ∈ write_flags -> A !! u = Some x ->
      spec_step (mk_spec A K U m) (Ask (ocall_buffer_lock u flags)) (mk_spec A ({[u]} ∪ K) ({[u]} ∪ U) m) 0 None
  | sp_lock_absent A K U m u flags : uuid_ok u -> u ∉ K -> flags ∈ write_flags -> A !! u = None ->
      spec_step (mk_spec A K U m) (Ask (ocall_buffer_lock u flags)) (mk_spec A K ({[u]} ∪ U) m) 1 None
  | sp_create A K U m u flags : uuid_ok u -> u ∉ U -> flags ∈ create_flags ->
      spec_step (mk_spec A K U m) (Ask (ocall_buffer_lock u flags)) (mk_spec (<[u := []]> A) ({[u]} ∪ K) ({[u]} ∪ U) m) 0 None
  | sp_put A K U m u data n : uuid_ok u -> u ∈ K -> Z.of_nat (length data) < 2 ^ 31 ->
      spec_step (mk_spec A K U m) (Ask (ocall_buffer_put u data n)) (mk_spec (<[u := data]> A) (K ∖ {[u]}) ({[u]} ∪ U) m) 0 None
  | sp_put_unlocked A K U m u data n : uuid_ok u -> u ∉ K -> spec_step (mk_spec A K U m) (Ask (ocall_buffer_put u data n)) (mk_spec A K U m) (-1) None
  | sp_unlock A K U u : uuid_ok u -> u ∈ K -> spec_step (mk_spec A K U false) (Ask (ocall_buffer_unlock u)) (mk_spec A (K ∖ {[u]}) ({[u]} ∪ U) false) 0 None
  | sp_new A K U m u : uuid_ok u -> u ∉ U -> spec_step (mk_spec A K U m) (Ask (ocall_buffer_new u)) (mk_spec (<[u := []]> A) K ({[u]} ∪ U) m) 0 None
  | sp_del A K U u : uuid_ok u -> u ∉ K ->
      spec_step (mk_spec A K U false) (Ask (ocall_buffer_del u)) (mk_spec (delete u A) K ({[u]} ∪ U) false) (if A !! u then 0 else -1) None
  | sp_stattime A K U m u : uuid_ok u -> u ∉ K -> spec_step (mk_spec A K U m) (Ask (ocall_buffer_stattime u)) (mk_spec A K U m) (if A !! u then 0 else -1) None
  | sp_tick s d : 0 <= d -> spec_step s (Tick d) s 0 None
  | sp_start A U m : spec_step (mk_spec A ∅ U m) Batch_start (mk_spec A ∅ U true) 0 None
  | sp_commit A U m : spec_step (mk_spec A ∅ U m) Batch_commit (mk_spec A ∅ U m) 0 None
  | sp_finish A U m : spec_step (mk_spec A ∅ U m) Batch_finish (mk_spec A ∅ U false) 0 None.

Inductive spec_run : spec -> list io_op -> spec -> list (Z * option bytes) -> Prop :=
  | sr_nil s : spec_run s [] s []
  | sr_cons s o s1 r d ops s2 outs : spec_step s o s1 r d -> spec_run s1 ops s2 outs -> spec_run s (o :: ops) s2 ((r, d) :: outs).

(** The layer on the same requests; [iter] is the order in which the hash
    table is walked. *)
Definition io_step (iter : gmap uuid metadata_buf -> list uuid) bk (o : io_op) : option (sgx_backend * answer) :=
  match o with
  | Ask o => serve bk o
  | Tick d => Some (tick bk d, answer_code 0)
  | Batch_start => let '(bk, r) := sgx_backend_batch_mode_start bk in Some (bk, answer_code r)
  | Batch_commit => '(bk, r) ← sgx_backend_batch_mode_commit bk (iter (buffers_table bk)); Some (bk, answer_code r)
  | Batch_finish => '(bk, r) ← sgx_backend_batch_mode_finish bk (iter (buffers_table bk)); Some (bk, answer_code r)
  end.

Fixpoint io_run (iter : gmap uuid metadata_buf -> list uuid) bk (ops : list io_op) : option (sgx_backend * list answer) :=
  match ops with
  | [] => Some (bk, [])
  | o :: ops => '(bk, a) ← io_step iter bk o; '(bk, l) ← io_run iter bk ops; Some (bk, a :: l)
  end.

Definition related (s : spec) bk : Prop := io_inv bk (sp_contents s) (sp_locked s) (sp_used s) /\ batch_mode bk = sp_batch s.

Lemma step_simulates iter s o s' r d bk :
  (forall t u, u ∈ iter t <-> is_Some (t !! u)) -> spec_step s o s' r d -> related s bk ->
  exists bk' t, io_step iter bk o = Some (bk', mk_answer r d t) /\ related s' bk'.
Proof.
  intros Hit Hs [Hi Hm]. destruct Hs; cbn [sp_contents sp_locked sp_used sp_batch] in Hi, Hm; unfold related; cbn [io_step serve sp_contents sp_locked sp_used sp_batch].
  - destruct (A !! u) as [x|] eqn:Ha.
    + destruct (get_read_ok bk A K U u x Hi) as (bk' & t & -> & Hi' & S1 & _); [done..|]. eexists _, _. split; [done|]. split; [done|congruence].
    + destruct (get_absent bk A K U u NEXUS_FREAD Hi) as (bk' & -> & Hi' & S1 & _); [done..|]. eexists _, _. split; [done|]. split; [done|congruence].
  - destruct (get_rdwr_ok bk A K U u x Hi) as (bk' & t & -> & Hi' & S1 & _); [done..|]. eexists _, _. split; [done|]. split; [done|congruence].
  - destruct (get_absent bk A K U u NEXUS_FRDWR Hi) as (bk' & -> & Hi' & S1 & _); [done..|]. eexists _, _. split; [done|]. split; [done|congruence].
  - destruct (lock_ok bk A K U u flags x Hi) as (bk' & b' & i & -> & _ & Hi' & _ & (S1 & _) & _); [done..|]. eexists _, _. split; [done|]. split; [done|congruence].
  - destruct (write_flags_props flags 0) as (W1 & W2 & _); [done|].
    destruct (lock_absent bk A K U u flags Hi) as (bk' & -> & Hi' & S1 & _); [done..|]. eexists _, _. split; [done|]. split; [done|congruence].
  - destruct (lock_create bk A K U u flags Hi) as (bk' & -> & Hi' & S1 & _); [done..|]. eexists _, _. split; [done|]. split; [done|congruence].
  - destruct (put_ok bk A K U u data n Hi) as (bk' & t & -> & Hi' & S1 & _); [done..|]. eexists _, _. split; [done|]. split; [done|congruence].
  - rewrite (put_unlocked bk A K U u data n Hi) by done. eexists _, _. done.
  - destruct (unlock_ok bk A K U u Hi) as (bk' & -> & Hi' & S1 & _); [done..|]. eexists _, _. split; [done|]. split; [done|congruence].
  - destruct (new_ok bk A K U u Hi) as (bk' & -> & Hi' & S1 & _); [done..|]. eexists _, _. split; [done|]. split; [done|congruence].
  - destruct (del_ok bk A K U u Hi) as (bk' & -> & Hi' & S1 & _); [done..|]. eexists _, _. split; [done|]. split; [done|congruence].
  - destruct (stattime_ok bk A K U u Hi) as (t & -> & Ht); [done..|]. destruct (A !! u), t as [t|]; (eexists _, _; (split; [done|done])) || (exfalso; destruct Ht as [H1 H2]; first [by destruct (H1 ltac:(eauto))|by destruct (H2 ltac:(eauto))]).
  - eexists _, _. split; [done|]. split; [by apply tick_ok|done].
  - eexists _, _. split; [done|]. split; [by apply start_ok|done].
  - unfold sgx_backend_batch_mode_commit. destruct (batch_mode bk) eqn:Hbm; cbn [negb].
    + destruct (sync_ok bk A U (iter (buffers_table bk)) Hi Hbm) as (bk' & -> & Hi' & Hbm' & _); [done|]. eexists _, _. split; [done|]. split; [done|congruence].
    + eexists _, _. split; [done|]. split; [done|congruence].
  - unfold sgx_backend_batch_mode_finish. destruct (batch_mode bk) eqn:Hbm; cbn [negb].
    + destruct (sync_ok bk A U (iter (buffers_table bk)) Hi Hbm) as (bk' & -> & Hi' & Hbm' & Hsy); [done|]. eexists _, _. split; [done|]. split; [by apply leave_batch|done].
    + eexists _, _. split; [done|]. split; [done|congruence].
Qed.

Lemma run_simulates iter s ops s' outs bk :
  (forall t u, u ∈ iter t <-> is_Some (t !! u)) -> spec_run s ops s' outs -> related s bk ->
  exists bk' answers, io_run iter bk ops = Some (bk', answers) /\ map (fun r => (a_ret r, a_data r)) answers = outs /\ related s' bk'.
Proof.
  intros Hit Hr. revert bk. induction Hr as [s|s o s1 r d ops s2 outs Hstep _ IH]; intros bk Hrel; [by exists bk, []|].
  destruct (step_simulates iter _ _ _ _ _ bk Hit Hstep Hrel) as (bk1 & t & Hio & Hrel1). destruct (IH bk1 Hrel1) as (bk' & l & Hl & <- & Hrel').
  exists bk', (mk_answer r d t :: l). cbn [io_run]. rewrite Hio. cbn [mbind option_bind]. rewrite Hl. done.
Qed.

(** The layer as it is set up: no buffers, no one holds a lock, the volume
    holds [A], and [U] names every object of the two stores. *)
Record mounted bk (A : gmap uuid bytes) (U : gset uuid) : Prop := {
  mo_fs : fs_ok (bk_fs bk);
  mo_locks : fs_locks (bk_fs bk) = ∅;
  mo_roots : metadata_store bk <> batch_datastore bk;
  mo_table : buffers_table bk = ∅;
  mo_batch : batch_mode bk = false;
  mo_deleted : batch_deleted_uuids bk = [];
  mo_files : forall u, uuid_ok u -> content (vfile bk u) = A !! u;
  mo_len : forall u x, A !! u = Some x -> Z.of_nat (length x) < 2 ^ 31;
  mo_used : forall u, uuid_ok u -> u ∉ U -> vfile bk u = None /\ bfile bk u = None
}.

Lemma mounted_related bk A U : mounted bk A U -> related (mk_spec A ∅ U false) bk.
Proof.
  intros [M1 M2 M3 M4 M5 M6 M7 M8 M9]. split; [|done]. cbn. split; try done.
  - intros u. rewrite M4, lookup_empty. by intros [].
  - intros u Hu. rewrite M4, lookup_empty, bool_decide_false by set_solver. split; [done|]. split; [by apply M7|]. split; intros i _; rewrite M2; set_solver.
  - intros u Hu Hn. rewrite M4, lookup_empty. destruct (M9 u Hu Hn). split; [done|]. split; [done|]. split; [done|set_solver].
Qed.

(** C21: The I/O layer outside the enclave refines a map from UUIDs to bytes
    with exclusive locks, for the requests that have a rule in [spec_step]: the
    ocalls on metadata objects (no NEXUS_IO_FNODE or NEXUS_IO_FCRYPTO flag) that
    read, or lock for writing, an object that is not locked, create a UUID that
    was never named, put any object, and, outside batch mode only, unlock and
    delete; the passing of time; and entering, committing and leaving batch mode
    while nothing is locked.  Whatever the order of these, and whatever the order
    in which the buffers are walked, every call returns, with the code and the
    bytes of the map: what was put last is read, from memory or from either of
    the two stores; putting an object that is not locked is refused.  Outside
    batch mode, and so after batch mode is left, the files of the volume hold
    exactly the map.  While an object is locked, a second request to lock it is
    refused and changes nothing, or never returns.  No other client writes to the
    volume and system calls do not fail.  In batch mode an unlock without a put
    can lose data ([batch_unlock_loses_put]) and a deletion can fail, so neither
    has a rule there. *)
Theorem io_refines_store iter bk A U ops s outs :
  (forall t u, u ∈ iter t <-> is_Some (t !! u)) -> mounted bk A U -> spec_run (mk_spec A ∅ U false) ops s outs ->
  exists bk' answers, io_run iter bk ops = Some (bk', answers) /\ map (fun r => (a_ret r, a_data r)) answers = outs /\
    (sp_batch s = false -> forall u, uuid_ok u -> content (vfile bk' u) = sp_contents s !! u) /\
    (forall u flags, uuid_ok u -> u ∈ sp_locked s ->
      io_buffer_lock bk' u flags = None \/ io_buffer_lock bk' u flags = Some (bk', false)).
Proof.
  intros Hit Hm Hr. destruct (run_simulates iter _ _ _ _ bk Hit Hr (mounted_related _ _ _ Hm)) as (bk' & l & Hl & Ho & [Hi Hb]).
  exists bk', l. split; [done|]. split; [done|]. split.
  - intros Hs u Hu. eapply volume_holds; [exact Hi|congruence|done].
  - intros u flags Hu HK. by eapply lock_excluded.
Qed.
End io.

(** ** A run *)
Definition empty_backend : sgx_backend := mk_backend ∅ 0 false false [118] [98] [] (mk_fs ∅ ∅ ∅ ∅ 100 []).
Definition walk (t : gmap uuid metadata_buf) : list uuid := (map_to_list t).*1.

Lemma walk_keys t u : u ∈ walk t <-> is_Some (t !! u).
Proof.
  unfold walk. rewrite list_elem_of_fmap. split.
  - intros ([v b] & -> & Hb%elem_of_map_to_list). eauto.
  - intros [b Hb]. exists (u, b). split; [done|]. by apply elem_of_map_to_list.
Qed.

Lemma empty_mounted : mounted empty_backend ∅ ∅.
Proof. by repeat split. Qed.

(** An object is made and written; in batch mode it is changed and read, and
    the change reaches the volume when the mode is left. *)
Lemma io_refines_store_witness :
  let u := uuid_const 7 in
  exists bk' answers,
    io_run walk empty_backend
      [Ask (ocall_buffer_lock u NEXUS_FCREATE); Ask (ocall_buffer_put u [1; 2; 3] 0); Batch_start; Ask (ocall_buffer_get u NEXUS_FRDWR);
       Ask (ocall_buffer_put u [4; 5] 0); Tick 2; Ask (ocall_buffer_get u NEXUS_FREAD); Batch_finish] = Some (bk', answers) /\
    map (fun r => (a_ret r, a_data r)) answers = [(0, None); (0, None); (0, None); (0, Some [1; 2; 3]); (0, None); (0, None); (0, Some [4; 5]); (0, None)] /\
    content (vfile bk' u) = Some [4; 5].
Proof.
  intros u. assert (Hu : uuid_ok u) by (split; [done|repeat constructor; done]).
  edestruct (io_refines_store walk empty_backend ∅ ∅) as (bk' & answers & H1 & H2 & H3 & _); [exact walk_keys|exact empty_mounted| |].
  { eapply sr_cons; [apply (sp_create _ _ _ _ u NEXUS_FCREATE Hu); [set_solver|unfold create_flags; set_solver]|].
    eapply sr_cons; [apply (sp_put _ _ _ _ u [1; 2; 3] 0 Hu); [set_solver|done]|].
    replace (({[u]} ∪ ∅) ∖ {[u]}) with (∅ : gset uuid) by set_solver.
    eapply sr_cons; [apply sp_start|]. eapply sr_cons; [apply (sp_get_lock _ _ _ _ u [1; 2; 3] Hu); [set_solver|apply lookup_insert_eq]|].
    eapply sr_cons; [apply (sp_put _ _ _ _ u [4; 5] 0 Hu); [set_solver|done]|].
    replace (({[u]} ∪ ∅) ∖ {[u]}) with (∅ : gset uuid) by set_solver.
    eapply sr_cons; [apply (sp_tick _ 2); done|]. eapply sr_cons; [apply (sp_get _ _ _ _ u Hu); set_solver|]. eapply sr_cons; [apply sp_finish|apply sr_nil]. }
  exists bk', answers. split; [exact H1|]. split; [rewrite H2, lookup_insert_eq; done|]. rewrite (H3 eq_refl u Hu). apply lookup_insert_eq.
Defined.

(** In batch mode a lock that is given back without a put forgets that the
    buffer holds bytes the batch store does not have: the next commit writes
    the old bytes over the volume, and the last put is lost. *)
Lemma batch_unlock_loses_put :
  let u := uuid_const 7 in
  option_map (fun r => (content (vfile (fst r) u), map a_data (snd r)))
    (io_run walk empty_backend
       [Ask (ocall_buffer_lock u NEXUS_FCREATE); Ask (ocall_buffer_put u [1; 2; 3] 0); Batch_start; Ask (ocall_buffer_get u NEXUS_FRDWR);
        Ask (ocall_buffer_put u [4; 5] 0); Ask (ocall_buffer_lock u NEXUS_FWRITE); Ask (ocall_buffer_unlock u); Tick 1; Batch_finish; Ask (ocall_buffer_get u NEXUS_FREAD)])
  = Some (Some [1; 2; 3], [None; None; None; Some [1; 2; 3]; None; None; None; None; None; Some [1; 2; 3]]).
Proof. vm_compute. reflexivity. Qed.

(** ** Filenodes *)
Section filenode.
Implicit Types (fs : fsys) (d : fd) (old data meta : bytes).

(** Contents of the file behind a descriptor. *)
Definition behind fs d : option bytes := i_data <$> fs_inodes fs !! fd_ino d.
Definition at_pos d (pos : Z) : fd := mk_fd (fd_ino d) (fd_acc d) pos.

Lemma set_data_ok fs i x : fs_ok fs -> is_Some (fs_inodes fs !! i) -> fs_ok (set_data fs i x) /\ i_data <$> (fs_inodes (set_data fs i x) !! i) = Some x.
Proof.
  intros [F1 F2 F3 F0 F4 F5] Hi. split; [|cbn; by rewrite lookup_insert_eq].
  assert (Hs : forall j, is_Some (fs_inodes fs !! j) -> is_Some (fs_inodes (set_data fs i x) !! j)).
  { intros j Hj. cbn. destruct (decide (j = i)) as [->|]; [rewrite lookup_insert_eq; eauto|by rewrite lookup_insert_ne]. }
  split; [done|by eauto|done|done| |by eauto]. intros j m. cbn. destruct (decide (j = i)) as [->|]; [rewrite lookup_insert_eq; intros [= <-]; cbn; lia|rewrite lookup_insert_ne by done; apply F4].
Qed.

Lemma write_at fs d data old (pos : nat) :
  fs_ok fs -> behind fs d = Some old -> writable d = true -> (pos <= length old)%nat ->
  exists fs', sys_write fs (at_pos d (Z.of_nat pos)) data = (fs', at_pos d (Z.of_nat pos + Z.of_nat (length data)), Z.of_nat (length data)) /\
    fs_ok fs' /\ behind fs' d = Some (take pos old ++ data ++ drop (pos + length data) old).
Proof.
  intros Hok Hb Hw Hpos. unfold sys_write. rewrite (no_fault _ Hok). unfold writable in *. cbn [at_pos fd_acc fd_ino fd_pos]. rewrite Hw. cbn [negb orb].
  unfold behind in Hb. destruct (fs_inodes fs !! fd_ino d) as [n|] eqn:Hn; [|done]. injection Hb as <-. rewrite Nat2Z.id.
  assert (Hov : overwrite pos data (i_data n) = take pos (i_data n) ++ data ++ drop (pos + length data) (i_data n)) by (unfold overwrite; by rewrite resize_le).
  destruct (Nat.eqb_spec (length data) 0) as [H0|H0].
  - destruct data; [|done]. exists fs. split; [done|]. split; [done|]. unfold behind. rewrite Hn. cbn. by rewrite Nat.add_0_r, take_drop.
  - eexists. split; [done|]. rewrite <- Hov. by apply set_data_ok; [|rewrite Hn; eauto].
Qed.

Lemma truncate_at fs d old n :
  fs_ok fs -> behind fs d = Some old -> writable d = true -> exists fs', sys_ftruncate fs d n = (fs', 0) /\ fs_ok fs' /\ behind fs' d = Some (resize (Z.to_nat n) 0 old).
Proof.
  intros Hok Hb Hw. unfold sys_ftruncate. rewrite (no_fault _ Hok), Hw. cbn [negb orb]. unfold behind in Hb. destruct (fs_inodes fs !! fd_ino d) as [m|] eqn:Hn; [|done].
  injection Hb as <-. eexists. split; [done|]. apply set_data_ok; [done|rewrite Hn; eauto].
Qed.

Lemma read_at fs d old (pos n : Z) :
  fs_ok fs -> behind fs d = Some old -> readable d = true ->
  exists pos', sys_read fs (at_pos d pos) n = (fs, at_pos d pos', Some (take (Z.to_nat n) (drop (Z.to_nat pos) old))).
Proof.
  intros Hok Hb Hr. unfold sys_read. rewrite (no_fault _ Hok). unfold readable in *. cbn [at_pos fd_acc fd_ino fd_pos]. rewrite Hr. cbn [negb orb].
  unfold behind in Hb. destruct (fs_inodes fs !! fd_ino d) as [m|]; [|done]. injection Hb as <-. eexists. done.
Qed.

(** The record at the end of the file. *)
Definition info_bytes (meta : bytes) (size : nat) : bytes := le_encode 4 (Z.of_nat (length meta)) ++ le_encode 4 (Z.of_nat size).
Lemma length_info meta size : length (info_bytes meta size) = INFO_SIZE.
Proof. done. Qed.

Lemma store_filenode_spec fs fh old meta (size : nat) :
  fs_ok fs -> behind fs (fh_fd fh) = Some old -> writable (fh_fd fh) = true -> Z.of_nat size + Z.of_nat (length meta) + 8 < 2 ^ 31 ->
  exists fs' pos, __store_filenode fs fh meta (Z.of_nat size) = (fs', with_fd fh (at_pos (fh_fd fh) pos), 0) /\ fs_ok fs' /\
    behind fs' (fh_fd fh) = Some (resize size 0 old ++ meta ++ info_bytes meta size).
Proof.
  intros Hok Hb Hw Hlen. unfold __store_filenode, __filenode_total_size.
  assert (Hu : forall k, 0 <= k < 2 ^ 31 -> u32 k = k) by (intros k Hk; unfold u32, wrap; apply Z.mod_small; lia). rewrite (Hu (Z.of_nat (length meta))), (Hu (Z.of_nat size)), (Hu (_ + _)) by lia.
  destruct (truncate_at fs (fh_fd fh) old (Z.of_nat (length meta) + Z.of_nat size + Z.of_nat INFO_SIZE) Hok Hb Hw) as (fs1 & -> & Hok1 & Hb1). cbn [negb Z.eqb].
  assert (Hseek : sys_lseek_set (fh_fd fh) (Z.of_nat size) = (at_pos (fh_fd fh) (Z.of_nat size), Z.of_nat size)) by (unfold sys_lseek_set; by rewrite (proj2 (Z.ltb_ge _ 0)) by lia).
  rewrite Hseek. set (old1 := resize _ 0 old) in Hb1.
  assert (Hl1 : length old1 = (length meta + size + INFO_SIZE)%nat) by (unfold old1; rewrite length_resize; lia).
  destruct (write_at fs1 (fh_fd fh) meta old1 size Hok1 Hb1 Hw) as (fs2 & -> & Hok2 & Hb2); [lia|]. rewrite Z.eqb_refl. cbn [negb].
  set (old2 := take size old1 ++ meta ++ _) in Hb2. assert (Hl2 : length old2 = length old1) by (unfold old2; rewrite !length_app, length_take, length_drop; lia).
  rewrite <- Nat2Z.inj_add. change (le_encode 4 (Z.of_nat (length meta)) ++ le_encode 4 (Z.of_nat size)) with (info_bytes meta size).
  destruct (write_at fs2 (fh_fd fh) (info_bytes meta size) old2 (size + length meta) Hok2 Hb2 Hw) as (fs3 & -> & Hok3 & Hb3); [lia|]. rewrite length_info.
  change (s32 (Z.of_nat INFO_SIZE) =? Z.of_nat INFO_SIZE) with true. cbn match. eexists fs3, _. split; [done|]. split; [done|]. rewrite Hb3. f_equal.
  assert (Ht1 : take size old1 = resize size 0 old) by (unfold old1; rewrite take_resize_le by lia; done).
  assert (Ht2 : take (size + length meta) old2 = resize size 0 old ++ meta).
  { unfold old2. rewrite app_assoc, Ht1. rewrite take_app_le by (rewrite length_app, length_resize; lia). rewrite take_ge; [done|]. rewrite length_app, length_resize. lia. }
  rewrite Ht2, length_info, drop_ge by lia. by rewrite app_nil_r, app_assoc.
Qed.

Lemma parse_filenode_spec fs fh data meta (size : nat) :
  fs_ok fs -> behind fs (fh_fd fh) = Some (data ++ meta ++ info_bytes meta size) -> length data = size -> readable (fh_fd fh) = true ->
  Z.of_nat size + Z.of_nat (length meta) + 8 < 2 ^ 31 -> exists fh', __parse_filenode fs fh = (fs, fh', Some meta).
Proof.
  intros Hok Hb Hsz Hr Hlen. unfold __parse_filenode, sys_lseek_end, file_len. pose proof Hb as Hb'. unfold behind in Hb'. rewrite Hb'. cbn [default from_option id].
  set (all := data ++ meta ++ info_bytes meta size) in *. assert (Hla : length all = (size + length meta + INFO_SIZE)%nat) by (unfold all; rewrite !length_app, length_info; lia).
  assert (Hoff : Z.of_nat (length all) + - Z.of_nat INFO_SIZE = Z.of_nat (size + length meta)) by lia. rewrite Hoff.
  assert (Hseek : forall d k, sys_lseek_set d (Z.of_nat k) = (at_pos d (Z.of_nat k), Z.of_nat k)) by (intros d k; unfold sys_lseek_set; by rewrite (proj2 (Z.ltb_ge _ 0)) by lia).
  rewrite Hseek. rewrite (proj2 (Z.eqb_neq _ (-1))) by lia. destruct (read_at fs (fh_fd fh) all (Z.of_nat (size + length meta)) (Z.of_nat INFO_SIZE) Hok Hb Hr) as (pos & ->). rewrite !Nat2Z.id.
  assert (Hinfo : take INFO_SIZE (drop (size + length meta) all) = info_bytes meta size).
  { unfold all. rewrite app_assoc, drop_app_length'; [|rewrite length_app; lia]. by rewrite take_ge. }
  rewrite Hinfo, length_info, Nat.eqb_refl. cbn [negb].
  assert (Hdec : forall k, 0 <= k < 2 ^ 31 -> le_decode (le_encode 4 k) = k) by (intros k Hk; rewrite le_decode_encode; apply Z.mod_small; simpl; lia).
  assert (H4 : take 4 (info_bytes meta size) = le_encode 4 (Z.of_nat (length meta)) /\ drop 4 (info_bytes meta size) = le_encode 4 (Z.of_nat size)) by done.
  destruct H4 as [-> ->]. rewrite !Hdec by lia. rewrite Hseek.
  change (at_pos (at_pos (fh_fd fh) pos) (Z.of_nat size)) with (at_pos (fh_fd fh) (Z.of_nat size)).
  destruct (read_at fs (fh_fd fh) all (Z.of_nat size) (Z.of_nat (length meta)) Hok Hb Hr) as (pos' & ->). rewrite !Nat2Z.id. unfold all. rewrite drop_app_length' by done. rewrite take_app_length.
  rewrite Z.eqb_refl. eexists. done.
Qed.

(** The metadata of a file lies behind its data.  When it is stored for a
    file of [size] data bytes, the file is cut or filled up to exactly those
    bytes, the metadata and an eight-byte record follow, and reading the file
    through the same handle gives the metadata back, whatever was in the file
    before. *)
Theorem filenode_store_parse fs fh old meta (size : nat) :
  fs_ok fs -> behind fs (fh_fd fh) = Some old -> writable (fh_fd fh) = true -> readable (fh_fd fh) = true -> Z.of_nat size + Z.of_nat (length meta) + 8 < 2 ^ 31 ->
  exists fs' fh' fh'', __store_filenode fs fh meta (Z.of_nat size) = (fs', fh', 0) /\
    behind fs' (fh_fd fh) = Some (resize size 0 old ++ meta ++ info_bytes meta size) /\ __parse_filenode fs' fh' = (fs', fh'', Some meta).
Proof.
  intros Hok Hb Hw Hr Hlen. destruct (store_filenode_spec fs fh old meta size Hok Hb Hw Hlen) as (fs' & pos & Hst & Hok' & Hb').
  destruct (parse_filenode_spec fs' (with_fd fh (at_pos (fh_fd fh) pos)) (resize size 0 old) meta size Hok' Hb' (length_resize _ _ _) Hr Hlen) as (fh'' & Hp).
  exists fs', (with_fd fh (at_pos (fh_fd fh) pos)), fh''. done.
Qed.
End filenode.

(** Six bytes of old data are cut to four. *)
Lemma filenode_store_parse_witness :
  let fs := mk_fs {[ [120] := 1 ]} ∅ {[ 1 := mk_inode [1; 2; 3; 4; 5; 6] 50 ]} ∅ 100 [] in
  let fh := mk_handle (mk_fd 1 2 0) true NEXUS_FRDWR false in
  exists fs' fh' fh'', __store_filenode fs fh [7; 8; 9] 4 = (fs', fh', 0) /\
    behind fs' (fh_fd fh) = Some [1; 2; 3; 4; 7; 8; 9; 3; 0; 0; 0; 4; 0; 0; 0] /\ __parse_filenode fs' fh' = (fs', fh'', Some [7; 8; 9]).
Proof.
  intros fs fh. apply (filenode_store_parse fs fh [1; 2; 3; 4; 5; 6] [7; 8; 9] 4); [|done..]. split; try done.
  - intros p i Hp. unfold fs in Hp. cbn [fs_names] in Hp. apply lookup_singleton_Some in Hp as [_ <-]. cbn. rewrite lookup_singleton_eq. eauto.
  - intros p q i Hp Hq. unfold fs in Hp, Hq. cbn [fs_names] in Hp, Hq. apply lookup_singleton_Some in Hp as [<- _]. by apply lookup_singleton_Some in Hq as [<- _].
  - intros i n Hn. unfold fs in Hn. cbn [fs_inodes] in Hn. apply lookup_singleton_Some in Hn as [_ <-]. cbn. lia.
Defined.
