(* ===== verification/ObjectAttributes.v ===== *)
(** * Attributes of files and directories

    Models the object attribute calls of [ecalls/abac.c] and the creation of an
    audit log in [metadata.c].  They join the file system side of the enclave
    ([Ecalls.v]: the path leads to a cached object) with the runtime of the
    access control engine ([Runtime.v]: the attribute space says which names
    are declared), over one buffer layer.  No policy is asked. *)
From stdpp Require Import strings.
From S2P Require Import Prelude Hashmap Types AttributeTable Dirnode DirnodeSpec Gcm Crypto BufferLayer CryptoBuf.
From S2P Require Import Filenode FileCrypto HardlinkTable FsOps UserTable Supernode Metadata Lru Vfs Dentry PathWalk PathSpec PathProps.
From S2P Require Import AbacValue AbacRule AttributeSpace PolicyStore UserProfile SystemFunctions AuditLog Datalog Bouncer BouncerProps Ecalls EcallProps Runtime RuntimeProps.

(** ** What the calls need of a metadata object *)
(** [am_set_table] is the write through the pointer to the attribute table,
    with the metadata marked dirty; [am_sync] is [__nexus_metadata_sync]. *)
Class AttributeMetadata (M E : Type) {CM : CachedMetadata M} {PM : PathMetadata M} {EM : EcallMetadata M E} := {
  am_set_table : M -> attribute_table -> M;
  am_sync : M -> bcache -> E -> option (M * bcache * Z * list ocall);
  am_set_get : forall o t, em_table (am_set_table o t) = t;
  am_set_uuid : forall o t, cm_uuid (am_set_table o t) = cm_uuid o;
  (* storing an object and giving it back keep its attributes *)
  am_store_table : forall o b e o' b' ret t u, em_store o b e = Some (o', b', ret, t) -> at_lookup (em_table o') u = at_lookup (em_table o) u;
  am_put_table : forall o b r o' b' t, em_put o b r = (o', b', t) -> em_table o' = em_table o
}.

(** The enclave with its runtime. *)
Record admin (M : Type) := mk_admin { ad_enclave : enclave M; ad_runtime : runtime }.
Arguments mk_admin {M}.
Arguments ad_enclave {M}.
Arguments ad_runtime {M}.

Section calls.
Context `{BlockCipher} `{KeyWrapCipher} `{PubkeyHash}.
Context {M E : Type} {CM : CachedMetadata M} {PM : PathMetadata M} {EM : EcallMetadata M E} {AM : AttributeMetadata M E} `{LuaNumber}.
Variables (root_uuid : uuid) (env : uuid -> nat -> walk_env).
Variables (volumekey : bytes) (super : nexus_supernode).
Implicit Types (s : admin M) (e : ecall_env E) (q : acq_env) (m : Z).

Definition on_enclave {A} s (x : outcome (enclave M * A)) : outcome (admin M * A) := '(en, a) <- x;; Done (mk_admin en (ad_runtime s), a).

(** A call of the runtime works on the buffers of the file system. *)
Definition enclave_bufs s : bcache := v_bufs (fs_vfs (en_fs (ad_enclave s))).
Definition set_bufs (en : enclave M) (b : bcache) (t : list ocall) : enclave M :=
  let f := en_fs en in let v := fs_vfs f in
  with_fs en (PathWalk.mk_fs (mk_vfs (v_cache v) (v_objects v) (v_next v) b) (fs_dc f) (fs_tick f) (fs_log f ++ t)).
Definition on_runtime {A} s (call : runtime -> option (runtime * A)) : option (admin M * A) :=
  let r := ad_runtime s in
  '(r', a) ← call (Runtime.with_bufs r (enclave_bufs s) []);
  Some (mk_admin (set_bufs (ad_enclave s) (rt_bufs r') (drop (length (rt_log r)) (rt_log r'))) r', a).

Definition acquire_space s q : option (admin M * option (attribute_space * Z)) := on_runtime s (fun r => acquired_space volumekey super r q).

(** The attribute table of a dirnode or a filenode. *)
Definition object_table (o : M) : option attribute_table :=
  match pm_dirnode o, em_filenode o with None, None => None | _, _ => Some (em_table o) end.
Definition set_table s m (o : M) (t : attribute_table) : admin M :=
  mk_admin (with_fs (ad_enclave s) (set_object (en_fs (ad_enclave s)) m (am_set_table o t))) (ad_runtime s).

(** The common part: the schema of an object attribute, and [change] on the
    table; a deletion that fails leaves the table as it is. *)
Definition change_table s q m (name : bytes) (change : attribute_table -> uuid -> attribute_table * Z) : option (admin M * Z) :=
  '(s, sp) ← acquire_space s q;
  match sp with
  | None => Some (s, -1)
  | Some (sp, _) =>
      match attribute_space_find_name sp name with
      | None => Some (s, -1)
      | Some sch =>
          if negb (as_type sch =? OBJECT_ATTRIBUTE_TYPE) then Some (s, -1)
          else
            o ← object_at (ad_enclave s) m;
            match object_table o with
            | None => Some (s, -1)
            | Some t => let '(t, ret) := change t (as_uuid sch) in if negb (ret =? 0) then Some (s, -1) else Some (set_table s m o t, 0)
            end
      end
  end.

Definition do_object_attribute_grant s q m (name value : bytes) : option (admin M * Z) :=
  change_table s q m name (fun t u => (attribute_table_add t u value, 0)).
Definition do_object_attribute_revoke s q m (name : bytes) : option (admin M * Z) :=
  change_table s q m name (fun t u => attribute_table_del t u).

(** Store the object and give it back. *)
Definition store_and_return s e m : outcome (admin M * Z) :=
  '(s, ret) <- on_enclave s (lift (metadata_store (ad_enclave s) e m));;
  on_enclave s (put_and_return (ad_enclave s) e m (if negb (ret =? 0) then -1 else 0)).

Definition ecall_abac_object_attribute_grant s e q (path name value : bytes) : outcome (admin M * Z) :=
  '(s, r) <- on_enclave s (vfs_get root_uuid env (ad_enclave s) e path NEXUS_FRDWR);;
  match r with
  | None => Done (s, -1)
  | Some m =>
      '(s, ret) <- lift (do_object_attribute_grant s q m name value);;
      if negb (ret =? 0) then on_enclave s (put_and_return (ad_enclave s) e m (-1)) else store_and_return s e m
  end.

Definition ecall_abac_object_attribute_revoke s e q (path name : bytes) : outcome (admin M * Z) :=
  '(s, r) <- on_enclave s (vfs_get root_uuid env (ad_enclave s) e path NEXUS_FRDWR);;
  match r with
  | None => Done (s, -1)
  | Some m =>
      '(s, ret) <- lift (do_object_attribute_revoke s q m name);;
      if negb (ret =? 0) then on_enclave s (put_and_return (ad_enclave s) e m (-1)) else store_and_return s e m
  end.

(** The pairs, [result_count] and [total_count]; [None] is -1. *)
Definition do_object_attribute_ls s q m (capacity : Z) (offset : nat) : option (admin M * option (list (bytes * bytes) * Z * Z)) :=
  '(s, sp) ← acquire_space s q;
  match sp with
  | None => Some (s, None)
  | Some (sp, _) =>
      o ← object_at (ad_enclave s) m;
      match object_table o with
      | None => Some (s, None)
      | Some t => r ← UNSAFE_attribute_table_ls t sp capacity offset; Some (s, Some r)
      end
  end.

(** Return code, pairs, [*total_count_out] and [*result_count_out]: the two
    counts are passed the wrong way round. *)
Definition ecall_abac_object_attribute_ls s e q (path : bytes) (capacity : Z) (offset : nat)
    : outcome (admin M * (Z * option (list (bytes * bytes) * Z * Z))) :=
  '(s, r) <- on_enclave s (vfs_get root_uuid env (ad_enclave s) e path NEXUS_FREAD);;
  match r with
  | None => Done (s, (-1, None))
  | Some m =>
      '(s, r) <- lift (do_object_attribute_ls s q m capacity offset);;
      match r with
      | None => on_enclave s (put_and_return (ad_enclave s) e m (-1, None))
      | Some (pairs, result_count, total_count) =>
          '(s, ret) <- store_and_return s e m;;
          Done (s, (ret, Some (pairs, result_count, total_count)))
      end
  end.

(** ** Audit logs (metadata.c) *)
Definition audit_ops : MetadataOps audit_log :=
  {| obj_type := NEXUS_AUDIT_LOG; obj_create := fun _ u => audit_log_create u;
     obj_load := fun vk c _ => audit_log_from_crypto_buf vk c;
     obj_store := fun vk a version b p => '(a, b, ret, t, _) ← audit_log_store vk a version b p; Some (a, b, ret, t) |}.

(** The lock of the new log, its flush, and the replies to the sync. *)
Record audit_env := mk_audit_env { ae_lock : reply; ae_put : put_env; ae_sync : E }.

(** [u] is the UUID that was drawn.  Creating an object that cannot be locked
    gives NULL, which is stored: a memory error. *)
Definition metadata_create_audit_log (o : M) (b : bcache) (u : uuid) (a : audit_env) : option (M * bcache * Z * list ocall) :=
  match object_table o with
  | None => Some (o, b, -1, [])
  | Some t =>
      if attribute_table_has_audit_log t then Some (o, b, 0, [])
      else
        let '(b, l, t1) := nexus_metadata_create (MO := audit_ops) (sn_root_uuid super) b u (ae_lock a) in
        l ← l;
        '(_, b, ret, t2) ← nexus_metadata_store (MO := audit_ops) volumekey l b (ae_put a);
        if negb (ret =? 0) then Some (o, b, -1, t1 ++ t2)
        else
          '(o, b, ret, t3) ← am_sync (am_set_table o (attribute_table_set_audit_log t u)) b (ae_sync a);
          Some (o, b, if ret =? 0 then 0 else -1, t1 ++ t2 ++ t3)
  end.

(** ** Properties *)
Definition table_of (en : enclave M) m : option attribute_table := em_table <$> object_at en m.

Lemma runtime_objects {A} s (call : runtime -> option (runtime * A)) s' a m :
  on_runtime s call = Some (s', a) -> object_at (ad_enclave s') m = object_at (ad_enclave s) m.
Proof. unfold on_runtime. intros Hc. apply bind_Some in Hc as ([r x] & _ & Hc). by simplify_eq. Qed.

(** Giving an object back keeps every attribute table. *)
Lemma put_tables s e m (x : Z) o :
  object_at (ad_enclave s) m = Some o ->
  exists s', on_enclave s (put_and_return (ad_enclave s) e m x) = Done (s', x) /\ forall m', table_of (ad_enclave s') m' = table_of (ad_enclave s) m'.
Proof.
  intros Ho. unfold put_and_return. assert (Hp : is_Some (vfs_put (ad_enclave s) e m)) by (unfold vfs_put; rewrite Ho; cbn [mbind option_bind]; destruct (em_put _ _ _) as [[? ?] ?]; eauto).
  destruct Hp as [en Hp]. rewrite Hp. cbn [lift obind on_enclave]. eexists. split; [done|]. cbn [ad_enclave]. apply put_result in Hp as (o' & Ho' & Hm & Hne).
  intros m'. unfold table_of. destruct (decide (m' = m)) as [->|Hd]; [|by rewrite Hne]. rewrite Hm, Ho'. cbn. destruct (em_put _ _ _) as [[o2 b2] t2] eqn:He. cbn. by rewrite (am_put_table _ _ _ _ _ _ He).
Qed.

(** Storing it and giving it back keeps every attribute. *)
Definition same_attributes (t t' : option attribute_table) : Prop := forall u, t ≫= (fun t => attribute_table_find t u) = t' ≫= (fun t => attribute_table_find t u).

Lemma store_tables s e m o :
  object_at (ad_enclave s) m = Some o -> (forall o b, is_Some (em_store o b (ee_store e))) ->
  exists s' ret, store_and_return s e m = Done (s', ret) /\ (ret = 0 \/ ret = -1) /\
    forall m', same_attributes (table_of (ad_enclave s') m') (table_of (ad_enclave s) m').
Proof.
  intros Ho Hst. unfold store_and_return, metadata_store. rewrite Ho. cbn [mbind option_bind].
  destruct (Hst o (v_bufs (fs_vfs (en_fs (ad_enclave s))))) as [[[[o1 b1] ret] t1] Hs]. rewrite Hs. cbn [mbind option_bind lift obind on_enclave].
  set (s1 := mk_admin (update_object (ad_enclave s) m o1 b1 t1) (ad_runtime s)).
  destruct (put_tables s1 e m (if negb (ret =? 0) then -1 else 0) o1) as (s' & Hp & Ht); [apply lookup_insert_eq|]. change (update_object (ad_enclave s) m o1 b1 t1) with (ad_enclave s1). rewrite Hp.
  eexists s', _. split; [done|]. split; [destruct (negb _); auto|]. intros m'. rewrite Ht. unfold table_of. intros u. destruct (decide (m' = m)) as [->|Hd].
  - unfold s1. cbn [ad_enclave]. unfold object_at at 1. cbn. rewrite lookup_insert_eq. rewrite Ho. cbn. unfold attribute_table_find. by rewrite (am_store_table _ _ _ _ _ _ _ _ Hs).
  - unfold s1. cbn [ad_enclave]. unfold object_at at 1. cbn. by rewrite lookup_insert_ne.
Qed.

(** C22: Granting an attribute to the file or directory at a path.  When the
    attribute space in force declares the name as an attribute of objects, the
    call gives the object exactly that value (over the tail of a longer old
    value), leaves its other attributes and all other objects alone, and
    returns what storing the object returned.  Any other name (unknown, or an
    attribute of users) is refused with -1, and no attribute of any object
    changes. *)
Theorem object_grant_correct s e q path name value s1 m s2 sp v o t g :
  on_enclave s (vfs_get root_uuid env (ad_enclave s) e path NEXUS_FRDWR) = Done (s1, Some m) -> acquire_space s1 q = Some (s2, Some (sp, v)) ->
  object_at (ad_enclave s2) m = Some o -> object_table o = Some t -> sp_inv sp -> at_inv t g -> at_clean t g -> Z.of_nat (size g) < 2 ^ 29 ->
  cstr_ok name -> cstr_ok value -> (length value < VALUE_LEN)%nat -> (forall o b, is_Some (em_store o b (ee_store e))) ->
  exists s' ret, ecall_abac_object_attribute_grant s e q path name value = Done (s', ret) /\
    match attribute_space_find_name sp name with
    | Some sch =>
        if as_type sch =? OBJECT_ATTRIBUTE_TYPE then
          (ret = 0 \/ ret = -1) /\ (forall m', m' <> m -> same_attributes (table_of (ad_enclave s') m') (table_of (ad_enclave s1) m')) /\
          forall u, uuid_ok u -> (table_of (ad_enclave s') m ≫= fun t => attribute_table_find t u) =
            if decide (u = as_uuid sch) then Some (added (attribute_table_find t u) value) else attribute_table_find t u
        else ret = -1 /\ forall m', table_of (ad_enclave s') m' = table_of (ad_enclave s1) m'
    | None => ret = -1 /\ forall m', table_of (ad_enclave s') m' = table_of (ad_enclave s1) m'
    end.
Proof.
  intros Hget Hsp Ho Ht Hin Hi Hcl Hsz Hn Hv Hl Hst. unfold ecall_abac_object_attribute_grant. rewrite Hget. cbn [obind]. unfold do_object_attribute_grant, change_table. rewrite Hsp. cbn [mbind option_bind].
  assert (Hfr : forall m', object_at (ad_enclave s2) m' = object_at (ad_enclave s1) m') by (intros m'; exact (runtime_objects _ _ _ _ _ Hsp)).
  assert (Hrefuse : exists s' ret, on_enclave s2 (put_and_return (ad_enclave s2) e m (-1)) = Done (s', ret) /\ ret = -1 /\ forall m', table_of (ad_enclave s') m' = table_of (ad_enclave s1) m').
  { destruct (put_tables s2 e m (-1) o Ho) as (s' & Hp & Htab). exists s', (-1). split; [done|]. split; [done|]. intros m'. rewrite Htab. unfold table_of. by rewrite Hfr. }
  destruct (attribute_space_find_name sp name) as [sch|] eqn:Hf; [|exact Hrefuse].
  destruct (as_type sch =? OBJECT_ATTRIBUTE_TYPE); cbn [negb]; [|exact Hrefuse]. rewrite Ho. cbn [mbind option_bind]. rewrite Ht. cbn [negb Z.eqb lift obind].
  set (s3 := set_table s2 m o (attribute_table_add t (as_uuid sch) value)).
  assert (Hobj : forall m', object_at (ad_enclave s3) m' = if decide (m' = m) then Some (am_set_table o (attribute_table_add t (as_uuid sch) value)) else object_at (ad_enclave s1) m').
  { intros m'. rewrite <- Hfr. unfold s3, object_at. cbn. destruct (decide (m' = m)) as [->|Hd]; [apply lookup_insert_eq|by apply lookup_insert_ne]. }
  destruct (store_tables s3 e m (am_set_table o (attribute_table_add t (as_uuid sch) value))) as (s' & ret & -> & Hret & Htab); [by rewrite Hobj, decide_True by done|done|].
  exists s', ret. split; [done|]. split; [done|]. split.
  - intros m' Hd u. rewrite (Htab m' u). unfold table_of. by rewrite Hobj, decide_False by done.
  - intros u Hu. rewrite (Htab m u). unfold table_of. rewrite Hobj, decide_True by done. cbn [fmap option_fmap option_map mbind option_bind]. rewrite am_set_get.
    destruct (find_name_ok _ _ _ Hin Hn Hf) as [Hus _]. rewrite (table_add_spec t g _ value Hi Hcl Hus Hsz Hv Hl u Hu). by destruct (decide (u = as_uuid sch)) as [->|].
Qed.

(** The grant is made whatever the policies and attributes of the user are. *)
Theorem object_grant_ignores_policies s e q b r path name value :
  ecall_abac_object_attribute_grant (mk_admin (with_bouncer (ad_enclave s) b) (ad_runtime s)) (with_req e r) q path name value =
    ('(s', ret) <- ecall_abac_object_attribute_grant s e q path name value;; Done (mk_admin (with_bouncer (ad_enclave s') b) (ad_runtime s'), ret)).
Proof.
  unfold ecall_abac_object_attribute_grant. cbn [ad_enclave ad_runtime]. rewrite vfs_get_blind. destruct (vfs_get _ _ _ _ _ _) as [[en [m|]]| |]; cbn [on_enclave omap_state obind ad_runtime ad_enclave]; [|done..].
  unfold do_object_attribute_grant, change_table, acquire_space, on_runtime. cbn [ad_runtime ad_enclave]. unfold enclave_bufs. cbn [ad_enclave en_fs with_bouncer].
  destruct (acquired_space _ _ _ _) as [[rt sp]|]; cbn [mbind option_bind lift obind]; [|done]. set (en2 := set_bufs en _ _).
  change (set_bufs (with_bouncer en b) _ _) with (with_bouncer en2 b).
  assert (Hput : forall x : Z, on_enclave (mk_admin (with_bouncer en2 b) rt) (put_and_return (with_bouncer en2 b) (with_req e r) m x) =
    ('(s', ret) <- on_enclave (mk_admin en2 rt) (put_and_return en2 e m x);; Done (mk_admin (with_bouncer (ad_enclave s') b) (ad_runtime s'), ret))).
  { intros x. rewrite vfs_put_blind. by destruct (put_and_return en2 e m x) as [[en3 y]| |]. }
  destruct sp as [[sp v]|]; cbn [lift obind negb Z.eqb]; [|exact (Hput (-1))]. destruct (attribute_space_find_name sp name) as [sch|]; [|exact (Hput (-1))].
  destruct (negb (as_type sch =? OBJECT_ATTRIBUTE_TYPE)); [exact (Hput (-1))|].
  cbn [ad_enclave ad_runtime]. change (object_at (with_bouncer en2 b) m) with (object_at en2 m). destruct (object_at en2 m) as [o|]; [|done]. cbn [mbind option_bind]. destruct (object_table o) as [t|]; [|exact (Hput (-1))]. cbn [negb Z.eqb lift obind].
  unfold store_and_return. cbn [ad_enclave ad_runtime set_table]. set (en3 := with_fs en2 _). change (with_fs (with_bouncer en2 b) _) with (with_bouncer en3 b). rewrite store_blind.
  destruct (lift (metadata_store en3 e m)) as [[en4 ret]| |]; cbn [omap_state on_enclave obind ad_enclave ad_runtime]; [|done..].
  rewrite vfs_put_blind. by destruct (put_and_return en4 e m _) as [[en5 y]| |].
Qed.
End calls.

(** ** A concrete volume *)
(** The objects of [PathProps.v] with an attribute table each. *)
Definition attr_md : Type := vol_md * attribute_table.

#[export] Instance attr_cached : CachedMetadata attr_md.
Proof. refine {| cm_uuid := fun m => vm_uuid m.1; cm_revalidate := fun m b _ _ _ => Some (m, b, false, 0, []) |}. intros. by simplify_eq. Defined.

#[export] Instance attr_path : PathMetadata attr_md.
Proof.
  refine {| pm_dirnode := fun m => vm_dir m.1;
    pm_set_dirnode := fun m d => (pm_set_dirnode m.1 d, m.2);
    pm_ref := fun m => (pm_ref m.1, m.2);
    pm_load := fun _ b u _ _ => Some (b, Some (mk_vol u (vol_store u) (vol_file u) 0, one_attr), []) |}.
  - done.
  - intros m d0 h d Hm. cbn. by rewrite Hm.
  - done.
  - done.
  - intros. by simplify_eq.
Defined.

#[export] Instance attr_ecall : EcallMetadata attr_md unit.
Proof.
  refine {| em_version := fun _ => 1; em_table := fun m => m.2;
    em_set_dir := fun m d h => (em_set_dir m.1 d h, m.2);
    em_filenode := fun m => vm_file m.1;
    em_set_filenode := fun m f => (em_set_filenode m.1 f, m.2);
    em_store := fun m b _ => Some (m, b, 0, []);
    em_put := fun m b r => let '(o, b, t) := em_put m.1 b r in ((o, m.2), b, t) |}.
  all: try done.
  all: try (intros; by simplify_eq/=).
  - intros o b e o' b' ret t d h v Hs Hd Hr. simplify_eq. by exists d, h.
  - intros o b e o' b' ret t f Hs Hf. simplify_eq. by exists f.
Defined.

#[export] Instance attr_attributes : AttributeMetadata attr_md unit.
Proof.
  refine {| am_set_table := fun m t => (m.1, t); am_sync := fun m b _ => Some (m, b, 0, []) |}.
  - done.
  - done.
  - intros. by simplify_eq/=.
  - intros. by simplify_eq/=.
Defined.

Section witnesses.
Local Existing Instance int_number.

Definition level_ops : list space_op := [SpAdd (str "role") USER_ATTRIBUTE_TYPE (uuid_const 3); SpAdd (str "level") OBJECT_ATTRIBUTE_TYPE (uuid_const 4)].
Definition level_space : attribute_space := (space_run space_step (attribute_space_create (uuid_const 1) (uuid_const 2)) level_ops).1.
Definition level_data : bytes :=
  default [] ((fun r => sent r.2) <$> attribute_space_store (H := toy_cipher) (H0 := toy_wrap) [] level_space 4 (held_cache (uuid_const 2) 1) (toy_env reply_ok)).

Definition attr_start : admin attr_md :=
  mk_admin (mk_enclave (fs_start (uuid_const 1) buffer_layer_init) started (hardlink_table_create (uuid_const 1) (uuid_const 9)) toy_xfers []) admin_start.
Definition attr_ee : ecall_env unit := vol_ee owner_env (uuid_const 30).
Definition file_path : bytes := [47; 100; 47; 97].

Definition attr_1 : admin attr_md :=
  match on_enclave attr_start (vfs_get (uuid_const 1) vol_env (ad_enclave attr_start) attr_ee file_path NEXUS_FRDWR) with Done (s, _) => s | _ => attr_start end.
Definition attr_m : Z :=
  match on_enclave attr_start (vfs_get (uuid_const 1) vol_env (ad_enclave attr_start) attr_ee file_path NEXUS_FRDWR) with Done (_, Some m) => m | _ => 0 end.
Definition attr_2 : admin attr_md * option (attribute_space * Z) :=
  default (attr_start, None) (acquire_space (H := toy_cipher) (H0 := toy_wrap) [] admin_super attr_1 (answering level_data)).
Definition attr_space : attribute_space := default level_space (fst <$> attr_2.2).

Lemma level_ops_ok : space_ops_ok [] level_ops.
Proof.
  assert (Hs : forall z, byte_ok z -> uuid_ok (uuid_const z)) by apply uuid_const_ok. unfold byte_ok in Hs.
  repeat (split; [repeat split; try (apply Hs; lia); try (by vm_compute); try (by repeat constructor); by (vm_compute; set_solver)|]). done.
Qed.

Lemma attr_space_inv : sp_inv attr_space.
Proof.
  destruct (attribute_space_store_load (H := toy_cipher) (H0 := toy_wrap) [] level_space 4 (held_cache (uuid_const 2) 1) (toy_env reply_ok) [])
    as (sp' & b' & data & m & Hst & _ & _ & _ & _ & Hload).
  1: { pose proof (space_run_refines level_ops _ (create_inv (uuid_const 1) (uuid_const 2)) level_ops_ok ltac:(by vm_compute)) as [Hi _].
       split; [exact Hi|]. split_and!; by vm_compute. }
  1: apply held_one_writer.
  1: by vm_compute.
  1, 2: apply toy_draw_ok; unfold byte_ok; lia.
  1: done.
  destruct (Hload empty_ctx) as (sp2 & Hl & [Hi _] & _).
  assert (Hd : data = level_data) by (unfold level_data; rewrite Hst; done). rewrite Hd in Hl.
  assert (Hg : attribute_space_from_crypto_buf (H := toy_cipher) (H0 := toy_wrap) []
    (mk_cbuf empty_ctx (external_version level_data) 0 (sp_my_uuid level_space) (Some (ExtStore level_data)) None) = Some (Some attr_space)) by (vm_compute; reflexivity).
  rewrite Hg in Hl. apply (inj Some) in Hl. apply (inj Some) in Hl. by rewrite Hl.
Qed.

Lemma attr_get : on_enclave attr_start (vfs_get (uuid_const 1) vol_env (ad_enclave attr_start) attr_ee file_path NEXUS_FRDWR) = Done (attr_1, Some attr_m).
Proof.
  assert (Hb : match on_enclave attr_start (vfs_get (uuid_const 1) vol_env (ad_enclave attr_start) attr_ee file_path NEXUS_FRDWR) with Done (_, Some _) => true | _ => false end = true) by (vm_compute; reflexivity).
  unfold attr_1, attr_m. by destruct (on_enclave attr_start _) as [[s [m|]]| |].
Qed.
Lemma attr_acquired : acquire_space (H := toy_cipher) (H0 := toy_wrap) [] admin_super attr_1 (answering level_data) = Some (attr_2.1, Some (attr_space, 5)).
Proof.
  assert (Hb : match acquire_space (H := toy_cipher) (H0 := toy_wrap) [] admin_super attr_1 (answering level_data) with Some (_, Some (_, v)) => v =? 5 | _ => false end = true) by (vm_compute; reflexivity).
  unfold attr_space, attr_2. destruct (acquire_space _ _ _ _) as [[s [[sp v]|]]|]; [|done..]. apply Z.eqb_eq in Hb as ->. done.
Qed.
Lemma attr_held : exists o, object_at (ad_enclave attr_2.1) attr_m = Some o /\ object_table o = Some one_attr.
Proof.
  assert (Ht : (object_at (ad_enclave attr_2.1) attr_m ≫= object_table) = Some one_attr) by (vm_compute; reflexivity). by apply bind_Some in Ht.
Qed.
Lemma attr_granted :
  match ecall_abac_object_attribute_grant (H := toy_cipher) (H0 := toy_wrap) (uuid_const 1) vol_env [] admin_super
          attr_start attr_ee (answering level_data) file_path (str "level") (str "high") with Done (_, r) => r | _ => 1 end = 0.
Proof. vm_compute. reflexivity. Qed.

(** The file gets a level and keeps its other attribute; a role, an attribute
    of users, is refused. *)
Lemma object_grant_correct_witness :
  (exists s', ecall_abac_object_attribute_grant (H := toy_cipher) (H0 := toy_wrap) (uuid_const 1) vol_env [] admin_super
      attr_start attr_ee (answering level_data) file_path (str "level") (str "high") = Done (s', 0) /\
    (table_of (ad_enclave s') attr_m ≫= fun t => attribute_table_find t (uuid_const 4)) = Some (str "high") /\
    (table_of (ad_enclave s') attr_m ≫= fun t => attribute_table_find t attr_a) = Some [97; 98; 99]) /\
  exists s', ecall_abac_object_attribute_grant (H := toy_cipher) (H0 := toy_wrap) (uuid_const 1) vol_env [] admin_super
      attr_start attr_ee (answering level_data) file_path (str "role") (str "high") = Done (s', -1).
Proof.
  destruct attr_held as (o & Ho & Ht).
  assert (Hv : cstr_ok (str "high")) by (by repeat constructor). assert (Hl : (length (str "high") < VALUE_LEN)%nat) by (apply Nat.ltb_lt; by vm_compute).
  assert (Hsz : Z.of_nat (size one_attr_map) < 2 ^ 29) by (by vm_compute).
  assert (Hst : forall (o' : attr_md) b, is_Some (em_store o' b (ee_store attr_ee))) by (intros o' b; eexists; reflexivity).
  pose proof (fun name Hn => object_grant_correct (H := toy_cipher) (H0 := toy_wrap) (uuid_const 1) vol_env [] admin_super attr_start attr_ee (answering level_data) file_path name (str "high")
    attr_1 attr_m attr_2.1 attr_space 5 o one_attr one_attr_map attr_get attr_acquired Ho Ht attr_space_inv one_attr_inv one_attr_clean Hsz Hn Hv Hl Hst) as Hall.
  split.
  - destruct (Hall (str "level")) as (s' & ret & Hr & Hres); [by repeat constructor|]. cbv beta in Hres.
    assert (Hf : attribute_space_find_name attr_space (str "level") = Some (mk_schema OBJECT_ATTRIBUTE_TYPE (strncpy_field ATTRIBUTE_NAME_MAX (str "level")) (uuid_const 4))) by (vm_compute; reflexivity).
    rewrite Hf in Hres. cbn [as_type as_uuid] in Hres. rewrite Z.eqb_refl in Hres. destruct Hres as (_ & _ & Hu).
    exists s'. split; [|split].
    + pose proof attr_granted as H0. rewrite Hr in H0. rewrite Hr. by rewrite H0.
    + rewrite (Hu (uuid_const 4)); [by vm_compute|apply uuid_const_ok; unfold byte_ok; lia].
    + rewrite (Hu attr_a); [by vm_compute|apply attr_a_ok].
  - destruct (Hall (str "role")) as (s' & ret & Hr & Hres); [by repeat constructor|]. cbv beta in Hres.
    assert (Hf : attribute_space_find_name attr_space (str "role") = Some (mk_schema USER_ATTRIBUTE_TYPE (strncpy_field ATTRIBUTE_NAME_MAX (str "role")) (uuid_const 3))) by (vm_compute; reflexivity).
    rewrite Hf in Hres. change (as_type _ =? OBJECT_ATTRIBUTE_TYPE) with false in Hres. destruct Hres as [-> _]. by exists s'.
Defined.
End witnesses.
